(* ===== verification/_CoqProject ===== *)
-Q . S2P
Prelude.v
PyText.v
Float64.v
Tools.v
Domain.v
Policy.v
World.v
Evidence.v
Wrappers.v
ToolCalls.v
Models.v
Prompts.v
Sqlite.v
CostLedger.v
LiveModel.v
GraphState.v
GraphNodes.v
GraphStages.v
GraphRun.v
GraphInvariant.v
GraphProps.v
Report.v
GraphResume.v
GraphModes.v
Approvals.v
ControlPlane.v
Workers.v
Lab.v
LabProps.v
Site.v
SiteProps.v
JobRunner.v
JobProps.v
JobLiveness.v
PlaneOrder.v
FirestorePlane.v
Lifecycle.v
FirestoreSteps.v
FirestoreProps.v
SqlitePlane.v
PlaneMatch.v
PlanesAgree.v
PlaneOwners.v
PlaneWorkers.v
PlaneClaims.v
WorkerProps.v
Api.v
ApiProps.v
PlaneDurable.v
PlaneRefinement.v
Numbers.v
Evaluation.v
LiveSetup.v
CandidateEvaluation.v
EvaluateBatch.v
EvaluationProps.v
BatchProps.v
JsonText.v
JsonRoundTrip.v
McpManifest.v
McpStdio.v
DispatchJson.v
McpServer.v
McpChild.v
McpServerProps.v
McpPipe.v
McpProps.v
IsoTime.v
Telemetry.v
TelemetryProps.v
Prometheus.v
Runbooks.v
Checkpointer.v
CheckpointerProps.v
Replay.v
Samples.v
Witnesses.v
PlaneWitnesses.v
MachineWitnesses.v
Divergences.v
