(* ===== verification/Prelude.v ===== *)
(** * CausalOps: a verified model of the incident investigator

    CausalOps (src/src/causalops/) investigates one incident.  A language model
    proposes read-only checks; the program decides which of them run, runs them
    against the incident's telemetry, shows the model bounded evidence, asks for a
    final assessment, waits for the owner when the assessment calls for it, and
    writes a report.  The model is not trusted: what it may cause, what it may
    claim and what it may cost are bounded by the program, and those bounds are
    what this library proves.

    ** The program's parts, and the files that model them

    Values and effects:
    - PyText: Python text and JSON, the parts of [str], [json] and [datetime] used.
    - Float64: Python floats (binary64, every operation rounds), and [sum], which
      compensates.  Money and durations are floats in the program and here.
    - World: clocks, fresh identifiers, the count of model calls and the log of
      backend calls, threaded as state; and the recorder of a run's events
      (run_records.py).
    - Sqlite: a connection with its open transaction; any statement may fail.
    - Numbers: [float(text)], exact comparisons of numbers, [==] on JSON, [.4f].
    - JsonText, JsonRoundTrip: [json.loads], and that it reads back what [json.dumps]
      writes, in either key order.

    The contracts and the trust boundary:
    - Domain (domain.py): enumerations, records and their validators.
    - Tools (tools.py), ToolCalls (tool_calls.py), Models (models.py): from what a
      provider sends, as JSON, to a typed proposal or a message that says why not.
    - Policy (policy.py): [authorize], the one decision on a proposal.
    - Wrappers (tool_wrappers.py): the reservation ledger and [dispatch], the only
      path from a proposal to a backend.
    - Evidence (evidence.py), Prompts (prompts.py): what the model is shown.

    The investigation (graph.py):
    - GraphState: the checkpointed state, what is rebuilt from it, the report.
    - GraphNodes: the six nodes (INVESTIGATE, DISPATCH_TOOL, NORMALIZE_EVIDENCE,
      FINAL_ASSESSMENT, ESCALATION_INTERRUPT, FINAL_REPORT) and the three routers.
    - GraphRun: [build_graph], supersteps, and the entry points that run, recover
      and resume an investigation, with crash containment.
    - GraphStages, GraphInvariant: what a model stage charges; the invariant of
      every checkpoint, and that each superstep keeps it and makes progress.
    - GraphProps, GraphResume, GraphModes: theorems on whole runs.
    - Report (report.py): the Markdown of a finished run, line by line.

    Money:
    - CostLedger (pricing.py, cost_ledger.py): prices, reservations under a ceiling and
      their settlement, as transactions.
    - LiveModel (live_model.py): the gate around every paid request, and the reading of
      the provider's message.
    - LiveSetup (live_model.py, live_setup.py, model_profiles.py): that what was read fits
      the graph's nodes; what the environment permits, the ceiling, and the cheapest and
      dearest reservation.

    The program's own backends, models and checkpoints:
    - IsoTime: [datetime.fromisoformat] and the comparison of what it gives.
    - Telemetry (telemetry.py): the logs, changes and topology checks over a run's files;
      TelemetryProps: their bounds and what they show.
    - Prometheus (prometheus.py): the query, its aligned grid, the answer's samples, the check.
    - Runbooks (runbooks.py, pinecone_runbooks.py, live_setup.py's [_build_tool_registry]):
      both searches and the registry over all five backends.
    - Replay (models.py, ollama_model.py, live_setup.py): the scripted models and how a
      script is filled in, the private VM's model, and the wirings of a model and a registry.
    - Checkpointer (firestore_checkpointer.py): the checkpoint saver over Firestore
      requests; CheckpointerProps: its theorems.

    The observability server (the checks run in a child process, over a pipe):
    - McpManifest (mcp_manifest.py): the pinned tools and the comparison of discovery.
    - McpStdio (mcp_stdio.py): lines, the client's session, the server's handler.
    - DispatchJson (domain.py, tool_wrappers.py): a dispatch's result as JSON text.
    - McpServer (mcp_policy_adapter.py, mcp_server_main.py): the executor over the policy
      wrappers, the approval, the loop over standard input.
    - McpChild (mcp_child_process.py, mcp_client_registry.py): the supervised child and
      the checks forwarded to it.
    - McpServerProps, McpPipe, McpProps: theorems on either end and on both.

    The owner:
    - Approvals (approvals.py, and cli.py's [run_decision_command]): the durable
      decision and the command that applies it.

    The lab and the worker's machine:
    - Lab, LabProps (scenario_control.py): scenarios, the active marker, the run tree.
    - Site, SiteProps (run_records.py, gcs_artifacts.py, api_runtime.py's report
      sender): finished results, the bucket, delivered reports.
    - JobRunner, JobProps, JobLiveness (api_runtime.py): what a hosted worker does with a
      claimed job, beside any control plane.

    Evaluation:
    - Evaluation (evaluation.py): the scores of a run and the figures of a batch.
    - CandidateEvaluation (candidate_evaluation.py): the gates of a candidate model.
    - EvaluateBatch (evaluate_cli.py): the paired batch over the real graph, on a machine
      that may fail; EvaluationProps, BatchProps: its theorems.

    The hosted control plane (api.py, api_runtime.py, firestore_control_plane.py):
    - ControlPlane: what both planes store and hand out, the changes of a job and of a
      delivery, and class [ControlPlane], the interface their clients use.
    - FirestorePlane: documents written by requests that are served, refused, or
      served with the answer lost.  SqlitePlane: the same operations as transactions
      over tables, with the decision ledger in a second database.
    - Workers: the replay worker, the delivery worker and their polling loop, over any
      plane.  Api (api.py, google_identity.py): the HTTP handlers, over any plane.
    - Lifecycle, FirestoreSteps, FirestoreProps: a hosted investigation as a state
      machine, its invariant, and that operations do nothing but its steps.
    - PlaneOrder, PlaneMatch, PlanesAgree, PlaneOwners, PlaneWorkers, PlaneClaims,
      PlaneRefinement: the simulation of the Firestore plane by the SQLite plane, an
      operation at a time, and the repair of a crash between its two databases.
    - PlaneDurable: the SQLite plane when statements fail.  WorkerProps, ApiProps:
      theorems on the clients.

    Samples instantiates every parameter; Witnesses, PlaneWitnesses and MachineWitnesses
    apply each theorem there; Divergences runs the code where its comments say otherwise.
    Prelude holds the result and state monads, Hoare triples over the state monad
    ([triple]), ordered dictionaries, record updates ([Settable]) and the shared tactics.

    ** How code corresponds to definitions

    A function keeps its name.  A Pydantic model is a record and the function that
    runs its validators (Domain).  A function that raises returns [res]; one that
    also changes shared state is in [ST], where the state survives an exception, so
    a handler sees what the failing code had reached.  Closures that graph.py makes
    per run ([_make_investigate] and its siblings) are definitions over the
    [Investigation] they close over.  Integers are [Z]: Python's do not overflow.
    A string is a list of code points up to 255.  A timestamp is the instant it
    denotes, in microseconds.

    What the program gets from elsewhere is a class or a record of functions, and
    its documented behaviour, where a theorem needs it, a separate law class:
    [Pydantic] and [PydanticRoundTrip] (coercion and dumping), [McpPydantic] and
    [McpPydanticLaws] (schemas, strict mode), [ChildHost] (a child's process and pipe),
    [McpToolExecutor] (what a server hands a call to), [Host] and
    [FreshIds] (digests, uuid4), [Clocks] and [ClockLaws], [ToolCallingModel] (the
    n-th answer of the reasoning model; whatever the models of Replay and LiveModel answer
    in a run is one such),
    [Firestore] and [FirestoreLaws] (the fate of the n-th request; a query gives every
    document once), [PlaneStatements], [PlaneClock], [Artifacts], [Backends], [Provider] (the SDK's n-th answer), [Sqlite] (which statements
    fail), [Machine] (which file operations raise or are the last), [Deployment] and
    [EvaluationHost] (the wiring of tools, the environment, git), [NumberHooks] (the hooks
    given to [json.loads]), [Fts5] and [Fts5Laws] (what a MATCH query answers), [Pinecone]
    (what a semantic search answers), [Saver], [SaverLaws] and [Randoms] (the documents
    under the checkpoint saver, random digits), [LangGraph] and
    [LangGraphLaws] (what [invoke] commits; [drive] is an
    engine that satisfies them).  How an HTTP request to Prometheus ends is an argument,
    [http_get].  Answers are indexed by how many came before, so
    the same question may be answered differently or raise.

    ** What is proved

    - Whole investigations, for every model and every backend (GraphProps): a run
      ends with a report or at the owner's interrupt, and ends the same under any higher
      recursion limit; its calls, checks and searches stay, each, within their budgets;
      only [GraphBubbleUp], from a model or a backend, leaves a run; every citation of
      the reported assessment is evidence of this incident; the report is well
      formed.  GraphModes: the two start options keep their promise.
    - Crashes, recovery and the owner (GraphResume, Approvals): a crash becomes a
      failed-safe report that loses no receipt; any checkpoint can be taken up; a
      decision is stored before the thread moves, once, and is applied exactly as
      it was validated, also by a retry; a malformed one changes nothing.
    - The trust boundary (Policy, Wrappers, ToolCalls): [authorize] is exactly its
      specification, its denials are justified, a dispatch reaches at most one
      backend, inside the incident, and leaves one receipt.
    - Money (CostLedger, LiveModel, LiveSetup): nothing is sent without a fresh
      reservation under the ceiling, no request is paid twice whatever SQLite or
      the provider do, a bill is recorded once.
    - Hosted investigations (FirestoreProps): whatever requests fail, the stored data
      stays well formed, what is settled stays, a lost claim is powerless, a repeated
      creation is the same investigation.  PlaneRefinement: the two planes answer alike
      while nothing fails, in conversations where reports leave in creation order.  PlaneDurable, PlaneRefinement: a failed operation leaves the
      tables as they were, a decision is in the ledger before it is shown, and a crash
      between the two is repaired.
    - Their clients (WorkerProps, ApiProps): while requests are served a worker's turn ends
      without its claim, an expired claim is recovered by the next poll; a request acts only for an owner
      Google vouches for, and shows nothing of others' investigations.
    - The lab and the runner (LabProps, SiteProps, JobProps, JobLiveness): the lab is one
      incident's at a time; results, records and deliveries appear whole or not at all;
      an attempt at a job leaves every other alone; from whatever earlier attempts left, a
      fault-free one returns, and a later one repeats its outcome.
    - Evaluation (EvaluationProps, BatchProps, CandidateEvaluation): a score says what it
      is named for of the run it was given; a summary neither mixes nor drops records;
      paid results survive whatever stops a batch; a promotion is earned.
    - The checks themselves (TelemetryProps, Prometheus, Runbooks): whatever the files hold
      and however the request ends, what a check shows is what it says it shows, within its
      bounds; a dispatched file check or search settles its receipt.
    - Scripts (Replay): filling in a script changes texts and no structure, a stage's
      responses are played in order, and a scripted call is parsed back into its proposal.
    - The checkpoint saver (CheckpointerProps): a put is stored whole and read back, writes
      and deletions may be retried until they return, and versions grow as text.
    - The observability server (McpServerProps, McpPipe, McpProps, McpStdio): whatever it
      is sent, it asks a backend only as its approval, scope and budgets permit; whatever
      it answers, the client sends calls only to the pinned tools; a message crosses the
      pipe unchanged; and a check over the pipe is the check dispatched directly.
    - Data (Evidence, Models, Prompts): quotas, order and byte bounds of the
      context; round trips of what is stored; fencing of untrusted text.

    ** Bounds and fuel

    [GRAPH_RECURSION_LIMIT] is the program's own 25.  Theorems on runs assume
    [limit_covers]: three supersteps a turn and three to finish fit the limit; the
    default budgets need twelve.  The measure behind it is [steps_left]
    (GraphInvariant), so no run stops for lack of fuel.  [trim_to_bytes] recurses
    on the total width of the texts left to shorten, which every pass decreases
    (Evidence, [shrink_text_stops]).  The other recursions are structural.

    A retry's delay is a float: [2 ** (attempt - 1)] is one up to an attempt of 1024,
    so theorems on sweeps and workers bound the configured attempts by 1024 (the
    default is 3).  PlaneRefinement's conversations are [allowed]: decisions
    as the API validates them, one pause per job, and reports that leave in creation
    order, since the planes differ there (Divergences); and their clock is a
    [steady_clock].  A Firestore plane's lock makes an operation atomic:
    operations are sequences, in whatever order the callers come.

    ** What is not modelled

    Sockets and HTTP clients themselves: the requests to Prometheus and to the private VM's
    model server are parameters.  doctor.py and system_probe.py report on the local machine
    and touch no investigation.  The lab's services
    (lab/services) and Docker run apart from the program; a request to the gateway is a
    status.  qwen_evaluate_cli.py and candidate_evaluation_cli.py parse arguments around
    what CandidateEvaluation and Evaluation model; pinecone_reindex_cli.py uploads a file.
    [app()] and the two runtime wirings that open the cost ledger beside a child only
    construct what is modelled apart.  FastAPI's parsing of requests, the dashboard page and
    the JSON schemas sent to the provider are library behaviour or constants.  Not modelled
    of what is: the depth at which [json.loads] gives up on nested values, with a
    [RecursionError] that neither telemetry.py nor runbooks.py catches; a run directory that
    is a link, which [validated_run_paths] also refuses; a thread id that
    Firestore would take for a path; the prose of messages after their codes.  An invocation
    of the graph is one operation of a worker's machine: a process killed inside it leaves
    one of the checkpoints the invocation commits.  Concurrent processes are seen through
    SQLite (a statement may fail, [BEGIN IMMEDIATE] excludes other writers) and through the
    run tree (the scenario lock).  Two processes on one Firestore database, which the
    program does not support, are not modelled. *)
From Stdlib Require Import ZArith Lia.
From stdpp Require Export prelude strings list.
Declare Scope ops_scope.
Delimit Scope ops_scope with ops.
Open Scope ops_scope.

(** * Results and the state-and-exception monad

    A Python call returns or raises.  [result E A] is the outcome of code that
    touches no shared state; [ST S E A] is code that reads and writes a state
    [S].  When it raises, the state it reached is kept: an exception does not
    undo what a Python object already recorded. *)

Inductive result (E A : Type) : Type :=
  | Ok (a : A)
  | Err (e : E).
Arguments Ok {E A} a.
Arguments Err {E A} e.

#[export] Instance result_ret E : MRet (result E) := fun A a => Ok a.
#[export] Instance result_bind E : MBind (result E) := fun A B f m =>
  match m with Ok a => f a | Err e => Err e end.

Definition is_ok {E A} (r : result E A) : bool :=
  match r with Ok _ => true | Err _ => false end.

Definition ST (S E A : Type) : Type := S -> result E A * S.

#[export] Instance ST_ret S E : MRet (ST S E) := fun A a s => (Ok a, s).
#[export] Instance ST_bind S E : MBind (ST S E) := fun A B f m s =>
  match m s with
  | (Ok a, s') => f a s'
  | (Err e, s') => (Err e, s')
  end.

Definition raise {S E A} (e : E) : ST S E A := fun s => (Err e, s).
Definition get_state {S E} : ST S E S := fun s => (Ok s, s).
Definition put_state {S E} (s' : S) : ST S E unit := fun _ => (Ok tt, s').
Definition modify {S E} (f : S -> S) : ST S E unit := fun s => (Ok tt, f s).
Definition lift_result {S E A} (r : result E A) : ST S E A := fun s => (r, s).

(** [try m except h]: the handler runs in the state the failing code reached. *)
Definition try_except {S E A} (m : ST S E A) (h : E -> ST S E A) : ST S E A := fun s =>
  match m s with
  | (Ok a, s') => (Ok a, s')
  | (Err e, s') => h e s'
  end.

(** * Python dictionaries

    A [dict] keeps its keys in insertion order and an assignment to a present
    key keeps the key's place.  The same list of pairs stands for a SQL table
    read back in row order. *)

Section dict.
Context {K V : Type} `{EqDecision K}.

Fixpoint dict_get (k : K) (d : list (K * V)) : option V :=
  match d with
  | [] => None
  | (k', v) :: d' => if decide (k = k') then Some v else dict_get k d'
  end.

Fixpoint dict_set (k : K) (v : V) (d : list (K * V)) : list (K * V) :=
  match d with
  | [] => [(k, v)]
  | (k', v') :: d' =>
      if decide (k = k') then (k, v) :: d' else (k', v') :: dict_set k v d'
  end.

Definition dict_mem (k : K) (d : list (K * V)) : bool :=
  match dict_get k d with Some _ => true | None => false end.
End dict.

Definition dict_keys {K V} (d : list (K * V)) : list K := d.*1.
Definition dict_values {K V} (d : list (K * V)) : list V := d.*2.

(** * Counting: [sum(1 for x in xs if p(x))] *)

Fixpoint count_if {A} (p : A -> bool) (l : list A) : Z :=
  match l with
  | [] => 0
  | x :: l' => Z.b2z (p x) + count_if p l'
  end%Z.

(** * Record fields

    [s <| f := v |>] is a copy of the record [s] with the field [f] set, the
    way [model_copy(update=...)] or a merged node update works.  [Settable R]
    gives the record's constructor applied to its own projections; the setter
    of a field abstracts that projection. *)

Class Settable (R : Type) := rebuild : R -> R.
Class Setter {R T : Type} (proj : R -> T) := set_field : (T -> T) -> R -> R.
Arguments set_field {R T} proj {_} _ _.

Ltac solve_setter :=
  lazymatch goal with
  | |- @Setter ?R ?T ?proj =>
      let inst := constr:(_ : Settable R) in
      let body := eval hnf in inst in
      lazymatch eval pattern proj in body with
      | ?k _ => exact (fun (f : T -> T) => k (fun r => f (proj r)))
      end
  end.
#[export] Hint Extern 1 (Setter _) => solve_setter : typeclass_instances.

Notation "s <| f := v |>" := (set_field f (fun _ => v) s)
  (at level 1, f at level 99, left associativity) : ops_scope.

(** * Tactics *)

(** Splits the hypotheses that come from running monadic code. *)
Ltac invert_result :=
  repeat match goal with
  | H : Ok _ = Ok _ |- _ => injection H as H
  | H : Err _ = Err _ |- _ => injection H as H
  | H : Ok _ = Err _ |- _ => discriminate H
  | H : Err _ = Ok _ |- _ => discriminate H
  | H : (_, _) = (_, _) |- _ => injection H as ? ?
  end; simplify_eq/=.

(** Case analysis on every test the goal or a hypothesis is stuck on. *)
Ltac case_tests := repeat (case_match; simplify_eq/=).

Create HintDb ops.

(** * Lemmas *)

Section monad_lemmas.
Context {S E A B : Type}.

Lemma result_bind_Ok (m : result E A) (f : A -> result E B) b :
  (m ≫= f) = Ok b <-> exists a, m = Ok a /\ f a = Ok b.
Proof.
  unfold mbind, result_bind. destruct m as [a|e]; split.
  - eauto.
  - intros (a' & [= ->] & ?); done.
  - done.
  - intros (a' & [=] & _).
Qed.

Lemma ST_bind_Ok (m : ST S E A) (f : A -> ST S E B) s b s' :
  (m ≫= f) s = (Ok b, s') <->
  exists a s1, m s = (Ok a, s1) /\ f a s1 = (Ok b, s').
Proof.
  unfold mbind, ST_bind. destruct (m s) as [[a|e] s1]; split.
  - eauto.
  - intros (a' & s1' & [= -> ->] & ?); done.
  - done.
  - intros (a' & s1' & [=] & _).
Qed.

Lemma ST_bind_Err (m : ST S E A) (f : A -> ST S E B) s e s' :
  (m ≫= f) s = (Err e, s') <->
  m s = (Err e, s') \/ exists a s1, m s = (Ok a, s1) /\ f a s1 = (Err e, s').
Proof.
  unfold mbind, ST_bind. destruct (m s) as [[a|e0] s1]; split.
  - eauto.
  - intros [[=]|(a' & s1' & [= -> ->] & ?)]; done.
  - intros [= -> ->]. by left.
  - intros [[= -> ->]|(a' & s1' & [=] & _)]; done.
Qed.
End monad_lemmas.

(** * Pre- and postconditions of a stateful computation

    [triple P m Q R]: from a state in [P], [m] returns in [Q] or raises in [R]. *)

Definition triple {S E A} (P : S -> Prop) (m : ST S E A)
    (Q : A -> S -> Prop) (R : E -> S -> Prop) : Prop :=
  forall s, P s -> match m s with
                   | (Ok a, s') => Q a s'
                   | (Err e, s') => R e s'
                   end.

Section triple_lemmas.
Context {S E : Type}.
Implicit Types (P : S -> Prop).

Lemma triple_ret {A} P (a : A) Q (R : E -> S -> Prop) :
  (forall s, P s -> Q a s) -> triple P (mret a) Q R.
Proof. intros HQ s HP. by apply HQ. Qed.

Lemma triple_raise {A} P (e : E) (Q : A -> S -> Prop) R :
  (forall s, P s -> R e s) -> triple P (raise e) Q R.
Proof. intros HR s HP. by apply HR. Qed.

Lemma triple_bind {A B} P (m : ST S E A) (f : A -> ST S E B) Q1 Q R :
  triple P m Q1 R -> (forall a, triple (Q1 a) (f a) Q R) -> triple P (m ≫= f) Q R.
Proof.
  intros Hm Hf s HP. specialize (Hm s HP). unfold mbind, ST_bind.
  destruct (m s) as [[a|e] s']; [by apply Hf|done].
Qed.

Lemma triple_get {A} P (f : S -> ST S E A) Q R :
  (forall s0, P s0 -> triple (fun s => s = s0 /\ P s) (f s0) Q R) ->
  triple P (get_state ≫= f) Q R.
Proof. intros Hf s HP. by apply (Hf s HP). Qed.

(** As [triple_get], when what was read need not be remembered. *)
Lemma triple_get_any {A} P (f : S -> ST S E A) Q R :
  (forall s0, P s0 -> triple P (f s0) Q R) -> triple P (get_state ≫= f) Q R.
Proof. intros Hf s HP. by apply (Hf s HP). Qed.

Lemma triple_modify P (f : S -> S) Q (R : E -> S -> Prop) :
  (forall s, P s -> Q tt (f s)) -> triple P (modify f) Q R.
Proof. intros HQ s HP. by apply HQ. Qed.

Lemma triple_lift {A} P (r : result E A) Q (R : E -> S -> Prop) :
  (forall s a, P s -> r = Ok a -> Q a s) -> (forall s e, P s -> r = Err e -> R e s) ->
  triple P (lift_result r) Q R.
Proof. intros HQ HR s HP. unfold lift_result. destruct r; eauto. Qed.

Lemma triple_conseq {A} P P' (m : ST S E A) Q Q' (R R' : E -> S -> Prop) :
  triple P' m Q' R' -> (forall s, P s -> P' s) -> (forall a s, Q' a s -> Q a s) ->
  (forall e s, R' e s -> R e s) -> triple P m Q R.
Proof.
  intros Hm HP HQ HR s Hs. specialize (Hm s (HP s Hs)). destruct (m s) as [[a|e] s']; auto.
Qed.

(** [try]: the handler starts where the body raised. *)
Lemma triple_try {A} P (m : ST S E A) (h : E -> ST S E A) Q R1 R :
  triple P m Q R1 -> (forall e, triple (R1 e) (h e) Q R) -> triple P (try_except m h) Q R.
Proof.
  intros Hm Hh s HP. specialize (Hm s HP). unfold try_except.
  destruct (m s) as [[a|e] s']; [done|by apply Hh].
Qed.
End triple_lemmas.

Section dict_lemmas.
Context {K V : Type} `{EqDecision K}.
Implicit Types (d : list (K * V)) (k : K) (v : V).

Lemma dict_get_set_eq k v d : dict_get k (dict_set k v d) = Some v.
Proof.
  induction d as [|[k' v'] d IH]; simpl; [by rewrite decide_True|].
  destruct (decide (k = k')) as [->|Hne]; simpl.
  - by rewrite decide_True.
  - by rewrite decide_False.
Qed.

Lemma dict_get_set_ne k k' v d : k <> k' -> dict_get k (dict_set k' v d) = dict_get k d.
Proof.
  intros Hne. induction d as [|[k0 v0] d IH]; simpl.
  - by rewrite decide_False.
  - destruct (decide (k' = k0)) as [->|]; simpl; by repeat case_decide.
Qed.

Lemma dict_get_None k d : dict_get k d = None <-> k ∉ dict_keys d.
Proof.
  unfold dict_keys. induction d as [|[k' v'] d IH]; simpl.
  - split; [intros _; by apply not_elem_of_nil|done].
  - rewrite not_elem_of_cons. case_decide; naive_solver.
Qed.

Lemma dict_get_elem k v d : dict_get k d = Some v -> (k, v) ∈ d.
Proof.
  induction d as [|[k' v'] d IH]; simpl; [done|].
  case_decide; intros; simplify_eq; [by left|right; auto].
Qed.

Lemma dict_elem_get k v d : NoDup (dict_keys d) -> (k, v) ∈ d -> dict_get k d = Some v.
Proof.
  unfold dict_keys. induction d as [|[k' v'] d IH]; simpl.
  - by intros _ ?%elem_of_nil.
  - rewrite NoDup_cons. intros [Hni Hnd] [[= -> ->]|Hin]%elem_of_cons.
    + by rewrite decide_True.
    + rewrite decide_False; [auto|]. intros ->. apply Hni.
      by apply (list_elem_of_fmap_2' fst _ (k', v)).
Qed.

(** Assigning to a fresh key appends; to a present key, replaces in place. *)
Lemma dict_set_fresh k v d : k ∉ dict_keys d -> dict_set k v d = d ++ [(k, v)].
Proof.
  unfold dict_keys. induction d as [|[k' v'] d IH]; simpl; [done|].
  rewrite not_elem_of_cons. intros [Hne Hni].
  rewrite decide_False by done. f_equal. auto.
Qed.

Lemma dict_keys_set_present k v d :
  k ∈ dict_keys d -> dict_keys (dict_set k v d) = dict_keys d.
Proof.
  unfold dict_keys. induction d as [|[k' v'] d IH]; simpl.
  - by intros ?%elem_of_nil.
  - intros [->|Hin]%elem_of_cons; case_decide; simplify_eq/=; f_equal; auto.
Qed.

Lemma dict_keys_set_NoDup k v d : NoDup (dict_keys d) -> NoDup (dict_keys (dict_set k v d)).
Proof.
  intros Hnd. destruct (decide (k ∈ dict_keys d)).
  - by rewrite dict_keys_set_present.
  - rewrite dict_set_fresh by done. unfold dict_keys in *.
    rewrite fmap_app. simpl. apply NoDup_app. split_and!; [done| |apply NoDup_singleton].
    intros x Hx ->%list_elem_of_singleton. done.
Qed.

Lemma dict_set_elem k v d p : p ∈ dict_set k v d -> p = (k, v) \/ p ∈ d.
Proof.
  induction d as [|[k' v'] d IH]; simpl.
  - intros ->%list_elem_of_singleton. by left.
  - case_decide; rewrite !elem_of_cons; naive_solver.
Qed.

Lemma dict_mem_true k d : dict_mem k d = true <-> k ∈ dict_keys d.
Proof.
  unfold dict_mem. destruct (dict_get k d) eqn:Hg.
  - split; [|done]. intros _. apply dict_get_elem in Hg.
    by apply (list_elem_of_fmap_2' fst _ (k, v)).
  - apply dict_get_None in Hg. naive_solver.
Qed.
End dict_lemmas.

Section count_lemmas.
Context {A : Type}.
Implicit Types (p q : A -> bool) (l : list A).
Local Open Scope Z_scope.

Lemma count_if_app p l1 l2 : count_if p (l1 ++ l2) = count_if p l1 + count_if p l2.
Proof. induction l1; simpl; lia. Qed.

Lemma count_if_nonneg p l : 0 <= count_if p l.
Proof. induction l as [|x l]; simpl; [lia|]. destruct (p x); simpl; lia. Qed.

Lemma count_if_le p q l :
  (forall x, x ∈ l -> p x = true -> q x = true) -> count_if p l <= count_if q l.
Proof.
  induction l as [|x l IH]; simpl; intros Himp; [lia|].
  assert (count_if p l <= count_if q l) by (apply IH; intros; apply Himp; [by right|done]).
  specialize (Himp x ltac:(by left)).
  destruct (p x), (q x); simpl; lia.
Qed.

Lemma count_if_pos p l x : x ∈ l -> p x = true -> 0 < count_if p l.
Proof.
  induction l as [|y l IH]; simpl; [by intros ?%elem_of_nil|].
  pose proof (count_if_nonneg p l).
  intros [->|Hin]%elem_of_cons Hp; [rewrite Hp; simpl; lia|].
  specialize (IH Hin Hp). destruct (p y); simpl; lia.
Qed.

Lemma count_if_zero p l : count_if p l = 0 <-> forall x, x ∈ l -> p x = false.
Proof.
  split.
  - intros Hz x Hx. destruct (p x) eqn:Hp; [|done].
    pose proof (count_if_pos p l x Hx Hp). lia.
  - induction l as [|y l IH]; simpl; [done|]. intros Hall.
    rewrite (Hall y) by (by left). rewrite IH; [done|].
    intros x Hx. apply Hall. by right.
Qed.

Lemma count_if_ext p q l :
  (forall x, x ∈ l -> p x = q x) -> count_if p l = count_if q l.
Proof.
  induction l as [|x l IH]; simpl; intros Hpq; [done|].
  rewrite (Hpq x) by (by left). rewrite IH; [done|]. intros y Hy. apply Hpq. by right.
Qed.
End count_lemmas.

(** Replacing a dictionary value moves the count by the old and the new value. *)
Lemma count_if_dict_set {K V} `{EqDecision K} (p : V -> bool) k v v0 (d : list (K * V)) :
  dict_get k d = Some v0 ->
  (count_if p (dict_values (dict_set k v d))
   = count_if p (dict_values d) - Z.b2z (p v0) + Z.b2z (p v))%Z.
Proof.
  unfold dict_values. induction d as [|[k' v'] d IH]; simpl; [done|].
  case_decide; intros Hg; simplify_eq/=; [lia|]. rewrite IH by done. lia.
Qed.

Lemma dict_values_fresh {K V} `{EqDecision K} k v (d : list (K * V)) :
  dict_get k d = None -> dict_values (dict_set k v d) = dict_values d ++ [v].
Proof.
  intros Hg%dict_get_None. rewrite dict_set_fresh by done.
  unfold dict_values. by rewrite fmap_app.
Qed.

#[export] Hint Resolve dict_get_set_eq dict_get_set_ne dict_keys_set_NoDup count_if_nonneg : ops.
#[export] Hint Rewrite @dict_get_set_eq @dict_values_fresh @count_if_app using done : ops.
