(* ===== verification/PyText.v ===== *)
(** Python text and JSON values as the program uses them: [str] methods,
    [json.dumps], [repr] of a string and [datetime.isoformat].

    A [str] is a [string] whose characters are the code points 0 to 255; a
    [datetime] is always timezone-aware UTC (tools.py, [UtcDatetime]) and is the
    number of microseconds since the Unix epoch.  A JSON float atom is carried
    as its [repr] text: the program never computes with one. *)
From Stdlib Require Import ZArith Lia.
From Stdlib Require Ascii.
From stdpp Require Export prelude strings list pretty sorting.
From S2P Require Import Prelude.

(** * Characters and strings *)

Definition code (c : Ascii.ascii) : Z := Z.of_N (Ascii.N_of_ascii c).

Definition char_of (n : Z) : Ascii.ascii := Ascii.ascii_of_N (Z.to_N n).

Definition chr (n : Z) : string := String (char_of n) EmptyString.

(** A string literal cannot hold the quotation mark: [dq] is that character. *)
Definition dq : string := chr 34.

Definition nl : string := chr 10.

Definition str_len (s : string) : Z := Z.of_nat (String.length s).

(** [str.isspace] on code points below 256. *)
Definition py_isspace (c : Ascii.ascii) : bool :=
  let n := code c in
  ((9 <=? n) && (n <=? 13) || (28 <=? n) && (n <=? 32) || (n =? 133) || (n =? 160))%Z.

Fixpoint lstrip (s : string) : string :=
  match s with
  | EmptyString => EmptyString
  | String c s' => if py_isspace c then lstrip s' else s
  end.

Fixpoint rstrip (s : string) : string :=
  match s with
  | EmptyString => EmptyString
  | String c s' =>
      match rstrip s' with
      | EmptyString => if py_isspace c then EmptyString else String c EmptyString
      | t => String c t
      end
  end.

(** [s.strip()] *)
Definition py_strip (s : string) : string := rstrip (lstrip s).

(** [s.split()]: the words between runs of whitespace. *)
Fixpoint split_words (cur : option string) (s : string) : list string :=
  match s with
  | EmptyString => match cur with Some w => [w] | None => [] end
  | String c s' =>
      if py_isspace c then
        match cur with Some w => w :: split_words None s' | None => split_words None s' end
      else split_words (Some (default EmptyString cur +:+ String c EmptyString)) s'
  end.

Definition py_split (s : string) : list string := split_words None s.

(** [sep.join(l)] *)
Fixpoint py_join (sep : string) (l : list string) : string :=
  match l with
  | [] => EmptyString
  | [w] => w
  | w :: l' => w +:+ sep +:+ py_join sep l'
  end.

Fixpoint is_prefix (p s : string) : bool :=
  match p, s with
  | EmptyString, _ => true
  | String a p', String b s' => bool_decide (a = b) && is_prefix p' s'
  | String _ _, EmptyString => false
  end.

(** [sub in s] *)
Fixpoint py_in (sub s : string) : bool :=
  is_prefix sub s || match s with EmptyString => false | String _ s' => py_in sub s' end.

(** [s.replace(pat, rep)] for a non-empty [pat]: leftmost occurrences, without
    overlap.  [skip] counts the characters of the occurrence being passed. *)
Fixpoint replace_go (pat rep : string) (skip : nat) (s : string) : string :=
  match s with
  | EmptyString => EmptyString
  | String c s' =>
      match skip with
      | S n => replace_go pat rep n s'
      | O =>
          if is_prefix pat s
          then rep +:+ replace_go pat rep (Nat.pred (String.length pat)) s'
          else String c (replace_go pat rep O s')
      end
  end.

Definition py_replace (pat rep s : string) : string := replace_go pat rep O s.

(** [s[:n]] *)
Fixpoint str_take (n : nat) (s : string) : string :=
  match n, s with
  | S n', String c s' => String c (str_take n' s')
  | _, _ => EmptyString
  end.

Definition str_of_Z (z : Z) : string := pretty z.

Definition hex_digit (n : Z) : string := chr (if (n <? 10)%Z then 48 + n else 87 + n)%Z.

Definition hex2 (n : Z) : string := hex_digit (n / 16) +:+ hex_digit (n mod 16).

(** [repr] of a string: single quotes unless only those occur inside. *)
Definition repr_quote (s : string) : Z :=
  if py_in (chr 39) s && negb (py_in dq s) then 34 else 39.

Definition repr_char (quote : Z) (c : Ascii.ascii) : string :=
  let n := code c in
  if (n =? 92)%Z || (n =? quote)%Z then chr 92 +:+ chr n
  else if (n =? 10)%Z then chr 92 +:+ "n"
  else if (n =? 13)%Z then chr 92 +:+ "r"
  else if (n =? 9)%Z then chr 92 +:+ "t"
  else if ((n <? 32) || (127 <=? n) && (n <=? 160) || (n =? 173))%Z
       then chr 92 +:+ "x" +:+ hex2 n
  else chr n.

Fixpoint concat_chars (f : Ascii.ascii -> string) (s : string) : string :=
  match s with
  | EmptyString => EmptyString
  | String c s' => f c +:+ concat_chars f s'
  end.

(** [s.lower()] *)
Definition lower_char (c : Ascii.ascii) : string :=
  let n := code c in
  if ((65 <=? n) && (n <=? 90) || (192 <=? n) && (n <=? 222) && negb (n =? 215))%Z then chr (n + 32)
  else String c EmptyString.

Definition py_lower (s : string) : string := concat_chars lower_char s.

Definition py_repr (s : string) : string :=
  let quote := repr_quote s in
  chr quote +:+ concat_chars (repr_char quote) s +:+ chr quote.

(** * JSON *)

Inductive json : Type :=
  | JNull
  | JBool (b : bool)
  | JInt (z : Z)
  | JFloat (text : string)
  | JStr (s : string)
  | JArr (l : list json)
  | JObj (d : list (string * json)).

(** The [ensure_ascii] escapes of [json.dumps]. *)
Definition json_char (c : Ascii.ascii) : string :=
  let n := code c in
  if (n =? 34)%Z || (n =? 92)%Z then chr 92 +:+ chr n
  else if (n =? 8)%Z then chr 92 +:+ "b"
  else if (n =? 9)%Z then chr 92 +:+ "t"
  else if (n =? 10)%Z then chr 92 +:+ "n"
  else if (n =? 12)%Z then chr 92 +:+ "f"
  else if (n =? 13)%Z then chr 92 +:+ "r"
  else if ((n <? 32) || (126 <? n))%Z then chr 92 +:+ "u00" +:+ hex2 n
  else chr n.

Definition json_string (s : string) : string := dq +:+ concat_chars json_char s +:+ dq.

Definition key_le (p q : string * string) : Prop := String.le p.1 q.1.

#[export] Instance key_le_dec : RelDecision key_le := fun p q => String.le_dec p.1 q.1.

Section dumps.
(** [sort_keys], and the item and key separators. *)
Variables (sort : bool) (isep ksep : string).

Definition dumps_object (items : list (string * string)) : string :=
  "{" +:+ py_join isep (if sort then merge_sort key_le items else items).*2 +:+ "}".

Fixpoint dumps (j : json) : string :=
  match j with
  | JNull => "null"
  | JBool b => if b then "true" else "false"
  | JInt z => str_of_Z z
  | JFloat t => t
  | JStr s => json_string s
  | JArr l => "[" +:+ py_join isep (List.map dumps l) +:+ "]"
  | JObj d =>
      dumps_object
        (List.map (fun kv => match kv with
                             | (k, v) => (k, json_string k +:+ ksep +:+ dumps v)
                             end) d)
  end.
End dumps.

(** [json.dumps(x)] *)
Definition json_dumps : json -> string := dumps false ", " ": ".

(** [json.dumps(x, sort_keys=True, separators=(",", ":"))] *)
Definition json_dumps_canonical : json -> string := dumps true "," ":".

(** Pydantic's [model_dump_json]: compact, fields in declaration order. *)
Definition json_dumps_compact : json -> string := dumps false "," ":".

(** * Timestamps *)

Definition pad (width : nat) (n : Z) : string :=
  let s := str_of_Z n in
  String.concat "" (replicate (width - String.length s) "0") +:+ s.

(** The proleptic Gregorian date of a day number, day 0 being 1970-01-01. *)
Definition civil_of_days (days : Z) : Z * Z * Z :=
  (let z := days + 719468 in
   let era := z / 146097 in
   let doe := z mod 146097 in
   let yoe := (doe - doe / 1460 + doe / 36524 - doe / 146096) / 365 in
   let doy := doe - (365 * yoe + yoe / 4 - yoe / 100) in
   let mp := (5 * doy + 2) / 153 in
   let d := doy - (153 * mp + 2) / 5 + 1 in
   let m := if mp <? 10 then mp + 3 else mp - 9 in
   (yoe + era * 400 + Z.b2z (m <=? 2), m, d))%Z.

(** [datetime.isoformat()] of an aware UTC moment. *)
Definition isoformat (t : Z) : string :=
  let us := (t mod 1000000)%Z in
  let secs := (t / 1000000)%Z in
  let '(y, m, d) := civil_of_days (secs / 86400) in
  let sod := (secs mod 86400)%Z in
  pad 4 y +:+ "-" +:+ pad 2 m +:+ "-" +:+ pad 2 d +:+ "T" +:+
  pad 2 (sod / 3600) +:+ ":" +:+ pad 2 (sod mod 3600 / 60) +:+ ":" +:+ pad 2 (sod mod 60) +:+
  (if (us =? 0)%Z then "" else "." +:+ pad 6 us) +:+ "+00:00".

Example isoformat_epoch : isoformat 0 = "1970-01-01T00:00:00+00:00".
Proof. reflexivity. Qed.

Example isoformat_leap_day :
  isoformat 1709210096000250 = "2024-02-29T12:34:56.000250+00:00".
Proof. reflexivity. Qed.

(** * Lemmas *)

Lemma string_app_nil_r s : s +:+ "" = s.
Proof. induction s as [|c s IH]; [done|]. unfold String.app in *. simpl. by rewrite IH. Qed.

Lemma string_app_cons c s t : String c s +:+ t = String c (s +:+ t).
Proof. done. Qed.

Lemma string_app_assoc s t u : (s +:+ t) +:+ u = s +:+ t +:+ u.
Proof. induction s as [|c s IH]; [done|]. rewrite !string_app_cons. by rewrite IH. Qed.

Lemma string_length_app s t :
  String.length (s +:+ t) = (String.length s + String.length t)%nat.
Proof. induction s as [|c s IH]; [done|]. rewrite string_app_cons. simpl. by rewrite IH. Qed.

Lemma str_len_nonneg s : (0 <= str_len s)%Z.
Proof. unfold str_len. lia. Qed.

Lemma str_take_length n s : (String.length (str_take n s) = Nat.min n (String.length s))%nat.
Proof. revert s. induction n as [|n IH]; intros [|c s]; simpl; [done..|]. by rewrite IH. Qed.

Lemma lstrip_rstrip_empty s :
  rstrip s = EmptyString <-> forallb py_isspace (String.list_ascii_of_string s) = true.
Proof.
  induction s as [|c s IH]; simpl; [done|].
  destruct (rstrip s) eqn:Hr.
  - destruct (py_isspace c); simpl; [|done]. by rewrite <- IH.
  - split; [done|]. intros [_ Hs]%andb_prop. apply IH in Hs. done.
Qed.

(** Text that survives [strip] starts with a character that is not a space. *)
Lemma lstrip_idem s : lstrip (lstrip s) = lstrip s.
Proof.
  induction s as [|c s IH]; simpl; [done|].
  destruct (py_isspace c) eqn:Hc; [done|]. simpl. by rewrite Hc.
Qed.

Lemma rstrip_idem s : rstrip (rstrip s) = rstrip s.
Proof.
  induction s as [|c s IH]; simpl; [done|].
  destruct (rstrip s) as [|c' s'] eqn:Hr.
  - destruct (py_isspace c) eqn:Hc; simpl; [done|]. by rewrite Hc.
  - remember (String c' s') as t eqn:Ht. simpl. rewrite IH, Ht. done.
Qed.

Lemma lstrip_rstrip s : lstrip (rstrip (lstrip s)) = rstrip (lstrip s).
Proof.
  induction s as [|c s IH]; simpl; [done|].
  destruct (py_isspace c) eqn:Hc; [done|]. simpl.
  destruct (rstrip s); rewrite ?Hc; simpl; by rewrite Hc.
Qed.

Lemma py_strip_idem s : py_strip (py_strip s) = py_strip s.
Proof. unfold py_strip. by rewrite lstrip_rstrip, rstrip_idem. Qed.

Lemma is_prefix_spec p s : is_prefix p s = true <-> exists t, s = p +:+ t.
Proof.
  revert s. induction p as [|a p IH]; intros s.
  - split; [intros _; by exists s|done].
  - destruct s as [|b s]; simpl.
    + split; [done|intros [t Ht]; done].
    + rewrite andb_true_iff, bool_decide_eq_true, IH. split.
      * intros [-> [t ->]]. by exists t.
      * intros [t [= -> ->]]. eauto.
Qed.

#[export] Hint Resolve str_len_nonneg : ops.

(** * String enumerations ([enum.StrEnum]) *)

Class StrEnum (A : Type) := {
  members : list A;
  value : A -> string;
}.

(** [A(s)]: the member with that value, or nothing where Python raises. *)
Definition of_value {A} `{StrEnum A} (s : string) : option A :=
  List.find (fun a => bool_decide (value a = s)) members.

Class StrEnumLaws (A : Type) `{StrEnum A} := {
  members_complete : forall a : A, a ∈ members;
  value_inj : forall a b : A, value a = value b -> a = b;
}.

Lemma of_value_value {A} `{StrEnumLaws A} (a : A) : of_value (value a) = Some a.
Proof.
  unfold of_value. destruct (List.find _ _) as [b|] eqn:Hf.
  - apply List.find_some in Hf as [_ Hb%bool_decide_eq_true].
    f_equal. by apply value_inj.
  - pose proof (List.find_none _ _ Hf a) as Hn.
    rewrite bool_decide_eq_false in Hn. destruct Hn; [|done].
    apply list_elem_of_In, members_complete.
Qed.

Lemma of_value_Some {A} `{StrEnum A} s (a : A) : of_value s = Some a -> value a = s.
Proof. unfold of_value. intros [_ Ha]%List.find_some. by apply bool_decide_eq_true in Ha. Qed.

(** Proves the laws of an enumeration whose members are all listed. *)
Ltac solve_enum :=
  split; [intros []; cbn; set_solver | intros [] [] Heq; cbn in Heq; congruence].
