(* ===== verification/Float64.v ===== *)
(** Python's [float] and the operations the program applies to money and
    durations: IEEE 754 binary64 with rounding to nearest even, from the
    Standard Library's executable specification.  Nothing here is exact
    arithmetic: every operation rounds where CPython rounds. *)
From Stdlib Require Import ZArith Lia.
From Stdlib Require Export Floats.SpecFloat.
From stdpp Require Import prelude.
From S2P Require Import Prelude.
Local Open Scope Z_scope.

Notation f64 := spec_float.

Definition f_zero : f64 := S754_zero false.

Definition f_one : f64 := S754_finite false 4503599627370496 (-52).

Definition f_add : f64 -> f64 -> f64 := SFadd 53 1024.

Definition f_sub : f64 -> f64 -> f64 := SFsub 53 1024.

Definition f_mul : f64 -> f64 -> f64 := SFmul 53 1024.

Definition f_div : f64 -> f64 -> f64 := SFdiv 53 1024.

(** Comparisons are false as soon as an operand is a NaN. *)
Definition f_lt : f64 -> f64 -> bool := SFltb.

Definition f_gt (x y : f64) : bool := SFltb y x.

Definition f_ge (x y : f64) : bool := SFleb y x.

Definition f_abs : f64 -> f64 := SFabs.

(** [math.isfinite] *)
Definition f_isfinite (x : f64) : bool :=
  match x with S754_zero _ | S754_finite _ _ _ => true | _ => false end.

(** Truth value of a float: zero is false, everything else (NaN too) is true. *)
Definition f_truthy (x : f64) : bool := match x with S754_zero _ => false | _ => true end.

(** [float(n)] *)
Definition f_of_Z (n : Z) : f64 := binary_normalize 53 1024 n 0 false.

(** [max(x, y)]: the second operand only when it is the greater one. *)
Definition f_max (x y : f64) : f64 := if f_gt y x then y else x.

(** [m / n] of two ints: the correctly rounded quotient; [None] for a zero divisor. *)
Definition int_truediv (m n : Z) : option f64 :=
  match m, n with
  | _, Z0 => None
  | Z0, _ => Some (S754_zero false)
  | Zpos a, Zpos b => Some (f_div (S754_finite false a 0) (S754_finite false b 0))
  | Zpos a, Zneg b => Some (f_div (S754_finite false a 0) (S754_finite true b 0))
  | Zneg a, Zpos b => Some (f_div (S754_finite true a 0) (S754_finite false b 0))
  | Zneg a, Zneg b => Some (f_div (S754_finite true a 0) (S754_finite true b 0))
  end.

(** [int(x)]: truncation; [None] where CPython raises (infinities and NaN). *)
Definition int_of_float (x : f64) : option Z :=
  match x with
  | S754_zero _ => Some 0
  | S754_finite s m e =>
      let a := if 0 <=? e then Z.shiftl (Zpos m) e else Z.shiftr (Zpos m) (- e) in
      Some (if s then - a else a)
  | _ => None
  end.

(** [x > n] for a float and an int, which CPython compares exactly. *)
Definition f_gt_int (x : f64) (n : Z) : bool :=
  match x with
  | S754_nan => false
  | S754_infinity s => negb s
  | S754_zero _ => n <? 0
  | S754_finite s m e =>
      let m' := if s then Zneg m else Zpos m in
      if 0 <=? e then n <? Z.shiftl m' e else Z.shiftl n (- e) <? m'
  end.

(** [timedelta.total_seconds()] of a difference in microseconds. *)
Definition total_seconds (us : Z) : f64 := default f_zero (int_truediv us 1000000).

(** CPython 3.12's [sum] of floats: Neumaier's compensated summation. *)
Definition sum_step (acc : f64 * f64) (x : f64) : f64 * f64 :=
  let '(r, c) := acc in
  let t := f_add r x in
  let c' := if f_ge (f_abs r) (f_abs x)
            then f_add c (f_add (f_sub r t) x)
            else f_add c (f_add (f_sub x t) r) in
  (t, c').

Definition py_sum (l : list f64) : f64 :=
  match l with
  | [] => f_zero
  | x :: l' =>
      let '(r, c) := fold_left sum_step l' (f_add f_zero x, f_zero) in
      if f_truthy c && f_isfinite c then f_add r c else r
  end.

(** Neither negative nor a NaN. *)
Definition f_nonneg (x : f64) : bool :=
  match x with
  | S754_zero _ | S754_infinity false | S754_finite false _ _ => true
  | _ => false
  end.

Example f_of_Z_one : f_of_Z 1 = f_one.
Proof. reflexivity. Qed.

Example sum_is_compensated :
  py_sum [f_of_Z 1; default f_zero (int_truediv 1 (10 ^ 16)); f_of_Z (-1)]
  = default f_zero (int_truediv 1 (10 ^ 16)).
Proof. vm_compute. reflexivity. Qed.

(** * Lemmas *)

Lemma shr_1_nonneg r : 0 <= shr_m r -> 0 <= shr_m (shr_1 r).
Proof. destruct r as [[|[p|p|]|p] r s]; simpl; lia. Qed.

Lemma iter_shr_nonneg p r : 0 <= shr_m r -> 0 <= shr_m (SpecFloat.iter_pos shr_1 p r).
Proof.
  revert r. induction p as [p IH|p IH|]; intros r Hr; simpl;
    auto using shr_1_nonneg.
Qed.

Lemma shr_fexp_nonneg m e l : 0 <= m -> 0 <= shr_m (shr_fexp 53 1024 m e l).1.
Proof.
  intros Hm. unfold shr_fexp, shr.
  assert (0 <= shr_m (shr_record_of_loc m l)) by (destruct l as [|[]]; done).
  case_match; simpl; auto using iter_shr_nonneg.
Qed.

Lemma binary_round_aux_nonneg m e l :
  0 <= m -> f_nonneg (binary_round_aux 53 1024 false m e l) = true.
Proof.
  intros Hm. unfold binary_round_aux.
  pose proof (shr_fexp_nonneg m e l Hm) as H1.
  destruct (shr_fexp 53 1024 m e l) as [r e'] eqn:Er. simpl in H1.
  set (m' := round_nearest_even _ _).
  assert (0 <= m') as Hm'.
  { unfold m', round_nearest_even. destruct (loc_of_shr_record r) as [|[]]; try lia.
    destruct (Z.even _); lia. }
  pose proof (shr_fexp_nonneg m' e' loc_Exact Hm') as H2.
  destruct (shr_fexp 53 1024 m' e' loc_Exact) as [r' e''].
  simpl in H2. destruct (shr_m r'); simpl; [done| |lia]. by case_match.
Qed.

Lemma f_div_nonneg a e b e' :
  f_nonneg (f_div (S754_finite false a e) (S754_finite false b e')) = true.
Proof.
  unfold f_div, SFdiv, SFdiv_core_binary.
  set (m' := match _ with Z0 => _ | Zpos _ => _ | Zneg _ => _ end).
  assert (0 <= m') as Hm'.
  { unfold m'. case_match; [lia| |lia]. rewrite Z.shiftl_nonneg. lia. }
  destruct (Z.div_eucl m' (Zpos b)) as [q r] eqn:Hq. simpl.
  apply binary_round_aux_nonneg.
  replace q with (m' / Zpos b) by (unfold Z.div; by rewrite Hq).
  apply Z.div_pos; lia.
Qed.

Lemma int_truediv_nonneg m n x :
  0 <= m -> 0 <= n -> int_truediv m n = Some x -> f_nonneg x = true.
Proof.
  intros Hm Hn. destruct m as [|a|a], n as [|b|b]; try lia; simpl; intros; simplify_eq; [done|].
  apply f_div_nonneg.
Qed.

Lemma f_mul_nonneg x y :
  f_nonneg x = true -> f_nonneg y = true -> f_mul x y = S754_nan \/ f_nonneg (f_mul x y) = true.
Proof.
  destruct x as [|[]| |[]], y as [|[]| |[]]; simpl; try done; auto.
  intros _ _. right. apply binary_round_aux_nonneg. lia.
Qed.

Lemma int_of_float_nonneg x n : f_nonneg x = true -> int_of_float x = Some n -> 0 <= n.
Proof.
  destruct x as [| | |[] m e]; simpl; try done; intros; simplify_eq; [lia|].
  case_match; [rewrite Z.shiftl_nonneg|rewrite Z.shiftr_nonneg]; lia.
Qed.

