(* ===== verification/Tools.v ===== *)
(** The five registered tools and their typed arguments (tools.py): the closed
    enumerations a model may name, the argument records with their schema
    bounds, how they are read from and written to JSON, and the fingerprint
    that recognises a repeated proposal. *)
From Stdlib Require Import ZArith Lia.
From stdpp Require Import prelude strings list.
From S2P Require Import Prelude PyText.
Local Open Scope Z_scope.

(** * What the program takes from libraries it does not contain

    Pydantic's coercions of a JSON value to [int] and to an aware [datetime]
    (then UTC), the text it writes for a [datetime], and the errors it reports
    for a value that does not fit a schema. *)
Class Pydantic := {
  coerce_int : json -> option Z;
  coerce_datetime : json -> option Z;
  dump_datetime : Z -> string;
  validation_errors : string -> json -> list (list string * string);
}.

(** What the round trips rely on: an [int] is accepted as itself, and a
    timestamp's own JSON text is read back as the same moment. *)
Class PydanticRoundTrip `{Pydantic} := {
  coerce_int_int : forall z, coerce_int (JInt z) = Some z;
  coerce_dump_datetime : forall t, coerce_datetime (JStr (dump_datetime t)) = Some t;
}.

(** The host: [sha256(...).hexdigest()] of a text, and the stream of
    [uuid4().hex] values. *)
Class Host := {
  sha256_hex : string -> string;
  uuid_hex : nat -> string;
}.

Definition TOOL_REGISTRY_VERSION : string := "8".

(** [moment.astimezone(UTC)] of an aware moment given by its local reading and
    its offset, both in microseconds. *)
Definition to_utc (local_us offset_us : Z) : Z := local_us - offset_us.

Inductive ToolName :=
  QUERY_METRIC | QUERY_LOGS | LIST_RECENT_CHANGES | GET_TOPOLOGY | SEARCH_RUNBOOKS.

Inductive MetricTemplate :=
  | GATEWAY_ERROR_RATE
  | GATEWAY_LATENCY_P95
  | DOWNSTREAM_TIMEOUT_SHARE
  | RESOURCE_POOL_ATTEMPTS_PER_CAPACITY.

Inductive LogFilter := ERRORS_ONLY | TIMEOUTS_ONLY | POOL_EXHAUSTION | CONFIG_RELOAD.

Inductive RunbookTopic :=
  | GATEWAY_ERRORS
  | GATEWAY_LATENCY
  | DOWNSTREAM_TIMEOUTS
  | RESOURCE_POOL_PRESSURE
  | RECENT_CONFIG_CHANGES.

#[export] Instance ToolName_eq : EqDecision ToolName.
Proof. solve_decision. Defined.
#[export] Instance MetricTemplate_eq : EqDecision MetricTemplate.
Proof. solve_decision. Defined.
#[export] Instance LogFilter_eq : EqDecision LogFilter.
Proof. solve_decision. Defined.
#[export] Instance RunbookTopic_eq : EqDecision RunbookTopic.
Proof. solve_decision. Defined.

#[export] Instance ToolName_enum : StrEnum ToolName := {
  members := [QUERY_METRIC; QUERY_LOGS; LIST_RECENT_CHANGES; GET_TOPOLOGY; SEARCH_RUNBOOKS];
  value t := match t with
    | QUERY_METRIC => "query_metric"
    | QUERY_LOGS => "query_logs"
    | LIST_RECENT_CHANGES => "list_recent_changes"
    | GET_TOPOLOGY => "get_topology"
    | SEARCH_RUNBOOKS => "search_runbooks"
    end;
}.

#[export] Instance MetricTemplate_enum : StrEnum MetricTemplate := {
  members := [GATEWAY_ERROR_RATE; GATEWAY_LATENCY_P95; DOWNSTREAM_TIMEOUT_SHARE;
              RESOURCE_POOL_ATTEMPTS_PER_CAPACITY];
  value t := match t with
    | GATEWAY_ERROR_RATE => "gateway_error_rate"
    | GATEWAY_LATENCY_P95 => "gateway_latency_p95"
    | DOWNSTREAM_TIMEOUT_SHARE => "downstream_timeout_share"
    | RESOURCE_POOL_ATTEMPTS_PER_CAPACITY => "resource_pool_attempts_per_capacity"
    end;
}.

#[export] Instance LogFilter_enum : StrEnum LogFilter := {
  members := [ERRORS_ONLY; TIMEOUTS_ONLY; POOL_EXHAUSTION; CONFIG_RELOAD];
  value t := match t with
    | ERRORS_ONLY => "errors_only"
    | TIMEOUTS_ONLY => "timeouts_only"
    | POOL_EXHAUSTION => "pool_exhaustion"
    | CONFIG_RELOAD => "config_reload"
    end;
}.

#[export] Instance RunbookTopic_enum : StrEnum RunbookTopic := {
  members := [GATEWAY_ERRORS; GATEWAY_LATENCY; DOWNSTREAM_TIMEOUTS;
              RESOURCE_POOL_PRESSURE; RECENT_CONFIG_CHANGES];
  value t := match t with
    | GATEWAY_ERRORS => "gateway_errors"
    | GATEWAY_LATENCY => "gateway_latency"
    | DOWNSTREAM_TIMEOUTS => "downstream_timeouts"
    | RESOURCE_POOL_PRESSURE => "resource_pool_pressure"
    | RECENT_CONFIG_CHANGES => "recent_config_changes"
    end;
}.

(** * Arguments *)

Record QueryMetricArguments := {
  qm_template : MetricTemplate;
  qm_service : string;
  qm_window_start : option Z;
  qm_window_end : option Z;
}.

Record QueryLogsArguments := {
  ql_log_filter : LogFilter;
  ql_service : string;
  ql_window_start : option Z;
  ql_window_end : option Z;
  ql_row_limit : Z;
}.

Record ListRecentChangesArguments := {
  lc_service : string;
  lc_window_start : option Z;
  lc_window_end : option Z;
}.

Record GetTopologyArguments := { gt_incident_id : string }.

Record SearchRunbooksArguments := {
  sr_topic : RunbookTopic;
  sr_limit : Z;
}.

(** The union is the tool registry. *)
Inductive ToolArguments :=
  | AMetric (a : QueryMetricArguments)
  | ALogs (a : QueryLogsArguments)
  | AChanges (a : ListRecentChangesArguments)
  | ATopology (a : GetTopologyArguments)
  | ARunbooks (a : SearchRunbooksArguments).

#[export] Instance QueryMetricArguments_eq : EqDecision QueryMetricArguments.
Proof. solve_decision. Defined.
#[export] Instance QueryLogsArguments_eq : EqDecision QueryLogsArguments.
Proof. solve_decision. Defined.
#[export] Instance ListRecentChangesArguments_eq : EqDecision ListRecentChangesArguments.
Proof. solve_decision. Defined.
#[export] Instance GetTopologyArguments_eq : EqDecision GetTopologyArguments.
Proof. solve_decision. Defined.
#[export] Instance SearchRunbooksArguments_eq : EqDecision SearchRunbooksArguments.
Proof. solve_decision. Defined.
#[export] Instance ToolArguments_eq : EqDecision ToolArguments.
Proof. solve_decision. Defined.

(** The discriminator, the [tool] field of each argument class. *)
Definition arguments_tool (a : ToolArguments) : ToolName :=
  match a with
  | AMetric _ => QUERY_METRIC
  | ALogs _ => QUERY_LOGS
  | AChanges _ => LIST_RECENT_CHANGES
  | ATopology _ => GET_TOPOLOGY
  | ARunbooks _ => SEARCH_RUNBOOKS
  end.

(** The bounds a constructed argument value satisfies. *)
Definition arguments_in_schema (a : ToolArguments) : bool :=
  match a with
  | ALogs a => (1 <=? ql_row_limit a) && (ql_row_limit a <=? 200)
  | ARunbooks a => (1 <=? sr_limit a) && (sr_limit a <=? 20)
  | _ => true
  end.

(** * Reading JSON objects field by field *)

Notation jobject := (list (string * json)).

(** A required [str]: nothing but a JSON string is accepted. *)
Definition field_str (k : string) (d : jobject) : option string :=
  match dict_get k d with Some (JStr s) => Some s | _ => None end.

Definition field_enum {A} `{StrEnum A} (k : string) (d : jobject) : option A :=
  field_str k d ≫= of_value.

(** A [Literal] field with a default: absent, or exactly that member. *)
Definition field_literal (k : string) (expected : string) (d : jobject) : option unit :=
  match dict_get k d with
  | None => Some tt
  | Some (JStr s) => if decide (s = expected) then Some tt else None
  | Some _ => None
  end.

(** [extra="forbid"] *)
Definition no_extra (allowed : list string) (d : jobject) : option unit :=
  if forallb (fun k => bool_decide (k ∈ allowed)) (dict_keys d) then Some tt else None.

Section schema.
Context `{Pydantic}.

(** An optional [UtcDatetime]: absent and [null] both give [None]. *)
Definition field_datetime (k : string) (d : jobject) : option (option Z) :=
  match dict_get k d with
  | None | Some JNull => Some None
  | Some j => Some <$> coerce_datetime j
  end.

(** An [int] with [ge] and [le]. *)
Definition field_int (k : string) (lo hi : Z) (d : jobject) : option Z :=
  n ← dict_get k d ≫= coerce_int;
  if (lo <=? n) && (n <=? hi) then Some n else None.

Definition validate_metric (d : jobject) : option QueryMetricArguments :=
  _ ← no_extra ["tool"; "template"; "service"; "window_start"; "window_end"] d;
  _ ← field_literal "tool" (value QUERY_METRIC) d;
  template ← field_enum "template" d;
  service ← field_str "service" d;
  ws ← field_datetime "window_start" d;
  we ← field_datetime "window_end" d;
  Some {| qm_template := template; qm_service := service;
          qm_window_start := ws; qm_window_end := we |}.

Definition validate_logs (d : jobject) : option QueryLogsArguments :=
  _ ← no_extra ["tool"; "log_filter"; "service"; "window_start"; "window_end"; "row_limit"] d;
  _ ← field_literal "tool" (value QUERY_LOGS) d;
  log_filter ← field_enum "log_filter" d;
  service ← field_str "service" d;
  ws ← field_datetime "window_start" d;
  we ← field_datetime "window_end" d;
  row_limit ← field_int "row_limit" 1 200 d;
  Some {| ql_log_filter := log_filter; ql_service := service;
          ql_window_start := ws; ql_window_end := we; ql_row_limit := row_limit |}.

Definition validate_changes (d : jobject) : option ListRecentChangesArguments :=
  _ ← no_extra ["tool"; "service"; "window_start"; "window_end"] d;
  _ ← field_literal "tool" (value LIST_RECENT_CHANGES) d;
  service ← field_str "service" d;
  ws ← field_datetime "window_start" d;
  we ← field_datetime "window_end" d;
  Some {| lc_service := service; lc_window_start := ws; lc_window_end := we |}.

Definition validate_topology (d : jobject) : option GetTopologyArguments :=
  _ ← no_extra ["tool"; "incident_id"] d;
  _ ← field_literal "tool" (value GET_TOPOLOGY) d;
  incident_id ← field_str "incident_id" d;
  Some {| gt_incident_id := incident_id |}.

Definition validate_runbooks (d : jobject) : option SearchRunbooksArguments :=
  _ ← no_extra ["tool"; "topic"; "limit"] d;
  _ ← field_literal "tool" (value SEARCH_RUNBOOKS) d;
  topic ← field_enum "topic" d;
  limit ← field_int "limit" 1 20 d;
  Some {| sr_topic := topic; sr_limit := limit |}.

(** The discriminated union: [tool] selects the class, which reads the rest. *)
Definition validate_arguments (d : jobject) : option ToolArguments :=
  tool ← field_enum "tool" d;
  match tool with
  | QUERY_METRIC => AMetric <$> validate_metric d
  | QUERY_LOGS => ALogs <$> validate_logs d
  | LIST_RECENT_CHANGES => AChanges <$> validate_changes d
  | GET_TOPOLOGY => ATopology <$> validate_topology d
  | SEARCH_RUNBOOKS => ARunbooks <$> validate_runbooks d
  end.

(** [model_dump(mode="json")]: every field, in declaration order. *)
Definition dump_opt_datetime (t : option Z) : json :=
  match t with None => JNull | Some t => JStr (dump_datetime t) end.

Definition dump_arguments (a : ToolArguments) : jobject :=
  ("tool", JStr (value (arguments_tool a))) ::
  match a with
  | AMetric a =>
      [("template", JStr (value (qm_template a))); ("service", JStr (qm_service a));
       ("window_start", dump_opt_datetime (qm_window_start a));
       ("window_end", dump_opt_datetime (qm_window_end a))]
  | ALogs a =>
      [("log_filter", JStr (value (ql_log_filter a))); ("service", JStr (ql_service a));
       ("window_start", dump_opt_datetime (ql_window_start a));
       ("window_end", dump_opt_datetime (ql_window_end a));
       ("row_limit", JInt (ql_row_limit a))]
  | AChanges a =>
      [("service", JStr (lc_service a));
       ("window_start", dump_opt_datetime (lc_window_start a));
       ("window_end", dump_opt_datetime (lc_window_end a))]
  | ATopology a => [("incident_id", JStr (gt_incident_id a))]
  | ARunbooks a => [("topic", JStr (value (sr_topic a))); ("limit", JInt (sr_limit a))]
  end.

(** Stable hash of a tool and its arguments. *)
Definition fingerprint `{Host} (a : ToolArguments) : string :=
  sha256_hex (json_dumps_compact (JObj (dump_arguments a))).
End schema.

(** * Lemmas *)

#[export] Instance ToolName_laws : StrEnumLaws ToolName.
Proof. solve_enum. Qed.
#[export] Instance MetricTemplate_laws : StrEnumLaws MetricTemplate.
Proof. solve_enum. Qed.
#[export] Instance LogFilter_laws : StrEnumLaws LogFilter.
Proof. solve_enum. Qed.
#[export] Instance RunbookTopic_laws : StrEnumLaws RunbookTopic.
Proof. solve_enum. Qed.

(** Two spellings of one instant, whatever their offsets, are one moment. *)
Lemma to_utc_spelling local_us offset_us shift_us :
  to_utc (local_us + shift_us) (offset_us + shift_us) = to_utc local_us offset_us.
Proof. unfold to_utc. lia. Qed.

Section schema_lemmas.
Context `{PydanticRoundTrip}.

Lemma field_datetime_dump k t d :
  dict_get k d = Some (dump_opt_datetime t) -> field_datetime k d = Some t.
Proof.
  intros Hg. unfold field_datetime. rewrite Hg. destruct t as [t|]; simpl; [|done].
  by rewrite coerce_dump_datetime.
Qed.

Lemma field_int_dump k lo hi z d :
  dict_get k d = Some (JInt z) -> (lo <=? z) && (z <=? hi) = true ->
  field_int k lo hi d = Some z.
Proof. intros Hg Hb. unfold field_int, mbind, option_bind. by rewrite Hg, coerce_int_int, Hb. Qed.

Lemma field_enum_dump {A} `{StrEnumLaws A} k (a : A) d :
  dict_get k d = Some (JStr (value a)) -> field_enum k d = Some a.
Proof. intros Hg. unfold field_enum, field_str. rewrite Hg. apply of_value_value. Qed.

(** Reading back what was written gives the same arguments. *)
Lemma validate_dump_arguments a :
  arguments_in_schema a = true -> validate_arguments (dump_arguments a) = Some a.
Proof.
  intros Hs. unfold validate_arguments.
  rewrite (field_enum_dump "tool" (arguments_tool a)) by done.
  lazymatch goal with |- (Some ?t ≫= ?f) = ?r => change (f t = r) end.
  destruct a as [a|a|a|a|a]; destruct a; cbv beta iota delta [arguments_tool];
    unfold validate_metric, validate_logs, validate_changes, validate_topology,
      validate_runbooks;
    repeat first
      [ erewrite field_enum_dump by reflexivity
      | erewrite field_datetime_dump by reflexivity
      | erewrite field_int_dump by (reflexivity || exact Hs) ];
    reflexivity.
Qed.
End schema_lemmas.
