(* ===== verification/Domain.v ===== *)
(** The typed contracts every component shares (domain.py): enumerations,
    records, the validators that run when one is constructed, and the
    exceptions the program raises.

    A Pydantic model is a record together with its [check_...] function: the
    function is the model's own bounds and [mode="after"] validator, and
    building or re-validating a value runs it.  Graph state holds records as
    JSON dumps; since dumping and re-validating returns the record or the
    validator's error, a dump is represented by the record it came from. *)
From Stdlib Require Import ZArith Lia.
From stdpp Require Import prelude strings list.
From S2P Require Import Prelude PyText Float64 Tools.
Local Open Scope Z_scope.

Definition SCHEMA_VERSION : string := "1".

Definition REPLAY_MODEL_NAME : string := "replay".

(** * Enumerations *)

Inductive RootCauseCode :=
  | CONFIG_CHANGE
  | DOWNSTREAM_TIMEOUT_RETRY_AMPLIFICATION
  | RESOURCE_POOL_SATURATION
  | UNDETERMINED.

Inductive Disposition := DIAGNOSED | INSUFFICIENT_EVIDENCE | FAILED_SAFE.

(** The dispositions a model may select: [FAILED_SAFE] has no member. *)
Inductive ModelDisposition := M_DIAGNOSED | M_INSUFFICIENT_EVIDENCE.

Inductive EvidenceKind := SYMPTOM | TOPOLOGY | METRIC | LOG | CHANGE.

Inductive RetrievalMode := DISABLED | FTS5_LEXICAL | PINECONE_SEMANTIC.

Inductive GatewaySymptom :=
  ELEVATED_ERRORS | ELEVATED_LATENCY | ELEVATED_ERRORS_AND_LATENCY.

Inductive PolicyResult := ALLOWED | DENIED.

Inductive ToolOutcome := EXECUTED | TIMEOUT | UNAVAILABLE | ERROR | NOT_EXECUTED.

Inductive ReasonCode :=
  | BUDGET_EXHAUSTED
  | CROSS_INCIDENT_REQUEST
  | UNKNOWN_SERVICE
  | OUTSIDE_INCIDENT_WINDOW
  | UNRESOLVED_WINDOW
  | RESULT_LIMIT_EXCEEDED
  | DUPLICATE_PROPOSAL
  | TOOL_TIMEOUT
  | TOOL_UNAVAILABLE
  | TOOL_ERROR
  | MODEL_OUTPUT_INVALID
  | REPAIR_EXHAUSTED
  | MODEL_CALL_BUDGET_EXHAUSTED
  | WALL_CLOCK_EXPIRED
  | FORGED_EVIDENCE_REFERENCE
  | RESULT_ALREADY_FINALIZED
  | COST_CEILING_EXCEEDED
  | INPUT_TOKEN_CAP_EXCEEDED
  | AMBIGUOUS_MODEL_REQUEST
  | INTERNAL_ERROR.

Inductive GraphPhase :=
  | P_CREATED
  | P_INVESTIGATE
  | P_DISPATCH_TOOL
  | P_NORMALIZE_EVIDENCE
  | P_FINAL_ASSESSMENT
  | P_ESCALATION_INTERRUPT
  | P_FINAL_REPORT.

Inductive EscalationReason :=
  | E_CONFLICTING_EVIDENCE
  | E_TOOL_UNAVAILABLE
  | E_INSUFFICIENT_EVIDENCE_WITH_CHECK_REMAINING
  | E_RETRIEVAL_COVERAGE_INSUFFICIENT.

Inductive ReceiptState := RESERVED | SETTLED.

(** The two literals an owner's decision may be. *)
Inductive OwnerChoice := accept | reject.

#[export] Instance RootCauseCode_eq : EqDecision RootCauseCode.
Proof. solve_decision. Defined.
#[export] Instance Disposition_eq : EqDecision Disposition.
Proof. solve_decision. Defined.
#[export] Instance ModelDisposition_eq : EqDecision ModelDisposition.
Proof. solve_decision. Defined.
#[export] Instance EvidenceKind_eq : EqDecision EvidenceKind.
Proof. solve_decision. Defined.
#[export] Instance RetrievalMode_eq : EqDecision RetrievalMode.
Proof. solve_decision. Defined.
#[export] Instance PolicyResult_eq : EqDecision PolicyResult.
Proof. solve_decision. Defined.
#[export] Instance ToolOutcome_eq : EqDecision ToolOutcome.
Proof. solve_decision. Defined.
#[export] Instance ReasonCode_eq : EqDecision ReasonCode.
Proof. solve_decision. Defined.
#[export] Instance GraphPhase_eq : EqDecision GraphPhase.
Proof. solve_decision. Defined.
#[export] Instance EscalationReason_eq : EqDecision EscalationReason.
Proof. solve_decision. Defined.
#[export] Instance ReceiptState_eq : EqDecision ReceiptState.
Proof. solve_decision. Defined.
#[export] Instance OwnerChoice_eq : EqDecision OwnerChoice.
Proof. solve_decision. Defined.

#[export] Instance RootCauseCode_enum : StrEnum RootCauseCode := {
  members := [CONFIG_CHANGE; DOWNSTREAM_TIMEOUT_RETRY_AMPLIFICATION;
              RESOURCE_POOL_SATURATION; UNDETERMINED];
  value c := match c with
    | CONFIG_CHANGE => "CONFIG_CHANGE"
    | DOWNSTREAM_TIMEOUT_RETRY_AMPLIFICATION => "DOWNSTREAM_TIMEOUT_RETRY_AMPLIFICATION"
    | RESOURCE_POOL_SATURATION => "RESOURCE_POOL_SATURATION"
    | UNDETERMINED => "UNDETERMINED"
    end;
}.

#[export] Instance ModelDisposition_enum : StrEnum ModelDisposition := {
  members := [M_DIAGNOSED; M_INSUFFICIENT_EVIDENCE];
  value c := match c with
    | M_DIAGNOSED => "DIAGNOSED"
    | M_INSUFFICIENT_EVIDENCE => "INSUFFICIENT_EVIDENCE"
    end;
}.

#[export] Instance EvidenceKind_enum : StrEnum EvidenceKind := {
  members := [SYMPTOM; TOPOLOGY; METRIC; LOG; CHANGE];
  value c := match c with
    | SYMPTOM => "SYMPTOM" | TOPOLOGY => "TOPOLOGY" | METRIC => "METRIC"
    | LOG => "LOG" | CHANGE => "CHANGE"
    end;
}.

#[export] Instance RetrievalMode_enum : StrEnum RetrievalMode := {
  members := [DISABLED; FTS5_LEXICAL; PINECONE_SEMANTIC];
  value c := match c with
    | DISABLED => "disabled" | FTS5_LEXICAL => "fts5_lexical"
    | PINECONE_SEMANTIC => "pinecone_semantic"
    end;
}.

#[export] Instance GatewaySymptom_enum : StrEnum GatewaySymptom := {
  members := [ELEVATED_ERRORS; ELEVATED_LATENCY; ELEVATED_ERRORS_AND_LATENCY];
  value c := match c with
    | ELEVATED_ERRORS => "ELEVATED_ERRORS"
    | ELEVATED_LATENCY => "ELEVATED_LATENCY"
    | ELEVATED_ERRORS_AND_LATENCY => "ELEVATED_ERRORS_AND_LATENCY"
    end;
}.

#[export] Instance ToolOutcome_enum : StrEnum ToolOutcome := {
  members := [EXECUTED; TIMEOUT; UNAVAILABLE; ERROR; NOT_EXECUTED];
  value c := match c with
    | EXECUTED => "EXECUTED" | TIMEOUT => "TIMEOUT" | UNAVAILABLE => "UNAVAILABLE"
    | ERROR => "ERROR" | NOT_EXECUTED => "NOT_EXECUTED"
    end;
}.

#[export] Instance ReasonCode_enum : StrEnum ReasonCode := {
  members := [BUDGET_EXHAUSTED; CROSS_INCIDENT_REQUEST; UNKNOWN_SERVICE;
    OUTSIDE_INCIDENT_WINDOW; UNRESOLVED_WINDOW; RESULT_LIMIT_EXCEEDED; DUPLICATE_PROPOSAL;
    TOOL_TIMEOUT; TOOL_UNAVAILABLE; TOOL_ERROR; MODEL_OUTPUT_INVALID; REPAIR_EXHAUSTED;
    MODEL_CALL_BUDGET_EXHAUSTED; WALL_CLOCK_EXPIRED; FORGED_EVIDENCE_REFERENCE;
    RESULT_ALREADY_FINALIZED; COST_CEILING_EXCEEDED; INPUT_TOKEN_CAP_EXCEEDED;
    AMBIGUOUS_MODEL_REQUEST; INTERNAL_ERROR];
  value c := match c with
    | BUDGET_EXHAUSTED => "BUDGET_EXHAUSTED"
    | CROSS_INCIDENT_REQUEST => "CROSS_INCIDENT_REQUEST"
    | UNKNOWN_SERVICE => "UNKNOWN_SERVICE"
    | OUTSIDE_INCIDENT_WINDOW => "OUTSIDE_INCIDENT_WINDOW"
    | UNRESOLVED_WINDOW => "UNRESOLVED_WINDOW"
    | RESULT_LIMIT_EXCEEDED => "RESULT_LIMIT_EXCEEDED"
    | DUPLICATE_PROPOSAL => "DUPLICATE_PROPOSAL"
    | TOOL_TIMEOUT => "TOOL_TIMEOUT"
    | TOOL_UNAVAILABLE => "TOOL_UNAVAILABLE"
    | TOOL_ERROR => "TOOL_ERROR"
    | MODEL_OUTPUT_INVALID => "MODEL_OUTPUT_INVALID"
    | REPAIR_EXHAUSTED => "REPAIR_EXHAUSTED"
    | MODEL_CALL_BUDGET_EXHAUSTED => "MODEL_CALL_BUDGET_EXHAUSTED"
    | WALL_CLOCK_EXPIRED => "WALL_CLOCK_EXPIRED"
    | FORGED_EVIDENCE_REFERENCE => "FORGED_EVIDENCE_REFERENCE"
    | RESULT_ALREADY_FINALIZED => "RESULT_ALREADY_FINALIZED"
    | COST_CEILING_EXCEEDED => "COST_CEILING_EXCEEDED"
    | INPUT_TOKEN_CAP_EXCEEDED => "INPUT_TOKEN_CAP_EXCEEDED"
    | AMBIGUOUS_MODEL_REQUEST => "AMBIGUOUS_MODEL_REQUEST"
    | INTERNAL_ERROR => "INTERNAL_ERROR"
    end;
}.

#[export] Instance GraphPhase_enum : StrEnum GraphPhase := {
  members := [P_CREATED; P_INVESTIGATE; P_DISPATCH_TOOL; P_NORMALIZE_EVIDENCE;
              P_FINAL_ASSESSMENT; P_ESCALATION_INTERRUPT; P_FINAL_REPORT];
  value c := match c with
    | P_CREATED => "CREATED"
    | P_INVESTIGATE => "INVESTIGATE"
    | P_DISPATCH_TOOL => "DISPATCH_TOOL"
    | P_NORMALIZE_EVIDENCE => "NORMALIZE_EVIDENCE"
    | P_FINAL_ASSESSMENT => "FINAL_ASSESSMENT"
    | P_ESCALATION_INTERRUPT => "ESCALATION_INTERRUPT"
    | P_FINAL_REPORT => "FINAL_REPORT"
    end;
}.

#[export] Instance EscalationReason_enum : StrEnum EscalationReason := {
  members := [E_CONFLICTING_EVIDENCE; E_TOOL_UNAVAILABLE;
              E_INSUFFICIENT_EVIDENCE_WITH_CHECK_REMAINING; E_RETRIEVAL_COVERAGE_INSUFFICIENT];
  value c := match c with
    | E_CONFLICTING_EVIDENCE => "CONFLICTING_EVIDENCE"
    | E_TOOL_UNAVAILABLE => "TOOL_UNAVAILABLE"
    | E_INSUFFICIENT_EVIDENCE_WITH_CHECK_REMAINING =>
        "INSUFFICIENT_EVIDENCE_WITH_CHECK_REMAINING"
    | E_RETRIEVAL_COVERAGE_INSUFFICIENT => "RETRIEVAL_COVERAGE_INSUFFICIENT"
    end;
}.

#[export] Instance Disposition_enum : StrEnum Disposition := {
  members := [DIAGNOSED; INSUFFICIENT_EVIDENCE; FAILED_SAFE];
  value c := match c with
    | DIAGNOSED => "DIAGNOSED" | INSUFFICIENT_EVIDENCE => "INSUFFICIENT_EVIDENCE"
    | FAILED_SAFE => "FAILED_SAFE"
    end;
}.

#[export] Instance PolicyResult_enum : StrEnum PolicyResult := {
  members := [ALLOWED; DENIED];
  value c := match c with ALLOWED => "ALLOWED" | DENIED => "DENIED" end;
}.

#[export] Instance ReceiptState_enum : StrEnum ReceiptState := {
  members := [RESERVED; SETTLED];
  value c := match c with RESERVED => "RESERVED" | SETTLED => "SETTLED" end;
}.

#[export] Instance OwnerChoice_enum : StrEnum OwnerChoice := {
  members := [accept; reject];
  value c := match c with accept => "accept" | reject => "reject" end;
}.

(** * Exceptions

    One constructor per exception class the program raises or tells apart;
    [OtherError] is any other [Exception] subclass, by name.  [GraphBubbleUp]
    is LangGraph's control-flow signal. *)
Inductive CheckpointStoreReasonCode :=
  | THREAD_NOT_FOUND
  | NO_PENDING_INTERRUPT
  | CONFLICTING_DECISION
  | INVALID_REJECTION_NOTE
  | RESERVATION_NOT_SETTLEABLE
  | CEILING_BELOW_RESERVATION_BUFFER
  | CEILING_MALFORMED
  | STORE_UNAVAILABLE.

#[export] Instance CheckpointStoreReasonCode_enum : StrEnum CheckpointStoreReasonCode := {
  members := [THREAD_NOT_FOUND; NO_PENDING_INTERRUPT; CONFLICTING_DECISION; INVALID_REJECTION_NOTE;
              RESERVATION_NOT_SETTLEABLE; CEILING_BELOW_RESERVATION_BUFFER; CEILING_MALFORMED;
              STORE_UNAVAILABLE];
  value c := match c with
    | THREAD_NOT_FOUND => "THREAD_NOT_FOUND"
    | NO_PENDING_INTERRUPT => "NO_PENDING_INTERRUPT"
    | CONFLICTING_DECISION => "CONFLICTING_DECISION"
    | INVALID_REJECTION_NOTE => "INVALID_REJECTION_NOTE"
    | RESERVATION_NOT_SETTLEABLE => "RESERVATION_NOT_SETTLEABLE"
    | CEILING_BELOW_RESERVATION_BUFFER => "CEILING_BELOW_RESERVATION_BUFFER"
    | CEILING_MALFORMED => "CEILING_MALFORMED"
    | STORE_UNAVAILABLE => "STORE_UNAVAILABLE"
    end;
}.

(** scenario_control.py *)
Inductive LabReasonCode :=
  | DOCKER_UNAVAILABLE
  | LAB_NOT_HEALTHY
  | SCENARIO_ALREADY_ACTIVE
  | UNKNOWN_FAMILY
  | UNKNOWN_CONFIG_KEY
  | INCIDENT_NOT_FOUND
  | BASELINE_NOT_HEALTHY
  | FAULT_NOT_OBSERVED
  | UNKNOWN_SEED
  | CORRUPT_ARTIFACT.

#[export] Instance LabReasonCode_enum : StrEnum LabReasonCode := {
  members := [DOCKER_UNAVAILABLE; LAB_NOT_HEALTHY; SCENARIO_ALREADY_ACTIVE; UNKNOWN_FAMILY;
              UNKNOWN_CONFIG_KEY; INCIDENT_NOT_FOUND; BASELINE_NOT_HEALTHY; FAULT_NOT_OBSERVED;
              UNKNOWN_SEED; CORRUPT_ARTIFACT];
  value c := match c with
    | DOCKER_UNAVAILABLE => "DOCKER_UNAVAILABLE"
    | LAB_NOT_HEALTHY => "LAB_NOT_HEALTHY"
    | SCENARIO_ALREADY_ACTIVE => "SCENARIO_ALREADY_ACTIVE"
    | UNKNOWN_FAMILY => "UNKNOWN_FAMILY"
    | UNKNOWN_CONFIG_KEY => "UNKNOWN_CONFIG_KEY"
    | INCIDENT_NOT_FOUND => "INCIDENT_NOT_FOUND"
    | BASELINE_NOT_HEALTHY => "BASELINE_NOT_HEALTHY"
    | FAULT_NOT_OBSERVED => "FAULT_NOT_OBSERVED"
    | UNKNOWN_SEED => "UNKNOWN_SEED"
    | CORRUPT_ARTIFACT => "CORRUPT_ARTIFACT"
    end;
}.

Inductive exn :=
  | ValidationError
  | ValueError
  | AssertionError
  | KeyError
  | TypeError
  | OverflowError
  | ReceiptAlreadySettled (receipt_id : string)
  | CheckpointStoreError (code : CheckpointStoreReasonCode)
  | CostCeilingExceeded (reservation_usd remaining_usd : f64)
  | InputTooLarge (estimated_tokens : Z)
  | AmbiguousReservationNotResent (run_id graph_phase : string) (model_turn : Z)
  | MissingCredential
  | MissingProviderUsage
  | ReplayFixtureError
  | GraphRecursionError
  | GraphBubbleUp
  | LabError (reason_code : LabReasonCode)
  | EvaluationAborted (reason_code : ReasonCode)
  | OtherError (name : string).

(** [type(error).__name__] *)
Definition exn_name (e : exn) : string :=
  match e with
  | ValidationError => "ValidationError"
  | ValueError => "ValueError"
  | AssertionError => "AssertionError"
  | KeyError => "KeyError"
  | TypeError => "TypeError"
  | OverflowError => "OverflowError"
  | ReceiptAlreadySettled _ => "ReceiptAlreadySettled"
  | CheckpointStoreError _ => "CheckpointStoreError"
  | CostCeilingExceeded _ _ => "CostCeilingExceeded"
  | InputTooLarge _ => "InputTooLarge"
  | AmbiguousReservationNotResent _ _ _ => "AmbiguousReservationNotResent"
  | MissingCredential => "MissingCredential"
  | MissingProviderUsage => "MissingProviderUsage"
  | ReplayFixtureError => "ReplayFixtureError"
  | GraphRecursionError => "GraphRecursionError"
  | GraphBubbleUp => "GraphBubbleUp"
  | LabError _ => "LabError"
  | EvaluationAborted _ => "EvaluationAborted"
  | OtherError name => name
  end.

Notation res := (result exn).

(** A validator's [raise ValueError], which Pydantic reports as a [ValidationError]. *)
Definition require (ok : bool) : res unit := if ok then Ok tt else Err ValidationError.

Definition max_length (n : Z) (s : string) : bool := str_len s <=? n.

Definition nonempty {A} (l : list A) : bool := match l with [] => false | _ => true end.

Definition is_some {A} (o : option A) : bool := match o with Some _ => true | None => false end.

(** * Records *)

Record Budgets := {
  wall_clock_seconds : Z;
  tool_timeout_seconds : Z;
  model_calls : Z;
  executed_tools : Z;
  runbook_searches : Z;
  runbook_passages : Z;
  repairs : Z;
  log_rows : Z;
}.

(** [repairs] alone is bounded by the schema. *)
Definition check_budgets (b : Budgets) : res Budgets :=
  _ ← require ((0 <=? repairs b) && (repairs b <=? 2)); Ok b.

Definition DEFAULT_BUDGETS : Budgets := {|
  wall_clock_seconds := 360; tool_timeout_seconds := 10; model_calls := 4;
  executed_tools := 2; runbook_searches := 1; runbook_passages := 5; repairs := 2;
  log_rows := 40 |}.

Record Versions := {
  prompt_version : string;
  policy_version : string;
  tool_registry_version : string;
}.

Record ModelUsage := { input_tokens : Z; output_tokens : Z }.

Record IncidentScope := {
  sc_incident_id : string;
  sc_environment : string;
  sc_services : list string;
  sc_started_at : Z;
  sc_ended_at : Z;
  sc_endpoint : string;
}.

Definition check_window (s : IncidentScope) : res IncidentScope :=
  _ ← require (nonempty (sc_services s) && bool_decide (sc_environment s = "local-lab"));
  _ ← require (negb (sc_ended_at s <=? sc_started_at s));
  Ok s.

Record Evidence := {
  ev_evidence_id : string;
  ev_incident_id : string;
  ev_kind : EvidenceKind;
  ev_source : string;
  ev_observed_at : Z;
  ev_summary : string;
  ev_payload : list (string * json);
  ev_receipt_id : option string;
  ev_content_hash : string;
}.

Definition check_evidence (e : Evidence) : res Evidence :=
  _ ← require (max_length 400 (ev_summary e)); Ok e.

Record InitialAlertPacket := {
  ap_incident_id : string;
  ap_window_start : Z;
  ap_window_end : Z;
  ap_endpoint : string;
  ap_symptom : GatewaySymptom;
  ap_services : list string;
  ap_alerted_at : Z;
  ap_alert_source_version : string;
  ap_symptom_evidence_id : string;
  ap_topology_evidence_id : string;
}.

(** A packet names a service. *)
Definition check_packet (p : InitialAlertPacket) : res InitialAlertPacket :=
  _ ← require (nonempty (ap_services p)); Ok p.

Record StoredIncident := {
  si_scope : IncidentScope;
  si_packet : InitialAlertPacket;
  si_evidence : list Evidence;
}.

(** The three places an incident id is written must agree. *)
Definition check_identity_agrees (s : StoredIncident) : res StoredIncident :=
  let id := sc_incident_id (si_scope s) in
  _ ← require (bool_decide (ap_incident_id (si_packet s) = id));
  _ ← require (forallb (fun e => bool_decide (ev_incident_id e = id)) (si_evidence s));
  Ok s.

Record Hypothesis_ := {
  hy_root_cause : RootCauseCode;
  hy_rank : Z;
  hy_supporting_evidence_ids : list string;
  hy_contrary_evidence_ids : list string;
  hy_missing_evidence : string;
}.

Record ToolProposal := {
  pr_arguments : ToolArguments;
  pr_evidence_gap : string;
  pr_expected_observation : string;
}.

Definition pr_tool (p : ToolProposal) : ToolName := arguments_tool (pr_arguments p).

Definition check_proposal (p : ToolProposal) : res ToolProposal :=
  _ ← require (max_length 300 (pr_evidence_gap p) && max_length 300 (pr_expected_observation p));
  Ok p.

Record ToolReceipt := {
  rc_receipt_id : string;
  rc_incident_id : string;
  rc_tool : ToolName;
  rc_fingerprint : string;
  rc_policy_result : PolicyResult;
  rc_state : ReceiptState;
  rc_outcome : option ToolOutcome;
  rc_reason_code : option ReasonCode;
  rc_requested_at : Z;
  rc_duration_ms : Z;
  rc_result_digest : option string;
  rc_evidence_id : option string;
  rc_arguments : option ToolArguments;
}.

Definition carries_a_result (r : ToolReceipt) : bool :=
  is_some (rc_outcome r) || is_some (rc_result_digest r) || is_some (rc_evidence_id r).

Definition check_lifecycle_coherence (r : ToolReceipt) : res ToolReceipt :=
  _ ← require (0 <=? rc_duration_ms r);
  _ ← require (negb (bool_decide (rc_state r = RESERVED) && carries_a_result r));
  _ ← require (negb (bool_decide (rc_state r = SETTLED) && negb (is_some (rc_outcome r))));
  Ok r.

(** [InitialPlan] and [HypothesisUpdate] have the same fields and validator. *)
Record StagePlan := {
  pl_hypotheses : list Hypothesis_;
  pl_proposal : option ToolProposal;
  pl_stop_reason : option string;
}.

Definition check_hypothesis (h : Hypothesis_) : bool :=
  (1 <=? hy_rank h) && max_length 300 (hy_missing_evidence h).

Definition check_proposal_or_stop (p : StagePlan) : res StagePlan :=
  let n := Z.of_nat (length (pl_hypotheses p)) in
  _ ← require ((2 <=? n) && (n <=? 3) && forallb check_hypothesis (pl_hypotheses p));
  _ ← require (match pl_stop_reason p with
               | None => true
               | Some s => (1 <=? str_len s) && max_length 600 s
               end);
  _ ← require (negb (Bool.eqb (negb (is_some (pl_proposal p)))
                              (negb (is_some (pl_stop_reason p)))));
  Ok p.

Record FinalAssessment := {
  fa_schema_version : string;
  fa_disposition : ModelDisposition;
  fa_root_cause : RootCauseCode;
  fa_supporting_evidence_ids : list string;
  fa_contrary_evidence_ids : list string;
  fa_runbook_citations : list string;
  fa_uncertainty : string;
  fa_next_step : string;
}.

Definition check_assessment (a : FinalAssessment) : res FinalAssessment :=
  _ ← require (max_length 600 (fa_uncertainty a) && max_length 300 (fa_next_step a));
  match fa_disposition a with
  | M_DIAGNOSED =>
      _ ← require (negb (bool_decide (fa_root_cause a = UNDETERMINED)));
      _ ← require (nonempty (fa_supporting_evidence_ids a));
      Ok a
  | M_INSUFFICIENT_EVIDENCE =>
      _ ← require (bool_decide (fa_root_cause a = UNDETERMINED));
      Ok a
  end.

Record CheckOutcome := {
  co_outcome : ToolOutcome;
  co_kind : EvidenceKind;
  co_source : string;
  co_summary : string;
  co_payload : list (string * json);
  co_reason_code : option ReasonCode;
  co_duration_ms : Z;
}.

Record RunbookPassage := {
  rp_passage_id : string;
  rp_content : string;
  rp_source_version : string;
  rp_content_hash : string;
  rp_score : string;
  rp_retrieval_mode : RetrievalMode;
}.

Definition check_passage (p : RunbookPassage) : res RunbookPassage :=
  _ ← require (max_length 800 (rp_content p)); Ok p.

Record RunbookCheckOutcome := {
  ro_outcome : ToolOutcome;
  ro_passages : list RunbookPassage;
  ro_retrieval_mode : RetrievalMode;
  ro_reason_code : option ReasonCode;
  ro_duration_ms : Z;
}.

Record EscalationRecord := {
  er_reason : EscalationReason;
  er_decision : OwnerChoice;
  er_rejection_note : option string;
}.

Definition check_rejection_note_pairing (e : EscalationRecord) : res EscalationRecord :=
  _ ← require (match er_rejection_note e with None => true | Some n => max_length 300 n end);
  _ ← require (negb (bool_decide (er_decision e = reject)
                     && negb (match er_rejection_note e with
                              | None => false
                              | Some n => negb (bool_decide (py_strip n = ""))
                              end)));
  _ ← require (negb (bool_decide (er_decision e = accept) && is_some (er_rejection_note e)));
  Ok e.

Record InvestigationReport := {
  ir_investigation_id : string;
  ir_incident_id : string;
  ir_disposition : Disposition;
  ir_root_cause : RootCauseCode;
  ir_assessment : option FinalAssessment;
  ir_reason_code : option ReasonCode;
  ir_budgets : Budgets;
  ir_versions : Versions;
  ir_started_at : Z;
  ir_finished_at : Z;
  ir_latency_ms : Z;
  ir_model_calls_used : Z;
  ir_repairs_used : Z;
  ir_tools_executed : Z;
  ir_invalid_responses : Z;
  ir_usage : option ModelUsage;
  ir_final_context_digest : string;
  ir_evidence_ids : list string;
  ir_receipt_ids : list string;
  ir_retrieval_mode : RetrievalMode;
  ir_runbook_passage_ids : list string;
  ir_limitations : list string;
  ir_escalation : option EscalationRecord;
}.

Definition check_report_bounds (r : InvestigationReport) : bool :=
  (0 <=? ir_latency_ms r) && (0 <=? ir_model_calls_used r) && (0 <=? ir_repairs_used r)
  && (0 <=? ir_tools_executed r) && (0 <=? ir_invalid_responses r).

Definition check_report (r : InvestigationReport) : res InvestigationReport :=
  _ ← require (check_report_bounds r);
  match ir_disposition r with
  | DIAGNOSED =>
      _ ← require (negb (bool_decide (ir_root_cause r = UNDETERMINED)));
      _ ← require (is_some (ir_assessment r));
      Ok r
  | INSUFFICIENT_EVIDENCE =>
      _ ← require (bool_decide (ir_root_cause r = UNDETERMINED));
      _ ← require (is_some (ir_assessment r));
      Ok r
  | FAILED_SAFE =>
      _ ← require (bool_decide (ir_root_cause r = UNDETERMINED));
      _ ← require (negb (is_some (ir_assessment r)));
      _ ← require (is_some (ir_reason_code r));
      Ok r
  end.

Record InvestigationResult := {
  res_report : InvestigationReport;
  res_evidence : list Evidence;
  res_receipts : list ToolReceipt;
}.

Record EscalatedInvestigation := {
  es_thread_id : string;
  es_run_id : string;
  es_checkpoint_id : string;
  es_reason : EscalationReason;
  es_evidence : list Evidence;
  es_receipts : list ToolReceipt;
  es_remaining_check_count : Z;
  es_proposal_fingerprint : option string;
}.

(** * Lemmas *)

#[export] Instance RootCauseCode_laws : StrEnumLaws RootCauseCode.
Proof. solve_enum. Qed.
#[export] Instance ModelDisposition_laws : StrEnumLaws ModelDisposition.
Proof. solve_enum. Qed.
#[export] Instance EvidenceKind_laws : StrEnumLaws EvidenceKind.
Proof. solve_enum. Qed.
#[export] Instance RetrievalMode_laws : StrEnumLaws RetrievalMode.
Proof. solve_enum. Qed.
#[export] Instance ToolOutcome_laws : StrEnumLaws ToolOutcome.
Proof. solve_enum. Qed.
#[export] Instance OwnerChoice_laws : StrEnumLaws OwnerChoice.
Proof. solve_enum. Qed.
#[export] Instance EscalationReason_laws : StrEnumLaws EscalationReason.
Proof. solve_enum. Qed.

Lemma require_Ok b u : require b = Ok u <-> b = true.
Proof. destruct b, u; simpl; split; congruence. Qed.

Lemma require_true b : b = true -> require b = Ok tt.
Proof. by intros ->. Qed.

(** Running validators forward and backward. *)
Ltac invert_checks :=
  repeat match goal with
  | H : mbind _ _ = Ok _ |- _ => apply result_bind_Ok in H as (? & ? & H)
  | H : require _ = Ok _ |- _ => apply require_Ok in H
  | H : _ && _ = true |- _ => apply andb_true_iff in H as [? ?]
  | H : negb _ = true |- _ => apply negb_true_iff in H
  | H : Ok _ = Ok _ |- _ => injection H as H
  | H : Err _ = Ok _ |- _ => discriminate H
  end; simplify_eq.

Ltac run_checks :=
  repeat (rewrite require_true by (try done; try lia); cbn beta iota delta [mbind result_bind]).

(** A validator returns the value it was given, or raises. *)
Lemma check_lifecycle_id r r' : check_lifecycle_coherence r = Ok r' -> r' = r.
Proof. unfold check_lifecycle_coherence. intros. by invert_checks. Qed.

Lemma check_evidence_id e e' : check_evidence e = Ok e' -> e' = e.
Proof. unfold check_evidence. intros. by invert_checks. Qed.

Lemma check_assessment_id a a' : check_assessment a = Ok a' -> a' = a.
Proof. unfold check_assessment. intros. destruct (fa_disposition a); by invert_checks. Qed.

Lemma check_proposal_id p p' : check_proposal p = Ok p' -> p' = p.
Proof. unfold check_proposal. intros. by invert_checks. Qed.

Lemma check_passage_id p p' : check_passage p = Ok p' -> p' = p.
Proof. unfold check_passage. intros. by invert_checks. Qed.

Lemma check_escalation_id e e' : check_rejection_note_pairing e = Ok e' -> e' = e.
Proof. unfold check_rejection_note_pairing. intros. by invert_checks. Qed.

Lemma check_report_id r r' : check_report r = Ok r' -> r' = r.
Proof. unfold check_report. intros. destruct (ir_disposition r); by invert_checks. Qed.

(** A validated assessment: a diagnosis names a cause and cites evidence; an
    abstention names none. *)
Lemma check_assessment_Ok a a' :
  check_assessment a = Ok a' ->
  match fa_disposition a with
  | M_DIAGNOSED => fa_root_cause a <> UNDETERMINED /\ fa_supporting_evidence_ids a <> []
  | M_INSUFFICIENT_EVIDENCE => fa_root_cause a = UNDETERMINED
  end.
Proof.
  unfold check_assessment. intros H. destruct (fa_disposition a); invert_checks.
  - split; [by eapply bool_decide_eq_false|]. by destruct (fa_supporting_evidence_ids _).
  - by eapply bool_decide_eq_true.
Qed.

(** A settled receipt carries its outcome and a reserved one carries no result. *)
Lemma check_lifecycle_Ok r r' :
  check_lifecycle_coherence r = Ok r' ->
  (rc_state r = SETTLED -> is_Some (rc_outcome r)) /\
  (rc_state r = RESERVED ->
   rc_outcome r = None /\ rc_result_digest r = None /\ rc_evidence_id r = None).
Proof.
  destruct r as [? ? ? ? ? st o ? ? ? d ev ?].
  unfold check_lifecycle_coherence, carries_a_result. simpl. intros H. invert_checks.
  split; intros ->; destruct o, d, ev; naive_solver.
Qed.

#[export] Hint Resolve check_lifecycle_id check_evidence_id check_assessment_id : ops.
