(* ===== verification/Policy.v ===== *)
(** Deterministic authorization of a model-proposed check (policy.py), and the
    guidance a denial is rendered with (prompts.py, [denial_guidance]). *)
From Stdlib Require Import ZArith Lia.
From stdpp Require Import prelude strings list gmap.
From S2P Require Import Prelude PyText Tools Domain.
Local Open Scope Z_scope.

Definition POLICY_VERSION : string := "4".

Record PolicyDecision := {
  pd_result : PolicyResult;
  pd_fingerprint : string;
  pd_reason_code : option ReasonCode;
  pd_message : string;
}.

Definition check_reason_code (d : PolicyDecision) : res PolicyDecision :=
  _ ← require (negb (bool_decide (pd_result d = DENIED) && negb (is_some (pd_reason_code d))));
  _ ← require (negb (bool_decide (pd_result d = ALLOWED) && is_some (pd_reason_code d)));
  Ok d.

Definition deny (mark : string) (reason_code : ReasonCode) (message : string) : PolicyDecision :=
  {| pd_result := DENIED; pd_fingerprint := mark; pd_reason_code := Some reason_code;
     pd_message := message |}.

Definition allow (mark : string) : PolicyDecision :=
  {| pd_result := ALLOWED; pd_fingerprint := mark; pd_reason_code := None; pd_message := "" |}.

Section policy.
Context `{Pydantic} `{Host}.

(** The part of [authorize] that the three window-carrying tools reach;
    [row_limit] is present for [QueryLogsArguments] only. *)
Definition authorize_windowed (mark : string) (scope : IncidentScope) (budgets : Budgets)
    (service : string) (ws we : option Z) (row_limit : option Z) : PolicyDecision :=
  if negb (bool_decide (service ∈ sc_services scope)) then
    deny mark UNKNOWN_SERVICE "that service is out of scope"
  else match ws, we with
  | Some window_start, Some window_end =>
      if (window_start <? sc_started_at scope) || (sc_ended_at scope <? window_end) then
        deny mark OUTSIDE_INCIDENT_WINDOW "that window leaves the incident"
      else if window_end <=? window_start then
        deny mark OUTSIDE_INCIDENT_WINDOW "that window ends before it starts"
      else match row_limit with
      | Some n =>
          if log_rows budgets <? n then
            deny mark RESULT_LIMIT_EXCEEDED
              ("row_limit " +:+ str_of_Z n +:+ " is above the budget of "
               +:+ str_of_Z (log_rows budgets) +:+ "; propose row_limit "
               +:+ str_of_Z (log_rows budgets) +:+ " or less")
          else allow mark
      | None => allow mark
      end
  | _, _ =>
      deny mark UNRESOLVED_WINDOW
        "a direct caller must resolve the window before calling authorize"
  end.

Definition authorize (proposal : ToolProposal) (scope : IncidentScope)
    (seen_fingerprints : gset string) (budgets : Budgets) (tools_remaining : Z)
    : PolicyDecision :=
  let arguments := pr_arguments proposal in
  let mark := fingerprint arguments in
  if tools_remaining <=? 0 then
    deny mark BUDGET_EXHAUSTED "no diagnostic check budget left"
  else if bool_decide (mark ∈ seen_fingerprints) then
    deny mark DUPLICATE_PROPOSAL "this check was proposed already"
  else match arguments with
  | ATopology a =>
      if bool_decide (gt_incident_id a = sc_incident_id scope) then allow mark
      else deny mark CROSS_INCIDENT_REQUEST "that is another incident"
  | ARunbooks a =>
      if runbook_passages budgets <? sr_limit a then
        deny mark RESULT_LIMIT_EXCEEDED
          ("limit " +:+ str_of_Z (sr_limit a) +:+ " is above the budget of "
           +:+ str_of_Z (runbook_passages budgets) +:+ "; propose limit "
           +:+ str_of_Z (runbook_passages budgets) +:+ " or less")
      else allow mark
  | AMetric a =>
      authorize_windowed mark scope budgets (qm_service a)
        (qm_window_start a) (qm_window_end a) None
  | ALogs a =>
      authorize_windowed mark scope budgets (ql_service a)
        (ql_window_start a) (ql_window_end a) (Some (ql_row_limit a))
  | AChanges a =>
      authorize_windowed mark scope budgets (lc_service a)
        (lc_window_start a) (lc_window_end a) None
  end.
End policy.

(** * Denial guidance *)

Definition STATIC_DENIAL_GUIDANCE : list (ReasonCode * string) :=
  [(BUDGET_EXHAUSTED, "no executed-check slots remain this investigation.");
   (DUPLICATE_PROPOSAL,
    "this exact tool and arguments were already proposed; "
    +:+ "change an argument before proposing it again.");
   (CROSS_INCIDENT_REQUEST,
    "that request targets another incident; use this incident's own id.");
   (UNKNOWN_SERVICE,
    "that service is not part of this incident; "
    +:+ "use one of the services already named above.");
   (UNRESOLVED_WINDOW,
    "the window could not be resolved; omit it to use the full incident window.");
   (OUTSIDE_INCIDENT_WINDOW,
    "the requested window falls outside the incident window; "
    +:+ "narrow it to fit, or omit it.")].

Definition denial_guidance (tool : ToolName) (reason_code : ReasonCode) (budgets : Budgets)
    : res string :=
  if bool_decide (reason_code = RESULT_LIMIT_EXCEEDED) then
    let limit := if bool_decide (tool = QUERY_LOGS) then log_rows budgets
                 else runbook_passages budgets in
    Ok ("the requested limit is above the budget of " +:+ str_of_Z limit +:+ "; propose "
        +:+ str_of_Z limit +:+ " or less.")
  else match dict_get reason_code STATIC_DENIAL_GUIDANCE with
  | Some text => Ok text
  | None => Err KeyError
  end.

(** * Specification: when a check is permitted *)

Definition window_permitted (scope : IncidentScope) (service : string) (ws we : option Z) : Prop :=
  service ∈ sc_services scope /\
  exists s e, ws = Some s /\ we = Some e /\ sc_started_at scope <= s < e /\ e <= sc_ended_at scope.

Definition arguments_permitted (scope : IncidentScope) (budgets : Budgets) (a : ToolArguments)
    : Prop :=
  match a with
  | AMetric a => window_permitted scope (qm_service a) (qm_window_start a) (qm_window_end a)
  | ALogs a => window_permitted scope (ql_service a) (ql_window_start a) (ql_window_end a)
               /\ ql_row_limit a <= log_rows budgets
  | AChanges a => window_permitted scope (lc_service a) (lc_window_start a) (lc_window_end a)
  | ATopology a => gt_incident_id a = sc_incident_id scope
  | ARunbooks a => sr_limit a <= runbook_passages budgets
  end.

(** What each reason code says of the proposal it denies. *)
Definition denial_justified `{Pydantic} `{Host} (a : ToolArguments) (scope : IncidentScope)
    (seen : gset string) (budgets : Budgets) (tools_remaining : Z) (r : ReasonCode) : Prop :=
  match r with
  | BUDGET_EXHAUSTED => tools_remaining <= 0
  | DUPLICATE_PROPOSAL => fingerprint a ∈ seen
  | CROSS_INCIDENT_REQUEST =>
      exists t, a = ATopology t /\ gt_incident_id t <> sc_incident_id scope
  | UNKNOWN_SERVICE | UNRESOLVED_WINDOW | OUTSIDE_INCIDENT_WINDOW =>
      arguments_tool a ∈ [QUERY_METRIC; QUERY_LOGS; LIST_RECENT_CHANGES]
      /\ ~ arguments_permitted scope budgets a
  | RESULT_LIMIT_EXCEEDED =>
      (exists l, a = ALogs l /\ log_rows budgets < ql_row_limit l)
      \/ (exists s, a = ARunbooks s /\ runbook_passages budgets < sr_limit s)
  | _ => False
  end.

(** * Lemmas *)

Section policy_lemmas.
Context `{Pydantic} `{Host}.
Implicit Types (scope : IncidentScope) (b : Budgets) (seen : gset string).

Lemma authorize_fingerprint p scope seen b n :
  pd_fingerprint (authorize p scope seen b n) = fingerprint (pr_arguments p).
Proof. unfold authorize, authorize_windowed. repeat case_match; done. Qed.

Lemma authorize_coherent p scope seen b n :
  check_reason_code (authorize p scope seen b n) = Ok (authorize p scope seen b n).
Proof. unfold authorize, authorize_windowed. repeat case_match; done. Qed.

Lemma authorize_windowed_allowed mark scope b service ws we rl :
  pd_result (authorize_windowed mark scope b service ws we rl) = ALLOWED <->
  window_permitted scope service ws we
  /\ (forall n, rl = Some n -> n <= log_rows b).
Proof.
  unfold authorize_windowed, window_permitted.
  destruct (bool_decide_reflect (service ∈ sc_services scope)) as [Hin|Hout]; simpl.
  2: { split; [done|tauto]. }
  destruct ws as [s|], we as [e|]; simpl;
    [|split; [done|intros [(_ & ? & ? & ? & ? & _) _]; congruence]..].
  destruct (Z.ltb_spec s (sc_started_at scope)), (Z.ltb_spec (sc_ended_at scope) e),
    (Z.leb_spec e s); simpl;
    try (split; [done|intros [(_ & ? & ? & ? & ? & ?) _]; simplify_eq; lia]).
  assert (Hw : exists s0 e0, Some s = Some s0 /\ Some e = Some e0
            /\ sc_started_at scope <= s0 < e0 /\ e0 <= sc_ended_at scope)
    by (exists s, e; split_and!; done || lia).
  destruct rl as [n|]; [destruct (Z.ltb_spec (log_rows b) n)|]; simpl; split; try done.
  - intros [_ Hrl]. specialize (Hrl _ eq_refl). lia.
  - intros _. split; [done|]. intros; simplify_eq; lia.
Qed.

Lemma authorize_windowed_reason mark scope b service ws we rl r :
  pd_reason_code (authorize_windowed mark scope b service ws we rl) = Some r ->
  (r = UNKNOWN_SERVICE \/ r = UNRESOLVED_WINDOW \/ r = OUTSIDE_INCIDENT_WINDOW)
    /\ ~ window_permitted scope service ws we
  \/ r = RESULT_LIMIT_EXCEEDED /\ exists n, rl = Some n /\ log_rows b < n.
Proof.
  unfold authorize_windowed, window_permitted.
  destruct (bool_decide_reflect (service ∈ sc_services scope)) as [Hin|Hout]; simpl.
  2: { intros; simplify_eq. left. tauto. }
  destruct ws as [s|], we as [e|]; simpl;
    [|intros; simplify_eq; left; split; [tauto|naive_solver]..].
  destruct (Z.ltb_spec s (sc_started_at scope)), (Z.ltb_spec (sc_ended_at scope) e),
    (Z.leb_spec e s); simpl;
    try (intros; simplify_eq; left; split;
         [tauto|intros (_ & ? & ? & ? & ? & ?); simplify_eq; lia]).
  destruct rl as [n|]; [|done]. destruct (Z.ltb_spec (log_rows b) n); simpl; [|done].
  intros; simplify_eq. right. eauto.
Qed.

(** The decision procedure and its specification agree. *)
Lemma authorize_allowed_iff p scope seen b n :
  pd_result (authorize p scope seen b n) = ALLOWED <->
  0 < n /\ fingerprint (pr_arguments p) ∉ seen /\ arguments_permitted scope b (pr_arguments p).
Proof.
  unfold authorize. destruct (Z.leb_spec n 0); [split; [done|lia]|].
  case_bool_decide as Hseen; [split; [done|tauto]|].
  destruct (pr_arguments p) as [a|a|a|a|a]; simpl;
    rewrite ?authorize_windowed_allowed.
  1,3: split; [intros [? _]|intros (_ & _ & ?)]; split_and!; auto; done.
  - split; [intros [? Hrl]|intros (_ & _ & ? & ?)]; split_and!; auto; intros; simplify_eq; done.
  - case_bool_decide; split; try done; tauto.
  - destruct (Z.ltb_spec (runbook_passages b) (sr_limit a)); split; try done; lia.
Qed.

Lemma authorize_denied_reason p scope seen b n :
  pd_result (authorize p scope seen b n) = DENIED ->
  exists r, pd_reason_code (authorize p scope seen b n) = Some r
    /\ denial_justified (pr_arguments p) scope seen b n r.
Proof.
  intros Hd. pose proof (authorize_coherent p scope seen b n) as Hc.
  unfold check_reason_code in Hc. rewrite Hd in Hc.
  destruct (pd_reason_code (authorize p scope seen b n)) as [r|] eqn:Hr; [|discriminate Hc].
  exists r. split; [done|]. clear Hc Hd. revert Hr. unfold authorize.
  destruct (Z.leb_spec n 0); [intros [= <-]; done|].
  case_bool_decide as Hseen; [intros [= <-]; done|].
  destruct (pr_arguments p) as [a|a|a|a|a]; simpl.
  - intros [[Hr Hn]|[-> (? & ? & ?)]]%authorize_windowed_reason; [|done].
    destruct Hr as [-> | [-> | -> ]]; (split; [simpl; set_solver|done]).
  - intros [[Hr Hn]|[-> (? & [= <-] & ?)]]%authorize_windowed_reason.
    + destruct Hr as [-> | [-> | -> ]]; (split; [simpl; set_solver|simpl; tauto]).
    + left. eauto.
  - intros [[Hr Hn]|[-> (? & ? & ?)]]%authorize_windowed_reason; [|done].
    destruct Hr as [-> | [-> | -> ]]; (split; [simpl; set_solver|done]).
  - case_bool_decide; simpl; [done|]. intros; simplify_eq. simpl. eauto.
  - destruct (Z.ltb_spec (runbook_passages b) (sr_limit a)); simpl; [|done].
    intros; simplify_eq. right. eauto.
Qed.

(** Every reason [authorize] can give has guidance to render. *)
Lemma denial_guidance_total tool b r a scope seen n :
  denial_justified a scope seen b n r -> exists text, denial_guidance tool r b = Ok text.
Proof. destruct r; simpl; try done; intros _; eexists; reflexivity. Qed.
End policy_lemmas.

(** * Properties *)

Section policy_properties.
Context `{Pydantic} `{Host}.

(** [authorize] allows a check exactly when slots remain, its fingerprint
    was not seen before, and its arguments stay inside the incident's own
    scope and the result budgets; and then the decision carries no reason. *)
Theorem authorize_exact p scope seen b n :
  (pd_result (authorize p scope seen b n) = ALLOWED <->
   0 < n /\ fingerprint (pr_arguments p) ∉ seen
   /\ arguments_permitted scope b (pr_arguments p))
  /\ check_reason_code (authorize p scope seen b n) = Ok (authorize p scope seen b n).
Proof. split; [apply authorize_allowed_iff|apply authorize_coherent]. Qed.

(** every denial names a reason that is true of the proposal, and that
    reason has a sentence of guidance for the model (no [KeyError]). *)
Theorem denial_explained p scope seen b n tool :
  pd_result (authorize p scope seen b n) = DENIED ->
  exists r text,
    pd_reason_code (authorize p scope seen b n) = Some r
    /\ denial_justified (pr_arguments p) scope seen b n r
    /\ denial_guidance tool r b = Ok text.
Proof.
  intros (r & Hr & Hj)%authorize_denied_reason.
  destruct (denial_guidance_total tool b r _ _ _ _ Hj) as [text Ht]. eauto.
Qed.
End policy_properties.
