(* ===== verification/World.v ===== *)
(** What the program reads from outside while it runs, as explicit state: how
    many opaque ids were drawn, how often each clock was read, how many model
    calls were made, and which backend calls happened (a log the program itself
    does not keep; the statements about backends read it).

    The readings are parameters: [clock n] and [event_clock n] are the n-th
    reading of the two clocks of graph.py's [build_graph].  The recorder of a run's
    events (run_records.py, [RunRecorder]) reads the second one. *)
From Stdlib Require Import ZArith Lia.
From stdpp Require Import prelude strings list.
From S2P Require Import Prelude PyText Tools Domain.
Record World := {
  w_ids : nat;
  w_ticks : nat;
  w_event_ticks : nat;
  w_model_calls : nat;
  w_backend_calls : list ToolArguments;
}.
Local Open Scope Z_scope.

#[export] Instance settable_World : Settable World := fun w =>
  {| w_ids := w_ids w; w_ticks := w_ticks w; w_event_ticks := w_event_ticks w;
     w_model_calls := w_model_calls w; w_backend_calls := w_backend_calls w |}.

Definition initial_world : World :=
  {| w_ids := 0; w_ticks := 0; w_event_ticks := 0; w_model_calls := 0;
     w_backend_calls := [] |}.

Class Clocks := {
  clock : nat -> Z;
  event_clock : nat -> Z;
}.

(** [uuid4] does not repeat. *)
Class FreshIds `{Host} := uuid_hex_inj : forall m n, uuid_hex m = uuid_hex n -> m = n.

(** [new_opaque_id()] *)
Definition new_opaque_id `{Host} (w : World) : string * World :=
  (uuid_hex (w_ids w), w <| w_ids := S (w_ids w) |>).

(** [clock()] *)
Definition read_clock `{Clocks} (w : World) : Z * World :=
  (clock (w_ticks w), w <| w_ticks := S (w_ticks w) |>).

Definition read_event_clock `{Clocks} (w : World) : Z * World :=
  (event_clock (w_event_ticks w), w <| w_event_ticks := S (w_event_ticks w) |>).

Record RunEvent := {
  re_sequence : Z;
  re_at : Z;
  re_state : GraphPhase;
  re_name : string;
  re_fields : list (string * json);
}.

(** [recorder.event(state, name, **fields)]: the clock is read for every event. *)
Definition event `{Clocks} (state : GraphPhase) (name : string) (fields : list (string * json))
    (recorded : list RunEvent) (w : World) : list RunEvent * World :=
  let '(at_, w') := read_event_clock w in
  (recorded ++ [{| re_sequence := Z.of_nat (length recorded) + 1; re_at := at_;
                   re_state := state; re_name := name; re_fields := fields |}], w').

(** Events are numbered 1, 2, 3, ... without a gap. *)
Definition numbered (l : list RunEvent) : Prop :=
  forall i e, l !! i = Some e -> re_sequence e = Z.of_nat i + 1.

Lemma numbered_nil : numbered [].
Proof. intros i e. by rewrite lookup_nil. Qed.

Lemma numbered_snoc l e :
  numbered l -> re_sequence e = Z.of_nat (length l) + 1 -> numbered (l ++ [e]).
Proof.
  intros Hl He i e'. rewrite lookup_app_Some. intros [Hi|[Hge Hi]]; [by apply Hl|].
  apply list_lookup_singleton_Some in Hi as [Hi <-]. rewrite He. lia.
Qed.

Lemma event_numbered `{Clocks} state name fields l w :
  numbered l -> numbered (event state name fields l w).1.
Proof. intros Hl. by apply numbered_snoc. Qed.

Lemma event_prefix `{Clocks} state name fields l w :
  l `prefix_of` (event state name fields l w).1.
Proof. unfold event, read_event_clock. simpl. by eexists. Qed.

#[export] Hint Resolve numbered_nil event_numbered event_prefix : ops.
