(* ===== verification/Evidence.v ===== *)
(** Incident-scoped evidence (evidence.py): the store an investigation rebuilds
    on every turn, the order and the per-kind quotas of the model's context, and
    the byte bound every tool result is trimmed to. *)
From Stdlib Require Import ZArith Lia.
From stdpp Require Import prelude strings list sorting.
From S2P Require Import Prelude PyText Tools Domain World.
Local Open Scope Z_scope.

Definition MAX_RESULT_BYTES : Z := 12 * 1024.

(** * Context quotas *)

Definition FIXED_CONTEXT_QUOTAS : list (EvidenceKind * Z) := [(SYMPTOM, 2); (TOPOLOGY, 2)].

Definition TOOL_DERIVED_QUOTA_KINDS : list EvidenceKind := [METRIC; LOG; CHANGE].

Definition derive_context_quotas (executed_tools : Z) : list (EvidenceKind * Z) :=
  fold_left (fun quotas kind => dict_set kind (executed_tools + 1) quotas)
    TOOL_DERIVED_QUOTA_KINDS FIXED_CONTEXT_QUOTAS.

Definition CONTEXT_QUOTAS : list (EvidenceKind * Z) := derive_context_quotas 2.

(** * Building records *)

Section build.
Context `{Host}.

Definition digest_text (text : string) : string := sha256_hex text.

Definition content_hash (payload : list (string * json)) : string :=
  digest_text (json_dumps_canonical (JObj payload)).

(** The id is drawn before the record's own bounds are checked. *)
Definition build_evidence (incident_id : string) (kind : EvidenceKind) (source : string)
    (observed_at : Z) (summary : string) (payload : list (string * json))
    (receipt_id : option string) : ST World exn Evidence := fun w =>
  let '(id, w) := new_opaque_id w in
  (check_evidence
    {| ev_evidence_id := id; ev_incident_id := incident_id; ev_kind := kind;
       ev_source := source; ev_observed_at := observed_at; ev_summary := summary;
       ev_payload := payload; ev_receipt_id := receipt_id;
       ev_content_hash := content_hash payload |}, w).
End build.

Definition failed_check (kind : EvidenceKind) (source : string) (outcome : ToolOutcome)
    (reason : ReasonCode) (note : string) : CheckOutcome :=
  {| co_outcome := outcome; co_kind := kind; co_source := source; co_summary := note;
     co_payload := []; co_reason_code := Some reason; co_duration_ms := 0 |}.

(** [elapsed_ms] is [int((time.monotonic() - started) * 1000)]. *)
Definition executed_check (kind : EvidenceKind) (source summary : string)
    (payload : list (string * json)) (elapsed_ms : Z) : CheckOutcome :=
  {| co_outcome := EXECUTED; co_kind := kind; co_source := source; co_summary := summary;
     co_payload := payload; co_reason_code := None; co_duration_ms := elapsed_ms |}.

(** * Trimming a result to the byte bound *)

Notation payload := (list (string * json)).

(** [json.dumps] writes ASCII only, so its UTF-8 length is its length. *)
Definition fits (p : payload) : bool := str_len (json_dumps (JObj p)) <=? MAX_RESULT_BYTES.

Definition put_rows (rows_key count_key : string) (kept : list json) (p : payload) : payload :=
  dict_set count_key (JInt (Z.of_nat (length kept))) (dict_set rows_key (JArr kept) p).

Definition mark_truncated (p : payload) : payload := dict_set "truncated" (JBool true) p.

(** [while kept and not fits(payload)]: drop the oldest row. *)
Fixpoint trim_rows (rows_key count_key : string) (kept : list json) (p : payload) : payload :=
  match kept with
  | [] => p
  | _ :: kept' =>
      if fits p then p
      else trim_rows rows_key count_key kept'
             (mark_truncated (put_rows rows_key count_key kept' p))
  end.

(** [max] over the non-empty text fields by length: the first of the longest. *)
Definition wider (best : option (string * string)) (kv : string * json) : option (string * string) :=
  match kv with
  | (k, JStr (String c s)) =>
      match best with
      | Some (_, t) => if str_len t <? str_len (String c s) then Some (k, String c s) else best
      | None => Some (k, String c s)
      end
  | _ => best
  end.

Definition widest_text (p : payload) : option (string * string) := fold_left wider p None.

(** [text[: len(text) // 2]] *)
Definition halve (s : string) : string := str_take (Nat.div2 (String.length s)) s.

(** [while not fits(payload)]: halve the widest text, stop when none is left. *)
Fixpoint shrink_text (fuel : nat) (p : payload) : payload :=
  if fits p then p
  else match fuel with
  | O => p
  | S n =>
      match widest_text p with
      | None => p
      | Some (k, text) => shrink_text n (mark_truncated (dict_set k (JStr (halve text)) p))
      end
  end.

(** Every pass removes at least one character of top-level text. *)
Definition text_weight (p : payload) : nat :=
  fold_right (fun kv n => match kv.2 with JStr s => String.length s + n | _ => n end)%nat O p.

Definition trim_to_bytes (p : payload) (rows_key : string) (rows : list json)
    (count_key : string) : payload :=
  let p := trim_rows rows_key count_key rows (put_rows rows_key count_key rows p) in
  shrink_text (S (text_weight p)) p.

(** * The evidence store *)

Record EvidenceStore := {
  st_incident_id : string;
  st_records : list (string * Evidence);
}.

Definition new_store (incident_id : string) : EvidenceStore :=
  {| st_incident_id := incident_id; st_records := [] |}.

Definition store_add (s : EvidenceStore) (e : Evidence) : res EvidenceStore :=
  if bool_decide (ev_incident_id e = st_incident_id s) then
    Ok {| st_incident_id := st_incident_id s;
          st_records := dict_set (ev_evidence_id e) e (st_records s) |}
  else Err ValueError.

(** Cited ids this incident cannot account for. *)
Definition unknown_ids (s : EvidenceStore) (cited : list string) : list string :=
  filter (fun id => dict_mem id (st_records s) = false) cited.

(** The sort key is [(observed_at, kind, evidence_id)], a kind comparing as text. *)
Definition ev_le (a b : Evidence) : Prop :=
  ev_observed_at a < ev_observed_at b \/
  ev_observed_at a = ev_observed_at b /\
  (ev_kind a <> ev_kind b /\ String.le (value (ev_kind a)) (value (ev_kind b)) \/
   ev_kind a = ev_kind b /\ String.le (ev_evidence_id a) (ev_evidence_id b)).

#[export] Instance ev_le_dec : RelDecision ev_le.
Proof. intros a b. unfold ev_le. apply _. Defined.

Definition ordered (s : EvidenceStore) : list Evidence :=
  merge_sort ev_le (dict_values (st_records s)).

Record selection := {
  sel_kept : list Evidence;
  sel_used : list (EvidenceKind * Z);
  sel_dropped : list (EvidenceKind * Z);
}.

Definition select_record (quotas : list (EvidenceKind * Z)) (sel : selection) (e : Evidence)
    : res selection :=
  let seen := default 0 (dict_get (ev_kind e) (sel_used sel)) in
  match dict_get (ev_kind e) quotas with
  | None => Err KeyError
  | Some quota =>
      if seen <? quota then
        Ok {| sel_kept := sel_kept sel ++ [e];
              sel_used := dict_set (ev_kind e) (seen + 1) (sel_used sel);
              sel_dropped := sel_dropped sel |}
      else
        let n := default 0 (dict_get (ev_kind e) (sel_dropped sel)) in
        Ok {| sel_kept := sel_kept sel; sel_used := sel_used sel;
              sel_dropped := dict_set (ev_kind e) (n + 1) (sel_dropped sel) |}
  end.

Fixpoint select_records (quotas : list (EvidenceKind * Z)) (sel : selection)
    (l : list Evidence) : res selection :=
  match l with
  | [] => Ok sel
  | e :: l' => sel' ← select_record quotas sel e; select_records quotas sel' l'
  end.

Definition truncation_marker (kind : EvidenceKind) (count : Z) : string :=
  "[truncated: " +:+ str_of_Z count +:+ " more " +:+ value kind +:+ " records omitted]".

(** Sorting by the kind's text; a kind occurs once. *)
Definition kind_count_le (a b : EvidenceKind * Z) : Prop := String.le (value a.1) (value b.1).

#[export] Instance kind_count_le_dec : RelDecision kind_count_le :=
  fun a b => String.le_dec (value a.1) (value b.1).

Definition empty_selection : selection :=
  {| sel_kept := []; sel_used := []; sel_dropped := [] |}.

Definition context_evidence (s : EvidenceStore) (quotas : list (EvidenceKind * Z))
    : res (list Evidence * list string) :=
  sel ← select_records quotas empty_selection (ordered s);
  Ok (sel_kept sel,
      (fun kc => truncation_marker kc.1 kc.2) <$> merge_sort kind_count_le (sel_dropped sel)).

(** [graph.py]'s [_rebuild_store]: every dump is validated, then added. *)
Fixpoint add_all (s : EvidenceStore) (l : list Evidence) : res EvidenceStore :=
  match l with
  | [] => Ok s
  | e :: l' =>
      e ← check_evidence e;
      s ← store_add s e;
      add_all s l'
  end.

Definition rebuild_store (incident_id : string) (l : list Evidence) : res EvidenceStore :=
  add_all (new_store incident_id) l.

(** * Lemmas: quotas and selection *)

Definition of_kind (k : EvidenceKind) (l : list Evidence) : list Evidence :=
  filter (fun e => ev_kind e = k) l.

Definition quota_of (executed_tools : Z) (k : EvidenceKind) : Z :=
  match k with SYMPTOM | TOPOLOGY => 2 | METRIC | LOG | CHANGE => executed_tools + 1 end.

Lemma derive_context_quotas_total n k :
  dict_get k (derive_context_quotas n) = Some (quota_of n k).
Proof. by destruct k. Qed.

Definition used_of (sel : selection) (k : EvidenceKind) : Z := default 0 (dict_get k (sel_used sel)).

Definition dropped_of (sel : selection) (k : EvidenceKind) : Z :=
  default 0 (dict_get k (sel_dropped sel)).

(** The quotas are honoured kind by kind: what is kept of a kind is the first
    [q - used] of it, and the rest is counted as dropped. *)
Lemma select_records_spec quotas l sel :
  (forall k, is_Some (dict_get k quotas)) ->
  exists sel', select_records quotas sel l = Ok sel' /\
    (exists kept, sel_kept sel' = sel_kept sel ++ kept /\ kept `sublist_of` l) /\
    forall k q, dict_get k quotas = Some q ->
      of_kind k (sel_kept sel') =
        of_kind k (sel_kept sel) ++ take (Z.to_nat (q - used_of sel k)) (of_kind k l) /\
      dropped_of sel' k =
        dropped_of sel k
        + Z.of_nat (length (drop (Z.to_nat (q - used_of sel k)) (of_kind k l))).
Proof.
  intros Htot. revert sel. induction l as [|e l IH]; intros sel; simpl.
  { exists sel. split; [done|]. split; [exists []; by rewrite app_nil_r|].
    intros k q _. unfold of_kind. rewrite filter_nil, take_nil, drop_nil, app_nil_r. simpl.
    split; [done|lia]. }
  unfold select_record. destruct (Htot (ev_kind e)) as [q0 Hq0]. rewrite Hq0.
  fold (used_of sel (ev_kind e)) (dropped_of sel (ev_kind e)).
  case_match eqn:Hlt; [apply Z.ltb_lt in Hlt|apply Z.ltb_ge in Hlt];
    cbn [mbind result_bind];
    (edestruct IH as (sel' & Hrun & (kept & Hk & Hsub) & Hspec); exists sel';
     split; [exact Hrun|]; simpl in *).
  - split.
    { exists (e :: kept). rewrite Hk, <- app_assoc. split; [done|]. by constructor. }
    intros k q Hq. destruct (Hspec k q Hq) as [Hkk Hdd]. unfold used_of, dropped_of in *; simpl in *.
    unfold of_kind in *. rewrite filter_app, filter_cons, filter_nil in Hkk.
    rewrite filter_cons. destruct (decide (ev_kind e = k)) as [<-|Hne].
    + assert (q0 = q) as -> by congruence. rewrite dict_get_set_eq in *. simpl in *. rewrite Hkk, Hdd.
      replace (Z.to_nat (q - default 0 (dict_get (ev_kind e) (sel_used sel))))
        with (S (Z.to_nat (q - (default 0 (dict_get (ev_kind e) (sel_used sel)) + 1)))) by lia.
      simpl. by rewrite <- app_assoc.
    + rewrite dict_get_set_ne in * by done. rewrite app_nil_r in Hkk. done.
  - split; [exists kept; split; [done|by constructor]|].
    intros k q Hq. destruct (Hspec k q Hq) as [Hkk Hdd]. unfold used_of, dropped_of in *; simpl in *.
    unfold of_kind in *. rewrite filter_cons. destruct (decide (ev_kind e = k)) as [<-|Hne].
    + assert (q0 = q) as -> by congruence. rewrite dict_get_set_eq in Hdd. simpl in *. rewrite Hkk, Hdd.
      replace (Z.to_nat (q - default 0 (dict_get (ev_kind e) (sel_used sel)))) with O by lia.
      rewrite !drop_0. split; [done|]. cbn [length]. lia.
    + rewrite dict_get_set_ne in Hdd by done. done.
Qed.

(** * Lemmas: the order of the store *)

#[export] Instance ev_le_total : Total ev_le.
Proof.
  intros a b. unfold ev_le.
  destruct (Z.lt_trichotomy (ev_observed_at a) (ev_observed_at b)) as [?|[?|?]]; [tauto| |tauto].
  destruct (decide (ev_kind a = ev_kind b)) as [Hk|Hk].
  - destruct (String.le_total (ev_evidence_id a) (ev_evidence_id b));
      [left|right]; right; split; try done; right; done.
  - destruct (String.le_total (value (ev_kind a)) (value (ev_kind b)));
      [left|right]; right; split; try done; left; split; congruence.
Qed.

#[export] Instance ev_le_trans : Transitive ev_le.
Proof.
  intros a b c. unfold ev_le.
  intros [?|[Hab Ha]] [?|[Hbc Hb]]; [left; lia..|]. right. split; [lia|].
  destruct Ha as [[Hn Hle]|[He Hle]], Hb as [[Hn' Hle']|[He' Hle']].
  - destruct (decide (ev_kind a = ev_kind c)) as [Hac|Hac].
    + rewrite <- Hac in *. destruct Hn. apply value_inj. by apply (anti_symm String.le).
    + left. split; [done|]. by etrans.
  - left. rewrite <- He'. done.
  - left. rewrite He. done.
  - right. split; [congruence|]. by etrans.
Qed.

Lemma ev_le_antisymm a b : ev_le a b -> ev_le b a -> ev_evidence_id a = ev_evidence_id b.
Proof.
  unfold ev_le. intros [?|[Hab Ha]] [?|[Hbc Hb]]; [lia..|].
  destruct Ha as [[Hn Hle]|[He Hle]], Hb as [[Hn' Hle']|[He' Hle']]; try congruence.
  - destruct Hn. apply value_inj. by apply (anti_symm String.le).
  - by apply (anti_symm String.le).
Qed.

Lemma ordered_sorted s : StronglySorted ev_le (ordered s).
Proof. apply StronglySorted_merge_sort; apply _. Qed.

Lemma ordered_Permutation s : ordered s ≡ₚ dict_values (st_records s).
Proof. apply merge_sort_Permutation. Qed.

Lemma add_all_spec s l s' :
  add_all s l = Ok s' ->
  st_incident_id s' = st_incident_id s /\
  Forall (fun e => ev_incident_id e = st_incident_id s) l /\
  st_records s' = fold_left (fun d e => dict_set (ev_evidence_id e) e d) l (st_records s).
Proof.
  revert s. induction l as [|e l IH]; intros s; simpl.
  - intros [= ->]. by split_and!.
  - intros (e' & He%check_evidence_id & H)%result_bind_Ok. subst e'.
    apply result_bind_Ok in H as (s1 & Hs & H).
    unfold store_add in Hs. case_bool_decide as Hid; [|done]. simplify_eq.
    apply IH in H as (H1 & H2 & H3). simpl in *.
    rewrite <- Hid in *. split_and!; [done|by constructor|done].
Qed.

Lemma fold_dict_set_fresh (l : list Evidence) d :
  NoDup (dict_keys d ++ (ev_evidence_id <$> l)) ->
  fold_left (fun d e => dict_set (ev_evidence_id e) e d) l d
  = d ++ ((fun e => (ev_evidence_id e, e)) <$> l).
Proof.
  revert d. induction l as [|e l IH]; intros d Hnd; simpl; [by rewrite app_nil_r|].
  simpl in Hnd. rewrite dict_set_fresh.
  - rewrite IH; [by rewrite <- app_assoc|].
    unfold dict_keys in *. rewrite fmap_app. simpl. by rewrite <- app_assoc.
  - intros Hin. apply NoDup_app in Hnd as (_ & Hdisj & _). apply (Hdisj _ Hin). by left.
Qed.

Lemma rebuild_store_values id l s :
  rebuild_store id l = Ok s -> NoDup (ev_evidence_id <$> l) ->
  st_records s = (fun e => (ev_evidence_id e, e)) <$> l.
Proof.
  intros (_ & _ & ->)%add_all_spec Hnd. by rewrite fold_dict_set_fresh.
Qed.

Lemma ordered_rebuild id l s :
  rebuild_store id l = Ok s -> NoDup (ev_evidence_id <$> l) -> ordered s ≡ₚ l.
Proof.
  intros Hs Hnd. rewrite ordered_Permutation, (rebuild_store_values id l s) by done.
  unfold dict_values. rewrite <- list_fmap_compose.
  rewrite (list_fmap_ext _ (fun e => e)); [by rewrite list_fmap_id|done].
Qed.

(** A sorted list of records with distinct ids is determined by its elements. *)
Lemma sorted_records_unique l1 l2 :
  StronglySorted ev_le l1 -> StronglySorted ev_le l2 -> l1 ≡ₚ l2 ->
  NoDup (ev_evidence_id <$> l1) -> l1 = l2.
Proof.
  intros H1 H2 Hp Hnd. apply (StronglySorted_unique_strong ev_le); try done.
  intros x1 x2 Hx1 Hx2 Hle1 Hle2.
  rewrite <- Hp in Hx2. apply list_elem_of_lookup in Hx1 as [i Hi].
  apply list_elem_of_lookup in Hx2 as [j Hj].
  assert (i = j) as ->; [|congruence].
  eapply (NoDup_lookup _ i j _ Hnd); rewrite list_lookup_fmap.
  - rewrite Hi. done.
  - rewrite Hj. simpl. f_equal. by apply ev_le_antisymm.
Qed.

(** * Lemmas: trimming *)

Lemma dict_get_fold_wider p best k t :
  fold_left wider p best = Some (k, t) -> best = Some (k, t) \/ (k, JStr t) ∈ p /\ t <> "".
Proof.
  revert best. induction p as [|[k' j] p IH]; intros best; simpl; [by left|].
  intros [Hb|[Hin Hne]]%IH; [|right; split; [by right|done]].
  unfold wider in Hb. repeat case_match; simplify_eq; auto; right; split; (by left) || done.
Qed.

Lemma widest_text_elem p k t : widest_text p = Some (k, t) -> (k, JStr t) ∈ p /\ t <> "".
Proof. intros [?|?]%dict_get_fold_wider; done. Qed.

Lemma text_weight_app p1 p2 : text_weight (p1 ++ p2) = (text_weight p1 + text_weight p2)%nat.
Proof. induction p1 as [|[k j] p1 IH]; simpl; [done|]. unfold text_weight in *. simpl.
  rewrite IH. destruct j; lia. Qed.

Lemma text_weight_set k s t p :
  dict_get k p = Some (JStr t) -> (String.length s < String.length t)%nat ->
  (text_weight (dict_set k (JStr s) p) < text_weight p)%nat.
Proof.
  intros Hg Hlt. induction p as [|[k' j] p IH]; simpl in *; [done|].
  case_decide; simplify_eq; simpl; [lia|]. specialize (IH Hg). destruct j; simpl; lia.
Qed.

Lemma text_weight_mark p : (text_weight (mark_truncated p) <= text_weight p)%nat.
Proof.
  unfold mark_truncated. induction p as [|[k' j] p IH]; simpl; [lia|].
  case_decide; simpl; [|destruct j; simpl; lia]. destruct j; lia.
Qed.

Lemma halve_shorter t : t <> "" -> (String.length (halve t) < String.length t)%nat.
Proof.
  intros Hne. unfold halve. rewrite str_take_length.
  assert (0 < String.length t)%nat by (destruct t; [done|simpl; lia]).
  pose proof (Nat.lt_div2 (String.length t)). lia.
Qed.

Lemma mark_truncated_NoDup p : NoDup (dict_keys p) -> NoDup (dict_keys (mark_truncated p)).
Proof. apply dict_keys_set_NoDup. Qed.

(** The fuel suffices: the loop stops only where the Python loop stops. *)
Lemma shrink_text_stops n p :
  NoDup (dict_keys p) -> (text_weight p < n)%nat ->
  fits (shrink_text n p) = true \/ widest_text (shrink_text n p) = None.
Proof.
  revert p. induction n as [|n IH]; intros p Hnd Hw; [lia|]. simpl.
  destruct (fits p) eqn:Hf; [by left|].
  destruct (widest_text p) as [[k t]|] eqn:Ht; [|by right].
  apply widest_text_elem in Ht as [Hin Hne]. apply dict_elem_get in Hin; [|done].
  apply IH; [apply mark_truncated_NoDup; auto with ops|].
  pose proof (text_weight_mark (dict_set k (JStr (halve t)) p)).
  pose proof (text_weight_set k (halve t) t p Hin (halve_shorter t Hne)). lia.
Qed.

(** Shrinking text leaves every field that is not text as it was. *)
Lemma shrink_text_keeps n p k v :
  NoDup (dict_keys p) -> dict_get k p = Some v -> (forall t, v <> JStr t) -> k <> "truncated" ->
  dict_get k (shrink_text n p) = Some v.
Proof.
  intros Hnd Hg Hv Hk. revert p Hnd Hg. induction n as [|n IH]; intros p Hnd Hg; simpl;
    destruct (fits p); try done.
  destruct (widest_text p) as [[k' t]|] eqn:Ht; [|done].
  apply widest_text_elem in Ht as [Hin _]. apply dict_elem_get in Hin; [|done].
  apply IH; [apply mark_truncated_NoDup; auto with ops|].
  unfold mark_truncated. rewrite !dict_get_set_ne; [done| |done].
  intros ->. rewrite Hg in Hin. naive_solver.
Qed.

Lemma shrink_text_marks n p :
  shrink_text n p = p \/ dict_get "truncated" (shrink_text n p) = Some (JBool true).
Proof.
  revert p. induction n as [|n IH]; intros p; simpl; destruct (fits p); [by left..|].
  destruct (widest_text p) as [[k t]|]; [|by left]. right.
  match goal with |- context [shrink_text n ?q] => destruct (IH q) as [->|Hm]; [|done] end.
  apply dict_get_set_eq.
Qed.

Section trim_rows_lemmas.
Context (rows_key count_key : string).
Hypothesis Hkeys : NoDup [rows_key; count_key; "truncated"].

Lemma put_rows_get kept p :
  dict_get rows_key (put_rows rows_key count_key kept p) = Some (JArr kept)
  /\ dict_get count_key (put_rows rows_key count_key kept p)
     = Some (JInt (Z.of_nat (length kept))).
Proof.
  unfold put_rows. inversion_clear Hkeys as [|? ? Hn ?]. split; [|apply dict_get_set_eq].
  rewrite dict_get_set_ne by set_solver. apply dict_get_set_eq.
Qed.

Lemma put_rows_NoDup kept p :
  NoDup (dict_keys p) -> NoDup (dict_keys (put_rows rows_key count_key kept p)).
Proof. unfold put_rows. auto with ops. Qed.

(** What the row loop returns: the longest suffix that fits, or no row at all. *)
Lemma trim_rows_spec kept p0 p :
  NoDup (dict_keys p) ->
  dict_get rows_key p = Some (JArr kept) ->
  dict_get count_key p = Some (JInt (Z.of_nat (length kept))) ->
  p0 = trim_rows rows_key count_key kept p ->
  NoDup (dict_keys p0) /\
  exists n, dict_get rows_key p0 = Some (JArr (drop n kept)) /\
    dict_get count_key p0 = Some (JInt (Z.of_nat (length (drop n kept)))) /\
    (fits p0 = true \/ drop n kept = []) /\
    (p0 = p \/ fits p = false /\ dict_get "truncated" p0 = Some (JBool true)).
Proof.
  intros Hnd Hr Hc ->. revert p Hnd Hr Hc.
  induction kept as [|row kept IH]; intros p Hnd Hr Hc; simpl.
  { split; [done|]. exists O. simpl. auto. }
  destruct (fits p) eqn:Hf; [split; [done|]; exists O; simpl; auto|].
  set (p1 := mark_truncated (put_rows rows_key count_key kept p)).
  destruct (put_rows_get kept p) as [Hr1 Hc1].
  assert (rows_key <> "truncated" /\ count_key <> "truncated") as [? ?].
  { inversion_clear Hkeys as [|? ? Hn1 Hk]. inversion_clear Hk. set_solver. }
  destruct (IH p1) as (Hnd1 & n & ? & ? & ? & Hmark).
  - by apply mark_truncated_NoDup, put_rows_NoDup.
  - unfold p1, mark_truncated. by rewrite dict_get_set_ne.
  - unfold p1, mark_truncated. by rewrite dict_get_set_ne.
  - split; [done|]. exists (S n). simpl. split_and!; try done. right. split; [done|].
    destruct Hmark as [->|[_ ?]]; [apply dict_get_set_eq|done].
Qed.
End trim_rows_lemmas.

(** * Lemmas: what the markers count *)

Lemma select_records_dropped quotas l sel sel' :
  select_records quotas sel l = Ok sel' ->
  NoDup (dict_keys (sel_dropped sel)) -> Forall (fun kc => 0 < kc.2) (sel_dropped sel) ->
  NoDup (dict_keys (sel_dropped sel')) /\ Forall (fun kc => 0 < kc.2) (sel_dropped sel').
Proof.
  revert sel. induction l as [|e l IH]; intros sel; simpl; [by intros [= ->]|].
  intros (sel1 & H1 & H2)%result_bind_Ok Hnd Hpos. apply (IH sel1 H2); clear IH H2;
    unfold select_record in H1; repeat case_match; simplify_eq; simpl; auto with ops.
  rewrite Forall_forall. intros [k c] [[= -> ->]|Hin]%dict_set_elem; simpl.
  - destruct (dict_get _ (sel_dropped sel)) eqn:Hg; simpl; [|lia].
    apply dict_get_elem in Hg. rewrite Forall_forall in Hpos. apply Hpos in Hg. simpl in Hg. lia.
  - rewrite Forall_forall in Hpos. by apply Hpos in Hin.
Qed.

Definition omitted (n : Z) (k : EvidenceKind) (l : list Evidence) : Z :=
  Z.of_nat (length (of_kind k l)) - Z.of_nat (length (take (Z.to_nat (quota_of n k)) (of_kind k l))).

Lemma dropped_is_omitted n k l sel' :
  select_records (derive_context_quotas n) empty_selection l = Ok sel' ->
  dropped_of sel' k = omitted n k l.
Proof.
  intros Hrun. destruct (select_records_spec (derive_context_quotas n) l empty_selection)
    as (sel1 & Hrun1 & _ & Hspec); [intros k'; rewrite derive_context_quotas_total; eauto|].
  rewrite Hrun in Hrun1. injection Hrun1 as <-.
  destruct (Hspec k _ (derive_context_quotas_total n k)) as [_ ->].
  unfold omitted, used_of, dropped_of. simpl. rewrite Z.sub_0_r, length_take, length_drop. lia.
Qed.

(** * Properties *)

(** The context an investigation shows its model is total over the derived
    quotas; it is a sublist of the store in order, keeps exactly the first
    [quota] records of each kind, and every kind that lost records is announced
    by one marker with the number omitted. *)
Theorem context_evidence_spec s n :
  exists kept markers,
    context_evidence s (derive_context_quotas n) = Ok (kept, markers)
    /\ kept `sublist_of` ordered s
    /\ (forall k, of_kind k kept = take (Z.to_nat (quota_of n k)) (of_kind k (ordered s)))
    /\ (forall m, m ∈ markers <->
          exists k, 0 < omitted n k (ordered s) /\ m = truncation_marker k (omitted n k (ordered s))).
Proof.
  destruct (select_records_spec (derive_context_quotas n) (ordered s) empty_selection)
    as (sel & Hrun & (kept & Hk & Hsub) & Hspec);
    [intros k'; rewrite derive_context_quotas_total; eauto|].
  unfold context_evidence. rewrite Hrun. do 2 eexists. split; [reflexivity|]. split_and!.
  - rewrite Hk. done.
  - intros k. destruct (Hspec k _ (derive_context_quotas_total n k)) as [-> _].
    unfold used_of. simpl. by rewrite Z.sub_0_r.
  - destruct (select_records_dropped _ _ _ _ Hrun) as [Hnd Hpos]; [constructor..|].
    rewrite Forall_forall in Hpos. intros m. rewrite list_elem_of_fmap. split.
    + intros ([k c] & -> & Hin). rewrite merge_sort_Permutation in Hin. exists k. simpl.
      pose proof (Hpos _ Hin) as Hc. apply dict_elem_get in Hin; [|done].
      rewrite <- (dropped_is_omitted n k _ sel Hrun). unfold dropped_of. by rewrite Hin.
    + intros (k & Hpo & ->). rewrite <- (dropped_is_omitted n k _ sel Hrun) in *.
      unfold dropped_of in *. destruct (dict_get k (sel_dropped sel)) as [c|] eqn:Hg; simpl in *; [|lia].
      exists (k, c). split; [done|]. rewrite merge_sort_Permutation. by apply dict_get_elem.
Qed.

(** the context's order does not depend on the order records arrived in:
    two stores rebuilt from permuted dumps give the same ordered records. *)
Theorem ordered_arrival_independent id l1 l2 s1 s2 :
  l1 ≡ₚ l2 -> NoDup (ev_evidence_id <$> l1) ->
  rebuild_store id l1 = Ok s1 -> rebuild_store id l2 = Ok s2 ->
  ordered s1 = ordered s2.
Proof.
  intros Hp Hnd H1 H2. pose proof (ordered_rebuild id l1 s1 H1 Hnd) as Hp1.
  pose proof (ordered_rebuild id l2 s2 H2 ltac:(by rewrite <- Hp)) as Hp2.
  apply sorted_records_unique; [apply ordered_sorted..|by rewrite Hp1, Hp2|by rewrite Hp1].
Qed.

(** A trimmed result fits the byte bound unless no top-level text is left to
    shorten; the newest rows survive with a count that matches them; a result
    that already fitted is untouched, and one that was changed says so. *)
Theorem trim_to_bytes_spec p rows_key rows count_key :
  NoDup [rows_key; count_key; "truncated"] -> NoDup (dict_keys p) ->
  let q := trim_to_bytes p rows_key rows count_key in
  (fits q = true \/ widest_text q = None)
  /\ (exists n, dict_get rows_key q = Some (JArr (drop n rows))
        /\ dict_get count_key q = Some (JInt (Z.of_nat (length (drop n rows)))))
  /\ (fits (put_rows rows_key count_key rows p) = true ->
      q = put_rows rows_key count_key rows p)
  /\ (q = put_rows rows_key count_key rows p \/ dict_get "truncated" q = Some (JBool true)).
Proof.
  intros Hkeys Hnd q. unfold q, trim_to_bytes.
  set (p1 := put_rows rows_key count_key rows p).
  destruct (put_rows_get rows_key count_key Hkeys rows p) as [Hr Hc].
  destruct (trim_rows_spec rows_key count_key Hkeys rows _ p1
              (put_rows_NoDup rows_key count_key rows p Hnd) Hr Hc eq_refl)
    as (Hnd2 & n & Hr2 & Hc2 & _ & Hmark).
  set (p2 := trim_rows rows_key count_key rows p1) in *.
  assert (rows_key <> "truncated" /\ count_key <> "truncated") as [? ?].
  { inversion_clear Hkeys as [|? ? Hn1 Hk]. inversion_clear Hk. set_solver. }
  split_and!.
  - apply shrink_text_stops; [done|lia].
  - exists n. by split; apply shrink_text_keeps.
  - intros Hfit. destruct Hmark as [->|[? _]]; [|congruence].
    cbn [shrink_text]. by rewrite Hfit.
  - destruct (shrink_text_marks (S (text_weight p2)) p2) as [->|?]; [|by right].
    destruct Hmark as [->|[_ ?]]; auto.
Qed.
