(* ===== verification/Wrappers.v ===== *)
(** The only path from a parsed proposal to a backend (tool_wrappers.py): the
    reservation ledger, the clamping of a proposed window, and the dispatch body
    every registered tool shares — authorize, reserve, run, settle once.

    A backend ([run_check], a callable the factory is given) is a parameter
    indexed by how many backend calls were made before, so the same request may
    be answered differently each time, or raise.  [w_backend_calls] logs the
    requests that reached one. *)
From Stdlib Require Import ZArith Lia.
From stdpp Require Import prelude strings list gmap.
From S2P Require Import Prelude PyText Tools Domain Policy World Evidence.
Local Open Scope Z_scope.

(** * The reservation ledger *)

Record Ledger := {
  lg_budget : Z;
  lg_runbook_budget : Z;
  lg_receipts : list (string * ToolReceipt);
  lg_evidence : list (string * Evidence);
}.

#[export] Instance settable_Ledger : Settable Ledger := fun l =>
  {| lg_budget := lg_budget l; lg_runbook_budget := lg_runbook_budget l;
     lg_receipts := lg_receipts l; lg_evidence := lg_evidence l |}.

Definition new_ledger (executed_tools_budget runbook_searches_budget : Z) : Ledger :=
  {| lg_budget := executed_tools_budget; lg_runbook_budget := runbook_searches_budget;
     lg_receipts := []; lg_evidence := [] |}.

Definition load_receipt (l : Ledger) (r : ToolReceipt) : res Ledger :=
  if dict_mem (rc_receipt_id r) (lg_receipts l) then Err ValueError
  else Ok (l <| lg_receipts := dict_set (rc_receipt_id r) r (lg_receipts l) |>).

Fixpoint load_receipts (l : Ledger) (rs : list ToolReceipt) : res Ledger :=
  match rs with
  | [] => Ok l
  | r :: rs' => l' ← load_receipt l r; load_receipts l' rs'
  end.

Definition from_receipts (receipts : list ToolReceipt)
    (executed_tools_budget runbook_searches_budget : Z) : res Ledger :=
  load_receipts (new_ledger executed_tools_budget runbook_searches_budget) receipts.

Definition charged (runbook : bool) (r : ToolReceipt) : bool :=
  bool_decide (rc_policy_result r = ALLOWED)
  && Bool.eqb (bool_decide (rc_tool r = SEARCH_RUNBOOKS)) runbook.

Definition spent (runbook : bool) (l : Ledger) : Z :=
  count_if (charged runbook) (dict_values (lg_receipts l)).

Definition slots_left (l : Ledger) : Z := lg_budget l - spent false l.

Definition runbook_slots_left (l : Ledger) : Z := lg_runbook_budget l - spent true l.

Definition slots_left_for (l : Ledger) (tool : ToolName) : Z :=
  if decide (tool = SEARCH_RUNBOOKS) then runbook_slots_left l else slots_left l.

Definition receipts (l : Ledger) : list ToolReceipt := dict_values (lg_receipts l).

Definition evidence (l : Ledger) : list Evidence := dict_values (lg_evidence l).

(** * The state a dispatch runs in

    The world, and the two objects the caller passes by reference. *)

Record Dispatch := {
  d_world : World;
  d_ledger : Ledger;
  d_seen : gset string;
}.

#[export] Instance settable_Dispatch : Settable Dispatch := fun d =>
  {| d_world := d_world d; d_ledger := d_ledger d; d_seen := d_seen d |}.

Notation DispatchM := (ST Dispatch exn).

Definition on_world {A} (m : ST World exn A) : DispatchM A := fun d =>
  let '(r, w) := m (d_world d) in (r, d <| d_world := w |>).

Definition draw_id `{Host} : DispatchM string := fun d =>
  let '(id, w) := new_opaque_id (d_world d) in (Ok id, d <| d_world := w |>).

Definition tick `{Clocks} : DispatchM Z := fun d =>
  let '(t, w) := read_clock (d_world d) in (Ok t, d <| d_world := w |>).

Definition put_receipt (r : ToolReceipt) : DispatchM unit :=
  modify (fun d => d <| d_ledger :=
    (d_ledger d) <| lg_receipts := dict_set (rc_receipt_id r) r (lg_receipts (d_ledger d)) |> |>).

Section ledger_operations.
Context `{Host}.

(** Spend one slot and record a [RESERVED] receipt, or refuse. *)
Definition reserve (incident_id : string) (tool : ToolName) (fingerprint : string)
    (requested_at : Z) (arguments : ToolArguments) : DispatchM (option ToolReceipt) :=
  d ← get_state;
  if slots_left_for (d_ledger d) tool <=? 0 then mret None
  else
    id ← draw_id;
    receipt ← lift_result (check_lifecycle_coherence
      {| rc_receipt_id := id; rc_incident_id := incident_id; rc_tool := tool;
         rc_fingerprint := fingerprint; rc_policy_result := ALLOWED; rc_state := RESERVED;
         rc_outcome := None; rc_reason_code := None; rc_requested_at := requested_at;
         rc_duration_ms := 0; rc_result_digest := None; rc_evidence_id := None;
         rc_arguments := Some arguments |});
    _ ← put_receipt receipt;
    mret (Some receipt).

Definition settled_copy (current : ToolReceipt) (outcome : ToolOutcome)
    (reason_code : option ReasonCode) (duration_ms : Z)
    (result_digest evidence_id : option string) : ToolReceipt :=
  {| rc_receipt_id := rc_receipt_id current; rc_incident_id := rc_incident_id current;
     rc_tool := rc_tool current; rc_fingerprint := rc_fingerprint current;
     rc_policy_result := rc_policy_result current; rc_state := SETTLED;
     rc_outcome := Some outcome; rc_reason_code := reason_code;
     rc_requested_at := rc_requested_at current; rc_duration_ms := duration_ms;
     rc_result_digest := result_digest; rc_evidence_id := evidence_id;
     rc_arguments := rc_arguments current |}.

Definition settle (receipt_id : string) (outcome : ToolOutcome)
    (reason_code : option ReasonCode) (duration_ms : Z)
    (result_digest evidence_id : option string) (ev : option Evidence)
    : DispatchM ToolReceipt :=
  d ← get_state;
  match dict_get receipt_id (lg_receipts (d_ledger d)) with
  | None => raise (ReceiptAlreadySettled receipt_id)
  | Some current =>
      if decide (rc_state current = RESERVED) then
        settled ← lift_result (check_lifecycle_coherence
          (settled_copy current outcome reason_code duration_ms result_digest evidence_id));
        _ ← modify (fun d => d <| d_ledger := (d_ledger d)
              <| lg_receipts := dict_set receipt_id settled (lg_receipts (d_ledger d)) |> |>);
        _ ← match ev with
            | None => mret tt
            | Some e => modify (fun d => d <| d_ledger := (d_ledger d)
                  <| lg_evidence := dict_set receipt_id e (lg_evidence (d_ledger d)) |> |>)
            end;
        mret settled
      else raise (ReceiptAlreadySettled receipt_id)
  end.

(** A denial skips reservation and spends nothing. *)
Definition record (receipt : ToolReceipt) : DispatchM unit :=
  d ← get_state;
  if negb (bool_decide (rc_state receipt = SETTLED)) then raise ValueError
  else if dict_mem (rc_receipt_id receipt) (lg_receipts (d_ledger d)) then raise ValueError
  else if negb (bool_decide (rc_policy_result receipt = DENIED)) then raise ValueError
  else put_receipt receipt.
End ledger_operations.

(** * Clamping a window *)

Definition clamp_start (ws : option Z) (scope : IncidentScope) : option Z :=
  Some (Z.max (default (sc_started_at scope) ws) (sc_started_at scope)).

Definition clamp_end (we : option Z) (scope : IncidentScope) : option Z :=
  Some (Z.min (default (sc_ended_at scope) we) (sc_ended_at scope)).

Definition resolve_effective_window (arguments : ToolArguments) (scope : IncidentScope)
    : ToolArguments :=
  match arguments with
  | AMetric a => AMetric {| qm_template := qm_template a; qm_service := qm_service a;
      qm_window_start := clamp_start (qm_window_start a) scope;
      qm_window_end := clamp_end (qm_window_end a) scope |}
  | ALogs a => ALogs {| ql_log_filter := ql_log_filter a; ql_service := ql_service a;
      ql_window_start := clamp_start (ql_window_start a) scope;
      ql_window_end := clamp_end (ql_window_end a) scope; ql_row_limit := ql_row_limit a |}
  | AChanges a => AChanges {| lc_service := lc_service a;
      lc_window_start := clamp_start (lc_window_start a) scope;
      lc_window_end := clamp_end (lc_window_end a) scope |}
  | ATopology _ | ARunbooks _ => arguments
  end.

(** * Dispatch *)

(** What a backend returns: the two result types [dispatch] tells apart. *)
Inductive check_result :=
  | Checked (o : CheckOutcome)
  | Retrieved (o : RunbookCheckOutcome).

Definition RunCheck : Type := nat -> ToolArguments -> IncidentScope -> res check_result.

Record DispatchResult := {
  dr_receipt : ToolReceipt;
  dr_evidence : option Evidence;
  dr_passages : list RunbookPassage;
  dr_retrieval_mode : option RetrievalMode;
  dr_message : string;
}.

(** [run_check(effective_arguments, scope)]: the call is logged, whatever it does. *)
Definition call_backend (run_check : RunCheck) (a : ToolArguments) (scope : IncidentScope)
    : DispatchM check_result := fun d =>
  let calls := w_backend_calls (d_world d) in
  (run_check (length calls) a scope,
   d <| d_world := (d_world d) <| w_backend_calls := calls ++ [a] |> |>).

Definition proposal_with (p : ToolProposal) (a : ToolArguments) : ToolProposal :=
  {| pr_arguments := a; pr_evidence_gap := pr_evidence_gap p;
     pr_expected_observation := pr_expected_observation p |}.

Section dispatch.
Context `{Pydantic} `{Host} `{Clocks}.

Definition denied_receipt (proposal : ToolProposal) (scope : IncidentScope)
    (fingerprint : string) (reason_code : option ReasonCode) (message : string)
    : DispatchM DispatchResult :=
  id ← draw_id;
  t ← tick;
  receipt ← lift_result (check_lifecycle_coherence
    {| rc_receipt_id := id; rc_incident_id := sc_incident_id scope;
       rc_tool := pr_tool proposal; rc_fingerprint := fingerprint;
       rc_policy_result := DENIED; rc_state := SETTLED; rc_outcome := Some NOT_EXECUTED;
       rc_reason_code := reason_code; rc_requested_at := t; rc_duration_ms := 0;
       rc_result_digest := None; rc_evidence_id := None;
       rc_arguments := Some (pr_arguments proposal) |});
  mret {| dr_receipt := receipt; dr_evidence := None; dr_passages := [];
          dr_retrieval_mode := None; dr_message := message |}.

(** Evidence is minted for an [EXECUTED] check only. *)
Definition mint_evidence (scope : IncidentScope) (reserved : ToolReceipt) (o : CheckOutcome)
    : DispatchM (option Evidence) :=
  if decide (co_outcome o = EXECUTED) then
    t ← tick;
    e ← on_world (build_evidence (sc_incident_id scope) (co_kind o) (co_source o) t
                    (co_summary o) (co_payload o) (Some (rc_receipt_id reserved)));
    mret (Some e)
  else mret None.

Definition settle_outcome (scope : IncidentScope) (reserved : ToolReceipt)
    (outcome : check_result) : DispatchM DispatchResult :=
  match outcome with
  | Retrieved o =>
      settled ← settle (rc_receipt_id reserved) (ro_outcome o) (ro_reason_code o)
                  (ro_duration_ms o) None None None;
      mret {| dr_receipt := settled; dr_evidence := None; dr_passages := ro_passages o;
              dr_retrieval_mode := Some (ro_retrieval_mode o); dr_message := "" |}
  | Checked o =>
      ev ← mint_evidence scope reserved o;
      settled ← settle (rc_receipt_id reserved) (co_outcome o) (co_reason_code o)
                  (co_duration_ms o) (ev_content_hash <$> ev) (ev_evidence_id <$> ev) ev;
      mret {| dr_receipt := settled; dr_evidence := ev; dr_passages := [];
              dr_retrieval_mode := None; dr_message := "" |}
  end.

Definition run_allowed (run_check : RunCheck) (proposal : ToolProposal)
    (scope : IncidentScope) (decision : PolicyDecision) : DispatchM DispatchResult :=
  t ← tick;
  reserved ← reserve (sc_incident_id scope) (pr_tool proposal) (pd_fingerprint decision) t
               (pr_arguments proposal);
  match reserved with
  | None => raise AssertionError
  | Some reserved =>
      outcome ← call_backend run_check (pr_arguments proposal) scope;
      settle_outcome scope reserved outcome
  end.

(** [tool] and [arguments_type] are separate arguments of the factory. *)
Definition dispatch (tool arguments_type : ToolName) (run_check : RunCheck)
    (proposal : ToolProposal) (scope : IncidentScope) (budgets : Budgets)
    : DispatchM DispatchResult :=
  if negb (bool_decide (arguments_tool (pr_arguments proposal) = arguments_type)) then
    raise ValueError
  else
    let effective_arguments := resolve_effective_window (pr_arguments proposal) scope in
    let effective_proposal := proposal_with proposal effective_arguments in
    d ← get_state;
    let decision := authorize effective_proposal scope (d_seen d) budgets
                      (slots_left_for (d_ledger d) tool) in
    _ ← modify (fun d => d <| d_seen := {[ pd_fingerprint decision ]} ∪ d_seen d |>);
    match pd_result decision with
    | DENIED =>
        result ← denied_receipt effective_proposal scope (pd_fingerprint decision)
                   (pd_reason_code decision) (pd_message decision);
        _ ← record (dr_receipt result);
        mret result
    | ALLOWED => run_allowed run_check effective_proposal scope decision
    end.
End dispatch.

(** * The registry

    A wrapper is made by the factory alone: [post_init] refuses any other. *)

Record ToolWrapper := {
  tw_tool : ToolName;
  tw_arguments_type : ToolName;
  tw_run_check : RunCheck;
}.

Definition post_init (factory_token : bool) (w : ToolWrapper) : res ToolWrapper :=
  if factory_token then Ok w else Err TypeError.

Definition make_wrapper (tool arguments_type : ToolName) (run_check : RunCheck) : ToolWrapper :=
  {| tw_tool := tool; tw_arguments_type := arguments_type; tw_run_check := run_check |}.

(** The five backends, each typed for its own tool; [narrow] lets one stand for
    the shared seam.  A mismatched argument cannot reach it: [dispatch] checks
    the type first. *)
Record Backends := {
  run_metric : nat -> QueryMetricArguments -> IncidentScope -> res CheckOutcome;
  run_logs : nat -> QueryLogsArguments -> IncidentScope -> res CheckOutcome;
  run_changes : nat -> ListRecentChangesArguments -> IncidentScope -> res CheckOutcome;
  run_topology : nat -> GetTopologyArguments -> IncidentScope -> res CheckOutcome;
  run_search : nat -> SearchRunbooksArguments -> IncidentScope -> res RunbookCheckOutcome;
}.

Definition checked (r : res CheckOutcome) : res check_result := o ← r; Ok (Checked o).

Definition retrieved (r : res RunbookCheckOutcome) : res check_result := o ← r; Ok (Retrieved o).

Definition query_metric_wrapper run : ToolWrapper :=
  make_wrapper QUERY_METRIC QUERY_METRIC (fun n a scope =>
    match a with AMetric a => checked (run n a scope) | _ => Err TypeError end).

Definition query_logs_wrapper run : ToolWrapper :=
  make_wrapper QUERY_LOGS QUERY_LOGS (fun n a scope =>
    match a with ALogs a => checked (run n a scope) | _ => Err TypeError end).

Definition list_recent_changes_wrapper run : ToolWrapper :=
  make_wrapper LIST_RECENT_CHANGES LIST_RECENT_CHANGES (fun n a scope =>
    match a with AChanges a => checked (run n a scope) | _ => Err TypeError end).

Definition get_topology_wrapper run : ToolWrapper :=
  make_wrapper GET_TOPOLOGY GET_TOPOLOGY (fun n a scope =>
    match a with ATopology a => checked (run n a scope) | _ => Err TypeError end).

Definition search_runbooks_wrapper run : ToolWrapper :=
  make_wrapper SEARCH_RUNBOOKS SEARCH_RUNBOOKS (fun n a scope =>
    match a with ARunbooks a => retrieved (run n a scope) | _ => Err TypeError end).

Definition dispatch_registry (b : Backends) : list (ToolName * ToolWrapper) :=
  [(QUERY_METRIC, query_metric_wrapper (run_metric b));
   (QUERY_LOGS, query_logs_wrapper (run_logs b));
   (LIST_RECENT_CHANGES, list_recent_changes_wrapper (run_changes b));
   (GET_TOPOLOGY, get_topology_wrapper (run_topology b));
   (SEARCH_RUNBOOKS, search_runbooks_wrapper (run_search b))].

(** * Lemmas: the ledger *)

Definition fresh_id `{Host} (d : Dispatch) : Prop :=
  dict_get (uuid_hex (w_ids (d_world d))) (lg_receipts (d_ledger d)) = None.

(** Every receipt was keyed by its own id, drawn from the stream before now. *)
Definition ledger_ok `{Host} (w : World) (l : Ledger) : Prop :=
  Forall (fun kr => kr.1 = rc_receipt_id kr.2
                    /\ exists n, (n < w_ids w)%nat /\ kr.1 = uuid_hex n) (lg_receipts l).

Lemma ledger_ok_fresh `{FreshIds} d : ledger_ok (d_world d) (d_ledger d) -> fresh_id d.
Proof.
  unfold ledger_ok, fresh_id. rewrite Forall_forall. intros Hok.
  apply dict_get_None. intros ([k r] & Hk & Hin)%list_elem_of_fmap.
  apply Hok in Hin as (_ & n & Hn & Hid). simpl in *. subst k.
  apply uuid_hex_inj in Hid. lia.
Qed.

(** What a receipt adds to a pool. *)
Lemma spent_put rb l id r :
  dict_get id (lg_receipts l) = None ->
  spent rb (l <| lg_receipts := dict_set id r (lg_receipts l) |>)
  = spent rb l + Z.b2z (charged rb r).
Proof.
  intros Hg. unfold spent. simpl. rewrite dict_values_fresh by done.
  rewrite count_if_app. simpl. lia.
Qed.

Lemma slots_left_for_alt l tool :
  slots_left_for l tool =
  (if decide (tool = SEARCH_RUNBOOKS) then lg_runbook_budget l else lg_budget l)
  - spent (bool_decide (tool = SEARCH_RUNBOOKS)) l.
Proof.
  unfold slots_left_for, slots_left, runbook_slots_left.
  case_decide as Hd; [rewrite bool_decide_true by done|rewrite bool_decide_false by done]; done.
Qed.

Lemma receipts_app l l' k r :
  lg_receipts l' = lg_receipts l ++ [(k, r)] -> receipts l' = receipts l ++ [r].
Proof. intros Hl. unfold receipts, dict_values. by rewrite Hl, fmap_app. Qed.

(** One allowed receipt of [tool] costs its own pool a slot and the other none. *)
Definition same_pool (t1 t2 : ToolName) : bool :=
  Bool.eqb (bool_decide (t1 = SEARCH_RUNBOOKS)) (bool_decide (t2 = SEARCH_RUNBOOKS)).

Lemma slots_left_for_put l id r tool :
  dict_get id (lg_receipts l) = None ->
  slots_left_for (l <| lg_receipts := dict_set id r (lg_receipts l) |>) tool
  = slots_left_for l tool
    - Z.b2z (bool_decide (rc_policy_result r = ALLOWED) && same_pool (rc_tool r) tool).
Proof.
  intros Hg. rewrite !slots_left_for_alt, spent_put by done. simpl.
  unfold charged, same_pool. lia.
Qed.

Lemma slots_left_for_replace l id r0 r tool :
  dict_get id (lg_receipts l) = Some r0 ->
  rc_policy_result r = rc_policy_result r0 -> rc_tool r = rc_tool r0 ->
  slots_left_for (l <| lg_receipts := dict_set id r (lg_receipts l) |>) tool
  = slots_left_for l tool.
Proof.
  intros Hg Hp Ht. rewrite !slots_left_for_alt. f_equal. unfold spent. simpl.
  rewrite (count_if_dict_set _ id r r0) by done.
  unfold charged. rewrite Hp, Ht. lia.
Qed.

Lemma dict_set_set {K V} `{EqDecision K} (k : K) (v1 v2 : V) d :
  dict_set k v2 (dict_set k v1 d) = dict_set k v2 d.
Proof.
  induction d as [|[k' v'] d IH]; simpl; [by rewrite decide_True|].
  destruct (decide (k = k')) as [->|]; simpl; [by rewrite decide_True|].
  rewrite decide_False by done. by rewrite IH.
Qed.

(** * Lemmas: the effective window *)

Lemma resolve_arguments_tool a scope :
  arguments_tool (resolve_effective_window a scope) = arguments_tool a.
Proof. by destruct a. Qed.

Lemma resolve_idempotent a scope :
  resolve_effective_window (resolve_effective_window a scope) scope
  = resolve_effective_window a scope.
Proof.
  destruct a as [a|a|a|a|a]; simpl; try done; unfold clamp_start, clamp_end; simpl;
    do 2 f_equal; f_equal; lia.
Qed.

Definition window_of (a : ToolArguments) : option (option Z * option Z) :=
  match a with
  | AMetric a => Some (qm_window_start a, qm_window_end a)
  | ALogs a => Some (ql_window_start a, ql_window_end a)
  | AChanges a => Some (lc_window_start a, lc_window_end a)
  | ATopology _ | ARunbooks _ => None
  end.

Lemma resolve_window a scope ws we :
  window_of a = Some (ws, we) ->
  window_of (resolve_effective_window a scope)
  = Some (Some (Z.max (default (sc_started_at scope) ws) (sc_started_at scope)),
          Some (Z.min (default (sc_ended_at scope) we) (sc_ended_at scope))).
Proof. destruct a; simpl; intros; simplify_eq; done. Qed.

(** * Lemmas: one dispatch *)

Section dispatch_lemmas.
Context `{Pydantic} `{Host} `{Clocks}.
Implicit Types (d : Dispatch) (p : ToolProposal) (scope : IncidentScope) (b : Budgets).

Definition effective p scope : ToolProposal :=
  proposal_with p (resolve_effective_window (pr_arguments p) scope).

Definition decision_of tool p scope b d : PolicyDecision :=
  authorize (effective p scope) scope (d_seen d) b (slots_left_for (d_ledger d) tool).

Definition requested_receipt (pr : PolicyResult) (st : ReceiptState) (o : option ToolOutcome)
    (rc : option ReasonCode) (id : string) (t : Z) p scope : ToolReceipt :=
  {| rc_receipt_id := id; rc_incident_id := sc_incident_id scope; rc_tool := pr_tool p;
     rc_fingerprint := fingerprint (pr_arguments (effective p scope));
     rc_policy_result := pr; rc_state := st; rc_outcome := o; rc_reason_code := rc;
     rc_requested_at := t; rc_duration_ms := 0; rc_result_digest := None;
     rc_evidence_id := None; rc_arguments := Some (pr_arguments (effective p scope)) |}.

Lemma decision_fingerprint tool p scope b d :
  pd_fingerprint (decision_of tool p scope b d)
  = fingerprint (pr_arguments (effective p scope)).
Proof. apply authorize_fingerprint. Qed.

(** The state a dispatch leaves: one receipt more, two draws from the world. *)
Definition with_receipt (r : ToolReceipt) d : Dispatch :=
  {| d_world := (d_world d) <| w_ids := S (w_ids (d_world d)) |>
                  <| w_ticks := S (w_ticks (d_world d)) |>;
     d_ledger := (d_ledger d)
       <| lg_receipts := dict_set (rc_receipt_id r) r (lg_receipts (d_ledger d)) |>;
     d_seen := {[ rc_fingerprint r ]} ∪ d_seen d |}.

Lemma dispatch_denied_run tool rc p scope b d :
  pr_tool p = tool -> fresh_id d ->
  pd_result (decision_of tool p scope b d) = DENIED ->
  let r := requested_receipt DENIED SETTLED (Some NOT_EXECUTED)
             (pd_reason_code (decision_of tool p scope b d))
             (uuid_hex (w_ids (d_world d))) (clock (w_ticks (d_world d))) p scope in
  dispatch tool tool rc p scope b d
  = (Ok {| dr_receipt := r; dr_evidence := None; dr_passages := [];
           dr_retrieval_mode := None;
           dr_message := pd_message (decision_of tool p scope b d) |},
     with_receipt r d).
Proof.
  intros Ht Hf Hd r. unfold dispatch, pr_tool in *.
  rewrite bool_decide_true by done. cbn [negb].
  fold (effective p scope). unfold mbind at 1, ST_bind at 1, get_state at 1.
  fold (decision_of tool p scope b d).
  unfold mbind at 1, ST_bind at 1, modify. rewrite Hd.
  unfold denied_receipt, record, draw_id, tick, new_opaque_id, read_clock, get_state,
    put_receipt, modify, lift_result, mbind, ST_bind, mret, ST_ret. simpl.
  unfold dict_mem. rewrite Hf. unfold with_receipt, r, requested_receipt.
  rewrite !decision_fingerprint. unfold pr_tool. simpl.
  rewrite resolve_arguments_tool. done.
Qed.

(** The reserved receipt, and the state the backend is called in. *)
Definition reserved_of p scope d : ToolReceipt :=
  requested_receipt ALLOWED RESERVED None None (uuid_hex (w_ids (d_world d)))
    (clock (w_ticks (d_world d))) p scope.

Definition called p scope d : Dispatch :=
  let d1 := with_receipt (reserved_of p scope d) d in
  d1 <| d_world := (d_world d1) <| w_backend_calls :=
    w_backend_calls (d_world d) ++ [pr_arguments (effective p scope)] |> |>.

Lemma dispatch_allowed_run tool rc p scope b d :
  pr_tool p = tool ->
  pd_result (decision_of tool p scope b d) = ALLOWED ->
  dispatch tool tool rc p scope b d
  = match rc (length (w_backend_calls (d_world d))) (pr_arguments (effective p scope)) scope with
    | Ok o => settle_outcome scope (reserved_of p scope d) o (called p scope d)
    | Err e => (Err e, called p scope d)
    end.
Proof.
  intros Ht Hd. unfold dispatch, pr_tool in *.
  rewrite bool_decide_true by done. cbn [negb].
  fold (effective p scope). unfold mbind at 1, ST_bind at 1, get_state at 1.
  fold (decision_of tool p scope b d).
  unfold mbind at 1, ST_bind at 1, modify. rewrite Hd.
  unfold run_allowed, reserve, draw_id, tick, new_opaque_id, read_clock, get_state, call_backend,
    put_receipt, modify, lift_result, mbind, ST_bind, mret, ST_ret. simpl.
  unfold pr_tool. simpl. rewrite resolve_arguments_tool, Ht.
  apply authorize_allowed_iff in Hd as [Hslot _].
  destruct (Z.leb_spec (slots_left_for (d_ledger d) tool) 0); [lia|].
  rewrite !decision_fingerprint. unfold reserved_of, requested_receipt, pr_tool. rewrite Ht.
  unfold called, with_receipt, reserved_of, requested_receipt, pr_tool. rewrite Ht.
  destruct (rc _ _ _); done.
Qed.

(** What [settle] puts in a reserved receipt's place. *)
Definition settles r (ev : option Evidence) (r' : ToolReceipt) : Prop :=
  exists outcome reason duration,
    r' = settled_copy r outcome reason duration (ev_content_hash <$> ev)
           (ev_evidence_id <$> ev)
    /\ (is_Some ev -> outcome = EXECUTED) /\ 0 <= duration.

Lemma settle_run r outcome reason duration digest evid ev d :
  dict_get (rc_receipt_id r) (lg_receipts (d_ledger d)) = Some r -> rc_state r = RESERVED ->
  settle (rc_receipt_id r) outcome reason duration digest evid ev d
  = if 0 <=? duration then
      let r' := settled_copy r outcome reason duration digest evid in
      (Ok r', d <| d_ledger := {|
         lg_budget := lg_budget (d_ledger d);
         lg_runbook_budget := lg_runbook_budget (d_ledger d);
         lg_receipts := dict_set (rc_receipt_id r) r' (lg_receipts (d_ledger d));
         lg_evidence := match ev with
                        | None => lg_evidence (d_ledger d)
                        | Some e => dict_set (rc_receipt_id r) e (lg_evidence (d_ledger d))
                        end |} |>)
    else (Err ValidationError, d).
Proof.
  intros Hg Hs. unfold settle, get_state, mbind, ST_bind, lift_result, modify. rewrite Hg.
  rewrite decide_True by done. unfold check_lifecycle_coherence, settled_copy. simpl.
  destruct (0 <=? duration); simpl; [|done]. destruct ev; done.
Qed.

Lemma mint_evidence_run scope r o d out d' :
  mint_evidence scope r o d = (out, d') ->
  d_ledger d' = d_ledger d /\ d_seen d' = d_seen d
  /\ w_backend_calls (d_world d') = w_backend_calls (d_world d)
  /\ (w_ids (d_world d) <= w_ids (d_world d'))%nat
  /\ w_model_calls (d_world d') = w_model_calls (d_world d)
  /\ w_event_ticks (d_world d') = w_event_ticks (d_world d)
  /\ (w_ticks (d_world d) <= w_ticks (d_world d'))%nat
  /\ match out with
     | Ok None => co_outcome o <> EXECUTED
     | Ok (Some e) => co_outcome o = EXECUTED /\ ev_receipt_id e = Some (rc_receipt_id r)
         /\ ev_incident_id e = sc_incident_id scope
         /\ ev_content_hash e = content_hash (ev_payload e)
         /\ ev_evidence_id e = uuid_hex (w_ids (d_world d))
         /\ check_evidence e = Ok e /\ w_ids (d_world d') = S (w_ids (d_world d))
     | Err e => e = ValidationError
     end.
Proof.
  unfold mint_evidence. case_decide as Ho.
  2: { intros [= <- <-]. split_and!; done || lia. }
  unfold tick, read_clock, on_world, build_evidence, new_opaque_id, mbind, ST_bind, mret, ST_ret,
    check_evidence. simpl. unfold require. destruct (max_length 400 (co_summary o)) eqn:Hm; simpl;
    intros [= <- <-]; simpl; rewrite ?Hm; split_and!; done || lia.
Qed.

Lemma settle_outcome_spec scope r o d out d' :
  dict_get (rc_receipt_id r) (lg_receipts (d_ledger d)) = Some r -> rc_state r = RESERVED ->
  settle_outcome scope r o d = (out, d') ->
  d_seen d' = d_seen d /\ w_backend_calls (d_world d') = w_backend_calls (d_world d)
  /\ (w_ids (d_world d) <= w_ids (d_world d'))%nat
  /\ w_model_calls (d_world d') = w_model_calls (d_world d)
  /\ w_event_ticks (d_world d') = w_event_ticks (d_world d)
  /\ (w_ticks (d_world d) <= w_ticks (d_world d'))%nat
  /\ match out with
     | Err e => e = ValidationError /\ d_ledger d' = d_ledger d
     | Ok dr =>
         settles r (dr_evidence dr) (dr_receipt dr)
         /\ (forall e, dr_evidence dr = Some e ->
              ev_receipt_id e = Some (rc_receipt_id r)
              /\ ev_incident_id e = sc_incident_id scope
              /\ ev_content_hash e = content_hash (ev_payload e)
              /\ ev_evidence_id e = uuid_hex (w_ids (d_world d))
              /\ check_evidence e = Ok e /\ w_ids (d_world d') = S (w_ids (d_world d)))
         /\ (dr_evidence dr = None \/ dr_passages dr = [])
         /\ dr_passages dr = match o with Retrieved o => ro_passages o | Checked _ => [] end
         /\ d_ledger d' = {|
              lg_budget := lg_budget (d_ledger d);
              lg_runbook_budget := lg_runbook_budget (d_ledger d);
              lg_receipts := dict_set (rc_receipt_id r) (dr_receipt dr) (lg_receipts (d_ledger d));
              lg_evidence := match dr_evidence dr with
                             | None => lg_evidence (d_ledger d)
                             | Some e => dict_set (rc_receipt_id r) e (lg_evidence (d_ledger d))
                             end |}
     end.
Proof.
  intros Hg Hs. destruct o as [o|o]; cbn [settle_outcome].
  - unfold mbind at 1, ST_bind at 1.
    destruct (mint_evidence scope r o d) as [m d1] eqn:Hm.
    apply mint_evidence_run in Hm as (Hl & Hse & Hb & Hi & Hmc & Het & Hti & Hout).
    destruct m as [ev|e]; [|intros [= <- <-]; split_and!; done].
    unfold mbind, ST_bind. rewrite settle_run by (by rewrite ?Hl).
    destruct (Z.leb_spec 0 (co_duration_ms o)); simpl; intros [= <- <-]; simpl;
      [|split_and!; done].
    rewrite Hl. split_and!; try done; [|destruct ev as [e|]; naive_solver|by right].
    do 3 eexists. split; [done|]. split; [|done]. intros [e ->]. tauto.
  - unfold mbind, ST_bind. rewrite settle_run by done.
    destruct (Z.leb_spec 0 (ro_duration_ms o)); simpl; intros [= <- <-]; simpl;
      split_and!; try done; [|by left].
    do 3 eexists. split; [done|]. split; [|done]. by intros [? ?].
Qed.

Definition calls_of (pr : PolicyResult) p scope : list ToolArguments :=
  match pr with ALLOWED => [pr_arguments (effective p scope)] | DENIED => [] end.

(** Everything a dispatch changes, whichever way it ends. *)
Record dispatch_effect tool (rc : RunCheck) p scope b d (out : res DispatchResult) d'
    (r : ToolReceipt) : Prop := {
  de_id : rc_receipt_id r = uuid_hex (w_ids (d_world d));
  de_tool : rc_tool r = tool;
  de_incident : rc_incident_id r = sc_incident_id scope;
  de_fingerprint : rc_fingerprint r = fingerprint (pr_arguments (effective p scope));
  de_arguments : rc_arguments r = Some (pr_arguments (effective p scope));
  de_policy : rc_policy_result r = pd_result (decision_of tool p scope b d);
  de_reason : rc_policy_result r = DENIED ->
              rc_reason_code r = pd_reason_code (decision_of tool p scope b d);
  de_valid : check_lifecycle_coherence r = Ok r;
  de_receipts : lg_receipts (d_ledger d')
                = lg_receipts (d_ledger d) ++ [(rc_receipt_id r, r)];
  de_budget : lg_budget (d_ledger d') = lg_budget (d_ledger d);
  de_runbook_budget : lg_runbook_budget (d_ledger d') = lg_runbook_budget (d_ledger d);
  de_seen : d_seen d' = {[ rc_fingerprint r ]} ∪ d_seen d;
  de_calls : w_backend_calls (d_world d')
             = w_backend_calls (d_world d) ++ calls_of (rc_policy_result r) p scope;
  de_ids : (S (w_ids (d_world d)) <= w_ids (d_world d'))%nat;
  de_model_calls : w_model_calls (d_world d') = w_model_calls (d_world d);
  de_event_ticks : w_event_ticks (d_world d') = w_event_ticks (d_world d);
  de_ticks : (w_ticks (d_world d) <= w_ticks (d_world d'))%nat;
  de_out : match out with
    | Ok dr => dr_receipt dr = r /\ rc_state r = SETTLED
        /\ (dr_evidence dr = None \/ dr_passages dr = [])
        /\ (forall e, dr_evidence dr = Some e ->
             rc_policy_result r = ALLOWED /\ rc_outcome r = Some EXECUTED
             /\ rc_evidence_id r = Some (ev_evidence_id e)
             /\ rc_result_digest r = Some (ev_content_hash e)
             /\ ev_content_hash e = content_hash (ev_payload e)
             /\ ev_receipt_id e = Some (rc_receipt_id r)
             /\ ev_incident_id e = sc_incident_id scope
             /\ ev_evidence_id e = uuid_hex (S (w_ids (d_world d)))
             /\ check_evidence e = Ok e
             /\ w_ids (d_world d') = S (S (w_ids (d_world d))))
        /\ (dr_passages dr = [] \/ exists o,
              rc (length (w_backend_calls (d_world d))) (pr_arguments (effective p scope)) scope
              = Ok (Retrieved o) /\ dr_passages dr = ro_passages o)
        /\ lg_evidence (d_ledger d')
           = match dr_evidence dr with
             | None => lg_evidence (d_ledger d)
             | Some e => dict_set (rc_receipt_id r) e (lg_evidence (d_ledger d))
             end
    | Err e => rc_state r = RESERVED /\ rc_policy_result r = ALLOWED
        /\ lg_evidence (d_ledger d') = lg_evidence (d_ledger d)
        /\ (e = ValidationError
            \/ rc (length (w_backend_calls (d_world d)))
                 (pr_arguments (effective p scope)) scope = Err e)
    end;
}.

Lemma dict_set_new (l : Ledger) id (r : ToolReceipt) :
  dict_get id (lg_receipts l) = None ->
  dict_set id r (lg_receipts l) = lg_receipts l ++ [(id, r)].
Proof. intros Hg%dict_get_None. by apply dict_set_fresh. Qed.

Lemma dispatch_spec tool rc p scope b d out d' :
  pr_tool p = tool -> fresh_id d ->
  dispatch tool tool rc p scope b d = (out, d') ->
  exists r, dispatch_effect tool rc p scope b d out d' r.
Proof.
  intros Ht Hf Hrun. destruct (pd_result (decision_of tool p scope b d)) eqn:Hd.
  - rewrite dispatch_allowed_run in Hrun by done.
    set (rv := reserved_of p scope d) in *.
    assert (Hrec : lg_receipts (d_ledger (called p scope d))
                   = lg_receipts (d_ledger d) ++ [(rc_receipt_id rv, rv)])
      by (simpl; by apply dict_set_new).
    destruct (rc _ _ _) as [o|e] eqn:Hrc.
    + apply settle_outcome_spec in Hrun as (Hse & Hb & Hi & Hmc & Het & Hti & Hout);
        [|apply dict_get_set_eq|done].
      destruct out as [dr|e].
      * destruct Hout as ((oc & rs & du & Hr & Hev & Hdu) & Hlink & Hpass & Hps & Hl).
        exists (dr_receipt dr). split; rewrite ?Hl, ?Hr, ?Hse, ?Hb; simpl; try done.
        { unfold check_lifecycle_coherence, settled_copy. simpl. apply Z.leb_le in Hdu.
          by rewrite Hdu. }
        { rewrite dict_set_set. by apply dict_set_new. }
        { simpl in Hti. lia. }
        split_and!; try done.
        { intros e He. rewrite He in *. simpl.
          destruct (Hlink e eq_refl) as (? & ? & ? & ? & ? & ?).
          rewrite Hev by done. split_and!; done. }
        rewrite Hps. destruct o; [by left|right; eauto].
      * destruct Hout as [-> Hl]. exists rv. simpl in Hti.
        split; rewrite ?Hl, ?Hse, ?Hb; simpl; try done; auto; lia.
    + injection Hrun as <- <-. exists rv. split; simpl; try done; auto; lia.
  - rewrite dispatch_denied_run in Hrun by done. injection Hrun as <- <-.
    set (r := requested_receipt _ _ _ _ _ _ _ _). exists r. split; simpl; try done.
    + by apply dict_set_new.
    + by rewrite app_nil_r.
    + lia.
    + split_and!; try done; by left.
Qed.

(** The ledger's keys stay receipt ids of the stream's past. *)
Lemma dispatch_effect_ok tool rc p scope b d out d' r :
  dispatch_effect tool rc p scope b d out d' r ->
  ledger_ok (d_world d) (d_ledger d) -> ledger_ok (d_world d') (d_ledger d').
Proof.
  intros [] Hok. unfold ledger_ok. rewrite de_receipts0. apply Forall_app. split.
  - eapply Forall_impl; [exact Hok|]. intros kr (? & n & ? & ?). split; [done|].
    exists n. split; [lia|done].
  - apply Forall_singleton. simpl. split; [done|]. exists (w_ids (d_world d)). split; [lia|done].
Qed.

Lemma dispatch_effect_slots tool rc p scope b d out d' r t :
  dispatch_effect tool rc p scope b d out d' r ->
  slots_left_for (d_ledger d') t
  = slots_left_for (d_ledger d) t
    - Z.b2z (bool_decide (rc_policy_result r = ALLOWED) && same_pool tool t).
Proof.
  intros []. rewrite !slots_left_for_alt, de_budget0, de_runbook_budget0.
  unfold spent. rewrite de_receipts0. unfold dict_values. rewrite fmap_app, count_if_app.
  simpl. unfold charged, same_pool. rewrite de_tool0. case_decide; lia.
Qed.

(** What reached a backend was permitted. *)
Lemma dispatch_effect_permitted tool rc p scope b d out d' r :
  dispatch_effect tool rc p scope b d out d' r ->
  Forall (arguments_permitted scope b) (calls_of (rc_policy_result r) p scope).
Proof.
  intros []. destruct (rc_policy_result r); [|constructor]. symmetry in de_policy0.
  apply Forall_singleton. by apply authorize_allowed_iff in de_policy0 as (_ & _ & ?).
Qed.

(** No pool is overdrawn: authorization is asked with the pool's own count. *)
Lemma dispatch_effect_nonneg tool rc p scope b d out d' r :
  dispatch_effect tool rc p scope b d out d' r ->
  (forall t, 0 <= slots_left_for (d_ledger d) t) ->
  forall t, 0 <= slots_left_for (d_ledger d') t.
Proof.
  intros He Hpos t. rewrite (dispatch_effect_slots _ _ _ _ _ _ _ _ _ t He).
  destruct He. specialize (Hpos t).
  destruct (rc_policy_result r) eqn:Hpr; simpl; [|lia].
  symmetry in de_policy0. apply authorize_allowed_iff in de_policy0 as (Hslot & _).
  destruct (same_pool tool t) eqn:Hsp; simpl; [|lia].
  assert (slots_left_for (d_ledger d) t = slots_left_for (d_ledger d) tool); [|lia].
  unfold slots_left_for, same_pool in *. apply eqb_prop in Hsp.
  repeat case_decide; repeat case_bool_decide; done.
Qed.
End dispatch_lemmas.

(** * Properties *)

Section dispatch_properties.
Context `{Pydantic} `{Clocks} `{FreshIds}.

(** a denied proposal reaches no backend and costs no slot of either pool;
    it leaves exactly one receipt, settled as [NOT_EXECUTED] with the policy's
    reason, and its fingerprint counts as seen. *)
Theorem dispatch_denied tool rc p scope b d out d' :
  pr_tool p = tool -> ledger_ok (d_world d) (d_ledger d) ->
  pd_result (decision_of tool p scope b d) = DENIED ->
  dispatch tool tool rc p scope b d = (out, d') ->
  exists r reason,
    (exists dr, out = Ok dr /\ dr_receipt dr = r /\ dr_evidence dr = None /\ dr_passages dr = [])
    /\ rc_state r = SETTLED /\ rc_outcome r = Some NOT_EXECUTED
    /\ rc_policy_result r = DENIED /\ rc_reason_code r = Some reason
    /\ denial_justified (pr_arguments (effective p scope)) scope (d_seen d) b
         (slots_left_for (d_ledger d) tool) reason
    /\ receipts (d_ledger d') = receipts (d_ledger d) ++ [r]
    /\ w_backend_calls (d_world d') = w_backend_calls (d_world d)
    /\ d_seen d' = {[ fingerprint (pr_arguments (effective p scope)) ]} ∪ d_seen d
    /\ (forall t, slots_left_for (d_ledger d') t = slots_left_for (d_ledger d) t).
Proof.
  intros Ht Hok Hd Hrun. apply ledger_ok_fresh in Hok.
  destruct (dispatch_spec tool rc p scope b d out d' Ht Hok Hrun) as [r' He].
  rewrite (dispatch_denied_run tool rc p scope b d Ht Hok Hd) in Hrun. injection Hrun as <- <-.
  destruct (authorize_denied_reason _ _ _ _ _ Hd) as (reason & Hr & Hj).
  pose proof (fun t => dispatch_effect_slots _ _ _ _ _ _ _ _ r' t He) as Hslots.
  destruct He. destruct de_out0 as (<- & _). simpl in *.
  eexists _, reason. split; [by eexists|]. split_and!; try done.
  - by eapply receipts_app.
  - intros t. rewrite Hslots. simpl. lia.
Qed.

(** An allowed proposal spends one slot of its own tool's pool and calls
    the backend exactly once, with the clamped arguments; whatever the backend
    does, one receipt is left: settled when the dispatch returned a result,
    still reserved when the backend (or the record built from its answer)
    raised — and then the exception reaches the caller. *)
Theorem dispatch_allowed tool rc p scope b d out d' :
  pr_tool p = tool -> ledger_ok (d_world d) (d_ledger d) ->
  pd_result (decision_of tool p scope b d) = ALLOWED ->
  dispatch tool tool rc p scope b d = (out, d') ->
  exists r,
    rc_policy_result r = ALLOWED
    /\ rc_arguments r = Some (resolve_effective_window (pr_arguments p) scope)
    /\ receipts (d_ledger d') = receipts (d_ledger d) ++ [r]
    /\ w_backend_calls (d_world d')
       = w_backend_calls (d_world d) ++ [resolve_effective_window (pr_arguments p) scope]
    /\ (forall t, slots_left_for (d_ledger d') t
                  = slots_left_for (d_ledger d) t - Z.b2z (same_pool tool t))
    /\ match out with
       | Ok dr => dr_receipt dr = r /\ rc_state r = SETTLED
       | Err e => rc_state r = RESERVED
           /\ (e = ValidationError
               \/ rc (length (w_backend_calls (d_world d)))
                    (resolve_effective_window (pr_arguments p) scope) scope = Err e)
       end.
Proof.
  intros Ht Hok Hd Hrun. apply ledger_ok_fresh in Hok.
  destruct (dispatch_spec tool rc p scope b d out d' Ht Hok Hrun) as [r He].
  pose proof (fun t => dispatch_effect_slots _ _ _ _ _ _ _ _ r t He) as Hslots.
  destruct He. rewrite Hd in *. rewrite de_policy0 in *. exists r. split_and!; try done.
  - by eapply receipts_app.
  - destruct out; tauto.
Qed.

(** The trust boundary. Whatever is proposed, whatever the ledger and the
    seen set hold, a request that reaches a backend names a service of the
    incident and a window inside the incident's own (or this incident's
    topology, or a passage count within budget); at most one request does; and
    neither pool of slots goes below zero. *)
Theorem dispatch_confined tool rc p scope b d out d' :
  pr_tool p = tool -> ledger_ok (d_world d) (d_ledger d) ->
  (forall t, 0 <= slots_left_for (d_ledger d) t) ->
  dispatch tool tool rc p scope b d = (out, d') ->
  (exists calls, w_backend_calls (d_world d') = w_backend_calls (d_world d) ++ calls
     /\ (length calls <= 1)%nat /\ Forall (arguments_permitted scope b) calls)
  /\ (forall t, 0 <= slots_left_for (d_ledger d') t)
  /\ ledger_ok (d_world d') (d_ledger d').
Proof.
  intros Ht Hok Hpos Hrun.
  destruct (dispatch_spec tool rc p scope b d out d' Ht (ledger_ok_fresh d Hok) Hrun) as [r He].
  split_and!; [|by eapply dispatch_effect_nonneg|by eapply dispatch_effect_ok].
  exists (calls_of (rc_policy_result r) p scope).
  pose proof (dispatch_effect_permitted _ _ _ _ _ _ _ _ _ He). destruct He.
  split_and!; [done| |done]. destruct (rc_policy_result r); simpl; lia.
Qed.
End dispatch_properties.

(** the effective window only narrows the proposed one, stays inside the
    incident whenever it is not empty, and resolving it again changes nothing. *)
Theorem effective_window_narrows a scope ws we :
  window_of a = Some (ws, we) ->
  exists s e, window_of (resolve_effective_window a scope) = Some (Some s, Some e)
    /\ sc_started_at scope <= s /\ e <= sc_ended_at scope
    /\ (forall t, ws = Some t -> t <= s) /\ (forall t, we = Some t -> e <= t)
    /\ (forall s0 e0, ws = Some s0 -> we = Some e0 ->
         sc_started_at scope <= s0 -> e0 <= sc_ended_at scope -> s = s0 /\ e = e0)
    /\ resolve_effective_window (resolve_effective_window a scope) scope
       = resolve_effective_window a scope.
Proof.
  intros Hw. do 2 eexists. split; [by apply resolve_window|].
  split_and!; [lia|lia|intros; simplify_eq/=; lia..| |apply resolve_idempotent].
  intros; simplify_eq/=. lia.
Qed.
