(* ===== verification/ToolCalls.v ===== *)
(** Native tool calls (tool_calls.py): how a provider's tool call becomes a
    typed proposal, and how a proposal is written as one. *)
From Stdlib Require Import ZArith Lia.
From stdpp Require Import prelude strings list.
From S2P Require Import Prelude PyText Tools Domain.
Local Open Scope Z_scope.

(** [args] is untrusted JSON; the [type] literal has one value. *)
Record NativeToolCall := {
  nt_name : string;
  nt_args : list (string * json);
  nt_id : string;
}.

Definition select_single_tool_call (calls : list NativeToolCall) : option NativeToolCall :=
  match calls with [call] => Some call | _ => None end.

(** At most five errors, each its location and its message. *)
Definition summarize_errors (errors : list (list string * string)) : string :=
  py_join "; " ((fun e => py_join "." e.1 +:+ ": " +:+ e.2) <$> take 5 errors).

Definition RATIONALE_KEYS : list string := ["evidence_gap"; "expected_observation"; "hypotheses"].

Definition argument_values (args : list (string * json)) (declared : ToolName)
    : list (string * json) :=
  dict_set "tool" (JStr (value declared))
    (filter (fun kv => kv.1 ∉ RATIONALE_KEYS) args).

Section parse.
Context `{Pydantic}.

Definition proposal_json (arguments : ToolArguments) (gap observation : string) : json :=
  JObj [("arguments", JObj (dump_arguments arguments)); ("evidence_gap", JStr gap);
        ("expected_observation", JStr observation)].

(** What a declared [tool] argument may be: absent, or the call's own name. *)
Definition declared_tool_error (call : NativeToolCall) (declared : ToolName) : option string :=
  match dict_get "tool" (nt_args call) with
  | None => None
  | Some (JStr declared_tool) =>
      if decide (declared_tool = value declared) then None
      else Some ("the tool call's name " +:+ py_repr (nt_name call)
                 +:+ " does not match its arguments' declared tool "
                 +:+ py_repr declared_tool)
  | Some _ => Some "tool must be a string when present"
  end.

Definition parse_tool_call (call : NativeToolCall) : option ToolProposal * string :=
  match of_value (nt_name call) with
  | None => (None, "unknown registered tool name " +:+ py_repr (nt_name call))
  | Some declared =>
      match declared_tool_error call declared with
      | Some message => (None, message)
      | None =>
          let values := argument_values (nt_args call) declared in
          match validate_arguments values with
          | None => (None, summarize_errors (validation_errors "ToolArguments" (JObj values)))
          | Some arguments =>
              match dict_get "evidence_gap" (nt_args call),
                    dict_get "expected_observation" (nt_args call) with
              | Some (JStr gap), Some (JStr observation) =>
                  match check_proposal {| pr_arguments := arguments; pr_evidence_gap := gap;
                                          pr_expected_observation := observation |} with
                  | Ok proposal => (Some proposal, "")
                  | Err _ =>
                      (None, summarize_errors (validation_errors "ToolProposal"
                               (proposal_json arguments gap observation)))
                  end
              | _, _ =>
                  (None, "evidence_gap and expected_observation must both be present strings")
              end
          end
      end
  end.

Definition to_tool_call (proposal : ToolProposal) (call_id : string) : NativeToolCall :=
  {| nt_name := value (pr_tool proposal);
     nt_args := dict_set "expected_observation" (JStr (pr_expected_observation proposal))
                  (dict_set "evidence_gap" (JStr (pr_evidence_gap proposal))
                     (dump_arguments (pr_arguments proposal)));
     nt_id := call_id |}.
End parse.

(** * Lemmas *)

Section parse_lemmas.
Context `{Pydantic}.

(** A proposal that was parsed satisfies the bounds of its schema. *)
Lemma field_int_bounds k lo hi d n : field_int k lo hi d = Some n -> lo <= n <= hi.
Proof.
  unfold field_int. intros (m & _ & Hm)%bind_Some. case_match eqn:Hb; simplify_eq.
  apply andb_true_iff in Hb as [?%Z.leb_le ?%Z.leb_le]. lia.
Qed.

Lemma validate_arguments_in_schema d a :
  validate_arguments d = Some a -> arguments_in_schema a = true.
Proof.
  unfold validate_arguments. intros (t & _ & Ha)%bind_Some.
  destruct t; apply fmap_Some in Ha as (b & Hb & ->); try done.
  - unfold validate_logs in Hb. simpl.
    repeat (apply bind_Some in Hb as (? & ? & Hb)). simplify_eq. simpl.
    repeat match goal with Hf : field_int _ _ _ _ = Some _ |- _ =>
      apply field_int_bounds in Hf end. lia.
  - unfold validate_runbooks in Hb. simpl.
    repeat (apply bind_Some in Hb as (? & ? & Hb)). simplify_eq. simpl.
    repeat match goal with Hf : field_int _ _ _ _ = Some _ |- _ =>
      apply field_int_bounds in Hf end. lia.
Qed.

(** The discriminator wins: arguments read from a call are of the named tool. *)
Lemma validate_arguments_tool d t a :
  dict_get "tool" d = Some (JStr (value t)) -> validate_arguments d = Some a ->
  arguments_tool a = t.
Proof.
  intros Hg. unfold validate_arguments. rewrite (field_enum_dump "tool" t) by done.
  intros Ha. cbn [mbind option_bind] in Ha.
  destruct t; apply fmap_Some in Ha as (b & _ & ->); done.
Qed.

Lemma parse_tool_call_Some call p e :
  parse_tool_call call = (Some p, e) ->
  e = "" /\ nt_name call = value (pr_tool p) /\ arguments_in_schema (pr_arguments p) = true
  /\ validate_arguments (argument_values (nt_args call) (pr_tool p)) = Some (pr_arguments p)
  /\ str_len (pr_evidence_gap p) <= 300 /\ str_len (pr_expected_observation p) <= 300.
Proof.
  unfold parse_tool_call. destruct (of_value (nt_name call)) as [t|] eqn:Hn; [|done].
  apply of_value_Some in Hn.
  destruct (declared_tool_error call t); [done|].
  destruct (validate_arguments _) as [a|] eqn:Ha; [|done].
  pose proof (validate_arguments_tool _ t a (dict_get_set_eq _ _ _) Ha) as Ht.
  destruct (dict_get "evidence_gap" (nt_args call)) as [[]|],
    (dict_get "expected_observation" (nt_args call)) as [[]|];
    try done.
  destruct (check_proposal _) as [p'|] eqn:Hc; [|done]. intros; simplify_eq.
  pose proof (check_proposal_id _ _ Hc) as ->. unfold check_proposal in Hc. invert_checks.
  unfold pr_tool, max_length in *. simpl in *.
  split_and!; try done; try (by apply Z.leb_le).
  by eapply validate_arguments_in_schema.
Qed.
End parse_lemmas.

(** * Properties *)

Section round_trip.
Context `{PydanticRoundTrip}.

(** Writing a proposal as a native tool call and parsing it back gives the
    same proposal: the replay model and the live parser agree. *)
Theorem tool_call_round_trip p id :
  arguments_in_schema (pr_arguments p) = true -> check_proposal p = Ok p ->
  parse_tool_call (to_tool_call p id) = (Some p, "").
Proof.
  intros Hs Hc. unfold parse_tool_call, to_tool_call. cbn [nt_name nt_args].
  rewrite of_value_value. destruct p as [a gap obs]. unfold pr_tool in *. simpl in Hs.
  set (args := dict_set _ _ _).
  assert (Hd : declared_tool_error {| nt_name := value (arguments_tool a); nt_args := args;
                 nt_id := id |} (arguments_tool a) = None).
  { destruct a; reflexivity. }
  assert (Hv : argument_values args (arguments_tool a) = dump_arguments a)
    by (destruct a; reflexivity).
  cbn [pr_arguments pr_evidence_gap pr_expected_observation] in *.
  rewrite Hd, Hv, validate_dump_arguments by done.
  assert (Hg : dict_get "evidence_gap" args = Some (JStr gap)) by (destruct a; reflexivity).
  assert (Ho : dict_get "expected_observation" args = Some (JStr obs)) by (destruct a; reflexivity).
  rewrite Hg, Ho, Hc. done.
Qed.
End round_trip.

(** Whatever a provider sends, a call that parses gives a proposal of the
    tool it names, inside its schema's bounds; every other call gives no
    proposal, and a message, and at most one call per turn is considered. *)
Theorem parse_tool_call_sound `{Pydantic} call :
  match parse_tool_call call with
  | (Some p, e) =>
      e = "" /\ nt_name call = value (pr_tool p) /\ arguments_in_schema (pr_arguments p) = true
      /\ validate_arguments (argument_values (nt_args call) (pr_tool p)) = Some (pr_arguments p)
      /\ str_len (pr_evidence_gap p) <= 300 /\ str_len (pr_expected_observation p) <= 300
  | (None, _) =>
      of_value (A := ToolName) (nt_name call) = None
      \/ exists t, of_value (nt_name call) = Some t
         /\ (is_Some (declared_tool_error call t)
             \/ validate_arguments (argument_values (nt_args call) t) = None
             \/ ~ (exists g o, dict_get "evidence_gap" (nt_args call) = Some (JStr g)
                   /\ dict_get "expected_observation" (nt_args call) = Some (JStr o)
                   /\ str_len g <= 300 /\ str_len o <= 300))
  end.
Proof.
  destruct (parse_tool_call call) as [[p|] e] eqn:Hp; [by apply parse_tool_call_Some|].
  unfold parse_tool_call in Hp. destruct (of_value (nt_name call)) as [t|]; [|by left].
  right. exists t. split; [done|].
  destruct (declared_tool_error call t); [by left; eexists|]. right.
  destruct (validate_arguments _) as [a|]; [|by left]. right.
  intros (g & o & Hg & Ho & ? & ?). rewrite Hg, Ho in Hp. unfold check_proposal, max_length in Hp. simpl in Hp.
  destruct (Z.leb_spec (str_len g) 300), (Z.leb_spec (str_len o) 300); simpl in Hp; try lia. done.
Qed.
