(* ===== verification/Models.v ===== *)
(** The model boundary (models.py): requests, responses, one proposing turn, and
    the validation of untrusted model content against the typed schemas. *)
From Stdlib Require Import ZArith Lia.
From stdpp Require Import prelude strings list.
From S2P Require Import Prelude PyText Tools Domain ToolCalls.
Local Open Scope Z_scope.

Inductive Stage := INITIAL_PLAN | HYPOTHESIS_UPDATE | FINAL_ASSESSMENT.

#[export] Instance Stage_eq : EqDecision Stage.
Proof. solve_decision. Defined.

#[export] Instance Stage_enum : StrEnum Stage := {
  members := [INITIAL_PLAN; HYPOTHESIS_UPDATE; FINAL_ASSESSMENT];
  value s := match s with
    | INITIAL_PLAN => "initial_plan"
    | HYPOTHESIS_UPDATE => "hypothesis_update"
    | FINAL_ASSESSMENT => "final_assessment"
    end;
}.

Record ModelRequest := {
  mq_stage : Stage;
  mq_system_text : string;
  mq_context_text : string;
  mq_repair_errors : option string;
  mq_run_id : string;
  mq_graph_phase : GraphPhase;
  mq_model_turn : Z;
  mq_context_digest : string;
}.

Record ModelResponse := {
  mr_content : list (string * json);
  mr_usage : option ModelUsage;
  mr_errors : string;
}.

Record ProposedTurn := {
  pt_parsed : option StagePlan;
  pt_errors : string;
  pt_tool_call : list NativeToolCall;
  pt_usage : option ModelUsage;
}.

(** A model, seen from the graph: any behaviour at all. The n-th call may return
    anything of the right type, or raise. *)
Class ToolCallingModel := {
  propose : nat -> ModelRequest -> res ProposedTurn;
  respond : nat -> ModelRequest -> res ModelResponse;
}.

(** * Schema validation of model content *)

Definition json_strings (l : list json) : option (list string) :=
  mapM (fun j => match j with JStr s => Some s | _ => None end) l.

(** A [tuple[str, ...]] with an empty default. *)
Definition field_strings (k : string) (d : list (string * json)) : option (list string) :=
  match dict_get k d with
  | None => Some []
  | Some (JArr l) => json_strings l
  | Some _ => None
  end.

Definition field_str_default (k fallback : string) (d : list (string * json)) : option string :=
  match dict_get k d with
  | None => Some fallback
  | Some (JStr s) => Some s
  | Some _ => None
  end.

(** [str | None], absent meaning [None]. *)
Definition field_opt_str (k : string) (d : list (string * json)) : option (option string) :=
  match dict_get k d with
  | None | Some JNull => Some None
  | Some (JStr s) => Some (Some s)
  | Some _ => None
  end.

Definition of_result {A} (r : res A) : option A :=
  match r with Ok a => Some a | Err _ => None end.

Definition validate_assessment (d : list (string * json)) : option FinalAssessment :=
  _ ← no_extra ["schema_version"; "disposition"; "root_cause"; "supporting_evidence_ids";
                "contrary_evidence_ids"; "runbook_citations"; "uncertainty"; "next_step"] d;
  schema_version ← field_str_default "schema_version" SCHEMA_VERSION d;
  disposition ← field_enum "disposition" d;
  root_cause ← field_enum "root_cause" d;
  supporting ← field_strings "supporting_evidence_ids" d;
  contrary ← field_strings "contrary_evidence_ids" d;
  citations ← field_strings "runbook_citations" d;
  uncertainty ← field_str "uncertainty" d;
  next_step ← field_str "next_step" d;
  of_result (check_assessment
    {| fa_schema_version := schema_version; fa_disposition := disposition;
       fa_root_cause := root_cause; fa_supporting_evidence_ids := supporting;
       fa_contrary_evidence_ids := contrary; fa_runbook_citations := citations;
       fa_uncertainty := uncertainty; fa_next_step := next_step |}).

Definition dump_assessment (a : FinalAssessment) : list (string * json) :=
  [("schema_version", JStr (fa_schema_version a));
   ("disposition", JStr (value (fa_disposition a)));
   ("root_cause", JStr (value (fa_root_cause a)));
   ("supporting_evidence_ids", JArr (JStr <$> fa_supporting_evidence_ids a));
   ("contrary_evidence_ids", JArr (JStr <$> fa_contrary_evidence_ids a));
   ("runbook_citations", JArr (JStr <$> fa_runbook_citations a));
   ("uncertainty", JStr (fa_uncertainty a)); ("next_step", JStr (fa_next_step a))].

Definition dump_hypothesis (h : Hypothesis_) : json :=
  JObj [("root_cause", JStr (value (hy_root_cause h))); ("rank", JInt (hy_rank h));
        ("supporting_evidence_ids", JArr (JStr <$> hy_supporting_evidence_ids h));
        ("contrary_evidence_ids", JArr (JStr <$> hy_contrary_evidence_ids h));
        ("missing_evidence", JStr (hy_missing_evidence h))].

Section validation.
Context `{Pydantic}.

Definition validate_hypothesis (j : json) : option Hypothesis_ :=
  match j with
  | JObj d =>
      _ ← no_extra ["root_cause"; "rank"; "supporting_evidence_ids";
                    "contrary_evidence_ids"; "missing_evidence"] d;
      root_cause ← field_enum "root_cause" d;
      rank ← dict_get "rank" d ≫= coerce_int;
      supporting ← field_strings "supporting_evidence_ids" d;
      contrary ← field_strings "contrary_evidence_ids" d;
      missing ← field_str "missing_evidence" d;
      let h := {| hy_root_cause := root_cause; hy_rank := rank;
                  hy_supporting_evidence_ids := supporting;
                  hy_contrary_evidence_ids := contrary; hy_missing_evidence := missing |} in
      if check_hypothesis h then Some h else None
  | _ => None
  end.

Definition validate_proposal (j : json) : option ToolProposal :=
  match j with
  | JObj d =>
      arguments ← match dict_get "arguments" d with
                  | Some (JObj a) => validate_arguments a
                  | _ => None
                  end;
      gap ← field_str "evidence_gap" d;
      observation ← field_str "expected_observation" d;
      of_result (check_proposal {| pr_arguments := arguments; pr_evidence_gap := gap;
                                   pr_expected_observation := observation |})
  | _ => None
  end.

(** [InitialPlan] and [HypothesisUpdate]; an unknown field is ignored. *)
Definition validate_plan (d : list (string * json)) : option StagePlan :=
  _ ← field_str_default "schema_version" SCHEMA_VERSION d;
  hypotheses ← match dict_get "hypotheses" d with
               | Some (JArr l) => mapM validate_hypothesis l
               | _ => None
               end;
  proposal ← match dict_get "proposal" d with
             | None | Some JNull => Some None
             | Some j => Some <$> validate_proposal j
             end;
  stop_reason ← field_opt_str "stop_reason" d;
  of_result (check_proposal_or_stop
    {| pl_hypotheses := hypotheses; pl_proposal := proposal; pl_stop_reason := stop_reason |}).

Definition dump_proposal (p : ToolProposal) : json :=
  proposal_json (pr_arguments p) (pr_evidence_gap p) (pr_expected_observation p).

Definition dump_plan (p : StagePlan) : list (string * json) :=
  [("schema_version", JStr SCHEMA_VERSION);
   ("hypotheses", JArr (dump_hypothesis <$> pl_hypotheses p));
   ("proposal", match pl_proposal p with None => JNull | Some q => dump_proposal q end);
   ("stop_reason", match pl_stop_reason p with None => JNull | Some s => JStr s end)].

(** [parse_response(schema, content)]: the value, or a short error to repair from. *)
Definition parse_response {A} (schema : string) (validate : list (string * json) -> option A)
    (content : list (string * json)) : option A * string :=
  match validate content with
  | Some a => (Some a, "")
  | None => (None, summarize_errors (validation_errors schema (JObj content)))
  end.

Definition parse_assessment : list (string * json) -> option FinalAssessment * string :=
  parse_response "FinalAssessment" validate_assessment.

Definition parse_plan (stage : Stage) : list (string * json) -> option StagePlan * string :=
  parse_response (if decide (stage = INITIAL_PLAN) then "InitialPlan" else "HypothesisUpdate")
    validate_plan.
End validation.

(** * Lemmas *)

#[export] Instance Stage_laws : StrEnumLaws Stage.
Proof. solve_enum. Qed.

Lemma json_strings_fmap l : json_strings (JStr <$> l) = Some l.
Proof.
  unfold json_strings. induction l as [|s l IH]; [done|].
  rewrite fmap_cons. cbn [mapM mbind option_bind]. by rewrite IH.
Qed.

Lemma field_strings_dump k l d :
  dict_get k d = Some (JArr (JStr <$> l)) -> field_strings k d = Some l.
Proof. intros Hg. unfold field_strings. rewrite Hg. apply json_strings_fmap. Qed.

Lemma of_result_Some {A} (r : res A) a : of_result r = Some a <-> r = Ok a.
Proof. destruct r; simpl; split; congruence. Qed.

(** A parsed assessment satisfies its own validator. *)
Lemma validate_assessment_check d a : validate_assessment d = Some a -> check_assessment a = Ok a.
Proof.
  unfold validate_assessment. intros Ha. repeat (apply bind_Some in Ha as (? & ? & Ha)).
  apply of_result_Some in Ha. by pose proof (check_assessment_id _ _ Ha) as ->.
Qed.

Lemma parse_assessment_check `{Pydantic} content a e :
  parse_assessment content = (Some a, e) -> check_assessment a = Ok a.
Proof.
  unfold parse_assessment, parse_response. destruct (validate_assessment content) eqn:Hv; [|done].
  intros; simplify_eq. by eapply validate_assessment_check.
Qed.

Lemma validate_dump_assessment a :
  check_assessment a = Ok a -> validate_assessment (dump_assessment a) = Some a.
Proof.
  intros Hc. unfold validate_assessment.
  rewrite (field_enum_dump "disposition" (fa_disposition a)) by done.
  rewrite (field_enum_dump "root_cause" (fa_root_cause a)) by done.
  rewrite (field_strings_dump "supporting_evidence_ids" (fa_supporting_evidence_ids a)) by done.
  rewrite (field_strings_dump "contrary_evidence_ids" (fa_contrary_evidence_ids a)) by done.
  rewrite (field_strings_dump "runbook_citations" (fa_runbook_citations a)) by done.
  destruct a; simpl in *. by rewrite Hc.
Qed.

Section dump_lemmas.
Context `{PydanticRoundTrip}.

Lemma validate_dump_hypothesis h :
  check_hypothesis h = true -> validate_hypothesis (dump_hypothesis h) = Some h.
Proof.
  intros Hc. unfold validate_hypothesis, dump_hypothesis.
  rewrite (field_enum_dump "root_cause" (hy_root_cause h)) by done.
  erewrite (field_strings_dump "supporting_evidence_ids") by done.
  erewrite (field_strings_dump "contrary_evidence_ids") by done.
  destruct h; simpl in *. rewrite coerce_int_int. simpl. by rewrite Hc.
Qed.

Lemma validate_dump_hypotheses l :
  forallb check_hypothesis l = true -> mapM validate_hypothesis (dump_hypothesis <$> l) = Some l.
Proof.
  induction l as [|h l IH]; [done|]. cbn [forallb]. intros [Hh Hl]%andb_prop.
  rewrite fmap_cons. cbn [mapM]. rewrite validate_dump_hypothesis by done. cbn [mbind option_bind]. by rewrite IH.
Qed.

Lemma validate_dump_proposal p :
  arguments_in_schema (pr_arguments p) = true -> check_proposal p = Ok p ->
  validate_proposal (dump_proposal p) = Some p.
Proof.
  intros Hs Hc. unfold validate_proposal, dump_proposal, proposal_json. simpl.
  rewrite validate_dump_arguments by done. destruct p; simpl in *. by rewrite Hc.
Qed.
End dump_lemmas.

(** * Properties *)

(** A final assessment survives the JSON it is stored as, and a plan does
    too: dumping and validating again returns the same value. *)
Theorem stage_dumps_round_trip `{PydanticRoundTrip} stage (a : FinalAssessment) (p : StagePlan) :
  check_assessment a = Ok a -> check_proposal_or_stop p = Ok p ->
  (forall q, pl_proposal p = Some q ->
     arguments_in_schema (pr_arguments q) = true /\ check_proposal q = Ok q) ->
  parse_assessment (dump_assessment a) = (Some a, "")
  /\ parse_plan stage (dump_plan p) = (Some p, "").
Proof.
  intros Ha Hp Hq. unfold parse_assessment, parse_plan, parse_response. split.
  - by rewrite validate_dump_assessment.
  - assert (Hv : validate_plan (dump_plan p) = Some p); [|by rewrite Hv].
    assert (Hh : forallb check_hypothesis (pl_hypotheses p) = true).
    { unfold check_proposal_or_stop in Hp. by invert_checks. }
    destruct p as [hs prop st]. unfold validate_plan.
    set (d := dump_plan _).
    assert (Hpr : match dict_get "proposal" d with
                  | None | Some JNull => Some None
                  | Some j => Some <$> validate_proposal j
                  end = Some prop).
    { destruct prop as [q|]; [|done]. destruct (Hq q eq_refl) as [Hs Hc].
      change (Some <$> validate_proposal (dump_proposal q) = Some (Some q)).
      by rewrite validate_dump_proposal. }
    assert (Hst : field_opt_str "stop_reason" d = Some st) by (destruct st; reflexivity).
    assert (Hhs : dict_get "hypotheses" d = Some (JArr (dump_hypothesis <$> hs))) by reflexivity.
    assert (Hsv : field_str_default "schema_version" SCHEMA_VERSION d = Some SCHEMA_VERSION)
      by reflexivity.
    rewrite Hsv, Hst, Hpr, Hhs, validate_dump_hypotheses by done.
    cbn [mbind option_bind]. by rewrite Hp.
Qed.
