(* ===== verification/Sqlite.v ===== *)
(** The parts of Python's [sqlite3] the program uses, for a table of rows [R].

    [Connection] is a connection: the committed table ([None] before it is
    created), the transaction's own view while one is open, and how many statements
    were run.  Any statement may raise [sqlite3.Error]; [statement_fails] says which
    do, and a statement that raises has no effect.  [rollback] drops the open view;
    a write outside a transaction opens one, as the module does by default.  Rows
    come back in insertion order, and timestamps are kept as the instants they
    denote. *)
From Stdlib Require Import ZArith Lia.
From stdpp Require Import prelude strings list.
From S2P Require Import Prelude PyText Domain.
Local Open Scope Z_scope.

Record Connection (R : Type) := {
  db_saved : option (list R);
  db_open : option (option (list R));
  db_statements : nat;
}.
Arguments db_saved {R} _.
Arguments db_open {R} _.
Arguments db_statements {R} _.

#[export] Instance settable_Connection R : Settable (Connection R) := fun c =>
  {| db_saved := db_saved c; db_open := db_open c; db_statements := db_statements c |}.

Class Sqlite := statement_fails : nat -> bool.

Definition sqlite_error : exn := OtherError "OperationalError".

(** A second row under one primary key. *)
Definition integrity_error : exn := OtherError "IntegrityError".

Definition is_integrity_error (e : exn) : bool :=
  match e with OtherError name => bool_decide (name = "IntegrityError") | _ => false end.

(** [except sqlite3.Error] *)
Definition is_sqlite_error (e : exn) : bool :=
  match e with
  | OtherError name => bool_decide (name = "OperationalError" \/ name = "IntegrityError")
  | _ => false
  end.

(** * Statements *)

Section statements.
Context `{Sqlite} {R K : Type} `{EqDecision K} (key : R -> K).

Notation Conn := (Connection R).
Notation ConnM := (ST Conn exn).

(** What the connection itself reads: its own transaction's view, if one is open. *)
Definition view (c : Conn) : option (list R) := default (db_saved c) (db_open c).

Definition execute {A} (f : Conn -> res (A * Conn)) : ConnM A := fun c =>
  let c' := c <| db_statements := S (db_statements c) |> in
  if statement_fails (db_statements c) then (Err sqlite_error, c')
  else match f c' with
       | Ok (a, c'') => (Ok a, c'')
       | Err e => (Err e, c')
       end.

(** [CREATE TABLE IF NOT EXISTS]: outside a transaction it takes effect at once. *)
Definition create_table : ConnM unit :=
  execute (fun c =>
    match view c, db_open c with
    | Some _, _ => Ok (tt, c)
    | None, None => Ok (tt, c <| db_saved := Some [] |>)
    | None, Some _ => Ok (tt, c <| db_open := Some (Some []) |>)
    end).

Definition begin_immediate : ConnM unit :=
  execute (fun c =>
    match db_open c with
    | Some _ => Err sqlite_error
    | None => Ok (tt, c <| db_open := Some (db_saved c) |>)
    end).

Definition commit : ConnM unit :=
  execute (fun c =>
    match db_open c with
    | Some t => Ok (tt, c <| db_saved := t |> <| db_open := None |>)
    | None => Ok (tt, c)
    end).

Definition rollback : ConnM unit := modify (fun c => c <| db_open := None |>).

Definition select (p : R -> bool) : ConnM (list R) :=
  execute (fun c =>
    match view c with
    | None => Err sqlite_error
    | Some t => Ok (List.filter p t, c)
    end).

Definition insert (r : R) : ConnM unit :=
  execute (fun c =>
    match view c with
    | None => Err sqlite_error
    | Some t =>
        if decide (key r ∈ (key <$> t)) then Err integrity_error
        else Ok (tt, c <| db_open := Some (Some (t ++ [r])) |>)
    end).

(** [UPDATE ... WHERE p]: the number of rows it changed. *)
Definition update (p : R -> bool) (f : R -> R) : ConnM Z :=
  execute (fun c =>
    match view c with
    | None => Err sqlite_error
    | Some t => Ok (count_if p t,
                    c <| db_open := Some (Some ((fun r => if p r then f r else r) <$> t)) |>)
    end).
End statements.

(** * Where a connection stands *)

Section states.
Context {R : Type}.
Implicit Types (T V : list R) (c : Connection R).

(** No transaction is open; [T] is what is committed. *)
Definition idle T c : Prop := db_open c = None /\ default [] (db_saved c) = T.

(** The table exists, too. *)
Definition ready T c : Prop := db_open c = None /\ db_saved c = Some T.

(** A transaction over [T] is open and reads [V]. *)
Definition within T V c : Prop := db_saved c = Some T /\ db_open c = Some (Some V).

(** Inside or outside a transaction, nothing has been committed. *)
Definition uncommitted T c : Prop := ready T c \/ exists V, within T V c.

Lemma ready_idle T c : ready T c -> idle T c.
Proof. intros [? Hs]. split; [done|]. by rewrite Hs. Qed.
End states.

(** A computation that keeps [P] when it raises, and only raises [sqlite3.Error]. *)
Definition stmt {R A} (P : Connection R -> Prop) (m : ST (Connection R) exn A)
    (Q : A -> Connection R -> Prop) : Prop :=
  triple P m Q (fun e c => e = sqlite_error /\ P c).

(** * Lemmas *)

Section statement_lemmas.
Context `{Sqlite} {R K : Type} `{EqDecision K} (key : R -> K).
Implicit Types (T V : list R).

Lemma execute_triple {A} P (f : Connection R -> res (A * Connection R)) Q (E : exn -> Prop) :
  E sqlite_error ->
  (forall c n, P c -> P (c <| db_statements := n |>)) ->
  (forall c, P c -> match f c with Ok (a, c') => Q a c' | Err e => E e end) ->
  triple P (execute f) Q (fun e c => E e /\ P c).
Proof.
  intros HE Hstable Hf c HP. unfold execute.
  pose proof (Hstable c (S (db_statements c)) HP) as HP'.
  destruct (statement_fails _); [by split|].
  specialize (Hf _ HP'). destruct (f _) as [[a c']|e]; [done|by split].
Qed.

Lemma execute_stmt {A} P (f : Connection R -> res (A * Connection R)) Q :
  (forall c n, P c -> P (c <| db_statements := n |>)) ->
  (forall c, P c -> match f c with Ok (a, c') => Q a c' | Err e => e = sqlite_error end) ->
  stmt P (execute f) Q.
Proof. intros. by apply (execute_triple P f Q (fun e => e = sqlite_error)). Qed.

Lemma create_table_stmt T : stmt (idle T) create_table (fun _ => ready T).
Proof.
  apply execute_stmt; [done|]. intros c [Ho Hs]. unfold view. rewrite Ho. simpl.
  destruct (db_saved c) as [t|] eqn:Ht; simpl in Hs; subst; by split.
Qed.

Lemma begin_stmt T : stmt (ready T) begin_immediate (fun _ => within T T).
Proof. apply execute_stmt; [done|]. intros c [Ho Hs]. rewrite Ho. split; simpl; congruence. Qed.

Lemma commit_stmt T V : stmt (within T V) commit (fun _ => ready V).
Proof. apply execute_stmt; [done|]. intros c [Hs Ho]. rewrite Ho. by split. Qed.

Lemma commit_ready_stmt T : stmt (ready T) commit (fun _ => ready T).
Proof. apply execute_stmt; [done|]. intros c [Ho Hs]. rewrite Ho. by split. Qed.

Lemma rollback_within T V E : triple (within T V) rollback (fun _ => ready T) E.
Proof. apply triple_modify. intros c [Hs _]. by split. Qed.

Lemma rollback_ready T E : triple (ready T) rollback (fun _ => ready T) E.
Proof. apply triple_modify. intros c [Ho Hs]. by split. Qed.

Lemma rollback_uncommitted T E : triple (uncommitted T) rollback (fun _ => ready T) E.
Proof. intros c [Hc|[V Hc]]; [by apply (rollback_ready T E)|by apply (rollback_within T V E)]. Qed.

Lemma select_within T V p :
  stmt (within T V) (select p) (fun rows c => rows = List.filter p V /\ within T V c).
Proof.
  apply execute_stmt; [done|]. intros c Hc. pose proof Hc as [Hs Ho]. unfold view. rewrite Ho. done.
Qed.

Lemma select_ready T p :
  stmt (ready T) (select p) (fun rows c => rows = List.filter p T /\ ready T c).
Proof.
  apply execute_stmt; [done|]. intros c Hc. pose proof Hc as [Ho Hs]. unfold view. rewrite Ho. simpl.
  rewrite Hs. done.
Qed.

Lemma insert_within T V r :
  key r ∉ (key <$> V) -> stmt (within T V) (insert key r) (fun _ => within T (V ++ [r])).
Proof.
  intros Hr. apply execute_stmt; [done|]. intros c [Hs Ho]. unfold view. rewrite Ho. simpl.
  by rewrite decide_False.
Qed.

Lemma insert_ready T r :
  triple (ready T) (insert key r)
    (fun _ c => key r ∉ (key <$> T) /\ within T (T ++ [r]) c)
    (fun e c => (e = sqlite_error \/ e = integrity_error /\ key r ∈ (key <$> T)) /\ ready T c).
Proof.
  apply (execute_triple _ _ _ (fun e => e = sqlite_error \/ e = integrity_error /\ key r ∈ (key <$> T)));
    [by left|done|].
  intros c [Ho Hs]. unfold view. rewrite Ho. simpl. rewrite Hs. case_decide; [by right|done].
Qed.

Lemma update_stmt T p f :
  stmt (ready T) (update p f)
    (fun n c => n = count_if p T /\ within T ((fun r => if p r then f r else r) <$> T) c).
Proof.
  apply execute_stmt; [done|]. intros c [Ho Hs]. unfold view. rewrite Ho. simpl. rewrite Hs.
  done.
Qed.
End statement_lemmas.
