(* ===== verification/CostLedger.v ===== *)
(** Money: token estimates and prices (pricing.py), what a request is reserved at before
    it is sent and what it cost once it returned, in Python floats, whose every product
    and sum rounds; and the application-wide cost ledger (cost_ledger.py), one row per
    model request, reserved before the request is sent and settled once its bill is
    known.

    The table lives in SQLite (Sqlite.v).  A row read back is validated again: data
    at rest may be anything. *)
From Stdlib Require Import ZArith Lia.
From stdpp Require Import prelude strings list.
From S2P Require Import Prelude PyText Float64 Domain Sqlite.
Local Open Scope Z_scope.

Definition MAX_INPUT_TOKENS : Z := 9600.
Definition MAX_OUTPUT_TOKENS : Z := 1600.

(** [PESSIMISTIC_CHARS_PER_TOKEN] is the float 1.0. *)
Definition PESSIMISTIC_CHARS_PER_TOKEN : f64 := f_one.

(** [-(-len(text) // int(PESSIMISTIC_CHARS_PER_TOKEN))]: a division that rounds up. *)
Definition estimate_input_tokens (text : string) : Z :=
  if decide (text = "") then 0
  else - (- str_len text / default 1 (int_of_float PESSIMISTIC_CHARS_PER_TOKEN)).

Record PricingSnapshot := {
  pc_model_name : string;
  pc_input_usd_per_million_tokens : f64;
  pc_output_usd_per_million_tokens : f64;
  pc_source : string;
  pc_verified_on : string;
  pc_supports_adaptive_thinking : bool;
}.

(** [Field(gt=0)] on both prices. *)
Definition check_pricing (p : PricingSnapshot) : res PricingSnapshot :=
  _ ← require (f_gt (pc_input_usd_per_million_tokens p) f_zero
               && f_gt (pc_output_usd_per_million_tokens p) f_zero);
  Ok p.

(** [tokens / 1_000_000 * price] *)
Definition cost_of_tokens (tokens : Z) (price : f64) : f64 :=
  f_mul (default f_zero (int_truediv tokens 1000000)) price.

Definition reservation_usd (p : PricingSnapshot) (input_tokens max_output_tokens : Z) : f64 :=
  f_add (cost_of_tokens input_tokens (pc_input_usd_per_million_tokens p))
        (cost_of_tokens max_output_tokens (pc_output_usd_per_million_tokens p)).

Definition actual_cost_usd (p : PricingSnapshot) (input_tokens output_tokens : Z) : f64 :=
  f_add (cost_of_tokens input_tokens (pc_input_usd_per_million_tokens p))
        (cost_of_tokens output_tokens (pc_output_usd_per_million_tokens p)).

Definition CLAUDE_SONNET_5_PRICING : PricingSnapshot := {|
  pc_model_name := "claude-sonnet-5";
  pc_input_usd_per_million_tokens := f_of_Z 2; pc_output_usd_per_million_tokens := f_of_Z 10;
  pc_source := "https://platform.claude.com/docs/en/about-claude/pricing";
  pc_verified_on := "2026-08-22"; pc_supports_adaptive_thinking := true |}.

Definition CLAUDE_HAIKU_4_5_PRICING : PricingSnapshot := {|
  pc_model_name := "claude-haiku-4-5-20251001";
  pc_input_usd_per_million_tokens := f_of_Z 1; pc_output_usd_per_million_tokens := f_of_Z 5;
  pc_source := "https://platform.claude.com/docs/en/about-claude/pricing";
  pc_verified_on := "2026-09-10"; pc_supports_adaptive_thinking := false |}.

Definition CLAUDE_OPUS_5_PRICING : PricingSnapshot := {|
  pc_model_name := "claude-opus-5";
  pc_input_usd_per_million_tokens := f_of_Z 5; pc_output_usd_per_million_tokens := f_of_Z 25;
  pc_source := "https://platform.claude.com/docs/en/about-claude/pricing";
  pc_verified_on := "2026-09-11"; pc_supports_adaptive_thinking := true |}.

(** [RESERVATION_CEILING_BUFFER_USD = 0.10] (cost_ledger.py) *)
Definition RESERVATION_CEILING_BUFFER_USD : f64 := default f_zero (int_truediv 1 10).

(** * The estimate *)

Lemma estimate_input_tokens_len text : estimate_input_tokens text = str_len text.
Proof.
  unfold estimate_input_tokens. case_decide as Ht; [by subst|].
  change (default 1 (int_of_float PESSIMISTIC_CHARS_PER_TOKEN)) with 1.
  rewrite Z.div_1_r. lia.
Qed.

(** * Rows *)

(** The primary key: which model request a row is about. *)
Record RequestKey := {
  k_run_id : string;
  k_graph_phase : string;
  k_model_turn : Z;
  k_context_digest : string;
}.

#[export] Instance RequestKey_eq : EqDecision RequestKey.
Proof. solve_decision. Defined.

Record CostLedgerRow := {
  cl_key : RequestKey;
  cl_state : ReceiptState;
  cl_reserved_usd : f64;
  cl_actual_usd : option f64;
  cl_input_tokens : option Z;
  cl_output_tokens : option Z;
  cl_reserved_at : Z;
  cl_settled_at : option Z;
}.

#[export] Instance settable_CostLedgerRow : Settable CostLedgerRow := fun r =>
  {| cl_key := cl_key r; cl_state := cl_state r; cl_reserved_usd := cl_reserved_usd r;
     cl_actual_usd := cl_actual_usd r; cl_input_tokens := cl_input_tokens r;
     cl_output_tokens := cl_output_tokens r; cl_reserved_at := cl_reserved_at r;
     cl_settled_at := cl_settled_at r |}.

(** [Field(ge=0, allow_inf_nan=False)] *)
Definition money_ok (x : f64) : bool := f_isfinite x && f_ge x f_zero.

Definition opt_ok {A} (p : A -> bool) (o : option A) : bool :=
  match o with None => true | Some x => p x end.

Definition has_settlement (r : CostLedgerRow) : list bool :=
  [is_some (cl_actual_usd r); is_some (cl_input_tokens r); is_some (cl_output_tokens r);
   is_some (cl_settled_at r)].

Definition lifecycle_is_complete (r : CostLedgerRow) : bool :=
  match cl_state r with
  | RESERVED => negb (existsb id (has_settlement r))
  | SETTLED => forallb id (has_settlement r)
  end.

(** [CostLedgerRow(...)] *)
Definition parse_cost_ledger_row (r : CostLedgerRow) : res CostLedgerRow :=
  _ ← require (money_ok (cl_reserved_usd r) && opt_ok money_ok (cl_actual_usd r)
               && opt_ok (fun n => 0 <=? n) (cl_input_tokens r)
               && opt_ok (fun n => 0 <=? n) (cl_output_tokens r));
  _ ← require (lifecycle_is_complete r);
  Ok r.

(** * The connection *)

Notation Table := (list CostLedgerRow).
Notation Conn := (Connection CostLedgerRow).
Notation ConnM := (ST Conn exn).

(** * Reading *)

Definition store_unavailable : exn := CheckpointStoreError STORE_UNAVAILABLE.

Definition not_settleable : exn := CheckpointStoreError RESERVATION_NOT_SETTLEABLE.

(** [except sqlite3.Error as error: raise CheckpointStoreError(...) from error] *)
Definition wrap_sqlite {A} (m : ConnM A) : ConnM A :=
  try_except m (fun e => raise (if is_sqlite_error e then store_unavailable else e)).

Definition is_validation_error (e : exn) : bool :=
  match e with ValidationError => true | _ => false end.

Definition wrap_read {A} (m : ConnM A) : ConnM A :=
  try_except m (fun e => raise (if is_validation_error e || is_sqlite_error e
                                then store_unavailable else e)).

(** What a row counts at: a bill above its own reservation is counted in full. *)
Definition counted_usd (r : CostLedgerRow) : f64 :=
  match cl_state r, cl_actual_usd r with
  | SETTLED, Some actual => f_max (cl_reserved_usd r) actual
  | _, _ => cl_reserved_usd r
  end.

Fixpoint total_from (total : f64) (rows : Table) : res f64 :=
  match rows with
  | [] => Ok total
  | raw :: rows =>
      row ← parse_cost_ledger_row raw;
      total_from (f_add total (counted_usd row)) rows
  end.

Definition valid_money (x : f64) : res f64 :=
  if negb (f_isfinite x) || f_lt x f_zero then Err ValueError else Ok x.

Definition valid_tokens (n : Z) : res Z := if n <? 0 then Err ValueError else Ok n.

Fixpoint parse_rows (rows : Table) : res Table :=
  match rows with
  | [] => Ok []
  | raw :: rows => row ← parse_cost_ledger_row raw; rows ← parse_rows rows; Ok (row :: rows)
  end.

Section ledger.
Context `{Sqlite}.

Definition ensure_cost_ledger_table : ConnM unit :=
  wrap_sqlite (_ ← create_table; commit).

(** [fetchone()] of the row under a key. *)
Definition read_row (key : RequestKey) : ConnM (option CostLedgerRow) :=
  rows ← select (fun r => bool_decide (cl_key r = key));
  match rows with
  | [] => mret None
  | raw :: _ =>
      match parse_cost_ledger_row raw with
      | Ok row => mret (Some row)
      | Err _ => raise store_unavailable
      end
  end.

Definition reserved_and_settled_total : ConnM f64 :=
  wrap_read (rows ← select (fun _ => true); lift_result (total_from f_zero rows)).

Definition application_wide_spend_usd : ConnM f64 := reserved_and_settled_total.

(** [(reserved, actual, fully settled)] of one run. *)
Definition run_cost_totals (run_id : string) : ConnM (f64 * f64 * bool) :=
  _ ← ensure_cost_ledger_table;
  parsed ← wrap_read (rows ← select (fun r => bool_decide (k_run_id (cl_key r) = run_id));
                      lift_result (parse_rows rows));
  let settled := List.filter (fun r => bool_decide (cl_state r = SETTLED)) parsed in
  mret (py_sum (cl_reserved_usd <$> parsed),
        py_sum ((fun r => match cl_actual_usd r with
                          | Some x => if f_truthy x then x else f_zero
                          | None => f_zero
                          end) <$> settled),
        forallb (fun r => bool_decide (cl_state r = SETTLED)) parsed).

(** * Reserving *)

Definition remaining_usd (ceiling_usd spent : f64) : f64 :=
  f_sub (f_sub ceiling_usd RESERVATION_CEILING_BUFFER_USD) spent.

Definition new_reservation (key : RequestKey) (reserved_usd : f64) (requested_at : Z)
    : CostLedgerRow :=
  {| cl_key := key; cl_state := RESERVED; cl_reserved_usd := reserved_usd;
     cl_actual_usd := None; cl_input_tokens := None; cl_output_tokens := None;
     cl_reserved_at := requested_at; cl_settled_at := None |}.

(** The read, the check and the insert, inside one transaction.  [Some] is the
    row that was already there. *)
Definition reserve_body (key : RequestKey) (reserved_usd ceiling_usd : f64)
    (requested_at : Z) : ConnM (option CostLedgerRow) :=
  existing ← read_row key;
  match existing with
  | Some row => _ ← commit; mret (Some row)
  | None =>
      spent ← reserved_and_settled_total;
      let remaining := remaining_usd ceiling_usd spent in
      if f_gt reserved_usd remaining then
        _ ← rollback; raise (CostCeilingExceeded reserved_usd (f_max remaining f_zero))
      else
        _ ← insert cl_key (new_reservation key reserved_usd requested_at);
        _ ← commit;
        mret None
  end.

(** [except sqlite3.Error] and [except BaseException]: both roll back. *)
Definition reserve_except {A} (e : exn) : ConnM A :=
  _ ← rollback; raise (if is_sqlite_error e then store_unavailable else e).

Definition read_back (key : RequestKey) : ConnM CostLedgerRow :=
  row ← read_row key;
  match row with Some row => mret row | None => raise AssertionError end.

Definition record_reservation_before_request (key : RequestKey) (reserved_usd : f64)
    (requested_at : Z) (ceiling_usd : f64) : ConnM (CostLedgerRow * bool) :=
  _ ← ensure_cost_ledger_table;
  match (r ← valid_money reserved_usd; c ← valid_money ceiling_usd; Ok (r, c)) with
  | Err _ => raise store_unavailable
  | Ok (reserved_usd, ceiling_usd) =>
      _ ← wrap_sqlite begin_immediate;
      existing ← try_except (reserve_body key reserved_usd ceiling_usd requested_at)
                   reserve_except;
      match existing with
      | Some row => mret (row, false)
      | None => row ← read_back key; mret (row, true)
      end
  end.

(** * Settling *)

Definition settled_row (actual_usd : f64) (input_tokens output_tokens settled_at : Z)
    (r : CostLedgerRow) : CostLedgerRow :=
  r <| cl_state := SETTLED |> <| cl_actual_usd := Some actual_usd |>
    <| cl_input_tokens := Some input_tokens |> <| cl_output_tokens := Some output_tokens |>
    <| cl_settled_at := Some settled_at |>.

Definition settle_body (key : RequestKey) (actual_usd : f64)
    (input_tokens output_tokens settled_at : Z) : ConnM unit :=
  rowcount ← update (fun r => bool_decide (cl_key r = key) && bool_decide (cl_state r = RESERVED))
               (settled_row actual_usd input_tokens output_tokens settled_at);
  if rowcount =? 0 then _ ← rollback; raise not_settleable else commit.

(** [except sqlite3.Error]: roll back; anything else passes. *)
Definition settle_except {A} (e : exn) : ConnM A :=
  if is_sqlite_error e then _ ← rollback; raise store_unavailable else raise e.

(** The overrun is only logged, so the bill is committed as it is. *)
Definition settle_reservation (key : RequestKey) (actual_usd : f64)
    (input_tokens output_tokens settled_at : Z) : ConnM CostLedgerRow :=
  _ ← ensure_cost_ledger_table;
  match (a ← valid_money actual_usd; i ← valid_tokens input_tokens;
         o ← valid_tokens output_tokens; Ok (a, i, o)) with
  | Err _ => raise not_settleable
  | Ok (actual_usd, input_tokens, output_tokens) =>
      _ ← try_except (settle_body key actual_usd input_tokens output_tokens settled_at)
            settle_except;
      read_back key
  end.
End ledger.

(** * Lemmas: reading *)

Lemma filter_true (T : Table) : List.filter (fun _ => true) T = T.
Proof. induction T as [|r T IH]; simpl; by f_equal. Qed.

Lemma parse_error r e : parse_cost_ledger_row r = Err e -> e = ValidationError.
Proof.
  unfold parse_cost_ledger_row, require. repeat case_match; simpl; congruence.
Qed.

Lemma total_from_error x T e : total_from x T = Err e -> e = ValidationError.
Proof.
  revert x. induction T as [|r T IH]; intros x; simpl; [done|].
  destruct (parse_cost_ledger_row r) as [r'|e'] eqn:Hp; simpl; [apply IH|].
  intros [= <-]. by eapply parse_error.
Qed.

Section reading_lemmas.
Context `{Sqlite}.

Lemma ensure_spec T :
  triple (idle T) ensure_cost_ledger_table (fun _ => ready T)
    (fun e c => e = store_unavailable /\ idle T c).
Proof.
  apply (triple_try _ _ _ _ (fun e c => e = sqlite_error /\ idle T c)).
  - eapply triple_bind.
    + apply create_table_stmt.
    + intros []. eapply triple_conseq; [apply commit_ready_stmt|done|done|].
      intros e c [-> ?%ready_idle]. done.
  - intros e. apply triple_raise. intros c [-> ?]. done.
Qed.

Definition found (T : Table) (key : RequestKey) (o : option CostLedgerRow) : Prop :=
  match o with
  | None => key ∉ (cl_key <$> T)
  | Some row => row ∈ T /\ cl_key row = key /\ parse_cost_ledger_row row = Ok row
  end.

Lemma parse_id r r' : parse_cost_ledger_row r = Ok r' -> r' = r.
Proof.
  unfold parse_cost_ledger_row, require. repeat case_match; simpl; congruence.
Qed.

Lemma read_row_spec P T key :
  (forall p, stmt P (select p) (fun rows c => rows = List.filter p T /\ P c)) ->
  triple P (read_row key) (fun o c => found T key o /\ P c)
    (fun e c => (e = sqlite_error \/ e = store_unavailable) /\ P c).
Proof.
  intros Hsel. unfold read_row. eapply triple_bind.
  { eapply triple_conseq; [apply Hsel|done|done|]. intros e c [-> ?]. auto. }
  intros rows. cbv beta.
  destruct rows as [|raw rows].
  - apply triple_ret. intros c [Hr Hc]. split; [|done]. simpl.
    intros (r & Hk & Hin)%list_elem_of_fmap.
    assert (r ∈ List.filter (fun x => bool_decide (cl_key x = key)) T) as Hf.
    { apply list_elem_of_In, filter_In. rewrite list_elem_of_In in Hin. split; [done|].
      by apply bool_decide_eq_true. }
    rewrite <- Hr in Hf. by apply elem_of_nil in Hf.
  - assert (Hraw : raw :: rows = List.filter (fun r => bool_decide (cl_key r = key)) T ->
                   raw ∈ T /\ cl_key raw = key).
    { intros Hr. assert (In raw (List.filter (fun r => bool_decide (cl_key r = key)) T)) as Hin
        by (rewrite <- Hr; by left).
      apply filter_In in Hin as [? Hk%bool_decide_eq_true]. rewrite list_elem_of_In. done. }
    destruct (parse_cost_ledger_row raw) as [row|e] eqn:Hp.
    + apply triple_ret. intros c [[? ?]%Hraw Hc]. pose proof (parse_id _ _ Hp). subst row. done.
    + apply triple_raise. intros c [_ Hc]. auto.
Qed.

Lemma total_spec P T :
  (forall p, stmt P (select p) (fun rows c => rows = List.filter p T /\ P c)) ->
  triple P reserved_and_settled_total (fun x c => total_from f_zero T = Ok x /\ P c)
    (fun e c => e = store_unavailable /\ P c).
Proof.
  intros Hsel. unfold reserved_and_settled_total.
  apply (triple_try _ _ _ _ (fun e c => (e = sqlite_error \/ e = ValidationError) /\ P c)).
  - eapply triple_bind.
    + eapply triple_conseq; [apply Hsel|done|done|]. intros e c [-> Hc]. auto.
    + intros rows. apply triple_lift.
      * intros c x [-> Hc] Hx. by rewrite filter_true in Hx.
      * intros c e [_ Hc] He. split; [right|done]. by eapply total_from_error.
  - intros e. apply triple_raise. intros c [[->| ->] Hc]; done.
Qed.
End reading_lemmas.

(** * Lemmas: reserving *)

(** The ceiling test, passed. *)
Definition affordable (T : Table) (reserved_usd ceiling_usd : f64) : Prop :=
  exists spent, total_from f_zero T = Ok spent
    /\ f_gt reserved_usd (remaining_usd ceiling_usd spent) = false.

(** The ceiling test, failed: the exception says what was left. *)
Definition refused (T : Table) (reserved_usd ceiling_usd : f64) (e : exn) : Prop :=
  exists spent, total_from f_zero T = Ok spent
    /\ f_gt reserved_usd (remaining_usd ceiling_usd spent) = true
    /\ e = CostCeilingExceeded reserved_usd (f_max (remaining_usd ceiling_usd spent) f_zero).

Definition store_error (e : exn) : Prop := e = sqlite_error \/ e = store_unavailable.

Section reserve_lemmas.
Context `{Sqlite}.
Variables (T : Table) (key : RequestKey) (reserved_usd ceiling_usd : f64) (requested_at : Z).

Notation new := (new_reservation key reserved_usd requested_at).

Definition reserved (o : option CostLedgerRow) (c : Conn) : Prop :=
  match o with
  | Some row => row ∈ T /\ cl_key row = key /\ parse_cost_ledger_row row = Ok row /\ ready T c
  | None => key ∉ (cl_key <$> T) /\ affordable T reserved_usd ceiling_usd /\ ready (T ++ [new]) c
  end.

Lemma reserve_body_spec :
  triple (within T T) (reserve_body key reserved_usd ceiling_usd requested_at) reserved
    (fun e c => (store_error e \/ key ∉ (cl_key <$> T) /\ refused T reserved_usd ceiling_usd e)
                /\ uncommitted T c).
Proof.
  unfold reserve_body. eapply triple_bind.
  { eapply triple_conseq; [apply (read_row_spec (within T T) T), select_within|done|done|].
    intros e c [He Hc]. split; [by left|]. right. eauto. }
  intros [row|]; cbv beta iota.
  - eapply triple_bind with (Q1 := fun _ c => found T key (Some row) /\ ready T c).
    + intros c [Hf Hc]. pose proof (commit_stmt T T c Hc) as Hrun.
      destruct (commit c) as [[[]|e] c']; [done|]. destruct Hrun as [-> ?].
      split; [by left; left|]. right. eauto.
    + intros []. apply triple_ret. intros c [(? & ? & ?) ?]. by split_and!.
  - eapply triple_bind with (Q1 := fun spent c => key ∉ (cl_key <$> T)
      /\ total_from f_zero T = Ok spent /\ within T T c).
    { intros c [Hf Hc]. pose proof (total_spec (within T T) T (select_within T T) c Hc) as Hrun.
      destruct (reserved_and_settled_total c) as [[x|e] c']; [by destruct Hrun|].
      destruct Hrun as [-> ?]. split; [by left; right|]. right. eauto. }
    intros spent. cbv zeta. destruct (f_gt _ _) eqn:Hgt.
    + eapply triple_bind with (Q1 := fun _ c => key ∉ (cl_key <$> T)
        /\ total_from f_zero T = Ok spent /\ ready T c).
      { intros c (? & ? & Hc). by apply (rollback_within T T (fun _ _ => False)) in Hc. }
      intros []. apply triple_raise. intros c (? & Hsp & ?). split; [right|by left].
      split; [done|]. by exists spent.
    + eapply triple_bind with (Q1 := fun _ c => (key ∉ (cl_key <$> T)
        /\ affordable T reserved_usd ceiling_usd) /\ within T (T ++ [new]) c).
      { intros c (? & ? & Hc). pose proof (insert_within cl_key T T new ltac:(done) c Hc) as Hrun.
        destruct (insert cl_key new c) as [[[]|e] c'].
        - split_and!; try done. by exists spent.
        - destruct Hrun as [-> ?]. split; [by left; left|]. right. eauto. }
      intros []. eapply triple_bind with (Q1 := fun _ => reserved None).
      { intros c ([? ?] & Hc). pose proof (commit_stmt T (T ++ [new]) c Hc) as Hrun.
        destruct (commit c) as [[[]|e] c'].
        - by split_and!.
        - destruct Hrun as [-> ?]. split; [by left; left|]. right. eauto. }
      intros []. by apply triple_ret.
Qed.

Lemma reserve_try_spec :
  triple (within T T)
    (try_except (reserve_body key reserved_usd ceiling_usd requested_at) reserve_except)
    reserved
    (fun e c => (e = store_unavailable
                 \/ key ∉ (cl_key <$> T) /\ refused T reserved_usd ceiling_usd e) /\ ready T c).
Proof.
  eapply triple_try; [apply reserve_body_spec|]. intros e. unfold reserve_except.
  eapply triple_bind with (Q1 := fun _ c =>
    (store_error e \/ key ∉ (cl_key <$> T) /\ refused T reserved_usd ceiling_usd e) /\ ready T c).
  { intros c [He Hc]. by apply (rollback_uncommitted T (fun _ _ => False)) in Hc. }
  intros []. apply triple_raise. intros c [He Hc]. split; [|done].
  destruct He as [[->| ->]|[Hk Hr]]; [by left|by left|right]. split; [done|].
  pose proof Hr as (spent & ? & ? & ->). exact Hr.
Qed.
End reserve_lemmas.

Lemma valid_money_ok x y : valid_money x = Ok y -> y = x /\ money_ok x = true.
Proof.
  unfold valid_money, money_ok, f_ge, f_lt. destruct (f_isfinite x) eqn:Hf; simpl; [|done].
  destruct x as [s|s| |s m e]; try done; [by intros [= <-]|].
  destruct s; simpl; [done|]. by intros [= <-].
Qed.

Lemma new_reservation_valid key x t :
  money_ok x = true ->
  parse_cost_ledger_row (new_reservation key x t) = Ok (new_reservation key x t).
Proof. intros Hx. unfold parse_cost_ledger_row. simpl. by rewrite Hx. Qed.

Lemma forallb_filter_nil (p : CostLedgerRow -> bool) (T : Table) :
  List.filter p T = [] <-> forall x, x ∈ T -> p x = false.
Proof.
  induction T as [|r T IH]; simpl.
  - split; [by intros _ x ?%elem_of_nil|done].
  - destruct (p r) eqn:Hp; split; try done.
    + intros Hall. specialize (Hall r ltac:(by left)). congruence.
    + intros Hf x [->|Hx]%elem_of_cons; [done|]. by apply IH.
    + intros Hall. apply IH. intros x Hx. apply Hall. by right.
Qed.

Section spec.
Context `{Sqlite}.

(** Everything [record_reservation_before_request] may do to the ledger. *)
Definition reservation_effect (T : Table) (key : RequestKey) (reserved_usd : f64)
    (requested_at : Z) (ceiling_usd : f64) (out : res (CostLedgerRow * bool)) (c : Conn) : Prop :=
  let new := new_reservation key reserved_usd requested_at in
  let added := key ∉ (cl_key <$> T) /\ affordable T reserved_usd ceiling_usd
               /\ money_ok reserved_usd = true /\ idle (T ++ [new]) c in
  match out with
  | Ok (row, true) => row = new /\ added
  | Ok (row, false) => row ∈ T /\ cl_key row = key /\ idle T c
  | Err e =>
      e = sqlite_error /\ added
      \/ (e = store_unavailable
          \/ key ∉ (cl_key <$> T) /\ refused T reserved_usd ceiling_usd e) /\ idle T c
  end.

Lemma filter_key_snoc (T : Table) r :
  cl_key r ∉ (cl_key <$> T) ->
  List.filter (fun x => bool_decide (cl_key x = cl_key r)) (T ++ [r]) = [r].
Proof.
  intros Hr. rewrite List.filter_app. simpl. rewrite bool_decide_true by done.
  rewrite (proj2 (forallb_filter_nil _ T)); [done|].
  intros x Hx. apply bool_decide_eq_false. intros Heq. apply Hr. rewrite <- Heq.
  by apply list_elem_of_fmap_2.
Qed.

Lemma read_back_new T key x t :
  key ∉ (cl_key <$> T) -> money_ok x = true ->
  let new := new_reservation key x t in
  triple (ready (T ++ [new])) (read_back key) (fun row c => row = new /\ ready (T ++ [new]) c)
    (fun e c => e = sqlite_error /\ ready (T ++ [new]) c).
Proof.
  intros Hkey Hx new. unfold read_back, read_row.
  eapply triple_bind with (Q1 := fun o c => o = Some new /\ ready (T ++ [new]) c).
  { eapply triple_bind; [apply select_ready|]. intros rows. cbv beta.
    intros c [-> Hc].
    pose proof (filter_key_snoc T new Hkey) as Hf. change (cl_key new) with key in Hf.
    rewrite Hf. unfold new at 1. rewrite (new_reservation_valid key x t Hx). done. }
  intros o. intros c [-> Hc]. done.
Qed.

Lemma reservation_spec T key reserved_usd requested_at ceiling_usd :
  triple (idle T)
    (record_reservation_before_request key reserved_usd requested_at ceiling_usd)
    (fun r => reservation_effect T key reserved_usd requested_at ceiling_usd (Ok r))
    (fun e => reservation_effect T key reserved_usd requested_at ceiling_usd (Err e)).
Proof.
  unfold record_reservation_before_request. eapply triple_bind.
  { eapply triple_conseq; [apply ensure_spec|done|done|]. intros e c [-> Hc]. right. auto. }
  intros []. destruct (_ ← valid_money reserved_usd; _) as [[r1 c1]|e1] eqn:Hv.
  2: { apply triple_raise. intros c ?%ready_idle. right. auto. }
  apply result_bind_Ok in Hv as (r & [-> Hr]%valid_money_ok & Hv).
  apply result_bind_Ok in Hv as (c0 & [-> _]%valid_money_ok & [= <- <-]).
  eapply triple_bind with (Q1 := fun _ => within T T).
  { intros c Hc. unfold wrap_sqlite, try_except. pose proof (begin_stmt T c Hc) as Hrun.
    destruct (begin_immediate c) as [[[]|e] c']; [done|]. destruct Hrun as [-> ?%ready_idle].
    right. auto. }
  intros []. eapply triple_bind.
  { eapply triple_conseq; [apply reserve_try_spec|done|intros a s Ha; exact Ha|].
    intros e c [He ?%ready_idle]. by right. }
  intros [row|]; cbv beta iota.
  - apply triple_ret. intros c (? & ? & _ & ?%ready_idle). by split_and!.
  - intros c (Hkey & Haff & Hc).
    pose proof (read_back_new T key reserved_usd requested_at Hkey Hr c Hc) as Hrun.
    unfold mbind, ST_bind. destruct (read_back key c) as [[row|e] c'].
    + destruct Hrun as [-> ?%ready_idle]. by split_and!.
    + destruct Hrun as [-> ?%ready_idle]. left. by split_and!.
Qed.
End spec.

(** * Lemmas: settling *)

Definition pending (key : RequestKey) (r : CostLedgerRow) : bool :=
  bool_decide (cl_key r = key) && bool_decide (cl_state r = RESERVED).

Definition settle_table (key : RequestKey) (actual_usd : f64)
    (input_tokens output_tokens settled_at : Z) (T : Table) : Table :=
  (fun r => if pending key r then settled_row actual_usd input_tokens output_tokens settled_at r
            else r) <$> T.

Section settle_spec.
Context `{Sqlite}.

(** Everything [settle_reservation] may do to the ledger. *)
Definition settlement_effect (T : Table) (key : RequestKey) (actual_usd : f64)
    (input_tokens output_tokens settled_at : Z) (out : res CostLedgerRow) (c : Conn) : Prop :=
  let T' := settle_table key actual_usd input_tokens output_tokens settled_at T in
  let settled := 0 < count_if (pending key) T /\ money_ok actual_usd = true
                 /\ 0 <= input_tokens /\ 0 <= output_tokens /\ idle T' c in
  match out with
  | Ok row => row ∈ T' /\ cl_key row = key /\ settled
  | Err e => (store_error e /\ settled)
             \/ ((e = store_unavailable \/ e = not_settleable) /\ idle T c)
  end.

Lemma settle_body_spec T key a i o t :
  triple (ready T) (settle_body key a i o t)
    (fun _ c => 0 < count_if (pending key) T /\ ready (settle_table key a i o t T) c)
    (fun e c => (e = sqlite_error /\ uncommitted T c) \/ (e = not_settleable /\ ready T c)).
Proof.
  unfold settle_body. eapply triple_bind.
  { eapply triple_conseq; [apply update_stmt|done|intros n c Hn; exact Hn|].
    intros e c [-> ?]. left. split; [done|by left]. }
  intros n. cbv beta. fold (pending key). fold (settle_table key a i o t T).
  destruct (Z.eqb_spec n 0) as [->|Hn].
  - eapply triple_bind with (Q1 := fun _ => ready T).
    { intros c [_ Hc]. by apply (rollback_within T _ (fun _ _ => False)) in Hc. }
    intros []. apply triple_raise. auto.
  - intros c [-> Hc]. pose proof (count_if_nonneg (pending key) T).
    pose proof (commit_stmt _ _ c Hc) as Hrun. destruct (commit c) as [[[]|e] c'].
    + split; [|done]. fold (pending key) in Hn. lia.
    + destruct Hrun as [-> ?]. left. split; [done|]. right. eauto.
Qed.

Lemma settlement_keys key a i o t (T : Table) :
  cl_key <$> settle_table key a i o t T = cl_key <$> T.
Proof.
  unfold settle_table. rewrite <- list_fmap_compose. apply list_fmap_ext.
  intros n r _. simpl. by case_match.
Qed.

Lemma settlement_spec T key a i o t :
  triple (idle T) (settle_reservation key a i o t)
    (fun r => settlement_effect T key a i o t (Ok r))
    (fun e => settlement_effect T key a i o t (Err e)).
Proof.
  unfold settle_reservation. eapply triple_bind.
  { eapply triple_conseq; [apply ensure_spec|done|done|]. intros e c [-> Hc]. right. auto. }
  intros []. destruct (_ ← valid_money a; _) as [[[a1 i1] o1]|e1] eqn:Hv.
  2: { apply triple_raise. intros c ?%ready_idle. right. auto. }
  apply result_bind_Ok in Hv as (a0 & [-> Ha]%valid_money_ok & Hv).
  unfold valid_tokens in Hv. destruct (Z.ltb_spec i 0); [done|]. destruct (Z.ltb_spec o 0); [done|].
  injection Hv as <- <- <-.
  eapply triple_bind with (Q1 := fun _ c => 0 < count_if (pending key) T
                                            /\ ready (settle_table key a i o t T) c).
  - eapply triple_try; [apply settle_body_spec|]. intros e. unfold settle_except.
    destruct (is_sqlite_error e) eqn:Hsq.
    + intros c [[-> Hc]|[-> _]]; [|done].
      apply (rollback_uncommitted T (fun _ _ => False)), ready_idle in Hc. right. auto.
    + apply triple_raise. intros c [[-> _]|[-> ?%ready_idle]]; [done|]. right. auto.
  - intros []. intros c [Hn Hc].
    pose proof (read_row_spec (ready (settle_table key a i o t T)) _ key (select_ready _) c Hc) as Hrun.
    unfold read_back, mbind, ST_bind. destruct (read_row key c) as [[[row|]|e] c'].
    + destruct Hrun as [(? & ? & _) ?%ready_idle]. by split_and!.
    + destruct Hrun as [Hno _]. exfalso. simpl in Hno. rewrite settlement_keys in Hno.
      assert (Hz : count_if (pending key) T = 0); [|lia]. apply count_if_zero.
      intros r Hr. unfold pending. rewrite bool_decide_false; [done|]. intros <-.
      apply Hno. by apply list_elem_of_fmap_2.
    + destruct Hrun as [He ?%ready_idle]. left. by split_and!.
Qed.
End settle_spec.

Lemma NoDup_fmap_elem {A B} (f : A -> B) (l : list A) x y :
  NoDup (f <$> l) -> x ∈ l -> y ∈ l -> f x = f y -> x = y.
Proof.
  induction l as [|z l IH]; simpl; [by intros _ ?%elem_of_nil|].
  rewrite NoDup_cons. intros [Hz Hnd] [->|Hx]%elem_of_cons [->|Hy]%elem_of_cons Hf; auto.
  - destruct Hz. rewrite Hf. by apply list_elem_of_fmap_2.
  - destruct Hz. rewrite <- Hf. by apply list_elem_of_fmap_2.
Qed.

(** * Theorems *)

Section theorems.
Context `{Sqlite}.

(** A reservation is made once, under the ceiling, or not at all. Whatever
    SQLite does, the call leaves no transaction open and either leaves the ledger
    as it was or appends one RESERVED row for a key the ledger did not hold, whose
    amount passed the ceiling test against everything counted before it; a key
    already there gets its own row back and [False]; a refusal says so and
    changes nothing. *)
Theorem reservation_gated T key reserved_usd requested_at ceiling_usd c out c' :
  idle T c ->
  record_reservation_before_request key reserved_usd requested_at ceiling_usd c = (out, c') ->
  (idle T c'
   \/ idle (T ++ [new_reservation key reserved_usd requested_at]) c'
      /\ key ∉ (cl_key <$> T) /\ affordable T reserved_usd ceiling_usd)
  /\ match out with
     | Ok (row, is_new) => cl_key row = key
         /\ (is_new = true <-> idle (T ++ [row]) c' /\ key ∉ (cl_key <$> T))
         /\ (is_new = false -> row ∈ T /\ idle T c')
     | Err (CostCeilingExceeded amount _) =>
         amount = reserved_usd /\ idle T c' /\ ~ affordable T reserved_usd ceiling_usd
     | Err e => store_error e
     end.
Proof.
  intros Hc Hrun.
  pose proof (reservation_spec T key reserved_usd requested_at ceiling_usd c Hc) as Heff.
  rewrite Hrun in Heff. destruct out as [[row []]|e]; cbn [reservation_effect] in Heff.
  - destruct Heff as (-> & Hk & Ha & _ & Hi). split; [by right|]. by split_and!.
  - destruct Heff as (Hin & Hk & Hi). split; [by left|]. split_and!; try done.
    split; [done|]. intros [_ Hno]. destruct Hno. rewrite <- Hk. by apply list_elem_of_fmap_2.
  - destruct Heff as [(-> & Hk & Ha & _ & Hi)|[[->|(Hk & spent & Hs & Hgt & ->)] Hi]].
    + split; [by right|]. by left.
    + split; [by left|]. by right.
    + split; [by left|]. split_and!; try done. intros (spent' & Hs' & Hle). congruence.
Qed.

(** A bill is recorded once. A settlement that returns found its row
    RESERVED and leaves it SETTLED at the actual bill and token counts, touching
    no other row; settling the same key again is refused and changes nothing. *)
Theorem settlement_recorded_once T key a i o t c row c' :
  idle T c -> NoDup (cl_key <$> T) ->
  settle_reservation key a i o t c = (Ok row, c') ->
  exists r0, r0 ∈ T /\ cl_key r0 = key /\ cl_state r0 = RESERVED
    /\ row = settled_row a i o t r0
    /\ idle (settle_table key a i o t T) c'
    /\ (forall r, r ∈ T -> cl_key r <> key -> r ∈ settle_table key a i o t T)
    /\ (forall a' i' o' t' out c'',
          settle_reservation key a' i' o' t' c' = (out, c'') ->
          (exists e, out = Err e) /\ idle (settle_table key a i o t T) c'').
Proof.
  intros Hc Hnd Hrun. pose proof (settlement_spec T key a i o t c Hc) as Heff.
  rewrite Hrun in Heff. destruct Heff as (Hin & Hk & Hcount & Ha & Hi & Ho & Hidle).
  assert (Hone : exists r0, r0 ∈ T /\ pending key r0 = true).
  { destruct (decide (Exists (fun r => pending key r = true) T)) as [Hex|Hno].
    - by apply Exists_exists in Hex.
    - rewrite <- Forall_Exists_neg, Forall_forall in Hno.
      assert (count_if (pending key) T = 0); [|lia]. apply count_if_zero.
      intros r Hr. by apply not_true_is_false, Hno. }
  destruct Hone as (r0 & Hr0 & Hp). pose proof Hp as Hp'.
  apply andb_true_iff in Hp' as [Hk0%bool_decide_eq_true Hs0%bool_decide_eq_true].
  exists r0. split_and!; try done.
  - unfold settle_table in Hin. apply list_elem_of_fmap in Hin as (r & Hr & HrT).
    assert (cl_key r = key) by (destruct (pending key r); subst row; done).
    assert (r = r0) as ->; [|by rewrite Hp in Hr].
    apply (NoDup_fmap_elem cl_key T); [done..|congruence].
  - intros r Hr Hne. unfold settle_table. apply list_elem_of_fmap. exists r. split; [|done].
    unfold pending. by rewrite bool_decide_false.
  - intros a' i' o' t' out c'' Hrun2.
    pose proof (settlement_spec _ key a' i' o' t' c' Hidle) as Heff2. rewrite Hrun2 in Heff2.
    assert (Hzero : count_if (pending key) (settle_table key a i o t T) = 0).
    { apply count_if_zero. intros r (r1 & -> & _)%list_elem_of_fmap.
      destruct (pending key r1) eqn:Hp1; [|done]. unfold pending. simpl. by rewrite andb_false_r. }
    destruct out as [row2|e]; [destruct Heff2 as (_ & _ & Hlt & _); lia|].
    split; [by eexists|]. destruct Heff2 as [(_ & Hlt & _)|[_ ?]]; [lia|done].
Qed.
End theorems.
