(* ===== verification/LiveModel.v ===== *)
(** The live model adapter (live_model.py): one call site that reserves, sends and
    settles a paid request, and the reading of the provider's message into a final
    assessment or a proposed turn.

    The provider is a parameter: [chat_invoke n] is its n-th answer, a message or an
    exception.  So are the tool definitions, which Pydantic generates from the
    schemas.  [Live] is the process's state: the ledger's connection, the clock's
    readings, and which requests were sent (a log only the statements read). *)
From Stdlib Require Import ZArith Lia.
From stdpp Require Import prelude strings list.
From S2P Require Import Prelude PyText Float64 Tools Domain World ToolCalls Models Sqlite CostLedger.
Local Open Scope Z_scope.

(** * The provider's messages *)

Record ToolCall := {
  tc_name : string;
  tc_args : list (string * json);
  tc_id : option string;
}.

Record InvalidToolCall := { ic_name : option string; ic_error : option string }.

Record AIMessage := {
  am_content : json;
  am_tool_calls : list ToolCall;
  am_invalid_tool_calls : list InvalidToolCall;
  am_usage_metadata : option ModelUsage;
}.

Class Provider := {
  chat_invoke : nat -> string -> string -> list json -> res AIMessage;
  stop_tool_definition : json;
  domain_tool_definitions : list json;
  final_assessment_tool_definition : json;
}.

(** * The paid call *)

Record Live := {
  lv_conn : Conn;
  lv_ticks : nat;
  lv_sent : list RequestKey;
}.

#[export] Instance settable_Live : Settable Live := fun s =>
  {| lv_conn := lv_conn s; lv_ticks := lv_ticks s; lv_sent := lv_sent s |}.

Notation LiveM := (ST Live exn).

Definition on_ledger {A} (m : ConnM A) : LiveM A := fun s =>
  let '(r, c) := m (lv_conn s) in (r, s <| lv_conn := c |>).

Record LiveClaudeModel := {
  lm_ceiling_usd : f64;
  lm_pricing : PricingSnapshot;
  lm_credential_present : bool;
}.

Definition key_of (request : ModelRequest) : RequestKey :=
  {| k_run_id := mq_run_id request; k_graph_phase := value (mq_graph_phase request);
     k_model_turn := mq_model_turn request; k_context_digest := mq_context_digest request |}.

(** The human message: the context, and on a repair turn the correction. *)
Definition human_content (request : ModelRequest) : string :=
  match mq_repair_errors request with
  | None | Some "" => mq_context_text request
  | Some errors => mq_context_text request +:+ nl +:+ nl +:+ "## Correction needed" +:+ nl +:+ errors
  end.

Definition estimated_prose (request : ModelRequest) : Z :=
  estimate_input_tokens (mq_system_text request +:+ human_content request).

(** What a request reserves: the prose and the tool definitions that go with it. *)
Definition reservation_of (pricing : PricingSnapshot) (request : ModelRequest)
    (tools : list json) : f64 :=
  reservation_usd pricing
    (estimated_prose request + estimate_input_tokens (json_dumps (JArr tools))) MAX_OUTPUT_TOKENS.

Section send.
Context `{Sqlite} `{Clocks} `{Provider}.

Definition live_clock : LiveM Z := fun s =>
  (Ok (clock (lv_ticks s)), s <| lv_ticks := S (lv_ticks s) |>).

(** [client.bind_tools(...).invoke(messages)] *)
Definition invoke_provider (request : ModelRequest) (tools : list json) : LiveM AIMessage :=
  fun s => (chat_invoke (length (lv_sent s)) (mq_system_text request) (human_content request) tools,
            s <| lv_sent := lv_sent s ++ [key_of request] |>).

Definition send (self : LiveClaudeModel) (request : ModelRequest) (tools : list json)
    : LiveM AIMessage :=
  if negb (lm_credential_present self) then raise MissingCredential
  else if MAX_INPUT_TOKENS <? estimated_prose request then
    raise (InputTooLarge (estimated_prose request))
  else
    requested_at ← live_clock;
    reservation ← on_ledger (record_reservation_before_request (key_of request)
                     (reservation_of (lm_pricing self) request tools) requested_at
                     (lm_ceiling_usd self));
    let '(row, is_new) := (reservation : CostLedgerRow * bool) in
    if negb is_new then
      raise (AmbiguousReservationNotResent (k_run_id (cl_key row)) (k_graph_phase (cl_key row))
               (k_model_turn (cl_key row)))
    else
      message ← invoke_provider request tools;
      match am_usage_metadata message with
      | None => raise MissingProviderUsage
      | Some usage =>
          settled_at ← live_clock;
          _ ← on_ledger (settle_reservation (key_of request)
                 (actual_cost_usd (lm_pricing self) (input_tokens usage) (output_tokens usage))
                 (input_tokens usage) (output_tokens usage) settled_at);
          mret message
      end.
End send.

(** * Reading the message *)

Definition PROVIDER_BLOCKS : list string := ["tool_use"; "thinking"; "redacted_thinking"].

(** [any(...)] over the blocks; a type that cannot be hashed raises. *)
Fixpoint any_visible (blocks : list json) : res bool :=
  match blocks with
  | [] => Ok false
  | JObj d :: rest =>
      match dict_get "type" d with
      | Some (JStr t) => if decide (t ∈ PROVIDER_BLOCKS) then any_visible rest else Ok true
      | Some (JArr _) | Some (JObj _) => Err TypeError
      | _ => Ok true
      end
  | _ :: _ => Ok true
  end.

Definition has_visible_content (content : json) : res bool :=
  match content with
  | JStr "" | JArr [] => Ok false
  | JArr blocks => any_visible blocks
  | _ => Ok true
  end.

Definition or_else (o : option string) (fallback : string) : string :=
  match o with None | Some "" => fallback | Some s => s end.

Definition malformed_calls (calls : list InvalidToolCall) : string :=
  "malformed tool call(s): "
  +:+ py_join "; " ((fun c => or_else (ic_name c) "<unnamed>" +:+ ": "
                              +:+ or_else (ic_error c) "unparseable") <$> calls).

Definition too_many_calls (calls : list ToolCall) : string :=
  "the model called " +:+ str_of_Z (Z.of_nat (length calls))
  +:+ " tools in one turn; exactly one is required".

(** What both readers refuse before looking at the call itself. *)
Definition single_call (message : AIMessage) : res (ToolCall + string) :=
  visible ← has_visible_content (am_content message);
  Ok (if (visible : bool) then inr "tool-call response must not include visible text"
      else match am_invalid_tool_calls message with
           | [] =>
               match am_tool_calls message with
               | [call] => inl call
               | calls => inr (too_many_calls calls)
               end
           | invalid => inr (malformed_calls invalid)
           end).

Definition RECORD_STOP_TOOL_NAME : string := "record_stop".

Definition RECORD_FINAL_ASSESSMENT_TOOL_NAME : string := "record_final_assessment".

Definition to_native_tool_call (call : ToolCall) : NativeToolCall :=
  {| nt_name := tc_name call; nt_args := tc_args call;
     nt_id := or_else (tc_id call) "missing-call-id" |}.

(** [_usage] asserts what [send] has checked. *)
Definition usage_of (message : AIMessage) : res ModelUsage :=
  match am_usage_metadata message with None => Err AssertionError | Some u => Ok u end.

Definition read_response (message : AIMessage) : res ModelResponse :=
  usage ← usage_of message;
  selected ← single_call message;
  let failed errors := {| mr_content := []; mr_usage := Some usage; mr_errors := errors |} in
  Ok match selected with
     | inr errors => failed errors
     | inl call =>
         if decide (tc_name call <> RECORD_FINAL_ASSESSMENT_TOOL_NAME) then
           failed ("expected " +:+ RECORD_FINAL_ASSESSMENT_TOOL_NAME +:+ ", got " +:+ tc_name call)
         else if dict_mem "schema_version" (tc_args call) then
           failed "schema_version is set by the application; do not send it"
         else {| mr_content := dict_set "schema_version" (JStr SCHEMA_VERSION) (tc_args call);
                 mr_usage := Some usage; mr_errors := "" |}
     end.

Section reading.
Context `{Pydantic}.

(** [HypothesesRecord]: two or three hypotheses and nothing else. *)
Definition validate_hypotheses (j : option json) : option (list Hypothesis_) :=
  match j with
  | Some (JArr l) =>
      hs ← mapM validate_hypothesis l;
      if (2 <=? Z.of_nat (length hs)) && (Z.of_nat (length hs) <=? 3) then Some hs else None
  | _ => None
  end.

(** [StopRecord] *)
Definition validate_stop (d : list (string * json)) : option (list Hypothesis_ * string) :=
  _ ← no_extra ["hypotheses"; "stop_reason"] d;
  hs ← validate_hypotheses (dict_get "hypotheses" d);
  reason ← field_str "stop_reason" d;
  if (1 <=? str_len reason) && max_length 600 reason then Some (hs, reason) else None.

Definition plan_payload (hypotheses : list Hypothesis_) (proposal : option ToolProposal)
    (stop_reason : option string) : list (string * json) :=
  [("hypotheses", JArr (dump_hypothesis <$> hypotheses));
   ("proposal", match proposal with None => JNull | Some p => dump_proposal p end);
   ("stop_reason", match stop_reason with None => JNull | Some s => JStr s end)].

Definition finish_plan (stage : Stage) (hypotheses : list Hypothesis_)
    (proposal : option ToolProposal) (stop_reason : option string)
    : option StagePlan * string :=
  parse_plan stage (plan_payload hypotheses proposal stop_reason).

Definition read_turn (stage : Stage) (message : AIMessage) : res ProposedTurn :=
  usage ← usage_of message;
  selected ← single_call message;
  let turn parsed errors calls :=
    {| pt_parsed := parsed; pt_errors := errors; pt_tool_call := calls;
       pt_usage := Some usage |} in
  Ok match selected with
     | inr errors => turn None errors []
     | inl call =>
         if decide (tc_name call = RECORD_STOP_TOOL_NAME) then
           match validate_stop (tc_args call) with
           | None => turn None (summarize_errors
                                  (validation_errors "StopRecord" (JObj (tc_args call)))) []
           | Some (hypotheses, reason) =>
               let '(parsed, errors) := finish_plan stage hypotheses None (Some reason) in
               turn parsed errors []
           end
         else
           match of_value (A := ToolName) (tc_name call) with
           | None => turn None ("unknown proposal tool " +:+ py_repr (tc_name call)) []
           | Some _ =>
               match parse_tool_call (to_native_tool_call call) with
               | (None, reason) => turn None reason []
               | (Some proposal, _) =>
                   match validate_hypotheses (dict_get "hypotheses" (tc_args call)) with
                   | None =>
                       turn None (summarize_errors (validation_errors "HypothesesRecord"
                         (JObj [("hypotheses",
                            default JNull (dict_get "hypotheses" (tc_args call)))]))) []
                   | Some hypotheses =>
                       let '(parsed, errors) := finish_plan stage hypotheses (Some proposal) None in
                       turn parsed errors [to_native_tool_call call]
                   end
               end
           end
     end.

Context `{Sqlite} `{Clocks} `{Provider}.

Definition live_respond (self : LiveClaudeModel) (request : ModelRequest) : LiveM ModelResponse :=
  message ← send self request [final_assessment_tool_definition];
  lift_result (read_response message).

Definition live_propose (self : LiveClaudeModel) (request : ModelRequest) : LiveM ProposedTurn :=
  message ← send self request (stop_tool_definition :: domain_tool_definitions);
  lift_result (read_turn (mq_stage request) message).
End reading.

(** * Lemmas: one paid call *)

Section send_lemmas.
Context `{Sqlite} `{Clocks} `{Provider}.
Variables (self : LiveClaudeModel) (request : ModelRequest) (tools : list json).

Notation key := (key_of request).
Notation price := (reservation_of (lm_pricing self) request tools).

(** The row a send adds, reserved at [t]. *)
Definition row_at (t : Z) : CostLedgerRow := new_reservation key price t.

(** A send that may have reached the provider was let through by every gate. *)
Definition cleared (T : Table) : Prop :=
  lm_credential_present self = true /\ estimated_prose request <= MAX_INPUT_TOKENS
  /\ key ∉ (cl_key <$> T) /\ affordable T price (lm_ceiling_usd self)
  /\ money_ok price = true.

Definition bill (usage : ModelUsage) (t : Z) : Table -> Table :=
  settle_table key (actual_cost_usd (lm_pricing self) (input_tokens usage) (output_tokens usage))
    (input_tokens usage) (output_tokens usage) t.

(** Everything a send may leave behind. *)
Definition send_effect (T : Table) (sent : list RequestKey) (out : res AIMessage) (s : Live)
    : Prop :=
  match out with
  | Ok m => cleared T /\ lv_sent s = sent ++ [key]
      /\ exists usage t t', am_usage_metadata m = Some usage
         /\ money_ok (actual_cost_usd (lm_pricing self) (input_tokens usage) (output_tokens usage)) = true
         /\ idle (bill usage t' (T ++ [row_at t])) (lv_conn s)
  | Err e =>
      (lv_sent s = sent /\ idle T (lv_conn s))
      \/ (cleared T /\ lv_sent s = sent /\ e = sqlite_error
          /\ exists t, idle (T ++ [row_at t]) (lv_conn s))
      \/ (cleared T /\ lv_sent s = sent ++ [key]
          /\ exists t, idle (T ++ [row_at t]) (lv_conn s)
             \/ exists usage t', idle (bill usage t' (T ++ [row_at t])) (lv_conn s))
  end.

Lemma on_ledger_triple {A} (P : Conn -> Prop) (m : ConnM A) Q R sent :
  triple P m Q R ->
  triple (fun s => P (lv_conn s) /\ lv_sent s = sent) (on_ledger m)
    (fun a s => Q a (lv_conn s) /\ lv_sent s = sent)
    (fun e s => R e (lv_conn s) /\ lv_sent s = sent).
Proof.
  intros Hm s [HP Hs]. unfold on_ledger. specialize (Hm _ HP).
  destruct (m (lv_conn s)) as [[a|e] c]; by split.
Qed.

(** From the reservation on: the provider, and the settlement. *)
Lemma send_paid_spec T sent t :
  cleared T ->
  triple (fun s => idle (T ++ [row_at t]) (lv_conn s) /\ lv_sent s = sent)
    (message ← invoke_provider request tools;
     match am_usage_metadata message with
     | None => raise MissingProviderUsage
     | Some usage =>
         settled_at ← live_clock;
         _ ← on_ledger (settle_reservation key
                (actual_cost_usd (lm_pricing self) (input_tokens usage) (output_tokens usage))
                (input_tokens usage) (output_tokens usage) settled_at);
         mret message
     end)
    (fun m => send_effect T sent (Ok m)) (fun e => send_effect T sent (Err e)).
Proof.
  intros Hcl. eapply triple_bind with
    (Q1 := fun _ s => idle (T ++ [row_at t]) (lv_conn s) /\ lv_sent s = sent ++ [key]).
  { intros s [Hi Hs]. unfold invoke_provider. rewrite Hs.
    destruct (chat_invoke _ _ _ _) as [m|e]; [done|].
    right; right. split; [done|]. split; [done|]. exists t. by left. }
  intros m. destruct (am_usage_metadata m) as [usage|] eqn:Hu.
  2: { apply triple_raise. intros s [Hi Hs]. right; right. split; [done|]. split; [done|]. exists t. by left. }
  eapply triple_bind with
    (Q1 := fun _ s => idle (T ++ [row_at t]) (lv_conn s) /\ lv_sent s = sent ++ [key]).
  { intros s [Hi Hs]. by split. }
  intros t'. eapply triple_bind.
  { eapply triple_conseq; [apply on_ledger_triple, settlement_spec|intros s Hs; exact Hs|intros r s Hr; exact Hr|].
    intros e s [He Hs]. right; right. split; [done|]. split; [done|]. exists t.
    destruct He as [(_ & _ & _ & _ & _ & Hi)|[_ Hi]]; [right; by exists usage, t'|by left]. }
  intros row. apply triple_ret. intros s [(_ & _ & _ & Hm & _ & _ & Hi) Hs].
  split; [done|]. split; [done|]. by exists usage, t, t'.
Qed.

Lemma send_spec T sent :
  triple (fun s => idle T (lv_conn s) /\ lv_sent s = sent) (send self request tools)
    (fun m => send_effect T sent (Ok m)) (fun e => send_effect T sent (Err e)).
Proof.
  unfold send. destruct (lm_credential_present self) eqn:Hcred; simpl.
  2: { apply triple_raise. intros s [Hi Hs]. by left. }
  destruct (Z.ltb_spec MAX_INPUT_TOKENS (estimated_prose request)).
  { apply triple_raise. intros s [Hi Hs]. by left. }
  eapply triple_bind with (Q1 := fun _ s => idle T (lv_conn s) /\ lv_sent s = sent).
  { intros s [Hi Hs]. by split. }
  intros t. eapply triple_bind.
  { eapply triple_conseq; [apply on_ledger_triple, (reservation_spec T)|intros s Hs; exact Hs|intros r s Hr; exact Hr|].
    intros e s [[(-> & Hk & Ha & Hm & Hi)|[_ Hi]] Hs].
    - right; left. split_and!; try done. by exists t.
    - by left. }
  intros [row is_new]; cbv beta iota. destruct is_new; simpl.
  - intros s [(_ & Hk & Ha & Hm & Hi) Hs].
    assert (Hcl : cleared T) by by split_and!.
    exact (send_paid_spec T sent t Hcl s (conj Hi Hs)).
  - apply triple_raise. intros s [(_ & _ & Hi) Hs]. by left.
Qed.
End send_lemmas.

(** Settling a row just added settles that row and no other. *)
Lemma settle_table_new key a i o t T r :
  cl_key r = key -> cl_state r = RESERVED -> key ∉ (cl_key <$> T) ->
  settle_table key a i o t (T ++ [r]) = T ++ [settled_row a i o t r].
Proof.
  intros Hk Hs Hno. unfold settle_table. rewrite fmap_app. simpl. unfold pending at 2.
  rewrite !bool_decide_true by done. simpl. f_equal.
  rewrite <- (list_fmap_id T) at 2. apply list_fmap_ext. intros n x Hx.
  unfold pending. rewrite bool_decide_false; [done|]. intros Heq.
  apply Hno. rewrite <- Heq. apply list_elem_of_fmap_2. by eapply list_elem_of_lookup_2.
Qed.

(** * Theorems *)

Section theorems.
Context `{Sqlite} `{Clocks} `{Provider}.

(** What one send did to the ledger: nothing, or one row more. *)
Lemma send_appends self request tools T sent out s :
  send_effect self request tools T sent out s ->
  exists added, idle (T ++ added) (lv_conn s)
    /\ (added = [] /\ lv_sent s = sent
        \/ (exists r, added = [r] /\ cl_key r = key_of request)
           /\ cleared self request tools T
           /\ (lv_sent s = sent \/ lv_sent s = sent ++ [key_of request])).
Proof.
  intros Heff. destruct out as [m|e].
  - destruct Heff as (Hcl & Hsent & usage & t & t' & _ & _ & Hi). pose proof Hcl as (_ & _ & Hk & _).
    unfold bill in Hi. rewrite settle_table_new in Hi by done.
    eexists. split; [exact Hi|]. right. split; [by eexists|]. auto.
  - destruct Heff as [[Hs Hi]|[(Hcl & Hs & _ & t & Hi)|(Hcl & Hs & t & Hi)]].
    + exists []. rewrite app_nil_r. auto.
    + eexists. split; [exact Hi|]. right. split; [by eexists|]. auto.
    + pose proof Hcl as (_ & _ & Hk & _). destruct Hi as [Hi|(usage & t' & Hi)].
      * eexists. split; [exact Hi|]. right. split; [by eexists|]. auto.
      * unfold bill in Hi. rewrite settle_table_new in Hi by done.
        eexists. split; [exact Hi|]. right. split; [by eexists|]. auto.
Qed.

(** C21: nothing is sent that was not reserved first. A call that reaches the
    provider had a credential, fits the input cap, and holds a reservation of its
    own, made under the ceiling, for a key the ledger had never seen; a call that
    does not reach it raises; and a message that is returned is billed: its row is
    SETTLED at the price of the tokens the provider reported. *)
Theorem send_is_gated self request tools T s out s' :
  idle T (lv_conn s) -> send self request tools s = (out, s') ->
  (lv_sent s' = lv_sent s /\ (exists e, out = Err e)
   \/ lv_sent s' = lv_sent s ++ [key_of request]
      /\ lm_credential_present self = true
      /\ str_len (mq_system_text request +:+ human_content request) <= MAX_INPUT_TOKENS
      /\ key_of request ∉ (cl_key <$> T)
      /\ affordable T (reservation_of (lm_pricing self) request tools) (lm_ceiling_usd self)
      /\ exists r, idle (T ++ [r]) (lv_conn s') /\ cl_key r = key_of request
         /\ cl_reserved_usd r = reservation_of (lm_pricing self) request tools)
  /\ (forall m, out = Ok m -> exists usage r,
        am_usage_metadata m = Some usage /\ idle (T ++ [r]) (lv_conn s')
        /\ cl_key r = key_of request /\ cl_state r = SETTLED
        /\ cl_actual_usd r
           = Some (actual_cost_usd (lm_pricing self) (input_tokens usage) (output_tokens usage))
        /\ cl_input_tokens r = Some (input_tokens usage)
        /\ cl_output_tokens r = Some (output_tokens usage)).
Proof.
  intros Hi Hrun. pose proof (send_spec self request tools T (lv_sent s) s (conj Hi eq_refl)) as Heff.
  rewrite Hrun in Heff.
  assert (Hrow : forall usage t t', key_of request ∉ (cl_key <$> T) ->
    idle (bill self request usage t' (T ++ [row_at self request tools t])) (lv_conn s') ->
    idle (T ++ [settled_row (actual_cost_usd (lm_pricing self) (input_tokens usage) (output_tokens usage))
                  (input_tokens usage) (output_tokens usage) t' (row_at self request tools t)]) (lv_conn s')).
  { intros usage t t' Hk Hb. unfold bill in Hb. by rewrite settle_table_new in Hb. }
  destruct out as [m|e].
  - destruct Heff as ((? & Hp & Hk & ? & ?) & Hsent & usage & t & t' & Hu & _ & Hb).
    unfold estimated_prose in Hp. rewrite estimate_input_tokens_len in Hp.
    apply Hrow in Hb; [|done]. split.
    + right. split_and!; try done. by eexists.
    + intros m' [= <-]. exists usage. eexists. split; [done|]. split; [exact Hb|]. done.
  - split; [|done].
    destruct Heff as [[Hs _]|[(_ & Hs & _)|((? & Hp & Hk & ? & ?) & Hs & t & Hrest)]];
      [left; split; [done|by eexists]..|right].
    unfold estimated_prose in Hp. rewrite estimate_input_tokens_len in Hp.
    split_and!; try done. destruct Hrest as [Hb|(usage & t' & Hb)].
    + by eexists.
    + apply Hrow in Hb; [|done]. by eexists.
Qed.

(** Sends one after the other, whatever each of them returns or raises, by this
    process or by another that opened the same ledger. *)
Fixpoint run_sends (l : list (LiveClaudeModel * ModelRequest * list json)) (s : Live) : Live :=
  match l with
  | [] => s
  | (self, request, tools) :: l => run_sends l (send self request tools s).2
  end.

Lemma run_sends_appends l T s :
  idle T (lv_conn s) -> NoDup (cl_key <$> T) -> NoDup (lv_sent s) ->
  (forall k, k ∈ lv_sent s -> k ∈ (cl_key <$> T)) ->
  exists added, idle (T ++ added) (lv_conn (run_sends l s))
    /\ NoDup (cl_key <$> T ++ added) /\ NoDup (lv_sent (run_sends l s))
    /\ (forall k, k ∈ lv_sent (run_sends l s) -> k ∈ lv_sent s \/ k ∈ (cl_key <$> added)).
Proof.
  revert T s. induction l as [|[[self request] tools] l IH]; intros T s Hi Hnd Hns Hin.
  { exists []. rewrite app_nil_r. auto. }
  cbn [run_sends].
  destruct (send self request tools s) as [out s1] eqn:Hrun.
  pose proof (send_spec self request tools T (lv_sent s) s (conj Hi eq_refl)) as Heff.
  rewrite Hrun in Heff.
  assert (Heff' : send_effect self request tools T (lv_sent s) out s1) by (by destruct out).
  apply send_appends in Heff' as (added1 & Hi1 & Hcase). cbn [snd].
  assert (Hnext : NoDup (cl_key <$> T ++ added1) /\ NoDup (lv_sent s1)
    /\ (forall k, k ∈ lv_sent s1 -> k ∈ lv_sent s \/ k ∈ (cl_key <$> added1))).
  { destruct Hcase as [[-> ->]|((r & -> & Hr) & (_ & _ & Hk & _) & Hs)].
    { rewrite app_nil_r. auto. }
    assert (Hnew : key_of request ∉ lv_sent s) by (intros Hk'%Hin; done).
    split_and!.
    - rewrite fmap_app. simpl. rewrite Hr. apply NoDup_app. split_and!; [done| |apply NoDup_singleton].
      intros k Hk' ->%list_elem_of_singleton. done.
    - destruct Hs as [->| ->]; [done|]. apply NoDup_app. split_and!; [done| |apply NoDup_singleton].
      intros k Hk' ->%list_elem_of_singleton. done.
    - intros k. destruct Hs as [->| ->]; [by left|]. rewrite elem_of_app. simpl. rewrite Hr. auto. }
  destruct Hnext as (Hnd1 & Hns1 & Hin1).
  destruct (IH (T ++ added1) s1) as (added2 & Hi2 & Hnd2 & Hns2 & Hin2); try done.
  - intros k Hk. rewrite fmap_app, elem_of_app. apply Hin1 in Hk as [Hk|Hk]; [|by right].
    left. by apply Hin.
  - exists (added1 ++ added2). rewrite app_assoc. split_and!; try done.
    intros k Hk. rewrite fmap_app, elem_of_app. apply Hin2 in Hk as [Hk|?]; [|by right; right].
    apply Hin1 in Hk as [?|?]; [by left|by right; left].
Qed.

(** C15: no request is paid for twice. Over any sequence of sends against one
    ledger, whatever fails in between, no request key reaches the provider more
    than once and none that the ledger already held reaches it at all; the ledger
    only grows, one row per key, so nothing that was counted is forgotten. *)
Theorem no_request_paid_twice l T s :
  idle T (lv_conn s) -> NoDup (cl_key <$> T) -> lv_sent s = [] ->
  let s' := run_sends l s in
  NoDup (lv_sent s')
  /\ (forall k, k ∈ lv_sent s' -> k ∉ (cl_key <$> T))
  /\ exists added, idle (T ++ added) (lv_conn s') /\ NoDup (cl_key <$> T ++ added)
     /\ (forall k, k ∈ lv_sent s' -> k ∈ (cl_key <$> added)).
Proof.
  intros Hi Hnd Hs s'. unfold s'.
  destruct (run_sends_appends l T s Hi Hnd) as (added & Hi' & Hnd' & Hns & Hin);
    [rewrite Hs; constructor|by rewrite Hs; intros ? ?%elem_of_nil|]. rewrite Hs in Hin.
  assert (Hadded : forall k, k ∈ lv_sent (run_sends l s) -> k ∈ (cl_key <$> added)).
  { intros k Hk. by apply Hin in Hk as [?%elem_of_nil|]. }
  split; [done|]. split; [|by exists added].
  intros k Hk Hk'. apply Hadded in Hk. rewrite fmap_app in Hnd'.
  apply NoDup_app in Hnd' as (_ & Hdisj & _). by apply (Hdisj k).
Qed.
End theorems.
