(* ===== verification/GraphState.v ===== *)
(** The investigation's checkpointed state and everything its nodes compute from
    it alone (graph.py): rebuilding the ledger, the store and the recorder from
    the stored lists, the call and check budgets, the rendered request of a
    stage, and the report. *)
From Stdlib Require Import ZArith Lia.
From stdpp Require Import prelude strings list sorting gmap.
From S2P Require Import Prelude PyText Float64 Tools Domain Policy World Evidence Wrappers ToolCalls Models Prompts.
Local Open Scope Z_scope.

Definition GRAPH_RECURSION_LIMIT : nat := 25.

(** [TypedDict] [GraphState]; each dump is the record it was made from. *)
Record GraphState := {
  gs_investigation_id : string;
  gs_run_id : string;
  gs_incident_id : string;
  gs_model_name : string;
  gs_phase : GraphPhase;
  gs_model_turn : Z;
  gs_model_calls_used : Z;
  gs_repairs_used : Z;
  gs_invalid_responses : Z;
  gs_started_at : Z;
  gs_context_digest : string;
  gs_seen_fingerprints : list string;
  gs_receipts : list ToolReceipt;
  gs_evidence : list Evidence;
  gs_runbook_passages : list RunbookPassage;
  gs_retrieval_mode : RetrievalMode;
  gs_events : list RunEvent;
  gs_pending_proposal : option ToolProposal;
  gs_assessment : option FinalAssessment;
  gs_usage : option ModelUsage;
  gs_failure_reason : option ReasonCode;
  gs_escalation_reason : option EscalationReason;
  gs_escalation_decision : option OwnerChoice;
  gs_rejection_note : option string;
  gs_report : option InvestigationReport;
}.

#[export] Instance settable_GraphState : Settable GraphState := fun s =>
  {| gs_investigation_id := gs_investigation_id s; gs_run_id := gs_run_id s;
     gs_incident_id := gs_incident_id s; gs_model_name := gs_model_name s;
     gs_phase := gs_phase s; gs_model_turn := gs_model_turn s;
     gs_model_calls_used := gs_model_calls_used s; gs_repairs_used := gs_repairs_used s;
     gs_invalid_responses := gs_invalid_responses s; gs_started_at := gs_started_at s;
     gs_context_digest := gs_context_digest s;
     gs_seen_fingerprints := gs_seen_fingerprints s; gs_receipts := gs_receipts s;
     gs_evidence := gs_evidence s; gs_runbook_passages := gs_runbook_passages s;
     gs_retrieval_mode := gs_retrieval_mode s; gs_events := gs_events s;
     gs_pending_proposal := gs_pending_proposal s; gs_assessment := gs_assessment s;
     gs_usage := gs_usage s; gs_failure_reason := gs_failure_reason s;
     gs_escalation_reason := gs_escalation_reason s;
     gs_escalation_decision := gs_escalation_decision s;
     gs_rejection_note := gs_rejection_note s; gs_report := gs_report s |}.

(** * Rebuilding off-state objects *)

(** [model_validate] over a list of dumps. *)
Fixpoint validate_all {A} (check : A -> res A) (l : list A) : res (list A) :=
  match l with
  | [] => Ok []
  | x :: l' => x ← check x; l' ← validate_all check l'; Ok (x :: l')
  end.

(** The same of a value that may be [None]. *)
Definition validate_optional {A} (check : A -> res A) (o : option A) : res (option A) :=
  match o with None => Ok None | Some x => x ← check x; Ok (Some x) end.

Definition rebuild_receipts (state : GraphState) : res (list ToolReceipt) :=
  receipts ← validate_all check_lifecycle_coherence (gs_receipts state);
  if forallb (fun r => bool_decide (rc_incident_id r = gs_incident_id state)) receipts
  then Ok receipts else Err AssertionError.

Definition proposal_turn (state : GraphState) : Z := gs_model_turn state - 1.

Definition rebuild_passages (state : GraphState) : res (list RunbookPassage) :=
  validate_all check_passage (gs_runbook_passages state).

Definition ledger_of (receipts : list ToolReceipt) (budgets : Budgets) : res Ledger :=
  from_receipts receipts (executed_tools budgets) (runbook_searches budgets).

Definition tools_left (receipts : list ToolReceipt) (budgets : Budgets) : res Z :=
  l ← ledger_of receipts budgets; Ok (slots_left l).

Definition runbook_searches_left (receipts : list ToolReceipt) (budgets : Budgets) : res Z :=
  l ← ledger_of receipts budgets; Ok (runbook_slots_left l).

(** A repair does not spend the stage-call budget. *)
Definition model_calls_left (model_calls_used repairs_used : Z) (budgets : Budgets) : Z :=
  model_calls budgets - (model_calls_used - repairs_used).

Fixpoint denied_check_notes (receipts : list ToolReceipt) (budgets : Budgets)
    : res (list DeniedCheckNote) :=
  match receipts with
  | [] => Ok []
  | r :: rs =>
      if negb (bool_decide (rc_policy_result r = DENIED)) then denied_check_notes rs budgets
      else match rc_reason_code r with
      | None => Err AssertionError
      | Some reason =>
          guidance ← denial_guidance (rc_tool r) reason budgets;
          notes ← denied_check_notes rs budgets;
          Ok ({| dn_tool := rc_tool r; dn_reason_code := reason; dn_guidance := guidance |} :: notes)
      end
  end.

Definition money_refusal_reason_code (e : exn) : option ReasonCode :=
  match e with
  | CostCeilingExceeded _ _ => Some COST_CEILING_EXCEEDED
  | InputTooLarge _ => Some INPUT_TOKEN_CAP_EXCEEDED
  | AmbiguousReservationNotResent _ _ _ => Some AMBIGUOUS_MODEL_REQUEST
  | _ => None
  end.

(** [(clock() - started).total_seconds() > budgets.wall_clock_seconds] *)
Definition expired `{Clocks} (started_at : Z) (budgets : Budgets) (w : World) : bool * World :=
  let '(now, w) := read_clock w in
  (f_gt_int (total_seconds (now - started_at)) (wall_clock_seconds budgets), w).

Definition accumulate_usage (existing latest : option ModelUsage) : option ModelUsage :=
  match latest, existing with
  | None, _ => existing
  | Some _, None => latest
  | Some u, Some total =>
      Some {| input_tokens := input_tokens total + input_tokens u;
              output_tokens := output_tokens total + output_tokens u |}
  end.

Definition unresolved_runbook_citations (assessment : option FinalAssessment)
    (passages : list RunbookPassage) : list string :=
  match assessment with
  | None => []
  | Some a => filter (fun id => id ∉ (rp_passage_id <$> passages)) (fa_runbook_citations a)
  end.

(** * The report *)

Definition tools_executed_of (receipts : list ToolReceipt) : Z :=
  count_if (fun r => bool_decide (rc_policy_result r = ALLOWED)
                     && bool_decide (rc_state r = SETTLED)) receipts.

(** [int((finished_at - started_at).total_seconds() * 1000)] *)
Definition latency_ms_of (started_at finished_at : Z) : res Z :=
  match int_of_float (f_mul (total_seconds (finished_at - started_at)) (f_of_Z 1000)) with
  | Some n => Ok n
  | None => Err OverflowError
  end.

Definition escalation_record (state : GraphState) : res (option EscalationRecord) :=
  match gs_escalation_reason state with
  | None => Ok None
  | Some reason =>
      match gs_escalation_decision state with
      | None => Err AssertionError
      | Some decision =>
          e ← check_rejection_note_pairing {| er_reason := reason; er_decision := decision;
                er_rejection_note := gs_rejection_note state |};
          Ok (Some e)
      end
  end.

Definition current_versions : Versions :=
  {| prompt_version := PROMPT_VERSION; policy_version := POLICY_VERSION;
     tool_registry_version := TOOL_REGISTRY_VERSION |}.

(** Disposition, root cause and reason: from the assessment, or failed safe. *)
Definition verdict (state : GraphState) (force_failure_reason : option ReasonCode)
    (assessment : option FinalAssessment) : Disposition * RootCauseCode * option ReasonCode :=
  match assessment with
  | Some a =>
      (match fa_disposition a with
       | M_DIAGNOSED => DIAGNOSED
       | M_INSUFFICIENT_EVIDENCE => INSUFFICIENT_EVIDENCE
       end, fa_root_cause a, None)
  | None =>
      (FAILED_SAFE, UNDETERMINED,
       Some (default INTERNAL_ERROR
               match force_failure_reason with
               | Some r => Some r
               | None => gs_failure_reason state
               end))
  end.

Definition limitations_of (usage : option ModelUsage) (unresolved : list string) : list string :=
  match usage with Some _ => [] | None => ["this model reports no token usage"] end
  ++ match unresolved with
     | [] => []
     | _ => [str_of_Z (Z.of_nat (length unresolved))
             +:+ " cited runbook passage id(s) could not be resolved "
             +:+ "against what this run actually retrieved"]
     end.

(** The assessment the report is built from; a forced failure ignores it. *)
Definition reported_assessment (state : GraphState) (force_failure_reason : option ReasonCode)
    : res (option FinalAssessment) :=
  match force_failure_reason with
  | None => validate_optional check_assessment (gs_assessment state)
  | Some _ => Ok None
  end.

Definition report_of (state : GraphState) (budgets : Budgets)
    (force_failure_reason : option ReasonCode) (finished_at : Z)
    (receipts : list ToolReceipt) (store : EvidenceStore) (passages : list RunbookPassage)
    : res InvestigationReport :=
  assessment ← reported_assessment state force_failure_reason;
  let '(disposition, root_cause, reason_code) := verdict state force_failure_reason assessment in
  let unresolved := unresolved_runbook_citations assessment passages in
  escalation ← escalation_record state;
  latency ← latency_ms_of (gs_started_at state) finished_at;
  check_report
    {| ir_investigation_id := gs_investigation_id state;
       ir_incident_id := gs_incident_id state;
       ir_disposition := disposition; ir_root_cause := root_cause;
       ir_assessment := assessment; ir_reason_code := reason_code;
       ir_budgets := budgets; ir_versions := current_versions;
       ir_started_at := gs_started_at state; ir_finished_at := finished_at;
       ir_latency_ms := latency;
       ir_model_calls_used := gs_model_calls_used state;
       ir_repairs_used := gs_repairs_used state;
       ir_tools_executed := tools_executed_of receipts;
       ir_invalid_responses := gs_invalid_responses state;
       ir_usage := gs_usage state; ir_final_context_digest := gs_context_digest state;
       ir_evidence_ids := ev_evidence_id <$> ordered store;
       ir_receipt_ids := rc_receipt_id <$> receipts;
       ir_retrieval_mode := gs_retrieval_mode state;
       ir_runbook_passage_ids := rp_passage_id <$> passages;
       ir_limitations := limitations_of (gs_usage state) unresolved;
       ir_escalation := escalation |}.

Definition build_report `{Clocks} (state : GraphState) (budgets : Budgets)
    (force_failure_reason : option ReasonCode) : ST World exn InvestigationReport := fun w =>
  match (receipts ← rebuild_receipts state;
         store ← rebuild_store (gs_incident_id state) (gs_evidence state);
         passages ← rebuild_passages state;
         Ok (receipts, store, passages)) with
  | Err e => (Err e, w)
  | Ok (receipts, store, passages) =>
      let '(finished_at, w) := read_clock w in
      (report_of state budgets force_failure_reason finished_at receipts store passages, w)
  end.

(** * The request of one stage *)

Section request.
Context `{Host}.

Definition render_stage_request (packet : InitialAlertPacket) (scope : IncidentScope)
    (store : EvidenceStore) (receipts : list ToolReceipt) (budgets : Budgets) (stage : Stage)
    (repair_errors : option string) (passages : list RunbookPassage)
    (model_calls_used repairs_used : Z) (run_id : string) (graph_phase : GraphPhase)
    (model_turn : Z) : res (ModelRequest * string) :=
  em ← context_evidence store (derive_context_quotas (executed_tools budgets));
  checks_left ← tools_left receipts budgets;
  notes ← denied_check_notes receipts budgets;
  searches_left ← runbook_searches_left receipts budgets;
  let context := render_context packet scope em.1 em.2
                   (model_calls_left model_calls_used repairs_used budgets) checks_left
                   passages notes searches_left in
  let context_text := context +:+ nl +:+ nl +:+ "## Task" +:+ nl +:+ STAGE_INSTRUCTIONS stage in
  let digest := digest_text (SYSTEM_TEXT +:+ context_text +:+ default "" repair_errors) in
  Ok ({| mq_stage := stage; mq_system_text := SYSTEM_TEXT; mq_context_text := context_text;
         mq_repair_errors := repair_errors; mq_run_id := run_id;
         mq_graph_phase := graph_phase; mq_model_turn := model_turn;
         mq_context_digest := digest |}, digest).
End request.
