(* ===== verification/GraphNodes.v ===== *)
(** The nodes of the investigation graph (graph.py) and the routers between
    them.  A node takes the state and returns it with the keys it sets merged in;
    inside a node the recorder, the counters and the world are mutable, so what an
    exception handler sees is what the failing code had reached. *)
From Stdlib Require Import ZArith Lia.
From stdpp Require Import prelude strings list sorting gmap.
From S2P Require Import Prelude PyText Float64 Tools Domain Policy World Evidence Wrappers ToolCalls Models Prompts GraphState.
Local Open Scope Z_scope.

(** * The counters of one stage *)

Record StageCounters := {
  k_model_calls_used : Z;
  k_repairs_used : Z;
  k_invalid_responses : Z;
  k_usage : option ModelUsage;
  k_context_digest : string;
  k_stop_reason : option ReasonCode;
}.

#[export] Instance settable_StageCounters : Settable StageCounters := fun k =>
  {| k_model_calls_used := k_model_calls_used k; k_repairs_used := k_repairs_used k;
     k_invalid_responses := k_invalid_responses k; k_usage := k_usage k;
     k_context_digest := k_context_digest k; k_stop_reason := k_stop_reason k |}.

Definition counters_of (s : GraphState) : StageCounters :=
  {| k_model_calls_used := gs_model_calls_used s; k_repairs_used := gs_repairs_used s;
     k_invalid_responses := gs_invalid_responses s; k_usage := gs_usage s;
     k_context_digest := gs_context_digest s; k_stop_reason := None |}.

(** Both turns and terminal stages of a node run over this. *)
Record Turn := {
  t_world : World;
  t_recorded : list RunEvent;
  t_counters : StageCounters;
  t_proposal : option ToolProposal;
}.

#[export] Instance settable_Turn : Settable Turn := fun t =>
  {| t_world := t_world t; t_recorded := t_recorded t; t_counters := t_counters t;
     t_proposal := t_proposal t |}.

Notation TurnM := (ST Turn exn).

Definition set_counters (f : StageCounters -> StageCounters) : TurnM unit :=
  modify (fun t => t <| t_counters := f (t_counters t) |>).

Definition record_call (context_digest : string) : TurnM unit :=
  set_counters (fun k => k <| k_context_digest := context_digest |>
                           <| k_model_calls_used := k_model_calls_used k + 1 |>).

Definition record_usage (latest : option ModelUsage) : TurnM unit :=
  set_counters (fun k => k <| k_usage := accumulate_usage (k_usage k) latest |>).

Definition may_repair (k : StageCounters) (budgets : Budgets) : bool :=
  k_repairs_used k <? repairs budgets.

(** A call of the model, counted by the world. *)
Definition ask_model {A} (call : nat -> ModelRequest -> res A) (request : ModelRequest)
    : TurnM A := fun t =>
  let n := w_model_calls (t_world t) in
  (call n request, t <| t_world := (t_world t) <| w_model_calls := S n |> |>).

Section turn.
Context `{Clocks}.

Definition log (phase : GraphPhase) (name : string) (fields : list (string * json))
    : TurnM unit := fun t =>
  let '(recorded, w) := event phase name fields (t_recorded t) (t_world t) in
  (Ok tt, t <| t_world := w |> <| t_recorded := recorded |>).

Definition turn_expired (started_at : Z) (budgets : Budgets) : TurnM bool := fun t =>
  let '(b, w) := expired started_at budgets (t_world t) in (Ok b, t <| t_world := w |>).

Definition stop (reason : ReasonCode) (on_stop : ReasonCode -> TurnM unit) : TurnM unit :=
  _ ← set_counters (fun k => k <| k_stop_reason := Some reason |>);
  on_stop reason.

Definition count_invalid : TurnM unit :=
  set_counters (fun k => k <| k_invalid_responses := k_invalid_responses k + 1 |>).

(** One stage's call, with at most one free repair. *)
Definition ask_with_repair {T} (budgets : Budgets) (started_at : Z)
    (ask_once : option string -> TurnM (option T * string))
    (on_stop : ReasonCode -> TurnM unit) (on_invalid : string -> TurnM unit)
    : TurnM (option T) :=
  late ← turn_expired started_at budgets;
  match late with
  | true => _ ← stop WALL_CLOCK_EXPIRED on_stop; mret None
  | false =>
    t ← get_state;
    let k := t_counters t in
    if model_calls_left (k_model_calls_used k) (k_repairs_used k) budgets <=? 0 then
      _ ← stop MODEL_CALL_BUDGET_EXHAUSTED on_stop; mret None
    else
      first ← ask_once None;
      match first with
      | (Some parsed, _) => mret (Some parsed)
      | (None, errors) =>
          _ ← count_invalid;
          _ ← on_invalid errors;
          t ← get_state;
          if negb (may_repair (t_counters t) budgets) then
            _ ← stop REPAIR_EXHAUSTED on_stop; mret None
          else
            _ ← set_counters (fun k => k <| k_repairs_used := k_repairs_used k + 1 |>);
            second ← ask_once (Some errors);
            match second with
            | (Some parsed, _) => mret (Some parsed)
            | (None, second_errors) =>
                _ ← count_invalid;
                _ ← on_invalid second_errors;
                _ ← stop MODEL_OUTPUT_INVALID on_stop;
                mret None
            end
      end
  end.

(** The keys every outcome of a model stage sets. *)
Definition merge_turn (phase : GraphPhase) (s : GraphState) (t : Turn) : GraphState :=
  let k := t_counters t in
  s <| gs_phase := phase |> <| gs_model_calls_used := k_model_calls_used k |>
    <| gs_repairs_used := k_repairs_used k |>
    <| gs_invalid_responses := k_invalid_responses k |>
    <| gs_context_digest := k_context_digest k |> <| gs_usage := k_usage k |>
    <| gs_events := t_recorded t |>.

(** What a model stage rebuilds from state before its [try]. *)
Definition stage_inputs (s : GraphState)
    : res (list ToolReceipt * EvidenceStore * list RunbookPassage) :=
  receipts ← rebuild_receipts s;
  store ← rebuild_store (gs_incident_id s) (gs_evidence s);
  passages ← rebuild_passages s;
  Ok (receipts, store, passages).

(** Runs a stage: events first, then the rebuilt inputs, then the guarded body;
    [handle] is the node's [except] clauses. *)
Definition run_stage (phase : GraphPhase) (stage : Stage) (s : GraphState)
    (body : list ToolReceipt -> EvidenceStore -> list RunbookPassage -> TurnM GraphState)
    (handle : exn -> TurnM GraphState) : ST World exn GraphState := fun w =>
  let '(recorded, w) := event phase "stage_started" [("stage", JStr (value stage))]
                          (gs_events s) w in
  match stage_inputs s with
  | Err e => (Err e, w)
  | Ok (receipts, store, passages) =>
      let '(r, t) := try_except (body receipts store passages) handle
        {| t_world := w; t_recorded := recorded; t_counters := counters_of s;
           t_proposal := None |} in
      (r, t_world t)
  end.

Definition log_invalid (phase : GraphPhase) (stage : Stage) (reason : string) : TurnM unit :=
  log phase "invalid_response" [("stage", JStr (value stage)); ("reason", JStr reason)].

Definition log_stop (phase : GraphPhase) (reason : ReasonCode) : TurnM unit :=
  log phase "stage_stopped" [("reason", JStr (value reason))].

Definition log_crash (phase : GraphPhase) (e : exn) : TurnM unit :=
  log phase "internal_error" [("error", JStr (exn_name e))].
End turn.

(** [except GraphBubbleUp: raise] comes before every other clause. *)
Definition is_bubble_up (e : exn) : bool := match e with GraphBubbleUp => true | _ => false end.

(** * INVESTIGATE *)

Definition dump_opt {A} (f : A -> json) (o : option A) : json :=
  match o with None => JNull | Some a => f a end.

Section investigate.
Context `{Pydantic} `{Host} `{Clocks} `{ToolCallingModel}.
Variables (scope : IncidentScope) (packet : InitialAlertPacket) (budgets : Budgets).

Definition stage_of_turn (turn_index : Z) : Stage :=
  if turn_index =? 0 then INITIAL_PLAN else HYPOTHESIS_UPDATE.

(** [turn.tool_call] read as at most one proposal. *)
Definition read_proposal (turn : ProposedTurn) : option ToolProposal * option string :=
  match pt_tool_call turn with
  | [] => (None, None)
  | calls =>
      match select_single_tool_call calls with
      | None => (None, Some ("the model proposed " +:+ str_of_Z (Z.of_nat (length calls))
                             +:+ " checks in one turn; exactly one is allowed"))
      | Some selected =>
          match parse_tool_call selected with
          | (None, reason) => (None, Some reason)
          | (Some proposal, _) => (Some proposal, None)
          end
      end
  end.

Definition ask_plan (s : GraphState) (receipts : list ToolReceipt) (store : EvidenceStore)
    (passages : list RunbookPassage) (repair_errors : option string)
    : TurnM (option StagePlan * string) :=
  t ← get_state;
  rd ← lift_result (render_stage_request packet scope store receipts budgets
         (stage_of_turn (gs_model_turn s)) repair_errors passages
         (k_model_calls_used (t_counters t)) (k_repairs_used (t_counters t))
         (gs_run_id s) P_INVESTIGATE (gs_model_turn s));
  _ ← record_call rd.2;
  turn ← ask_model propose rd.1;
  _ ← record_usage (pt_usage turn);
  match pt_parsed turn with
  | None => mret (None, pt_errors turn)
  | Some parsed =>
      match read_proposal turn with
      | (_, Some reason) => mret (None, reason)
      | (proposal, None) =>
          _ ← modify (fun t => t <| t_proposal := proposal |>);
          mret (Some parsed, "")
      end
  end.

Definition stopped_state (s : GraphState) (reason : option ReasonCode) (t : Turn) : GraphState :=
  (merge_turn P_INVESTIGATE s t)
    <| gs_pending_proposal := None |>
    <| gs_failure_reason := if gs_model_turn s =? 0 then reason else None |>.

Definition proposal_fields (s : GraphState) (parsed : StagePlan) (proposal : option ToolProposal)
    : list (string * json) :=
  [("proposal_turn", JInt (gs_model_turn s));
   ("stage", JStr (value (stage_of_turn (gs_model_turn s))));
   ("hypotheses", JArr (dump_hypothesis <$> pl_hypotheses parsed));
   ("tool", dump_opt (fun p => JStr (value (pr_tool p))) proposal);
   ("evidence_gap", dump_opt (fun p => JStr (pr_evidence_gap p)) proposal);
   ("expected_observation", dump_opt (fun p => JStr (pr_expected_observation p)) proposal);
   ("arguments", dump_opt (fun p => JObj (dump_arguments (pr_arguments p))) proposal)].

Definition investigate_body (s : GraphState) (receipts : list ToolReceipt)
    (store : EvidenceStore) (passages : list RunbookPassage) : TurnM GraphState :=
  parsed ← ask_with_repair budgets (gs_started_at s) (ask_plan s receipts store passages)
             (log_stop P_INVESTIGATE)
             (log_invalid P_INVESTIGATE (stage_of_turn (gs_model_turn s)));
  match parsed with
  | None => t ← get_state; mret (stopped_state s (k_stop_reason (t_counters t)) t)
  | Some parsed =>
      t ← get_state;
      let proposal := t_proposal t in
      _ ← log P_INVESTIGATE "stage_finished" [("proposed", JBool (is_some proposal))];
      _ ← log P_INVESTIGATE "proposal_recorded" (proposal_fields s parsed proposal);
      t ← get_state;
      mret ((merge_turn P_INVESTIGATE s t)
              <| gs_model_turn := gs_model_turn s + 1 |>
              <| gs_pending_proposal := proposal |>
              <| gs_failure_reason := None |>)
  end.

Definition investigate_except (s : GraphState) (e : exn) : TurnM GraphState :=
  if is_bubble_up e then raise e
  else match money_refusal_reason_code e with
  | Some reason =>
      _ ← log_stop P_INVESTIGATE reason;
      t ← get_state;
      mret (stopped_state s (Some reason) t)
  | None =>
      _ ← log_crash P_INVESTIGATE e;
      t ← get_state;
      mret ((merge_turn P_INVESTIGATE s t)
              <| gs_pending_proposal := None |>
              <| gs_failure_reason := Some INTERNAL_ERROR |>)
  end.

Definition investigate (s : GraphState) : ST World exn GraphState :=
  run_stage P_INVESTIGATE (stage_of_turn (gs_model_turn s)) s
    (investigate_body s) (investigate_except s).
End investigate.

(** * DISPATCH_TOOL and NORMALIZE_EVIDENCE *)

(** [ToolProposal.model_validate(dump)] *)
Definition revalidate_proposal (p : ToolProposal) : res ToolProposal :=
  _ ← require (arguments_in_schema (pr_arguments p)); check_proposal p.

(** [sorted(seen)] *)
Definition sorted_seen (seen : gset string) : list string := merge_sort String.le (elements seen).

Section dispatch_tool.
Context `{Pydantic} `{Host} `{Clocks}.
Variables (scope : IncidentScope) (budgets : Budgets).
Variable registry : list (ToolName * ToolWrapper).

Definition dispatch_events (s : GraphState) (proposal : ToolProposal) (result : DispatchResult)
    (recorded : list RunEvent) (w : World) : list RunEvent * World :=
  let r := dr_receipt result in
  if decide (rc_policy_result r = DENIED) then
    event P_DISPATCH_TOOL "proposal_denied"
      [("proposal_turn", JInt (proposal_turn s)); ("receipt_id", JStr (rc_receipt_id r));
       ("reason", JStr match rc_reason_code r with Some c => value c | None => "" end);
       ("message", JStr (dr_message result))] recorded w
  else
    let '(recorded, w) := event P_DISPATCH_TOOL "check_started"
      [("tool", JStr (value (pr_tool proposal)))] recorded w in
    event P_DISPATCH_TOOL "check_finished"
      [("proposal_turn", JInt (proposal_turn s)); ("receipt_id", JStr (rc_receipt_id r));
       ("outcome", JStr match rc_outcome r with Some o => value o | None => "" end);
       ("duration_ms", JInt (rc_duration_ms r))] recorded w.

(** The state after a dispatch that returned. *)
Definition dispatched_state (s : GraphState) (result : DispatchResult) (d : Dispatch)
    (recorded : list RunEvent) : GraphState :=
  s <| gs_phase := P_DISPATCH_TOOL |>
    <| gs_receipts := receipts (d_ledger d) |>
    <| gs_seen_fingerprints := sorted_seen (d_seen d) |>
    <| gs_pending_proposal := None |>
    <| gs_evidence := gs_evidence s ++ match dr_evidence result with
                                       | Some e => [e] | None => [] end |>
    <| gs_runbook_passages := gs_runbook_passages s ++ dr_passages result |>
    <| gs_retrieval_mode := default (gs_retrieval_mode s) (dr_retrieval_mode result) |>
    <| gs_events := recorded |>.

(** The state after a dispatch that raised: what the ledger holds is kept. *)
Definition crashed_state (s : GraphState) (d : Dispatch) (recorded : list RunEvent)
    : GraphState :=
  s <| gs_phase := P_DISPATCH_TOOL |>
    <| gs_receipts := receipts (d_ledger d) |>
    <| gs_seen_fingerprints := sorted_seen (d_seen d) |>
    <| gs_pending_proposal := None |>
    <| gs_evidence := gs_evidence s ++ evidence (d_ledger d) |>
    <| gs_failure_reason := Some INTERNAL_ERROR |>
    <| gs_events := recorded |>.

Definition run_wrapper (proposal : ToolProposal) : DispatchM DispatchResult :=
  match dict_get (pr_tool proposal) registry with
  | None => raise KeyError
  | Some w => dispatch (tw_tool w) (tw_arguments_type w) (tw_run_check w) proposal scope budgets
  end.

Definition dispatch_inputs (s : GraphState) : res (ToolProposal * Ledger) :=
  match gs_pending_proposal s with
  | None => Err AssertionError
  | Some p =>
      proposal ← revalidate_proposal p;
      receipts ← rebuild_receipts s;
      ledger ← ledger_of receipts budgets;
      Ok (proposal, ledger)
  end.

Definition dispatch_tool (s : GraphState) : ST World exn GraphState := fun w =>
  match dispatch_inputs s with
  | Err e => (Err e, w)
  | Ok (proposal, ledger) =>
      let seen : gset string := list_to_set (gs_seen_fingerprints s) in
      let '(recorded, w) := event P_DISPATCH_TOOL "proposal_received"
        [("tool", JStr (value (pr_tool proposal)))] (gs_events s) w in
      match run_wrapper proposal {| d_world := w; d_ledger := ledger; d_seen := seen |} with
      | (Ok result, d) =>
          let '(recorded, w) := dispatch_events s proposal result recorded (d_world d) in
          (Ok (dispatched_state s result d recorded), w)
      | (Err e, d) =>
          if is_bubble_up e then (Err e, d_world d)
          else
            let '(recorded, w) := event P_DISPATCH_TOOL "backend_crashed"
              [("error", JStr (exn_name e))] recorded (d_world d) in
            (Ok (crashed_state s d recorded), w)
      end
  end.

Definition normalize_evidence (s : GraphState) : ST World exn GraphState := fun w =>
  let '(recorded, w) := event P_NORMALIZE_EVIDENCE "evidence_normalized"
    [("count", JInt (Z.of_nat (length (gs_evidence s))))] (gs_events s) w in
  (Ok (s <| gs_phase := P_NORMALIZE_EVIDENCE |> <| gs_events := recorded |>), w).
End dispatch_tool.

(** * FINAL_ASSESSMENT *)

Section final_assessment.
Context `{Pydantic} `{Host} `{Clocks} `{ToolCallingModel}.
Variables (scope : IncidentScope) (packet : InitialAlertPacket) (budgets : Budgets).

Definition ask_assessment (s : GraphState) (receipts : list ToolReceipt) (store : EvidenceStore)
    (passages : list RunbookPassage) (repair_errors : option string)
    : TurnM (option FinalAssessment * string) :=
  t ← get_state;
  rd ← lift_result (render_stage_request packet scope store receipts budgets
         FINAL_ASSESSMENT repair_errors passages
         (k_model_calls_used (t_counters t)) (k_repairs_used (t_counters t))
         (gs_run_id s) P_FINAL_ASSESSMENT (gs_model_turn s));
  _ ← record_call rd.2;
  response ← ask_model respond rd.1;
  _ ← record_usage (mr_usage response);
  if decide (mr_errors response = "") then mret (parse_assessment (mr_content response))
  else mret (None, mr_errors response).

Definition failed_state (s : GraphState) (reason : ReasonCode) (t : Turn) : GraphState :=
  (merge_turn P_FINAL_ASSESSMENT s t)
    <| gs_assessment := None |> <| gs_failure_reason := Some reason |>.

Definition cited_ids (a : FinalAssessment) : list string :=
  fa_supporting_evidence_ids a ++ fa_contrary_evidence_ids a.

Definition assessment_body (s : GraphState) (receipts : list ToolReceipt)
    (store : EvidenceStore) (passages : list RunbookPassage) : TurnM GraphState :=
  parsed ← ask_with_repair budgets (gs_started_at s)
             (ask_assessment s receipts store passages) (log_stop P_FINAL_ASSESSMENT)
             (log_invalid P_FINAL_ASSESSMENT FINAL_ASSESSMENT);
  match parsed with
  | None =>
      t ← get_state;
      match k_stop_reason (t_counters t) with
      | None => raise AssertionError
      | Some reason => mret (failed_state s reason t)
      end
  | Some parsed =>
      match unknown_ids store (cited_ids parsed) with
      | [] =>
          t ← get_state;
          mret ((merge_turn P_FINAL_ASSESSMENT s t)
                  <| gs_assessment := Some parsed |> <| gs_failure_reason := None |>)
      | forged =>
          _ ← log P_FINAL_ASSESSMENT "forged_citation"
                [("cited", JInt (Z.of_nat (length forged)))];
          t ← get_state;
          mret (failed_state s FORGED_EVIDENCE_REFERENCE t)
      end
  end.

Definition assessment_except (s : GraphState) (e : exn) : TurnM GraphState :=
  if is_bubble_up e then raise e
  else match money_refusal_reason_code e with
  | Some reason =>
      _ ← log_stop P_FINAL_ASSESSMENT reason;
      t ← get_state;
      mret (failed_state s reason t)
  | None =>
      _ ← log_crash P_FINAL_ASSESSMENT e;
      t ← get_state;
      mret (failed_state s INTERNAL_ERROR t)
  end.

Definition final_assessment (s : GraphState) : ST World exn GraphState :=
  run_stage P_FINAL_ASSESSMENT FINAL_ASSESSMENT s (assessment_body s) (assessment_except s).
End final_assessment.

(** * ESCALATION_INTERRUPT *)

Definition retrieval_attempted (receipts : list ToolReceipt) : bool :=
  existsb (fun r => bool_decide (rc_tool r = SEARCH_RUNBOOKS)
                    && bool_decide (rc_policy_result r = ALLOWED)
                    && bool_decide (rc_state r = SETTLED)) receipts.

(** The first matching trigger; [tools_left] is read only where it is needed. *)
Definition escalation_reason (receipts : list ToolReceipt) (assessment : FinalAssessment)
    (budgets : Budgets) (retrieved_passage_count : Z) : res (option EscalationReason) :=
  if existsb (fun r => bool_decide (rc_outcome r = Some UNAVAILABLE)) receipts then
    Ok (Some E_TOOL_UNAVAILABLE)
  else if retrieval_attempted receipts && (retrieved_passage_count =? 0) then
    Ok (Some E_RETRIEVAL_COVERAGE_INSUFFICIENT)
  else
    left ← match fa_disposition assessment with
           | M_INSUFFICIENT_EVIDENCE => n ← tools_left receipts budgets; Ok (0 <? n)
           | M_DIAGNOSED => Ok false
           end;
    Ok (if (left : bool) then Some E_INSUFFICIENT_EVIDENCE_WITH_CHECK_REMAINING
        else if nonempty (fa_contrary_evidence_ids assessment) then Some E_CONFLICTING_EVIDENCE
        else None).

(** Untrusted input from the owner: anything malformed resolves nothing. *)
Definition parse_resume_decision (v : json) : option (OwnerChoice * option string) :=
  match v with
  | JObj d =>
      let note := dict_get "rejection_note" d in
      match dict_get "decision" d with
      | Some (JStr decision) =>
          if decide (decision = "accept") then
            match note with
            | None | Some JNull => Some (accept, None)
            | Some _ => None
            end
          else if decide (decision = "reject") then
            match note with
            | Some (JStr n) =>
                let stripped := py_strip n in
                if decide (stripped = "") then None else Some (reject, Some stripped)
            | _ => None
            end
          else None
      | _ => None
      end
  | _ => None
  end.

(** [interrupt] hands back the resume values one by one; when they run out it
    suspends the node with the payload of that call. *)
Fixpoint resolve_decision (retry : bool) (resumes : list json)
    : (OwnerChoice * option string) + bool :=
  match resumes with
  | [] => inr retry
  | v :: rest =>
      match parse_resume_decision v with
      | Some d => inl d
      | None => resolve_decision true rest
      end
  end.

Record InterruptPayload := {
  ip_reason : EscalationReason;
  ip_evidence_ids : list string;
  ip_remaining_check_count : Z;
  ip_retry : bool;
}.

(** How a node ends: its merged state, or suspended. *)
Inductive node_result :=
  | Done (s : GraphState)
  | Interrupted (p : InterruptPayload).

Section escalation_interrupt.
Context `{Clocks}.
Variable budgets : Budgets.

Definition escalation_inputs (s : GraphState)
    : res (EscalationReason * list string * Z) :=
  receipts ← rebuild_receipts s;
  assessment ← match gs_assessment s with
               | None => Err ValidationError
               | Some a => check_assessment a
               end;
  store ← rebuild_store (gs_incident_id s) (gs_evidence s);
  reason ← escalation_reason receipts assessment budgets
             (Z.of_nat (length (gs_runbook_passages s)));
  match reason with
  | None => Err AssertionError
  | Some reason =>
      remaining ← tools_left receipts budgets;
      Ok (reason, ev_evidence_id <$> ordered store, remaining)
  end.

Definition escalation_interrupt (resumes : list json) (s : GraphState)
    : ST World exn node_result := fun w =>
  match escalation_inputs s with
  | Err e => (Err e, w)
  | Ok (reason, ids, remaining) =>
      match resolve_decision false resumes with
      | inl (decision, rejection_note) =>
          let '(recorded, w) := event P_ESCALATION_INTERRUPT "escalation_decided"
            [("reason", JStr (value reason)); ("decision", JStr (value decision))]
            (gs_events s) w in
          (Ok (Done (s <| gs_phase := P_ESCALATION_INTERRUPT |>
                       <| gs_escalation_reason := Some reason |>
                       <| gs_escalation_decision := Some decision |>
                       <| gs_rejection_note := rejection_note |>
                       <| gs_events := recorded |>)), w)
      | inr retry =>
          (Ok (Interrupted {| ip_reason := reason; ip_evidence_ids := ids;
                              ip_remaining_check_count := remaining; ip_retry := retry |}), w)
      end
  end.
End escalation_interrupt.

(** * FINAL_REPORT *)

Definition report_state `{Clocks} (s : GraphState) (report : InvestigationReport)
    (unresolved : list string) : ST World exn GraphState := fun w =>
  let '(recorded, w) :=
    match unresolved with
    | [] => (gs_events s, w)
    | _ => event P_FINAL_REPORT "runbook_citation_unresolved"
             [("count", JInt (Z.of_nat (length unresolved)))] (gs_events s) w
    end in
  (Ok (s <| gs_phase := P_FINAL_REPORT |> <| gs_report := Some report |>
         <| gs_events := recorded |>), w).

Definition final_report `{Clocks} (budgets : Budgets) (s : GraphState)
    : ST World exn GraphState :=
  report ← build_report s budgets None;
  assessment ← lift_result (validate_optional check_assessment (gs_assessment s));
  passages ← lift_result (rebuild_passages s);
  report_state s report (unresolved_runbook_citations assessment passages).

(** * Routers *)

Inductive Node :=
  | N_INVESTIGATE
  | N_DISPATCH_TOOL
  | N_NORMALIZE_EVIDENCE
  | N_FINAL_ASSESSMENT
  | N_ESCALATION_INTERRUPT
  | N_FINAL_REPORT.

#[export] Instance Node_eq : EqDecision Node.
Proof. solve_decision. Defined.

Definition route_after_investigate (s : GraphState) : Node :=
  match gs_pending_proposal s with
  | Some _ => N_DISPATCH_TOOL
  | None =>
      match gs_failure_reason s with
      | Some _ => N_FINAL_REPORT
      | None => N_FINAL_ASSESSMENT
      end
  end.

(** The clock is read only when both budgets still allow a turn. *)
Definition route_after_normalize `{Clocks} (budgets : Budgets) (s : GraphState)
    : ST World exn Node := fun w =>
  match gs_failure_reason s with
  | Some _ => (Ok N_FINAL_REPORT, w)
  | None =>
      match (receipts ← rebuild_receipts s; tools_left receipts budgets) with
      | Err e => (Err e, w)
      | Ok checks_left =>
          if (0 <? checks_left)
             && (2 <=? model_calls_left (gs_model_calls_used s) (gs_repairs_used s) budgets)
          then
            let '(late, w) := expired (gs_started_at s) budgets w in
            (Ok (if negb late && (gs_model_turn s <? model_calls budgets)
                 then N_INVESTIGATE else N_FINAL_ASSESSMENT), w)
          else (Ok N_FINAL_ASSESSMENT, w)
      end
  end.

Definition route_after_final_assessment (budgets : Budgets) (suppress_escalation : bool)
    (s : GraphState) : res Node :=
  match gs_failure_reason s with
  | Some _ => Ok N_FINAL_REPORT
  | None =>
      if suppress_escalation then Ok N_FINAL_REPORT
      else
        receipts ← rebuild_receipts s;
        assessment ← match gs_assessment s with
                     | None => Err ValidationError
                     | Some a => check_assessment a
                     end;
        reason ← escalation_reason receipts assessment budgets
                   (Z.of_nat (length (gs_runbook_passages s)));
        Ok match reason with
           | Some _ => N_ESCALATION_INTERRUPT
           | None => N_FINAL_REPORT
           end
  end.
