(* ===== verification/GraphStages.v ===== *)
(** What one model stage does (graph.py, [_ask_with_repair] and the two nodes that
    use it), proved once for both nodes: how many calls it can make, what it
    charges them to, and what it leaves alone. *)
From Stdlib Require Import ZArith Lia.
From stdpp Require Import prelude strings list.
From S2P Require Import Prelude PyText Float64 Tools Domain Policy World Evidence Wrappers ToolCalls Models Prompts GraphState GraphNodes.
Local Open Scope Z_scope.

(** The stage's turn, [u] calls and [r] repairs into the investigation.  [w] is
    the world the node started in and [u0] its call count then. *)
Record calls_at (w : World) (u0 u r : Z) (t : Turn) : Prop := {
  ca_used : k_model_calls_used (t_counters t) = u;
  ca_repairs : k_repairs_used (t_counters t) = r;
  ca_invalid : 0 <= k_invalid_responses (t_counters t);
  ca_model_calls : Z.of_nat (w_model_calls (t_world t)) = Z.of_nat (w_model_calls w) + (u - u0);
  ca_ids : w_ids (t_world t) = w_ids w;
  ca_backend : w_backend_calls (t_world t) = w_backend_calls w;
  ca_ticks : (w_ticks w <= w_ticks (t_world t))%nat;
  ca_events : numbered (t_recorded t);
  ca_proposal : forall p, t_proposal t = Some p -> revalidate_proposal p = Ok p;
}.

Section stages.
Context `{Clocks} (budgets : Budgets) (w : World) (u0 : Z).

Notation C := (calls_at w u0).

(** No call, one call, or a call and its repair: all a stage can do. *)
Definition stage_calls (u r : Z) (t : Turn) : Prop :=
  C u r t
  \/ 1 <= model_calls_left u r budgets
     /\ (C (u + 1) r t
         \/ r < repairs budgets /\ (C (u + 1) (r + 1) t \/ C (u + 2) (r + 1) t)).

(** The stage got its answer. *)
Definition stage_asked (u r : Z) (t : Turn) : Prop :=
  1 <= model_calls_left u r budgets
  /\ (C (u + 1) r t \/ r < repairs budgets /\ C (u + 2) (r + 1) t).

Lemma stage_asked_calls u r t : stage_asked u r t -> stage_calls u r t.
Proof. unfold stage_asked, stage_calls. tauto. Qed.

(** Logging, stopping and counting an invalid response spend nothing. *)
Lemma log_calls u r phase name fields Q R :
  (forall t, C u r t -> Q tt t) -> triple (C u r) (log phase name fields) Q R.
Proof.
  intros HQ t [] . unfold log, event, read_event_clock. simpl. apply HQ.
  split; simpl; try done. by apply numbered_snoc.
Qed.

Lemma counters_calls u r (f : StageCounters -> StageCounters) Q R :
  (forall k, k_model_calls_used (f k) = k_model_calls_used k
             /\ k_repairs_used (f k) = k_repairs_used k
             /\ (0 <= k_invalid_responses k -> 0 <= k_invalid_responses (f k))) ->
  (forall t, C u r t -> Q tt (t <| t_counters := f (t_counters t) |>)) ->
  triple (C u r) (set_counters f) Q R.
Proof. intros _ HQ t Ht. unfold set_counters, modify. by apply HQ. Qed.

Lemma calls_counters u r f t :
  k_model_calls_used (f (t_counters t)) = k_model_calls_used (t_counters t) ->
  k_repairs_used (f (t_counters t)) = k_repairs_used (t_counters t) ->
  0 <= k_invalid_responses (f (t_counters t)) ->
  C u r t -> C u r (t <| t_counters := f (t_counters t) |>).
Proof. intros Hu Hr Hi []. split; simpl; congruence || done. Qed.

Definition stopped (u r : Z) (t : Turn) : Prop :=
  C u r t /\ is_Some (k_stop_reason (t_counters t)).

Lemma stop_calls u r reason phase R :
  triple (C u r) (stop reason (log_stop phase)) (fun _ => stopped u r) R.
Proof.
  unfold stop. intros t Ht. unfold set_counters, modify, log_stop, log, mbind, ST_bind. simpl.
  unfold event, read_event_clock. simpl. split; [|by eexists].
  destruct Ht. split; simpl; try done.
  by apply numbered_snoc.
Qed.

Lemma count_invalid_calls u r (Q : unit -> Turn -> Prop) R :
  (forall t, C u r t -> Q tt t) -> triple (C u r) count_invalid Q R.
Proof.
  intros HQ t Ht. unfold count_invalid, set_counters, modify. apply HQ.
  apply (calls_counters u r (fun k => k <| k_invalid_responses := k_invalid_responses k + 1 |>));
    try done. simpl. destruct Ht. lia.
Qed.

(** ** One stage's call, with at most one repair *)

Section ask.
Context {T : Type} (V : T -> Prop) (X : exn -> Prop) (phase : GraphPhase) (stage : Stage) (started_at : Z).
Context (ask_once : option string -> TurnM (option T * string)).

(** What is asked of the stage's own request-and-parse step. *)
Hypothesis ask_once_ok : forall x u r,
  triple (C u r) (ask_once x)
    (fun o t => C (u + 1) r t /\ forall v, o.1 = Some v -> V v)
    (fun e t => (C u r t \/ C (u + 1) r t) /\ X e).

Lemma ask_with_repair_ok u r :
  triple (C u r)
    (ask_with_repair budgets started_at ask_once (log_stop phase) (log_invalid phase stage))
    (fun o t => match o with
                | Some v => stage_asked u r t /\ V v
                | None => stage_calls u r t /\ is_Some (k_stop_reason (t_counters t))
                end)
    (fun e t => stage_calls u r t /\ X e).
Proof.
  unfold ask_with_repair.
  apply triple_bind with (fun _ => C u r).
  { intros t []. unfold turn_expired, expired, read_clock. simpl. split; simpl; try done. lia. }
  intros [|].
  { eapply triple_bind; [apply stop_calls|]. intros ?.
    apply triple_ret. intros t [Ht ?]. split; [by left|done]. }
  apply triple_get_any. intros t0 Ht0.
  rewrite (ca_used _ _ _ _ _ Ht0), (ca_repairs _ _ _ _ _ Ht0). clear Ht0.
  destruct (Z.leb_spec (model_calls_left u r budgets) 0) as [Hleft|Hleft].
  { eapply triple_bind; [apply stop_calls|]. intros ?.
    apply triple_ret. intros t [Ht ?]. split; [by left|done]. }
  assert (1 <= model_calls_left u r budgets) as Hl by lia.
  eapply triple_bind.
  { eapply triple_conseq; [apply ask_once_ok|done|by intros|].
    intros e t [[?|?] ?]; (split; [|done]); [by left|]. right. auto. }
  intros [[v|] errors].
  { apply triple_ret. intros t [Ht Hv]. split; [|by apply Hv].
    split; [done|]. by left. }
  cbn [fst]. apply triple_bind with (fun _ => C (u + 1) r).
  { eapply triple_conseq; [apply count_invalid_calls with (Q := fun _ => C (u + 1) r)
      (R := fun e t => stage_calls u r t /\ X e)|..]; try done. by intros t [Ht _]. }
  intros ?. apply triple_bind with (fun _ => C (u + 1) r).
  { by apply log_calls. }
  intros ?. apply triple_get_any. intros t1 Ht1. unfold may_repair.
  rewrite (ca_repairs _ _ _ _ _ Ht1). clear Ht1.
  destruct (Z.ltb_spec r (repairs budgets)) as [Hr|Hr]; cbn [negb].
  2: { eapply triple_bind; [apply stop_calls|]. intros ?.
       apply triple_ret. intros t [Ht ?]. split; [|done]. right. split; [done|]. by left. }
  apply triple_bind with (fun _ => C (u + 1) (r + 1)).
  { intros t []. unfold set_counters, modify. split; simpl; try done; lia. }
  intros ?. eapply triple_bind.
  { eapply triple_conseq; [apply ask_once_ok|done|by intros|].
    replace (u + 1 + 1) with (u + 2) by lia.
    intros e t [Ht ?]. split; [|done]. right. split; [done|]. right. tauto. }
  replace (u + 1 + 1) with (u + 2) by lia. intros [[v|] second_errors].
  { apply triple_ret. intros t [Ht Hv]. split; [|by apply Hv].
    split; [done|]. right. done. }
  cbn [fst]. apply triple_bind with (fun _ => C (u + 2) (r + 1)).
  { eapply triple_conseq; [apply count_invalid_calls with (Q := fun _ => C (u + 2) (r + 1))
      (R := fun e t => stage_calls u r t /\ X e)|..]; try done. by intros t [Ht _]. }
  intros ?. apply triple_bind with (fun _ => C (u + 2) (r + 1)).
  { by apply log_calls. }
  intros ?. eapply triple_bind; [apply stop_calls|]. intros ?.
  apply triple_ret. intros t [Ht ?]. split; [|done]. right. split; [done|]. right. auto.
Qed.
End ask.
End stages.

(** * The two model stages *)

(** From [u] calls and [r] repairs to [u'] and [r'] within one stage. *)
Definition accounted (budgets : Budgets) (u r u' r' : Z) : Prop :=
  (u' = u /\ r' = r)
  \/ 1 <= model_calls_left u r budgets
     /\ ((u' = u + 1 /\ r' = r)
         \/ r < repairs budgets /\ (u' = u + 1 \/ u' = u + 2) /\ r' = r + 1).

Definition accounted_answer (budgets : Budgets) (u r u' r' : Z) : Prop :=
  1 <= model_calls_left u r budgets
  /\ ((u' = u + 1 /\ r' = r) \/ r < repairs budgets /\ u' = u + 2 /\ r' = r + 1).

Lemma accounted_answer_accounted budgets u r u' r' :
  accounted_answer budgets u r u' r' -> accounted budgets u r u' r'.
Proof. unfold accounted, accounted_answer. tauto. Qed.

(** An answered stage spends exactly one of the calls left; any stage at most one. *)
Lemma accounted_answer_left b u r u' r' :
  accounted_answer b u r u' r' -> model_calls_left u' r' b = model_calls_left u r b - 1.
Proof. unfold accounted_answer, model_calls_left. lia. Qed.

Lemma accounted_left b u r u' r' :
  accounted b u r u' r' ->
  model_calls_left u r b - 1 <= model_calls_left u' r' b <= model_calls_left u r b
  /\ (model_calls_left u' r' b < model_calls_left u r b -> 1 <= model_calls_left u r b)
  /\ u <= u' /\ r <= r' /\ r' <= Z.max r (repairs b) /\ r' - r <= u' - u.
Proof. unfold accounted, model_calls_left. lia. Qed.

(** The keys no model stage touches. *)
Definition stage_frame (s : GraphState) :=
  (gs_investigation_id s, gs_run_id s, gs_incident_id s, gs_started_at s,
   (gs_seen_fingerprints s, gs_receipts s, gs_evidence s, gs_runbook_passages s,
    gs_retrieval_mode s),
   (gs_escalation_reason s, gs_escalation_decision s, gs_rejection_note s, gs_report s)).

Record stage_effect (budgets : Budgets) (s : GraphState) (w : World) (s' : GraphState)
    (w' : World) : Prop := {
  se_frame : stage_frame s' = stage_frame s;
  se_accounted : accounted budgets (gs_model_calls_used s) (gs_repairs_used s)
                   (gs_model_calls_used s') (gs_repairs_used s');
  se_model_calls : Z.of_nat (w_model_calls w')
                   = Z.of_nat (w_model_calls w)
                     + (gs_model_calls_used s' - gs_model_calls_used s);
  se_ids : w_ids w' = w_ids w;
  se_backend : w_backend_calls w' = w_backend_calls w;
  se_ticks : (w_ticks w <= w_ticks w')%nat;
  se_events : numbered (gs_events s');
  se_invalid : 0 <= gs_invalid_responses s';
}.

(** ** The engine's control-flow signal *)

(** A computation of the program that never raises it. *)
Definition unsignalled {A} (r : res A) : Prop := r <> Err GraphBubbleUp.

Lemma unsignalled_bind {A B} (r : res A) (k : A -> res B) :
  unsignalled r -> (forall a, unsignalled (k a)) -> unsignalled (r ≫= k).
Proof. unfold unsignalled, mbind, result_bind. intros Hr Hk. destruct r; [apply Hk|congruence]. Qed.

(** Binds, tests and returns, none of which names the signal. *)
Ltac unsignalled := repeat first [apply unsignalled_bind; [|intros ?] | done | case_match].

Lemma ledger_of_unsignalled rs b : unsignalled (ledger_of rs b).
Proof.
  unfold ledger_of, from_receipts. generalize (new_ledger (executed_tools b) (runbook_searches b)).
  induction rs as [|r rs IH]; intros l; [done|]. cbn [load_receipts]. unfold load_receipt. unsignalled.
Qed.

Lemma render_unsignalled `{Host} packet scope store rs b stage errors ps u r id phase turn :
  unsignalled (render_stage_request packet scope store rs b stage errors ps u r id phase turn).
Proof.
  unfold render_stage_request. apply unsignalled_bind; [|intros em].
  { unfold context_evidence. apply unsignalled_bind; [|done]. generalize empty_selection.
    induction (ordered store) as [|e l IH]; intros sel; [done|]. cbn [select_records].
    unfold select_record. unsignalled. }
  apply unsignalled_bind; [|intros left].
  { unfold tools_left. apply unsignalled_bind; [apply ledger_of_unsignalled|done]. }
  apply unsignalled_bind; [|intros notes].
  { induction rs as [|c rs IH]; [done|]. cbn [denied_check_notes]. unfold denial_guidance.
    unsignalled. }
  apply unsignalled_bind; [|done]. unfold runbook_searches_left.
  apply unsignalled_bind; [apply ledger_of_unsignalled|done].
Qed.

(** Some answer of the model is the signal. *)
Definition model_signals `{ToolCallingModel} : Prop :=
  (exists n q, propose n q = Err GraphBubbleUp) \/ exists n q, respond n q = Err GraphBubbleUp.

Section nodes.
Context `{Pydantic} `{Host} `{Clocks} `{ToolCallingModel}.
Context (scope : IncidentScope) (packet : InitialAlertPacket) (budgets : Budgets).
Context (s : GraphState) (w : World).
Hypothesis events_numbered : numbered (gs_events s).
Hypothesis invalid_nonneg : 0 <= gs_invalid_responses s.

Notation u := (gs_model_calls_used s).
Notation r := (gs_repairs_used s).
Notation C := (calls_at w u).
Notation X e := (e = GraphBubbleUp -> model_signals).

(** [s'] was merged from the turn [t]. *)
Definition merged (s' : GraphState) (t : Turn) : Prop :=
  stage_frame s' = stage_frame s
  /\ gs_model_calls_used s' = k_model_calls_used (t_counters t)
  /\ gs_repairs_used s' = k_repairs_used (t_counters t)
  /\ gs_invalid_responses s' = k_invalid_responses (t_counters t)
  /\ gs_events s' = t_recorded t.

Lemma merged_calls s' t :
  merged s' t -> stage_calls budgets w u u r t -> stage_effect budgets s w s' (t_world t).
Proof.
  intros (Hf & Hu & Hr & Hi & He) Hc.
  assert (exists u' r', accounted budgets u r u' r' /\ C u' r' t) as (u' & r' & Ha & []).
  { destruct Hc as [Hc|(Hl & [Hc|(Hlt & [Hc|Hc])])]; eexists _, _; (split; [|exact Hc]);
      unfold accounted; lia. }
  split; rewrite ?Hu, ?Hr, ?He, ?Hi; rewrite ?ca_used0, ?ca_repairs0; done.
Qed.

Lemma merged_asked s' t :
  merged s' t -> stage_asked budgets w u u r t ->
  accounted_answer budgets u r (gs_model_calls_used s') (gs_repairs_used s').
Proof.
  intros (Hf & -> & -> & _) [Hl Hc]. unfold accounted_answer. split; [exact Hl|].
  destruct Hc as [[]|[Hr []]]; [left|right]; split_and!; done.
Qed.

Lemma start_calls recorded w1 :
  numbered recorded -> w_model_calls w1 = w_model_calls w -> w_ids w1 = w_ids w ->
  w_backend_calls w1 = w_backend_calls w -> (w_ticks w <= w_ticks w1)%nat ->
  C u r {| t_world := w1; t_recorded := recorded; t_counters := counters_of s;
           t_proposal := None |}.
Proof. intros. split; simpl; try done. lia. Qed.

(** Asking the model: the call is counted before it can raise. *)
Lemma ask_model_calls {A} (call : nat -> ModelRequest -> res A) digest request u1 r1
    (Q : A -> Turn -> Prop) R :
  (forall a t, C (u1 + 1) r1 t -> Q a t) ->
  (forall e t n, C (u1 + 1) r1 t -> call n request = Err e -> R e t) ->
  triple (C u1 r1) (_ ← record_call digest; ask_model call request) Q R.
Proof.
  intros HQ HR t []. unfold record_call, set_counters, modify, mbind, ST_bind, ask_model. simpl.
  destruct (call _ request) eqn:Hc; [apply HQ|eapply HR; [|exact Hc]]; (split; simpl; try done; lia).
Qed.

Lemma record_usage_calls usage u1 r1 (Q : unit -> Turn -> Prop) R :
  (forall t, C u1 r1 t -> Q tt t) -> triple (C u1 r1) (record_usage usage) Q R.
Proof. intros HQ t []. apply HQ. split; simpl; done. Qed.

Lemma triple_assoc {A B D} P (m : TurnM A) (f : A -> TurnM B) (g : B -> TurnM D) Q R :
  triple P (x ← (y ← m; f y); g x) Q R -> triple P (y ← m; x ← f y; g x) Q R.
Proof.
  intros Ht t HP. specialize (Ht t HP). unfold mbind, ST_bind in *.
  destruct (m t) as [[]]; done.
Qed.

Lemma read_proposal_valid turn p :
  read_proposal turn = (Some p, None) -> revalidate_proposal p = Ok p.
Proof.
  unfold read_proposal. destruct (pt_tool_call turn) as [|c cs]; [done|].
  destruct (select_single_tool_call _) as [call|]; [|done].
  destruct (parse_tool_call call) as [[q|] e] eqn:Hp; [|done]. intros; simplify_eq.
  apply parse_tool_call_Some in Hp as (_ & _ & Hs & _ & Hg & Ho).
  unfold revalidate_proposal, check_proposal, max_length. rewrite Hs.
  apply Z.leb_le in Hg, Ho. by rewrite Hg, Ho.
Qed.

Lemma ask_plan_ok receipts store passages x u1 r1 :
  triple (C u1 r1) (ask_plan scope packet budgets s receipts store passages x)
    (fun o t => C (u1 + 1) r1 t /\ forall v, o.1 = Some v -> True)
    (fun e t => (C u1 r1 t \/ C (u1 + 1) r1 t) /\ X e).
Proof.
  unfold ask_plan. apply triple_get_any. intros t0 _.
  eapply triple_bind.
  { apply triple_lift with (Q := fun _ => C u1 r1); [auto|]. intros t e Ht He. split; [auto|].
    intros ->. by eapply render_unsignalled in He. }
  intros rd. apply triple_assoc. eapply triple_bind.
  { apply ask_model_calls with (Q := fun _ => C (u1 + 1) r1); [auto|]. intros e t n Ht He. split; [auto|].
    intros ->. left. by exists n, rd.1. }
  intros turn. apply triple_bind with (fun _ => C (u1 + 1) r1).
  { by apply record_usage_calls. }
  intros []. destruct (pt_parsed turn) as [parsed|]; [|by apply triple_ret].
  destruct (read_proposal turn) as [proposal [reason|]] eqn:Hp; [by apply triple_ret|].
  apply triple_bind with (fun _ => C (u1 + 1) r1); [|intros []; by apply triple_ret].
  apply triple_modify. intros t []. split; simpl; try done. intros p ->.
  by eapply read_proposal_valid.
Qed.

Lemma ask_assessment_ok receipts store passages x u1 r1 :
  triple (C u1 r1) (ask_assessment scope packet budgets s receipts store passages x)
    (fun o t => C (u1 + 1) r1 t /\ forall v, o.1 = Some v -> check_assessment v = Ok v)
    (fun e t => (C u1 r1 t \/ C (u1 + 1) r1 t) /\ X e).
Proof.
  unfold ask_assessment. apply triple_get_any. intros t0 _.
  eapply triple_bind.
  { apply triple_lift with (Q := fun _ => C u1 r1); [auto|]. intros t e Ht He. split; [auto|].
    intros ->. by eapply render_unsignalled in He. }
  intros rd. apply triple_assoc. eapply triple_bind.
  { apply ask_model_calls with (Q := fun _ => C (u1 + 1) r1); [auto|]. intros e t n Ht He. split; [auto|].
    intros ->. right. by exists n, rd.1. }
  intros response. apply triple_bind with (fun _ => C (u1 + 1) r1).
  { by apply record_usage_calls. }
  intros []. case_decide; apply triple_ret; intros t Ht; (split; [done|]); [|done].
  destruct (parse_assessment (mr_content response)) as [o e] eqn:Hp. simpl.
  intros v ->. by eapply parse_assessment_check.
Qed.

(** Logging keeps a stage where it is. *)
Lemma log_stage_calls phase name fields (Q : unit -> Turn -> Prop) R :
  (forall t, stage_calls budgets w u u r t -> Q tt t) ->
  triple (stage_calls budgets w u u r) (log phase name fields) Q R.
Proof.
  intros HQ t Hc. unfold log, event, read_event_clock. simpl. apply HQ.
  destruct Hc as [[]|(Hl & [[]|(Hlt & [[]|[]])])];
    [left|right; split; [done|]; left|right; split; [done|]; right; split; [done|]; left
    |right; split; [done|]; right; split; [done|]; right];
    (split; simpl; try done; by apply numbered_snoc).
Qed.

Lemma log_stage_asked phase name fields (Q : unit -> Turn -> Prop) R :
  (forall t, stage_asked budgets w u u r t -> Q tt t) ->
  triple (stage_asked budgets w u u r) (log phase name fields) Q R.
Proof.
  intros HQ t Hc. unfold log, event, read_event_clock. simpl. apply HQ.
  destruct Hc as [Hl [[]|(Hlt & [])]]; (split; [done|]); [left|right; split; [done|]];
    (split; simpl; try done; by apply numbered_snoc).
Qed.

Lemma stage_asked_proposal t p :
  stage_asked budgets w u u r t -> t_proposal t = Some p -> revalidate_proposal p = Ok p.
Proof. intros [Hl [[]|(Hlt & [])]]; auto. Qed.

(** ** INVESTIGATE *)

Definition investigated (s' : GraphState) (t : Turn) : Prop :=
  merged s' t /\ gs_assessment s' = gs_assessment s
  /\ (stage_calls budgets w u u r t /\ gs_pending_proposal s' = None
         /\ gs_model_turn s' = gs_model_turn s
         /\ (gs_failure_reason s' = None -> gs_model_turn s <> 0)
       \/ stage_asked budgets w u u r t /\ gs_model_turn s' = gs_model_turn s + 1
          /\ gs_failure_reason s' = None
          /\ forall p, gs_pending_proposal s' = Some p -> revalidate_proposal p = Ok p).

Lemma stopped_state_investigated reason t :
  stage_calls budgets w u u r t -> investigated (stopped_state s (Some reason) t) t.
Proof.
  intros Hc. split; [done|]. split; [done|]. left. split_and!; try done. simpl.
  destruct (Z.eqb_spec (gs_model_turn s) 0); done.
Qed.

Lemma investigate_body_ok receipts store passages :
  triple (C u r) (investigate_body scope packet budgets s receipts store passages)
    investigated (fun e t => stage_calls budgets w u u r t /\ X e).
Proof.
  unfold investigate_body. eapply triple_bind.
  { apply (ask_with_repair_ok budgets w u (fun _ => True) (fun e => X e)). intros. apply ask_plan_ok. }
  intros [parsed|]; cbv beta iota.
  - apply triple_get_any. intros t0 [Ht0 _].
    pose proof (fun p => stage_asked_proposal t0 p Ht0) as Hp.
    eapply triple_bind.
    { eapply triple_conseq; [apply log_stage_asked with
        (Q := fun _ => stage_asked budgets w u u r)
        (R := fun e t => stage_calls budgets w u u r t /\ X e)|..]; try done. by intros t [Ht _]. }
    intros []. eapply triple_bind.
    { by apply log_stage_asked with (Q := fun _ => stage_asked budgets w u u r). }
    intros []. apply triple_get. intros t1 Ht1. apply triple_ret. intros t [-> _].
    split; [done|]. split; [done|]. right. by split_and!.
  - apply triple_get. intros t0 [Ht [reason Hreason]]. apply triple_ret. intros t [-> _].
    rewrite Hreason. by apply stopped_state_investigated.
Qed.

Lemma investigate_except_ok e :
  triple (fun t => stage_calls budgets w u u r t /\ X e) (investigate_except s e)
    investigated (fun e' t => e' = GraphBubbleUp /\ model_signals).
Proof.
  assert (Hm : forall reason, triple (stage_calls budgets w u u r)
    (_ ← log_stop P_INVESTIGATE reason; t ← get_state; mret (stopped_state s (Some reason) t))
    investigated (fun e' t => e' = GraphBubbleUp /\ model_signals)).
  { intros reason. eapply triple_bind.
    { by apply log_stage_calls with (Q := fun _ => stage_calls budgets w u u r). }
    intros []. apply triple_get. intros t0 Ht0. apply triple_ret. intros t [-> _].
    by apply stopped_state_investigated. }
  assert (Hc : forall e0, triple (stage_calls budgets w u u r)
    (_ ← log_crash P_INVESTIGATE e0; t ← get_state;
     mret ((merge_turn P_INVESTIGATE s t) <| gs_pending_proposal := None |>
             <| gs_failure_reason := Some INTERNAL_ERROR |>))
    investigated (fun e' t => e' = GraphBubbleUp /\ model_signals)).
  { intros e0. eapply triple_bind.
    { by apply log_stage_calls with (Q := fun _ => stage_calls budgets w u u r). }
    intros []. apply triple_get. intros t0 Ht0. apply triple_ret. intros t [-> _].
    split; [done|]. split; [done|]. left. by split_and!. }
  unfold investigate_except.
  destruct (is_bubble_up e) eqn:He.
  { apply triple_raise. intros t [_ Hx]. destruct e; try done. by split; [|apply Hx]. }
  destruct (money_refusal_reason_code e); intros t [Ht _].
  - by apply Hm.
  - by apply Hc.
Qed.

(** Everything INVESTIGATE does to the state and the world. *)
Lemma investigate_spec out w' :
  investigate scope packet budgets s w = (out, w') ->
  match out with
  | Err e => e = GraphBubbleUp /\ model_signals \/ stage_inputs s = Err e
  | Ok s' =>
      stage_effect budgets s w s' w' /\ gs_assessment s' = gs_assessment s
      /\ (gs_pending_proposal s' = None /\ gs_model_turn s' = gs_model_turn s
            /\ (gs_failure_reason s' = None -> gs_model_turn s <> 0)
          \/ accounted_answer budgets u r (gs_model_calls_used s') (gs_repairs_used s')
             /\ gs_model_turn s' = gs_model_turn s + 1 /\ gs_failure_reason s' = None
             /\ forall p, gs_pending_proposal s' = Some p -> revalidate_proposal p = Ok p)
  end.
Proof.
  unfold investigate, run_stage, event, read_event_clock. simpl.
  destruct (stage_inputs s) as [[[receipts store] passages]|e] eqn:Hin;
    [|intros [= <- <-]; by right].
  set (t0 := {| t_world := _ |}).
  assert (Ht0 : C u r t0) by (apply start_calls; try done; by apply numbered_snoc).
  pose proof (triple_try _ _ _ _ _ _ (investigate_body_ok receipts store passages)
                investigate_except_ok t0 Ht0) as Hrun.
  destruct (try_except _ _ t0) as [[s'|e] t]; intros [= <- <-]; [|by left].
  destruct Hrun as (Hm & Ha & [(Hc & ? & ? & ?)|(Hc & ? & ? & ?)]).
  - split; [by apply merged_calls|]. split; [done|]. left. done.
  - split; [by apply merged_calls, stage_asked_calls|]. split; [done|]. right.
    split_and!; try done. by eapply merged_asked.
Qed.

(** ** FINAL_ASSESSMENT *)

Definition assessed (store : EvidenceStore) (s' : GraphState) (t : Turn) : Prop :=
  merged s' t /\ gs_pending_proposal s' = gs_pending_proposal s
  /\ gs_model_turn s' = gs_model_turn s
  /\ (stage_calls budgets w u u r t /\ gs_assessment s' = None
         /\ is_Some (gs_failure_reason s')
       \/ stage_asked budgets w u u r t /\ gs_failure_reason s' = None
          /\ exists a, gs_assessment s' = Some a /\ check_assessment a = Ok a
               /\ unknown_ids store (cited_ids a) = []).

Lemma failed_state_assessed store reason t :
  stage_calls budgets w u u r t -> assessed store (failed_state s reason t) t.
Proof. intros Hc. split_and!; try done. left. by split_and!. Qed.

Lemma assessment_body_ok receipts store passages :
  triple (C u r) (assessment_body scope packet budgets s receipts store passages)
    (assessed store) (fun e t => stage_calls budgets w u u r t /\ X e).
Proof.
  unfold assessment_body. eapply triple_bind.
  { apply (ask_with_repair_ok budgets w u (fun a => check_assessment a = Ok a) (fun e => X e)).
    intros. apply ask_assessment_ok. }
  intros [a|]; cbv beta iota.
  - destruct (unknown_ids store (cited_ids a)) as [|id ids] eqn:Hu.
    + apply triple_get. intros t0 [Ht0 Ha]. apply triple_ret. intros t [-> _].
      split_and!; try done. right. split_and!; try done. by exists a.
    + eapply triple_bind.
      { eapply triple_conseq; [apply log_stage_calls with
          (Q := fun _ => stage_calls budgets w u u r)
          (R := fun e t => stage_calls budgets w u u r t /\ X e)|..]; try done.
        intros t [Ht _]. by apply stage_asked_calls. }
      intros []. apply triple_get. intros t0 Ht0. apply triple_ret. intros t [-> _].
      by apply failed_state_assessed.
  - apply triple_get. intros t0 [Ht [reason Hreason]]. rewrite Hreason.
    apply triple_ret. intros t [-> _]. by apply failed_state_assessed.
Qed.

Lemma assessment_except_ok store e :
  triple (fun t => stage_calls budgets w u u r t /\ X e) (assessment_except s e)
    (assessed store) (fun e' t => e' = GraphBubbleUp /\ model_signals).
Proof.
  assert (Hm : forall phase name fields reason, triple (stage_calls budgets w u u r)
    (_ ← log phase name fields; t ← get_state; mret (failed_state s reason t))
    (assessed store) (fun e' t => e' = GraphBubbleUp /\ model_signals)).
  { intros phase name fields reason. eapply triple_bind.
    { by apply log_stage_calls with (Q := fun _ => stage_calls budgets w u u r). }
    intros []. apply triple_get. intros t0 Ht0. apply triple_ret. intros t [-> _].
    by apply failed_state_assessed. }
  unfold assessment_except, log_stop, log_crash.
  destruct (is_bubble_up e) eqn:He.
  { apply triple_raise. intros t [_ Hx]. destruct e; try done. by split; [|apply Hx]. }
  destruct (money_refusal_reason_code e); intros t [Ht _]; by apply Hm.
Qed.

(** Everything FINAL_ASSESSMENT does to the state and the world. *)
Lemma final_assessment_spec out w' :
  final_assessment scope packet budgets s w = (out, w') ->
  match out with
  | Err e => e = GraphBubbleUp /\ model_signals \/ stage_inputs s = Err e
  | Ok s' =>
      stage_effect budgets s w s' w'
      /\ gs_pending_proposal s' = gs_pending_proposal s
      /\ gs_model_turn s' = gs_model_turn s
      /\ (gs_assessment s' = None /\ is_Some (gs_failure_reason s')
          \/ accounted_answer budgets u r (gs_model_calls_used s') (gs_repairs_used s')
             /\ gs_failure_reason s' = None
             /\ exists a receipts store passages, stage_inputs s = Ok (receipts, store, passages)
                  /\ gs_assessment s' = Some a /\ check_assessment a = Ok a
                  /\ unknown_ids store (cited_ids a) = [])
  end.
Proof.
  unfold final_assessment, run_stage, event, read_event_clock. simpl.
  destruct (stage_inputs s) as [[[receipts store] passages]|e] eqn:Hin;
    [|intros [= <- <-]; by right].
  set (t0 := {| t_world := _ |}).
  assert (Ht0 : C u r t0) by (apply start_calls; try done; by apply numbered_snoc).
  pose proof (triple_try _ _ _ _ _ _ (assessment_body_ok receipts store passages)
                (assessment_except_ok store) t0 Ht0) as Hrun.
  destruct (try_except _ _ t0) as [[s'|e] t]; intros [= <- <-]; [|by left].
  destruct Hrun as (Hm & Hp & Ht & [(Hc & ? & ?)|(Hc & ? & (a & ? & ? & ?))]).
  - split; [by apply merged_calls|]. split_and!; try done. by left.
  - split; [by apply merged_calls, stage_asked_calls|]. split_and!; try done. right.
    split_and!; try done; [by eapply merged_asked|]. by exists a, receipts, store, passages.
Qed.
End nodes.
