(* ===== verification/GraphRun.v ===== *)
(** Wiring and running the graph (graph.py, from [build_graph] on): the edges, one
    superstep, the entry points that start, recover and resume an investigation,
    and the containment that turns a crash into a failed-safe report.

    LangGraph itself is not part of the program.  [LangGraph] is what the program
    asks of it: [invoke] and the stored checkpoint; [LangGraphLaws] is its
    documented behaviour: one node per superstep, the node's update and its
    outgoing edge committed together, the last committed state left behind when a
    node or a router raises, and [GraphRecursionError] past the limit. *)
From Stdlib Require Import ZArith Lia.
From stdpp Require Import prelude strings list.
From S2P Require Import Prelude PyText Float64 Tools Domain Policy World Evidence Wrappers ToolCalls Models Prompts GraphState GraphNodes.
Local Open Scope Z_scope.

(** * The compiled graph *)

Record Graph := {
  g_entry : Node;
  g_node : Node -> list json -> GraphState -> ST World exn node_result;
  g_next : Node -> GraphState -> ST World exn (option Node);
}.

(** What one investigation is configured with. *)
Record Investigation := {
  iv_scope : IncidentScope;
  iv_packet : InitialAlertPacket;
  iv_budgets : Budgets;
  iv_registry : list (ToolName * ToolWrapper);
  iv_suppress_escalation : bool;
  iv_no_tool_baseline : bool;
}.

Definition done (m : ST World exn GraphState) : ST World exn node_result := s ← m; mret (Done s).

Section build.
Context `{Pydantic} `{Host} `{Clocks} `{ToolCallingModel}.

(** [build_graph]: nodes and edges. *)
Definition build_graph (iv : Investigation) : Graph := {|
  g_entry := if iv_no_tool_baseline iv then N_FINAL_ASSESSMENT else N_INVESTIGATE;
  g_node n resumes s :=
    match n with
    | N_INVESTIGATE => done (investigate (iv_scope iv) (iv_packet iv) (iv_budgets iv) s)
    | N_DISPATCH_TOOL =>
        done (dispatch_tool (iv_scope iv) (iv_budgets iv) (iv_registry iv) s)
    | N_NORMALIZE_EVIDENCE => done (normalize_evidence s)
    | N_FINAL_ASSESSMENT =>
        done (final_assessment (iv_scope iv) (iv_packet iv) (iv_budgets iv) s)
    | N_ESCALATION_INTERRUPT => escalation_interrupt (iv_budgets iv) resumes s
    | N_FINAL_REPORT => done (final_report (iv_budgets iv) s)
    end;
  g_next n s :=
    match n with
    | N_INVESTIGATE => mret (Some (route_after_investigate s))
    | N_DISPATCH_TOOL => mret (Some N_NORMALIZE_EVIDENCE)
    | N_NORMALIZE_EVIDENCE => n ← route_after_normalize (iv_budgets iv) s; mret (Some n)
    | N_FINAL_ASSESSMENT =>
        n ← lift_result (route_after_final_assessment (iv_budgets iv)
                           (iv_suppress_escalation iv) s);
        mret (Some n)
    | N_ESCALATION_INTERRUPT => mret (Some N_FINAL_REPORT)
    | N_FINAL_REPORT => mret None
    end
|}.
End build.

(** * Supersteps and the engine *)

(** A thread's last checkpoint: the committed state, the node that runs next, the
    resume values given so far to that node, and its pending interrupt. *)
Record Checkpoint := {
  cp_state : GraphState;
  cp_next : option Node;
  cp_resumes : list json;
  cp_interrupt : option InterruptPayload;
}.

Inductive step_result :=
  | Moved (next : option Node) (s : GraphState)
  | Suspended (p : InterruptPayload).

Definition superstep (g : Graph) (n : Node) (resumes : list json) (s : GraphState)
    : ST World exn step_result :=
  r ← g_node g n resumes s;
  match r with
  | Interrupted p => mret (Suspended p)
  | Done s' => next ← g_next g n s'; mret (Moved next s')
  end.

(** What [compiled.invoke] gives back: the state's values, with the pending
    interrupt if there is one, or an exception. *)
Inductive invocation :=
  | Returned (s : GraphState) (interrupt : option InterruptPayload)
  | Raised (e : exn).

(** [executes g limit cp w r cp' w']: from the checkpoint [cp], within [limit]
    supersteps, the invocation ends as [r] and leaves [cp']. *)
Inductive executes (g : Graph) : nat -> Checkpoint -> World -> invocation -> Checkpoint -> World -> Prop :=
  | ex_end limit s rs w :
      executes g limit {| cp_state := s; cp_next := None; cp_resumes := rs; cp_interrupt := None |} w
        (Returned s None)
        {| cp_state := s; cp_next := None; cp_resumes := rs; cp_interrupt := None |} w
  | ex_limit s n rs i w :
      executes g O {| cp_state := s; cp_next := Some n; cp_resumes := rs; cp_interrupt := i |} w
        (Raised GraphRecursionError)
        {| cp_state := s; cp_next := Some n; cp_resumes := rs; cp_interrupt := i |} w
  | ex_raise limit s n rs i w e w' :
      superstep g n rs s w = (Err e, w') ->
      executes g (S limit) {| cp_state := s; cp_next := Some n; cp_resumes := rs; cp_interrupt := i |} w
        (Raised e)
        {| cp_state := s; cp_next := Some n; cp_resumes := rs; cp_interrupt := None |} w'
  | ex_suspend limit s n rs i w p w' :
      superstep g n rs s w = (Ok (Suspended p), w') ->
      executes g (S limit) {| cp_state := s; cp_next := Some n; cp_resumes := rs; cp_interrupt := i |} w
        (Returned s (Some p))
        {| cp_state := s; cp_next := Some n; cp_resumes := rs; cp_interrupt := Some p |} w'
  | ex_move limit s n rs i w next s' w' r cp'' w'' :
      superstep g n rs s w = (Ok (Moved next s'), w') ->
      executes g limit {| cp_state := s'; cp_next := next; cp_resumes := []; cp_interrupt := None |} w'
        r cp'' w'' ->
      executes g (S limit) {| cp_state := s; cp_next := Some n; cp_resumes := rs; cp_interrupt := i |} w
        r cp'' w''.

Class LangGraph := {
  invoke : Graph -> nat -> Checkpoint -> World -> invocation * Checkpoint * World;
  latest_checkpoint_id : Checkpoint -> string;
}.

(** A checkpoint the engine can be started from: nothing is interrupted once the
    graph has ended. *)
Definition startable (cp : Checkpoint) : Prop := cp_next cp = None -> cp_interrupt cp = None.

Class LangGraphLaws `{LangGraph} :=
  invoke_executes : forall g limit cp w, startable cp ->
    let '(r, cp', w') := invoke g limit cp w in executes g limit cp w r cp' w'.

(** An engine that satisfies the laws by running them. *)
Fixpoint drive (g : Graph) (limit : nat) (cp : Checkpoint) (w : World)
    : invocation * Checkpoint * World :=
  match cp_next cp with
  | None => (Returned (cp_state cp) None, cp, w)
  | Some n =>
      match limit with
      | O => (Raised GraphRecursionError, cp, w)
      | S limit' =>
          match superstep g n (cp_resumes cp) (cp_state cp) w with
          | (Err e, w') =>
              (Raised e, {| cp_state := cp_state cp; cp_next := Some n;
                            cp_resumes := cp_resumes cp; cp_interrupt := None |}, w')
          | (Ok (Suspended p), w') =>
              (Returned (cp_state cp) (Some p),
               {| cp_state := cp_state cp; cp_next := Some n;
                  cp_resumes := cp_resumes cp; cp_interrupt := Some p |}, w')
          | (Ok (Moved next s'), w') =>
              drive g limit' {| cp_state := s'; cp_next := next; cp_resumes := [];
                                cp_interrupt := None |} w'
          end
      end
  end.

(** * Settling an invocation *)

Inductive Outcome :=
  | Finished (r : InvestigationResult)
  | Escalated (e : EscalatedInvestigation).

(** [InvestigationReport.model_validate(dump)]: nested models are validated too. *)
Definition revalidate_report (r : InvestigationReport) : res InvestigationReport :=
  _ ← validate_optional check_assessment (ir_assessment r);
  _ ← check_budgets (ir_budgets r);
  _ ← validate_optional check_rejection_note_pairing (ir_escalation r);
  check_report r.

Definition result_of (s : GraphState) : res Outcome :=
  report ← match gs_report s with
           | None => Err ValidationError
           | Some r => revalidate_report r
           end;
  store ← rebuild_store (gs_incident_id s) (gs_evidence s);
  receipts ← rebuild_receipts s;
  Ok (Finished {| res_report := report; res_evidence := ordered store;
                  res_receipts := receipts |}).

Definition escalated_of (s : GraphState) (p : InterruptPayload) (checkpoint_id : string)
    : res Outcome :=
  store ← rebuild_store (gs_incident_id s) (gs_evidence s);
  receipts ← rebuild_receipts s;
  _ ← require (0 <=? ip_remaining_check_count p);
  Ok (Escalated {| es_thread_id := gs_investigation_id s; es_run_id := gs_run_id s;
                   es_checkpoint_id := checkpoint_id; es_reason := ip_reason p;
                   es_evidence := ordered store; es_receipts := receipts;
                   es_remaining_check_count := ip_remaining_check_count p;
                   es_proposal_fingerprint := None |}).

Section settle.
Context `{Clocks}.

(** The state a crash report is built from: one more event, no assessment read. *)
Definition contain_crash (e : exn) (s : GraphState) (budgets : Budgets)
    : ST World exn GraphState := fun w =>
  let '(recorded, w) := event P_FINAL_REPORT "internal_error" [("error", JStr (exn_name e))]
                          (gs_events s) w in
  let s := s <| gs_events := recorded |> in
  match build_report s budgets (Some INTERNAL_ERROR) w with
  | (Err e, w) => (Err e, w)
  | (Ok report, w) => (Ok (s <| gs_report := Some report |>), w)
  end.

(** The caller's recorder ends with the thread's events on every path that
    returns, and on a [GraphBubbleUp]. *)
Definition settle_invocation (inv : invocation) (checkpoint : option GraphState)
    (checkpoint_id : string) (budgets : Budgets) (recorded : list RunEvent)
    (fallback : GraphState) (w : World) : res Outcome * list RunEvent * World :=
  let committed := default fallback checkpoint in
  match inv with
  | Raised GraphBubbleUp => (Err GraphBubbleUp, gs_events committed, w)
  | Raised e =>
      match contain_crash e committed budgets w with
      | (Err e, w) => (Err e, recorded, w)
      | (Ok s, w) => (result_of s, gs_events s, w)
      end
  | Returned s None => (result_of s, gs_events s, w)
  | Returned s (Some p) => (escalated_of s p checkpoint_id, gs_events s, w)
  end.
End settle.

(** * Starting, recovering, resuming *)

Section run.
Context `{Pydantic} `{Host} `{Clocks} `{ToolCallingModel} `{LangGraph}.

Definition initial_state (iv : Investigation) (investigation_id run_id model_name : string)
    (started_at : Z) (evidence : list Evidence) (events : list RunEvent) : GraphState :=
  {| gs_investigation_id := investigation_id; gs_run_id := run_id;
     gs_incident_id := sc_incident_id (iv_scope iv); gs_model_name := model_name;
     gs_phase := P_CREATED; gs_model_turn := 0; gs_model_calls_used := 0;
     gs_repairs_used := 0; gs_invalid_responses := 0; gs_started_at := started_at;
     gs_context_digest := ""; gs_seen_fingerprints := []; gs_receipts := [];
     gs_evidence := evidence; gs_runbook_passages := [];
     gs_retrieval_mode := DISABLED; gs_events := events;
     gs_pending_proposal := None; gs_assessment := None; gs_usage := None;
     gs_failure_reason := None; gs_escalation_reason := None;
     gs_escalation_decision := None; gs_rejection_note := None; gs_report := None |}.

(** The fresh state and the draws that lead to it. *)
Definition seed (iv : Investigation) (investigation_id : option string) (model_name : string)
    (evidence : list Evidence) (w : World) : GraphState * World :=
  let '(investigation_id, w) :=
    match investigation_id with Some id => (id, w) | None => new_opaque_id w end in
  let '(run_id, w) := new_opaque_id w in
  let '(started_at, w) := read_clock w in
  let '(events, w) := event P_CREATED "investigation_started"
    [("incident", JStr (sc_incident_id (iv_scope iv))); ("run_id", JStr run_id)] [] w in
  (initial_state iv investigation_id run_id model_name started_at evidence events, w).

Definition start_checkpoint (iv : Investigation) (s : GraphState) : Checkpoint :=
  {| cp_state := s; cp_next := Some (g_entry (build_graph iv)); cp_resumes := [];
     cp_interrupt := None |}.

Definition invoke_and_settle (iv : Investigation) (cp : Checkpoint) (recorded : list RunEvent)
    (fallback : GraphState) (w : World) : res Outcome * list RunEvent * Checkpoint * World :=
  let '(inv, cp', w) := invoke (build_graph iv) GRAPH_RECURSION_LIMIT cp w in
  let '(r, recorded, w) := settle_invocation inv (Some (cp_state cp'))
    (latest_checkpoint_id cp') (iv_budgets iv) recorded fallback w in
  (r, recorded, cp', w).

Definition run_graph_investigation (iv : Investigation) (investigation_id : option string)
    (model_name : string) (initial_evidence : list Evidence) (w : World)
    : res Outcome * list RunEvent * Checkpoint * World :=
  let '(s, w) := seed iv investigation_id model_name initial_evidence w in
  invoke_and_settle iv (start_checkpoint iv s) [] s w.

(** Recovering and resuming compile the graph without the two start options. *)
Definition plain_investigation (iv : Investigation) : Investigation :=
  {| iv_scope := iv_scope iv; iv_packet := iv_packet iv; iv_budgets := iv_budgets iv;
     iv_registry := iv_registry iv; iv_suppress_escalation := false;
     iv_no_tool_baseline := false |}.

(** [recover]: the thread's stored checkpoint decides; [None] is no thread. *)
Definition recover_graph_investigation (iv : Investigation) (snapshot : option Checkpoint)
    (w : World) : option (res Outcome * list RunEvent * Checkpoint * World) :=
  cp ← snapshot;
  let s := cp_state cp in
  Some match cp_interrupt cp with
       | Some p => (escalated_of s p (latest_checkpoint_id cp), gs_events s, cp, w)
       | None =>
           match gs_report s with
           | Some _ => (result_of s, gs_events s, cp, w)
           | None => invoke_and_settle (plain_investigation iv) cp (gs_events s) s w
           end
       end.

Definition decision_json (decision : OwnerChoice) (rejection_note : option string) : json :=
  JObj [("decision", JStr (value decision));
        ("rejection_note", match rejection_note with None => JNull | Some n => JStr n end)].

(** [Command(resume=...)]: the suspended node runs again with one value more. *)
Definition resume_checkpoint (v : json) (cp : Checkpoint) : Checkpoint :=
  {| cp_state := cp_state cp; cp_next := cp_next cp; cp_resumes := cp_resumes cp ++ [v];
     cp_interrupt := None |}.

(** An outcome that is not a finished result is an [AssertionError]. *)
Definition only_finished (r : res Outcome) : res InvestigationResult :=
  match r with
  | Err e => Err e
  | Ok (Escalated _) => Err AssertionError
  | Ok (Finished result) => Ok result
  end.

Definition resume_graph_investigation (iv : Investigation) (snapshot : option Checkpoint)
    (decision : OwnerChoice) (rejection_note : option string) (w : World)
    : res InvestigationResult * list RunEvent * option Checkpoint * World :=
  match snapshot with
  | None => (Err AssertionError, [], None, w)
  | Some cp =>
      let '(r, recorded, cp', w) :=
        invoke_and_settle (plain_investigation iv)
          (resume_checkpoint (decision_json decision rejection_note) cp) [] (cp_state cp) w in
      (only_finished r, recorded, Some cp', w)
  end.
End run.
