(* ===== verification/GraphInvariant.v ===== *)
(** The invariant of an investigation: what every checkpoint satisfies, position
    by position, and that each superstep keeps it, spends its budgets and moves
    towards the end. *)
From Stdlib Require Import ZArith Lia.
From stdpp Require Import prelude strings list gmap sorting.
From S2P Require Import Prelude PyText Float64 Tools Domain Policy World Evidence Wrappers ToolCalls Models Prompts GraphState GraphNodes GraphStages GraphRun.
Local Open Scope Z_scope.

(** * Rebuilding from a valid state *)

Lemma validate_all_id {A} (check : A -> res A) l :
  Forall (fun x => check x = Ok x) l -> validate_all check l = Ok l.
Proof. induction 1 as [|x l Hx Hl IH]; simpl; [done|]. rewrite Hx. simpl. by rewrite IH. Qed.

Lemma validate_optional_id {A} (check : A -> res A) o :
  (forall x, o = Some x -> check x = Ok x) -> validate_optional check o = Ok o.
Proof. destruct o as [x|]; simpl; [|done]. intros Hx. by rewrite (Hx x eq_refl). Qed.

Lemma add_all_ok s l :
  Forall (fun e => check_evidence e = Ok e /\ ev_incident_id e = st_incident_id s) l ->
  exists s', add_all s l = Ok s'.
Proof.
  revert s. induction l as [|e l IH]; intros s Hl; simpl; [eauto|].
  inversion_clear Hl as [|? ? [He Hid] Hl']. rewrite He. simpl.
  unfold store_add. rewrite bool_decide_true by done. simpl. by apply IH.
Qed.

Definition keyed (rs : list ToolReceipt) : list (string * ToolReceipt) :=
  (fun r => (rc_receipt_id r, r)) <$> rs.

Lemma keyed_values rs : dict_values (keyed rs) = rs.
Proof.
  unfold dict_values, keyed. rewrite <- list_fmap_compose.
  rewrite (list_fmap_ext _ (fun r => r)); [by rewrite list_fmap_id|done].
Qed.

Lemma keyed_keys rs : dict_keys (keyed rs) = rc_receipt_id <$> rs.
Proof. unfold dict_keys, keyed. by rewrite <- list_fmap_compose. Qed.

Lemma load_receipts_ok l rs :
  NoDup (dict_keys (lg_receipts l) ++ (rc_receipt_id <$> rs)) ->
  load_receipts l rs = Ok {| lg_budget := lg_budget l; lg_runbook_budget := lg_runbook_budget l;
                             lg_receipts := lg_receipts l ++ keyed rs;
                             lg_evidence := lg_evidence l |}.
Proof.
  revert l. induction rs as [|r rs IH]; intros l Hnd; simpl.
  - rewrite app_nil_r. by destruct l.
  - simpl in Hnd. assert (rc_receipt_id r ∉ dict_keys (lg_receipts l)) as Hr.
    { intros Hin. apply NoDup_app in Hnd as (_ & Hdisj & _). apply (Hdisj _ Hin). by left. }
    unfold load_receipt. destruct (dict_mem _ _) eqn:Hm; [by apply dict_mem_true in Hm|].
    cbn [mbind result_bind]. rewrite IH; simpl; rewrite dict_set_fresh by done.
    + by rewrite <- app_assoc.
    + unfold dict_keys in *. rewrite fmap_app. simpl. by rewrite <- app_assoc.
Qed.

Lemma ledger_of_ok rs b :
  NoDup (rc_receipt_id <$> rs) ->
  ledger_of rs b = Ok {| lg_budget := executed_tools b; lg_runbook_budget := runbook_searches b;
                         lg_receipts := keyed rs; lg_evidence := [] |}.
Proof. intros Hnd. unfold ledger_of, from_receipts. by rewrite load_receipts_ok. Qed.

Lemma tools_left_ok rs b :
  NoDup (rc_receipt_id <$> rs) ->
  tools_left rs b = Ok (executed_tools b - count_if (charged false) rs).
Proof.
  intros Hnd. unfold tools_left. rewrite ledger_of_ok by done. simpl.
  unfold slots_left, spent. simpl. by rewrite keyed_values.
Qed.

Lemma runbook_searches_left_ok rs b :
  NoDup (rc_receipt_id <$> rs) ->
  runbook_searches_left rs b = Ok (runbook_searches b - count_if (charged true) rs).
Proof.
  intros Hnd. unfold runbook_searches_left. rewrite ledger_of_ok by done. simpl.
  unfold runbook_slots_left, spent. simpl. by rewrite keyed_values.
Qed.

Lemma escalation_reason_total rs a b n :
  NoDup (rc_receipt_id <$> rs) -> exists o, escalation_reason rs a b n = Ok o.
Proof.
  intros Hnd. unfold escalation_reason. rewrite tools_left_ok by done.
  destruct (existsb _ rs); [eauto|]. destruct (_ && _); [eauto|].
  destruct (fa_disposition a); cbn [mbind result_bind]; eauto.
Qed.

(** * Elapsed time *)

(** The clock does not go backwards, and spans less than a float of seconds. *)
Class ClockLaws `{Clocks} := {
  clock_mono : forall m n, (m <= n)%nat -> clock m <= clock n;
  clock_span : forall m n, is_ok (latency_ms_of (clock m) (clock n)) = true;
}.

Lemma latency_nonneg a b ms : a <= b -> latency_ms_of a b = Ok ms -> 0 <= ms.
Proof.
  intros Hab. unfold latency_ms_of. destruct (int_of_float _) as [n|] eqn:Hn; [|done].
  intros [= ->].
  assert (Hs : f_nonneg (total_seconds (b - a)) = true).
  { unfold total_seconds. destruct (int_truediv (b - a) 1000000) as [x|] eqn:Hx; [|done].
    simpl. eapply int_truediv_nonneg; [| |exact Hx]; lia. }
  assert (Hk : f_nonneg (f_of_Z 1000) = true) by reflexivity.
  destruct (f_mul_nonneg _ _ Hs Hk) as [Hnan|Hnn]; [by rewrite Hnan in Hn|].
  by eapply int_of_float_nonneg.
Qed.

(** * The invariant *)

Definition registry_ok (registry : list (ToolName * ToolWrapper)) : Prop :=
  forall t w, dict_get t registry = Some w -> tw_tool w = t /\ tw_arguments_type w = t.

Lemma dispatch_registry_ok b : registry_ok (dispatch_registry b).
Proof. intros [] w [= <-]; done. Qed.

(** Retrieved passages satisfy their schema: the backend constructs them. *)
Definition passages_ok (registry : list (ToolName * ToolWrapper)) : Prop :=
  forall t w n a scope o, dict_get t registry = Some w ->
    tw_run_check w n a scope = Ok (Retrieved o) ->
    Forall (fun p => check_passage p = Ok p) (ro_passages o).

Definition allowed (r : ToolReceipt) : bool := bool_decide (rc_policy_result r = ALLOWED).

Definition budgets_ok (b : Budgets) : Prop :=
  check_budgets b = Ok b /\ 0 <= executed_tools b /\ 0 <= runbook_searches b.

Definition receipt_ok `{Host} (w : World) (b : Budgets) (incident : string) (r : ToolReceipt)
    : Prop :=
  check_lifecycle_coherence r = Ok r /\ rc_incident_id r = incident
  /\ (exists n, (n < w_ids w)%nat /\ rc_receipt_id r = uuid_hex n)
  /\ (rc_policy_result r = DENIED -> exists reason text,
        rc_reason_code r = Some reason /\ denial_guidance (rc_tool r) reason b = Ok text).

Definition evidence_ok (incident : string) (e : Evidence) : Prop :=
  check_evidence e = Ok e /\ ev_incident_id e = incident.

Definition cites_known (a : FinalAssessment) (evidence : list Evidence) : Prop :=
  forall id, id ∈ cited_ids a -> id ∈ (ev_evidence_id <$> evidence).

Definition escalation_ok (s : GraphState) : Prop :=
  match gs_escalation_reason s with
  | None => gs_escalation_decision s = None /\ gs_rejection_note s = None
  | Some reason => exists decision e,
      gs_escalation_decision s = Some decision
      /\ e = {| er_reason := reason; er_decision := decision;
                er_rejection_note := gs_rejection_note s |}
      /\ check_rejection_note_pairing e = Ok e
  end.

(** A resume value whose note fits the record it ends up in. *)
Definition note_fits (v : json) : Prop :=
  match parse_resume_decision v with
  | Some (_, Some note) => str_len note <= 300
  | _ => True
  end.

(** What the owner's decision parses to can be recorded. *)
Lemma parse_resume_decision_pairs reason v decision note :
  parse_resume_decision v = Some (decision, note) -> note_fits v ->
  let e := {| er_reason := reason; er_decision := decision; er_rejection_note := note |} in
  check_rejection_note_pairing e = Ok e.
Proof.
  intros Hv Hfit. unfold note_fits in Hfit. rewrite Hv in Hfit.
  unfold parse_resume_decision in Hv.
  destruct v as [| | | | | |d]; try done.
  destruct (dict_get "decision" d) as [[]|]; try done.
  case_decide.
  - destruct (dict_get "rejection_note" d) as [[]|]; simplify_eq; done.
  - case_decide; [|done]. destruct (dict_get "rejection_note" d) as [[]|]; try done.
    case_decide as Hne; simplify_eq. unfold check_rejection_note_pairing, max_length. simpl.
    apply Z.leb_le in Hfit. rewrite Hfit, py_strip_idem, bool_decide_false by done. done.
Qed.

Lemma resolve_decision_inl retry rs decision note reason :
  Forall note_fits rs -> resolve_decision retry rs = inl (decision, note) ->
  let e := {| er_reason := reason; er_decision := decision; er_rejection_note := note |} in
  check_rejection_note_pairing e = Ok e.
Proof.
  intros Hrs. revert retry. induction Hrs as [|v rs Hv Hrs IH]; intros retry; simpl; [done|].
  destruct (parse_resume_decision v) as [[d n]|] eqn:Hp; [|apply IH].
  intros [= -> ->]. by eapply parse_resume_decision_pairs.
Qed.

(** The pool of slots a request spends from: runbook searches have their own. *)
Definition in_pool (runbook : bool) (a : ToolArguments) : bool :=
  Bool.eqb (bool_decide (arguments_tool a = SEARCH_RUNBOOKS)) runbook.

Lemma in_pool_checks a : in_pool false a = negb (bool_decide (arguments_tool a = SEARCH_RUNBOOKS)).
Proof. unfold in_pool. by destruct (bool_decide (arguments_tool a = SEARCH_RUNBOOKS)). Qed.

Lemma in_pool_searches a : in_pool true a = bool_decide (arguments_tool a = SEARCH_RUNBOOKS).
Proof. unfold in_pool. by destruct (bool_decide (arguments_tool a = SEARCH_RUNBOOKS)). Qed.

Lemma pools_length calls : Z.of_nat (length calls) = count_if (in_pool false) calls + count_if (in_pool true) calls.
Proof.
  induction calls as [|a calls IH]; [done|]. cbn [length count_if]. rewrite Nat2Z.inj_succ, IH.
  unfold in_pool. destruct (bool_decide (arguments_tool a = SEARCH_RUNBOOKS)); simpl; lia.
Qed.

Section invariant.
Context `{Pydantic} `{Clocks} `{FreshIds} `{ToolCallingModel}.
Context (iv : Investigation) (w0 : World).

Notation b := (iv_budgets iv).

Record state_ok (w : World) (s : GraphState) : Prop := {
  so_incident : gs_incident_id s = sc_incident_id (iv_scope iv);
  so_receipts : Forall (receipt_ok w b (gs_incident_id s)) (gs_receipts s);
  so_receipt_ids : NoDup (rc_receipt_id <$> gs_receipts s);
  so_evidence : Forall (evidence_ok (gs_incident_id s)) (gs_evidence s);
  so_passages : Forall (fun p => check_passage p = Ok p) (gs_runbook_passages s);
  so_tools : count_if (charged false) (gs_receipts s) <= executed_tools b;
  so_searches : count_if (charged true) (gs_receipts s) <= runbook_searches b;
  so_backend : exists calls, w_backend_calls w = w_backend_calls w0 ++ calls
    /\ Forall (arguments_permitted (iv_scope iv) b) calls
    /\ forall k, count_if (in_pool k) calls = count_if (charged k) (gs_receipts s);
  so_model_calls : Z.of_nat (w_model_calls w)
                   = Z.of_nat (w_model_calls w0) + gs_model_calls_used s;
  so_repairs : 0 <= gs_repairs_used s <= repairs b;
  so_used : gs_repairs_used s <= gs_model_calls_used s;
  so_calls_left : gs_model_calls_used s - gs_repairs_used s <= Z.max 0 (model_calls b);
  so_turn : 0 <= gs_model_turn s <= gs_model_calls_used s - gs_repairs_used s;
  so_invalid : 0 <= gs_invalid_responses s;
  so_events : numbered (gs_events s);
  so_pending : forall p, gs_pending_proposal s = Some p -> revalidate_proposal p = Ok p;
  so_assessment : forall a, gs_assessment s = Some a ->
    check_assessment a = Ok a /\ cites_known a (gs_evidence s);
  so_started : exists n, (n < w_ticks w)%nat /\ gs_started_at s = clock n;
  so_escalation : escalation_ok s;
}.

Notation left s := (model_calls_left (gs_model_calls_used s) (gs_repairs_used s) b).

(** What holds where the node [n] is about to run. *)
Definition pos_ok (n : Node) (s : GraphState) : Prop :=
  gs_report s = None
  /\ match n with
     | N_INVESTIGATE =>
         gs_pending_proposal s = None /\ gs_assessment s = None /\ gs_failure_reason s = None
         /\ gs_escalation_reason s = None
         /\ (2 <= left s \/ gs_model_turn s = 0 /\ gs_model_calls_used s = gs_repairs_used s)
     | N_DISPATCH_TOOL =>
         is_Some (gs_pending_proposal s) /\ gs_assessment s = None
         /\ gs_failure_reason s = None /\ gs_escalation_reason s = None
         /\ (2 <= model_calls b -> 1 <= left s)
     | N_NORMALIZE_EVIDENCE =>
         gs_pending_proposal s = None /\ gs_assessment s = None
         /\ gs_escalation_reason s = None /\ (2 <= model_calls b -> 1 <= left s)
     | N_FINAL_ASSESSMENT =>
         gs_pending_proposal s = None /\ gs_assessment s = None
         /\ gs_failure_reason s = None /\ gs_escalation_reason s = None
         /\ (2 <= model_calls b -> 1 <= left s)
     | N_ESCALATION_INTERRUPT =>
         gs_failure_reason s = None /\ gs_escalation_reason s = None
         /\ iv_suppress_escalation iv = false
         /\ exists a reason, gs_assessment s = Some a
            /\ escalation_reason (gs_receipts s) a b
                 (Z.of_nat (length (gs_runbook_passages s))) = Ok (Some reason)
     | N_FINAL_REPORT =>
         (exists a, gs_assessment s = Some a) /\ gs_failure_reason s = None
         \/ gs_assessment s = None /\ is_Some (gs_failure_reason s)
            /\ gs_escalation_reason s = None
     end.

(** How many supersteps are left at most. *)
Definition steps_left (n : Node) (s : GraphState) : Z :=
  match n with
  | N_INVESTIGATE => 3 * Z.max 1 (left s - 1) + 3
  | N_DISPATCH_TOOL => 3 * Z.max 0 (left s - 1) + 5
  | N_NORMALIZE_EVIDENCE => 3 * Z.max 0 (left s - 1) + 4
  | N_FINAL_ASSESSMENT => 3
  | N_ESCALATION_INTERRUPT => 2
  | N_FINAL_REPORT => 1
  end.

Lemma steps_left_pos n s : 1 <= steps_left n s.
Proof. destruct n; simpl; lia. Qed.

(** ** What the nodes rebuild *)

Lemma rebuild_receipts_ok w s :
  state_ok w s -> rebuild_receipts s = Ok (gs_receipts s).
Proof.
  intros []. unfold rebuild_receipts. rewrite validate_all_id.
  - simpl. assert (forallb (fun r => bool_decide (rc_incident_id r = gs_incident_id s))
                     (gs_receipts s) = true) as ->; [|done].
    apply forallb_forall. intros r Hr%list_elem_of_In. rewrite Forall_forall in so_receipts0.
    apply bool_decide_eq_true. by apply so_receipts0 in Hr as (_ & ? & _).
  - eapply Forall_impl; [exact so_receipts0|]. by intros r (? & _).
Qed.

Lemma rebuild_store_ok w s :
  state_ok w s -> exists store, rebuild_store (gs_incident_id s) (gs_evidence s) = Ok store.
Proof. intros []. by apply add_all_ok. Qed.

Lemma rebuild_passages_ok w s :
  state_ok w s -> rebuild_passages s = Ok (gs_runbook_passages s).
Proof. intros []. by apply validate_all_id. Qed.

Lemma stage_inputs_ok w s :
  state_ok w s -> exists store,
    stage_inputs s = Ok (gs_receipts s, store, gs_runbook_passages s)
    /\ rebuild_store (gs_incident_id s) (gs_evidence s) = Ok store.
Proof.
  intros Hs. destruct (rebuild_store_ok w s Hs) as [store Hst]. exists store.
  unfold stage_inputs. rewrite (rebuild_receipts_ok w), Hst, (rebuild_passages_ok w) by done.
  done.
Qed.

(** The store holds the ids of the state's evidence and no other. *)
Lemma fold_dict_set_keys (l : list Evidence) d id :
  id ∈ dict_keys (fold_left (fun d e => dict_set (ev_evidence_id e) e d) l d) ->
  id ∈ dict_keys d \/ id ∈ (ev_evidence_id <$> l).
Proof.
  revert d. induction l as [|e l IH]; intros d; simpl; [by left|].
  intros [Hin|Hin]%IH; [|right; by right].
  unfold dict_keys in Hin. apply list_elem_of_fmap in Hin as ([k v] & -> & Hin).
  apply dict_set_elem in Hin as [[= -> ->]|Hin]; [right; by left|left].
  by apply (list_elem_of_fmap_2' fst _ (k, v)).
Qed.

Lemma store_knows s store a :
  rebuild_store (gs_incident_id s) (gs_evidence s) = Ok store ->
  unknown_ids store (cited_ids a) = [] -> cites_known a (gs_evidence s).
Proof.
  intros (_ & _ & Hr)%add_all_spec Hu id Hid. simpl in Hr.
  assert (Hm : dict_mem id (st_records store) = true).
  { destruct (dict_mem id (st_records store)) eqn:Hm; [done|].
    assert (id ∈ unknown_ids store (cited_ids a)) as Hin
      by (unfold unknown_ids; by apply list_elem_of_filter).
    rewrite Hu in Hin. by apply elem_of_nil in Hin. }
  apply dict_mem_true in Hm. rewrite Hr in Hm.
  apply fold_dict_set_keys in Hm as [Hm|?]; [by apply elem_of_nil in Hm|done].
Qed.

(** ** Keeping the invariant *)

Lemma receipt_ok_later w w' incident r :
  (w_ids w <= w_ids w')%nat -> receipt_ok w b incident r -> receipt_ok w' b incident r.
Proof.
  intros Hw (? & ? & (n & ? & ?) & ?). split_and!; try done. exists n. split; [lia|done].
Qed.

(** A model stage keeps the invariant. *)
Lemma state_ok_stage w s w' s' :
  state_ok w s -> stage_effect b s w s' w' ->
  0 <= gs_model_turn s' <= gs_model_calls_used s' - gs_repairs_used s' ->
  (forall p, gs_pending_proposal s' = Some p -> revalidate_proposal p = Ok p) ->
  (forall a, gs_assessment s' = Some a -> check_assessment a = Ok a /\ cites_known a (gs_evidence s)) ->
  state_ok w' s'.
Proof.
  intros [] [Hf Hacc Hmc Hids Hbk Hticks Hev Hinv] Hturn Hpend Hass.
  unfold stage_frame in Hf. injection Hf as _ _ Hinc Hst _ Hrc Hevid Hpass _ Her Hed Hnote _.
  destruct (accounted_left _ _ _ _ _ Hacc) as (Hl & Hl1 & ? & ? & ? & ?).
  unfold model_calls_left in *.
  split; rewrite ?Hinc, ?Hst, ?Hrc, ?Hevid, ?Hpass, ?Hbk; try done; try lia.
  - eapply Forall_impl; [exact so_receipts0|]. intros r. apply receipt_ok_later. lia.
  - destruct so_started0 as (n & ? & ?). exists n. split; [lia|done].
  - unfold escalation_ok in *. by rewrite Her, Hed, Hnote.
Qed.

(** Keys that carry no obligation but their own. *)
Lemma state_ok_ticks w s w' s' :
  state_ok w s -> (w_ids w <= w_ids w')%nat -> (w_ticks w <= w_ticks w')%nat ->
  w_model_calls w' = w_model_calls w -> w_backend_calls w' = w_backend_calls w ->
  stage_frame (s' <| gs_report := gs_report s |>) = stage_frame s ->
  gs_model_calls_used s' = gs_model_calls_used s -> gs_repairs_used s' = gs_repairs_used s ->
  gs_invalid_responses s' = gs_invalid_responses s -> gs_model_turn s' = gs_model_turn s ->
  gs_pending_proposal s' = gs_pending_proposal s -> gs_assessment s' = gs_assessment s ->
  numbered (gs_events s') -> state_ok w' s'.
Proof.
  intros [] Hi Ht Hm Hb Hf Hu Hr Hinv Htu Hp Ha He.
  unfold stage_frame in Hf. simpl in Hf.
  injection Hf as _ _ Hinc Hst _ Hrc Hevid Hpass _ Her Hed Hnote.
  split; rewrite ?Hinc, ?Hst, ?Hrc, ?Hevid, ?Hpass, ?Hm, ?Hb, ?Hu, ?Hr, ?Hinv, ?Htu, ?Hp, ?Ha;
    try done.
  - eapply Forall_impl; [exact so_receipts0|]. intros r. by apply receipt_ok_later.
  - destruct so_started0 as (n & ? & ?). exists n. split; [lia|done].
  - unfold escalation_ok in *. by rewrite Her, Hed, Hnote.
Qed.

(** ** One superstep *)

(** The state an investigation ends in: its report was built from it. *)
Definition finished (s : GraphState) : Prop :=
  exists report store at_,
    gs_report s = Some report
    /\ rebuild_store (gs_incident_id s) (gs_evidence s) = Ok store
    /\ report_of s b None at_ (gs_receipts s) store (gs_runbook_passages s) = Ok report
    /\ revalidate_report report = Ok report.

Definition payload_ok (s : GraphState) (p : InterruptPayload) : Prop :=
  0 <= ip_remaining_check_count p
  /\ exists a, gs_assessment s = Some a
     /\ escalation_reason (gs_receipts s) a b (Z.of_nat (length (gs_runbook_passages s)))
        = Ok (Some (ip_reason p)).

(** Some answer of the model, or of a registered backend, is the engine's signal. *)
Definition signalled : Prop :=
  model_signals \/ exists t tw n a scope,
    dict_get t (iv_registry iv) = Some tw /\ tw_run_check tw n a scope = Err GraphBubbleUp.

(** What one superstep from node [n] may do. *)
Definition progress (n : Node) (s : GraphState) (w : World) (r : res step_result) (w' : World)
    : Prop :=
  match r with
  | Err e => e = GraphBubbleUp /\ signalled
  | Ok (Suspended p) => n = N_ESCALATION_INTERRUPT /\ w' = w /\ payload_ok s p
  | Ok (Moved (Some n') s') =>
      state_ok w' s' /\ pos_ok n' s' /\ steps_left n' s' < steps_left n s
  | Ok (Moved None s') => n = N_FINAL_REPORT /\ state_ok w' s' /\ finished s'
  end.

Lemma investigate_progress rs s w r w' :
  state_ok w s -> pos_ok N_INVESTIGATE s ->
  superstep (build_graph iv) N_INVESTIGATE rs s w = (r, w') ->
  progress N_INVESTIGATE s w r w'.
Proof.
  intros Hs (Hrep & Hp & Ha & Hf & He & Hl) Hrun.
  destruct (stage_inputs_ok w s Hs) as (store & Hin & _).
  unfold superstep, build_graph, done in Hrun. simpl in Hrun.
  unfold mbind, ST_bind, mret, ST_ret in Hrun.
  destruct (investigate _ _ _ s w) as [[s'|e] w1] eqn:Hi; simpl in Hrun; injection Hrun as <- <-;
    apply investigate_spec in Hi; try (by destruct Hs).
  2: { simpl. destruct Hi as [[? ?]|Hi]; [by split; [|left]|congruence]. }
  destruct Hi as (Heff & Hass & Hcase). pose proof Heff as [Hfr Hacc _ _ _ _ _ _].
  unfold stage_frame in Hfr. injection Hfr as _ _ _ _ _ _ _ _ _ Her _ _ Hrp.
  pose proof Hs as [].
  destruct Hcase as [(Hp' & Ht' & Hf')|(Hans & Ht' & Hf' & Hpend')].
  - apply accounted_left in Hacc as (Hl' & Hl1 & ? & ? & ? & ?).
    assert (Hok : state_ok w1 s').
    { eapply state_ok_stage; try done; rewrite ?Ht', ?Hp', ?Hass, ?Ha; try done.
      unfold model_calls_left in *. lia. }
    unfold route_after_investigate. rewrite Hp'. simpl.
    destruct (gs_failure_reason s') as [reason|] eqn:Hfr'.
    + split_and!; [done| |simpl; lia]. split; [congruence|]. right. split_and!; [congruence|by rewrite Hfr'|congruence].
    + split_and!; [done| |simpl; lia]. split; [congruence|]. split_and!; try congruence.
      specialize (Hf' eq_refl). unfold model_calls_left in *. lia.
  - pose proof (accounted_answer_left _ _ _ _ _ Hans) as Hle.
    apply accounted_answer_accounted, accounted_left in Hans as (_ & Hl1 & ? & ? & ? & ?).
    assert (Hok : state_ok w1 s').
    { eapply state_ok_stage; try done; rewrite ?Ht', ?Hass, ?Ha; try done.
      unfold model_calls_left in *. lia. }
    unfold route_after_investigate.
    destruct (gs_pending_proposal s') as [p|] eqn:Hpp; simpl.
    + split_and!; [done| |]; unfold model_calls_left in *; [|lia].
      split; [congruence|]. split_and!; try congruence; [by eexists|]. unfold model_calls_left. lia.
    + rewrite Hf'. split_and!; [done| |simpl; lia]. split; [congruence|].
      split_and!; try congruence. unfold model_calls_left in *. lia.
Qed.

Lemma final_assessment_progress rs s w r w' :
  state_ok w s -> pos_ok N_FINAL_ASSESSMENT s ->
  superstep (build_graph iv) N_FINAL_ASSESSMENT rs s w = (r, w') ->
  progress N_FINAL_ASSESSMENT s w r w'.
Proof.
  intros Hs (Hrep & Hp & Ha & Hf & He & Hl) Hrun.
  destruct (stage_inputs_ok w s Hs) as (store & Hin & Hst).
  unfold superstep, build_graph, done in Hrun. simpl in Hrun.
  unfold mbind, ST_bind, mret, ST_ret, lift_result in Hrun.
  destruct (final_assessment _ _ _ s w) as [[s'|e] w1] eqn:Hi; simpl in Hrun;
    apply final_assessment_spec in Hi; try (by destruct Hs).
  2: { injection Hrun as <- <-. simpl. destruct Hi as [[? ?]|Hi]; [by split; [|left]|congruence]. }
  destruct Hi as (Heff & Hp' & Ht' & Hcase). pose proof Heff as [Hfr Hacc _ _ _ _ _ _].
  unfold stage_frame in Hfr. injection Hfr as _ _ Hinc _ _ Hrc Hev Hpa _ Her _ _ Hrp.
  pose proof Hs as []. pose proof (accounted_left _ _ _ _ _ Hacc) as (Hl' & Hl1 & ? & ? & ? & ?).
  assert (Hok : state_ok w1 s').
  { eapply state_ok_stage; try done; rewrite ?Ht', ?Hp'; try done.
    - unfold model_calls_left in *. lia.
    - destruct Hcase as [[-> _]|(_ & _ & a & rc & st & ps & Hin' & -> & Hc & Hu)]; [done|].
      intros ? [= <-]. split; [done|]. rewrite Hin in Hin'. simplify_eq. by eapply store_knows. }
  unfold route_after_final_assessment in Hrun.
  destruct Hcase as [[Ha' [reason Hf']]|(_ & Hf' & a & rc & st & ps & Hin' & Ha' & Hc & Hu)].
  - rewrite Hf' in Hrun. injection Hrun as <- <-. simpl. split_and!; [done| |lia].
    split; [congruence|]. right. rewrite Hf'. split_and!; [done|by eexists|congruence].
  - rewrite Hf' in Hrun. destruct (iv_suppress_escalation iv) eqn:Hsup.
    { injection Hrun as <- <-. simpl. split_and!; [done| |lia].
      split; [congruence|]. left. eauto. }
    rewrite (rebuild_receipts_ok w1 s' Hok), Ha' in Hrun. cbn [mbind result_bind] in Hrun.
    rewrite Hc in Hrun. cbn [mbind result_bind] in Hrun.
    destruct (escalation_reason_total (gs_receipts s') a b
                (Z.of_nat (length (gs_runbook_passages s')))) as [reason Hesc];
      [by rewrite Hrc|].
    rewrite Hesc in Hrun. cbn [mbind result_bind] in Hrun. injection Hrun as <- <-.
    destruct reason as [reason|]; simpl; (split_and!; [done| |lia]); (split; [congruence|]).
    + split_and!; [done|congruence|done|]. by exists a, reason.
    + left. eauto.
Qed.

(** ** DISPATCH_TOOL *)

Context (Hreg : registry_ok (iv_registry iv)) (Hpassages : passages_ok (iv_registry iv)).

Lemma ledger_ok_state w s :
  state_ok w s ->
  ledger_ok w {| lg_budget := executed_tools b; lg_runbook_budget := runbook_searches b;
                 lg_receipts := keyed (gs_receipts s); lg_evidence := [] |}.
Proof.
  intros []. unfold ledger_ok, keyed. simpl. apply Forall_fmap.
  eapply Forall_impl; [exact so_receipts0|]. intros r (_ & _ & (n & ? & ?) & _).
  split; [done|]. by exists n.
Qed.

Lemma slots_of_keyed rs t :
  slots_left_for {| lg_budget := executed_tools b; lg_runbook_budget := runbook_searches b;
                    lg_receipts := rs; lg_evidence := [] |} t
  = (if decide (t = SEARCH_RUNBOOKS) then runbook_searches b else executed_tools b)
    - count_if (charged (bool_decide (t = SEARCH_RUNBOOKS))) (dict_values rs).
Proof. by rewrite slots_left_for_alt. Qed.

(** The two halves of what dispatch may add to the state: nothing, or one
    receipt with at most one record of evidence. *)
Definition dispatch_adds (w : World) (s : GraphState) (w' : World)
    (rs : list ToolReceipt) (es : list Evidence) (ps : list RunbookPassage) : Prop :=
  Forall (receipt_ok w' b (gs_incident_id s)) rs
  /\ NoDup (rc_receipt_id <$> gs_receipts s ++ rs)
  /\ count_if (charged false) (gs_receipts s ++ rs) <= executed_tools b
  /\ count_if (charged true) (gs_receipts s ++ rs) <= runbook_searches b
  /\ Forall (evidence_ok (gs_incident_id s)) es
  /\ Forall (fun p => check_passage p = Ok p) ps
  /\ (exists calls, w_backend_calls w' = w_backend_calls w ++ calls
       /\ Forall (arguments_permitted (iv_scope iv) b) calls
       /\ forall k, count_if (in_pool k) calls = count_if (charged k) rs)
  /\ (w_ids w <= w_ids w')%nat /\ (w_ticks w <= w_ticks w')%nat
  /\ w_model_calls w' = w_model_calls w.

Lemma state_ok_dispatched w s w' s' rs es ps :
  state_ok w s -> dispatch_adds w s w' rs es ps ->
  gs_incident_id s' = gs_incident_id s -> gs_started_at s' = gs_started_at s ->
  gs_receipts s' = gs_receipts s ++ rs -> gs_evidence s' = gs_evidence s ++ es ->
  gs_runbook_passages s' = gs_runbook_passages s ++ ps ->
  gs_model_calls_used s' = gs_model_calls_used s -> gs_repairs_used s' = gs_repairs_used s ->
  gs_invalid_responses s' = gs_invalid_responses s -> gs_model_turn s' = gs_model_turn s ->
  gs_pending_proposal s' = None -> gs_assessment s' = None ->
  gs_escalation_reason s' = gs_escalation_reason s ->
  gs_escalation_decision s' = gs_escalation_decision s ->
  gs_rejection_note s' = gs_rejection_note s ->
  numbered (gs_events s') -> state_ok w' s'.
Proof.
  intros [] (Hrs & Hnd & Hc1 & Hc2 & Hes & Hps & (calls & Hcalls & Hperm & Hlen) & Hi & Ht & Hm)
    Hinc Hst Hrc Hev Hpa Hu Hr Hinv Htu Hp Ha Her Hed Hn Hevents.
  split; rewrite ?Hinc, ?Hst, ?Hrc, ?Hev, ?Hpa, ?Hm, ?Hu, ?Hr, ?Hinv, ?Htu, ?Hp, ?Ha; try done.
  - apply Forall_app. split; [|done]. eapply Forall_impl; [exact so_receipts0|].
    intros r. by apply receipt_ok_later.
  - by apply Forall_app.
  - by apply Forall_app.
  - destruct so_backend0 as (calls0 & Hb0 & Hp0 & Hl0). exists (calls0 ++ calls).
    rewrite Hcalls, Hb0, <- app_assoc. split; [done|]. split; [by apply Forall_app|].
    intros k. by rewrite !count_if_app, Hl0, Hlen.
  - destruct so_started0 as (n & ? & ?). exists n. split; [lia|done].
  - unfold escalation_ok in *. by rewrite Her, Hed, Hn.
Qed.

Lemma new_receipt_ok tool rc p (d : Dispatch) out d' r s :
  dispatch_effect tool rc p (iv_scope iv) b d out d' r ->
  gs_incident_id s = sc_incident_id (iv_scope iv) ->
  receipt_ok (d_world d') b (gs_incident_id s) r.
Proof.
  intros [] Hinc. split; [done|]. split; [congruence|]. split.
  - exists (w_ids (d_world d)). split; [lia|done].
  - intros Hden. rewrite de_policy in Hden. pose proof Hden as Hden'.
    apply authorize_denied_reason in Hden as (reason & Hr & Hj).
    destruct (denial_guidance_total (rc_tool r) b reason _ _ _ _ Hj) as [text Htext].
    exists reason, text. split; [|done]. rewrite de_reason by congruence. exact Hr.
Qed.

(** The ledger a dispatch node works on. *)
Definition ledger_at (s : GraphState) : Ledger :=
  {| lg_budget := executed_tools b; lg_runbook_budget := runbook_searches b;
     lg_receipts := keyed (gs_receipts s); lg_evidence := [] |}.

Lemma slots_nonneg w s t : state_ok w s -> 0 <= slots_left_for (ledger_at s) t.
Proof.
  intros []. unfold ledger_at. rewrite slots_of_keyed, keyed_values.
  case_decide; [rewrite bool_decide_true by done|rewrite bool_decide_false by done]; lia.
Qed.

Lemma pools_of_ledger l rs :
  dict_values (lg_receipts l) = rs -> lg_budget l = executed_tools b ->
  lg_runbook_budget l = runbook_searches b -> (forall t, 0 <= slots_left_for l t) ->
  count_if (charged false) rs <= executed_tools b
  /\ count_if (charged true) rs <= runbook_searches b.
Proof.
  intros <- Hb Hrb Hpos. pose proof (Hpos QUERY_LOGS) as H1'. pose proof (Hpos SEARCH_RUNBOOKS) as H2'.
  rewrite !slots_left_for_alt, Hb, Hrb in *. unfold spent in *. simpl in *. lia.
Qed.

(** Running the wrapper of a proposal, whatever its backend does. *)
Lemma run_wrapper_spec s w wd p seen out d :
  state_ok w s -> (w_ids w <= w_ids wd)%nat -> w_ids wd = w_ids w ->
  (w_ticks w <= w_ticks wd)%nat -> w_model_calls wd = w_model_calls w ->
  w_backend_calls wd = w_backend_calls w ->
  run_wrapper (iv_scope iv) b (iv_registry iv) p
    {| d_world := wd; d_ledger := ledger_at s; d_seen := seen |} = (out, d) ->
  exists rs, receipts (d_ledger d) = gs_receipts s ++ rs
    /\ match out with
       | Ok result => dispatch_adds w s (d_world d) rs
            (match dr_evidence result with Some e => [e] | None => [] end) (dr_passages result)
       | Err e => dispatch_adds w s (d_world d) rs (evidence (d_ledger d)) []
           /\ (e = GraphBubbleUp -> signalled)
       end.
Proof.
  intros Hs _ Hid Hti Hmc Hbk. unfold run_wrapper.
  destruct (dict_get (pr_tool p) (iv_registry iv)) as [tw|] eqn:Hg.
  2: { intros [= <- <-]. exists []. simpl. unfold receipts. simpl. rewrite keyed_values, app_nil_r.
       split; [done|]. pose proof Hs as []. split; [|done]. unfold dispatch_adds. rewrite app_nil_r.
       split_and!; try done; [|lia]. exists []. by rewrite app_nil_r. }
  destruct (Hreg _ _ Hg) as [Ht Hat]. rewrite Ht, Hat. intros Hrun.
  set (d0 := {| d_world := wd; d_ledger := ledger_at s; d_seen := seen |}) in *.
  assert (Hok : ledger_ok (d_world d0) (d_ledger d0)).
  { pose proof (ledger_ok_state w s Hs) as Hl. unfold ledger_ok in *. simpl in *.
    by rewrite Hid. }
  destruct (dispatch_spec (pr_tool p) (tw_run_check tw) p (iv_scope iv) b d0 out d eq_refl
              (ledger_ok_fresh d0 Hok) Hrun) as [r He].
  pose proof (dispatch_effect_permitted _ _ _ _ _ _ _ _ _ He) as Hperm.
  pose proof (dispatch_effect_nonneg _ _ _ _ _ _ _ _ _ He (fun t => slots_nonneg w s t Hs)) as Hpos.
  pose proof (new_receipt_ok _ _ _ _ _ _ _ s He (so_incident _ _ Hs)) as Hrok.
  pose proof (dispatch_effect_ok _ _ _ _ _ _ _ _ _ He Hok) as Hok'.
  pose proof (ledger_ok_fresh d0 Hok) as Hfresh. unfold fresh_id in Hfresh.
  exists [r]. destruct He. unfold d0 in *. simpl in *.
  assert (Hrs : receipts (d_ledger d) = gs_receipts s ++ [r]).
  { rewrite <- (keyed_values (gs_receipts s)). by eapply (receipts_app (ledger_at s)). }
  split; [done|].
  destruct (pools_of_ledger (d_ledger d) (gs_receipts s ++ [r])) as [Hp1 Hp2]; try done.
  assert (Hnd : NoDup (rc_receipt_id <$> gs_receipts s ++ [r])).
  { pose proof (so_receipt_ids _ _ Hs) as Hold. rewrite fmap_app. apply NoDup_app.
    split_and!; [done| |apply NoDup_singleton].
    intros id Hin ->%list_elem_of_singleton. revert Hin. rewrite <- keyed_keys, de_id.
    by apply dict_get_None. }
  assert (Hcalls : exists calls, w_backend_calls (d_world d) = w_backend_calls w ++ calls
       /\ Forall (arguments_permitted (iv_scope iv) b) calls
       /\ forall k, count_if (in_pool k) calls = count_if (charged k) [r]).
  { exists (calls_of (rc_policy_result r) p (iv_scope iv)). rewrite de_calls, Hbk.
    split_and!; [done..|]. intros k. unfold charged. cbn [count_if]. rewrite de_tool.
    destruct (rc_policy_result r); cbn [calls_of count_if]; [|done].
    unfold in_pool, effective, proposal_with. cbn [pr_arguments]. by rewrite resolve_arguments_tool. }
  destruct out as [result|e]; unfold dispatch_adds.
  - destruct de_out as (_ & _ & _ & Hev & Hps & _).
    split_and!; try done; try lia; try by apply Forall_singleton.
    + destruct (dr_evidence result) as [e|]; [|constructor].
      destruct (Hev e eq_refl) as (_ & _ & _ & _ & _ & _ & Hinc & _ & Hce & _).
      apply Forall_singleton. split; [done|]. rewrite Hinc. symmetry. by apply (so_incident w).
    + destruct Hps as [->|(o & Ho & ->)]; [constructor|]. by eapply Hpassages.
  - destruct de_out as (_ & _ & Hev & Hwhy). split.
    2: { intros ->. right. destruct Hwhy as [?|Hwhy]; [done|]. by eexists _, tw, _, _, _. }
    split_and!; try done; try lia; try by apply Forall_singleton.
    unfold evidence, dict_values. rewrite Hev. constructor.
Qed.

Lemma dispatch_events_numbered s p result recorded w :
  numbered recorded ->
  numbered (dispatch_events s p result recorded w).1
  /\ w_ids (dispatch_events s p result recorded w).2 = w_ids w
  /\ w_ticks (dispatch_events s p result recorded w).2 = w_ticks w
  /\ w_model_calls (dispatch_events s p result recorded w).2 = w_model_calls w
  /\ w_backend_calls (dispatch_events s p result recorded w).2 = w_backend_calls w.
Proof.
  intros Hn. unfold dispatch_events, event, read_event_clock. case_decide; simpl;
    split_and!; try done; repeat apply numbered_snoc; done.
Qed.

Lemma dispatch_adds_later w s w' w'' rs es ps :
  dispatch_adds w s w' rs es ps -> w_ids w'' = w_ids w' -> w_ticks w'' = w_ticks w' ->
  w_model_calls w'' = w_model_calls w' -> w_backend_calls w'' = w_backend_calls w' ->
  dispatch_adds w s w'' rs es ps.
Proof.
  intros (Hrs & Hd) Hi Ht Hm Hb. unfold dispatch_adds. rewrite Hi, Ht, Hm, Hb.
  split; [|exact Hd]. eapply Forall_impl; [exact Hrs|]. intros r. apply receipt_ok_later. lia.
Qed.

Lemma superstep_dispatch rs s w :
  superstep (build_graph iv) N_DISPATCH_TOOL rs s w
  = match dispatch_tool (iv_scope iv) b (iv_registry iv) s w with
    | (Ok s', w') => (Ok (Moved (Some N_NORMALIZE_EVIDENCE) s'), w')
    | (Err e, w') => (Err e, w')
    end.
Proof.
  unfold superstep. cbn [build_graph g_node g_next]. unfold done, mbind, ST_bind.
  destruct (dispatch_tool _ _ _ s w) as [[]]; reflexivity.
Qed.

Lemma dispatched_state_ok w s result d recorded w' new :
  state_ok w s -> gs_assessment s = None -> receipts (d_ledger d) = gs_receipts s ++ new ->
  dispatch_adds w s w' new (match dr_evidence result with Some e => [e] | None => [] end)
    (dr_passages result) ->
  numbered recorded -> state_ok w' (dispatched_state s result d recorded).
Proof.
  intros Hs Ha Hr Hadds Hn. eapply state_ok_dispatched; [exact Hs|exact Hadds|..];
    first [exact Hr|exact Hn|exact Ha|reflexivity].
Qed.

Lemma crashed_state_ok w s d recorded w' new :
  state_ok w s -> gs_assessment s = None -> receipts (d_ledger d) = gs_receipts s ++ new ->
  dispatch_adds w s w' new (evidence (d_ledger d)) [] ->
  numbered recorded -> state_ok w' (crashed_state s d recorded).
Proof.
  intros Hs Ha Hr Hadds Hn. eapply state_ok_dispatched; [exact Hs|exact Hadds|..];
    first [exact Hr|exact Hn|exact Ha|symmetry; apply app_nil_r|reflexivity].
Qed.

Lemma dispatch_inputs_ok w s p :
  state_ok w s -> gs_pending_proposal s = Some p -> dispatch_inputs b s = Ok (p, ledger_at s).
Proof.
  intros Hs Hp. unfold dispatch_inputs. rewrite Hp, (so_pending _ _ Hs p Hp).
  cbn [mbind result_bind]. rewrite (rebuild_receipts_ok w s Hs). cbn [mbind result_bind].
  by rewrite ledger_of_ok by (by destruct Hs).
Qed.

(** Everything DISPATCH_TOOL does to the state and the world. *)
Lemma dispatch_tool_spec s w p :
  state_ok w s -> gs_pending_proposal s = Some p -> gs_assessment s = None ->
  match dispatch_tool (iv_scope iv) b (iv_registry iv) s w with
  | (Ok s', w') => state_ok w' s'
      /\ ((exists result d recorded, s' = dispatched_state s result d recorded)
          \/ exists d recorded, s' = crashed_state s d recorded)
  | (Err e, w') => e = GraphBubbleUp /\ signalled
  end.
Proof.
  intros Hs Hp Ha. unfold dispatch_tool. rewrite (dispatch_inputs_ok w s p Hs Hp).
  pose proof (so_events _ _ Hs) as Hn0.
  destruct (event P_DISPATCH_TOOL "proposal_received" _ _ w) as [recorded w1] eqn:Hev.
  injection Hev as <- <-.
  match goal with |- context [dispatch_events s p _ ?l] => set (recorded := l) in * end.
  assert (Hn : numbered recorded) by (by apply numbered_snoc). clearbody recorded.
  set (w1 := w <| w_event_ticks := _ |>) in *.
  destruct (run_wrapper _ _ _ p _) as [[result|e] d] eqn:Hw.
  - apply (run_wrapper_spec s w) in Hw as (new & Hrs & Hadds); try done.
    destruct (dispatch_events_numbered s p result recorded (d_world d) Hn)
      as (Hn' & Hi & Ht & Hm & Hb).
    destruct (dispatch_events s p result recorded (d_world d)) as [recorded' w2].
    split; [|by left; exists result, d, recorded'].
    eapply dispatched_state_ok; [done..| |done]. by eapply dispatch_adds_later.
  - apply (run_wrapper_spec s w) in Hw as (new & Hrs & Hadds & Hsig); try done.
    destruct (is_bubble_up e) eqn:Hbub; [destruct e; try done; by split; [|apply Hsig]|].
    destruct (event P_DISPATCH_TOOL "backend_crashed" _ recorded (d_world d))
      as [recorded' w2] eqn:Hev.
    injection Hev as <- <-. split.
    + eapply crashed_state_ok; [done..| |by apply numbered_snoc].
      by eapply dispatch_adds_later.
    + right. by eexists _, _.
Qed.

Lemma dispatch_progress rs s w r w' :
  state_ok w s -> pos_ok N_DISPATCH_TOOL s ->
  superstep (build_graph iv) N_DISPATCH_TOOL rs s w = (r, w') ->
  progress N_DISPATCH_TOOL s w r w'.
Proof.
  intros Hs (Hrep & [p Hp] & Ha & Hf & He & Hl). rewrite superstep_dispatch.
  pose proof (dispatch_tool_spec s w p Hs Hp Ha) as Hd.
  destruct (dispatch_tool _ _ _ s w) as [[s'|e] w1]; intros [= <- <-]; [|done].
  destruct Hd as [Hok Hcase]. cbn [progress]. split; [exact Hok|].
  assert (Hsame : gs_report s' = None /\ gs_pending_proposal s' = None /\ gs_assessment s' = None
    /\ gs_escalation_reason s' = None /\ gs_model_calls_used s' = gs_model_calls_used s
    /\ gs_repairs_used s' = gs_repairs_used s).
  { destruct Hcase as [(? & ? & ? & ->)|(? & ? & ->)]; split_and!; first [assumption|reflexivity]. }
  destruct Hsame as (? & ? & ? & ? & Hu & Hr). unfold pos_ok. cbn [steps_left].
  rewrite Hu, Hr. split; [|lia]. by split_and!.
Qed.

(** ** The remaining nodes *)

Lemma normalize_progress rs s w r w' :
  state_ok w s -> pos_ok N_NORMALIZE_EVIDENCE s ->
  superstep (build_graph iv) N_NORMALIZE_EVIDENCE rs s w = (r, w') ->
  progress N_NORMALIZE_EVIDENCE s w r w'.
Proof.
  intros Hs (Hrep & Hp & Ha & He & Hl) Hrun.
  unfold superstep, build_graph, done, normalize_evidence, event, read_event_clock in Hrun.
  simpl in Hrun. unfold mbind, ST_bind, mret, ST_ret in Hrun. simpl in Hrun.
  set (s' := s <| gs_phase := _ |> <| gs_events := _ |>) in *.
  set (w1 := w <| w_event_ticks := _ |>) in *.
  assert (Hok : state_ok w1 s').
  { eapply state_ok_ticks; [exact Hs|..]; try done. by apply numbered_snoc; destruct Hs. }
  unfold route_after_normalize in Hrun.
  change (gs_failure_reason s') with (gs_failure_reason s) in Hrun.
  destruct (gs_failure_reason s) as [reason|] eqn:Hf.
  { injection Hrun as <- <-. simpl. split_and!; [done| |lia]. split; [done|]. right.
    by split_and!. }
  rewrite (rebuild_receipts_ok w1 s' Hok) in Hrun. cbn [mbind result_bind] in Hrun.
  rewrite tools_left_ok in Hrun by (by destruct Hok).
  assert (Hfinal : pos_ok N_FINAL_ASSESSMENT s') by (split; [done|]; by split_and!).
  destruct (_ && _) eqn:Htest.
  2: { injection Hrun as <- <-. simpl. split_and!; [done..|lia]. }
  apply andb_true_iff in Htest as [_ Htwo%Z.leb_le].
  unfold expired, read_clock in Hrun. injection Hrun as <- <-. simpl.
  assert (Hok2 : state_ok (w1 <| w_ticks := S (w_ticks w1) |>) s').
  { eapply state_ok_ticks; [exact Hok|..]; try done; simpl; [lia|by destruct Hok]. }
  split; [exact Hok2|]. case_match; simpl in Htwo |- *.
  - split; [|unfold model_calls_left in *; lia]. split; [done|]. split_and!; try done. by left.
  - split; [done|lia].
Qed.

Lemma escalation_inputs_ok w s a reason :
  state_ok w s -> gs_assessment s = Some a ->
  escalation_reason (gs_receipts s) a b (Z.of_nat (length (gs_runbook_passages s)))
  = Ok (Some reason) ->
  exists ids, escalation_inputs b s
    = Ok (reason, ids, executed_tools b - count_if (charged false) (gs_receipts s)).
Proof.
  intros Hs Ha Hesc. destruct (rebuild_store_ok w s Hs) as [store Hst].
  exists (ev_evidence_id <$> ordered store). pose proof Hs as [].
  unfold escalation_inputs. rewrite (rebuild_receipts_ok w s Hs), Ha. cbn [mbind result_bind].
  destruct (so_assessment0 a Ha) as [Hc _]. rewrite Hc. cbn [mbind result_bind].
  rewrite Hst. cbn [mbind result_bind]. rewrite Hesc. cbn [mbind result_bind].
  by rewrite tools_left_ok.
Qed.

(** Recording a decision keeps the invariant. *)
Lemma state_ok_decided w s w' reason decision note recorded :
  state_ok w s ->
  (let e := {| er_reason := reason; er_decision := decision; er_rejection_note := note |} in
   check_rejection_note_pairing e = Ok e) ->
  numbered recorded -> w_ids w' = w_ids w -> w_ticks w' = w_ticks w ->
  w_model_calls w' = w_model_calls w -> w_backend_calls w' = w_backend_calls w ->
  state_ok w' (s <| gs_phase := P_ESCALATION_INTERRUPT |>
                 <| gs_escalation_reason := Some reason |>
                 <| gs_escalation_decision := Some decision |>
                 <| gs_rejection_note := note |> <| gs_events := recorded |>).
Proof.
  intros [] Hpair Hn Hi Ht Hm Hb. split; simpl; rewrite ?Hi, ?Ht, ?Hm, ?Hb; try done.
  - eapply Forall_impl; [exact so_receipts0|]. intros r. apply receipt_ok_later. lia.
  - exists decision. eexists. done.
Qed.

Lemma escalation_progress rs s w r w' :
  state_ok w s -> pos_ok N_ESCALATION_INTERRUPT s -> Forall note_fits rs ->
  superstep (build_graph iv) N_ESCALATION_INTERRUPT rs s w = (r, w') ->
  progress N_ESCALATION_INTERRUPT s w r w'.
Proof.
  intros Hs (Hrep & Hf & He & Hsup & a & reason & Ha & Hesc) Hfits Hrun.
  destruct (escalation_inputs_ok w s a reason Hs Ha Hesc) as [ids Hin].
  unfold superstep, build_graph, escalation_interrupt in Hrun. simpl in Hrun.
  unfold mbind, ST_bind, mret, ST_ret in Hrun. rewrite Hin in Hrun.
  destruct (resolve_decision false rs) as [[decision note]|retry] eqn:Hres.
  - unfold event, read_event_clock in Hrun. injection Hrun as <- <-. simpl.
    split; [|split; [|lia]].
    + apply (state_ok_decided w); try done.
      * by eapply resolve_decision_inl.
      * apply numbered_snoc; [by destruct Hs|done].
    + split; [done|]. left. eauto.
  - injection Hrun as <- <-. pose proof (so_tools _ _ Hs). simpl. unfold payload_ok. simpl.
    split_and!; [done|done|lia|]. exists a. eauto.
Qed.

(** ** The report *)

Context `{!ClockLaws}.

Lemma elapsed_ok w s n :
  state_ok w s -> (w_ticks w <= n)%nat ->
  exists ms, latency_ms_of (gs_started_at s) (clock n) = Ok ms /\ 0 <= ms.
Proof.
  intros Hs Hn. destruct (so_started _ _ Hs) as (m & Hm & ->).
  pose proof (clock_span m n) as Hspan.
  destruct (latency_ms_of (clock m) (clock n)) as [ms|] eqn:Hms; [|done].
  exists ms. split; [done|]. eapply latency_nonneg; [|exact Hms]. apply clock_mono. lia.
Qed.

Lemma escalation_record_ok s :
  escalation_ok s ->
  exists e, escalation_record s = Ok e
    /\ (forall x, e = Some x -> check_rejection_note_pairing x = Ok x).
Proof.
  unfold escalation_ok, escalation_record. destruct (gs_escalation_reason s) as [reason|].
  - intros (decision & e & -> & -> & Hc). rewrite Hc. eexists. split; [done|].
    by intros x [= <-].
  - intros _. by exists None.
Qed.

(** A report can always be built, and survives being stored and read back. *)
Lemma report_of_ok w s n force store :
  state_ok w s -> check_budgets b = Ok b -> (w_ticks w <= n)%nat ->
  exists report,
    report_of s b force (clock n) (gs_receipts s) store (gs_runbook_passages s) = Ok report
    /\ revalidate_report report = Ok report.
Proof.
  intros Hs Hb Hn. destruct (elapsed_ok w s n Hs Hn) as (ms & Hms & Hpos).
  pose proof Hs as []. destruct (escalation_record_ok s so_escalation0) as (esc & Hesc & Hescv).
  unfold report_of. rewrite Hesc, Hms.
  assert (Hra : exists a, reported_assessment s force = Ok a
            /\ (forall x, a = Some x -> check_assessment x = Ok x)).
  { unfold reported_assessment. destruct force as [f|]; [by exists None|].
    exists (gs_assessment s). split; [apply validate_optional_id|];
      intros x Hx; by destruct (so_assessment0 x Hx). }
  destruct Hra as (a & -> & Hav). cbn [mbind result_bind].
  destruct (verdict s force a) as [[disp root] reason] eqn:Hv. cbn [mbind result_bind].
  match goal with |- context [check_report ?r] => set (report := r) end.
  assert (Hc : check_report report = Ok report).
  { unfold check_report. assert (check_report_bounds report = true) as ->.
    { unfold check_report_bounds, report, tools_executed_of. simpl.
      pose proof (count_if_nonneg (fun r => bool_decide (rc_policy_result r = ALLOWED)
                   && bool_decide (rc_state r = SETTLED)) (gs_receipts s)). lia. }
    cbn [mbind result_bind require]. change (ir_disposition report) with disp.
    change (ir_root_cause report) with root. change (ir_assessment report) with a.
    change (ir_reason_code report) with reason. clearbody report.
    unfold verdict in Hv. destruct a as [a|].
    - specialize (check_assessment_Ok a a (Hav a eq_refl)) as Hca.
      destruct (fa_disposition a); simplify_eq.
      + destruct Hca as [Hca _]. by rewrite bool_decide_false.
      + by rewrite bool_decide_true.
    - simplify_eq. done. }
  exists report. split; [exact Hc|]. unfold revalidate_report.
  change (ir_assessment report) with a. change (ir_budgets report) with b.
  change (ir_escalation report) with esc. clearbody report. rewrite Hb.
  rewrite (validate_optional_id _ _ Hav), (validate_optional_id _ _ Hescv). exact Hc.
Qed.

Context (Hbudgets : check_budgets b = Ok b).

Lemma build_report_ok w s force :
  state_ok w s -> exists report store,
    build_report s b force w = (Ok report, w <| w_ticks := S (w_ticks w) |>)
    /\ rebuild_store (gs_incident_id s) (gs_evidence s) = Ok store
    /\ report_of s b force (clock (w_ticks w)) (gs_receipts s) store (gs_runbook_passages s)
       = Ok report
    /\ revalidate_report report = Ok report.
Proof.
  intros Hs. destruct (rebuild_store_ok w s Hs) as [store Hst].
  destruct (report_of_ok w s (w_ticks w) force store Hs Hbudgets (Nat.le_refl _))
    as (report & Hrep & Hval).
  exists report, store. split_and!; try done. unfold build_report.
  rewrite (rebuild_receipts_ok w s Hs), Hst, (rebuild_passages_ok w s Hs).
  cbn [mbind result_bind]. unfold read_clock. by rewrite Hrep.
Qed.

Lemma superstep_report rs s w :
  superstep (build_graph iv) N_FINAL_REPORT rs s w
  = match final_report b s w with
    | (Ok s', w') => (Ok (Moved None s'), w')
    | (Err e, w') => (Err e, w')
    end.
Proof.
  unfold superstep. cbn [build_graph g_node g_next]. unfold done, mbind, ST_bind.
  destruct (final_report b s w) as [[]]; reflexivity.
Qed.

Lemma report_state_spec s report unresolved w :
  numbered (gs_events s) ->
  exists recorded et,
    report_state s report unresolved w
    = (Ok (s <| gs_phase := P_FINAL_REPORT |> <| gs_report := Some report |>
             <| gs_events := recorded |>), w <| w_event_ticks := et |>)
    /\ numbered recorded.
Proof.
  intros Hn. unfold report_state, event, read_event_clock. destruct unresolved.
  - exists (gs_events s), (w_event_ticks w). split; [|done]. by destruct w.
  - eexists _, _. split; [reflexivity|]. by apply numbered_snoc.
Qed.

(** FINAL_REPORT always writes its report. *)
Lemma final_report_spec w s :
  state_ok w s ->
  exists report store recorded et,
    final_report b s w
    = (Ok (s <| gs_phase := P_FINAL_REPORT |> <| gs_report := Some report |>
             <| gs_events := recorded |>),
       w <| w_ticks := S (w_ticks w) |> <| w_event_ticks := et |>)
    /\ rebuild_store (gs_incident_id s) (gs_evidence s) = Ok store
    /\ report_of s b None (clock (w_ticks w)) (gs_receipts s) store (gs_runbook_passages s)
       = Ok report
    /\ revalidate_report report = Ok report /\ numbered recorded.
Proof.
  intros Hs. destruct (build_report_ok w s None Hs) as (report & store & Hb & Hst & Hrep & Hval).
  assert (Ha : validate_optional check_assessment (gs_assessment s) = Ok (gs_assessment s)).
  { apply validate_optional_id. intros a Ha. by destruct (so_assessment _ _ Hs a Ha). }
  destruct (report_state_spec s report
    (unresolved_runbook_citations (gs_assessment s) (gs_runbook_passages s))
    (w <| w_ticks := S (w_ticks w) |>) (so_events _ _ Hs)) as (recorded & et & Hrs & Hn).
  exists report, store, recorded, et. split; [|done].
  unfold final_report, mbind, ST_bind. rewrite Hb. unfold lift_result.
  rewrite Ha, (rebuild_passages_ok w s Hs). exact Hrs.
Qed.

Lemma report_progress rs s w r w' :
  state_ok w s -> pos_ok N_FINAL_REPORT s ->
  superstep (build_graph iv) N_FINAL_REPORT rs s w = (r, w') ->
  progress N_FINAL_REPORT s w r w'.
Proof.
  intros Hs Hpos. rewrite superstep_report.
  destruct (final_report_spec w s Hs) as (report & store & recorded & et & -> & Hst & Hrep & Hval & Hn).
  intros [= <- <-]. cbn [progress]. split; [done|]. split.
  - eapply state_ok_ticks; [exact Hs|..]; try done; simpl; lia.
  - exists report, store, (clock (w_ticks w)). by split_and!.
Qed.

(** * Every superstep makes progress *)

Lemma superstep_progress n rs s w r w' :
  state_ok w s -> pos_ok n s -> Forall note_fits rs ->
  superstep (build_graph iv) n rs s w = (r, w') -> progress n s w r w'.
Proof.
  destruct n; eauto using investigate_progress, dispatch_progress, normalize_progress,
    final_assessment_progress, escalation_progress, report_progress.
Qed.

(** Running from a valid position: within [steps_left] supersteps the graph
    ends, suspends at the owner's interrupt, or a control-flow signal of the
    engine passes through it. *)
Lemma drive_spec limit n rs i s w :
  state_ok w s -> pos_ok n s -> Forall note_fits rs -> steps_left n s <= Z.of_nat limit ->
  match drive (build_graph iv) limit
          {| cp_state := s; cp_next := Some n; cp_resumes := rs; cp_interrupt := i |} w with
  | (Returned s' None, cp', w') =>
      cp' = {| cp_state := s'; cp_next := None; cp_resumes := []; cp_interrupt := None |}
      /\ state_ok w' s' /\ finished s'
  | (Returned s' (Some p), cp', w') =>
      cp_state cp' = s' /\ cp_next cp' = Some N_ESCALATION_INTERRUPT
      /\ cp_interrupt cp' = Some p
      /\ state_ok w' s' /\ pos_ok N_ESCALATION_INTERRUPT s' /\ payload_ok s' p
  | (Raised e, cp', w') =>
      e = GraphBubbleUp /\ signalled
      /\ exists w1, state_ok w1 (cp_state cp')
  end.
Proof.
  revert n rs i s w. induction limit as [|limit IH]; intros n rs i s w Hs Hpos Hrs Hlim.
  { pose proof (steps_left_pos n s). lia. }
  cbn [drive cp_next cp_resumes cp_state].
  destruct (superstep (build_graph iv) n rs s w) as [r w'] eqn:Hstep.
  pose proof (superstep_progress n rs s w r w' Hs Hpos Hrs Hstep) as Hp.
  destruct r as [[[n'|] s'|p]|e]; cbn [progress] in Hp.
  - destruct Hp as (Hs' & Hpos' & Hlt). apply IH; [done|done|constructor|lia].
  - destruct Hp as (-> & Hs' & Hfin). destruct limit; simpl; by split_and!.
  - destruct Hp as (-> & -> & Hpay). simpl. by split_and!.
  - destruct Hp as [-> Hsig]. split_and!; [done..|]. by exists w.
Qed.
End invariant.
