(* ===== verification/GraphProps.v ===== *)
(** What an investigation guarantees, whatever its model and its backends do:
    it ends within the recursion limit with a result or at the owner's interrupt,
    its budgets hold, its citations are real, and it can be recovered and resumed. *)
From Stdlib Require Import ZArith Lia.
From stdpp Require Import prelude strings list gmap sorting.
From S2P Require Import Prelude PyText Float64 Tools Domain Policy World Evidence Wrappers ToolCalls Models Prompts GraphState GraphNodes GraphStages GraphRun GraphInvariant.
Local Open Scope Z_scope.

(** * The engine does what [drive] does *)

Lemma executes_drive g limit cp w r cp' w' :
  executes g limit cp w r cp' w' -> drive g limit cp w = (r, cp', w').
Proof.
  induction 1 as [limit s rs w|s n rs i w|limit s n rs i w e w' Hs|limit s n rs i w p w' Hs
                 |limit s n rs i w next s' w' r cp'' w'' Hs Hex IH]; cbn [drive cp_next cp_state cp_resumes].
  - by destruct limit.
  - done.
  - by rewrite Hs.
  - by rewrite Hs.
  - by rewrite Hs, IH.
Qed.

Lemma drive_executes g limit cp w :
  startable cp ->
  let '(r, cp', w') := drive g limit cp w in executes g limit cp w r cp' w'.
Proof.
  revert cp w. induction limit as [|limit IH]; intros [s [n|] rs i] w Hst; cbn [drive cp_next cp_state cp_resumes].
  - constructor.
  - pose proof (Hst eq_refl) as Hi. simpl in Hi. subst i. constructor.
  - destruct (superstep g n rs s w) as [[[next s'|p]|e] w'] eqn:Hs.
    + specialize (IH {| cp_state := s'; cp_next := next; cp_resumes := []; cp_interrupt := None |} w'
                    (fun _ => eq_refl)).
      destruct (drive _ _ _ _) as [[r cp'] w'']. by eapply ex_move.
    + by apply ex_suspend.
    + by apply ex_raise.
  - pose proof (Hst eq_refl) as Hi. simpl in Hi. subst i. constructor.
Qed.

Lemma invoke_drive `{LangGraphLaws} g limit cp w :
  startable cp -> invoke g limit cp w = drive g limit cp w.
Proof.
  intros Hst. pose proof (invoke_executes g limit cp w Hst) as Hex.
  destruct (invoke g limit cp w) as [[r cp'] w']. symmetry. by apply executes_drive.
Qed.

(** An invocation the recursion limit did not end is the same under any larger limit. *)
Lemma drive_more g limit limit' cp w :
  (limit <= limit')%nat -> (drive g limit cp w).1.1 <> Raised GraphRecursionError ->
  drive g limit' cp w = drive g limit cp w.
Proof.
  revert limit' cp w. induction limit as [|limit IH]; intros limit' cp w Hle; cbn [drive].
  - destruct limit'; cbn [drive]; by destruct (cp_next cp).
  - destruct limit' as [|limit']; [lia|]. cbn [drive]. destruct (cp_next cp) as [n|]; [|done].
    destruct (superstep g n _ _ w) as [[[next s'|p]|e] w']; [|done..]. apply IH. lia.
Qed.

(** * Reachable positions *)

Section reachable.
Context `{Pydantic} `{Host} `{Clocks} `{ToolCallingModel}.

(** The positions an investigation passes through, one superstep at a time.
    A suspended node runs again with one resume value more. *)
Inductive reachable (iv : Investigation) (evidence : list Evidence) (w0 : World)
    : Node -> list json -> GraphState -> World -> Prop :=
  | reach_start id name s w :
      seed iv id name evidence w0 = (s, w) ->
      reachable iv evidence w0 (g_entry (build_graph iv)) [] s w
  | reach_step n rs s w n' s' w' :
      reachable iv evidence w0 n rs s w ->
      superstep (build_graph iv) n rs s w = (Ok (Moved (Some n') s'), w') ->
      reachable iv evidence w0 n' [] s' w'
  | reach_resume n rs s w p w' v :
      reachable iv evidence w0 n rs s w ->
      superstep (build_graph iv) n rs s w = (Ok (Suspended p), w') ->
      note_fits v ->
      reachable iv evidence w0 n (rs ++ [v]) s w'.
End reachable.

(** * What a report says *)

Lemma report_of_inv s b force at_ rs store ps rp :
  report_of s b force at_ rs store ps = Ok rp ->
  reported_assessment s force = Ok (ir_assessment rp)
  /\ verdict s force (ir_assessment rp)
     = (ir_disposition rp, ir_root_cause rp, ir_reason_code rp)
  /\ escalation_record s = Ok (ir_escalation rp)
  /\ ir_incident_id rp = gs_incident_id s /\ ir_budgets rp = b
  /\ ir_model_calls_used rp = gs_model_calls_used s /\ ir_repairs_used rp = gs_repairs_used s
  /\ ir_invalid_responses rp = gs_invalid_responses s
  /\ ir_tools_executed rp = tools_executed_of rs
  /\ ir_evidence_ids rp = ev_evidence_id <$> ordered store
  /\ ir_receipt_ids rp = rc_receipt_id <$> rs
  /\ ir_reason_code rp = (verdict s force (ir_assessment rp)).2
  /\ check_report rp = Ok rp.
Proof.
  unfold report_of. intros (a & Ha & Hr)%result_bind_Ok.
  destruct (verdict s force a) as [[disp root] reason] eqn:Hv.
  apply result_bind_Ok in Hr as (esc & Hesc & Hr). apply result_bind_Ok in Hr as (ms & _ & Hr).
  pose proof (check_report_id _ _ Hr) as Hrp. rewrite <- Hrp in Hr. subst rp. simpl.
  rewrite Hv. split_and!; done.
Qed.

Lemma tools_executed_le rs : tools_executed_of rs <= count_if (charged false) rs + count_if (charged true) rs.
Proof.
  unfold tools_executed_of. induction rs as [|r rs IH]; simpl; [lia|].
  unfold charged at 1 3. destruct (rc_policy_result r), (rc_tool r), (rc_state r); simpl; lia.
Qed.

(** A record of the state is a record of the store under its own id. *)
Lemma fold_dict_set_has (l : list Evidence) d id :
  id ∈ dict_keys d \/ id ∈ (ev_evidence_id <$> l) ->
  id ∈ dict_keys (fold_left (fun d e => dict_set (ev_evidence_id e) e d) l d).
Proof.
  revert d. induction l as [|e l IH]; intros d; simpl.
  { intros [?|Hin]; [done|by apply elem_of_nil in Hin]. }
  intros Hid. apply IH. rewrite elem_of_cons in Hid.
  assert (Hkeep : forall k, k ∈ dict_keys d \/ k = ev_evidence_id e ->
                    k ∈ dict_keys (dict_set (ev_evidence_id e) e d)).
  { intros k Hk. apply dict_mem_true. unfold dict_mem.
    destruct (decide (k = ev_evidence_id e)) as [->|Hne]; [by rewrite dict_get_set_eq|].
    rewrite dict_get_set_ne by done. destruct Hk as [Hk|]; [|done].
    apply dict_mem_true in Hk. unfold dict_mem in Hk. done. }
  destruct Hid as [Hid|[Hid|Hid]]; [left; auto|left; auto|by right].
Qed.

Lemma fold_dict_set_all (Q : string * Evidence -> Prop) (l : list Evidence) d :
  Forall (fun e => Q (ev_evidence_id e, e)) l -> Forall Q d ->
  Forall Q (fold_left (fun d e => dict_set (ev_evidence_id e) e d) l d).
Proof.
  intros Hl. revert d. induction Hl as [|e l He Hl IH]; intros d Hd; simpl; [done|]. apply IH.
  rewrite Forall_forall in *. intros kv [-> |Hin]%dict_set_elem; [done|auto].
Qed.

Lemma known_in_store incident l store id :
  rebuild_store incident l = Ok store -> Forall (evidence_ok incident) l ->
  id ∈ (ev_evidence_id <$> l) ->
  exists e, e ∈ ordered store /\ ev_evidence_id e = id /\ ev_incident_id e = incident.
Proof.
  intros (Hinc & Hall & Hr)%add_all_spec Hl Hid. simpl in *.
  assert (Hin : id ∈ dict_keys (st_records store)) by (rewrite Hr; apply fold_dict_set_has; by right).
  apply dict_mem_true in Hin. unfold dict_mem in Hin.
  destruct (dict_get id (st_records store)) as [e|] eqn:Hg; [|done]. clear Hin.
  assert (Hown : Forall (fun kv => kv.1 = ev_evidence_id kv.2 /\ ev_incident_id kv.2 = incident)
                   (st_records store)).
  { rewrite Hr. apply fold_dict_set_all; [|constructor].
    eapply Forall_impl; [exact Hall|]. intros e' He'. simpl. by split. }
  exists e. apply dict_get_elem in Hg as Hel. rewrite ordered_Permutation.
  rewrite Forall_forall in Hown. destruct (Hown _ Hel) as [Hid' ?]. split_and!; [|done|done].
  by apply (list_elem_of_fmap_2' snd _ (id, e)).
Qed.

(** * Invariants of a run *)

Section run.
Context `{Pydantic} `{Clocks} `{FreshIds} `{ToolCallingModel} `{LangGraphLaws} `{!ClockLaws}.
Context (iv : Investigation) (evidence : list Evidence).
Notation b := (iv_budgets iv).
Context (Hreg : registry_ok (iv_registry iv)) (Hpassages : passages_ok (iv_registry iv)).
Context (Hbudgets : budgets_ok b).
Context (Hevidence : Forall (evidence_ok (sc_incident_id (iv_scope iv))) evidence).

Notation Inv := (state_ok iv).

(** The fresh state satisfies the invariant at the graph's entry. *)
Lemma seed_ok id name w0 s w :
  seed iv id name evidence w0 = (s, w) ->
  Inv w0 w s /\ pos_ok iv (g_entry (build_graph iv)) s
  /\ gs_receipts s = [] /\ gs_model_calls_used s = 0 /\ gs_repairs_used s = 0
  /\ gs_model_turn s = 0 /\ w_backend_calls w = w_backend_calls w0
  /\ w_model_calls w = w_model_calls w0 /\ gs_incident_id s = sc_incident_id (iv_scope iv).
Proof.
  destruct Hbudgets as (Hcb & ? & ?).
  assert (0 <= repairs b) by (unfold check_budgets in Hcb; invert_checks; lia).
  unfold seed, new_opaque_id, read_clock, event, read_event_clock.
  assert (Hgo : forall w1 id1,
    w_backend_calls w1 = w_backend_calls w0 -> w_model_calls w1 = w_model_calls w0 ->
    forall e et, re_sequence e = 1 ->
    let w2 := w1 <| w_ids := S (w_ids w1) |> <| w_ticks := S (w_ticks w1) |>
                 <| w_event_ticks := et |> in
    let s1 := initial_state iv id1 (uuid_hex (w_ids w1)) name (clock (w_ticks w1)) evidence [e] in
    Inv w0 w2 s1 /\ pos_ok iv (g_entry (build_graph iv)) s1).
  { intros w1 id1 Hbk Hmc e et He w2 s1. split.
    - assert (numbered [e]) by (by apply (numbered_snoc [])).
      split; simpl; rewrite ?Hbk, ?Hmc; try done; try lia; try by constructor.
      + exists []. by rewrite app_nil_r.
      + exists (w_ticks w1). split; [lia|done].
    - split; [done|]. simpl. destruct (iv_no_tool_baseline iv); simpl; split_and!; try done.
      + unfold model_calls_left. simpl. lia.
      + by right. }
  destruct id as [id|]; intros [= <- <-].
  - split; [eapply (Hgo w0 id eq_refl eq_refl); reflexivity|].
    split; [eapply (Hgo w0 id eq_refl eq_refl _ O); reflexivity|]. by split_and!.
  - set (w1 := w0 <| w_ids := S (w_ids w0) |>).
    split; [eapply (Hgo w1 (uuid_hex (w_ids w0)) eq_refl eq_refl); reflexivity|].
    split; [eapply (Hgo w1 (uuid_hex (w_ids w0)) eq_refl eq_refl _ O); reflexivity|].
    by split_and!.
Qed.

Lemma reachable_ok w0 n rs s w :
  reachable iv evidence w0 n rs s w ->
  Inv w0 w s /\ pos_ok iv n s /\ Forall note_fits rs.
Proof.
  induction 1 as [id name s w Hseed|n rs s w n' s' w' Hr (Hs & Hp & Hf) Hstep
                 |n rs s w p w' v Hr (Hs & Hp & Hf) Hstep Hv].
  - apply seed_ok in Hseed as (? & ? & _). split_and!; [done|done|constructor].
  - pose proof (superstep_progress iv w0 Hreg Hpassages (proj1 Hbudgets) n rs s w _ w'
                  Hs Hp Hf Hstep) as (? & ? & ?).
    split_and!; [done|done|constructor].
  - pose proof (superstep_progress iv w0 Hreg Hpassages (proj1 Hbudgets) n rs s w _ w'
                  Hs Hp Hf Hstep) as (-> & -> & ?).
    split_and!; [done|done|]. apply Forall_app. split; [done|by apply Forall_singleton].
Qed.

(** The supersteps an investigation can need, and that the limit leaves room for them. *)
Definition superstep_bound : Z := 3 * Z.max 1 (model_calls b - 1) + 3.

Definition limit_covers : Prop := superstep_bound <= Z.of_nat GRAPH_RECURSION_LIMIT.

Lemma steps_left_start w0 id name s w :
  seed iv id name evidence w0 = (s, w) ->
  steps_left iv (g_entry (build_graph iv)) s <= superstep_bound.
Proof.
  unfold superstep_bound. intros (_ & _ & _ & Hu & Hr & _)%seed_ok. simpl.
  destruct (iv_no_tool_baseline iv); simpl; unfold model_calls_left; rewrite ?Hu, ?Hr; lia.
Qed.

(** How the engine leaves a fresh thread, under any limit that leaves room. *)
Lemma start_spec w0 id name s w limit :
  seed iv id name evidence w0 = (s, w) -> superstep_bound <= Z.of_nat limit ->
  match drive (build_graph iv) limit (start_checkpoint iv s) w with
  | (Returned s' None, cp', w') =>
      cp' = {| cp_state := s'; cp_next := None; cp_resumes := []; cp_interrupt := None |}
      /\ Inv w0 w' s' /\ finished iv s'
  | (Returned s' (Some p), cp', w') =>
      cp_state cp' = s' /\ cp_next cp' = Some N_ESCALATION_INTERRUPT
      /\ cp_interrupt cp' = Some p
      /\ Inv w0 w' s' /\ pos_ok iv N_ESCALATION_INTERRUPT s' /\ payload_ok iv s' p
  | (Raised e, cp', w') => e = GraphBubbleUp /\ signalled iv /\ exists w1, Inv w0 w1 (cp_state cp')
  end.
Proof.
  intros Hseed Hlim. pose proof (steps_left_start _ _ _ _ _ Hseed).
  destruct (seed_ok _ _ _ _ _ Hseed) as (Hs & Hp & _).
  apply drive_spec; try done; [apply Hbudgets|lia].
Qed.

(** How a run ends, with everything that holds then. *)
Lemma run_spec id name w0 r recorded cp w' :
  limit_covers ->
  run_graph_investigation iv id name evidence w0 = (r, recorded, cp, w') ->
  numbered recorded
  /\ match r with
     | Ok (Finished _) =>
         exists s, cp = {| cp_state := s; cp_next := None; cp_resumes := []; cp_interrupt := None |}
           /\ Inv w0 w' s /\ finished iv s /\ r = result_of s /\ recorded = gs_events s
     | Ok (Escalated _) =>
         exists p, cp_next cp = Some N_ESCALATION_INTERRUPT /\ cp_interrupt cp = Some p
           /\ Inv w0 w' (cp_state cp) /\ pos_ok iv N_ESCALATION_INTERRUPT (cp_state cp)
           /\ payload_ok iv (cp_state cp) p
           /\ r = escalated_of (cp_state cp) p (latest_checkpoint_id cp)
           /\ recorded = gs_events (cp_state cp)
     | Err e => e = GraphBubbleUp /\ signalled iv
     end.
Proof.
  intros Hlim. unfold run_graph_investigation.
  destruct (seed iv id name evidence w0) as [s0 w1] eqn:Hseed.
  unfold invoke_and_settle. rewrite invoke_drive by done.
  pose proof (start_spec _ _ _ _ _ GRAPH_RECURSION_LIMIT Hseed Hlim) as Hd.
  destruct (drive _ _ _ w1) as [[[s' [p|]|e] cp'] w2].
  - destruct Hd as (Hst & Hnext & Hint & Hs' & Hpos' & Hpay). subst s'. simpl.
    destruct (rebuild_store_ok iv w0 w2 _ Hs') as [store Hstore].
    assert (Hesc : exists x, escalated_of (cp_state cp') p (latest_checkpoint_id cp')
                             = Ok (Escalated x)).
    { unfold escalated_of. rewrite Hstore, (rebuild_receipts_ok iv w0 w2 _ Hs').
      cbn [mbind result_bind]. destruct Hpay as [Hpay _]. apply Z.leb_le in Hpay.
      rewrite Hpay. cbn [mbind result_bind require]. by eexists. }
    destruct Hesc as [x Hx]. rewrite Hx. intros [= <- <- <- <-].
    split; [by destruct Hs'|]. exists p. by rewrite Hx.
  - destruct Hd as (-> & Hs' & Hfin). simpl.
    assert (Hres : exists x, result_of s' = Ok (Finished x)).
    { unfold result_of. destruct Hfin as (report & store & at_ & -> & Hst & _ & Hval).
      rewrite Hval, Hst, (rebuild_receipts_ok iv w0 w2 s' Hs'). cbn [mbind result_bind].
      by eexists. }
    destruct Hres as [x Hx]. rewrite Hx. intros [= <- <- <- <-].
    split; [by destruct Hs'|]. exists s'. by rewrite Hx.
  - destruct Hd as (-> & Hsig & w3 & Hs'). simpl. intros [= <- <- <- <-].
    split; [by destruct Hs'|done].
Qed.

(** Where a run that returned stands: its thread's state, and the invariant. *)
Lemma run_state id name w0 o recorded cp w' :
  limit_covers ->
  run_graph_investigation iv id name evidence w0 = (Ok o, recorded, cp, w') ->
  Inv w0 w' (cp_state cp).
Proof.
  intros Hlim Hrun. apply run_spec in Hrun as [_ Hrun]; [|done].
  destruct o as [x|x]; [destruct Hrun as (s & -> & ? & _)|destruct Hrun as (p & _ & _ & ? & _)]; done.
Qed.

Lemma run_finished_at id name w0 x recorded cp w' :
  limit_covers ->
  run_graph_investigation iv id name evidence w0 = (Ok (Finished x), recorded, cp, w') ->
  let s := cp_state cp in
  exists store at_, Inv w0 w' s /\ gs_report s = Some (res_report x)
    /\ rebuild_store (gs_incident_id s) (gs_evidence s) = Ok store
    /\ res_evidence x = ordered store /\ res_receipts x = gs_receipts s
    /\ report_of s b None at_ (gs_receipts s) store (gs_runbook_passages s) = Ok (res_report x).
Proof.
  intros Hlim Hrun. apply run_spec in Hrun as [_ (s & -> & Hs & Hfin & Hr & _)]; [|done].
  destruct Hfin as (report & store & at_ & Hrep & Hst & Hof & Hval).
  exists store, at_. unfold result_of in Hr. cbn [cp_state].
  rewrite Hrep, Hval, Hst, (rebuild_receipts_ok iv w0 w' s Hs) in Hr.
  cbn [mbind result_bind] in Hr. injection Hr as ->. simpl. by split_and!.
Qed.

Lemma run_finished id name w0 x recorded cp w' :
  limit_covers ->
  run_graph_investigation iv id name evidence w0 = (Ok (Finished x), recorded, cp, w') ->
  exists s store at_, Inv w0 w' s /\ gs_report s = Some (res_report x)
    /\ rebuild_store (gs_incident_id s) (gs_evidence s) = Ok store
    /\ res_evidence x = ordered store /\ res_receipts x = gs_receipts s
    /\ report_of s b None at_ (gs_receipts s) store (gs_runbook_passages s) = Ok (res_report x).
Proof. intros Hlim Hrun. exists (cp_state cp). by eapply run_finished_at. Qed.

(** * Properties of a run *)

(** C1: an investigation always comes to an end, and never at the recursion
    limit. When the limit leaves room for [superstep_bound] supersteps, any limit
    with that room gives the same invocation; nothing but the engine's own
    control-flow signal is raised out of it, and that only when an answer of the
    model or of a backend was that signal. So starting an investigation returns:
    a finished result, with the graph run to its end, or an escalation, with the
    thread suspended at the owner's interrupt. *)
Theorem run_always_settles id name w0 :
  limit_covers ->
  (let '(s, w) := seed iv id name evidence w0 in
   let start := start_checkpoint iv s in
   (forall limit, superstep_bound <= Z.of_nat limit ->
      invoke (build_graph iv) limit start w
      = invoke (build_graph iv) GRAPH_RECURSION_LIMIT start w)
   /\ forall e, (invoke (build_graph iv) GRAPH_RECURSION_LIMIT start w).1.1 = Raised e ->
        e = GraphBubbleUp /\ signalled iv)
  /\ let '(r, _, cp, _) := run_graph_investigation iv id name evidence w0 in
     (exists x, r = Ok (Finished x)) /\ cp_next cp = None
     \/ (exists x, r = Ok (Escalated x)) /\ cp_next cp = Some N_ESCALATION_INTERRUPT
     \/ r = Err GraphBubbleUp /\ signalled iv.
Proof.
  intros Hlim. split.
  - destruct (seed iv id name evidence w0) as [s w] eqn:Hseed. cbv zeta.
    pose proof (fun limit => start_spec w0 id name s w limit Hseed) as Hd.
    rewrite (invoke_drive _ GRAPH_RECURSION_LIMIT) by done. split.
    + intros limit Hroom. rewrite invoke_drive by done.
      destruct (Nat.le_ge_cases limit GRAPH_RECURSION_LIMIT);
        [symmetry|]; (apply drive_more; [done|]); [specialize (Hd limit Hroom)|specialize (Hd _ Hlim)];
        (destruct (drive _ _ _ w) as [[[s' i|e] cp'] w']; [done|]); destruct Hd as [-> _]; done.
    + intros e He. specialize (Hd _ Hlim). destruct (drive _ _ _ w) as [[inv cp'] w']. simpl in He. subst inv.
      destruct Hd as (? & ? & _). done.
  - destruct (run_graph_investigation iv id name evidence w0) as [[[r recorded] cp] w'] eqn:Hrun.
    apply run_spec in Hrun as [_ Hrun]; [|done]. destruct r as [[x|x]|e].
    + destruct Hrun as (s & -> & _). left. split; [by eexists|done].
    + destruct Hrun as (p & Hn & _). right; left. split; [by eexists|done].
    + destruct Hrun as [-> ?]. by right; right.
Qed.

Lemma cited_in_result id name w0 x recorded cp w' a cited :
  limit_covers ->
  run_graph_investigation iv id name evidence w0 = (Ok (Finished x), recorded, cp, w') ->
  ir_assessment (res_report x) = Some a -> cited ∈ cited_ids a ->
  exists e, e ∈ res_evidence x /\ ev_evidence_id e = cited
    /\ ev_incident_id e = sc_incident_id (iv_scope iv).
Proof.
  intros Hlim Hrun Ha Hc.
  destruct (run_finished _ _ _ _ _ _ _ Hlim Hrun) as (s & store & at_ & Hs & _ & Hst & -> & _ & Hof).
  apply report_of_inv in Hof as (Hra & _). rewrite Ha in Hra.
  unfold reported_assessment, validate_optional in Hra.
  destruct (gs_assessment s) as [a'|] eqn:Has; [|done].
  destruct (so_assessment _ _ _ _ Hs a' Has) as [Hchk Hknown].
  rewrite Hchk in Hra. simpl in Hra. injection Hra as ->.
  rewrite <- (so_incident _ _ _ _ Hs).
  apply (known_in_store _ (gs_evidence s)); [done|by destruct Hs|by apply Hknown].
Qed.

(** C5: no citation is forged. Every evidence id the reported assessment cites
    is the id of a record the result carries, and that record belongs to this
    incident. *)
Theorem run_citations_resolve id name w0 x recorded cp w' a cited :
  limit_covers ->
  run_graph_investigation iv id name evidence w0 = (Ok (Finished x), recorded, cp, w') ->
  ir_assessment (res_report x) = Some a -> cited ∈ cited_ids a ->
  exists e, e ∈ res_evidence x /\ ev_evidence_id e = cited
    /\ ev_incident_id e = sc_incident_id (iv_scope iv).
Proof. apply cited_in_result. Qed.

(** What the backends were asked for, pool by pool. *)
Definition within_pools (b : Budgets) (calls : list ToolArguments) : Prop :=
  count_if (fun a => negb (bool_decide (arguments_tool a = SEARCH_RUNBOOKS))) calls <= executed_tools b
  /\ count_if (fun a => bool_decide (arguments_tool a = SEARCH_RUNBOOKS)) calls <= runbook_searches b.

Lemma pools_held w0 w s :
  Inv w0 w s -> exists calls, w_backend_calls w = w_backend_calls w0 ++ calls
    /\ Forall (arguments_permitted (iv_scope iv) b) calls /\ within_pools b calls.
Proof.
  intros []. destruct so_backend as (calls & ? & ? & Hlen). exists calls.
  pose proof (Hlen false) as Hc. pose proof (Hlen true) as Hr. rewrite (count_if_ext _ _ calls (fun a _ => in_pool_checks a)) in Hc.
  rewrite (count_if_ext _ _ calls (fun a _ => in_pool_searches a)) in Hr. split_and!; [done..|split; lia].
Qed.

(** C3: the budgets hold, each pool on its own. Over a whole run the model is
    called at most [model_calls] times, plus at most [repairs] free repairs; the
    report states exactly the calls that were made; the diagnostic checks that
    reach a backend are at most [executed_tools] and the runbook searches at most
    [runbook_searches], each made with a request inside the incident's scope. *)
Theorem run_within_budgets id name w0 o recorded cp w' :
  limit_covers ->
  run_graph_investigation iv id name evidence w0 = (Ok o, recorded, cp, w') ->
  Z.of_nat (w_model_calls w') - Z.of_nat (w_model_calls w0)
    <= Z.max 0 (model_calls b) + repairs b
  /\ (exists calls, w_backend_calls w' = w_backend_calls w0 ++ calls
       /\ Forall (arguments_permitted (iv_scope iv) b) calls
       /\ within_pools b calls)
  /\ match o with
     | Finished x =>
         ir_model_calls_used (res_report x)
           = Z.of_nat (w_model_calls w') - Z.of_nat (w_model_calls w0)
         /\ 0 <= ir_repairs_used (res_report x) <= repairs b
         /\ ir_model_calls_used (res_report x) - ir_repairs_used (res_report x)
            <= Z.max 0 (model_calls b)
         /\ ir_tools_executed (res_report x) <= executed_tools b + runbook_searches b
     | Escalated _ => True
     end.
Proof.
  intros Hlim Hrun. pose proof (run_state _ _ _ _ _ _ _ Hlim Hrun) as Hs.
  pose proof Hs as []. split_and!.
  - lia.
  - by eapply pools_held.
  - destruct o as [x|x]; [|done].
    destruct (run_finished _ _ _ _ _ _ _ Hlim Hrun)
      as (s & store & at_ & Hs' & _ & _ & _ & _ & Hof).
    apply report_of_inv in Hof as (_ & _ & _ & _ & _ & -> & -> & _ & -> & _).
    pose proof (tools_executed_le (gs_receipts s)). destruct Hs'. lia.
Qed.

(** C6: a finished report is well formed: a diagnosis names a determined cause
    and cites support, an abstention names none, and a failed-safe report
    carries its reason, no assessment and no owner decision. *)
Theorem run_report_sound id name w0 x recorded cp w' :
  limit_covers ->
  run_graph_investigation iv id name evidence w0 = (Ok (Finished x), recorded, cp, w') ->
  let rp := res_report x in
  revalidate_report rp = Ok rp /\ ir_incident_id rp = sc_incident_id (iv_scope iv)
  /\ ir_evidence_ids rp = ev_evidence_id <$> res_evidence x
  /\ ir_receipt_ids rp = rc_receipt_id <$> res_receipts x
  /\ match ir_disposition rp with
     | DIAGNOSED => ir_root_cause rp <> UNDETERMINED /\ ir_reason_code rp = None
         /\ exists a, ir_assessment rp = Some a /\ fa_root_cause a = ir_root_cause rp
            /\ fa_supporting_evidence_ids a <> []
     | INSUFFICIENT_EVIDENCE => ir_root_cause rp = UNDETERMINED
         /\ is_Some (ir_assessment rp) /\ ir_reason_code rp = None
     | FAILED_SAFE => ir_root_cause rp = UNDETERMINED /\ ir_assessment rp = None
         /\ is_Some (ir_reason_code rp)
     end.
Proof.
  intros Hlim Hrun rp. pose proof Hrun as Hrun2.
  apply run_spec in Hrun2 as [_ (s & -> & Hs & (rp' & st' & at' & Hrep' & Hst' & Hof' & Hval) & Hr & _)];
    [|done].
  destruct (run_finished _ _ _ _ _ _ _ Hlim Hrun)
    as (s2 & store & at_ & Hs2 & Hrep & Hst & Hev & Hrc & Hof).
  unfold result_of in Hr. rewrite Hrep', Hval, Hst', (rebuild_receipts_ok iv w0 w' s Hs) in Hr.
  cbn [mbind result_bind] in Hr. injection Hr as ->. subst rp. simpl in *.
  apply report_of_inv in Hof as (Hra & Hv & _ & Hinc & _ & _ & _ & _ & _ & Hids & Hrids & _ & _).
  split; [done|]. split; [by rewrite Hinc; destruct Hs2|]. rewrite Hids, Hrids, Hev, Hrc.
  split; [done|]. split; [done|].
  unfold verdict in Hv. unfold reported_assessment, validate_optional in Hra.
  destruct (ir_assessment rp') as [a|]; [|by injection Hv as <- <- <-; split_and!; [..|eexists]].
  destruct (gs_assessment s2) as [a'|] eqn:Has; [|done].
  destruct (so_assessment _ _ _ _ Hs2 a' Has) as [Hchk _].
  rewrite Hchk in Hra. simpl in Hra. injection Hra as ->. apply check_assessment_Ok in Hchk.
  destruct (fa_disposition a); injection Hv as <- <- <-.
  - destruct Hchk. split_and!; try done; by exists a.
  - split_and!; try done; by eexists.
Qed.
End run.
