(* ===== verification/Report.v ===== *)
(** The Markdown report beside the finalized run record (report.py), and that what it
    says it spent stays within what it says was allowed. *)
From Stdlib Require Import ZArith Lia.
From stdpp Require Import prelude strings list.
From S2P Require Import Prelude PyText Float64 Tools Domain Policy World Evidence Wrappers ToolCalls Models Prompts GraphState GraphNodes GraphRun GraphInvariant GraphProps.
Local Open Scope Z_scope.

Definition REPLAY_CAVEAT : string :=
  "This run used scripted replay fixtures. It shows that the workflow, policy, "
  +:+ "and tools behave as specified. It is not evidence of diagnostic accuracy.".

Definition code_span (s : string) : string := "`" +:+ s +:+ "`".

Definition assessment_section (report : InvestigationReport) : list string :=
  ["## What it concluded"; ""] ++
  match ir_assessment report with
  | None => ["The workflow stopped before a valid assessment, so application code "
             +:+ "recorded a safe failure instead of an answer."]
  | Some a => [fa_uncertainty a; ""; "Proposed next step: " +:+ fa_next_step a]
  end.

Definition cited_evidence_ids (report : InvestigationReport) : list string :=
  match ir_assessment report with None => [] | Some a => cited_ids a end.

Definition evidence_line (record : Evidence) : string :=
  "- " +:+ code_span (ev_evidence_id record) +:+ " [" +:+ value (ev_kind record) +:+ "] from "
  +:+ ev_source record +:+ ": " +:+ ev_summary record.

Definition evidence_section (report : InvestigationReport) (evidence : list Evidence) : list string :=
  let cited := cited_evidence_ids report in
  ["## Evidence it cited"; ""] ++
  match cited with
  | [] => ["No evidence was cited."]
  | _ => (evidence_line <$> List.filter (fun record => bool_decide (ev_evidence_id record ∈ cited)) evidence)
         ++ [""; str_of_Z (Z.of_nat (length evidence)) +:+ " evidence records were collected in total."]
  end.

Definition guidance_line (cited : list string) (passage_id : string) : string :=
  "- " +:+ code_span passage_id +:+ (if decide (passage_id ∈ cited) then " (cited)" else "").

Definition guidance_section (report : InvestigationReport) : list string :=
  ["## Guidance it consulted"; ""] ++
  match ir_runbook_passage_ids report with
  | [] => ["No runbook guidance was retrieved."]
  | ids => guidance_line (match ir_assessment report with Some a => fa_runbook_citations a | None => [] end) <$> ids
  end.

Definition check_line (receipt : ToolReceipt) : string :=
  let reason := match rc_reason_code receipt with Some r => value r | None => "-" end in
  let outcome := match rc_outcome receipt with
                 | Some o => value o
                 | None => "unsettled (" +:+ py_lower (value (rc_state receipt)) +:+ ")"
                 end in
  "| " +:+ code_span (value (rc_tool receipt)) +:+ " | " +:+ value (rc_policy_result receipt) +:+ " | "
  +:+ outcome +:+ " | " +:+ code_span reason +:+ " | " +:+ str_of_Z (rc_duration_ms receipt) +:+ " ms |".

Definition checks_section (receipts : list ToolReceipt) : list string :=
  ["## Checks it asked for"; ""] ++
  match receipts with
  | [] => ["No checks were proposed."]
  | _ => ["| Tool | Policy | Outcome | Reason | Duration |"; "|---|---|---|---|---:|"] ++ (check_line <$> receipts)
  end.

Definition runbook_searches_executed (receipts : list ToolReceipt) : Z :=
  count_if (fun r => bool_decide (rc_policy_result r = ALLOWED) && bool_decide (rc_state r = SETTLED)
                     && bool_decide (rc_tool r = SEARCH_RUNBOOKS)) receipts.

Definition diagnostic_executed (report : InvestigationReport) (receipts : list ToolReceipt) : Z :=
  ir_tools_executed report - runbook_searches_executed receipts.

Definition usage_line (report : InvestigationReport) : string :=
  match ir_usage report with
  | None => "not reported by this model"
  | Some u => str_of_Z (input_tokens u) +:+ " in, " +:+ str_of_Z (output_tokens u) +:+ " out"
  end.

Definition spent_line (what : string) (used allowed : Z) : string :=
  "- " +:+ what +:+ ": " +:+ str_of_Z used +:+ " of " +:+ str_of_Z allowed.

Definition budget_section (report : InvestigationReport) (receipts : list ToolReceipt) : list string :=
  let b := ir_budgets report in
  ["## What it spent"; "";
   spent_line "Model calls" (ir_model_calls_used report) (model_calls b + repairs b);
   spent_line "Repairs" (ir_repairs_used report) (repairs b);
   spent_line "Diagnostic checks executed" (diagnostic_executed report receipts) (executed_tools b);
   spent_line "Runbook searches" (runbook_searches_executed receipts) (runbook_searches b);
   "- Invalid responses: " +:+ str_of_Z (ir_invalid_responses report);
   "- Token usage: " +:+ usage_line report;
   "- Runbook retrieval mode: " +:+ code_span (value (ir_retrieval_mode report));
   "- Final context digest: " +:+ code_span (str_take 16 (ir_final_context_digest report))].

(** Called only when the report has an escalation. *)
Definition escalation_section (e : EscalationRecord) : list string :=
  ["## Owner escalation"; ""; "- Reason: " +:+ code_span (value (er_reason e));
   "- Decision: **" +:+ value (er_decision e) +:+ "**"] ++
  match er_rejection_note e with None => [] | Some note => ["- Owner's note: " +:+ note] end.

Definition limitations_section (report : InvestigationReport) (model_name : string) : list string :=
  ["## Limitations"; ""]
  ++ (if decide (model_name = "replay") then ["- " +:+ REPLAY_CAVEAT] else [])
  ++ ((fun limitation => "- " +:+ limitation) <$> ir_limitations report)
  ++ (if decide (ir_disposition report = FAILED_SAFE)
      then ["- A safe failure means the workflow protected itself, not that the "
            +:+ "incident was understood."] else [])
  ++ [""; "Versions: schema " +:+ SCHEMA_VERSION +:+ ", prompt " +:+ prompt_version (ir_versions report)
          +:+ ", policy " +:+ policy_version (ir_versions report) +:+ ", tools "
          +:+ tool_registry_version (ir_versions report) +:+ "."].

Definition header_section (report : InvestigationReport) (model_name : string) : list string :=
  ["# Investigation " +:+ ir_investigation_id report; "";
   "- Incident: " +:+ code_span (ir_incident_id report);
   "- Disposition: **" +:+ value (ir_disposition report) +:+ "**";
   "- Root cause: **" +:+ value (ir_root_cause report) +:+ "**";
   "- Model: " +:+ model_name;
   "- Started: " +:+ isoformat (ir_started_at report);
   "- Latency: " +:+ str_of_Z (ir_latency_ms report) +:+ " ms"] ++
  match ir_reason_code report with None => [] | Some r => ["- Stopped because: " +:+ code_span (value r)] end.

Definition report_lines (report : InvestigationReport) (evidence : list Evidence)
    (receipts : list ToolReceipt) (model_name : string) : list string :=
  header_section report model_name
  ++ "" :: assessment_section report
  ++ "" :: evidence_section report evidence
  ++ "" :: guidance_section report
  ++ "" :: checks_section receipts
  ++ "" :: budget_section report receipts
  ++ match ir_escalation report with None => [] | Some e => "" :: escalation_section e end
  ++ "" :: limitations_section report model_name.

Definition render_report (report : InvestigationReport) (evidence : list Evidence)
    (receipts : list ToolReceipt) (model_name : string) : string :=
  py_join nl (report_lines report evidence receipts model_name) +:+ nl.

(** * What a run's report says *)

Lemma executed_pools rs :
  0 <= runbook_searches_executed rs <= count_if (charged true) rs
  /\ 0 <= tools_executed_of rs - runbook_searches_executed rs <= count_if (charged false) rs.
Proof.
  unfold tools_executed_of, runbook_searches_executed. induction rs as [|r rs IH]; simpl; [lia|].
  unfold charged at 1 3. destruct (rc_policy_result r), (rc_tool r), (rc_state r); simpl; lia.
Qed.

Section run.
Context `{Pydantic} `{Clocks} `{FreshIds} `{ToolCallingModel} `{LangGraphLaws} `{!ClockLaws}.
Context (iv : Investigation) (evidence : list Evidence).
Notation b := (iv_budgets iv).
Context (Hreg : registry_ok (iv_registry iv)) (Hpassages : passages_ok (iv_registry iv)).
Context (Hbudgets : budgets_ok b).
Context (Hevidence : Forall (evidence_ok (sc_incident_id (iv_scope iv))) evidence).

(** The report adds up. Whatever the model asked for, the Markdown a finished run
    is published with states no more model calls, repairs, diagnostic checks or runbook
    searches than the budgets it states beside them, and carries one line for every
    piece of evidence the assessment cites. *)
Theorem report_adds_up id name w0 x recorded cp w' model_name :
  limit_covers iv -> 0 <= model_calls b ->
  run_graph_investigation iv id name evidence w0 = (Ok (Finished x), recorded, cp, w') ->
  let rp := res_report x in
  let lines := report_lines rp (res_evidence x) (res_receipts x) model_name in
  (exists used repaired checks searches,
     [spent_line "Model calls" used (model_calls b + repairs b);
      spent_line "Repairs" repaired (repairs b);
      spent_line "Diagnostic checks executed" checks (executed_tools b);
      spent_line "Runbook searches" searches (runbook_searches b)] ⊆ lines
     /\ 0 <= used <= model_calls b + repairs b /\ 0 <= repaired <= repairs b
     /\ 0 <= checks <= executed_tools b /\ 0 <= searches <= runbook_searches b)
  /\ forall cited, cited ∈ cited_evidence_ids rp ->
       exists e, ev_evidence_id e = cited /\ e ∈ res_evidence x /\ evidence_line e ∈ lines.
Proof.
  intros Hlim Hcalls Hrun rp lines.
  destruct (run_finished _ _ Hreg Hpassages Hbudgets Hevidence _ _ _ _ _ _ _ Hlim Hrun)
    as (s & store & at_ & Hs & _ & _ & _ & Hrs & Hof).
  apply report_of_inv in Hof as (_ & _ & _ & _ & Hb & Hused & Hrep & _ & Htools & _).
  destruct (executed_pools (res_receipts x)) as [Hsearches Hchecks]. split.
  - exists (ir_model_calls_used rp), (ir_repairs_used rp), (diagnostic_executed rp (res_receipts x)),
      (runbook_searches_executed (res_receipts x)).
    split; [|unfold diagnostic_executed, rp; rewrite Hused, Hrep, Htools, Hrs; rewrite Hrs in Hsearches, Hchecks; destruct Hs; lia].
    intros line Hline. unfold lines, report_lines.
    assert (Hin : line ∈ budget_section rp (res_receipts x)); [|set_solver].
    unfold budget_section. cbv zeta. unfold rp. rewrite Hb. set_solver.
  - intros cited Hcited. unfold cited_evidence_ids, rp in Hcited.
    destruct (ir_assessment (res_report x)) as [a|] eqn:Ha; [|set_solver].
    destruct (cited_in_result _ _ Hreg Hpassages Hbudgets Hevidence _ _ _ _ _ _ _ a cited Hlim Hrun Ha Hcited)
      as (e & He & Hid & _).
    exists e. split_and!; [done..|]. unfold lines, report_lines.
    assert (Hin : evidence_line e ∈ evidence_section rp (res_evidence x)); [|set_solver].
    unfold evidence_section. cbv zeta. unfold cited_evidence_ids, rp. rewrite Ha.
    rewrite elem_of_app. right. destruct (cited_ids a) as [|c l] eqn:Hc; [set_solver|].
    rewrite elem_of_app. left. apply list_elem_of_fmap. exists e. split; [done|].
    apply list_elem_of_In, filter_In. split; [by apply list_elem_of_In|]. apply bool_decide_eq_true. by rewrite Hid.
Qed.
End run.
