(* ===== verification/GraphResume.v ===== *)
(** Recovering and resuming an investigation (graph.py, [recover] and
    [resume_graph_investigation]): a settled thread is read back as it was, an
    interrupted one is driven on, and an owner's decision is applied exactly once,
    without another call of the model or of a backend. *)
From Stdlib Require Import ZArith Lia.
From stdpp Require Import prelude strings list gmap sorting.
From S2P Require Import Prelude PyText Float64 Tools Domain Policy World Evidence Wrappers ToolCalls Models Prompts GraphState GraphNodes GraphStages GraphRun GraphInvariant GraphProps.
Local Open Scope Z_scope.

(** * The owner's decisions *)

(** What [OwnerDecision] lets through: a rejection carries a note, an acceptance none. *)
Definition decision_ok (decision : OwnerChoice) (note : option string) : Prop :=
  match decision, note with
  | accept, None => True
  | reject, Some n => py_strip n <> "" /\ str_len (py_strip n) <= 300
  | _, _ => False
  end.

Lemma decision_ok_parses decision note :
  decision_ok decision note ->
  parse_resume_decision (decision_json decision note) = Some (decision, py_strip <$> note)
  /\ note_fits (decision_json decision note).
Proof.
  unfold note_fits. destruct decision, note as [n|]; try done. intros [Hne Hlen].
  assert (Hp : parse_resume_decision (decision_json reject (Some n)) = Some (reject, Some (py_strip n)))
    by (simpl; by rewrite decide_False).
  rewrite Hp. by split.
Qed.

Lemma resolve_decision_snoc retry rs r v :
  resolve_decision retry rs = inr r ->
  resolve_decision retry (rs ++ [v])
  = match parse_resume_decision v with Some d => inl d | None => inr true end.
Proof.
  revert retry. induction rs as [|x rs IH]; intros retry; simpl; [done|].
  destruct (parse_resume_decision x); [done|]. apply IH.
Qed.

Lemma validate_optional_same o o' :
  validate_optional check_assessment o = Ok o' -> o' = o.
Proof.
  destruct o as [a|]; simpl; [|by intros [= <-]].
  intros (a' & ->%check_assessment_id & [= <-])%result_bind_Ok. done.
Qed.

(** * Suspending *)

(** One more superstep of a running thread. *)
Lemma drive_step g limit s n rs i w :
  drive g (S limit) {| cp_state := s; cp_next := Some n; cp_resumes := rs; cp_interrupt := i |} w
  = match superstep g n rs s w with
    | (Err e, w') =>
        (Raised e, {| cp_state := s; cp_next := Some n; cp_resumes := rs; cp_interrupt := None |}, w')
    | (Ok (Suspended p), w') =>
        (Returned s (Some p),
         {| cp_state := s; cp_next := Some n; cp_resumes := rs; cp_interrupt := Some p |}, w')
    | (Ok (Moved next s'), w') =>
        drive g limit {| cp_state := s'; cp_next := next; cp_resumes := []; cp_interrupt := None |} w'
    end.
Proof. done. Qed.

Lemma drive_end g limit s rs i w :
  drive g limit {| cp_state := s; cp_next := None; cp_resumes := rs; cp_interrupt := i |} w
  = (Returned s None, {| cp_state := s; cp_next := None; cp_resumes := rs; cp_interrupt := i |}, w).
Proof. by destruct limit. Qed.

Lemma drive_suspends g limit cp w s p cp' w' :
  drive g limit cp w = (Returned s (Some p), cp', w') ->
  exists n w1, cp_next cp' = Some n /\ cp_state cp' = s /\ cp_interrupt cp' = Some p
    /\ superstep g n (cp_resumes cp') s w1 = (Ok (Suspended p), w')
    /\ (Forall note_fits (cp_resumes cp) -> Forall note_fits (cp_resumes cp')).
Proof.
  revert cp w. induction limit as [|limit IH]; intros cp w; cbn [drive];
    destruct (cp_next cp) as [n|] eqn:Hn; [done|done| |done].
  destruct (superstep g n (cp_resumes cp) (cp_state cp) w) as [[[next s'|q]|e] w1] eqn:Hs; [| |done].
  - intros (n' & w2 & ? & ? & ? & ? & Hf)%IH. exists n', w2. split_and!; try done.
    intros _. apply Hf. constructor.
  - intros [= <- <- <- <-]. by exists n, w.
Qed.

Section suspended.
Context `{Pydantic} `{Clocks} `{FreshIds} `{ToolCallingModel}.

(** A thread that waits for its owner. *)
Record waiting (iv : Investigation) (w0 w : World) (cp : Checkpoint) (p : InterruptPayload)
    : Prop := {
  wt_next : cp_next cp = Some N_ESCALATION_INTERRUPT;
  wt_interrupt : cp_interrupt cp = Some p;
  wt_state : state_ok iv w0 w (cp_state cp);
  wt_pos : pos_ok iv N_ESCALATION_INTERRUPT (cp_state cp);
  wt_payload : payload_ok iv (cp_state cp) p;
  wt_resumes : Forall note_fits (cp_resumes cp);
  wt_undecided : exists retry, resolve_decision false (cp_resumes cp) = inr retry;
}.

(** The options given at the start do not matter to the invariant. *)
Lemma state_ok_plain iv w0 w s :
  state_ok iv w0 w s -> state_ok (plain_investigation iv) w0 w s.
Proof. intros []. by split. Qed.

Lemma pos_ok_plain iv n s : pos_ok iv n s -> pos_ok (plain_investigation iv) n s.
Proof.
  intros [Hr Hn]. split; [done|]. destruct n; try exact Hn.
  destruct Hn as (? & ? & _ & Hn). by split_and!.
Qed.

Lemma waiting_plain iv w0 w cp p :
  waiting iv w0 w cp p -> waiting (plain_investigation iv) w0 w cp p.
Proof. intros []. split; try done; [by apply state_ok_plain|by apply pos_ok_plain]. Qed.

(** Only a node that has run out of decisions suspends. *)
Lemma suspended_undecided iv rs s w p w' :
  superstep (build_graph iv) N_ESCALATION_INTERRUPT rs s w = (Ok (Suspended p), w') ->
  resolve_decision false rs = inr (ip_retry p).
Proof.
  unfold superstep. cbn [build_graph g_node g_next]. unfold mbind, ST_bind, escalation_interrupt.
  destruct (escalation_inputs _ _) as [[[reason ids] n]|e]; [|done].
  destruct (resolve_decision false rs) as [[d note]|retry]; [done|]. by intros [= <- <-].
Qed.
End suspended.

Section resume.
Context `{Pydantic} `{Clocks} `{FreshIds} `{ToolCallingModel} `{!ClockLaws}.
Context (iv : Investigation) (w0 : World).
Notation b := (iv_budgets iv).
Context (Hbudgets : budgets_ok b).

Lemma superstep_decides w cp p v :
  waiting iv w0 w cp p ->
  superstep (build_graph iv) N_ESCALATION_INTERRUPT (cp_resumes cp ++ [v]) (cp_state cp) w
  = match parse_resume_decision v with
    | Some (decision, note) =>
        let '(recorded, w') := event P_ESCALATION_INTERRUPT "escalation_decided"
          [("reason", JStr (value (ip_reason p))); ("decision", JStr (value decision))]
          (gs_events (cp_state cp)) w in
        (Ok (Moved (Some N_FINAL_REPORT)
               ((cp_state cp) <| gs_phase := P_ESCALATION_INTERRUPT |>
                  <| gs_escalation_reason := Some (ip_reason p) |>
                  <| gs_escalation_decision := Some decision |>
                  <| gs_rejection_note := note |> <| gs_events := recorded |>)), w')
    | None => (Ok (Suspended {| ip_reason := ip_reason p;
                 ip_evidence_ids := match escalation_inputs b (cp_state cp) with
                                    | Ok (_, ids, _) => ids | Err _ => [] end;
                 ip_remaining_check_count :=
                   executed_tools b - count_if (charged false) (gs_receipts (cp_state cp));
                 ip_retry := true |}), w)
    end.
Proof.
  intros Hw. destruct (wt_payload _ _ _ _ _ Hw) as (_ & a & Ha & Hesc).
  destruct (wt_undecided _ _ _ _ _ Hw) as [retry Hun].
  destruct (escalation_inputs_ok iv w0 w _ a _ (wt_state _ _ _ _ _ Hw) Ha Hesc) as [ids Hin].
  unfold superstep. cbn [build_graph g_node g_next]. unfold mbind, ST_bind, escalation_interrupt.
  rewrite Hin, (resolve_decision_snoc _ _ _ v Hun).
  destruct (parse_resume_decision v) as [[decision note]|]; [|done].
  by destruct (event _ _ _ _ w).
Qed.

(** What resuming with a decision leaves: two supersteps, both without the model. *)
Definition decided (s s' : GraphState) (reason : EscalationReason) (decision : OwnerChoice)
    (note : option string) : Prop :=
  gs_escalation_reason s' = Some reason /\ gs_escalation_decision s' = Some decision
  /\ gs_rejection_note s' = note /\ gs_assessment s' = gs_assessment s
  /\ gs_receipts s' = gs_receipts s /\ gs_evidence s' = gs_evidence s
  /\ gs_incident_id s' = gs_incident_id s.

(** Writing the report changes nothing else that was decided or observed. *)
Lemma report_written w s :
  state_ok iv w0 w s -> exists s' w',
    final_report b s w = (Ok s', w') /\ state_ok iv w0 w' s' /\ finished iv s'
    /\ (forall s0 reason decision note, decided s0 s reason decision note ->
          decided s0 s' reason decision note)
    /\ w_model_calls w' = w_model_calls w /\ w_backend_calls w' = w_backend_calls w.
Proof.
  intros Hs. destruct Hbudgets as (Hcb & _ & _).
  destruct (final_report_spec iv w0 Hcb w s Hs)
    as (report & store & recorded & et & Hrun & Hst & Hrep & Hval & Hn).
  eexists _, _. split; [exact Hrun|]. split.
  { eapply state_ok_ticks; [exact Hs|..]; try done; simpl; lia. }
  split; [by exists report, store, (clock (w_ticks w))|].
  split; [|done]. intros s0 reason decision note Hd. exact Hd.
Qed.

Lemma drive_decided limit w cp p v decision note :
  waiting iv w0 w cp p -> note_fits v ->
  parse_resume_decision v = Some (decision, note) ->
  exists s' w',
    drive (build_graph iv) (S (S limit)) (resume_checkpoint v cp) w
    = (Returned s' None,
       {| cp_state := s'; cp_next := None; cp_resumes := []; cp_interrupt := None |}, w')
    /\ state_ok iv w0 w' s' /\ finished iv s'
    /\ decided (cp_state cp) s' (ip_reason p) decision note
    /\ w_model_calls w' = w_model_calls w /\ w_backend_calls w' = w_backend_calls w.
Proof.
  intros Hw Hfit Hv.
  pose proof (superstep_decides w cp p v Hw) as Hstep. rewrite Hv in Hstep.
  unfold event, read_event_clock in Hstep.
  match type of Hstep with _ = (Ok (Moved _ ?s), ?w) => set (s1 := s) in *; set (w1 := w) in * end.
  assert (Hs1 : state_ok iv w0 w1 s1).
  { apply (state_ok_decided iv w0 w); try done; [apply Hw| |].
    - by eapply parse_resume_decision_pairs.
    - apply numbered_snoc; [|done]. by destruct (wt_state _ _ _ _ _ Hw). }
  assert (Hdec : decided (cp_state cp) s1 (ip_reason p) decision note) by done.
  assert (Hw1 : w_model_calls w1 = w_model_calls w /\ w_backend_calls w1 = w_backend_calls w) by done.
  clearbody s1 w1.
  destruct (report_written w1 s1 Hs1) as (s' & w' & Hrun & Hs' & Hfin & Hkeep & Hw').
  exists s', w'. unfold resume_checkpoint. rewrite (wt_next _ _ _ _ _ Hw).
  rewrite drive_step, Hstep, drive_step, superstep_report, Hrun, drive_end.
  split; [done|]. split; [done|]. split; [done|]. split; [by apply Hkeep|].
  destruct Hw1 as [<- <-]. done.
Qed.

Lemma drive_refused limit w cp p v :
  waiting iv w0 w cp p -> parse_resume_decision v = None ->
  exists q,
    drive (build_graph iv) (S limit) (resume_checkpoint v cp) w
    = (Returned (cp_state cp) (Some q),
       {| cp_state := cp_state cp; cp_next := Some N_ESCALATION_INTERRUPT;
          cp_resumes := cp_resumes cp ++ [v]; cp_interrupt := Some q |}, w)
    /\ ip_reason q = ip_reason p /\ ip_retry q = true
    /\ waiting iv w0 w {| cp_state := cp_state cp; cp_next := Some N_ESCALATION_INTERRUPT;
                          cp_resumes := cp_resumes cp ++ [v]; cp_interrupt := Some q |} q.
Proof.
  intros Hw Hv.
  pose proof (superstep_decides w cp p v Hw) as Hstep. rewrite Hv in Hstep.
  unfold resume_checkpoint. rewrite (wt_next _ _ _ _ _ Hw).
  rewrite drive_step, Hstep. eexists. split; [reflexivity|]. split; [done|]. split; [done|].
  destruct Hw as [? ? Hs ? (Hr & a & Ha & Hesc) Hf [retry Hu]]. split; try done; simpl.
  - split; simpl; [|by exists a]. pose proof (so_tools _ _ _ _ Hs). lia.
  - apply Forall_app. split; [done|]. apply Forall_singleton. unfold note_fits. by rewrite Hv.
  - exists true. by rewrite (resolve_decision_snoc _ _ _ v Hu), Hv.
Qed.
End resume.

(** * Settling *)

Lemma contain_crash_world `{Clocks} e s b w s' w' :
  contain_crash e s b w = (Ok s', w') ->
  w_model_calls w' = w_model_calls w /\ w_backend_calls w' = w_backend_calls w.
Proof.
  unfold contain_crash, event, read_event_clock, build_report, read_clock.
  destruct (_ ← rebuild_receipts _; _) as [[[]]|]; [|done].
  destruct (report_of _ _ _ _ _ _ _); [|done]. by intros [= _ <-].
Qed.

Section settled.
Context `{Pydantic} `{Clocks} `{FreshIds} `{ToolCallingModel} `{!ClockLaws}.
Context (iv : Investigation) (w0 : World).
Notation b := (iv_budgets iv).
Context (Hbudgets : budgets_ok b).

(** A finished state reads back as its result. *)
Lemma result_of_finished w s :
  state_ok iv w0 w s -> finished iv s ->
  exists x at_ store, result_of s = Ok (Finished x) /\ gs_report s = Some (res_report x)
    /\ res_receipts x = gs_receipts s
    /\ report_of s b None at_ (gs_receipts s) store (gs_runbook_passages s)
       = Ok (res_report x).
Proof.
  intros Hs (report & store & at_ & Hrep & Hst & Hof & Hval). unfold result_of.
  rewrite Hrep, Hval, Hst, (rebuild_receipts_ok iv w0 w s Hs). cbn [mbind result_bind].
  by eexists _, at_, store.
Qed.

(** A waiting state reads back as its escalation. *)
Lemma escalated_of_waiting w cp p id :
  waiting iv w0 w cp p -> exists x, escalated_of (cp_state cp) p id = Ok (Escalated x)
    /\ es_reason x = ip_reason p.
Proof.
  intros Hw. destruct (rebuild_store_ok iv w0 w _ (wt_state _ _ _ _ _ Hw)) as [store Hst].
  unfold escalated_of. rewrite Hst, (rebuild_receipts_ok iv w0 w _ (wt_state _ _ _ _ _ Hw)).
  cbn [mbind result_bind]. destruct (wt_payload _ _ _ _ _ Hw) as [Hn%Z.leb_le _].
  rewrite Hn. cbn [mbind result_bind require]. by eexists.
Qed.

(** A crash is contained whenever the committed state is valid. *)
Lemma contain_crash_ok w s e :
  state_ok iv w0 w s ->
  exists s' w' store, contain_crash e s b w = (Ok s', w')
    /\ state_ok iv w0 w' s'
    /\ rebuild_store (gs_incident_id s') (gs_evidence s') = Ok store
    /\ gs_receipts s' = gs_receipts s
    /\ (exists ev, gs_events s' = gs_events s ++ [ev] /\ re_name ev = "internal_error"
         /\ re_fields ev = [("error", JStr (exn_name e))])
    /\ exists report, gs_report s' = Some report /\ revalidate_report report = Ok report
       /\ report_of (s' <| gs_report := gs_report s |>) b (Some INTERNAL_ERROR)
            (clock (w_ticks w)) (gs_receipts s) store (gs_runbook_passages s) = Ok report.
Proof.
  intros Hs. unfold contain_crash, event, read_event_clock.
  set (w1 := w <| w_event_ticks := _ |>). set (s1 := s <| gs_events := _ |>).
  assert (Hs1 : state_ok iv w0 w1 s1).
  { eapply state_ok_ticks; [exact Hs|..]; try done. by apply numbered_snoc; destruct Hs. }
  destruct Hbudgets as (Hcb & _ & _).
  destruct (build_report_ok iv w0 Hcb w1 s1 (Some INTERNAL_ERROR) Hs1)
    as (report & store & Hb & Hst & Hrep & Hval).
  rewrite Hb. eexists _, _, store. split; [reflexivity|]. split.
  { eapply state_ok_ticks; [exact Hs1|..]; try done; simpl; [lia|by destruct Hs1]. }
  split; [exact Hst|]. split; [done|]. split; [by eexists|].
  exists report. split_and!; [done..|]. rewrite <- Hrep. by destruct s.
Qed.
End settled.

(** * Theorems *)

Section theorems.
Context `{Pydantic} `{Clocks} `{FreshIds} `{ToolCallingModel} `{LangGraphLaws} `{!ClockLaws}.
Context (iv : Investigation) (evidence : list Evidence).
Notation b := (iv_budgets iv).
Context (Hreg : registry_ok (iv_registry iv)) (Hpassages : passages_ok (iv_registry iv)).
Context (Hbudgets : budgets_ok b).
Context (Hevidence : Forall (evidence_ok (sc_incident_id (iv_scope iv))) evidence).

(** Threads that wait for their owner: a run stopped there, and every answer
    given since was malformed. *)
Inductive suspended_thread (w0 : World) : Checkpoint -> World -> Prop :=
  | st_run id name x recorded cp w :
      run_graph_investigation iv id name evidence w0 = (Ok (Escalated x), recorded, cp, w) ->
      suspended_thread w0 cp w
  | st_refused cp w decision note r recorded cp' w' :
      suspended_thread w0 cp w ->
      parse_resume_decision (decision_json decision note) = None ->
      resume_graph_investigation iv (Some cp) decision note w = (r, recorded, Some cp', w') ->
      suspended_thread w0 cp' w'.

Lemma result_of_is_finished s o : result_of s = Ok o -> exists x, o = Finished x.
Proof.
  unfold result_of. intros (? & _ & Hr)%result_bind_Ok.
  apply result_bind_Ok in Hr as (? & _ & Hr). apply result_bind_Ok in Hr as (? & _ & Hr).
  injection Hr as <-. by eexists.
Qed.

(** Only a suspended drive settles as an escalation. *)
Lemma invoke_escalated iv' cp recorded fallback w x recorded' cp' w' :
  startable cp ->
  invoke_and_settle iv' cp recorded fallback w = (Ok (Escalated x), recorded', cp', w') ->
  exists p, drive (build_graph iv') GRAPH_RECURSION_LIMIT cp w
            = (Returned (cp_state cp') (Some p), cp', w').
Proof.
  intros Hst. unfold invoke_and_settle. rewrite invoke_drive by done.
  assert (Hno : forall s, result_of s <> Ok (Escalated x)).
  { intros s Hs. apply result_of_is_finished in Hs as [y Hy]. done. }
  destruct (drive _ _ _ w) as [[[s [p|]|e] cp1] w1] eqn:Hd; unfold settle_invocation.
  - pose proof Hd as Hd'. apply drive_suspends in Hd' as (n & w2 & _ & Hcp & _).
    intros [= _ _ -> ->]. exists p. by rewrite Hcp.
  - intros [= Hr _ _ _]. by destruct (Hno s).
  - destruct e; try done; destruct (contain_crash _ _ _ w1) as [[s|e'] w2]; intros [= Hr _ _ _];
      by destruct (Hno s).
Qed.

Lemma run_waits id name w0 x recorded cp w :
  limit_covers iv ->
  run_graph_investigation iv id name evidence w0 = (Ok (Escalated x), recorded, cp, w) ->
  exists p, waiting iv w0 w cp p.
Proof.
  intros Hlim Hrun. pose proof Hrun as Hspec.
  apply run_spec in Hspec as [_ (p & Hnext & Hint & Hs & Hpos & Hpay & _)]; [|done..].
  unfold run_graph_investigation in Hrun.
  destruct (seed iv id name evidence w0) as [s0 w1].
  apply invoke_escalated in Hrun as (q & Hd); [|done].
  apply drive_suspends in Hd as (n & w2 & Hn & _ & _ & Hstep & Hf).
  rewrite Hnext in Hn. injection Hn as <-.
  exists p. split; try done; [by apply Hf|]. by eexists; eapply suspended_undecided.
Qed.

Lemma resume_run cp decision note w :
  cp_next cp <> None ->
  resume_graph_investigation iv (Some cp) decision note w
  = let '(r, recorded, cp', w') :=
      let '(inv, cp', w') := drive (build_graph (plain_investigation iv)) GRAPH_RECURSION_LIMIT
        (resume_checkpoint (decision_json decision note) cp) w in
      let '(r, recorded, w') := settle_invocation inv (Some (cp_state cp'))
        (latest_checkpoint_id cp') b [] (cp_state cp) w' in
      (r, recorded, cp', w') in
    (only_finished r, recorded, Some cp', w').
Proof.
  intros Hn. unfold resume_graph_investigation, invoke_and_settle.
  by rewrite invoke_drive by (by intros ?).
Qed.

Lemma refused_run w0 cp w p decision note :
  waiting iv w0 w cp p -> parse_resume_decision (decision_json decision note) = None ->
  exists q cp' recorded, resume_graph_investigation iv (Some cp) decision note w
      = (Err AssertionError, recorded, Some cp', w)
    /\ cp_state cp' = cp_state cp /\ waiting iv w0 w cp' q
    /\ ip_reason q = ip_reason p /\ ip_retry q = true
    /\ recorded = gs_events (cp_state cp).
Proof.
  intros Hw Hv. pose proof (waiting_plain _ _ _ _ _ Hw) as Hplain.
  destruct (drive_refused _ w0 24 w cp p _ Hplain Hv) as (q & Hd & Hr & Hretry & Hq).
  exists q. eexists _, _.
  rewrite resume_run by (by rewrite (wt_next _ _ _ _ _ Hw)).
  change GRAPH_RECURSION_LIMIT with 25%nat. rewrite Hd. clear Hd. unfold settle_invocation.
  destruct (escalated_of_waiting _ w0 w _ q
    (latest_checkpoint_id {| cp_state := cp_state cp; cp_next := Some N_ESCALATION_INTERRUPT;
       cp_resumes := cp_resumes cp ++ [decision_json decision note];
       cp_interrupt := Some q |}) Hq) as (x & Hx & _).
  cbn [cp_state] in Hx. rewrite Hx. split; [reflexivity|]. split; [done|]. split; [|done].
  destruct Hq as [? ? Hs Hpos ? ? ?]. destruct Hw. split; done.
Qed.

Lemma suspended_waiting w0 cp w :
  limit_covers iv -> suspended_thread w0 cp w -> exists p, waiting iv w0 w cp p.
Proof.
  intros Hlim. induction 1 as [id name x recorded cp w Hrun
                              |cp w decision note r recorded cp' w' _ [p Hw] Hv Hres].
  - by eapply run_waits.
  - destruct (refused_run w0 cp w p decision note Hw Hv) as (q & cp1 & rec1 & Hr & _ & Hq & _).
    rewrite Hr in Hres. injection Hres as <- <- <- <-. by exists q.
Qed.

(** Resuming a waiting thread with a well-formed decision. *)
Lemma resume_decides w0 cp w p decision note :
  waiting iv w0 w cp p -> decision_ok decision note ->
  exists x recorded cp' w',
    resume_graph_investigation iv (Some cp) decision note w
      = (Ok x, recorded, Some cp', w')
    /\ ir_escalation (res_report x)
       = Some {| er_reason := ip_reason p; er_decision := decision;
                 er_rejection_note := py_strip <$> note |}
    /\ ir_assessment (res_report x) = gs_assessment (cp_state cp)
    /\ res_receipts x = gs_receipts (cp_state cp)
    /\ revalidate_report (res_report x) = Ok (res_report x)
    /\ w_model_calls w' = w_model_calls w /\ w_backend_calls w' = w_backend_calls w
    /\ recover_graph_investigation iv (Some cp') w'
       = Some (Ok (Finished x), recorded, cp', w').
Proof.
  intros Hw Hok. destruct (decision_ok_parses _ _ Hok) as [Hv Hfit].
  pose proof (waiting_plain _ _ _ _ _ Hw) as Hplain.
  destruct (drive_decided (plain_investigation iv) w0 Hbudgets 23 w cp p _ _ _ Hplain Hfit Hv)
    as (s' & w' & Hd & Hs' & Hfin & Hdec & Hmc & Hbk).
  destruct (result_of_finished (plain_investigation iv) w0 w' s' Hs' Hfin)
    as (x & at_ & store & Hx & Hrep & Hrc & Hof).
  assert (Hval : revalidate_report (res_report x) = Ok (res_report x)).
  { destruct Hfin as (rp & ? & ? & Hrp & _ & _ & Hval). congruence. }
  destruct Hdec as (Her & Hed & Hn & Ha & Hr & _).
  exists x. eexists _, _, w'. rewrite resume_run by (by rewrite (wt_next _ _ _ _ _ Hw)).
  change GRAPH_RECURSION_LIMIT with 25%nat. rewrite Hd. clear Hd.
  unfold settle_invocation. rewrite Hx. split; [reflexivity|].
  apply report_of_inv in Hof as (Hra & _ & Hesc & _).
  split; [|split; [|split; [congruence|split; [done|split_and!; try done]]]].
  - unfold escalation_record in Hesc. rewrite Her, Hed, Hn in Hesc.
    apply result_bind_Ok in Hesc as (e & He%check_escalation_id & [= <-]). by subst e.
  - unfold reported_assessment in Hra. rewrite <- Ha. by eapply validate_optional_same, Hra.
  - unfold recover_graph_investigation. cbn [mbind option_bind cp_interrupt cp_state].
    by rewrite Hrep, Hx.
Qed.

(** The owner's decision is applied. On a thread that waits for its owner,
    resuming with a well-formed decision finishes the investigation: the report
    records the reason, the decision and the stripped note; the assessment and
    the receipts stay what the investigation left; neither the model nor a
    backend is called again; and recovering the thread afterwards gives the same
    result. *)
Theorem resume_applies_decision w0 cp w decision note :
  limit_covers iv -> suspended_thread w0 cp w -> decision_ok decision note ->
  exists p x recorded cp' w',
    cp_interrupt cp = Some p
    /\ resume_graph_investigation iv (Some cp) decision note w
       = (Ok x, recorded, Some cp', w')
    /\ ir_escalation (res_report x)
       = Some {| er_reason := ip_reason p; er_decision := decision;
                 er_rejection_note := py_strip <$> note |}
    /\ ir_assessment (res_report x) = gs_assessment (cp_state cp)
    /\ res_receipts x = gs_receipts (cp_state cp)
    /\ w_model_calls w' = w_model_calls w /\ w_backend_calls w' = w_backend_calls w
    /\ recover_graph_investigation iv (Some cp') w'
       = Some (Ok (Finished x), recorded, cp', w').
Proof.
  intros Hlim Hth Hok. destruct (suspended_waiting w0 cp w Hlim Hth) as [p Hw].
  destruct (resume_decides w0 cp w p decision note Hw Hok)
    as (x & recorded & cp' & w' & ? & ? & ? & ? & _ & ? & ? & ?).
  exists p, x, recorded, cp', w'. split; [by destruct Hw|]. by split_and!.
Qed.

(** A malformed answer changes nothing. Resuming a waiting thread with an
    acceptance that carries a note, or a rejection without one, raises; the
    committed state is untouched, no call is made, and the thread waits again
    for the same reason, its interrupt now asking for a retry. *)
Theorem resume_refuses_malformed w0 cp w decision note :
  limit_covers iv -> suspended_thread w0 cp w ->
  parse_resume_decision (decision_json decision note) = None ->
  exists p q recorded cp',
    resume_graph_investigation iv (Some cp) decision note w
      = (Err AssertionError, recorded, Some cp', w)
    /\ recorded = gs_events (cp_state cp)
    /\ cp_state cp' = cp_state cp /\ cp_next cp' = Some N_ESCALATION_INTERRUPT
    /\ cp_interrupt cp = Some p /\ cp_interrupt cp' = Some q
    /\ ip_reason q = ip_reason p /\ ip_retry q = true
    /\ exists x, recover_graph_investigation iv (Some cp') w
                 = Some (Ok (Escalated x), recorded, cp', w).
Proof.
  intros Hlim Hth Hv. destruct (suspended_waiting w0 cp w Hlim Hth) as [p Hw].
  destruct (refused_run w0 cp w p decision note Hw Hv)
    as (q & cp' & recorded & Hrun & Hs & Hq & Hr & Hretry & ->).
  exists p, q. eexists _, cp'. pose proof Hw as []. pose proof Hq as [].
  split_and!; try done.
  destruct (escalated_of_waiting iv w0 w cp' q (latest_checkpoint_id cp') Hq) as (x & Hx & _).
  exists x. unfold recover_graph_investigation. cbn [mbind option_bind].
  rewrite (wt_interrupt _ _ _ _ _ Hq), Hx. by rewrite Hs.
Qed.

Lemma recovered_after_run id name w0 o recorded cp w' :
  limit_covers iv ->
  run_graph_investigation iv id name evidence w0 = (Ok o, recorded, cp, w') ->
  recover_graph_investigation iv (Some cp) w' = Some (Ok o, recorded, cp, w').
Proof.
  intros Hlim Hrun. apply run_spec in Hrun as [_ Hrun]; [|done..].
  unfold recover_graph_investigation. cbn [mbind option_bind].
  destruct o as [x|x].
  - destruct Hrun as (s & -> & Hs & (report & ? & ? & Hrep & _) & Hr & ->).
    cbn [cp_interrupt cp_state]. by rewrite Hrep, <- Hr.
  - destruct Hrun as (p & _ & Hint & _ & _ & _ & Hr & ->). by rewrite Hint, <- Hr.
Qed.

(** What a run returned is durable. Recovering the thread a run left gives
    back the same outcome and the same events, and touches nothing. *)
Theorem recover_after_run id name w0 o recorded cp w' :
  limit_covers iv ->
  run_graph_investigation iv id name evidence w0 = (Ok o, recorded, cp, w') ->
  recover_graph_investigation iv (Some cp) w' = Some (Ok o, recorded, cp, w').
Proof. intros Hlim Hrun. by eapply recovered_after_run. Qed.

(** How many supersteps a reachable position still has. *)
Lemma reachable_steps w0 n rs s w :
  reachable iv evidence w0 n rs s w ->
  steps_left iv n s <= superstep_bound iv.
Proof.
  induction 1 as [id name s w Hseed|n rs s w n' s' w' Hr IH Hstep|n rs s w p w' v Hr IH Hstep Hv].
  - by eapply steps_left_start.
  - eapply reachable_ok in Hr as (Hs & Hp & Hf); [|done..].
    pose proof (superstep_progress iv w0 Hreg Hpassages (proj1 Hbudgets) n rs s w _ w'
                  Hs Hp Hf Hstep) as (_ & _ & ?). lia.
  - done.
Qed.

Lemma recovered_outcome w0 n rs s w :
  limit_covers iv -> reachable iv evidence w0 n rs s w ->
  exists r recorded cp' w',
    recover_graph_investigation iv (Some {| cp_state := s; cp_next := Some n;
                                            cp_resumes := rs; cp_interrupt := None |}) w
    = Some (r, recorded, cp', w')
    /\ ((exists o, r = Ok o
          /\ Z.of_nat (w_model_calls w') - Z.of_nat (w_model_calls w0)
             <= Z.max 0 (model_calls b) + repairs b
          /\ (exists calls, w_backend_calls w' = w_backend_calls w0 ++ calls
               /\ within_pools b calls))
        \/ r = Err GraphBubbleUp /\ signalled iv).
Proof.
  intros Hlim Hr. pose proof (reachable_steps _ _ _ _ _ Hr) as Hsteps.
  eapply reachable_ok in Hr as (Hs & Hp & Hf); [|done..].
  unfold recover_graph_investigation. cbn [mbind option_bind cp_interrupt cp_state].
  destruct Hp as [Hrep Hpn]. rewrite Hrep. unfold invoke_and_settle. rewrite invoke_drive by done.
  pose proof (drive_spec (plain_investigation iv) w0 Hreg Hpassages (proj1 Hbudgets)
    GRAPH_RECURSION_LIMIT n rs None s w (state_ok_plain _ _ _ _ Hs)
    (pos_ok_plain _ _ _ (conj Hrep Hpn)) Hf) as Hd.
  assert (Hbud : forall w' s', state_ok (plain_investigation iv) w0 w' s' ->
    Z.of_nat (w_model_calls w') - Z.of_nat (w_model_calls w0) <= Z.max 0 (model_calls b) + repairs b
    /\ (exists calls, w_backend_calls w' = w_backend_calls w0 ++ calls
         /\ within_pools b calls)).
  { intros w' s' Hs'. split; [destruct Hs'; simpl in *; lia|].
    destruct (pools_held _ _ _ _ Hs') as (calls & ? & _ & ?). by exists calls. }
  specialize (Hd ltac:(unfold limit_covers in Hlim; change (steps_left (plain_investigation iv) n s) with (steps_left iv n s); lia)).
  destruct (drive _ _ _ w) as [[[s' [p|]|e] cp'] w2].
  - destruct Hd as (<- & Hnext & Hint & Hs' & Hpos' & Hpay).
    destruct (rebuild_store_ok _ w0 w2 _ Hs') as [store Hstore].
    unfold settle_invocation, escalated_of. rewrite Hstore, (rebuild_receipts_ok _ w0 w2 _ Hs').
    destruct Hpay as [Hpay%Z.leb_le _]. cbn [mbind result_bind]. rewrite Hpay.
    eexists _, _, _, _. split; [reflexivity|]. left. eexists. split; [reflexivity|]. by eapply Hbud.
  - destruct Hd as (-> & Hs' & Hfin).
    destruct (result_of_finished _ w0 w2 s' Hs' Hfin) as (x & _ & _ & Hx & _).
    unfold settle_invocation. rewrite Hx.
    eexists _, _, _, _. split; [reflexivity|]. left. eexists. split; [reflexivity|]. by eapply Hbud.
  - destruct Hd as (-> & Hsig & _). eexists _, _, _, _. split; [reflexivity|]. by right.
Qed.

(** C26: a thread cut off between two supersteps can always be taken up. From
    every checkpoint an investigation passes through, recovering settles: it
    finishes or waits for the owner, within the budgets of the whole
    investigation, each pool on its own. The recursion limit, when it leaves room
    for a whole investigation, is not reached; the one exception that can leave is
    the engine's control-flow signal, when an answer of the model or of a backend
    was that signal. *)
Theorem recover_settles w0 n rs s w :
  limit_covers iv -> reachable iv evidence w0 n rs s w ->
  exists r recorded cp' w',
    recover_graph_investigation iv (Some {| cp_state := s; cp_next := Some n;
                                            cp_resumes := rs; cp_interrupt := None |}) w
    = Some (r, recorded, cp', w')
    /\ ((exists o, r = Ok o
          /\ Z.of_nat (w_model_calls w') - Z.of_nat (w_model_calls w0)
             <= Z.max 0 (model_calls b) + repairs b
          /\ (exists calls, w_backend_calls w' = w_backend_calls w0 ++ calls
               /\ within_pools b calls))
        \/ r = Err GraphBubbleUp /\ signalled iv).
Proof. intros Hlim Hr. by eapply recovered_outcome. Qed.

(** C24: a crash is contained. Whatever exception other than its control-flow
    signal the engine raises while an investigation stands at a reachable
    position, the outcome is a finished, failed-safe report that keeps every
    receipt, says INTERNAL_ERROR, and the crash is the last event recorded. *)
Theorem crash_contained w0 n rs s w e id recorded0 fallback :
  reachable iv evidence w0 n rs s w -> e <> GraphBubbleUp ->
  exists x w' ev,
    settle_invocation (Raised e) (Some s) id b recorded0 fallback w
    = (Ok (Finished x), gs_events s ++ [ev], w')
    /\ re_name ev = "internal_error" /\ re_fields ev = [("error", JStr (exn_name e))]
    /\ ir_disposition (res_report x) = FAILED_SAFE
    /\ ir_reason_code (res_report x) = Some INTERNAL_ERROR
    /\ ir_root_cause (res_report x) = UNDETERMINED
    /\ ir_assessment (res_report x) = None
    /\ res_receipts x = gs_receipts s
    /\ w_model_calls w' = w_model_calls w /\ w_backend_calls w' = w_backend_calls w.
Proof.
  intros Hr He. eapply reachable_ok in Hr as (Hs & Hp & _); [|done..].
  destruct (contain_crash_ok iv w0 Hbudgets w s e Hs)
    as (s' & w' & store & Hc & Hs' & Hst & Hrc & (ev & Hev & Hname & Hfields)
        & report & Hrep & Hval & Hof).
  assert (Hw : w_model_calls w' = w_model_calls w /\ w_backend_calls w' = w_backend_calls w).
  { by apply contain_crash_world in Hc. }
  exists {| res_report := report; res_evidence := ordered store; res_receipts := gs_receipts s |}, w', ev.
  assert (Hres : result_of s' = Ok (Finished {| res_report := report;
            res_evidence := ordered store; res_receipts := gs_receipts s |})).
  { unfold result_of. rewrite Hrep, Hval, Hst, (rebuild_receipts_ok iv w0 w' s' Hs'), Hrc. done. }
  split.
  { unfold settle_invocation. change (default fallback (Some s)) with s.
    rewrite Hc, Hres, Hev. by destruct e. }
  apply report_of_inv in Hof as (Hra & Hv & _). simpl.
  unfold reported_assessment in Hra. injection Hra as Hra. rewrite <- Hra in Hv |- *.
  simpl in Hv. injection Hv as <- <- <-. destruct Hw. by split_and!.
Qed.
End theorems.

(** * Threads that attempts leave behind *)

Section left_behind.
Context `{Pydantic} `{Clocks} `{FreshIds} `{ToolCallingModel} `{LangGraphLaws} `{!ClockLaws}.
Context (iv : Investigation) (evidence : list Evidence).
Notation b := (iv_budgets iv).
Context (Hreg : registry_ok (iv_registry iv)) (Hpassages : passages_ok (iv_registry iv)).
Context (Hbudgets : budgets_ok b).
Context (Hevidence : Forall (evidence_ok (sc_incident_id (iv_scope iv))) evidence).
Context (Hplain : plain_investigation iv = iv).

(** The checkpoints any sequence of starting, recovering and resuming an investigation
    commits, each of which may be the last before the process dies.  The flag says that a
    valid decision of the owner was handed to the engine. *)
Inductive left_thread (w0 : World) : bool -> Checkpoint -> World -> Prop :=
  | lt_start id name s w :
      seed iv id name evidence w0 = (s, w) -> left_thread w0 false (start_checkpoint iv s) w
  | lt_step answered s n rs w next s' w' :
      left_thread w0 answered {| cp_state := s; cp_next := Some n; cp_resumes := rs; cp_interrupt := None |} w ->
      superstep (build_graph iv) n rs s w = (Ok (Moved next s'), w') ->
      left_thread w0 answered {| cp_state := s'; cp_next := next; cp_resumes := []; cp_interrupt := None |} w'
  | lt_suspend answered s n rs w p w' :
      left_thread w0 answered {| cp_state := s; cp_next := Some n; cp_resumes := rs; cp_interrupt := None |} w ->
      superstep (build_graph iv) n rs s w = (Ok (Suspended p), w') ->
      left_thread w0 answered {| cp_state := s; cp_next := Some n; cp_resumes := rs; cp_interrupt := Some p |} w'
  | lt_answer cp w p v :
      left_thread w0 false cp w -> cp_interrupt cp = Some p -> note_fits v ->
      left_thread w0 (is_some (parse_resume_decision v)) (resume_checkpoint v cp) w
  | lt_again cp w v :
      left_thread w0 true cp w -> note_fits v -> left_thread w0 true (resume_checkpoint v cp) w.

(** Where a decided thread stands: the decision is there to be read, or was. *)
Definition decided_at (n : Node) (rs : list json) : Prop :=
  n = N_FINAL_REPORT \/ n = N_ESCALATION_INTERRUPT /\ exists d, resolve_decision false rs = inl d.

Definition left_ok (w0 : World) (answered : bool) (cp : Checkpoint) (w : World) : Prop :=
  state_ok iv w0 w (cp_state cp)
  /\ match cp_next cp with
     | None => cp_interrupt cp = None /\ finished iv (cp_state cp)
     | Some n =>
         pos_ok iv n (cp_state cp) /\ Forall note_fits (cp_resumes cp)
         /\ steps_left iv n (cp_state cp) <= superstep_bound iv
         /\ match cp_interrupt cp with
            | Some p => answered = false /\ waiting iv w0 w cp p
            | None => answered = true -> decided_at n (cp_resumes cp)
            end
     end.

Lemma resolve_decision_app retry rs d rs' :
  resolve_decision retry rs = inl d -> resolve_decision retry (rs ++ rs') = inl d.
Proof.
  revert retry. induction rs as [|v rs IH]; intros retry; simpl; [done|].
  destruct (parse_resume_decision v); [done|apply IH].
Qed.

(** Past a decision only the report is left to write. *)
Lemma decided_moves n rs s w next s' w' :
  decided_at n rs -> superstep (build_graph iv) n rs s w = (Ok (Moved next s'), w') ->
  n = N_FINAL_REPORT /\ next = None \/ next = Some N_FINAL_REPORT.
Proof.
  intros [->|[-> _]] (r & w1 & _ & Hr)%ST_bind_Ok; destruct r; try done;
    apply ST_bind_Ok in Hr as (x & w2 & Hx & [= <- _ _]); cbn [g_next build_graph] in Hx; injection Hx as <- _; auto.
Qed.

Lemma left_thread_ok w0 answered cp w : left_thread w0 answered cp w -> left_ok w0 answered cp w.
Proof.
  induction 1 as [id name s w Hseed|answered s n rs w next s' w' _ (Hs & Hp & Hf & Hl & Hd) Hstep
    |answered s n rs w p w' _ (Hs & Hp & Hf & Hl & Hd) Hstep
    |cp w p v _ [Hs Hcp] Hint Hv|cp w v _ [Hs Hcp] Hv]; unfold left_ok; cbn [cp_state cp_next cp_resumes cp_interrupt] in *.
  - pose proof (steps_left_start iv evidence Hbudgets Hevidence _ _ _ _ _ Hseed). by apply seed_ok in Hseed as (? & ? & _).
  - pose proof (superstep_progress iv w0 Hreg Hpassages (proj1 Hbudgets) n rs s w _ w' Hs Hp Hf Hstep) as Hpr.
    destruct next as [n'|]; [|by destruct Hpr as (_ & ? & ?)].
    destruct Hpr as (? & ? & ?). split_and!; try done; [lia|]. intros Ha.
    destruct (decided_moves _ _ _ _ _ _ _ (Hd Ha) Hstep) as [[_ ?]|[= ->]]; [done|by left].
  - pose proof (superstep_progress iv w0 Hreg Hpassages (proj1 Hbudgets) n rs s w _ w' Hs Hp Hf Hstep) as (-> & -> & ?).
    pose proof (suspended_undecided _ _ _ _ _ _ Hstep) as Hun. split_and!; try done.
    + destruct answered; [|done]. destruct (Hd eq_refl) as [?|[_ [d Hdec]]]; congruence.
    + split; try done. by eexists.
  - rewrite Hint in Hcp. destruct (cp_next cp) as [n|] eqn:Hn; [|by destruct Hcp].
    destruct Hcp as (Hp & Hf & Hl & _ & Hw). pose proof (wt_next _ _ _ _ _ Hw) as Hn'. rewrite Hn in Hn'. injection Hn' as ->.
    cbn [resume_checkpoint cp_state cp_next cp_resumes cp_interrupt]. rewrite Hn. split_and!; try done.
    + apply Forall_app. split; [done|by apply Forall_singleton].
    + intros Hsome. destruct (parse_resume_decision v) as [d|] eqn:Hpv; [|done].
      destruct (wt_undecided _ _ _ _ _ Hw) as [retry Hun]. right. split; [done|]. exists d.
      by rewrite (resolve_decision_snoc _ _ _ v Hun), Hpv.
  - cbn [resume_checkpoint cp_state cp_next cp_resumes cp_interrupt].
    destruct (cp_next cp) as [n|]; [|by split; [|destruct Hcp]].
    destruct Hcp as (Hp & Hf & Hl & Hd). split_and!; try done.
    + apply Forall_app. split; [done|by apply Forall_singleton].
    + intros _. destruct (cp_interrupt cp); [by destruct Hd|].
      destruct (Hd eq_refl) as [?|[? [d Hdec]]]; [by left|]. right. split; [done|]. exists d. by apply resolve_decision_app.
Qed.

(** A decided thread is driven to its end. *)
Lemma drive_closes w0 limit s n rs i w :
  state_ok iv w0 w s -> pos_ok iv n s -> Forall note_fits rs -> decided_at n rs ->
  exists s' w', drive (build_graph iv) (S (S limit)) {| cp_state := s; cp_next := Some n; cp_resumes := rs; cp_interrupt := i |} w
      = (Returned s' None, {| cp_state := s'; cp_next := None; cp_resumes := []; cp_interrupt := None |}, w')
    /\ state_ok iv w0 w' s' /\ finished iv s'.
Proof.
  intros Hs Hp Hf Hd.
  assert (Hreport : forall limit s i w, state_ok iv w0 w s -> exists s' w',
      drive (build_graph iv) (S limit) {| cp_state := s; cp_next := Some N_FINAL_REPORT; cp_resumes := i; cp_interrupt := None |} w
      = (Returned s' None, {| cp_state := s'; cp_next := None; cp_resumes := []; cp_interrupt := None |}, w')
    /\ state_ok iv w0 w' s' /\ finished iv s').
  { intros limit1 s1 rs1 w1 Hs1. destruct (report_written iv w0 Hbudgets w1 s1 Hs1) as (s' & w' & Hrun & Hs' & Hfin & _).
    exists s', w'. by rewrite drive_step, superstep_report, Hrun, drive_end. }
  destruct Hd as [->|[-> [[decision note] Hdec]]].
  { destruct (Hreport (S limit) s rs w Hs) as (s' & w' & Hr & ?). exists s', w'. split; [|done].
    rewrite drive_step in Hr |- *. destruct (superstep _ _ _ _ _) as [[[]|] ?]; done. }
  pose proof Hp as (_ & _ & _ & _ & a & reason & Ha & Hesc).
  destruct (escalation_inputs_ok iv w0 w s a reason Hs Ha Hesc) as [ids Hin].
  assert (exists s1 w1, superstep (build_graph iv) N_ESCALATION_INTERRUPT rs s w = (Ok (Moved (Some N_FINAL_REPORT) s1), w1))
    as (s1 & w1 & Hstep).
  { unfold superstep. cbn [build_graph g_node g_next]. unfold mbind, ST_bind, escalation_interrupt. rewrite Hin, Hdec.
    destruct (event _ _ _ _ w). by eexists _, _. }
  pose proof (superstep_progress iv w0 Hreg Hpassages (proj1 Hbudgets) _ rs s w _ w1 Hs Hp Hf Hstep)
    as (Hs1 & _ & _).
  rewrite drive_step, Hstep. apply Hreport. done.
Qed.

(** Recovering a thread without a decision settles it. *)
Lemma recovered_left w0 cp w :
  limit_covers iv -> left_thread w0 false cp w ->
  exists r recorded cp' w', recover_graph_investigation iv (Some cp) w = Some (r, recorded, cp', w')
    /\ ((exists o, r = Ok o) \/ r = Err GraphBubbleUp /\ signalled iv).
Proof.
  intros Hlim Hleft%left_thread_ok. destruct Hleft as [Hs Hcp]. unfold recover_graph_investigation. cbn [mbind option_bind].
  destruct cp as [s next rs i]. cbn [cp_state cp_next cp_resumes cp_interrupt] in *. destruct next as [n|].
  - destruct Hcp as (Hp & Hf & Hl & Hi). destruct i as [p|].
    { destruct Hi as [_ Hw]. destruct (escalated_of_waiting iv w0 w _ p (latest_checkpoint_id
        {| cp_state := s; cp_next := Some n; cp_resumes := rs; cp_interrupt := Some p |}) Hw) as (x & Hx & _).
      cbn [cp_state] in Hx. rewrite Hx. eexists _, _, _, _. split; [done|]. left. by eexists. }
    rewrite (proj1 Hp), Hplain. unfold invoke_and_settle. rewrite invoke_drive by done.
    pose proof (drive_spec iv w0 Hreg Hpassages (proj1 Hbudgets) GRAPH_RECURSION_LIMIT n rs None s w Hs Hp Hf
      ltac:(unfold limit_covers in Hlim; lia)) as Hd.
    destruct (drive _ _ _ w) as [[[s' [p|]|e] cp'] w2]; unfold settle_invocation.
    + destruct Hd as (<- & _ & _ & Hs' & _ & Hpay%proj1%Z.leb_le). destruct (rebuild_store_ok _ w0 w2 _ Hs') as [store Hstore].
      unfold escalated_of. rewrite Hstore, (rebuild_receipts_ok _ w0 w2 _ Hs'). cbn [mbind result_bind]. rewrite Hpay.
      eexists _, _, _, _. split; [reflexivity|]. left. by eexists.
    + destruct Hd as (-> & Hs' & Hfin). destruct (result_of_finished _ w0 w2 s' Hs' Hfin) as (x & _ & _ & Hx & _). rewrite Hx.
      eexists _, _, _, _. split; [reflexivity|]. left. by eexists.
    + destruct Hd as (-> & Hsig & _). eexists _, _, _, _. split; [reflexivity|]. by right.
  - destruct Hcp as [-> Hfin]. destruct (result_of_finished _ w0 w s Hs Hfin) as (x & at_ & store & Hx & Hrep & _).
    rewrite Hrep, Hx. eexists _, _, _, _. split; [done|]. left. by eexists.
Qed.

(** Resuming a thread that waits, or was answered before, finishes it. *)
Lemma resumed_left w0 answered cp w decision note :
  left_thread w0 answered cp w -> answered = true \/ is_Some (cp_interrupt cp) -> decision_ok decision note ->
  exists x recorded cp' w', resume_graph_investigation iv (Some cp) decision note w = (Ok x, recorded, Some cp', w').
Proof.
  intros Hleft Hdue Hok. destruct (decision_ok_parses _ _ Hok) as [Hv Hfit].
  assert (Hans : left_thread w0 true (resume_checkpoint (decision_json decision note) cp) w).
  { destruct answered; [by apply lt_again|]. destruct Hdue as [?|[p Hp]]; [done|].
    pose proof (lt_answer w0 cp w p _ Hleft Hp Hfit) as Ha. by rewrite Hv in Ha. }
  apply left_thread_ok in Hans as [Hs Hcp]. unfold resume_graph_investigation. rewrite Hplain.
  unfold invoke_and_settle. rewrite invoke_drive by done.
  destruct cp as [s next rs i]. unfold resume_checkpoint in *. cbn [cp_state cp_next cp_resumes cp_interrupt] in *.
  change GRAPH_RECURSION_LIMIT with 25%nat.
  assert (exists s' cp' w', drive (build_graph iv) 25 {| cp_state := s; cp_next := next;
      cp_resumes := rs ++ [decision_json decision note]; cp_interrupt := None |} w = (Returned s' None, cp', w')
    /\ state_ok iv w0 w' s' /\ finished iv s') as (s' & cp' & w' & -> & Hs' & Hfin).
  { destruct next as [n|].
    - destruct Hcp as (Hp & Hf & _ & Hd). destruct (drive_closes w0 23 s n _ None w Hs Hp Hf (Hd eq_refl)) as (s' & w' & -> & ?).
      by eexists _, _, _.
    - rewrite drive_end. eexists _, _, _. split; [done|]. by destruct Hcp. }
  unfold settle_invocation. destruct (result_of_finished _ w0 w' s' Hs' Hfin) as (x & _ & _ & -> & _). by eexists _, _, _, _.
Qed.
End left_behind.
