(* ===== verification/GraphModes.v ===== *)
(** What a whole run keeps and rules out: a thread keeps its investigation, whose id no
    superstep changes and whose report carries it; and the two start options of
    [run_graph_investigation], [suppress_escalation] and [no_tool_baseline]. *)
From Stdlib Require Import ZArith Lia.
From stdpp Require Import prelude strings list gmap sorting.
From S2P Require Import Prelude PyText Float64 Tools Domain Policy World Evidence Wrappers ToolCalls Models Prompts GraphState GraphNodes GraphRun GraphInvariant GraphProps GraphResume GraphStages.
Local Open Scope Z_scope.

(** The state belongs to the investigation [id], and so does its report. *)
Definition belongs (id : string) (s : GraphState) : Prop :=
  gs_investigation_id s = id /\ forall r, gs_report s = Some r -> ir_investigation_id r = id.

(** Whatever [m] returns satisfies [P]. *)
Definition yields {S A} (P : A -> Prop) (m : ST S exn A) : Prop := forall s a s', m s = (Ok a, s') -> P a.

Lemma yields_ret {S A} P (a : A) : P a -> yields P (mret a : ST S exn A).
Proof. by intros HP s a' s' [= <- _]. Qed.

Lemma yields_raise {S A} P e : yields P (raise e : ST S exn A).
Proof. by intros s a s'. Qed.

Lemma yields_bind {S A B} P (m : ST S exn A) (k : A -> ST S exn B) :
  (forall a, yields P (k a)) -> yields P (m ≫= k).
Proof. intros Hk s b s' (a & s1 & _ & Ha)%ST_bind_Ok. by eapply Hk. Qed.

Lemma yields_try {S A} P (m : ST S exn A) h :
  yields P m -> (forall e, yields P (h e)) -> yields P (try_except m h).
Proof.
  intros Hm Hh s a s' Ha. unfold try_except in Ha. destruct (m s) as [[a'|e] s1] eqn:Hs.
  - injection Ha as -> ->. by eapply Hm.
  - by eapply Hh.
Qed.

Create HintDb yields.
#[export] Hint Resolve yields_raise : yields.

(** A body made of binds, tests and returns. *)
Ltac yields :=
  repeat (cbv zeta; first [apply yields_bind; intros ?|apply yields_raise|apply yields_ret|case_match]).

Section nodes.
Context `{Pydantic} `{Host} `{Clocks} `{ToolCallingModel}.
Variable id : string.

Lemma belongs_same s s' :
  gs_investigation_id s' = gs_investigation_id s -> gs_report s' = gs_report s -> belongs id s -> belongs id s'.
Proof. intros Hi Hr [? ?]. split; [congruence|]. by rewrite Hr. Qed.

Lemma run_stage_belongs phase stage s body handle :
  (forall receipts store passages, yields (belongs id) (body receipts store passages)) ->
  (forall e, yields (belongs id) (handle e)) ->
  yields (belongs id) (run_stage phase stage s body handle).
Proof.
  intros Hb Hh w s' w'. unfold run_stage. destruct (event _ _ _ _ w) as [recorded w1].
  destruct (stage_inputs s) as [[[receipts store] passages]|e]; [|done].
  destruct (try_except _ _ _) as [r t] eqn:Ht. intros [= -> _].
  by eapply (yields_try (belongs id)) in Ht.
Qed.

Lemma investigate_belongs scope packet b s : belongs id s -> yields (belongs id) (investigate scope packet b s).
Proof.
  intros Hs. apply run_stage_belongs.
  - intros receipts store passages. unfold investigate_body. yields; by apply (belongs_same s).
  - intros e. unfold investigate_except. yields; by apply (belongs_same s).
Qed.

Lemma assessment_belongs scope packet b s : belongs id s -> yields (belongs id) (final_assessment scope packet b s).
Proof.
  intros Hs. apply run_stage_belongs.
  - intros receipts store passages. unfold assessment_body. yields; by apply (belongs_same s).
  - intros e. unfold assessment_except. yields; by apply (belongs_same s).
Qed.

Lemma dispatch_belongs scope b registry s : belongs id s -> yields (belongs id) (dispatch_tool scope b registry s).
Proof.
  intros Hs w s' w'. unfold dispatch_tool. destruct (dispatch_inputs b s) as [[proposal ledger]|e]; [|done].
  destruct (event _ _ _ _ w) as [recorded w1]. destruct (run_wrapper _ _ _ _ _) as [[result|e] d].
  - destruct (dispatch_events _ _ _ _ _) as [recorded' w2]. intros [= <- _]. by apply (belongs_same s).
  - destruct (is_bubble_up e); [done|]. destruct (event _ _ _ _ _) as [recorded' w2].
    intros [= <- _]. by apply (belongs_same s).
Qed.

Lemma build_report_belongs s b force w r w' :
  build_report s b force w = (Ok r, w') -> ir_investigation_id r = gs_investigation_id s.
Proof.
  unfold build_report. case_match; [|done]. destruct a as [[receipts store] passages].
  destruct (read_clock w) as [at_ w1]. intros [= Hr _]. unfold report_of in Hr.
  apply result_bind_Ok in Hr as (a & _ & Hr). destruct (verdict s force a) as [[disp root] reason].
  apply result_bind_Ok in Hr as (esc & _ & Hr). apply result_bind_Ok in Hr as (ms & _ & Hr).
  by apply check_report_id in Hr as ->.
Qed.

Lemma final_report_belongs b s : belongs id s -> yields (belongs id) (final_report b s).
Proof.
  intros [Hid _] w s' w' (report & w1 & Hr & Hrest)%ST_bind_Ok. apply build_report_belongs in Hr.
  revert Hrest. apply yields_bind. intros a. apply yields_bind. intros passages w2 s2 w3. unfold report_state.
  case_match. intros [= <- _]. split; [done|]. intros r [= <-]. congruence.
Qed.

Lemma interrupt_belongs b rs s w s' w' : belongs id s -> escalation_interrupt b rs s w = (Ok (Done s'), w') -> belongs id s'.
Proof.
  intros Hs. unfold escalation_interrupt. destruct (escalation_inputs _ _) as [[[reason ids] remaining]|e]; [|done].
  destruct (resolve_decision false rs) as [[decision note]|retry]; [|done].
  destruct (event _ _ _ _ w) as [recorded w1]. intros [= <- _]. by apply (belongs_same s).
Qed.

Lemma superstep_belongs iv n rs s w next s' w' :
  belongs id s -> superstep (build_graph iv) n rs s w = (Ok (Moved next s'), w') -> belongs id s'.
Proof.
  intros Hs (r & w1 & Hr & Hrest)%ST_bind_Ok. destruct r as [s1|p]; [|done].
  apply ST_bind_Ok in Hrest as (next' & w2 & _ & [= _ -> _]). cbn [g_node build_graph] in Hr.
  destruct n; [..|idtac|]; try (by eapply interrupt_belongs in Hr).
  all: apply ST_bind_Ok in Hr as (s2 & w3 & Hr & [= -> _]).
  - by eapply investigate_belongs in Hr.
  - by eapply dispatch_belongs in Hr.
  - unfold normalize_evidence in Hr. destruct (event _ _ _ _ w) as [recorded w4].
    injection Hr as <- _. by apply (belongs_same s).
  - by eapply assessment_belongs in Hr.
  - by eapply final_report_belongs in Hr.
Qed.
End nodes.

(** * Whole invocations *)

Lemma revalidate_report_id r r' : revalidate_report r = Ok r' -> r' = r.
Proof.
  unfold revalidate_report. intros (? & _ & Hr)%result_bind_Ok. apply result_bind_Ok in Hr as (? & _ & Hr).
  apply result_bind_Ok in Hr as (? & _ & Hr). by apply check_report_id in Hr.
Qed.

Lemma escalated_of_inv s p cid o :
  escalated_of s p cid = Ok o -> exists e, o = Escalated e /\ es_checkpoint_id e = cid.
Proof.
  unfold escalated_of. intros (? & _ & Hr)%result_bind_Ok. apply result_bind_Ok in Hr as (? & _ & Hr).
  apply result_bind_Ok in Hr as (? & _ & Hr). injection Hr as <-. by eexists.
Qed.

Section threads.
Context `{Pydantic} `{Clocks} `{FreshIds} `{ToolCallingModel} `{LangGraphLaws}.
Variable id : string.

(** A stored thread: it belongs to its investigation and the engine can take it up. *)
Definition thread_ok (cp : Checkpoint) : Prop := belongs id (cp_state cp) /\ startable cp.

(** What an attempt's outcome says about the thread it leaves. *)
Definition outcome_on (cp : Checkpoint) (o : Outcome) : Prop :=
  match o with
  | Finished x => ir_investigation_id (res_report x) = id
  | Escalated e => exists p, cp_interrupt cp = Some p
      /\ escalated_of (cp_state cp) p (latest_checkpoint_id cp) = Ok (Escalated e)
  end.

Lemma drive_belongs iv limit : forall cp w inv cp' w',
  thread_ok cp -> drive (build_graph iv) limit cp w = (inv, cp', w') ->
  thread_ok cp' /\ match inv with
                   | Returned s None => s = cp_state cp'
                   | Returned s (Some p) => s = cp_state cp' /\ cp_interrupt cp' = Some p
                   | Raised _ => True
                   end.
Proof.
  induction limit as [|limit IH]; intros cp w inv cp' w' [Hs Hst]; cbn [drive]; destruct (cp_next cp) as [n|] eqn:Hn.
  - by intros [= <- <- _].
  - by intros [= <- <- _].
  - destruct (superstep _ n _ _ w) as [[[next s'|p]|e] w1] eqn:Hstep.
    + apply IH. split; [|by intros ?]. by eapply superstep_belongs in Hstep.
    + by intros [= <- <- _].
    + by intros [= <- <- _].
  - by intros [= <- <- _].
Qed.

Lemma result_of_belongs s o : belongs id s -> result_of s = Ok o -> forall cp, outcome_on cp o.
Proof.
  intros [_ Hrep] Hr cp. unfold result_of in Hr. apply result_bind_Ok in Hr as (report & Hreport & Hr).
  apply result_bind_Ok in Hr as (? & _ & Hr). apply result_bind_Ok in Hr as (? & _ & Hr). injection Hr as <-.
  destruct (gs_report s) as [r|]; [|done]. apply revalidate_report_id in Hreport as ->. by apply Hrep.
Qed.

Lemma contain_crash_belongs e s budgets w s' w' :
  belongs id s -> contain_crash e s budgets w = (Ok s', w') -> belongs id s'.
Proof.
  intros [Hid _]. unfold contain_crash. destruct (event _ _ _ _ w) as [recorded w1].
  destruct (build_report _ _ _ w1) as [[report|e'] w2] eqn:Hb; [|done]. intros [= <- _].
  split; [done|]. intros r [= <-]. apply build_report_belongs in Hb. rewrite Hb. done.
Qed.

Lemma invoke_and_settle_belongs iv cp recorded fallback w r recorded' cp' w' :
  thread_ok cp -> invoke_and_settle iv cp recorded fallback w = (r, recorded', cp', w') ->
  thread_ok cp' /\ forall o, r = Ok o -> outcome_on cp' o.
Proof.
  intros Hcp. pose proof (proj2 Hcp) as Hst. unfold invoke_and_settle. rewrite invoke_drive by done.
  destruct (drive _ _ cp w) as [[inv cp1] w1] eqn:Hd. apply drive_belongs in Hd as [Hcp1 Hinv]; [|done].
  destruct (settle_invocation _ _ _ _ _ _ w1) as [[r1 recorded1] w2] eqn:Hset. intros [= <- _ <- _].
  split; [done|]. intros o ->. unfold settle_invocation in Hset. destruct inv as [s [p|]|e].
  - destruct Hinv as [-> Hint]. injection Hset as Hr _ _. destruct (escalated_of_inv _ _ _ _ Hr) as (x & -> & _). by exists p.
  - subst s. injection Hset as Hr _ _. eapply result_of_belongs; [|done]. apply Hcp1.
  - assert (Hc : exists s w3, contain_crash e (cp_state cp1) (iv_budgets iv) w1 = (Ok s, w3) /\ result_of s = Ok o).
    { simpl in Hset. destruct e; try done; destruct (contain_crash _ _ _ w1) as [[s|e'] w3]; try done;
        injection Hset as Hr _ _; by exists s, w3. }
    destruct Hc as (s & w3 & Hc & Hr). eapply result_of_belongs; [|done]. by eapply contain_crash_belongs; [apply Hcp1|].
Qed.

Lemma run_belongs iv name evidence w r recorded cp w' :
  run_graph_investigation iv (Some id) name evidence w = (r, recorded, cp, w') ->
  thread_ok cp /\ forall o, r = Ok o -> outcome_on cp o.
Proof.
  unfold run_graph_investigation. destruct (seed iv (Some id) name evidence w) as [s w1] eqn:Hseed.
  apply invoke_and_settle_belongs. split; [|by intros ?]. unfold seed in Hseed.
  by injection Hseed as <- _.
Qed.

Lemma recover_belongs iv cp w r recorded cp' w' :
  thread_ok cp -> recover_graph_investigation iv (Some cp) w = Some (r, recorded, cp', w') ->
  thread_ok cp' /\ forall o, r = Ok o -> outcome_on cp' o.
Proof.
  intros Hcp. unfold recover_graph_investigation. cbn [mbind option_bind].
  destruct (cp_interrupt cp) as [p|] eqn:Hint.
  - intros [= <- _ <- _]. split; [done|]. intros o Ho.
    destruct (escalated_of_inv _ _ _ _ Ho) as (x & -> & _). by exists p.
  - destruct (gs_report (cp_state cp)).
    + intros [= <- _ <- _]. split; [done|]. intros o Ho. by eapply result_of_belongs; [apply Hcp|].
    + intros [= Hi]. by apply invoke_and_settle_belongs in Hi.
Qed.

Lemma resume_belongs iv cp decision note w r recorded cp' w' :
  thread_ok cp -> resume_graph_investigation iv (Some cp) decision note w = (r, recorded, Some cp', w') ->
  thread_ok cp' /\ forall x, r = Ok x -> ir_investigation_id (res_report x) = id.
Proof.
  intros [Hs _]. unfold resume_graph_investigation. destruct (invoke_and_settle _ _ _ _ w) as [[[r1 recorded1] cp1] w1] eqn:Hi.
  intros [= <- _ <- _]. apply invoke_and_settle_belongs in Hi as [Hcp Ho]; [|done].
  split; [done|]. intros x Hx. unfold only_finished in Hx. destruct r1 as [[y|]|]; try done. injection Hx as ->.
  exact (Ho _ eq_refl).
Qed.
End threads.

(** The nodes a run without checks passes through. *)
Definition closing (n : Node) : Prop :=
  n = N_FINAL_ASSESSMENT \/ n = N_ESCALATION_INTERRUPT \/ n = N_FINAL_REPORT.

Section modes.
Context `{Pydantic} `{Clocks} `{FreshIds} `{ToolCallingModel} `{LangGraphLaws} `{!ClockLaws}.
Context (iv : Investigation) (evidence : list Evidence).
Notation b := (iv_budgets iv).
Context (Hreg : registry_ok (iv_registry iv)) (Hpassages : passages_ok (iv_registry iv)).
Context (Hbudgets : budgets_ok b).
Context (Hevidence : Forall (evidence_ok (sc_incident_id (iv_scope iv))) evidence).

Lemma final_assessment_closing w0 rs s w next s' w' :
  state_ok iv w0 w s ->
  superstep (build_graph iv) N_FINAL_ASSESSMENT rs s w = (Ok (Moved next s'), w') ->
  gs_receipts s' = gs_receipts s /\ (forall n, next = Some n -> closing n).
Proof.
  intros Hs. unfold superstep, build_graph, done. simpl. unfold mbind, ST_bind, mret, ST_ret.
  destruct (final_assessment _ _ _ s w) as [[s1|e] w1] eqn:Hi; [|done].
  apply final_assessment_spec in Hi as (Heff & _); [|by destruct Hs..].
  pose proof (se_frame _ _ _ _ _ Heff) as Hfr. unfold stage_frame in Hfr.
  injection Hfr as _ _ _ _ _ Hrc _ _ _ _ _ _ _. unfold lift_result.
  destruct (route_after_final_assessment _ _ s1) as [n|] eqn:Hroute; [|done].
  intros [= <- <- <-]. split; [done|]. intros ? [= <-].
  unfold route_after_final_assessment in Hroute. unfold closing.
  destruct (gs_failure_reason s1); [injection Hroute as <-; auto|].
  destruct (iv_suppress_escalation iv); [injection Hroute as <-; auto|].
  apply result_bind_Ok in Hroute as (? & _ & Hroute).
  apply result_bind_Ok in Hroute as (? & _ & Hroute).
  apply result_bind_Ok in Hroute as ([] & _ & Hroute); injection Hroute as <-; auto.
Qed.

(** A closing node runs no check and leads to a closing node. *)
Lemma superstep_closing w0 n rs s w next s' w' :
  closing n -> state_ok iv w0 w s ->
  superstep (build_graph iv) n rs s w = (Ok (Moved next s'), w') ->
  gs_receipts s' = gs_receipts s /\ (forall n', next = Some n' -> closing n').
Proof.
  intros [->|[->| ->]] Hs Hstep.
  - by eapply final_assessment_closing.
  - unfold superstep in Hstep. cbn [build_graph g_node g_next] in Hstep.
    unfold mbind, ST_bind, mret, ST_ret, escalation_interrupt in Hstep.
    destruct (escalation_inputs _ s) as [[[reason ids] left]|e]; [|done].
    destruct (resolve_decision false rs) as [[decision note]|retry]; [|done].
    unfold event, read_event_clock in Hstep. injection Hstep as <- <- _.
    split; [done|]. intros ? [= <-]. unfold closing. auto.
  - rewrite superstep_report in Hstep. destruct Hbudgets as (Hcb & _ & _).
    destruct (final_report_spec iv w0 Hcb w s Hs) as (? & ? & ? & ? & Hrun & _).
    rewrite Hrun in Hstep. by injection Hstep as <- <- _.
Qed.

Lemma drive_closing w0 limit n rs i s w r cp' w' :
  closing n -> state_ok iv w0 w s -> pos_ok iv n s -> Forall note_fits rs ->
  drive (build_graph iv) limit
    {| cp_state := s; cp_next := Some n; cp_resumes := rs; cp_interrupt := i |} w = (r, cp', w') ->
  gs_receipts (cp_state cp') = gs_receipts s.
Proof.
  revert n rs i s w. induction limit as [|limit IH]; intros n rs i s w Hn Hs Hp Hf.
  { by intros [= _ <- _]. }
  rewrite drive_step. destruct (superstep _ n rs s w) as [[[next s1|p]|e] w1] eqn:Hstep.
  - destruct (superstep_closing w0 n rs s w next s1 w1 Hn Hs Hstep) as [<- Hnext].
    pose proof (superstep_progress iv w0 Hreg Hpassages (proj1 Hbudgets) n rs s w _ w1
                  Hs Hp Hf Hstep) as Hprog.
    destruct next as [n'|]; [|rewrite drive_end; by intros [= _ <- _]].
    destruct Hprog as (Hs1 & Hp1 & _). apply IH; auto.
  - by intros [= _ <- _].
  - by intros [= _ <- _].
Qed.

(** The baseline runs no check. An investigation started with
    [no_tool_baseline] that returns has called no backend and holds no receipt;
    its report, when it finishes, counts no executed check. *)
Theorem baseline_runs_no_check id name w0 o recorded cp w' :
  limit_covers iv -> iv_no_tool_baseline iv = true ->
  run_graph_investigation iv id name evidence w0 = (Ok o, recorded, cp, w') ->
  w_backend_calls w' = w_backend_calls w0 /\ gs_receipts (cp_state cp) = []
  /\ match o with
     | Finished x => res_receipts x = [] /\ ir_tools_executed (res_report x) = 0
     | Escalated x => es_receipts x = []
     end.
Proof.
  intros Hlim Hbase Hrun.
  assert (Hrc : gs_receipts (cp_state cp) = []).
  { pose proof Hrun as Hr. unfold run_graph_investigation, invoke_and_settle in Hr.
    destruct (seed iv id name evidence w0) as [s0 w1] eqn:Hseed.
    eapply seed_ok in Hseed as (Hs & Hp & Hr0 & _); [|done..].
    rewrite invoke_drive in Hr by done. unfold start_checkpoint in Hr.
    destruct (drive _ _ _ w1) as [[r cp'] w2] eqn:Hd.
    destruct (settle_invocation _ _ _ _ _ _ w2) as [[? ?] ?]. injection Hr as _ _ -> _.
    rewrite <- Hr0. eapply drive_closing; [|done..|exact Hd].
    simpl. rewrite Hbase. by left. }
  eapply run_state in Hrun as Hs; [|done..]. split; [|split; [done|]].
  - destruct (so_backend _ _ _ _ Hs) as (calls & -> & _ & Hlen). rewrite Hrc in Hlen.
    pose proof (pools_length calls) as Hn. rewrite !Hlen in Hn.
    destruct calls; [by rewrite app_nil_r|done].
  - destruct o as [x|x].
    + eapply run_finished_at in Hrun as (store & at_ & _ & _ & _ & _ & -> & Hof); [|done..].
      rewrite Hrc in Hof |- *. split; [done|].
      apply report_of_inv in Hof as (_ & _ & _ & _ & _ & _ & _ & _ & -> & _). done.
    + eapply run_spec in Hrun as [_ (p & _ & _ & _ & _ & _ & Hr & _)]; [|done..].
      symmetry in Hr. unfold escalated_of in Hr.
      apply result_bind_Ok in Hr as (? & _ & Hr). apply result_bind_Ok in Hr as (rs & Hrs & Hr).
      apply result_bind_Ok in Hr as (? & _ & Hr). injection Hr as <-.
      rewrite (rebuild_receipts_ok iv w0 w' _ Hs) in Hrs. simpl. congruence.
Qed.

(** [suppress_escalation] is honoured. An investigation started with it
    never waits for the owner: it finishes, or the engine's own
    signal passes through. *)
Theorem suppressed_run_finishes id name w0 r recorded cp w' :
  limit_covers iv -> iv_suppress_escalation iv = true ->
  run_graph_investigation iv id name evidence w0 = (r, recorded, cp, w') ->
  (exists x, r = Ok (Finished x)) \/ r = Err GraphBubbleUp /\ signalled iv.
Proof.
  intros Hlim Hsup Hrun. eapply run_spec in Hrun as [_ Hrun]; [|done..].
  destruct r as [[x|x]|e]; [left; by eexists| |right; by destruct Hrun as [-> ?]].
  destruct Hrun as (p & _ & _ & _ & (_ & _ & _ & Hno & _) & _). congruence.
Qed.
End modes.
