(* ===== verification/Approvals.v ===== *)
(** The owner's decisions (approvals.py) and the command that applies one
    (cli.py, [run_decision_command]): a decision is validated, recorded once and
    durably, and only then given to the paused investigation; a retry of the same
    decision finds its way, a different one is refused.

    Reading the stored incident and building its registry are input; here they are
    [incident_of].  Writing the artifacts is the one assignment to [dk_artifact]. *)
From Stdlib Require Import ZArith Lia.
From stdpp Require Import prelude strings list.
From S2P Require Import Prelude PyText Float64 Tools Domain Policy World Sqlite Evidence Wrappers ToolCalls Models Prompts GraphState GraphNodes GraphStages GraphRun GraphInvariant GraphProps GraphResume.
Local Open Scope Z_scope.

(** * A decision *)

Record OwnerDecision := {
  od_decision : OwnerChoice;
  od_rejection_note : option string;
}.

#[export] Instance OwnerDecision_eq : EqDecision OwnerDecision.
Proof. solve_decision. Defined.

(** [note.strip() or None] *)
Definition normalize_note (note : option string) : option string :=
  match note with
  | None => None
  | Some n => if decide (py_strip n = "") then None else Some (py_strip n)
  end.

Definition check_pairing (d : OwnerDecision) : res OwnerDecision :=
  _ ← require (negb (bool_decide (od_decision d = reject) && negb (is_some (od_rejection_note d))));
  _ ← require (negb (bool_decide (od_decision d = accept) && is_some (od_rejection_note d)));
  Ok d.

(** [OwnerDecision(decision=..., rejection_note=...)] *)
Definition owner_decision (decision : OwnerChoice) (note : option string) : res OwnerDecision :=
  let note := normalize_note note in
  _ ← require (match note with None => true | Some n => max_length 300 n end);
  check_pairing {| od_decision := decision; od_rejection_note := note |}.

Definition resume_value (d : OwnerDecision) : json :=
  decision_json (od_decision d) (od_rejection_note d).

(** * The table of decisions *)

(** A row as stored: the decision is text. *)
Record DecisionRecord := {
  dr_thread_id : string;
  dr_checkpoint_id : string;
  dr_decision : string;
  dr_rejection_note : option string;
  dr_decided_at : Z;
}.

Definition decision_key (r : DecisionRecord) : string * string := (dr_thread_id r, dr_checkpoint_id r).

Record DecisionRow := {
  dw_thread_id : string;
  dw_checkpoint_id : string;
  dw_decision : OwnerChoice;
  dw_rejection_note : option string;
  dw_decided_at : Z;
}.

(** [DecisionRow(...)] with its pairing check. *)
Definition parse_decision (r : DecisionRecord) : res DecisionRow :=
  match of_value (dr_decision r) with
  | None => Err ValidationError
  | Some d =>
      _ ← require (negb (bool_decide (d = reject)
                         && negb (match dr_rejection_note r with
                                  | None => false
                                  | Some n => negb (bool_decide (py_strip n = ""))
                                  end)));
      _ ← require (negb (bool_decide (d = accept) && is_some (dr_rejection_note r)));
      Ok {| dw_thread_id := dr_thread_id r; dw_checkpoint_id := dr_checkpoint_id r;
            dw_decision := d; dw_rejection_note := dr_rejection_note r;
            dw_decided_at := dr_decided_at r |}
  end.

Definition matches (row : DecisionRow) (d : OwnerDecision) : bool :=
  bool_decide (dw_decision row = od_decision d)
  && bool_decide (dw_rejection_note row = od_rejection_note d).

(** [ORDER BY decided_at DESC LIMIT 1] *)
Fixpoint latest (rows : list DecisionRecord) : option DecisionRecord :=
  match rows with
  | [] => None
  | r :: rows =>
      match latest rows with
      | Some r' => if dr_decided_at r <? dr_decided_at r' then Some r' else Some r
      | None => Some r
      end
  end.

Notation DecisionsM := (ST (Connection DecisionRecord) exn).

Definition unavailable : exn := CheckpointStoreError STORE_UNAVAILABLE.

Definition conflicting : exn := CheckpointStoreError CONFLICTING_DECISION.

Section table.
Context `{Sqlite}.

Definition ensure_decisions_table : DecisionsM unit :=
  try_except (_ ← create_table; commit)
    (fun e => raise (if is_sqlite_error e then unavailable else e)).

Definition read_decision_for_thread (thread_id : string) : DecisionsM (option DecisionRow) :=
  rows ← try_except (select (fun r => bool_decide (dr_thread_id r = thread_id)))
           (fun e => raise (if is_sqlite_error e then unavailable else e));
  match latest rows with
  | None => mret None
  | Some raw =>
      match parse_decision raw with
      | Ok row => mret (Some row)
      | Err _ => raise unavailable
      end
  end.

Definition record_of (thread_id checkpoint_id : string) (d : OwnerDecision) (decided_at : Z)
    : DecisionRecord :=
  {| dr_thread_id := thread_id; dr_checkpoint_id := checkpoint_id;
     dr_decision := value (od_decision d); dr_rejection_note := od_rejection_note d;
     dr_decided_at := decided_at |}.

(** No rollback: a failed commit leaves its transaction to the closing connection. *)
Definition record_decision_before_resume (thread_id checkpoint_id : string)
    (d : OwnerDecision) (decided_at : Z) : DecisionsM unit :=
  try_except (_ ← insert decision_key (record_of thread_id checkpoint_id d decided_at); commit)
    (fun e => raise (if is_integrity_error e then conflicting
                     else if is_sqlite_error e then unavailable else e)).
End table.

(** * The decision command *)

Record Desk := {
  dk_decisions : Connection DecisionRecord;
  dk_world : World;
  dk_checkpoint : option Checkpoint;
  dk_artifact : option InvestigationReport;
}.

#[export] Instance settable_Desk : Settable Desk := fun k =>
  {| dk_decisions := dk_decisions k; dk_world := dk_world k; dk_checkpoint := dk_checkpoint k;
     dk_artifact := dk_artifact k |}.

Notation DeskM := (ST Desk exn).

Definition on_decisions {A} (m : DecisionsM A) : DeskM A := fun k =>
  let '(r, c) := m (dk_decisions k) in (r, k <| dk_decisions := c |>).

(** [closing(conn)]: what was not committed is gone. *)
Definition close_decisions (k : Desk) : Desk :=
  k <| dk_decisions := (dk_decisions k) <| db_open := None |> |>.

Section command.
Context `{Sqlite} `{Pydantic} `{Host} `{Clocks} `{ToolCallingModel} `{LangGraph}.
Variable incident_of : string -> res Investigation.

Definition now : DeskM Z := fun k =>
  let '(t, w) := read_clock (dk_world k) in (Ok t, k <| dk_world := w |>).

Definition resume_thread (iv : Investigation) (d : OwnerDecision) : DeskM InvestigationResult :=
  fun k =>
    let '(r, _, cp, w) := resume_graph_investigation iv (dk_checkpoint k)
      (od_decision d) (od_rejection_note d) (dk_world k) in
    (r, k <| dk_checkpoint := cp |> <| dk_world := w |>).

(** A first decision is recorded against the pending checkpoint, before the resume. *)
Definition record_first (thread_id : string) (d : OwnerDecision) (cp : Checkpoint)
    (existing : option DecisionRow) : DeskM unit :=
  match existing, cp_interrupt cp with
  | Some _, _ => mret tt
  | None, None => raise (CheckpointStoreError NO_PENDING_INTERRUPT)
  | None, Some _ =>
      decided_at ← now;
      on_decisions (record_decision_before_resume thread_id (latest_checkpoint_id cp) d decided_at)
  end.

Definition apply_decision (thread_id : string) (d : OwnerDecision)
    (existing : option DecisionRow) : DeskM InvestigationReport :=
  k ← get_state;
  match dk_checkpoint k with
  | None => raise (CheckpointStoreError THREAD_NOT_FOUND)
  | Some cp =>
      iv ← lift_result (incident_of (gs_incident_id (cp_state cp)));
      _ ← record_first thread_id d cp existing;
      result ← resume_thread iv d;
      _ ← modify (fun k => k <| dk_artifact := Some (res_report result) |>);
      mret (res_report result)
  end.

Definition decision_body (thread_id : string) (d : OwnerDecision) : DeskM InvestigationReport :=
  _ ← on_decisions ensure_decisions_table;
  existing ← on_decisions (read_decision_for_thread thread_id);
  k ← get_state;
  match existing, dk_artifact k with
  | Some row, artifact =>
      if negb (matches row d) then raise conflicting
      else match artifact with
           | Some report =>
               match revalidate_report report with
               | Ok report => mret report
               | Err _ => raise (LabError CORRUPT_ARTIFACT)
               end
           | None => apply_decision thread_id d existing
           end
  | None, _ => apply_decision thread_id d existing
  end.

Definition run_decision_command (thread_id : string) (d : OwnerDecision)
    : DeskM InvestigationReport := fun k =>
  let '(r, k') := decision_body thread_id d k in (r, close_decisions k').
End command.

(** * Lemmas: decisions *)

Lemma normalize_note_Some note n :
  normalize_note note = Some n -> py_strip n = n /\ py_strip n <> "".
Proof.
  destruct note as [m|]; [|done]. simpl. destruct (decide (py_strip m = "")); [done|].
  intros [= <-]. by rewrite py_strip_idem.
Qed.

Lemma normalize_note_idem note : normalize_note (normalize_note note) = normalize_note note.
Proof.
  destruct (normalize_note note) as [n|] eqn:Hn; [|done].
  apply normalize_note_Some in Hn as [Hs Hne]. simpl. rewrite decide_False by done. by rewrite Hs.
Qed.

Lemma owner_decision_Ok decision note d :
  owner_decision decision note = Ok d ->
  od_decision d = decision /\ od_rejection_note d = normalize_note note
  /\ py_strip <$> od_rejection_note d = od_rejection_note d
  /\ decision_ok (od_decision d) (od_rejection_note d).
Proof.
  unfold owner_decision, check_pairing. pose proof (normalize_note_Some note) as Hnote.
  destruct (normalize_note note) as [n|]; intros Hd; invert_checks; simpl in *.
  - destruct (Hnote n eq_refl) as [Hn Hne]. rewrite Hn in *.
    split_and!; try done. destruct decision; [done|]. simpl. rewrite Hn. split; [done|].
    unfold max_length in *. lia.
  - split_and!; try done. by destruct decision.
Qed.

(** Threads that have a decision. *)
Definition threads (D : list DecisionRecord) : list string := dr_thread_id <$> D.

(** [D] holds the decision [d] for the thread. *)
Definition decided_as (D : list DecisionRecord) (thread_id : string) (d : OwnerDecision) : Prop :=
  exists raw row, raw ∈ D /\ dr_thread_id raw = thread_id /\ parse_decision raw = Ok row
    /\ matches row d = true.

Lemma parse_record thread_id checkpoint_id d t :
  decision_ok (od_decision d) (od_rejection_note d) ->
  py_strip <$> od_rejection_note d = od_rejection_note d ->
  parse_decision (record_of thread_id checkpoint_id d t)
  = Ok {| dw_thread_id := thread_id; dw_checkpoint_id := checkpoint_id;
          dw_decision := od_decision d; dw_rejection_note := od_rejection_note d;
          dw_decided_at := t |}.
Proof.
  intros Hok Hs. unfold parse_decision. cbn [dr_decision record_of]. rewrite of_value_value.
  destruct d as [[] [n|]]; simpl in *; try done.
  destruct Hok as [Hne _]. by rewrite bool_decide_false.
Qed.

Lemma record_decides D thread_id checkpoint_id d t :
  decision_ok (od_decision d) (od_rejection_note d) ->
  py_strip <$> od_rejection_note d = od_rejection_note d ->
  decided_as (D ++ [record_of thread_id checkpoint_id d t]) thread_id d.
Proof.
  intros Hok Hs. eexists _, _. split; [apply elem_of_app; right; by left|]. split; [done|].
  split; [by apply parse_record|]. unfold matches. simpl. by rewrite !bool_decide_true.
Qed.

Lemma latest_elem rows r : latest rows = Some r -> r ∈ rows.
Proof.
  revert r. induction rows as [|x rows IH]; intros r; simpl; [done|].
  destruct (latest rows) as [r'|].
  - case_match; intros [= <-]; [right; by apply IH|by left].
  - intros [= <-]. by left.
Qed.

Lemma latest_None rows : latest rows = None -> rows = [].
Proof. destruct rows as [|x rows]; simpl; [done|]. destruct (latest rows); [case_match|]; done. Qed.

Section table_lemmas.
Context `{Sqlite}.

Lemma ensure_decisions_spec D :
  triple (idle D) ensure_decisions_table (fun _ => ready D)
    (fun e c => e = unavailable /\ idle D c).
Proof.
  apply (triple_try _ _ _ _ (fun e c => e = sqlite_error /\ idle D c)).
  - eapply triple_bind; [apply create_table_stmt|]. intros [].
    eapply triple_conseq; [apply commit_ready_stmt|done|done|].
    intros e c [-> ?%ready_idle]. done.
  - intros e. apply triple_raise. intros c [-> ?]. done.
Qed.

(** What the retry-detection read finds. *)
Definition existing_of (D : list DecisionRecord) (thread_id : string) (o : option DecisionRow)
    : Prop :=
  match o with
  | None => thread_id ∉ threads D
  | Some row => exists raw, raw ∈ D /\ dr_thread_id raw = thread_id /\ parse_decision raw = Ok row
  end.

Lemma read_decision_spec D thread_id :
  triple (ready D) (read_decision_for_thread thread_id)
    (fun o c => existing_of D thread_id o /\ ready D c)
    (fun e c => e = unavailable /\ ready D c).
Proof.
  unfold read_decision_for_thread. eapply triple_bind.
  { apply (triple_try _ _ _ _ (fun e c => e = sqlite_error /\ ready D c)); [apply select_ready|].
    intros e. apply triple_raise. intros c [-> ?]. done. }
  intros rows. cbv beta.
  destruct (latest rows) as [raw|] eqn:Hl.
  - assert (Hraw : rows = List.filter (fun r => bool_decide (dr_thread_id r = thread_id)) D ->
                   raw ∈ D /\ dr_thread_id raw = thread_id).
    { intros ->. apply latest_elem, list_elem_of_In, filter_In in Hl as [Hin Hb].
      rewrite list_elem_of_In. by apply bool_decide_eq_true in Hb. }
    destruct (parse_decision raw) as [row|e] eqn:Hp.
    + apply triple_ret. intros c [Hr Hc]. split; [|done]. exists raw. by destruct (Hraw Hr).
    + apply triple_raise. by intros c [_ Hc].
  - apply latest_None in Hl. subst rows. apply triple_ret. intros c [Hr Hc]. split; [|done].
    simpl. intros (r & Hk & Hin)%list_elem_of_fmap.
    assert (r ∈ List.filter (fun r => bool_decide (dr_thread_id r = thread_id)) D) as Hf.
    { apply list_elem_of_In, filter_In. rewrite list_elem_of_In in Hin. split; [done|].
      by apply bool_decide_eq_true. }
    rewrite <- Hr in Hf. by apply elem_of_nil in Hf.
Qed.

Lemma record_spec D thread_id checkpoint_id d t :
  triple (ready D) (record_decision_before_resume thread_id checkpoint_id d t)
    (fun _ => ready (D ++ [record_of thread_id checkpoint_id d t]))
    (fun e c => (e = unavailable \/ e = conflicting /\ thread_id ∈ threads D) /\ uncommitted D c).
Proof.
  set (r := record_of thread_id checkpoint_id d t).
  apply (triple_try _ _ _ _ (fun e c => (e = sqlite_error
    \/ e = integrity_error /\ thread_id ∈ threads D) /\ uncommitted D c)).
  - eapply triple_bind.
    + eapply triple_conseq; [apply insert_ready|done|intros a c Hc; exact Hc|].
      intros e c [He Hc]. split; [|by left]. destruct He as [?|[? Hin]]; [by left|right].
      split; [done|]. apply list_elem_of_fmap in Hin as (r' & Heq & Hin).
      apply list_elem_of_fmap. exists r'. split; [|done]. by injection Heq.
    + intros []. intros c [_ Hc]. pose proof (commit_stmt _ _ c Hc) as Hrun.
      destruct (commit c) as [[[]|e] c']; [done|]. destruct Hrun as [-> ?].
      split; [by left|]. right. eauto.
  - intros e. apply triple_raise. intros c [[->|[-> ?]] Hc]; split; auto.
Qed.
End table_lemmas.

(** * Lemmas: the command *)

Definition committed (D : list DecisionRecord) (c : Connection DecisionRecord) : Prop :=
  default [] (db_saved c) = D.

Lemma idle_committed D (c : Connection DecisionRecord) : idle D c -> committed D c.
Proof. by intros [_ ?]. Qed.

Lemma ready_committed D (c : Connection DecisionRecord) : ready D c -> committed D c.
Proof. intros [_ Hs]. unfold committed. by rewrite Hs. Qed.

Lemma uncommitted_committed D (c : Connection DecisionRecord) : uncommitted D c -> committed D c.
Proof. intros [Hc|[V [Hs _]]]; [by apply ready_committed|]. unfold committed. by rewrite Hs. Qed.

(** Nothing, or the first decision of this thread. *)
Definition grows (D D' : list DecisionRecord) (thread_id : string) (d : OwnerDecision) : Prop :=
  D' = D
  \/ thread_id ∉ threads D
     /\ exists checkpoint_id t, D' = D ++ [record_of thread_id checkpoint_id d t].

(** The table's operations touch nothing else of the desk. *)
Lemma on_decisions_frame {A} (F : Desk -> Prop) (P : Connection DecisionRecord -> Prop)
    (m : DecisionsM A) Q E :
  (forall k c, F k -> F (k <| dk_decisions := c |>)) ->
  triple P m Q E ->
  triple (fun k => P (dk_decisions k) /\ F k) (on_decisions m)
    (fun a k => Q a (dk_decisions k) /\ F k) (fun e k => E e (dk_decisions k) /\ F k).
Proof.
  intros HF Hm k [HP Hk]. unfold on_decisions. specialize (Hm _ HP).
  destruct (m (dk_decisions k)) as [[a|e] c]; (split; [done|by apply HF]).
Qed.

Section command_lemmas.
Context `{Sqlite} `{Pydantic} `{Host} `{Clocks} `{ToolCallingModel} `{LangGraph}.
Variable incident_of : string -> res Investigation.
Variables (thread_id : string) (d : OwnerDecision).
Hypothesis decision_valid : decision_ok (od_decision d) (od_rejection_note d).
Hypothesis decision_stripped : py_strip <$> od_rejection_note d = od_rejection_note d.

Variables (D : list DecisionRecord) (cp0 : option Checkpoint) (a0 : option InvestigationReport).

(** The thread and its artifact are as they were. *)
Definition untouched (k : Desk) : Prop := dk_checkpoint k = cp0 /\ dk_artifact k = a0.

Definition sound_so_far (k : Desk) : Prop :=
  exists D', committed D' (dk_decisions k) /\ grows D D' thread_id d
    /\ (untouched k \/ decided_as D' thread_id d).

Definition sound_end (k : Desk) : Prop :=
  exists D', committed D' (dk_decisions k) /\ grows D D' thread_id d
    /\ decided_as D' thread_id d.

Lemma sound_start k : committed D (dk_decisions k) -> untouched k -> sound_so_far k.
Proof. intros Hc Hu. exists D. split; [done|]. split; [by left|]. by left. Qed.

Lemma apply_decision_sound existing :
  existing_of D thread_id existing ->
  (forall row, existing = Some row -> matches row d = true) ->
  triple (fun k => ready D (dk_decisions k) /\ untouched k)
    (apply_decision incident_of thread_id d existing)
    (fun _ => sound_end) (fun _ => sound_so_far).
Proof.
  intros Hex Hmatch. unfold apply_decision. apply triple_get. intros k0 [_ [Hcp _]].
  destruct (dk_checkpoint k0) as [cp|].
  2: { apply triple_raise. intros k [_ [Hc Hu]]. by apply sound_start; [apply ready_committed|]. }
  eapply triple_bind with (Q1 := fun _ k => ready D (dk_decisions k) /\ untouched k).
  { apply triple_lift; [by intros k a [_ Hk] _|].
    intros k e [_ [Hc Hu]] _. by apply sound_start; [apply ready_committed|]. }
  intros iv. eapply triple_bind with (Q1 := fun _ => sound_end).
  - unfold record_first. destruct existing as [row|].
    + apply triple_ret. intros k [Hc Hu]. exists D. split; [by apply ready_committed|].
      split; [by left|]. destruct Hex as (raw & Hin & Ht & Hp). exists raw, row.
      split_and!; try done. by apply Hmatch.
    + destruct (cp_interrupt cp) as [p|].
      2: { apply triple_raise. intros k [Hc Hu]. by apply sound_start; [apply ready_committed|]. }
      eapply triple_bind with (Q1 := fun _ k => ready D (dk_decisions k) /\ untouched k).
      { intros k Hk. exact Hk. }
      intros t. eapply triple_conseq; [apply (on_decisions_frame untouched), record_spec; done|intros k Hk; exact Hk| |].
      * intros [] k [Hc Hu]. eexists. split; [by apply ready_committed|].
        split; [right; split; [exact Hex|]; by eexists _, _|]. by apply record_decides.
      * intros e k [[_ Hc] Hu]. by apply sound_start; [apply uncommitted_committed|].
  - intros []. eapply triple_bind with (Q1 := fun _ => sound_end).
    + intros k (D' & Hc & Hg & Hd). unfold resume_thread.
      destruct (resume_graph_investigation _ _ _ _ _) as [[[[x|e] recorded] cp'] w'].
      * by exists D'.
      * exists D'. split_and!; [done..|by right].
    + intros x. eapply triple_bind with (Q1 := fun _ => sound_end).
      { apply triple_modify. intros k Hk. exact Hk. }
      intros []. by apply triple_ret.
Qed.

Lemma decision_body_sound :
  triple (fun k => idle D (dk_decisions k) /\ untouched k)
    (decision_body incident_of thread_id d)
    (fun _ => sound_end) (fun _ => sound_so_far).
Proof.
  unfold decision_body. eapply triple_bind.
  { eapply triple_conseq; [apply (on_decisions_frame untouched), (ensure_decisions_spec D); done
                          |intros k Hk; exact Hk|intros a k Hk; exact Hk|].
    intros e k [[_ Hc] Hu]. by apply sound_start; [apply idle_committed|]. }
  intros []. eapply triple_bind.
  { eapply triple_conseq; [apply (on_decisions_frame untouched), (read_decision_spec D); done
                          |intros k Hk; exact Hk|intros a k Hk; exact Hk|].
    intros e k [[_ Hc] Hu]. by apply sound_start; [apply ready_committed|]. }
  intros existing. cbv beta. apply triple_get. intros k0 [[Hex _] _].
  assert (Happly : (forall row, existing = Some row -> matches row d = true) ->
    triple (fun k => k = k0 /\ (existing_of D thread_id existing /\ ready D (dk_decisions k)) /\ untouched k)
      (apply_decision incident_of thread_id d existing) (fun _ => sound_end) (fun _ => sound_so_far)).
  { intros Hm. eapply triple_conseq; [by apply apply_decision_sound| |done|done].
    by intros k (_ & [_ ?] & ?). }
  destruct existing as [row|]; [|by apply Happly].
  destruct (matches row d) eqn:Hm; cbn [negb].
  2: { apply triple_raise. intros k (_ & [_ Hc] & Hu). by apply sound_start; [apply ready_committed|]. }
  destruct (dk_artifact k0) as [report|].
  2: { apply Happly. by intros ? [= <-]. }
  destruct (revalidate_report report) as [r|e].
  - apply triple_ret. intros k (_ & [(raw & ? & ? & ?) Hc] & Hu). exists D.
    split; [by apply ready_committed|]. split; [by left|]. by exists raw, row.
  - apply triple_raise. intros k (_ & [_ Hc] & Hu). by apply sound_start; [apply ready_committed|].
Qed.
End command_lemmas.

(** * Theorems *)

Lemma close_committed D k : committed D (dk_decisions k) -> idle D (dk_decisions (close_decisions k)).
Proof. intros Hc. by split. Qed.

Section soundness.
Context `{Sqlite} `{Pydantic} `{Host} `{Clocks} `{ToolCallingModel} `{LangGraph}.

(** C27: the decision is durable before the thread moves. Whatever the store,
    the engine or the investigation does, the command leaves the table as it was
    or with one row more, the first for its thread; the thread and its artifact
    are untouched unless the table holds this very decision; and a report is only
    returned for a decision that is recorded. So a thread has one decision at
    most, and no decision is ever changed. *)
Theorem decision_recorded_first incident_of thread_id decision note d D k out k' :
  owner_decision decision note = Ok d -> idle D (dk_decisions k) ->
  run_decision_command incident_of thread_id d k = (out, k') ->
  exists D', idle D' (dk_decisions k')
    /\ (D' = D \/ thread_id ∉ threads D
         /\ exists checkpoint_id t, D' = D ++ [record_of thread_id checkpoint_id d t])
    /\ (dk_checkpoint k' = dk_checkpoint k /\ dk_artifact k' = dk_artifact k
        \/ decided_as D' thread_id d)
    /\ (forall report, out = Ok report -> decided_as D' thread_id d)
    /\ (NoDup (threads D) -> NoDup (threads D')).
Proof.
  intros (_ & _ & Hs & Hok)%owner_decision_Ok Hidle. unfold run_decision_command.
  pose proof (decision_body_sound incident_of thread_id d Hok Hs D (dk_checkpoint k)
                (dk_artifact k) k (conj Hidle (conj eq_refl eq_refl))) as Hbody.
  assert (Hnd : forall D', grows D D' thread_id d -> NoDup (threads D) -> NoDup (threads D')).
  { intros D' [->|(Hno & cid & t & ->)] Hnd; [done|]. unfold threads in *.
    rewrite fmap_app. apply NoDup_app. split_and!; [done| |apply NoDup_singleton].
    by intros x Hx ->%list_elem_of_singleton. }
  destruct (decision_body incident_of thread_id d k) as [[r|e] k1]; intros [= <- <-].
  - destruct Hbody as (D' & Hc & Hg & Hd). exists D'. split; [by apply close_committed|].
    split; [exact Hg|]. split; [by right|]. split; [done|by apply Hnd].
  - destruct Hbody as (D' & Hc & Hg & Hd). exists D'. split; [by apply close_committed|].
    split; [exact Hg|]. split; [exact Hd|]. split; [done|by apply Hnd].
Qed.
End soundness.

Section completion.
Context `{Sqlite} `{Pydantic} `{Clocks} `{FreshIds} `{ToolCallingModel} `{LangGraphLaws} `{!ClockLaws}.
Context (iv : Investigation) (evidence : list Evidence).
Notation b := (iv_budgets iv).
Context (Hreg : registry_ok (iv_registry iv)) (Hpassages : passages_ok (iv_registry iv)).
Context (Hbudgets : budgets_ok b).
Context (Hevidence : Forall (evidence_ok (sc_incident_id (iv_scope iv))) evidence).
Context (incident_of : string -> res Investigation).
Context (Hincident : incident_of (sc_incident_id (iv_scope iv)) = Ok iv).

(** No decision yet, or this one. *)
Definition undecided_or (D : list DecisionRecord) (thread_id : string) (d : OwnerDecision) : Prop :=
  forall raw, raw ∈ D -> dr_thread_id raw = thread_id ->
    exists row, parse_decision raw = Ok row /\ matches row d = true.

Lemma existing_matches D thread_id d existing row :
  undecided_or D thread_id d -> existing_of D thread_id existing -> existing = Some row ->
  matches row d = true.
Proof.
  intros Hu Hex ->. destruct Hex as (raw & Hin & Ht & Hp).
  destruct (Hu raw Hin Ht) as (row' & Hp' & ?). congruence.
Qed.

Lemma waiting_tick w0 w cp p :
  waiting iv w0 w cp p -> waiting iv w0 (w <| w_ticks := S (w_ticks w) |>) cp p.
Proof.
  intros []. split; try done. eapply state_ok_ticks; [exact wt_state|..]; try done; simpl; [lia|].
  by destruct wt_state.
Qed.

(** The desk with a thread that waits, and nothing written yet. *)
Definition paused (w0 : World) (cp : Checkpoint) (p : InterruptPayload) (m : nat)
    (calls : list ToolArguments) (k : Desk) : Prop :=
  dk_checkpoint k = Some cp /\ dk_artifact k = None /\ waiting iv w0 (dk_world k) cp p
  /\ w_model_calls (dk_world k) = m /\ w_backend_calls (dk_world k) = calls.

(** The desk once the decision is applied. *)
Definition completed (p : InterruptPayload) (d : OwnerDecision) (m : nat)
    (calls : list ToolArguments) (report : InvestigationReport) (k : Desk) : Prop :=
  dk_artifact k = Some report /\ revalidate_report report = Ok report
  /\ ir_escalation report
     = Some {| er_reason := ip_reason p; er_decision := od_decision d;
               er_rejection_note := od_rejection_note d |}
  /\ w_model_calls (dk_world k) = m /\ w_backend_calls (dk_world k) = calls.

Variables (thread_id : string) (d : OwnerDecision).
Hypothesis decision_valid : decision_ok (od_decision d) (od_rejection_note d).
Hypothesis decision_stripped : py_strip <$> od_rejection_note d = od_rejection_note d.

Lemma apply_decision_completes w0 cp p D m calls existing :
  existing_of D thread_id existing ->
  triple (fun k => ready D (dk_decisions k) /\ paused w0 cp p m calls k)
    (apply_decision incident_of thread_id d existing)
    (completed p d m calls) (fun e k => e = unavailable /\ paused w0 cp p m calls k).
Proof.
  intros Hex. unfold apply_decision. apply triple_get. intros k0 [_ (Hcp0 & _ & Hw0 & _)].
  rewrite Hcp0. eapply triple_bind with
    (Q1 := fun a k => a = iv /\ ready D (dk_decisions k) /\ paused w0 cp p m calls k).
  { rewrite (so_incident _ _ _ _ (wt_state _ _ _ _ _ Hw0)), Hincident.
    intros k [_ Hk]. by split. }
  intros iv'. eapply triple_bind with
    (Q1 := fun _ k => iv' = iv /\ paused w0 cp p m calls k).
  - unfold record_first. destruct existing as [row|].
    { apply triple_ret. by intros k (? & _ & ?). }
    intros k1 (Hiv & Hc & Hp).
    pose proof Hp as (_ & _ & Hw & _). rewrite (wt_interrupt _ _ _ _ _ Hw).
    revert k1 Hc Hp Hw Hiv. intros k1 Hc Hp Hw ->.
    assert (Hrec : triple (fun k => ready D (dk_decisions k) /\ paused w0 cp p m calls k)
      (decided_at ← now; on_decisions (record_decision_before_resume thread_id
         (latest_checkpoint_id cp) d decided_at))
      (fun _ k => iv = iv /\ paused w0 cp p m calls k)
      (fun e k => e = unavailable /\ paused w0 cp p m calls k)).
    { eapply triple_bind with (Q1 := fun _ k => ready D (dk_decisions k) /\ paused w0 cp p m calls k).
      - intros k [? (? & ? & ? & ? & ?)]. split; [done|]. split_and!; try done. by apply waiting_tick.
      - intros t. eapply triple_conseq;
          [apply (on_decisions_frame (paused w0 cp p m calls)), record_spec; done
          |intros k Hk; exact Hk| |].
        + by intros [] k [_ ?].
        + intros e k [[[->|[_ Hno]] _] ?]; [done|by destruct Hex]. }
    exact (Hrec k1 (conj Hc Hp)).
  - intros []. eapply triple_bind with (Q1 := fun x k =>
      revalidate_report (res_report x) = Ok (res_report x)
      /\ ir_escalation (res_report x)
         = Some {| er_reason := ip_reason p; er_decision := od_decision d;
                   er_rejection_note := od_rejection_note d |}
      /\ w_model_calls (dk_world k) = m /\ w_backend_calls (dk_world k) = calls).
    + intros k (-> & Hcp & Hart & Hw & Hm & Hcalls).
      destruct (resume_decides iv Hbudgets w0 cp (dk_world k) p (od_decision d)
        (od_rejection_note d) Hw decision_valid)
        as (x & recorded & cp' & w' & Hrun & Hesc & _ & _ & Hval & Hm' & Hb' & _).
      unfold resume_thread. rewrite Hcp, Hrun. rewrite decision_stripped in Hesc.
      split_and!; try done; simpl; congruence.
    + intros x. eapply triple_bind with (Q1 := fun _ => completed p d m calls (res_report x)).
      { apply triple_modify. intros k (Hval & Hesc & Hm & Hcalls). by split_and!. }
      intros []. by apply triple_ret.
Qed.

Lemma decision_body_completes w0 cp p D m calls :
  undecided_or D thread_id d ->
  triple (fun k => idle D (dk_decisions k) /\ paused w0 cp p m calls k)
    (decision_body incident_of thread_id d)
    (completed p d m calls) (fun e k => e = unavailable /\ paused w0 cp p m calls k).
Proof.
  intros Hund. unfold decision_body. eapply triple_bind.
  { eapply triple_conseq;
      [apply (on_decisions_frame (paused w0 cp p m calls)), (ensure_decisions_spec D); done
      |intros k Hk; exact Hk|intros a k Hk; exact Hk|]. by intros e k [[-> _] Hu]. }
  intros []. eapply triple_bind.
  { eapply triple_conseq;
      [apply (on_decisions_frame (paused w0 cp p m calls)), (read_decision_spec D); done
      |intros k Hk; exact Hk|intros a k Hk; exact Hk|]. by intros e k [[-> _] Hu]. }
  intros existing. cbv beta. apply triple_get. intros k0 [[Hex _] (_ & Hart & _)].
  rewrite Hart.
  assert (Happly : triple
    (fun k => k = k0 /\ (existing_of D thread_id existing /\ ready D (dk_decisions k)) /\ paused w0 cp p m calls k)
    (apply_decision incident_of thread_id d existing)
    (completed p d m calls) (fun e k => e = unavailable /\ paused w0 cp p m calls k)).
  { eapply triple_conseq; [by apply (apply_decision_completes w0 cp p D)| |done|done].
    by intros k (_ & [_ ?] & ?). }
  destruct existing as [row|]; [|exact Happly].
  by rewrite (existing_matches D thread_id d (Some row) row Hund Hex eq_refl).
Qed.

End completion.

Section completes.
Context `{Sqlite} `{Pydantic} `{Clocks} `{FreshIds} `{ToolCallingModel} `{LangGraphLaws} `{!ClockLaws}.
Context (iv : Investigation) (evidence : list Evidence).
Notation b := (iv_budgets iv).
Context (Hreg : registry_ok (iv_registry iv)) (Hpassages : passages_ok (iv_registry iv)).
Context (Hbudgets : budgets_ok b).
Context (Hevidence : Forall (evidence_ok (sc_incident_id (iv_scope iv))) evidence).
Context (incident_of : string -> res Investigation).
Context (Hincident : incident_of (sc_incident_id (iv_scope iv)) = Ok iv).

(** A waiting thread takes its decision, even after a crash. With no decision
    recorded yet, or with this one recorded by an attempt that got no further,
    the command finishes the investigation: the report carries the decision and
    is stored, without another call of the model or a backend. Only the store
    can prevent it, and then the thread still waits as before. *)
Theorem decision_command_completes w0 cp D k thread_id decision note d out k' :
  limit_covers iv -> suspended_thread iv evidence w0 cp (dk_world k) ->
  dk_checkpoint k = Some cp -> dk_artifact k = None ->
  idle D (dk_decisions k) -> undecided_or D thread_id d ->
  owner_decision decision note = Ok d ->
  run_decision_command incident_of thread_id d k = (out, k') ->
  w_model_calls (dk_world k') = w_model_calls (dk_world k)
  /\ w_backend_calls (dk_world k') = w_backend_calls (dk_world k)
  /\ ((exists report p, out = Ok report /\ cp_interrupt cp = Some p
        /\ dk_artifact k' = Some report /\ revalidate_report report = Ok report
        /\ ir_escalation report
           = Some {| er_reason := ip_reason p; er_decision := od_decision d;
                     er_rejection_note := od_rejection_note d |})
      \/ out = Err unavailable /\ dk_checkpoint k' = Some cp /\ dk_artifact k' = None).
Proof.
  intros Hlim Hth Hcp Hart Hidle Hund (_ & _ & Hs & Hok)%owner_decision_Ok Hrun.
  destruct (suspended_waiting iv evidence Hreg Hpassages Hbudgets Hevidence w0 cp _ Hlim Hth) as [p Hw].
  pose proof (decision_body_completes iv Hbudgets incident_of Hincident thread_id d Hok Hs
    w0 cp p D (w_model_calls (dk_world k)) (w_backend_calls (dk_world k)) Hund k) as Hbody.
  unfold run_decision_command in Hrun.
  specialize (Hbody (conj Hidle (conj Hcp (conj Hart (conj Hw (conj eq_refl eq_refl)))))).
  destruct (decision_body incident_of thread_id d k) as [[report|e] k1]; injection Hrun as <- <-.
  - destruct Hbody as (Ha & Hval & Hesc & Hm & Hc). split; [done|]. split; [done|]. left.
    exists report, p. split_and!; try done. by destruct Hw.
  - destruct Hbody as (-> & Hcp' & Ha' & _ & Hm & Hc). split; [done|]. split; [done|]. by right.
Qed.
End completes.

Section retry.
Context `{Sqlite} `{Pydantic} `{Host} `{Clocks} `{ToolCallingModel} `{LangGraph}.

(** A retry reads back, a change of mind is refused. Once a thread's decision
    and its artifact are stored, the command touches neither the graph nor the
    table: the same decision gets the stored report, any other one is a
    conflict. *)
Theorem decision_retry incident_of thread_id d d2 D k report out k' :
  idle D (dk_decisions k) -> thread_id ∈ threads D ->
  (forall raw, raw ∈ D -> dr_thread_id raw = thread_id ->
     exists row, parse_decision raw = Ok row /\ dw_decision row = od_decision d
       /\ dw_rejection_note row = od_rejection_note d) ->
  dk_artifact k = Some report -> revalidate_report report = Ok report ->
  run_decision_command incident_of thread_id d2 k = (out, k') ->
  idle D (dk_decisions k') /\ dk_checkpoint k' = dk_checkpoint k
  /\ dk_world k' = dk_world k /\ dk_artifact k' = Some report
  /\ (out = Err unavailable \/ out = if decide (od_decision d2 = od_decision d
                                        /\ od_rejection_note d2 = od_rejection_note d)
                                     then Ok report else Err conflicting).
Proof.
  intros Hidle Hin Hrows Hart Hval Hrun. unfold run_decision_command in Hrun.
  set (same := fun k1 => dk_checkpoint k1 = dk_checkpoint k /\ dk_world k1 = dk_world k
                         /\ dk_artifact k1 = Some report).
  assert (Hbody : triple (fun k1 => idle D (dk_decisions k1) /\ same k1)
    (decision_body incident_of thread_id d2)
    (fun r k1 => committed D (dk_decisions k1) /\ same k1 /\ r = report
       /\ od_decision d2 = od_decision d /\ od_rejection_note d2 = od_rejection_note d)
    (fun e k1 => committed D (dk_decisions k1) /\ same k1 /\ (e = unavailable \/ e = conflicting
       /\ ~ (od_decision d2 = od_decision d /\ od_rejection_note d2 = od_rejection_note d)))).
  { unfold decision_body. eapply triple_bind.
    { eapply triple_conseq;
        [apply (on_decisions_frame same), (ensure_decisions_spec D); done
        |intros k1 Hk; exact Hk|intros a k1 Hk; exact Hk|].
      intros e k1 [[-> Hc] ?]. split; [by apply idle_committed|]. auto. }
    intros []. eapply triple_bind.
    { eapply triple_conseq;
        [apply (on_decisions_frame same), (read_decision_spec D); done
        |intros k1 Hk; exact Hk|intros a k1 Hk; exact Hk|].
      intros e k1 [[-> Hc] ?]. split; [by apply ready_committed|]. auto. }
    intros existing. cbv beta. apply triple_get. intros k0 [[Hex _] (_ & _ & Ha)]. rewrite Ha.
    destruct existing as [row|]; [|done].
    destruct Hex as (raw & Hraw & Ht & Hp).
    destruct (Hrows raw Hraw Ht) as (row' & Hp' & Hd & Hn). assert (row' = row) as -> by congruence.
    unfold matches. rewrite Hd, Hn.
    destruct (decide (od_decision d = od_decision d2)) as [He|Hne].
    2: { rewrite bool_decide_false by done. apply triple_raise.
         intros k1 (_ & [_ Hc] & Hs). split; [by apply ready_committed|]. split; [done|].
         right. split; [done|]. intros [? _]. congruence. }
    rewrite (bool_decide_true _ He). destruct (decide (od_rejection_note d = od_rejection_note d2)) as [He2|Hne].
    2: { rewrite bool_decide_false by done. apply triple_raise.
         intros k1 (_ & [_ Hc] & Hs). split; [by apply ready_committed|]. split; [done|].
         right. split; [done|]. intros [_ ?]. congruence. }
    rewrite (bool_decide_true _ He2). simpl. rewrite Hval. apply triple_ret.
    intros k1 (_ & [_ Hc] & Hs). split; [by apply ready_committed|]. by split_and!. }
  specialize (Hbody k (conj Hidle (conj eq_refl (conj eq_refl Hart)))).
  destruct (decision_body incident_of thread_id d2 k) as [[r|e] k1]; injection Hrun as <- <-.
  - destruct Hbody as (Hc & (? & ? & ?) & -> & ? & ?).
    split; [by apply close_committed|]. split_and!; try done. right. by rewrite decide_True.
  - destruct Hbody as (Hc & (? & ? & ?) & He).
    split; [by apply close_committed|]. split_and!; try done.
    destruct He as [->|[-> Hno]]; [by left|right]. by rewrite decide_False.
Qed.
End retry.

(** The boundary and the node agree. A decision that [OwnerDecision] accepts
    is read by the paused node exactly as it was validated, note included, and its
    note fits the report; one that [OwnerDecision] refuses would be refused by the
    node too, or would not fit the report. *)
Theorem owner_decision_agrees decision note :
  match owner_decision decision note with
  | Ok d =>
      parse_resume_decision (resume_value d) = Some (od_decision d, od_rejection_note d)
      /\ note_fits (resume_value d) /\ od_decision d = decision
      /\ od_rejection_note d = normalize_note note
  | Err _ =>
      parse_resume_decision (decision_json decision note) = None
      \/ ~ note_fits (decision_json decision note)
  end.
Proof.
  destruct (owner_decision decision note) as [d|e] eqn:Hd.
  - apply owner_decision_Ok in Hd as (Hdec & Hnote & Hs & Hok).
    apply decision_ok_parses in Hok as [Hp Hf]. rewrite Hs in Hp. by split_and!.
  - destruct decision, note as [n|]; try (by left).
    destruct (decide (py_strip n = "")) as [He|Hne].
    { left. simpl. by rewrite decide_True. }
    right. unfold note_fits. simpl. rewrite decide_False by done.
    unfold owner_decision, normalize_note in Hd. rewrite decide_False in Hd by done.
    unfold max_length in Hd. destruct (Z.leb_spec (str_len (py_strip n)) 300); [done|lia].
Qed.
