(* ===== verification/ControlPlane.v ===== *)
(** What the two replay control planes share (api.py, report_snapshot.py): the
    records they store and hand out, the exceptions they raise, the changes a job
    and a delivery go through, and the lifecycle those changes make up.

    Both planes write the same columns; [Job] and [Delivery] are those columns.  A
    moment is what [time.time()] gives, a float.  The fields of a timeline event are
    ints, floats, booleans and strings. *)
From Stdlib Require Import ZArith Lia.
From stdpp Require Import prelude strings list gmap.
From S2P Require Import Prelude PyText Float64 Tools Domain Approvals.
Local Open Scope Z_scope.

(** * Vocabularies *)

Inductive ScenarioFamily :=
  | S_CONFIGURATION_CHANGE
  | S_DOWNSTREAM_TIMEOUT_RETRY_AMPLIFICATION
  | S_RESOURCE_POOL_SATURATION
  | S_AMBIGUOUS_TELEMETRY.

Inductive ReplaySeed := DEVELOPMENT.

Inductive InvestigationStatus :=
  | I_QUEUED
  | I_RUNNING
  | I_PAUSED_APPROVAL
  | I_COMPLETED
  | I_FAILED_SAFE.

#[export] Instance ScenarioFamily_eq : EqDecision ScenarioFamily.
Proof. solve_decision. Defined.
#[export] Instance ReplaySeed_eq : EqDecision ReplaySeed.
Proof. solve_decision. Defined.
#[export] Instance InvestigationStatus_eq : EqDecision InvestigationStatus.
Proof. solve_decision. Defined.

#[export] Instance ScenarioFamily_enum : StrEnum ScenarioFamily := {
  members := [S_CONFIGURATION_CHANGE; S_DOWNSTREAM_TIMEOUT_RETRY_AMPLIFICATION;
              S_RESOURCE_POOL_SATURATION; S_AMBIGUOUS_TELEMETRY];
  value f := match f with
    | S_CONFIGURATION_CHANGE => "configuration_change"
    | S_DOWNSTREAM_TIMEOUT_RETRY_AMPLIFICATION => "downstream_timeout_retry_amplification"
    | S_RESOURCE_POOL_SATURATION => "resource_pool_saturation"
    | S_AMBIGUOUS_TELEMETRY => "ambiguous_telemetry"
    end;
}.

#[export] Instance ReplaySeed_enum : StrEnum ReplaySeed := {
  members := [DEVELOPMENT];
  value _ := "development";
}.

#[export] Instance InvestigationStatus_enum : StrEnum InvestigationStatus := {
  members := [I_QUEUED; I_RUNNING; I_PAUSED_APPROVAL; I_COMPLETED; I_FAILED_SAFE];
  value s := match s with
    | I_QUEUED => "QUEUED"
    | I_RUNNING => "RUNNING"
    | I_PAUSED_APPROVAL => "PAUSED_APPROVAL"
    | I_COMPLETED => "COMPLETED"
    | I_FAILED_SAFE => "FAILED_SAFE"
    end;
}.

#[export] Instance ScenarioFamily_laws : StrEnumLaws ScenarioFamily.
Proof. solve_enum. Qed.
#[export] Instance ReplaySeed_laws : StrEnumLaws ReplaySeed.
Proof. split; [intros []; cbn; set_solver|by intros [] []]. Qed.
#[export] Instance InvestigationStatus_laws : StrEnumLaws InvestigationStatus.
Proof. solve_enum. Qed.

(** * Records *)

(** The body of a create request. *)
Record CreateInvestigationRequest := { cr_scenario_family : ScenarioFamily }.

Record InvestigationView := { iw_investigation_id : string; iw_status : InvestigationStatus }.

(** A value in a timeline event's fields. *)
Inductive EventValue :=
  | EInt (n : Z)
  | EFloat (x : f64)
  | EBool (b : bool)
  | EStr (s : string).

Record TimelineEvent := {
  te_ordinal : Z;
  te_name : string;
  te_fields : list (string * EventValue);
}.

Record WorkerClaim := {
  wc_scenario_family : ScenarioFamily;
  wc_seed : ReplaySeed;
  wc_investigation_id : string;
  wc_owner_email : string;
  wc_checkpoint_id : option string;
  wc_incident_id : option string;
  wc_owner_decision : option OwnerDecision;
  wc_claim_token : string;
}.

Record DeliveryClaim := {
  de_investigation_id : string;
  de_status : InvestigationStatus;
  de_report_artifact : string;
  de_report_content : string;
  de_report_sha256 : string;
  de_destination_email : string;
  de_delivery_id : string;
  de_claim_token : string;
}.

(** A stored job. *)
Record Job := {
  jb_id : string;
  jb_owner : string;
  jb_status : string;
  jb_scenario_family : string;
  jb_seed : string;
  jb_idempotency_key : option string;
  jb_checkpoint_id : option string;
  jb_incident_id : option string;
  jb_report_artifact : option string;
  jb_report_content : option string;
  jb_report_sha256 : option string;
  jb_attempt_count : Z;
  jb_available_at : f64;
  jb_failure_reason : option string;
  jb_claim_token : option string;
  jb_claim_expires_at : option f64;
}.

(** A stored delivery. *)
Record Delivery := {
  dl_id : string;
  dl_destination_email : string;
  dl_status : string;
  dl_claim_token : option string;
  dl_claim_expires_at : option f64;
  dl_attempt_count : Z;
  dl_available_at : f64;
  dl_failure_reason : option string;
}.

(** A stored owner decision. *)
Record Decision := {
  dc_checkpoint_id : string;
  dc_decision : string;
  dc_rejection_note : option string;
}.

#[export] Instance settable_Job : Settable Job := fun j =>
  {| jb_id := jb_id j; jb_owner := jb_owner j; jb_status := jb_status j;
     jb_scenario_family := jb_scenario_family j; jb_seed := jb_seed j;
     jb_idempotency_key := jb_idempotency_key j; jb_checkpoint_id := jb_checkpoint_id j;
     jb_incident_id := jb_incident_id j; jb_report_artifact := jb_report_artifact j;
     jb_report_content := jb_report_content j; jb_report_sha256 := jb_report_sha256 j;
     jb_attempt_count := jb_attempt_count j; jb_available_at := jb_available_at j;
     jb_failure_reason := jb_failure_reason j; jb_claim_token := jb_claim_token j;
     jb_claim_expires_at := jb_claim_expires_at j |}.

#[export] Instance settable_Delivery : Settable Delivery := fun d =>
  {| dl_id := dl_id d; dl_destination_email := dl_destination_email d;
     dl_status := dl_status d; dl_claim_token := dl_claim_token d;
     dl_claim_expires_at := dl_claim_expires_at d; dl_attempt_count := dl_attempt_count d;
     dl_available_at := dl_available_at d; dl_failure_reason := dl_failure_reason d |}.

(** * Exceptions *)

Definition not_found : exn := OtherError "ControlPlaneNotFoundError".
Definition conflict : exn := OtherError "ControlPlaneConflictError".
Definition corrupt : exn := OtherError "ControlPlaneIntegrityError".

(** * Settings *)

Record PlaneConfig := {
  pf_claim_lease_seconds : f64;
  pf_retry_base_seconds : f64;
  pf_max_replay_attempts : Z;
  pf_max_delivery_attempts : Z;
}.

(** [_validate_positive] and its SQLite twin: [value <= 0] is refused. *)
Definition validate_positive (c : PlaneConfig) : res PlaneConfig :=
  if f_ge f_zero (pf_claim_lease_seconds c) || f_ge f_zero (pf_retry_base_seconds c)
     || (pf_max_replay_attempts c <=? 0) || (pf_max_delivery_attempts c <=? 0)
  then Err ValueError else Ok c.

Definition DEFAULT_PLANE : PlaneConfig := {|
  pf_claim_lease_seconds := f_of_Z 300; pf_retry_base_seconds := f_of_Z 5;
  pf_max_replay_attempts := 3; pf_max_delivery_attempts := 3 |}.

(** [min(x, y)] of two floats: the second operand only when it is the smaller. *)
Definition f_min (x y : f64) : f64 := if f_lt y x then y else x.

(** [2 ** n] as an operand of a float product: a float for a negative exponent, an
    int that no float can hold from 1024 on. *)
Definition two_to (n : Z) : res f64 :=
  if n <? 0 then Ok (default f_zero (int_truediv 1 (2 ^ (- n))))
  else if 1024 <=? n then Err OverflowError else Ok (f_of_Z (2 ^ n)).

Definition retry_delay (c : PlaneConfig) (attempt : Z) : res f64 :=
  p ← two_to (attempt - 1);
  Ok (f_min (f_mul (pf_retry_base_seconds c) p) (f_of_Z 3600)).

(** The moments read from [time.time()] by the plane. *)
Class PlaneClock := plane_time : nat -> f64.

(** What a read of <artifacts>/<id>/report.md gives, one read after another. *)
Class Artifacts := artifact_text : nat -> string -> res string.

(** * Report references *)

Fixpoint split_slash (cur : string) (s : string) : list string :=
  match s with
  | EmptyString => [cur]
  | String c s =>
      if decide (code c = 47) then cur :: split_slash "" s
      else split_slash (cur +:+ String c "") s
  end.

(** [pathlib.Path] of a text: its root and its parts. *)
Definition path_of (s : string) : string * list string :=
  (if is_prefix "//" s && negb (is_prefix "///" s) then "//"
   else if is_prefix "/" s then "/" else "",
   List.filter (fun p => negb (bool_decide (p = "" \/ p = "."))) (split_slash "" s)).

(** [Path(investigation_id) / "report.md"] *)
Definition expected_path (investigation_id : string) : string * list string :=
  let '(root, parts) := path_of investigation_id in (root, parts ++ ["report.md"]).

Definition validate_report_reference (investigation_id report_artifact : string)
    : res (string * list string) :=
  let '(root, parts) := path_of report_artifact in
  if negb (bool_decide ((root, parts) = expected_path investigation_id)) then Err ValueError
  else if negb (bool_decide (root = "")) || bool_decide (".." ∈ parts) then Err ValueError
  else Ok (root, parts).

Definition read_report_snapshot `{Artifacts} (n : nat) (investigation_id report_artifact : string)
    : res string :=
  _ ← validate_report_reference investigation_id report_artifact;
  artifact_text n investigation_id.

(** [str.isalnum], for the code points a string holds here. *)
Definition alnum_code (n : Z) : bool :=
  (48 <=? n) && (n <=? 57) || (65 <=? n) && (n <=? 90) || (97 <=? n) && (n <=? 122)
  || bool_decide (n ∈ [170; 178; 179; 181; 185; 186; 188; 189; 190])
  || (192 <=? n) && negb (n =? 215) && negb (n =? 247).

Definition isalnum (s : string) : bool :=
  negb (bool_decide (s = ""))
  && forallb (fun c => alnum_code (code c)) (String.list_ascii_of_string s).

(** * What an operation writes

    Each of these is the [data.update(...)], or the [UPDATE], of one operation. *)

Definition queued_job (id owner : string) (request : CreateInvestigationRequest)
    (idempotency_key : string) : Job :=
  {| jb_id := id; jb_owner := owner; jb_status := value I_QUEUED;
     jb_scenario_family := value (cr_scenario_family request); jb_seed := value DEVELOPMENT;
     jb_idempotency_key := Some idempotency_key; jb_checkpoint_id := None;
     jb_incident_id := None; jb_report_artifact := None; jb_report_content := None;
     jb_report_sha256 := None; jb_attempt_count := 0; jb_available_at := f_zero;
     jb_failure_reason := None; jb_claim_token := None; jb_claim_expires_at := None |}.

Definition released (j : Job) : Job :=
  j <| jb_status := value I_QUEUED |> <| jb_claim_token := None |> <| jb_claim_expires_at := None |>.

Definition rescheduled (attempt : Z) (retry_at : f64) (j : Job) : Job :=
  released j <| jb_attempt_count := attempt |> <| jb_available_at := retry_at |>.

Definition given_up (attempt : Z) (reason : string) (j : Job) : Job :=
  released j <| jb_attempt_count := attempt |> <| jb_failure_reason := Some reason |>.

Definition claimed (token : string) (expires_at : f64) (j : Job) : Job :=
  j <| jb_status := value I_RUNNING |> <| jb_claim_token := Some token |>
    <| jb_claim_expires_at := Some expires_at |>.

Definition renewed (expires_at : f64) (j : Job) : Job := j <| jb_claim_expires_at := Some expires_at |>.

Definition reserved_incident (incident_id : string) (j : Job) : Job :=
  j <| jb_incident_id := Some incident_id |>.

Definition paused_at (checkpoint_id : string) (j : Job) : Job :=
  j <| jb_status := value I_PAUSED_APPROVAL |> <| jb_checkpoint_id := Some checkpoint_id |>
    <| jb_claim_token := None |> <| jb_claim_expires_at := None |>.

Definition decided_job (j : Job) : Job := j <| jb_status := value I_QUEUED |>.

Definition completed_job (artifact content sha256 : string) (j : Job) : Job :=
  j <| jb_status := value I_COMPLETED |> <| jb_report_artifact := Some artifact |>
    <| jb_report_content := Some content |> <| jb_report_sha256 := Some sha256 |>
    <| jb_claim_token := None |> <| jb_claim_expires_at := None |>.

Definition pending_delivery (id destination : string) : Delivery :=
  {| dl_id := id; dl_destination_email := destination; dl_status := "PENDING";
     dl_claim_token := None; dl_claim_expires_at := None; dl_attempt_count := 0;
     dl_available_at := f_zero; dl_failure_reason := None |}.

Definition released_delivery (d : Delivery) : Delivery :=
  d <| dl_status := "PENDING" |> <| dl_claim_token := None |> <| dl_claim_expires_at := None |>.

Definition rescheduled_delivery (attempt : Z) (retry_at : f64) (d : Delivery) : Delivery :=
  released_delivery d <| dl_attempt_count := attempt |> <| dl_available_at := retry_at |>.

Definition given_up_delivery (attempt : Z) (reason : string) (d : Delivery) : Delivery :=
  released_delivery d <| dl_attempt_count := attempt |> <| dl_failure_reason := Some reason |>.

Definition claimed_delivery (token : string) (expires_at : f64) (d : Delivery) : Delivery :=
  d <| dl_status := "SENDING" |> <| dl_claim_token := Some token |>
    <| dl_claim_expires_at := Some expires_at |>.

Definition renewed_delivery (expires_at : f64) (d : Delivery) : Delivery :=
  d <| dl_claim_expires_at := Some expires_at |>.

Definition sent_delivery (d : Delivery) : Delivery :=
  d <| dl_status := "SENT" |> <| dl_claim_token := None |> <| dl_claim_expires_at := None |>.

(** * What an operation reads off a record *)

Definition has_status (s : InvestigationStatus) (j : Job) : bool := bool_decide (jb_status j = value s).

(** [... or expires_at is None or expires_at <= now], negated. *)
Definition lease_current (expires_at : option f64) (now : f64) : bool :=
  match expires_at with None => false | Some e => negb (f_ge now e) end.

(** The guard of a worker's report: the job runs, under this claim, in time. *)
Definition claim_current (token : string) (now : f64) (j : Job) : bool :=
  has_status I_RUNNING j && bool_decide (jb_claim_token j = Some token)
  && lease_current (jb_claim_expires_at j) now.

(** The same without the clock, for giving a claim back. *)
Definition claim_held (token : string) (j : Job) : bool :=
  has_status I_RUNNING j && bool_decide (jb_claim_token j = Some token).

Definition delivery_held (token : string) (d : Delivery) : bool :=
  bool_decide (dl_status d = "SENDING") && bool_decide (dl_claim_token d = Some token).

Definition delivery_current (token : string) (now : f64) (d : Delivery) : bool :=
  delivery_held token d && lease_current (dl_claim_expires_at d) now.

Definition view_of (j : Job) : res InvestigationView :=
  match jb_failure_reason j with
  | Some _ => Ok {| iw_investigation_id := jb_id j; iw_status := I_FAILED_SAFE |}
  | None =>
      match of_value (jb_status j) with
      | None => Err corrupt
      | Some s => Ok {| iw_investigation_id := jb_id j; iw_status := s |}
      end
  end.

Definition status_of (j : Job) : res InvestigationStatus :=
  match jb_failure_reason j with
  | Some _ => Ok I_FAILED_SAFE
  | None => match of_value (jb_status j) with None => Err corrupt | Some s => Ok s end
  end.

Definition incident_of_job (j : Job) : res (option string) :=
  match jb_incident_id j with
  | None => Ok None
  | Some i => if isalnum i then Ok (Some i) else Err corrupt
  end.

(** [DecisionRequest(decision=..., rejection_note=...)] of what is stored. *)
Definition decision_request (decision : string) (note : option string) : res OwnerDecision :=
  match of_value decision with
  | None => Err ValidationError
  | Some d => owner_decision d note
  end.

Definition read_report `{Host} (investigation_id : string) (j : Job) : res string :=
  if negb (has_status I_COMPLETED j) then Err conflict
  else match jb_report_artifact j with
  | None => Err corrupt
  | Some artifact =>
      if decide (artifact = "") then Err corrupt
      else match jb_report_content j, jb_report_sha256 j with
      | Some content, Some sha256 =>
          match validate_report_reference investigation_id artifact with
          | Err _ => Err corrupt
          | Ok _ => if decide (sha256_hex content = sha256) then Ok content else Err corrupt
          end
      | _, _ => Err corrupt
      end
  end.

(** The first element no other comes strictly before: the head of a stable sort. *)
Fixpoint first_least {A} (before : A -> A -> bool) (l : list A) : option A :=
  match l with
  | [] => None
  | x :: l =>
      match first_least before l with
      | None => Some x
      | Some y => Some (if before y x then y else x)
      end
  end.

(** * The interface of a control plane

    What the HTTP routes and the workers call, and what they are told. *)

Inductive PlaneOp :=
  | op_create (owner_email : string) (r : CreateInvestigationRequest) (idempotency_key : string)
  | op_status (owner_email id : string)
  | op_events (owner_email id : string)
  | op_decide (owner_email id : string) (decision : OwnerDecision)
  | op_report (owner_email id : string)
  | op_renew_running (id token : string)
  | op_reserve_incident (id token : string)
  | op_scenario_status (incident_id : string)
  | op_incident_id_for (id : string)
  | op_claim_next
  | op_mark_paused (id checkpoint_id token : string)
  | op_requeue_running (id token : string)
  | op_retry_running (id token : string) (error : exn)
  | op_finalize (id report_artifact token : string)
  | op_claim_delivery
  | op_mark_delivered (id token : string)
  | op_renew_delivery (id token : string)
  | op_release_delivery (id token : string)
  | op_retry_delivery (id token : string) (error : exn).

Inductive Answer :=
  | AView (r : res InvestigationView)
  | AEvents (r : res (list TimelineEvent))
  | AText (r : res string)
  | ADone (r : res unit)
  | AStatus (r : res (option InvestigationStatus))
  | AIncident (r : res (option string))
  | AClaim (r : res (option WorkerClaim))
  | ARetry (r : res bool)
  | ADelivery (r : res (option DeliveryClaim)).

Definition is_answer (a : Answer) : bool :=
  match a with
  | AView r => is_ok r
  | AEvents r => is_ok r
  | AText r => is_ok r
  | ADone r => is_ok r
  | AStatus r => is_ok r
  | AIncident r => is_ok r
  | AClaim r => is_ok r
  | ARetry r => is_ok r
  | ADelivery r => is_ok r
  end.

(** A backend, with its clock at a given moment. *)
Class ControlPlane (State : Type) := {
  ask : PlaneOp -> State -> Answer * State;
  with_clock : nat -> State -> State;
}.

Definition answered {S A} (into : res A -> Answer) (m : ST S exn A) (s : S) : Answer * S :=
  (into (m s).1, (m s).2).

Section plane_histories.
Context {State : Type} `{ControlPlane State}.

Definition history (ops : list PlaneOp) (s : State) : State :=
  fold_left (fun s op => (ask op s).2) ops s.

(** What a plane answers to operations that come at given moments. *)
Fixpoint conversation (ops : list (nat * PlaneOp)) (s : State) : list Answer :=
  match ops with
  | [] => []
  | (moment, op) :: ops =>
      let '(a, s') := ask op (with_clock moment s) in a :: conversation ops s'
  end.

(** Where a plane is after them. *)
Definition state_after (ops : list (nat * PlaneOp)) (s : State) : State :=
  fold_left (fun s '(moment, op) => (ask op (with_clock moment s)).2) ops s.
End plane_histories.
