(* ===== verification/Workers.v ===== *)
(** The workers of the control plane (api_runtime.py, [ReplayWorker],
    [ReportDeliveryWorker], [BackgroundControlPlaneWorkers]): clients of a
    [ControlPlane], whichever backend it is.

    While a job runs, its heartbeat renews the lease from another thread, the runner
    may ask the plane itself, and so may owners and other workers; the plane's lock,
    or its transactions, put all of this in one order.  A turn gives that order: the
    [Beat]s before the runner's outcome is looked at, those after it until the
    outcome is recorded, and what is asked between an exception and the retry. *)
From Stdlib Require Import ZArith Lia.
From stdpp Require Import prelude strings list.
From S2P Require Import Prelude PyText Float64 Tools Domain World Approvals ControlPlane.
Local Open Scope Z_scope.

Inductive WorkerOutcome :=
  | PausedWorkerOutcome (checkpoint_id : string)
  | FinalizedWorkerOutcome (report_artifact : string).

(** The heartbeat's next renewal, or anything else asked of the plane. *)
Inductive Beat := beat | other (op : PlaneOp).

Definition is_conflict (e : exn) : bool :=
  match e with OtherError name => bool_decide (name = "ControlPlaneConflictError") | _ => false end.

Section workers.
Context {State : Type} `{ControlPlane State}.
Notation WorkM := (ST State exn).

(** * Asking *)

Definition asking {A} (op : PlaneOp) (out : Answer -> option (res A)) : WorkM A := fun s =>
  let '(a, s') := ask op s in
  match out a with
  | Some r => (r, s')
  | None => (Err TypeError, s')
  end.

Definition done_answer (a : Answer) : option (res unit) := match a with ADone r => Some r | _ => None end.
Definition claim_answer (a : Answer) : option (res (option WorkerClaim)) :=
  match a with AClaim r => Some r | _ => None end.
Definition retry_answer (a : Answer) : option (res bool) := match a with ARetry r => Some r | _ => None end.
Definition delivery_answer (a : Answer) : option (res (option DeliveryClaim)) :=
  match a with ADelivery r => Some r | _ => None end.

Definition renewal (op : PlaneOp) : WorkM (option exn) := fun s =>
  match asking op done_answer s with
  | (Ok _, s') => (Ok None, s')
  | (Err e, s') => (Ok (Some e), s')
  end.

Definition elsewhere (op : PlaneOp) : WorkM unit := fun s => (Ok tt, (ask op s).2).

(** The heartbeat thread ends with its first failure. *)
Fixpoint meanwhile (renew : PlaneOp) (failed : option exn) (beats : list Beat) : WorkM (option exn) :=
  match beats with
  | [] => mret failed
  | beat :: beats =>
      match failed with
      | Some _ => meanwhile renew failed beats
      | None => failed ← renewal renew; meanwhile renew failed beats
      end
  | other op :: beats => _ ← elsewhere op; meanwhile renew failed beats
  end.

Fixpoint everyone (ops : list PlaneOp) : WorkM unit :=
  match ops with
  | [] => mret tt
  | op :: ops => _ ← elsewhere op; everyone ops
  end.

(** * The replay worker *)

Record ReplayWorker := {
  rw_reconcile : option (WorkM unit);
  rw_on_paused : option (WorkerClaim -> WorkM unit);
  rw_on_finalized : option (WorkerClaim -> WorkM unit);
  rw_on_failed : option (WorkerClaim -> WorkM unit);
}.

(** What happens while a claimed job runs, and what the runner makes of it. *)
Record Turn (R : Type) := {
  tn_during : list Beat;
  tn_result : res R;
  tn_then : list Beat;
  tn_after : list PlaneOp;
}.
#[global] Arguments tn_during {R} _.
#[global] Arguments tn_result {R} _.
#[global] Arguments tn_then {R} _.
#[global] Arguments tn_after {R} _.

Definition call_hook {A} (hook : option (A -> WorkM unit)) (a : A) : WorkM unit :=
  match hook with None => mret tt | Some f => f a end.

Definition record_outcome (w : ReplayWorker) (c : WorkerClaim) (outcome : WorkerOutcome) : WorkM unit :=
  match outcome with
  | PausedWorkerOutcome checkpoint_id =>
      _ ← asking (op_mark_paused (wc_investigation_id c) checkpoint_id (wc_claim_token c)) done_answer;
      call_hook (rw_on_paused w) c
  | FinalizedWorkerOutcome report_artifact =>
      _ ← asking (op_finalize (wc_investigation_id c) report_artifact (wc_claim_token c)) done_answer;
      call_hook (rw_on_finalized w) c
  end.

(** The first failure of a heartbeat is the turn's, once the runner has returned. *)
Definition check_heartbeat (failed : option exn) : WorkM unit :=
  match failed with Some e => raise e | None => mret tt end.

Definition give_back (w : ReplayWorker) (c : WorkerClaim) (e : exn) : WorkM unit :=
  try_except
    (retryable ← asking (op_retry_running (wc_investigation_id c) (wc_claim_token c) e) retry_answer;
     if (retryable : bool) then mret tt else call_hook (rw_on_failed w) c)
    (fun e' => if is_conflict e' then mret tt else raise e').

Definition work (w : ReplayWorker) (t : Turn WorkerOutcome) (c : WorkerClaim) : WorkM unit :=
  let renew := op_renew_running (wc_investigation_id c) (wc_claim_token c) in
  try_except
    (failed ← meanwhile renew None (tn_during t);
     outcome ← lift_result (tn_result t);
     _ ← check_heartbeat failed;
     _ ← meanwhile renew None (tn_then t);
     record_outcome w c outcome)
    (fun e => _ ← everyone (tn_after t); _ ← give_back w c e; raise e).

Definition run_once (w : ReplayWorker) (runner : WorkerClaim -> Turn WorkerOutcome) : WorkM bool :=
  _ ← match rw_reconcile w with None => mret tt | Some f => f end;
  claim ← asking op_claim_next claim_answer;
  match claim with
  | None => mret false
  | Some c => _ ← work w (runner c) c; mret true
  end.

(** * The delivery worker *)

Definition give_back_delivery (c : DeliveryClaim) (e : exn) : WorkM unit :=
  try_except
    (_ ← asking (op_retry_delivery (de_investigation_id c) (de_claim_token c) e) retry_answer; mret tt)
    (fun e' => if is_conflict e' then mret tt else raise e').

Definition deliver (t : Turn unit) (c : DeliveryClaim) : WorkM unit :=
  let renew := op_renew_delivery (de_investigation_id c) (de_claim_token c) in
  try_except
    (failed ← meanwhile renew None (tn_during t);
     _ ← lift_result (tn_result t);
     _ ← check_heartbeat failed;
     _ ← meanwhile renew None (tn_then t);
     asking (op_mark_delivered (de_investigation_id c) (de_claim_token c)) done_answer)
    (fun e => _ ← everyone (tn_after t); _ ← give_back_delivery c e; raise e).

Definition deliver_once (sender : DeliveryClaim -> Turn unit) : WorkM bool :=
  claim ← asking op_claim_delivery delivery_answer;
  match claim with
  | None => mret false
  | Some c => _ ← deliver (sender c) c; mret true
  end.

(** * The background loop *)

(** One round of [_run]: whether it should look again at once. *)
Definition poll (w : ReplayWorker) (runner : WorkerClaim -> Turn WorkerOutcome)
    (sender : DeliveryClaim -> Turn unit) : WorkM bool :=
  try_except
    (progressed ← run_once w runner;
     delivered ← deliver_once sender;
     mret (delivered || progressed))
    (fun _ => mret false).
End workers.

(** * Lemmas *)

Section only_asking.
Context {State : Type} `{ControlPlane State}.
Notation WorkM := (ST State exn).

(** All a computation does to the plane is to ask it. *)
Definition only_asks {A} (m : WorkM A) : Prop := forall s, exists ops, (m s).2 = history ops s.

Lemma only_asks_pure {A} (m : WorkM A) : (forall s, (m s).2 = s) -> only_asks m.
Proof. intros Hm s. exists []. by rewrite Hm. Qed.

Lemma only_asks_ret {A} (a : A) : only_asks (mret a).
Proof. by apply only_asks_pure. Qed.

Lemma only_asks_raise {A} e : only_asks (raise (A := A) e).
Proof. by apply only_asks_pure. Qed.

Lemma only_asks_lift {A} (r : res A) : only_asks (lift_result r).
Proof. by apply only_asks_pure. Qed.

Lemma only_asks_asking {A} op (out : Answer -> option (res A)) : only_asks (asking op out).
Proof.
  intros s. exists [op]. unfold asking. simpl. destruct (ask op s) as [a s']. by destruct (out a).
Qed.

Lemma only_asks_bind {A B} (m : WorkM A) (k : A -> WorkM B) :
  only_asks m -> (forall a, only_asks (k a)) -> only_asks (m ≫= k).
Proof.
  intros Hm Hk s. destruct (Hm s) as [ops Hops]. unfold mbind, ST_bind.
  destruct (m s) as [[a|e] s']; simpl in *; [|by exists ops].
  destruct (Hk a s') as [ops' Hops']. exists (ops ++ ops'). rewrite Hops', Hops.
  unfold history. by rewrite fold_left_app.
Qed.

Lemma only_asks_try {A} (m : WorkM A) h :
  only_asks m -> (forall e, only_asks (h e)) -> only_asks (try_except m h).
Proof.
  intros Hm Hh s. destruct (Hm s) as [ops Hops]. unfold try_except.
  destruct (m s) as [[a|e] s']; simpl in *; [by exists ops|].
  destruct (Hh e s') as [ops' Hops']. exists (ops ++ ops'). rewrite Hops', Hops.
  unfold history. by rewrite fold_left_app.
Qed.

Lemma only_asks_renewal op : only_asks (renewal op).
Proof.
  intros s. destruct (only_asks_asking op done_answer s) as [ops Hops]. exists ops. rewrite <- Hops.
  unfold renewal. by destruct (asking op done_answer s) as [[a|e] s'].
Qed.

Lemma only_asks_elsewhere op : only_asks (elsewhere op).
Proof. intros s. by exists [op]. Qed.

Lemma only_asks_meanwhile renew beats : forall failed, only_asks (meanwhile renew failed beats).
Proof.
  induction beats as [|[|op] beats IH]; intros failed; simpl.
  - apply only_asks_ret.
  - destruct failed; [apply IH|]. apply only_asks_bind; [apply only_asks_renewal|apply IH].
  - apply only_asks_bind; [apply only_asks_elsewhere|intros _; apply IH].
Qed.

Lemma only_asks_everyone ops : only_asks (everyone ops).
Proof.
  induction ops as [|op ops IH]; simpl; [apply only_asks_ret|].
  apply only_asks_bind; [apply only_asks_elsewhere|by intros _].
Qed.

Lemma everyone_Ok ops : forall s, (everyone ops s).1 = Ok tt.
Proof. induction ops as [|op ops IH]; intros s; [done|]. apply IH. Qed.

(** The hooks ask, too. *)
Definition hook_asks {A} (hook : option (A -> WorkM unit)) : Prop :=
  match hook with None => True | Some f => forall a, only_asks (f a) end.

Lemma only_asks_hook {A} (hook : option (A -> WorkM unit)) a : hook_asks hook -> only_asks (call_hook hook a).
Proof. destruct hook; [done|intros _; apply only_asks_ret]. Qed.
End only_asking.

#[export] Hint Resolve only_asks_ret only_asks_raise only_asks_lift only_asks_asking only_asks_bind
  only_asks_try only_asks_meanwhile only_asks_everyone only_asks_hook : asks.
