(* ===== verification/Lab.v ===== *)
(** The lab's scenarios (scenario_control.py): starting one, resetting it, releasing
    the single active marker.

    The run tree is a file system shared by processes.  [Lab] holds what is on it: the
    active marker and the run directories.  Every operation on it, and every request
    to the gateway, is one step of the machine; [machine_fault n] says whether the n-th
    raises.  [killed] stands for the end of the process: no handler sees it, and no
    [finally] runs.  The scenario lock is held by one process at a time and leaves
    nothing behind. *)
From Stdlib Require Import ZArith Lia.
From stdpp Require Import prelude strings list gmap.
From S2P Require Import Prelude PyText Float64 Tools Domain World Evidence GraphState ControlPlane.
Local Open Scope Z_scope.

(** * Scenario files (lab/scenarios/*.json) *)

Record ChangeEntry := {
  ce_service : string;
  ce_summary : string;
  ce_config_key : option string;
  ce_offset_seconds : Z;
}.

Record SeedVariant := {
  sv_change_offsets : option (list Z);
  sv_faulted_config_overrides : option (list (string * json));
  sv_traffic_volume_bump : option Z;
}.

Record ScenarioDefinition := {
  sd_family : string;
  sd_endpoint : string;
  sd_services : list string;
  sd_symptom : string;
  sd_healthy_config : list (string * json);
  sd_faulted_config : list (string * json);
  sd_baseline_requests : Z;
  sd_fault_requests : Z;
  sd_traffic_volume_bump : Z;
  sd_changes : list ChangeEntry;
  sd_topology : list (string * json);
  sd_expected : list (string * json);
  sd_seed_variants : list (string * SeedVariant);
}.

Definition with_offset (change : ChangeEntry) (offset : Z) : ChangeEntry :=
  {| ce_service := ce_service change; ce_summary := ce_summary change;
     ce_config_key := ce_config_key change; ce_offset_seconds := offset |}.

(** [zip(..., strict=True)] *)
Fixpoint zip_offsets (changes : list ChangeEntry) (offsets : list Z) : res (list ChangeEntry) :=
  match changes, offsets with
  | [], [] => Ok []
  | change :: changes, offset :: offsets =>
      rest ← zip_offsets changes offsets; Ok (with_offset change offset :: rest)
  | _, _ => Err ValueError
  end.

(** [{**d, **overrides}] *)
Definition dict_merge (d overrides : list (string * json)) : list (string * json) :=
  fold_left (fun d '(k, v) => dict_set k v d) overrides d.

Definition apply_seed_variant (d : ScenarioDefinition) (seed : string) : res ScenarioDefinition :=
  match sd_seed_variants d with
  | [] => Ok d
  | variants =>
      match dict_get seed variants with
      | None => Err (LabError UNKNOWN_SEED)
      | Some v =>
          changes ← match sv_change_offsets v with
                    | None => Ok (sd_changes d)
                    | Some offsets => zip_offsets (sd_changes d) offsets
                    end;
          Ok {| sd_family := sd_family d; sd_endpoint := sd_endpoint d; sd_services := sd_services d;
                sd_symptom := sd_symptom d; sd_healthy_config := sd_healthy_config d;
                sd_faulted_config := match sv_faulted_config_overrides v with
                                     | None => sd_faulted_config d
                                     | Some o => dict_merge (sd_faulted_config d) o
                                     end;
                sd_baseline_requests := sd_baseline_requests d; sd_fault_requests := sd_fault_requests d;
                sd_traffic_volume_bump := default (sd_traffic_volume_bump d) (sv_traffic_volume_bump v);
                sd_changes := changes; sd_topology := sd_topology d; sd_expected := sd_expected d;
                sd_seed_variants := sd_seed_variants d |}
      end
  end.

(** [str(value)] of a JSON value *)
Fixpoint str_of_json (nested : bool) (j : json) : string :=
  match j with
  | JNull => "None"
  | JBool b => if b then "True" else "False"
  | JInt z => str_of_Z z
  | JFloat text => text
  | JStr s => if nested then py_repr s else s
  | JArr l => "[" +:+ py_join ", " (str_of_json true <$> l) +:+ "]"
  | JObj d => "{" +:+ py_join ", " ((fun kv => py_repr kv.1 +:+ ": " +:+ str_of_json true kv.2) <$> d) +:+ "}"
  end.

Definition resolved_change_summary (entry : ChangeEntry) (faulted_config : list (string * json)) : res string :=
  match ce_config_key entry with
  | None => Ok (ce_summary entry)
  | Some key =>
      match dict_get key faulted_config with
      | None => Err (LabError UNKNOWN_CONFIG_KEY)
      | Some v => Ok ("configuration update: " +:+ key +:+ " set to " +:+ str_of_json false v)
      end
  end.

(** * The run tree *)

(** [write_text] truncates before it writes: a process that dies in between leaves a
    file that does not parse. *)
Inductive Text (A : Type) := Whole (a : A) | Torn.
Arguments Whole {A} a.
Arguments Torn {A}.

Record Change := { cg_change_id : string; cg_at : Z; cg_service : string; cg_summary : string }.

(** A run directory: incident.json and its neighbours, config.json under lab/, and
    expected.json under evaluator/. *)
Record Run := {
  rn_config : option (list (string * json));
  rn_topology : option (list (string * json));
  rn_changes : option (list Change);
  rn_incident : option (Text StoredIncident);
  rn_expected : option (list (string * json));
}.

Definition empty_run : Run :=
  {| rn_config := None; rn_topology := None; rn_changes := None; rn_incident := None; rn_expected := None |}.

#[export] Instance settable_Run : Settable Run := fun r =>
  {| rn_config := rn_config r; rn_topology := rn_topology r; rn_changes := rn_changes r;
     rn_incident := rn_incident r; rn_expected := rn_expected r |}.

Record Lab := {
  lb_marker : option string;
  lb_runs : gmap string Run;
  lb_steps : nat;
  lb_calls : nat;
  lb_world : World;
}.

#[export] Instance settable_Lab : Settable Lab := fun s =>
  {| lb_marker := lb_marker s; lb_runs := lb_runs s; lb_steps := lb_steps s; lb_calls := lb_calls s;
     lb_world := lb_world s |}.

Notation LabM := (ST Lab exn).

(** What the machine does to the program: [leftover n r] is what an interrupted
    removal leaves of [r]; [gateway_status] is what the n-th request comes back as. *)
Class Machine := {
  machine_fault : nat -> option exn;
  leftover : nat -> Run -> Run;
  gateway_status : nat -> Z;
  scenario_file : string -> option ScenarioDefinition;
}.

Definition killed : exn := OtherError "killed".
Definition file_exists : exn := OtherError "FileExistsError".
Definition file_missing : exn := OtherError "FileNotFoundError".

Definition is_os_error (e : exn) : bool :=
  match e with
  | OtherError name => bool_decide (name ∈ ["OSError"; "FileExistsError"; "FileNotFoundError"; "PermissionError"])
  | _ => false
  end.

Definition is_killed (e : exn) : bool :=
  match e with OtherError name => bool_decide (name = "killed") | _ => false end.

(** What [_load_stored_artifact] translates. *)
Definition is_unreadable (e : exn) : bool :=
  match e with
  | ValidationError => true
  | OtherError name => is_os_error e || bool_decide (name = "UnicodeDecodeError")
  | _ => false
  end.

(** [except BaseException] *)
Definition except_base {S A} (m : ST S exn A) (h : exn -> ST S exn A) : ST S exn A :=
  try_except m (fun e => if is_killed e then raise e else h e).

Section lab.
Context `{Machine} `{Host} `{Clocks}.

Definition machine_step {A} (f : Lab -> res A * Lab) : LabM A := fun s =>
  let s' := s <| lb_steps := S (lb_steps s) |> in
  match machine_fault (lb_steps s) with
  | Some e => (Err e, s')
  | None => f s'
  end.

(** A step that changes nothing the model keeps. *)
Definition plain_step : LabM unit := machine_step (fun s => (Ok tt, s)).

Definition lift_world {A} (m : ST World exn A) : LabM A := fun s =>
  let '(r, w) := m (lb_world s) in (r, s <| lb_world := w |>).

Definition lab_now : LabM Z := fun s =>
  let '(t, w) := read_clock (lb_world s) in (Ok t, s <| lb_world := w |>).

Definition lab_id : LabM string := fun s =>
  let '(id, w) := new_opaque_id (lb_world s) in (Ok id, s <| lb_world := w |>).

Definition change_run (id : string) (f : Run -> Run) (s : Lab) : Lab :=
  s <| lb_runs := <[id := f (default empty_run (lb_runs s !! id))]> (lb_runs s) |>.

(** [write_json]: one atomic replace, and the directories it needs. *)
Definition write_json (id : string) (f : Run -> Run) : LabM unit :=
  machine_step (fun s => (Ok tt, change_run id f s)).

Definition make_run (id : string) : LabM unit :=
  machine_step (fun s => match lb_runs s !! id with
                         | Some _ => (Err file_exists, s)
                         | None => (Ok tt, s <| lb_runs := <[id := empty_run]> (lb_runs s) |>)
                         end).

(** [incident_file.write_text] *)
Definition write_incident (id : string) (incident : StoredIncident) : LabM unit :=
  _ ← machine_step (fun s => match lb_runs s !! id with
                             | None => (Err file_missing, s)
                             | Some _ => (Ok tt, change_run id (fun r => r <| rn_incident := Some Torn |>) s)
                             end);
  machine_step (fun s => (Ok tt, change_run id (fun r => r <| rn_incident := Some (Whole incident) |>) s)).

(** [shutil.rmtree]: when it is interrupted part of the tree is left. *)
Definition rmtree (id : string) : LabM unit := fun s =>
  let s' := s <| lb_steps := S (lb_steps s) |> in
  match machine_fault (lb_steps s) with
  | Some e => (Err e, s' <| lb_runs := alter (leftover (lb_steps s)) id (lb_runs s') |>)
  | None => (Ok tt, s' <| lb_runs := delete id (lb_runs s') |>)
  end.

Definition read_marker : LabM string :=
  machine_step (fun s => match lb_marker s with Some text => (Ok (py_strip text), s) | None => (Err file_missing, s) end).

Definition unlink_marker : LabM unit := machine_step (fun s => (Ok tt, s <| lb_marker := None |>)).

(** [if marker.is_file() and marker.read_text().strip() == incident_id: marker.unlink()] *)
Definition unlink_marker_of (id : string) : LabM unit :=
  s ← get_state;
  match lb_marker s with
  | None => mret tt
  | Some _ => active ← read_marker; if decide (active = id) then unlink_marker else mret tt
  end.

(** [with _scenario_lock(root):] *)
Definition with_scenario_lock {A} (body : LabM A) : LabM A :=
  _ ← plain_step; a ← body; _ ← plain_step; mret a.

(** * Scenarios *)

(** An alphanumeric id names a directory right under the runs; that it resolves there is
    checked besides, and fails only where that directory is a link. *)
Definition validated_run_paths (id : string) : res string :=
  if isalnum id then Ok id else Err (LabError INCIDENT_NOT_FOUND).

Definition claim_scenario (id : string) : LabM unit :=
  s ← get_state;
  _ ← match lb_marker s with
      | None => mret tt
      | Some _ =>
          active ← read_marker;
          s ← get_state;
          if decide (active = "") then raise (LabError SCENARIO_ALREADY_ACTIVE)
          else match lb_runs s !! active with
          | Some _ => raise (LabError SCENARIO_ALREADY_ACTIVE)
          | None => unlink_marker
          end
      end;
  _ ← machine_step (fun s => match lb_marker s with
                             | Some _ => (Err file_exists, s)
                             | None => (Ok tt, s <| lb_marker := Some "" |>)
                             end);
  except_base (machine_step (fun s => (Ok tt, s <| lb_marker := Some id |>)))
    (fun e => _ ← unlink_marker; raise e).

Definition load_definition (family : string) : LabM ScenarioDefinition :=
  match scenario_file family with
  | None => raise (LabError UNKNOWN_FAMILY)
  | Some d => _ ← plain_step; mret d
  end.

(** The status the gateway returned, or 0. *)
Definition call_gateway : LabM Z :=
  machine_step (fun s => (Ok (gateway_status (lb_calls s)), s <| lb_calls := S (lb_calls s) |>)).

Fixpoint drive_traffic (count : nat) : LabM (Z * Z) :=
  match count with
  | O => mret (0, 0)
  | S count =>
      status ← call_gateway;
      rest ← drive_traffic count;
      mret (if status =? 200 then (rest.1 + 1, rest.2) else (rest.1, rest.2 + 1))
  end.

Fixpoint manifest_changes (entries : list ChangeEntry) (faulted_config : list (string * json)) (window_end : Z)
    : LabM (list Change) :=
  match entries with
  | [] => mret []
  | entry :: entries =>
      id ← lab_id;
      summary ← lift_result (resolved_change_summary entry faulted_config);
      rest ← manifest_changes entries faulted_config window_end;
      mret ({| cg_change_id := str_take 12 id; cg_at := window_end + ce_offset_seconds entry * 1000000;
               cg_service := ce_service entry; cg_summary := summary |} :: rest)
  end.

Definition write_manifests (id : string) (d : ScenarioDefinition) (window_end : Z) : LabM unit :=
  _ ← write_json id (fun r => r <| rn_topology := Some (sd_topology d) |>);
  changes ← manifest_changes (sd_changes d) (sd_faulted_config d) window_end;
  write_json id (fun r => r <| rn_changes := Some changes |>).

Definition ALERT_SOURCE_VERSION : string := "alert-1".

Definition build_incident (d : ScenarioDefinition) (incident_id : string) (window_start window_end : Z)
    (failed_requests total_requests : Z) : ST World exn StoredIncident :=
  scope ← lift_result (check_window
    {| sc_incident_id := incident_id; sc_environment := "local-lab"; sc_services := sd_services d;
       sc_started_at := window_start; sc_ended_at := window_end; sc_endpoint := sd_endpoint d |});
  symptom ← build_evidence incident_id SYMPTOM "alert" window_end
    (str_of_Z failed_requests +:+ " of " +:+ str_of_Z total_requests +:+ " requests to "
     +:+ sd_endpoint d +:+ " did not succeed")
    [("endpoint", JStr (sd_endpoint d)); ("failed_requests", JInt failed_requests);
     ("total_requests", JInt total_requests)] None;
  topology ← build_evidence incident_id TOPOLOGY "alert" window_end
    "gateway calls orders, orders calls inventory" (sd_topology d) None;
  kind ← lift_result (match of_value (sd_symptom d) with Some k => Ok k | None => Err ValueError end);
  packet ← lift_result (check_packet
    {| ap_incident_id := incident_id; ap_window_start := window_start;
       ap_window_end := window_end; ap_endpoint := sd_endpoint d; ap_symptom := kind;
       ap_services := sd_services d; ap_alerted_at := window_end;
       ap_alert_source_version := ALERT_SOURCE_VERSION;
       ap_symptom_evidence_id := ev_evidence_id symptom;
       ap_topology_evidence_id := ev_evidence_id topology |});
  lift_result (check_identity_agrees
    {| si_scope := scope; si_packet := packet; si_evidence := [symptom; topology] |}).

Definition clear_unstarted_scenario (id : string) : LabM unit :=
  _ ← unlink_marker_of id;
  try_except (rmtree id) (fun e => if is_os_error e then mret tt else raise e).

(** [WINDOW_LEAD_IN] *)
Definition window_lead_in : Z := 5 * 60 * 1000000.

(** [start_scenario] once the lab is claimed: baseline, fault, packet. *)
Definition build_run (d : ScenarioDefinition) (family seed id : string) : LabM string :=
  _ ← plain_step;
  _ ← write_json id (fun r => r <| rn_config := Some (sd_healthy_config d) |>);
  started ← lab_now;
  let extra := sd_traffic_volume_bump d in
  baseline ← drive_traffic (Z.to_nat (sd_baseline_requests d + extra));
  _ ← (if (baseline.1 =? 0) || (0 <? baseline.2) then raise (LabError BASELINE_NOT_HEALTHY) else mret tt);
  _ ← write_json id (fun r => r <| rn_config := Some (sd_faulted_config d) |>);
  fault ← drive_traffic (Z.to_nat (sd_fault_requests d + extra));
  _ ← (if fault.2 =? 0 then raise (LabError FAULT_NOT_OBSERVED) else mret tt);
  _ ← plain_step;
  window_end ← lab_now;
  _ ← write_manifests id d window_end;
  incident ← lift_world (build_incident d id (started - window_lead_in) window_end fault.2
                           (baseline.1 + fault.1 + fault.2));
  _ ← write_incident id incident;
  _ ← write_json id (fun r => r <| rn_expected := Some (dict_merge [("seed", JStr seed); ("family", JStr family)]
                                                         (sd_expected d)) |>);
  mret id.

Definition scenario_body (d : ScenarioDefinition) (family seed id : string) : LabM string :=
  _ ← with_scenario_lock (_ ← make_run id; claim_scenario id);
  build_run d family seed id.

Definition start_scenario (family seed : string) (incident_id : option string) : LabM string :=
  d ← load_definition family;
  d ← lift_result (apply_seed_variant d seed);
  id ← match incident_id with
       | None => lab_id
       | Some id => lift_result (validated_run_paths id)
       end;
  except_base (scenario_body d family seed id)
    (fun e => _ ← with_scenario_lock (clear_unstarted_scenario id); raise e).

Definition reset_scenario (id : string) : LabM unit :=
  with_scenario_lock (
    id ← lift_result (validated_run_paths id);
    s ← get_state;
    match lb_runs s !! id with
    | None => raise (LabError INCIDENT_NOT_FOUND)
    | Some _ => _ ← unlink_marker_of id; rmtree id
    end).

Definition release_scenario (id : string) : LabM unit := with_scenario_lock (unlink_marker_of id).

(** [StoredIncident.model_validate_json]: the nested records' validators, then its own. *)
Definition validate_incident (incident : StoredIncident) : res StoredIncident :=
  _ ← check_window (si_scope incident);
  _ ← check_packet (si_packet incident);
  _ ← validate_all check_evidence (si_evidence incident);
  check_identity_agrees incident.

(** [_load_verified_incident] (cli.py): the file is there, parses, and names this run. *)
Definition load_verified_incident (id : string) : LabM StoredIncident :=
  id ← lift_result (validated_run_paths id);
  s ← get_state;
  match lb_runs s !! id ≫= rn_incident with
  | None => raise (LabError INCIDENT_NOT_FOUND)
  | Some text =>
      incident ← try_except
        (machine_step (fun s => match text with
                                | Torn => (Err ValidationError, s)
                                | Whole incident => (validate_incident incident, s)
                                end))
        (fun e => raise (if is_unreadable e then LabError CORRUPT_ARTIFACT else e));
      if decide (sc_incident_id (si_scope incident) = id) then mret incident
      else raise (LabError INCIDENT_NOT_FOUND)
  end.
End lab.
