(* ===== verification/LabProps.v ===== *)
(** The lab belongs to one incident at a time, whatever fails on the machine: while an
    incident holds the marker, no other incident's start, reset or release touches it.
    A start that succeeds leaves a complete run; one that fails leaves none. *)
From Stdlib Require Import ZArith Lia.
From stdpp Require Import prelude strings list gmap.
From S2P Require Import Prelude PyText Float64 Tools Domain World Evidence ControlPlane Lab.
Local Open Scope Z_scope.

Section keeps.
Context `{Machine} `{Host} `{Clocks}.

(** ** Predicates a computation keeps, whether it returns or raises *)

Definition keeps {A} (P : Lab -> Prop) (m : LabM A) : Prop := triple P m (fun _ => P) (fun _ => P).

(** What is on the disk: not the counters, not the world. *)
Definition disk_of (s : Lab) := (lb_marker s, lb_runs s).

Definition on_disk (P : Lab -> Prop) : Prop := forall s s', disk_of s' = disk_of s -> P s -> P s'.

Lemma lab_keeps_bind {A B} P (m : LabM A) (k : A -> LabM B) : keeps P m -> (forall a, keeps P (k a)) -> keeps P (m ≫= k).
Proof. intros Hm Hk. by eapply triple_bind. Qed.

Lemma lab_keeps_ret {A} P (a : A) : keeps P (mret a).
Proof. by apply triple_ret. Qed.

Lemma lab_keeps_raise {A} P e : keeps P (raise (A := A) e).
Proof. by apply triple_raise. Qed.

Lemma lab_keeps_lift {A} P (r : res A) : keeps P (lift_result r).
Proof. apply triple_lift; by intros. Qed.

Lemma keeps_try {A} P (m : LabM A) h : keeps P m -> (forall e, keeps P (h e)) -> keeps P (try_except m h).
Proof. intros Hm Hh. by eapply triple_try. Qed.

Lemma keeps_except {A} P (m : LabM A) h : keeps P m -> (forall e, keeps P (h e)) -> keeps P (except_base m h).
Proof. intros Hm Hh. apply keeps_try; [done|]. intros e. destruct (is_killed e); [apply lab_keeps_raise|apply Hh]. Qed.

Lemma triple_step {A} P (f : Lab -> res A * Lab) (Q : A -> Lab -> Prop) (R : exn -> Lab -> Prop) :
  on_disk P -> (forall s, P s -> match f s with (Ok a, s') => Q a s' | (Err e, s') => R e s' end) ->
  (forall s e, P s -> R e s) -> triple P (machine_step f) Q R.
Proof.
  intros HP Hf HR s Hs. unfold machine_step.
  assert (Hs' : P (s <| lb_steps := S (lb_steps s) |>)) by (revert Hs; by apply HP); clear Hs; rename Hs' into Hs.
  destruct (machine_fault _); [by apply HR|by apply Hf].
Qed.

Lemma keeps_step {A} P (f : Lab -> res A * Lab) : on_disk P -> (forall s, P s -> P (f s).2) -> keeps P (machine_step f).
Proof.
  intros HP Hf. apply triple_step; [done| |done]. intros s Hs. specialize (Hf s Hs). by destruct (f s) as [[] ?].
Qed.

Lemma keeps_plain P : on_disk P -> keeps P plain_step.
Proof. intros HP. by apply keeps_step. Qed.

Lemma keeps_lock {A} P (m : LabM A) : on_disk P -> keeps P m -> keeps P (with_scenario_lock m).
Proof.
  intros HP Hm. apply lab_keeps_bind; [by apply keeps_plain|]. intros []. apply lab_keeps_bind; [done|]. intros a.
  apply lab_keeps_bind; [by apply keeps_plain|]. intros []. apply lab_keeps_ret.
Qed.

(** Computations that leave the disk alone. *)
Definition off_disk {A} (m : LabM A) : Prop := forall s, disk_of (m s).2 = disk_of s.

Lemma keeps_off {A} P (m : LabM A) : on_disk P -> off_disk m -> keeps P m.
Proof. intros HP Hm s Hs. specialize (HP s _ (Hm s) Hs). by destruct (m s) as [[] ?]. Qed.

Lemma off_world {A} (m : ST World exn A) : off_disk (lift_world m).
Proof. intros s. unfold lift_world. by destruct (m _). Qed.

Lemma off_now : off_disk lab_now.
Proof. intros s. unfold lab_now. by destruct (read_clock _). Qed.

Lemma off_id : off_disk lab_id.
Proof. by intros s. Qed.

Lemma keeps_traffic P n : on_disk P -> keeps P (drive_traffic n).
Proof.
  intros HP. induction n as [|n IH]; [apply lab_keeps_ret|]. simpl.
  apply lab_keeps_bind; [apply keeps_step; [done|]; intros s; by apply HP|]. intros status.
  apply lab_keeps_bind; [done|]. intros rest. apply lab_keeps_ret.
Qed.

Lemma keeps_manifest P entries config t : on_disk P -> keeps P (manifest_changes entries config t).
Proof.
  intros HP. induction entries as [|e entries IH]; [apply lab_keeps_ret|]. simpl.
  apply lab_keeps_bind; [by apply keeps_off, off_id|]. intros id. apply lab_keeps_bind; [apply lab_keeps_lift|]. intros x.
  apply lab_keeps_bind; [done|]. intros rest. apply lab_keeps_ret.
Qed.

Lemma keeps_read_marker P : on_disk P -> keeps P read_marker.
Proof. intros HP. apply keeps_step; [done|]. intros s Hs. by destruct (lb_marker s). Qed.

Lemma keeps_load P family : on_disk P -> keeps P (load_definition family).
Proof.
  intros HP. unfold load_definition. destruct (scenario_file family); [|apply lab_keeps_raise].
  apply lab_keeps_bind; [by apply keeps_plain|]. intros []. apply lab_keeps_ret.
Qed.

Lemma triple_read_marker P :
  on_disk P ->
  triple P read_marker (fun a s => P s /\ (py_strip <$> lb_marker s) = Some a) (fun _ => P).
Proof.
  intros HP. apply triple_step; [done| |by intros s e Hs]. intros s Hs. destruct (lb_marker s) eqn:Hm; [|done]. by rewrite Hm.
Qed.

(** ** Holding the lab *)

(** [id] is the active incident, and its run is [r]. *)
Definition holds (id : string) (r : Run) (s : Lab) : Prop :=
  lb_marker s = Some id /\ lb_runs s !! id = Some r.

Lemma holds_on_disk id r : on_disk (holds id r).
Proof. intros s s' [= Hm Hr] [? ?]. split; congruence. Qed.

Hint Resolve holds_on_disk keeps_plain lab_keeps_raise lab_keeps_ret lab_keeps_lift keeps_traffic keeps_manifest
  keeps_load keeps_read_marker : keeps.

Section holder.
Variables (id : string) (r : Run) (other : string).
Hypothesis id_plain : py_strip id = id /\ id <> "".
Hypothesis apart : other <> id.

Lemma keeps_unlink : keeps (holds id r) (unlink_marker_of other).
Proof.
  apply triple_get_any. intros s0 _. destruct (lb_marker s0) as [text|]; [|apply lab_keeps_ret].
  eapply triple_bind; [apply triple_read_marker, holds_on_disk|]. intros active.
  case_decide as Ha; [|by apply triple_ret; intros s []].
  intros s [[Hm Hr] Hact]. rewrite Hm in Hact. simpl in Hact.
  injection Hact as Hact. destruct id_plain. congruence.
Qed.

Lemma keeps_rmtree : keeps (holds id r) (rmtree other).
Proof.
  intros s [Hm Hr]. unfold rmtree. destruct (machine_fault _); (split; [done|]); simpl.
  - by rewrite lookup_alter_ne.
  - by rewrite lookup_delete_ne.
Qed.

Lemma keeps_clear : keeps (holds id r) (clear_unstarted_scenario other).
Proof.
  apply lab_keeps_bind; [apply keeps_unlink|]. intros []. apply keeps_try; [apply keeps_rmtree|].
  intros e. destruct (is_os_error e); auto with keeps.
Qed.

Lemma keeps_reset : keeps (holds id r) (reset_scenario other).
Proof.
  apply keeps_lock; [apply holds_on_disk|]. eapply (triple_bind _ _ _ (fun x s => x = other /\ holds id r s)).
  { intros s Hs. unfold validated_run_paths, lift_result. by destruct (isalnum other). }
  intros x. intros s [-> Hs]. revert s Hs. apply triple_get_any. intros s0 _.
  destruct (lb_runs s0 !! other); [|apply lab_keeps_raise].
  apply lab_keeps_bind; [apply keeps_unlink|]. intros []. apply keeps_rmtree.
Qed.

Lemma keeps_release : keeps (holds id r) (release_scenario other).
Proof. apply keeps_lock; [apply holds_on_disk|]. apply keeps_unlink. Qed.

Lemma keeps_make : keeps (holds id r) (make_run other).
Proof.
  apply keeps_step; [apply holds_on_disk|]. intros s [Hm Hr]. destruct (lb_runs s !! other); [done|].
  split; [done|]. simpl. by rewrite lookup_insert_ne.
Qed.

(** While [id] is active, nobody else is. *)
Lemma claim_refused : triple (holds id r) (claim_scenario other) (fun _ _ => False) (fun _ => holds id r).
Proof.
  apply triple_get. intros s0 [Hm0 Hr0]. rewrite Hm0.
  eapply (triple_bind _ _ _ (fun _ _ => False)); [|by intros ? ? []].
  eapply triple_bind.
  - eapply triple_conseq; [apply (triple_read_marker (holds id r)), holds_on_disk|by intros s [_ ?]|done|done].
  - intros active s [[Hm Hr] Ha]. rewrite Hm in Ha. simpl in Ha. injection Ha as <-.
    destruct id_plain as [Hstrip Hne]. rewrite Hstrip.
    apply (triple_get_any (holds id r)); [|by split]. intros s1 [Hm1 Hr1].
    rewrite decide_False, Hr1 by done. by apply triple_raise.
Qed.

Lemma body_refused d family seed :
  triple (holds id r) (scenario_body d family seed other) (fun _ _ => False) (fun _ => holds id r).
Proof.
  eapply (triple_bind _ _ _ (fun _ _ => False)); [|by intros ? ? []].
  eapply triple_bind; [apply keeps_plain, holds_on_disk|]. intros [].
  eapply (triple_bind _ _ _ (fun _ _ => False)); [|by intros ? ? []].
  eapply triple_bind; [apply keeps_make|]. intros []. apply claim_refused.
Qed.

Lemma recovery_refused d family seed :
  triple (holds id r)
    (except_base (scenario_body d family seed other)
       (fun e => _ ← with_scenario_lock (clear_unstarted_scenario other); raise e))
    (fun _ _ => False) (fun _ => holds id r).
Proof.
  eapply triple_try; [apply body_refused|]. intros e. destruct (is_killed e); [by apply triple_raise|].
  eapply triple_bind; [apply keeps_lock; [apply holds_on_disk|apply keeps_clear]|]. intros []. by apply triple_raise.
Qed.
End holder.

Lemma start_refused id r family seed incident :
  py_strip id = id /\ id <> "" ->
  match incident with Some i => i <> id | None => forall n, uuid_hex n <> id end ->
  triple (holds id r) (start_scenario family seed incident) (fun _ _ => False) (fun _ => holds id r).
Proof.
  intros Hid Hother. eapply triple_bind; [apply keeps_load, holds_on_disk|]. intros d.
  eapply triple_bind; [apply lab_keeps_lift|]. intros d'.
  eapply (triple_bind _ _ _ (fun other s => other <> id /\ holds id r s)).
  - destruct incident as [i|].
    + intros s Hs. unfold validated_run_paths, lift_result. by destruct (isalnum i).
    + intros s Hs. split; [apply Hother|]. by apply (holds_on_disk id r s).
  - intros other s [Hne Hs]. by apply recovery_refused.
Qed.

(** Whatever is asked of the lab on behalf of another incident. *)
Inductive LabOp :=
  | lab_start (family seed : string) (incident_id : option string)
  | lab_reset (incident_id : string)
  | lab_release (incident_id : string).

Definition lab_op (op : LabOp) : LabM unit :=
  match op with
  | lab_start family seed incident => _ ← start_scenario family seed incident; mret tt
  | lab_reset id => reset_scenario id
  | lab_release id => release_scenario id
  end.

Definition is_start (op : LabOp) : bool := match op with lab_start _ _ _ => true | _ => false end.

(** An operation on another incident than [id]; a fresh identifier is another's. *)
Definition not_on (id : string) (op : LabOp) : Prop :=
  match op with
  | lab_start _ _ (Some i) => i <> id
  | lab_start _ _ None => forall n, uuid_hex n <> id
  | lab_reset i => i <> id
  | lab_release i => i <> id
  end.

Definition lab_history (ops : list LabOp) (s : Lab) : Lab := fold_left (fun s op => (lab_op op s).2) ops s.

Lemma op_keeps id r op s :
  py_strip id = id /\ id <> "" -> not_on id op -> holds id r s ->
  holds id r (lab_op op s).2 /\ (is_start op = true -> is_ok (lab_op op s).1 = false).
Proof.
  intros Hid Hop Hs. destruct op as [family seed incident|i|i]; simpl in *.
  - pose proof (start_refused id r family seed incident Hid Hop s Hs) as Hst.
    unfold mbind, ST_bind. by destruct (start_scenario family seed incident s) as [[x|e] s'].
  - pose proof (keeps_reset id r i Hid Hop s Hs) as Hk. by destruct (reset_scenario i s) as [[] s'].
  - pose proof (keeps_release id r i Hid Hop s Hs) as Hk. by destruct (release_scenario i s) as [[] s'].
Qed.

(** C22: The lab belongs to one incident at a time. While an incident holds the active
    marker, no sequence of starts, resets and releases for other incidents, whatever
    file operations of theirs fail and wherever their processes are killed, takes the
    marker away or touches its run; and none of those starts succeeds. *)
Theorem lab_is_exclusive id r ops s :
  py_strip id = id /\ id <> "" -> Forall (not_on id) ops -> holds id r s ->
  holds id r (lab_history ops s)
  /\ forall op, not_on id op -> is_start op = true -> is_ok (lab_op op (lab_history ops s)).1 = false.
Proof.
  intros Hid Hops. revert s. induction Hops as [|op ops Hop Hops IH]; intros s Hs.
  - split; [done|]. intros op Hop. by apply (op_keeps id r op s).
  - simpl. apply IH. by apply op_keeps.
Qed.

(** ** A start that succeeds *)

Lemma triple_frame {A} (F : Prop) P (m : LabM A) Q R :
  triple P m Q R -> triple (fun s => F /\ P s) m (fun a s => F /\ Q a s) R.
Proof. intros Hm s [HF Hs]. specialize (Hm s Hs). by destruct (m s) as [[] ?]. Qed.

(** The lab is free for [id]: no marker, or one whose run is gone. *)
Definition free_for (id : string) (s : Lab) : Prop :=
  lb_marker s = None
  \/ exists text, lb_marker s = Some text /\ py_strip text <> "" /\ py_strip text <> id
     /\ lb_runs s !! py_strip text = None.

(** Of the runs there were, one more: [id] is active, and its run satisfies [Phi]. *)
Definition building (id : string) (runs : gmap string Run) (Phi : Run -> Prop) (s : Lab) : Prop :=
  lb_marker s = Some id /\ exists r, lb_runs s = <[id := r]> runs /\ Phi r.

Lemma building_on_disk id runs Phi : on_disk (building id runs Phi).
Proof. intros s s' [= Hm Hr] (? & r & ? & ?). split; [congruence|]. exists r. split; [congruence|done]. Qed.

Notation any := (fun (_ : exn) (_ : Lab) => True).

Lemma keeps_any {A} P (m : LabM A) : keeps P m -> triple P m (fun _ => P) any.
Proof. intros Hm s Hs. specialize (Hm s Hs). by destruct (m s) as [[] ?]. Qed.

Lemma write_json_builds id runs (Phi Psi : Run -> Prop) f :
  (forall r, Phi r -> Psi (f r)) ->
  triple (building id runs Phi) (write_json id f) (fun _ => building id runs Psi) any.
Proof.
  intros Hf. apply triple_step; [apply building_on_disk| |done]. intros s (Hm & r & Hr & Hphi). split; [done|].
  exists (f r). split; [|by apply Hf]. simpl. rewrite Hr, lookup_insert_eq. apply insert_insert_eq.
Qed.

Lemma write_incident_builds id runs (Phi : Run -> Prop) incident :
  (forall r t, Phi r -> Phi (r <| rn_incident := t |>)) ->
  triple (building id runs Phi) (write_incident id incident)
    (fun _ => building id runs (fun r => Phi r /\ rn_incident r = Some (Whole incident))) any.
Proof.
  intros Hphi. eapply (triple_bind _ _ _ (fun _ => building id runs Phi)).
  - apply triple_step; [apply building_on_disk| |done]. intros s (Hm & r & Hr & Hs).
    rewrite Hr, lookup_insert_eq. split; [done|]. eexists. split; [|by apply Hphi].
    simpl. rewrite Hr, lookup_insert_eq. apply insert_insert_eq.
  - intros []. apply triple_step; [apply building_on_disk| |done]. intros s (Hm & r & Hr & Hs).
    split; [done|]. eexists. simpl. rewrite Hr, lookup_insert_eq, insert_insert_eq. split; [done|]. by split; [apply Hphi|].
Qed.

(** A stored incident names its run three times, and agrees with itself. *)
Definition incident_of_run (id : string) (incident : StoredIncident) : Prop :=
  check_identity_agrees incident = Ok incident /\ sc_incident_id (si_scope incident) = id.

Lemma lift_result_Ok {S A} (r : res A) (s s' : S) a : lift_result r s = (Ok a, s') -> r = Ok a /\ s' = s.
Proof. unfold lift_result. by intros [= -> ->]. Qed.

Lemma check_identity_id si si' : check_identity_agrees si = Ok si' -> si' = si.
Proof. unfold check_identity_agrees. intros. by invert_checks. Qed.

Lemma build_incident_ok d id t0 t1 failed total w incident w' :
  build_incident d id t0 t1 failed total w = (Ok incident, w') -> incident_of_run id incident.
Proof.
  unfold build_incident. intros (scope & w1 & Hscope & Hrest)%ST_bind_Ok.
  apply lift_result_Ok in Hscope as [Hscope ->].
  apply ST_bind_Ok in Hrest as (symptom & w2 & _ & Hrest). apply ST_bind_Ok in Hrest as (topology & w3 & _ & Hrest).
  apply ST_bind_Ok in Hrest as (kind & w4 & _ & Hrest). apply ST_bind_Ok in Hrest as (packet & w5 & _ & Hrest).
  apply lift_result_Ok in Hrest as [Hid ->].
  pose proof (check_identity_id _ _ Hid) as ->. split; [done|]. simpl.
  unfold check_window in Hscope. by invert_checks.
Qed.

Lemma triple_pure {A} P (m : LabM A) (Q : A -> Prop) :
  on_disk P -> off_disk m -> (forall s a s', m s = (Ok a, s') -> Q a) ->
  triple P m (fun a s => Q a /\ P s) any.
Proof.
  intros HP Hoff HQ s Hs. pose proof (HP s _ (Hoff s) Hs) as Hs'. specialize (HQ s).
  destruct (m s) as [[a|e] s']; [|done]. split; [by apply (HQ a s')|done].
Qed.

(** What a finished start leaves in its run directory. *)
Definition complete (d : ScenarioDefinition) (id : string) (r : Run) : Prop :=
  rn_config r = Some (sd_faulted_config d) /\ rn_topology r = Some (sd_topology d)
  /\ is_Some (rn_changes r) /\ is_Some (rn_expected r)
  /\ exists incident, rn_incident r = Some (Whole incident) /\ incident_of_run id incident.

Definition disk_is (m : option string) (runs : gmap string Run) (s : Lab) : Prop := lb_marker s = m /\ lb_runs s = runs.

Lemma disk_is_on_disk m runs : on_disk (disk_is m runs).
Proof. intros s s' [= Hm Hr] [? ?]. split; congruence. Qed.

Lemma claim_builds id m runs s0 :
  lb_marker s0 = m -> lb_runs s0 = runs ->
  triple (disk_is m runs) (with_scenario_lock (_ ← make_run id; claim_scenario id))
    (fun _ s => (free_for id s0 /\ runs !! id = None) /\ building id runs (fun r => r = empty_run) s) any.
Proof.
  intros Hm0 Hr0. set (runs1 := <[id := empty_run]> runs). set (F := free_for id s0 /\ runs !! id = None).
  eapply triple_bind; [apply keeps_any, keeps_plain, disk_is_on_disk|]. intros [].
  eapply (triple_bind _ _ _ (fun _ s => F /\ building id runs (fun r => r = empty_run) s)).
  2: { intros []. eapply (triple_bind _ _ _ (fun _ s => F /\ building id runs (fun r => r = empty_run) s)).
       - apply keeps_any, keeps_plain. intros s s' Hd [? ?]. split; [done|]. by apply (building_on_disk _ _ _ s).
       - intros []. by apply triple_ret. }
  eapply (triple_bind _ _ _ (fun _ s => runs !! id = None /\ disk_is m runs1 s)).
  { apply triple_step; [apply disk_is_on_disk| |done]. intros s [Hm Hr]. cbv beta. rewrite Hr.
    destruct (runs !! id) eqn:Hid; [done|]. by split; [|split]. }
  intros []. apply triple_get. intros s1 [Hid [Hm1 Hr1]].
  eapply (triple_bind _ _ _ (fun _ s => F /\ disk_is None runs1 s)).
  - rewrite Hm1. destruct m as [text|].
    2: { apply triple_ret. intros s [_ [_ ?]]. split; [|done]. split; [by left|done]. }
    eapply triple_bind.
    { eapply triple_conseq; [apply (triple_read_marker (disk_is (Some text) runs1)), disk_is_on_disk
                            |by intros s [_ [_ ?]]|done|done]. }
    intros active. apply triple_get. intros s2 [[Hm2 Hr2] Ha]. rewrite Hm2 in Ha. simpl in Ha. injection Ha as <-.
    case_decide as Hblank; [by apply triple_raise|]. rewrite Hr2.
    destruct (runs1 !! py_strip text) eqn:Hact; [by apply triple_raise|].
    unfold runs1 in Hact. apply lookup_insert_None in Hact as [Hnone Hne].
    apply (triple_conseq _ (disk_is (Some text) runs1) _ _ (fun _ s => F /\ disk_is None runs1 s) _ any); [|by intros s [_ [? _]]|done|done].
    apply triple_step; [apply disk_is_on_disk| |done]. intros s [_ Hs].
    split; [|by split]. split; [|done]. right. exists text. subst runs. by split_and!.
  - intros []. eapply (triple_bind _ _ _ (fun _ s => F /\ lb_runs s = runs1)).
    + apply triple_step; [|intros s [? [Hm Hr]]; cbv beta; by rewrite Hm|done].
      intros s s' Hd [? Hs]. split; [done|]. by apply (disk_is_on_disk _ _ s s').
    + intros []. eapply (triple_try _ _ _ _ any); [|intros e s _; destruct (is_killed e); [done|]].
      * apply triple_step; [intros s s' [= _ Hr] [? ?]; split; [done|congruence]| |done].
        intros s [HF Hr]. split; [done|]. split; [done|]. by exists empty_run.
      * unfold mbind, ST_bind. by destruct (unlink_marker s) as [[] ?].
Qed.

Lemma traffic_builds id runs Phi n :
  triple (building id runs Phi) (drive_traffic n) (fun _ => building id runs Phi) any.
Proof. apply keeps_any, keeps_traffic, building_on_disk. Qed.

Lemma builds_off {A} id runs Phi (m : LabM A) :
  off_disk m -> triple (building id runs Phi) m (fun _ => building id runs Phi) any.
Proof. intros Hm. apply keeps_any, keeps_off; [apply building_on_disk|done]. Qed.

Lemma builds_check id runs Phi (c : bool) e :
  triple (building id runs Phi) (if c then raise e else mret tt : LabM unit) (fun _ => building id runs Phi) any.
Proof. destruct c; [by apply triple_raise|by apply triple_ret]. Qed.

(** From the claim on, the body writes the whole run or raises. *)
Lemma body_builds d family seed id runs :
  triple (building id runs (fun r => r = empty_run))
    (build_run d family seed id)
    (fun x s => x = id /\ building id runs (complete d id) s) any.
Proof.
  set (C := fun r => rn_config r = Some (sd_faulted_config d)).
  set (T := fun r => C r /\ rn_topology r = Some (sd_topology d)).
  set (M := fun r => T r /\ is_Some (rn_changes r)).
  eapply triple_bind; [apply keeps_any, keeps_plain, building_on_disk|]. intros [].
  eapply triple_bind; [apply (write_json_builds id runs _ (fun _ => True)); done|]. intros [].
  eapply triple_bind; [apply builds_off, off_now|]. intros t0. cbv zeta.
  eapply triple_bind; [apply traffic_builds|]. intros baseline.
  eapply triple_bind; [apply builds_check|]. intros [].
  eapply triple_bind; [apply (write_json_builds id runs _ C); done|]. intros [].
  eapply triple_bind; [apply traffic_builds|]. intros fault.
  eapply triple_bind; [apply builds_check|]. intros [].
  eapply triple_bind; [apply keeps_any, keeps_plain, building_on_disk|]. intros [].
  eapply triple_bind; [apply builds_off, off_now|]. intros t1.
  eapply (triple_bind _ _ _ (fun _ => building id runs M)).
  { eapply triple_bind; [apply (write_json_builds id runs _ T); done|]. intros [].
    eapply triple_bind; [apply keeps_any, keeps_manifest, building_on_disk|]. intros changes.
    apply (write_json_builds id runs T M). by intros r HT. }
  intros []. eapply triple_bind.
  { apply (triple_pure (building id runs M) _ (incident_of_run id));
      [apply building_on_disk|apply off_world|].
    intros s incident s' Hrun. unfold lift_world in Hrun.
    destruct (build_incident _ _ _ _ _ _ _) as [r w] eqn:Hb. injection Hrun as -> _. by eapply build_incident_ok. }
  intros incident. intros s [Hinc Hs]. revert s Hs. fold (triple (building id runs M)
    (_ ← write_incident id incident; _ ← write_json id (fun r => r <| rn_expected := Some (dict_merge
       [("seed", JStr seed); ("family", JStr family)] (sd_expected d)) |>); mret id)
    (fun x s => x = id /\ building id runs (complete d id) s) any).
  eapply triple_bind; [by apply write_incident_builds|]. intros [].
  eapply triple_bind; [apply (write_json_builds id runs _ (complete d id))|].
  { intros r [[[HC HT] HM] Hi]. unfold complete. split_and!; [done..|by eexists|]. by exists incident. }
  intros []. by apply triple_ret.
Qed.

(** A start that returns has claimed a free lab and built a whole run. The marker
    was absent or stale and the run directory new; now the marker names this incident,
    its directory holds the faulted configuration, the topology, the changes, the
    expected outcome and an incident that agrees with itself and with the directory's
    name; every other run is as it was. *)
Theorem start_claims_lab family seed incident s id s' :
  start_scenario family seed incident s = (Ok id, s') ->
  exists d0 d, scenario_file family = Some d0 /\ apply_seed_variant d0 seed = Ok d
    /\ free_for id s /\ lb_runs s !! id = None
    /\ lb_marker s' = Some id
    /\ exists r, lb_runs s' = <[id := r]> (lb_runs s) /\ complete d id r.
Proof.
  intros (d0 & s1 & Hload & Hrest)%ST_bind_Ok. apply ST_bind_Ok in Hrest as (d & s2 & Hseed & Hrest).
  apply lift_result_Ok in Hseed as [Hseed ->]. apply ST_bind_Ok in Hrest as (id' & s3 & Hid & Hbody).
  assert (Hfile : scenario_file family = Some d0 /\ disk_of s1 = disk_of s).
  { unfold load_definition in Hload. destruct (scenario_file family) as [d1|]; [|done].
    apply ST_bind_Ok in Hload as ([] & s4 & Hstep & [= -> ->]). split; [done|].
    pose proof (keeps_plain (fun t => disk_of t = disk_of s) (fun t t' Ht Hs => eq_trans Ht Hs) s eq_refl) as Hk.
    by rewrite Hstep in Hk. }
  destruct Hfile as [Hfile Hd1].
  assert (Hd3 : disk_of s3 = disk_of s1).
  { destruct incident; [by apply lift_result_Ok in Hid as [_ ->]|]. pose proof (off_id s1) as Ho. by rewrite Hid in Ho. }
  unfold except_base, try_except in Hbody. destruct (scenario_body d family seed id' s3) as [[x|e] s4] eqn:Hb.
  2: { destruct (is_killed e); [done|]. apply ST_bind_Ok in Hbody as ([] & ? & _ & ?). done. }
  injection Hbody as -> ->. exists d0, d. split; [done|]. split; [done|].
  assert (Hbuilt : triple (disk_is (lb_marker s3) (lb_runs s3)) (scenario_body d family seed id')
    (fun x t => (free_for id' s3 /\ lb_runs s3 !! id' = None) /\ x = id' /\ building id' (lb_runs s3) (complete d id') t) any).
  { eapply triple_bind; [by apply claim_builds|]. intros []. apply triple_frame, body_builds. }
  specialize (Hbuilt s3 (conj eq_refl eq_refl)). rewrite Hb in Hbuilt.
  destruct Hbuilt as ([Hfree Hnew] & -> & Hm & r & Hr & Hc). injection Hd1 as Hm1 Hr1. injection Hd3 as Hm3 Hr3.
  rewrite Hr3, Hr1 in Hr, Hnew. split_and!; [|done..|by exists r].
  unfold free_for in *. by rewrite Hm3, Hm1, Hr3, Hr1 in Hfree.
Qed.

(** ** A start that fails *)

Lemma alnum_not_space c : alnum_code (code c) = true -> py_isspace c = false.
Proof. destruct c as [[] [] [] [] [] [] [] []]; vm_compute; congruence. Qed.

Lemma isalnum_strip id : isalnum id = true -> py_strip id = id /\ id <> "".
Proof.
  unfold isalnum. intros [Hne Hall]%andb_true_iff. apply negb_true_iff, bool_decide_eq_false in Hne. split; [|done].
  assert (Hrs : forall s, forallb (fun c => alnum_code (code c)) (String.list_ascii_of_string s) = true -> rstrip s = s).
  { induction s as [|c s IH]; [done|]. simpl. intros [Hc Hs]%andb_true_iff. rewrite IH by done.
    destruct s; [|done]. by rewrite alnum_not_space. }
  unfold py_strip. destruct id as [|c id]; [done|]. simpl in Hall. apply andb_true_iff in Hall as [Hc Hid].
  simpl lstrip. rewrite alnum_not_space by done. apply (Hrs (String c id)). simpl. by rewrite Hc, Hid.
Qed.

Section quiet.
Hypothesis quiet : forall n, machine_fault n = None.

Lemma quiet_step {A} P (f : Lab -> res A * Lab) (Q : A -> Lab -> Prop) (R : exn -> Lab -> Prop) :
  on_disk P -> (forall s, P s -> match f s with (Ok a, s') => Q a s' | (Err e, s') => R e s' end) ->
  triple P (machine_step f) Q R.
Proof.
  intros HP Hf s Hs. unfold machine_step. rewrite quiet. apply Hf. revert Hs. by apply HP.
Qed.

(** Before the cleanup: the new run aside nothing was removed, and the marker was
    taken only if it was free. *)
Definition begun (id : string) (s0 s : Lab) : Prop :=
  delete id (lb_runs s) = delete id (lb_runs s0)
  /\ (lb_marker s = lb_marker s0 \/ free_for id s0 /\ (lb_marker s = None \/ lb_marker s = Some id)).

(** After it. *)
Definition undone (id : string) (s0 s : Lab) : Prop :=
  lb_runs s = delete id (lb_runs s0)
  /\ (lb_marker s = lb_marker s0
      \/ lb_marker s = None /\ (free_for id s0 \/ py_strip <$> lb_marker s0 = Some id)).

Lemma begun_on_disk id s0 : on_disk (begun id s0).
Proof. intros s s' [= Hm Hr] [? ?]. unfold begun. by rewrite Hm, Hr. Qed.

Lemma clear_undoes id s0 :
  py_strip id = id ->
  triple (begun id s0) (clear_unstarted_scenario id) (fun _ => undone id s0) (fun _ _ => False).
Proof.
  intros Hid.
  set (gone := fun s => delete id (lb_runs s) = delete id (lb_runs s0)
    /\ (lb_marker s = lb_marker s0
        \/ lb_marker s = None /\ (free_for id s0 \/ py_strip <$> lb_marker s0 = Some id))).
  assert (Hgone : on_disk gone) by (intros s s' [= Hm Hr] [? ?]; unfold gone; by rewrite Hm, Hr).
  eapply (triple_bind _ _ _ (fun _ => gone)).
  - apply triple_get. intros s1 [Hr1 Hm1]. destruct (lb_marker s1) as [text|] eqn:Hm.
    2: { apply triple_ret. intros s [-> [Hr Hs]]. split; [done|]. rewrite Hm. naive_solver. }
    eapply (triple_bind _ _ _ (fun active s => s = s1 <| lb_steps := lb_steps s |> /\ active = py_strip text)).
    { intros s [-> _]. unfold read_marker, machine_step. rewrite quiet. cbn. by rewrite Hm. }
    intros active. case_decide as Ha.
    + intros s [-> ->]. unfold unlink_marker, machine_step. rewrite quiet. cbn. split; [done|]. right. split; [done|].
      destruct Hm1 as [Hm1|[Hfree _]]; [right|by left]. rewrite <- Hm1. simpl. by rewrite Ha.
    + apply triple_ret. intros s [-> ->]. cbn. split; [done|]. cbn. rewrite Hm.
      destruct Hm1 as [Hm1|[Hfree [Hm1|Hm1]]]; [by left|done|]. injection Hm1 as ->. done.
  - intros []. eapply (triple_try _ _ _ _ (fun _ _ => False)); [|by intros ? ? []].
    intros s [Hr Hm]. unfold rmtree. rewrite quiet. cbn. by split.
Qed.

Lemma building_begun id s0 Phi s :
  free_for id s0 /\ lb_runs s0 !! id = None -> building id (lb_runs s0) Phi s -> begun id s0 s.
Proof.
  intros [Hfree Hnew] (Hm & r & Hr & _). split; [|by right; split; [|right]].
  by rewrite Hr, delete_insert_eq.
Qed.

Lemma claim_begun id s0 :
  triple (disk_is (lb_marker s0) (lb_runs s0)) (with_scenario_lock (_ ← make_run id; claim_scenario id))
    (fun _ _ => True) (fun _ => begun id s0).
Proof.
  set (m := lb_marker s0). set (runs := lb_runs s0). set (runs1 := <[id := empty_run]> runs).
  eapply triple_bind.
  { apply (quiet_step (disk_is m runs) _ (fun _ => disk_is m runs)); [apply disk_is_on_disk|done]. }
  intros []. eapply (triple_bind _ _ _ (fun _ _ => True)).
  2: { intros []. eapply (triple_bind _ _ _ (fun _ _ => True)); [|by intros []; apply triple_ret].
       apply quiet_step; [by intros ? ?|done]. }
  eapply (triple_bind _ _ _ (fun _ s => runs !! id = None /\ disk_is m runs1 s)).
  { apply quiet_step; [apply disk_is_on_disk|]. intros s [Hm Hr]. cbv beta. rewrite Hr.
    destruct (runs !! id) eqn:Hid; [|by split; [|split]].
    split; [by rewrite Hr|left; by rewrite Hm]. }
  intros []. apply triple_get. intros s1 [Hid [Hm1 Hr1]].
  assert (Hgone : delete id runs1 = delete id runs) by apply delete_insert_eq.
  assert (Hbegun : forall s, disk_is m runs1 s -> begun id s0 s).
  { intros s [Hm Hr]. split; [by rewrite Hr|left; by rewrite Hm]. }
  eapply (triple_bind _ _ _ (fun _ => disk_is None runs1)).
  - rewrite Hm1. destruct m as [text|] eqn:Hm0; [|by apply triple_ret; intros s [_ [_ ?]]].
    eapply (triple_bind _ _ _ (fun _ => disk_is (Some text) runs1)).
    { intros s [-> _]. unfold read_marker, machine_step. rewrite quiet. cbn. by rewrite Hm1. }
    intros active. apply triple_get. intros s2 _. case_decide; [by apply triple_raise; intros s [_ ?]; apply Hbegun|].
    destruct (lb_runs s2 !! active); [by apply triple_raise; intros s [_ ?]; apply Hbegun|].
    intros s [_ [_ Hr]]. unfold unlink_marker, machine_step. rewrite quiet. by split.
  - intros []. eapply (triple_bind _ _ _ (fun _ _ => True)).
    + intros s [Hm Hr]. unfold machine_step. rewrite quiet. cbn. by rewrite Hm.
    + intros [] s _. unfold except_base, try_except, machine_step. by rewrite quiet.
Qed.

Lemma keeps_building id runs : let B := building id runs (fun _ => True) in
  (forall f, keeps B (write_json id f)) /\ (forall incident, keeps B (write_incident id incident)).
Proof.
  intros B. assert (Hchange : forall f s, B s -> B (change_run id f s)).
  { intros f s (Hm & r & Hr & _). split; [done|]. exists (f r). split; [|done]. simpl.
    rewrite Hr, lookup_insert_eq. apply insert_insert_eq. }
  split.
  - intros f. apply keeps_step; [apply building_on_disk|]. intros s. apply Hchange.
  - intros incident. apply lab_keeps_bind.
    + apply keeps_step; [apply building_on_disk|]. intros s Hs. destruct (lb_runs s !! id); [by apply Hchange|done].
    + intros []. apply keeps_step; [apply building_on_disk|]. intros s. apply Hchange.
Qed.

Lemma keeps_build_run d family seed id runs :
  keeps (building id runs (fun _ => True)) (build_run d family seed id).
Proof.
  destruct (keeps_building id runs) as [Hwrite Hincident].
  pose proof (building_on_disk id runs (fun _ => True)) as HB.
  unfold build_run, write_manifests. cbv zeta. repeat first [apply Hincident|apply lab_keeps_bind; [|intros ?]].
  all: first [by apply keeps_plain|apply Hwrite|apply Hincident|by apply keeps_off, off_now|by apply keeps_traffic
             |by apply keeps_manifest|by apply keeps_off, off_world|apply lab_keeps_ret|case_match; auto with keeps].
Qed.

Lemma body_begun d family seed id s0 :
  triple (disk_is (lb_marker s0) (lb_runs s0)) (scenario_body d family seed id)
    (fun _ _ => True) (fun _ => begun id s0).
Proof.
  set (F := free_for id s0 /\ lb_runs s0 !! id = None).
  set (B := building id (lb_runs s0) (fun _ => True)).
  eapply (triple_bind _ _ _ (fun _ s => F /\ B s)).
  { intros s Hs. pose proof (claim_builds id _ _ s0 eq_refl eq_refl s Hs) as Hc. pose proof (claim_begun id s0 s Hs) as He.
    destruct (with_scenario_lock _ s) as [[[]|e] s']; [|done]. destruct Hc as [HF (Hm & r & Hr & _)].
    split; [done|]. split; [done|]. by exists r. }
  intros [] s [HF HB]. pose proof (keeps_build_run d family seed id (lb_runs s0) s HB) as Hk.
  destruct (build_run d family seed id s) as [[x|e] s']; [done|]. by eapply building_begun.
Qed.

(** A start that fails leaves no trace. On a machine whose file operations succeed,
    a start that raises (the family or seed is unknown, the lab is taken or not healthy,
    the fault is not observed, the scenario file is inconsistent) leaves every other
    run, no directory of its own, and the marker as it was; a marker that named no
    existing run, or this incident, may be gone. *)
Theorem failed_start_leaves_no_trace family seed id s e s' :
  start_scenario family seed (Some id) s = (Err e, s') -> e <> killed ->
  lb_runs s' = lb_runs s /\ lb_marker s' = lb_marker s \/ undone id s s'.
Proof.
  intros Hstart Hkilled. unfold start_scenario in Hstart.
  assert (Hquiet : keeps (fun t => disk_of t = disk_of s) (load_definition family)).
  { apply keeps_load. intros t t' Ht Hs. by rewrite Ht. }
  specialize (Hquiet s eq_refl). apply ST_bind_Err in Hstart as [Hload|(d & s1 & Hload & Hstart)]; rewrite Hload in Hquiet.
  { left. by injection Hquiet. }
  apply ST_bind_Err in Hstart as [Hseed|(d' & s2 & Hseed & Hstart)].
  { left. unfold lift_result in Hseed. injection Hseed as _ <-. by injection Hquiet. }
  apply lift_result_Ok in Hseed as [_ ->].
  apply ST_bind_Err in Hstart as [Hid|(x & s3 & Hid & Hstart)].
  { left. unfold lift_result in Hid. injection Hid as _ <-. by injection Hquiet. }
  apply lift_result_Ok in Hid as [Hid ->]. unfold validated_run_paths in Hid.
  destruct (isalnum id) eqn:Halnum; [|done]. injection Hid as <-. apply isalnum_strip in Halnum as [Hstrip _].
  right. injection Hquiet as Hm Hr.
  assert (Hundone : undone id s1 s' -> undone id s s').
  { unfold undone, free_for. by rewrite Hm, Hr. }
  apply Hundone. clear Hundone Hm Hr Hload.
  assert (Ht : triple (disk_is (lb_marker s1) (lb_runs s1))
    (except_base (scenario_body d' family seed id) (fun e => _ ← with_scenario_lock (clear_unstarted_scenario id); raise e))
    (fun _ _ => True) (fun e t => is_killed e = true \/ undone id s1 t)).
  { eapply triple_try; [apply body_begun|]. intros e'. destruct (is_killed e') eqn:Hk; [by apply triple_raise; left|].
    eapply (triple_bind _ _ _ (fun _ => undone id s1)); [|by intros []; apply triple_raise; right].
    eapply (triple_bind _ _ _ (fun _ => begun id s1)).
    { apply (quiet_step (begun id s1) _ (fun _ => begun id s1)); [apply begun_on_disk|done]. }
    intros []. eapply (triple_bind _ _ _ (fun _ => undone id s1)).
    { eapply triple_conseq; [by apply clear_undoes|done|done|by intros ? ? []]. }
    intros []. eapply (triple_bind _ _ _ (fun _ => undone id s1)); [|by intros []; apply triple_ret].
    apply quiet_step; [|done]. intros t t' [= Hm Hr] [? ?]. unfold undone. by rewrite Hm, Hr. }
  specialize (Ht s1 (conj eq_refl eq_refl)). rewrite Hstart in Ht. destruct Ht as [Hk|?]; [|done].
  destruct e as [| | | | | | | | | | | | | | | | | |name]; try done. simpl in Hk. apply bool_decide_eq_true in Hk as ->.
  by destruct Hkilled.
Qed.
End quiet.
End keeps.
