(* ===== verification/Site.v ===== *)
(** What a hosted worker keeps on its machine, besides the control plane: the run tree
    (Lab), the checkpoint database, results/investigations, results/deliveries, and the
    bucket finished artifacts are copied to.  run_records.py ([write_jsonl],
    [finalize_investigation]), gcs_artifacts.py ([GcsArtifactStore]) and the report
    hand-off of api_runtime.py ([FilesystemReportDeliverySender]).

    Every operation is a step of the machine, as in Lab: any of them may raise, and the
    process may end between any two. *)
From Stdlib Require Import ZArith Lia.
From stdpp Require Import prelude strings list gmap.
From S2P Require Import Prelude PyText Float64 Tools Domain World GraphState GraphRun ControlPlane Lab.
Local Open Scope Z_scope.

(** A file's content, by what was written to it. *)
Inductive File :=
  | FReport (report : InvestigationReport)
  | FMarkdown (text : string)
  | FEvents (events : list RunEvent)
  | FEvidence (evidence : list Evidence)
  | FReceipts (receipts : list ToolReceipt).

Notation Directory := (gmap string (Text File)).

Record Site := {
  st_lab : Lab;
  st_threads : gmap string Checkpoint;
  st_results : gmap string Directory;
  st_bucket : gmap string (Text File);
  st_deliveries : gmap string (Text string);
}.

#[export] Instance settable_Site : Settable Site := fun s =>
  {| st_lab := st_lab s; st_threads := st_threads s; st_results := st_results s;
     st_bucket := st_bucket s; st_deliveries := st_deliveries s |}.

Notation SiteM := (ST Site exn).

Definition is_named (name : string) (e : exn) : bool :=
  match e with OtherError n => bool_decide (n = name) | _ => false end.

(** [try: m finally: f] *)
Definition finally_do {S A} (m : ST S exn A) (f : ST S exn unit) : ST S exn A := fun s =>
  match m s with
  | (Ok a, s') => (_ ← f; mret a) s'
  | (Err e, s') => if is_killed e then (Err e, s') else (_ ← f; raise e) s'
  end.

Definition directory_not_empty : exn := OtherError "OSError".
Definition already_finalized : exn := OtherError "RunRecordError".
Definition precondition_failed : exn := OtherError "PreconditionFailed".

Definition ARTIFACT_NAMES : list string :=
  ["report.json"; "report.md"; "events.jsonl"; "evidence.jsonl"; "receipts.jsonl"].

Section site.
Context `{Machine} `{Host} `{Clocks}.

Definition lift_lab {A} (m : LabM A) : SiteM A := fun s =>
  let '(r, lab) := m (st_lab s) in (r, s <| st_lab := lab |>).

Definition site_step {A} (f : Site -> res A * Site) : SiteM A := fun s =>
  let n := lb_steps (st_lab s) in
  let lab := (st_lab s) <| lb_steps := S n |> in
  let s' := s <| st_lab := lab |> in
  match machine_fault n with
  | Some e => (Err e, s')
  | None => f s'
  end.

(** [uuid4().hex] *)
Definition site_id : SiteM string := lift_lab lab_id.

(** * Writing a directory of results *)

Definition put_file (dir name : string) (file : Text File) (s : Site) : Site :=
  s <| st_results := <[dir := <[name := file]> (default ∅ (st_results s !! dir))]> (st_results s) |>.

(** [path.write_text]: truncated, then written. *)
Definition write_text (dir name : string) (file : File) : SiteM unit :=
  _ ← site_step (fun s => (Ok tt, put_file dir name Torn s));
  site_step (fun s => (Ok tt, put_file dir name (Whole file) s)).

(** [path.replace] within a directory *)
Definition replace_file (dir from to : string) : SiteM unit :=
  site_step (fun s =>
    let files := default ∅ (st_results s !! dir) in
    match files !! from with
    | None => (Err file_missing, s)
    | Some file => (Ok tt, s <| st_results := <[dir := <[to := file]> (delete from files)]> (st_results s) |>)
    end).

Definition unlink_file (dir name : string) : SiteM unit :=
  site_step (fun s => (Ok tt, s <| st_results := alter (delete name) dir (st_results s) |>)).

Definition write_jsonl (dir name : string) (file : File) : SiteM unit :=
  hex ← site_id;
  let tmp := name +:+ ".tmp-" +:+ hex in
  except_base (_ ← write_text dir tmp file; replace_file dir tmp name)
    (fun e => _ ← unlink_file dir tmp; raise e).

Definition staging_of (investigation_id : string) : string := ".staging-" +:+ investigation_id.

(** [staging.mkdir(parents=True, exist_ok=True)] *)
Definition make_directory (dir : string) : SiteM unit :=
  site_step (fun s => (Ok tt, s <| st_results := <[dir := default ∅ (st_results s !! dir)]> (st_results s) |>)).

(** [staging.replace(target)]: over nothing, or over an empty directory. *)
Definition replace_directory (from to : string) : SiteM unit :=
  site_step (fun s =>
    match st_results s !! from with
    | None => (Err file_missing, s)
    | Some files =>
        if decide (default ∅ (st_results s !! to) = ∅)
        then (Ok tt, s <| st_results := <[to := files]> (delete from (st_results s)) |>)
        else (Err directory_not_empty, s)
    end).

Definition finalize_investigation (report : InvestigationReport) (events : list RunEvent)
    (evidence : list Evidence) (receipts : list ToolReceipt) (report_markdown : string) : SiteM unit :=
  let target := ir_investigation_id report in
  let staging := staging_of target in
  s ← get_state;
  match st_results s !! target with
  | Some _ => raise already_finalized
  | None =>
      _ ← make_directory staging;
      _ ← write_text staging "report.json" (FReport report);
      _ ← write_text staging "report.md" (FMarkdown report_markdown);
      _ ← write_jsonl staging "events.jsonl" (FEvents events);
      _ ← write_jsonl staging "evidence.jsonl" (FEvidence evidence);
      _ ← write_jsonl staging "receipts.jsonl" (FReceipts receipts);
      replace_directory staging target
  end.

(** * The bucket *)

Definition blob_path (investigation_id name : string) : string :=
  "investigations/" +:+ investigation_id +:+ "/" +:+ name.

(** [upload_from_string(content, if_generation_match=0)]: the request may fail, or its
    answer may be lost after the object was created. *)
Definition upload_from_string (path : string) (content : Text File) : SiteM unit :=
  _ ← site_step (fun s => match st_bucket s !! path with
                          | Some _ => (Err precondition_failed, s)
                          | None => (Ok tt, s <| st_bucket := <[path := content]> (st_bucket s) |>)
                          end);
  site_step (fun s => (Ok tt, s)).

Fixpoint write_investigation_artifacts (investigation_id : string) (artifacts : list (string * Text File)) : SiteM unit :=
  match artifacts with
  | [] => mret tt
  | (name, content) :: artifacts =>
      _ ← try_except (upload_from_string (blob_path investigation_id name) content)
            (fun e => if is_named "PreconditionFailed" e then mret tt else raise e);
      write_investigation_artifacts investigation_id artifacts
  end.

(** * The delivery hand-off *)

Definition delivery_payload (c : DeliveryClaim) : string :=
  json_dumps (JObj [("destination_email", JStr (de_destination_email c));
                    ("report_content", JStr (de_report_content c));
                    ("report_sha256", JStr (de_report_sha256 c))]).

Definition delivery_file (c : DeliveryClaim) : string := de_delivery_id c +:+ ".json".

Definition put_delivery (name : string) (text : Text string) (s : Site) : Site :=
  s <| st_deliveries := <[name := text]> (st_deliveries s) |>.

(** [temporary.open("x")], the write, and the sync that makes it durable. *)
Definition write_exclusive (name payload : string) : SiteM unit :=
  _ ← site_step (fun s => match st_deliveries s !! name with
                          | Some _ => (Err file_exists, s)
                          | None => (Ok tt, put_delivery name Torn s)
                          end);
  site_step (fun s => (Ok tt, put_delivery name (Whole payload) s)).

(** [os.link(temporary, target)] *)
Definition link (from to : string) : SiteM unit :=
  site_step (fun s =>
    match st_deliveries s !! from, st_deliveries s !! to with
    | None, _ => (Err file_missing, s)
    | _, Some _ => (Err file_exists, s)
    | Some text, None => (Ok tt, put_delivery to text s)
    end).

Definition read_delivery (name : string) : SiteM (Text string) :=
  site_step (fun s => match st_deliveries s !! name with
                      | Some text => (Ok text, s)
                      | None => (Err file_missing, s)
                      end).

Definition unlink_delivery (name : string) : SiteM unit :=
  site_step (fun s => (Ok tt, s <| st_deliveries := delete name (st_deliveries s) |>)).

(** [read_text(...) != payload] *)
Definition holds_payload (text : Text string) (payload : string) : bool :=
  match text with Whole t => bool_decide (t = payload) | Torn => false end.

(** [FilesystemReportDeliverySender.send] *)
Definition send_report (c : DeliveryClaim) : SiteM unit :=
  _ ← site_step (fun s => (Ok tt, s));
  let target := delivery_file c in
  let payload := delivery_payload c in
  hex ← site_id;
  let temporary := "." +:+ target +:+ "." +:+ hex +:+ ".tmp" in
  finally_do
    (try_except (_ ← write_exclusive temporary payload; link temporary target)
       (fun e => if is_named "FileExistsError" e
                 then text ← read_delivery target;
                      if holds_payload text payload then mret tt else raise corrupt
                 else raise e))
    (unlink_delivery temporary).
End site.
