(* ===== verification/SiteProps.v ===== *)
(** What a worker's machine holds after any failure: a directory of results appears
    whole or not at all, a delivered report is never partial and never replaced, an
    object of the bucket is never overwritten.

    Before that, frames: a [view] of the state that a computation keeps, whatever fails,
    followed through binds and handlers. *)
From Stdlib Require Import ZArith Lia.
From stdpp Require Import prelude strings list gmap.
From S2P Require Import Prelude PyText Float64 Tools Domain World Evidence GraphState GraphRun ControlPlane Lab Site LabProps.
Local Open Scope Z_scope.

(** * What a computation leaves alone *)

(** Whatever [m] does and however it ends, [view] of the state stays. *)
Definition leaves {S A V} (view : S -> V) (m : ST S exn A) : Prop := forall s, view (m s).2 = view s.

Section leaves.
Context {S V : Type} (view : S -> V).

Lemma leaves_pure {A} (m : ST S exn A) : (forall s, (m s).2 = s) -> leaves view m.
Proof. intros Hm s. by rewrite Hm. Qed.

Lemma leaves_ret {A} (a : A) : leaves view (mret a).
Proof. by apply leaves_pure. Qed.

Lemma leaves_raise {A} e : leaves view (raise (A := A) e).
Proof. by apply leaves_pure. Qed.

Lemma leaves_lift {A} (r : res A) : leaves view (lift_result r).
Proof. by apply leaves_pure. Qed.

Lemma leaves_get : leaves view get_state.
Proof. by apply leaves_pure. Qed.

Lemma leaves_bind {A B} (m : ST S exn A) (k : A -> ST S exn B) :
  leaves view m -> (forall a, leaves view (k a)) -> leaves view (m ≫= k).
Proof.
  intros Hm Hk s. specialize (Hm s). unfold mbind, ST_bind. destruct (m s) as [[a|e] s1]; [|done].
  etrans; [apply Hk|done].
Qed.

Lemma leaves_try {A} (m : ST S exn A) h : leaves view m -> (forall e, leaves view (h e)) -> leaves view (try_except m h).
Proof.
  intros Hm Hh s. specialize (Hm s). unfold try_except. destruct (m s) as [[a|e] s1]; [done|].
  etrans; [apply Hh|done].
Qed.

Lemma leaves_except {A} (m : ST S exn A) h : leaves view m -> (forall e, leaves view (h e)) -> leaves view (except_base m h).
Proof. intros Hm Hh. apply leaves_try; [done|]. intros e. destruct (is_killed e); [apply leaves_raise|apply Hh]. Qed.

Lemma leaves_finally {A} (m : ST S exn A) f : leaves view m -> leaves view f -> leaves view (finally_do m f).
Proof.
  intros Hm Hf s. specialize (Hm s). unfold finally_do. destruct (m s) as [[a|e] s1]; [|destruct (is_killed e); [done|]].
  - etrans; [|done]. apply leaves_bind; [done|]. intros _. apply leaves_ret.
  - etrans; [|done]. apply leaves_bind; [done|]. intros _. apply leaves_raise.
Qed.
End leaves.

Create HintDb leaves.
#[export] Hint Resolve leaves_ret leaves_raise leaves_lift leaves_get : leaves.

(** Follows a body through its binds, handlers and tests. *)
Ltac leaves :=
  repeat (cbv zeta; first [solve [auto with leaves]|apply leaves_bind; [|intros ?]|apply leaves_except; [|intros ?]
    |apply leaves_try; [|intros ?]|apply leaves_finally|case_match]).

Section frames.
Context `{Machine} `{Host} `{Clocks}.

Lemma leaves_step {A V} (view : Site -> V) (f : Site -> res A * Site) :
  (forall s lab, view (s <| st_lab := lab |>) = view s) -> (forall s, view (f s).2 = view s) -> leaves view (site_step f).
Proof. intros Hlab Hf s. unfold site_step. destruct (machine_fault _); [apply Hlab|]. etrans; [apply Hf|apply Hlab]. Qed.

Lemma leaves_lab {A V} (view : Site -> V) (m : LabM A) :
  (forall s lab, view (s <| st_lab := lab |>) = view s) -> leaves view (lift_lab m).
Proof. intros Hlab s. unfold lift_lab. destruct (m _) as [r lab]. apply Hlab. Qed.

(** * The lab asks neither the model nor the backends *)

(** The calls made to the model and the backends. *)
Definition calls_of (lab : Lab) := (w_model_calls (lb_world lab), w_backend_calls (lb_world lab)).

Lemma calls_step {A} (f : Lab -> res A * Lab) :
  (forall s, calls_of (f s).2 = calls_of s) -> leaves calls_of (machine_step f).
Proof. intros Hf s. unfold machine_step. destruct (machine_fault _); [done|]. by rewrite Hf. Qed.

Lemma calls_plain : leaves calls_of plain_step.
Proof. by apply calls_step. Qed.

Lemma calls_rmtree id : leaves calls_of (rmtree id).
Proof. intros s. unfold rmtree. by destruct (machine_fault _). Qed.

Lemma calls_now : leaves calls_of lab_now.
Proof. by intros s. Qed.

Lemma calls_id : leaves calls_of lab_id.
Proof. by intros s. Qed.

Lemma calls_incident d id t0 t1 failed total : leaves calls_of (lift_world (build_incident d id t0 t1 failed total)).
Proof.
  intros s. unfold lift_world.
  assert (Hl : leaves (fun w => (w_model_calls w, w_backend_calls w)) (build_incident d id t0 t1 failed total)).
  { unfold build_incident. leaves; by intros w. }
  specialize (Hl (lb_world s)). by destruct (build_incident _ _ _ _ _ _ _) as [r w].
Qed.

Lemma calls_traffic n : leaves calls_of (drive_traffic n).
Proof. induction n; simpl; leaves. by apply calls_step. Qed.

Lemma calls_manifest entries config t : leaves calls_of (manifest_changes entries config t).
Proof. induction entries; simpl; leaves. apply calls_id. Qed.

Hint Resolve calls_plain calls_rmtree calls_now calls_id calls_incident calls_traffic calls_manifest : leaves.

Lemma calls_lock {A} (m : LabM A) : leaves calls_of m -> leaves calls_of (with_scenario_lock m).
Proof. intros Hm. unfold with_scenario_lock. leaves. Qed.

Lemma calls_read_marker : leaves calls_of read_marker.
Proof. apply calls_step. intros t. by case_match. Qed.

Lemma calls_unlink id : leaves calls_of (unlink_marker_of id).
Proof. unfold unlink_marker_of. leaves; [apply calls_read_marker|by apply calls_step]. Qed.

Hint Resolve calls_read_marker calls_unlink : leaves.

Lemma calls_claim id : leaves calls_of (claim_scenario id).
Proof.
  unfold claim_scenario, unlink_marker. leaves; apply calls_step; intros t; by repeat case_match.
Qed.

Lemma calls_write_json id f : leaves calls_of (write_json id f).
Proof. by apply calls_step. Qed.

Lemma calls_write_incident id incident : leaves calls_of (write_incident id incident).
Proof. unfold write_incident. leaves; apply calls_step; intros t; by repeat case_match. Qed.

Lemma calls_make id : leaves calls_of (make_run id).
Proof. apply calls_step. intros t. by case_match. Qed.

Hint Resolve calls_claim calls_write_json calls_write_incident calls_make : leaves.

Lemma calls_clear id : leaves calls_of (clear_unstarted_scenario id).
Proof. unfold clear_unstarted_scenario. leaves. Qed.

Lemma calls_start family seed id : leaves calls_of (start_scenario family seed id).
Proof.
  unfold start_scenario, load_definition, scenario_body, build_run, write_manifests. leaves.
  all: apply calls_lock; first [apply calls_clear|leaves].
Qed.

Lemma calls_reset id : leaves calls_of (reset_scenario id).
Proof. apply calls_lock. leaves. Qed.

Lemma calls_release id : leaves calls_of (release_scenario id).
Proof. apply calls_lock. leaves. Qed.

Lemma calls_load id : leaves calls_of (load_verified_incident id).
Proof. unfold load_verified_incident. leaves; apply calls_step; intros lab; by repeat case_match. Qed.
End frames.

#[export] Hint Resolve calls_start calls_reset calls_release calls_load : leaves.

(** * Steps of the machine *)

(** A predicate that does not look at the lab. *)
Definition off_lab (P : Site -> Prop) : Prop := forall s lab, P s -> P (s <| st_lab := lab |>).

Section steps.
Context `{Machine} `{Host} `{Clocks}.

(** An exception the machine raised. *)
Definition faulted (e : exn) : Prop := exists n, machine_fault n = Some e.

Lemma triple_site_step {A} P (f : Site -> res A * Site) (Q : A -> Site -> Prop) (R : exn -> Site -> Prop) :
  off_lab P -> (forall s, P s -> match f s with (Ok a, s') => Q a s' | (Err e, s') => R e s' end) ->
  (forall s e, faulted e -> P s -> R e s) -> triple P (site_step f) Q R.
Proof.
  intros HP Hf HR s Hs. unfold site_step. pose proof (HP s ((st_lab s) <| lb_steps := S (lb_steps (st_lab s)) |>) Hs) as Hs'.
  destruct (machine_fault _) eqn:Hfault; [apply HR; [by eexists|done]|by apply Hf].
Qed.

Lemma triple_lift_lab {A} P (m : LabM A) : off_lab P -> triple P (lift_lab m) (fun _ => P) (fun _ => P).
Proof. intros HP s Hs. unfold lift_lab. destruct (m _) as [[a|e] lab]; by apply HP. Qed.

(** * Finalization *)

(** In the staging directory every file of [written] is whole; the rest is as in [s0]. *)
Definition staged (s0 : Site) (dir : string) (written : list (string * File)) (s : Site) : Prop :=
  exists files, st_results s = <[dir := files]> (st_results s0)
    /\ Forall (fun nf => files !! nf.1 = Some (Whole nf.2)) written.

(** Only the staging directory differs. *)
Definition only_staging (s0 : Site) (dir : string) (s : Site) : Prop := delete dir (st_results s) = delete dir (st_results s0).

Lemma staged_off_lab s0 dir written : off_lab (staged s0 dir written).
Proof. by intros s lab. Qed.

Lemma only_staging_off_lab s0 dir : off_lab (only_staging s0 dir).
Proof. by intros s lab. Qed.

Lemma staged_only s0 dir written s : staged s0 dir written s -> only_staging s0 dir s.
Proof. intros (files & Hr & _). unfold only_staging. by rewrite Hr, delete_insert_eq. Qed.

Lemma put_file_staged s0 dir written name file s :
  Forall (fun nf => nf.1 <> name) written -> staged s0 dir written s -> staged s0 dir written (put_file dir name file s).
Proof.
  intros Hne (files & Hr & Hw). exists (<[name := file]> files). simpl. rewrite Hr, lookup_insert_eq. simpl.
  split; [apply insert_insert_eq|]. rewrite Forall_forall in Hne, Hw |- *. intros nf Hnf.
  rewrite lookup_insert_ne; [by apply Hw|]. intros Heq. by apply (Hne nf).
Qed.

Lemma put_whole_staged s0 dir written name file s :
  Forall (fun nf => nf.1 <> name) written -> staged s0 dir written s ->
  staged s0 dir ((name, file) :: written) (put_file dir name (Whole file) s).
Proof.
  intros Hne Hs. destruct (put_file_staged _ _ _ name (Whole file) _ Hne Hs) as (files & Hr & Hw).
  exists files. split; [done|]. constructor; [|done]. simpl.
  destruct Hs as (files0 & Hr0 & _). simpl in Hr. rewrite Hr0, lookup_insert_eq in Hr. simpl in Hr.
  rewrite insert_insert_eq in Hr. apply (f_equal (lookup dir)) in Hr. rewrite !lookup_insert_eq in Hr.
  injection Hr as <-. by rewrite lookup_insert_eq.
Qed.

Lemma put_only_staging s0 dir name file s : only_staging s0 dir s -> only_staging s0 dir (put_file dir name file s).
Proof. unfold only_staging. simpl. intros <-. apply delete_insert_eq. Qed.

(** Writing one file of the staging directory: it is whole when the call returns. *)
Definition writes (s0 : Site) (dir : string) (written : list (string * File)) (name : string) (file : File)
    (m : SiteM unit) : Prop :=
  triple (staged s0 dir written) m (fun _ => staged s0 dir ((name, file) :: written))
    (fun e s => faulted e /\ only_staging s0 dir s).

Lemma write_text_writes s0 dir written name file :
  Forall (fun nf => nf.1 <> name) written -> writes s0 dir written name file (write_text dir name file).
Proof.
  intros Hne. eapply (triple_bind _ _ _ (fun _ => staged s0 dir written)).
  - apply triple_site_step; [apply staged_off_lab|intros s Hs; by apply put_file_staged|by intros s e ? ?%staged_only].
  - intros []. apply triple_site_step; [apply staged_off_lab|intros s Hs; by apply put_whole_staged|by intros s e ? ?%staged_only].
Qed.

(** A temporary name is none of the artifacts'. *)
Lemma temporary_name_apart name hex :
  name ∈ ["events.jsonl"; "evidence.jsonl"; "receipts.jsonl"] -> Forall (fun n => n <> name +:+ ".tmp-" +:+ hex) ARTIFACT_NAMES.
Proof.
  intros Hname. repeat (apply elem_of_cons in Hname as [->|Hname]); [..|by apply not_elem_of_nil in Hname];
    (repeat apply Forall_cons_2); try apply Forall_nil_2; cbn [String.append]; discriminate.
Qed.

Lemma write_jsonl_writes s0 dir written name file :
  name ∈ ["events.jsonl"; "evidence.jsonl"; "receipts.jsonl"] ->
  Forall (fun nf => nf.1 ∈ ARTIFACT_NAMES /\ nf.1 <> name) written ->
  writes s0 dir written name file (write_jsonl dir name file).
Proof.
  intros Hname Hw. eapply (triple_bind _ _ _ (fun _ => staged s0 dir written)).
  { intros s Hs. by apply (staged_off_lab s0 dir written). }
  intros hex. cbv zeta. set (tmp := name +:+ ".tmp-" +:+ hex).
  assert (Htmp : Forall (fun nf : string * File => nf.1 <> tmp) written /\ name <> tmp).
  { pose proof (temporary_name_apart name hex Hname) as Hn. rewrite Forall_forall in Hn.
    split; [|apply Hn; set_solver]. eapply Forall_impl; [done|]. intros nf [Hin _]. by apply Hn. }
  destruct Htmp as [Htmp Hneq]. eapply triple_try.
  - eapply triple_bind; [by apply (write_text_writes s0 dir written tmp file)|]. intros [].
    apply (triple_site_step _ _ _ (fun e s => faulted e /\ only_staging s0 dir s)); [apply staged_off_lab| |by intros s e ? ?%staged_only].
    intros s (files & Hr & [Hf Hws]%Forall_cons). simpl in Hf. rewrite Hr, lookup_insert_eq. simpl. rewrite Hf.
    exists (<[name := Whole file]> (delete tmp files)). split; [by rewrite insert_insert_eq|].
    constructor; [by rewrite lookup_insert_eq|]. rewrite Forall_forall in Hws, Hw, Htmp |- *. intros nf Hnf. cbn beta.
    rewrite lookup_insert_ne by (intros Heq; by destruct (Hw nf Hnf)).
    rewrite lookup_delete_ne; [by apply Hws|]. intros Heq. by apply (Htmp nf).
  - intros e. destruct (is_killed e); [by apply triple_raise|].
    eapply (triple_bind _ _ _ (fun _ s => faulted e /\ only_staging s0 dir s)); [|intros []; by apply triple_raise].
    apply triple_site_step; [by intros s lab| |by intros s e' ? []]. intros s [He Hs]. split; [done|].
    unfold only_staging in *. simpl. by rewrite delete_alter_eq.
Qed.

(** The five artifacts of one investigation. *)
Definition artifacts_of (report : InvestigationReport) (events : list RunEvent) (evidence : list Evidence)
    (receipts : list ToolReceipt) (markdown : string) : list (string * File) :=
  [("receipts.jsonl", FReceipts receipts); ("evidence.jsonl", FEvidence evidence); ("events.jsonl", FEvents events);
   ("report.md", FMarkdown markdown); ("report.json", FReport report)].

(** Every one of them is there, whole. *)
Definition holds_whole (files : Directory) (artifacts : list (string * File)) : Prop :=
  Forall (fun nf => files !! nf.1 = Some (Whole nf.2)) artifacts.

Lemma staging_apart id : staging_of id <> id.
Proof. intros Heq. apply (f_equal String.length) in Heq. unfold staging_of in Heq. rewrite string_length_app in Heq. cbn [String.length] in Heq. lia. Qed.

Lemma only_staging_lookup s0 dir s other : only_staging s0 dir s -> other <> dir -> st_results s !! other = st_results s0 !! other.
Proof.
  intros Hs Hne. apply (f_equal (lookup other)) in Hs. rewrite !lookup_delete_ne in Hs by done. done.
Qed.

Lemma finalize_triple report events evidence receipts markdown s0 :
  let id := ir_investigation_id report in
  triple (fun s => s = s0) (finalize_investigation report events evidence receipts markdown)
    (fun _ s => st_results s0 !! id = None
       /\ exists files, holds_whole files (artifacts_of report events evidence receipts markdown)
            /\ st_results s = <[id := files]> (delete (staging_of id) (st_results s0)))
    (fun e s => (faulted e \/ is_Some (st_results s0 !! id)) /\ only_staging s0 (staging_of id) s).
Proof.
  intros id. set (dir := staging_of id).
  apply triple_get. intros s1 ->. destruct (st_results s0 !! id) eqn:Hid; unfold id in Hid; rewrite Hid.
  { apply triple_raise. intros s [-> _]. split; [by right|done]. }
  apply (triple_conseq _ (fun s => st_results s = st_results s0) _ _
    (fun _ s => exists files, holds_whole files (artifacts_of report events evidence receipts markdown)
            /\ st_results s = <[id := files]> (delete dir (st_results s0))) _
    (fun e s => faulted e /\ only_staging s0 dir s)); [|by intros s [-> _]|intros a s Ha; by split|intros e s []; by split; [left|]].
  eapply (triple_bind _ _ _ (fun _ => staged s0 dir [])).
  { apply triple_site_step; [by intros s lab| |].
    - intros s Hs. eexists. split; [simpl; by rewrite Hs|constructor].
    - intros s e He Hs. split; [done|]. unfold only_staging. by rewrite Hs. }
  intros []. eapply triple_bind; [apply write_text_writes; constructor|]. intros [].
  eapply triple_bind; [apply write_text_writes; by repeat constructor|]. intros [].
  do 3 (eapply triple_bind; [apply write_jsonl_writes; [set_solver|repeat (constructor; [split; [set_solver|done]|]); constructor]|]; intros []).
  apply triple_site_step; [apply staged_off_lab| |by intros s e ? ?%staged_only].
  intros s (files & Hr & Hw). cbn beta. rewrite Hr, lookup_insert_eq. rewrite lookup_insert_ne by apply staging_apart.
  unfold id. rewrite Hid. rewrite decide_True by done. exists files. split; [done|]. simpl.
  by rewrite delete_insert_eq.
Qed.

(** A finished investigation appears at once. Whatever file operation of
    [finalize_investigation] fails, and wherever the process is killed, the investigation's
    directory either is as it was or holds its five artifacts whole, and the latter exactly
    when the call returns; no other investigation's directory is touched. *)
Theorem finalize_is_atomic report events evidence receipts markdown s :
  let id := ir_investigation_id report in
  let '(r, s') := finalize_investigation report events evidence receipts markdown s in
  (forall dir, dir <> id -> dir <> staging_of id -> st_results s' !! dir = st_results s !! dir)
  /\ match r with
     | Ok _ => st_results s !! id = None
         /\ exists files, st_results s' !! id = Some files
              /\ holds_whole files (artifacts_of report events evidence receipts markdown)
     | Err _ => st_results s' !! id = st_results s !! id
     end.
Proof.
  intros id. pose proof (finalize_triple report events evidence receipts markdown s s eq_refl) as Ht.
  destruct (finalize_investigation _ _ _ _ _ s) as [[[]|e] s'].
  - destruct Ht as (Hnone & files & Hw & Hr). split.
    + intros dir Hid Hdir. rewrite Hr, lookup_insert_ne, lookup_delete_ne by done. done.
    + split; [done|]. exists files. by rewrite Hr, lookup_insert_eq.
  - destruct Ht as [_ Ht]. split; [intros dir _ Hdir|]; eapply only_staging_lookup; try done. apply not_eq_sym, staging_apart.
Qed.

Lemma finalize_leaves_threads report events evidence receipts markdown :
  leaves st_threads (finalize_investigation report events evidence receipts markdown).
Proof.
  unfold finalize_investigation, write_jsonl, write_text, site_id, make_directory, replace_file, unlink_file,
    replace_directory. leaves.
  all: first [by apply leaves_lab|apply leaves_step; [done|]; intros s1; by repeat case_match].
Qed.

(** * The delivery hand-off *)

Definition temporary_of (c : DeliveryClaim) (hex : string) : string := "." +:+ delivery_file c +:+ "." +:+ hex +:+ ".tmp".

Lemma temporary_apart c hex : temporary_of c hex <> delivery_file c.
Proof.
  intros Heq. apply (f_equal String.length) in Heq. unfold temporary_of in Heq.
  rewrite !string_length_app in Heq. cbn [String.length] in Heq. lia.
Qed.

Lemma temporary_hidden c hex : String.prefix "." (temporary_of c hex) = true.
Proof. unfold temporary_of. generalize (delivery_file c +:+ "." +:+ hex +:+ ".tmp"). by intros []. Qed.

(** The temporary file aside, the deliveries are [d]. *)
Definition deliveries_are (tmp : string) (d : gmap string (Text string)) (s : Site) : Prop :=
  delete tmp (st_deliveries s) = delete tmp d.

Lemma deliveries_are_off_lab tmp d : off_lab (deliveries_are tmp d).
Proof. by intros s lab. Qed.

Lemma deliveries_are_lookup tmp d s name : deliveries_are tmp d s -> name <> tmp -> st_deliveries s !! name = d !! name.
Proof. intros Hs Hne. apply (f_equal (lookup name)) in Hs. by rewrite !lookup_delete_ne in Hs by done. Qed.

(** What the deliveries are once the report was handed over: as they were, with the
    report in place. *)
Definition handed_over (c : DeliveryClaim) (d d' : gmap string (Text string)) : Prop :=
  match d !! delivery_file c with
  | None => d' = <[delivery_file c := Whole (delivery_payload c)]> d
  | Some text => text = Whole (delivery_payload c) /\ d' = d
  end.

(** The guarded part of [send]. *)
Lemma hand_over_tries c d hex :
  let tmp := temporary_of c hex in
  triple (deliveries_are tmp d)
    (try_except (_ ← write_exclusive tmp (delivery_payload c); link tmp (delivery_file c))
       (fun e => if is_named "FileExistsError" e
                 then text ← read_delivery (delivery_file c);
                      if holds_payload text (delivery_payload c) then mret tt else raise corrupt
                 else raise e))
    (fun _ s => exists d', handed_over c d d' /\ deliveries_are tmp d' s) (fun _ => deliveries_are tmp d).
Proof.
  intros tmp. set (A := deliveries_are tmp d). assert (HA : off_lab A) by apply deliveries_are_off_lab.
  pose proof (temporary_apart c hex) as Hne. fold tmp in Hne.
  eapply (triple_try _ _ _ _ (fun _ => A)).
  - eapply (triple_bind _ _ _ (fun _ s => A s /\ st_deliveries s !! tmp = Some (Whole (delivery_payload c)))).
    + eapply (triple_bind _ _ _ (fun _ => A)); [|intros []]; (apply triple_site_step; [done| |done]); intros s Hs.
      * destruct (st_deliveries s !! tmp); [done|]. unfold A, deliveries_are in *. simpl. by rewrite delete_insert_eq.
      * split; [unfold A, deliveries_are in *; simpl; by rewrite delete_insert_eq|]. simpl. by rewrite lookup_insert_eq.
    + intros []. apply triple_site_step; [|intros s [Hs Htmp]; rewrite Htmp|by intros s e ? []].
      { intros s lab [? ?]. by split. }
      rewrite (deliveries_are_lookup _ _ _ _ Hs (not_eq_sym Hne)). destruct (d !! delivery_file c) eqn:Hd; [done|].
      exists (<[delivery_file c := Whole (delivery_payload c)]> d). unfold handed_over. rewrite Hd. split; [done|].
      unfold deliveries_are. simpl. rewrite !delete_insert_ne by (by apply not_eq_sym || done). by rewrite Hs.
  - intros e. destruct (is_named _ e); [|by apply triple_raise].
    eapply (triple_bind _ _ _ (fun text s => A s /\ d !! delivery_file c = Some text)).
    + apply triple_site_step; [done| |done]. intros s Hs. pose proof (deliveries_are_lookup _ _ _ _ Hs (not_eq_sym Hne)) as Hl.
      rewrite Hl. by destruct (d !! delivery_file c).
    + intros text s [Hs Htext]. destruct (holds_payload text (delivery_payload c)) eqn:Hp; [|done].
      exists d. split; [|done]. unfold handed_over. rewrite Htext. destruct text; [|done].
      apply bool_decide_eq_true in Hp as ->. done.
Qed.

Lemma send_triple c d :
  triple (fun s => st_deliveries s = d) (send_report c)
    (fun _ s => exists hex d', handed_over c d d' /\ deliveries_are (temporary_of c hex) d' s)
    (fun _ s => exists hex d', (d' = d \/ handed_over c d d') /\ deliveries_are (temporary_of c hex) d' s).
Proof.
  set (P := fun s => st_deliveries s = d). assert (HP : off_lab P) by (by intros s lab).
  assert (Hfail : forall (e : exn) s, P s -> exists hex d', (d' = d \/ handed_over c d d') /\ deliveries_are (temporary_of c hex) d' s).
  { intros _ s Hs. exists "", d. split; [by left|]. unfold deliveries_are. by rewrite Hs. }
  eapply (triple_bind _ _ _ (fun _ => P)); [by apply triple_site_step; [|..|naive_solver]|]. intros []. cbv zeta.
  eapply (triple_bind _ _ _ (fun _ => P)); [eapply triple_conseq; [by apply (triple_lift_lab P)|done..|done]|]. intros hex.
  change ("." +:+ delivery_file c +:+ "." +:+ hex +:+ ".tmp") with (temporary_of c hex). set (tmp := temporary_of c hex).
  set (A := deliveries_are tmp d). intros s0 Hs0. unfold finally_do.
  pose proof (hand_over_tries c d hex) as Htry. cbv zeta in Htry. fold tmp A in Htry.
  assert (HA0 : A s0) by (unfold A, deliveries_are; by rewrite Hs0). specialize (Htry s0 HA0).
  assert (Hclean : forall d', triple (deliveries_are tmp d') (unlink_delivery tmp) (fun _ => deliveries_are tmp d') (fun _ => deliveries_are tmp d')).
  { intros d'. apply triple_site_step; [apply deliveries_are_off_lab| |done]. intros s Hs. unfold deliveries_are in *. simpl.
    by rewrite delete_delete_eq. }
  destruct (try_except _ _ s0) as [[[]|e] s1].
  - destruct Htry as (d' & Hd' & Hs1). specialize (Hclean d' s1 Hs1). unfold mbind, ST_bind.
    destruct (unlink_delivery tmp s1) as [[[]|e'] s2]; exists hex, d'; naive_solver.
  - destruct (is_killed e); [exists hex, d; by split; [left|]|]. specialize (Hclean d s1 Htry).
    unfold mbind, ST_bind. destruct (unlink_delivery tmp s1) as [[[]|e'] s2]; exists hex, d; by split; [left|].
Qed.

(** C23: A report is handed over once and whole. Whatever file operation of [send] fails and
    wherever the process is killed, the delivery's file is absent or holds the complete
    payload, a file that was there is never changed, and no other delivery is touched;
    [send] returns only when the file holds this payload, so a retry is harmless and a
    delivery id reused for another report is refused. *)
Theorem send_delivers_whole c s :
  let '(r, s') := send_report c s in
  let payload := Whole (delivery_payload c) in
  let old := st_deliveries s !! delivery_file c in
  let new := st_deliveries s' !! delivery_file c in
  (new = old \/ old = None /\ new = Some payload)
  /\ (is_ok r = true -> new = Some payload)
  /\ (forall name, name <> delivery_file c -> String.prefix "." name = false -> st_deliveries s' !! name = st_deliveries s !! name).
Proof.
  pose proof (send_triple c (st_deliveries s) s eq_refl) as Ht. destruct (send_report c s) as [r s']. cbv zeta.
  assert (Hhanded : forall hex d', handed_over c (st_deliveries s) d' -> deliveries_are (temporary_of c hex) d' s' ->
    (st_deliveries s' !! delivery_file c = st_deliveries s !! delivery_file c
     \/ st_deliveries s !! delivery_file c = None /\ st_deliveries s' !! delivery_file c = Some (Whole (delivery_payload c)))
    /\ st_deliveries s' !! delivery_file c = Some (Whole (delivery_payload c))
    /\ forall name, name <> delivery_file c -> String.prefix "." name = false -> st_deliveries s' !! name = st_deliveries s !! name).
  { intros hex d' Hd' Hs'. pose proof (fun name => deliveries_are_lookup _ _ _ name Hs') as Hl.
    assert (Hdot : forall name, String.prefix "." name = false -> name <> temporary_of c hex) by (intros name Hp ->; by rewrite temporary_hidden in Hp).
    unfold handed_over in Hd'. destruct (st_deliveries s !! delivery_file c) eqn:Hold.
    - destruct Hd' as [-> ->]. rewrite Hl, Hold by apply not_eq_sym, temporary_apart. split_and!; [by left|done|].
      intros name _ Hp. apply Hl. by apply Hdot.
    - subst d'. rewrite Hl, lookup_insert_eq by apply not_eq_sym, temporary_apart. split_and!; [by right|done|].
      intros name Hne Hp. rewrite Hl by (by apply Hdot). by rewrite lookup_insert_ne. }
  destruct r as [[]|e].
  - destruct Ht as (hex & d' & Hd' & Hs'). destruct (Hhanded hex d' Hd' Hs') as (? & ? & ?). by split_and!.
  - destruct Ht as (hex & d' & [->|Hd'] & Hs').
    + pose proof (fun name => deliveries_are_lookup _ _ _ name Hs') as Hl. split_and!; [left|done|].
      * apply Hl, not_eq_sym, temporary_apart.
      * intros name _ Hp. apply Hl. intros ->. by rewrite temporary_hidden in Hp.
    + destruct (Hhanded hex d' Hd' Hs') as (? & ? & ?). by split_and!.
Qed.

(** * The bucket *)

(** The objects of [b] are all there, unchanged. *)
Definition keeps_objects (b : gmap string (Text File)) (s : Site) : Prop := b ⊆ st_bucket s.

Lemma keeps_objects_off_lab b : off_lab (keeps_objects b).
Proof. by intros s lab. Qed.

Definition uploaded (investigation_id : string) (names : list string) (s : Site) : Prop :=
  Forall (fun name => is_Some (st_bucket s !! blob_path investigation_id name)) names.

Lemma upload_triple b id names name content :
  (forall n, machine_fault n <> Some precondition_failed) ->
  triple (fun s => keeps_objects b s /\ uploaded id names s)
    (try_except (upload_from_string (blob_path id name) content)
       (fun e => if is_named "PreconditionFailed" e then mret tt else raise e))
    (fun _ s => keeps_objects b s /\ uploaded id (name :: names) s) (fun _ s => keeps_objects b s).
Proof.
  intros Hhonest. set (P := fun ns s => keeps_objects b s /\ uploaded id ns s).
  assert (HP : forall ns, off_lab (P ns)) by (by intros ns s lab).
  eapply (triple_try _ _ _ _ (fun e s => keeps_objects b s /\ (e = precondition_failed -> P (name :: names) s))).
  - eapply (triple_bind _ _ _ (fun _ => P (name :: names))); [|intros []].
    + intros s Hs. unfold site_step. destruct (machine_fault _) as [e|] eqn:Hf.
      { split; [apply Hs|]. intros ->. by destruct (Hhonest _ Hf). }
      cbn [st_bucket set_field]. destruct (st_bucket s !! blob_path id name) eqn:Hb.
      * split; [apply Hs|]. intros _. split; [apply Hs|]. constructor; [by exists t|apply Hs].
      * destruct Hs as [Hb' Hn]. split.
        -- unfold keeps_objects. simpl. apply insert_subseteq_r; [|done].
           destruct (b !! blob_path id name) eqn:Hc; [|done]. pose proof (lookup_weaken _ _ _ _ Hc Hb') as Hc'. simpl in Hc'. congruence.
        -- constructor; [simpl; by rewrite lookup_insert_eq|]. eapply Forall_impl; [done|]. intros n [t Ht]. cbn beta in *. simpl.
           destruct (decide (blob_path id name = blob_path id n)) as [<-|Hne]; [by rewrite lookup_insert_eq|].
           rewrite lookup_insert_ne by done. by exists t.
    + intros s Hs. unfold site_step. destruct (machine_fault _) as [e|] eqn:Hf; [|done].
      split; [apply Hs|]. intros ->. by destruct (Hhonest _ Hf).
  - intros e s [Hs He]. destruct e; try done. cbn [is_named]. case_bool_decide as Hn; [|done]. subst name0. apply He. done.
Qed.

(** Uploading only adds objects; when it returns every artifact is in the bucket. *)
Lemma upload_never_overwrites b id artifacts :
  (forall n, machine_fault n <> Some precondition_failed) ->
  triple (keeps_objects b) (write_investigation_artifacts id artifacts)
    (fun _ s => keeps_objects b s /\ uploaded id (fst <$> artifacts) s) (fun _ => keeps_objects b).
Proof.
  intros Hhonest.
  assert (Hall : forall names, triple (fun s => keeps_objects b s /\ uploaded id names s) (write_investigation_artifacts id artifacts)
    (fun _ s => keeps_objects b s /\ uploaded id (names ++ (fst <$> artifacts)) s) (fun _ => keeps_objects b)).
  { induction artifacts as [|[name content] artifacts IH]; intros names.
    - apply triple_ret. by rewrite app_nil_r.
    - eapply triple_bind; [by apply upload_triple|]. intros []. eapply triple_conseq; [apply (IH (name :: names))|by intros s| |done].
      intros [] s [Hs Hu]. split; [done|]. unfold uploaded in *. simpl in *.
      rewrite <- Permutation_middle. done. }
  intros s Hs. apply (Hall [] s). split; [done|constructor].
Qed.
End steps.
