(* ===== verification/JobRunner.v ===== *)
(** The hosted job runner (api_runtime.py, [ReplayGraphJobRunner]): what a worker does
    with a claimed job, and with the lab before and after it.

    The runner works on its machine's [Site] and asks the control plane; the two are
    one state, so its hooks are hooks of [ReplayWorker] and it can be followed over
    either plane.  What the deployment decides (the wiring's tools, whether there is a
    bucket) is class [Deployment]; the model is class [ToolCallingModel], as everywhere.

    An invocation of the graph is one operation here: a process that dies inside it
    leaves one of the checkpoints the invocation commits, so what a later attempt may
    find as the thread is any of those. *)
From Stdlib Require Import ZArith Lia.
From stdpp Require Import prelude strings list gmap.
From S2P Require Import Prelude PyText Float64 Tools Domain World Evidence Wrappers Models GraphState GraphNodes GraphRun Report Approvals ControlPlane Workers Lab Site.
Local Open Scope Z_scope.

(** [ReplayRuntimeWiring.build], without the model: the tool registry and the model's
    name; its fourth element, the teardown, is [release_wiring]. *)
Class Deployment := {
  build_wiring : StoredIncident -> Budgets -> ScenarioFamily -> res (list (ToolName * ToolWrapper) * string);
  artifact_bucket : bool;
}.

#[export] Instance plane_beside_site {P} `{ControlPlane P} : ControlPlane (Site * P) := {|
  ask op s := let '(a, p) := ask op s.2 in (a, (s.1, p));
  with_clock n s := (s.1, with_clock n s.2)
|}.

Definition incident_answer (a : Answer) : option (res (option string)) :=
  match a with AIncident r => Some r | _ => None end.
Definition status_answer (a : Answer) : option (res (option InvestigationStatus)) :=
  match a with AStatus r => Some r | _ => None end.
Definition text_answer (a : Answer) : option (res string) :=
  match a with AText r => Some r | _ => None end.

(** [except (LabError, OSError)] *)
Definition is_lab_or_os_error (e : exn) : bool :=
  match e with LabError _ => true | _ => is_os_error e end.

Section runner.
Context `{Pydantic} `{Host} `{Clocks} `{ToolCallingModel} `{LangGraph} `{Machine} `{Deployment}.

(** * On the machine alone *)

Definition has_finalized_artifact (investigation_id : string) (s : Site) : bool :=
  match st_results s !! investigation_id with
  | Some files => is_some (files !! "report.md")
  | None => false
  end.

Definition read_artifact (investigation_id name : string) : SiteM (Text File) :=
  site_step (fun s => match st_results s !! investigation_id ≫= lookup name with
                      | Some file => (Ok file, s)
                      | None => (Err file_missing, s)
                      end).

Fixpoint read_artifacts (investigation_id : string) (names : list string) : SiteM (list (string * Text File)) :=
  match names with
  | [] => mret []
  | name :: names =>
      file ← read_artifact investigation_id name;
      rest ← read_artifacts investigation_id names;
      mret ((name, file) :: rest)
  end.

Definition upload_finalized_artifacts (investigation_id : string) : SiteM unit :=
  if artifact_bucket
  then artifacts ← read_artifacts investigation_id ARTIFACT_NAMES;
       write_investigation_artifacts investigation_id artifacts
  else mret tt.

(** The report a finished job hands to the control plane. *)
Definition report_artifact_of (investigation_id : string) : string := investigation_id +:+ "/report.md".

(** The reserved incident's run, created if no incident file is there. *)
Definition prepare_lab (claim : WorkerClaim) (incident_id : string) : LabM unit :=
  id ← lift_result (validated_run_paths incident_id);
  s ← get_state;
  match lb_runs s !! id ≫= rn_incident with
  | Some _ => mret tt
  | None =>
      _ ← match lb_runs s !! id with
          | Some _ => reset_scenario id
          | None => mret tt
          end;
      _ ← start_scenario (value (wc_scenario_family claim)) (value (wc_seed claim)) (Some id);
      mret tt
  end.

(** What the graph is built from. *)
Definition job_investigation (incident : StoredIncident) (registry : list (ToolName * ToolWrapper)) : Investigation := {|
  iv_scope := si_scope incident; iv_packet := si_packet incident; iv_budgets := DEFAULT_BUDGETS;
  iv_registry := registry; iv_suppress_escalation := false; iv_no_tool_baseline := false |}.

Definition site_world (s : Site) : World := lb_world (st_lab s).

(** The thread and the world after an invocation. *)
Definition moved (investigation_id : string) (cp : option Checkpoint) (w : World) (s : Site) : Site :=
  let lab := (st_lab s) <| lb_world := w |> in
  let threads := match cp with None => st_threads s | Some cp => <[investigation_id := cp]> (st_threads s) end in
  s <| st_lab := lab |> <| st_threads := threads |>.

(** Recover the thread, or start it, or resume it with the owner's decision. *)
Definition advance_graph (claim : WorkerClaim) (incident : StoredIncident)
    (registry : list (ToolName * ToolWrapper)) (model_name : string) : SiteM (Outcome * list RunEvent) := fun s =>
  let id := wc_investigation_id claim in
  let iv := job_investigation incident registry in
  let thread := st_threads s !! id in
  match wc_checkpoint_id claim with
  | None =>
      let '(r, recorded, cp, w) :=
        match recover_graph_investigation iv thread (site_world s) with
        | Some recovered => recovered
        | None => run_graph_investigation iv (Some id) model_name (si_evidence incident) (site_world s)
        end in
      (o ← r; Ok (o, recorded), moved id (Some cp) w s)
  | Some _ =>
      match wc_owner_decision claim with
      | None => (Err corrupt, s)
      | Some d =>
          let '(r, recorded, cp, w) :=
            resume_graph_investigation iv thread (od_decision d) (od_rejection_note d) (site_world s) in
          (result ← r; Ok (Finished result, recorded), moved id cp w s)
      end
  end.

(** [release()] *)
Definition release_wiring : SiteM unit := site_step (fun s => (Ok tt, s)).

(** From the verified incident to the outcome. *)
Definition run_graph (claim : WorkerClaim) (incident : StoredIncident)
    (registry : list (ToolName * ToolWrapper)) (model_name : string) : SiteM WorkerOutcome :=
  _ ← site_step (fun s => (Ok tt, s));
  outcome ← advance_graph claim incident registry model_name;
  match outcome.1 with
  | Escalated e => mret (PausedWorkerOutcome (es_checkpoint_id e))
  | Finished result =>
      _ ← finalize_investigation (res_report result) outcome.2 (res_evidence result) (res_receipts result)
            (render_report (res_report result) (res_evidence result) (res_receipts result) model_name);
      _ ← upload_finalized_artifacts (wc_investigation_id claim);
      mret (FinalizedWorkerOutcome (report_artifact_of (wc_investigation_id claim)))
  end.

Definition run_claimed (claim : WorkerClaim) (incident_id : string) : SiteM WorkerOutcome :=
  _ ← lift_lab (prepare_lab claim incident_id);
  incident ← lift_lab (load_verified_incident incident_id);
  wiring ← site_step (fun s => (build_wiring incident DEFAULT_BUDGETS (wc_scenario_family claim), s));
  finally_do (run_graph claim incident wiring.1 wiring.2) release_wiring.

(** The marker's text, if there is one. *)
Definition active_marker : LabM (option string) :=
  try_except (text ← read_marker; mret (Some text))
    (fun e => if is_named "FileNotFoundError" e then mret None else raise e).

(** [reset_scenario], or [release_scenario] when the run cannot be removed. *)
Definition reset_or_release (incident_id : string) : SiteM unit :=
  lift_lab (try_except (reset_scenario incident_id)
    (fun e => if is_lab_or_os_error e then release_scenario incident_id else raise e)).

(** * Beside the control plane *)

Section beside_plane.
Context {P : Type} `{ControlPlane P}.
Notation JobM := (ST (Site * P) exn).

Definition lift_site {A} (m : SiteM A) : JobM A := fun s =>
  let '(r, site) := m s.1 in (r, (site, s.2)).

Definition run (claim : WorkerClaim) : JobM WorkerOutcome :=
  s ← get_state;
  if has_finalized_artifact (wc_investigation_id claim) s.1
  then _ ← lift_site (upload_finalized_artifacts (wc_investigation_id claim));
       mret (FinalizedWorkerOutcome (report_artifact_of (wc_investigation_id claim)))
  else
    incident_id ← match wc_incident_id claim with
                  | Some id => mret id
                  | None => asking (op_reserve_incident (wc_investigation_id claim) (wc_claim_token claim)) text_answer
                  end;
    lift_site (run_claimed claim incident_id).

Definition reconcile_scenarios : JobM unit :=
  marker ← lift_site (lift_lab active_marker);
  match marker with
  | None => mret tt
  | Some incident_id =>
      if isalnum incident_id
      then status ← asking (op_scenario_status incident_id) status_answer;
           match status with
           | None | Some I_PAUSED_APPROVAL => lift_site (lift_lab (release_scenario incident_id))
           | Some I_FAILED_SAFE | Some I_COMPLETED => lift_site (reset_or_release incident_id)
           | _ => mret tt
           end
      else raise corrupt
  end.

Definition release_paused_scenario (claim : WorkerClaim) : JobM unit :=
  incident_id ← asking (op_incident_id_for (wc_investigation_id claim)) incident_answer;
  match incident_id with
  | None => mret tt
  | Some id => lift_site (lift_lab (release_scenario id))
  end.

Definition release_finalized_scenario (claim : WorkerClaim) : JobM unit :=
  incident_id ← asking (op_incident_id_for (wc_investigation_id claim)) incident_answer;
  match incident_id with
  | None => mret tt
  | Some id => lift_site (reset_or_release id)
  end.

Definition release_failed_scenario (claim : WorkerClaim) : JobM unit := release_finalized_scenario claim.

(** The worker [app] builds around the runner. *)
Definition hosted_worker : ReplayWorker := {|
  rw_reconcile := Some reconcile_scenarios;
  rw_on_paused := Some release_paused_scenario;
  rw_on_finalized := Some release_finalized_scenario;
  rw_on_failed := Some release_failed_scenario |}.
End beside_plane.
End runner.
