(* ===== verification/JobProps.v ===== *)
(** The job runner, whatever its machine does: an investigation's results appear once and
    whole, its thread stays its own, and what a finished or paused attempt left gives no
    other outcome to a later one, which asks the model nothing. *)
From Stdlib Require Import ZArith Lia.
From stdpp Require Import prelude strings list gmap.
From S2P Require Import Prelude PyText Float64 Tools Domain World Evidence Wrappers Models GraphState GraphNodes GraphRun GraphInvariant GraphProps GraphResume GraphModes Report Approvals ControlPlane Workers Lab LabProps Site SiteProps JobRunner.
Local Open Scope Z_scope.

(** Two computations over a state beside the plane's. *)
Section publishing.
Context `{Pydantic} `{Clocks} `{FreshIds} `{ToolCallingModel} `{LangGraphLaws} `{Machine} `{Deployment}.

Definition view (s : Site) := (st_threads s, st_results s).

Lemma view_lab s lab : view (s <| st_lab := lab |>) = view s.
Proof. done. Qed.

Lemma leaves_read id name : leaves view (read_artifact id name).
Proof. apply leaves_step; [done|]. intros s. by case_match. Qed.

Lemma leaves_reads id names : leaves view (read_artifacts id names).
Proof. induction names; simpl; leaves. apply leaves_read. Qed.

Hint Resolve leaves_read leaves_reads : leaves.

Lemma leaves_upload id artifacts : leaves view (write_investigation_artifacts id artifacts).
Proof.
  induction artifacts as [|[name content] artifacts IH]; simpl; leaves.
  all: apply leaves_step; [done|]; intros s; by repeat case_match.
Qed.

Lemma leaves_upload_finalized id : leaves view (upload_finalized_artifacts id).
Proof. unfold upload_finalized_artifacts. leaves. apply leaves_upload. Qed.

Lemma leaves_release : leaves view release_wiring.
Proof. by apply leaves_step. Qed.

(** * Results appear once *)

Definition site_ok (s : Site) : Prop := forall id cp, st_threads s !! id = Some cp -> thread_ok id cp.

(** A directory of results as [finalize_investigation] leaves it. *)
Definition published (id : string) (files : Directory) : Prop :=
  exists report events evidence receipts model_name,
    ir_investigation_id report = id
    /\ holds_whole files (artifacts_of report events evidence receipts (render_report report evidence receipts model_name)).

(** From [s0] on, the investigation [id] changed at most its own thread and staging
    directory, and its results, if they changed, were published. *)
Record advanced (id : string) (s0 s : Site) : Prop := {
  ad_ok : site_ok s;
  ad_threads : forall other, other <> id -> st_threads s !! other = st_threads s0 !! other;
  ad_results : forall dir, dir <> id -> dir <> staging_of id -> st_results s !! dir = st_results s0 !! dir;
  ad_own : st_results s !! id = st_results s0 !! id
           \/ st_results s0 !! id = None /\ exists files, st_results s !! id = Some files /\ published id files;
}.

Lemma advanced_view id s0 s s' : view s' = view s -> advanced id s0 s -> advanced id s0 s'.
Proof.
  intros [= Ht Hr] [Hok ? ? ?]. split; rewrite ?Hr, ?Ht; [|done..]. intros j cp. rewrite Ht. apply Hok.
Qed.

Lemma advanced_refl id s : site_ok s -> advanced id s s.
Proof. split; try done. by left. Qed.

Lemma advanced_leaves {A} id s0 (m : SiteM A) : leaves view m -> triple (advanced id s0) m (fun _ => advanced id s0) (fun _ => advanced id s0).
Proof. intros Hm s Hs. pose proof (advanced_view id s0 _ _ (Hm s) Hs) as Hs'. by destruct (m s) as [[] s']. Qed.

Definition unpublished (id : string) (s0 s : Site) : Prop := advanced id s0 s /\ st_results s = st_results s0.

(** Moving the thread publishes nothing, and the outcome describes the thread it leaves. *)
Lemma advance_graph_spec c incident registry name s0 :
  let id := wc_investigation_id c in
  triple (unpublished id s0) (advance_graph c incident registry name)
    (fun r s => unpublished id s0 s /\ exists cp, st_threads s !! id = Some cp /\ outcome_on id cp r.1)
    (fun _ => unpublished id s0).
Proof.
  intros id s [Hs Hr]. unfold advance_graph. fold id. set (iv := job_investigation incident registry).
  assert (Hmoved : forall cp w, thread_ok id cp -> unpublished id s0 (moved id (Some cp) w s)).
  { intros cp w Hcp. destruct Hs as [Hok Hother Hres Hown]. split; [split|]; simpl; try done.
    - intros j cp'. simpl. destruct (decide (j = id)) as [->|Hne].
      + rewrite lookup_insert_eq. by intros [= <-].
      + rewrite lookup_insert_ne by done. apply Hok.
    - intros j Hj. rewrite lookup_insert_ne by done. by apply Hother. }
  assert (Hlookup : forall cp w, st_threads (moved id (Some cp) w s) !! id = Some cp) by (intros; apply lookup_insert_eq).
  destruct (wc_checkpoint_id c) as [k|].
  - destruct (wc_owner_decision c) as [d|]; [|by split].
    destruct (st_threads s !! id) as [cp|] eqn:Hcp; [|by split; [eapply advanced_view; [|done]|]].
    destruct (resume_graph_investigation iv (Some cp) _ _ _) as [[[r recorded] cp'] w] eqn:Hrun.
    assert (exists cp1, cp' = Some cp1) as [cp1 ->].
    { unfold resume_graph_investigation in Hrun. destruct (invoke_and_settle _ _ _ _ _) as [[[? ?] ?] ?].
      injection Hrun as _ _ <- _. by eexists. }
    apply (resume_belongs id) in Hrun as [Hok Ho]; [|by apply (ad_ok _ _ _ Hs)].
    destruct r as [x|e]; [|by apply Hmoved]. split; [by apply Hmoved|]. exists cp1. split; [done|]. by apply Ho.
  - assert (Hrun : forall r recorded cp w, match recover_graph_investigation iv (st_threads s !! id) (site_world s) with
          | Some recovered => recovered
          | None => run_graph_investigation iv (Some id) name (si_evidence incident) (site_world s)
          end = (r, recorded, cp, w) -> thread_ok id cp /\ forall o, r = Ok o -> outcome_on id cp o).
    { intros r recorded cp w. destruct (st_threads s !! id) as [cp0|] eqn:Hcp; [|apply run_belongs].
      destruct (recover_graph_investigation _ _ _) as [x|] eqn:Hrec; [|apply run_belongs]. intros ->.
      apply (recover_belongs id) in Hrec; [done|]. by apply (ad_ok _ _ _ Hs). }
    destruct (match recover_graph_investigation _ _ _ with Some _ => _ | None => _ end) as [[[r recorded] cp] w].
    destruct (Hrun r recorded cp w eq_refl) as [Hok Ho]. destruct r as [o|e]; [|by apply Hmoved].
    split; [by apply Hmoved|]. exists cp. split; [done|]. by apply Ho.
Qed.

(** The investigation's directory holds these files. *)
Definition has_files (id : string) (names : list string) (s : Site) : Prop :=
  Forall (fun n => is_Some (st_results s !! id ≫= lookup n)) names.

(** The thread waits for its owner: its checkpoint reads back as an escalation. *)
Definition waits_at (id : string) (s : Site) (checkpoint_id : string) : Prop :=
  exists cp p e, st_threads s !! id = Some cp /\ cp_interrupt cp = Some p
    /\ escalated_of (cp_state cp) p (latest_checkpoint_id cp) = Ok (Escalated e)
    /\ latest_checkpoint_id cp = checkpoint_id.

(** What the runner's outcome says of the site it leaves. *)
Definition outcome_holds (id : string) (s0 : Site) (o : WorkerOutcome) (s : Site) : Prop :=
  match o with
  | PausedWorkerOutcome checkpoint_id => waits_at id s checkpoint_id /\ st_results s = st_results s0
  | FinalizedWorkerOutcome artifact =>
      artifact = report_artifact_of id /\ has_finalized_artifact id s = true
      /\ (artifact_bucket = true -> has_files id ARTIFACT_NAMES s)
  end.

Lemma has_files_view id names s s' : view s' = view s -> has_files id names s -> has_files id names s'.
Proof. unfold has_files. by intros [= _ ->]. Qed.

Lemma has_files_finalized id s : has_files id ARTIFACT_NAMES s -> has_finalized_artifact id s = true.
Proof.
  unfold has_files, has_finalized_artifact. rewrite Forall_forall. intros Hall.
  destruct (Hall "report.md") as [file Hfile]; [unfold ARTIFACT_NAMES; rewrite !elem_of_cons; tauto|].
  destruct (st_results s !! id); [|done]. simpl in Hfile. by rewrite Hfile.
Qed.

(** What was read, or uploaded, was there. *)
Lemma reads_found id names s : is_ok (read_artifacts id names s).1 = true -> has_files id names s.
Proof.
  revert s. induction names as [|n names IH]; intros s; [constructor|]. cbn [read_artifacts]. unfold mbind, ST_bind.
  pose proof (leaves_read id n s) as Hv. destruct (read_artifact id n s) as [[file|e] s1] eqn:Hr; [|done].
  simpl in Hv. specialize (IH s1). destruct (read_artifacts id names s1) as [[rest|e] s2]; [|done]. intros _.
  constructor; [|apply (has_files_view id names s1); [done|by apply IH]].
  unfold read_artifact, site_step in Hr. destruct (machine_fault _); [done|].
  unfold site_step in Hr. cbn in Hr. destruct (st_results s !! id ≫= lookup n); [by eexists|done].
Qed.

Lemma upload_found id s :
  (upload_finalized_artifacts id s).1 = Ok tt -> artifact_bucket = true -> has_files id ARTIFACT_NAMES s.
Proof.
  unfold upload_finalized_artifacts. intros Hu Hb. rewrite Hb in Hu. apply reads_found.
  unfold mbind, ST_bind in Hu. by destruct (read_artifacts id ARTIFACT_NAMES s) as [[] ?].
Qed.

Lemma outcome_view id s0 o s s' : view s' = view s -> outcome_holds id s0 o s -> outcome_holds id s0 o s'.
Proof. intros [= Ht Hr]. destruct o; simpl; unfold waits_at, has_finalized_artifact, has_files; by rewrite ?Ht, Hr. Qed.

Lemma whole_files id files report events evidence receipts markdown s :
  st_results s !! id = Some files -> holds_whole files (artifacts_of report events evidence receipts markdown) ->
  has_files id ARTIFACT_NAMES s.
Proof.
  intros Hfiles Hw. unfold has_files. rewrite Hfiles. cbn [mbind option_bind].
  unfold holds_whole, artifacts_of in Hw. rewrite !Forall_cons in Hw. cbn [fst snd] in Hw. unfold ARTIFACT_NAMES.
  repeat (constructor; [naive_solver|]). constructor.
Qed.

Lemma published_files id files s : st_results s !! id = Some files -> published id files -> has_files id ARTIFACT_NAMES s.
Proof. intros Hfiles (report & events & evidence & receipts & name & _ & Hw). by eapply whole_files. Qed.

Lemma finalize_publishes c s0 report events evidence receipts name :
  let id := wc_investigation_id c in
  ir_investigation_id report = id ->
  triple (unpublished id s0)
    (finalize_investigation report events evidence receipts (render_report report evidence receipts name))
    (fun _ s => advanced id s0 s /\ has_files id ARTIFACT_NAMES s) (fun _ => advanced id s0).
Proof.
  intros id Hid s [Hs Hr]. set (md := render_report report evidence receipts name).
  pose proof (finalize_is_atomic report events evidence receipts md s) as Hf. cbv zeta in Hf.
  pose proof (finalize_leaves_threads report events evidence receipts md s) as Hleaves. destruct (finalize_investigation _ _ _ _ _ s) as [r s']. simpl in Hleaves.
  destruct Hf as [Hother Hown]. rewrite Hid in Hother, Hown. fold id in Hother, Hown. rewrite Hr in Hother, Hown.
  destruct Hs as [Hok Hthreads Hres _].
  assert (Hadv : (st_results s' !! id = st_results s0 !! id
           \/ st_results s0 !! id = None /\ exists files, st_results s' !! id = Some files /\ published id files) -> advanced id s0 s').
  { intros Ho. split; [|intros j Hj; rewrite Hleaves; by apply Hthreads|done|done]. intros j cp. rewrite Hleaves. apply Hok. }
  destruct r as [[]|e]; [|apply Hadv; by left].
  destruct Hown as (Hnone & files & Hfiles & Hw).
  assert (Hpub : published id files) by (by exists report, events, evidence, receipts, name).
  split; [apply Hadv; right; split; [done|by exists files]|]. by eapply published_files.
Qed.

Lemma run_graph_spec c incident registry name s0 :
  let id := wc_investigation_id c in
  triple (unpublished id s0) (run_graph c incident registry name)
    (fun o s => advanced id s0 s /\ outcome_holds id s0 o s) (fun _ => advanced id s0).
Proof.
  intros id. eapply (triple_bind _ _ _ (fun _ => unpublished id s0)).
  { intros s Hs. unfold site_step. destruct (machine_fault _); [by eapply advanced_view; [|apply Hs]|].
    destruct Hs as [Hs Hr]. split; [by eapply advanced_view; [|apply Hs]|done]. }
  intros []. eapply triple_bind.
  { eapply triple_conseq; [apply advance_graph_spec|done..|]. by intros e s []. }
  intros [o events] s [Hs (cp & Hcp & Ho)]. cbn [fst snd] in *. destruct o as [x|e].
  - assert (Hfin : triple (unpublished id s0)
      (_ ← finalize_investigation (res_report x) events (res_evidence x) (res_receipts x)
             (render_report (res_report x) (res_evidence x) (res_receipts x) name);
       _ ← upload_finalized_artifacts (wc_investigation_id c);
       mret (FinalizedWorkerOutcome (report_artifact_of (wc_investigation_id c))))
      (fun o s => advanced id s0 s /\ outcome_holds id s0 o s) (fun _ => advanced id s0)).
    { eapply triple_bind; [by apply finalize_publishes|]. intros [].
      eapply (triple_bind _ _ _ (fun _ s => advanced id s0 s /\ has_files id ARTIFACT_NAMES s)).
      - intros s1 [Hs1 Hart]. pose proof (leaves_upload_finalized id s1) as Hv.
        destruct (upload_finalized_artifacts _ s1) as [[[]|e] s2]; simpl in Hv.
        + split; [by eapply advanced_view|by eapply has_files_view].
        + by eapply advanced_view.
      - intros []. apply triple_ret. intros s1 [? ?]. split; [done|].
        split; [done|]. split; [by apply has_files_finalized|done]. }
    by apply Hfin.
  - destruct Hs as [Hs Hr]. split; [done|]. destruct Ho as (p & Hp & Hesc). split; [|done]. exists cp, p, e.
    split_and!; [done..|]. apply escalated_of_inv in Hesc as (x & [= ->] & <-). done.
Qed.

Lemma run_claimed_spec c i s0 :
  let id := wc_investigation_id c in
  triple (unpublished id s0) (run_claimed c i) (fun o s => advanced id s0 s /\ outcome_holds id s0 o s) (fun _ => advanced id s0).
Proof.
  intros id. assert (Hview : forall A (m : SiteM A), leaves view m -> triple (unpublished id s0) m (fun _ => unpublished id s0) (fun _ => advanced id s0)).
  { intros A m Hm s [Hs Hr]. pose proof (Hm s) as Hv. pose proof (advanced_view _ _ _ _ Hv Hs) as Hs'.
    destruct (m s) as [[a|e] s']; [|done]. split; [done|]. injection Hv as _ ->. done. }
  eapply triple_bind; [by apply Hview, leaves_lab|]. intros [].
  eapply triple_bind; [by apply Hview, leaves_lab|]. intros incident.
  eapply triple_bind; [by apply Hview, leaves_step|]. intros [registry name].
  intros s Hs. pose proof (run_graph_spec c incident registry name s0 s Hs) as Hrun. unfold finally_do. cbn [fst snd].
  destruct (run_graph c incident registry name s) as [[o|e] s1].
  - destruct Hrun as [Hs1 Ho]. pose proof (leaves_release s1) as Hv. unfold mbind, ST_bind.
    destruct (release_wiring s1) as [[[]|e'] s2]; simpl in Hv; [split|];
      by (eapply advanced_view || eapply outcome_view).
  - destruct (is_killed e); [done|]. pose proof (leaves_release s1) as Hv. unfold mbind, ST_bind.
    destruct (release_wiring s1) as [[[]|e'] s2]; simpl in Hv; by eapply advanced_view.
Qed.

Section beside.
Context {P : Type} `{ControlPlane P}.

Lemma triple_site {A} (Pre : Site -> Prop) (m : SiteM A) (Q : A -> Site -> Prop) (R : exn -> Site -> Prop) :
  triple Pre m Q R -> triple (fun s : Site * P => Pre s.1) (lift_site m) (fun a s => Q a s.1) (fun e s => R e s.1).
Proof. intros Hm [s p] Hs. unfold lift_site. specialize (Hm s Hs). cbn [fst snd]. by destruct (m s) as [[a|e] s']. Qed.

Lemma triple_asking {A} (Pre : Site -> Prop) op (out : Answer -> option (res A)) :
  triple (fun s : Site * P => Pre s.1) (asking op out) (fun _ s => Pre s.1) (fun _ s => Pre s.1).
Proof.
  intros [s p] Hs. unfold asking. cbn [ask plane_beside_site fst snd]. destruct (ask op p) as [a p'].
  by destruct (out a) as [[]|].
Qed.

Lemma job_spec c s :
  site_ok s ->
  let id := wc_investigation_id c in
  triple (fun t : Site * P => t.1 = s) (run c)
    (fun o t => advanced id s t.1 /\ outcome_holds id s o t.1) (fun _ t => advanced id s t.1).
Proof.
  intros Hok id. assert (Hs : unpublished id s s) by (by split; [apply advanced_refl|]).
  apply triple_get. intros [s1 p1]. cbn [fst]. intros ->. fold id. destruct (has_finalized_artifact id s) eqn:Hart.
  - eapply (triple_bind _ _ _ (fun _ t => advanced id s t.1 /\ has_finalized_artifact id t.1 = true
              /\ (artifact_bucket = true -> has_files id ARTIFACT_NAMES t.1))).
    + intros [t q] [[= -> ->] _]. pose proof (leaves_upload_finalized id s) as Hv. pose proof (upload_found id s) as Hf.
      unfold lift_site. cbn [fst snd].
      destruct (upload_finalized_artifacts id s) as [[[]|e] t]; simpl in *;
        pose proof (advanced_view id s s t Hv (advanced_refl id s Hok)); [split_and!|]; try done.
      * unfold has_finalized_artifact in *. by injection Hv as _ ->.
      * intros Hb. by eapply has_files_view; [|apply Hf].
    + intros []. apply triple_ret. by intros t (? & ? & ?).
  - eapply (triple_bind _ _ _ (fun _ (t : Site * P) => unpublished id s t.1)).
    + destruct (wc_incident_id c) as [i|]; [by apply triple_ret; intros t [-> _]|].
      eapply triple_conseq; [apply (triple_asking (unpublished id s))|by intros t [-> _]|done|]. by intros e t [].
    + intros i. apply (triple_site _ _ (fun o t => advanced id s t /\ outcome_holds id s o t) (fun _ t => advanced id s t)).
      apply run_claimed_spec.
Qed.

(** C7: Results appear once, and whole. Whatever the model and the backends do, whichever
    file operation or upload fails and wherever the process is killed, an attempt at a job
    moves no other investigation's thread and touches no other results; its own results
    are left alone if they exist, and otherwise appear complete, under the investigation's
    id, or not at all. An attempt that reports a finished job left its report there, and
    one that reports a pause left a thread that waits, at the checkpoint it names. *)
Theorem results_appear_once c s (p : P) :
  site_ok s ->
  let id := wc_investigation_id c in
  let '(r, (s', _)) := run c (s, p) in
  advanced id s s' /\ forall o, r = Ok o -> outcome_holds id s o s'.
Proof.
  intros Hok id. pose proof (job_spec c s Hok (s, p) eq_refl) as Ht. fold id in Ht.
  destruct (run c (s, p)) as [[o|e] [s' p']]; cbn [fst] in Ht; [|by split].
  destruct Ht as [Ha Ho]. split; [done|]. by intros o' [= <-].
Qed.

(** * An attempt repeated *)

(** What a further attempt must not change: threads, results, and the calls made. *)
Definition asked (s : Site) := (view s, calls_of (st_lab s)).

Lemma asked_lab {A} (m : LabM A) : leaves calls_of m -> leaves asked (lift_lab m).
Proof.
  intros Hm s. specialize (Hm (st_lab s)). unfold lift_lab. destruct (m (st_lab s)) as [r lab].
  unfold asked. simpl in *. by rewrite Hm.
Qed.

Lemma asked_step {A} (f : Site -> res A * Site) : (forall s, asked (f s).2 = asked s) -> leaves asked (site_step f).
Proof. intros Hf s. unfold site_step. destruct (machine_fault _); [done|]. by rewrite Hf. Qed.

Lemma asked_reads id names : leaves asked (read_artifacts id names).
Proof. induction names; simpl; leaves. apply asked_step. intros t. by case_match. Qed.

Lemma asked_writes id artifacts : leaves asked (write_investigation_artifacts id artifacts).
Proof.
  induction artifacts as [|[name content] artifacts IH]; simpl; leaves.
  all: apply asked_step; intros t; by repeat case_match.
Qed.

Lemma asked_upload id : leaves asked (upload_finalized_artifacts id).
Proof.
  unfold upload_finalized_artifacts. destruct artifact_bucket; [|apply leaves_ret].
  apply leaves_bind; [apply asked_reads|intros; apply asked_writes].
Qed.

Lemma asked_prepare c i : leaves calls_of (prepare_lab c i).
Proof. unfold prepare_lab. leaves. Qed.

(** The thread waits for its owner: recovering it answers at once. *)
Lemma advance_waiting c incident registry name s cp :
  wc_checkpoint_id c = None -> st_threads s !! wc_investigation_id c = Some cp -> is_Some (cp_interrupt cp) ->
  exists r, advance_graph c incident registry name s = (r, s)
    /\ forall o, r = Ok o -> exists e, o.1 = Escalated e /\ es_checkpoint_id e = latest_checkpoint_id cp.
Proof.
  intros Hc Hcp [p Hp]. unfold advance_graph. rewrite Hc, Hcp. unfold recover_graph_investigation. cbn [mbind option_bind].
  rewrite Hp. assert (Hs : moved (wc_investigation_id c) (Some cp) (site_world s) s = s).
  { unfold moved. destruct s as [[] ? ? ? ?]. cbn in *. by rewrite insert_id. }
  rewrite Hs. eexists. split; [done|]. intros o. destruct (escalated_of _ _ _) as [x|] eqn:Hx; [|done]. intros [= <-].
  by apply escalated_of_inv in Hx.
Qed.

Lemma run_claimed_waiting c i s cp :
  wc_checkpoint_id c = None -> st_threads s !! wc_investigation_id c = Some cp -> is_Some (cp_interrupt cp) ->
  triple (fun t => asked t = asked s) (run_claimed c i)
    (fun o t => asked t = asked s /\ o = PausedWorkerOutcome (latest_checkpoint_id cp)) (fun _ t => asked t = asked s).
Proof.
  intros Hc Hcp Hint. set (Q := fun o t => asked t = asked s /\ o = PausedWorkerOutcome (latest_checkpoint_id cp)).
  assert (Hkeep : forall A (m : SiteM A), leaves asked m ->
    triple (fun t => asked t = asked s) m (fun _ t => asked t = asked s) (fun _ t => asked t = asked s)).
  { intros A m Hm t Ht. specialize (Hm t). destruct (m t) as [[] t']; simpl in Hm; congruence. }
  eapply triple_bind; [apply Hkeep, asked_lab, asked_prepare|]. intros [].
  eapply triple_bind; [apply Hkeep, asked_lab, calls_load|]. intros incident.
  eapply triple_bind; [by apply Hkeep, asked_step|]. intros [registry name].
  assert (Hrun : triple (fun t => asked t = asked s) (run_graph c incident registry name) Q (fun _ t => asked t = asked s)).
  { eapply triple_bind; [by apply Hkeep, asked_step|]. intros [].
    eapply (triple_bind _ _ _ (fun o t => asked t = asked s
              /\ exists e, o.1 = Escalated e /\ es_checkpoint_id e = latest_checkpoint_id cp)).
    - intros t Ht. assert (Hcp' : st_threads t !! wc_investigation_id c = Some cp) by (injection Ht as -> _; done).
      destruct (advance_waiting c incident registry name t cp Hc Hcp' Hint) as (r & -> & Hr).
      destruct r as [o|e]; [|done]. split; [done|]. by apply Hr.
    - intros o t [Ht (e & He & Hid)]. rewrite He. split; [done|]. by rewrite Hid. }
  intros t Ht. specialize (Hrun t Ht). unfold finally_do. cbn [fst snd].
  assert (Hrelease : leaves asked release_wiring) by (by apply asked_step).
  destruct (run_graph c incident registry name t) as [[o|e] t1]; [|destruct (is_killed e); [done|]];
    specialize (Hrelease t1); unfold mbind, ST_bind; destruct (release_wiring t1) as [[[]|e'] t2]; unfold Q in *; simpl in *;
    rewrite Hrelease; first [exact Hrun|apply Hrun].
Qed.

(** A resumed job never pauses again. *)
Lemma resumed_finishes c i : is_Some (wc_checkpoint_id c) -> yields (fun o => exists a, o = FinalizedWorkerOutcome a) (run_claimed c i).
Proof.
  intros [k Hk]. unfold run_claimed. apply yields_bind. intros []. apply yields_bind. intros incident.
  apply yields_bind. intros [registry name].
  assert (Hrun : yields (fun o => exists a, o = FinalizedWorkerOutcome a) (run_graph c incident registry name)).
  { intros s o s' (u & s1 & _ & Ho)%ST_bind_Ok. apply ST_bind_Ok in Ho as ([x events] & s2 & Hadv & Ho).
    assert (Hfin : exists y, x = Finished y).
    { unfold advance_graph in Hadv. rewrite Hk in Hadv. destruct (wc_owner_decision c) as [d|]; [|done].
      destruct (resume_graph_investigation _ _ _ _ _) as [[[[y|e] ?] ?] ?]; [|done].
      injection Hadv as <- _ _. by eexists. }
    destruct Hfin as [y ->]. cbn [fst snd] in Ho. apply ST_bind_Ok in Ho as (? & ? & _ & Ho).
    apply ST_bind_Ok in Ho as (? & ? & _ & [= <- _]). by eexists. }
  intros s o s' Ho. unfold finally_do in Ho. cbn [fst snd] in Ho.
  destruct (run_graph c incident registry name s) as [[o'|e] s1] eqn:Hr.
  - apply ST_bind_Ok in Ho as (? & ? & _ & [= -> _]). by eapply Hrun.
  - destruct (is_killed e); [done|]. by apply ST_bind_Ok in Ho as (? & ? & _ & ?).
Qed.

Lemma run_paused c s (p : P) k s1 p1 :
  run c (s, p) = (Ok (PausedWorkerOutcome k), (s1, p1)) ->
  has_finalized_artifact (wc_investigation_id c) s = false /\ wc_checkpoint_id c = None.
Proof.
  unfold run. intros ([t q] & t1 & [= <- <- <-] & Hrun)%ST_bind_Ok. cbn [fst] in Hrun.
  destruct (has_finalized_artifact _ s); [by apply ST_bind_Ok in Hrun as (? & ? & _ & ?)|]. split; [done|].
  apply ST_bind_Ok in Hrun as (i & [t2 q2] & _ & Hrun). unfold lift_site in Hrun. cbn [fst snd] in Hrun.
  destruct (run_claimed c i t2) as [o t3] eqn:Hc. injection Hrun as -> _ _.
  destruct (wc_checkpoint_id c) as [ck|] eqn:Hck; [|done].
  destruct (resumed_finishes c i ltac:(by rewrite Hck) _ _ _ Hc) as [a ?]. done.
Qed.

(** A claim whose attempt came to [o] before, with what that left still there: the thread
    waits and the claim carries no decision yet, or the results are published. *)
Definition settled_as (c : WorkerClaim) (o : WorkerOutcome) (s : Site) : Prop :=
  let id := wc_investigation_id c in
  match o with
  | PausedWorkerOutcome k => has_finalized_artifact id s = false /\ wc_checkpoint_id c = None /\ waits_at id s k
  | FinalizedWorkerOutcome artifact =>
      artifact = report_artifact_of id /\ has_finalized_artifact id s = true
      /\ (artifact_bucket = true -> has_files id ARTIFACT_NAMES s)
  end.

Lemma attempt_settles c c' s (p : P) o s1 p1 s2 :
  site_ok s -> run c (s, p) = (Ok o, (s1, p1)) ->
  wc_investigation_id c' = wc_investigation_id c -> wc_checkpoint_id c' = wc_checkpoint_id c ->
  st_threads s2 !! wc_investigation_id c = st_threads s1 !! wc_investigation_id c ->
  st_results s2 !! wc_investigation_id c = st_results s1 !! wc_investigation_id c ->
  settled_as c' o s2.
Proof.
  intros Hok Hrun Hid Hck Hthread Hres. unfold settled_as. cbv zeta. rewrite Hid.
  pose proof (job_spec c s Hok (s, p) eq_refl) as Ho. rewrite Hrun in Ho. destruct Ho as [_ Ho]. cbn [fst] in Ho.
  unfold outcome_holds, waits_at, has_finalized_artifact, has_files in *. rewrite Hthread, Hres. destruct o as [k|artifact]; [|done].
  destruct (run_paused _ _ _ _ _ _ Hrun) as [Hno Hnone]. destruct Ho as [Hw Hsame]. unfold has_finalized_artifact in Hno.
  rewrite Hsame, Hck. by split_and!.
Qed.

(** Whatever fails, a later attempt repeats the outcome or raises. *)
Lemma settled_repeats c o s (p : P) :
  settled_as c o s ->
  let '(r, (s', _)) := run c (s, p) in (forall o', r = Ok o' -> o' = o) /\ asked s' = asked s.
Proof.
  intros Hset. unfold settled_as in Hset. cbv zeta in Hset. unfold run. unfold mbind at 1, ST_bind at 1. cbn [get_state fst].
  destruct o as [k|artifact].
  - destruct Hset as (-> & Hnone & cp & ip & e & Hcp & Hint & _ & <-).
    assert (Hsite : forall i t, asked t = asked s -> forall q, let '(r, (s', _)) := lift_site (run_claimed c i) (t, q : P) in
      (forall o', r = Ok o' -> o' = PausedWorkerOutcome (latest_checkpoint_id cp)) /\ asked s' = asked s).
    { intros i t Ht q. pose proof (run_claimed_waiting c i s cp Hnone Hcp ltac:(by rewrite Hint) t Ht) as Hw.
      unfold lift_site. cbn [fst snd]. destruct (run_claimed c i t) as [[o|e'] t']; [|by split].
      destruct Hw as [Hw ->]. split; [by intros o' [= <-]|done]. }
    unfold mbind, ST_bind. destruct (wc_incident_id c) as [i|]; [by apply Hsite|].
    unfold asking. cbn [ask plane_beside_site fst snd]. destruct (ask _ p) as [a p'].
    destruct (text_answer a) as [[i|e']|]; [by apply Hsite|by split|by split].
  - destruct Hset as (-> & -> & _). pose proof (asked_upload (wc_investigation_id c) s) as Hup.
    unfold mbind, ST_bind, lift_site. cbn [fst snd].
    destruct (upload_finalized_artifacts _ s) as [[[]|e] s']; simpl in *; [|by split].
    split; [|done]. by intros o' [= <-].
Qed.
End beside.
End publishing.
