(* ===== verification/JobLiveness.v ===== *)
(** The job runner on a machine whose operations succeed: an attempt comes to its end
    from whatever an earlier one left, an outcome that was lost is returned again, and a
    finished or paused incident frees the lab. *)
From Stdlib Require Import ZArith Lia.
From stdpp Require Import prelude strings list gmap.
From S2P Require Import Prelude PyText Float64 Tools Domain World Evidence Wrappers Models GraphState GraphNodes GraphRun GraphInvariant GraphProps GraphResume GraphModes Report Approvals ControlPlane Workers Lab LabProps Site SiteProps JobRunner JobProps.
Local Open Scope Z_scope.

Section quiet.
Context `{Pydantic} `{Clocks} `{FreshIds} `{ToolCallingModel} `{LangGraphLaws} `{!ClockLaws} `{Machine} `{Deployment}.
Hypothesis quiet : forall n, machine_fault n = None.

Lemma no_fault e : ~ faulted e.
Proof. intros [n Hn]. by rewrite quiet in Hn. Qed.

(** * Releasing and resetting *)

(** Only what is on the disk changed. *)
Definition relabbed (marker : option string) (runs : gmap string Run) (s s' : Lab) : Prop :=
  lb_marker s' = marker /\ lb_runs s' = runs /\ lb_calls s' = lb_calls s /\ lb_world s' = lb_world s.

Ltac run_quiet := repeat (unfold machine_step, mbind, ST_bind; rewrite ?quiet; cbn).

Lemma read_marker_quiet s text :
  lb_marker s = Some text -> exists s', read_marker s = (Ok (py_strip text), s') /\ relabbed (lb_marker s) (lb_runs s) s s'.
Proof. intros Hm. eexists. unfold read_marker, machine_step. rewrite quiet. cbn. by rewrite Hm. Qed.

Lemma unlink_marker_quiet s text :
  lb_marker s = Some text ->
  exists s', unlink_marker_of (py_strip text) s = (Ok tt, s') /\ relabbed None (lb_runs s) s s'.
Proof.
  intros Hm. unfold unlink_marker_of, mbind, ST_bind. cbn [get_state]. rewrite Hm.
  destruct (read_marker_quiet s text Hm) as (s1 & -> & ? & Hr1 & ? & ?). rewrite decide_True by done.
  unfold unlink_marker, machine_step. rewrite quiet. eexists. split; [done|]. split_and!; simpl; congruence.
Qed.

Lemma lock_quiet {A} (m : LabM A) s (r : res A) marker runs :
  (forall t, relabbed (lb_marker s) (lb_runs s) s t -> exists t', m t = (r, t') /\ relabbed marker runs s t') ->
  exists s', with_scenario_lock m s = (r, s') /\ relabbed marker runs s s'.
Proof.
  intros Hm. unfold with_scenario_lock, plain_step, mbind, ST_bind. unfold machine_step at 1. rewrite quiet.
  destruct (Hm (s <| lb_steps := S (lb_steps s) |>)) as (t' & Ht & Hrel); [by split_and!|]. rewrite Ht.
  destruct r as [a|e]; [|by exists t']. unfold machine_step. rewrite quiet. by eexists.
Qed.

Lemma relabbed_trans marker runs s t u :
  relabbed (lb_marker s) (lb_runs s) s t -> relabbed marker runs t u -> relabbed marker runs s u.
Proof. intros (? & ? & ? & ?) (? & ? & ? & ?). split_and!; congruence. Qed.

Lemma release_quiet s text :
  lb_marker s = Some text -> exists s', release_scenario (py_strip text) s = (Ok tt, s') /\ relabbed None (lb_runs s) s s'.
Proof.
  intros Hm. apply lock_quiet. intros t Ht. pose proof Ht as (Hmt & Hrt & _). rewrite Hm in Hmt.
  destruct (unlink_marker_quiet t text Hmt) as (u & -> & Hu). exists u. split; [done|]. rewrite Hrt in Hu.
  by eapply relabbed_trans.
Qed.

Lemma reset_quiet s text :
  lb_marker s = Some text -> isalnum (py_strip text) = true ->
  exists r s', reset_scenario (py_strip text) s = (r, s')
    /\ match r with
       | Ok _ => relabbed None (delete (py_strip text) (lb_runs s)) s s'
       | Err e => e = LabError INCIDENT_NOT_FOUND /\ lb_runs s !! py_strip text = None
                  /\ relabbed (lb_marker s) (lb_runs s) s s'
       end.
Proof.
  intros Hm Hal. destruct (lb_runs s !! py_strip text) eqn:Hrun.
  - exists (Ok tt). apply lock_quiet. intros t Ht. pose proof Ht as (Hmt & Hrt & _). rewrite Hm in Hmt.
    unfold validated_run_paths. rewrite Hal. unfold mbind, ST_bind. cbn [lift_result get_state]. rewrite Hrt, Hrun.
    destruct (unlink_marker_quiet t text Hmt) as (u & -> & Hu). unfold rmtree. rewrite quiet. eexists. split; [done|].
    eapply relabbed_trans; [exact Ht|]. destruct Hu as (? & Hru & ? & ?). split_and!; simpl; congruence.
  - exists (Err (LabError INCIDENT_NOT_FOUND)).
    destruct (lock_quiet (id ← lift_result (validated_run_paths (py_strip text));
        s ← get_state;
        match lb_runs s !! id with
        | None => raise (LabError INCIDENT_NOT_FOUND)
        | Some _ => _ ← unlink_marker_of id; rmtree id
        end) s (Err (LabError INCIDENT_NOT_FOUND)) (lb_marker s) (lb_runs s)) as (s' & Hs & Hrel).
    + intros t Ht. pose proof Ht as (Hmt & Hrt & _). unfold validated_run_paths. rewrite Hal. unfold mbind, ST_bind.
      cbn [lift_result get_state]. rewrite Hrt, Hrun. by exists t.
    + exists s'. by split.
Qed.

Lemma reset_or_release_quiet s text :
  lb_marker (st_lab s) = Some text -> isalnum (py_strip text) = true ->
  exists lab', reset_or_release (py_strip text) s = (Ok tt, s <| st_lab := lab' |>)
    /\ relabbed None (delete (py_strip text) (lb_runs (st_lab s))) (st_lab s) lab'.
Proof.
  intros Hm Hal. unfold reset_or_release, lift_lab, try_except.
  destruct (reset_quiet (st_lab s) text Hm Hal) as ([[]|e] & lab1 & -> & Hrel); [by exists lab1|].
  destruct Hrel as (-> & Hnone & Hrel). cbn [is_lab_or_os_error]. pose proof Hrel as (Hm1 & Hr1 & _). rewrite Hm in Hm1.
  destruct (release_quiet lab1 text Hm1) as (lab2 & -> & Hrel2). exists lab2. split; [done|].
  rewrite delete_id by done. rewrite Hr1 in Hrel2. by eapply relabbed_trans.
Qed.

(** What becomes of the lab when the control plane says this of the incident. *)
Definition reconciled (status : option InvestigationStatus) (incident_id : string) (s s' : Lab) : Prop :=
  match status with
  | Some (I_QUEUED | I_RUNNING) => relabbed (lb_marker s) (lb_runs s) s s'
  | None | Some I_PAUSED_APPROVAL => relabbed None (lb_runs s) s s'
  | Some (I_COMPLETED | I_FAILED_SAFE) => relabbed None (delete incident_id (lb_runs s)) s s'
  end.

(** A crash between two transitions leaves no marker behind. Whatever the marker names,
    one reconciliation releases it when its job is paused, settled or unknown, removing the
    run of a settled one and keeping that of a paused one for its resumption, and leaves
    the incident of a queued or running job alone; nothing else on the machine changes. *)
Theorem reconcile_frees_marker {P} `{ControlPlane P} s (p p' : P) text status :
  lb_marker (st_lab s) = Some text -> isalnum (py_strip text) = true ->
  ask (op_scenario_status (py_strip text)) p = (AStatus (Ok status), p') ->
  exists lab', reconcile_scenarios (s, p) = (Ok tt, (s <| st_lab := lab' |>, p'))
    /\ reconciled status (py_strip text) (st_lab s) lab'.
Proof.
  intros Hm Hal Hask. unfold reconcile_scenarios, mbind, ST_bind. unfold lift_site at 1, lift_lab at 1. cbn [fst snd].
  unfold active_marker, try_except, mbind, ST_bind. destruct (read_marker_quiet _ text Hm) as (lab1 & -> & Hrel1).
  cbn [fst snd mret ST_ret]. rewrite Hal. unfold asking. cbn [ask plane_beside_site fst snd status_answer]. rewrite Hask.
  pose proof Hrel1 as (Hm1 & Hr1 & _). rewrite Hm in Hm1.
  assert (Hrelease : exists lab', lift_site (lift_lab (release_scenario (py_strip text))) (s <| st_lab := lab1 |>, p')
      = (Ok tt, (s <| st_lab := lab' |>, p')) /\ relabbed None (lb_runs (st_lab s)) (st_lab s) lab').
  { unfold lift_site, lift_lab. cbn [fst snd]. destruct (release_quiet lab1 text Hm1) as (lab2 & Hlab2 & Hrel2).
    exists lab2. split; [simpl; by rewrite Hlab2|]. rewrite Hr1 in Hrel2. by eapply relabbed_trans. }
  assert (Hreset : exists lab', lift_site (reset_or_release (py_strip text)) (s <| st_lab := lab1 |>, p')
      = (Ok tt, (s <| st_lab := lab' |>, p')) /\ relabbed None (delete (py_strip text) (lb_runs (st_lab s))) (st_lab s) lab').
  { set (t := s <| st_lab := lab1 |>).
    destruct (reset_or_release_quiet t text Hm1 Hal) as (lab2 & Hlab2 & Hrel2).
    exists lab2. unfold lift_site. cbn [fst snd]. rewrite Hlab2. split; [done|]. simpl in Hrel2. rewrite Hr1 in Hrel2.
    by eapply relabbed_trans. }
  destruct status as [[]|]; cbn [reconciled]; try done; by exists lab1.
Qed.

(** * An attempt comes to its end *)

(** What earlier attempts may have left of the job: no thread; or one that any sequence
    of starting, recovering and resuming left, cut off after any of its commits or at its
    end.  A claim without a checkpoint comes before any decision of the owner; one with a
    checkpoint carries the decision, and its thread waits or was given a decision before. *)
Definition takes_up (c : WorkerClaim) (iv : Investigation) (evidence : list Evidence) (s : Site) : Prop :=
  match st_threads s !! wc_investigation_id c with
  | None => wc_checkpoint_id c = None
  | Some cp =>
      exists w0 answered, left_thread iv evidence w0 answered cp (site_world s)
      /\ match wc_checkpoint_id c with
         | None => answered = false
         | Some _ => (answered = true \/ is_Some (cp_interrupt cp))
             /\ exists d, wc_owner_decision c = Some d /\ decision_ok (od_decision d) (od_rejection_note d)
         end
  end.

Lemma default_limit incident registry : limit_covers (job_investigation incident registry).
Proof. vm_compute. discriminate. Qed.

Lemma default_budgets_ok : budgets_ok DEFAULT_BUDGETS.
Proof. repeat split; vm_compute; discriminate. Qed.

Lemma validate_incident_evidence incident :
  validate_incident incident = Ok incident ->
  Forall (evidence_ok (sc_incident_id (si_scope incident))) (si_evidence incident).
Proof.
  unfold validate_incident. intros (? & _ & Hv)%result_bind_Ok. apply result_bind_Ok in Hv as (? & _ & Hv).
  apply result_bind_Ok in Hv as (l & Hl & Hid). unfold check_identity_agrees in Hid. apply result_bind_Ok in Hid as ([] & _ & Hid).
  apply result_bind_Ok in Hid as ([] & Hall & _). unfold require in Hall. destruct (forallb _ _) eqn:Hf; [|done]. clear Hall.
  revert l Hl Hf. generalize (sc_incident_id (si_scope incident)). intros id.
  induction (si_evidence incident) as [|e es IH]; intros l Hl Hf; [constructor|]. simpl in *.
  apply andb_true_iff in Hf as [He%bool_decide_eq_true Hf]. apply result_bind_Ok in Hl as (e' & Hce & Hl).
  apply result_bind_Ok in Hl as (es' & Hes & _). constructor; [|by eapply IH]. split; [|done].
  unfold check_evidence in *. by apply result_bind_Ok in Hce as ([] & -> & [= <-]).
Qed.

Section attempt.
Variables (c : WorkerClaim) (incident : StoredIncident) (registry : list (ToolName * ToolWrapper)) (name : string).
Notation id := (wc_investigation_id c).
Notation iv := (job_investigation incident registry).
Hypothesis stored : validate_incident incident = Ok incident.
Hypothesis tools : registry_ok registry /\ passages_ok registry.

Lemma advance_graph_returns s :
  takes_up c iv (si_evidence incident) s ->
  exists r s', advance_graph c incident registry name s = (r, s')
    /\ ((exists o, r = Ok o) \/ r = Err GraphBubbleUp /\ signalled iv).
Proof.
  pose proof (validate_incident_evidence _ stored) as Hev. pose proof (default_limit incident registry) as Hlim.
  destruct tools as [Hreg Hpas]. pose proof default_budgets_ok as Hbud.
  assert (Hpair : forall (r : res Outcome) (recorded : list RunEvent),
    (exists o, r = Ok o) \/ r = Err GraphBubbleUp /\ signalled iv ->
    (exists o, (o ← r; Ok (o, recorded) : res (Outcome * list RunEvent)) = Ok o)
    \/ (o ← r; Ok (o, recorded) : res (Outcome * list RunEvent)) = Err GraphBubbleUp /\ signalled iv).
  { intros r recorded [[o ->]|[-> ?]]; [left; by eexists|by right]. }
  unfold takes_up, advance_graph. destruct (st_threads s !! id) as [cp|].
  - intros (w0 & answered & Hleft & Hdue). destruct (wc_checkpoint_id c) as [k|].
    + destruct Hdue as (Hdue & d & -> & Hd).
      destruct (resumed_left iv (si_evidence incident) Hreg Hpas Hbud Hev eq_refl w0 answered cp _ _ _ Hleft Hdue Hd)
        as (x & recorded & cp' & w' & ->). eexists _, _. split; [done|]. left. by eexists.
    + subst answered.
      destruct (recovered_left iv (si_evidence incident) Hreg Hpas Hbud Hev eq_refl w0 cp _ Hlim Hleft)
        as (r & recorded & cp' & w & -> & Ho). eexists _, _. split; [done|]. by apply Hpair.
  - intros ->. cbn [recover_graph_investigation mbind option_bind].
    destruct (run_graph_investigation iv (Some id) name (si_evidence incident) (site_world s)) as [[[r recorded] cp] w] eqn:Hrun.
    eexists _, _. split; [done|]. apply Hpair.
    apply (run_spec iv (si_evidence incident) Hreg Hpas Hbud Hev) in Hrun as [_ Hrun]; [|done].
    destruct r as [o|e]; [left; by eexists|right; by destruct Hrun as [-> ?]].
Qed.

(** No file operation or upload raises. *)
Definition no_exception : exn -> Site -> Prop := fun _ _ => False.

Lemma step_returns {A} Pre (f : Site -> res A * Site) (Q : A -> Site -> Prop) :
  off_lab Pre -> (forall s, Pre s -> match f s with (Ok a, s') => Q a s' | (Err e, _) => False end) ->
  triple Pre (site_step f) Q no_exception.
Proof.
  intros Hoff Hf. apply triple_site_step; [done| |by intros s e ?%no_fault].
  intros s Hs. specialize (Hf s Hs). by destruct (f s) as [[] ?].
Qed.

Lemma has_files_off_lab names : off_lab (has_files id names).
Proof. by intros s lab. Qed.

Lemma reads_return names : triple (has_files id names) (read_artifacts id names) (fun _ _ => True) no_exception.
Proof.
  induction names as [|n names IH]; [by apply triple_ret|]. simpl.
  eapply (triple_bind _ _ _ (fun _ => has_files id names)).
  - apply step_returns; [apply has_files_off_lab|]. intros s [[file Hn] Hns]%Forall_cons. by rewrite Hn.
  - intros file. eapply triple_bind; [apply IH|]. intros rest. by apply triple_ret.
Qed.

Lemma writes_return artifacts : triple (fun _ => True) (write_investigation_artifacts id artifacts) (fun _ _ => True) no_exception.
Proof.
  induction artifacts as [|[n file] artifacts IH]; [by apply triple_ret|]. simpl.
  eapply (triple_bind _ _ _ (fun _ _ => True)); [|intros []; apply IH].
  eapply (triple_try _ _ _ _ (fun e _ => e = precondition_failed)).
  - intros s _. unfold upload_from_string, mbind, ST_bind. unfold site_step at 1. rewrite quiet.
    destruct (_ !! _); [done|]. unfold site_step. by rewrite quiet.
  - by intros e s ->.
Qed.

Lemma upload_returns : triple (has_files id ARTIFACT_NAMES) (upload_finalized_artifacts id) (fun _ _ => True) no_exception.
Proof.
  unfold upload_finalized_artifacts. destruct artifact_bucket; [|by apply triple_ret].
  eapply triple_bind; [apply reads_return|]. intros artifacts. apply writes_return.
Qed.

Lemma finalize_returns report events evidence receipts markdown :
  ir_investigation_id report = id ->
  triple (fun s => st_results s !! id = None) (finalize_investigation report events evidence receipts markdown)
    (fun _ => has_files id ARTIFACT_NAMES) no_exception.
Proof.
  intros Hid s Hnone. pose proof (finalize_triple report events evidence receipts markdown s s eq_refl) as Hf. cbv zeta in Hf.
  rewrite Hid in Hf. destruct (finalize_investigation _ _ _ _ _ s) as [[[]|e] s'].
  - destruct Hf as (_ & files & Hw & Hr). eapply (whole_files id files); [by rewrite Hr, lookup_insert_eq|done].
  - destruct Hf as [[Hf|[f Hf]] _]; [by apply no_fault in Hf|congruence].
Qed.

Lemma run_graph_returns s :
  takes_up c iv (si_evidence incident) s -> site_ok s -> st_results s !! id = None ->
  match (run_graph c incident registry name s).1 with Ok _ => True | Err e => e = GraphBubbleUp /\ signalled iv end.
Proof.
  intros Hup Hok Hnone. unfold run_graph, mbind, ST_bind. unfold site_step at 1. rewrite quiet.
  set (s1 := s <| st_lab := (st_lab s) <| lb_steps := S (lb_steps (st_lab s)) |> |>).
  destruct (advance_graph_returns s1 Hup) as (r & s2 & Hadv & Hr). pose proof (advance_graph_spec c incident registry name s1 s1) as Hspec.
  rewrite Hadv in Hspec |- *. destruct r as [[o events]|e]; [|by destruct Hr as [[]|[[= ->] ?]]].
  destruct Hspec as [[_ Hres] (cp & _ & Ho)]; [split; [by apply advanced_refl|done]|]. destruct o as [x|e]; [|done].
  pose proof (finalize_returns (res_report x) events (res_evidence x) (res_receipts x)
    (render_report (res_report x) (res_evidence x) (res_receipts x) name) Ho s2) as Hfin. cbn [fst snd].
  destruct (finalize_investigation _ _ _ _ _ s2) as [[[]|e] s3]; [|exfalso; by apply Hfin; rewrite Hres].
  assert (Hfiles : has_files id ARTIFACT_NAMES s3) by (apply Hfin; by rewrite Hres).
  pose proof (upload_returns s3 Hfiles) as Hupload. by destruct (upload_finalized_artifacts _ s3) as [[[]|e] s4].
Qed.

(** The incident is recorded whole under the claim's id, and the wiring can be built. *)
Definition prepared (i : string) (s : Site) : Prop :=
  wc_incident_id c = Some i /\ isalnum i = true
  /\ lb_runs (st_lab s) !! i ≫= rn_incident = Some (Whole incident) /\ sc_incident_id (si_scope incident) = i
  /\ build_wiring incident DEFAULT_BUDGETS (wc_scenario_family c) = Ok (registry, name).

(** An attempt that finds no report gets to its graph. *)
Lemma run_is_graph {P} `{ControlPlane P} i s (p : P) :
  prepared i s -> has_finalized_artifact id s = false ->
  exists s1, view s1 = view s /\ site_world s1 = site_world s
    /\ (run c (s, p)).1 = (run_graph c incident registry name s1).1.
Proof.
  intros (Hi & Hal & Hrun & Hid & Hwire) Hart.
  unfold run, mbind, ST_bind. cbn [get_state fst]. rewrite Hart, Hi. cbn [mret ST_ret]. unfold lift_site. cbn [fst snd].
  unfold run_claimed, mbind, ST_bind. unfold lift_lab at 1, prepare_lab, mbind, ST_bind, validated_run_paths.
  rewrite Hal. cbn [lift_result get_state]. unfold mbind in Hrun. rewrite Hrun. cbn [mret ST_ret].
  unfold lift_lab, load_verified_incident, mbind, ST_bind, validated_run_paths. simpl st_lab. rewrite Hal. cbn [lift_result get_state].
  rewrite Hrun. unfold try_except, machine_step. rewrite quiet, stored. rewrite decide_True by done.
  cbn [mret ST_ret]. unfold site_step at 1. rewrite quiet. cbv zeta. rewrite Hwire.
  match goal with |- context [finally_do _ _ ?t] => set (s1 := t) end. exists s1. split; [done|]. split; [done|].
  unfold finally_do. cbn [fst snd]. destruct (run_graph c incident registry name s1) as [[o|e] s2].
  - unfold mbind, ST_bind, release_wiring, site_step. by rewrite quiet.
  - destruct (is_killed e); [done|]. unfold mbind, ST_bind, release_wiring, site_step. by rewrite quiet.
Qed.

(** An attempt whose outcome was lost is repeated. *)
Lemma paused_again {P} `{ControlPlane P} i k s (p : P) :
  prepared i s -> settled_as c (PausedWorkerOutcome k) s -> (run c (s, p)).1 = Ok (PausedWorkerOutcome k).
Proof.
  intros Hprep (Hart & Hnone & cp & ip & e & Hcp & Hint & Hesc & <-).
  destruct (run_is_graph i s p Hprep Hart) as (s1 & [= Ht _] & _ & ->).
  unfold run_graph, mbind, ST_bind. unfold site_step at 1. rewrite quiet.
  set (s2 := s1 <| st_lab := (st_lab s1) <| lb_steps := S (lb_steps (st_lab s1)) |> |>).
  assert (Hcp2 : st_threads s2 !! id = Some cp) by (unfold s2; simpl; by rewrite Ht).
  unfold advance_graph. rewrite Hnone, Hcp2. unfold recover_graph_investigation. cbn [mbind option_bind].
  rewrite Hint, Hesc. cbn. by apply escalated_of_inv in Hesc as (x & [= ->] & <-).
Qed.

Lemma finalized_again {P} `{ControlPlane P} artifact s (p : P) :
  settled_as c (FinalizedWorkerOutcome artifact) s ->
  (run c (s, p)).1 = Ok (FinalizedWorkerOutcome artifact).
Proof.
  intros (-> & Hart & Hfiles). assert ((upload_finalized_artifacts id s).1 = Ok tt) as Hup.
  { destruct artifact_bucket eqn:Hb; [|unfold upload_finalized_artifacts; by rewrite Hb].
    pose proof (upload_returns s (Hfiles eq_refl)) as Hup. by destruct (upload_finalized_artifacts id s) as [[[]|e] s']. }
  unfold run, mbind, ST_bind. cbn [get_state fst]. rewrite Hart. unfold lift_site. cbn [fst snd].
  by destruct (upload_finalized_artifacts id s) as [r s']; simpl in Hup; subst r.
Qed.

(** C8: A worker's attempt comes to its end. On a machine whose operations succeed, with the
    incident recorded and the wiring built, and from whatever earlier attempts at the job
    left - no thread, one cut off after any commit of starting, recovering or resuming it,
    one that ended, or results already on disk - the runner reports a finished job or a
    pause, whatever the model and the backends do. Only the engine's own control-flow
    signal can leave it otherwise, and that only when some answer of the model or of a
    backend is that signal. *)
Theorem runner_settles {P} `{ControlPlane P} i s (p : P) :
  site_ok s -> st_results s !! id = None \/ has_files id ARTIFACT_NAMES s ->
  prepared i s -> takes_up c iv (si_evidence incident) s ->
  let '(r, (s', _)) := run c (s, p) in
  (exists o, r = Ok o /\ outcome_holds id s o s') \/ r = Err GraphBubbleUp /\ signalled iv.
Proof.
  intros Hok Hres Hprep Hup. pose proof (job_spec (P := P) c s Hok (s, p) eq_refl) as Hspec.
  assert (Hend : match (run c (s, p)).1 with Ok _ => True | Err e => e = GraphBubbleUp /\ signalled iv end).
  { destruct Hres as [Hnone|Hfiles].
    - destruct (run_is_graph i s p Hprep) as (s1 & [= Ht Hr] & Hw & ->); [unfold has_finalized_artifact; by rewrite Hnone|].
      apply run_graph_returns; [|by intros j cp; rewrite Ht; apply Hok|by rewrite Hr].
      unfold takes_up in *. by rewrite Ht, Hw.
    - unfold run, mbind, ST_bind. cbn [get_state fst]. rewrite (has_files_finalized id s Hfiles). unfold lift_site. cbn [fst snd].
      pose proof (upload_returns s Hfiles) as Hup'. by destruct (upload_finalized_artifacts _ s) as [[[]|e] s']. }
  destruct (run c (s, p)) as [[o|e] [s' p']]; cbn [fst] in Hspec, Hend; [|right; by destruct Hend as [-> ?]].
  left. exists o. split; [done|]. apply Hspec.
Qed.
End attempt.
End quiet.

(** * An attempt repeated *)

Section repeated.
Context `{Pydantic} `{Clocks} `{FreshIds} `{ToolCallingModel} `{LangGraphLaws} `{!ClockLaws} `{Deployment}.

(** The runner on a given machine: two attempts may meet different faults. *)
Definition run_on {P} `{ControlPlane P} (machine : Machine) (c : WorkerClaim) : ST (Site * P) exn WorkerOutcome := run c.

(** C9: A job that was finished, or paused, is not run again. When an attempt returned but
    its outcome was lost before the control plane recorded it, a later attempt at the same
    investigation, still without a decision of the owner if it waits for one, asks neither
    the model nor a backend, leaves the threads and the results as they were, and whatever
    fails meanwhile returns no other outcome. When its machine's operations succeed it does
    return that outcome: at once if the job was finished, and if it was paused once the
    recorded incident and the wiring are there. *)
Theorem attempt_repeats {P} `{ControlPlane P} (first later : Machine) c c' s (p : P) o s1 p1 s2 (p2 : P) :
  site_ok s ->
  run_on first c (s, p) = (Ok o, (s1, p1)) ->
  wc_investigation_id c' = wc_investigation_id c -> wc_checkpoint_id c' = wc_checkpoint_id c ->
  st_threads s2 !! wc_investigation_id c = st_threads s1 !! wc_investigation_id c ->
  st_results s2 !! wc_investigation_id c = st_results s1 !! wc_investigation_id c ->
  let '(r, (s3, _)) := run_on later c' (s2, p2) in
  asked s3 = asked s2 /\ (forall o', r = Ok o' -> o' = o)
  /\ ((forall n, @machine_fault later n = None) ->
      match o with
      | FinalizedWorkerOutcome _ => True
      | PausedWorkerOutcome _ => exists i incident registry name,
          validate_incident incident = Ok incident /\ prepared c' incident registry name i s2
      end -> r = Ok o).
Proof.
  unfold run_on. intros Hok Hrun Hid Hck Hthread Hres.
  pose proof (attempt_settles c c' s p o s1 p1 s2 Hok Hrun Hid Hck Hthread Hres) as Hset.
  assert (Hlive : (forall n, @machine_fault later n = None) ->
      match o with
      | FinalizedWorkerOutcome _ => True
      | PausedWorkerOutcome _ => exists i incident registry name,
          validate_incident incident = Ok incident /\ prepared c' incident registry name i s2
      end -> (run c' (s2, p2)).1 = Ok o).
  { intros Hquiet. destruct o as [k|artifact].
    - intros (i & incident & registry & name & Hval & Hprep). by eapply paused_again.
    - intros _. by apply finalized_again. }
  pose proof (settled_repeats c' o s2 p2 Hset) as Hsame.
  destruct (run c' (s2, p2)) as [r [s3 p3]]. destruct Hsame. by split_and!.
Qed.
End repeated.
