(* ===== verification/PlaneOrder.v ===== *)
(** The orders the planes choose by: floats that are numbers, tuples compared left
    to right, and the first of the least elements of a list, which does not depend
    on the list's order when the elements are told apart. *)
From Stdlib Require Import ZArith Lia.
From stdpp Require Import prelude strings list.
From S2P Require Import Prelude PyText Float64 ControlPlane.
Local Open Scope Z_scope.

(** * Tuples of integers, compared left to right *)

Fixpoint lex_lt (a b : list Z) : bool :=
  match a, b with
  | x :: a, y :: b => (x <? y) || (x =? y) && lex_lt a b
  | _, _ => false
  end.

Lemma lex_lt_irrefl a : lex_lt a a = false.
Proof. induction a as [|x a IH]; [done|]. simpl. rewrite IH. lia. Qed.

Lemma lex_lt_trans a : forall b c, lex_lt a b = true -> lex_lt b c = true -> lex_lt a c = true.
Proof.
  induction a as [|x a IH]; intros [|y b] [|z c]; simpl; try done. intros Hab Hbc.
  apply orb_true_iff in Hab as [?|[? Hab]%andb_true_iff];
  apply orb_true_iff in Hbc as [?|[? Hbc]%andb_true_iff]; try lia.
  rewrite (IH _ _ Hab Hbc). lia.
Qed.

Lemma lex_lt_asym a b : lex_lt a b = true -> lex_lt b a = false.
Proof.
  intros Hab. destruct (lex_lt b a) eqn:Hba; [|done].
  pose proof (lex_lt_trans _ _ _ Hab Hba). by rewrite lex_lt_irrefl in *.
Qed.

Lemma lex_lt_total a : forall b, length a = length b -> a <> b -> lex_lt a b = true \/ lex_lt b a = true.
Proof.
  induction a as [|x a IH]; intros [|y b] Hlen Hne; simpl in *; try done.
  destruct (Z.lt_trichotomy x y) as [?|[<-|?]]; [left; lia| |right; lia].
  destruct (IH b) as [->| ->]; [lia|congruence|left; lia|right; lia].
Qed.

Lemma lex_lt_app a b a' b' :
  length a = length b ->
  lex_lt (a ++ a') (b ++ b') = if decide (a = b) then lex_lt a' b' else lex_lt a b.
Proof.
  revert b. induction a as [|x a IH]; intros [|y b] Hlen; simpl in *; try done.
  rewrite IH by lia. destruct (decide (a = b)) as [<-|Hab].
  - destruct (decide (x = y)) as [<-|Hxy].
    + rewrite decide_True by done. replace (x <? x) with false by lia. by rewrite Z.eqb_refl.
    + rewrite decide_False by congruence. replace (x =? y) with false by lia.
      by rewrite !andb_false_l.
  - by rewrite decide_False by congruence.
Qed.

(** * Numbers *)

Definition not_nan (x : f64) : bool := match x with S754_nan => false | _ => true end.

(** Sign, exponent and mantissa, as [SFcompare] looks at them. *)
Definition f_key (x : f64) : list Z :=
  match x with
  | S754_nan | S754_zero _ => [0; 0; 0]
  | S754_infinity s => [if s then -2 else 2; 0; 0]
  | S754_finite s m e => if s then [-1; - e; - Zpos m] else [1; e; Zpos m]
  end.

Lemma f_key_length x : length (f_key x) = 3%nat.
Proof. by destruct x as [| |[]|[]]. Qed.

Ltac compare_floats x y :=
  destruct x as [?|[]| |[] ?m ?e], y as [?|[]| |[] ?m ?e]; try done;
  unfold f_ge, f_lt, SFleb, SFltb, SFeqb, SFcompare; cbn [f_key lex_lt];
  repeat match goal with
  | |- context [Z.compare ?a ?b] => destruct (Z.compare_spec a b); cbn [CompOpp]; try lia
  | |- context [Pos.compare_cont Eq ?a ?b] =>
      change (Pos.compare_cont Eq a b) with (Pos.compare a b);
      destruct (Pos.compare_spec a b); cbn [CompOpp]; try lia
  end.

Lemma f_lt_key x y : not_nan x = true -> not_nan y = true -> f_lt x y = lex_lt (f_key x) (f_key y).
Proof. intros Hx Hy. compare_floats x y. Qed.

Lemma f_eqb_key x y :
  not_nan x = true -> not_nan y = true -> SFeqb x y = bool_decide (f_key x = f_key y).
Proof.
  intros Hx Hy. symmetry. compare_floats x y;
    first [apply bool_decide_eq_true; congruence|apply bool_decide_eq_false; intros [=]; lia].
Qed.

Lemma f_ge_lt x y : not_nan x = true -> not_nan y = true -> f_ge x y = negb (f_lt x y).
Proof. intros Hx Hy. compare_floats x y; done. Qed.

(** * The first of the least *)

Section first_least.
Context {A : Type}.
Implicit Types (before : A -> A -> bool) (l : list A).

Lemma first_least_in before l x : first_least before l = Some x -> x ∈ l.
Proof.
  revert x. induction l as [|y l IH]; [done|]. intros x. simpl.
  destruct (first_least before l) as [z|]; [|intros [= <-]; left].
  intros [= <-]. destruct (before z y); [right; by apply IH|left].
Qed.

Lemma first_least_None before l : first_least before l = None <-> l = [].
Proof. destruct l; [done|]. simpl. by destruct (first_least before l). Qed.

Lemma first_least_ext before before' l :
  (forall a b, a ∈ l -> b ∈ l -> before a b = before' a b) ->
  first_least before l = first_least before' l.
Proof.
  induction l as [|x l IH]; [done|]. intros Heq. simpl.
  rewrite IH by (intros; apply Heq; by right).
  destruct (first_least before' l) as [y|] eqn:Hy; [|done].
  rewrite Heq; [done|right; by eapply first_least_in|by left].
Qed.

(** No element comes before the chosen one. *)
Lemma first_least_least before (key : A -> list Z) n l x :
  (forall a b, a ∈ l -> b ∈ l -> before a b = lex_lt (key a) (key b)) ->
  (forall a, a ∈ l -> length (key a) = n) ->
  first_least before l = Some x -> forall z, z ∈ l -> lex_lt (key z) (key x) = false.
Proof.
  revert x. induction l as [|y l IH]; [done|]. intros x Hkey Hlen. simpl.
  destruct (first_least before l) as [w|] eqn:Hw.
  - assert (Hmin : forall z, z ∈ l -> lex_lt (key z) (key w) = false).
    { apply (IH w); [intros; apply Hkey; by right|intros; apply Hlen; by right|done]. }
    assert (Hwl : w ∈ l) by (by eapply first_least_in).
    rewrite Hkey by (by constructor).
    destruct (lex_lt (key w) (key y)) eqn:Hwy; intros [= <-] z [->|Hz]%elem_of_cons; auto.
    + by apply lex_lt_asym.
    + apply lex_lt_irrefl.
    + destruct (lex_lt (key z) (key y)) eqn:Hzy; [|done].
      destruct (decide (key y = key w)) as [Heq|Hne].
      * rewrite Heq in Hzy. by rewrite (Hmin z Hz) in Hzy.
      * destruct (lex_lt_total (key y) (key w)) as [Hyw|Hyw]; try congruence.
        -- rewrite !Hlen; [done|by right|by left].
        -- by rewrite <- (Hmin z Hz), (lex_lt_trans _ _ _ Hzy Hyw).
  - apply first_least_None in Hw as ->. intros [= <-] z [->|Hz]%elem_of_cons; [apply lex_lt_irrefl|].
    by apply elem_of_nil in Hz.
Qed.

(** Elements told apart by their keys: the list's order does not matter. *)
Lemma first_least_perm before (key : A -> list Z) n l l' :
  (forall a b, a ∈ l -> b ∈ l -> before a b = lex_lt (key a) (key b)) ->
  (forall a, a ∈ l -> length (key a) = n) ->
  (forall a b, a ∈ l -> b ∈ l -> key a = key b -> a = b) ->
  l ≡ₚ l' -> first_least before l = first_least before l'.
Proof.
  intros Hkey Hlen Hinj Hperm.
  assert (Hin : forall a, a ∈ l' -> a ∈ l) by (intros a; by rewrite Hperm).
  destruct (first_least before l) as [x|] eqn:Hx.
  2: { apply first_least_None in Hx as ->. by apply Permutation_nil in Hperm as ->. }
  destruct (first_least before l') as [y|] eqn:Hy.
  2: { apply first_least_None in Hy as ->. by apply Permutation_nil_r in Hperm as ->. }
  pose proof (first_least_in _ _ _ Hx) as Hxl. pose proof (Hin y (first_least_in _ _ _ Hy)) as Hyl.
  f_equal. apply Hinj; [done..|]. destruct (decide (key x = key y)) as [|Hne]; [done|].
  destruct (lex_lt_total (key x) (key y)) as [H1|H1]; [by rewrite !Hlen|done| |].
  - rewrite (first_least_least before key n l' y) in H1; try done; [by auto..|]. by rewrite <- Hperm.
  - by rewrite (first_least_least before key n l x Hkey Hlen Hx) in H1.
Qed.

(** A list in the order of a last key: choosing without it is enough. *)
Lemma first_least_stable before before' (key : A -> list Z) (last : A -> Z) n l :
  (forall a b, a ∈ l -> b ∈ l -> before a b = lex_lt (key a ++ [last a]) (key b ++ [last b])) ->
  (forall a b, a ∈ l -> b ∈ l -> before' a b = lex_lt (key a) (key b)) ->
  (forall a, a ∈ l -> length (key a) = n) ->
  StronglySorted (fun a b => last a < last b) l ->
  first_least before l = first_least before' l.
Proof.
  induction l as [|x l IH]; [done|]. intros Hb Hb' Hlen Hsort. simpl.
  inversion Hsort as [|? ? Hsort' Hall]; subst.
  rewrite IH; [|intros; apply Hb; by right|intros; apply Hb'; by right|intros; apply Hlen; by right|done].
  destruct (first_least before' l) as [y|] eqn:Hy; [|done].
  assert (Hyl : y ∈ l) by (by eapply first_least_in).
  rewrite Hb, Hb' by (by constructor).
  rewrite lex_lt_app by (rewrite !Hlen; [done|by left|by right]).
  case_decide as Heq; [|done]. rewrite Heq, lex_lt_irrefl. simpl.
  rewrite Forall_forall in Hall. specialize (Hall y Hyl). simpl in Hall.
  replace (last y <? last x) with false by lia. by rewrite andb_false_r.
Qed.
End first_least.

Lemma first_least_fmap {A B} (f : A -> B) (before : B -> B -> bool) (l : list A) :
  first_least before (f <$> l) = f <$> first_least (fun a b => before (f a) (f b)) l.
Proof.
  induction l as [|x l IH]; [done|]. csimpl. rewrite IH.
  destruct (first_least _ l) as [y|]; [|done]. simpl. by destruct (before (f y) (f x)).
Qed.
