(* ===== verification/FirestorePlane.v ===== *)
(** The Firestore-backed replay control plane (firestore_control_plane.py): jobs
    with their events, owner decisions and the delivery outbox.

    [Store] is the database: one map per collection, a job's events under the
    job's id, an event under its ordinal (the document name is the ordinal in ten
    digits).  Every request to the database may be served, refused, or carried out
    with its answer lost; [reply n] says which for the n-th one.  A query gives its
    documents in the order [stream] puts them.  The plane's own lock makes one
    operation follow another. *)
From Stdlib Require Import ZArith Lia.
From stdpp Require Import prelude strings list gmap.
From S2P Require Import Prelude PyText Float64 Tools Domain Approvals ControlPlane.
Local Open Scope Z_scope.

(** * The database *)

(** A job document: the columns, and the order jobs were created in. *)
Record JobDocument := { jd_sequence : Z; jd_job : Job }.
Record DeliveryDocument := { dd_sequence : Z; dd_delivery : Delivery }.

Record Store := {
  fs_jobs : gmap string JobDocument;
  fs_events : gmap string (gmap Z TimelineEvent);
  fs_decisions : gmap string Decision;
  fs_deliveries : gmap string DeliveryDocument;
  fs_requests : nat;
  fs_ids : nat;
  fs_ticks : nat;
  fs_reads : nat;
}.

#[export] Instance settable_JobDocument : Settable JobDocument := fun d =>
  {| jd_sequence := jd_sequence d; jd_job := jd_job d |}.
#[export] Instance settable_DeliveryDocument : Settable DeliveryDocument := fun d =>
  {| dd_sequence := dd_sequence d; dd_delivery := dd_delivery d |}.
#[export] Instance settable_Store : Settable Store := fun s =>
  {| fs_jobs := fs_jobs s; fs_events := fs_events s; fs_decisions := fs_decisions s;
     fs_deliveries := fs_deliveries s; fs_requests := fs_requests s; fs_ids := fs_ids s;
     fs_ticks := fs_ticks s; fs_reads := fs_reads s |}.

Definition empty_store : Store :=
  {| fs_jobs := ∅; fs_events := ∅; fs_decisions := ∅; fs_deliveries := ∅;
     fs_requests := 0; fs_ids := 0; fs_ticks := 0; fs_reads := 0 |}.

Inductive Reply := Served | Refused | Lost.

Class Firestore := {
  reply : nat -> Reply;
  stream : forall {K} `{Countable K} {A}, gmap K A -> list A;
}.

(** A query returns every document once. *)
Class FirestoreLaws `{Firestore} :=
  stream_perm : forall {K} `{Countable K} {A} (m : gmap K A), stream m ≡ₚ (map_to_list m).*2.

Notation StoreM := (ST Store exn).

(** What the client library raises. *)
Definition google_error : exn := OtherError "GoogleAPICallError".

Section plane.
Context `{Firestore} `{Host} `{PlaneClock} `{Artifacts}.
Variable config : PlaneConfig.

(** * Requests *)

Definition request {A} (f : Store -> A * Store) : StoreM A := fun s =>
  let s' := s <| fs_requests := S (fs_requests s) |> in
  match reply (fs_requests s) with
  | Served => let '(a, s'') := f s' in (Ok a, s'')
  | Refused => (Err google_error, s')
  | Lost => (Err google_error, (f s').2)
  end.

Definition query {A} (f : Store -> A) : StoreM A := request (fun s => (f s, s)).

Definition write (f : Store -> Store) : StoreM unit := request (fun s => (tt, f s)).

(** [self._clock()] and [uuid4().hex] *)
Definition clock_reading : StoreM f64 := fun s =>
  (Ok (plane_time (fs_ticks s)), s <| fs_ticks := S (fs_ticks s) |>).

Definition uuid4_hex : StoreM string := fun s =>
  (Ok (uuid_hex (fs_ids s)), s <| fs_ids := S (fs_ids s) |>).

Definition job_ref_get (id : string) : StoreM (option JobDocument) := query (fun s => fs_jobs s !! id).

Definition delivery_ref_get (id : string) : StoreM (option DeliveryDocument) :=
  query (fun s => fs_deliveries s !! id).

Definition decision_ref_get (id : string) : StoreM (option Decision) :=
  query (fun s => fs_decisions s !! id).

Definition jobs_where (p : Job -> bool) : StoreM (list JobDocument) :=
  query (fun s => List.filter (fun d => p (jd_job d)) (stream (fs_jobs s))).

Definition deliveries_where (p : Delivery -> bool) : StoreM (list DeliveryDocument) :=
  query (fun s => List.filter (fun d => p (dd_delivery d)) (stream (fs_deliveries s))).

Definition events_of (id : string) (s : Store) : gmap Z TimelineEvent := default ∅ (fs_events s !! id).

Definition set_job (id : string) (d : JobDocument) (s : Store) : Store :=
  s <| fs_jobs := <[id := d]> (fs_jobs s) |>.

Definition set_delivery (id : string) (d : DeliveryDocument) (s : Store) : Store :=
  s <| fs_deliveries := <[id := d]> (fs_deliveries s) |>.

Definition set_decision (id : string) (d : Decision) (s : Store) : Store :=
  s <| fs_decisions := <[id := d]> (fs_decisions s) |>.

Definition set_event (id : string) (e : TimelineEvent) (s : Store) : Store :=
  s <| fs_events := <[id := <[te_ordinal e := e]> (events_of id s)]> (fs_events s) |>.

(** * Shared helpers *)

Definition next_event_ordinal (id : string) : StoreM Z :=
  events ← query (fun s => stream (events_of id s));
  mret (Z.of_nat (length events)).

(** [_stage_event]: the event a batch will carry; [_event] writes it at once. *)
Definition staged_event (id name : string) (fields : list (string * EventValue))
    : StoreM TimelineEvent :=
  ordinal ← next_event_ordinal id;
  mret {| te_ordinal := ordinal; te_name := name; te_fields := fields |}.

Definition event (id name : string) (fields : list (string * EventValue)) : StoreM unit :=
  e ← staged_event id name fields;
  write (set_event id e).

Definition owned (id owner_email : string) : StoreM JobDocument :=
  snapshot ← job_ref_get id;
  match snapshot with
  | None => raise not_found
  | Some d => if decide (jb_owner (jd_job d) = owner_email) then mret d else raise not_found
  end.

Definition on_job (f : Job -> Job) (d : JobDocument) : JobDocument := d <| jd_job := f (jd_job d) |>.

Definition on_delivery (f : Delivery -> Delivery) (d : DeliveryDocument) : DeliveryDocument :=
  d <| dd_delivery := f (dd_delivery d) |>.

Definition attempt_fields (attempt : Z) : list (string * EventValue) := [("attempt_count", EInt attempt)].

Definition retry_fields (attempt : Z) (retry_at : f64) : list (string * EventValue) :=
  [("attempt_count", EInt attempt); ("retry_at", EFloat retry_at)].

(** One expired claim of [_reclaim_expired_investigations]. *)
Definition reclaim_job (now : f64) (d : JobDocument) : StoreM unit :=
  let id := jb_id (jd_job d) in
  let attempt := jb_attempt_count (jd_job d) + 1 in
  if pf_max_replay_attempts config <=? attempt then
    _ ← write (set_job id (on_job (given_up attempt "retry_limit:lease_expired") d));
    event id "investigation_failed" (attempt_fields attempt)
  else
    delay ← lift_result (retry_delay config attempt);
    let retry_at := f_add now delay in
    _ ← write (set_job id (on_job (rescheduled attempt retry_at) d));
    event id "investigation_lease_expired" (retry_fields attempt retry_at).

Definition lease_expired (expires_at : option f64) (now : f64) : bool :=
  match expires_at with None => false | Some e => negb (f_gt e now) end.

Fixpoint reclaim_jobs (now : f64) (docs : list JobDocument) : StoreM unit :=
  match docs with
  | [] => mret tt
  | d :: docs =>
      if lease_expired (jb_claim_expires_at (jd_job d)) now
      then _ ← reclaim_job now d; reclaim_jobs now docs
      else reclaim_jobs now docs
  end.

Definition reclaim_expired_investigations (now : f64) : StoreM unit :=
  docs ← jobs_where (has_status I_RUNNING);
  reclaim_jobs now docs.

Definition reclaim_delivery (now : f64) (d : DeliveryDocument) : StoreM unit :=
  let id := dl_id (dd_delivery d) in
  let attempt := dl_attempt_count (dd_delivery d) + 1 in
  if pf_max_delivery_attempts config <=? attempt then
    _ ← write (set_delivery id (on_delivery (given_up_delivery attempt "retry_limit:lease_expired") d));
    event id "report_delivery_failed" (attempt_fields attempt)
  else
    delay ← lift_result (retry_delay config attempt);
    let retry_at := f_add now delay in
    _ ← write (set_delivery id (on_delivery (rescheduled_delivery attempt retry_at) d));
    event id "report_delivery_lease_expired" (retry_fields attempt retry_at).

Fixpoint reclaim_deliveries (now : f64) (docs : list DeliveryDocument) : StoreM unit :=
  match docs with
  | [] => mret tt
  | d :: docs =>
      if lease_expired (dl_claim_expires_at (dd_delivery d)) now
      then _ ← reclaim_delivery now d; reclaim_deliveries now docs
      else reclaim_deliveries now docs
  end.

Definition reclaim_expired_deliveries (now : f64) : StoreM unit :=
  docs ← deliveries_where (fun d => bool_decide (dl_status d = "SENDING"));
  reclaim_deliveries now docs.

(** * What the owner asks for *)

Definition create (owner_email : string) (r : CreateInvestigationRequest)
    (idempotency_key : string) : StoreM InvestigationView :=
  docs ← jobs_where (fun j => bool_decide (jb_owner j = owner_email));
  match List.find (fun d => bool_decide (jb_idempotency_key (jd_job d) = Some idempotency_key)) docs with
  | Some d => lift_result (view_of (jd_job d))
  | None =>
      id ← uuid4_hex;
      all ← jobs_where (fun _ => true);
      let d := {| jd_sequence := Z.of_nat (length all);
                  jd_job := queued_job id owner_email r idempotency_key |} in
      e ← staged_event id "investigation_queued" [("replay_only", EBool true)];
      _ ← write (fun s => set_event id e (set_job id d s));
      mret {| iw_investigation_id := id; iw_status := I_QUEUED |}
  end.

Definition status (owner_email id : string) : StoreM InvestigationView :=
  d ← owned id owner_email;
  lift_result (view_of (jd_job d)).

(** [rows.sort(key=ordinal)] *)
Definition ordinal_le (a b : TimelineEvent) : Prop := te_ordinal a <= te_ordinal b.
#[export] Instance ordinal_le_dec : RelDecision ordinal_le := fun a b => decide (te_ordinal a <= te_ordinal b).

Definition events (owner_email id : string) : StoreM (list TimelineEvent) :=
  _ ← owned id owner_email;
  rows ← query (fun s => stream (events_of id s));
  mret (merge_sort ordinal_le rows).

Definition decide_ (owner_email id : string) (decision : OwnerDecision) : StoreM InvestigationView :=
  d ← owned id owner_email;
  let job := jd_job d in
  prior ← decision_ref_get id;
  match prior with
  | Some prior =>
      prior_decision ← lift_result (decision_request (dc_decision prior) (dc_rejection_note prior));
      match jb_checkpoint_id job with
      | None => raise corrupt
      | Some checkpoint_id =>
          if decide (checkpoint_id = "") then raise corrupt
          else if negb (bool_decide (dc_checkpoint_id prior = checkpoint_id)) then raise corrupt
          else if negb (bool_decide (prior_decision = decision)) then raise conflict
          else lift_result (view_of job)
      end
  | None =>
      if negb (has_status I_PAUSED_APPROVAL job) then raise conflict
      else match jb_checkpoint_id job with
      | None => raise corrupt
      | Some checkpoint_id =>
          if decide (checkpoint_id = "") then raise corrupt
          else
            e ← staged_event id "owner_decision_recorded"
                  [("checkpoint_id", EStr checkpoint_id);
                   ("decision", EStr (value (od_decision decision)))];
            _ ← write (fun s => set_event id e (set_job id (on_job decided_job d)
                   (set_decision id {| dc_checkpoint_id := checkpoint_id;
                                       dc_decision := value (od_decision decision);
                                       dc_rejection_note := od_rejection_note decision |} s)));
            mret {| iw_investigation_id := id; iw_status := I_QUEUED |}
      end
  end.

Definition report (owner_email id : string) : StoreM string :=
  d ← owned id owner_email;
  lift_result (read_report id (jd_job d)).

(** * What a worker asks for *)

Definition renew_running (id token : string) : StoreM unit :=
  snapshot ← job_ref_get id;
  now ← clock_reading;
  match snapshot with
  | Some d =>
      if claim_current token now (jd_job d)
      then write (set_job id (on_job (renewed (f_add now (pf_claim_lease_seconds config))) d))
      else raise conflict
  | None => raise conflict
  end.

Definition reserve_incident (id token : string) : StoreM string :=
  let incident_id := "scenario" +:+ id in
  snapshot ← job_ref_get id;
  match snapshot with
  | None => raise not_found
  | Some d =>
      now ← clock_reading;
      if negb (claim_current token now (jd_job d)) then raise conflict
      else match jb_incident_id (jd_job d) with
      | None =>
          _ ← write (set_job id (on_job (reserved_incident incident_id) d));
          _ ← event id "scenario_reserved" [("incident_id", EStr incident_id)];
          mret incident_id
      | Some stored => if isalnum stored then mret stored else raise corrupt
      end
  end.

Definition scenario_status (incident_id : string) : StoreM (option InvestigationStatus) :=
  docs ← jobs_where (fun j => bool_decide (jb_incident_id j = Some incident_id));
  match docs with
  | [] => mret None
  | d :: _ => s ← lift_result (status_of (jd_job d)); mret (Some s)
  end.

Definition incident_id_for (id : string) : StoreM (option string) :=
  snapshot ← job_ref_get id;
  match snapshot with
  | None => raise not_found
  | Some d => lift_result (incident_of_job (jd_job d))
  end.

(** [(0 if it has an incident else 1, available_at, sequence)] *)
Definition claimed_before (a b : JobDocument) : bool :=
  let has d := negb (bool_decide (jb_incident_id (jd_job d) = None)) in
  if negb (Bool.eqb (has a) (has b)) then has a
  else if negb (SFeqb (jb_available_at (jd_job a)) (jb_available_at (jd_job b)))
  then f_lt (jb_available_at (jd_job a)) (jb_available_at (jd_job b))
  else jd_sequence a <? jd_sequence b.

(** The decision a claim resumes with, read after the job is already running. *)
Definition decision_for_claim (id : string) (job : Job) : StoreM (option OwnerDecision) :=
  snapshot ← decision_ref_get id;
  match snapshot with
  | None => mret None
  | Some stored =>
      match decision_request (dc_decision stored) (dc_rejection_note stored) with
      | Err _ => raise corrupt
      | Ok decision =>
          match jb_checkpoint_id job with
          | None => raise corrupt
          | Some checkpoint_id =>
              if decide (checkpoint_id = "") then raise corrupt
              else if negb (bool_decide (dc_checkpoint_id stored = checkpoint_id)) then raise corrupt
              else mret (Some decision)
          end
      end
  end.

Definition worker_claim (job : Job) (decision : option OwnerDecision) (token : string)
    : res WorkerClaim :=
  match of_value (jb_scenario_family job), of_value (jb_seed job) with
  | Some family, Some seed =>
      Ok {| wc_scenario_family := family; wc_seed := seed; wc_investigation_id := jb_id job;
            wc_owner_email := jb_owner job; wc_checkpoint_id := jb_checkpoint_id job;
            wc_incident_id := jb_incident_id job; wc_owner_decision := decision;
            wc_claim_token := token |}
  | _, _ => Err ValidationError
  end.

Definition eligible (d : JobDocument) : bool := bool_decide (jb_failure_reason (jd_job d) = None).

(** A retry that keeps the lab's one scenario while it backs off. *)
Definition deferred_scenario (now : f64) (d : JobDocument) : bool :=
  negb (bool_decide (jb_incident_id (jd_job d) = None)) && f_gt (jb_available_at (jd_job d)) now.

Definition available (now : f64) (d : JobDocument) : bool := f_ge now (jb_available_at (jd_job d)).

Definition claim_next : StoreM (option WorkerClaim) :=
  now ← clock_reading;
  _ ← reclaim_expired_investigations now;
  running ← jobs_where (has_status I_RUNNING);
  match running with
  | _ :: _ => mret None
  | [] =>
      docs ← jobs_where (has_status I_QUEUED);
      let queued := List.filter eligible docs in
      if existsb (deferred_scenario now) queued then mret None
      else match first_least claimed_before (List.filter (available now) queued) with
      | None => mret None
      | Some d =>
          let id := jb_id (jd_job d) in
          token ← uuid4_hex;
          let d := on_job (claimed token (f_add now (pf_claim_lease_seconds config))) d in
          _ ← write (set_job id d);
          _ ← event id "investigation_started" [];
          decision ← decision_for_claim id (jd_job d);
          claim ← lift_result (worker_claim (jd_job d) decision token);
          mret (Some claim)
      end
  end.

Definition mark_paused (id checkpoint_id token : string) : StoreM unit :=
  if decide (py_strip checkpoint_id = "") then raise ValueError
  else
    snapshot ← job_ref_get id;
    match snapshot with
    | None => raise not_found
    | Some d =>
        now ← clock_reading;
        if negb (claim_current token now (jd_job d)) then raise conflict
        else
          e ← staged_event id "owner_decision_requested" [("checkpoint_id", EStr checkpoint_id)];
          write (fun s => set_event id e (set_job id (on_job (paused_at checkpoint_id) d) s))
    end.

Definition requeue_running (id token : string) : StoreM unit :=
  snapshot ← job_ref_get id;
  match snapshot with
  | Some d =>
      if claim_held token (jd_job d) then
        _ ← write (set_job id (on_job released d));
        event id "investigation_requeued" []
      else raise conflict
  | None => raise conflict
  end.

Definition retry_running (id token : string) (error : exn) : StoreM bool :=
  snapshot ← job_ref_get id;
  match snapshot with
  | None => raise not_found
  | Some d =>
      if negb (claim_held token (jd_job d)) then raise conflict
      else
        let attempt := jb_attempt_count (jd_job d) + 1 in
        if pf_max_replay_attempts config <=? attempt then
          _ ← write (set_job id (on_job (given_up attempt ("retry_limit:" +:+ exn_name error)) d));
          _ ← event id "investigation_failed" (attempt_fields attempt);
          mret false
        else
          now ← clock_reading;
          delay ← lift_result (retry_delay config attempt);
          let retry_at := f_add now delay in
          _ ← write (set_job id (on_job (rescheduled attempt retry_at) d));
          _ ← event id "investigation_retry_scheduled" (retry_fields attempt retry_at);
          mret true
  end.

(** The bytes under the artifact root, as they are when they are read. *)
Definition snapshot_text (id report_artifact : string) : StoreM string := fun s =>
  (read_report_snapshot (fs_reads s) id report_artifact, s <| fs_reads := S (fs_reads s) |>).

Definition finalize (id report_artifact token : string) : StoreM unit :=
  if decide (py_strip report_artifact = "") then raise ValueError
  else
    snapshot ← job_ref_get id;
    match snapshot with
    | None => raise not_found
    | Some d =>
        now ← clock_reading;
        if has_status I_COMPLETED (jd_job d) then raise conflict
        else if negb (claim_current token now (jd_job d)) then raise conflict
        else
          content ← snapshot_text id report_artifact;
          all ← deliveries_where (fun _ => true);
          e ← staged_event id "report_finalized" [];
          write (fun s => set_event id e
            (set_delivery id {| dd_sequence := Z.of_nat (length all);
                                dd_delivery := pending_delivery id (jb_owner (jd_job d)) |}
              (set_job id (on_job (completed_job report_artifact content (sha256_hex content)) d) s)))
    end.

(** * What the delivery worker asks for *)

Definition sent_before (a b : DeliveryDocument) : bool :=
  if negb (SFeqb (dl_available_at (dd_delivery a)) (dl_available_at (dd_delivery b)))
  then f_lt (dl_available_at (dd_delivery a)) (dl_available_at (dd_delivery b))
  else dd_sequence a <? dd_sequence b.

Definition deliverable (now : f64) (d : DeliveryDocument) : bool :=
  bool_decide (dl_failure_reason (dd_delivery d) = None)
  && negb (f_gt (dl_available_at (dd_delivery d)) now).

Definition delivery_claim (job : Job) (d : Delivery) (id token : string) : res DeliveryClaim :=
  match of_value (jb_status job) with
  | None => Err ValueError
  | Some s =>
      match jb_report_artifact job, jb_report_content job, jb_report_sha256 job with
      | Some artifact, Some content, Some sha256 =>
          Ok {| de_investigation_id := id; de_status := s; de_report_artifact := artifact;
                de_report_content := content; de_report_sha256 := sha256;
                de_destination_email := dl_destination_email d; de_delivery_id := id;
                de_claim_token := token |}
      | _, _, _ => Err ValidationError
      end
  end.

Definition claim_delivery : StoreM (option DeliveryClaim) :=
  now ← clock_reading;
  _ ← reclaim_expired_deliveries now;
  docs ← deliveries_where (fun d => bool_decide (dl_status d = "PENDING"));
  match first_least sent_before (List.filter (deliverable now) docs) with
  | None => mret None
  | Some d =>
      let id := dl_id (dd_delivery d) in
      snapshot ← job_ref_get id;
      match snapshot with
      | None => raise corrupt
      | Some job =>
          token ← uuid4_hex;
          let d := on_delivery (claimed_delivery token (f_add now (pf_claim_lease_seconds config))) d in
          _ ← write (set_delivery id d);
          claim ← lift_result (delivery_claim (jd_job job) (dd_delivery d) id token);
          mret (Some claim)
      end
  end.

Definition mark_delivered (id token : string) : StoreM unit :=
  snapshot ← delivery_ref_get id;
  now ← clock_reading;
  match snapshot with
  | Some d =>
      if delivery_current token now (dd_delivery d) then
        _ ← write (set_delivery id (on_delivery sent_delivery d));
        event id "report_delivered" []
      else raise conflict
  | None => raise conflict
  end.

Definition renew_delivery (id token : string) : StoreM unit :=
  snapshot ← delivery_ref_get id;
  now ← clock_reading;
  match snapshot with
  | Some d =>
      if delivery_current token now (dd_delivery d)
      then write (set_delivery id
             (on_delivery (renewed_delivery (f_add now (pf_claim_lease_seconds config))) d))
      else raise conflict
  | None => raise conflict
  end.

Definition release_delivery (id token : string) : StoreM unit :=
  snapshot ← delivery_ref_get id;
  match snapshot with
  | Some d =>
      if delivery_held token (dd_delivery d) then
        _ ← write (set_delivery id (on_delivery released_delivery d));
        event id "report_delivery_requeued" []
      else raise conflict
  | None => raise conflict
  end.

Definition retry_delivery (id token : string) (error : exn) : StoreM bool :=
  snapshot ← delivery_ref_get id;
  match snapshot with
  | None => raise not_found
  | Some d =>
      if negb (delivery_held token (dd_delivery d)) then raise conflict
      else
        let attempt := dl_attempt_count (dd_delivery d) + 1 in
        if pf_max_delivery_attempts config <=? attempt then
          _ ← write (set_delivery id
                (on_delivery (given_up_delivery attempt ("retry_limit:" +:+ exn_name error)) d));
          _ ← event id "report_delivery_failed" (attempt_fields attempt);
          mret false
        else
          now ← clock_reading;
          delay ← lift_result (retry_delay config attempt);
          let retry_at := f_add now delay in
          _ ← write (set_delivery id (on_delivery (rescheduled_delivery attempt retry_at) d));
          _ ← event id "report_delivery_retry_scheduled" (retry_fields attempt retry_at);
          mret true
  end.
End plane.

(** * The plane's interface *)

#[export] Instance firestore_plane `{Firestore} `{Host} `{PlaneClock} `{Artifacts}
    (config : PlaneConfig) : ControlPlane Store := {
  ask op s := match op with
    | op_create owner r key => answered AView (create owner r key) s
    | op_status owner id => answered AView (status owner id) s
    | op_events owner id => answered AEvents (events owner id) s
    | op_decide owner id decision => answered AView (decide_ owner id decision) s
    | op_report owner id => answered AText (report owner id) s
    | op_renew_running id token => answered ADone (renew_running config id token) s
    | op_reserve_incident id token => answered AText (reserve_incident id token) s
    | op_scenario_status id => answered AStatus (scenario_status id) s
    | op_incident_id_for id => answered AIncident (incident_id_for id) s
    | op_claim_next => answered AClaim (claim_next config) s
    | op_mark_paused id c token => answered ADone (mark_paused id c token) s
    | op_requeue_running id token => answered ADone (requeue_running id token) s
    | op_retry_running id token e => answered ARetry (retry_running config id token e) s
    | op_finalize id artifact token => answered ADone (finalize id artifact token) s
    | op_claim_delivery => answered ADelivery (claim_delivery config) s
    | op_mark_delivered id token => answered ADone (mark_delivered id token) s
    | op_renew_delivery id token => answered ADone (renew_delivery config id token) s
    | op_release_delivery id token => answered ADone (release_delivery id token) s
    | op_retry_delivery id token e => answered ARetry (retry_delivery config id token e) s
    end;
  with_clock n s := s <| fs_ticks := n |>;
}.
