(* ===== verification/Lifecycle.v ===== *)
(** The lifecycle of a hosted investigation, as a step relation on the control
    plane's database: what a single write may do, and what every database reached
    by such writes satisfies.  FirestoreSteps.v shows that the operations of
    FirestorePlane.v do nothing else, whichever requests fail. *)
From Stdlib Require Import ZArith Lia.
From stdpp Require Import prelude strings list gmap relations.
From S2P Require Import Prelude PyText Float64 Tools Domain World Approvals ControlPlane FirestorePlane.
Local Open Scope Z_scope.

(** * Steps *)

(** What may happen to a job that runs, or waits for its owner. *)
Inductive job_step `{Host} (config : PlaneConfig) : Job -> Job -> Prop :=
  | js_renew j e : has_status I_RUNNING j = true -> job_step config j (renewed e j)
  | js_incident j i :
      has_status I_RUNNING j = true -> jb_incident_id j = None ->
      job_step config j (reserved_incident i j)
  | js_release j : has_status I_RUNNING j = true -> job_step config j (released j)
  | js_reschedule j t :
      has_status I_RUNNING j = true -> jb_attempt_count j + 1 < pf_max_replay_attempts config ->
      job_step config j (rescheduled (jb_attempt_count j + 1) t j)
  | js_give_up j reason :
      has_status I_RUNNING j = true -> pf_max_replay_attempts config <= jb_attempt_count j + 1 ->
      job_step config j (given_up (jb_attempt_count j + 1) reason j).

Inductive delivery_step (config : PlaneConfig) : Delivery -> Delivery -> Prop :=
  | ds_renew d e : dl_status d = "SENDING" -> delivery_step config d (renewed_delivery e d)
  | ds_release d : dl_status d = "SENDING" -> delivery_step config d (released_delivery d)
  | ds_reschedule d t :
      dl_status d = "SENDING" -> dl_attempt_count d + 1 < pf_max_delivery_attempts config ->
      delivery_step config d (rescheduled_delivery (dl_attempt_count d + 1) t d)
  | ds_give_up d reason :
      dl_status d = "SENDING" -> pf_max_delivery_attempts config <= dl_attempt_count d + 1 ->
      delivery_step config d (given_up_delivery (dl_attempt_count d + 1) reason d)
  | ds_sent d : dl_status d = "SENDING" -> delivery_step config d (sent_delivery d).

Definition data (s : Store) :=
  (fs_jobs s, fs_events s, fs_decisions s, fs_deliveries s).

(** The next event of a job. *)
Definition next_event (id name : string) (fields : list (string * EventValue)) (s : Store)
    : TimelineEvent :=
  {| te_ordinal := Z.of_nat (size (events_of id s)); te_name := name; te_fields := fields |}.

Definition log_event (id name : string) (fields : list (string * EventValue)) (s : Store) : Store :=
  set_event id (next_event id name fields s) s.

(** An identifier drawn between two states. *)
Definition drawn `{Host} (x : string) (s s' : Store) : Prop :=
  exists n, x = uuid_hex n /\ (fs_ids s <= n < fs_ids s')%nat.

Definition runs (d : JobDocument) : Prop := has_status I_RUNNING (jd_job d) = true.

Inductive plane_step `{Host} (config : PlaneConfig) (s s' : Store) : Prop :=
  | ps_quiet : data s' = data s -> (fs_ids s <= fs_ids s')%nat -> plane_step config s s'
  | ps_create id owner r key :
      drawn id s s' ->
      (forall i d, fs_jobs s !! i = Some d -> jb_owner (jd_job d) = owner ->
                   jb_idempotency_key (jd_job d) <> Some key) ->
      data s' = data (log_event id "investigation_queued" [("replay_only", EBool true)]
        (set_job id {| jd_sequence := Z.of_nat (size (fs_jobs s));
                       jd_job := queued_job id owner r key |} s)) ->
      plane_step config s s'
  | ps_claim id d token e :
      fs_jobs s !! id = Some d -> has_status I_QUEUED (jd_job d) = true ->
      jb_failure_reason (jd_job d) = None -> drawn token s s' ->
      (forall i d', fs_jobs s !! i = Some d' -> ~ runs d') ->
      data s' = data (set_job id (on_job (claimed token e) d) s) ->
      plane_step config s s'
  | ps_job id d j :
      fs_jobs s !! id = Some d -> job_step config (jd_job d) j -> (fs_ids s <= fs_ids s')%nat ->
      data s' = data (set_job id (d <| jd_job := j |>) s) ->
      plane_step config s s'
  | ps_event id name fields :
      is_Some (fs_jobs s !! id) -> (fs_ids s <= fs_ids s')%nat ->
      data s' = data (log_event id name fields s) ->
      plane_step config s s'
  | ps_pause id d checkpoint_id :
      fs_jobs s !! id = Some d -> runs d -> py_strip checkpoint_id <> "" ->
      (fs_ids s <= fs_ids s')%nat ->
      data s' = data (log_event id "owner_decision_requested" [("checkpoint_id", EStr checkpoint_id)]
                       (set_job id (on_job (paused_at checkpoint_id) d) s)) ->
      plane_step config s s'
  | ps_decide id d checkpoint_id decision :
      fs_jobs s !! id = Some d -> has_status I_PAUSED_APPROVAL (jd_job d) = true ->
      jb_checkpoint_id (jd_job d) = Some checkpoint_id -> checkpoint_id <> "" ->
      fs_decisions s !! id = None -> (fs_ids s <= fs_ids s')%nat ->
      data s' = data (log_event id "owner_decision_recorded"
          [("checkpoint_id", EStr checkpoint_id); ("decision", EStr (value (od_decision decision)))]
        (set_job id (on_job decided_job d)
          (set_decision id {| dc_checkpoint_id := checkpoint_id;
                              dc_decision := value (od_decision decision);
                              dc_rejection_note := od_rejection_note decision |} s))) ->
      plane_step config s s'
  | ps_finalize id d artifact content :
      fs_jobs s !! id = Some d -> runs d -> artifact <> "" ->
      is_ok (validate_report_reference id artifact) = true -> (fs_ids s <= fs_ids s')%nat ->
      data s' = data (log_event id "report_finalized" []
        (set_delivery id {| dd_sequence := Z.of_nat (size (fs_deliveries s));
                            dd_delivery := pending_delivery id (jb_owner (jd_job d)) |}
          (set_job id (on_job (completed_job artifact content (sha256_hex content)) d) s))) ->
      plane_step config s s'
  | ps_claim_delivery id d token e :
      fs_deliveries s !! id = Some d -> dl_status (dd_delivery d) = "PENDING" ->
      dl_failure_reason (dd_delivery d) = None -> drawn token s s' ->
      data s' = data (set_delivery id (on_delivery (claimed_delivery token e) d) s) ->
      plane_step config s s'
  | ps_delivery id d x :
      fs_deliveries s !! id = Some d -> delivery_step config (dd_delivery d) x ->
      (fs_ids s <= fs_ids s')%nat ->
      data s' = data (set_delivery id (d <| dd_delivery := x |>) s) ->
      plane_step config s s'.

Notation evolves config := (rtc (plane_step config)).

(** * What every database satisfies *)

Section invariant.
Context `{Host} (config : PlaneConfig).

(** A claim is a token drawn before, with a lease. *)
Definition unclaimed (token : option string) (expires : option f64) : Prop :=
  token = None /\ expires = None.

Definition claimed_by_drawn (ids : nat) (token : option string) (expires : option f64) : Prop :=
  (exists n, token = Some (uuid_hex n) /\ (n < ids)%nat) /\ is_Some expires.

Definition status_ok (ids : nat) (id : string) (j : Job) : Prop :=
  let attempts_left := jb_failure_reason j = None /\ jb_attempt_count j < pf_max_replay_attempts config in
  let claim := (jb_claim_token j, jb_claim_expires_at j) in
  match of_value (jb_status j) with
  | Some I_QUEUED =>
      unclaimed claim.1 claim.2
      /\ (jb_failure_reason j = None -> jb_attempt_count j < pf_max_replay_attempts config)
  | Some I_RUNNING => claimed_by_drawn ids claim.1 claim.2 /\ attempts_left
  | Some I_PAUSED_APPROVAL =>
      unclaimed claim.1 claim.2 /\ attempts_left
      /\ exists c, jb_checkpoint_id j = Some c /\ py_strip c <> ""
  | Some I_COMPLETED =>
      unclaimed claim.1 claim.2 /\ attempts_left
      /\ exists text, jb_report_content j = Some text /\ read_report id j = Ok text
  | Some I_FAILED_SAFE | None => False
  end.

Record job_ok (ids n : nat) (id : string) (d : JobDocument) : Prop := {
  jo_id : jb_id (jd_job d) = id;
  jo_drawn : exists k, id = uuid_hex k /\ (k < ids)%nat;
  jo_sequence : 0 <= jd_sequence d < Z.of_nat n;
  jo_attempts : 0 <= jb_attempt_count (jd_job d);
  jo_status : status_ok ids id (jd_job d);
}.

Definition same_key (a b : JobDocument) : Prop :=
  jb_owner (jd_job a) = jb_owner (jd_job b)
  /\ jb_idempotency_key (jd_job a) = jb_idempotency_key (jd_job b)
  /\ is_Some (jb_idempotency_key (jd_job a)).

(** At most one job runs; creation order and idempotency keys tell jobs apart. *)
Record jobs_ok (ids : nat) (jobs : gmap string JobDocument) : Prop := {
  jk_job : forall id d, jobs !! id = Some d -> job_ok ids (size jobs) id d;
  jk_apart : forall i j a b, jobs !! i = Some a -> jobs !! j = Some b ->
               jd_sequence a = jd_sequence b \/ runs a /\ runs b \/ same_key a b -> i = j;
}.

Definition delivery_status_ok (ids : nat) (d : Delivery) : Prop :=
  let claim := (dl_claim_token d, dl_claim_expires_at d) in
  dl_status d = "PENDING" /\ unclaimed claim.1 claim.2
  \/ dl_status d = "SENDING" /\ claimed_by_drawn ids claim.1 claim.2 /\ dl_failure_reason d = None
  \/ dl_status d = "SENT" /\ unclaimed claim.1 claim.2 /\ dl_failure_reason d = None.

Record delivery_ok (ids n : nat) (id : string) (d : DeliveryDocument) : Prop := {
  do_id : dl_id (dd_delivery d) = id;
  do_sequence : 0 <= dd_sequence d < Z.of_nat n;
  do_attempts : 0 <= dl_attempt_count (dd_delivery d);
  do_failed : dl_failure_reason (dd_delivery d) = None ->
              dl_attempt_count (dd_delivery d) < pf_max_delivery_attempts config;
  do_status : delivery_status_ok ids (dd_delivery d);
}.

Definition completed (jobs : gmap string JobDocument) (id : string) (j : JobDocument) : Prop :=
  jobs !! id = Some j /\ has_status I_COMPLETED (jd_job j) = true.

(** The outbox: one delivery for every completed job, to its owner. *)
Record deliveries_ok (ids : nat) (jobs : gmap string JobDocument)
    (deliveries : gmap string DeliveryDocument) : Prop := {
  vk_delivery : forall id d, deliveries !! id = Some d -> delivery_ok ids (size deliveries) id d;
  vk_apart : forall i j a b, deliveries !! i = Some a -> deliveries !! j = Some b ->
               dd_sequence a = dd_sequence b -> i = j;
  vk_job : forall id d, deliveries !! id = Some d -> exists j, completed jobs id j
             /\ dl_destination_email (dd_delivery d) = jb_owner (jd_job j);
  vk_delivered : forall id j, completed jobs id j -> is_Some (deliveries !! id);
}.

(** A decision stands on a checkpoint. *)
Definition decisions_ok (jobs : gmap string JobDocument) (decisions : gmap string Decision) : Prop :=
  forall id c, decisions !! id = Some c ->
    exists d, jobs !! id = Some d /\ is_Some (jb_checkpoint_id (jd_job d)).

(** Events are numbered from zero without gaps. *)
Definition numbered_from_zero (m : gmap Z TimelineEvent) : Prop :=
  forall k, (is_Some (m !! k) <-> 0 <= k < Z.of_nat (size m))
            /\ forall e, m !! k = Some e -> te_ordinal e = k.

Definition events_ok (jobs : gmap string JobDocument)
    (events : gmap string (gmap Z TimelineEvent)) : Prop :=
  forall id m, events !! id = Some m -> is_Some (jobs !! id) /\ numbered_from_zero m.

Record plane_ok (s : Store) : Prop := {
  po_jobs : jobs_ok (fs_ids s) (fs_jobs s);
  po_deliveries : deliveries_ok (fs_ids s) (fs_jobs s) (fs_deliveries s);
  po_decisions : decisions_ok (fs_jobs s) (fs_decisions s);
  po_events : events_ok (fs_jobs s) (fs_events s);
}.
End invariant.

(** * Lemmas: one map at a time *)

Section preservation.
Context `{Host} (config : PlaneConfig).
Notation job_ok := (job_ok config).
Notation jobs_ok := (jobs_ok config).
Notation delivery_ok := (delivery_ok config).
Notation deliveries_ok := (deliveries_ok config).

Lemma status_ok_ids ids ids' id j :
  (ids <= ids')%nat -> status_ok config ids id j -> status_ok config ids' id j.
Proof.
  intros Hle. unfold status_ok, claimed_by_drawn. destruct (of_value _) as [[]|]; try done.
  intros [[(n & ? & ?) ?] ?]. split; [|done]. split; [|done]. exists n. split; [done|lia].
Qed.

Lemma delivery_status_ids ids ids' d :
  (ids <= ids')%nat -> delivery_status_ok ids d -> delivery_status_ok ids' d.
Proof.
  intros Hle [?|[(? & [(n & ? & ?) ?] & ?)|?]]; [by left| |by right; right].
  right. left. split; [done|]. split; [|done]. split; [|done]. exists n. split; [done|lia].
Qed.

Lemma job_ok_grows ids ids' n n' id d :
  (ids <= ids')%nat -> (n <= n')%nat -> job_ok ids n id d -> job_ok ids' n' id d.
Proof.
  intros Hi Hn [? (k & ? & ?) ? ? ?]. split; try done; [|lia|by eapply status_ok_ids].
  exists k. split; [done|lia].
Qed.

Lemma delivery_ok_grows ids ids' n n' id d :
  (ids <= ids')%nat -> (n <= n')%nat -> delivery_ok ids n id d -> delivery_ok ids' n' id d.
Proof.
  intros Hi Hn []. split; try done; [lia|by eapply delivery_status_ids].
Qed.

Lemma size_insert_le {A} (m : gmap string A) k x : (size m <= size (<[k := x]> m))%nat.
Proof.
  destruct (m !! k) eqn:Hk; [rewrite map_size_insert_Some by eauto; lia|].
  rewrite map_size_insert_None by done. lia.
Qed.

(** Writing a job that stays itself. *)
Lemma jobs_ok_insert ids ids' jobs id d d' :
  jobs_ok ids jobs -> (ids <= ids')%nat -> jobs !! id = Some d ->
  job_ok ids' (size jobs) id d' -> jd_sequence d' = jd_sequence d ->
  jb_owner (jd_job d') = jb_owner (jd_job d) ->
  jb_idempotency_key (jd_job d') = jb_idempotency_key (jd_job d) ->
  (runs d' -> runs d \/ forall i x, jobs !! i = Some x -> ~ runs x) ->
  jobs_ok ids' (<[id := d']> jobs).
Proof.
  intros [Hjob Hapart] Hids Hd Hd' Hseq Howner Hkey Hruns.
  assert (Hsize : size (<[id := d']> jobs) = size jobs)
    by (apply map_size_insert_Some; eauto).
  assert (Hold : forall i x, <[id := d']> jobs !! i = Some x -> exists y, jobs !! i = Some y
    /\ jd_sequence x = jd_sequence y /\ jb_owner (jd_job x) = jb_owner (jd_job y)
    /\ jb_idempotency_key (jd_job x) = jb_idempotency_key (jd_job y)
    /\ (runs x -> i = id /\ (forall k z, jobs !! k = Some z -> ~ runs z) \/ runs y)).
  { intros i x [[<- <-]|[Hne Hx]]%lookup_insert_Some; [|eexists; by split_and!; eauto].
    exists d. split_and!; try done. naive_solver. }
  split.
  - intros i x Hx. rewrite Hsize. apply lookup_insert_Some in Hx as [[<- <-]|[Hne Hx]]; [done|].
    by eapply job_ok_grows, Hjob.
  - intros i j a b Ha Hb Hab.
    destruct (Hold i a Ha) as (a' & Ha' & Hsa & Hoa & Hka & Hra).
    destruct (Hold j b Hb) as (b' & Hb' & Hsb & Hob & Hkb & Hrb).
    destruct Hab as [Hab|[[Hra' Hrb']|(Ho & Hk & Hn)]].
    + apply (Hapart _ _ _ _ Ha' Hb'). left. congruence.
    + destruct (Hra Hra') as [[-> Hnone]|Hra2], (Hrb Hrb') as [[-> Hnone']|Hrb2]; try done.
      * by destruct (Hnone j b').
      * by destruct (Hnone' i a').
      * apply (Hapart _ _ _ _ Ha' Hb'). right. by left.
    + apply (Hapart _ _ _ _ Ha' Hb'). right. right. unfold same_key.
      rewrite <- Hoa, <- Hob, <- Hka, <- Hkb. done.
Qed.

Lemma jobs_ok_ids ids ids' jobs : (ids <= ids')%nat -> jobs_ok ids jobs -> jobs_ok ids' jobs.
Proof. intros Hle [Hjob Hapart]. split; [|done]. intros. eapply job_ok_grows; eauto. Qed.

Lemma deliveries_ok_ids ids ids' jobs ds :
  (ids <= ids')%nat -> deliveries_ok ids jobs ds -> deliveries_ok ids' jobs ds.
Proof. intros Hle []. split; try done. intros. eapply delivery_ok_grows; eauto. Qed.

(** The outbox depends on which jobs are completed, and on their owners. *)
Lemma deliveries_ok_jobs ids jobs jobs' ds :
  (forall id j, completed jobs id j -> exists j', completed jobs' id j'
                /\ jb_owner (jd_job j') = jb_owner (jd_job j)) ->
  (forall id j, completed jobs' id j -> exists j', completed jobs id j') ->
  deliveries_ok ids jobs ds -> deliveries_ok ids jobs' ds.
Proof.
  intros Hthere Hback [Hd Ha Hj Hv]. split; [done|done| |].
  - intros id x Hx. destruct (Hj id x Hx) as (j & Hc & ->).
    destruct (Hthere id j Hc) as (j' & Hc' & Ho). by exists j'.
  - intros id j Hc. destruct (Hback id j Hc) as [j' Hc']. eauto.
Qed.

Lemma deliveries_ok_insert ids ids' jobs ds id d d' :
  deliveries_ok ids jobs ds -> (ids <= ids')%nat -> ds !! id = Some d ->
  delivery_ok ids' (size ds) id d' -> dd_sequence d' = dd_sequence d ->
  dl_destination_email (dd_delivery d') = dl_destination_email (dd_delivery d) ->
  deliveries_ok ids' jobs (<[id := d']> ds).
Proof.
  intros [Hok Hapart Hjob Hdel] Hids Hd Hd' Hseq Hdest.
  assert (Hsize : size (<[id := d']> ds) = size ds) by (apply map_size_insert_Some; eauto).
  assert (Hold : forall i x, <[id := d']> ds !! i = Some x -> exists y, ds !! i = Some y
    /\ dd_sequence x = dd_sequence y
    /\ dl_destination_email (dd_delivery x) = dl_destination_email (dd_delivery y)).
  { intros i x [[<- <-]|[Hne Hx]]%lookup_insert_Some; eauto. }
  split.
  - intros i x Hx. rewrite Hsize. apply lookup_insert_Some in Hx as [[<- <-]|[Hne Hx]]; [done|].
    by eapply delivery_ok_grows, Hok.
  - intros i j a b Ha Hb Hab. destruct (Hold _ _ Ha) as (a' & ? & ? & _), (Hold _ _ Hb) as (b' & ? & ? & _).
    eapply Hapart; [done..|congruence].
  - intros i x Hx. destruct (Hold _ _ Hx) as (y & Hy & _ & ->). by apply Hjob.
  - intros i j Hc. rewrite lookup_insert_is_Some. destruct (decide (id = i)); [by left|right].
    split; [done|by eapply Hdel].
Qed.

Lemma numbered_empty : numbered_from_zero ∅.
Proof. intros k. split; [|done]. rewrite map_size_empty. split; [by intros []|lia]. Qed.

Lemma events_numbered_snoc m e :
  numbered_from_zero m -> te_ordinal e = Z.of_nat (size m) ->
  numbered_from_zero (<[te_ordinal e := e]> m).
Proof.
  intros Hm He k. assert (Hnone : m !! te_ordinal e = None).
  { apply eq_None_not_Some. rewrite (proj1 (Hm (te_ordinal e))). lia. }
  rewrite map_size_insert_None by done. split.
  - rewrite lookup_insert_is_Some', (proj1 (Hm k)). lia.
  - intros x [[<- <-]|[Hne Hx]]%lookup_insert_Some; [done|by apply Hm].
Qed.

Lemma events_ok_numbered jobs s id :
  events_ok jobs (fs_events s) -> numbered_from_zero (events_of id s).
Proof.
  intros Hev. unfold events_of. destruct (fs_events s !! id) as [m|] eqn:Hm; simpl.
  - by apply (Hev id).
  - apply numbered_empty.
Qed.

Lemma events_ok_log jobs s id name fields :
  events_ok jobs (fs_events s) -> is_Some (jobs !! id) ->
  events_ok jobs (fs_events (log_event id name fields s)).
Proof.
  intros Hev Hid i m. unfold log_event, set_event. cbn [fs_events set_field].
  intros [[<- <-]|[Hne Hm]]%lookup_insert_Some; [|by apply Hev].
  split; [done|]. apply events_numbered_snoc; [by eapply events_ok_numbered|done].
Qed.
End preservation.

(** * Every step keeps the database well formed *)

Lemma has_status_of_value s j : has_status s j = true -> of_value (jb_status j) = Some s.
Proof. intros ->%bool_decide_eq_true. apply of_value_value. Qed.

Lemma has_status_excl s s' j : has_status s j = true -> has_status s' j = true -> s = s'.
Proof. intros H1%has_status_of_value H2%has_status_of_value. congruence. Qed.

Lemma read_report_completed `{Host} id artifact content j :
  artifact <> "" -> is_ok (validate_report_reference id artifact) = true ->
  read_report id (completed_job artifact content (sha256_hex content) j) = Ok content.
Proof.
  intros Ha Hv. unfold read_report. change (has_status I_COMPLETED (completed_job _ _ _ j)) with true.
  cbn [negb completed_job set_field jb_report_artifact jb_report_content jb_report_sha256].
  rewrite decide_False by done. destruct (validate_report_reference id artifact); [|done].
  by rewrite decide_True.
Qed.

Lemma data_eq s s' : data s' = data s ->
  fs_jobs s' = fs_jobs s /\ fs_events s' = fs_events s
  /\ fs_decisions s' = fs_decisions s /\ fs_deliveries s' = fs_deliveries s.
Proof. by intros [=]. Qed.

Section steps.
Context `{FreshIds} (config : PlaneConfig).
Notation plane_ok := (plane_ok config).
Notation plane_step := (plane_step config).

Lemma status_running ids id j :
  status_ok config ids id j -> has_status I_RUNNING j = true ->
  jb_failure_reason j = None /\ jb_attempt_count j < pf_max_replay_attempts config.
Proof. unfold status_ok. intros Hs Hr%has_status_of_value. rewrite Hr in Hs. by destruct Hs. Qed.

(** A claim that ends without settling leaves the job queued. *)
Lemma job_step_ok ids ids' n id d j :
  (ids <= ids')%nat -> job_ok config ids n id d -> job_step config (jd_job d) j ->
  job_ok config ids' n id (d <| jd_job := j |>)
  /\ jb_owner j = jb_owner (jd_job d) /\ jb_idempotency_key j = jb_idempotency_key (jd_job d)
  /\ jb_checkpoint_id j = jb_checkpoint_id (jd_job d)
  /\ has_status I_RUNNING (jd_job d) = true /\ has_status I_COMPLETED j = false.
Proof.
  intros Hids Hok Hstep. eapply (job_ok_grows _ _ ids' n n) in Hok; [|done|done].
  destruct Hok as [Hid Hdrawn Hseq Hatt Hst].
  assert (Hrun : has_status I_RUNNING (jd_job d) = true) by (by destruct Hstep).
  pose proof (status_running _ _ _ Hst Hrun) as [Hfail Hlt].
  pose proof Hst as Hst'. unfold status_ok in Hst'. rewrite (has_status_of_value _ _ Hrun) in Hst'.
  destruct Hst' as [[Htok Hexp] _].
  split; [|split_and!; try (by destruct Hstep)].
  - split; try (by destruct Hstep).
    + destruct Hstep; simpl; lia.
    + apply bool_decide_eq_true in Hrun. unfold status_ok.
      destruct Hstep; cbn; rewrite ?Hrun; cbn; split_and!; try done; intros; lia.
  - apply bool_decide_eq_true in Hrun.
    destruct Hstep; unfold has_status; cbn; rewrite ?Hrun; done.
Qed.

Lemma delivery_step_ok ids ids' n id d x :
  (ids <= ids')%nat -> delivery_ok config ids n id d -> delivery_step config (dd_delivery d) x ->
  delivery_ok config ids' n id (d <| dd_delivery := x |>)
  /\ dl_destination_email x = dl_destination_email (dd_delivery d).
Proof.
  intros Hids Hok Hstep. eapply (delivery_ok_grows _ _ ids' n n) in Hok; [|done|done].
  destruct Hok as [Hid Hseq Hatt Hfail Hst].
  assert (Hs : dl_status (dd_delivery d) = "SENDING") by (by destruct Hstep).
  destruct Hst as [[? _]|[(_ & [Htok Hexp] & Hnone)|[? _]]]; [congruence| |congruence].
  specialize (Hfail Hnone). split; [|by destruct Hstep].
  split; destruct Hstep; unfold delivery_status_ok, unclaimed, claimed_by_drawn;
    cbn in *; rewrite ?Hs; try done; try lia; naive_solver.
Qed.

Lemma drawn_in x s s' : drawn x s s' -> exists n, x = uuid_hex n /\ (n < fs_ids s')%nat.
Proof. intros (n & ? & ?). exists n. split; [done|lia]. Qed.

Lemma drawn_fresh s s' id : plane_ok s -> drawn id s s' -> fs_jobs s !! id = None.
Proof.
  intros Hok (n & -> & Hn). apply eq_None_not_Some. intros [d Hd].
  destruct (jo_drawn _ _ _ _ _ (jk_job _ _ _ (po_jobs _ _ Hok) _ _ Hd)) as (k & Hk & ?).
  apply uuid_hex_inj in Hk. lia.
Qed.

Lemma completed_insert jobs id j i x :
  has_status I_COMPLETED (jd_job j) = false -> completed (<[id := j]> jobs) i x ->
  i <> id /\ completed jobs i x.
Proof. intros Hno [[[<- <-]|[Hne Hx]]%lookup_insert_Some Hc]; [congruence|done]. Qed.

(** Writing a job that is, and was, not completed. *)
Lemma deliveries_ok_job ids jobs ds id d d' :
  deliveries_ok config ids jobs ds -> jobs !! id = Some d ->
  has_status I_COMPLETED (jd_job d) = false -> has_status I_COMPLETED (jd_job d') = false ->
  deliveries_ok config ids (<[id := d']> jobs) ds.
Proof.
  intros Hds Hd Hno Hno'. eapply deliveries_ok_jobs; [..|exact Hds].
  - intros i j [Hj Hc]. exists j. split; [|done]. split; [|done].
    rewrite lookup_insert_ne; [done|]. intros <-. congruence.
  - intros i j [_ Hc]%completed_insert; [|done]. by exists j.
Qed.

Lemma decisions_ok_job jobs cs id d d' :
  decisions_ok jobs cs -> jobs !! id = Some d ->
  (is_Some (jb_checkpoint_id (jd_job d)) -> is_Some (jb_checkpoint_id (jd_job d'))) ->
  decisions_ok (<[id := d']> jobs) cs.
Proof.
  intros Hcs Hd Hcp i c Hc. destruct (Hcs i c Hc) as (x & Hx & Hs).
  destruct (decide (id = i)) as [<-|Hne].
  - exists d'. rewrite lookup_insert_eq. split; [done|]. apply Hcp. congruence.
  - exists x. by rewrite lookup_insert_ne.
Qed.

Lemma events_ok_insert jobs es id d :
  events_ok jobs es -> events_ok (<[id := d]> jobs) es.
Proof.
  intros Hes i m Hm. destruct (Hes i m Hm) as [? ?]. split; [|done].
  rewrite lookup_insert_is_Some. destruct (decide (id = i)); auto.
Qed.

Lemma excl_completed s j : has_status s j = true -> s <> I_COMPLETED -> has_status I_COMPLETED j = false.
Proof.
  intros Hs Hne. destruct (has_status I_COMPLETED j) eqn:Hc; [|done].
  by destruct Hne, (has_status_excl _ _ _ Hs Hc).
Qed.

(** The four parts, from the four collections. *)
Lemma plane_ok_data s s' t :
  data s' = data t -> jobs_ok config (fs_ids s') (fs_jobs t) ->
  deliveries_ok config (fs_ids s') (fs_jobs t) (fs_deliveries t) ->
  decisions_ok (fs_jobs t) (fs_decisions t) -> events_ok (fs_jobs t) (fs_events t) ->
  fs_ids s' = fs_ids s -> plane_ok s'.
Proof. intros (Hj & He & Hc & Hd)%data_eq ? ? ? ? _. split; by rewrite ?Hj, ?He, ?Hc, ?Hd. Qed.

(** A job that is written without being completed, next to whatever else is logged. *)
Lemma write_job_ok s s' id d d' t :
  plane_ok s -> (fs_ids s <= fs_ids s')%nat -> fs_jobs s !! id = Some d ->
  jobs_ok config (fs_ids s') (<[id := d']> (fs_jobs s)) ->
  has_status I_COMPLETED (jd_job d) = false -> has_status I_COMPLETED (jd_job d') = false ->
  (is_Some (jb_checkpoint_id (jd_job d)) -> is_Some (jb_checkpoint_id (jd_job d'))) ->
  data s' = data t -> fs_jobs t = <[id := d']> (fs_jobs s) ->
  fs_deliveries t = fs_deliveries s ->
  decisions_ok (<[id := d']> (fs_jobs s)) (fs_decisions t) ->
  events_ok (<[id := d']> (fs_jobs s)) (fs_events t) -> plane_ok s'.
Proof.
  intros Hok Hids Hd Hjobs Hno Hno' Hcp Hdata Hj Hdel Hdec Hev.
  apply (plane_ok_data s' s' t); rewrite ?Hj, ?Hdel; try done.
  eapply deliveries_ok_job; [|done..]. eapply deliveries_ok_ids; [done|]. apply Hok.
Qed.

Lemma quiet_ok s s' : plane_ok s -> data s' = data s -> (fs_ids s <= fs_ids s')%nat -> plane_ok s'.
Proof.
  intros [Hj Hd Hc He] Hdata Hids. apply (plane_ok_data s' s' s); try done.
  - by eapply jobs_ok_ids.
  - by eapply deliveries_ok_ids.
Qed.

Lemma create_ok s s' id owner r key :
  0 < pf_max_replay_attempts config -> plane_ok s -> drawn id s s' ->
  (forall i d, fs_jobs s !! i = Some d -> jb_owner (jd_job d) = owner ->
               jb_idempotency_key (jd_job d) <> Some key) ->
  data s' = data (log_event id "investigation_queued" [("replay_only", EBool true)]
    (set_job id {| jd_sequence := Z.of_nat (size (fs_jobs s));
                   jd_job := queued_job id owner r key |} s)) ->
  plane_ok s'.
Proof.
  intros Hmax Hok Hdrawn Hkey Hdata. pose proof (drawn_fresh _ _ _ Hok Hdrawn) as Hnone.
  assert (Hids : (fs_ids s <= fs_ids s')%nat) by (destruct Hdrawn as (n & _ & ?); lia).
  destruct Hok as [[Hjob Hapart] Hdel Hdec Hev].
  set (d := {| jd_sequence := _; jd_job := queued_job id owner r key |}) in *.
  assert (Hsize : size (<[id := d]> (fs_jobs s)) = S (size (fs_jobs s)))
    by (by apply map_size_insert_None).
  assert (Hnew : forall i x, fs_jobs s !! i = Some x -> jd_sequence x <> jd_sequence d
                             /\ ~ same_key x d).
  { intros i x Hx. pose proof (jo_sequence _ _ _ _ _ (Hjob i x Hx)). simpl. split; [lia|].
    intros (Ho & Hk & _). by apply (Hkey i x Hx Ho). }
  apply (plane_ok_data s' s' _ Hdata); cbn [fs_jobs fs_deliveries fs_decisions fs_events log_event
    set_event set_job set_field]; try done.
  - split.
    + intros i x [[<- <-]|[Hne Hx]]%lookup_insert_Some; rewrite Hsize.
      * split; simpl; try done; try lia. by apply drawn_in in Hdrawn.
      * eapply job_ok_grows; [exact Hids| |by apply Hjob]. lia.
    + intros i j a b [[<- <-]|[Hi Ha]]%lookup_insert_Some [[<- <-]|[Hj Hb]]%lookup_insert_Some Hab.
      * done.
      * destruct (Hnew j b Hb) as [? Hk]. destruct Hab as [?|[[Hr _]|(? & ? & ?)]]; [done| |].
        -- discriminate Hr.
        -- destruct Hk. unfold same_key. split_and!; try done; congruence.
      * destruct (Hnew i a Ha) as [? Hk]. by destruct Hab as [?|[[_ Hr]|?]].
      * by apply (Hapart i j a b).
  - eapply deliveries_ok_jobs; [..|by eapply deliveries_ok_ids].
    + intros i j [Hj Hc]. exists j. split; [|done]. split; [|done].
      rewrite lookup_insert_ne; [done|]. intros <-. congruence.
    + intros i j [_ Hc]%completed_insert; [by exists j|done].
  - intros i c Hc. destruct (Hdec i c Hc) as (x & Hx & ?). exists x. split; [|done].
    rewrite lookup_insert_ne; [done|]. intros <-. congruence.
  - apply (events_ok_log _ (set_job id d s)).
    + by apply events_ok_insert.
    + rewrite lookup_insert_eq. by eexists.
Qed.

Lemma finalize_ok s s' id d artifact content :
  0 < pf_max_delivery_attempts config -> plane_ok s -> fs_jobs s !! id = Some d -> runs d ->
  artifact <> "" -> is_ok (validate_report_reference id artifact) = true ->
  (fs_ids s <= fs_ids s')%nat ->
  data s' = data (log_event id "report_finalized" []
    (set_delivery id {| dd_sequence := Z.of_nat (size (fs_deliveries s));
                        dd_delivery := pending_delivery id (jb_owner (jd_job d)) |}
      (set_job id (on_job (completed_job artifact content (sha256_hex content)) d) s))) ->
  plane_ok s'.
Proof.
  intros Hmax Hok Hd Hruns Hart Hval Hids Hdata. destruct Hok as [Hjobs Hdel Hdec Hev].
  set (d' := on_job _ d) in *. set (v := {| dd_sequence := _; dd_delivery := _ |}) in *.
  pose proof (jk_job _ _ _ Hjobs id d Hd) as Hdok.
  assert (Hno : has_status I_COMPLETED (jd_job d) = false) by (by eapply excl_completed).
  assert (Hnone : fs_deliveries s !! id = None).
  { apply eq_None_not_Some. intros [x Hx].
    destruct (vk_job _ _ _ _ Hdel id x Hx) as (j & [Hj Hc] & _). congruence. }
  assert (Hsize : size (<[id := v]> (fs_deliveries s)) = S (size (fs_deliveries s)))
    by (by apply map_size_insert_None).
  apply (plane_ok_data s' s' _ Hdata); cbn [fs_jobs fs_deliveries fs_decisions fs_events log_event
    set_event set_job set_delivery set_field]; try done.
  - eapply jobs_ok_insert; [done..| | | | |intros Hr; discriminate Hr]; try done.
    eapply (job_ok_grows _ _ (fs_ids s') _ (size (fs_jobs s))) in Hdok; [|done..].
    destruct Hdok as [Hid Hdr Hseq Hatt Hst]. split; try done.
    destruct (status_running _ _ _ Hst Hruns) as [Hf Ha].
    unfold status_ok. cbn. split_and!; try done. exists content. split; [done|].
    by apply read_report_completed.
  - destruct Hdel as [Hv Hapart Hjob Hdeld]. split.
    + intros i x [[<- <-]|[Hne Hx]]%lookup_insert_Some; rewrite Hsize.
      * split; simpl; try done; try lia. by left.
      * eapply delivery_ok_grows; [exact Hids| |by apply Hv]. lia.
    + intros i j a b [[<- <-]|[Hi Ha]]%lookup_insert_Some [[<- <-]|[Hj Hb]]%lookup_insert_Some Hab.
      * done.
      * pose proof (do_sequence _ _ _ _ _ (Hv j b Hb)). simpl in Hab. lia.
      * pose proof (do_sequence _ _ _ _ _ (Hv i a Ha)). simpl in Hab. lia.
      * by apply (Hapart i j a b).
    + intros i x [[<- <-]|[Hne Hx]]%lookup_insert_Some.
      * exists d'. split; [|done]. split; [by rewrite lookup_insert_eq|done].
      * destruct (Hjob i x Hx) as (j & [Hj Hc] & Ho). exists j. split; [|done].
        split; [by rewrite lookup_insert_ne|done].
    + intros i j [Hj Hc]. rewrite lookup_insert_is_Some.
      destruct (decide (id = i)) as [<-|Hne]; [by left|right]. split; [done|].
      apply (Hdeld i j). split; [|done]. by rewrite lookup_insert_ne in Hj.
  - eapply decisions_ok_job; [done..|]. done.
  - apply (events_ok_log _ (set_delivery id v (set_job id d' s))).
    + by apply events_ok_insert.
    + rewrite lookup_insert_eq. by eexists.
Qed.

Lemma plane_step_ok s s' :
  0 < pf_max_replay_attempts config -> 0 < pf_max_delivery_attempts config ->
  plane_ok s -> plane_step s s' -> plane_ok s'.
Proof.
  intros Hmax Hmax' Hok Hstep. pose proof Hok as [Hjobs Hdel Hdec Hev].
  destruct Hstep as [Hd Hi|id owner r key Hdr Hk Hd|id d token e Hj Hq Hf Hdr Hno Hd
    |id d j Hj Hs Hi Hd|id name fields Hj Hi Hd|id d c Hj Hr Hc Hi Hd
    |id d c dec Hj Hp Hcp Hc Hn Hi Hd|id d a c Hj Hr Ha Hv Hi Hd
    |id d token e Hj Hp Hf Hdr Hd|id d x Hj Hs Hi Hd].
  - by eapply quiet_ok.
  - by eapply create_ok.
  - assert (Hi : (fs_ids s <= fs_ids s')%nat) by (destruct Hdr as (n & _ & ?); lia).
    pose proof (job_ok_grows _ _ (fs_ids s') _ _ _ _ Hi (le_n _) (jk_job _ _ _ Hjobs id d Hj))
      as [Hid Hdr' Hseq Hatt Hst].
    assert (Hq' := Hst). unfold status_ok in Hq'. rewrite (has_status_of_value _ _ Hq) in Hq'.
    eapply (write_job_ok s s' id d (on_job (claimed token e) d)); [done..| | | | |exact Hd| | | |]; try done.
    + eapply jobs_ok_insert; [done..| | | | |by right]; try done.
      split; simpl; try done. unfold status_ok. cbn. split; [|by split; [|apply Hq']].
      split; [|by eexists]. destruct (drawn_in _ _ _ Hdr) as (n & -> & ?). by exists n.
    + by eapply excl_completed.
    + by eapply decisions_ok_job.
    + by apply events_ok_insert.
  - pose proof (job_step_ok _ _ _ _ _ _ Hi (jk_job _ _ _ Hjobs id d Hj) Hs)
      as (Hok' & Ho & Hk & Hcp & Hrun & Hno).
    eapply (write_job_ok s s' id d (d <| jd_job := j |>)); [done..| | | | |exact Hd| | | |]; try done.
    + eapply jobs_ok_insert; [done..| | | | |by left]; done.
    + by eapply excl_completed.
    + simpl. by rewrite Hcp.
    + eapply decisions_ok_job; [done..|]. simpl. by rewrite Hcp.
    + by apply events_ok_insert.
  - eapply plane_ok_data; [exact Hd|..]; try done; [by eapply jobs_ok_ids|by eapply deliveries_ok_ids|].
    by apply events_ok_log.
  - pose proof (job_ok_grows _ _ (fs_ids s') _ _ _ _ Hi (le_n _) (jk_job _ _ _ Hjobs id d Hj))
      as [Hid Hdr' Hseq Hatt Hst].
    destruct (status_running _ _ _ Hst Hr) as [Hf Ha].
    eapply (write_job_ok s s' id d (on_job (paused_at c) d)); [done..| | | | |exact Hd| | | |]; try done.
    + eapply jobs_ok_insert; [done..| | | | |by left]; try done.
      split; simpl; try done. unfold status_ok. cbn. split; [done|]. split; [done|]. by exists c.
    + by eapply excl_completed.
    + by eapply decisions_ok_job.
    + apply (events_ok_log _ (set_job id _ s)); [by apply events_ok_insert|].
      rewrite lookup_insert_eq. by eexists.
  - pose proof (job_ok_grows _ _ (fs_ids s') _ _ _ _ Hi (le_n _) (jk_job _ _ _ Hjobs id d Hj))
      as [Hid Hdr' Hseq Hatt Hst].
    assert (Hp' := Hst). unfold status_ok in Hp'. rewrite (has_status_of_value _ _ Hp) in Hp'.
    eapply (write_job_ok s s' id d (on_job decided_job d)); [done..| | | | |exact Hd| | | |]; try done.
    + eapply jobs_ok_insert; [done..| | | | |intros Hr; discriminate Hr]; try done.
      split; simpl; try done. unfold status_ok. cbn. split; [apply Hp'|]. intros _. apply Hp'.
    + by eapply excl_completed.
    + eapply (decisions_ok_job _ _ id d); [|done..]. intros i x.
      cbn [fs_decisions log_event set_event set_job set_decision set_field].
      intros [[<- <-]|[Hne Hx]]%lookup_insert_Some; [|by apply (Hdec i x)].
      exists d. split; [done|]. rewrite Hcp. by eexists.
    + apply (events_ok_log _ (set_job id _ (set_decision id _ s))); [by apply events_ok_insert|].
      rewrite lookup_insert_eq. by eexists.
  - by eapply finalize_ok.
  - assert (Hi : (fs_ids s <= fs_ids s')%nat) by (destruct Hdr as (n & _ & ?); lia).
    eapply plane_ok_data; [exact Hd|..]; try done; [by eapply jobs_ok_ids|].
    pose proof (delivery_ok_grows _ _ (fs_ids s') _ _ _ _ Hi (le_n _) (vk_delivery _ _ _ _ Hdel id d Hj))
      as [Hid Hseq Hatt Hfail Hst].
    eapply deliveries_ok_insert; [done..| | |]; try done.
    split; simpl; try done. right. left. split; [done|]. split; [|done]. split; [|by eexists].
    destruct (drawn_in _ _ _ Hdr) as (n & -> & ?). by exists n.
  - eapply plane_ok_data; [exact Hd|..]; try done; [by eapply jobs_ok_ids|].
    destruct (delivery_step_ok _ _ _ _ _ _ Hi (vk_delivery _ _ _ _ Hdel id d Hj) Hs) as [Hok' Hdest].
    by eapply deliveries_ok_insert.
Qed.
End steps.
