(* ===== verification/FirestoreSteps.v ===== *)
(** The operations of FirestorePlane.v follow the lifecycle of Lifecycle.v: whatever
    requests are refused or lose their answers, an operation does nothing but legal
    steps.  So every database a plane ever holds is well formed, and what is settled
    stays. *)
From Stdlib Require Import ZArith Lia.
From stdpp Require Import prelude strings list gmap relations.
From S2P Require Import Prelude PyText Float64 Tools Domain World Approvals ControlPlane PlaneOrder FirestorePlane Lifecycle.
Local Open Scope Z_scope.

(** * From requests to steps *)

(** [s] holds the data of [s1], some identifiers later. *)
Definition as_of (s1 s : Store) : Prop := data s = data s1 /\ (fs_ids s1 <= fs_ids s)%nat.

Section rules.
Context `{FirestoreLaws} `{FreshIds} `{PlaneClock} `{Artifacts} (config : PlaneConfig).
Notation evolves := (rtc (plane_step config)).

(** From the data of [s2], the computation takes [s1] to where it may evolve. *)
Definition sound {A} (s1 s2 : Store) (m : ST Store exn A) : Prop :=
  triple (as_of s2) m (fun _ => evolves s1) (fun _ => evolves s1).

Lemma as_of_refl s : as_of s s.
Proof. by split. Qed.

Lemma as_of_trans s1 s2 s3 : as_of s1 s2 -> as_of s2 s3 -> as_of s1 s3.
Proof. intros [? ?] [? ?]. split; [congruence|lia]. Qed.

Lemma as_of_evolves s1 s : as_of s1 s -> evolves s1 s.
Proof. intros [? ?]. by apply rtc_once, ps_quiet. Qed.

Lemma sound_ret {A} s1 s2 (a : A) : as_of s1 s2 -> sound s1 s2 (mret a).
Proof. intros Has. apply triple_ret. intros s Hs. eapply as_of_evolves, as_of_trans; eauto. Qed.

Lemma sound_raise {A} s1 s2 (e : exn) : as_of s1 s2 -> sound s1 s2 (raise (A := A) e).
Proof. intros Has. apply triple_raise. intros s Hs. eapply as_of_evolves, as_of_trans; eauto. Qed.

Lemma sound_lift {A} s1 s2 (r : res A) : as_of s1 s2 -> sound s1 s2 (lift_result r).
Proof.
  intros Has. apply triple_lift; intros; eapply as_of_evolves, as_of_trans; eauto.
Qed.

(** Reading: the value is a fact about the representative state. *)
Definition reads {A} (s2 : Store) (m : ST Store exn A) (F : A -> Prop) : Prop :=
  triple (as_of s2) m (fun a s => F a /\ as_of s2 s) (fun _ => as_of s2).

Lemma sound_bind {A B} s1 s2 (m : ST Store exn A) (k : A -> ST Store exn B) F :
  as_of s1 s2 -> reads s2 m F -> (forall a, F a -> sound s1 s2 (k a)) -> sound s1 s2 (m ≫= k).
Proof.
  intros Has Hm Hk s Hs. specialize (Hm s Hs). unfold mbind, ST_bind.
  destruct (m s) as [[a|e] s']; [|by eapply as_of_evolves, as_of_trans].
  destruct Hm as [HF Hs']. by apply (Hk a HF).
Qed.

Lemma reads_lift {A} s2 (r : res A) : reads s2 (lift_result r) (fun a => r = Ok a).
Proof. by apply triple_lift. Qed.

Lemma reads_query {A} s2 (f : Store -> A) :
  (forall s, data s = data s2 -> f s = f s2) -> reads s2 (query f) (fun a => a = f s2).
Proof.
  intros Hf s [Hd Hi]. unfold query, request.
  assert (Hd' : data (s <| fs_requests := S (fs_requests s) |>) = data s2) by done.
  destruct (reply _); [split; [by apply Hf|]|..]; by split.
Qed.

Lemma reads_clock s2 : reads s2 clock_reading (fun _ => True).
Proof. by intros s [? ?]. Qed.

Lemma reads_bind {A B} s2 (m : ST Store exn A) (k : A -> ST Store exn B) F G :
  reads s2 m F -> (forall a, F a -> reads s2 (k a) G) -> reads s2 (m ≫= k) G.
Proof.
  intros Hm Hk s Hs. specialize (Hm s Hs). unfold mbind, ST_bind.
  destruct (m s) as [[a|e] s']; [|done]. destruct Hm as [HF Hs']. by apply (Hk a HF).
Qed.

Lemma reads_ret {A} s2 (a : A) : reads s2 (mret a) (fun x => x = a).
Proof. by apply triple_ret. Qed.

(** A write that looks at the data only. *)
Definition respects (s2 : Store) (f : Store -> Store) : Prop :=
  forall s, data s = data s2 -> data (f s) = data (f s2) /\ fs_ids (f s) = fs_ids s.

Lemma sound_write_then {A} s1 s2 f (k : ST Store exn A) :
  as_of s1 s2 -> respects s2 f ->
  (forall s', data s' = data (f s2) -> (fs_ids s2 <= fs_ids s')%nat -> plane_step config s1 s') ->
  sound (f s2) (f s2) k -> sound s1 s2 (_ ← write f; k).
Proof.
  intros Has Hf Hstep Hk s [Hd Hi]. unfold write, request, mbind, ST_bind.
  set (s0 := s <| fs_requests := S (fs_requests s) |>).
  assert (Hd0 : data s0 = data s2) by done. assert (Hi0 : fs_ids s0 = fs_ids s) by done.
  destruct (Hf s0 Hd0) as [Hdf Hif]. pose proof (proj2 (Hf s2 eq_refl)) as Hif2.
  assert (Hout : plane_step config s1 (f s0)) by (apply Hstep; [done|lia]).
  destruct (reply _).
  - assert (Has' : as_of (f s2) (f s0)) by (split; [done|lia]).
    assert (Hone : evolves s1 (f s2)) by (apply rtc_once, Hstep; [done|lia]).
    specialize (Hk (f s0) Has').
    destruct (k (f s0)) as [[a|e] s']; by etrans.
  - eapply as_of_evolves, as_of_trans; [exact Has|]. split; [done|lia].
  - by apply rtc_once.
Qed.

Lemma sound_write s1 s2 f :
  as_of s1 s2 -> respects s2 f ->
  (forall s', data s' = data (f s2) -> (fs_ids s2 <= fs_ids s')%nat -> plane_step config s1 s') ->
  sound s1 s2 (write f).
Proof.
  intros Has Hf Hstep s Hs.
  pose proof (sound_write_then s1 s2 f (mret tt) Has Hf Hstep (sound_ret _ _ _ (as_of_refl _)) s Hs) as Hk.
  unfold mbind, ST_bind in Hk. destruct (write f s) as [[[]|e] s']; exact Hk.
Qed.

(** An identifier drawn on the way. *)
Lemma sound_draw {B} s1 s2 (k : string -> ST Store exn B) :
  as_of s1 s2 ->
  (forall x s3, as_of s1 s3 -> data s3 = data s2 -> drawn x s2 s3 -> sound s1 s3 (k x)) ->
  sound s1 s2 (uuid4_hex ≫= k).
Proof.
  intros Has Hk s [Hd Hi]. unfold mbind, ST_bind, uuid4_hex.
  apply (Hk (uuid_hex (fs_ids s)) (s <| fs_ids := S (fs_ids s) |>)).
  - eapply as_of_trans; [exact Has|]. split; [done|]. simpl. lia.
  - done.
  - exists (fs_ids s). split; [done|]. simpl. lia.
  - apply as_of_refl.
Qed.

(** A computation that is sound from wherever the first one ends. *)
Lemma sound_then {A B} s1 s2 (m : ST Store exn A) (k : A -> ST Store exn B) :
  sound s1 s2 m -> (forall a s3, evolves s1 s3 -> sound s3 s3 (k a)) -> sound s1 s2 (m ≫= k).
Proof.
  intros Hm Hk s Hs. specialize (Hm s Hs). unfold mbind, ST_bind.
  destruct (m s) as [[a|e] s']; [|done].
  specialize (Hk a s' Hm s' (as_of_refl s')). destruct (k a s') as [[b|e] s'']; by etrans.
Qed.
End rules.

(** The data a write leaves depends on the data it found. *)
Ltac solve_respects :=
  let Hjobs := fresh "Hjobs" in let Hevents := fresh "Hevents" in
  let Hdecs := fresh "Hdecs" in let Hdels := fresh "Hdels" in
  intros ? (Hjobs & Hevents & Hdecs & Hdels)%data_eq;
  unfold data, log_event, next_event, set_event, set_job, set_delivery, set_decision, events_of;
  cbn [fs_jobs fs_events fs_decisions fs_deliveries fs_ids set_field];
  rewrite ?Hjobs, ?Hevents, ?Hdecs, ?Hdels; done.

Section operations.
Context `{FirestoreLaws} `{FreshIds} `{PlaneClock} `{Artifacts} (config : PlaneConfig).
Notation evolves := (rtc (plane_step config)).
Notation sound := (sound config).

Lemma stream_length {K} `{Countable K} {A} (m : gmap K A) : length (stream m) = size m.
Proof. rewrite stream_perm, length_fmap. by rewrite length_map_to_list. Qed.

Lemma keep_all {A} (l : list A) : List.filter (fun _ => true) l = l.
Proof. induction l; [done|]. simpl. by f_equal. Qed.

Lemma stream_elem {A} (m : gmap string A) x : x ∈ stream m <-> exists k, m !! k = Some x.
Proof.
  rewrite stream_perm, list_elem_of_fmap. split.
  - intros ([k y] & -> & Hy). exists k. by apply elem_of_map_to_list.
  - intros [k Hk]. exists (k, x). split; [done|]. by apply elem_of_map_to_list.
Qed.

Lemma reads_job s2 id : reads s2 (job_ref_get id) (fun o => o = fs_jobs s2 !! id).
Proof. apply (reads_query s2 (fun s => fs_jobs s !! id)). intros s (Hd & _)%data_eq. by rewrite Hd. Qed.

Lemma reads_delivery s2 id : reads s2 (delivery_ref_get id) (fun o => o = fs_deliveries s2 !! id).
Proof.
  apply (reads_query s2 (fun s => fs_deliveries s !! id)).
  intros s (_ & _ & _ & Hd)%data_eq. by rewrite Hd.
Qed.

Lemma reads_decision s2 id : reads s2 (decision_ref_get id) (fun o => o = fs_decisions s2 !! id).
Proof.
  apply (reads_query s2 (fun s => fs_decisions s !! id)).
  intros s (_ & _ & Hd & _)%data_eq. by rewrite Hd.
Qed.

Lemma reads_jobs_where s2 p :
  reads s2 (jobs_where p) (fun l => l = List.filter (fun d => p (jd_job d)) (stream (fs_jobs s2))).
Proof. apply (reads_query s2 (fun s => List.filter _ (stream (fs_jobs s)))). intros s (Hd & _)%data_eq. by rewrite Hd. Qed.

Lemma reads_deliveries_where s2 p :
  reads s2 (deliveries_where p)
    (fun l => l = List.filter (fun d => p (dd_delivery d)) (stream (fs_deliveries s2))).
Proof.
  apply (reads_query s2 (fun s => List.filter _ (stream (fs_deliveries s)))).
  intros s (_ & _ & _ & Hd)%data_eq. by rewrite Hd.
Qed.

Lemma reads_staged s2 id name fields :
  reads s2 (staged_event id name fields) (fun e => e = next_event id name fields s2).
Proof.
  unfold staged_event, next_event_ordinal. eapply reads_bind.
  - eapply reads_bind; [apply reads_query|intros a ->; apply reads_ret].
    intros s (_ & He & _)%data_eq. unfold events_of. by rewrite He.
  - intros a ->. rewrite stream_length. apply reads_ret.
Qed.

Lemma sound_event s1 s2 id name fields :
  as_of s1 s2 -> is_Some (fs_jobs s1 !! id) -> sound s1 s2 (event id name fields).
Proof.
  intros Has Hid. eapply sound_bind; [done|apply reads_staged|]. intros e ->.
  apply sound_write; [done|solve_respects|]. intros s' Hd Hi.
  destruct Has as [Hd2 Hi2]. apply (ps_event _ _ _ id name fields); [done|lia|].
  rewrite Hd. apply data_eq in Hd2 as (Hj & He & Hc & Hdl).
  unfold data, log_event, next_event, set_event, events_of.
  cbn [fs_jobs fs_events fs_decisions fs_deliveries set_field]. congruence.
Qed.

(** Writing a job, then logging an event of it. *)
Lemma sound_job {A} s id d (f : Job -> Job) (k : ST Store exn A) :
  fs_jobs s !! id = Some d -> job_step config (jd_job d) (f (jd_job d)) ->
  (forall s', is_Some (fs_jobs s' !! id) -> fs_deliveries s' = fs_deliveries s -> sound s' s' k) ->
  sound s s (_ ← write (set_job id (on_job f d)); k).
Proof.
  intros Hd Hstep Hk. apply sound_write_then; [apply as_of_refl|solve_respects| |].
  - intros s' Hdata Hi. by eapply ps_job.
  - apply Hk; [|done]. cbn. rewrite lookup_insert_eq. by eexists.
Qed.

Lemma sound_delivery {A} s id d (f : Delivery -> Delivery) (k : ST Store exn A) :
  fs_deliveries s !! id = Some d -> delivery_step config (dd_delivery d) (f (dd_delivery d)) ->
  (forall s', fs_jobs s' = fs_jobs s -> sound s' s' k) ->
  sound s s (_ ← write (set_delivery id (on_delivery f d)); k).
Proof.
  intros Hd Hstep Hk. apply sound_write_then; [apply as_of_refl|solve_respects| |by apply Hk].
  intros s' Hdata Hi. by eapply ps_delivery.
Qed.

(** A last write. *)
Lemma sound_last {s} (f : Store -> Store) :
  sound s s (_ ← write f; mret tt) -> sound s s (write f).
Proof.
  intros Hm s' Hs. specialize (Hm s' Hs). unfold mbind, ST_bind in Hm.
  destruct (write f s') as [[[]|e] s'']; exact Hm.
Qed.

Lemma sound_event_then {A} s id name fields (a : A) :
  is_Some (fs_jobs s !! id) -> sound s s (_ ← event id name fields; mret a).
Proof.
  intros Hid. eapply sound_then; [by apply sound_event; [apply as_of_refl|]|].
  intros _ s3 _. apply sound_ret, as_of_refl.
Qed.

Lemma current_runs token now j : claim_current token now j = true -> has_status I_RUNNING j = true.
Proof. unfold claim_current. by intros [[? _]%andb_true_iff _]%andb_true_iff. Qed.

Lemma held_runs token j : claim_held token j = true -> has_status I_RUNNING j = true.
Proof. by intros [? _]%andb_true_iff. Qed.

Lemma delivery_held_sending token d : delivery_held token d = true -> dl_status d = "SENDING".
Proof. by intros [?%bool_decide_eq_true _]%andb_true_iff. Qed.

Lemma delivery_current_sending token now d :
  delivery_current token now d = true -> dl_status d = "SENDING".
Proof. by intros [?%delivery_held_sending _]%andb_true_iff. Qed.

Lemma evolves_ok s s' :
  0 < pf_max_replay_attempts config -> 0 < pf_max_delivery_attempts config ->
  plane_ok config s -> evolves s s' -> plane_ok config s'.
Proof. intros Hm1 Hm2 Hok Hev. induction Hev; [done|]. eauto using plane_step_ok. Qed.

(** A delivery's job is there. *)
Lemma delivery_has_job s id d :
  plane_ok config s -> fs_deliveries s !! id = Some d -> is_Some (fs_jobs s !! id).
Proof.
  intros Hok Hd. destruct (vk_job _ _ _ _ (po_deliveries _ _ Hok) id d Hd) as (j & [Hj _] & _).
  by eexists.
Qed.

Hint Resolve as_of_refl : core.

Lemma owned_reads s id owner :
  reads s (owned id owner) (fun d => fs_jobs s !! id = Some d /\ jb_owner (jd_job d) = owner).
Proof.
  eapply reads_bind; [apply reads_job|]. intros o Ho.
  destruct o as [d|]; [|by apply triple_raise].
  destruct (decide _) as [Hown|]; [|by apply triple_raise]. by apply triple_ret.
Qed.

Lemma create_sound s owner r key : plane_ok config s -> sound s s (create owner r key).
Proof.
  intros Hok. eapply sound_bind; [done|apply reads_jobs_where|]. intros docs Hdocs.
  destruct (List.find _ docs) eqn:Hfind; [by apply sound_lift|].
  apply sound_draw; [done|]. intros id s3 Has Hdata Hdrawn.
  eapply sound_bind; [done|apply reads_jobs_where|]. intros all Hall.
  assert (Hsize : length all = size (fs_jobs s)).
  { rewrite Hall. apply data_eq in Hdata as [-> _].
    rewrite keep_all. apply stream_length. }
  eapply sound_bind; [done|apply reads_staged|]. intros e He.
  set (d := {| jd_sequence := _; jd_job := _ |}).
  apply sound_write_then; [done| | |by apply sound_ret].
  { rewrite He. solve_respects. }
  intros s' Hd Hi. apply (ps_create _ _ _ id owner r key).
  - destruct Hdrawn as (n & -> & ?). exists n. split; [done|lia].
  - intros i x Hx Ho Hk. apply List.find_none with (x := x) in Hfind.
    + by apply bool_decide_eq_false in Hfind.
    + rewrite Hdocs. apply filter_In. split; [|by apply bool_decide_eq_true].
      apply list_elem_of_In, stream_elem. eauto.
  - rewrite Hd, He. subst d. rewrite Hsize. apply data_eq in Hdata as (Hj & He' & Hc & Hdl).
    unfold data, log_event, next_event, set_event, set_job, events_of.
    cbn [fs_jobs fs_events fs_decisions fs_deliveries set_field te_ordinal]. congruence.
Qed.

Lemma status_sound s owner id : sound s s (status owner id).
Proof. eapply sound_bind; [done|apply owned_reads|]. intros d _. by apply sound_lift. Qed.

Lemma events_sound s owner id : sound s s (events owner id).
Proof.
  eapply sound_bind; [done|apply owned_reads|]. intros d _.
  eapply sound_bind; [done|apply (reads_query s (fun s => stream (events_of id s)))|].
  - intros s' (_ & He & _)%data_eq. unfold events_of. by rewrite He.
  - intros rows _. by apply sound_ret.
Qed.

Lemma report_sound s owner id : sound s s (report owner id).
Proof. eapply sound_bind; [done|apply owned_reads|]. intros d _. by apply sound_lift. Qed.

Lemma decide_sound s owner id decision : sound s s (decide_ owner id decision).
Proof.
  eapply sound_bind; [done|apply owned_reads|]. intros d [Hd _]. cbv zeta.
  eapply sound_bind; [done|apply reads_decision|]. intros prior Hprior.
  destruct prior as [prior|].
  - eapply sound_bind; [done|apply reads_lift|]. intros pd _.
    destruct (jb_checkpoint_id _); [|by apply sound_raise].
    case_decide; [by apply sound_raise|]. case_match; [by apply sound_raise|].
    case_match; [by apply sound_raise|by apply sound_lift].
  - destruct (has_status I_PAUSED_APPROVAL _) eqn:Hp; simpl; [|by apply sound_raise].
    destruct (jb_checkpoint_id _) as [c|] eqn:Hc; [|by apply sound_raise].
    case_decide; [by apply sound_raise|].
    eapply sound_bind; [done|apply reads_staged|]. intros e ->.
    apply sound_write_then; [done|solve_respects| |by apply sound_ret].
    intros s' Hdata Hi. by eapply (ps_decide _ _ _ id d c decision).
Qed.

Lemma renew_running_sound s id token : sound s s (renew_running config id token).
Proof.
  eapply sound_bind; [done|apply reads_job|]. intros o Ho.
  eapply sound_bind; [done|apply reads_clock|]. intros now _.
  destruct o as [d|]; [|by apply sound_raise].
  destruct (claim_current _ _ _) eqn:Hc; [|by apply sound_raise].
  apply sound_last, sound_job; [done| |by intros; apply sound_ret].
  apply js_renew. by eapply current_runs.
Qed.

Lemma reserve_incident_sound s id token : sound s s (reserve_incident id token).
Proof.
  eapply sound_bind; [done|apply reads_job|]. intros o Ho.
  destruct o as [d|]; [|by apply sound_raise].
  eapply sound_bind; [done|apply reads_clock|]. intros now _.
  destruct (claim_current _ _ _) eqn:Hc; simpl; [|by apply sound_raise].
  destruct (jb_incident_id _) eqn:Hi; [case_match; [by apply sound_ret|by apply sound_raise]|].
  apply sound_job; [done|apply js_incident; [by eapply current_runs|done]|].
  intros s' Hs' _. by apply sound_event_then.
Qed.

Lemma scenario_status_sound s id : sound s s (scenario_status id).
Proof.
  eapply sound_bind; [done|apply reads_jobs_where|]. intros docs _.
  destruct docs; [by apply sound_ret|].
  eapply sound_bind; [done|apply reads_lift|]. intros x _. by apply sound_ret.
Qed.

Lemma incident_id_for_sound s id : sound s s (incident_id_for id).
Proof.
  eapply sound_bind; [done|apply reads_job|]. intros o _.
  destruct o; [by apply sound_lift|by apply sound_raise].
Qed.

(** ** Sweeps over expired claims *)

(** What a computation does to the database stays within a relation. *)
Definition within {A} (R : relation Store) (m : ST Store exn A) : Prop := forall s, R s (m s).2.

Lemma within_bind {A B} R `{!PreOrder R} (m : ST Store exn A) (k : A -> ST Store exn B) :
  within R m -> (forall a, within R (k a)) -> within R (m ≫= k).
Proof.
  intros Hm Hk s. specialize (Hm s). unfold mbind, ST_bind.
  destruct (m s) as [[a|e] s'] eqn:Hs; simpl in Hm; [|done]. etrans; [exact Hm|apply Hk].
Qed.

Lemma within_pure {A} R `{!PreOrder R} (r : res A) : within R (lift_result r).
Proof. intros s. by destruct r. Qed.

Lemma within_write R `{!PreOrder R} f :
  (forall s, R s (s <| fs_requests := S (fs_requests s) |>)) -> (forall s, R s (f s)) ->
  within R (write f).
Proof.
  intros Hr Hf s. unfold write, request. destruct (reply _); simpl; [etrans; [apply Hr|apply Hf]|apply Hr|].
  etrans; [apply Hr|apply Hf].
Qed.

(** Everything but the documents named [id]. *)
Definition others (id : string) (s s' : Store) : Prop :=
  forall i, i <> id -> fs_jobs s' !! i = fs_jobs s !! i /\ fs_deliveries s' !! i = fs_deliveries s !! i.

#[local] Instance others_preorder id : PreOrder (others id).
Proof.
  split; [by intros s i|]. intros s1 s2 s3 H12 H23 i Hi.
  destruct (H12 i Hi), (H23 i Hi). split; congruence.
Qed.

Lemma event_others id i name fields : within (others id) (event i name fields).
Proof.
  unfold event, staged_event, next_event_ordinal. repeat (apply within_bind; [apply _| |intros ?]).
  - intros s. unfold query, request. by destruct (reply _).
  - by apply (within_pure _ (Ok _)).
  - by apply (within_pure _ (Ok _)).
  - by apply within_write; [apply _|intros s j|intros s j].
Qed.

Lemma set_job_others id d : within (others id) (write (set_job id d)).
Proof.
  apply within_write; [apply _|by intros s i|]. intros s i Hi. split; [|done].
  cbn. by rewrite lookup_insert_ne by congruence.
Qed.

Lemma set_delivery_others id d : within (others id) (write (set_delivery id d)).
Proof.
  apply within_write; [apply _|by intros s i|]. intros s i Hi. split; [done|].
  cbn. by rewrite lookup_insert_ne by congruence.
Qed.

Lemma reclaim_job_others now d : within (others (jb_id (jd_job d))) (reclaim_job config now d).
Proof.
  unfold reclaim_job. case_match.
  - apply within_bind; [apply _|apply set_job_others|intros _; apply event_others].
  - apply within_bind; [apply _|apply within_pure, _|intros delay].
    apply within_bind; [apply _|apply set_job_others|intros _; apply event_others].
Qed.

Lemma reclaim_delivery_others now d :
  within (others (dl_id (dd_delivery d))) (reclaim_delivery config now d).
Proof.
  unfold reclaim_delivery. case_match.
  - apply within_bind; [apply _|apply set_delivery_others|intros _; apply event_others].
  - apply within_bind; [apply _|apply within_pure, _|intros delay].
    apply within_bind; [apply _|apply set_delivery_others|intros _; apply event_others].
Qed.

Lemma sound_then_within {A B} s R (m : ST Store exn A) (k : A -> ST Store exn B) :
  sound s s m -> within R m ->
  (forall a s', evolves s s' -> (exists s0, as_of s s0 /\ R s0 s') -> sound s' s' (k a)) ->
  sound s s (m ≫= k).
Proof.
  intros Hm HR Hk s0 Hs0. specialize (Hm s0 Hs0). specialize (HR s0). unfold mbind, ST_bind.
  destruct (m s0) as [[a|e] s'] eqn:Hms; [|done].
  specialize (Hk a s' Hm (ex_intro _ s0 (conj Hs0 HR)) s' (as_of_refl s')).
  destruct (k a s') as [[b|e] s'']; by etrans.
Qed.

Lemma reclaim_job_sound s now d :
  fs_jobs s !! jb_id (jd_job d) = Some d -> has_status I_RUNNING (jd_job d) = true ->
  sound s s (reclaim_job config now d).
Proof.
  intros Hd Hr. unfold reclaim_job. cbv zeta. destruct (_ <=? _) eqn:Hmax.
  - apply sound_job; [done|apply js_give_up; [done|lia]|]. intros s' Hs' _. by apply sound_event.
  - eapply sound_bind; [done|apply reads_lift|]. intros delay _.
    apply sound_job; [done|apply js_reschedule; [done|lia]|]. intros s' Hs' _. by apply sound_event.
Qed.

Lemma reclaim_delivery_sound s now d :
  fs_deliveries s !! dl_id (dd_delivery d) = Some d -> is_Some (fs_jobs s !! dl_id (dd_delivery d)) ->
  dl_status (dd_delivery d) = "SENDING" ->
  sound s s (reclaim_delivery config now d).
Proof.
  intros Hd Hj Hr. unfold reclaim_delivery. cbv zeta. destruct (_ <=? _) eqn:Hmax.
  - apply sound_delivery; [done|apply ds_give_up; [done|lia]|]. intros s' Hs'. apply sound_event; [done|by rewrite Hs'].
  - eapply sound_bind; [done|apply reads_lift|]. intros delay _.
    apply sound_delivery; [done|apply ds_reschedule; [done|lia]|]. intros s' Hs'. apply sound_event; [done|by rewrite Hs'].
Qed.

(** The documents a sweep still holds are the database's own. *)
Lemma reclaim_jobs_sound now docs : forall s,
  NoDup (jb_id ∘ jd_job <$> docs) ->
  Forall (fun d => fs_jobs s !! jb_id (jd_job d) = Some d /\ has_status I_RUNNING (jd_job d) = true) docs ->
  sound s s (reclaim_jobs config now docs).
Proof.
  induction docs as [|d docs IH]; intros s Hnd Hall; [by apply sound_ret|].
  apply NoDup_cons in Hnd as [Hnin Hnd]. apply Forall_cons in Hall as [[Hd Hr] Hall].
  simpl. case_match; [|by apply IH].
  eapply sound_then_within; [by apply reclaim_job_sound|apply reclaim_job_others|].
  intros _ s' _ (s0 & [Hs0 _] & Hothers). apply IH; [done|].
  rewrite Forall_forall in Hall |- *. intros x Hx. destruct (Hall x Hx) as [Hlook ?].
  split; [|done]. destruct (Hothers (jb_id (jd_job x))) as [-> _].
  - intros Heq. apply Hnin. unfold compose at 1. rewrite <- Heq. by apply (list_elem_of_fmap_2 (jb_id ∘ jd_job)).
  - by apply data_eq in Hs0 as [-> _].
Qed.

Lemma reclaim_deliveries_sound now docs : forall s,
  plane_ok config s ->
  0 < pf_max_replay_attempts config -> 0 < pf_max_delivery_attempts config ->
  NoDup (dl_id ∘ dd_delivery <$> docs) ->
  Forall (fun d => fs_deliveries s !! dl_id (dd_delivery d) = Some d
                   /\ dl_status (dd_delivery d) = "SENDING") docs ->
  sound s s (reclaim_deliveries config now docs).
Proof.
  induction docs as [|d docs IH]; intros s Hok Hm1 Hm2 Hnd Hall; [by apply sound_ret|].
  apply NoDup_cons in Hnd as [Hnin Hnd]. apply Forall_cons in Hall as [[Hd Hr] Hall].
  simpl. case_match; [|by apply IH].
  eapply sound_then_within; [|apply reclaim_delivery_others|].
  { apply reclaim_delivery_sound; [done|by eapply delivery_has_job|done]. }
  intros _ s' Hev (s0 & [Hs0 _] & Hothers). apply IH; try done.
  - by eapply evolves_ok.
  - rewrite Forall_forall in Hall |- *. intros x Hx. destruct (Hall x Hx) as [Hlook ?].
    split; [|done]. destruct (Hothers (dl_id (dd_delivery x))) as [_ ->].
    + intros Heq. apply Hnin. unfold compose at 1. rewrite <- Heq. by apply (list_elem_of_fmap_2 (dl_id ∘ dd_delivery)).
    + by apply data_eq in Hs0 as (_ & _ & _ & ->).
Qed.

(** A query gives documents of the collection, each once. *)
Lemma stream_stored {A} (m : gmap string A) (p : A -> bool) (name : A -> string) :
  (forall k x, m !! k = Some x -> name x = k) ->
  NoDup (name <$> List.filter p (stream m))
  /\ Forall (fun x => m !! name x = Some x /\ p x = true) (List.filter p (stream m)).
Proof.
  intros Hname. split.
  - assert (Hnd : NoDup (name <$> stream m)).
    { rewrite stream_perm, <- list_fmap_compose. rewrite (list_fmap_ext _ fst).
      - apply NoDup_fst_map_to_list.
      - intros i [k x] Hx. simpl. apply Hname.
        apply elem_of_map_to_list. by eapply list_elem_of_lookup_2. }
    induction (stream m) as [|x l IH]; [constructor|]. simpl in *.
    apply NoDup_cons in Hnd as [Hnin Hnd]. destruct (p x); [|by apply IH].
    simpl. apply NoDup_cons. split; [|by apply IH].
    contradict Hnin. apply list_elem_of_fmap in Hnin as (y & -> & Hy).
    apply list_elem_of_fmap_2. apply list_elem_of_In, filter_In in Hy as [Hy _].
    by apply list_elem_of_In.
  - apply Forall_forall. intros x Hx.
    apply list_elem_of_In, filter_In in Hx as [Hx Hp]. split; [|done].
    apply list_elem_of_In, stream_elem in Hx as [k Hk]. by rewrite (Hname k x Hk).
Qed.

Lemma job_named s k d : plane_ok config s -> fs_jobs s !! k = Some d -> jb_id (jd_job d) = k.
Proof. intros Hok Hd. apply (jo_id _ _ _ _ _ (jk_job _ _ _ (po_jobs _ _ Hok) k d Hd)). Qed.

Lemma delivery_named s k d :
  plane_ok config s -> fs_deliveries s !! k = Some d -> dl_id (dd_delivery d) = k.
Proof. intros Hok Hd. apply (do_id _ _ _ _ _ (vk_delivery _ _ _ _ (po_deliveries _ _ Hok) k d Hd)). Qed.

Lemma reclaim_expired_investigations_sound s now :
  plane_ok config s -> sound s s (reclaim_expired_investigations config now).
Proof.
  intros Hok. eapply sound_bind; [done|apply reads_jobs_where|]. intros docs ->.
  destruct (stream_stored (fs_jobs s) (fun d => has_status I_RUNNING (jd_job d)) (jb_id ∘ jd_job))
    as [Hnd Hall]; [intros k x; by apply job_named|].
  by apply reclaim_jobs_sound.
Qed.
End operations.

(** * The operations of the workers *)

Section workers.
Context `{FirestoreLaws} `{FreshIds} `{PlaneClock} `{Artifacts} (config : PlaneConfig).
Hypothesis replay_attempts_positive : 0 < pf_max_replay_attempts config.
Hypothesis delivery_attempts_positive : 0 < pf_max_delivery_attempts config.
Notation evolves := (rtc (plane_step config)).
Notation sound := (sound config).
Notation plane_ok := (plane_ok config).

Hint Resolve as_of_refl : core.

Lemma evolves_plane_ok s s' : plane_ok s -> evolves s s' -> plane_ok s'.
Proof. intros. by eapply evolves_ok. Qed.

Lemma reclaim_expired_deliveries_sound s now :
  plane_ok s -> sound s s (reclaim_expired_deliveries config now).
Proof.
  intros Hok. eapply sound_bind; [done|apply reads_deliveries_where|]. intros docs ->.
  destruct (stream_stored (fs_deliveries s)
    (fun d => bool_decide (dl_status (dd_delivery d) = "SENDING")) (dl_id ∘ dd_delivery))
    as [Hnd Hall]; [intros k x; by apply (delivery_named config)|].
  apply reclaim_deliveries_sound; try done. eapply Forall_impl; [exact Hall|].
  intros x [? ?%bool_decide_eq_true]. done.
Qed.

Lemma in_filter {A} (p : A -> bool) l x : x ∈ List.filter p l <-> x ∈ l /\ p x = true.
Proof. rewrite !list_elem_of_In. apply filter_In. Qed.

Lemma decision_for_claim_reads s id job : reads s (decision_for_claim id job) (fun _ => True).
Proof.
  eapply reads_bind; [apply reads_decision|]. intros o _. destruct o as [c|]; [|by apply triple_ret].
  destruct (decision_request _ _); [|by apply triple_raise].
  destruct (jb_checkpoint_id job); [|by apply triple_raise].
  case_decide; [by apply triple_raise|]. case_match; [by apply triple_raise|by apply triple_ret].
Qed.

(** From the choice of the job to the claim. *)
Lemma claim_sound {A} s id d e (k : string -> ST Store exn A) :
  fs_jobs s !! id = Some d -> has_status I_QUEUED (jd_job d) = true ->
  jb_failure_reason (jd_job d) = None -> (forall i d', fs_jobs s !! i = Some d' -> ~ runs d') ->
  (forall token s', is_Some (fs_jobs s' !! id) -> sound s' s' (k token)) ->
  sound s s (token ← uuid4_hex; _ ← write (set_job id (on_job (claimed token e) d)); k token).
Proof.
  intros Hd Hq Hf Hnone Hk. apply sound_draw; [done|]. intros x s3 Has Hdata Hdrawn.
  apply sound_write_then; [done|solve_respects| |].
  - intros s' Hs' Hi. eapply (ps_claim _ _ _ id d x e); try done.
    + destruct Hdrawn as (n & -> & ?). exists n. split; [done|lia].
    + rewrite Hs'. apply data_eq in Hdata as (Hj & He & Hc & Hdl).
      unfold data, set_job. cbn [fs_jobs fs_events fs_decisions fs_deliveries set_field]. congruence.
  - apply Hk. cbn. rewrite lookup_insert_eq. by eexists.
Qed.

Lemma claim_next_sound s : plane_ok s -> sound s s (claim_next config).
Proof.
  intros Hok0. eapply sound_bind; [done|apply reads_clock|]. intros now _.
  eapply sound_then; [by apply reclaim_expired_investigations_sound|].
  intros _ s1 Hev. pose proof (evolves_plane_ok _ _ Hok0 Hev) as Hok. clear s Hok0 Hev.
  eapply sound_bind; [done|apply reads_jobs_where|]. intros running Hrun.
  destruct running; [|by apply sound_ret].
  eapply sound_bind; [done|apply reads_jobs_where|]. intros docs Hdocs. cbv zeta.
  case_match; [by apply sound_ret|].
  destruct (first_least _ _) as [d|] eqn:Hd; [|by apply sound_ret].
  apply first_least_in, in_filter in Hd as [Hd _]. apply in_filter in Hd as [Hd Hf].
  rewrite Hdocs in Hd. apply in_filter in Hd as [Hd Hq]. apply stream_elem in Hd as [k Hk].
  rewrite (job_named config s1 k d Hok Hk).
  apply bool_decide_eq_true in Hf.
  apply (claim_sound s1 k d); try done.
  - intros i d' Hi Hr. assert (Hin : d' ∈ []).
    { rewrite Hrun. apply in_filter. split; [apply stream_elem; eauto|done]. }
    by apply elem_of_nil in Hin.
  - intros token s' Hs'. eapply sound_then; [by apply sound_event|]. intros _ s3 _.
    eapply sound_bind; [done|apply decision_for_claim_reads|]. intros dec _.
    eapply sound_bind; [done|apply reads_lift|]. intros c _. by apply sound_ret.
Qed.

Lemma mark_paused_sound s id c token : sound s s (mark_paused id c token).
Proof.
  unfold mark_paused. case_decide; [by apply sound_raise|].
  eapply sound_bind; [done|apply reads_job|]. intros o Ho. destruct o as [d|]; [|by apply sound_raise].
  eapply sound_bind; [done|apply reads_clock|]. intros now _.
  destruct (claim_current _ _ _) eqn:Hc; simpl; [|by apply sound_raise].
  eapply sound_bind; [done|apply reads_staged|]. intros e ->.
  apply sound_write; [done|solve_respects|]. intros s' Hdata Hi.
  eapply (ps_pause _ _ _ id d c); try done. by eapply current_runs.
Qed.

Lemma requeue_running_sound s id token : sound s s (requeue_running id token).
Proof.
  eapply sound_bind; [done|apply reads_job|]. intros o Ho. destruct o as [d|]; [|by apply sound_raise].
  destruct (claim_held _ _) eqn:Hc; [|by apply sound_raise].
  apply sound_job; [done|apply js_release; by eapply held_runs|].
  intros s' Hs' _. by apply sound_event.
Qed.

Lemma retry_running_sound s id token error : sound s s (retry_running config id token error).
Proof.
  eapply sound_bind; [done|apply reads_job|]. intros o Ho. destruct o as [d|]; [|by apply sound_raise].
  destruct (claim_held _ _) eqn:Hc; simpl; [|by apply sound_raise].
  apply held_runs in Hc. destruct (_ <=? _) eqn:Hmax.
  - apply sound_job; [done|apply js_give_up; [done|lia]|]. intros s' Hs' _. by apply sound_event_then.
  - eapply sound_bind; [done|apply reads_clock|]. intros now _.
    eapply sound_bind; [done|apply reads_lift|]. intros delay _.
    apply sound_job; [done|apply js_reschedule; [done|lia]|]. intros s' Hs' _. by apply sound_event_then.
Qed.

Lemma reads_snapshot s id artifact :
  reads s (snapshot_text id artifact)
    (fun _ => is_ok (validate_report_reference id artifact) = true).
Proof.
  intros s' Hs'. unfold snapshot_text, read_report_snapshot.
  destruct (validate_report_reference id artifact); simpl; [|done].
  by destruct (artifact_text _ _).
Qed.

Lemma finalize_sound s id artifact token : sound s s (finalize id artifact token).
Proof.
  unfold finalize. case_decide as Hne; [by apply sound_raise|].
  eapply sound_bind; [done|apply reads_job|]. intros o Ho. destruct o as [d|]; [|by apply sound_raise].
  eapply sound_bind; [done|apply reads_clock|]. intros now _.
  case_match; [by apply sound_raise|].
  destruct (claim_current _ _ _) eqn:Hc; simpl; [|by apply sound_raise].
  eapply sound_bind; [done|apply reads_snapshot|]. intros content Hval.
  eapply sound_bind; [done|apply reads_deliveries_where|]. intros all Hall.
  rewrite keep_all in Hall.
  eapply sound_bind; [done|apply reads_staged|]. intros e ->.
  apply sound_write; [done|solve_respects|]. intros s' Hdata Hi.
  rewrite Hall, stream_length in Hdata.
  eapply (ps_finalize _ _ _ id d artifact content); try done; [by eapply current_runs|].
  by intros ->.
Qed.

(** A delivery is written by its worker, then its event logged. *)
Lemma delivery_event_sound s id d f name fields :
  plane_ok s -> fs_deliveries s !! id = Some d ->
  delivery_step config (dd_delivery d) (f (dd_delivery d)) ->
  sound s s (_ ← write (set_delivery id (on_delivery f d)); event id name fields).
Proof.
  intros Hok Hd Hstep. apply sound_delivery; [done..|]. intros s' Hs'.
  apply sound_event; [done|]. rewrite Hs'. by eapply delivery_has_job.
Qed.

Lemma claim_delivery_sound s : plane_ok s -> sound s s (claim_delivery config).
Proof.
  intros Hok0. eapply sound_bind; [done|apply reads_clock|]. intros now _.
  eapply sound_then; [by apply reclaim_expired_deliveries_sound|].
  intros _ s1 Hev. pose proof (evolves_plane_ok _ _ Hok0 Hev) as Hok. clear s Hok0 Hev.
  eapply sound_bind; [done|apply reads_deliveries_where|]. intros docs Hdocs.
  destruct (first_least _ _) as [d|] eqn:Hd; [|by apply sound_ret].
  apply first_least_in, in_filter in Hd as [Hd Hdel]. rewrite Hdocs in Hd.
  apply in_filter in Hd as [Hd Hp%bool_decide_eq_true]. apply stream_elem in Hd as [k Hk]. cbv zeta.
  rewrite (delivery_named config s1 k d Hok Hk).
  apply andb_true_iff in Hdel as [Hf%bool_decide_eq_true _].
  eapply sound_bind; [done|apply reads_job|]. intros o Ho. destruct o as [job|]; [|by apply sound_raise].
  apply sound_draw; [done|]. intros x s3 Has Hdata Hdrawn.
  apply sound_write_then; [done|solve_respects| |].
  - intros s' Hs' Hi. eapply (ps_claim_delivery _ _ _ k d x (f_add now (pf_claim_lease_seconds config))); try done.
    + destruct Hdrawn as (n & -> & ?). exists n. split; [done|lia].
    + rewrite Hs'. apply data_eq in Hdata as (Hj & He & Hc & Hdl).
      unfold data, set_delivery. cbn [fs_jobs fs_events fs_decisions fs_deliveries set_field]. congruence.
  - eapply sound_bind; [done|apply reads_lift|]. intros c _. by apply sound_ret.
Qed.

Lemma mark_delivered_sound s id token : plane_ok s -> sound s s (mark_delivered id token).
Proof.
  intros Hok. eapply sound_bind; [done|apply reads_delivery|]. intros o Ho.
  eapply sound_bind; [done|apply reads_clock|]. intros now _.
  destruct o as [d|]; [|by apply sound_raise].
  destruct (delivery_current _ _ _) eqn:Hc; [|by apply sound_raise].
  apply delivery_event_sound; [done..|]. apply ds_sent. by eapply delivery_current_sending.
Qed.

Lemma renew_delivery_sound s id token : sound s s (renew_delivery config id token).
Proof.
  eapply sound_bind; [done|apply reads_delivery|]. intros o Ho.
  eapply sound_bind; [done|apply reads_clock|]. intros now _.
  destruct o as [d|]; [|by apply sound_raise].
  destruct (delivery_current _ _ _) eqn:Hc; [|by apply sound_raise].
  apply sound_last, sound_delivery; [done| |by intros; apply sound_ret].
  apply ds_renew. by eapply delivery_current_sending.
Qed.

Lemma release_delivery_sound s id token : plane_ok s -> sound s s (release_delivery id token).
Proof.
  intros Hok. eapply sound_bind; [done|apply reads_delivery|]. intros o Ho.
  destruct o as [d|]; [|by apply sound_raise].
  destruct (delivery_held _ _) eqn:Hc; [|by apply sound_raise].
  apply delivery_event_sound; [done..|]. apply ds_release. by eapply delivery_held_sending.
Qed.

Lemma retry_delivery_sound s id token error :
  plane_ok s -> sound s s (retry_delivery config id token error).
Proof.
  intros Hok. eapply sound_bind; [done|apply reads_delivery|]. intros o Ho.
  destruct o as [d|]; [|by apply sound_raise].
  destruct (delivery_held _ _) eqn:Hc; simpl; [|by apply sound_raise].
  apply delivery_held_sending in Hc. destruct (_ <=? _) eqn:Hmax.
  - apply sound_delivery; [done|apply ds_give_up; [done|lia]|]. intros s' Hs'.
    apply sound_event_then. rewrite Hs'. by eapply delivery_has_job.
  - eapply sound_bind; [done|apply reads_clock|]. intros now _.
    eapply sound_bind; [done|apply reads_lift|]. intros delay _.
    apply sound_delivery; [done|apply ds_reschedule; [done|lia]|]. intros s' Hs'.
    apply sound_event_then. rewrite Hs'. by eapply delivery_has_job.
Qed.
End workers.
