(* ===== verification/FirestoreProps.v ===== *)
(** What the Firestore control plane promises over any history of operations, with
    any requests refused or their answers lost: the database stays well formed,
    what is settled never changes, a worker that lost its claim can do nothing
    more, and a create request can be repeated. *)
From Stdlib Require Import ZArith Lia.
From stdpp Require Import prelude strings list gmap relations.
From S2P Require Import Prelude PyText Float64 Tools Domain World Approvals ControlPlane FirestorePlane Lifecycle FirestoreSteps.
Local Open Scope Z_scope.

(** A job or a delivery with nothing left to do. *)
Definition settled (j : Job) : bool :=
  has_status I_COMPLETED j || negb (bool_decide (jb_failure_reason j = None)).

Definition settled_delivery (d : Delivery) : bool :=
  bool_decide (dl_status d = "SENT") || negb (bool_decide (dl_failure_reason d = None)).

(** What the holder of a claim may ask about its job. *)
Definition under_claim (id token : string) (op : PlaneOp) : Prop :=
  match op with
  | op_renew_running i t | op_reserve_incident i t | op_mark_paused i _ t
  | op_requeue_running i t | op_retry_running i t _ | op_finalize i _ t => i = id /\ t = token
  | _ => False
  end.

Section histories.
Context `{FirestoreLaws} `{FreshIds} `{PlaneClock} `{Artifacts} (config : PlaneConfig).
Hypothesis replay_attempts_positive : 0 < pf_max_replay_attempts config.
Hypothesis delivery_attempts_positive : 0 < pf_max_delivery_attempts config.
Notation evolves := (rtc (plane_step config)).
Notation plane_ok := (plane_ok config).
Notation ask := (@ask Store (firestore_plane config)).
Notation history := (@history Store (firestore_plane config)).

Lemma sound_after {A} s (m : ST Store exn A) : sound config s s m -> evolves s (m s).2.
Proof. intros Hm. specialize (Hm s (as_of_refl s)). by destruct (m s) as [[]]. Qed.

Lemma ask_evolves op s : plane_ok s -> evolves s (ask op s).2.
Proof.
  intros Hok. destruct op; apply sound_after;
    eauto using create_sound, status_sound, events_sound, decide_sound, report_sound,
      renew_running_sound, reserve_incident_sound, scenario_status_sound, incident_id_for_sound,
      claim_next_sound, mark_paused_sound, requeue_running_sound, retry_running_sound,
      finalize_sound, claim_delivery_sound, mark_delivered_sound, renew_delivery_sound,
      release_delivery_sound, retry_delivery_sound.
Qed.

Lemma history_evolves ops : forall s, plane_ok s -> evolves s (history ops s).
Proof.
  induction ops as [|op ops IH]; intros s Hok; [done|]. simpl.
  pose proof (ask_evolves op s Hok) as Hop. etrans; [exact Hop|].
  apply IH. by eapply evolves_ok.
Qed.

Lemma empty_store_ok : plane_ok empty_store.
Proof. split; [split|split| |]; try done; intros ? ? [? ?]; set_solver. Qed.

Lemma history_ok ops s : plane_ok s -> plane_ok (history ops s).
Proof. intros Hok. eapply evolves_ok; [done..|by apply history_evolves]. Qed.

(** What every step keeps, a history keeps. *)
Lemma history_stable (P : Store -> Prop) ops s :
  (forall s s', plane_ok s -> P s -> plane_step config s s' -> P s') ->
  plane_ok s -> P s -> P (history ops s).
Proof.
  intros Hstep Hok HP. pose proof (history_evolves ops s Hok) as Hev.
  induction Hev as [|s1 s2 s3 H12 H23 IH]; [done|]. apply IH; [|by eapply Hstep].
  by eapply plane_step_ok.
Qed.

(** * What is settled *)

(** What a later database has of an earlier one: settled jobs and deliveries, the
    owners' decisions and the events, unchanged. *)
Record extends (s s' : Store) : Prop := {
  ex_jobs : forall id d, fs_jobs s !! id = Some d -> settled (jd_job d) = true ->
              fs_jobs s' !! id = Some d;
  ex_deliveries : forall id d, fs_deliveries s !! id = Some d ->
              settled_delivery (dd_delivery d) = true -> fs_deliveries s' !! id = Some d;
  ex_decisions : forall id c, fs_decisions s !! id = Some c -> fs_decisions s' !! id = Some c;
  ex_events : forall id k e, events_of id s !! k = Some e -> events_of id s' !! k = Some e;
}.

#[local] Instance extends_preorder : PreOrder extends.
Proof.
  split; [by intros s; split|]. intros s1 s2 s3 [] []. split; eauto.
Qed.

Lemma extends_data s s' t : data s' = data t -> extends s t -> extends s s'.
Proof.
  intros (Hj & He & Hc & Hd)%data_eq []. split; unfold events_of; rewrite ?Hj, ?He, ?Hc, ?Hd; done.
Qed.

Lemma extends_job s id d : 
  (forall d0, fs_jobs s !! id = Some d0 -> settled (jd_job d0) = false) ->
  extends s (set_job id d s).
Proof.
  intros Hno. split; try done. intros i x Hx Hs. cbn. rewrite lookup_insert_ne; [done|].
  intros <-. specialize (Hno x Hx). congruence.
Qed.

Lemma extends_delivery s id d : 
  (forall d0, fs_deliveries s !! id = Some d0 -> settled_delivery (dd_delivery d0) = false) ->
  extends s (set_delivery id d s).
Proof.
  intros Hno. split; try done. intros i x Hx Hs. cbn. rewrite lookup_insert_ne; [done|].
  intros <-. specialize (Hno x Hx). congruence.
Qed.

Lemma extends_decision s id c : fs_decisions s !! id = None -> extends s (set_decision id c s).
Proof.
  intros Hno. split; try done. intros i x Hx. cbn. rewrite lookup_insert_ne; [done|].
  intros <-. congruence.
Qed.

Lemma extends_log s id name fields :
  numbered_from_zero (events_of id s) -> extends s (log_event id name fields s).
Proof.
  intros Hnum. split; try done. intros i k e. unfold log_event, set_event, events_of at 2.
  cbn [fs_events set_field]. destruct (decide (id = i)) as [<-|Hne].
  - rewrite lookup_insert_eq. simpl. intros Hk. rewrite lookup_insert_ne; [done|].
    intros <-. assert (Hs : is_Some (events_of id s !! Z.of_nat (size (events_of id s)))) by eauto.
    apply Hnum in Hs. lia.
  - by rewrite lookup_insert_ne.
Qed.

Lemma running_unsettled s id d :
  plane_ok s -> fs_jobs s !! id = Some d -> runs d -> settled (jd_job d) = false.
Proof.
  intros Hok Hd Hr. destruct (status_running _ _ _ _
    (jo_status _ _ _ _ _ (jk_job _ _ _ (po_jobs _ _ Hok) id d Hd)) Hr) as [Hf _].
  unfold settled. rewrite Hf, bool_decide_true by done.
  by rewrite (excl_completed I_RUNNING _ Hr).
Qed.

Lemma step_extends s s' : plane_ok s -> plane_step config s s' -> extends s s'.
Proof.
  intros Hok Hstep.
  assert (Hnum : forall id, numbered_from_zero (events_of id s))
    by (intros; eapply events_ok_numbered, Hok).
  destruct Hstep as [Hd Hi|id owner r key Hdr Hk Hd|id d token e Hj Hq Hf Hdr Hno Hd
    |id d j Hj Hs Hi Hd|id name fields Hj Hi Hd|id d c Hj Hr Hc Hi Hd
    |id d c dec Hj Hp Hcp Hc Hn Hi Hd|id d a c Hj Hr Ha Hv Hi Hd
    |id d token e Hj Hp Hf Hdr Hd|id d x Hj Hs Hi Hd]; eapply extends_data; try exact Hd; clear Hd.
  - done.
  - etrans; [apply extends_job|apply extends_log, Hnum].
    rewrite (drawn_fresh _ _ _ _ Hok Hdr). done.
  - apply extends_job. intros d0 Hd0. assert (d0 = d) as -> by congruence. unfold settled.
    rewrite Hf, bool_decide_true by done. by rewrite (excl_completed I_QUEUED).
  - apply extends_job. intros d0 Hd0. assert (d0 = d) as -> by congruence. eapply running_unsettled; [done..|]. unfold runs. by destruct Hs.
  - apply extends_log, Hnum.
  - etrans; [apply extends_job|apply extends_log, Hnum].
    intros d0 Hd0. assert (d0 = d) as -> by congruence. by eapply running_unsettled.
  - etrans; [by eapply extends_decision|etrans; [apply extends_job|apply extends_log, Hnum]].
    intros d0 Hd0. cbn in Hd0. assert (d0 = d) as -> by congruence. unfold settled.
    rewrite (excl_completed I_PAUSED_APPROVAL) by done. simpl.
    pose proof (jo_status _ _ _ _ _ (jk_job _ _ _ (po_jobs _ _ Hok) id d Hj)) as Hst.
    unfold status_ok in Hst. rewrite (has_status_of_value _ _ Hp) in Hst.
    destruct Hst as (_ & [Hf _] & _). by rewrite Hf.
  - etrans; [apply extends_job|etrans; [apply extends_delivery|apply extends_log, Hnum]].
    + intros d0 Hd0. assert (d0 = d) as -> by congruence. by eapply running_unsettled.
    + intros d0 Hd0. cbn in Hd0.
      destruct (vk_job _ _ _ _ (po_deliveries _ _ Hok) id d0 Hd0) as (j & [Hj' Hcomp] & _).
      assert (d = j) as <- by congruence. by rewrite (excl_completed I_RUNNING _ Hr) in Hcomp.
  - apply extends_delivery. intros d0 Hd0. assert (d0 = d) as -> by congruence. unfold settled_delivery.
    by rewrite Hf, Hp.
  - apply extends_delivery. intros d0 Hd0. assert (d0 = d) as -> by congruence. unfold settled_delivery.
    assert (Hsend : dl_status (dd_delivery d) = "SENDING") by (by destruct Hs). rewrite Hsend.
    destruct (do_status _ _ _ _ _ (vk_delivery _ _ _ _ (po_deliveries _ _ Hok) id d Hj))
      as [[? _]|[(_ & _ & ->)|[? _]]]; [congruence|done|congruence].
Qed.

(** * Who a job belongs to *)

(** A job keeps its owner and its key. *)
Definition belongs (id owner : string) (key : option string) (s : Store) : Prop :=
  exists d, fs_jobs s !! id = Some d /\ jb_owner (jd_job d) = owner
            /\ jb_idempotency_key (jd_job d) = key.

Lemma belongs_insert s t i x id owner key :
  belongs id owner key s -> fs_jobs t = <[i := x]> (fs_jobs s) ->
  (forall d, fs_jobs s !! i = Some d -> jb_owner (jd_job x) = jb_owner (jd_job d)
     /\ jb_idempotency_key (jd_job x) = jb_idempotency_key (jd_job d)) ->
  belongs id owner key t.
Proof.
  intros (d & Hd & Ho & Hk) Ht Hx. destruct (decide (i = id)) as [->|Hne].
  - exists x. destruct (Hx d Hd) as [-> ->]. by rewrite Ht, lookup_insert_eq.
  - exists d. by rewrite Ht, lookup_insert_ne.
Qed.

Lemma belongs_step id owner key s s' :
  plane_ok s -> belongs id owner key s -> plane_step config s s' -> belongs id owner key s'.
Proof.
  intros Hok Hb Hstep.
  assert (Hsame : forall t, data s' = data t -> belongs id owner key t -> belongs id owner key s').
  { intros t (Hj & _)%data_eq. unfold belongs. by rewrite Hj. }
  destruct Hstep as [Hd Hi|i owner' r key' Hdr Hk Hd|i d token e Hj Hq Hf Hdr Hno Hd
    |i d j Hj Hs Hi Hd|i name fields Hj Hi Hd|i d c Hj Hr Hc Hi Hd
    |i d c dec Hj Hp Hcp Hc Hn Hi Hd|i d a c Hj Hr Ha Hv Hi Hd
    |i d token e Hj Hp Hf Hdr Hd|i d x Hj Hs Hi Hd]; apply (Hsame _ Hd); clear Hsame Hd; try exact Hb.
  all: eapply belongs_insert; [exact Hb|reflexivity|]; intros d0 Hd0.
  { by rewrite (drawn_fresh _ _ _ _ Hok Hdr) in Hd0. }
  all: assert (d0 = d) as -> by congruence; by try destruct Hs.
Qed.

(** * Claims *)

(** A token of the past that is not the job's token. *)
Definition lost_token (id : string) (n : nat) (s : Store) : Prop :=
  (n < fs_ids s)%nat
  /\ forall d, fs_jobs s !! id = Some d -> jb_claim_token (jd_job d) <> Some (uuid_hex n).

Lemma lost_token_insert s s' t i x id n :
  lost_token id n s -> data s' = data t -> fs_jobs t = <[i := x]> (fs_jobs s) ->
  (fs_ids s <= fs_ids s')%nat ->
  (forall d, fs_jobs s !! i = Some d -> jb_claim_token (jd_job x) = jb_claim_token (jd_job d))
  \/ jb_claim_token (jd_job x) <> Some (uuid_hex n) ->
  (is_Some (fs_jobs s !! i) \/ jb_claim_token (jd_job x) <> Some (uuid_hex n)) ->
  lost_token id n s'.
Proof.
  intros [Hn Hlost] (Hj & _)%data_eq Ht Hi Hx Hthere. split; [lia|]. intros d.
  rewrite Hj, Ht. intros [[<- <-]|[Hne Hd]]%lookup_insert_Some; [|by apply Hlost].
  destruct Hx as [Hx|Hx]; [|done]. destruct Hthere as [[d Hd]|?]; [|done].
  rewrite (Hx d Hd). by apply Hlost.
Qed.

Lemma plane_step_ids s s' : plane_step config s s' -> (fs_ids s <= fs_ids s')%nat.
Proof.
  intros []; try done; match goal with Hd : drawn _ _ _ |- _ => destruct Hd as (? & ? & ?) end; lia.
Qed.

Lemma lost_token_step id n s s' :
  plane_ok s -> lost_token id n s -> plane_step config s s' -> lost_token id n s'.
Proof.
  intros Hok Hlost Hstep.
  pose proof (plane_step_ids _ _ Hstep) as Hids.
  assert (Hsame : forall t, data s' = data t -> fs_jobs t = fs_jobs s -> lost_token id n s').
  { destruct Hlost as [? ?]. intros t (Hj & _)%data_eq Ht. split; [lia|]. by rewrite Hj, Ht. }
  assert (Hdrawn : forall x, drawn x s s' -> Some x <> Some (uuid_hex n)).
  { destruct Hlost as [Hn _]. intros x (k & -> & ?). intros [= ?%uuid_hex_inj]. lia. }
  destruct Hstep as [Hd Hi|i owner r key Hdr Hk Hd|i d token e Hj Hq Hf Hdr Hno Hd
    |i d j Hj Hs Hi Hd|i name fields Hj Hi Hd|i d c Hj Hr Hc Hi Hd
    |i d c dec Hj Hp Hcp Hc Hn Hi Hd|i d a c Hj Hr Ha Hv Hi Hd
    |i d token e Hj Hp Hf Hdr Hd|i d x Hj Hs Hi Hd].
  all: try (eapply Hsame; [exact Hd|done]).
  all: eapply lost_token_insert; [done|exact Hd|reflexivity|done| |]; try (by right).
  all: try (left; by eexists).
  - right. simpl. by apply Hdrawn.
  - inversion Hs; subst j; try (by right); left; intros d0 Hd0; by assert (d0 = d) as -> by congruence.
  - left. intros d0 Hd0. by assert (d0 = d) as -> by congruence.
Qed.

(** What is asked under a claim that is not the job's changes nothing. *)
Definition refused (r : Answer * Store) (s : Store) : Prop :=
  is_answer r.1 = false /\ data r.2 = data s.

Lemma refused_by {A} (into : res A -> Answer) (m : ST Store exn A) s :
  (forall e, is_answer (into (Err e)) = false) ->
  triple (as_of s) m (fun _ _ => False) (fun _ => as_of s) ->
  refused (answered into m s) s.
Proof.
  intros Hinto Hm. specialize (Hm s (as_of_refl s)). unfold refused, answered.
  destruct (m s) as [[a|e] s']; [done|]. simpl. split; [apply Hinto|by destruct Hm].
Qed.

Lemma reads_refuse {A B} s (m : ST Store exn A) (k : A -> ST Store exn B) F :
  reads s m F ->
  (forall a, F a -> triple (as_of s) (k a) (fun _ _ => False) (fun _ => as_of s)) ->
  triple (as_of s) (m ≫= k) (fun _ _ => False) (fun _ => as_of s).
Proof.
  intros Hm Hk s' Hs. specialize (Hm s' Hs). unfold mbind, ST_bind.
  destruct (m s') as [[a|e] s'']; [|done]. destruct Hm as [HF Hs']. by apply (Hk a HF).
Qed.

Lemma lost_not_held token j : jb_claim_token j <> Some token -> claim_held token j = false.
Proof. intros Hne. unfold claim_held. by rewrite (bool_decide_false _ Hne), andb_false_r. Qed.

Lemma lost_not_current token now j :
  jb_claim_token j <> Some token -> claim_current token now j = false.
Proof. intros Hne. unfold claim_current. by rewrite (bool_decide_false _ Hne), andb_false_r. Qed.

Lemma lost_token_refused op s id n :
  lost_token id n s -> under_claim id (uuid_hex n) op -> refused (ask op s) s.
Proof.
  intros [_ Hlost] Hop. destruct op; simpl in Hop; try done; destruct Hop as [-> ->]; (apply refused_by; [done|]).
  all: try (unfold mark_paused, finalize; case_decide; [by apply triple_raise|]).
  all: eapply reads_refuse; [apply reads_job|]; intros o ->.
  all: try (destruct (fs_jobs s !! id) as [d|] eqn:Hd; [|by apply triple_raise]).
  all: try (eapply reads_refuse; [apply reads_clock|]; intros now _).
  all: try (destruct (fs_jobs s !! id) as [d|] eqn:Hd; [|by apply triple_raise]).
  all: try (destruct (has_status I_COMPLETED _); [by apply triple_raise|]).
  all: rewrite ?lost_not_current, ?lost_not_held by (by apply Hlost); by apply triple_raise.
Qed.

(** * Asking twice *)

Definition keyed (owner key : string) (j : Job) : bool :=
  bool_decide (jb_owner j = owner) && bool_decide (jb_idempotency_key j = Some key).

Lemma create_found s owner key docs :
  docs = List.filter (fun d => bool_decide (jb_owner (jd_job d) = owner)) (stream (fs_jobs s)) ->
  forall d, List.find (fun d => bool_decide (jb_idempotency_key (jd_job d) = Some key)) docs = Some d ->
  exists id, fs_jobs s !! id = Some d /\ keyed owner key (jd_job d) = true.
Proof.
  intros -> d [Hin Hk]%find_some. apply list_elem_of_In, in_filter in Hin as [Hin Ho].
  apply stream_elem in Hin as [id Hid]. exists id. split; [done|]. unfold keyed. by rewrite Ho, Hk.
Qed.

Lemma keyed_belongs owner key j :
  keyed owner key j = true -> jb_owner j = owner /\ jb_idempotency_key j = Some key.
Proof. by intros [?%bool_decide_eq_true ?%bool_decide_eq_true]%andb_true_iff. Qed.

Lemma job_view s id d :
  plane_ok s -> fs_jobs s !! id = Some d ->
  exists st, view_of (jd_job d) = Ok {| iw_investigation_id := id; iw_status := st |}.
Proof.
  intros Hok Hd. destruct (jk_job _ _ _ (po_jobs _ _ Hok) id d Hd) as [Hid _ _ _ Hst].
  unfold view_of. rewrite Hid. destruct (jb_failure_reason _); [by eexists|].
  unfold status_ok in Hst. destruct (of_value _); [by eexists|done].
Qed.

Lemma reads_Ok {A} s (m : ST Store exn A) F s0 a s' :
  reads s m F -> as_of s s0 -> m s0 = (Ok a, s') -> F a /\ as_of s s'.
Proof. intros Hm Hs Heq. specialize (Hm s0 Hs). by rewrite Heq in Hm. Qed.

(** A create that returns has its job in the database. *)
Lemma create_stores s owner r key v s1 :
  plane_ok s -> create owner r key s = (Ok v, s1) ->
  belongs (iw_investigation_id v) owner (Some key) s1.
Proof.
  intros Hok. unfold create. intros (docs & s2 & Hdocs & Hrest)%ST_bind_Ok.
  eapply (reads_Ok s) in Hdocs as [Hdocs [(Hjobs & _)%data_eq _]]; [|apply reads_jobs_where|apply as_of_refl].
  destruct (List.find _ docs) as [d|] eqn:Hfind.
  - destruct (create_found s owner key _ Hdocs d Hfind) as (id & Hd & Hkey%keyed_belongs).
    destruct (job_view s id d Hok Hd) as [st Hv]. rewrite Hv in Hrest.
    unfold lift_result in Hrest. simplify_eq. exists d. by rewrite Hjobs.
  - apply ST_bind_Ok in Hrest as (id & s3 & _ & (all & s4 & _ & Hrest)%ST_bind_Ok).
    apply ST_bind_Ok in Hrest as (e & s5 & _ & ([] & s6 & Hwrite & Hret)%ST_bind_Ok).
    unfold mret, ST_ret in Hret. simplify_eq. unfold write, request in Hwrite.
    destruct (reply _); simplify_eq. eexists. simpl. by rewrite lookup_insert_eq.
Qed.

Lemma bind_at {A B} (m : ST Store exn A) (k : A -> ST Store exn B) s :
  (m ≫= k) s = match m s with (Ok a, s') => k a s' | (Err e, s') => (Err e, s') end.
Proof. done. Qed.

(** The job of a key answers for it. *)
Lemma create_again s owner r key id :
  plane_ok s -> belongs id owner (Some key) s ->
  data (create owner r key s).2 = data s
  /\ ((create owner r key s).1 = Err google_error
      \/ exists st, (create owner r key s).1 = Ok {| iw_investigation_id := id; iw_status := st |}).
Proof.
  intros Hok (d & Hd & Ho & Hk). unfold create. rewrite !bind_at.
  pose proof (reads_jobs_where s (fun j => bool_decide (jb_owner j = owner)) s (as_of_refl s)) as Hr.
  destruct (jobs_where _ s) as [[docs|e] s2] eqn:Hwhere.
  - destruct Hr as [Hdocs [Hdata _]]. destruct (List.find _ docs) as [d'|] eqn:Hfind.
    + destruct (create_found s owner key _ Hdocs d' Hfind) as (i & Hi & [Ho' Hk']%keyed_belongs).
      assert (i = id) as ->.
      { apply (jk_apart _ _ _ (po_jobs _ _ Hok) _ _ d' d Hi Hd). right. right. unfold same_key.
        rewrite Hk'. split_and!; [congruence..|by eexists]. }
      destruct (job_view s id d' Hok Hi) as [st Hv]. rewrite Hv. split; [done|]. right. by exists st.
    + apply List.find_none with (x := d) in Hfind; [by apply bool_decide_eq_false in Hfind|].
      rewrite Hdocs. apply filter_In. split; [|by apply bool_decide_eq_true].
      apply list_elem_of_In, stream_elem. by eexists.
  - destruct Hr as [Hdata _]. split; [done|left]. simpl.
    unfold jobs_where, query, request in Hwhere. by destruct (reply _); simplify_eq/=.
Qed.

Lemma history_app before after s : history (before ++ after) s = history after (history before s).
Proof. apply fold_left_app. Qed.

(** C4: the database stays well formed. Whatever is asked, and whichever requests
    Firestore refuses or carries out without answering, every job and delivery keeps
    its status invariant, at most one job runs, sequences and idempotency keys tell
    jobs apart, events are numbered from zero, and deliveries and decisions belong to
    jobs they fit. *)
Theorem plane_history_ok ops : plane_ok (history ops empty_store).
Proof. apply history_ok, empty_store_ok. Qed.

(** C36: what is settled is final. A completed or failed job, a sent or failed
    delivery, an owner's decision and a timeline event never change again, whatever
    is asked later and whichever requests fail. *)
Theorem settled_is_final before after :
  extends (history before empty_store) (history (before ++ after) empty_store).
Proof.
  rewrite history_app. set (s := history before empty_store).
  assert (Hok : plane_ok s) by apply history_ok, empty_store_ok.
  apply (history_stable (extends s)); [|done|done].
  intros s1 s2 Hok1 Hex Hstep. etrans; [exact Hex|by apply step_extends].
Qed.

(** C19: a lost claim has no power. Once a worker's token is no longer the job's, every
    operation made under it is refused and leaves the stored data alone, at any later
    time: tokens are not drawn twice, and no operation gives a token back. *)
Theorem lost_claim_powerless before after id n op :
  let s := history before empty_store in
  let s' := history after s in
  lost_token id n s -> under_claim id (uuid_hex n) op -> refused (ask op s') s'.
Proof.
  intros s s' Hlost. apply lost_token_refused. apply (history_stable (lost_token id n)).
  - intros. by eapply lost_token_step.
  - apply history_ok, empty_store_ok.
  - exact Hlost.
Qed.

(** A create request can be repeated. After a create that returned, the same owner
    and key get the same investigation, at any later time and whatever else the
    request says, and asking again changes no document. *)
Theorem create_idempotent before owner r r' key v s1 after :
  create owner r key (history before empty_store) = (Ok v, s1) ->
  let s2 := history after s1 in
  data (create owner r' key s2).2 = data s2
  /\ ((create owner r' key s2).1 = Err google_error
      \/ exists st, (create owner r' key s2).1
                   = Ok {| iw_investigation_id := iw_investigation_id v; iw_status := st |}).
Proof.
  set (s := history before empty_store). intros Hcreate s2.
  assert (Hok : plane_ok s) by apply history_ok, empty_store_ok.
  assert (Hok1 : plane_ok s1).
  { pose proof (ask_evolves (op_create owner r key) s Hok) as Hev. simpl in Hev.
    unfold answered in Hev. rewrite Hcreate in Hev. by eapply evolves_ok. }
  apply create_again; [by apply history_ok|].
  apply (history_stable (belongs (iw_investigation_id v) owner (Some key))); [|done|].
  - intros. by eapply belongs_step.
  - exact (create_stores s owner r key v s1 Hok Hcreate).
Qed.
End histories.
