(* ===== verification/SqlitePlane.v ===== *)
(** The SQLite-backed replay control plane (api_runtime.py,
    [SqliteReplayControlPlane]): jobs, their events, the mirrored owner decisions
    and the delivery outbox in one database, and the owner decisions themselves in
    the checkpoint database.

    [Tables] is the control-plane database, its rows in rowid order.  An operation
    is one transaction: [transaction] gives its body the tables, commits when the
    body returns and rolls back when it raises; what it did to the ledger of owner
    decisions, another database, stays.  Any statement may raise [sqlite3.Error];
    [plane_statement_fails] says which do.  One operation follows another: the
    transactions that start with BEGIN IMMEDIATE exclude each other, and the others
    are a single change after what they read.  Times are numbers: [time.time()]
    gives no NaN, which SQLite would store as NULL.  An event's fields are kept as
    the value their JSON text stands for. *)
From Stdlib Require Import ZArith Lia.
From stdpp Require Import prelude strings list.
From S2P Require Import Prelude PyText Float64 Tools Domain Sqlite Approvals ControlPlane FirestorePlane.
Local Open Scope Z_scope.

(** * The database *)

Record Tables := {
  sq_jobs : list Job;
  sq_events : list (string * TimelineEvent);
  sq_decisions : list (string * Decision);
  sq_deliveries : list Delivery;
}.

Record Plane := {
  sp_tables : Tables;
  sp_ledger : Connection DecisionRecord;
  sp_statements : nat;
  sp_ids : nat;
  sp_ticks : nat;
  sp_reads : nat;
  sp_decided : nat;
}.

#[export] Instance settable_Tables : Settable Tables := fun t =>
  {| sq_jobs := sq_jobs t; sq_events := sq_events t; sq_decisions := sq_decisions t;
     sq_deliveries := sq_deliveries t |}.
#[export] Instance settable_Plane : Settable Plane := fun s =>
  {| sp_tables := sp_tables s; sp_ledger := sp_ledger s; sp_statements := sp_statements s;
     sp_ids := sp_ids s; sp_ticks := sp_ticks s; sp_reads := sp_reads s;
     sp_decided := sp_decided s |}.

Definition empty_plane (ledger : list DecisionRecord) : Plane :=
  {| sp_tables := {| sq_jobs := []; sq_events := []; sq_decisions := []; sq_deliveries := [] |};
     sp_ledger := {| db_saved := Some ledger; db_open := None; db_statements := 0 |};
     sp_statements := 0; sp_ids := 0; sp_ticks := 0; sp_reads := 0; sp_decided := 0 |}.

Class PlaneStatements := plane_statement_fails : nat -> bool.

(** The moments [utc_now()] gives the ledger. *)
Class LedgerClock := ledger_time : nat -> Z.

Notation PlaneM := (ST Plane exn).

Section plane.
Context `{PlaneStatements} `{Sqlite} `{Host} `{PlaneClock} `{LedgerClock} `{Artifacts}.
Variable config : PlaneConfig.

(** * Statements *)

Definition statement {A} (f : Tables -> res (A * Tables)) : PlaneM A := fun s =>
  let s' := s <| sp_statements := S (sp_statements s) |> in
  if plane_statement_fails (sp_statements s) then (Err sqlite_error, s')
  else match f (sp_tables s) with
       | Ok (a, t) => (Ok a, s' <| sp_tables := t |>)
       | Err e => (Err e, s')
       end.

Definition read {A} (f : Tables -> A) : PlaneM A := statement (fun t => Ok (f t, t)).

Definition begin_immediate_ : PlaneM unit := read (fun _ => tt).

(** [with self._connection() as connection] *)
Definition transaction {A} (body : PlaneM A) : PlaneM A := fun s =>
  match (a ← body; _ ← read (fun _ => tt); mret a) s with
  | (Ok a, s') => (Ok a, s')
  | (Err e, s') => (Err e, s' <| sp_tables := sp_tables s |>)
  end.

Definition read_time : PlaneM f64 := fun s =>
  (Ok (plane_time (sp_ticks s)), s <| sp_ticks := S (sp_ticks s) |>).

Definition fresh_hex : PlaneM string := fun s =>
  (Ok (uuid_hex (sp_ids s)), s <| sp_ids := S (sp_ids s) |>).

Definition with_id (id : string) (j : Job) : bool := bool_decide (jb_id j = id).

Definition delivers (id : string) (d : Delivery) : bool := bool_decide (dl_id d = id).

Definition change {A} (p : A -> bool) (f : A -> A) (rows : list A) : list A :=
  (fun x => if p x then f x else x) <$> rows.

(** [UPDATE ... WHERE p]: the number of rows it changed. *)
Definition update_jobs (p : Job -> bool) (f : Job -> Job) : PlaneM Z :=
  statement (fun t => Ok (count_if p (sq_jobs t), t <| sq_jobs := change p f (sq_jobs t) |>)).

Definition update_deliveries (p : Delivery -> bool) (f : Delivery -> Delivery) : PlaneM Z :=
  statement (fun t =>
    Ok (count_if p (sq_deliveries t), t <| sq_deliveries := change p f (sq_deliveries t) |>)).

(** The primary key, and the partial unique index over owners' keys. *)
Definition insert_job (j : Job) : PlaneM unit :=
  statement (fun t =>
    if existsb (with_id (jb_id j)) (sq_jobs t)
       || is_some (jb_idempotency_key j)
          && existsb (fun k => bool_decide (jb_owner k = jb_owner j)
                               && bool_decide (jb_idempotency_key k = jb_idempotency_key j)) (sq_jobs t)
    then Err integrity_error
    else Ok (tt, t <| sq_jobs := sq_jobs t ++ [j] |>)).

Definition insert_delivery (d : Delivery) : PlaneM unit :=
  statement (fun t =>
    if existsb (delivers (dl_id d)) (sq_deliveries t) then Err integrity_error
    else Ok (tt, t <| sq_deliveries := sq_deliveries t ++ [d] |>)).

Definition insert_decision (id : string) (d : Decision) : PlaneM unit :=
  statement (fun t =>
    if existsb (fun r => bool_decide (r.1 = id)) (sq_decisions t) then Err integrity_error
    else Ok (tt, t <| sq_decisions := sq_decisions t ++ [(id, d)] |>)).

Definition job_row (p : Job -> bool) : PlaneM (option Job) := read (fun t => List.find p (sq_jobs t)).

Definition delivery_row (p : Delivery -> bool) : PlaneM (option Delivery) :=
  read (fun t => List.find p (sq_deliveries t)).

Definition decision_row (id : string) : PlaneM (option Decision) :=
  read (fun t => snd <$> List.find (fun r => bool_decide (r.1 = id)) (sq_decisions t)).

Definition job_rows (p : Job -> bool) : PlaneM (list Job) := read (fun t => List.filter p (sq_jobs t)).

Definition delivery_rows (p : Delivery -> bool) : PlaneM (list Delivery) :=
  read (fun t => List.filter p (sq_deliveries t)).

Definition job_events (id : string) (t : Tables) : list TimelineEvent :=
  snd <$> List.filter (fun r => bool_decide (r.1 = id)) (sq_events t).

(** [COALESCE(MAX(ordinal) + 1, 0)] *)
Definition next_ordinal (rows : list TimelineEvent) : Z :=
  match rows with
  | [] => 0
  | e :: rows => fold_left Z.max (te_ordinal <$> rows) (te_ordinal e) + 1
  end.

Definition event_ (id name : string) (fields : list (string * EventValue)) : PlaneM unit :=
  ordinal ← read (fun t => next_ordinal (job_events id t));
  statement (fun t =>
    if existsb (fun e => te_ordinal e =? ordinal) (job_events id t) then Err integrity_error
    else Ok (tt, t <| sq_events := sq_events t ++
      [(id, {| te_ordinal := ordinal; te_name := name; te_fields := fields |})] |>)).

(** * The ledger of owner decisions *)

Definition is_store_error (e : exn) : bool :=
  match e with CheckpointStoreError _ => true | _ => false end.

Definition on_ledger {A} (m : DecisionsM A) : PlaneM A := fun s =>
  let '(r, c) := m (sp_ledger s) in (r, s <| sp_ledger := c |>).

(** The body of [_decision_connection]: commit, or roll back and raise. *)
Definition ledger_transaction {A} (body : PlaneM A) : PlaneM A := fun s =>
  match (a ← body; _ ← on_ledger commit; mret a) s with
  | (Ok a, s') => (Ok a, s')
  | (Err e, s') => (Err e, s' <| sp_ledger := (sp_ledger s') <| db_open := None |> |>)
  end.

(** [with self._decision_connection() as connection] *)
Definition decision_connection {A} (body : PlaneM A) : PlaneM A :=
  _ ← try_except (on_ledger ensure_decisions_table)
        (fun e => raise (if is_sqlite_error e || is_store_error e then corrupt else e));
  ledger_transaction body.

Definition ledger_decision (id : string) : PlaneM (option DecisionRow) :=
  try_except (decision_connection (on_ledger (read_decision_for_thread id)))
    (fun e => raise (if is_store_error e then corrupt else e)).

Definition utc_now : PlaneM Z := fun s =>
  (Ok (ledger_time (sp_decided s)), s <| sp_decided := S (sp_decided s) |>).

(** A race for the primary key is settled by what the table holds. *)
Definition record_or_agree (id checkpoint_id : string) (decision : OwnerDecision) : PlaneM unit :=
  decided_at ← utc_now;
  try_except (on_ledger (record_decision_before_resume id checkpoint_id decision decided_at))
    (fun e =>
      if is_store_error e then
        existing ← on_ledger (read_decision_for_thread id);
        match existing with
        | Some row =>
            if bool_decide (dw_checkpoint_id row = checkpoint_id) && matches row decision
            then mret tt else raise conflict
        | None => raise conflict
        end
      else raise e).

Definition ensure_ledger_decision (id checkpoint_id : string) (decision : OwnerDecision)
    : PlaneM unit :=
  try_except
    (decision_connection (
      existing ← on_ledger (read_decision_for_thread id);
      match existing with
      | Some row =>
          if negb (bool_decide (dw_checkpoint_id row = checkpoint_id)) then raise corrupt
          else if negb (matches row decision) then raise conflict
          else mret tt
      | None => record_or_agree id checkpoint_id decision
      end))
    (fun e => raise (if is_store_error e then corrupt else e)).

Definition decision_from_row (d : Decision) : res OwnerDecision :=
  match decision_request (dc_decision d) (dc_rejection_note d) with
  | Ok d => Ok d
  | Err _ => Err corrupt
  end.

(** [isinstance(checkpoint_id, str) and checkpoint_id] *)
Definition stored_checkpoint (j : Job) : res string :=
  match jb_checkpoint_id j with
  | None => Err corrupt
  | Some c => if decide (c = "") then Err corrupt else Ok c
  end.

Definition mirror_of (checkpoint_id : string) (d : OwnerDecision) : Decision :=
  {| dc_checkpoint_id := checkpoint_id; dc_decision := value (od_decision d);
     dc_rejection_note := od_rejection_note d |}.

Definition decision_fields (checkpoint_id : string) (d : OwnerDecision) : list (string * EventValue) :=
  [("checkpoint_id", EStr checkpoint_id); ("decision", EStr (value (od_decision d)))].

(** One paused row of [_reconcile_durable_decisions]. *)
Definition reconcile_row (row : Job) : PlaneM unit :=
  let id := jb_id row in
  checkpoint_id ← lift_result (stored_checkpoint row);
  ledger ← ledger_decision id;
  match ledger with
  | None => mret tt
  | Some ledger =>
      if negb (bool_decide (dw_checkpoint_id ledger = checkpoint_id)) then raise corrupt
      else
        decision ← lift_result (owner_decision (dw_decision ledger) (dw_rejection_note ledger));
        mirrored ← decision_row id;
        _ ← match mirrored with
            | None => insert_decision id (mirror_of checkpoint_id decision)
            | Some mirrored =>
                if negb (bool_decide (dc_checkpoint_id mirrored = checkpoint_id)) then raise corrupt
                else
                  mirrored_decision ← lift_result (decision_from_row mirrored);
                  if negb (bool_decide (mirrored_decision = decision)) then raise corrupt else mret tt
            end;
        _ ← update_jobs (with_id id) decided_job;
        event_ id "owner_decision_recorded" (decision_fields checkpoint_id decision)
  end.

Fixpoint for_each {A} (f : A -> PlaneM unit) (rows : list A) : PlaneM unit :=
  match rows with
  | [] => mret tt
  | x :: rows => _ ← f x; for_each f rows
  end.

Definition reconcile_durable_decisions : PlaneM unit :=
  rows ← job_rows (has_status I_PAUSED_APPROVAL);
  for_each reconcile_row rows.

(** * Expired claims *)

(** [claim_expires_at IS NOT NULL AND claim_expires_at <= ?] *)
Definition expired (expires_at : option f64) (now : f64) : bool :=
  match expires_at with None => false | Some e => f_ge now e end.

(** [claim_expires_at > ?] *)
Definition unexpired (expires_at : option f64) (now : f64) : bool :=
  match expires_at with None => false | Some e => f_gt e now end.

Definition reclaim_job_row (now : f64) (row : Job) : PlaneM unit :=
  let id := jb_id row in
  let attempt := jb_attempt_count row + 1 in
  if pf_max_replay_attempts config <=? attempt then
    _ ← update_jobs (with_id id) (given_up attempt "retry_limit:lease_expired");
    event_ id "investigation_failed" (attempt_fields attempt)
  else
    delay ← lift_result (retry_delay config attempt);
    let retry_at := f_add now delay in
    _ ← update_jobs (with_id id) (rescheduled attempt retry_at);
    event_ id "investigation_lease_expired" (retry_fields attempt retry_at).

Definition reclaim_expired_investigations_ (now : f64) : PlaneM unit :=
  rows ← job_rows (fun j => has_status I_RUNNING j && expired (jb_claim_expires_at j) now);
  for_each (reclaim_job_row now) rows.

Definition reclaim_delivery_row (now : f64) (row : Delivery) : PlaneM unit :=
  let id := dl_id row in
  let attempt := dl_attempt_count row + 1 in
  if pf_max_delivery_attempts config <=? attempt then
    _ ← update_deliveries (delivers id) (given_up_delivery attempt "retry_limit:lease_expired");
    event_ id "report_delivery_failed" (attempt_fields attempt)
  else
    delay ← lift_result (retry_delay config attempt);
    let retry_at := f_add now delay in
    _ ← update_deliveries (delivers id) (rescheduled_delivery attempt retry_at);
    event_ id "report_delivery_lease_expired" (retry_fields attempt retry_at).

Definition reclaim_expired_deliveries_ (now : f64) : PlaneM unit :=
  rows ← delivery_rows (fun d => bool_decide (dl_status d = "SENDING")
                                 && expired (dl_claim_expires_at d) now);
  for_each (reclaim_delivery_row now) rows.

(** * What the owner asks for *)

Definition owned_row (owner_email id : string) : PlaneM Job :=
  row ← job_row (fun j => with_id id j && bool_decide (jb_owner j = owner_email));
  match row with None => raise not_found | Some j => mret j end.

Definition create_ (owner_email : string) (r : CreateInvestigationRequest)
    (idempotency_key : string) : PlaneM InvestigationView :=
  transaction (
    existing ← job_row (fun j => bool_decide (jb_owner j = owner_email)
                                 && bool_decide (jb_idempotency_key j = Some idempotency_key));
    match existing with
    | Some j => lift_result (view_of j)
    | None =>
        id ← fresh_hex;
        _ ← insert_job (queued_job id owner_email r idempotency_key);
        _ ← event_ id "investigation_queued" [("replay_only", EBool true)];
        mret {| iw_investigation_id := id; iw_status := I_QUEUED |}
    end).

Definition status_ (owner_email id : string) : PlaneM InvestigationView :=
  transaction (j ← owned_row owner_email id; lift_result (view_of j)).

Definition events_ (owner_email id : string) : PlaneM (list TimelineEvent) :=
  transaction (
    _ ← owned_row owner_email id;
    rows ← read (job_events id);
    mret (merge_sort ordinal_le rows)).

Definition decide_row (owner_email id : string) (decision : OwnerDecision)
    : PlaneM InvestigationView :=
  transaction (
    _ ← begin_immediate_;
    job ← owned_row owner_email id;
    prior ← decision_row id;
    match prior with
    | Some prior =>
        mirrored ← lift_result (decision_from_row prior);
        checkpoint_id ← lift_result (stored_checkpoint job);
        if negb (bool_decide (dc_checkpoint_id prior = checkpoint_id)) then raise corrupt
        else if negb (bool_decide (mirrored = decision)) then raise conflict
        else
          _ ← ensure_ledger_decision id checkpoint_id mirrored;
          lift_result (view_of job)
    | None =>
        if negb (has_status I_PAUSED_APPROVAL job) then raise conflict
        else
          checkpoint_id ← lift_result (stored_checkpoint job);
          _ ← ensure_ledger_decision id checkpoint_id decision;
          _ ← insert_decision id (mirror_of checkpoint_id decision);
          _ ← update_jobs (with_id id) decided_job;
          _ ← event_ id "owner_decision_recorded" (decision_fields checkpoint_id decision);
          mret {| iw_investigation_id := id; iw_status := I_QUEUED |}
    end).

Definition report_ (owner_email id : string) : PlaneM string :=
  job ← transaction (owned_row owner_email id);
  lift_result (read_report id job).

(** * What a worker asks for *)

Definition renew_running_ (id token : string) : PlaneM unit :=
  transaction (
    _ ← begin_immediate_;
    now ← read_time;
    updated ← update_jobs
      (fun j => with_id id j && claim_held token j && unexpired (jb_claim_expires_at j) now)
      (renewed (f_add now (pf_claim_lease_seconds config)));
    if negb (updated =? 1) then raise conflict else mret tt).

(** The guard of a row read under BEGIN IMMEDIATE. *)
Definition claimed_row (id token : string) (now : f64) (completed_conflicts : bool) : PlaneM Job :=
  row ← job_row (with_id id);
  match row with
  | None => raise not_found
  | Some j =>
      if completed_conflicts && has_status I_COMPLETED j then raise conflict
      else if negb (claim_current token now j) then raise conflict
      else mret j
  end.

Definition reserve_incident_ (id token : string) : PlaneM string :=
  let incident_id := "scenario" +:+ id in
  transaction (
    _ ← begin_immediate_;
    now ← read_time;
    j ← claimed_row id token now false;
    match jb_incident_id j with
    | None =>
        _ ← update_jobs (with_id id) (reserved_incident incident_id);
        _ ← event_ id "scenario_reserved" [("incident_id", EStr incident_id)];
        mret incident_id
    | Some stored => if isalnum stored then mret stored else raise corrupt
    end).

Definition scenario_status_ (incident_id : string) : PlaneM (option InvestigationStatus) :=
  row ← transaction (job_row (fun j => bool_decide (jb_incident_id j = Some incident_id)));
  match row with
  | None => mret None
  | Some j => s ← lift_result (status_of j); mret (Some s)
  end.

Definition incident_id_for_ (id : string) : PlaneM (option string) :=
  row ← transaction (job_row (with_id id));
  match row with
  | None => raise not_found
  | Some j => lift_result (incident_of_job j)
  end.

(** [failure_reason IS NULL AND incident_id IS NOT NULL AND available_at > ?] *)
Definition deferred_row (now : f64) (j : Job) : bool :=
  has_status I_QUEUED j && negb (is_some (jb_failure_reason j)) && is_some (jb_incident_id j)
  && f_gt (jb_available_at j) now.

Definition claimable_row (now : f64) (j : Job) : bool :=
  has_status I_QUEUED j && negb (is_some (jb_failure_reason j)) && f_ge now (jb_available_at j).

(** [ORDER BY CASE WHEN incident_id IS NULL THEN 1 ELSE 0 END, available_at, rowid]:
    the rows are in rowid order. *)
Definition row_before (a b : Job) : bool :=
  if negb (Bool.eqb (is_some (jb_incident_id a)) (is_some (jb_incident_id b)))
  then is_some (jb_incident_id a)
  else f_lt (jb_available_at a) (jb_available_at b).

Definition decision_for_row (row : Job) : PlaneM (option OwnerDecision) :=
  stored ← decision_row (jb_id row);
  match stored with
  | None => mret None
  | Some stored =>
      decision ← lift_result (decision_from_row stored);
      checkpoint_id ← lift_result (stored_checkpoint row);
      if negb (bool_decide (dc_checkpoint_id stored = checkpoint_id)) then raise corrupt
      else
        _ ← ensure_ledger_decision (jb_id row) checkpoint_id decision;
        mret (Some decision)
  end.

Definition claim_next_ : PlaneM (option WorkerClaim) :=
  transaction (
    _ ← begin_immediate_;
    now ← read_time;
    _ ← reclaim_expired_investigations_ now;
    _ ← reconcile_durable_decisions;
    running ← job_row (has_status I_RUNNING);
    match running with
    | Some _ => mret None
    | None =>
        deferred ← job_row (deferred_row now);
        match deferred with
        | Some _ => mret None
        | None =>
            row ← read (fun t => first_least row_before (List.filter (claimable_row now) (sq_jobs t)));
            match row with
            | None => mret None
            | Some row =>
                token ← fresh_hex;
                _ ← update_jobs (with_id (jb_id row))
                      (claimed token (f_add now (pf_claim_lease_seconds config)));
                _ ← event_ (jb_id row) "investigation_started" [];
                decision ← decision_for_row row;
                claim ← lift_result (worker_claim row decision token);
                mret (Some claim)
            end
        end
    end).

Definition mark_paused_ (id checkpoint_id token : string) : PlaneM unit :=
  if decide (py_strip checkpoint_id = "") then raise ValueError
  else transaction (
    _ ← begin_immediate_;
    now ← read_time;
    _ ← claimed_row id token now false;
    _ ← update_jobs (with_id id) (paused_at checkpoint_id);
    event_ id "owner_decision_requested" [("checkpoint_id", EStr checkpoint_id)]).

Definition requeue_running_ (id token : string) : PlaneM unit :=
  transaction (
    _ ← begin_immediate_;
    updated ← update_jobs (fun j => with_id id j && claim_held token j) released;
    if negb (updated =? 1) then raise conflict
    else event_ id "investigation_requeued" []).

Definition retry_running_ (id token : string) (error : exn) : PlaneM bool :=
  transaction (
    _ ← begin_immediate_;
    row ← job_row (with_id id);
    match row with
    | None => raise not_found
    | Some j =>
        if negb (claim_held token j) then raise conflict
        else
          let attempt := jb_attempt_count j + 1 in
          if pf_max_replay_attempts config <=? attempt then
            _ ← update_jobs (with_id id) (given_up attempt ("retry_limit:" +:+ exn_name error));
            _ ← event_ id "investigation_failed" (attempt_fields attempt);
            mret false
          else
            now ← read_time;
            delay ← lift_result (retry_delay config attempt);
            let retry_at := f_add now delay in
            _ ← update_jobs (with_id id) (rescheduled attempt retry_at);
            _ ← event_ id "investigation_retry_scheduled" (retry_fields attempt retry_at);
            mret true
    end).

Definition report_snapshot_text (id report_artifact : string) : PlaneM string := fun s =>
  (read_report_snapshot (sp_reads s) id report_artifact, s <| sp_reads := S (sp_reads s) |>).

Definition finalize_ (id report_artifact token : string) : PlaneM unit :=
  if decide (py_strip report_artifact = "") then raise ValueError
  else transaction (
    _ ← begin_immediate_;
    now ← read_time;
    row ← claimed_row id token now true;
    content ← report_snapshot_text id report_artifact;
    _ ← update_jobs (with_id id) (completed_job report_artifact content (sha256_hex content));
    _ ← insert_delivery (pending_delivery id (jb_owner row));
    event_ id "report_finalized" []).

(** * What the delivery worker asks for *)

(** [report_deliveries d JOIN replay_jobs j ON j.id = d.job_id], in the jobs' order. *)
Definition outbox (t : Tables) : list (Job * Delivery) :=
  flat_map (fun j => (fun d => (j, d)) <$> List.filter (delivers (jb_id j)) (sq_deliveries t)) (sq_jobs t).

Definition deliverable_row (now : f64) (r : Job * Delivery) : bool :=
  bool_decide (dl_status r.2 = "PENDING") && negb (is_some (dl_failure_reason r.2))
  && f_ge now (dl_available_at r.2).

Definition sent_first (a b : Job * Delivery) : bool := f_lt (dl_available_at a.2) (dl_available_at b.2).

Definition claim_delivery_ : PlaneM (option DeliveryClaim) :=
  transaction (
    _ ← begin_immediate_;
    now ← read_time;
    _ ← reclaim_expired_deliveries_ now;
    row ← read (fun t => first_least sent_first (List.filter (deliverable_row now) (outbox t)));
    match row with
    | None => mret None
    | Some (j, d) =>
        token ← fresh_hex;
        _ ← update_deliveries (delivers (jb_id j))
              (claimed_delivery token (f_add now (pf_claim_lease_seconds config)));
        claim ← lift_result (delivery_claim j d (jb_id j) token);
        mret (Some claim)
    end).

Definition sending_current (id token : string) (now : f64) (d : Delivery) : bool :=
  delivers id d && delivery_held token d && unexpired (dl_claim_expires_at d) now.

Definition mark_delivered_ (id token : string) : PlaneM unit :=
  transaction (
    now ← read_time;
    updated ← update_deliveries (sending_current id token now) sent_delivery;
    if negb (updated =? 1) then raise conflict
    else event_ id "report_delivered" []).

Definition renew_delivery_ (id token : string) : PlaneM unit :=
  transaction (
    _ ← begin_immediate_;
    now ← read_time;
    updated ← update_deliveries (sending_current id token now)
      (renewed_delivery (f_add now (pf_claim_lease_seconds config)));
    if negb (updated =? 1) then raise conflict else mret tt).

Definition release_delivery_ (id token : string) : PlaneM unit :=
  transaction (
    updated ← update_deliveries (fun d => delivers id d && delivery_held token d) released_delivery;
    if negb (updated =? 1) then raise conflict
    else event_ id "report_delivery_requeued" []).

Definition retry_delivery_ (id token : string) (error : exn) : PlaneM bool :=
  transaction (
    _ ← begin_immediate_;
    row ← delivery_row (delivers id);
    match row with
    | None => raise not_found
    | Some d =>
        if negb (delivery_held token d) then raise conflict
        else
          let attempt := dl_attempt_count d + 1 in
          if pf_max_delivery_attempts config <=? attempt then
            _ ← update_deliveries (delivers id)
                  (given_up_delivery attempt ("retry_limit:" +:+ exn_name error));
            _ ← event_ id "report_delivery_failed" (attempt_fields attempt);
            mret false
          else
            now ← read_time;
            delay ← lift_result (retry_delay config attempt);
            let retry_at := f_add now delay in
            _ ← update_deliveries (delivers id) (rescheduled_delivery attempt retry_at);
            _ ← event_ id "report_delivery_retry_scheduled" (retry_fields attempt retry_at);
            mret true
    end).
End plane.

(** * The plane's interface *)

#[export] Instance sqlite_plane `{PlaneStatements} `{Sqlite} `{Host} `{PlaneClock} `{LedgerClock}
    `{Artifacts} (config : PlaneConfig) : ControlPlane Plane := {
  ask op s := match op with
    | op_create owner r key => answered AView (create_ owner r key) s
    | op_status owner id => answered AView (status_ owner id) s
    | op_events owner id => answered AEvents (events_ owner id) s
    | op_decide owner id decision => answered AView (decide_row owner id decision) s
    | op_report owner id => answered AText (report_ owner id) s
    | op_renew_running id token => answered ADone (renew_running_ config id token) s
    | op_reserve_incident id token => answered AText (reserve_incident_ id token) s
    | op_scenario_status id => answered AStatus (scenario_status_ id) s
    | op_incident_id_for id => answered AIncident (incident_id_for_ id) s
    | op_claim_next => answered AClaim (claim_next_ config) s
    | op_mark_paused id c token => answered ADone (mark_paused_ id c token) s
    | op_requeue_running id token => answered ADone (requeue_running_ id token) s
    | op_retry_running id token e => answered ARetry (retry_running_ config id token e) s
    | op_finalize id artifact token => answered ADone (finalize_ id artifact token) s
    | op_claim_delivery => answered ADelivery (claim_delivery_ config) s
    | op_mark_delivered id token => answered ADone (mark_delivered_ id token) s
    | op_renew_delivery id token => answered ADone (renew_delivery_ config id token) s
    | op_release_delivery id token => answered ADone (release_delivery_ id token) s
    | op_retry_delivery id token e => answered ARetry (retry_delivery_ config id token e) s
    end;
  with_clock n s := s <| sp_ticks := n |>;
}.
