(* ===== verification/PlaneMatch.v ===== *)
(** When the two control planes hold the same: [matching] relates a Firestore
    database to a SQLite one and its ledger, and is kept by the same change made to
    both.  [runs] says what a computation does when nothing fails.

    Its ground is a table of rows next to a collection of documents: the n-th row is a
    document that carries its number, under the row's name. *)
From Stdlib Require Import ZArith Lia.
From stdpp Require Import prelude strings list gmap.
From S2P Require Import Prelude PyText Float64 Tools Domain World Sqlite Approvals ControlPlane PlaneOrder FirestorePlane Lifecycle FirestoreSteps SqlitePlane.
Local Open Scope Z_scope.

Section rows.
Context {X D : Type} (name : X -> string) (doc : nat -> X -> D) (body : D -> X).
Hypothesis body_doc : forall n x, body (doc n x) = x.

Definition named (k : string) (x : X) : bool := bool_decide (name x = k).

Record rows (m : gmap string D) (l : list X) : Prop := {
  rw_doc : forall k d, m !! k = Some d <-> exists n x, l !! n = Some x /\ name x = k /\ d = doc n x;
  rw_names : NoDup (name <$> l);
}.

Lemma rows_unique m l i j x y :
  rows m l -> l !! i = Some x -> l !! j = Some y -> name x = name y -> i = j.
Proof.
  intros [_ Hnd] Hi Hj Heq. eapply (NoDup_lookup (name <$> l)); [done|..].
  - rewrite list_lookup_fmap, Hi. done.
  - rewrite list_lookup_fmap, Hj. simpl. by rewrite Heq.
Qed.

Lemma rows_at m l n x : rows m l -> l !! n = Some x -> m !! name x = Some (doc n x).
Proof. intros [Hd _] Hx. apply Hd. eauto. Qed.

Lemma rows_lookup m l k d :
  rows m l -> m !! k = Some d -> exists n, l !! n = Some (body d) /\ name (body d) = k /\ d = doc n (body d).
Proof. intros [Hd _] (n & x & Hx & Hk & ->)%Hd. exists n. by rewrite body_doc. Qed.

(** [SELECT ... WHERE id = ?] *)
Lemma rows_find m l k : rows m l -> List.find (named k) l = body <$> m !! k.
Proof.
  intros Hr. destruct (List.find (named k) l) as [y|] eqn:Hf.
  - apply find_some in Hf as [Hy <-%bool_decide_eq_true].
    apply list_elem_of_In, list_elem_of_lookup in Hy as [i Hi].
    rewrite (rows_at _ _ _ _ Hr Hi). simpl. by rewrite body_doc.
  - destruct (m !! k) as [d|] eqn:Hk; [|done].
    destruct (rows_lookup _ _ _ _ Hr Hk) as (n & Hn & Hname & _).
    pose proof (List.find_none _ _ Hf (body d)) as Hno. rewrite <- list_elem_of_In in Hno.
    specialize (Hno (list_elem_of_lookup_2 _ _ _ Hn)). by apply bool_decide_eq_false in Hno.
Qed.

Lemma rows_find_if m l k p :
  rows m l ->
  List.find (fun x => named k x && p x) l
  = match m !! k with Some d => if p (body d) then Some (body d) else None | None => None end.
Proof.
  intros Hr. pose proof (rows_find m l k Hr) as Hk.
  destruct (List.find (fun x => named k x && p x) l) as [y|] eqn:Hf.
  - apply find_some in Hf as [Hy [<-%bool_decide_eq_true Hp]%andb_true_iff].
    apply list_elem_of_In, list_elem_of_lookup in Hy as [i Hi].
    rewrite (rows_at _ _ _ _ Hr Hi). by rewrite body_doc, Hp.
  - destruct (m !! k) as [d|]; simpl in Hk; [|done].
    apply find_some in Hk as [Hin Hn]. pose proof (List.find_none _ _ Hf _ Hin) as Hno. simpl in Hno.
    rewrite Hn in Hno. simpl in Hno. by rewrite Hno.
Qed.

Lemma rows_elem m l x : rows m l -> x ∈ l -> exists n, l !! n = Some x /\ m !! name x = Some (doc n x).
Proof. intros Hr [n Hn]%list_elem_of_lookup. exists n. split; [done|by eapply rows_at]. Qed.

(** A query's documents are the rows, numbered. *)
Lemma rows_stream `{FirestoreLaws} m l : rows m l -> stream m ≡ₚ imap doc l.
Proof.
  intros Hr. rewrite stream_perm. apply NoDup_Permutation.
  - apply (NoDup_fmap_1 (name ∘ body)). rewrite <- list_fmap_compose.
    rewrite (list_fmap_ext _ fst); [apply NoDup_fst_map_to_list|].
    intros i [k d] Hi%list_elem_of_lookup_2. apply elem_of_map_to_list in Hi.
    destruct (rows_lookup _ _ _ _ Hr Hi) as (_ & _ & Hk & _). done.
  - apply (NoDup_fmap_1 (name ∘ body)). rewrite fmap_imap.
    rewrite (imap_ext _ (const name)) by (intros; simpl; by rewrite body_doc).
    rewrite imap_const. apply Hr.
  - intros d. rewrite list_elem_of_fmap, elem_of_lookup_imap. split.
    + intros ([k d'] & -> & Hd%elem_of_map_to_list). apply Hr in Hd as (n & x & ? & ? & ->).
      by exists n, x.
    + intros (n & x & -> & Hx). exists (name x, doc n x). split; [done|].
      apply elem_of_map_to_list. by eapply rows_at.
Qed.

Lemma rows_size `{FirestoreLaws} m l : rows m l -> size m = length l.
Proof. intros Hr%rows_stream. rewrite <- stream_length, Hr. apply length_imap. Qed.

Lemma rows_empty : rows ∅ [].
Proof.
  split; [|constructor]. intros k d. rewrite lookup_empty. split; [done|]. by intros (n & x & ? & _).
Qed.

Lemma rows_names_lookup m l k : rows m l -> m !! k = None <-> k ∉ (name <$> l).
Proof.
  intros Hr. rewrite list_elem_of_fmap. split.
  - intros Hk (x & -> & Hx). destruct (rows_elem _ _ _ Hr Hx) as (n & _ & ?). congruence.
  - intros Hno. apply eq_None_not_Some. intros [d Hd]. apply Hno.
    destruct (rows_lookup _ _ _ _ Hr Hd) as (n & Hn & <- & _). exists (body d).
    split; [done|]. by eapply list_elem_of_lookup_2.
Qed.

(** [INSERT] *)
Lemma rows_snoc m l x :
  rows m l -> m !! name x = None -> rows (<[name x := doc (length l) x]> m) (l ++ [x]).
Proof.
  intros Hr Hno. pose proof Hr as [Hd Hnd]. split.
  - intros k d. rewrite lookup_insert_Some, Hd. split.
    + intros [[<- <-]|[Hne (n & y & Hy & Hk & ->)]].
      * exists (length l), x. by rewrite list_lookup_middle.
      * exists n, y. split; [|done]. by apply lookup_app_l_Some.
    + intros (n & y & Hy & Hk & ->). apply lookup_app_Some in Hy as [Hy|[Hlen Hy]].
      * right. split; [|by exists n, y]. intros Heq. rewrite Heq, <- Hk in Hno.
        by rewrite (rows_at _ _ _ _ Hr Hy) in Hno.
      * apply list_lookup_singleton_Some in Hy as [Hn <-].
        left. split; [done|]. f_equal. lia.
  - rewrite fmap_app. apply NoDup_app. split; [done|]. split; [|apply NoDup_singleton].
    intros k Hk Hx. apply list_elem_of_singleton in Hx as ->. by apply (rows_names_lookup m l) in Hno.
Qed.

(** [UPDATE ... WHERE id = ?] *)
Lemma rows_change m l n x f :
  rows m l -> l !! n = Some x -> name (f x) = name x ->
  rows (<[name x := doc n (f x)]> m) (change (named (name x)) f l).
Proof.
  intros Hr Hx Hf. pose proof Hr as [Hd Hnd].
  assert (Hch : forall i, change (named (name x)) f l !! i = if decide (i = n) then Some (f x) else l !! i).
  { intros i. unfold change, named. rewrite list_lookup_fmap. case_decide as Hi.
    - subst. rewrite Hx. simpl. by rewrite bool_decide_true.
    - destruct (l !! i) as [y|] eqn:Hy; [|done]. simpl. rewrite bool_decide_false; [done|].
      intros Heq. apply Hi. by eapply (rows_unique m l). }
  split.
  - intros k d. rewrite lookup_insert_Some, Hd. split.
    + intros [[<- <-]|[Hne (i & y & Hy & Hk & ->)]].
      * exists n, (f x). by rewrite Hch, decide_True.
      * exists i, y. rewrite Hch, decide_False; [done|]. intros ->. congruence.
    + intros (i & y & Hy & Hk & ->). rewrite Hch in Hy. case_decide as Hi.
      * left. by simplify_eq.
      * right. split; [|by exists i, y]. intros Heq. apply Hi.
        eapply (rows_unique m l); [done..|congruence].
  - replace (name <$> change (named (name x)) f l) with (name <$> l); [done|].
    apply list_eq. intros i. rewrite !list_lookup_fmap, Hch. case_decide as Hi; [|done].
    subst. rewrite Hx. simpl. by rewrite Hf.
Qed.

(** ... with more in the condition: the row decides it. *)
Lemma change_none (f : X -> X) (l : list X) (p : X -> bool) : (forall x, x ∈ l -> p x = false) -> change p f l = l /\ count_if p l = 0.
Proof.
  intros Hno. split; [|by apply count_if_zero]. unfold change. rewrite <- (list_fmap_id l) at 2.
  apply list_fmap_ext. intros i x Hx%list_elem_of_lookup_2. by rewrite Hno.
Qed.

Lemma rows_change_if m l n x q f :
  rows m l -> l !! n = Some x ->
  change (fun y => named (name x) y && q y) f l = (if q x then change (named (name x)) f l else l)
  /\ count_if (fun y => named (name x) y && q y) l = if q x then 1 else 0.
Proof.
  intros Hr Hx.
  assert (Hone : forall y, y ∈ l -> named (name x) y = true -> y = x).
  { intros y [i Hi]%list_elem_of_lookup Hn%bool_decide_eq_true.
    assert (i = n) as -> by (by eapply (rows_unique m l)). congruence. }
  destruct (q x) eqn:Hq.
  - split.
    + apply list_fmap_ext. intros i y Hy%list_elem_of_lookup_2.
      destruct (named (name x) y) eqn:Hn; [|done]. by rewrite (Hone y Hy Hn), Hq.
    + destruct Hr as [_ Hnd]. clear Hone. revert n Hx. induction l as [|z l IH]; [done|]. intros n Hx.
      simpl in Hnd. apply NoDup_cons in Hnd as [Hnin Hnd]. simpl. destruct n as [|n].
      * simplify_eq/=. unfold named at 1. rewrite bool_decide_true, Hq by done. simpl.
        assert (Hz : count_if (fun y => named (name x) y && q y) l = 0).
        { apply count_if_zero. intros y Hy. unfold named. rewrite bool_decide_false; [done|].
          intros Heq. apply Hnin. rewrite <- Heq. by apply list_elem_of_fmap_2. }
        rewrite Hz. done.
      * simpl in Hx. rewrite (IH Hnd n Hx). unfold named. rewrite bool_decide_false; [done|].
        intros Heq. apply Hnin. rewrite Heq. apply list_elem_of_fmap_2. by eapply list_elem_of_lookup_2.
  - apply change_none. intros y Hy. destruct (named (name x) y) eqn:Hn; [|done].
    by rewrite (Hone y Hy Hn), Hq.
Qed.

Lemma change_missing (l : list X) k (q : X -> bool) (f : X -> X) :
  k ∉ (name <$> l) ->
  change (fun y => named k y && q y) f l = l /\ count_if (fun y => named k y && q y) l = 0.
Proof.
  intros Hno. apply change_none. intros x Hx. unfold named. rewrite bool_decide_false; [done|].
  intros <-. apply Hno. by apply list_elem_of_fmap_2.
Qed.

Lemma rows_named_exists m l k : rows m l -> existsb (named k) l = is_some (m !! k).
Proof.
  intros Hr. pose proof (rows_find m l k Hr) as Hf. destruct (m !! k) as [d|]; simpl in *.
  - apply find_some in Hf as [Hin Hn]. apply existsb_exists. eauto.
  - destruct (existsb (named k) l) eqn:He; [|done]. apply existsb_exists in He as (x & Hin & Hn).
    by rewrite (List.find_none _ _ Hf x Hin) in Hn.
Qed.
End rows.

(** * Computations that run *)

(** States that differ in counts nobody reads. *)
Class Alike (S : Type) := alike : relation S.

Section runs.
Context {S : Type} `{Alike S} `{!Equivalence (alike (S := S))}.

Definition runs {A} (m : ST S exn A) (s : S) (r : res A) (s' : S) : Prop :=
  forall s0, alike s s0 -> (m s0).1 = r /\ alike s' (m s0).2.

Lemma runs_from {A} (m : ST S exn A) s s1 r s' : alike s1 s -> runs m s1 r s' -> runs m s r s'.
Proof. intros Hs Hm s0 Hs0. apply Hm. by rewrite Hs. Qed.

Lemma runs_to {A} (m : ST S exn A) s r s1 s' : alike s1 s' -> runs m s r s1 -> runs m s r s'.
Proof. intros Hs Hm s0 Hs0. destruct (Hm s0 Hs0) as [? Hs']. split; [done|]. by rewrite <- Hs'. Qed.

Lemma runs_ret {A} (a : A) s : runs (mret a) s (Ok a) s.
Proof. done. Qed.

Lemma runs_raise {A} (e : exn) s : runs (raise (A := A) e) s (Err e) s.
Proof. done. Qed.

Lemma runs_lift {A} (r : res A) s : runs (lift_result r) s r s.
Proof. done. Qed.

Lemma runs_bind {A B} (m : ST S exn A) (k : A -> ST S exn B) s a s1 r s2 :
  runs m s (Ok a) s1 -> runs (k a) s1 r s2 -> runs (m ≫= k) s r s2.
Proof.
  intros Hm Hk s0 Hs. destruct (Hm s0 Hs) as [Ha Hs1]. unfold mbind, ST_bind.
  destruct (m s0) as [[a'|e] s']; simpl in *; [|done]. injection Ha as ->. by apply Hk.
Qed.

Lemma runs_bind_err {A B} (m : ST S exn A) (k : A -> ST S exn B) s e s1 :
  runs m s (Err e) s1 -> runs (m ≫= k) s (Err e) s1.
Proof.
  intros Hm s0 Hs. destruct (Hm s0 Hs) as [Ha Hs1]. unfold mbind, ST_bind.
  destruct (m s0) as [[a'|e'] s']; simpl in *; [done|]. by injection Ha as ->.
Qed.

Lemma runs_bind_lift {A B} (r : res A) (k : A -> ST S exn B) s r' s' :
  (forall a, r = Ok a -> runs (k a) s r' s') -> (forall e, r = Err e -> r' = Err e /\ s' = s) ->
  runs (lift_result r ≫= k) s r' s'.
Proof.
  intros Hok Herr. destruct r as [a|e].
  - eapply runs_bind; [apply runs_lift|]. by apply Hok.
  - destruct (Herr e eq_refl) as [-> ->]. apply runs_bind_err, runs_lift.
Qed.

Lemma runs_try {A} (m : ST S exn A) h s a s1 : runs m s (Ok a) s1 -> runs (try_except m h) s (Ok a) s1.
Proof.
  intros Hm s0 Hs. destruct (Hm s0 Hs) as [Ha Hs1]. unfold try_except.
  destruct (m s0) as [[a'|e] s']; simpl in *; [done|]. discriminate Ha.
Qed.
End runs.

(** * The Firestore side *)

#[export] Instance Store_alike : Alike Store := fun s s' =>
  data s = data s' /\ fs_ids s = fs_ids s' /\ fs_ticks s = fs_ticks s' /\ fs_reads s = fs_reads s'.

#[export] Instance Store_alike_equiv : Equivalence (alike (S := Store)).
Proof.
  split.
  - by intros s.
  - intros s s' (? & ? & ? & ?). split_and!; congruence.
  - intros s1 s2 s3 (? & ? & ? & ?) (? & ? & ? & ?). split_and!; congruence.
Qed.

Section firestore.
Context `{FirestoreLaws} `{Host} `{PlaneClock} `{Artifacts}.
Hypothesis served : forall n, reply n = Served.

Lemma run_query {A} (f : Store -> A) s :
  (forall s0, data s0 = data s -> f s0 = f s) -> runs (query f) s (Ok (f s)) s.
Proof.
  intros Hf s0 (Hd & Hi & Ht & Hr). unfold query, request. rewrite served. simpl.
  split; [|by split_and!]. f_equal. by apply Hf.
Qed.

Lemma run_write f s : 
  (forall s0, alike s s0 -> alike (f s) (f s0)) -> runs (write f) s (Ok tt) (f s).
Proof.
  intros Hf s0 Hs. unfold write, request. rewrite served. simpl. split; [done|].
  apply Hf. destruct Hs as (? & ? & ? & ?). by split_and!.
Qed.

Lemma run_job_get id s : runs (job_ref_get id) s (Ok (fs_jobs s !! id)) s.
Proof. apply (run_query (fun s => fs_jobs s !! id)). intros s0 (Hj & _)%data_eq. by rewrite Hj. Qed.

Lemma run_delivery_get id s : runs (delivery_ref_get id) s (Ok (fs_deliveries s !! id)) s.
Proof.
  apply (run_query (fun s => fs_deliveries s !! id)). intros s0 (_ & _ & _ & Hd)%data_eq. by rewrite Hd.
Qed.

Lemma run_decision_get id s : runs (decision_ref_get id) s (Ok (fs_decisions s !! id)) s.
Proof.
  apply (run_query (fun s => fs_decisions s !! id)). intros s0 (_ & _ & Hd & _)%data_eq. by rewrite Hd.
Qed.

Lemma run_jobs_where p s :
  runs (jobs_where p) s (Ok (List.filter (fun d => p (jd_job d)) (stream (fs_jobs s)))) s.
Proof.
  apply (run_query (fun s => List.filter _ (stream (fs_jobs s)))). intros s0 (Hj & _)%data_eq. by rewrite Hj.
Qed.

Lemma run_deliveries_where p s :
  runs (deliveries_where p) s
    (Ok (List.filter (fun d => p (dd_delivery d)) (stream (fs_deliveries s)))) s.
Proof.
  apply (run_query (fun s => List.filter _ (stream (fs_deliveries s)))).
  intros s0 (_ & _ & _ & Hd)%data_eq. by rewrite Hd.
Qed.

Lemma run_staged id name fields s :
  runs (staged_event id name fields) s (Ok (next_event id name fields s)) s.
Proof.
  assert (Hq : runs (query (fun s => stream (events_of id s))) s (Ok (stream (events_of id s))) s).
  { apply (run_query (fun s => stream (events_of id s))). intros s0 (_ & He & _)%data_eq.
    unfold events_of. by rewrite He. }
  unfold next_event. rewrite <- stream_length.
  eapply runs_bind; [eapply runs_bind; [exact Hq|apply runs_ret]|apply runs_ret].
Qed.

Lemma run_clock s :
  runs clock_reading s (Ok (plane_time (fs_ticks s))) (s <| fs_ticks := S (fs_ticks s) |>).
Proof.
  intros s0 (Hd & Hi & Ht & Hr). simpl. split; [by rewrite Ht|]. split_and!; simpl; try done. congruence.
Qed.

Lemma run_uuid s : runs uuid4_hex s (Ok (uuid_hex (fs_ids s))) (s <| fs_ids := S (fs_ids s) |>).
Proof.
  intros s0 (Hd & Hi & Ht & Hr). simpl. split; [by rewrite Hi|]. split_and!; simpl; try done. congruence.
Qed.

Lemma run_snapshot id artifact s :
  runs (snapshot_text id artifact) s (read_report_snapshot (fs_reads s) id artifact)
    (s <| fs_reads := S (fs_reads s) |>).
Proof.
  intros s0 (Hd & Hi & Ht & Hr). unfold snapshot_text. simpl. split; [by rewrite Hr|].
  split_and!; simpl; try done. congruence.
Qed.

(** Equal data in, equal data out. *)
Lemma alike_respects f s :
  respects s f -> (forall s0, fs_ticks (f s0) = fs_ticks s0 /\ fs_reads (f s0) = fs_reads s0) ->
  forall s0, alike s s0 -> alike (f s) (f s0).
Proof.
  intros Hf Hc s0 (Hd & Hi & Ht & Hr). destruct (Hf s0 (eq_sym Hd)) as [Hd' Hi'].
  destruct (Hf s eq_refl) as [_ Hi2], (Hc s), (Hc s0). split_and!; congruence.
Qed.

Lemma run_batch f s :
  respects s f -> (forall s0, fs_ticks (f s0) = fs_ticks s0 /\ fs_reads (f s0) = fs_reads s0) ->
  runs (write f) s (Ok tt) (f s).
Proof. intros Hf Hc. apply run_write. by apply (alike_respects f). Qed.

Lemma run_set_job id d s : runs (write (set_job id d)) s (Ok tt) (set_job id d s).
Proof. apply run_write, alike_respects; [solve_respects|done]. Qed.

Lemma run_set_delivery id d s : runs (write (set_delivery id d)) s (Ok tt) (set_delivery id d s).
Proof. apply run_write, alike_respects; [solve_respects|done]. Qed.

Lemma run_event id name fields s : runs (event id name fields) s (Ok tt) (log_event id name fields s).
Proof.
  eapply runs_bind; [apply run_staged|].
  apply (run_write (set_event id (next_event id name fields s))), alike_respects; [solve_respects|done].
Qed.

Lemma run_owned_found id owner d s :
  fs_jobs s !! id = Some d -> jb_owner (jd_job d) = owner -> runs (owned id owner) s (Ok d) s.
Proof.
  intros Hd Ho. eapply runs_bind; [apply run_job_get|]. rewrite Hd, decide_True by done. apply runs_ret.
Qed.

Lemma run_owned_missing id owner s :
  (forall d, fs_jobs s !! id = Some d -> jb_owner (jd_job d) <> owner) ->
  runs (owned id owner) s (Err not_found) s.
Proof.
  intros Hno. eapply runs_bind; [apply run_job_get|]. destruct (fs_jobs s !! id) as [d|] eqn:Hd.
  - rewrite decide_False by (by apply Hno). apply runs_raise.
  - apply runs_raise.
Qed.
End firestore.

(** * The SQLite side *)

#[export] Instance Connection_alike : Alike (Connection DecisionRecord) := fun c c' =>
  db_saved c = db_saved c' /\ db_open c = db_open c'.

#[export] Instance Connection_alike_equiv : Equivalence (alike (S := Connection DecisionRecord)).
Proof.
  split.
  - by intros c.
  - intros c c' [? ?]. split; congruence.
  - intros c1 c2 c3 [? ?] [? ?]. split; congruence.
Qed.

#[export] Instance Plane_alike : Alike Plane := fun q q' =>
  sp_tables q = sp_tables q' /\ alike (sp_ledger q) (sp_ledger q') /\ sp_ids q = sp_ids q'
  /\ sp_ticks q = sp_ticks q' /\ sp_reads q = sp_reads q' /\ sp_decided q = sp_decided q'.

#[export] Instance Plane_alike_equiv : Equivalence (alike (S := Plane)).
Proof.
  split.
  - intros q. by split_and!.
  - intros q q' (? & ? & ? & ? & ? & ?). split_and!; try congruence. by symmetry.
  - intros q1 q2 q3 (? & Hl & ? & ? & ? & ?) (? & ? & ? & ? & ? & ?). split_and!; try congruence.
    by rewrite Hl.
Qed.

(** A ledger at rest. *)
Definition ledger_of (D : list DecisionRecord) : Connection DecisionRecord :=
  {| db_saved := Some D; db_open := None; db_statements := 0 |}.

(** What the ledger says of a thread. *)
Definition ledger_row (D : list DecisionRecord) (id : string) : res (option DecisionRow) :=
  match latest (List.filter (fun r => bool_decide (dr_thread_id r = id)) D) with
  | None => Ok None
  | Some raw => match parse_decision raw with Ok row => Ok (Some row) | Err _ => Err unavailable end
  end.

Section sqlite.
Context `{PlaneStatements} `{Sqlite} `{Host} `{PlaneClock} `{LedgerClock} `{Artifacts}.
Hypothesis plane_reliable : forall n, plane_statement_fails n = false.
Hypothesis ledger_reliable : forall n, statement_fails n = false.

Lemma run_statement {A} (f : Tables -> res (A * Tables)) q a t :
  f (sp_tables q) = Ok (a, t) -> runs (statement f) q (Ok a) (q <| sp_tables := t |>).
Proof.
  intros Hf q0 (Ht & ? & ? & ? & ? & ?). unfold statement. rewrite plane_reliable, <- Ht, Hf.
  split; [done|]. by split_and!.
Qed.

Lemma run_statement_err {A} (f : Tables -> res (A * Tables)) q e :
  f (sp_tables q) = Err e -> runs (statement f) q (Err e) q.
Proof.
  intros Hf q0 (Ht & ? & ? & ? & ? & ?). unfold statement. rewrite plane_reliable, <- Ht, Hf.
  split; [done|]. by split_and!.
Qed.

Lemma run_read {A} (f : Tables -> A) q : runs (read f) q (Ok (f (sp_tables q))) q.
Proof.
  intros q0 (Ht & ? & ? & ? & ? & ?). unfold read, statement. rewrite plane_reliable, <- Ht.
  split; [done|]. by split_and!.
Qed.

Lemma run_transaction {A} (body : PlaneM A) q a q' :
  runs body q (Ok a) q' -> runs (transaction body) q (Ok a) q'.
Proof.
  intros Hb q0 Hq. unfold transaction.
  assert (Hall : runs (a ← body; _ ← read (fun _ => tt); mret a) q (Ok a) q').
  { eapply runs_bind; [exact Hb|]. eapply runs_bind; [apply run_read|apply runs_ret]. }
  destruct (Hall q0 Hq) as [Ha Hq'].
  destruct (mbind (M := ST Plane exn) _ _ q0) as [[a'|e] q'']; simpl in *; [done|discriminate Ha].
Qed.

Lemma run_transaction_err {A} (body : PlaneM A) q e q' :
  runs body q (Err e) q' -> runs (transaction body) q (Err e) (q' <| sp_tables := sp_tables q |>).
Proof.
  intros Hb q0 Hq. unfold transaction.
  assert (Hall : runs (a ← body; _ ← read (fun _ => tt); mret a) q (Err e) q')
    by (by apply runs_bind_err).
  destruct (Hall q0 Hq) as [Ha Hq'].
  destruct (mbind (M := ST Plane exn) _ _ q0) as [[a'|e'] q'']; simpl in *; [discriminate Ha|]. split; [done|].
  destruct Hq as (Ht & _), Hq' as (? & ? & ? & ? & ? & ?). by split_and!.
Qed.

(** What reads, or fails before it writes, leaves the tables alone either way. *)
Lemma run_transaction_reads {A} (body : PlaneM A) q r q' :
  runs body q r q' -> sp_tables q' = sp_tables q -> runs (transaction body) q r q'.
Proof.
  intros Hb Ht. destruct r as [a|e]; [by apply run_transaction|].
  eapply runs_to; [|by apply run_transaction_err]. by split_and!.
Qed.

Lemma run_time q : runs read_time q (Ok (plane_time (sp_ticks q))) (q <| sp_ticks := S (sp_ticks q) |>).
Proof.
  intros q0 (? & ? & ? & Ht & ? & ?). simpl. split; [by rewrite Ht|]. split_and!; simpl; try done. congruence.
Qed.

Lemma run_hex q : runs fresh_hex q (Ok (uuid_hex (sp_ids q))) (q <| sp_ids := S (sp_ids q) |>).
Proof.
  intros q0 (? & ? & Hi & ? & ? & ?). simpl. split; [by rewrite Hi|]. split_and!; simpl; try done. congruence.
Qed.

Lemma run_utc_now q :
  runs utc_now q (Ok (ledger_time (sp_decided q))) (q <| sp_decided := S (sp_decided q) |>).
Proof.
  intros q0 (? & ? & ? & ? & ? & Hd). simpl. split; [by rewrite Hd|]. split_and!; simpl; try done. congruence.
Qed.

Lemma run_report_text id artifact q :
  runs (report_snapshot_text id artifact) q (read_report_snapshot (sp_reads q) id artifact)
    (q <| sp_reads := S (sp_reads q) |>).
Proof.
  intros q0 (? & ? & ? & ? & Hr & ?). unfold report_snapshot_text. simpl. split; [by rewrite Hr|].
  split_and!; simpl; try done. congruence.
Qed.

(** ** The ledger *)

Lemma run_on_ledger {A} (m : DecisionsM A) q r c :
  runs m (sp_ledger q) r c -> runs (on_ledger m) q r (q <| sp_ledger := c |>).
Proof.
  intros Hm q0 (? & Hl & ? & ? & ? & ?). destruct (Hm _ Hl) as [Hr Hc]. unfold on_ledger.
  destruct (m (sp_ledger q0)) as [r' c']. simpl in *. split; [done|]. by split_and!.
Qed.

Lemma at_rest D (c : Connection DecisionRecord) :
  alike (ledger_of D) c -> exists n, c = {| db_saved := Some D; db_open := None; db_statements := n |}.
Proof. destruct c as [saved open n]. intros [Hs Ho]. simpl in *. subst. by exists n. Qed.

Lemma run_ensure_table D : runs ensure_decisions_table (ledger_of D) (Ok tt) (ledger_of D).
Proof.
  intros c [n ->]%at_rest.
  unfold ensure_decisions_table, try_except, create_table, commit, execute, mbind, ST_bind.
  simpl. rewrite ?ledger_reliable. simpl. by rewrite ?ledger_reliable.
Qed.

Lemma run_ledger_commit D : runs commit (ledger_of D) (Ok tt) (ledger_of D).
Proof. intros c [n ->]%at_rest. unfold commit, execute. simpl. by rewrite ?ledger_reliable. Qed.

Lemma run_read_ledger D id : runs (read_decision_for_thread id) (ledger_of D) (ledger_row D id) (ledger_of D).
Proof.
  intros c [n ->]%at_rest.
  unfold read_decision_for_thread, ledger_row, try_except, select, execute, mbind, ST_bind.
  simpl. rewrite ?ledger_reliable. simpl. destruct (latest _) as [raw|]; [|done].
  by destruct (parse_decision raw).
Qed.

Lemma run_record D id cp dec t :
  (id, cp) ∉ (decision_key <$> D) ->
  runs (record_decision_before_resume id cp dec t) (ledger_of D) (Ok tt)
    (ledger_of (D ++ [record_of id cp dec t])).
Proof.
  intros Hno c [n ->]%at_rest.
  unfold record_decision_before_resume, try_except, insert, commit, execute, mbind, ST_bind.
  simpl. rewrite ?ledger_reliable. simpl. rewrite decide_False by done. simpl.
  by rewrite ?ledger_reliable.
Qed.

Lemma run_decision_connection {A} (body : PlaneM A) q D a q' D' :
  sp_ledger q = ledger_of D -> sp_ledger q' = ledger_of D' ->
  runs body q (Ok a) q' -> runs (decision_connection body) q (Ok a) q'.
Proof.
  intros HD HD' Hb. unfold decision_connection.
  assert (Hself : forall m p E, runs m (ledger_of E) (Ok tt) (ledger_of E) -> sp_ledger p = ledger_of E ->
    runs (on_ledger m) p (Ok tt) p).
  { intros m p E Hm Hp. pose proof (run_on_ledger m p (Ok tt) (ledger_of E)) as Hrun.
    rewrite Hp in Hrun. specialize (Hrun Hm). by destruct p; simplify_eq/=. }
  eapply runs_bind; [by apply runs_try, (Hself _ _ D); [apply run_ensure_table|]|].
  assert (Hall : runs (a ← body; _ ← on_ledger commit; mret a) q (Ok a) q').
  { eapply runs_bind; [exact Hb|]. eapply runs_bind; [|apply runs_ret].
    apply (Hself _ _ D'); [apply run_ledger_commit|done]. }
  intros q0 Hq. destruct (Hall q0 Hq) as [Ha Hq']. unfold ledger_transaction.
  destruct (mbind (M := ST Plane exn) _ _ q0) as [[a'|e] q'']; simpl in *; [done|discriminate Ha].
Qed.

Lemma run_on_rest {A} (m : DecisionsM A) q D r D' :
  sp_ledger q = ledger_of D -> runs m (ledger_of D) r (ledger_of D') ->
  runs (on_ledger m) q r (q <| sp_ledger := ledger_of D' |>).
Proof. intros Hq Hm. apply run_on_ledger. by rewrite Hq. Qed.

Lemma run_read_row q D id :
  sp_ledger q = ledger_of D ->
  runs (on_ledger (read_decision_for_thread id)) q (ledger_row D id) q.
Proof.
  intros Hq. pose proof (run_on_rest _ q D _ D Hq (run_read_ledger D id)) as Hr.
  by destruct q; simplify_eq/=.
Qed.

Lemma run_ledger_decision q D id o :
  sp_ledger q = ledger_of D -> ledger_row D id = Ok o -> runs (ledger_decision id) q (Ok o) q.
Proof.
  intros Hq Ho. apply runs_try. apply (run_decision_connection _ q D o q D); [done..|].
  rewrite <- Ho. by apply run_read_row.
Qed.

Lemma run_ensure_same q D id cp dec row :
  sp_ledger q = ledger_of D -> ledger_row D id = Ok (Some row) -> dw_checkpoint_id row = cp ->
  matches row dec = true -> runs (ensure_ledger_decision id cp dec) q (Ok tt) q.
Proof.
  intros Hq Ho Hcp Hm. apply runs_try. apply (run_decision_connection _ q D tt q D); [done..|].
  eapply runs_bind; [rewrite <- Ho; by apply run_read_row|].
  cbv beta iota. rewrite bool_decide_true, Hm by done. apply runs_ret.
Qed.

Lemma no_row_no_thread D id :
  ledger_row D id = Ok None -> List.filter (fun r => bool_decide (dr_thread_id r = id)) D = [].
Proof.
  unfold ledger_row. destruct (latest _) as [raw|] eqn:Hl; [by destruct (parse_decision raw)|].
  intros _. by apply latest_None.
Qed.

Definition after_record (q : Plane) (D : list DecisionRecord) (id cp : string) (dec : OwnerDecision) : Plane :=
  q <| sp_decided := S (sp_decided q) |>
    <| sp_ledger := ledger_of (D ++ [record_of id cp dec (ledger_time (sp_decided q))]) |>.

Lemma run_ensure_new q D id cp dec :
  sp_ledger q = ledger_of D -> ledger_row D id = Ok None ->
  runs (ensure_ledger_decision id cp dec) q (Ok tt) (after_record q D id cp dec).
Proof.
  intros Hq Ho. apply runs_try.
  eapply (run_decision_connection _ q D tt); [done|done|].
  eapply runs_bind; [rewrite <- Ho; by apply run_read_row|]. cbv beta iota. unfold record_or_agree.
  eapply runs_bind; [apply run_utc_now|]. apply runs_try.
  apply (run_on_rest _ (q <| sp_decided := S (sp_decided q) |>) D); [done|]. apply run_record.
  intros (r & Hk & Hr)%list_elem_of_fmap. injection Hk as Ht _.
  assert (Hin : r ∈ List.filter (fun r => bool_decide (dr_thread_id r = id)) D).
  { apply in_filter. split; [done|]. by apply bool_decide_eq_true. }
  rewrite (no_row_no_thread D id Ho) in Hin. by apply elem_of_nil in Hin.
Qed.

Lemma ledger_row_other D r id : dr_thread_id r <> id -> ledger_row (D ++ [r]) id = ledger_row D id.
Proof.
  intros Hne. unfold ledger_row. rewrite List.filter_app. simpl.
  rewrite bool_decide_false by done. by rewrite app_nil_r.
Qed.

Lemma ledger_row_new D id cp dec t :
  ledger_row D id = Ok None -> owner_decision (od_decision dec) (od_rejection_note dec) = Ok dec ->
  ledger_row (D ++ [record_of id cp dec t]) id
  = Ok (Some {| dw_thread_id := id; dw_checkpoint_id := cp; dw_decision := od_decision dec;
                dw_rejection_note := od_rejection_note dec; dw_decided_at := t |}).
Proof.
  intros Ho Hdec. apply owner_decision_Ok in Hdec as (_ & _ & Hs & Hok).
  unfold ledger_row. rewrite List.filter_app, (no_row_no_thread D id Ho). simpl.
  rewrite bool_decide_true by done. simpl. by rewrite parse_record.
Qed.

(** ** Events *)

Definition dense (l : list TimelineEvent) : Prop :=
  forall n e, l !! n = Some e -> te_ordinal e = Z.of_nat n.

Lemma next_ordinal_dense l : dense l -> next_ordinal l = Z.of_nat (length l).
Proof.
  intros Hl. destruct l as [|e l]; [done|]. unfold next_ordinal.
  assert (He : te_ordinal e = 0) by (by apply (Hl 0%nat)). rewrite He. clear He.
  assert (Hmax : fold_left Z.max (te_ordinal <$> l) 0 = Z.of_nat (length l)); [|simpl; lia].
  induction l as [|x l IH] using rev_ind; [done|].
  rewrite fmap_app, fold_left_app, IH, length_app; simpl.
  - rewrite (Hl (S (length l)) x); [lia|]. simpl. by apply list_lookup_middle.
  - intros n y Hy. apply Hl. destruct n; [done|]. simpl in *. by apply lookup_app_l_Some.
Qed.

Lemma dense_fresh l : dense l -> existsb (fun e => te_ordinal e =? Z.of_nat (length l)) l = false.
Proof.
  intros Hl. destruct (existsb _ l) eqn:He; [|done].
  apply existsb_exists in He as (e & Hin & Heq). apply list_elem_of_In, list_elem_of_lookup in Hin as [n Hn].
  pose proof (Hl n e Hn). pose proof (lookup_lt_Some _ _ _ Hn). lia.
Qed.

Definition new_event (id name : string) (fields : list (string * EventValue)) (t : Tables)
    : TimelineEvent :=
  {| te_ordinal := Z.of_nat (length (job_events id t)); te_name := name; te_fields := fields |}.

Definition log_row (id name : string) (fields : list (string * EventValue)) (t : Tables) : Tables :=
  t <| sq_events := sq_events t ++ [(id, new_event id name fields t)] |>.

Lemma run_event_ id name fields q :
  dense (job_events id (sp_tables q)) ->
  runs (event_ id name fields) q (Ok tt) (q <| sp_tables := log_row id name fields (sp_tables q) |>).
Proof.
  intros Hd. eapply runs_bind; [apply run_read|]. rewrite (next_ordinal_dense _ Hd).
  apply run_statement. rewrite dense_fresh by done. done.
Qed.

Lemma run_update_jobs p f q :
  runs (update_jobs p f) q (Ok (count_if p (sq_jobs (sp_tables q))))
    (q <| sp_tables := (sp_tables q) <| sq_jobs := change p f (sq_jobs (sp_tables q)) |> |>).
Proof. by apply run_statement. Qed.

Lemma run_update_deliveries p f q :
  runs (update_deliveries p f) q (Ok (count_if p (sq_deliveries (sp_tables q))))
    (q <| sp_tables := (sp_tables q) <| sq_deliveries := change p f (sq_deliveries (sp_tables q)) |> |>).
Proof. by apply run_statement. Qed.
End sqlite.
