(* ===== verification/PlanesAgree.v ===== *)
(** The Firestore control plane and the SQLite one answer alike: the same requests
    at the same moments get the same answers, when no database fails, the clock is
    sane, decisions come through the plane and no job pauses a second time.  The
    order in which deliveries that wait equally long are sent is the exception; it
    is ruled out by hypothesis. *)
From Stdlib Require Import ZArith Lia.
From stdpp Require Import prelude strings list gmap.
From S2P Require Import Prelude PyText Float64 Tools Domain World Sqlite Approvals ControlPlane PlaneOrder FirestorePlane Lifecycle FirestoreSteps FirestoreProps SqlitePlane PlaneMatch.
Local Open Scope Z_scope.

(** * The same contents *)

Definition doc_job (n : nat) (j : Job) : JobDocument := {| jd_sequence := Z.of_nat n; jd_job := j |}.

Definition doc_delivery (n : nat) (d : Delivery) : DeliveryDocument :=
  {| dd_sequence := Z.of_nat n; dd_delivery := d |}.

(** Times are numbers, a job's incident is its own, its inputs are known. *)
Definition time_fine (t : option f64) : Prop := forall e, t = Some e -> not_nan e = true.

Record job_fine (id : string) (j : Job) : Prop := {
  jf_incident : jb_incident_id j = None \/ jb_incident_id j = Some ("scenario" +:+ id);
  jf_available : not_nan (jb_available_at j) = true;
  jf_expires : time_fine (jb_claim_expires_at j);
  jf_family : is_Some (of_value (A := ScenarioFamily) (jb_scenario_family j));
  jf_seed : is_Some (of_value (A := ReplaySeed) (jb_seed j));
}.

Record delivery_fine (d : Delivery) : Prop := {
  df_available : not_nan (dl_available_at d) = true;
  df_expires : time_fine (dl_claim_expires_at d);
}.

(** What the mirror, the ledger and the job say of an owner's decision. *)
Definition decision_agrees (job : option JobDocument) (c : option Decision)
    (row : res (option DecisionRow)) : Prop :=
  match c with
  | None => row = Ok None
  | Some c => exists d dec w,
      job = Some d /\ row = Ok (Some w)
      /\ jb_checkpoint_id (jd_job d) = Some (dc_checkpoint_id c) /\ dc_checkpoint_id c <> ""
      /\ has_status I_PAUSED_APPROVAL (jd_job d) = false
      /\ decision_request (dc_decision c) (dc_rejection_note c) = Ok dec
      /\ dw_checkpoint_id w = dc_checkpoint_id c /\ matches w dec = true
  end.

Definition mirrored (id : string) (t : Tables) : option Decision :=
  snd <$> List.find (fun r => bool_decide (r.1 = id)) (sq_decisions t).

Record matching (s : Store) (q : Plane) : Prop := {
  mt_ids : sp_ids q = fs_ids s;
  mt_reads : sp_reads q = fs_reads s;
  mt_jobs : rows jb_id doc_job (fs_jobs s) (sq_jobs (sp_tables q));
  mt_deliveries : rows dl_id doc_delivery (fs_deliveries s) (sq_deliveries (sp_tables q));
  mt_numbered : forall id, numbered_from_zero (events_of id s);
  mt_events : forall id (n : nat), events_of id s !! Z.of_nat n = job_events id (sp_tables q) !! n;
  mt_decisions : forall id, fs_decisions s !! id = mirrored id (sp_tables q);
  mt_ledger : exists D, alike (ledger_of D) (sp_ledger q) /\
    forall id, decision_agrees (fs_jobs s !! id) (fs_decisions s !! id) (ledger_row D id);
  mt_fine : forall id d, fs_jobs s !! id = Some d -> job_fine id (jd_job d);
  mt_delivery_fine : forall id d, fs_deliveries s !! id = Some d -> delivery_fine (dd_delivery d);
}.

Lemma matching_alike s s' q q' : matching s q -> alike s s' -> alike q q' -> matching s' q'.
Proof.
  intros [] (Hd & Hi & _ & Hr) (Ht & Hl & Hi' & _ & Hr' & _). apply data_eq in Hd as (Hj & He & Hc & Hv).
  assert (Hevents : forall id, events_of id s' = events_of id s) by (intros; unfold events_of; by rewrite He).
  split; rewrite <- ?Hj, <- ?Hc, <- ?Hv, <- ?Ht; try congruence; try done.
  - intros id. by rewrite Hevents.
  - destruct mt_ledger0 as (D & HD & Hag). exists D. split; [by rewrite <- Hl|done].
Qed.

Section changes.
Context `{FirestoreLaws}.

Lemma matching_ticks s q m n : matching s q -> matching (s <| fs_ticks := m |>) (q <| sp_ticks := n |>).
Proof. intros []. by split. Qed.

Lemma matching_sql_ticks s q n : matching s q -> matching s (q <| sp_ticks := n |>).
Proof. intros []. by split. Qed.

Lemma matching_draw s q :
  matching s q -> matching (s <| fs_ids := S (fs_ids s) |>) (q <| sp_ids := S (sp_ids q) |>).
Proof. intros []. split; try done. simpl. congruence. Qed.

Lemma matching_reads s q :
  matching s q -> matching (s <| fs_reads := S (fs_reads s) |>) (q <| sp_reads := S (sp_reads q) |>).
Proof. intros []. split; try done. simpl. congruence. Qed.

Lemma matching_restore s q q0 :
  matching s q -> sp_tables q = sp_tables q0 -> matching s (q <| sp_tables := sp_tables q0 |>).
Proof. intros Hm Ht. eapply matching_alike; [done..|]. by split_and!. Qed.

(** A decision's job may change as long as it keeps its checkpoint and does not pause. *)
Lemma agrees_job (jobs : gmap string JobDocument) id (d d' : JobDocument) c row i :
  jobs !! id = Some d ->
  (c = None \/ i <> id \/ jb_checkpoint_id (jd_job d') = jb_checkpoint_id (jd_job d)
                /\ has_status I_PAUSED_APPROVAL (jd_job d') = false) ->
  decision_agrees (jobs !! i) c row -> decision_agrees (<[id := d']> jobs !! i) c row.
Proof.
  intros Hd Hside. destruct c as [c|]; [|done]. intros (d0 & dec & w & Hd0 & Hrest).
  destruct (decide (i = id)) as [->|Hne].
  - destruct Hside as [?|[?|[Hcp Hp]]]; [done..|]. exists d', dec, w. rewrite lookup_insert_eq.
    assert (d0 = d) as -> by congruence. rewrite Hcp. split_and!; try apply Hrest; done.
  - exists d0, dec, w. by rewrite lookup_insert_ne.
Qed.

Definition keeps_decision (s : Store) (id : string) (j j' : Job) : Prop :=
  fs_decisions s !! id = None
  \/ jb_checkpoint_id j' = jb_checkpoint_id j /\ has_status I_PAUSED_APPROVAL j' = false.

Lemma matching_job s q id d f :
  matching s q -> fs_jobs s !! id = Some d ->
  jb_id (f (jd_job d)) = jb_id (jd_job d) -> job_fine id (f (jd_job d)) ->
  keeps_decision s id (jd_job d) (f (jd_job d)) ->
  matching (set_job id (on_job f d) s)
    (q <| sp_tables := (sp_tables q) <| sq_jobs := change (with_id id) f (sq_jobs (sp_tables q)) |> |>).
Proof.
  intros Hm Hd Hid Hfine Hkeep. destruct Hm.
  destruct (rows_lookup jb_id doc_job jd_job (fun _ _ => eq_refl) _ _ _ _ mt_jobs0 Hd)
    as (n & Hn & Hname & Hdoc).
  split; try done.
  - cbn [fs_jobs set_job set_field sp_tables sq_jobs]. rewrite <- Hname.
    replace (on_job f d) with (doc_job n (f (jd_job d))) by (by rewrite Hdoc).
    by apply rows_change.
  - destruct mt_ledger0 as (D & HD & Hag). exists D. split; [done|]. intros i.
    cbn [fs_jobs fs_decisions set_job set_field]. eapply agrees_job; [exact Hd| |apply Hag].
    destruct (decide (i = id)) as [->|]; [|by right; left].
    destruct Hkeep as [Hnone|[? ?]]; [by left|right; right]. done.
  - intros i x. cbn [fs_jobs set_job set_field]. intros [[<- <-]|[Hne Hx]]%lookup_insert_Some; eauto.
Qed.

Lemma matching_delivery s q id d f :
  matching s q -> fs_deliveries s !! id = Some d ->
  dl_id (f (dd_delivery d)) = dl_id (dd_delivery d) -> delivery_fine (f (dd_delivery d)) ->
  matching (set_delivery id (on_delivery f d) s)
    (q <| sp_tables := (sp_tables q)
          <| sq_deliveries := change (delivers id) f (sq_deliveries (sp_tables q)) |> |>).
Proof.
  intros Hm Hd Hid Hfine. destruct Hm.
  destruct (rows_lookup dl_id doc_delivery dd_delivery (fun _ _ => eq_refl) _ _ _ _ mt_deliveries0 Hd)
    as (n & Hn & Hname & Hdoc).
  split; try done.
  - cbn [fs_deliveries set_delivery set_field sp_tables sq_deliveries]. rewrite <- Hname.
    replace (on_delivery f d) with (doc_delivery n (f (dd_delivery d))) by (by rewrite Hdoc).
    by apply rows_change.
  - intros i x. cbn [fs_deliveries set_delivery set_field].
    intros [[<- <-]|[Hne Hx]]%lookup_insert_Some; eauto.
Qed.

(** Events keep in step. *)
Lemma matching_length s q id :
  matching s q -> length (job_events id (sp_tables q)) = size (events_of id s).
Proof.
  intros Hm. destruct Hm. set (l := job_events id _) in *.
  assert (Hin : forall n : nat, is_Some (l !! n) <-> (n < size (events_of id s))%nat).
  { intros n. subst l. rewrite <- mt_events0, (proj1 (mt_numbered0 id _)). lia. }
  destruct (Nat.lt_trichotomy (length l) (size (events_of id s))) as [Hlt|[?|Hlt]]; [|done|].
  - apply Hin, lookup_lt_is_Some in Hlt. lia.
  - apply lookup_lt_is_Some, Hin in Hlt. lia.
Qed.

Lemma matching_dense s q id : matching s q -> dense (job_events id (sp_tables q)).
Proof. intros Hm n e. destruct Hm. rewrite <- mt_events0. by apply mt_numbered0. Qed.

Lemma job_events_log i id name fields t :
  job_events i (log_row id name fields t)
  = job_events i t ++ (if decide (i = id) then [new_event id name fields t] else []).
Proof.
  unfold job_events, log_row. cbn [sq_events set_field]. rewrite List.filter_app, fmap_app. f_equal.
  simpl. case_decide; [by rewrite bool_decide_true|by rewrite bool_decide_false].
Qed.

Lemma matching_event s q id name fields :
  matching s q ->
  matching (log_event id name fields s) (q <| sp_tables := log_row id name fields (sp_tables q) |>).
Proof.
  intros Hm. pose proof (matching_length _ _ id Hm) as Hlen. destruct Hm.
  assert (Hsame : next_event id name fields s = new_event id name fields (sp_tables q)).
  { unfold next_event, new_event. by rewrite Hlen. }
  assert (Hof : forall i, events_of i (log_event id name fields s)
    = if decide (i = id) then <[Z.of_nat (size (events_of id s)) := next_event id name fields s]> (events_of id s)
      else events_of i s).
  { intros i. unfold log_event, set_event, events_of at 1. cbn [fs_events set_field].
    case_decide as Hi; [subst; by rewrite lookup_insert_eq|by rewrite lookup_insert_ne]. }
  split; try done.
  - intros i. rewrite Hof. case_decide; [|done]. by apply (events_numbered_snoc _ (next_event id name fields s)).
  - intros i n. rewrite Hof. cbn [sp_tables set_field]. rewrite job_events_log. case_decide as Hi.
    + subst i. destruct (decide (n = length (job_events id (sp_tables q)))) as [->|Hne].
      * rewrite list_lookup_middle, Hlen, lookup_insert_eq by done. by rewrite Hsame.
      * rewrite lookup_insert_ne by lia. rewrite mt_events0. symmetry.
        destruct (decide (n < length (job_events id (sp_tables q)))%nat).
        -- by apply lookup_app_l.
        -- rewrite !lookup_ge_None_2; [done|lia|]. rewrite length_app. simpl. lia.
    + by rewrite app_nil_r.
Qed.
End changes.

(** Two lists with the same rows, one in rowid order. *)
Notation jobs_of m l := (rows jb_id doc_job m l).

Section inserts.
Context `{FirestoreLaws} `{LedgerClock}.

Lemma matching_new_job s q j :
  matching s q -> fs_jobs s !! jb_id j = None -> fs_decisions s !! jb_id j = None ->
  job_fine (jb_id j) j ->
  matching (set_job (jb_id j) {| jd_sequence := Z.of_nat (size (fs_jobs s)); jd_job := j |} s)
    (q <| sp_tables := (sp_tables q) <| sq_jobs := sq_jobs (sp_tables q) ++ [j] |> |>).
Proof.
  intros Hm Hnone Hdec Hfine. pose proof (rows_size jb_id doc_job jd_job (fun _ _ => eq_refl) _ _ (mt_jobs _ _ Hm)) as Hsize.
  destruct Hm. split; try done.
  - cbn [fs_jobs set_job set_field sp_tables sq_jobs]. rewrite Hsize.
    by apply (rows_snoc jb_id doc_job jd_job).
  - destruct mt_ledger0 as (D & HD & Hag). exists D. split; [done|]. intros i. specialize (Hag i).
    cbn [fs_jobs fs_decisions set_job set_field].
    destruct (decide (i = jb_id j)) as [->|Hne]; [|by rewrite lookup_insert_ne].
    by rewrite Hdec in *.
  - intros i x. cbn [fs_jobs set_job set_field]. intros [[<- <-]|[Hne Hx]]%lookup_insert_Some; eauto.
Qed.

Lemma matching_new_delivery s q d :
  matching s q -> fs_deliveries s !! dl_id d = None -> delivery_fine d ->
  matching (set_delivery (dl_id d) {| dd_sequence := Z.of_nat (size (fs_deliveries s)); dd_delivery := d |} s)
    (q <| sp_tables := (sp_tables q) <| sq_deliveries := sq_deliveries (sp_tables q) ++ [d] |> |>).
Proof.
  intros Hm Hnone Hfine.
  pose proof (rows_size dl_id doc_delivery dd_delivery (fun _ _ => eq_refl) _ _ (mt_deliveries _ _ Hm)) as Hsize.
  destruct Hm. split; try done.
  - cbn [fs_deliveries set_delivery set_field sp_tables sq_deliveries]. rewrite Hsize.
    by apply (rows_snoc dl_id doc_delivery dd_delivery).
  - intros i x. cbn [fs_deliveries set_delivery set_field].
    intros [[<- <-]|[Hne Hx]]%lookup_insert_Some; eauto.
Qed.

Definition with_decision (id : string) (c : Decision) (q : Plane) : Plane :=
  q <| sp_tables := (sp_tables q) <| sq_decisions := sq_decisions (sp_tables q) ++ [(id, c)] |> |>.

Lemma mirrored_snoc i id c t :
  mirrored id t = None ->
  mirrored i (t <| sq_decisions := sq_decisions t ++ [(id, c)] |>)
  = if decide (i = id) then Some c else mirrored i t.
Proof.
  unfold mirrored. cbn [sq_decisions set_field]. intros Hnone.
  assert (Hfind : forall l, List.find (fun r : string * Decision => bool_decide (r.1 = i)) (l ++ [(id, c)])
    = match List.find (fun r => bool_decide (r.1 = i)) l with
      | Some r => Some r | None => if decide (i = id) then Some (id, c) else None end).
  { induction l as [|r l IH]; simpl.
    - destruct (decide (i = id)) as [->|Hne]; [by rewrite bool_decide_true|by rewrite bool_decide_false].
    - by destruct (bool_decide (r.1 = i)). }
  rewrite Hfind. destruct (decide (i = id)) as [->|Hne].
  - by destruct (List.find _ _).
  - by destruct (List.find (fun r => bool_decide (r.1 = i)) _).
Qed.

(** The decision reaches the ledger, the mirror and the job. *)
Lemma matching_decided s q D id d cp dec :
  matching s q -> sp_ledger q = ledger_of D -> fs_jobs s !! id = Some d ->
  jb_checkpoint_id (jd_job d) = Some cp -> cp <> "" -> fs_decisions s !! id = None ->
  (forall i, decision_agrees (fs_jobs s !! i) (fs_decisions s !! i) (ledger_row D i)) ->
  owner_decision (od_decision dec) (od_rejection_note dec) = Ok dec ->
  let q1 := with_decision id (mirror_of cp dec) (after_record q D id cp dec) in
  matching (set_job id (on_job decided_job d) (set_decision id (mirror_of cp dec) s))
    (q1 <| sp_tables := (sp_tables q1) <| sq_jobs := change (with_id id) decided_job (sq_jobs (sp_tables q1)) |> |>).
Proof.
  intros Hm HD Hd Hcp Hne Hnone Hag Hdec q1.
  assert (Hfine : job_fine id (decided_job (jd_job d))) by (destruct (mt_fine _ _ Hm id d Hd); by split).
  pose proof (matching_job s q id d decided_job Hm Hd eq_refl Hfine (or_introl Hnone)) as Hjob.
  assert (Hrow : ledger_row D id = Ok None) by (specialize (Hag id); by rewrite Hnone in Hag).
  destruct Hjob. split; try done.
  - intros i. cbn [fs_decisions set_job set_decision set_field q1 with_decision after_record sp_tables].
    unfold mirrored. cbn [sq_decisions set_field].
    pose proof (mirrored_snoc i id (mirror_of cp dec) (sp_tables q)) as Hs. unfold mirrored in Hs.
    cbn [sq_decisions set_field] in Hs. rewrite Hs.
    + case_decide as Hi; [subst; by rewrite lookup_insert_eq|].
      rewrite lookup_insert_ne by done. apply (mt_decisions _ _ Hm).
    + rewrite <- Hnone. symmetry. apply (mt_decisions _ _ Hm).
  - exists (D ++ [record_of id cp dec (ledger_time (sp_decided q))]). split; [done|]. intros i.
    cbn [fs_jobs fs_decisions set_job set_decision set_field].
    destruct (decide (i = id)) as [->|Hi].
    + rewrite !lookup_insert_eq. rewrite (ledger_row_new D id cp dec) by done.
      eexists _, dec, _. split_and!; [done..| | | |]; try done.
      * unfold decision_request. cbn [dc_decision mirror_of]. by rewrite of_value_value.
      * unfold matches. cbn. by rewrite !bool_decide_true.
    + rewrite !lookup_insert_ne by done. rewrite ledger_row_other by (simpl; congruence). apply Hag.
Qed.
End inserts.
