(* ===== verification/PlaneOwners.v ===== *)
(** What an owner asks of the two control planes, one request at a time: the same
    answer, and the same contents after it. *)
From Stdlib Require Import ZArith Lia.
From stdpp Require Import prelude strings list gmap.
From S2P Require Import Prelude PyText Float64 Tools Domain World Sqlite Approvals ControlPlane PlaneOrder FirestorePlane Lifecycle FirestoreSteps FirestoreProps SqlitePlane PlaneMatch PlanesAgree.
Local Open Scope Z_scope.

(** Both run to one result, and match where they end. *)
Definition agree_run {A} (m1 : ST Store exn A) (m2 : PlaneM A) (s : Store) (q : Plane) : Prop :=
  exists r s' q', runs m1 s r s' /\ runs m2 q r q' /\ matching s' q'.

Lemma agree_run_from {A} (m1 : ST Store exn A) (m2 : PlaneM A) s q q1 :
  alike q1 q -> agree_run m1 m2 s q1 -> agree_run m1 m2 s q.
Proof.
  intros Hq (r & s' & q' & Hfs & Hsq & Hm). exists r, s', q'. split; [done|]. split; [|done].
  by eapply runs_from.
Qed.

Section owners.
Context `{FirestoreLaws} `{PlaneStatements} `{Sqlite} `{FreshIds} `{PlaneClock} `{LedgerClock} `{Artifacts}.
Hypothesis served : forall n, reply n = Served.
Hypothesis plane_reliable : forall n, plane_statement_fails n = false.
Hypothesis ledger_reliable : forall n, statement_fails n = false.

Definition ownership (s : Store) (owner id : string) : option JobDocument :=
  match fs_jobs s !! id with
  | Some d => if decide (jb_owner (jd_job d) = owner) then Some d else None
  | None => None
  end.

Lemma run_owned s owner id :
  runs (owned id owner) s (match ownership s owner id with Some d => Ok d | None => Err not_found end) s.
Proof.
  unfold ownership. destruct (fs_jobs s !! id) as [d|] eqn:Hd; [case_decide as Ho|].
  - by apply run_owned_found.
  - apply run_owned_missing; [done|]. intros d0 Hd0. by simplify_eq.
  - apply run_owned_missing; [done|]. intros d0 Hd0. congruence.
Qed.

Lemma run_owned_row s q owner id :
  matching s q ->
  runs (owned_row owner id) q
    (match ownership s owner id with Some d => Ok (jd_job d) | None => Err not_found end) q.
Proof.
  intros Hm. eapply runs_bind; [by apply run_read|].
  pose proof (rows_find_if jb_id doc_job jd_job (fun _ _ => eq_refl) _ _ id
    (fun j => bool_decide (jb_owner j = owner)) (mt_jobs _ _ Hm)) as Hf.
  unfold named in Hf. unfold with_id. rewrite Hf. unfold ownership.
  destruct (fs_jobs s !! id) as [d|]; [|apply runs_raise]. simpl.
  case_decide; [rewrite bool_decide_true by done; apply runs_ret
               |rewrite bool_decide_false by done; apply runs_raise].
Qed.

Lemma status_agrees s q owner id :
  matching s q -> agree_run (status owner id) (status_ owner id) s q.
Proof.
  intros Hm. pose proof (run_owned s owner id) as Hfs. pose proof (run_owned_row s q owner id Hm) as Hsq.
  destruct (ownership s owner id) as [d|].
  - exists (view_of (jd_job d)), s, q. split_and!; [..|done].
    + eapply runs_bind; [exact Hfs|apply runs_lift].
    + apply run_transaction_reads; [done| |done]. eapply runs_bind; [exact Hsq|apply runs_lift].
  - exists (Err not_found), s, q. split_and!; [..|done].
    + by apply runs_bind_err.
    + apply run_transaction_reads; [done| |done]. by apply runs_bind_err.
Qed.

Lemma report_agrees s q owner id :
  matching s q -> agree_run (report owner id) (report_ owner id) s q.
Proof.
  intros Hm. pose proof (run_owned s owner id) as Hfs. pose proof (run_owned_row s q owner id Hm) as Hsq.
  assert (Htx := run_transaction_reads plane_reliable _ _ _ _ Hsq eq_refl).
  destruct (ownership s owner id) as [d|].
  - exists (read_report id (jd_job d)), s, q. split_and!; [..|done].
    + eapply runs_bind; [exact Hfs|apply runs_lift].
    + eapply runs_bind; [exact Htx|apply runs_lift].
  - exists (Err not_found), s, q. split_and!; [..|done]; by apply runs_bind_err.
Qed.

Lemma incident_id_for_agrees s q id :
  matching s q -> agree_run (incident_id_for id) (incident_id_for_ id) s q.
Proof.
  intros Hm. pose proof (rows_find jb_id doc_job jd_job (fun _ _ => eq_refl) _ _ id (mt_jobs _ _ Hm)) as Hf.
  assert (Hrow : runs (transaction (job_row (with_id id))) q (Ok (jd_job <$> fs_jobs s !! id)) q).
  { apply run_transaction_reads; [done| |done]. rewrite <- Hf. by apply run_read. }
  destruct (fs_jobs s !! id) as [d|] eqn:Hd; simpl in Hrow.
  - exists (incident_of_job (jd_job d)), s, q. split_and!; [..|done].
    + eapply runs_bind; [by apply run_job_get|]. rewrite Hd. apply runs_lift.
    + eapply runs_bind; [exact Hrow|apply runs_lift].
  - exists (Err not_found), s, q. split_and!; [..|done].
    + eapply runs_bind; [by apply run_job_get|]. rewrite Hd. apply runs_raise.
    + eapply runs_bind; [exact Hrow|apply runs_raise].
Qed.

#[local] Instance ordinal_le_trans : Transitive ordinal_le.
Proof. intros x y z. unfold ordinal_le. lia. Qed.

#[local] Instance ordinal_le_total : Total ordinal_le.
Proof. intros x y. unfold ordinal_le. lia. Qed.

Lemma counted_sorted l : forall k,
  (forall n e, l !! n = Some e -> te_ordinal e = k + Z.of_nat n) -> StronglySorted ordinal_le l.
Proof.
  induction l as [|x l IH]; intros k Hd; [constructor|]. constructor.
  - apply (IH (k + 1)). intros n e Hn. rewrite (Hd (S n) e Hn). lia.
  - apply Forall_forall. intros e [n Hn]%list_elem_of_lookup. unfold ordinal_le.
    rewrite (Hd 0%nat x eq_refl), (Hd (S n) e Hn). lia.
Qed.

Lemma sorted_rows x l : dense l -> x ≡ₚ l -> merge_sort ordinal_le x = l.
Proof.
  intros Hdense Hperm. eapply (StronglySorted_unique_strong ordinal_le).
  - intros a b Ha Hb Hab Hba.
    rewrite merge_sort_Permutation, Hperm in Ha. apply list_elem_of_lookup in Ha as [i Hi], Hb as [j Hj].
    pose proof (Hdense _ _ Hi). pose proof (Hdense _ _ Hj).
    unfold ordinal_le in *. assert (i = j) by lia. congruence.
  - apply (StronglySorted_merge_sort ordinal_le).
  - by apply (counted_sorted l 0).
  - by rewrite merge_sort_Permutation.
Qed.

(** The events of a job are its rows. *)
Lemma events_rows s q id :
  matching s q -> stream (events_of id s) ≡ₚ job_events id (sp_tables q).
Proof.
  intros Hm. pose proof (matching_dense _ _ id Hm) as Hdense. rewrite stream_perm.
  apply NoDup_Permutation.
  - apply (NoDup_fmap_1 te_ordinal). rewrite <- list_fmap_compose.
    rewrite (list_fmap_ext _ fst); [apply NoDup_fst_map_to_list|].
    intros i [k e] Hi%list_elem_of_lookup_2. apply elem_of_map_to_list in Hi. simpl.
    by apply (mt_numbered _ _ Hm id).
  - apply NoDup_alt. intros i j e Hi Hj. apply Hdense in Hi, Hj. lia.
  - intros e. rewrite list_elem_of_fmap, list_elem_of_lookup. split.
    + intros ([k e'] & -> & Hk%elem_of_map_to_list). simpl.
      assert (Hin : is_Some (events_of id s !! k)) by eauto.
      apply (mt_numbered _ _ Hm id) in Hin as [? _]. exists (Z.to_nat k).
      rewrite <- (mt_events _ _ Hm). by rewrite Z2Nat.id.
    + intros [n Hn]. rewrite <- (mt_events _ _ Hm) in Hn.
      exists (Z.of_nat n, e). split; [done|]. by apply elem_of_map_to_list.
Qed.

Lemma events_agrees s q owner id :
  matching s q -> agree_run (events owner id) (events_ owner id) s q.
Proof.
  intros Hm. pose proof (run_owned s owner id) as Hfs. pose proof (run_owned_row s q owner id Hm) as Hsq.
  destruct (ownership s owner id) as [d|].
  - exists (Ok (merge_sort ordinal_le (stream (events_of id s)))), s, q. split_and!; [..|done].
    + eapply runs_bind; [exact Hfs|]. eapply runs_bind; [|apply runs_ret].
      apply (run_query served (fun s => stream (events_of id s))).
      intros s0 (_ & He & _)%data_eq. unfold events_of. by rewrite He.
    + apply run_transaction; [done|]. eapply runs_bind; [exact Hsq|].
      eapply runs_bind; [by apply run_read|]. pose proof (matching_dense _ _ id Hm) as Hdense.
      rewrite (sorted_rows _ _ Hdense (events_rows s q id Hm)), (sorted_rows _ _ Hdense) by done.
      apply runs_ret.
  - exists (Err not_found), s, q. split_and!; [..|done].
    + by apply runs_bind_err.
    + apply run_transaction_reads; [done| |done]. by apply runs_bind_err.
Qed.

Lemma job_name s q k d : matching s q -> fs_jobs s !! k = Some d -> jb_id (jd_job d) = k.
Proof.
  intros Hm Hd. by destruct (rows_lookup jb_id doc_job jd_job (fun _ _ => eq_refl) _ _ _ _
    (mt_jobs _ _ Hm) Hd) as (n & _ & ? & _).
Qed.

(** A condition only one job can meet finds the same job in both. *)
Lemma found_alike s q (p : Job -> bool) :
  matching s q ->
  (forall i k a b, fs_jobs s !! i = Some a -> fs_jobs s !! k = Some b ->
     p (jd_job a) = true -> p (jd_job b) = true -> i = k) ->
  List.find p (sq_jobs (sp_tables q))
  = head (jd_job <$> List.filter (fun d => p (jd_job d)) (stream (fs_jobs s))).
Proof.
  intros Hm Hone.
  assert (Hin : forall d, d ∈ List.filter (fun d => p (jd_job d)) (stream (fs_jobs s)) ->
    exists k, fs_jobs s !! k = Some d /\ p (jd_job d) = true).
  { intros d [Hd Hp]%in_filter. apply stream_elem in Hd as [k Hk]. eauto. }
  destruct (List.find p _) as [j|] eqn:Hf.
  - apply find_some in Hf as [Hj Hp]. rewrite <- list_elem_of_In in Hj.
    destruct (rows_elem jb_id doc_job _ _ _ (mt_jobs _ _ Hm) Hj) as (n & _ & Hk).
    destruct (List.filter _ _) as [|d l] eqn:Hfl.
    + assert (Hnil : doc_job n j ∈ List.filter (fun d => p (jd_job d)) (stream (fs_jobs s))).
      { apply in_filter. split; [apply stream_elem; eauto|done]. }
      rewrite Hfl in Hnil. by apply elem_of_nil in Hnil.
    + destruct (Hin d) as (k & Hd & Hpd); [by left|]. simpl.
      assert (k = jb_id j) as -> by (by eapply Hone). rewrite Hk in Hd. by injection Hd as <-.
  - destruct (List.filter _ _) as [|d l] eqn:Hfl; [done|].
    destruct (Hin d) as (k & Hd & Hpd); [by left|].
    destruct (rows_lookup jb_id doc_job jd_job (fun _ _ => eq_refl) _ _ _ _ (mt_jobs _ _ Hm) Hd)
      as (n & Hn & _ & _).
    pose proof (List.find_none _ _ Hf (jd_job d)) as Hno. rewrite <- list_elem_of_In in Hno.
    rewrite Hno in Hpd; [done|]. by eapply list_elem_of_lookup_2.
Qed.

Lemma scenario_status_agrees s q i :
  matching s q -> agree_run (scenario_status i) (scenario_status_ i) s q.
Proof.
  intros Hm.
  pose proof (found_alike s q (fun j => bool_decide (jb_incident_id j = Some i)) Hm) as Hfind.
  assert (Hrow : runs (transaction (job_row (fun j => bool_decide (jb_incident_id j = Some i)))) q
    (Ok (head (jd_job <$> List.filter (fun d => bool_decide (jb_incident_id (jd_job d) = Some i))
                            (stream (fs_jobs s))))) q).
  { apply run_transaction_reads; [done| |done]. rewrite <- Hfind; [by apply run_read|].
    intros k k' a b Ha Hb Hia%bool_decide_eq_true Hib%bool_decide_eq_true.
    destruct (jf_incident _ _ (mt_fine _ _ Hm _ _ Ha)) as [?|Ha']; [congruence|].
    destruct (jf_incident _ _ (mt_fine _ _ Hm _ _ Hb)) as [?|Hb']; [congruence|].
    assert (Heq : "scenario" +:+ k = "scenario" +:+ k') by congruence.
    by apply (inj (String.append "scenario")) in Heq. }
  clear Hfind. destruct (List.filter _ _) as [|d l] eqn:Hfl; simpl in Hrow.
  - exists (Ok None), s, q. split_and!; [..|done].
    + eapply runs_bind; [by apply run_jobs_where|]. cbv beta. rewrite Hfl. apply runs_ret.
    + eapply runs_bind; [exact Hrow|apply runs_ret].
  - exists (match status_of (jd_job d) with Ok x => Ok (Some x) | Err e => Err e end), s, q.
    assert (Hlift : forall S `{Alike S} `{!Equivalence (alike (S := S))} (x : S),
      runs (x ← lift_result (status_of (jd_job d)); mret (Some x)) x
        (match status_of (jd_job d) with Ok x => Ok (Some x) | Err e => Err e end) x).
    { intros S ? ? x. apply runs_bind_lift; [|by intros ? ->]. intros a ->. apply runs_ret. }
    split_and!; [..|done].
    + eapply runs_bind; [by apply run_jobs_where|]. cbv beta. rewrite Hfl. apply Hlift, _.
    + eapply runs_bind; [exact Hrow|apply Hlift, _].
Qed.

(** ** Creating *)

Variable config : PlaneConfig.

Lemma keyed_alike s q owner key :
  plane_ok config s -> matching s q ->
  List.find (keyed owner key) (sq_jobs (sp_tables q))
  = jd_job <$> List.find (fun d => bool_decide (jb_idempotency_key (jd_job d) = Some key))
      (List.filter (fun d => bool_decide (jb_owner (jd_job d) = owner)) (stream (fs_jobs s))).
Proof.
  intros Hok Hm. rewrite (found_alike s q (keyed owner key) Hm).
  - induction (stream (fs_jobs s)) as [|d l IH]; [done|]. unfold keyed in *. simpl.
    destruct (bool_decide (jb_owner (jd_job d) = owner)); simpl; [|done].
    by destruct (bool_decide (jb_idempotency_key (jd_job d) = Some key)).
  - intros i k a b Ha Hb [Hoa Hka]%keyed_belongs [Hob Hkb]%keyed_belongs.
    apply (jk_apart _ _ _ (po_jobs _ _ Hok) _ _ a b Ha Hb). right. right. unfold same_key.
    rewrite Hka. split_and!; [congruence..|by eexists].
Qed.

Lemma fresh_id s : plane_ok config s -> fs_jobs s !! uuid_hex (fs_ids s) = None.
Proof.
  intros Hok. apply (drawn_fresh config s (s <| fs_ids := S (fs_ids s) |>)); [done|].
  exists (fs_ids s). simpl. split; [done|lia].
Qed.

Lemma no_job_no_decision s id :
  plane_ok config s -> fs_jobs s !! id = None -> fs_decisions s !! id = None.
Proof.
  intros Hok Hno. apply eq_None_not_Some. intros [c Hc].
  destruct (po_decisions _ _ Hok id c Hc) as (d & Hd & _). congruence.
Qed.

Lemma run_insert_job s q j owner key :
  matching s q -> fs_jobs s !! jb_id j = None -> jb_owner j = owner ->
  jb_idempotency_key j = Some key -> List.find (keyed owner key) (sq_jobs (sp_tables q)) = None ->
  runs (insert_job j) q (Ok tt)
    (q <| sp_tables := (sp_tables q) <| sq_jobs := sq_jobs (sp_tables q) ++ [j] |> |>).
Proof.
  intros Hm Hnone Ho Hk Hfind. apply run_statement; [done|].
  assert (Hid : existsb (with_id (jb_id j)) (sq_jobs (sp_tables q)) = false).
  { pose proof (rows_named_exists jb_id doc_job jd_job (fun _ _ => eq_refl) _ _ (jb_id j) (mt_jobs _ _ Hm)) as Hex.
    by rewrite Hnone in Hex. }
  rewrite Hid, Ho, Hk. simpl.
  replace (existsb _ _) with false; [done|]. symmetry.
  apply not_true_is_false. intros He. apply existsb_exists in He as (k & Hin & Hp).
  apply (List.find_none _ _ Hfind) in Hin. unfold keyed in Hin. congruence.
Qed.

Lemma create_agrees s q owner r key :
  plane_ok config s -> matching s q -> agree_run (create owner r key) (create_ owner r key) s q.
Proof.
  intros Hok Hm. pose proof (keyed_alike s q owner key Hok Hm) as Hfind.
  assert (Hrow : runs (job_row (fun j => bool_decide (jb_owner j = owner)
      && bool_decide (jb_idempotency_key j = Some key))) q
    (Ok (jd_job <$> List.find (fun d => bool_decide (jb_idempotency_key (jd_job d) = Some key))
      (List.filter (fun d => bool_decide (jb_owner (jd_job d) = owner)) (stream (fs_jobs s))))) q).
  { rewrite <- Hfind. by apply run_read. }
  destruct (List.find (fun d => _) _) as [d|] eqn:Hd; simpl in Hrow.
  - exists (view_of (jd_job d)), s, q. split_and!; [..|done].
    + eapply runs_bind; [by apply run_jobs_where|]. cbv beta. rewrite Hd. apply runs_lift.
    + apply run_transaction_reads; [done| |done]. eapply runs_bind; [exact Hrow|apply runs_lift].
  - set (id := uuid_hex (fs_ids s)). set (j := queued_job id owner r key).
    pose proof (fresh_id s Hok) as Hnone. fold id in Hnone.
    pose proof (matching_draw _ _ Hm) as Hm1.
    eapply matching_new_job with (j := j) in Hm1; [|done| |].
    2: { simpl. by apply no_job_no_decision. }
    2: { split; [by left|done|done|exists (cr_scenario_family r); apply of_value_value|by exists DEVELOPMENT]. }
    pose proof (matching_event _ _ id "investigation_queued" [("replay_only", EBool true)] Hm1) as Hm2.
    eexists _, _, _. split_and!; [| |exact Hm2].
    + eapply runs_bind; [by apply run_jobs_where|]. cbv beta. rewrite Hd.
      eapply runs_bind; [apply run_uuid|]. eapply runs_bind; [by apply run_jobs_where|].
      eapply runs_bind; [by apply run_staged|]. eapply runs_bind; [|apply runs_ret].
      cbv beta. rewrite keep_all, stream_length.
      apply (run_batch served (fun s => set_event _ _ (set_job _ _ s))); [solve_respects|done].
    + apply run_transaction; [done|]. eapply runs_bind; [exact Hrow|].
      eapply runs_bind; [apply run_hex|].
      replace (uuid_hex (sp_ids q)) with id by (by rewrite (mt_ids _ _ Hm)).
      eapply runs_bind; [by apply (run_insert_job _ _ j owner key (matching_draw _ _ Hm))|].
      eapply runs_bind; [apply run_event_; [done|]|apply runs_ret].
      by apply (matching_dense _ _ id Hm1).
Qed.

(** ** Deciding *)

(** A read-only request that fails on the one and on the other. *)
Lemma agree_fails {A} (m1 : ST Store exn A) (body : PlaneM A) s q e :
  matching s q -> runs m1 s (Err e) s -> runs body q (Err e) q ->
  agree_run m1 (transaction body) s q.
Proof.
  intros Hm Hfs Hsq. exists (Err e), s, q. split; [done|]. split; [|done].
  by apply run_transaction_reads.
Qed.

Lemma stored_checkpoint_cases j :
  match jb_checkpoint_id j with
  | Some cp => if decide (cp = "") then stored_checkpoint j = Err corrupt
               else stored_checkpoint j = Ok cp
  | None => stored_checkpoint j = Err corrupt
  end.
Proof. unfold stored_checkpoint. destruct (jb_checkpoint_id j); [|done]. by case_decide. Qed.

Lemma run_begin q : runs begin_immediate_ q (Ok tt) q.
Proof. by apply (run_read plane_reliable (fun _ => tt)). Qed.

Lemma run_decision_row s q id : matching s q -> runs (decision_row id) q (Ok (fs_decisions s !! id)) q.
Proof. intros Hm. rewrite (mt_decisions _ _ Hm). by apply run_read. Qed.

Lemma decide_agrees_prior s q D owner id decision d c :
  matching s q -> sp_ledger q = ledger_of D -> ownership s owner id = Some d ->
  fs_decisions s !! id = Some c ->
  decision_agrees (fs_jobs s !! id) (Some c) (ledger_row D id) ->
  agree_run (decide_ owner id decision) (decide_row owner id decision) s q.
Proof.
  intros Hm HD Hown Hc (d0 & dec & w & Hd0 & Hrow & Hcp & Hne & _ & Hdec & Hw & Hmatch).
  assert (d0 = d) as ->.
  { unfold ownership in Hown. rewrite Hd0 in Hown. case_decide; congruence. }
  pose proof (run_owned s owner id) as Hfs. pose proof (run_owned_row s q owner id Hm) as Hsq.
  rewrite Hown in Hfs, Hsq. pose proof (stored_checkpoint_cases (jd_job d)) as Hst.
  rewrite Hcp, decide_False in Hst by done.
  assert (Hsql : forall r, runs (if negb (bool_decide (dec = decision)) then raise conflict else
       _ ← ensure_ledger_decision id (dc_checkpoint_id c) dec; lift_result (view_of (jd_job d))) q r q ->
     runs (decide_row owner id decision) q r q).
  { intros r Hr. apply run_transaction_reads; [done| |done].
    eapply runs_bind; [apply run_begin|]. eapply runs_bind; [exact Hsq|].
    eapply runs_bind; [by apply (run_decision_row s)|]. rewrite Hc.
    unfold decision_from_row. rewrite Hdec, Hst. eapply runs_bind; [apply runs_lift|].
    eapply runs_bind; [apply runs_lift|]. rewrite bool_decide_true by done. exact Hr. }
  assert (Hfire : forall r, runs (if negb (bool_decide (dec = decision)) then raise conflict else
       lift_result (view_of (jd_job d))) s r s -> runs (decide_ owner id decision) s r s).
  { intros r Hr. eapply runs_bind; [exact Hfs|]. eapply runs_bind; [by apply run_decision_get|].
    rewrite Hc, Hdec. eapply runs_bind; [apply runs_lift|]. rewrite Hcp, decide_False by done.
    rewrite bool_decide_true by done. exact Hr. }
  destruct (bool_decide (dec = decision)).
  - exists (view_of (jd_job d)), s, q. split_and!; [| |done].
    + apply Hfire, runs_lift.
    + apply Hsql. eapply runs_bind; [by eapply run_ensure_same|apply runs_lift].
  - exists (Err conflict), s, q. split_and!; [| |done]; [apply Hfire, runs_raise|apply Hsql, runs_raise].
Qed.

(** A first decision's row goes in. *)
Lemma run_insert_decision s q q1 id c :
  matching s q -> fs_decisions s !! id = None -> sq_decisions (sp_tables q1) = sq_decisions (sp_tables q) ->
  runs (insert_decision id c) q1 (Ok tt) (with_decision id c q1).
Proof.
  intros Hm Hc Hq. apply run_statement; [done|]. rewrite Hq.
  replace (existsb _ _) with false; [by rewrite <- Hq|]. symmetry.
  apply not_true_is_false. intros (r & Hr & Hrid)%existsb_exists.
  pose proof (mt_decisions _ _ Hm id) as Hmir. rewrite Hc in Hmir. unfold mirrored in Hmir.
  destruct (List.find _ _) eqn:Hf; [done|]. by rewrite (List.find_none _ _ Hf r Hr) in Hrid.
Qed.

Lemma decide_agrees_first s q D owner id decision d :
  matching s q -> sp_ledger q = ledger_of D -> ownership s owner id = Some d ->
  fs_decisions s !! id = None ->
  (forall i, decision_agrees (fs_jobs s !! i) (fs_decisions s !! i) (ledger_row D i)) ->
  owner_decision (od_decision decision) (od_rejection_note decision) = Ok decision ->
  agree_run (decide_ owner id decision) (decide_row owner id decision) s q.
Proof.
  intros Hm HD Hown Hc Hag Hdec.
  assert (Hd : fs_jobs s !! id = Some d).
  { unfold ownership in Hown. destruct (fs_jobs s !! id); [|done]. case_decide; congruence. }
  pose proof (run_owned s owner id) as Hfs. pose proof (run_owned_row s q owner id Hm) as Hsq.
  rewrite Hown in Hfs, Hsq. pose proof (stored_checkpoint_cases (jd_job d)) as Hst.
  destruct (has_status I_PAUSED_APPROVAL (jd_job d)) eqn:Hp.
  2: { apply (agree_fails _ _ s q conflict Hm).
       - eapply runs_bind; [exact Hfs|]. eapply runs_bind; [by apply run_decision_get|].
         rewrite Hc, Hp. apply runs_raise.
       - eapply runs_bind; [apply run_begin|]. eapply runs_bind; [exact Hsq|].
         eapply runs_bind; [by apply (run_decision_row s)|]. rewrite Hc, Hp. apply runs_raise. }
  assert (Hbad : stored_checkpoint (jd_job d) = Err corrupt ->
    runs (decide_ owner id decision) s (Err corrupt) s ->
    agree_run (decide_ owner id decision) (decide_row owner id decision) s q).
  { intros Hcorrupt Hfire. apply (agree_fails _ _ s q corrupt Hm Hfire).
    eapply runs_bind; [apply run_begin|]. eapply runs_bind; [exact Hsq|].
    eapply runs_bind; [by apply (run_decision_row s)|]. rewrite Hc, Hp, Hcorrupt.
    apply runs_bind_err, runs_lift. }
  destruct (jb_checkpoint_id (jd_job d)) as [cp|] eqn:Hcp.
  2: { apply Hbad; [done|]. eapply runs_bind; [exact Hfs|].
       eapply runs_bind; [by apply run_decision_get|]. rewrite Hc, Hp, Hcp. apply runs_raise. }
  case_decide as Hne.
  { apply Hbad; [done|]. eapply runs_bind; [exact Hfs|].
    eapply runs_bind; [by apply run_decision_get|]. rewrite Hc, Hp, Hcp, decide_True by done. apply runs_raise. }
  pose proof (matching_decided s q D id d cp decision Hm HD Hd Hcp Hne Hc Hag Hdec) as Hm1.
  pose proof (matching_event _ _ id "owner_decision_recorded" (decision_fields cp decision) Hm1) as Hm2.
  eexists _, _, _. split_and!; [| |exact Hm2].
  - eapply runs_bind; [exact Hfs|]. eapply runs_bind; [by apply run_decision_get|].
    rewrite Hc, Hp, Hcp, decide_False by done.
    eapply runs_bind; [by apply run_staged|]. eapply runs_bind; [|apply runs_ret].
    apply (run_batch served (fun s => set_event _ _ (set_job _ _ (set_decision _ _ s))));
      [solve_respects|done].
  - apply run_transaction; [done|].
    eapply runs_bind; [apply run_begin|]. eapply runs_bind; [exact Hsq|].
    eapply runs_bind; [by apply (run_decision_row s)|]. rewrite Hc, Hp, Hst.
    eapply runs_bind; [apply runs_lift|].
    assert (Hnone : ledger_row D id = Ok None) by (specialize (Hag id); by rewrite Hc in Hag).
    eapply runs_bind; [by apply (run_ensure_new ledger_reliable q D)|].
    eapply runs_bind; [by apply (run_insert_decision s q)|].
    eapply runs_bind; [by apply run_update_jobs|].
    eapply runs_bind; [apply run_event_; [done|]|apply runs_ret].
    by apply (matching_dense _ _ id Hm1).
Qed.

Lemma decide_agrees s q owner id decision :
  matching s q -> owner_decision (od_decision decision) (od_rejection_note decision) = Ok decision ->
  agree_run (decide_ owner id decision) (decide_row owner id decision) s q.
Proof.
  intros Hm Hdec. destruct (mt_ledger _ _ Hm) as (D & HD & Hag).
  apply (agree_run_from _ _ s q (q <| sp_ledger := ledger_of D |>)).
  { split_and!; try done. }
  assert (Hm1 : matching s (q <| sp_ledger := ledger_of D |>)).
  { eapply matching_alike; [exact Hm|done|]. split_and!; try done. }
  pose proof (run_owned s owner id) as Hfs. pose proof (run_owned_row _ _ owner id Hm1) as Hsq.
  destruct (ownership s owner id) as [d|] eqn:Hown.
  - destruct (fs_decisions s !! id) as [c|] eqn:Hc.
    + eapply (decide_agrees_prior s _ D); [done..|]. specialize (Hag id). by rewrite Hc in Hag.
    + by eapply (decide_agrees_first s _ D).
  - apply (agree_fails _ _ s _ not_found Hm1).
    + by apply runs_bind_err.
    + eapply runs_bind; [apply run_begin|]. by apply runs_bind_err.
Qed.
End owners.
