(* ===== verification/PlaneWorkers.v ===== *)
(** What a worker asks of the two control planes about the job it holds, and what
    the delivery worker asks about its delivery: the same answer, and the same
    contents after it. *)
From Stdlib Require Import ZArith Lia.
From stdpp Require Import prelude strings list gmap.
From S2P Require Import Prelude PyText Float64 Tools Domain World Sqlite Approvals ControlPlane PlaneOrder FirestorePlane Lifecycle FirestoreSteps FirestoreProps SqlitePlane PlaneMatch PlanesAgree PlaneOwners.
Local Open Scope Z_scope.

(** A clock that gives numbers, and whose leases and retries are numbers too. *)
Record steady_clock `{PlaneClock} (config : PlaneConfig) : Prop := {
  sc_now : forall n, not_nan (plane_time n) = true;
  sc_lease : forall n, not_nan (f_add (plane_time n) (pf_claim_lease_seconds config)) = true;
  sc_retry : forall n attempt delay,
    1 <= attempt < Z.max (pf_max_replay_attempts config) (pf_max_delivery_attempts config) ->
    retry_delay config attempt = Ok delay -> not_nan (f_add (plane_time n) delay) = true;
}.

Section workers.
Context `{FirestoreLaws} `{PlaneStatements} `{Sqlite} `{FreshIds} `{PlaneClock} `{LedgerClock} `{Artifacts}.
Hypothesis served : forall n, reply n = Served.
Hypothesis plane_reliable : forall n, plane_statement_fails n = false.
Hypothesis ledger_reliable : forall n, statement_fails n = false.
Variable config : PlaneConfig.
Hypothesis steady : steady_clock config.

Lemma unexpired_current e now :
  time_fine e -> not_nan now = true -> unexpired e now = lease_current e now.
Proof.
  intros He Hnow. destruct e as [e|]; [|done]. simpl. rewrite f_ge_lt by auto. by rewrite negb_involutive.
Qed.

Lemma expired_lease e now : time_fine e -> not_nan now = true -> expired e now = lease_expired e now.
Proof. intros He Hnow. destruct e as [e|]; [|done]. simpl. by rewrite f_ge_lt by auto. Qed.

Lemma run_time_at q n : sp_ticks q = n -> runs read_time q (Ok (plane_time n)) (q <| sp_ticks := S n |>).
Proof. intros <-. apply run_time. Qed.

Lemma run_job_row s q id : matching s q -> runs (job_row (with_id id)) q (Ok (jd_job <$> fs_jobs s !! id)) q.
Proof.
  intros Hm. rewrite <- (rows_find jb_id doc_job jd_job (fun _ _ => eq_refl) _ _ id (mt_jobs _ _ Hm)).
  by apply run_read.
Qed.

Lemma run_delivery_row s q id :
  matching s q -> runs (delivery_row (delivers id)) q (Ok (dd_delivery <$> fs_deliveries s !! id)) q.
Proof.
  intros Hm.
  rewrite <- (rows_find dl_id doc_delivery dd_delivery (fun _ _ => eq_refl) _ _ id (mt_deliveries _ _ Hm)).
  by apply run_read.
Qed.

Lemma change_ext {A} (p p' : A -> bool) f l : (forall x, p' x = p x) -> change p' f l = change p f l.
Proof. intros Hp. apply list_fmap_ext. intros i x _. by rewrite Hp. Qed.

(** [UPDATE ... WHERE id = ? AND ...] changes the row when it meets the rest. *)
Lemma run_update_job_if s q id p p' f :
  matching s q -> (forall j, p' j = with_id id j && p j) ->
  runs (update_jobs p' f) q
    (Ok (if match fs_jobs s !! id with Some d => p (jd_job d) | None => false end then 1 else 0))
    (if match fs_jobs s !! id with Some d => p (jd_job d) | None => false end
     then q <| sp_tables := (sp_tables q) <| sq_jobs := change (with_id id) f (sq_jobs (sp_tables q)) |> |>
     else q).
Proof.
  intros Hm Hp. pose proof (run_update_jobs plane_reliable p' f q) as Hrun.
  rewrite (count_if_ext _ _ _ (fun x _ => Hp x)), (change_ext _ _ _ _ Hp) in Hrun.
  destruct (fs_jobs s !! id) as [d|] eqn:Hd.
  - destruct (rows_lookup jb_id doc_job jd_job (fun _ _ => eq_refl) _ _ _ _ (mt_jobs _ _ Hm) Hd)
      as (n & Hn & Hname & _).
    destruct (rows_change_if jb_id doc_job _ _ n _ p f (mt_jobs _ _ Hm) Hn) as [Hch Hco].
    rewrite Hname in Hch, Hco. change (named jb_id id) with (with_id id) in Hch, Hco.
    rewrite Hch, Hco in Hrun. destruct (p (jd_job d)); [exact Hrun|].
    eapply runs_to; [|exact Hrun]. by destruct q as [[]].
  - apply (rows_names_lookup jb_id doc_job jd_job (fun _ _ => eq_refl) _ _ _ (mt_jobs _ _ Hm)) in Hd.
    destruct (change_missing jb_id (sq_jobs (sp_tables q)) id p f Hd) as [Hch Hco].
    change (named jb_id id) with (with_id id) in Hch, Hco. rewrite Hch, Hco in Hrun.
    eapply runs_to; [|exact Hrun]. by destruct q as [[]].
Qed.

Lemma run_update_delivery_if s q id p p' f :
  matching s q -> (forall d, p' d = delivers id d && p d) ->
  runs (update_deliveries p' f) q
    (Ok (if match fs_deliveries s !! id with Some d => p (dd_delivery d) | None => false end then 1 else 0))
    (if match fs_deliveries s !! id with Some d => p (dd_delivery d) | None => false end
     then q <| sp_tables := (sp_tables q)
               <| sq_deliveries := change (delivers id) f (sq_deliveries (sp_tables q)) |> |>
     else q).
Proof.
  intros Hm Hp. pose proof (run_update_deliveries plane_reliable p' f q) as Hrun.
  rewrite (count_if_ext _ _ _ (fun x _ => Hp x)), (change_ext _ _ _ _ Hp) in Hrun.
  destruct (fs_deliveries s !! id) as [d|] eqn:Hd.
  - destruct (rows_lookup dl_id doc_delivery dd_delivery (fun _ _ => eq_refl) _ _ _ _ (mt_deliveries _ _ Hm) Hd)
      as (n & Hn & Hname & _).
    destruct (rows_change_if dl_id doc_delivery _ _ n _ p f (mt_deliveries _ _ Hm) Hn) as [Hch Hco].
    rewrite Hname in Hch, Hco. change (named dl_id id) with (delivers id) in Hch, Hco.
    rewrite Hch, Hco in Hrun. destruct (p (dd_delivery d)); [exact Hrun|].
    eapply runs_to; [|exact Hrun]. by destruct q as [[]].
  - apply (rows_names_lookup dl_id doc_delivery dd_delivery (fun _ _ => eq_refl) _ _ _ (mt_deliveries _ _ Hm)) in Hd.
    destruct (change_missing dl_id (sq_deliveries (sp_tables q)) id p f Hd) as [Hch Hco].
    change (named dl_id id) with (delivers id) in Hch, Hco. rewrite Hch, Hco in Hrun.
    eapply runs_to; [|exact Hrun]. by destruct q as [[]].
Qed.

(** A refusal leaves everything but the clocks. *)
Lemma agree_refused {A} (m1 : ST Store exn A) (body : PlaneM A) s s1 q q1 e :
  matching s1 q1 -> sp_tables q1 = sp_tables q -> runs m1 s (Err e) s1 -> runs body q (Err e) q1 ->
  agree_run m1 (transaction body) s q.
Proof.
  intros Hm Ht Hfs Hsq. exists (Err e), s1, q1. split; [done|]. split; [|done].
  by apply run_transaction_reads.
Qed.

Lemma agree_done {A} (m1 : ST Store exn A) (body : PlaneM A) s s1 q q1 a :
  matching s1 q1 -> runs m1 s (Ok a) s1 -> runs body q (Ok a) q1 -> agree_run m1 (transaction body) s q.
Proof. intros Hm Hfs Hsq. exists (Ok a), s1, q1. split; [done|]. split; [|done]. by apply run_transaction. Qed.

Lemma fine_job s q id d : matching s q -> fs_jobs s !! id = Some d -> job_fine id (jd_job d).
Proof. intros Hm Hd. by apply (mt_fine _ _ Hm). Qed.

(** A job that does not pause, its checkpoint as it was. *)
Lemma keeps_by_status s id (j j' : Job) st :
  jb_checkpoint_id j' = jb_checkpoint_id j -> has_status st j' = true -> st <> I_PAUSED_APPROVAL ->
  keeps_decision s id j j'.
Proof.
  intros Hcp Hst Hne. right. split; [done|].
  destruct (has_status I_PAUSED_APPROVAL j') eqn:Hp; [|done].
  by destruct Hne, (has_status_excl _ _ _ Hst Hp).
Qed.

Lemma renew_running_agrees s q id token :
  matching s q -> sp_ticks q = fs_ticks s ->
  agree_run (renew_running config id token) (renew_running_ config id token) s q.
Proof.
  intros Hm Ht. set (now := plane_time (fs_ticks s)). set (until := f_add now (pf_claim_lease_seconds config)).
  pose proof (matching_ticks _ _ (S (fs_ticks s)) (S (fs_ticks s)) Hm) as Hm1.
  pose proof (run_update_job_if _ _ id (fun j => claim_held token j && unexpired (jb_claim_expires_at j) now)
    _ (renewed until) Hm1 (fun j => eq_sym (andb_assoc _ _ _))) as Hupd.
  cbn [fs_jobs set_field] in Hupd.
  destruct (fs_jobs s !! id) as [d|] eqn:Hd.
  2: { eapply agree_refused; [exact Hm1|done| |].
       - eapply runs_bind; [by apply run_job_get|]. eapply runs_bind; [apply run_clock|].
         rewrite Hd. apply runs_raise.
       - eapply runs_bind; [by apply run_begin|]. eapply runs_bind; [by apply run_time_at|].
         eapply runs_bind; [exact Hupd|apply runs_raise]. }
  pose proof (fine_job _ _ _ _ Hm Hd) as Hfine.
  rewrite unexpired_current in Hupd; [|apply Hfine|by apply (sc_now _ steady)].
  change (claim_held token (jd_job d) && _) with (claim_current token now (jd_job d)) in Hupd.
  destruct (claim_current token now (jd_job d)) eqn:Hc.
  - assert (Hfine' : job_fine id (renewed until (jd_job d))).
    { destruct Hfine. split; try done. simpl. intros e [= <-]. by apply (sc_lease _ steady). }
    pose proof (matching_job _ _ id d (renewed until) Hm1 Hd eq_refl Hfine'
      (keeps_by_status _ _ _ _ I_RUNNING eq_refl (current_runs _ _ _ Hc) (ltac:(done)))) as Hm2.
    eapply agree_done; [exact Hm2| |].
    + eapply runs_bind; [by apply run_job_get|]. eapply runs_bind; [apply run_clock|].
      fold now until. rewrite Hd, Hc. by apply run_set_job.
    + eapply runs_bind; [by apply run_begin|]. eapply runs_bind; [by apply run_time_at|].
      eapply runs_bind; [exact Hupd|apply runs_ret].
  - eapply agree_refused; [exact Hm1|done| |].
    + eapply runs_bind; [by apply run_job_get|]. eapply runs_bind; [apply run_clock|].
      fold now. rewrite Hd, Hc. apply runs_raise.
    + eapply runs_bind; [by apply run_begin|]. eapply runs_bind; [by apply run_time_at|].
      eapply runs_bind; [exact Hupd|apply runs_raise].
Qed.

(** The guard of the operations that read their row first. *)
Definition guarded (s : Store) (id token : string) (now : f64) (completed_conflicts : bool)
    : res JobDocument :=
  match fs_jobs s !! id with
  | None => Err not_found
  | Some d =>
      if completed_conflicts && has_status I_COMPLETED (jd_job d) then Err conflict
      else if claim_current token now (jd_job d) then Ok d else Err conflict
  end.

Lemma guarded_Ok s id token now cc d :
  guarded s id token now cc = Ok d ->
  fs_jobs s !! id = Some d /\ claim_current token now (jd_job d) = true.
Proof.
  unfold guarded. destruct (fs_jobs s !! id) as [d'|]; [|done]. case_match; [done|].
  destruct (claim_current _ _ _) eqn:Hc; [|done]. by intros [= <-].
Qed.

Lemma run_claimed_row s q id token now cc :
  matching s q ->
  runs (claimed_row id token now cc) q
    (match guarded s id token now cc with Ok d => Ok (jd_job d) | Err e => Err e end) q.
Proof.
  intros Hm. unfold guarded. eapply runs_bind; [by apply (run_job_row s)|].
  destruct (fs_jobs s !! id) as [d|]; [|apply runs_raise]. simpl.
  destruct (cc && has_status I_COMPLETED (jd_job d)); [apply runs_raise|].
  destruct (claim_current token now (jd_job d)); [apply runs_ret|apply runs_raise].
Qed.

(** A worker's report: what it checks, then what it changes. *)
Lemma agree_guarded {A} (m1 : ST Store exn A) (k : Job -> PlaneM A) s q id token cc :
  let now := plane_time (fs_ticks s) in
  let s1 := s <| fs_ticks := S (fs_ticks s) |> in
  let q1 := q <| sp_ticks := S (fs_ticks s) |> in
  matching s q -> sp_ticks q = fs_ticks s ->
  (forall e, guarded s id token now cc = Err e ->
     runs m1 s (Err e) s \/ runs m1 s (Err e) s1) ->
  (forall d, fs_jobs s !! id = Some d -> guarded s id token now cc = Ok d -> matching s1 q1 ->
     exists r s' q', runs m1 s r s' /\ runs (k (jd_job d)) q1 r q'
       /\ matching s' q' /\ (is_ok r = false -> sp_tables q' = sp_tables q)) ->
  agree_run m1 (transaction (_ ← begin_immediate_; now ← read_time;
    j ← claimed_row id token now cc; k j)) s q.
Proof.
  intros now s1 q1 Hm Ht Herr Hok.
  pose proof (matching_ticks _ _ (S (fs_ticks s)) (S (fs_ticks s)) Hm) as Hm1.
  pose proof (run_claimed_row s1 q1 id token now cc Hm1) as Hrow.
  change (guarded s1 id token now cc) with (guarded s id token now cc) in Hrow.
  assert (Hbody : forall r q', runs (j ← claimed_row id token now cc; k j) q1 r q' ->
    runs (_ ← begin_immediate_; now ← read_time; j ← claimed_row id token now cc; k j) q r q').
  { intros r q' Hr. eapply runs_bind; [by apply run_begin|]. eapply runs_bind; [by apply run_time_at|].
    exact Hr. }
  destruct (guarded s id token now cc) as [d|e] eqn:Hg.
  - destruct (guarded_Ok _ _ _ _ _ _ Hg) as [Hd _].
    destruct (Hok d Hd eq_refl Hm1) as (r & s' & q' & Hfs & Hsq & Hm' & Htab).
    exists r, s', q'. split; [done|]. split; [|done].
    assert (Hrun := Hbody _ _ (runs_bind _ _ _ _ _ _ _ Hrow Hsq)).
    destruct r; [by apply run_transaction|]. apply run_transaction_reads; [done..|]. by apply Htab.
  - assert (Hsql : runs (transaction (_ ← begin_immediate_; now ← read_time;
      j ← claimed_row id token now cc; k j)) q (Err e) q1).
    { apply run_transaction_reads; [done| |done]. apply Hbody. by apply runs_bind_err. }
    destruct (Herr e eq_refl) as [Hfs|Hfs].
    + exists (Err e), s, q1. split_and!; [done..|]. by apply matching_sql_ticks.
    + by exists (Err e), s1, q1.
Qed.

Lemma reserve_incident_agrees s q id token :
  matching s q -> sp_ticks q = fs_ticks s ->
  agree_run (reserve_incident id token) (reserve_incident_ id token) s q.
Proof.
  intros Hm Ht. apply (agree_guarded _ _ s q id token false Hm Ht).
  - intros e He. unfold guarded in He. destruct (fs_jobs s !! id) as [d|] eqn:Hd.
    + right. simpl in He. destruct (claim_current _ _ _) eqn:Hc; [done|]. injection He as <-.
      eapply runs_bind; [by apply run_job_get|]. rewrite Hd. eapply runs_bind; [apply run_clock|].
      rewrite Hc. apply runs_raise.
    + left. injection He as <-. eapply runs_bind; [by apply run_job_get|]. rewrite Hd. apply runs_raise.
  - intros d Hd [_ Hc]%guarded_Ok Hm1. pose proof (fine_job _ _ _ _ Hm Hd) as Hfine.
    assert (Hfs : forall r s', runs (match jb_incident_id (jd_job d) with
      | None => _ ← write (set_job id (on_job (reserved_incident ("scenario" +:+ id)) d));
                _ ← event id "scenario_reserved" [("incident_id", EStr ("scenario" +:+ id))];
                mret ("scenario" +:+ id)
      | Some stored => if isalnum stored then mret stored else raise corrupt end)
        (s <| fs_ticks := S (fs_ticks s) |>) r s' -> runs (reserve_incident id token) s r s').
    { intros r s' Hr. eapply runs_bind; [by apply run_job_get|]. rewrite Hd.
      eapply runs_bind; [apply run_clock|]. rewrite Hc. exact Hr. }
    destruct (jb_incident_id (jd_job d)) as [stored|] eqn:Hi.
    + destruct (isalnum stored).
      * eexists (Ok stored), _, _. split_and!; [apply Hfs, runs_ret|apply runs_ret|exact Hm1|done].
      * eexists (Err corrupt), _, _. split_and!; [apply Hfs, runs_raise|apply runs_raise|exact Hm1|done].
    + assert (Hfine' : job_fine id (reserved_incident ("scenario" +:+ id) (jd_job d))).
      { destruct Hfine. split; try done. by right. }
      pose proof (matching_job _ _ id d (reserved_incident ("scenario" +:+ id)) Hm1 Hd eq_refl Hfine'
        (keeps_by_status _ _ _ _ I_RUNNING eq_refl (current_runs _ _ _ Hc) (ltac:(done)))) as Hm2.
      pose proof (matching_event _ _ id "scenario_reserved" [("incident_id", EStr ("scenario" +:+ id))] Hm2) as Hm3.
      eexists (Ok _), _, _. split_and!; [| |exact Hm3|done].
      * apply Hfs. eapply runs_bind; [by apply run_set_job|]. eapply runs_bind; [by apply run_event|apply runs_ret].
      * eapply runs_bind; [by apply run_update_jobs|].
        eapply runs_bind; [apply run_event_; [done|]|apply runs_ret]. by apply (matching_dense _ _ id Hm2).
Qed.

(** The plane pauses a job once: it has no decision yet. *)
Lemma mark_paused_agrees s q id cp token :
  matching s q -> sp_ticks q = fs_ticks s -> fs_decisions s !! id = None ->
  agree_run (mark_paused id cp token) (mark_paused_ id cp token) s q.
Proof.
  intros Hm Ht Hnone. unfold mark_paused, mark_paused_. case_decide.
  { exists (Err ValueError), s, q. split_and!; [apply runs_raise..|done]. }
  apply (agree_guarded _ (fun _ => _ ← update_jobs (with_id id) (paused_at cp);
    event_ id "owner_decision_requested" [("checkpoint_id", EStr cp)]) s q id token false Hm Ht).
  - intros e He. unfold guarded in He. destruct (fs_jobs s !! id) as [d|] eqn:Hd.
    + right. simpl in He. destruct (claim_current _ _ _) eqn:Hc; [done|]. injection He as <-.
      eapply runs_bind; [by apply run_job_get|]. rewrite Hd. eapply runs_bind; [apply run_clock|].
      rewrite Hc. apply runs_raise.
    + left. injection He as <-. eapply runs_bind; [by apply run_job_get|]. rewrite Hd. apply runs_raise.
  - intros d Hd [_ Hc]%guarded_Ok Hm1. pose proof (fine_job _ _ _ _ Hm Hd) as Hfine.
    assert (Hfine' : job_fine id (paused_at cp (jd_job d))) by (destruct Hfine; by split).
    pose proof (matching_job _ _ id d (paused_at cp) Hm1 Hd eq_refl Hfine' (or_introl Hnone)) as Hm2.
    pose proof (matching_event _ _ id "owner_decision_requested" [("checkpoint_id", EStr cp)] Hm2) as Hm3.
    eexists (Ok tt), _, _. split_and!; [| |exact Hm3|done].
    + eapply runs_bind; [by apply run_job_get|]. rewrite Hd. eapply runs_bind; [apply run_clock|].
      rewrite Hc. eapply runs_bind; [by apply run_staged|].
      apply (run_batch served (fun s => set_event _ _ (set_job _ _ s))); [solve_respects|done].
    + eapply runs_bind; [by apply run_update_jobs|]. apply run_event_; [done|]. by apply (matching_dense _ _ id Hm2).
Qed.

Lemma completed_delivery s id d :
  plane_ok config s -> fs_jobs s !! id = Some d -> has_status I_RUNNING (jd_job d) = true ->
  fs_deliveries s !! id = None.
Proof.
  intros Hok Hd Hr. apply eq_None_not_Some. intros [v Hv].
  destruct (vk_job _ _ _ _ (po_deliveries _ _ Hok) id v Hv) as (j & [Hj Hc] & _).
  assert (j = d) as -> by congruence. by pose proof (has_status_excl _ _ _ Hc Hr).
Qed.

Lemma run_insert_delivery s q v :
  matching s q -> fs_deliveries s !! dl_id v = None ->
  runs (insert_delivery v) q (Ok tt)
    (q <| sp_tables := (sp_tables q) <| sq_deliveries := sq_deliveries (sp_tables q) ++ [v] |> |>).
Proof.
  intros Hm Hnone. apply run_statement; [done|].
  assert (Hid : existsb (delivers (dl_id v)) (sq_deliveries (sp_tables q)) = false).
  { pose proof (rows_named_exists dl_id doc_delivery dd_delivery (fun _ _ => eq_refl) _ _ (dl_id v)
      (mt_deliveries _ _ Hm)) as Hex. by rewrite Hnone in Hex. }
  by rewrite Hid.
Qed.

Lemma finalize_agrees s q id artifact token :
  plane_ok config s -> matching s q -> sp_ticks q = fs_ticks s ->
  agree_run (finalize id artifact token) (finalize_ id artifact token) s q.
Proof.
  intros Hok Hm Ht. unfold finalize, finalize_. case_decide.
  { exists (Err ValueError), s, q. split_and!; [apply runs_raise..|done]. }
  apply (agree_guarded _ (fun row => content ← report_snapshot_text id artifact;
    _ ← update_jobs (with_id id) (completed_job artifact content (sha256_hex content));
    _ ← insert_delivery (pending_delivery id (jb_owner row));
    event_ id "report_finalized" []) s q id token true Hm Ht).
  - intros e He. unfold guarded in He. destruct (fs_jobs s !! id) as [d|] eqn:Hd.
    + right. eapply runs_bind; [by apply run_job_get|]. rewrite Hd. eapply runs_bind; [apply run_clock|].
      simpl in He. destruct (has_status I_COMPLETED (jd_job d)); [injection He as <-; apply runs_raise|].
      destruct (claim_current _ _ _) eqn:Hc; [done|]. injection He as <-. apply runs_raise.
    + left. injection He as <-. eapply runs_bind; [by apply run_job_get|]. rewrite Hd. apply runs_raise.
  - intros d Hd [_ Hc]%guarded_Ok Hm1. pose proof (fine_job _ _ _ _ Hm Hd) as Hfine.
    pose proof (current_runs _ _ _ Hc) as Hrun.
    pose proof (completed_delivery s id d Hok Hd Hrun) as Hnodel.
    set (s1 := s <| fs_ticks := S (fs_ticks s) |>) in *. set (q1 := q <| sp_ticks := S (fs_ticks s) |>) in *.
    pose proof (matching_reads _ _ Hm1) as Hm2.
    pose proof (run_snapshot id artifact s1) as Hsnap. pose proof (run_report_text id artifact q1) as Htext.
    rewrite (mt_reads _ _ Hm1) in Htext at 1.
    assert (Hfs : forall r s', runs (content ← snapshot_text id artifact;
        all ← deliveries_where (fun _ => true); e ← staged_event id "report_finalized" [];
        write (fun s => set_event id e
          (set_delivery id {| dd_sequence := Z.of_nat (length all);
                              dd_delivery := pending_delivery id (jb_owner (jd_job d)) |}
            (set_job id (on_job (completed_job artifact content (sha256_hex content)) d) s)))) s1 r s' ->
      runs (snapshot ← job_ref_get id;
        match snapshot with
        | None => raise not_found
        | Some d =>
            now ← clock_reading;
            if has_status I_COMPLETED (jd_job d) then raise conflict
            else if negb (claim_current token now (jd_job d)) then raise conflict
            else
              content ← snapshot_text id artifact;
              all ← deliveries_where (fun _ => true);
              e ← staged_event id "report_finalized" [];
              write (fun s => set_event id e
                (set_delivery id {| dd_sequence := Z.of_nat (length all);
                                    dd_delivery := pending_delivery id (jb_owner (jd_job d)) |}
                  (set_job id (on_job (completed_job artifact content (sha256_hex content)) d) s)))
        end) s r s').
    { intros r s' Hr. eapply runs_bind; [by apply run_job_get|]. rewrite Hd.
      eapply runs_bind; [apply run_clock|]. rewrite (excl_completed I_RUNNING _ Hrun), Hc by done. exact Hr. }
    destruct (read_report_snapshot (fs_reads s1) id artifact) as [content|e].
    + assert (Hfine' : job_fine id (completed_job artifact content (sha256_hex content) (jd_job d))).
      { destruct Hfine. by split. }
      pose proof (matching_job _ _ id d (completed_job artifact content (sha256_hex content)) Hm2 Hd eq_refl
        Hfine' (keeps_by_status s id (jd_job d) (completed_job artifact content (sha256_hex content) (jd_job d))
          I_COMPLETED eq_refl eq_refl (ltac:(done)))) as Hm3.
      pose proof (matching_new_delivery _ _ (pending_delivery id (jb_owner (jd_job d))) Hm3 Hnodel (ltac:(by split))) as Hm4.
      pose proof (matching_event _ _ id "report_finalized" [] Hm4) as Hm5.
      eexists (Ok tt), _, _. split_and!; [| |exact Hm5|done].
      * apply Hfs. eapply runs_bind; [exact Hsnap|]. eapply runs_bind; [by apply run_deliveries_where|].
        eapply runs_bind; [by apply run_staged|]. cbv beta. rewrite keep_all, stream_length.
        apply (run_batch served (fun s => set_event _ _ (set_delivery _ _ (set_job _ _ s)))); [solve_respects|done].
      * eapply runs_bind; [exact Htext|]. eapply runs_bind; [by apply run_update_jobs|].
        eapply runs_bind; [by apply (run_insert_delivery _ _ _ Hm3)|].
        apply run_event_; [done|]. by apply (matching_dense _ _ id Hm4).
    + eexists (Err e), _, _. split_and!; [| |exact Hm2|done].
      * apply Hfs. apply runs_bind_err. exact Hsnap.
      * apply runs_bind_err. exact Htext.
Qed.

Lemma requeue_running_agrees s q id token :
  matching s q -> agree_run (requeue_running id token) (requeue_running_ id token) s q.
Proof.
  intros Hm. pose proof (run_update_job_if _ _ id (claim_held token) _ released Hm (fun _ => eq_refl)) as Hupd.
  destruct (fs_jobs s !! id) as [d|] eqn:Hd.
  2: { eapply agree_refused; [exact Hm|done| |].
       - eapply runs_bind; [by apply run_job_get|]. rewrite Hd. apply runs_raise.
       - eapply runs_bind; [by apply run_begin|]. eapply runs_bind; [exact Hupd|apply runs_raise]. }
  destruct (claim_held token (jd_job d)) eqn:Hc.
  - pose proof (fine_job _ _ _ _ Hm Hd) as Hfine.
    assert (Hfine' : job_fine id (released (jd_job d))) by (destruct Hfine; by split).
    pose proof (matching_job _ _ id d released Hm Hd eq_refl Hfine' (keeps_by_status s id (jd_job d)
      (released (jd_job d)) I_QUEUED eq_refl eq_refl (ltac:(done)))) as Hm1.
    pose proof (matching_event _ _ id "investigation_requeued" [] Hm1) as Hm2.
    eapply agree_done; [exact Hm2| |].
    + eapply runs_bind; [by apply run_job_get|]. rewrite Hd, Hc.
      eapply runs_bind; [by apply run_set_job|by apply run_event].
    + eapply runs_bind; [by apply run_begin|]. eapply runs_bind; [exact Hupd|].
      apply run_event_; [done|]. by apply (matching_dense _ _ id Hm1).
  - eapply agree_refused; [exact Hm|done| |].
    + eapply runs_bind; [by apply run_job_get|]. rewrite Hd, Hc. apply runs_raise.
    + eapply runs_bind; [by apply run_begin|]. eapply runs_bind; [exact Hupd|apply runs_raise].
Qed.

(** The rest of a retry, once the claim is found to be held. *)
Definition fs_retry (id : string) (error : exn) (d : JobDocument) : StoreM bool :=
  let attempt := jb_attempt_count (jd_job d) + 1 in
  if pf_max_replay_attempts config <=? attempt then
    _ ← write (set_job id (on_job (given_up attempt ("retry_limit:" +:+ exn_name error)) d));
    _ ← event id "investigation_failed" (attempt_fields attempt);
    mret false
  else
    now ← clock_reading;
    delay ← lift_result (retry_delay config attempt);
    let retry_at := f_add now delay in
    _ ← write (set_job id (on_job (rescheduled attempt retry_at) d));
    _ ← event id "investigation_retry_scheduled" (retry_fields attempt retry_at);
    mret true.

Definition sq_retry (id : string) (error : exn) (j : Job) : PlaneM bool :=
  let attempt := jb_attempt_count j + 1 in
  if pf_max_replay_attempts config <=? attempt then
    _ ← update_jobs (with_id id) (given_up attempt ("retry_limit:" +:+ exn_name error));
    _ ← event_ id "investigation_failed" (attempt_fields attempt);
    mret false
  else
    now ← read_time;
    delay ← lift_result (retry_delay config attempt);
    let retry_at := f_add now delay in
    _ ← update_jobs (with_id id) (rescheduled attempt retry_at);
    _ ← event_ id "investigation_retry_scheduled" (retry_fields attempt retry_at);
    mret true.

(** A job goes back to the queue, and the event says so. *)
Lemma requeue_matches s q id d f name fields :
  matching s q -> fs_jobs s !! id = Some d -> jb_id (f (jd_job d)) = jb_id (jd_job d) ->
  job_fine id (f (jd_job d)) -> jb_checkpoint_id (f (jd_job d)) = jb_checkpoint_id (jd_job d) ->
  has_status I_QUEUED (f (jd_job d)) = true ->
  exists q', matching (log_event id name fields (set_job id (on_job f d) s)) q'
    /\ forall {A} (a : A),
         runs (_ ← update_jobs (with_id id) f; _ ← event_ id name fields; mret a) q (Ok a) q'
         /\ runs (_ ← write (set_job id (on_job f d)); _ ← event id name fields; mret a) s (Ok a)
             (log_event id name fields (set_job id (on_job f d) s)).
Proof.
  intros Hm Hd Hid Hfine Hcp Hq.
  pose proof (matching_job _ _ id d f Hm Hd Hid Hfine
    (keeps_by_status s id (jd_job d) (f (jd_job d)) I_QUEUED Hcp Hq (ltac:(done)))) as Hm1.
  pose proof (matching_event _ _ id name fields Hm1) as Hm2.
  eexists. split; [exact Hm2|]. intros A a. split.
  - eapply runs_bind; [by apply run_update_jobs|].
    eapply runs_bind; [apply run_event_; [done|]|apply runs_ret]. by apply (matching_dense _ _ id Hm1).
  - eapply runs_bind; [by apply run_set_job|]. eapply runs_bind; [by apply run_event|apply runs_ret].
Qed.

Lemma retry_matches s q id error d :
  plane_ok config s -> matching s q -> sp_ticks q = fs_ticks s -> fs_jobs s !! id = Some d ->
  has_status I_RUNNING (jd_job d) = true ->
  exists r s' q', runs (fs_retry id error d) s r s' /\ runs (sq_retry id error (jd_job d)) q r q'
    /\ matching s' q' /\ (is_ok r = false -> sp_tables q' = sp_tables q).
Proof.
  intros Hok Hm Ht Hd Hrun. pose proof (fine_job _ _ _ _ Hm Hd) as Hfine.
  pose proof (jo_attempts _ _ _ _ _ (jk_job _ _ _ (po_jobs _ _ Hok) id d Hd)) as Hatt.
  unfold fs_retry, sq_retry. cbv zeta. set (attempt := jb_attempt_count (jd_job d) + 1).
  destruct (pf_max_replay_attempts config <=? attempt) eqn:Hmax.
  - destruct (requeue_matches s q id d (given_up attempt ("retry_limit:" +:+ exn_name error))
      "investigation_failed" (attempt_fields attempt) Hm Hd) as (q' & Hm' & Hrun'); try done.
    { destruct Hfine. by split. }
    destruct (Hrun' bool false). by eexists (Ok false), _, q'.
  - pose proof (matching_ticks _ _ (S (fs_ticks s)) (S (fs_ticks s)) Hm) as Hm1.
    destruct (retry_delay config attempt) as [delay|e] eqn:Hdelay.
    2: { eexists (Err e), _, _. split_and!; [| |exact Hm1|done].
         - eapply runs_bind; [apply run_clock|]. apply runs_bind_err, runs_lift.
         - eapply runs_bind; [by apply run_time_at|]. apply runs_bind_err, runs_lift. }
    set (retry_at := f_add (plane_time (fs_ticks s)) delay).
    destruct (requeue_matches _ _ id d (rescheduled attempt retry_at) "investigation_retry_scheduled"
      (retry_fields attempt retry_at) Hm1 Hd) as (q' & Hm' & Hrun'); try done.
    { destruct Hfine. split; try done. apply (sc_retry _ steady _ attempt); [lia|done]. }
    destruct (Hrun' bool true) as [Hsq Hfs]. eexists (Ok true), _, q'. split_and!; [| |exact Hm'|done].
    + eapply runs_bind; [apply run_clock|]. eapply runs_bind; [apply runs_lift|]. exact Hfs.
    + eapply runs_bind; [by apply run_time_at|]. eapply runs_bind; [apply runs_lift|]. exact Hsq.
Qed.

Lemma retry_running_agrees s q id token error :
  plane_ok config s -> matching s q -> sp_ticks q = fs_ticks s ->
  agree_run (retry_running config id token error) (retry_running_ config id token error) s q.
Proof.
  intros Hok Hm Ht. pose proof (run_job_row s q id Hm) as Hrow.
  destruct (fs_jobs s !! id) as [d|] eqn:Hd.
  2: { eapply agree_refused; [exact Hm|done| |].
       - eapply runs_bind; [by apply run_job_get|]. rewrite Hd. apply runs_raise.
       - eapply runs_bind; [by apply run_begin|]. eapply runs_bind; [exact Hrow|apply runs_raise]. }
  destruct (claim_held token (jd_job d)) eqn:Hc.
  2: { eapply agree_refused; [exact Hm|done| |].
       - eapply runs_bind; [by apply run_job_get|]. rewrite Hd, Hc. apply runs_raise.
       - eapply runs_bind; [by apply run_begin|]. eapply runs_bind; [exact Hrow|]. simpl. rewrite Hc. apply runs_raise. }
  destruct (retry_matches s q id error d Hok Hm Ht Hd (held_runs _ _ Hc)) as (r & s' & q' & Hfs & Hsq & Hm' & Htab).
  exists r, s', q'. split_and!; [| |done].
  - eapply runs_bind; [by apply run_job_get|]. rewrite Hd, Hc. exact Hfs.
  - assert (Hbody : runs (_ ← begin_immediate_; row ← job_row (with_id id);
      match row with
      | None => raise not_found
      | Some j => if negb (claim_held token j) then raise conflict else sq_retry id error j
      end) q r q').
    { eapply runs_bind; [by apply run_begin|]. eapply runs_bind; [exact Hrow|]. simpl. by rewrite Hc. }
    destruct r; [by apply run_transaction|]. apply run_transaction_reads; [done..|]. by apply Htab.
Qed.
End workers.

Section deliveries.
Context `{FirestoreLaws} `{PlaneStatements} `{Sqlite} `{FreshIds} `{PlaneClock} `{LedgerClock} `{Artifacts}.
Hypothesis served : forall n, reply n = Served.
Hypothesis plane_reliable : forall n, plane_statement_fails n = false.
Hypothesis ledger_reliable : forall n, statement_fails n = false.
Variable config : PlaneConfig.
Hypothesis steady : steady_clock config.

Lemma fine_delivery s q id d : matching s q -> fs_deliveries s !! id = Some d -> delivery_fine (dd_delivery d).
Proof. intros Hm Hd. by apply (mt_delivery_fine _ _ Hm id). Qed.

(** The delivery is written, and the event says so. *)
Lemma delivery_matches s q id d f name fields :
  matching s q -> fs_deliveries s !! id = Some d -> dl_id (f (dd_delivery d)) = dl_id (dd_delivery d) ->
  delivery_fine (f (dd_delivery d)) ->
  let q1 := q <| sp_tables := (sp_tables q)
                <| sq_deliveries := change (delivers id) f (sq_deliveries (sp_tables q)) |> |> in
  exists q', matching (log_event id name fields (set_delivery id (on_delivery f d) s)) q'
    /\ runs (event_ id name fields) q1 (Ok tt) q'
    /\ runs (_ ← write (set_delivery id (on_delivery f d)); event id name fields) s (Ok tt)
        (log_event id name fields (set_delivery id (on_delivery f d) s)).
Proof.
  intros Hm Hd Hid Hfine q1. pose proof (matching_delivery _ _ id d f Hm Hd Hid Hfine) as Hm1.
  eexists. split; [exact (matching_event _ _ id name fields Hm1)|]. split.
  - apply run_event_; [done|]. by apply (matching_dense _ _ id Hm1).
  - eapply runs_bind; [by apply run_set_delivery|by apply run_event].
Qed.

Lemma sending_agrees s q id token d n :
  matching s q -> fs_deliveries s !! id = Some d ->
  delivery_held token (dd_delivery d) && unexpired (dl_claim_expires_at (dd_delivery d)) (plane_time n)
  = delivery_current token (plane_time n) (dd_delivery d).
Proof.
  intros Hm Hd. unfold delivery_current. rewrite unexpired_current; [done| |by apply (sc_now _ steady)].
  apply (fine_delivery _ _ _ _ Hm Hd).
Qed.

Lemma mark_delivered_agrees s q id token :
  matching s q -> sp_ticks q = fs_ticks s ->
  agree_run (mark_delivered id token) (mark_delivered_ id token) s q.
Proof.
  intros Hm Ht. set (now := plane_time (fs_ticks s)).
  pose proof (matching_ticks _ _ (S (fs_ticks s)) (S (fs_ticks s)) Hm) as Hm1.
  pose proof (run_update_delivery_if plane_reliable _ _ id
    (fun d => delivery_held token d && unexpired (dl_claim_expires_at d) now) _ sent_delivery Hm1
    (fun d => eq_sym (andb_assoc _ _ _))) as Hupd. cbn [fs_deliveries set_field] in Hupd.
  destruct (fs_deliveries s !! id) as [d|] eqn:Hd.
  2: { eapply agree_refused; [done|exact Hm1|done| |].
       - eapply runs_bind; [by apply run_delivery_get|]. eapply runs_bind; [apply run_clock|].
         rewrite Hd. apply runs_raise.
       - eapply runs_bind; [by apply run_time_at|]. eapply runs_bind; [exact Hupd|apply runs_raise]. }
  pose proof (sending_agrees s q id token d (fs_ticks s) Hm Hd) as Hsame. fold now in Hsame.
  rewrite Hsame in Hupd. clear Hsame.
  destruct (delivery_current token now (dd_delivery d)) eqn:Hc.
  - destruct (delivery_matches _ _ id d sent_delivery "report_delivered" [] Hm1 Hd eq_refl)
      as (q' & Hm' & Hsq & Hfs).
    { destruct (fine_delivery _ _ _ _ Hm Hd). by split. }
    eapply agree_done; [done|exact Hm'| |].
    + eapply runs_bind; [by apply run_delivery_get|]. eapply runs_bind; [apply run_clock|].
      fold now. rewrite Hd, Hc. exact Hfs.
    + eapply runs_bind; [by apply run_time_at|]. eapply runs_bind; [exact Hupd|exact Hsq].
  - eapply agree_refused; [done|exact Hm1|done| |].
    + eapply runs_bind; [by apply run_delivery_get|]. eapply runs_bind; [apply run_clock|].
      fold now. rewrite Hd, Hc. apply runs_raise.
    + eapply runs_bind; [by apply run_time_at|]. eapply runs_bind; [exact Hupd|apply runs_raise].
Qed.

Lemma renew_delivery_agrees s q id token :
  matching s q -> sp_ticks q = fs_ticks s ->
  agree_run (renew_delivery config id token) (renew_delivery_ config id token) s q.
Proof.
  intros Hm Ht. set (now := plane_time (fs_ticks s)). set (until := f_add now (pf_claim_lease_seconds config)).
  pose proof (matching_ticks _ _ (S (fs_ticks s)) (S (fs_ticks s)) Hm) as Hm1.
  pose proof (run_update_delivery_if plane_reliable _ _ id
    (fun d => delivery_held token d && unexpired (dl_claim_expires_at d) now) _ (renewed_delivery until) Hm1
    (fun d => eq_sym (andb_assoc _ _ _))) as Hupd. cbn [fs_deliveries set_field] in Hupd.
  destruct (fs_deliveries s !! id) as [d|] eqn:Hd.
  2: { eapply agree_refused; [done|exact Hm1|done| |].
       - eapply runs_bind; [by apply run_delivery_get|]. eapply runs_bind; [apply run_clock|].
         rewrite Hd. apply runs_raise.
       - eapply runs_bind; [by apply run_begin|]. eapply runs_bind; [by apply run_time_at|].
         eapply runs_bind; [exact Hupd|apply runs_raise]. }
  pose proof (sending_agrees s q id token d (fs_ticks s) Hm Hd) as Hsame. fold now in Hsame.
  rewrite Hsame in Hupd. clear Hsame.
  destruct (delivery_current token now (dd_delivery d)) eqn:Hc.
  - assert (Hfine : delivery_fine (renewed_delivery until (dd_delivery d))).
    { destruct (fine_delivery _ _ _ _ Hm Hd). split; [done|]. simpl. intros e [= <-].
      by apply (sc_lease _ steady). }
    pose proof (matching_delivery _ _ id d (renewed_delivery until) Hm1 Hd eq_refl Hfine) as Hm2.
    eapply agree_done; [done|exact Hm2| |].
    + eapply runs_bind; [by apply run_delivery_get|]. eapply runs_bind; [apply run_clock|].
      fold now until. rewrite Hd, Hc. by apply run_set_delivery.
    + eapply runs_bind; [by apply run_begin|]. eapply runs_bind; [by apply run_time_at|].
      eapply runs_bind; [exact Hupd|apply runs_ret].
  - eapply agree_refused; [done|exact Hm1|done| |].
    + eapply runs_bind; [by apply run_delivery_get|]. eapply runs_bind; [apply run_clock|].
      fold now. rewrite Hd, Hc. apply runs_raise.
    + eapply runs_bind; [by apply run_begin|]. eapply runs_bind; [by apply run_time_at|].
      eapply runs_bind; [exact Hupd|apply runs_raise].
Qed.

Lemma release_delivery_agrees s q id token :
  matching s q -> agree_run (release_delivery id token) (release_delivery_ id token) s q.
Proof.
  intros Hm. pose proof (run_update_delivery_if plane_reliable _ _ id (delivery_held token) _
    released_delivery Hm (fun _ => eq_refl)) as Hupd.
  destruct (fs_deliveries s !! id) as [d|] eqn:Hd.
  2: { eapply agree_refused; [done|exact Hm|done| |].
       - eapply runs_bind; [by apply run_delivery_get|]. rewrite Hd. apply runs_raise.
       - eapply runs_bind; [exact Hupd|apply runs_raise]. }
  destruct (delivery_held token (dd_delivery d)) eqn:Hc.
  - destruct (delivery_matches _ _ id d released_delivery "report_delivery_requeued" [] Hm Hd eq_refl)
      as (q' & Hm' & Hsq & Hfs).
    { destruct (fine_delivery _ _ _ _ Hm Hd). by split. }
    eapply agree_done; [done|exact Hm'| |].
    + eapply runs_bind; [by apply run_delivery_get|]. rewrite Hd, Hc. exact Hfs.
    + eapply runs_bind; [exact Hupd|exact Hsq].
  - eapply agree_refused; [done|exact Hm|done| |].
    + eapply runs_bind; [by apply run_delivery_get|]. rewrite Hd, Hc. apply runs_raise.
    + eapply runs_bind; [exact Hupd|apply runs_raise].
Qed.

(** The rest of a retry, once the claim is found to be held. *)
Definition fs_retry_delivery (id : string) (error : exn) (d : DeliveryDocument) : StoreM bool :=
  let attempt := dl_attempt_count (dd_delivery d) + 1 in
  if pf_max_delivery_attempts config <=? attempt then
    _ ← write (set_delivery id
          (on_delivery (given_up_delivery attempt ("retry_limit:" +:+ exn_name error)) d));
    _ ← event id "report_delivery_failed" (attempt_fields attempt);
    mret false
  else
    now ← clock_reading;
    delay ← lift_result (retry_delay config attempt);
    let retry_at := f_add now delay in
    _ ← write (set_delivery id (on_delivery (rescheduled_delivery attempt retry_at) d));
    _ ← event id "report_delivery_retry_scheduled" (retry_fields attempt retry_at);
    mret true.

Definition sq_retry_delivery (id : string) (error : exn) (d : Delivery) : PlaneM bool :=
  let attempt := dl_attempt_count d + 1 in
  if pf_max_delivery_attempts config <=? attempt then
    _ ← update_deliveries (delivers id)
          (given_up_delivery attempt ("retry_limit:" +:+ exn_name error));
    _ ← event_ id "report_delivery_failed" (attempt_fields attempt);
    mret false
  else
    now ← read_time;
    delay ← lift_result (retry_delay config attempt);
    let retry_at := f_add now delay in
    _ ← update_deliveries (delivers id) (rescheduled_delivery attempt retry_at);
    _ ← event_ id "report_delivery_retry_scheduled" (retry_fields attempt retry_at);
    mret true.

Lemma delivery_matches_then {A} s q id d f name fields (a : A) :
  matching s q -> fs_deliveries s !! id = Some d -> dl_id (f (dd_delivery d)) = dl_id (dd_delivery d) ->
  delivery_fine (f (dd_delivery d)) ->
  exists s' q', matching s' q'
    /\ runs (_ ← update_deliveries (delivers id) f; _ ← event_ id name fields; mret a) q (Ok a) q'
    /\ runs (_ ← write (set_delivery id (on_delivery f d)); _ ← event id name fields; mret a) s (Ok a) s'.
Proof.
  intros Hm Hd Hid Hfine.
  destruct (delivery_matches s q id d f name fields Hm Hd Hid Hfine) as (q' & Hm' & Hsq & Hfs).
  eexists _, q'. split; [exact Hm'|]. split.
  - eapply runs_bind; [by apply run_update_deliveries|]. eapply runs_bind; [exact Hsq|apply runs_ret].
  - eapply runs_bind; [by apply run_set_delivery|]. eapply runs_bind; [by apply run_event|apply runs_ret].
Qed.

Lemma retry_delivery_matches s q id error d :
  plane_ok config s -> matching s q -> sp_ticks q = fs_ticks s -> fs_deliveries s !! id = Some d ->
  exists r s' q', runs (fs_retry_delivery id error d) s r s'
    /\ runs (sq_retry_delivery id error (dd_delivery d)) q r q'
    /\ matching s' q' /\ (is_ok r = false -> sp_tables q' = sp_tables q).
Proof.
  intros Hok Hm Ht Hd. pose proof (fine_delivery _ _ _ _ Hm Hd) as Hfine.
  pose proof (do_attempts _ _ _ _ _ (vk_delivery _ _ _ _ (po_deliveries _ _ Hok) id d Hd)) as Hatt.
  unfold fs_retry_delivery, sq_retry_delivery. cbv zeta.
  set (attempt := dl_attempt_count (dd_delivery d) + 1).
  destruct (pf_max_delivery_attempts config <=? attempt) eqn:Hmax.
  - destruct (delivery_matches_then s q id d (given_up_delivery attempt ("retry_limit:" +:+ exn_name error))
      "report_delivery_failed" (attempt_fields attempt) false Hm Hd) as (s' & q' & Hm' & Hsq & Hfs); try done.
    { destruct Hfine. by split. }
    by exists (Ok false), s', q'.
  - pose proof (matching_ticks _ _ (S (fs_ticks s)) (S (fs_ticks s)) Hm) as Hm1.
    destruct (retry_delay config attempt) as [delay|e] eqn:Hdelay.
    2: { eexists (Err e), _, _. split_and!; [| |exact Hm1|done].
         - eapply runs_bind; [apply run_clock|]. apply runs_bind_err, runs_lift.
         - eapply runs_bind; [by apply run_time_at|]. apply runs_bind_err, runs_lift. }
    set (retry_at := f_add (plane_time (fs_ticks s)) delay).
    destruct (delivery_matches_then _ _ id d (rescheduled_delivery attempt retry_at)
      "report_delivery_retry_scheduled" (retry_fields attempt retry_at) true Hm1 Hd)
      as (s' & q' & Hm' & Hsq & Hfs); try done.
    { destruct Hfine. split; [|done]. apply (sc_retry _ steady _ attempt); [lia|done]. }
    exists (Ok true), s', q'. split_and!; [| |exact Hm'|done].
    + eapply runs_bind; [apply run_clock|]. eapply runs_bind; [apply runs_lift|]. exact Hfs.
    + eapply runs_bind; [by apply run_time_at|]. eapply runs_bind; [apply runs_lift|]. exact Hsq.
Qed.

Lemma retry_delivery_agrees s q id token error :
  plane_ok config s -> matching s q -> sp_ticks q = fs_ticks s ->
  agree_run (retry_delivery config id token error) (retry_delivery_ config id token error) s q.
Proof.
  intros Hok Hm Ht. pose proof (run_delivery_row plane_reliable s q id Hm) as Hrow.
  destruct (fs_deliveries s !! id) as [d|] eqn:Hd.
  2: { eapply agree_refused; [done|exact Hm|done| |].
       - eapply runs_bind; [by apply run_delivery_get|]. rewrite Hd. apply runs_raise.
       - eapply runs_bind; [by apply run_begin|]. eapply runs_bind; [exact Hrow|apply runs_raise]. }
  destruct (delivery_held token (dd_delivery d)) eqn:Hc.
  2: { eapply agree_refused; [done|exact Hm|done| |].
       - eapply runs_bind; [by apply run_delivery_get|]. rewrite Hd, Hc. apply runs_raise.
       - eapply runs_bind; [by apply run_begin|]. eapply runs_bind; [exact Hrow|]. simpl. rewrite Hc. apply runs_raise. }
  destruct (retry_delivery_matches s q id error d Hok Hm Ht Hd) as (r & s' & q' & Hfs & Hsq & Hm' & Htab).
  exists r, s', q'. split_and!; [| |done].
  - eapply runs_bind; [by apply run_delivery_get|]. rewrite Hd, Hc. exact Hfs.
  - assert (Hbody : runs (_ ← begin_immediate_; row ← delivery_row (delivers id);
      match row with
      | None => raise not_found
      | Some d => if negb (delivery_held token d) then raise conflict else sq_retry_delivery id error d
      end) q r q').
    { eapply runs_bind; [by apply run_begin|]. eapply runs_bind; [exact Hrow|]. simpl. by rewrite Hc. }
    destruct r; [by apply run_transaction|]. apply run_transaction_reads; [done..|]. by apply Htab.
Qed.
End deliveries.
