(* ===== verification/PlaneClaims.v ===== *)
(** The two control planes hand the worker the same next job, after the same sweep of
    expired claims: the Firestore plane takes them in the order its query gives them,
    the SQLite plane in rowid order, and both leave the same. *)
From Stdlib Require Import ZArith Lia.
From stdpp Require Import prelude strings list gmap relations.
From S2P Require Import Prelude PyText Float64 Tools Domain World Sqlite Approvals ControlPlane PlaneOrder FirestorePlane Lifecycle FirestoreSteps FirestoreProps SqlitePlane PlaneMatch PlanesAgree PlaneOwners PlaneWorkers.
Local Open Scope Z_scope.

(** * Order does not matter *)

Lemma fold_left_perm {S D} (key : D -> string) (step : S -> D -> S) :
  (forall s a b, key a <> key b -> step (step s a) b = step (step s b) a) ->
  forall l l' s, l ≡ₚ l' -> NoDup (key <$> l) -> fold_left step l s = fold_left step l' s.
Proof.
  intros Hcomm l l' s Hperm. revert s. induction Hperm as [|x l l' Hp IH|x y l|l1 l2 l3 H12 IH12 H23 IH23];
    intros s Hnd; simpl.
  - done.
  - apply NoDup_cons in Hnd as [_ Hnd]. by apply IH.
  - rewrite Hcomm; [done|]. apply NoDup_cons in Hnd as [Hnin _]. intros Heq. apply Hnin. rewrite Heq. by left.
  - rewrite IH12 by done. apply IH23. by rewrite <- H12.
Qed.

Lemma insert_two {A} (m : gmap string A) i j x y :
  i <> j -> <[i := x]> (<[j := y]> m) = <[j := y]> (<[i := x]> m).
Proof. intros Hne. by apply insert_insert_ne. Qed.

Lemma log_elsewhere i j n f n' f' s :
  i <> j -> log_event j n' f' (log_event i n f s) = log_event i n f (log_event j n' f' s).
Proof.
  intros Hne. destruct s. unfold log_event, set_event, next_event, events_of. cbn.
  rewrite !lookup_insert_ne by done. by rewrite insert_two.
Qed.

Lemma job_sweeps_commute i j x y n f n' f' s :
  i <> j ->
  log_event j n' f' (set_job j y (log_event i n f (set_job i x s)))
  = log_event i n f (set_job i x (log_event j n' f' (set_job j y s))).
Proof.
  intros Hne. transitivity (log_event j n' f' (log_event i n f (set_job j y (set_job i x s)))); [done|].
  rewrite log_elsewhere by done. 
  transitivity (log_event i n f (log_event j n' f' (set_job i x (set_job j y s)))); [|done].
  do 2 f_equal. destruct s. unfold set_job. cbn. by rewrite insert_two.
Qed.

Lemma delivery_sweeps_commute i j x y n f n' f' s :
  i <> j ->
  log_event j n' f' (set_delivery j y (log_event i n f (set_delivery i x s)))
  = log_event i n f (set_delivery i x (log_event j n' f' (set_delivery j y s))).
Proof.
  intros Hne. transitivity (log_event j n' f' (log_event i n f (set_delivery j y (set_delivery i x s)))); [done|].
  rewrite log_elsewhere by done.
  transitivity (log_event i n f (log_event j n' f' (set_delivery i x (set_delivery j y s)))); [|done].
  do 2 f_equal. destruct s. unfold set_delivery. cbn. by rewrite insert_two.
Qed.

Section sweeps.
Context `{FirestoreLaws} `{PlaneStatements} `{Sqlite} `{FreshIds} `{PlaneClock} `{LedgerClock} `{Artifacts}.
Hypothesis served : forall n, reply n = Served.
Hypothesis plane_reliable : forall n, plane_statement_fails n = false.
Variable config : PlaneConfig.
Hypothesis steady : steady_clock config.
(** Within these bounds no backoff overflows. *)
Hypothesis attempts_bound :
  pf_max_replay_attempts config <= 1024 /\ pf_max_delivery_attempts config <= 1024.

Lemma retry_delay_ok attempt :
  1 <= attempt < Z.max (pf_max_replay_attempts config) (pf_max_delivery_attempts config) ->
  exists delay, retry_delay config attempt = Ok delay.
Proof.
  intros Ha. unfold retry_delay, two_to. replace (attempt - 1 <? 0) with false by lia.
  replace (1024 <=? attempt - 1) with false by lia. by eexists.
Qed.

Definition delay_of (attempt : Z) : f64 := match retry_delay config attempt with Ok d => d | Err _ => f_zero end.

(** What becomes of one expired claim. *)
Definition sweep_job (now : f64) (s : Store) (d : JobDocument) : Store :=
  let id := jb_id (jd_job d) in
  let attempt := jb_attempt_count (jd_job d) + 1 in
  if pf_max_replay_attempts config <=? attempt
  then log_event id "investigation_failed" (attempt_fields attempt)
         (set_job id (on_job (given_up attempt "retry_limit:lease_expired") d) s)
  else log_event id "investigation_lease_expired" (retry_fields attempt (f_add now (delay_of attempt)))
         (set_job id (on_job (rescheduled attempt (f_add now (delay_of attempt))) d) s).

Definition sweep_delivery (now : f64) (s : Store) (d : DeliveryDocument) : Store :=
  let id := dl_id (dd_delivery d) in
  let attempt := dl_attempt_count (dd_delivery d) + 1 in
  if pf_max_delivery_attempts config <=? attempt
  then log_event id "report_delivery_failed" (attempt_fields attempt)
         (set_delivery id (on_delivery (given_up_delivery attempt "retry_limit:lease_expired") d) s)
  else log_event id "report_delivery_lease_expired" (retry_fields attempt (f_add now (delay_of attempt)))
         (set_delivery id (on_delivery (rescheduled_delivery attempt (f_add now (delay_of attempt))) d) s).

Lemma sweep_job_commutes now s a b :
  jb_id (jd_job a) <> jb_id (jd_job b) ->
  sweep_job now (sweep_job now s a) b = sweep_job now (sweep_job now s b) a.
Proof. intros Hne. unfold sweep_job. cbv zeta. do 2 case_match; by apply job_sweeps_commute. Qed.

Lemma sweep_delivery_commutes now s a b :
  dl_id (dd_delivery a) <> dl_id (dd_delivery b) ->
  sweep_delivery now (sweep_delivery now s a) b = sweep_delivery now (sweep_delivery now s b) a.
Proof. intros Hne. unfold sweep_delivery. cbv zeta. do 2 case_match; by apply delivery_sweeps_commute. Qed.

Definition attempts_fine (attempt bound : Z) : Prop := 0 <= attempt < bound.

Lemma run_reclaim_jobs now docs : forall s,
  Forall (fun d => attempts_fine (jb_attempt_count (jd_job d)) (pf_max_replay_attempts config)) docs ->
  runs (reclaim_jobs config now docs) s (Ok tt)
    (fold_left (sweep_job now) (List.filter (fun d => lease_expired (jb_claim_expires_at (jd_job d)) now) docs) s).
Proof.
  induction docs as [|d docs IH]; intros s Hall; [apply runs_ret|].
  apply Forall_cons in Hall as [[Hlow Hd] Hall]. simpl. destruct (lease_expired _ _); [|by apply IH].
  eapply runs_bind; [|by apply IH]. unfold reclaim_job, sweep_job. cbv zeta.
  destruct (_ <=? _) eqn:Hmax.
  - eapply runs_bind; [by apply run_set_job|by apply run_event].
  - destruct (retry_delay_ok (jb_attempt_count (jd_job d) + 1)) as [delay Hdelay]; [lia|].
    unfold delay_of. rewrite Hdelay. eapply runs_bind; [apply runs_lift|].
    eapply runs_bind; [by apply run_set_job|by apply run_event].
Qed.

Lemma run_reclaim_deliveries now docs : forall s,
  Forall (fun d => attempts_fine (dl_attempt_count (dd_delivery d)) (pf_max_delivery_attempts config)) docs ->
  runs (reclaim_deliveries config now docs) s (Ok tt)
    (fold_left (sweep_delivery now)
       (List.filter (fun d => lease_expired (dl_claim_expires_at (dd_delivery d)) now) docs) s).
Proof.
  induction docs as [|d docs IH]; intros s Hall; [apply runs_ret|].
  apply Forall_cons in Hall as [[Hlow Hd] Hall]. simpl. destruct (lease_expired _ _); [|by apply IH].
  eapply runs_bind; [|by apply IH]. unfold reclaim_delivery, sweep_delivery. cbv zeta.
  destruct (_ <=? _) eqn:Hmax.
  - eapply runs_bind; [by apply run_set_delivery|by apply run_event].
  - destruct (retry_delay_ok (dl_attempt_count (dd_delivery d) + 1)) as [delay Hdelay]; [lia|].
    unfold delay_of. rewrite Hdelay. eapply runs_bind; [apply runs_lift|].
    eapply runs_bind; [by apply run_set_delivery|by apply run_event].
Qed.

(** ** The rows, one after another *)

Lemma sweep_job_others now s d id : 
  id <> jb_id (jd_job d) -> fs_jobs (sweep_job now s d) !! id = fs_jobs s !! id.
Proof.
  intros Hne. unfold sweep_job. cbv zeta. case_match; cbn; by rewrite lookup_insert_ne by congruence.
Qed.

Lemma sweep_delivery_others now s d id : 
  id <> dl_id (dd_delivery d) -> fs_deliveries (sweep_delivery now s d) !! id = fs_deliveries s !! id.
Proof.
  intros Hne. unfold sweep_delivery. cbv zeta. case_match; cbn; by rewrite lookup_insert_ne by congruence.
Qed.

Lemma sweep_job_matches n s q d :
  let id := jb_id (jd_job d) in
  matching s q -> fs_jobs s !! id = Some d ->
  attempts_fine (jb_attempt_count (jd_job d)) (pf_max_replay_attempts config) ->
  exists q', runs (reclaim_job_row config (plane_time n) (jd_job d)) q (Ok tt) q'
    /\ matching (sweep_job (plane_time n) s d) q' /\ sp_ledger q' = sp_ledger q.
Proof.
  intros id Hm Hd [Hlow Hhigh]. pose proof (fine_job _ _ _ _ Hm Hd) as Hfine.
  unfold reclaim_job_row, sweep_job. cbv zeta. fold id. set (attempt := jb_attempt_count (jd_job d) + 1).
  assert (Hone : forall f name fields, jb_id (f (jd_job d)) = id -> job_fine id (f (jd_job d)) ->
    jb_checkpoint_id (f (jd_job d)) = jb_checkpoint_id (jd_job d) ->
    has_status I_QUEUED (f (jd_job d)) = true ->
    exists q', runs (_ ← update_jobs (with_id id) f; event_ id name fields) q (Ok tt) q'
      /\ matching (log_event id name fields (set_job id (on_job f d) s)) q' /\ sp_ledger q' = sp_ledger q).
  { intros f name fields Hid Hfine' Hcp Hq.
    pose proof (matching_job _ _ id d f Hm Hd Hid Hfine'
      (keeps_by_status s id (jd_job d) (f (jd_job d)) I_QUEUED Hcp Hq (ltac:(done)))) as Hm1.
    eexists. split_and!; [|exact (matching_event _ _ id _ _ Hm1)|done].
    eapply runs_bind; [by apply run_update_jobs|]. apply run_event_; [done|].
    by apply (matching_dense _ _ id Hm1). }
  destruct (_ <=? _) eqn:Hmax.
  - apply Hone; try done. destruct Hfine. by split.
  - destruct (retry_delay_ok attempt) as [delay Hdelay]; [lia|]. unfold delay_of. rewrite Hdelay.
    destruct (Hone (rescheduled attempt (f_add (plane_time n) delay)) "investigation_lease_expired"
      (retry_fields attempt (f_add (plane_time n) delay))) as (q' & Hrun & Hm' & Hl); try done.
    { destruct Hfine. split; try done. apply (sc_retry _ steady _ attempt); [lia|done]. }
    exists q'. split_and!; [|done..]. eapply runs_bind; [apply runs_lift|exact Hrun].
Qed.

Lemma sweep_delivery_matches n s q d :
  let id := dl_id (dd_delivery d) in
  matching s q -> fs_deliveries s !! id = Some d ->
  attempts_fine (dl_attempt_count (dd_delivery d)) (pf_max_delivery_attempts config) ->
  exists q', runs (reclaim_delivery_row config (plane_time n) (dd_delivery d)) q (Ok tt) q'
    /\ matching (sweep_delivery (plane_time n) s d) q' /\ sp_ledger q' = sp_ledger q.
Proof.
  intros id Hm Hd [Hlow Hhigh]. pose proof (fine_delivery _ _ _ _ Hm Hd) as Hfine.
  unfold reclaim_delivery_row, sweep_delivery. cbv zeta. fold id.
  set (attempt := dl_attempt_count (dd_delivery d) + 1).
  assert (Hone : forall f name fields, dl_id (f (dd_delivery d)) = id -> delivery_fine (f (dd_delivery d)) ->
    exists q', runs (_ ← update_deliveries (delivers id) f; event_ id name fields) q (Ok tt) q'
      /\ matching (log_event id name fields (set_delivery id (on_delivery f d) s)) q'
      /\ sp_ledger q' = sp_ledger q).
  { intros f name fields Hid Hfine'. pose proof (matching_delivery _ _ id d f Hm Hd Hid Hfine') as Hm1.
    eexists. split_and!; [|exact (matching_event _ _ id _ _ Hm1)|done].
    eapply runs_bind; [by apply run_update_deliveries|]. apply run_event_; [done|].
    by apply (matching_dense _ _ id Hm1). }
  destruct (_ <=? _) eqn:Hmax.
  - apply Hone; try done. destruct Hfine. by split.
  - destruct (retry_delay_ok attempt) as [delay Hdelay]; [lia|]. unfold delay_of. rewrite Hdelay.
    destruct (Hone (rescheduled_delivery attempt (f_add (plane_time n) delay)) "report_delivery_lease_expired"
      (retry_fields attempt (f_add (plane_time n) delay))) as (q' & Hrun & Hm' & Hl); try done.
    { destruct Hfine. split; [|done]. apply (sc_retry _ steady _ attempt); [lia|done]. }
    exists q'. split_and!; [|done..]. eapply runs_bind; [apply runs_lift|exact Hrun].
Qed.

Lemma sweep_jobs_match n docs : forall s q,
  matching s q -> NoDup (jb_id ∘ jd_job <$> docs) ->
  Forall (fun d => fs_jobs s !! jb_id (jd_job d) = Some d
    /\ attempts_fine (jb_attempt_count (jd_job d)) (pf_max_replay_attempts config)) docs ->
  exists q', runs (for_each (reclaim_job_row config (plane_time n)) (jd_job <$> docs)) q (Ok tt) q'
    /\ matching (fold_left (sweep_job (plane_time n)) docs s) q' /\ sp_ledger q' = sp_ledger q.
Proof.
  induction docs as [|d docs IH]; intros s q Hm Hnd Hall.
  { exists q. split; [apply runs_ret|done]. }
  apply NoDup_cons in Hnd as [Hnin Hnd]. apply Forall_cons in Hall as [[Hd Hatt] Hall].
  destruct (sweep_job_matches n s q d Hm Hd Hatt) as (q1 & Hrun1 & Hm1 & Hl1).
  destruct (IH _ q1 Hm1 Hnd) as (q' & Hrun & Hm' & Hl').
  { rewrite Forall_forall in Hall |- *. intros x Hx. destruct (Hall x Hx) as [Hlook ?]. split; [|done].
    rewrite sweep_job_others; [done|]. intros Heq. apply Hnin. unfold compose at 1. rewrite <- Heq.
    by apply (list_elem_of_fmap_2 (jb_id ∘ jd_job)). }
  exists q'. split_and!; [|done|congruence]. eapply runs_bind; [exact Hrun1|exact Hrun].
Qed.

Lemma sweep_deliveries_match n docs : forall s q,
  matching s q -> NoDup (dl_id ∘ dd_delivery <$> docs) ->
  Forall (fun d => fs_deliveries s !! dl_id (dd_delivery d) = Some d
    /\ attempts_fine (dl_attempt_count (dd_delivery d)) (pf_max_delivery_attempts config)) docs ->
  exists q', runs (for_each (reclaim_delivery_row config (plane_time n)) (dd_delivery <$> docs)) q (Ok tt) q'
    /\ matching (fold_left (sweep_delivery (plane_time n)) docs s) q' /\ sp_ledger q' = sp_ledger q.
Proof.
  induction docs as [|d docs IH]; intros s q Hm Hnd Hall.
  { exists q. split; [apply runs_ret|done]. }
  apply NoDup_cons in Hnd as [Hnin Hnd]. apply Forall_cons in Hall as [[Hd Hatt] Hall].
  destruct (sweep_delivery_matches n s q d Hm Hd Hatt) as (q1 & Hrun1 & Hm1 & Hl1).
  destruct (IH _ q1 Hm1 Hnd) as (q' & Hrun & Hm' & Hl').
  { rewrite Forall_forall in Hall |- *. intros x Hx. destruct (Hall x Hx) as [Hlook ?]. split; [|done].
    rewrite sweep_delivery_others; [done|]. intros Heq. apply Hnin. unfold compose at 1. rewrite <- Heq.
    by apply (list_elem_of_fmap_2 (dl_id ∘ dd_delivery)). }
  exists q'. split_and!; [|done|congruence]. eapply runs_bind; [exact Hrun1|exact Hrun].
Qed.

(** ** The two sweeps *)

Lemma filter_ext_on {A} (p p' : A -> bool) l :
  (forall x, x ∈ l -> p x = p' x) -> List.filter p l = List.filter p' l.
Proof.
  induction l as [|x l IH]; [done|]. intros Hp. simpl. rewrite Hp by (by left).
  rewrite IH; [done|]. intros y Hy. apply Hp. by right.
Qed.

Lemma filter_filter {A} (p p' : A -> bool) l :
  List.filter p (List.filter p' l) = List.filter (fun x => p' x && p x) l.
Proof. induction l as [|x l IH]; [done|]. simpl. destruct (p' x); simpl; by rewrite IH. Qed.

Lemma filter_perm {A} (p : A -> bool) l l' : l ≡ₚ l' -> List.filter p l ≡ₚ List.filter p l'.
Proof.
  induction 1 as [|x l l' Hp IH|x y l|l1 l2 l3 H12 IH12 H23 IH23]; simpl.
  - done.
  - destruct (p x); [by constructor|done].
  - destruct (p x), (p y); try done. constructor.
  - by etrans.
Qed.

(** Reading the rows off the numbered documents. *)
Lemma filter_docs {X D} (body : D -> X) (p : X -> bool) l : forall (doc : nat -> X -> D),
  (forall n x, body (doc n x) = x) ->
  body <$> List.filter (fun d => p (body d)) (imap doc l) = List.filter p l.
Proof.
  induction l as [|x l IH]; intros doc Hdoc; [done|]. simpl. rewrite Hdoc.
  destruct (p x); csimpl; rewrite ?Hdoc, IH; try done; intros; apply Hdoc.
Qed.

Lemma reclaim_jobs_agree n s q :
  plane_ok config s -> matching s q ->
  exists s' q', runs (reclaim_expired_investigations config (plane_time n)) s (Ok tt) s'
    /\ runs (reclaim_expired_investigations_ config (plane_time n)) q (Ok tt) q'
    /\ matching s' q' /\ sp_ledger q' = sp_ledger q.
Proof.
  intros Hok Hm. set (now := plane_time n).
  set (p := fun d => has_status I_RUNNING (jd_job d) && lease_expired (jb_claim_expires_at (jd_job d)) now).
  set (L := imap doc_job (sq_jobs (sp_tables q))).
  pose proof (rows_stream jb_id doc_job jd_job (fun _ _ => eq_refl) _ _ (mt_jobs _ _ Hm)) as Hstream. fold L in Hstream.
  assert (Hname : forall k d, fs_jobs s !! k = Some d -> (jb_id ∘ jd_job) d = k)
    by (intros k d Hd; by apply (job_name _ _ _ _ Hm)).
  destruct (stream_stored (fs_jobs s) p (jb_id ∘ jd_job) Hname) as [Hnd Hall].
  assert (Hatt : forall d, d ∈ List.filter (fun d => has_status I_RUNNING (jd_job d)) (stream (fs_jobs s)) ->
    attempts_fine (jb_attempt_count (jd_job d)) (pf_max_replay_attempts config)).
  { intros d [Hd Hr]%in_filter. apply stream_elem in Hd as [k Hk].
    destruct (jk_job _ _ _ (po_jobs _ _ Hok) k d Hk) as [_ _ _ Hlow Hst].
    destruct (status_running _ _ _ _ Hst Hr). by split. }
  pose proof (filter_perm p _ _ Hstream) as Hperm.
  destruct (sweep_jobs_match n (List.filter p L) s q Hm) as (q' & Hrun & Hm' & Hl).
  { by rewrite <- Hperm. }
  { rewrite <- Hperm. eapply Forall_impl; [exact Hall|]. intros d [Hd [Hr He]%andb_true_iff]. split; [done|].
    apply Hatt, in_filter. split; [|done]. apply stream_elem. eauto. }
  exists (fold_left (sweep_job now) (List.filter p L) s), q'. split_and!; [| |exact Hm'|done].
  - eapply runs_bind; [by apply run_jobs_where|].
    rewrite <- (fold_left_perm (jb_id ∘ jd_job) (sweep_job now) (sweep_job_commutes now) _ _ s Hperm Hnd).
    replace (List.filter p (stream (fs_jobs s))) with
      (List.filter (fun d => lease_expired (jb_claim_expires_at (jd_job d)) now)
        (List.filter (fun d => has_status I_RUNNING (jd_job d)) (stream (fs_jobs s))))
      by apply filter_filter.
    apply run_reclaim_jobs; [done..|]. by apply Forall_forall.
  - eapply runs_bind; [by apply run_read|].
    replace (List.filter _ (sq_jobs (sp_tables q))) with (jd_job <$> List.filter p L); [exact Hrun|].
    unfold p, L. rewrite (filter_docs jd_job (fun j => has_status I_RUNNING j && lease_expired (jb_claim_expires_at j) now))
      by done.
    apply filter_ext_on. intros j Hj.
    destruct (rows_elem jb_id doc_job _ _ _ (mt_jobs _ _ Hm) Hj) as (k & _ & Hk).
    rewrite expired_lease; [done| |by apply (sc_now _ steady)]. apply (jf_expires _ _ (fine_job _ _ _ _ Hm Hk)).
Qed.

Lemma reclaim_deliveries_agree n s q :
  plane_ok config s -> matching s q ->
  exists s' q', runs (reclaim_expired_deliveries config (plane_time n)) s (Ok tt) s'
    /\ runs (reclaim_expired_deliveries_ config (plane_time n)) q (Ok tt) q'
    /\ matching s' q' /\ sp_ledger q' = sp_ledger q.
Proof.
  intros Hok Hm. set (now := plane_time n).
  set (sending := fun d : Delivery => bool_decide (dl_status d = "SENDING")).
  set (p := fun d => sending (dd_delivery d) && lease_expired (dl_claim_expires_at (dd_delivery d)) now).
  set (L := imap doc_delivery (sq_deliveries (sp_tables q))).
  pose proof (rows_stream dl_id doc_delivery dd_delivery (fun _ _ => eq_refl) _ _ (mt_deliveries _ _ Hm)) as Hstream.
  fold L in Hstream.
  assert (Hname : forall k d, fs_deliveries s !! k = Some d -> (dl_id ∘ dd_delivery) d = k)
    by (intros k d Hd; by apply (delivery_named config s)).
  destruct (stream_stored (fs_deliveries s) p (dl_id ∘ dd_delivery) Hname) as [Hnd Hall].
  assert (Hatt : forall d, d ∈ List.filter (fun d => sending (dd_delivery d)) (stream (fs_deliveries s)) ->
    attempts_fine (dl_attempt_count (dd_delivery d)) (pf_max_delivery_attempts config)).
  { intros d [Hd Hr%bool_decide_eq_true]%in_filter. apply stream_elem in Hd as [k Hk].
    destruct (vk_delivery _ _ _ _ (po_deliveries _ _ Hok) k d Hk) as [_ _ Hlow Hfail Hst].
    split; [done|]. apply Hfail. destruct Hst as [[? _]|[(_ & _ & ?)|[? _]]]; [congruence|done|congruence]. }
  pose proof (filter_perm p _ _ Hstream) as Hperm.
  destruct (sweep_deliveries_match n (List.filter p L) s q Hm) as (q' & Hrun & Hm' & Hl).
  { by rewrite <- Hperm. }
  { rewrite <- Hperm. eapply Forall_impl; [exact Hall|]. intros d [Hd [Hr He]%andb_true_iff]. split; [done|].
    apply Hatt, in_filter. split; [|done]. apply stream_elem. eauto. }
  exists (fold_left (sweep_delivery now) (List.filter p L) s), q'. split_and!; [| |exact Hm'|done].
  - eapply runs_bind; [by apply run_deliveries_where|].
    rewrite <- (fold_left_perm (dl_id ∘ dd_delivery) (sweep_delivery now) (sweep_delivery_commutes now)
      _ _ s Hperm Hnd).
    replace (List.filter p (stream (fs_deliveries s))) with
      (List.filter (fun d => lease_expired (dl_claim_expires_at (dd_delivery d)) now)
        (List.filter (fun d => sending (dd_delivery d)) (stream (fs_deliveries s))))
      by apply filter_filter.
    apply run_reclaim_deliveries; [done..|]. by apply Forall_forall.
  - eapply runs_bind; [by apply run_read|].
    replace (List.filter _ (sq_deliveries (sp_tables q))) with (dd_delivery <$> List.filter p L); [exact Hrun|].
    unfold p, L. rewrite (filter_docs dd_delivery
      (fun d => sending d && lease_expired (dl_claim_expires_at d) now)) by done.
    apply filter_ext_on. intros d Hd.
    destruct (rows_elem dl_id doc_delivery _ _ _ (mt_deliveries _ _ Hm) Hd) as (k & _ & Hk).
    rewrite expired_lease; [done| |by apply (sc_now _ steady)].
    apply (df_expires _ (fine_delivery _ _ _ _ Hm Hk)).
Qed.
End sweeps.

Section claims.
Context `{FirestoreLaws} `{PlaneStatements} `{Sqlite} `{FreshIds} `{PlaneClock} `{LedgerClock} `{Artifacts}.
Hypothesis served : forall n, reply n = Served.
Hypothesis plane_reliable : forall n, plane_statement_fails n = false.
Hypothesis ledger_reliable : forall n, statement_fails n = false.
Variable config : PlaneConfig.
Hypothesis steady : steady_clock config.
Hypothesis replay_attempts_positive : 0 < pf_max_replay_attempts config.
Hypothesis delivery_attempts_positive : 0 < pf_max_delivery_attempts config.
Hypothesis attempts_bound :
  pf_max_replay_attempts config <= 1024 /\ pf_max_delivery_attempts config <= 1024.

Lemma plane_ok_alike s s' : alike s s' -> plane_ok config s -> plane_ok config s'.
Proof.
  intros (Hd & Hi & _) Hok. apply (quiet_ok config s); [done|by symmetry|lia].
Qed.

Lemma runs_plane_ok {A} (m : ST Store exn A) s r s' :
  plane_ok config s -> sound config s s m -> runs m s r s' -> plane_ok config s'.
Proof.
  intros Hok Hsound Hrun. destruct (Hrun s (reflexivity s)) as [_ Hs'].
  apply (plane_ok_alike (m s).2); [by symmetry|].
  apply (evolves_ok config s); [done..|]. by apply sound_after.
Qed.

(** ** Which job *)

Definition job_key (j : Job) : list Z := (if is_some (jb_incident_id j) then 0 else 1) :: f_key (jb_available_at j).

Lemma job_key_length j : length (job_key j) = 4%nat.
Proof. unfold job_key. simpl. by rewrite f_key_length. Qed.

Lemma some_negb {A} (o : option A) `{!base.Decision (o = None)} : negb (bool_decide (o = None)) = is_some o.
Proof. destruct o; [by rewrite bool_decide_false|by rewrite bool_decide_true]. Qed.

Lemma key_before (ha hb : bool) xa xb :
  not_nan xa = true -> not_nan xb = true ->
  lex_lt ((if ha then 0 else 1) :: f_key xa) ((if hb then 0 else 1) :: f_key xb)
  = if negb (Bool.eqb ha hb) then ha else f_lt xa xb.
Proof. intros Ha Hb. rewrite f_lt_key by done. by destruct ha, hb. Qed.

Lemma row_before_key a b :
  not_nan (jb_available_at a) = true -> not_nan (jb_available_at b) = true ->
  row_before a b = lex_lt (job_key a) (job_key b).
Proof. intros Ha Hb. unfold row_before, job_key. by rewrite key_before. Qed.

Lemma claimed_before_key a b :
  not_nan (jb_available_at (jd_job a)) = true -> not_nan (jb_available_at (jd_job b)) = true ->
  claimed_before a b
  = lex_lt (job_key (jd_job a) ++ [jd_sequence a]) (job_key (jd_job b) ++ [jd_sequence b]).
Proof.
  intros Ha Hb. rewrite lex_lt_app by (by rewrite !job_key_length).
  unfold claimed_before, job_key. cbv zeta. rewrite !some_negb, key_before, f_eqb_key by done.
  destruct (is_some (jb_incident_id (jd_job a))), (is_some (jb_incident_id (jd_job b)));
    cbn [negb Bool.eqb lex_lt]; case_decide; try done;
    case_bool_decide; cbn [negb]; try congruence; lia.
Qed.

Lemma doc_sorted {X} (l : list X) {D} (doc : nat -> X -> D) (seq : D -> Z) : forall k,
  (forall n x, seq (doc n x) = k + Z.of_nat n) -> StronglySorted (fun a b => seq a < seq b) (imap doc l).
Proof.
  revert doc. induction l as [|x l IH]; intros doc k Hseq; [constructor|]. simpl. constructor.
  - apply (IH (doc ∘ S) (k + 1)). intros n y. simpl. rewrite Hseq. lia.
  - apply Forall_forall. intros d Hd. apply elem_of_lookup_imap in Hd as (n & y & -> & Hn).
    simpl. rewrite !Hseq. lia.
Qed.

Lemma filter_sorted {A} (R : relation A) (p : A -> bool) l :
  StronglySorted R l -> StronglySorted R (List.filter p l).
Proof.
  induction 1 as [|x l Hs IH Hall]; [constructor|]. simpl. destruct (p x); [|done]. constructor; [done|].
  apply Forall_forall. intros y [Hy _]%in_filter. rewrite Forall_forall in Hall. by apply Hall.
Qed.

Lemma same_choice s q now :
  plane_ok config s -> matching s q ->
  first_least row_before (List.filter (claimable_row now) (sq_jobs (sp_tables q)))
  = jd_job <$> first_least claimed_before (List.filter (available now)
      (List.filter eligible (List.filter (fun d => has_status I_QUEUED (jd_job d)) (stream (fs_jobs s))))).
Proof.
  intros Hok Hm. set (p := fun d => claimable_row now (jd_job d)).
  set (L := imap doc_job (sq_jobs (sp_tables q))).
  assert (Hfs : List.filter (available now) (List.filter eligible
    (List.filter (fun d => has_status I_QUEUED (jd_job d)) (stream (fs_jobs s)))) = List.filter p (stream (fs_jobs s))).
  { rewrite !filter_filter. apply filter_ext_on. intros d _. unfold p, claimable_row, eligible, available.
    rewrite andb_assoc. f_equal. f_equal. by destruct (jb_failure_reason (jd_job d)). }
  rewrite Hfs.
  pose proof (rows_stream jb_id doc_job jd_job (fun _ _ => eq_refl) _ _ (mt_jobs _ _ Hm)) as Hstream. fold L in Hstream.
  assert (Hdoc : forall d, d ∈ stream (fs_jobs s) -> not_nan (jb_available_at (jd_job d)) = true
    /\ exists k, fs_jobs s !! k = Some d).
  { intros d [k Hk]%stream_elem. split; [apply (jf_available _ _ (fine_job _ _ _ _ Hm Hk))|by exists k]. }
  assert (Hin : forall d, d ∈ List.filter p (stream (fs_jobs s)) -> d ∈ stream (fs_jobs s))
    by (by intros d [? _]%in_filter).
  assert (HL : forall d, d ∈ List.filter p L -> d ∈ stream (fs_jobs s))
    by (intros d [Hd _]%in_filter; by rewrite Hstream).
  assert (Hrows : List.filter (claimable_row now) (sq_jobs (sp_tables q)) = jd_job <$> List.filter p L)
    by (symmetry; by apply (filter_docs jd_job (claimable_row now))).
  rewrite Hrows, first_least_fmap. f_equal.
  rewrite (first_least_perm claimed_before (fun d => job_key (jd_job d) ++ [jd_sequence d]) 5
    _ (List.filter p L)).
  - symmetry. apply (first_least_stable _ _ (fun d => job_key (jd_job d)) jd_sequence 4).
    + intros a b Ha%HL Hb%HL. apply claimed_before_key; by apply Hdoc.
    + intros a b Ha%HL Hb%HL. apply row_before_key; by apply Hdoc.
    + intros a _. apply job_key_length.
    + by apply filter_sorted, (doc_sorted _ _ jd_sequence 0).
  - intros a b Ha%Hin Hb%Hin. apply claimed_before_key; by apply Hdoc.
  - intros a _. by rewrite length_app, job_key_length.
  - intros a b Ha%Hin Hb%Hin [_ [= Hseq]]%app_inj_2; [|done].
    destruct (Hdoc a Ha) as [_ [i Hi]], (Hdoc b Hb) as [_ [k Hk]].
    assert (i = k) as -> by (apply (jk_apart _ _ _ (po_jobs _ _ Hok) _ _ a b Hi Hk); by left). congruence.
  - by apply filter_perm.
Qed.

(** ** Whether there is one *)

Lemma find_filter s q p :
  matching s q ->
  (List.find p (sq_jobs (sp_tables q)) = None
   <-> List.filter (fun d => p (jd_job d)) (stream (fs_jobs s)) = []).
Proof.
  intros Hm. split.
  - intros Hf. destruct (List.filter _ _) as [|d l] eqn:Hl; [done|].
    assert (Hd : d ∈ List.filter (fun d => p (jd_job d)) (stream (fs_jobs s))) by (rewrite Hl; by left).
    apply in_filter in Hd as [Hd Hp]. apply stream_elem in Hd as [k Hk].
    destruct (rows_lookup jb_id doc_job jd_job (fun _ _ => eq_refl) _ _ _ _ (mt_jobs _ _ Hm) Hk) as (n & Hn & _).
    pose proof (List.find_none _ _ Hf (jd_job d)) as Hno. rewrite <- list_elem_of_In in Hno.
    rewrite Hno in Hp; [done|]. by eapply list_elem_of_lookup_2.
  - intros Hl. destruct (List.find p _) as [j|] eqn:Hf; [|done]. apply find_some in Hf as [Hj Hp].
    rewrite <- list_elem_of_In in Hj.
    destruct (rows_elem jb_id doc_job _ _ _ (mt_jobs _ _ Hm) Hj) as (n & _ & Hk).
    assert (Hd : doc_job n j ∈ List.filter (fun d => p (jd_job d)) (stream (fs_jobs s))).
    { apply in_filter. split; [apply stream_elem; eauto|done]. }
    rewrite Hl in Hd. by apply elem_of_nil in Hd.
Qed.

Lemma existsb_filter {A} (p : A -> bool) l : existsb p l = false <-> List.filter p l = [].
Proof. induction l as [|x l IH]; [done|]. simpl. by destruct (p x). Qed.

Lemma same_deferral s q now :
  matching s q ->
  existsb (deferred_scenario now) (List.filter eligible
    (List.filter (fun d => has_status I_QUEUED (jd_job d)) (stream (fs_jobs s))))
  = is_some (List.find (deferred_row now) (sq_jobs (sp_tables q))).
Proof.
  intros Hm. pose proof (find_filter s q (deferred_row now) Hm) as Hf.
  assert (Heq : List.filter (deferred_scenario now) (List.filter eligible
      (List.filter (fun d => has_status I_QUEUED (jd_job d)) (stream (fs_jobs s))))
    = List.filter (fun d => deferred_row now (jd_job d)) (stream (fs_jobs s))).
  { rewrite !filter_filter. apply filter_ext_on. intros d _. unfold deferred_row, eligible, deferred_scenario.
    rewrite some_negb, !andb_assoc. do 3 f_equal. by destruct (jb_failure_reason (jd_job d)). }
  destruct (List.find (deferred_row now) _) as [j|]; simpl.
  - apply not_false_is_true. intros He%existsb_filter. rewrite Heq in He. by apply Hf in He.
  - apply existsb_filter. rewrite Heq. by apply Hf.
Qed.

(** ** Decisions already made *)

Lemma paused_undecided s q D row :
  plane_ok config s -> matching s q -> sp_ledger q = ledger_of D ->
  row ∈ List.filter (has_status I_PAUSED_APPROVAL) (sq_jobs (sp_tables q)) ->
  is_ok (stored_checkpoint row) = true /\ ledger_row D (jb_id row) = Ok None.
Proof.
  intros Hok Hm HD [Hrow Hp]%in_filter.
  destruct (rows_elem jb_id doc_job _ _ _ (mt_jobs _ _ Hm) Hrow) as (n & _ & Hk). split.
  - pose proof (jo_status _ _ _ _ _ (jk_job _ _ _ (po_jobs _ _ Hok) _ _ Hk)) as Hst.
    unfold status_ok in Hst. cbn [jd_job doc_job] in Hst. rewrite (has_status_of_value _ _ Hp) in Hst.
    destruct Hst as (_ & _ & c & Hc & Hne). unfold stored_checkpoint. rewrite Hc, decide_False; [done|].
    by intros ->.
  - destruct (mt_ledger _ _ Hm) as (D' & HD' & Hag). specialize (Hag (jb_id row)).
    assert (D' = D) as -> by (rewrite HD in HD'; by destruct HD' as [[= ->] _]).
    rewrite Hk in Hag. destruct (fs_decisions s !! jb_id row) as [c|]; [|done].
    destruct Hag as (d & dec & w & [= <-] & _ & _ & _ & Hno & _). simpl in Hno. congruence.
Qed.

Lemma reconcile_nothing s q D :
  plane_ok config s -> matching s q -> sp_ledger q = ledger_of D ->
  runs reconcile_durable_decisions q (Ok tt) q.
Proof.
  intros Hok Hm HD. eapply runs_bind; [by apply run_read|].
  pose proof (fun row => paused_undecided s q D row Hok Hm HD) as Hrow.
  induction (List.filter _ _) as [|row rows IH]; [apply runs_ret|]. simpl.
  destruct (Hrow row) as [Hcp Hled]; [by left|].
  eapply runs_bind; [|apply IH; intros; apply Hrow; by right].
  unfold reconcile_row. destruct (stored_checkpoint row) as [cp|]; [|done].
  eapply runs_bind; [apply runs_lift|].
  eapply runs_bind; [by apply (run_ledger_decision ledger_reliable q D)|]. apply runs_ret.
Qed.

(** ** The claim *)

Lemma decision_for_claim_agrees s q D d :
  matching s q -> sp_ledger q = ledger_of D -> fs_jobs s !! jb_id (jd_job d) = Some d ->
  exists o, runs (decision_for_claim (jb_id (jd_job d)) (jd_job d)) s (Ok o) s
    /\ forall row, jb_id row = jb_id (jd_job d) -> jb_checkpoint_id row = jb_checkpoint_id (jd_job d) ->
         runs (decision_for_row row) q (Ok o) q.
Proof.
  intros Hm HD Hd. set (id := jb_id (jd_job d)) in *.
  destruct (mt_ledger _ _ Hm) as (D' & HD' & Hag). specialize (Hag id).
  assert (D' = D) as -> by (rewrite HD in HD'; by destruct HD' as [[= ->] _]).
  assert (Hfs : forall o, runs (match fs_decisions s !! id with
      | None => mret None
      | Some stored =>
          match decision_request (dc_decision stored) (dc_rejection_note stored) with
          | Err _ => raise corrupt
          | Ok decision => match jb_checkpoint_id (jd_job d) with
              | None => raise corrupt
              | Some cp => if decide (cp = "") then raise corrupt
                  else if negb (bool_decide (dc_checkpoint_id stored = cp)) then raise corrupt
                  else mret (Some decision) end end end) s (Ok o) s ->
    runs (decision_for_claim id (jd_job d)) s (Ok o) s).
  { intros o Ho. eapply runs_bind; [by apply run_decision_get|exact Ho]. }
  destruct (fs_decisions s !! id) as [c|] eqn:Hc.
  - destruct Hag as (d0 & dec & w & Hd0 & Hrow & Hcp & Hne & _ & Hdec & Hw & Hmatch).
    assert (d0 = d) as -> by congruence. exists (Some dec). split.
    + apply Hfs. rewrite Hdec, Hcp, decide_False, bool_decide_true by done. apply runs_ret.
    + intros row Hid Hrcp. pose proof (stored_checkpoint_cases row) as Hst.
      rewrite Hrcp, Hcp, decide_False in Hst by done.
      unfold decision_for_row. rewrite Hid. eapply runs_bind; [by apply (run_decision_row plane_reliable s)|].
      fold id. rewrite Hc. unfold decision_from_row. rewrite Hdec, Hst. eapply runs_bind; [apply runs_lift|].
      eapply runs_bind; [apply runs_lift|]. rewrite bool_decide_true by done.
      eapply runs_bind; [by eapply (run_ensure_same ledger_reliable q D)|apply runs_ret].
  - exists None. split; [apply Hfs, runs_ret|]. intros row Hid _. unfold decision_for_row. rewrite Hid.
    eapply runs_bind; [by apply (run_decision_row plane_reliable s)|]. fold id. rewrite Hc. apply runs_ret.
Qed.

Lemma worker_claim_ok id j decision token :
  job_fine id j -> exists c, worker_claim j decision token = Ok c.
Proof. intros [_ _ _ [f Hf] [sd Hs]]. unfold worker_claim. rewrite Hf, Hs. by eexists. Qed.

Definition fs_claim (now : f64) (d : JobDocument) : StoreM (option WorkerClaim) :=
  let id := jb_id (jd_job d) in
  token ← uuid4_hex;
  let d := on_job (claimed token (f_add now (pf_claim_lease_seconds config))) d in
  _ ← write (set_job id d);
  _ ← event id "investigation_started" [];
  decision ← decision_for_claim id (jd_job d);
  claim ← lift_result (worker_claim (jd_job d) decision token);
  mret (Some claim).

Definition sq_claim (now : f64) (row : Job) : PlaneM (option WorkerClaim) :=
  token ← fresh_hex;
  _ ← update_jobs (with_id (jb_id row)) (claimed token (f_add now (pf_claim_lease_seconds config)));
  _ ← event_ (jb_id row) "investigation_started" [];
  decision ← decision_for_row row;
  claim ← lift_result (worker_claim row decision token);
  mret (Some claim).

Lemma claim_agrees s q D d n :
  matching s q -> sp_ledger q = ledger_of D -> fs_jobs s !! jb_id (jd_job d) = Some d ->
  exists c s' q', runs (fs_claim (plane_time n) d) s (Ok (Some c)) s'
    /\ runs (sq_claim (plane_time n) (jd_job d)) q (Ok (Some c)) q' /\ matching s' q'.
Proof.
  intros Hm HD Hd. set (id := jb_id (jd_job d)) in *. set (token := uuid_hex (fs_ids s)).
  set (until := f_add (plane_time n) (pf_claim_lease_seconds config)).
  set (d' := on_job (claimed token until) d).
  pose proof (fine_job _ _ _ _ Hm Hd) as Hfine.
  assert (Hfine' : job_fine id (claimed token until (jd_job d))).
  { destruct Hfine. split; try done. simpl. intros e [= <-]. by apply (sc_lease _ steady). }
  pose proof (matching_job _ _ id d (claimed token until) (matching_draw _ _ Hm) Hd eq_refl Hfine'
    (keeps_by_status s id (jd_job d) (claimed token until (jd_job d)) I_RUNNING eq_refl eq_refl (ltac:(done)))) as Hm1.
  pose proof (matching_event _ _ id "investigation_started" [] Hm1) as Hm2.
  destruct (decision_for_claim_agrees _ _ D d' Hm2 HD) as (dec & Hfs & Hsq).
  { cbn. by rewrite lookup_insert_eq. }
  destruct (worker_claim_ok id (jd_job d) dec token Hfine) as [c Hc].
  exists c. eexists _, _. split_and!; [| |exact Hm2].
  - eapply runs_bind; [apply run_uuid|]. eapply runs_bind; [by apply run_set_job|].
    eapply runs_bind; [by apply run_event|]. eapply runs_bind; [exact Hfs|].
    eapply runs_bind; [|apply runs_ret]. rewrite <- Hc. apply runs_lift.
  - eapply runs_bind; [apply run_hex|]. replace (uuid_hex (sp_ids q)) with token by (by rewrite (mt_ids _ _ Hm)).
    eapply runs_bind; [by apply run_update_jobs|].
    eapply runs_bind; [apply run_event_; [done|]; by apply (matching_dense _ _ id Hm1)|].
    eapply runs_bind; [by apply Hsq|]. rewrite Hc. eapply runs_bind; [apply runs_lift|apply runs_ret].
Qed.

Definition fs_pick (now : f64) : StoreM (option WorkerClaim) :=
  running ← jobs_where (has_status I_RUNNING);
  match running with
  | _ :: _ => mret None
  | [] =>
      docs ← jobs_where (has_status I_QUEUED);
      let queued := List.filter eligible docs in
      if existsb (deferred_scenario now) queued then mret None
      else match first_least claimed_before (List.filter (available now) queued) with
      | None => mret None
      | Some d => fs_claim now d
      end
  end.

Definition sq_pick (now : f64) : PlaneM (option WorkerClaim) :=
  running ← job_row (has_status I_RUNNING);
  match running with
  | Some _ => mret None
  | None =>
      deferred ← job_row (deferred_row now);
      match deferred with
      | Some _ => mret None
      | None =>
          row ← read (fun t => first_least row_before (List.filter (claimable_row now) (sq_jobs t)));
          match row with
          | None => mret None
          | Some row => sq_claim now row
          end
      end
  end.

Lemma pick_agrees s q D n :
  plane_ok config s -> matching s q -> sp_ledger q = ledger_of D ->
  exists a s' q', runs (fs_pick (plane_time n)) s (Ok a) s'
    /\ runs (sq_pick (plane_time n)) q (Ok a) q' /\ matching s' q'.
Proof.
  intros Hok Hm HD. set (now := plane_time n).
  assert (Hrun_s := run_jobs_where served (has_status I_RUNNING) s).
  assert (Hrun_q := run_read plane_reliable (fun t => List.find (has_status I_RUNNING) (sq_jobs t)) q).
  pose proof (find_filter s q (has_status I_RUNNING) Hm) as Hrunning. cbv beta in Hrun_q, Hrunning.
  destruct (List.filter (fun d => has_status I_RUNNING (jd_job d)) _) as [|d0 l].
  2: { exists None, s, q. split_and!; [| |done].
       - eapply runs_bind; [exact Hrun_s|apply runs_ret].
       - eapply runs_bind; [exact Hrun_q|].
         destruct (List.find _ _); [apply runs_ret|]. discriminate (proj1 Hrunning eq_refl). }
  rewrite (proj2 Hrunning eq_refl) in Hrun_q.
  assert (Hque_s := run_jobs_where served (has_status I_QUEUED) s).
  assert (Hdef_q := run_read plane_reliable (fun t => List.find (deferred_row now) (sq_jobs t)) q).
  pose proof (same_deferral s q now Hm) as Hdef. cbv beta in Hdef_q, Hque_s.
  destruct (List.find (deferred_row now) _) as [j|]; simpl in Hdef.
  { exists None, s, q. split_and!; [| |done].
    - eapply runs_bind; [exact Hrun_s|]. eapply runs_bind; [exact Hque_s|]. cbv zeta. rewrite Hdef. apply runs_ret.
    - eapply runs_bind; [exact Hrun_q|]. eapply runs_bind; [exact Hdef_q|apply runs_ret]. }
  assert (Hrow_q := run_read plane_reliable
    (fun t => first_least row_before (List.filter (claimable_row now) (sq_jobs t))) q).
  cbv beta in Hrow_q. rewrite (same_choice s q now Hok Hm) in Hrow_q.
  destruct (first_least claimed_before _) as [d|] eqn:Hd; simpl in Hrow_q.
  - pose proof (first_least_in _ _ _ Hd) as Hin.
    apply in_filter in Hin as [[[Hstream _]%in_filter _]%in_filter _].
    apply stream_elem in Hstream as [k Hk]. pose proof (job_name _ _ _ _ Hm Hk) as Hname. rewrite <- Hname in Hk.
    destruct (claim_agrees s q D d n Hm HD Hk) as (c & s' & q' & Hfs & Hsq & Hm').
    exists (Some c), s', q'. split_and!; [| |done].
    + eapply runs_bind; [exact Hrun_s|]. eapply runs_bind; [exact Hque_s|]. cbv zeta. rewrite Hdef, Hd. exact Hfs.
    + eapply runs_bind; [exact Hrun_q|]. eapply runs_bind; [exact Hdef_q|].
      eapply runs_bind; [exact Hrow_q|exact Hsq].
  - exists None, s, q. split_and!; [| |done].
    + eapply runs_bind; [exact Hrun_s|]. eapply runs_bind; [exact Hque_s|]. cbv zeta. rewrite Hdef, Hd. apply runs_ret.
    + eapply runs_bind; [exact Hrun_q|]. eapply runs_bind; [exact Hdef_q|].
      eapply runs_bind; [exact Hrow_q|apply runs_ret].
Qed.

Lemma claim_next_agrees s q :
  plane_ok config s -> matching s q -> sp_ticks q = fs_ticks s ->
  agree_run (claim_next config) (claim_next_ config) s q.
Proof.
  intros Hok0 Hm0 Ht. destruct (mt_ledger _ _ Hm0) as (D & HD0 & _).
  set (q0 := q <| sp_ledger := ledger_of D |>). assert (Hq0 : alike q0 q) by (by split_and!).
  apply (agree_run_from _ _ s q q0 Hq0).
  set (s1 := s <| fs_ticks := S (fs_ticks s) |>). set (q1 := q0 <| sp_ticks := S (fs_ticks s) |>).
  assert (Hm1 : matching s1 q1).
  { apply matching_ticks. eapply matching_alike; [exact Hm0|done|by symmetry]. }
  set (now := plane_time (fs_ticks s)).
  assert (Hok1 : plane_ok config s1) by (by apply (quiet_ok config s)).
  destruct (reclaim_jobs_agree served plane_reliable config steady attempts_bound (fs_ticks s) s1 q1 Hok1 Hm1)
    as (s2 & q2 & Hfs & Hsq & Hm & HD). fold now in Hfs, Hsq.
  pose proof (runs_plane_ok _ _ _ _ Hok1 (reclaim_expired_investigations_sound config _ now Hok1) Hfs) as Hok.
  destruct (pick_agrees s2 q2 D (fs_ticks s) Hok Hm HD) as (a & s3 & q3 & Hfs3 & Hsq3 & Hm3).
  exists (Ok a), s3, q3. split_and!; [| |done].
  - eapply runs_bind; [apply run_clock|]. eapply runs_bind; [exact Hfs|exact Hfs3].
  - apply run_transaction; [done|]. eapply runs_bind; [by apply run_begin|].
    eapply runs_bind; [by apply (run_time_at q0 (fs_ticks s))|]. eapply runs_bind; [exact Hsq|].
    eapply runs_bind; [by apply (reconcile_nothing s2 q2 D)|exact Hsq3].
Qed.
End claims.
