(* ===== verification/WorkerProps.v ===== *)
(** The workers on the Firestore plane, while its requests succeed: a worker's turn
    ends without its claim, and no claim outlives its lease by more than a poll. *)
From Stdlib Require Import ZArith Lia.
From stdpp Require Import prelude strings list gmap relations.
From S2P Require Import Prelude PyText Float64 Tools Domain World Sqlite Approvals ControlPlane Workers PlaneOrder FirestorePlane Lifecycle FirestoreSteps FirestoreProps PlaneMatch PlaneClaims.
Local Open Scope Z_scope.

Section worker.
Context `{FirestoreLaws} `{FreshIds} `{PlaneClock} `{Artifacts}.
Hypothesis served : forall n, reply n = Served.
Variable config : PlaneConfig.
Hypothesis replay_attempts_positive : 0 < pf_max_replay_attempts config.
Hypothesis delivery_attempts_positive : 0 < pf_max_delivery_attempts config.
Hypothesis attempts_bound :
  pf_max_replay_attempts config <= 1024 /\ pf_max_delivery_attempts config <= 1024.
#[local] Existing Instance firestore_plane.
Notation plane := (firestore_plane config).
Notation WorkM := (ST Store exn).

(** * A token nobody holds *)

Lemma lost_alike id n s s' : alike s s' -> lost_token id n s -> lost_token id n s'.
Proof.
  intros (Hd & Hi & _) [Hn Hlost]. apply data_eq in Hd as (Hj & _). split; [congruence|]. by rewrite <- Hj.
Qed.

Lemma set_job_loses s id n d :
  (n < fs_ids s)%nat -> jb_claim_token (jd_job d) = None -> lost_token id n (set_job id d s).
Proof. intros Hn Hd. split; [done|]. intros x. simpl. rewrite lookup_insert_eq. by intros [= <-] ?; congruence. Qed.

Lemma lost_event id n i e s : lost_token id n s -> lost_token id n (set_event i e s).
Proof. by intros [? ?]. Qed.

Lemma lost_log id n i name fields s : lost_token id n s -> lost_token id n (log_event i name fields s).
Proof. by intros [? ?]. Qed.

(** Only a running job has a token. *)
Lemma not_running_lost s id n d :
  plane_ok config s -> (n < fs_ids s)%nat -> fs_jobs s !! id = Some d ->
  claim_held (uuid_hex n) (jd_job d) = false -> lost_token id n s.
Proof.
  intros Hok Hn Hd Hheld. split; [done|]. intros x Hx Htoken. assert (x = d) as -> by congruence.
  pose proof (jo_status _ _ _ _ _ (jk_job _ _ _ (po_jobs _ _ Hok) id d Hd)) as Hst.
  unfold claim_held in Hheld. rewrite Htoken, bool_decide_true, andb_true_r in Hheld by done.
  unfold status_ok in Hst. destruct (of_value (jb_status (jd_job d))) as [[]|] eqn:Hv; try done.
  - destruct Hst as [[Hnone _] _]. simpl in Hnone. congruence.
  - apply of_value_Some in Hv. unfold has_status in Hheld. by rewrite <- Hv, bool_decide_true in Hheld.
  - destruct Hst as [[Hnone _] _]. simpl in Hnone. congruence.
  - destruct Hst as [[Hnone _] _]. simpl in Hnone. congruence.
Qed.

(** ** The operations that let go *)

Lemma retry_lets_go s id n e :
  plane_ok config s -> (n < fs_ids s)%nat ->
  exists r s', PlaneMatch.runs (retry_running config id (uuid_hex n) e) s r s' /\ lost_token id n s'.
Proof.
  intros Hok Hn. assert (Hget := run_job_get served id s).
  destruct (fs_jobs s !! id) as [d|] eqn:Hd.
  2: { exists (Err not_found), s. split; [eapply runs_bind; [exact Hget|apply runs_raise]|].
       split; [done|]. intros x. by rewrite Hd. }
  destruct (claim_held (uuid_hex n) (jd_job d)) eqn:Hheld.
  2: { exists (Err conflict), s. split; [|by eapply not_running_lost].
       eapply runs_bind; [exact Hget|]. cbv beta iota. rewrite Hheld. apply runs_raise. }
  set (attempt := jb_attempt_count (jd_job d) + 1).
  destruct (pf_max_replay_attempts config <=? attempt) eqn:Hmax.
  - eexists (Ok false), _. split.
    + eapply runs_bind; [exact Hget|]. cbv beta iota zeta. rewrite Hheld. fold attempt. rewrite Hmax. cbn [negb].
      eapply runs_bind; [by apply run_set_job|]. eapply runs_bind; [by apply run_event|apply runs_ret].
    + by apply lost_log, set_job_loses.
  - pose proof (jo_attempts _ _ _ _ _ (jk_job _ _ _ (po_jobs _ _ Hok) id d Hd)) as Hlow.
    destruct (retry_delay_ok config attempts_bound attempt) as [delay Hdelay]; [lia|].
    eexists (Ok true), _. split.
    + eapply runs_bind; [exact Hget|]. cbv beta iota zeta. rewrite Hheld. fold attempt. rewrite Hmax. cbn [negb].
      eapply runs_bind; [apply run_clock|]. rewrite Hdelay. eapply runs_bind; [apply runs_lift|].
      eapply runs_bind; [by apply run_set_job|]. eapply runs_bind; [by apply run_event|apply runs_ret].
    + by apply lost_log, set_job_loses.
Qed.

Lemma paused_lets_go s id n cp :
  (n < fs_ids s)%nat ->
  exists r s', PlaneMatch.runs (mark_paused id cp (uuid_hex n)) s r s' /\ (is_ok r = true -> lost_token id n s').
Proof.
  intros Hn. unfold mark_paused. case_decide; [by exists (Err ValueError), s; split; [apply runs_raise|]|].
  assert (Hget := run_job_get served id s). destruct (fs_jobs s !! id) as [d|].
  2: { exists (Err not_found), s. split; [eapply runs_bind; [exact Hget|apply runs_raise]|done]. }
  destruct (claim_current (uuid_hex n) (plane_time (fs_ticks s)) (jd_job d)) eqn:Hc.
  2: { eexists (Err conflict), _. split; [|done]. eapply runs_bind; [exact Hget|].
       eapply runs_bind; [apply run_clock|]. rewrite Hc. apply runs_raise. }
  eexists (Ok tt), _. split.
  - eapply runs_bind; [exact Hget|]. eapply runs_bind; [apply run_clock|]. rewrite Hc. cbn [negb].
    eapply runs_bind; [by apply run_staged|].
    apply (run_batch served (fun s => set_event _ _ (set_job _ _ s))); [solve_respects|done].
  - intros _. by apply (lost_event id n), set_job_loses.
Qed.

Lemma finalize_lets_go s id n artifact :
  (n < fs_ids s)%nat ->
  exists r s', PlaneMatch.runs (finalize id artifact (uuid_hex n)) s r s' /\ (is_ok r = true -> lost_token id n s').
Proof.
  intros Hn. unfold finalize. case_decide; [by exists (Err ValueError), s; split; [apply runs_raise|]|].
  assert (Hget := run_job_get served id s). destruct (fs_jobs s !! id) as [d|].
  2: { exists (Err not_found), s. split; [eapply runs_bind; [exact Hget|apply runs_raise]|done]. }
  destruct (has_status I_COMPLETED (jd_job d)) eqn:Hcomp.
  { eexists (Err conflict), _. split; [|done]. eapply runs_bind; [exact Hget|].
    eapply runs_bind; [apply run_clock|]. rewrite Hcomp. apply runs_raise. }
  destruct (claim_current (uuid_hex n) (plane_time (fs_ticks s)) (jd_job d)) eqn:Hc.
  2: { eexists (Err conflict), _. split; [|done]. eapply runs_bind; [exact Hget|].
       eapply runs_bind; [apply run_clock|]. rewrite Hcomp, Hc. apply runs_raise. }
  set (s1 := s <| fs_ticks := S (fs_ticks s) |>).
  assert (Hsnap := run_snapshot id artifact s1).
  destruct (read_report_snapshot (fs_reads s1) id artifact) as [content|e].
  2: { eexists (Err e), _. split; [|done]. eapply runs_bind; [exact Hget|].
       eapply runs_bind; [apply run_clock|]. rewrite Hcomp, Hc. cbn [negb]. by apply runs_bind_err. }
  eexists (Ok tt), _. split.
  - eapply runs_bind; [exact Hget|]. eapply runs_bind; [apply run_clock|]. rewrite Hcomp, Hc. cbn [negb].
    eapply runs_bind; [exact Hsnap|]. eapply runs_bind; [by apply run_deliveries_where|].
    eapply runs_bind; [by apply run_staged|].
    apply (run_batch served (fun s => set_event _ _ (set_delivery _ _ (set_job _ _ s)))); [solve_respects|done].
  - intros _. apply (lost_event id n). by apply (set_job_loses (s1 <| fs_reads := S (fs_reads s1) |>)).
Qed.
(** ** A turn *)

Section turn.
Variables (id : string) (n : nat).

(** The token was drawn; and: the job does not have it. *)
Definition known (s : Store) : Prop := plane_ok config s /\ (n < fs_ids s)%nat.
Definition let_go (s : Store) : Prop := plane_ok config s /\ lost_token id n s.

Lemma let_go_known s : let_go s -> known s.
Proof. intros [Hok [Hn _]]. by split. Qed.

Lemma history_known ops s : known s -> known (@history Store plane ops s).
Proof.
  intros [Hok Hn]. split; [by apply history_ok|].
  apply (history_stable config replay_attempts_positive delivery_attempts_positive (fun s => n < fs_ids s)%nat); [|done..].
  intros s1 s2 _ Hlt Hstep. pose proof (plane_step_ids config _ _ Hstep). lia.
Qed.

Lemma history_let_go ops s : let_go s -> let_go (@history Store plane ops s).
Proof.
  intros [Hok Hl]. split; [by apply history_ok|].
  apply (history_stable config replay_attempts_positive delivery_attempts_positive (lost_token id n)); [|done..].
  intros. by eapply lost_token_step.
Qed.

Lemma asks_known {A} (m : WorkM A) :
  @only_asks Store plane _ m -> triple known m (fun _ => known) (fun _ => known).
Proof.
  intros Hm s Hs. destruct (Hm s) as [ops Hops]. pose proof (history_known ops s Hs) as Hk.
  rewrite <- Hops in Hk. by destruct (m s) as [[a|e] s'].
Qed.

Lemma asks_let_go {A} (m : WorkM A) :
  @only_asks Store plane _ m -> triple let_go m (fun _ => let_go) (fun _ => let_go).
Proof.
  intros Hm s Hs. destruct (Hm s) as [ops Hops]. pose proof (history_let_go ops s Hs) as Hk.
  rewrite <- Hops in Hk. by destruct (m s) as [[a|e] s'].
Qed.

(** An operation that lets go, asked by the worker. *)
Lemma asking_lets_go {A} op (out : Answer -> option (res A)) into (m : WorkM A) (Q : res A -> Prop) :
  (forall s, @ask Store plane op s = answered into m s) -> (forall r, out (into r) = Some r) ->
  (forall s, known s -> exists r s', PlaneMatch.runs m s r s' /\ (Q r -> lost_token id n s')) ->
  triple known (@asking Store plane A op out)
    (fun a s => known s /\ (Q (Ok a) -> let_go s)) (fun e s => known s /\ (Q (Err e) -> let_go s)).
Proof.
  intros Hask Hout Hruns s Hs. pose proof (history_known [op] s Hs) as Hk.
  change (known (@ask Store plane op s).2) in Hk. rewrite Hask in Hk.
  destruct (Hruns s Hs) as (r & s' & Hrun & Hl). destruct (Hrun s (reflexivity s)) as [Hr Hs'].
  unfold asking. rewrite Hask. unfold answered in *. simpl in Hk. rewrite Hr, Hout.
  assert (HQ : Q r -> let_go (m s).2) by (intros HQ; split; [apply Hk|by eapply lost_alike; [exact Hs'|apply Hl]]).
  by destruct r.
Qed.

Lemma retry_known e :
  triple known (@asking Store plane bool (op_retry_running id (uuid_hex n) e) retry_answer)
    (fun _ => let_go) (fun _ => let_go).
Proof.
  eapply triple_conseq; [apply (asking_lets_go _ _ ARetry (retry_running config id (uuid_hex n) e) (fun _ => True))| | |].
  - done.
  - done.
  - intros s [Hok Hn]. destruct (retry_lets_go s id n e Hok Hn) as (r & s' & Hrun & Hl). by exists r, s'.
  - done.
  - intros a s [_ Hl]. by apply Hl.
  - intros e' s [_ Hl]. by apply Hl.
Qed.

Lemma paused_known cp :
  triple known (@asking Store plane unit (op_mark_paused id cp (uuid_hex n)) done_answer)
    (fun _ => let_go) (fun _ => known).
Proof.
  eapply triple_conseq; [apply (asking_lets_go _ _ ADone (mark_paused id cp (uuid_hex n)) (fun r => is_ok r = true))| | |].
  - done.
  - done.
  - intros s [Hok Hn]. by apply paused_lets_go.
  - done.
  - intros a s [_ Hl]. by apply Hl.
  - by intros e' s [Hk _].
Qed.

Lemma finalize_known artifact :
  triple known (@asking Store plane unit (op_finalize id artifact (uuid_hex n)) done_answer)
    (fun _ => let_go) (fun _ => known).
Proof.
  eapply triple_conseq; [apply (asking_lets_go _ _ ADone (finalize id artifact (uuid_hex n)) (fun r => is_ok r = true))| | |].
  - done.
  - done.
  - intros s [Hok Hn]. by apply finalize_lets_go.
  - done.
  - intros a s [_ Hl]. by apply Hl.
  - by intros e' s [Hk _].
Qed.

Variables (w : @ReplayWorker Store).
Hypothesis on_paused_asks : @hook_asks Store plane _ (rw_on_paused w).
Hypothesis on_finalized_asks : @hook_asks Store plane _ (rw_on_finalized w).
Hypothesis on_failed_asks : @hook_asks Store plane _ (rw_on_failed w).

Lemma hook_known {A} (hook : option (A -> WorkM unit)) a :
  @hook_asks Store plane _ hook -> triple let_go (call_hook hook a) (fun _ => let_go) (fun _ => known).
Proof.
  intros Hh. eapply triple_conseq; [apply asks_let_go, only_asks_hook, Hh|done|done|].
  intros e s. apply let_go_known.
Qed.

Lemma record_outcome_known c outcome :
  wc_investigation_id c = id -> wc_claim_token c = uuid_hex n ->
  triple known (@record_outcome Store plane w c outcome) (fun _ => let_go) (fun _ => known).
Proof.
  intros Hid Htok. destruct outcome as [cp|artifact]; simpl; rewrite Hid, Htok.
  - eapply triple_bind; [apply paused_known|]. intros []. by apply hook_known.
  - eapply triple_bind; [apply finalize_known|]. intros []. by apply hook_known.
Qed.

Lemma give_back_known c e :
  wc_investigation_id c = id -> wc_claim_token c = uuid_hex n ->
  triple known (@give_back Store plane w c e) (fun _ => let_go) (fun _ => let_go).
Proof.
  intros Hid Htok. unfold give_back. rewrite Hid, Htok.
  eapply (triple_try _ _ _ _ (fun _ => let_go)).
  - eapply triple_bind; [apply retry_known|]. intros [|]; [by apply triple_ret|].
    apply asks_let_go. by apply only_asks_hook.
  - intros e'. destruct (is_conflict e'); [by apply triple_ret|by apply triple_raise].
Qed.

Lemma everyone_known ops :
  triple known (@everyone Store plane ops) (fun _ => known) (fun _ => let_go).
Proof.
  intros s Hs. pose proof (asks_known _ (only_asks_everyone ops) s Hs) as Hk.
  pose proof (@everyone_Ok Store plane ops s) as Hr. by destruct (@everyone Store plane ops s) as [[[]|e] s'].
Qed.

Lemma work_known t c :
  wc_investigation_id c = id -> wc_claim_token c = uuid_hex n ->
  triple known (@work Store plane w t c) (fun _ => let_go) (fun _ => let_go).
Proof.
  intros Hid Htok. eapply (triple_try _ _ _ _ (fun _ => known)).
  - eapply triple_bind; [apply asks_known, only_asks_meanwhile|]. intros failed.
    eapply triple_bind; [apply asks_known, only_asks_lift|]. intros outcome.
    eapply triple_bind; [apply asks_known; destruct failed; [apply only_asks_raise|apply only_asks_ret]|]. intros [].
    eapply triple_bind; [apply asks_known, only_asks_meanwhile|]. intros ?.
    by apply record_outcome_known.
  - intros e. eapply triple_bind; [apply everyone_known|]. intros [].
    eapply triple_bind; [by apply give_back_known|]. intros []. by apply triple_raise.
Qed.
End turn.

(** ** From the claim on *)

Definition keeps_ids {A} (m : WorkM A) : Prop := forall s, fs_ids (m s).2 = fs_ids s.

Lemma keeps_ids_bind {A B} (m : WorkM A) (k : A -> WorkM B) :
  keeps_ids m -> (forall a, keeps_ids (k a)) -> keeps_ids (m ≫= k).
Proof.
  intros Hm Hk s. specialize (Hm s). unfold mbind, ST_bind. destruct (m s) as [[a|e] s']; [|done].
  by rewrite Hk.
Qed.

Lemma keeps_ids_request {A} (f : Store -> A * Store) : (forall s, fs_ids (f s).2 = fs_ids s) -> keeps_ids (request f).
Proof.
  intros Hf s. unfold request. specialize (Hf (s <| fs_requests := S (fs_requests s) |>)).
  destruct (reply _); [|done..]. by destruct (f _).
Qed.

Lemma keeps_ids_event i name fields : keeps_ids (event i name fields).
Proof.
  apply keeps_ids_bind; [apply keeps_ids_bind; [apply keeps_ids_bind; [by apply keeps_ids_request|done]|done]|].
  intros e. by apply keeps_ids_request.
Qed.

Lemma keeps_ids_decision i j : keeps_ids (decision_for_claim i j).
Proof.
  apply keeps_ids_bind; [by apply keeps_ids_request|]. intros [stored|]; [|done].
  destruct (decision_request _ _); [|done]. destruct (jb_checkpoint_id j); [|done].
  case_decide; [done|]. by destruct (negb _).
Qed.

Lemma keeps_ids_run {A} (m : WorkM A) s r s' : keeps_ids m -> m s = (r, s') -> fs_ids s' = fs_ids s.
Proof. intros Hm Hr. specialize (Hm s). by rewrite Hr in Hm. Qed.

(** A claim's token was drawn for it. *)
Lemma claim_token_drawn s c s1 :
  claim_next config s = (Ok (Some c), s1) -> exists n, wc_claim_token c = uuid_hex n /\ (n < fs_ids s1)%nat.
Proof.
  unfold claim_next. intros (now & s2 & _ & Hr)%ST_bind_Ok. apply ST_bind_Ok in Hr as ([] & s3 & _ & Hr).
  apply ST_bind_Ok in Hr as (running & s4 & _ & Hr). destruct running; [|done].
  apply ST_bind_Ok in Hr as (docs & s5 & _ & Hr). cbv zeta in Hr. destruct (existsb _ _); [done|].
  destruct (first_least _ _) as [d|]; [|done]. apply ST_bind_Ok in Hr as (token & s6 & Htok & Hr).
  injection Htok as <- <-. exists (fs_ids s5).
  apply ST_bind_Ok in Hr as ([] & s7 & Hw & Hr). apply ST_bind_Ok in Hr as ([] & s8 & He & Hr).
  apply ST_bind_Ok in Hr as (dec & s9 & Hd & Hr). apply ST_bind_Ok in Hr as (cl & s10 & Hc & Hr).
  injection Hr as <- <-. unfold lift_result in Hc. injection Hc as Hc <-.
  unfold worker_claim in Hc. do 2 (case_match; [|done]). injection Hc as <-. split; [done|].
  apply (keeps_ids_run (write _)) in Hw; [|by apply keeps_ids_request].
  apply keeps_ids_run in He; [|apply keeps_ids_event]. apply keeps_ids_run in Hd; [|apply keeps_ids_decision].
  simpl in *. lia.
Qed.

(** C14: On a Firestore plane that serves every request, when a replay worker's turn is over
    the claim it took is no longer its job's, whatever the runner returned or raised,
    whenever the heartbeat renewed or failed, whatever owners and other workers asked in
    between, and whether or not the worker's hooks and reports succeeded: the job is
    paused, completed, rescheduled, given up, or another worker's. When the request that
    would give the claim back is refused or lost, the job may keep the claim until its
    lease expires; [expired_claims_recovered] is about what happens then. *)
Theorem worker_lets_go before w runner c s0 s1 :
  @hook_asks Store plane _ (rw_on_paused w) -> @hook_asks Store plane _ (rw_on_finalized w) ->
  @hook_asks Store plane _ (rw_on_failed w) ->
  match rw_reconcile w with None => True | Some f => @only_asks Store plane _ f end ->
  let s := @history Store plane before empty_store in
  (match rw_reconcile w with None => mret tt | Some f => f end) s = (Ok tt, s0) ->
  claim_next config s0 = (Ok (Some c), s1) ->
  exists n, wc_claim_token c = uuid_hex n
    /\ lost_token (wc_investigation_id c) n (@run_once Store plane w runner s).2.
Proof.
  intros Hpaused Hfin Hfail Hrec s Hs0 Hclaim.
  destruct (claim_token_drawn s0 c s1 Hclaim) as (n & Htok & Hn). exists n. split; [done|].
  assert (Hok0 : plane_ok config s0).
  { assert (Hok : plane_ok config s) by (apply history_ok; [done..|apply empty_store_ok]).
    destruct (rw_reconcile w) as [f|]; [|by injection Hs0 as <-].
    destruct (Hrec s) as [ops Hops]. rewrite Hs0 in Hops. simpl in Hops. rewrite Hops. by apply history_ok. }
  assert (Hk1 : known n s1).
  { split; [|done]. pose proof (history_ok config replay_attempts_positive delivery_attempts_positive
      [op_claim_next] s0 Hok0) as Hok1. cbn in Hok1. unfold answered in Hok1. by rewrite Hclaim in Hok1. }
  pose proof (work_known (wc_investigation_id c) n w Hpaused Hfin Hfail (runner c) c eq_refl Htok s1 Hk1) as Hwork.
  unfold run_once. rewrite bind_at, Hs0, bind_at.
  assert (Hask : @asking Store plane _ op_claim_next claim_answer s0 = (Ok (Some c), s1)).
  { unfold asking. cbn. unfold answered. by rewrite Hclaim. }
  rewrite Hask, bind_at. by destruct (work w (runner c) c s1) as [[[]|e] s']; destruct Hwork.
Qed.

(** * Claims whose worker died *)

Lemma sweep_job_jobs now s d i :
  fs_jobs (sweep_job config now s d) !! i
  = if decide (jb_id (jd_job d) = i)
    then fs_jobs (sweep_job config now s d) !! jb_id (jd_job d) else fs_jobs s !! i.
Proof.
  case_decide as Hi; [by subst|]. unfold sweep_job. cbv zeta. by case_match; simpl; rewrite lookup_insert_ne.
Qed.

Lemma sweep_job_queued now s d :
  exists x, fs_jobs (sweep_job config now s d) !! jb_id (jd_job d) = Some x /\ has_status I_RUNNING (jd_job x) = false.
Proof.
  unfold sweep_job. cbv zeta. by case_match; simpl; rewrite lookup_insert_eq; eexists.
Qed.

Lemma sweeps_jobs now docs : forall s i x,
  fs_jobs (fold_left (sweep_job config now) docs s) !! i = Some x ->
  has_status I_RUNNING (jd_job x) = false \/
  fs_jobs s !! i = Some x /\ Forall (fun d => jb_id (jd_job d) <> i) docs.
Proof.
  induction docs as [|d docs IH]; intros s i x Hx; [by right|]. simpl in Hx.
  destruct (IH _ _ _ Hx) as [?|[Hs Hall]]; [by left|]. rewrite sweep_job_jobs in Hs.
  case_decide as Hi.
  - left. destruct (sweep_job_queued now s d) as (y & Hy & Hq). rewrite Hy in Hs. by injection Hs as <-.
  - right. split; [done|]. by constructor.
Qed.

Lemma reclaim_leaves s now :
  plane_ok config s ->
  exists s', PlaneMatch.runs (reclaim_expired_investigations config now) s (Ok tt) s' /\ fs_ids s' = fs_ids s
    /\ forall i x, fs_jobs s' !! i = Some x -> has_status I_RUNNING (jd_job x) = true ->
         fs_jobs s !! i = Some x /\ lease_expired (jb_claim_expires_at (jd_job x)) now = false.
Proof.
  intros Hok. set (docs := List.filter (fun d => has_status I_RUNNING (jd_job d)) (stream (fs_jobs s))).
  assert (Hdoc : forall d, d ∈ docs -> exists k, fs_jobs s !! k = Some d /\ has_status I_RUNNING (jd_job d) = true).
  { intros d [[k Hk]%stream_elem Hr]%in_filter. by exists k. }
  set (expired := List.filter (fun d => lease_expired (jb_claim_expires_at (jd_job d)) now) docs).
  exists (fold_left (sweep_job config now) expired s).
  assert (Hids : forall l t, fs_ids (fold_left (sweep_job config now) l t) = fs_ids t).
  { induction l as [|d l IH]; intros t; [done|]. simpl. rewrite IH. unfold sweep_job. cbv zeta. by case_match. }
  split_and!.
  - eapply runs_bind; [by apply run_jobs_where|]. apply run_reclaim_jobs; [done..|].
    apply Forall_forall. intros d (k & Hk & Hr)%Hdoc. destruct (jk_job _ _ _ (po_jobs _ _ Hok) k d Hk) as [_ _ _ Hlow Hst].
    destruct (status_running config _ _ _ Hst Hr) as [_ Hhigh]. by split.
  - apply Hids.
  - intros i x Hx Hr. destruct (sweeps_jobs now expired s i x Hx) as [?|[Hs Hall]]; [congruence|].
    split; [done|]. apply not_true_is_false. intros He. rewrite Forall_forall in Hall.
    apply (Hall x); [|by apply (job_named config s i x)].
    apply in_filter. split; [|done]. apply in_filter. split; [|done]. apply stream_elem. by exists i.
Qed.

Lemma decision_read s id j : exists r, PlaneMatch.runs (decision_for_claim id j) s r s.
Proof.
  assert (Hget := run_decision_get served id s). unfold decision_for_claim.
  destruct (fs_decisions s !! id) as [c|].
  2: { eexists. eapply runs_bind; [exact Hget|apply runs_ret]. }
  destruct (decision_request (dc_decision c) (dc_rejection_note c)) as [dec|e] eqn:Hd.
  2: { eexists. eapply runs_bind; [exact Hget|]. cbv beta iota. rewrite Hd. apply runs_raise. }
  destruct (jb_checkpoint_id j) as [cp|].
  2: { eexists. eapply runs_bind; [exact Hget|]. cbv beta iota. rewrite Hd. apply runs_raise. }
  destruct (decide (cp = "")) as [Hc|Hc].
  { eexists. eapply runs_bind; [exact Hget|]. cbv beta iota. rewrite Hd. apply runs_raise. }
  destruct (negb (bool_decide (dc_checkpoint_id c = cp))) eqn:Hn.
  - eexists. eapply runs_bind; [exact Hget|]. cbv beta iota. rewrite Hd, Hn. apply runs_raise.
  - eexists. eapply runs_bind; [exact Hget|]. cbv beta iota. rewrite Hd, Hn. apply runs_ret.
Qed.

(** What a poll leaves running, its own claim aside, was running before. *)
Lemma pick_leaves s now :
  exists r s', PlaneMatch.runs (fs_pick config now) s r s'
  /\ forall i x, fs_jobs s' !! i = Some x ->
       fs_jobs s !! i = Some x \/ jb_claim_token (jd_job x) = Some (uuid_hex (fs_ids s)).
Proof.
  assert (Hrun := run_jobs_where served (has_status I_RUNNING) s).
  destruct (List.filter (fun d => has_status I_RUNNING (jd_job d)) _) as [|d0 l].
  2: { exists (Ok None), s. split; [eapply runs_bind; [exact Hrun|apply runs_ret]|by left]. }
  assert (Hque := run_jobs_where served (has_status I_QUEUED) s).
  set (docs := List.filter (fun d => has_status I_QUEUED (jd_job d)) _) in Hque.
  destruct (existsb (deferred_scenario now) (List.filter eligible docs)) eqn:Hdef.
  { exists (Ok None), s. split; [|by left]. eapply runs_bind; [exact Hrun|]. eapply runs_bind; [exact Hque|].
    cbv beta iota zeta. rewrite Hdef. apply runs_ret. }
  destruct (first_least claimed_before (List.filter (available now) (List.filter eligible docs))) as [d|] eqn:Hd.
  2: { exists (Ok None), s. split; [|by left]. eapply runs_bind; [exact Hrun|]. eapply runs_bind; [exact Hque|].
       cbv beta iota zeta. rewrite Hdef, Hd. apply runs_ret. }
  set (id := jb_id (jd_job d)). set (token := uuid_hex (fs_ids s)).
  set (d' := on_job (claimed token (f_add now (pf_claim_lease_seconds config))) d).
  set (s1 := log_event id "investigation_started" [] (set_job id d' (s <| fs_ids := S (fs_ids s) |>))).
  destruct (decision_read s1 id (jd_job d')) as [dec Hdec].
  assert (Hclaim : exists r, PlaneMatch.runs (fs_claim config now d) s r s1).
  { destruct dec as [dec|e].
    - exists (match worker_claim (jd_job d') dec token with Ok c => Ok (Some c) | Err e => Err e end).
      eapply runs_bind; [apply run_uuid|]. eapply runs_bind; [by apply run_set_job|].
      eapply runs_bind; [by apply run_event|]. eapply runs_bind; [exact Hdec|]. fold token d'.
      destruct (worker_claim (jd_job d') dec token) as [c|e].
      + eapply runs_bind; [apply runs_lift|apply runs_ret].
      + apply runs_bind_err, runs_lift.
    - exists (Err e). eapply runs_bind; [apply run_uuid|]. eapply runs_bind; [by apply run_set_job|].
      eapply runs_bind; [by apply run_event|]. apply runs_bind_err. exact Hdec. }
  destruct Hclaim as [r Hclaim]. exists r, s1. split.
  - eapply runs_bind; [exact Hrun|]. eapply runs_bind; [exact Hque|]. cbv beta iota zeta. rewrite Hdef, Hd.
    exact Hclaim.
  - intros i x. simpl. intros [[<- <-]|[_ Hx]]%lookup_insert_Some; [by right|by left].
Qed.

(** A poll recovers what died: every job still running after a worker looked for
    work at a moment either ran before with a lease that moment does not pass, or was
    claimed by this very poll. *)
Theorem expired_claims_recovered before moment :
  let s := @history Store plane before empty_store in
  let s' := (@ask Store plane op_claim_next (s <| fs_ticks := moment |>)).2 in
  forall id d, fs_jobs s' !! id = Some d -> has_status I_RUNNING (jd_job d) = true ->
    fs_jobs s !! id = Some d /\ lease_expired (jb_claim_expires_at (jd_job d)) (plane_time moment) = false
    \/ jb_claim_token (jd_job d) = Some (uuid_hex (fs_ids s)).
Proof.
  intros s. assert (Hok : plane_ok config s) by (apply history_ok; [done..|apply empty_store_ok]).
  set (s0 := s <| fs_ticks := moment |>). set (s1 := s0 <| fs_ticks := S moment |>).
  assert (Hok1 : plane_ok config s1) by (by apply (quiet_ok config s)).
  destruct (reclaim_leaves s1 (plane_time moment) Hok1) as (s2 & Hrec & Hids & Hleft).
  destruct (pick_leaves s2 (plane_time moment)) as (r & s3 & Hpick & Hnew).
  assert (Hrun : PlaneMatch.runs (claim_next config) s0 r s3).
  { eapply runs_bind; [apply run_clock|]. eapply runs_bind; [exact Hrec|exact Hpick]. }
  destruct (Hrun s0 (reflexivity s0)) as [_ (Hdata & _)]. apply data_eq in Hdata as (Hjobs & _).
  intros s' id d. change s' with (claim_next config s0).2. rewrite <- Hjobs. intros Hd Hr.
  destruct (Hnew id d Hd) as [Hs2|Htok]; [left|right].
  - by apply Hleft.
  - by rewrite Hids in Htok.
Qed.
End worker.
