(* ===== verification/Api.v ===== *)
(** The HTTP routes over a control plane (api.py, [create_app]) and the Google
    identity they trust (google_identity.py).

    The routes are clients of class [ControlPlane], whichever backend it is.  FastAPI
    parses a request before a handler runs; a [Request] is what the handler is given.
    A handler ends with a body, with the status of an [HTTPException], or with an
    exception FastAPI turns into a 500.  The dashboard page and the start and stop of
    the workers are not modelled. *)
From Stdlib Require Import ZArith Lia.
From stdpp Require Import prelude strings list gmap.
From S2P Require Import Prelude PyText Float64 Tools Domain World Approvals ControlPlane Workers.
Local Open Scope Z_scope.

(** * Text *)

(** [str.casefold], for the code points a string holds here.  MICRO SIGN folds to a
    letter outside of them, and to nothing else here: it is left as it is. *)
Definition fold_char (c : Ascii.ascii) : string :=
  let n := code c in
  if (65 <=? n) && (n <=? 90) || (192 <=? n) && (n <=? 222) && negb (n =? 215) then chr (n + 32)
  else if n =? 223 then "ss"
  else String c "".

Definition casefold (s : string) : string := concat_chars fold_char s.

Fixpoint str_drop (n : nat) (s : string) : string :=
  match n, s with
  | S n', String _ s' => str_drop n' s'
  | _, _ => s
  end.

Definition removeprefix (p s : string) : string :=
  if is_prefix p s then str_drop (String.length p) s else s.

(** [except ValueError] *)
Definition is_value_error (e : exn) : bool :=
  match e with ValueError | ValidationError => true | _ => false end.

(** * Google's identity *)

(** What the library answers for a token and an audience: the claims, or it raises. *)
Definition GoogleTokenValidator : Type := string -> string -> res (list (string * json)).

Record GoogleIdentityVerifier := { gv_client_id : string; gv_validator : GoogleTokenValidator }.

Definition google_identity_verifier (client_id : string) (validator : GoogleTokenValidator)
    : res GoogleIdentityVerifier :=
  if decide (py_strip client_id = "") then Err ValueError
  else Ok {| gv_client_id := py_strip client_id; gv_validator := validator |}.

Definition google_verify (v : GoogleIdentityVerifier) (bearer_token : string) : res string :=
  match gv_validator v bearer_token (gv_client_id v) with
  | Err _ => Err ValueError
  | Ok claims =>
      match dict_get "email" claims with
      | Some (JStr email) =>
          if decide (py_strip email = "") then Err ValueError
          else match dict_get "email_verified" claims with
          | Some (JBool true) => Ok email
          | _ => Err ValueError
          end
      | _ => Err ValueError
      end
  end.

(** * The application *)

Inductive Failure :=
  | HTTPException (status_code : Z)
  | Unhandled (e : exn).

Inductive Body :=
  | BView (v : InvestigationView)
  | BTimeline (events : list TimelineEvent)
  | BReport (content : string).

(** The verifier is given as it answers while the request is handled. *)
Record App := {
  ap_allowed_owners : gset string;
  ap_verify : string -> res string;
}.

Definition normalized_owners (allowed_owners : gset string) : gset string :=
  set_map (fun owner => casefold (py_strip owner)) (filter (fun owner => py_strip owner <> "") allowed_owners).

Definition owner (app : App) (authorization : option string) : result Failure string :=
  match authorization with
  | None => Err (HTTPException 401)
  | Some authorization =>
      if negb (is_prefix "Bearer " authorization) then Err (HTTPException 401)
      else
        let token := py_strip (removeprefix "Bearer " authorization) in
        if decide (token = "") then Err (HTTPException 401)
        else match ap_verify app token with
        | Err e => Err (if is_value_error e then HTTPException 401 else Unhandled e)
        | Ok email =>
            let verified_owner := casefold (py_strip email) in
            if decide (verified_owner = "") then Err (HTTPException 403)
            else if decide (verified_owner ∈ normalized_owners (ap_allowed_owners app)) then Ok verified_owner
            else Err (HTTPException 403)
        end
  end.

Definition idempotency_key (raw : option string) : result Failure string :=
  match raw with
  | None => Err (HTTPException 400)
  | Some raw => if decide (py_strip raw = "") then Err (HTTPException 400) else Ok (py_strip raw)
  end.

Section routes.
Context {State : Type} `{ControlPlane State} (app : App).
Notation HandlerM := (ST State Failure).

Definition view_answer (a : Answer) : option (res InvestigationView) := match a with AView r => Some r | _ => None end.
Definition events_answer (a : Answer) : option (res (list TimelineEvent)) :=
  match a with AEvents r => Some r | _ => None end.
Definition text_answer (a : Answer) : option (res string) := match a with AText r => Some r | _ => None end.

(** A call of the plane, with what an [except] clause makes of its exceptions. *)
Definition calling {A} (op : PlaneOp) (out : Answer -> option (res A)) (except : exn -> Failure) : HandlerM A :=
  fun s => match asking op out s with
           | (Ok a, s') => (Ok a, s')
           | (Err e, s') => (Err (except e), s')
           end.

(** [except (ControlPlaneNotFoundError, PermissionError)] *)
Definition or_404 (e : exn) : Failure :=
  match e with
  | OtherError name =>
      if bool_decide (name = "ControlPlaneNotFoundError" \/ name = "PermissionError")
      then HTTPException 404 else Unhandled e
  | _ => Unhandled e
  end.

(** ... and [except ControlPlaneConflictError]. *)
Definition or_404_or_409 (e : exn) : Failure := if is_conflict e then HTTPException 409 else or_404 e.

Definition create (request : CreateInvestigationRequest) (authorization idempotency_key_header : option string)
    : HandlerM InvestigationView :=
  o ← lift_result (owner app authorization);
  key ← lift_result (idempotency_key idempotency_key_header);
  calling (op_create o request key) view_answer Unhandled.

Definition get_status (investigation_id : string) (authorization : option string) : HandlerM InvestigationView :=
  o ← lift_result (owner app authorization);
  calling (op_status o investigation_id) view_answer or_404.

Definition get_events (investigation_id : string) (authorization : option string) : HandlerM (list TimelineEvent) :=
  o ← lift_result (owner app authorization);
  calling (op_events o investigation_id) events_answer or_404.

Definition decide_ (investigation_id : string) (request : OwnerDecision) (authorization : option string)
    : HandlerM InvestigationView :=
  o ← lift_result (owner app authorization);
  calling (op_decide o investigation_id request) view_answer or_404_or_409.

Definition get_report (investigation_id : string) (authorization : option string) : HandlerM string :=
  o ← lift_result (owner app authorization);
  calling (op_report o investigation_id) text_answer or_404_or_409.

(** The routing table. *)
Inductive Request :=
  | post_investigation (request : CreateInvestigationRequest) (idempotency_key_header : option string)
  | get_investigation (investigation_id : string)
  | get_investigation_events (investigation_id : string)
  | post_decision (investigation_id : string) (request : OwnerDecision)
  | get_investigation_report (investigation_id : string).

Definition handle (request : Request) (authorization : option string) : HandlerM Body :=
  match request with
  | post_investigation r key => answer ← create r authorization key; mret (BView answer)
  | get_investigation id => answer ← get_status id authorization; mret (BView answer)
  | get_investigation_events id => answer ← get_events id authorization; mret (BTimeline answer)
  | post_decision id r => answer ← decide_ id r authorization; mret (BView answer)
  | get_investigation_report id => answer ← get_report id authorization; mret (BReport answer)
  end.
End routes.
