(* ===== verification/ApiProps.v ===== *)
(** The routes' trust boundary: what reaches the plane is asked for an owner Google
    vouched for and the allowlist holds; and on the Firestore plane nobody else sees
    an owner's investigations, or tells them from ones that do not exist. *)
From Stdlib Require Import ZArith Lia.
From stdpp Require Import prelude strings list gmap relations.
From S2P Require Import Prelude PyText Float64 Tools Domain World Sqlite Approvals ControlPlane Workers Api PlaneOrder FirestorePlane Lifecycle FirestoreSteps FirestoreProps.
Local Open Scope Z_scope.

(** * Who a request is for *)

(** The authorization is a token Google vouches for: its email is verified, and is,
    case and surrounding space aside, one of the allowed owners. *)
Definition vouched (v : GoogleIdentityVerifier) (allowed : gset string) (authorization : option string)
    (o : string) : Prop :=
  exists token claims email a,
    authorization = Some ("Bearer " +:+ token) /\ py_strip token <> ""
    /\ gv_validator v (py_strip token) (gv_client_id v) = Ok claims
    /\ dict_get "email" claims = Some (JStr email) /\ py_strip email <> ""
    /\ dict_get "email_verified" claims = Some (JBool true)
    /\ o = casefold (py_strip email) /\ o <> ""
    /\ a ∈ allowed /\ py_strip a <> "" /\ o = casefold (py_strip a).

Definition google_app (v : GoogleIdentityVerifier) (allowed : gset string) : App :=
  {| ap_allowed_owners := allowed; ap_verify := google_verify v |}.

(** What a request asks of the plane on behalf of an owner. *)
Definition request_op (o : string) (request : Request) : result Failure PlaneOp :=
  match request with
  | post_investigation r key => key ← idempotency_key key; Ok (op_create o r key)
  | get_investigation id => Ok (op_status o id)
  | get_investigation_events id => Ok (op_events o id)
  | post_decision id r => Ok (op_decide o id r)
  | get_investigation_report id => Ok (op_report o id)
  end.

Lemma removeprefix_app p s : removeprefix p (p +:+ s) = s.
Proof.
  unfold removeprefix. assert (is_prefix p (p +:+ s) = true) as -> by (apply is_prefix_spec; by exists s).
  by induction p.
Qed.

Lemma in_normalized o allowed :
  o ∈ normalized_owners allowed <-> exists a, a ∈ allowed /\ py_strip a <> "" /\ o = casefold (py_strip a).
Proof. unfold normalized_owners. set_solver. Qed.

Lemma google_verify_Ok v token email :
  google_verify v token = Ok email <-> exists claims,
    gv_validator v token (gv_client_id v) = Ok claims /\ dict_get "email" claims = Some (JStr email)
    /\ py_strip email <> "" /\ dict_get "email_verified" claims = Some (JBool true).
Proof.
  unfold google_verify. split.
  - destruct (gv_validator _ _ _) as [claims|]; [|done].
    destruct (dict_get "email" claims) as [[| | | |e| |]|] eqn:He; try done. case_decide; [done|].
    destruct (dict_get "email_verified" claims) as [[|[]| | | | |]|] eqn:Hv; try done.
    intros [= ->]. by exists claims.
  - intros (claims & -> & -> & Hne & ->). by rewrite decide_False.
Qed.

Lemma google_verify_Err v token e : google_verify v token = Err e -> e = ValueError.
Proof. unfold google_verify. by repeat (case_match; try congruence). Qed.

Lemma owner_Ok app authorization o :
  owner app authorization = Ok o <-> exists token email,
    authorization = Some ("Bearer " +:+ token) /\ py_strip token <> ""
    /\ ap_verify app (py_strip token) = Ok email
    /\ o = casefold (py_strip email) /\ o <> "" /\ o ∈ normalized_owners (ap_allowed_owners app).
Proof.
  unfold owner. split.
  - destruct authorization as [a|]; [|done]. destruct (is_prefix "Bearer " a) eqn:Hp; simpl; [|done].
    apply is_prefix_spec in Hp as [token ->]. rewrite removeprefix_app. case_decide; [done|].
    destruct (ap_verify app _) as [email|e] eqn:Hv; [|done]. case_decide; [done|].
    case_decide; [|done]. intros [= <-]. by exists token, email.
  - intros (token & email & -> & Htok & Hv & -> & Hne & Hin).
    assert (is_prefix "Bearer " ("Bearer " +:+ token) = true) as -> by done. cbn [negb].
    rewrite removeprefix_app. rewrite decide_False by done. rewrite Hv.
    rewrite decide_False by done. by rewrite decide_True.
Qed.

Lemma google_owner_Ok v allowed authorization o :
  owner (google_app v allowed) authorization = Ok o <-> vouched v allowed authorization o.
Proof.
  rewrite owner_Ok. cbn [google_app ap_verify ap_allowed_owners]. unfold vouched. split.
  - intros (token & email & -> & Ht & (claims & Hc & He & Hne & Hv)%google_verify_Ok & -> & Ho & Hin).
    apply in_normalized in Hin as (a & ? & ? & ?). by exists token, claims, email, a.
  - intros (token & claims & email & a & -> & Ht & Hc & He & Hne & Hv & -> & Ho & Ha & Hane & Hfold).
    exists token, email. split_and!; try done.
    + apply google_verify_Ok. by exists claims.
    + apply in_normalized. by exists a.
Qed.

(** Whoever is not vouched for is turned away as unauthenticated or not allowed. *)
Lemma google_owner_Err v allowed authorization e :
  owner (google_app v allowed) authorization = Err e -> e = HTTPException 401 \/ e = HTTPException 403.
Proof.
  unfold owner. destruct authorization as [a|]; [|intros [= <-]; by left].
  destruct (negb _); [intros [= <-]; by left|]. cbv zeta. case_decide; [intros [= <-]; by left|].
  cbn [google_app ap_verify]. destruct (google_verify v _) as [email|e'] eqn:Hv.
  - repeat case_decide; try done; intros [= <-]; by right.
  - apply google_verify_Err in Hv as ->. intros [= <-]. by left.
Qed.

Section boundary.
Context {State : Type} `{ControlPlane State}.

Lemma bind_lift {E A B} (r : result E A) (k : A -> ST State E B) s :
  (lift_result r ≫= k) s = match r with Ok a => k a s | Err e => (Err e, s) end.
Proof. by destruct r. Qed.

Lemma bind_state {E A B} (m : ST State E A) (f : A -> B) s : ((a ← m; mret (f a)) s).2 = (m s).2.
Proof. unfold mbind, ST_bind. by destruct (m s) as [[]]. Qed.

Lemma calling_state {A} op (out : Answer -> option (res A)) except s :
  (calling op out except s).2 = (ask op s).2.
Proof.
  unfold calling, asking. destruct (ask op s) as [a s']. destruct (out a) as [[]|]; done.
Qed.

Lemma bind_Err {E A B} (m : ST State E A) (k : A -> ST State E B) e s s' :
  m s = (Err e, s') -> (m ≫= k) s = (Err e, s').
Proof. unfold mbind, ST_bind. by intros ->. Qed.

(** A request without an owner ends there. *)
Lemma handle_refused app request authorization e s :
  owner app authorization = Err e -> handle app request authorization s = (Err e, s).
Proof. intros Ho. by destruct request; apply bind_Err; unfold Api.create, get_status, get_events, Api.decide_, get_report; rewrite bind_lift, Ho. Qed.

(** A request with one asks its operation, once. *)
Lemma handle_asks app request authorization o s :
  owner app authorization = Ok o ->
  match request_op o request with
  | Ok op => (handle app request authorization s).2 = (ask op s).2
  | Err e => handle app request authorization s = (Err e, s)
  end.
Proof.
  intros Ho. destruct request as [r key|id|id|id r|id]; simpl.
  1: destruct (idempotency_key key) as [k|e] eqn:Hk; simpl.
  2: { apply bind_Err. unfold Api.create. by rewrite !bind_lift, Ho, !bind_lift, Hk. }
  all: rewrite bind_state; unfold Api.create, get_status, get_events, Api.decide_, get_report;
    rewrite bind_lift, Ho, ?bind_lift, ?Hk; apply calling_state.
Qed.

(** C25: A request to the deployed application changes nothing and asks the plane
    nothing, answering 401 or 403, unless its bearer token is one Google vouches for:
    its claims hold a verified email which, case and surrounding space aside, is on the
    owner allowlist.  Then it asks the plane exactly one operation on behalf of that
    owner, or, for a creation without an idempotency key, answers 400 and asks nothing. *)
Theorem requests_authenticated v allowed request authorization s :
  let r := handle (google_app v allowed) request authorization s in
  (exists code, (code = 401 \/ code = 403) /\ r = (Err (HTTPException code), s)
                /\ forall o, ~ vouched v allowed authorization o)
  \/ exists o, vouched v allowed authorization o
     /\ match request_op o request with
        | Ok op => r.2 = (ask op s).2
        | Err e => e = HTTPException 400 /\ r = (Err e, s)
        end.
Proof.
  intros r. destruct (owner (google_app v allowed) authorization) as [o|e] eqn:Ho.
  - right. exists o. split; [by apply google_owner_Ok|]. pose proof (handle_asks _ request _ o s Ho) as Hr.
    destruct request as [r' key|id|id|id r'|id]; try exact Hr. simpl in *.
    destruct (idempotency_key key) as [k|e] eqn:Hk; simpl in *; [done|]. split; [|done].
    unfold idempotency_key in Hk. destruct key; [|congruence]. case_decide; congruence.
  - left. assert (Hnone : forall o, ~ vouched v allowed authorization o).
    { intros o Hv. apply google_owner_Ok in Hv. congruence. }
    destruct (google_owner_Err v allowed authorization e Ho) as [-> | ->].
    + exists 401. split; [by left|]. by split; [apply handle_refused|].
    + exists 403. split; [by right|]. by split; [apply handle_refused|].
Qed.
End boundary.

(** * What strangers can do on the Firestore plane *)

(** Everything kept of [me]'s investigations. *)
Definition kept (me : string) (s s' : Store) : Prop :=
  forall id d, fs_jobs s !! id = Some d -> jb_owner (jd_job d) = me ->
    fs_jobs s' !! id = Some d /\ fs_deliveries s' !! id = fs_deliveries s !! id
    /\ fs_decisions s' !! id = fs_decisions s !! id /\ fs_events s' !! id = fs_events s !! id.

#[export] Instance kept_preorder me : PreOrder (kept me).
Proof.
  split; [by intros s id d|]. intros s1 s2 s3 H12 H23 id d Hd Hme.
  destruct (H12 id d Hd Hme) as (Hd2 & ? & ? & ?). destruct (H23 id d Hd2 Hme) as (? & ? & ? & ?).
  split_and!; congruence.
Qed.

Lemma data_kept me s s' : data s' = data s -> kept me s s'.
Proof. intros (Hj & He & Hc & Hd)%data_eq id d Hid Hme. rewrite Hj, He, Hc, Hd. done. Qed.

(** The investigation a request is about. *)
Definition about (request : Request) : option string :=
  match request with
  | post_investigation _ _ => None
  | get_investigation id => Some id
  | get_investigation_events id => Some id
  | post_decision id _ => Some id
  | get_investigation_report id => Some id
  end.

Section strangers.
Context `{FirestoreLaws} `{FreshIds} `{PlaneClock} `{Artifacts} (config : PlaneConfig).
Hypothesis replay_attempts_positive : 0 < pf_max_replay_attempts config.
Hypothesis delivery_attempts_positive : 0 < pf_max_delivery_attempts config.
#[local] Existing Instance firestore_plane.
Notation plane := (firestore_plane config).

(** Documents named [id], in a store that has none of [me]'s there. *)
Lemma kept_except me id s t :
  (forall d, fs_jobs s !! id = Some d -> jb_owner (jd_job d) <> me) ->
  (forall i, i <> id -> fs_jobs t !! i = fs_jobs s !! i /\ fs_deliveries t !! i = fs_deliveries s !! i
     /\ fs_decisions t !! i = fs_decisions s !! i /\ fs_events t !! i = fs_events s !! i) ->
  kept me s t.
Proof.
  intros Hid Hothers i d Hd Hme. destruct (decide (i = id)) as [->|Hne]; [by destruct (Hid d)|].
  destruct (Hothers i Hne) as (-> & -> & -> & ->). done.
Qed.

Lemma triple_request {A} P (f : Store -> A * Store) Q R :
  (forall s n, P s -> P (s <| fs_requests := n |>)) -> (forall s, P s -> Q (f s).1 (f s).2) ->
  (forall s, P s -> R google_error s) -> (forall s, P s -> R google_error (f s).2) ->
  triple P (request f) Q R.
Proof.
  intros Hstable HQ HR HR' s Hs. unfold request. apply (Hstable _ (S (fs_requests s))) in Hs.
  destruct (reply _); [|by apply HR|by apply HR']. specialize (HQ _ Hs). by destruct (f _).
Qed.

Lemma owned_not_mine me o id s0 :
  o <> me ->
  triple (kept me s0) (owned id o)
    (fun _ s => kept me s0 s /\ forall d, fs_jobs s !! id = Some d -> jb_owner (jd_job d) <> me) (fun _ => kept me s0).
Proof.
  intros Hne. eapply (triple_bind _ _ _ (fun x s => kept me s0 s /\ x = fs_jobs s !! id)).
  - by apply triple_request.
  - intros [d|]; [|by apply triple_raise; intros s []]. case_decide as Ho.
    + apply triple_ret. intros s [Hk Hd]. split; [done|]. intros x Hx. congruence.
    + by apply triple_raise; intros s [].
Qed.

Lemma read_kept {A B} P me s0 (f : Store -> A) (k : A -> ST Store exn B) :
  (forall s n, P s -> P (s <| fs_requests := n |>)) -> (forall s, P s -> kept me s0 s) ->
  (forall a, triple P (k a) (fun _ => kept me s0) (fun _ => kept me s0)) ->
  triple P (query f ≫= k) (fun _ => kept me s0) (fun _ => kept me s0).
Proof.
  intros Hstable HP Hk. eapply (triple_bind _ _ _ (fun _ => P)); [|done]. by apply triple_request; eauto.
Qed.

(** A read that leaves [me]'s documents, and what else is known of the data. *)
Ltac solve_read :=
  apply triple_request; [intros ? ? [? ?]; split; assumption|intros ? ?; assumption|intros ? [? ?]; assumption..].

Lemma triple_staged P R id name fields :
  (forall s n, P s -> P (s <| fs_requests := n |>)) -> (forall s, P s -> R google_error s) ->
  triple P (staged_event id name fields) (fun _ => P) R.
Proof.
  intros Hstable HR. eapply (triple_bind _ _ _ (fun _ => P)); [|by intros n; apply triple_ret].
  eapply (triple_bind _ _ _ (fun _ => P)); [by apply triple_request|by intros l; apply triple_ret].
Qed.

(** An operation for another owner. *)
Definition for_owner (op : PlaneOp) : option string :=
  match op with
  | op_create o _ _ => Some o
  | op_status o _ => Some o
  | op_events o _ => Some o
  | op_decide o _ _ => Some o
  | op_report o _ => Some o
  | _ => None
  end.

Lemma create_kept me o r key s0 :
  plane_ok config s0 -> o <> me -> kept me s0 (create o r key s0).2.
Proof.
  intros Hok Hne.
  assert (Ht : triple (fun s => data s = data s0 /\ fs_ids s = fs_ids s0) (create o r key)
    (fun _ => kept me s0) (fun _ => kept me s0)).
  2: { specialize (Ht s0 (conj eq_refl eq_refl)). by destruct (create o r key s0) as [[]]. }
  assert (Hpre : forall s, data s = data s0 /\ fs_ids s = fs_ids s0 -> kept me s0 s) by (intros s []; by apply data_kept).
  eapply (triple_bind _ _ _ (fun _ s => data s = data s0 /\ fs_ids s = fs_ids s0)).
  { by apply triple_request; auto. }
  intros docs. destruct (List.find _ docs).
  { by apply triple_lift; auto. }
  set (Fresh := fun (id : string) s => kept me s0 s /\ fs_jobs s !! id = None).
  eapply (triple_bind _ _ _ Fresh).
  { intros s [Hd Hi]. split; [by apply data_kept|]. apply data_eq in Hd as (Hjobs & _). cbn. rewrite Hjobs.
    assert (Hdrawn : drawn (uuid_hex (fs_ids s)) s0 (s <| fs_ids := S (fs_ids s) |>)).
    { exists (fs_ids s). split; [done|]. simpl. lia. }
    by apply (drawn_fresh config _ _ _ Hok Hdrawn). }
  intros id. eapply (triple_bind _ _ _ (fun _ => Fresh id)).
  { solve_read. }
  intros all. cbv zeta. eapply (triple_bind _ _ _ (fun _ => Fresh id)).
  { apply triple_staged; [intros ? ? [? ?]; by split|by intros ? []]. }
  intros e. eapply (triple_bind _ _ _ (fun _ => kept me s0)); [|by intros []; apply triple_ret].
  assert (Hwrite : forall s, Fresh id s -> kept me s0 (set_event id e (set_job id
    {| jd_sequence := Z.of_nat (length all); jd_job := queued_job id o r key |} s))).
  { intros s [Hk Hnone]. etrans; [exact Hk|]. apply (kept_except me id); [by rewrite Hnone|].
    intros i Hi. simpl. by rewrite !lookup_insert_ne. }
  apply triple_request; [intros ? ? [? ?]; by split|exact Hwrite|by intros ? []|exact Hwrite].
Qed.

Lemma decide_kept me o id decision s0 : o <> me -> kept me s0 (decide_ o id decision s0).2.
Proof.
  intros Hne.
  assert (Ht : triple (kept me s0) (decide_ o id decision) (fun _ => kept me s0) (fun _ => kept me s0)).
  2: { specialize (Ht s0 (reflexivity s0)). by destruct (decide_ o id decision s0) as [[]]. }
  eapply triple_bind; [by apply owned_not_mine|]. intros d. cbv zeta.
  set (P := fun s => kept me s0 s /\ _).
  apply read_kept; [intros ? ? [? ?]; by split|by intros ? []|]. intros [prior|].
  - eapply (triple_bind _ _ _ (fun _ => kept me s0)); [by apply triple_lift; intros ? ? []|].
    intros pd. repeat (case_match || case_decide); try (by apply triple_raise); by apply triple_lift.
  - destruct (negb _); [by apply triple_raise; intros ? []|].
    destruct (jb_checkpoint_id _) as [c|]; [|by apply triple_raise; intros ? []].
    case_decide; [by apply triple_raise; intros ? []|].
    eapply (triple_bind _ _ _ (fun _ => P)).
    { apply triple_staged; [intros ? ? [? ?]; by split|by intros ? []]. }
    intros e. eapply (triple_bind _ _ _ (fun _ => kept me s0)); [|by intros []; apply triple_ret].
    assert (Hwrite : forall s x, P s -> kept me s0 (set_event id e (set_job id (on_job decided_job d)
      (set_decision id x s)))).
    { intros s x [Hk Hid]. etrans; [exact Hk|]. apply (kept_except me id); [done|].
      intros i Hi. simpl. by rewrite !lookup_insert_ne. }
    apply triple_request; [intros ? ? [? ?]; by split|intros; by apply Hwrite|by intros ? []|intros; by apply Hwrite].
Qed.

Lemma reading_kept {A} me o id s0 (k : JobDocument -> ST Store exn A) :
  o <> me -> (forall d s, data (k d s).2 = data s) -> kept me s0 ((owned id o ≫= k) s0).2.
Proof.
  intros Hne Hk.
  assert (Ht : triple (kept me s0) (owned id o ≫= k) (fun _ => kept me s0) (fun _ => kept me s0)).
  2: { specialize (Ht s0 (reflexivity s0)). by destruct ((owned id o ≫= k) s0) as [[]]. }
  eapply triple_bind; [by apply owned_not_mine|]. intros d s [Hs _]. specialize (Hk d s).
  destruct (k d s) as [[a|e] s']; (etrans; [exact Hs|by apply data_kept]).
Qed.

Lemma others_ops_kept me o op s :
  plane_ok config s -> for_owner op = Some o -> o <> me -> kept me s (@ask Store plane op s).2.
Proof.
  intros Hok Ho Hne. destruct op; simplify_eq/=.
  - by apply create_kept.
  - by apply reading_kept.
  - apply reading_kept; [done|]. intros d t. unfold mbind, ST_bind, query, request. by destruct (reply _).
  - by apply decide_kept.
  - by apply reading_kept.
Qed.

(** Requests one after another, each with the application as it is configured then. *)
Definition requests_after (requests : list (App * Request * option string)) (s : Store) : Store :=
  fold_left (fun s '(app, request, authorization) => (@handle Store plane app request authorization s).2) requests s.

Definition by_another (me : string) (r : App * Request * option string) : Prop :=
  owner r.1.1 r.2 <> Ok me.

Lemma request_kept me app request authorization s :
  plane_ok config s -> owner app authorization <> Ok me ->
  let s' := (@handle Store plane app request authorization s).2 in kept me s s' /\ plane_ok config s'.
Proof.
  intros Hok Hno s'. destruct (owner app authorization) as [o|e] eqn:Ho.
  2: { unfold s'. by rewrite (handle_refused app request authorization e s Ho). }
  pose proof (@handle_asks Store plane app request authorization o s Ho) as Hasks.
  assert (Hne : o <> me) by congruence.
  destruct (request_op o request) as [op|e] eqn:Hop.
  2: { unfold s'. by rewrite Hasks. }
  unfold s'. rewrite Hasks. split.
  - apply (others_ops_kept me o); [done| |done].
    destruct request as [r key|id|id|id r|id]; simpl in Hop; [|by injection Hop as <-..].
    destruct (idempotency_key key); simpl in Hop; [by injection Hop as <-|done].
  - eapply evolves_ok; [done..|]. by apply ask_evolves.
Qed.

Lemma requests_kept me requests : forall s,
  plane_ok config s -> Forall (by_another me) requests -> kept me s (requests_after requests s).
Proof.
  induction requests as [|[[app request] auth] requests IH]; intros s Hok Hall; [done|].
  inversion Hall as [|? ? Hfirst Hrest]; subst. destruct (request_kept me app request auth s Hok Hfirst) as [Hk Hok'].
  simpl. etrans; [exact Hk|]. by apply IH.
Qed.

(** The same store without a job. *)
Definition without (id : string) (s : Store) : Store := s <| fs_jobs := delete id (fs_jobs s) |>.

(** A job of [me] is to another owner one that does not exist. *)
Lemma owned_hidden {A} me o id d s (k : JobDocument -> ST Store exn A) :
  fs_jobs s !! id = Some d -> jb_owner (jd_job d) = me -> o <> me ->
  exists e, (e = not_found \/ e = google_error)
    /\ ((owned id o ≫= k) s).1 = Err e /\ ((owned id o ≫= k) (without id s)).1 = Err e.
Proof.
  intros Hd Hme Ho. unfold owned, job_ref_get, query, request, mbind, ST_bind. cbn.
  destruct (reply (fs_requests s)).
  - exists not_found. split; [by left|]. rewrite Hd, lookup_delete_eq. rewrite decide_False by congruence. done.
  - exists google_error. split; [by right|done].
  - exists google_error. split; [by right|done].
Qed.

Lemma answered_Err {A} (into : res A -> Answer) (m : ST Store exn A) e s : (m s).1 = Err e -> (answered into m s).1 = into (Err e).
Proof. unfold answered. simpl. by intros ->. Qed.

Lemma calling_Err {A} op (out : Answer -> option (res A)) into except e s :
  (@ask Store plane op s).1 = into (Err e) -> (forall r, out (into r) = Some r) ->
  (@calling Store plane A op out except s).1 = Err (except e).
Proof.
  intros Hask Hout. unfold calling, asking. destruct (@ask Store plane op s) as [a s']. simpl in Hask.
  by rewrite Hask, Hout.
Qed.

Lemma then_Err {S E A B} (m : ST S E A) (f : A -> B) e s : (m s).1 = Err e -> ((a ← m; mret (f a)) s).1 = Err e.
Proof. unfold mbind, ST_bind. destruct (m s) as [[a|e'] s']; simpl; congruence. Qed.

Lemma hidden_call {A B} me o id d app (k : JobDocument -> ST Store exn A) op out into except authorization
    (body : A -> B) s :
  fs_jobs s !! id = Some d -> jb_owner (jd_job d) = me -> o <> me -> owner app authorization = Ok o ->
  (forall t, @ask Store plane (op o) t = answered into (owned id o ≫= k) t) -> (forall r, out (into r) = Some r) ->
  let m := answer ← (o ← lift_result (owner app authorization); @calling Store plane A (op o) out except);
           mret (body answer) in
  exists e, (m s).1 = Err e /\ (m (without id s)).1 = Err e.
Proof.
  intros Hd Hme Hne Ho Hask Hout m. destruct (owned_hidden me o id d s k Hd Hme Hne) as (e & _ & H1' & H2').
  exists (except e).
  split; apply then_Err; rewrite bind_lift, Ho; apply (calling_Err (op o) out into); try done;
    rewrite Hask; by apply answered_Err.
Qed.

Lemma handle_hidden me id d app request authorization s :
  fs_jobs s !! id = Some d -> jb_owner (jd_job d) = me -> about request = Some id ->
  owner app authorization <> Ok me ->
  exists e, (@handle Store plane app request authorization s).1 = Err e
         /\ (@handle Store plane app request authorization (without id s)).1 = Err e.
Proof.
  intros Hd Hme Habout Hno. destruct (owner app authorization) as [o|e] eqn:Ho.
  2: { exists e. by rewrite !(handle_refused app request authorization e _ Ho). }
  assert (Hne : o <> me) by congruence.
  destruct request as [r key|i|i|i r|i]; simplify_eq/=.
  - eapply (hidden_call _ o id d app _ (fun o => op_status o id) view_answer AView or_404 authorization BView s); done.
  - eapply (hidden_call _ o id d app _ (fun o => op_events o id) events_answer AEvents or_404 authorization BTimeline s); done.
  - eapply (hidden_call _ o id d app _ (fun o => op_decide o id r) view_answer AView or_404_or_409 authorization BView s); done.
  - eapply (hidden_call _ o id d app _ (fun o => op_report o id) text_answer AText or_404_or_409 authorization BReport s); done.
Qed.

(** C20: On the Firestore plane, whatever happened before and whichever of its requests
    fail, any sequence of requests authenticated as other owners, or as nobody, leaves
    everything kept of an owner's investigations as it was; and such a request about
    one of them fails exactly as if the investigation did not exist. *)
Theorem strangers_see_nothing before requests me :
  Forall (by_another me) requests ->
  let s := @history Store plane before empty_store in
  let s' := requests_after requests s in
  kept me s s'
  /\ forall id d app request authorization,
      fs_jobs s' !! id = Some d -> jb_owner (jd_job d) = me -> about request = Some id ->
      by_another me (app, request, authorization) ->
      exists e, (@handle Store plane app request authorization s').1 = Err e
             /\ (@handle Store plane app request authorization (without id s')).1 = Err e.
Proof.
  intros Hall s s'. split.
  - apply requests_kept; [|done]. by apply history_ok, empty_store_ok.
  - intros id d app request authorization Hd Hme Habout Hno. by eapply handle_hidden.
Qed.
End strangers.
