(* ===== verification/PlaneDurable.v ===== *)
(** Every operation of the SQLite control plane, with any statement failing: the
    tables only show decisions the ledger holds, a worker only resumes with one, and
    an operation that raises leaves the tables as they were. *)
From Stdlib Require Import ZArith Lia.
From stdpp Require Import prelude strings list.
From S2P Require Import Prelude PyText Float64 Tools Domain Sqlite Approvals ControlPlane FirestorePlane SqlitePlane.
Local Open Scope Z_scope.

(** * The ledger *)

(** The row of a decision: what [ensure_ledger_decision] wants to be there. *)
Definition decides (id checkpoint_id : string) (d : OwnerDecision) (r : DecisionRecord) : Prop :=
  dr_thread_id r = id /\ dr_checkpoint_id r = checkpoint_id
  /\ dr_decision r = value (od_decision d) /\ dr_rejection_note r = od_rejection_note d.

Definition holds (D : list DecisionRecord) (id checkpoint_id : string) (d : OwnerDecision) : Prop :=
  exists r, r ∈ D /\ decides id checkpoint_id d r.

Lemma holds_prefix D D' id cp d : D `prefix_of` D' -> holds D id cp d -> holds D' id cp d.
Proof. intros [l ->] (r & Hr & Hd). exists r. split; [apply elem_of_app; by left|done]. Qed.

(** The transaction reads [V]; [D] is committed. *)
Definition viewing (D V : list DecisionRecord) (c : Connection DecisionRecord) : Prop :=
  ready D c /\ V = D \/ within D V c.

Definition row_from (V : list DecisionRecord) (id : string) (o : option DecisionRow) : Prop :=
  forall row, o = Some row -> exists raw, raw ∈ V /\ dr_thread_id raw = id /\ parse_decision raw = Ok row.

Lemma row_decides V id row cp d :
  row_from V id (Some row) -> dw_checkpoint_id row = cp -> matches row d = true -> holds V id cp d.
Proof.
  intros Hrow Hcp Hm. destruct (Hrow row eq_refl) as (raw & Hin & Hid & Hp). exists raw. split; [done|].
  unfold parse_decision in Hp. destruct (of_value (dr_decision raw)) as [x|] eqn:Hx; [|done].
  apply of_value_Some in Hx. invert_checks.
  apply andb_true_iff in Hm as [Hd%bool_decide_eq_true Hn%bool_decide_eq_true].
  cbn [dw_decision dw_rejection_note dw_checkpoint_id] in *.
  unfold decides. split_and!; congruence.
Qed.

Section ledger.
Context `{Sqlite}.

Lemma select_viewing D V p :
  stmt (viewing D V) (select p) (fun rows c => rows = List.filter p V /\ viewing D V c).
Proof.
  intros c [[Hc ->]|Hc].
  - pose proof (select_ready D p c Hc) as Hs. destruct (select p c) as [[a|e] c'].
    + destruct Hs. split; [done|by left].
    + destruct Hs. split; [done|by left].
  - pose proof (select_within D V p c Hc) as Hs. destruct (select p c) as [[a|e] c'].
    + destruct Hs. split; [done|by right].
    + destruct Hs. split; [done|by right].
Qed.

Lemma commit_viewing D V : stmt (viewing D V) commit (fun _ => ready V).
Proof.
  intros c [[Hc ->]|Hc].
  - pose proof (commit_ready_stmt D c Hc) as Hs. destruct (commit c) as [[a|e] c']; [done|].
    destruct Hs. split; [done|by left].
  - pose proof (commit_stmt D V c Hc) as Hs. destruct (commit c) as [[a|e] c']; [done|].
    destruct Hs. split; [done|by right].
Qed.

Lemma read_viewing D V id :
  triple (viewing D V) (read_decision_for_thread id)
    (fun o c => row_from V id o /\ viewing D V c) (fun _ => viewing D V).
Proof.
  unfold read_decision_for_thread. eapply triple_bind.
  { eapply (triple_try _ _ _ _ (fun e c => e = sqlite_error /\ viewing D V c)); [apply select_viewing|].
    intros e. apply triple_raise. by intros c [_ ?]. }
  intros rows. destruct (latest rows) as [raw|] eqn:Hl.
  2: { apply triple_ret. intros c [_ Hc]. split; [|done]. by intros row. }
  destruct (parse_decision raw) as [row|e] eqn:Hp.
  2: { apply triple_raise. by intros c [_ Hc]. }
  apply triple_ret. intros c [-> Hc]. split; [|done]. intros row' [= <-]. exists raw.
  apply latest_elem, list_elem_of_In, filter_In in Hl as [Hin Hb%bool_decide_eq_true].
  by rewrite list_elem_of_In.
Qed.

(** What a refused record may have left in the open transaction. *)
Lemma record_viewing D id cp d t :
  let V := D ++ [record_of id cp d t] in
  triple (ready D) (record_decision_before_resume id cp d t)
    (fun _ => viewing V V) (fun _ c => viewing D D c \/ viewing D V c).
Proof.
  intros V. eapply (triple_try _ _ _ _ (fun _ c => viewing D D c \/ viewing D V c)).
  - eapply triple_bind.
    + eapply triple_conseq; [apply (insert_ready decision_key D (record_of id cp d t))|done| |].
      * intros a c [_ Hc]. exact (or_intror Hc : viewing D V c).
      * intros e c [_ Hc]. left. by left.
    + intros []. eapply triple_conseq; [apply commit_viewing|done| |].
      * intros a c Hc. by left.
      * intros e c [_ Hc]. by right.
  - intros e. by apply triple_raise.
Qed.
End ledger.

(** * The two databases *)

Section planes.
Context `{PlaneStatements} `{Sqlite} `{Host} `{PlaneClock} `{LedgerClock} `{Artifacts}.

(** What is so of the ledger and of the tables. *)
Definition at_ (P : Connection DecisionRecord -> Tables -> Prop) (s : Plane) : Prop :=
  P (sp_ledger s) (sp_tables s).

Lemma triple_statement {A} (P : Connection DecisionRecord -> Tables -> Prop) (f : Tables -> res (A * Tables)) Q :
  (forall l t a t', P l t -> f t = Ok (a, t') -> Q a l t') ->
  triple (at_ P) (statement f) (fun a => at_ (Q a)) (fun _ => at_ P).
Proof.
  intros Hf s HP. unfold statement. destruct (plane_statement_fails _); [done|].
  destruct (f (sp_tables s)) as [[a t]|e] eqn:Hr; [|done]. exact (Hf _ _ _ _ HP Hr).
Qed.

Lemma triple_read {A} P (f : Tables -> A) :
  triple (at_ P) (read f) (fun a => at_ (fun l t => P l t /\ a = f t)) (fun _ => at_ P).
Proof. apply triple_statement. by intros l t a t' HP [= <- <-]. Qed.

Lemma triple_on_ledger {A} P (m : DecisionsM A) Q E T :
  triple P m Q E ->
  triple (at_ (fun l t => P l /\ t = T)) (on_ledger m)
    (fun a => at_ (fun l t => Q a l /\ t = T)) (fun e => at_ (fun l t => E e l /\ t = T)).
Proof.
  intros Hm s [HP Ht]. unfold on_ledger. specialize (Hm _ HP).
  by destruct (m (sp_ledger s)) as [[a|e] c].
Qed.

(** ** The ledger's own transactions *)

Definition grown (D : list DecisionRecord) (Q : list DecisionRecord -> Prop) (T : Tables)
    (l : Connection DecisionRecord) (t : Tables) : Prop :=
  exists D', D `prefix_of` D' /\ idle D' l /\ t = T /\ Q D'.

(** The open transaction extends what is committed, and that extends [D]. *)
Definition growing (D : list DecisionRecord) (Q : list DecisionRecord -> Prop) (T : Tables)
    (l : Connection DecisionRecord) (t : Tables) : Prop :=
  exists D' V, D `prefix_of` D' /\ D' `prefix_of` V /\ viewing D' V l /\ t = T /\ Q V.

Notation any := (fun _ => True).

Lemma decision_connection_spec {A} D T (body : PlaneM A) (Q : A -> list DecisionRecord -> Prop) :
  triple (at_ (fun l t => ready D l /\ t = T)) body
    (fun a => at_ (growing D (Q a) T)) (fun _ => at_ (growing D any T)) ->
  triple (at_ (fun l t => idle D l /\ t = T)) (decision_connection body)
    (fun a => at_ (grown D (Q a) T)) (fun _ => at_ (grown D any T)).
Proof.
  intros Hbody. eapply triple_bind.
  { eapply triple_try; [apply triple_on_ledger, ensure_decisions_spec|].
    intros e. apply triple_raise. intros s [[_ Hi] Ht]. exists D. by split_and!. }
  intros []. intros s Hs. unfold ledger_transaction.
  pose proof (triple_bind _ body (fun a => _ ← on_ledger commit; mret a) _
    (fun a => at_ (grown D (Q a) T)) (fun _ => at_ (growing D any T)) Hbody) as Hrun.
  cbv beta in Hrun. specialize (Hrun ltac:(intros a; intros s1 (D' & V & HD & HV & Hview & Ht & HQ);
    pose proof (commit_viewing D' V _ Hview) as Hc; unfold mbind, ST_bind, on_ledger;
    destruct (commit (sp_ledger s1)) as [[[]|e] c];
    [exists V; split; [by etrans|split; [by apply ready_idle|done]]
    |destruct Hc; exists D', V; by split_and!]) s Hs).
  destruct ((body ≫= _) s) as [[a|e] s']; [done|].
  destruct Hrun as (D' & V & HD & HV & Hview & Ht & _). exists D'. split; [done|]. split; [|done].
  destruct Hview as [[[_ Hsaved] _]|[Hsaved _]]; split; try done; simpl; by rewrite Hsaved.
Qed.

Lemma grown_weaken D (Q Q' : list DecisionRecord -> Prop) T l t :
  (forall D', Q D' -> Q' D') -> grown D Q T l t -> grown D Q' T l t.
Proof. intros HQ (D' & ? & ? & ? & ?). exists D'. auto. Qed.

Lemma ledger_decision_spec D T id :
  triple (at_ (fun l t => idle D l /\ t = T)) (ledger_decision id)
    (fun o => at_ (grown D (fun D' => row_from D' id o) T)) (fun _ => at_ (grown D any T)).
Proof.
  eapply triple_try; [apply decision_connection_spec|].
  - eapply triple_conseq; [apply triple_on_ledger, (read_viewing D D id)| | |].
    + intros s [Hr Ht]. split; [by left|done].
    + intros o s [[Hrow Hv] Ht]. exists D, D. by split_and!.
    + intros e s [Hv Ht]. exists D, D. by split_and!.
  - intros e. by apply triple_raise.
Qed.

Lemma record_or_agree_spec D T id cp d :
  triple (at_ (fun l t => ready D l /\ t = T)) (record_or_agree id cp d)
    (fun _ => at_ (growing D (fun V => holds V id cp d) T)) (fun _ => at_ (growing D any T)).
Proof.
  unfold record_or_agree. eapply (triple_bind _ _ _ (fun _ => at_ (fun l t => ready D l /\ t = T))); [by intros s Hs|].
  intros at_time. set (r := record_of id cp d at_time).
  assert (HD : D `prefix_of` D ++ [r]) by by apply prefix_app_r.
  eapply triple_try; [eapply triple_conseq; [apply triple_on_ledger, (record_viewing D id cp d at_time)|done| |]|].
  - intros a s [Hv Ht]. exists (D ++ [r]), (D ++ [r]). split_and!; try done.
    exists r. split; [apply elem_of_app; right; by left|done].
  - intros e s Hs. exact Hs.
  - intros e. cbv beta. destruct (is_store_error e).
    2: { apply triple_raise. intros s [[Hv|Hv] Ht]; [exists D, D|exists D, (D ++ [r])]; by split_and!. }
    intros s [Hv Ht].
    assert (Hview : exists V, D `prefix_of` V /\ viewing D V (sp_ledger s)) by (destruct Hv; eauto).
    destruct Hview as (V & HV & Hview).
    refine (triple_bind (at_ (fun l t => viewing D V l /\ t = T)) _ _ _ _ _
      (triple_conseq _ _ _ _ _ _ _ (triple_on_ledger _ _ _ _ T (read_viewing D V id)) _ _ _) _ s _);
      [intros ? Hx; exact Hx|intros ? ? Hx; exact Hx| | |done].
    { intros e1 s1 [Hv1 Ht1]. exists D, V. by split_and!. }
    intros o. cbv beta. destruct o as [row|]; [|apply triple_raise; intros s1 [[_ Hv1] Ht1]; exists D, V; by split_and!].
    destruct (bool_decide _ && _) eqn:Hm.
    + apply triple_ret. intros s1 [[Hrow Hv1] Ht1]. apply andb_true_iff in Hm as [Hcp%bool_decide_eq_true Hm].
      exists D, V. split_and!; try done. by eapply row_decides.
    + apply triple_raise. intros s1 [[_ Hv1] Ht1]. exists D, V. by split_and!.
Qed.

Lemma ledger_ensure_spec D T id cp d :
  triple (at_ (fun l t => idle D l /\ t = T)) (ensure_ledger_decision id cp d)
    (fun _ => at_ (grown D (fun D' => holds D' id cp d) T)) (fun _ => at_ (grown D any T)).
Proof.
  eapply triple_try; [apply decision_connection_spec|].
  - eapply triple_bind.
    { eapply triple_conseq; [apply triple_on_ledger, (read_decision_spec D id)|done| |].
      - intros o s Hs. exact Hs.
      - intros e s [[_ Hr] Ht]. exists D, D. split_and!; try done. by left. }
    assert (Hready : forall o s, at_ (fun l t => (existing_of D id o /\ ready D l) /\ t = T) s ->
      at_ (growing D any T) s) by (intros o s [[_ Hr] Ht]; exists D, D; split_and!; try done; by left).
    intros o. cbv beta. destruct o as [row|].
    + destruct (bool_decide _) eqn:Hcp; simpl; [|apply triple_raise; exact (Hready (Some row))].
      destruct (matches row d) eqn:Hm; simpl; [|apply triple_raise; exact (Hready (Some row))].
      apply bool_decide_eq_true in Hcp. apply triple_ret. intros s [[Hrow Hr] Ht].
      exists D, D. split_and!; try done; [by left|]. apply (row_decides D id row); try done. by intros ? [= <-].
    + eapply triple_conseq; [apply record_or_agree_spec| |intros a s Hs; exact Hs|intros e s Hs; exact Hs]. by intros s [[_ Hr] Ht].
  - intros e. by apply triple_raise.
Qed.

(** ** Decisions the tables show *)

(** The ledger's row of a mirrored decision: its note may be stripped in the mirror. *)
Definition backs (id : string) (c : Decision) (r : DecisionRecord) : Prop :=
  dr_thread_id r = id /\ dr_checkpoint_id r = dc_checkpoint_id c /\ dr_decision r = dc_decision c
  /\ normalize_note (dr_rejection_note r) = normalize_note (dc_rejection_note c).

Record backed (D : list DecisionRecord) (t : Tables) : Prop := {
  bk_mirror : forall id c, (id, c) ∈ sq_decisions t -> exists r, r ∈ D /\ backs id c r;
  bk_event : forall id e, (id, e) ∈ sq_events t -> te_name e = "owner_decision_recorded" ->
               exists c, (id, c) ∈ sq_decisions t;
}.

(** No transaction of the ledger is open, its rows extend [D0], and they back the tables. *)
Definition safe (D0 : list DecisionRecord) (Q : list DecisionRecord -> list (string * Decision) -> Prop)
    (l : Connection DecisionRecord) (t : Tables) : Prop :=
  exists D, D0 `prefix_of` D /\ idle D l /\ backed D t /\ Q D (sq_decisions t).

Notation anything := (fun _ _ => True).

Definition keeps {A} (m : PlaneM A) : Prop :=
  forall D0, triple (at_ (safe D0 anything)) m (fun _ => at_ (safe D0 anything))
               (fun _ => at_ (safe D0 anything)).

Lemma safe_weaken D0 (Q Q' : list DecisionRecord -> list (string * Decision) -> Prop) s :
  (forall D ds, Q D ds -> Q' D ds) -> at_ (safe D0 Q) s -> at_ (safe D0 Q') s.
Proof. intros HQ (D & ? & ? & ? & ?). exists D. auto. Qed.

Lemma safe_any D0 Q s : at_ (safe D0 Q) s -> at_ (safe D0 anything) s.
Proof. by apply safe_weaken. Qed.

(** A statement about something else. *)
Definition unrelated {A} (f : Tables -> res (A * Tables)) : Prop :=
  forall t a t', f t = Ok (a, t') ->
    sq_decisions t' = sq_decisions t
    /\ forall id e, (id, e) ∈ sq_events t' -> te_name e = "owner_decision_recorded" -> (id, e) ∈ sq_events t.

Lemma unrelated_safe {A} D0 Q (f : Tables -> res (A * Tables)) :
  unrelated f -> triple (at_ (safe D0 Q)) (statement f) (fun _ => at_ (safe D0 Q)) (fun _ => at_ (safe D0 Q)).
Proof.
  intros Hf. apply triple_statement. intros l t a t' (D & HD & Hi & [Hm He] & HQ) Ht.
  destruct (Hf t a t' Ht) as [Hds Hes]. exists D. rewrite <- Hds in *. split_and!; try done.
  split; [done|]. intros id e Hin Hn. by apply (He id e); [apply Hes|].
Qed.

Lemma unrelated_read {A} (f : Tables -> A) : unrelated (fun t => Ok (f t, t)).
Proof. by intros t a t' [= <- <-]. Qed.

Lemma safe_read {A} D0 Q (f : Tables -> A) :
  triple (at_ (safe D0 Q)) (read f) (fun _ => at_ (safe D0 Q)) (fun _ => at_ (safe D0 Q)).
Proof. apply unrelated_safe, unrelated_read. Qed.

Lemma safe_update D0 Q p f :
  triple (at_ (safe D0 Q)) (update_jobs p f) (fun _ => at_ (safe D0 Q)) (fun _ => at_ (safe D0 Q)).
Proof. apply unrelated_safe. by intros t a t' [= <- <-]. Qed.

Lemma log_unrelated id e :
  te_name e <> "owner_decision_recorded" ->
  unrelated (fun t => if existsb (fun e' => te_ordinal e' =? te_ordinal e) (job_events id t)
                      then Err integrity_error
                      else Ok (tt, t <| sq_events := sq_events t ++ [(id, e)] |>)).
Proof.
  intros Hne t a t'. destruct (existsb _ _); [done|]. intros [= <- <-]. split; [done|].
  intros i x [Hin|[[= -> ->]|?%elem_of_nil]%elem_of_cons]%elem_of_app; done.
Qed.

Lemma insert_decision_safe D0 id c :
  triple (at_ (safe D0 (fun D _ => exists r, r ∈ D /\ backs id c r))) (insert_decision id c)
    (fun _ => at_ (safe D0 (fun _ ds => exists c, (id, c) ∈ ds))) (fun _ => at_ (safe D0 anything)).
Proof.
  intros s Hs. pose proof Hs as (D & HD & Hi & [Hm He] & Hr). 
  unfold insert_decision, statement. destruct (plane_statement_fails _); [by apply safe_any in Hs|].
  destruct (existsb _ _); [by apply safe_any in Hs|]. exists D. split_and!; try done.
  - split; simpl.
    + intros i x [Hin|[[= -> ->]|?%elem_of_nil]%elem_of_cons]%elem_of_app; [by apply Hm|done..].
    + intros i e Hin Hn. destruct (He i e Hin Hn) as [x Hx]. exists x. apply elem_of_app. by left.
  - exists c. simpl. apply elem_of_app. right. by left.
Qed.

Lemma record_event_safe D0 id fields :
  triple (at_ (safe D0 (fun _ ds => exists c, (id, c) ∈ ds))) (event_ id "owner_decision_recorded" fields)
    (fun _ => at_ (safe D0 anything)) (fun _ => at_ (safe D0 anything)).
Proof.
  eapply triple_bind; [eapply triple_conseq; [apply safe_read|intros s Hs; exact Hs|done|intros e s; apply safe_any]|].
  intros ordinal s Hs. pose proof Hs as (D & HD & Hi & [Hm He] & [c Hc]).
  unfold statement. destruct (plane_statement_fails _); [by apply safe_any in Hs|].
  destruct (existsb _ _); [by apply safe_any in Hs|]. exists D. split_and!; try done. split; [done|].
  simpl. intros i e [Hin|[[= -> ->]|?%elem_of_nil]%elem_of_cons]%elem_of_app; [by apply He|by exists c|done].
Qed.

(** What the ledger grew by backs no less. *)
Lemma grown_safe {A} D0 (m : PlaneM A) (Q : A -> list DecisionRecord -> Prop) :
  (forall D T, triple (at_ (fun l t => idle D l /\ t = T)) m
     (fun a => at_ (grown D (Q a) T)) (fun _ => at_ (grown D any T))) ->
  triple (at_ (safe D0 anything)) m (fun a => at_ (safe D0 (fun D _ => Q a D)))
    (fun _ => at_ (safe D0 anything)).
Proof.
  intros Hm s (D & HD & Hi & [Hb He] & _). specialize (Hm D (sp_tables s) s (conj Hi eq_refl)).
  assert (Hsafe : forall P s', at_ (grown D P (sp_tables s)) s' -> at_ (safe D0 (fun D _ => P D)) s').
  { intros P s' (D' & HD' & Hi' & Ht & HP). exists D'. unfold at_. rewrite Ht. split_and!; try done; [by etrans|].
    split; [|done]. intros id c Hc. destruct (Hb id c Hc) as (r & Hr & Hrc). exists r. split; [|done].
    destruct HD' as [l ->]. apply elem_of_app. by left. }
  destruct (m s) as [[a|e] s']; [by apply Hsafe|by apply (Hsafe any)].
Qed.

(** A transaction that raises is rolled back; the ledger is not. *)
Lemma transaction_safe {A} D0 (body : PlaneM A) Q :
  (forall D0, triple (at_ (safe D0 anything)) body (fun a => at_ (safe D0 (Q a)))
                (fun _ => at_ (safe D0 anything))) ->
  triple (at_ (safe D0 anything)) (transaction body) (fun a => at_ (safe D0 (Q a)))
    (fun _ => at_ (safe D0 anything)).
Proof.
  intros Hbody s (D & HD & Hi & [Hb He] & _). unfold transaction.
  assert (Hrun : triple (at_ (safe D anything)) (a ← body; _ ← read (fun _ => tt); mret a)
    (fun a => at_ (safe D (Q a))) (fun _ => at_ (safe D anything))).
  { eapply triple_bind; [apply Hbody|]. intros a. eapply triple_bind.
    - eapply triple_conseq; [apply safe_read|intros s1 Hs; exact Hs|intros x s1 Hs; exact Hs|intros e s1; apply safe_any].
    - intros []. by apply triple_ret. }
  specialize (Hrun s). destruct ((body ≫= _) s) as [[a|e] s'].
  - destruct Hrun as (D' & HD' & Hi' & Hb' & HQ); [by exists D|]. exists D'. split_and!; try done. by etrans.
  - destruct Hrun as (D' & HD' & Hi' & _ & _); [by exists D|]. exists D'. split_and!; try done; [by etrans|].
    split; [|done]. intros id c Hc. destruct (Hb id c Hc) as (r & Hr & Hrc). exists r. split; [|done].
    destruct HD' as [l ->]. apply elem_of_app. by left.
Qed.
End planes.

Section durable.
Context `{PlaneStatements} `{Sqlite} `{Host} `{PlaneClock} `{LedgerClock} `{Artifacts}.
Variable config : PlaneConfig.
Notation anything := (fun _ _ => True).

(** * What keeps the tables backed *)

Lemma keeps_ret {A} (a : A) : keeps (mret a).
Proof. intros D0. by apply triple_ret. Qed.

Lemma keeps_raise {A} e : keeps (raise (A := A) e).
Proof. intros D0. by apply triple_raise. Qed.

Lemma keeps_lift {A} (r : res A) : keeps (lift_result r).
Proof. intros D0. by apply triple_lift. Qed.

Lemma keeps_bind {A B} (m : PlaneM A) (k : A -> PlaneM B) :
  keeps m -> (forall a, keeps (k a)) -> keeps (m ≫= k).
Proof. intros Hm Hk D0. eapply triple_bind; [apply Hm|]. intros a. apply Hk. Qed.

Lemma keeps_statement {A} (f : Tables -> res (A * Tables)) : unrelated f -> keeps (statement f).
Proof. intros Hf D0. by apply unrelated_safe. Qed.

Lemma keeps_read {A} (f : Tables -> A) : keeps (read f).
Proof. apply keeps_statement, unrelated_read. Qed.

Lemma keeps_update_jobs p f : keeps (update_jobs p f).
Proof. apply keeps_statement. by intros t a t' [= <- <-]. Qed.

Lemma keeps_update_deliveries p f : keeps (update_deliveries p f).
Proof. apply keeps_statement. by intros t a t' [= <- <-]. Qed.

Lemma keeps_insert_job j : keeps (insert_job j).
Proof. apply keeps_statement. intros t a t'. case_match; [done|]. by intros [= <- <-]. Qed.

Lemma keeps_insert_delivery d : keeps (insert_delivery d).
Proof. apply keeps_statement. intros t a t'. case_match; [done|]. by intros [= <- <-]. Qed.

Lemma keeps_event id name fields : name <> "owner_decision_recorded" -> keeps (event_ id name fields).
Proof.
  intros Hn. apply keeps_bind; [apply keeps_read|]. intros ordinal. apply keeps_statement.
  by apply (log_unrelated id {| te_ordinal := ordinal; te_name := name; te_fields := fields |}).
Qed.

Lemma keeps_time : keeps read_time.
Proof. by intros D0 s Hs. Qed.

Lemma keeps_hex : keeps fresh_hex.
Proof. by intros D0 s Hs. Qed.

Lemma keeps_report id artifact : keeps (report_snapshot_text id artifact).
Proof. intros D0 s Hs. unfold report_snapshot_text. by destruct (read_report_snapshot _ _ _). Qed.

Lemma keeps_transaction {A} (body : PlaneM A) : keeps body -> keeps (transaction body).
Proof. intros Hb D0. apply (transaction_safe D0 body (fun _ _ _ => True)). exact Hb. Qed.

Lemma keeps_for_each {A} (f : A -> PlaneM unit) rows : (forall x, keeps (f x)) -> keeps (for_each f rows).
Proof.
  intros Hf. induction rows as [|x rows IH]; [apply keeps_ret|]. by apply keeps_bind.
Qed.

Lemma keeps_ledger_decision id : keeps (ledger_decision id).
Proof.
  intros D0. eapply triple_conseq; [apply (grown_safe D0 _ (fun o D => row_from D id o))|done| |done].
  - intros D T. apply ledger_decision_spec.
  - intros o s. apply safe_any.
Qed.

Lemma keeps_ensure id cp d : keeps (ensure_ledger_decision id cp d).
Proof.
  intros D0. eapply triple_conseq; [apply (grown_safe D0 _ (fun _ D => holds D id cp d))|done| |done].
  - intros D T. apply ledger_ensure_spec.
  - intros o s. apply safe_any.
Qed.

Hint Resolve keeps_ret keeps_raise keeps_lift keeps_read keeps_update_jobs keeps_update_deliveries
  keeps_insert_job keeps_insert_delivery keeps_time keeps_hex keeps_report keeps_ensure
  keeps_ledger_decision : kept.

Ltac kept := repeat first
  [ solve [eauto with kept] | by apply keeps_event
  | apply keeps_transaction | apply keeps_bind; [|intros ?] | apply keeps_for_each; intros ?
  | progress case_match | case_decide ].

Lemma triple_lifted {A B} P (a : A) (k : A -> PlaneM B) Q R :
  triple P (k a) Q R -> triple P (lift_result (Ok a) ≫= k) Q R.
Proof. done. Qed.

(** * A decision enters the tables *)

Lemma decide_records D0 id cp d fields :
  triple (at_ (safe D0 (fun D _ => exists r, r ∈ D /\ backs id (mirror_of cp d) r)))
    (_ ← insert_decision id (mirror_of cp d); _ ← update_jobs (with_id id) decided_job;
     event_ id "owner_decision_recorded" fields)
    (fun _ => at_ (safe D0 anything)) (fun _ => at_ (safe D0 anything)).
Proof.
  eapply triple_bind; [apply insert_decision_safe|]. intros [].
  eapply triple_bind; [|intros n; apply record_event_safe].
  eapply triple_conseq; [apply safe_update|intros s Hs; exact Hs|intros a s Hs; exact Hs|intros e s; apply safe_any].
Qed.

Lemma holds_backs D id cp d :
  holds D id cp d -> exists r, r ∈ D /\ backs id (mirror_of cp d) r.
Proof.
  intros (r & Hr & Ht & Hcp & Hd & Hn). exists r. split; [done|]. unfold backs. simpl. by rewrite Hn.
Qed.

(** The decision is in the ledger before the tables show it. *)
Lemma keeps_first_decision {A} id cp d fields (a : A) :
  keeps (_ ← ensure_ledger_decision id cp d; _ ← insert_decision id (mirror_of cp d);
         _ ← update_jobs (with_id id) decided_job; _ ← event_ id "owner_decision_recorded" fields; mret a).
Proof.
  intros D0. eapply triple_bind.
  { apply (grown_safe D0 _ (fun _ D => holds D id cp d)). intros D T. apply ledger_ensure_spec. }
  intros []. eapply triple_bind; [|intros []; eapply triple_bind; [|intros n; eapply triple_bind]].
  - eapply triple_conseq; [apply insert_decision_safe| |intros a0 s Hs; exact Hs|intros e s Hs; exact Hs].
    intros s. apply safe_weaken. intros D ds. apply holds_backs.
  - eapply triple_conseq; [apply safe_update|intros s Hs; exact Hs|intros a0 s Hs; exact Hs|intros e s; apply safe_any].
  - apply record_event_safe.
  - intros []. by apply triple_ret.
Qed.

(** The ledger's row, read back, backs what the mirror gets. *)
Lemma row_backs D id row d :
  row_from D id (Some row) -> owner_decision (dw_decision row) (dw_rejection_note row) = Ok d ->
  exists r, r ∈ D /\ backs id (mirror_of (dw_checkpoint_id row) d) r.
Proof.
  intros Hrow Hd. destruct (Hrow row eq_refl) as (raw & Hin & Hid & Hp). exists raw. split; [done|].
  apply owner_decision_Ok in Hd as (Hdec & Hnote & Hstrip & _).
  unfold parse_decision in Hp. destruct (of_value (dr_decision raw)) as [x|] eqn:Hx; [|done].
  apply of_value_Some in Hx. invert_checks. cbn [dw_checkpoint_id dw_decision dw_rejection_note] in *.
  unfold backs, mirror_of. cbn [dc_checkpoint_id dc_decision dc_rejection_note].
  split_and!; try congruence. rewrite Hnote. by rewrite normalize_note_idem.
Qed.

Lemma found_mirror (id : string) ds (c : Decision) :
  snd <$> List.find (fun r => bool_decide (r.1 = id)) ds = Some c -> (id, c) ∈ ds.
Proof.
  destruct (List.find _ ds) as [[i x]|] eqn:Hf; [|done]. intros [= ->].
  apply find_some in Hf as [Hin <-%bool_decide_eq_true]. by apply list_elem_of_In.
Qed.

Lemma keeps_reconcile_row row : keeps (reconcile_row row).
Proof.
  unfold reconcile_row. apply keeps_bind; [apply keeps_lift|]. intros cp D0.
  eapply triple_bind.
  { apply (grown_safe D0 _ (fun o D => row_from D (jb_id row) o)). intros D T. apply ledger_decision_spec. }
  intros [ledger|]; cbv beta; [|apply triple_ret; intros s; apply safe_any].
  destruct (bool_decide _) eqn:Hcp; simpl; [|apply triple_raise; intros s; apply safe_any].
  apply bool_decide_eq_true in Hcp.
  destruct (owner_decision _ _) as [d|e] eqn:Hd; [|apply triple_raise; intros s; apply safe_any].
  set (P := fun (D : list DecisionRecord) (_ : list (string * Decision)) => exists r, r ∈ D /\ backs (jb_id row) (mirror_of cp d) r).
  set (J := fun (_ : list DecisionRecord) (ds : list (string * Decision)) => exists c : Decision, (jb_id row, c) ∈ ds).
  assert (Hpre : forall s, at_ (safe D0 (fun D _ => row_from D (jb_id row) (Some ledger))) s -> at_ (safe D0 P) s).
  { intros s. apply safe_weaken. intros D ds Hrow. unfold P. rewrite <- Hcp. by apply row_backs. }
  eapply (triple_conseq _ _ _ _ _ _ _); [|exact Hpre|intros a s Hs; exact Hs|intros e s Hs; exact Hs].
  apply triple_lifted. eapply triple_bind.
  { eapply triple_conseq; [apply triple_read|intros s Hs; exact Hs|intros a s Hs; exact Hs|intros e s; apply safe_any]. }
  intros mirrored. apply (triple_bind _ _ _ (fun _ => at_ (safe D0 J))).
  - destruct mirrored as [m|].
    + assert (Hm : forall s, at_ (fun l t => safe D0 P l t /\ Some m = snd <$> List.find (fun r => bool_decide (r.1 = jb_id row)) (sq_decisions t)) s ->
        at_ (safe D0 J) s).
      { intros s [(D & HD & Hi & Hb & _) Hf]. exists D. split_and!; try done. exists m. by apply found_mirror. }
      destruct (negb _); [apply triple_raise; intros s Hs; eapply safe_any, Hm, Hs|].
      destruct (decision_from_row m) as [md|e]; [|apply triple_raise; intros s Hs; eapply safe_any, Hm, Hs].
      apply triple_lifted. destruct (negb _); [apply triple_raise; intros s Hs; eapply safe_any, Hm, Hs|].
      by apply triple_ret.
    + eapply triple_conseq; [apply insert_decision_safe|intros s [Hs _]; exact Hs|intros a s Hs; exact Hs|intros e s Hs; exact Hs].
  - intros []. eapply triple_bind; [|intros n; apply record_event_safe].
    eapply triple_conseq; [apply safe_update|intros s Hs; exact Hs|intros a s Hs; exact Hs|intros e s; apply safe_any].
Qed.

Hint Resolve keeps_first_decision keeps_reconcile_row : kept.

(** * The operations *)

Lemma keeps_decide owner id d : keeps (decide_row owner id d).
Proof. apply keeps_transaction. unfold owned_row, decision_row, job_row, begin_immediate_. kept. Qed.

Lemma keeps_reclaim_jobs now : keeps (reclaim_expired_investigations_ config now).
Proof. unfold reclaim_expired_investigations_, job_rows, reclaim_job_row. kept. Qed.

Lemma keeps_reclaim_deliveries now : keeps (reclaim_expired_deliveries_ config now).
Proof. unfold reclaim_expired_deliveries_, delivery_rows, reclaim_delivery_row. kept. Qed.

Lemma keeps_reconcile : keeps reconcile_durable_decisions.
Proof. unfold reconcile_durable_decisions, job_rows. kept. Qed.

Hint Resolve keeps_reclaim_jobs keeps_reclaim_deliveries keeps_reconcile : kept.

(** What a claim says the owner decided. *)
Definition durable (row : Job) (o : option OwnerDecision) (D : list DecisionRecord)
    (_ : list (string * Decision)) : Prop :=
  forall d, o = Some d -> exists cp, jb_checkpoint_id row = Some cp /\ holds D (jb_id row) cp d.

Lemma decision_for_row_durable D0 row :
  triple (at_ (safe D0 anything)) (decision_for_row row) (fun o => at_ (safe D0 (durable row o)))
    (fun _ => at_ (safe D0 anything)).
Proof.
  unfold decision_for_row. eapply triple_bind; [apply safe_read|]. intros [stored|].
  2: { apply triple_ret. intros s. by apply safe_weaken. }
  destruct (decision_from_row stored) as [d|e]; [apply triple_lifted|by apply triple_raise].
  unfold stored_checkpoint. destruct (jb_checkpoint_id row) as [cp|] eqn:Hcp; [|by apply triple_raise].
  destruct (decide (cp = "")); [by apply triple_raise|]. apply triple_lifted.
  destruct (negb _); [by apply triple_raise|]. eapply triple_bind.
  { apply (grown_safe D0 _ (fun _ D => holds D (jb_id row) cp d)). intros D T. apply ledger_ensure_spec. }
  intros []. apply triple_ret. intros s. apply safe_weaken. intros D ds Hh d' [= <-]. by exists cp.
Qed.

Definition claim_durable (o : option WorkerClaim) (D : list DecisionRecord) (_ : list (string * Decision)) : Prop :=
  forall c d, o = Some c -> wc_owner_decision c = Some d ->
    exists cp, wc_checkpoint_id c = Some cp /\ holds D (wc_investigation_id c) cp d.

Lemma claim_next_durable D0 :
  triple (at_ (safe D0 anything)) (claim_next_ config) (fun o => at_ (safe D0 (claim_durable o)))
    (fun _ => at_ (safe D0 anything)).
Proof.
  apply (transaction_safe D0 _ claim_durable). clear D0. intros D0.
  assert (Hnone : triple (at_ (safe D0 anything)) (mret None : PlaneM (option WorkerClaim))
    (fun o => at_ (safe D0 (claim_durable o))) (fun _ => at_ (safe D0 anything)))
    by (apply triple_ret; intros s; by apply safe_weaken).
  eapply triple_bind; [apply safe_read|]. intros ?. eapply triple_bind; [apply keeps_time|]. intros now.
  eapply triple_bind; [apply keeps_reclaim_jobs|]. intros ?. eapply triple_bind; [apply keeps_reconcile|]. intros ?.
  eapply triple_bind; [apply safe_read|]. intros [running|]; [done|].
  eapply triple_bind; [apply safe_read|]. intros [deferred|]; [done|].
  eapply triple_bind; [apply safe_read|]. intros [row|]; [|done].
  eapply triple_bind; [apply keeps_hex|]. intros token. eapply triple_bind; [apply keeps_update_jobs|]. intros ?.
  eapply triple_bind; [by apply keeps_event|]. intros ?.
  eapply triple_bind; [apply decision_for_row_durable|]. intros o.
  destruct (worker_claim row o token) as [c|e] eqn:Hc; [apply triple_lifted|apply triple_raise; intros s; apply safe_any].
  apply triple_ret. intros s. apply safe_weaken. intros D ds Hd c' d [= <-] Hod.
  unfold worker_claim in Hc. do 2 (case_match; [|done]). injection Hc as <-. cbn in *. by apply Hd.
Qed.

Lemma keeps_claim_next : keeps (claim_next_ config).
Proof.
  intros D0. eapply triple_conseq; [apply claim_next_durable|done| |done]. intros o s. apply safe_any.
Qed.

Lemma keeps_claim_delivery : keeps (claim_delivery_ config).
Proof. unfold claim_delivery_, begin_immediate_. kept. Qed.

Definition keeps_backed (op : PlaneOp) : Prop := forall D0 s,
  at_ (safe D0 anything) s -> at_ (safe D0 anything) (@ask Plane (sqlite_plane config) op s).2.

Lemma keeps_answered {A} (into : res A -> Answer) (m : PlaneM A) D0 s :
  keeps m -> at_ (safe D0 anything) s -> at_ (safe D0 anything) (answered into m s).2.
Proof. intros Hm Hs. specialize (Hm D0 s Hs). unfold answered. by destruct (m s) as [[a|e] s']. Qed.

Lemma keeps_ask op : keeps_backed op.
Proof.
  intros D0 s Hs. destruct op; (apply keeps_answered; [|exact Hs]); clear D0 s Hs;
    auto using keeps_decide, keeps_claim_next, keeps_claim_delivery.
  all: unfold create_, status_, events_, report_, renew_running_, reserve_incident_, scenario_status_,
    incident_id_for_, mark_paused_, requeue_running_, retry_running_, finalize_, mark_delivered_,
    renew_delivery_, release_delivery_, retry_delivery_, owned_row, claimed_row, job_row, delivery_row,
    begin_immediate_.
  all: kept.
Qed.
Lemma history_backed ops D0 : forall s,
  at_ (safe D0 anything) s -> at_ (safe D0 anything) (@history Plane (sqlite_plane config) ops s).
Proof. induction ops as [|op ops IH]; intros s Hs; [done|]. apply IH. by apply keeps_ask. Qed.

Lemma empty_backed L : at_ (safe L anything) (empty_plane L).
Proof. exists L. split_and!; try done. split; intros ? ? ?%elem_of_nil; done. Qed.

(** * Nothing done by halves *)

Definition restores {A} (m : PlaneM A) : Prop :=
  forall s, match m s with (Ok _, _) => True | (Err _, s') => sp_tables s' = sp_tables s end.

Lemma restores_transaction {A} (body : PlaneM A) : restores (transaction body).
Proof. intros s. unfold transaction. by destruct ((body ≫= _) s) as [[a|e] s']. Qed.

Lemma restores_raise {A} e : restores (raise (A := A) e).
Proof. done. Qed.

Definition only_reads {A} (m : PlaneM A) : Prop := forall s, sp_tables (m s).2 = sp_tables s.

Lemma only_reads_read {A} (f : Tables -> A) : only_reads (read f).
Proof. intros s. unfold read, statement. by destruct (plane_statement_fails _). Qed.

Lemma only_reads_bind {A B} (m : PlaneM A) (k : A -> PlaneM B) :
  only_reads m -> (forall a, only_reads (k a)) -> only_reads (m ≫= k).
Proof.
  intros Hm Hk s. specialize (Hm s). unfold mbind, ST_bind. destruct (m s) as [[a|e] s']; [|done].
  by rewrite Hk.
Qed.

Lemma only_reads_transaction {A} (body : PlaneM A) : only_reads body -> only_reads (transaction body).
Proof.
  intros Hb s. unfold transaction.
  assert (Hr : only_reads (a ← body; _ ← read (fun _ => tt); mret a)).
  { apply only_reads_bind; [done|]. intros a. apply only_reads_bind; [apply only_reads_read|done]. }
  specialize (Hr s). by destruct ((body ≫= _) s) as [[a|e] s'].
Qed.

Lemma reads_then_answer {A B} (body : PlaneM A) (k : A -> PlaneM B) :
  only_reads body -> (forall a, only_reads (k a)) -> restores (transaction body ≫= k).
Proof.
  intros Hb Hk s. pose proof (only_reads_bind _ k (only_reads_transaction _ Hb) Hk s) as Hr.
  by destruct ((transaction body ≫= k) s) as [[a|e] s'].
Qed.

Lemma restores_answered {A} (into : res A -> Answer) (m : PlaneM A) s :
  restores m -> (forall a, is_answer (into (Ok a)) = true) ->
  is_answer (answered into m s).1 = false -> sp_tables (answered into m s).2 = sp_tables s.
Proof.
  intros Hm Hinto. specialize (Hm s). unfold answered. destruct (m s) as [[a|e] s']; simpl; [|done].
  by rewrite Hinto.
Qed.

(** Nothing by halves. Whichever statements of the two databases fail, a SQLite
    control-plane operation that raises leaves every table as it was. *)
Theorem failed_op_restores_tables op s :
  let '(a, s') := @ask Plane (sqlite_plane config) op s in
  is_answer a = true \/ sp_tables s' = sp_tables s.
Proof.
  enough (Hop : is_answer (@ask Plane (sqlite_plane config) op s).1 = false ->
    sp_tables (@ask Plane (sqlite_plane config) op s).2 = sp_tables s).
  { destruct (ask op s) as [a s']; simpl in Hop. destruct (is_answer a); auto. }
  destruct op; (apply restores_answered; [|done]).
  all: try (unfold mark_paused_, finalize_; case_decide; [apply restores_raise|]).
  all: try apply restores_transaction.
  all: apply reads_then_answer; unfold owned_row, job_row.
  all: repeat first [progress intros ? | apply only_reads_bind | apply only_reads_read | progress case_match | done].
Qed.

(** The ledger comes first. After any operations, with any statement of either
    database failing, no ledger transaction is open, the ledger has kept its rows, every
    decision the control plane mirrors is a ledger row with its checkpoint, and every
    "owner_decision_recorded" event has such a decision. *)
Theorem shown_decisions_durable L ops :
  let s := @history Plane (sqlite_plane config) ops (empty_plane L) in
  exists D, L `prefix_of` D /\ idle D (sp_ledger s) /\ backed D (sp_tables s).
Proof.
  intros s. destruct (history_backed ops L _ (empty_backed L)) as (D & ? & ? & ? & _). by exists D.
Qed.

(** A worker only resumes with a durable decision. A claim that carries an owner's
    decision names a checkpoint, and the committed ledger holds that decision for that
    investigation and checkpoint, whatever statements failed before or during the poll. *)
Theorem claimed_decision_durable L ops c d s' :
  let s := @history Plane (sqlite_plane config) ops (empty_plane L) in
  @ask Plane (sqlite_plane config) op_claim_next s = (AClaim (Ok (Some c)), s') ->
  wc_owner_decision c = Some d ->
  exists D cp, L `prefix_of` D /\ idle D (sp_ledger s')
    /\ wc_checkpoint_id c = Some cp /\ holds D (wc_investigation_id c) cp d.
Proof.
  intros s Hask Hd. pose proof (claim_next_durable L s (history_backed ops L _ (empty_backed L))) as Hc.
  cbn in Hask. unfold answered in Hask. fold s in Hc. destruct (claim_next_ config s) as [r s1].
  injection Hask as -> ->. destruct Hc as (D & HD & Hi & _ & Hc).
  destruct (Hc c d eq_refl Hd) as (cp & Hcp & Hh). exists D, cp. by split_and!.
Qed.
End durable.
