(* ===== verification/PlaneRefinement.v ===== *)
(** The SQLite control plane refines the Firestore one: asked the same operations at
    the same moments, both give the same answers, from their empty databases on.

    First the next report to deliver, the same while deliveries that wait equally long
    were made in the order of their jobs; then whole conversations; then a crash between
    the two databases: the owner's decision reached the ledger and the process died
    before the control plane's own transaction committed, and the reconciliation every
    poll starts with leaves the plane where the decision would have left it. *)
From Stdlib Require Import ZArith Lia.
From stdpp Require Import prelude strings list gmap relations.
From S2P Require Import Prelude PyText Float64 Tools Domain World Sqlite Approvals ControlPlane PlaneOrder FirestorePlane Lifecycle FirestoreSteps FirestoreProps SqlitePlane PlaneMatch PlanesAgree PlaneOwners PlaneWorkers PlaneClaims.
Local Open Scope Z_scope.

Section outbox.
Context `{FirestoreLaws} `{PlaneStatements} `{Sqlite} `{FreshIds} `{PlaneClock} `{LedgerClock} `{Artifacts}.
Hypothesis served : forall n, reply n = Served.
Hypothesis plane_reliable : forall n, plane_statement_fails n = false.
Hypothesis ledger_reliable : forall n, statement_fails n = false.
Variable config : PlaneConfig.
Hypothesis steady : steady_clock config.
Hypothesis replay_attempts_positive : 0 < pf_max_replay_attempts config.
Hypothesis delivery_attempts_positive : 0 < pf_max_delivery_attempts config.
Hypothesis attempts_bound :
  pf_max_replay_attempts config <= 1024 /\ pf_max_delivery_attempts config <= 1024.

(** ** Which delivery

    The one plane breaks a tie by the order deliveries were made in, the other by
    the order of their jobs. *)

Definition job_sequence_of (s : Store) (id : string) : Z :=
  match fs_jobs s !! id with Some d => jd_sequence d | None => 0 end.

Definition waiting (d : DeliveryDocument) : bool :=
  bool_decide (dl_status (dd_delivery d) = "PENDING") && bool_decide (dl_failure_reason (dd_delivery d) = None).

(** Deliveries that wait equally long were made in the order of their jobs. *)
Definition tied_alike (s : Store) (a b : DeliveryDocument) : bool :=
  negb (waiting a && waiting b && SFeqb (dl_available_at (dd_delivery a)) (dl_available_at (dd_delivery b)))
  || Bool.eqb (dd_sequence a <? dd_sequence b)
       (job_sequence_of s (dl_id (dd_delivery a)) <? job_sequence_of s (dl_id (dd_delivery b))).

Definition delivery_order (s : Store) : bool :=
  let docs := (map_to_list (fs_deliveries s)).*2 in
  forallb (fun a => forallb (tied_alike s a) docs) docs.

Lemma delivery_order_spec s i k a b :
  delivery_order s = true -> fs_deliveries s !! i = Some a -> fs_deliveries s !! k = Some b ->
  tied_alike s a b = true.
Proof.
  intros Hs Ha Hb. assert (Hin : forall j x, fs_deliveries s !! j = Some x ->
    List.In x (map_to_list (fs_deliveries s)).*2).
  { intros j x Hx. apply list_elem_of_In, list_elem_of_fmap. exists (j, x). split; [done|].
    by apply elem_of_map_to_list. }
  apply forallb_forall with (x := a) in Hs; [|by eapply Hin].
  apply forallb_forall with (x := b) in Hs; [done|by eapply Hin].
Qed.

Lemma delivery_order_alike s s' :
  fs_jobs s = fs_jobs s' -> fs_deliveries s = fs_deliveries s' -> delivery_order s = delivery_order s'.
Proof. unfold delivery_order, tied_alike, job_sequence_of. by intros -> ->. Qed.

Definition some_job : Job := queued_job "" "" {| cr_scenario_family := S_CONFIGURATION_CHANGE |} "".

Definition with_job (s : Store) (d : DeliveryDocument) : Job * Delivery :=
  (match fs_jobs s !! dl_id (dd_delivery d) with Some x => jd_job x | None => some_job end, dd_delivery d).

Definition pair_key (s : Store) (r : Job * Delivery) : list Z :=
  f_key (dl_available_at r.2) ++ [job_sequence_of s (jb_id r.1)].

Lemma sent_before_key a b :
  not_nan (dl_available_at (dd_delivery a)) = true -> not_nan (dl_available_at (dd_delivery b)) = true ->
  sent_before a b = lex_lt (f_key (dl_available_at (dd_delivery a)) ++ [dd_sequence a])
                           (f_key (dl_available_at (dd_delivery b)) ++ [dd_sequence b]).
Proof.
  intros Ha Hb. rewrite lex_lt_app by (by rewrite !f_key_length).
  unfold sent_before. rewrite f_eqb_key, f_lt_key by done.
  case_decide; case_bool_decide; cbn [negb lex_lt]; try congruence; lia.
Qed.

Lemma delivery_job s q k d :
  plane_ok config s -> matching s q -> fs_deliveries s !! k = Some d ->
  dl_id (dd_delivery d) = k /\ exists j, fs_jobs s !! k = Some j /\ jb_id (jd_job j) = k
    /\ has_status I_COMPLETED (jd_job j) = true.
Proof.
  intros Hok Hm Hd. split; [by apply (delivery_named config s)|].
  destruct (vk_job _ _ _ _ (po_deliveries _ _ Hok) k d Hd) as (j & [Hj Hc] & _). exists j.
  split_and!; [done|by apply (job_name s q)|done].
Qed.

(** The joined rows: each delivery once, next to its job, in the jobs' order. *)
Lemma outbox_elem s q j d :
  plane_ok config s -> matching s q ->
  ((j, d) ∈ outbox (sp_tables q)
   <-> exists x, fs_deliveries s !! jb_id j = Some x /\ dd_delivery x = d
       /\ (exists y, fs_jobs s !! jb_id j = Some y /\ jd_job y = j)).
Proof.
  intros Hok Hm. unfold outbox. rewrite list_elem_of_In, in_flat_map. split.
  - intros (j' & Hj & Hd). apply list_elem_of_In, list_elem_of_fmap in Hd as (d' & [= -> ->] & Hd).
    apply in_filter in Hd as [Hd Hid%bool_decide_eq_true]. rewrite <- list_elem_of_In in Hj.
    destruct (rows_elem jb_id doc_job _ _ _ (mt_jobs _ _ Hm) Hj) as (n & _ & Hk).
    destruct (rows_elem dl_id doc_delivery _ _ _ (mt_deliveries _ _ Hm) Hd) as (m & _ & Hv).
    rewrite Hid in Hv. exists (doc_delivery m d'). split_and!; [done..|]. by exists (doc_job n j').
  - intros (x & Hx & <- & y & Hy & <-). exists (jd_job y).
    destruct (rows_lookup jb_id doc_job jd_job (fun _ _ => eq_refl) _ _ _ _ (mt_jobs _ _ Hm) Hy) as (n & Hn & _).
    destruct (rows_lookup dl_id doc_delivery dd_delivery (fun _ _ => eq_refl) _ _ _ _ (mt_deliveries _ _ Hm) Hx)
      as (m & Hmm & Hid & _).
    split; [apply list_elem_of_In; by eapply list_elem_of_lookup_2|].
    apply list_elem_of_In, list_elem_of_fmap. exists (dd_delivery x). split; [done|].
    apply in_filter. split; [by eapply list_elem_of_lookup_2|]. by apply bool_decide_eq_true.
Qed.

Lemma indexed_sorted {A} (g : A -> Z) l : forall k,
  (forall n x, l !! n = Some x -> g x = k + Z.of_nat n) -> StronglySorted (fun a b => g a < g b) l.
Proof.
  induction l as [|x l IH]; intros k Hd; [constructor|]. constructor.
  - apply (IH (k + 1)). intros n e Hn. rewrite (Hd (S n) e Hn). lia.
  - apply Forall_forall. intros e [n Hn]%list_elem_of_lookup.
    rewrite (Hd 0%nat x eq_refl), (Hd (S n) e Hn). lia.
Qed.

Lemma flat_map_sorted {A B} (g : A -> Z) (h : B -> Z) (f : A -> list B) l :
  StronglySorted (fun a b => g a < g b) l ->
  (forall x, x ∈ l -> (length (f x) <= 1)%nat) ->
  (forall x y, x ∈ l -> y ∈ f x -> h y = g x) ->
  StronglySorted (fun a b => h a < h b) (flat_map f l).
Proof.
  induction 1 as [|x l Hs IH Hall]; intros Hlen Hh; [constructor|]. simpl.
  assert (Hrest : StronglySorted (fun a b => h a < h b) (flat_map f l)).
  { apply IH; intros; [apply Hlen|apply Hh]; by try right. }
  pose proof (Hlen x (list_elem_of_here _ _)) as Hx.
  destruct (f x) as [|y [|z r]] eqn:Hf; simpl in *; [done| |lia]. constructor; [done|].
  apply Forall_forall. intros w Hw. apply list_elem_of_In, in_flat_map in Hw as (v & Hv%list_elem_of_In & Hw%list_elem_of_In).
  rewrite (Hh v w) by (by try right).
  rewrite (Hh x y) by (rewrite ?Hf; by left). rewrite Forall_forall in Hall. by apply Hall.
Qed.

Lemma outbox_sorted s q :
  matching s q ->
  StronglySorted (fun a b => job_sequence_of s (jb_id a.1) < job_sequence_of s (jb_id b.1))
    (outbox (sp_tables q)).
Proof.
  intros Hm. apply (flat_map_sorted (fun j => job_sequence_of s (jb_id j))).
  - apply (indexed_sorted _ _ 0). intros n j Hj. unfold job_sequence_of.
    by rewrite (rows_at jb_id doc_job _ _ _ _ (mt_jobs _ _ Hm) Hj).
  - intros j _. rewrite length_fmap. pose proof (rw_names _ _ _ _ (mt_deliveries _ _ Hm)) as Hnd.
    induction (sq_deliveries (sp_tables q)) as [|d l IH]; simpl; [lia|].
    apply NoDup_cons in Hnd as [Hnin Hnd]. unfold delivers at 1. case_bool_decide as Hd; [|by apply IH].
    simpl. destruct (List.filter _ l) as [|d' l'] eqn:Hl; simpl; [lia|].
    assert (Hin : d' ∈ List.filter (delivers (jb_id j)) l) by (rewrite Hl; by left).
    apply in_filter in Hin as [Hin Heq%bool_decide_eq_true]. destruct Hnin. rewrite Hd, <- Heq.
    by apply list_elem_of_fmap_2.
  - intros j r _ (d & -> & _)%list_elem_of_fmap. done.
Qed.

Lemma sorted_nodup {A} (g : A -> Z) l : StronglySorted (fun a b => g a < g b) l -> NoDup l.
Proof.
  induction 1 as [|x l Hs IH Hall]; constructor; [|done].
  intros Hin. rewrite Forall_forall in Hall. specialize (Hall x Hin). simpl in Hall. lia.
Qed.

(** The waiting deliveries, paired with their jobs, are the joined rows. *)
Lemma waiting_pairs s q now :
  plane_ok config s -> matching s q -> not_nan now = true ->
  let F := List.filter (deliverable now)
    (List.filter (fun d => bool_decide (dl_status (dd_delivery d) = "PENDING")) (stream (fs_deliveries s))) in
  with_job s <$> F ≡ₚ List.filter (deliverable_row now) (outbox (sp_tables q)).
Proof.
  intros Hok Hm Hnow F.
  assert (HF : forall x, x ∈ F <-> (exists k, fs_deliveries s !! k = Some x)
                                   /\ deliverable_row now (with_job s x) = true).
  { intros x. unfold F. rewrite !in_filter, stream_elem. unfold deliverable, deliverable_row, with_job. simpl.
    assert (Hlate : forall k, fs_deliveries s !! k = Some x ->
      negb (f_gt (dl_available_at (dd_delivery x)) now) = f_ge now (dl_available_at (dd_delivery x))).
    { intros k Hk. rewrite f_ge_lt; [done|done|]. apply (df_available _ (fine_delivery _ _ _ _ Hm Hk)). }
    assert (Hfail : bool_decide (dl_failure_reason (dd_delivery x) = None)
      = negb (is_some (dl_failure_reason (dd_delivery x)))) by (by destruct (dl_failure_reason _)).
    rewrite Hfail. split.
    - intros [[[k Hk] Hp] [Hf Hl]%andb_true_iff]. split; [by exists k|]. rewrite (Hlate k Hk) in Hl. by rewrite Hp, Hf.
    - intros [[k Hk] [[Hp Hf]%andb_true_iff Hl]%andb_true_iff]. rewrite (Hlate k Hk). split; [|by rewrite Hf].
      split; [by exists k|done]. }
  apply NoDup_Permutation.
  - apply (NoDup_fmap_1 (dl_id ∘ snd)). rewrite <- list_fmap_compose.
    destruct (stream_stored (fs_deliveries s)
      (fun d => bool_decide (dl_status (dd_delivery d) = "PENDING") && deliverable now d)
      (dl_id ∘ dd_delivery)) as [Hnd _]; [intros k x; by apply (delivery_named config s)|].
    unfold F. by rewrite filter_filter.
  - apply (sorted_nodup (fun r => job_sequence_of s (jb_id r.1))). apply filter_sorted. by apply outbox_sorted.
  - intros [j d]. rewrite in_filter, (outbox_elem s q) by done. rewrite list_elem_of_fmap. split.
    + intros (x & Hx & [[k Hk] Hdel]%HF). rewrite Hx. split; [|done].
      destruct (delivery_job s q k x Hok Hm Hk) as (Hid & y & Hy & Hyid & _).
      unfold with_job in Hx. rewrite Hid, Hy in Hx. injection Hx as -> ->. exists x. rewrite Hyid. eauto.
    + intros [(x & Hx & <- & y & Hy & <-) Hdel]. exists x.
      destruct (delivery_job s q _ x Hok Hm Hx) as (Hid & _).
      assert (Hpair : with_job s x = (jd_job y, dd_delivery x)) by (unfold with_job; by rewrite Hid, Hy).
      split; [done|]. apply HF. split; [by eexists|]. by rewrite Hpair.
Qed.

Lemma pair_key_length s r : length (pair_key s r) = 4%nat.
Proof. unfold pair_key. by rewrite length_app, f_key_length. Qed.

(** What the waiting documents have: a time that is a number, a job of their name. *)
Lemma waiting_fine s q now x :
  plane_ok config s -> matching s q ->
  x ∈ List.filter (deliverable now)
    (List.filter (fun d => bool_decide (dl_status (dd_delivery d) = "PENDING")) (stream (fs_deliveries s))) ->
  exists k y, fs_deliveries s !! k = Some x /\ dl_id (dd_delivery x) = k /\ fs_jobs s !! k = Some y
    /\ jb_id (jd_job y) = k /\ not_nan (dl_available_at (dd_delivery x)) = true
    /\ waiting x = true /\ with_job s x = (jd_job y, dd_delivery x).
Proof.
  intros Hok Hm [[[k Hk]%stream_elem Hp]%in_filter [Hf _]%andb_true_iff]%in_filter.
  destruct (delivery_job s q k x Hok Hm Hk) as (Hid & y & Hy & Hyid & _). exists k, y.
  split_and!; try done; [apply (df_available _ (fine_delivery _ _ _ _ Hm Hk))|by apply andb_true_iff|].
  unfold with_job. by rewrite Hid, Hy.
Qed.

Lemma sent_before_pairs s q now a b :
  plane_ok config s -> matching s q -> delivery_order s = true ->
  let F := List.filter (deliverable now)
    (List.filter (fun d => bool_decide (dl_status (dd_delivery d) = "PENDING")) (stream (fs_deliveries s))) in
  a ∈ F -> b ∈ F -> sent_before a b = lex_lt (pair_key s (with_job s a)) (pair_key s (with_job s b)).
Proof.
  intros Hok Hm Hord F Ha Hb.
  destruct (waiting_fine s q now a Hok Hm Ha) as (i & ja & Hda & Hia & _ & Hja & Hna & Hwa & ->).
  destruct (waiting_fine s q now b Hok Hm Hb) as (k & jb & Hdb & Hib & _ & Hjb & Hnb & Hwb & ->).
  rewrite sent_before_key by done. unfold pair_key. cbn [fst snd].
  rewrite !lex_lt_app by (by rewrite !f_key_length). case_decide as Heq; [|done].
  pose proof (delivery_order_spec s i k a b Hord Hda Hdb) as Htie. unfold tied_alike in Htie.
  rewrite Hwa, Hwb, f_eqb_key, bool_decide_true, Hia, Hib in Htie by done.
  cbn [andb negb orb] in Htie. apply Bool.eqb_prop in Htie. rewrite Hja, Hjb. cbn [lex_lt]. by rewrite Htie, !andb_false_r, !orb_false_r.
Qed.

Lemma same_delivery s q now :
  plane_ok config s -> matching s q -> not_nan now = true -> delivery_order s = true ->
  first_least sent_first (List.filter (deliverable_row now) (outbox (sp_tables q)))
  = with_job s <$> first_least sent_before (List.filter (deliverable now)
      (List.filter (fun d => bool_decide (dl_status (dd_delivery d) = "PENDING")) (stream (fs_deliveries s)))).
Proof.
  intros Hok Hm Hnow Hord. pose proof (waiting_pairs s q now Hok Hm Hnow) as Hperm. cbv zeta in Hperm.
  pose proof (fun a b => sent_before_pairs s q now a b Hok Hm Hord) as Hbefore. cbv zeta in Hbefore.
  pose proof (waiting_fine s q now) as Hfine.
  set (F := List.filter (deliverable now) _) in *. set (O := List.filter (deliverable_row now) _) in *.
  set (before := fun a b => lex_lt (pair_key s a) (pair_key s b)).
  assert (HF : forall r, r ∈ with_job s <$> F -> exists x k y, r = (jd_job y, dd_delivery x)
    /\ fs_deliveries s !! k = Some x /\ fs_jobs s !! k = Some y /\ jb_id (jd_job y) = k
    /\ not_nan (dl_available_at (dd_delivery x)) = true).
  { intros r (x & -> & Hx)%list_elem_of_fmap.
    destruct (Hfine x Hok Hm Hx) as (k & y & Hk & _ & Hy & Hyid & Hn & _ & Hw). by exists x, k, y. }
  transitivity (first_least before O).
  - symmetry. apply (first_least_stable _ _ (fun r => f_key (dl_available_at r.2))
      (fun r => job_sequence_of s (jb_id r.1)) 3).
    + done.
    + intros a b Ha Hb. rewrite <- Hperm in Ha, Hb.
      destruct (HF a Ha) as (? & ? & ? & -> & _ & _ & _ & Hna), (HF b Hb) as (? & ? & ? & -> & _ & _ & _ & Hnb).
      by apply f_lt_key.
    + intros a _. apply f_key_length.
    + by apply filter_sorted, outbox_sorted.
  - transitivity (first_least before (with_job s <$> F)).
    + symmetry. apply (first_least_perm before (pair_key s) 4); [done|intros; apply pair_key_length| |done].
      intros a b Ha Hb Hkey.
      destruct (HF a Ha) as (x & i & y & -> & Hx & Hy & Hyi & _), (HF b Hb) as (u & k & v & -> & Hu & Hv & Hvk & _).
      apply app_inj_2 in Hkey as [_ [= Hseq]]; [|done]. unfold job_sequence_of in Hseq. cbn [fst] in Hseq.
      rewrite Hyi, Hvk, Hy, Hv in Hseq.
      assert (i = k) as -> by (apply (jk_apart _ _ _ (po_jobs _ _ Hok) _ _ y v Hy Hv); by left). congruence.
    + rewrite first_least_fmap. f_equal. symmetry. by apply first_least_ext.
Qed.

(** ** The claim *)

Lemma delivery_claim_ok s k d y id token :
  plane_ok config s -> fs_deliveries s !! k = Some d -> fs_jobs s !! k = Some y ->
  exists c, forall u, dl_destination_email u = dl_destination_email (dd_delivery d) ->
    delivery_claim (jd_job y) u id token = Ok c.
Proof.
  intros Hok Hd Hy.
  destruct (vk_job _ _ _ _ (po_deliveries _ _ Hok) k d Hd) as (y' & [Hy' Hc] & _).
  assert (y' = y) as -> by congruence.
  pose proof (jo_status _ _ _ _ _ (jk_job _ _ _ (po_jobs _ _ Hok) _ _ Hy)) as Hst.
  unfold status_ok in Hst. rewrite (has_status_of_value _ _ Hc) in Hst.
  destruct Hst as (_ & _ & text & Htext & Hread). unfold read_report in Hread. rewrite Hc, Htext in Hread.
  unfold delivery_claim. rewrite (has_status_of_value _ _ Hc), Htext.
  destruct (jb_report_artifact (jd_job y)) as [a|]; [|done]. simpl in Hread. case_decide; [done|].
  destruct (jb_report_sha256 (jd_job y)) as [h|]; [|done]. eexists. by intros u ->.
Qed.
(** The state a poll chooses from: its clock read, its expired leases released. *)
Definition swept (s : Store) : Store :=
  (reclaim_expired_deliveries config (plane_time (fs_ticks s)) (s <| fs_ticks := S (fs_ticks s) |>)).2.

Definition fs_send (now : f64) (d : DeliveryDocument) : StoreM (option DeliveryClaim) :=
  let id := dl_id (dd_delivery d) in
  snapshot ← job_ref_get id;
  match snapshot with
  | None => raise corrupt
  | Some job =>
      token ← uuid4_hex;
      let d := on_delivery (claimed_delivery token (f_add now (pf_claim_lease_seconds config))) d in
      _ ← write (set_delivery id d);
      claim ← lift_result (delivery_claim (jd_job job) (dd_delivery d) id token);
      mret (Some claim)
  end.

Definition sq_send (now : f64) (r : Job * Delivery) : PlaneM (option DeliveryClaim) :=
  token ← fresh_hex;
  _ ← update_deliveries (delivers (jb_id r.1))
        (claimed_delivery token (f_add now (pf_claim_lease_seconds config)));
  claim ← lift_result (delivery_claim r.1 r.2 (jb_id r.1) token);
  mret (Some claim).

Lemma send_agrees s q k d y n :
  plane_ok config s -> matching s q -> fs_deliveries s !! k = Some d -> dl_id (dd_delivery d) = k ->
  fs_jobs s !! k = Some y -> jb_id (jd_job y) = k ->
  exists c s' q', runs (fs_send (plane_time n) d) s (Ok (Some c)) s'
    /\ runs (sq_send (plane_time n) (jd_job y, dd_delivery d)) q (Ok (Some c)) q' /\ matching s' q'.
Proof.
  intros Hok Hm Hd Hid Hy Hyid. set (token := uuid_hex (fs_ids s)).
  set (until := f_add (plane_time n) (pf_claim_lease_seconds config)).
  destruct (delivery_claim_ok s k d y k token Hok Hd Hy) as [c Hc].
  assert (Hfine : delivery_fine (claimed_delivery token until (dd_delivery d))).
  { destruct (fine_delivery _ _ _ _ Hm Hd). split; [done|]. intros e [= <-]. by apply (sc_lease _ steady). }
  pose proof (matching_delivery _ _ k d (claimed_delivery token until) (matching_draw _ _ Hm) Hd eq_refl Hfine) as Hm1.
  exists c. eexists _, _. split_and!; [| |exact Hm1].
  - unfold fs_send. rewrite Hid. eapply runs_bind; [by apply run_job_get|]. rewrite Hy.
    eapply runs_bind; [apply run_uuid|]. eapply runs_bind; [by apply run_set_delivery|].
    fold token until. rewrite Hc by done. eapply runs_bind; [apply runs_lift|apply runs_ret].
  - unfold sq_send. cbn [fst snd]. rewrite Hyid. eapply runs_bind; [apply run_hex|].
    rewrite (mt_ids _ _ Hm). fold token until.
    eapply runs_bind; [by apply run_update_deliveries|].
    rewrite Hc by done. eapply runs_bind; [apply runs_lift|apply runs_ret].
Qed.

Lemma send_pick_agrees s q n :
  plane_ok config s -> matching s q -> delivery_order s = true ->
  let now := plane_time n in
  exists a s' q',
    runs (docs ← deliveries_where (fun d => bool_decide (dl_status d = "PENDING"));
          match first_least sent_before (List.filter (deliverable now) docs) with
          | None => mret None
          | Some d => fs_send now d
          end) s (Ok a) s'
    /\ runs (row ← read (fun t => first_least sent_first (List.filter (deliverable_row now) (outbox t)));
             match row with
             | None => mret None
             | Some (j, d) => sq_send now (j, d)
             end) q (Ok a) q'
    /\ matching s' q'.
Proof.
  intros Hok Hm Hord now.
  assert (Hnow : not_nan now = true) by (apply (sc_now _ steady)).
  pose proof (same_delivery s q now Hok Hm Hnow Hord) as Hsame.
  pose proof (waiting_fine s q now) as Hfine.
  assert (Hfs := run_deliveries_where served (fun d => bool_decide (dl_status d = "PENDING")) s).
  assert (Hsq := run_read plane_reliable
    (fun t => first_least sent_first (List.filter (deliverable_row now) (outbox t))) q).
  cbv beta in Hfs, Hsq. rewrite Hsame in Hsq.
  destruct (first_least sent_before _) as [d|] eqn:Hd; simpl in Hsq.
  - pose proof (first_least_in _ _ _ Hd) as Hin.
    destruct (Hfine d Hok Hm Hin) as (k & y & Hk & Hid & Hy & Hyid & _ & _ & Hw). rewrite Hw in Hsq.
    destruct (send_agrees s q k d y n Hok Hm Hk Hid Hy Hyid) as (c & s' & q' & Hfs' & Hsq' & Hm').
    exists (Some c), s', q'. split_and!; [| |done].
    + eapply runs_bind; [exact Hfs|]. cbv beta. rewrite Hd. exact Hfs'.
    + eapply runs_bind; [exact Hsq|exact Hsq'].
  - exists None, s, q. split_and!; [| |done].
    + eapply runs_bind; [exact Hfs|]. cbv beta. rewrite Hd. apply runs_ret.
    + eapply runs_bind; [exact Hsq|apply runs_ret].
Qed.

Lemma claim_delivery_agrees s q :
  plane_ok config s -> matching s q -> sp_ticks q = fs_ticks s -> delivery_order (swept s) = true ->
  agree_run (claim_delivery config) (claim_delivery_ config) s q.
Proof.
  intros Hok Hm Ht Hord. set (now := plane_time (fs_ticks s)).
  set (s1 := s <| fs_ticks := S (fs_ticks s) |>).
  pose proof (matching_ticks _ _ (S (fs_ticks s)) (S (fs_ticks s)) Hm) as Hm1. fold s1 in Hm1.
  assert (Hok1 : plane_ok config s1) by (by apply (quiet_ok config s)).
  destruct (reclaim_deliveries_agree served plane_reliable config steady attempts_bound (fs_ticks s) s1 _ Hok1 Hm1)
    as (s2 & q2 & Hfs & Hsq & Hm2 & _). fold now in Hfs, Hsq.
  assert (Hok2 : plane_ok config s2).
  { eapply (runs_plane_ok config); [done..|exact Hok1| |exact Hfs]. by apply reclaim_expired_deliveries_sound. }
  assert (Hord2 : delivery_order s2 = true).
  { destruct (Hfs s1 (reflexivity s1)) as [_ (Hd & Hi & _)]. 
    rewrite <- Hord. unfold swept. fold now s1. symmetry. unfold data in Hd.
    apply delivery_order_alike; congruence. }
  destruct (send_pick_agrees s2 q2 (fs_ticks s) Hok2 Hm2 Hord2) as (a & s3 & q3 & Hfs3 & Hsq3 & Hm3).
  exists (Ok a), s3, q3. split_and!; [| |done].
  - eapply runs_bind; [apply run_clock|]. eapply runs_bind; [exact Hfs|exact Hfs3].
  - apply run_transaction; [done|]. eapply runs_bind; [by apply run_begin|].
    eapply runs_bind; [by apply run_time_at|]. eapply runs_bind; [exact Hsq|].
    exact Hsq3.
Qed.
End outbox.

Section refinement.
Context `{FirestoreLaws} `{PlaneStatements} `{Sqlite} `{FreshIds} `{PlaneClock} `{LedgerClock} `{Artifacts}.
Hypothesis served : forall n, reply n = Served.
Hypothesis plane_reliable : forall n, plane_statement_fails n = false.
Hypothesis ledger_reliable : forall n, statement_fails n = false.
Variable config : PlaneConfig.
Hypothesis steady : steady_clock config.
Hypothesis replay_attempts_positive : 0 < pf_max_replay_attempts config.
Hypothesis delivery_attempts_positive : 0 < pf_max_delivery_attempts config.
Hypothesis attempts_bound :
  pf_max_replay_attempts config <= 1024 /\ pf_max_delivery_attempts config <= 1024.
Notation ask_firestore := (@ask Store (firestore_plane config)).
Notation ask_sqlite := (@ask Plane (sqlite_plane config)).

(** What the planes are asked: decisions that [OwnerDecision] accepts, one pause per
    job decided on, and no two reports that wait equally long out of their jobs' order. *)
Definition allowed (op : PlaneOp) (s : Store) : Prop :=
  match op with
  | op_decide _ _ d => owner_decision (od_decision d) (od_rejection_note d) = Ok d
  | op_mark_paused id _ _ => fs_decisions s !! id = None
  | op_claim_delivery => delivery_order (swept config s) = true
  | _ => True
  end.

Fixpoint all_allowed (ops : list (nat * PlaneOp)) (s : Store) : Prop :=
  match ops with
  | [] => True
  | (moment, op) :: ops =>
      let s := s <| fs_ticks := moment |> in
      allowed op s /\ all_allowed ops (ask_firestore op s).2
  end.

Lemma agree_answered {A} (into : res A -> Answer) m1 m2 s q :
  agree_run m1 m2 s q ->
  (answered into m1 s).1 = (answered into m2 q).1
  /\ matching (answered into m1 s).2 (answered into m2 q).2.
Proof.
  intros (r & s' & q' & Hfs & Hsq & Hm).
  destruct (Hfs s (reflexivity s)) as [Hr1 Hs'], (Hsq q (reflexivity q)) as [Hr2 Hq'].
  unfold answered. simpl. rewrite Hr1, Hr2. split; [done|]. by eapply matching_alike.
Qed.

Lemma same_answer op s q :
  plane_ok config s -> matching s q -> sp_ticks q = fs_ticks s -> allowed op s ->
  (ask_firestore op s).1 = (ask_sqlite op q).1
  /\ matching (ask_firestore op s).2 (ask_sqlite op q).2.
Proof.
  intros Hok Hm Ht Hop. destruct op; apply agree_answered; simpl in Hop;
    eauto using create_agrees, status_agrees, events_agrees, decide_agrees, report_agrees,
      renew_running_agrees, reserve_incident_agrees, scenario_status_agrees, incident_id_for_agrees,
      claim_next_agrees, mark_paused_agrees, requeue_running_agrees, retry_running_agrees,
      finalize_agrees, claim_delivery_agrees, mark_delivered_agrees, renew_delivery_agrees,
      release_delivery_agrees, retry_delivery_agrees.
Qed.

Lemma same_step n op s q :
  plane_ok config s -> matching s q -> allowed op (s <| fs_ticks := n |>) ->
  let r := @ask Store (firestore_plane config) op (with_clock (ControlPlane := firestore_plane config) n s) in
  let r' := @ask Plane (sqlite_plane config) op (with_clock (ControlPlane := sqlite_plane config) n q) in
  r.1 = r'.1 /\ plane_ok config r.2 /\ matching r.2 r'.2.
Proof.
  intros Hok Hm Hop. cbn [with_clock firestore_plane sqlite_plane].
  set (s1 := s <| fs_ticks := n |>) in *. set (q1 := q <| sp_ticks := n |>).
  assert (Hok1 : plane_ok config s1) by (by apply (quiet_ok config s)).
  destruct (same_answer op s1 q1 Hok1 (matching_ticks _ _ n n Hm) eq_refl Hop) as [Hans Hm'].
  pose proof (ask_evolves config replay_attempts_positive delivery_attempts_positive op s1 Hok1) as Hev.
  split_and!; [done| |done]. by eapply evolves_ok.
Qed.

Lemma same_conversation ops : forall s q,
  plane_ok config s -> matching s q -> all_allowed ops s ->
  @conversation Store (firestore_plane config) ops s = @conversation Plane (sqlite_plane config) ops q.
Proof.
  induction ops as [|[n op] ops IH]; intros s q Hok Hm Hops; [done|].
  cbn [all_allowed] in Hops. destruct Hops as [Hop Hops]. cbn [conversation].
  destruct (same_step n op s q Hok Hm Hop) as (Hans & Hok' & Hm').
  change (s <| fs_ticks := n |>) with (with_clock (ControlPlane := firestore_plane config) n s) in Hops.
  destruct (ask_firestore op _) as [a s'], (ask_sqlite op _) as [b q']. simpl in Hans, Hok', Hm', Hops. subst b.
  f_equal. by apply IH.
Qed.

Lemma same_states ops : forall s q,
  plane_ok config s -> matching s q -> all_allowed ops s ->
  let s' := @state_after Store (firestore_plane config) ops s in
  let q' := @state_after Plane (sqlite_plane config) ops q in
  plane_ok config s' /\ matching s' q'.
Proof.
  induction ops as [|[n op] ops IH]; intros s q Hok Hm Hops; [done|].
  cbn [all_allowed] in Hops. destruct Hops as [Hop Hops].
  destruct (same_step n op s q Hok Hm Hop) as (_ & Hok' & Hm'). by apply IH.
Qed.

Lemma empty_rows {X D} (name : X -> string) (doc : nat -> X -> D) : rows name doc ∅ [].
Proof. split; [|constructor]. intros k d. rewrite lookup_empty. split; [done|]. by intros (n & x & ? & _). Qed.

Lemma empty_planes_match : matching empty_store (empty_plane []).
Proof.
  split; try done.
  - apply empty_rows.
  - apply empty_rows.
  - intros id. unfold events_of. simpl. rewrite lookup_empty. intros k. simpl. rewrite lookup_empty. split; [|done].
    rewrite map_size_empty. split; [by intros []|lia].
  - exists []. by split.
Qed.

(** C2: where the two control planes agree. Asked the same operations at the same moments
    from their empty databases, the Firestore plane and the SQLite plane give the same
    answers, ids, tokens, views, events, reports and errors alike, in every conversation
    that is [all_allowed]: no report is claimed while two that are equally due stand in
    another order than their jobs were created in, a decision is as the API validates
    it, and a job decided on is not paused again. Every request and statement succeeds,
    the clock is a [steady_clock], and at most 1024 attempts are configured. Beyond that
    the planes do differ: [Divergences.reports_leave_in_another_order] runs a
    conversation in which they send different reports. *)
Theorem sqlite_refines_firestore ops :
  all_allowed ops empty_store ->
  @conversation Store (firestore_plane config) ops empty_store
  = @conversation Plane (sqlite_plane config) ops (empty_plane []).
Proof. intros Hops. by apply same_conversation; [apply empty_store_ok|apply empty_planes_match|]. Qed.
End refinement.

Section recovery.
Context `{FirestoreLaws} `{PlaneStatements} `{Sqlite} `{FreshIds} `{PlaneClock} `{LedgerClock} `{Artifacts}.
Hypothesis served : forall n, reply n = Served.
Hypothesis plane_reliable : forall n, plane_statement_fails n = false.
Hypothesis ledger_reliable : forall n, statement_fails n = false.
Variable config : PlaneConfig.
Hypothesis steady : steady_clock config.
Hypothesis replay_attempts_positive : 0 < pf_max_replay_attempts config.
Hypothesis delivery_attempts_positive : 0 < pf_max_delivery_attempts config.
Hypothesis attempts_bound :
  pf_max_replay_attempts config <= 1024 /\ pf_max_delivery_attempts config <= 1024.

(** The decision is in the ledger, and that is all that happened. *)
Definition crashed (id checkpoint_id : string) (d : OwnerDecision) (q : Plane) : Plane :=
  (ensure_ledger_decision id checkpoint_id d q).2.

Definition decided_store (id cp : string) (dec : OwnerDecision) (d : JobDocument) (s : Store) : Store :=
  log_event id "owner_decision_recorded" (decision_fields cp dec)
    (set_job id (on_job decided_job d) (set_decision id (mirror_of cp dec) s)).

(** A row with no decision in the ledger is passed over. *)
Definition undecided (D : list DecisionRecord) (row : Job) : Prop :=
  is_ok (stored_checkpoint row) = true /\ ledger_row D (jb_id row) = Ok None.

Lemma reconcile_undecided q D row :
  sp_ledger q = ledger_of D -> undecided D row -> runs (reconcile_row row) q (Ok tt) q.
Proof.
  intros HD [Hcp Hled]. unfold reconcile_row. destruct (stored_checkpoint row) as [cp|]; [|done].
  eapply runs_bind; [apply runs_lift|].
  eapply runs_bind; [by apply (run_ledger_decision ledger_reliable q D)|]. apply runs_ret.
Qed.

Lemma reconcile_one l1 row l2 q D q' D' :
  sp_ledger q = ledger_of D -> sp_ledger q' = ledger_of D' ->
  runs (reconcile_row row) q (Ok tt) q' ->
  (forall r, r ∈ l1 -> undecided D r) -> (forall r, r ∈ l2 -> undecided D' r) ->
  runs (for_each reconcile_row (l1 ++ row :: l2)) q (Ok tt) q'.
Proof.
  intros HD HD' Hrow Hl1 Hl2. induction l1 as [|r l1 IH]; simpl.
  - eapply runs_bind; [exact Hrow|]. clear Hrow Hl1. induction l2 as [|r l2 IH]; [apply runs_ret|]. simpl.
    eapply runs_bind; [apply (reconcile_undecided q' D'); [done|apply Hl2; by left]|].
    apply IH. intros; apply Hl2. by right.
  - eapply runs_bind; [apply (reconcile_undecided q D); [done|apply Hl1; by left]|].
    apply IH. intros; apply Hl1. by right.
Qed.

Lemma reconcile_decided s q D id cp dec d :
  matching s q -> sp_ledger q = ledger_of D -> fs_jobs s !! id = Some d ->
  jb_checkpoint_id (jd_job d) = Some cp -> cp <> "" -> fs_decisions s !! id = None ->
  (forall i, decision_agrees (fs_jobs s !! i) (fs_decisions s !! i) (ledger_row D i)) ->
  owner_decision (od_decision dec) (od_rejection_note dec) = Ok dec ->
  exists q', runs (reconcile_row (jd_job d)) (after_record q D id cp dec) (Ok tt) q'
    /\ sp_ledger q' = ledger_of (D ++ [record_of id cp dec (ledger_time (sp_decided q))])
    /\ matching (decided_store id cp dec d s) q'.
Proof.
  intros Hm HD Hd Hcp Hne Hnone Hag Hdec. pose proof (job_name s q id d Hm Hd) as Hid.
  pose proof (matching_decided s q D id d cp dec Hm HD Hd Hcp Hne Hnone Hag Hdec) as Hm1.
  pose proof (matching_event _ _ id "owner_decision_recorded" (decision_fields cp dec) Hm1) as Hm2.
  eexists. split_and!; [| |exact Hm2]; [|done].
  assert (Hrow : ledger_row D id = Ok None) by (specialize (Hag id); by rewrite Hnone in Hag).
  pose proof (stored_checkpoint_cases (jd_job d)) as Hst. rewrite Hcp, decide_False in Hst by done.
  unfold reconcile_row. rewrite Hid, Hst. eapply runs_bind; [apply runs_lift|].
  eapply runs_bind.
  { eapply (run_ledger_decision ledger_reliable); [reflexivity|]. by apply ledger_row_new. }
  cbv beta iota. rewrite bool_decide_true by done. cbn [negb dw_decision dw_rejection_note].
  rewrite Hdec. eapply runs_bind; [apply runs_lift|].
  eapply runs_bind; [by apply (run_read plane_reliable)|].
  replace (snd <$> _) with (None : option Decision) by (rewrite <- Hnone; apply (mt_decisions _ _ Hm)).
  eapply runs_bind; [by apply (run_insert_decision plane_reliable s q)|].
  eapply runs_bind; [by apply run_update_jobs|].
  apply run_event_; [done|]. by apply (matching_dense _ _ id Hm1).
Qed.

Lemma NoDup_filter_names {X} (f : X -> string) p l : NoDup (f <$> l) -> NoDup (f <$> List.filter p l).
Proof.
  induction l as [|x l IH]; [done|]. csimpl. intros [Hnin Hnd]%NoDup_cons.
  destruct (p x); [|by apply IH]. csimpl. constructor; [|by apply IH].
  intros (y & Hy & [Hin _]%in_filter)%list_elem_of_fmap. apply Hnin. rewrite Hy. by apply list_elem_of_fmap_2.
Qed.

Lemma reconcile_completes s q D id cp dec d :
  plane_ok config s -> matching s q -> sp_ledger q = ledger_of D -> fs_jobs s !! id = Some d ->
  has_status I_PAUSED_APPROVAL (jd_job d) = true ->
  jb_checkpoint_id (jd_job d) = Some cp -> cp <> "" -> fs_decisions s !! id = None ->
  owner_decision (od_decision dec) (od_rejection_note dec) = Ok dec ->
  exists q', runs reconcile_durable_decisions (after_record q D id cp dec) (Ok tt) q'
    /\ matching (decided_store id cp dec d s) q'.
Proof.
  intros Hok Hm HD Hd Hp Hcp Hne Hnone Hdec. destruct (mt_ledger _ _ Hm) as (D' & HD' & Hag).
  assert (D' = D) as -> by (rewrite HD in HD'; by destruct HD' as [[= ->] _]).
  destruct (reconcile_decided s q D id cp dec d Hm HD Hd Hcp Hne Hnone Hag Hdec) as (q' & Hrow & HDq' & Hm').
  exists q'. split; [|done]. eapply runs_bind; [by apply run_read|].
  change (sq_jobs (sp_tables (after_record q D id cp dec))) with (sq_jobs (sp_tables q)).
  set (paused := List.filter (has_status I_PAUSED_APPROVAL) (sq_jobs (sp_tables q))).
  set (D' := D ++ [record_of id cp dec (ledger_time (sp_decided q))]) in *.
  pose proof (job_name s q id d Hm Hd) as Hid.
  assert (Hothers : forall row, row ∈ paused -> jb_id row <> id -> undecided D' row).
  { intros row Hrow' Hni. unfold undecided, D'. rewrite ledger_row_other by (simpl; congruence).
    by eapply (paused_undecided config s q D row). }
  assert (Hin : jd_job d ∈ paused).
  { apply in_filter. split; [|done].
    destruct (rows_lookup jb_id doc_job jd_job (fun _ _ => eq_refl) _ _ _ _ (mt_jobs _ _ Hm) Hd) as (n & Hn & _).
    by eapply list_elem_of_lookup_2. }
  assert (Hnd : NoDup (jb_id <$> paused)) by apply NoDup_filter_names, (rw_names _ _ _ _ (mt_jobs _ _ Hm)).
  apply list_elem_of_split in Hin as (l1 & l2 & Hrows). rewrite Hrows in *.
  rewrite fmap_app, fmap_cons in Hnd. apply NoDup_app in Hnd as (_ & Hl1 & [Hl2 _]%NoDup_cons).
  apply (reconcile_one _ _ _ _ D' _ D'); [done..| |].
  - intros r Hr. apply Hothers; [apply elem_of_app; by left|]. intros Heq.
    apply (Hl1 (jb_id r)); [by apply list_elem_of_fmap_2|]. rewrite Heq, Hid. by left.
  - intros r Hr. apply Hothers; [apply elem_of_app; right; by right|]. intros Heq.
    apply Hl2. rewrite Hid, <- Heq. by apply list_elem_of_fmap_2.
Qed.
(** What a first decision that is accepted needed, and what it did. *)
Lemma decide_accepted s owner id dec v s1 :
  fs_decisions s !! id = None -> decide_ owner id dec s = (Ok v, s1) ->
  exists d cp, fs_jobs s !! id = Some d /\ has_status I_PAUSED_APPROVAL (jd_job d) = true
    /\ jb_checkpoint_id (jd_job d) = Some cp /\ cp <> "" /\ alike (decided_store id cp dec d s) s1.
Proof.
  intros Hnone Hrun. pose proof (run_owned served s owner id) as Hown.
  assert (Hrefused : forall e s', runs (decide_ owner id dec) s (Err e) s' -> False).
  { intros e s' He. destruct (He s (reflexivity s)) as [Hr _]. by rewrite Hrun in Hr. }
  destruct (ownership s owner id) as [d|] eqn:Ho.
  2: { destruct (Hrefused not_found s). by apply runs_bind_err. }
  assert (Hd : fs_jobs s !! id = Some d).
  { unfold ownership in Ho. destruct (fs_jobs s !! id); [|done]. case_decide; congruence. }
  assert (Hget := run_decision_get served id s). rewrite Hnone in Hget.
  destruct (has_status I_PAUSED_APPROVAL (jd_job d)) eqn:Hp.
  2: { destruct (Hrefused conflict s). eapply runs_bind; [exact Hown|]. eapply runs_bind; [exact Hget|].
       cbv beta iota. rewrite Hp. apply runs_raise. }
  destruct (jb_checkpoint_id (jd_job d)) as [cp|] eqn:Hcp.
  2: { destruct (Hrefused corrupt s). eapply runs_bind; [exact Hown|]. eapply runs_bind; [exact Hget|].
       cbv beta iota. rewrite Hp, Hcp. apply runs_raise. }
  destruct (decide (cp = "")) as [He|Hne].
  { destruct (Hrefused corrupt s). eapply runs_bind; [exact Hown|]. eapply runs_bind; [exact Hget|].
    cbv beta iota. rewrite Hp, Hcp, decide_True by done. apply runs_raise. }
  exists d, cp. split_and!; try done.
  assert (Hok : runs (decide_ owner id dec) s (Ok {| iw_investigation_id := id; iw_status := I_QUEUED |})
    (decided_store id cp dec d s)).
  { eapply runs_bind; [exact Hown|]. eapply runs_bind; [exact Hget|]. cbv beta iota.
    rewrite Hp, Hcp, decide_False by done.
    eapply runs_bind; [by apply run_staged|]. eapply runs_bind; [|apply runs_ret].
    apply (run_batch served (fun s => set_event _ _ (set_job _ _ (set_decision _ _ s))));
      [solve_respects|done]. }
  destruct (Hok s (reflexivity s)) as [_ Hs]. by rewrite Hrun in Hs.
Qed.

(** C28: reconciliation finishes an interrupted decision. When the process dies after
    the ledger write of a decision the plane would accept, the reconciliation that
    starts the next poll succeeds and leaves the plane where the decision would have
    left it: every later conversation is the one that follows the decision. *)
Theorem reconcile_completes_decision before owner id dec v s1 later :
  let s := @state_after Store (firestore_plane config) before empty_store in
  let q := @state_after Plane (sqlite_plane config) before (empty_plane []) in
  all_allowed config before empty_store -> fs_decisions s !! id = None ->
  owner_decision (od_decision dec) (od_rejection_note dec) = Ok dec ->
  decide_ owner id dec s = (Ok v, s1) -> all_allowed config later s1 ->
  exists cp q1, (jd_job <$> fs_jobs s !! id) ≫= jb_checkpoint_id = Some cp
    /\ reconcile_durable_decisions (crashed id cp dec q) = (Ok tt, q1)
    /\ @conversation Store (firestore_plane config) later s1
       = @conversation Plane (sqlite_plane config) later q1.
Proof.
  intros s q Hbefore Hnone Hdec Hrun Hlater.
  destruct (same_states served plane_reliable ledger_reliable config steady replay_attempts_positive
    delivery_attempts_positive attempts_bound before empty_store (empty_plane []) (empty_store_ok config)
    empty_planes_match Hbefore) as [Hok Hm]. fold s q in Hok, Hm.
  assert (Hok1 : plane_ok config s1).
  { pose proof (ask_evolves config replay_attempts_positive delivery_attempts_positive
      (op_decide owner id dec) s Hok) as Hev. simpl in Hev. unfold answered in Hev. rewrite Hrun in Hev.
    by eapply evolves_ok. }
  destruct (decide_accepted s owner id dec v s1 Hnone Hrun) as (d & cp & Hd & Hp & Hcp & Hne & Hs1).
  destruct (mt_ledger _ _ Hm) as (D & HD & Hag).
  set (q0 := q <| sp_ledger := ledger_of D |>). assert (Hq0 : alike q0 q) by (by split_and!).
  assert (Hm0 : matching s q0) by (eapply matching_alike; [exact Hm|done|by symmetry]).
  destruct (reconcile_completes s q0 D id cp dec d Hok Hm0 eq_refl Hd Hp Hcp Hne Hnone Hdec)
    as (q1 & Hrec & Hm1).
  assert (Hnew : ledger_row D id = Ok None) by (specialize (Hag id); by rewrite Hnone in Hag).
  destruct (run_ensure_new ledger_reliable q0 D id cp dec eq_refl Hnew q Hq0) as [_ Hcrash].
  destruct (Hrec (crashed id cp dec q) Hcrash) as [Hr Hq1].
  exists cp, (reconcile_durable_decisions (crashed id cp dec q)).2. rewrite Hd. split; [done|].
  split; [rewrite <- Hr; by destruct (reconcile_durable_decisions _)|].
  apply same_conversation; try done. by eapply matching_alike.
Qed.
End recovery.
