(* ===== verification/Numbers.v ===== *)
(** Reading, comparing and printing Python numbers: [float(text)], the comparisons of
    ints, bools and floats (exact, whatever the widths), [==] on JSON values, and the
    fixed-point formats of f-strings. *)
From Stdlib Require Import ZArith Lia.
From stdpp Require Import prelude strings list.
From S2P Require Import Prelude PyText Float64.
Local Open Scope Z_scope.

(** * Reading *)

Definition is_digit (c : Ascii.ascii) : bool := (48 <=? code c) && (code c <=? 57).

(** A run of digits, single underscores allowed between two of them: its value, how
    many digits, and what follows. *)
Fixpoint digits_from (acc : Z) (count : Z) (s : string) : Z * Z * string :=
  match s with
  | String c rest =>
      if is_digit c then digits_from (10 * acc + (code c - 48)) (count + 1) rest
      else match rest with
      | String d _ =>
          if (code c =? 95) && (0 <? count) && is_digit d then digits_from acc count rest
          else (acc, count, s)
      | EmptyString => (acc, count, s)
      end
  | EmptyString => (acc, count, s)
  end.

(** An optional sign: whether it is a minus, and what follows. *)
Definition sign_of (s : string) : bool * string :=
  match s with
  | String c rest => if code c =? 45 then (true, rest) else if code c =? 43 then (false, rest) else (false, s)
  | EmptyString => (false, s)
  end.

(** The optional exponent that must end the text. *)
Definition exponent_of (s : string) : option Z :=
  match s with
  | EmptyString => Some 0
  | String c rest =>
      if (code c =? 101) || (code c =? 69)
      then let '(negative, rest) := sign_of rest in
           let '(e, count, rest) := digits_from 0 0 rest in
           if (0 <? count) && bool_decide (rest = "") then Some (if negative then - e else e) else None
      else None
  end.

(** [m * 10 ** k], correctly rounded. *)
Definition f_of_decimal (m k : Z) : f64 :=
  if m =? 0 then f_zero
  else if 0 <=? k then f_of_Z (m * 10 ^ k) else default f_zero (int_truediv m (10 ^ (- k))).

Definition f_with_sign (negative : bool) (x : f64) : f64 := if negative then SFopp x else x.

Definition magnitude_of (s : string) : option f64 :=
  let word := py_lower s in
  if bool_decide (word ∈ ["inf"; "infinity"]) then Some (S754_infinity false)
  else if bool_decide (word = "nan") then Some S754_nan
  else
    let '(whole, whole_digits, rest) := digits_from 0 0 s in
    let '(m, places, rest) :=
      match rest with
      | String c after =>
          if code c =? 46
          then match after with
               | String d _ => if is_digit d then digits_from whole 0 after else (whole, 0, after)
               | EmptyString => (whole, 0, after)
               end
          else (whole, 0, rest)
      | EmptyString => (whole, 0, rest)
      end in
    if 0 <? whole_digits + places
    then exponent ← exponent_of rest; Some (f_of_decimal m (exponent - places))
    else None.

(** [float(text)]; [None] where it raises [ValueError]. *)
Definition float_of_text (text : string) : option f64 :=
  let '(negative, rest) := sign_of (py_strip text) in
  f_with_sign negative <$> magnitude_of rest.

Example float_of_5 : float_of_text " 5.00 " = Some (f_of_Z 5).
Proof. vm_compute. reflexivity. Qed.

Example float_of_tenth : float_of_text "+1_0.0e-2" = int_truediv 1 10.
Proof. vm_compute. reflexivity. Qed.

Example float_of_minus_inf : float_of_text "-Infinity" = Some (S754_infinity true).
Proof. vm_compute. reflexivity. Qed.

Example float_refuses : float_of_text "0.05USD" = None /\ float_of_text "." = None /\ float_of_text "1__0" = None.
Proof. vm_compute. done. Qed.

(** * Comparing *)

Inductive number := NInt (z : Z) | NFloat (x : f64).

(** [m * 2 ** e] against [n]. *)
Definition scaled_compare (m e n : Z) : comparison :=
  if 0 <=? e then (Z.shiftl m e ?= n) else (m ?= Z.shiftl n (- e)).

(** A float against an int, exactly; nothing compares with a NaN. *)
Definition float_int_compare (x : f64) (n : Z) : option comparison :=
  match x with
  | S754_nan => None
  | S754_infinity s => Some (if s then Lt else Gt)
  | S754_zero _ => Some (0 ?= n)
  | S754_finite s m e => Some (scaled_compare (if s then Zneg m else Zpos m) e n)
  end.

Definition num_compare (a b : number) : option comparison :=
  match a, b with
  | NInt m, NInt n => Some (m ?= n)
  | NFloat x, NInt n => float_int_compare x n
  | NInt m, NFloat y => CompOpp <$> float_int_compare y m
  | NFloat x, NFloat y => SFcompare x y
  end.

Definition num_eqb (a b : number) : bool := bool_decide (num_compare a b = Some Eq).
(** [a >= b] *)
Definition num_geb (a b : number) : bool :=
  match num_compare a b with Some Eq | Some Gt => true | _ => false end.

(** A bool is an int; a float literal of a JSON text is what [float] makes of it. *)
Definition number_of (j : json) : option number :=
  match j with
  | JBool b => Some (NInt (Z.b2z b))
  | JInt z => Some (NInt z)
  | JFloat text => NFloat <$> float_of_text text
  | _ => None
  end.

(** [==] of two JSON values: numbers by value, lists in order, dicts in any order. *)
Fixpoint py_eq (a b : json) : bool :=
  match a with
  | JNull => match b with JNull => true | _ => false end
  | JStr s => match b with JStr t => bool_decide (s = t) | _ => false end
  | JArr l =>
      match b with
      | JArr l' =>
          (fix eq_items (l l' : list json) : bool :=
             match l, l' with
             | [], [] => true
             | x :: l, y :: l' => py_eq x y && eq_items l l'
             | _, _ => false
             end) l l'
      | _ => false
      end
  | JObj d =>
      match b with
      | JObj d' =>
          Nat.eqb (length d) (length d')
          && (fix eq_fields (d : list (string * json)) : bool :=
                match d with
                | [] => true
                | (k, v) :: d => match dict_get k d' with Some w => py_eq v w | None => false end && eq_fields d
                end) d
      | _ => false
      end
  | _ => match number_of a, number_of b with Some m, Some n => num_eqb m n | _, _ => false end
  end.

Example true_is_one : py_eq (JBool true) (JFloat "1.0") = true.
Proof. vm_compute. reflexivity. Qed.

Example tenth_is_not_exact : num_eqb (NFloat (f_of_decimal 1 (-1))) (NInt 0) = false
  /\ num_geb (NFloat (f_of_decimal 3 (-1))) (NInt 0) = true.
Proof. vm_compute. done. Qed.

(** * Printing *)

(** [num / den], to the nearest integer, ties to even. *)
Definition div_half_even (num den : Z) : Z :=
  let q := num / den in
  match 2 * (num mod den) ?= den with
  | Lt => q
  | Gt => q + 1
  | Eq => if Z.even q then q else q + 1
  end.

(** [m * 2 ** e * 10 ** places] as an integer, rounded from its exact value. *)
Definition scaled_to (places : nat) (m e : Z) : Z :=
  let m := m * 10 ^ Z.of_nat places in
  if 0 <=? e then Z.shiftl m e else div_half_even m (2 ^ (- e)).

Definition point_places (places : nat) (n : Z) : string :=
  let unit := 10 ^ Z.of_nat places in
  str_of_Z (n / unit) +:+ "." +:+ pad places (n mod unit).

(** [f"{x:.<places>f}"], for at least one place *)
Definition f_fixed (places : nat) (x : f64) : string :=
  match x with
  | S754_nan => "nan"
  | S754_infinity s => if s then "-inf" else "inf"
  | S754_zero s => (if s then "-" else "") +:+ point_places places 0
  | S754_finite s m e => (if s then "-" else "") +:+ point_places places (scaled_to places (Zpos m) e)
  end.

Example fixed_half : f_fixed 1 (f_of_decimal 25 (-2)) = "0.2" /\ f_fixed 2 (f_of_decimal (-5) (-3)) = "-0.01".
Proof. vm_compute. done. Qed.

Example fixed_money : f_fixed 4 (f_of_decimal 100359 (-4)) = "10.0359".
Proof. vm_compute. done. Qed.
