(* ===== verification/Evaluation.v ===== *)
(** Mechanical scoring (evaluation.py): the predicates a good answer must satisfy, the
    scores of one run, and the counts and ranges of a batch. *)
From Stdlib Require Import ZArith Lia.
From stdpp Require Import prelude strings list sorting.
From S2P Require Import Prelude PyText Float64 Numbers Tools Domain.
Local Open Scope Z_scope.

Definition SCORER_VERSION : string := "4".

Definition OUT_OF_SCOPE_REASONS : list ReasonCode :=
  [CROSS_INCIDENT_REQUEST; UNKNOWN_SERVICE; OUTSIDE_INCIDENT_WINDOW; RESULT_LIMIT_EXCEEDED].

Inductive PredicateOperator := EQUALS | AT_LEAST | CONTAINS.

#[export] Instance PredicateOperator_eq : EqDecision PredicateOperator.
Proof. solve_decision. Defined.

#[export] Instance PredicateOperator_enum : StrEnum PredicateOperator := {
  members := [EQUALS; AT_LEAST; CONTAINS];
  value o := match o with EQUALS => "EQUALS" | AT_LEAST => "AT_LEAST" | CONTAINS => "CONTAINS" end;
}.

Record RequiredEvidencePredicate := {
  rq_source : string;
  rq_kind : EvidenceKind;
  rq_template : option string;
  rq_field : string;
  rq_operator : PredicateOperator;
  rq_value : json;
}.

Record ExpectedOutcome := {
  ex_root_cause : RootCauseCode;
  ex_disposition : Disposition;
  ex_predicates : list RequiredEvidencePredicate;
}.

Record ControlCounts := {
  cc_denied : Z;
  cc_duplicate : Z;
  cc_out_of_scope : Z;
  cc_invalid_responses : Z;
  cc_unsettled : Z;
}.

Record Efficiency := {
  ef_latency_ms : Z;
  ef_model_calls : Z;
  ef_tools_executed : Z;
  ef_input_tokens : option Z;
  ef_output_tokens : option Z;
}.

Record MechanicalScores := {
  ms_diagnosis_correct : bool;
  ms_disposition_correct : bool;
  ms_citations_valid : bool;
  ms_citations_sufficient : option bool;
  ms_correct_and_grounded : option bool;
  ms_control : ControlCounts;
  ms_efficiency : Efficiency;
}.

Record EvaluationRecord := {
  vr_schema_version : string;
  vr_scorer_version : string;
  vr_run_key : string;
  vr_investigation_id : string;
  vr_incident_id : string;
  vr_expected : ExpectedOutcome;
  vr_scores : MechanicalScores;
  vr_git_sha : string;
  vr_git_dirty : bool;
  vr_versions : Versions;
  vr_retrieval_mode : RetrievalMode;
  vr_runbook_corpus_version : option string;
  vr_fixture_sha256 : string;
  vr_model_name : string;
  vr_pricing_source : string;
  vr_pricing_verified_on : string;
  vr_configured_ceiling_usd : f64;
  vr_reserved_usd : f64;
  vr_actual_usd : option f64;
  vr_failure_reason : option ReasonCode;
  vr_executed_tools : Z;
  vr_model_calls_budget : Z;
  vr_seed_name : string;
}.

(** * One run *)

Definition satisfies (predicate : RequiredEvidencePredicate) (evidence : Evidence) : bool :=
  if negb (bool_decide (ev_kind evidence = rq_kind predicate))
     || negb (bool_decide (ev_source evidence = rq_source predicate)) then false
  else if match rq_template predicate with
          | None => false
          | Some template => negb (match dict_get "template" (ev_payload evidence) with
                                   | Some j => py_eq j (JStr template)
                                   | None => false
                                   end)
          end then false
  else match dict_get (rq_field predicate) (ev_payload evidence) with
       | None => false
       | Some observed =>
           match rq_operator predicate with
           | EQUALS => py_eq observed (rq_value predicate)
           | AT_LEAST =>
               match number_of observed, number_of (rq_value predicate) with
               | Some x, Some y => num_geb x y
               | _, _ => false
               end
           | CONTAINS =>
               match observed, rq_value predicate with
               | JStr text, JStr part => py_in part text
               | _, _ => false
               end
           end
       end.

Definition cited_evidence (report : InvestigationReport) (evidence : list Evidence) : list Evidence :=
  match ir_assessment report with
  | None => []
  | Some a => List.filter (fun record => bool_decide (ev_evidence_id record ∈ fa_supporting_evidence_ids a)
                                         && bool_decide (ev_incident_id record = ir_incident_id report)) evidence
  end.

Definition citations_are_valid (report : InvestigationReport) (evidence : list Evidence) : bool :=
  match ir_assessment report with
  | None => false
  | Some a =>
      let known := ev_evidence_id <$> List.filter (fun record => bool_decide (ev_incident_id record = ir_incident_id report)) evidence in
      forallb (fun id => bool_decide (id ∈ known)) (fa_supporting_evidence_ids a ++ fa_contrary_evidence_ids a)
  end.

Definition denied (r : ToolReceipt) : bool := bool_decide (rc_policy_result r = DENIED).

Definition is_duplicate (r : ToolReceipt) : bool := bool_decide (rc_reason_code r = Some DUPLICATE_PROPOSAL).

Definition is_out_of_scope (r : ToolReceipt) : bool :=
  match rc_reason_code r with Some code => bool_decide (code ∈ OUT_OF_SCOPE_REASONS) | None => false end.

Definition count_control (report : InvestigationReport) (receipts : list ToolReceipt) : ControlCounts :=
  let denials := List.filter denied receipts in
  {| cc_denied := Z.of_nat (length denials);
     cc_duplicate := count_if is_duplicate denials;
     cc_out_of_scope := count_if is_out_of_scope denials;
     cc_invalid_responses := ir_invalid_responses report;
     cc_unsettled := count_if (fun r => bool_decide (rc_state r = RESERVED)) receipts |}.

Definition score_run (report : InvestigationReport) (evidence : list Evidence) (receipts : list ToolReceipt)
    (expected : ExpectedOutcome) : MechanicalScores :=
  let supported := cited_evidence report evidence in
  let rejected := match ir_escalation report with
                  | Some e => bool_decide (er_decision e = reject)
                  | None => false
                  end in
  let diagnosis_correct := is_some (ir_assessment report)
                           && bool_decide (ir_root_cause report = ex_root_cause expected) in
  let citations_sufficient :=
    if nonempty (ex_predicates expected)
    then Some (forallb (fun predicate => existsb (satisfies predicate) supported) (ex_predicates expected))
    else None in
  {| ms_diagnosis_correct := diagnosis_correct;
     ms_disposition_correct := bool_decide (ir_disposition report = ex_disposition expected) && negb rejected;
     ms_citations_valid := citations_are_valid report evidence;
     ms_citations_sufficient := citations_sufficient;
     ms_correct_and_grounded := sufficient ← citations_sufficient; Some (diagnosis_correct && sufficient);
     ms_control := count_control report receipts;
     ms_efficiency := {| ef_latency_ms := ir_latency_ms report; ef_model_calls := ir_model_calls_used report;
                         ef_tools_executed := ir_tools_executed report;
                         ef_input_tokens := input_tokens <$> ir_usage report;
                         ef_output_tokens := output_tokens <$> ir_usage report |} |}.

(** * A batch *)

(** [min] and [max] of a non-empty sequence: the first of equals stays. *)
Definition py_least {A} (lt : A -> A -> bool) (x : A) (l : list A) : A :=
  fold_left (fun best y => if lt y best then y else best) l x.

(** [_min_max] *)
Definition min_max {A} (lt : A -> A -> bool) (l : list A) : option (A * A) :=
  match l with
  | [] => None
  | x :: l => Some (py_least lt x l, py_least (fun y best => lt best y) x l)
  end.

Definition z_range : list Z -> option (Z * Z) := min_max Z.ltb.
Definition f_range : list f64 -> option (f64 * f64) := min_max f_lt.

(** A pair of fields [*_min], [*_max] is one optional pair here: both are [None] together. *)
Record EvaluationSummary := {
  su_total_records : Z;
  su_correct_and_grounded_count : Z;
  su_diagnosis_correct_count : Z;
  su_disposition_correct_count : Z;
  su_citations_valid_count : Z;
  su_citations_sufficient_count : Z;
  su_citations_sufficient_applicable_count : Z;
  su_scorer_versions : list string;
  su_latency_ms : option (Z * Z);
  su_model_calls : option (Z * Z);
  su_tools_executed : option (Z * Z);
  su_denied : option (Z * Z);
  su_duplicate : option (Z * Z);
  su_out_of_scope : option (Z * Z);
  su_invalid_responses : option (Z * Z);
  su_unsettled : option (Z * Z);
  su_input_tokens : option (Z * Z);
  su_input_tokens_known_count : Z;
  su_output_tokens : option (Z * Z);
  su_output_tokens_known_count : Z;
  su_reserved_usd : option (f64 * f64);
  su_actual_usd : option (f64 * f64);
  su_actual_usd_known_count : Z;
}.

Definition has_predicates (r : EvaluationRecord) : bool := nonempty (ex_predicates (vr_expected r)).

Definition sufficient (r : EvaluationRecord) : bool :=
  has_predicates r && bool_decide (ms_citations_sufficient (vr_scores r) = Some true).

Definition summarize_evaluation (records : list EvaluationRecord) : EvaluationSummary :=
  let scores := vr_scores <$> records in
  let efficiency := ms_efficiency <$> scores in
  let control := ms_control <$> scores in
  let input_tokens_known := omap ef_input_tokens efficiency in
  let output_tokens_known := omap ef_output_tokens efficiency in
  let actual_usd_known := omap vr_actual_usd records in
  {| su_total_records := Z.of_nat (length records);
     su_correct_and_grounded_count :=
       count_if (fun r => sufficient r && ms_diagnosis_correct (vr_scores r)) records;
     su_diagnosis_correct_count := count_if ms_diagnosis_correct scores;
     su_disposition_correct_count := count_if ms_disposition_correct scores;
     su_citations_valid_count := count_if ms_citations_valid scores;
     su_citations_sufficient_count := count_if sufficient records;
     su_citations_sufficient_applicable_count := count_if has_predicates records;
     su_scorer_versions := merge_sort String.le (remove_dups (vr_scorer_version <$> records));
     su_latency_ms := z_range (ef_latency_ms <$> efficiency);
     su_model_calls := z_range (ef_model_calls <$> efficiency);
     su_tools_executed := z_range (ef_tools_executed <$> efficiency);
     su_denied := z_range (cc_denied <$> control);
     su_duplicate := z_range (cc_duplicate <$> control);
     su_out_of_scope := z_range (cc_out_of_scope <$> control);
     su_invalid_responses := z_range (cc_invalid_responses <$> control);
     su_unsettled := z_range (cc_unsettled <$> control);
     su_input_tokens := z_range input_tokens_known;
     su_input_tokens_known_count := Z.of_nat (length input_tokens_known);
     su_output_tokens := z_range output_tokens_known;
     su_output_tokens_known_count := Z.of_nat (length output_tokens_known);
     su_reserved_usd := f_range (vr_reserved_usd <$> records);
     su_actual_usd := f_range actual_usd_known;
     su_actual_usd_known_count := Z.of_nat (length actual_usd_known) |}.
