(* ===== verification/LiveSetup.v ===== *)
(** The live model around its gate: what the graph gets from it, the turns and responses
    read from a provider's message, which fit what the INVESTIGATE and FINAL_ASSESSMENT
    nodes expect; and which provider a process may build and under which ceiling
    (live_setup.py, model_profiles.py, retrieval_experiment.py, and the pricing lookups
    of live_model.py).

    An environment is the mapping the process was given.  The cheapest reservation is
    found as the program finds it: by sending the smallest final-assessment request
    through the real adapter, over a ledger in memory and a transport that answers at
    once, and reading the ledger back. *)
From Stdlib Require Import ZArith Lia.
From stdpp Require Import prelude strings list.
From S2P Require Import Prelude PyText Float64 Tools Domain Policy World Evidence Wrappers ToolCalls Models Prompts CostLedger LiveModel GraphState GraphNodes Numbers Sqlite.
Local Open Scope Z_scope.

Lemma finish_plan_Some `{Pydantic} stage hs proposal stop plan e :
  finish_plan stage hs proposal stop = (Some plan, e) ->
  validate_plan (plan_payload hs proposal stop) = Some plan.
Proof.
  unfold finish_plan, parse_plan, parse_response. destruct (validate_plan _); [|done]. by intros [= ->].
Qed.

Lemma validate_plan_proposal `{Pydantic} hs proposal stop plan :
  validate_plan (plan_payload hs proposal stop) = Some plan ->
  check_proposal_or_stop plan = Ok plan /\
  match proposal with
  | None => pl_proposal plan = None
  | Some p => validate_proposal (dump_proposal p) = pl_proposal plan
  end.
Proof.
  unfold validate_plan. intros (sv & _ & Hv)%bind_Some.
  apply bind_Some in Hv as (hyps & _ & Hv). apply bind_Some in Hv as (prop & Hp & Hv).
  apply bind_Some in Hv as (reason & _ & Hv). apply of_result_Some in Hv.
  pose proof Hv as Hid. unfold check_proposal_or_stop in Hid.
  assert (plan = {| pl_hypotheses := hyps; pl_proposal := prop; pl_stop_reason := reason |}) as ->.
  { repeat (apply result_bind_Ok in Hid as (? & _ & Hid)). by injection Hid as <-. }
  split; [done|]. destruct proposal as [p|].
  - change (Some <$> validate_proposal (dump_proposal p) = Some prop) in Hp.
    destruct (validate_proposal (dump_proposal p)) as [q|]; [|done]. by injection Hp as <-.
  - by injection Hp as <-.
Qed.

Lemma check_proposal_bounds p :
  str_len (pr_evidence_gap p) <= 300 -> str_len (pr_expected_observation p) <= 300 ->
  check_proposal p = Ok p.
Proof.
  intros Hg%Z.leb_le Ho%Z.leb_le. unfold check_proposal, max_length. by rewrite Hg, Ho.
Qed.

(** A live turn means one thing. When the live model hands the graph a
    parsed plan, the tool call next to it is at most one, and reading that call
    gives exactly the plan's own proposal: a stop carries none, a check carries
    the very proposal the plan names. *)
Theorem live_turn_consistent `{PydanticRoundTrip} stage message turn plan :
  read_turn stage message = Ok turn -> pt_parsed turn = Some plan ->
  (length (pt_tool_call turn) <= 1)%nat
  /\ read_proposal turn = (pl_proposal plan, None)
  /\ check_proposal_or_stop plan = Ok plan
  /\ (forall p, pl_proposal plan = Some p -> arguments_in_schema (pr_arguments p) = true).
Proof.
  unfold read_turn. intros (usage & _ & Ht)%result_bind_Ok Hplan.
  apply result_bind_Ok in Ht as (selected & _ & Ht). injection Ht as <-.
  destruct selected as [call|errors]; [|done].
  case_decide as Hstop.
  - destruct (validate_stop (tc_args call)) as [[hs reason]|]; [|done].
    destruct (finish_plan stage hs None (Some reason)) as [parsed errors] eqn:Hf.
    simpl in Hplan. subst parsed. apply finish_plan_Some, validate_plan_proposal in Hf as [Hc Hn].
    rewrite Hn. split_and!; [simpl; lia|done..].
  - destruct (of_value (tc_name call)) as [t|]; [|done].
    destruct (parse_tool_call (to_native_tool_call call)) as [[p|] e] eqn:Hparse; [|done].
    destruct (validate_hypotheses _) as [hs|]; [|done].
    destruct (finish_plan stage hs (Some p) None) as [parsed errors] eqn:Hf.
    simpl in Hplan. subst parsed. apply finish_plan_Some, validate_plan_proposal in Hf as [Hc Hn].
    apply parse_tool_call_Some in Hparse as Hsome. destruct Hsome as (_ & _ & Hschema & _ & Hg & Ho).
    rewrite validate_dump_proposal in Hn; [|done|by apply check_proposal_bounds].
    rewrite <- Hn. split_and!; [simpl; lia| |done|by intros ? [= <-]].
    unfold read_proposal. simpl. by rewrite Hparse.
Qed.

(** the application signs the answer. A live response without an error comes
    from exactly one call of the recording tool; its content is that call's
    arguments with the schema version added, which the model may not send itself,
    so an assessment read from it carries this program's version.  A response with
    an error carries no content. *)
Theorem live_response_stamped `{Pydantic} message r :
  read_response message = Ok r ->
  (mr_errors r <> "" -> mr_content r = [])
  /\ (mr_errors r = "" -> exists call,
        am_tool_calls message = [call] /\ am_invalid_tool_calls message = []
        /\ tc_name call = RECORD_FINAL_ASSESSMENT_TOOL_NAME
        /\ dict_get "schema_version" (tc_args call) = None
        /\ dict_get "schema_version" (mr_content r) = Some (JStr SCHEMA_VERSION)
        /\ (forall k, k <> "schema_version" -> dict_get k (mr_content r) = dict_get k (tc_args call))
        /\ (forall a e, parse_assessment (mr_content r) = (Some a, e) ->
              fa_schema_version a = SCHEMA_VERSION)).
Proof.
  unfold read_response. intros (usage & _ & Hr)%result_bind_Ok.
  apply result_bind_Ok in Hr as (selected & Hsel & Hr). injection Hr as <-.
  unfold single_call in Hsel. apply result_bind_Ok in Hsel as (visible & _ & Hsel).
  injection Hsel as <-. destruct visible; [done|].
  destruct (am_invalid_tool_calls message) as [|ic ics]; [|done].
  destruct (am_tool_calls message) as [|call [|c2 cs]]; [done| |done].
  case_decide as Hname; [done|].
  destruct (dict_mem "schema_version" (tc_args call)) eqn:Hsv; [done|].
  simpl. split; [done|]. intros _. exists call.
  assert (Hget : dict_get "schema_version" (dict_set "schema_version" (JStr SCHEMA_VERSION) (tc_args call))
                 = Some (JStr SCHEMA_VERSION)) by apply dict_get_set_eq.
  split_and!; try done.
  - unfold dict_mem in Hsv. by destruct (dict_get _ _).
  - intros k Hk. by apply dict_get_set_ne.
  - intros a e. unfold parse_assessment, parse_response, validate_assessment.
    destruct (no_extra _ _); [|done]. cbn [mbind option_bind].
    unfold field_str_default at 1. rewrite Hget. cbn [mbind option_bind].
    intros Hp. destruct (_ ≫= _) as [a'|] eqn:Hv in Hp; [|done]. injection Hp as -> _.
    repeat (apply bind_Some in Hv as (? & _ & Hv)).
    apply of_result_Some, check_assessment_id in Hv. by subst a.
Qed.

Notation Environment := (list (string * string)).

(** [environment.get(name, default)] *)
Definition env_get (name fallback : string) (env : Environment) : string := default fallback (dict_get name env).

Definition AFFIRMATIVE_VALUES : list string := ["1"; "true"; "yes"].

Definition affirmative (raw : string) : bool := bool_decide (py_lower (py_strip raw) ∈ AFFIRMATIVE_VALUES).

(** * Profiles *)

Inductive ProfileKind := K_REPLAY_HOSTED | K_CLAUDE_LEGACY_DISABLED | K_OLLAMA_QWEN35_EXPERIMENT.

#[export] Instance ProfileKind_enum : StrEnum ProfileKind := {
  members := [K_REPLAY_HOSTED; K_CLAUDE_LEGACY_DISABLED; K_OLLAMA_QWEN35_EXPERIMENT];
  value k := match k with
    | K_REPLAY_HOSTED => "replay-hosted"
    | K_CLAUDE_LEGACY_DISABLED => "claude-legacy-disabled"
    | K_OLLAMA_QWEN35_EXPERIMENT => "ollama-qwen35-experiment"
    end;
}.

Record ModelProfile := {
  mp_kind : ProfileKind;
  mp_model_name : string;
  mp_hosted_eligible : bool;
  mp_vm_only : bool;
  mp_experimental : bool;
}.

Definition REPLAY_HOSTED : ModelProfile := {|
  mp_kind := K_REPLAY_HOSTED; mp_model_name := "replay"; mp_hosted_eligible := true;
  mp_vm_only := false; mp_experimental := false |}.

Definition CLAUDE_LEGACY_DISABLED : ModelProfile := {|
  mp_kind := K_CLAUDE_LEGACY_DISABLED; mp_model_name := "claude-sonnet-5"; mp_hosted_eligible := false;
  mp_vm_only := false; mp_experimental := false |}.

Definition OLLAMA_QWEN35_EXPERIMENT : ModelProfile := {|
  mp_kind := K_OLLAMA_QWEN35_EXPERIMENT; mp_model_name := "qwen3.5:4b"; mp_hosted_eligible := false;
  mp_vm_only := true; mp_experimental := true |}.

(** [MODEL_PROFILES[kind]] *)
Definition profile_for (kind : ProfileKind) : ModelProfile :=
  match kind with
  | K_REPLAY_HOSTED => REPLAY_HOSTED
  | K_CLAUDE_LEGACY_DISABLED => CLAUDE_LEGACY_DISABLED
  | K_OLLAMA_QWEN35_EXPERIMENT => OLLAMA_QWEN35_EXPERIMENT
  end.

Definition profile_for_legacy_choice (model_choice : string) : ModelProfile :=
  if decide (model_choice = "replay") then REPLAY_HOSTED else CLAUDE_LEGACY_DISABLED.

(** * Gates *)

Definition provider_disabled : exn := OtherError "ProviderDisabledError".
Definition unknown_live_model : exn := OtherError "UnknownLiveModel".

(** Absent is enabled; anything but an affirmative spelling is disabled. *)
Definition claude_enabled (env : Environment) : bool :=
  match dict_get "ENABLE_CLAUDE" env with None => true | Some raw => affirmative raw end.

Definition rag_experiment_enabled (env : Environment) : bool := affirmative (env_get "RAG_EXPERIMENT_ENABLED" "" env).

(** [build_ollama_candidate_model], up to the client it builds. *)
Definition ollama_candidate_allowed (env : Environment) : res unit :=
  if negb (bool_decide (py_lower (py_strip (env_get "CAUSALOPS_EXECUTION_ENV" "" env)) = "vm")) then Err provider_disabled
  else if negb (affirmative (env_get "CAUSALOPS_CANDIDATE_EVALUATION" "" env)) then Err provider_disabled
  else Ok tt.

(** [bool(environment.get(API_KEY_VARIABLE, "").strip())] *)
Definition credential_present (env : Environment) : bool :=
  negb (bool_decide (py_strip (env_get "ANTHROPIC_API_KEY" "" env) = "")).

Definition LIVE_MODEL_PRICING : list (string * PricingSnapshot) :=
  [("sonnet", CLAUDE_SONNET_5_PRICING); ("haiku", CLAUDE_HAIKU_4_5_PRICING); ("opus", CLAUDE_OPUS_5_PRICING)].

Definition PRICING_BY_MODEL_NAME : list (string * PricingSnapshot) :=
  (fun p => (pc_model_name p, p)) <$> dict_values LIVE_MODEL_PRICING.

Definition pricing_for_model_name (model_name : string) : res PricingSnapshot :=
  match dict_get model_name PRICING_BY_MODEL_NAME with Some p => Ok p | None => Err unknown_live_model end.

Definition resolve_live_model_pricing (env : Environment) : res PricingSnapshot :=
  let raw := py_lower (py_strip (env_get "CAUSALOPS_LIVE_MODEL" "" env)) in
  if decide (raw = "") then Ok CLAUDE_SONNET_5_PRICING
  else match dict_get raw LIVE_MODEL_PRICING with Some p => Ok p | None => Err unknown_live_model end.

(** * The cheapest and the dearest reservation *)

Definition MINIMUM_RESERVATION_PROBE_RUN_ID : string := "minimum-reservation-probe".

Definition probe_answer : AIMessage := {|
  am_content := JStr ""; am_tool_calls := []; am_invalid_tool_calls := [];
  am_usage_metadata := Some {| input_tokens := 0; output_tokens := 0 |} |}.

(** 2026-01-01T00:00:00Z *)
Definition probe_start : Z := 1767225600000000.

Definition probe_scope : IncidentScope := {|
  sc_incident_id := MINIMUM_RESERVATION_PROBE_RUN_ID; sc_environment := "local-lab";
  sc_services := ["service"]; sc_started_at := probe_start; sc_ended_at := probe_start + 60000000;
  sc_endpoint := "/" |}.

Definition probe_packet : InitialAlertPacket := {|
  ap_incident_id := MINIMUM_RESERVATION_PROBE_RUN_ID; ap_window_start := probe_start;
  ap_window_end := probe_start + 60000000; ap_endpoint := "/"; ap_symptom := ELEVATED_LATENCY;
  ap_services := ["service"]; ap_alerted_at := probe_start; ap_alert_source_version := "probe";
  ap_symptom_evidence_id := "probe-symptom"; ap_topology_evidence_id := "probe-topology" |}.

Section reservations.
Context `{Host} `{Clocks} `{Provider}.

Definition build_minimum_final_assessment_request : ModelRequest :=
  let model_calls_used := 1 in
  let context := render_context probe_packet probe_scope [] []
    (model_calls DEFAULT_BUDGETS - model_calls_used) (executed_tools DEFAULT_BUDGETS) [] []
    (runbook_searches DEFAULT_BUDGETS) in
  let context_text := context +:+ nl +:+ nl +:+ "## Task" +:+ nl +:+ STAGE_INSTRUCTIONS FINAL_ASSESSMENT in
  {| mq_stage := FINAL_ASSESSMENT; mq_system_text := SYSTEM_TEXT; mq_context_text := context_text;
     mq_repair_errors := None; mq_run_id := MINIMUM_RESERVATION_PROBE_RUN_ID;
     mq_graph_phase := P_FINAL_ASSESSMENT; mq_model_turn := model_calls_used;
     mq_context_digest := sha256_hex (SYSTEM_TEXT +:+ context_text) |}.

(** [MinimumReservationProbeTransport]: the real tool definitions, an answer at once. *)
Definition probe_transport : Provider := {|
  chat_invoke := fun _ _ _ _ => Ok probe_answer;
  stop_tool_definition := stop_tool_definition;
  domain_tool_definitions := domain_tool_definitions;
  final_assessment_tool_definition := final_assessment_tool_definition |}.

(** [sqlite3.connect(":memory:")]: no statement of it fails. *)
Definition in_memory : Sqlite := fun _ => false.

Definition empty_live : Live :=
  {| lv_conn := {| db_saved := None; db_open := None; db_statements := 0 |}; lv_ticks := 0; lv_sent := [] |}.

Definition probe_model (pricing : PricingSnapshot) : LiveClaudeModel :=
  {| lm_ceiling_usd := f_of_Z 1000000; lm_pricing := pricing; lm_credential_present := true |}.

Definition minimum_possible_reservation_usd (pricing : PricingSnapshot) : res f64 :=
  ((_ ← on_ledger (@ensure_cost_ledger_table in_memory);
   _ ← @live_respond in_memory _ probe_transport (probe_model pricing) build_minimum_final_assessment_request;
   rows ← on_ledger (@select in_memory _ (fun r => bool_decide (k_run_id (cl_key r) = MINIMUM_RESERVATION_PROBE_RUN_ID)));
   match rows with
   | row :: _ => mret (cl_reserved_usd row)
   | [] => raise AssertionError
   end) empty_live).1.

Definition maximum_possible_reservation_usd (pricing : PricingSnapshot) : f64 :=
  let tools := stop_tool_definition :: domain_tool_definitions in
  reservation_usd pricing (MAX_INPUT_TOKENS + estimate_input_tokens (json_dumps (JArr tools))) MAX_OUTPUT_TOKENS.

(** [MAXIMUM_POSSIBLE_RESERVATION_USD], and its counterpart; an exception would have
    ended the import. *)
Definition MAXIMUM_POSSIBLE_RESERVATION_USD : f64 := maximum_possible_reservation_usd CLAUDE_SONNET_5_PRICING.

Definition MINIMUM_USABLE_CEILING_USD : res f64 :=
  cheapest ← minimum_possible_reservation_usd CLAUDE_SONNET_5_PRICING;
  Ok (f_add RESERVATION_CEILING_BUFFER_USD cheapest).

(** * The ceiling *)

Definition DEFAULT_LIVE_EVALUATION_MAX_USD : f64 := f_of_Z 5.

Definition live_evaluation_ceiling_usd (env : Environment) : res f64 :=
  let raw := py_strip (env_get "LIVE_EVALUATION_MAX_USD" "" env) in
  if decide (raw = "") then Ok DEFAULT_LIVE_EVALUATION_MAX_USD
  else match float_of_text raw with
       | None => Err (CheckpointStoreError CEILING_MALFORMED)
       | Some x =>
           if negb (f_isfinite x) then Err (CheckpointStoreError CEILING_MALFORMED)
           else floor ← MINIMUM_USABLE_CEILING_USD;
                if f_ge floor x then Err (CheckpointStoreError CEILING_BELOW_RESERVATION_BUFFER) else Ok x
       end.
End reservations.
