(* ===== verification/CandidateEvaluation.v ===== *)
(** The offline gates of a candidate model (candidate_evaluation.py): the records the
    private VM writes, the experiment and promotion gates, and the matched comparison of
    the two retrieval backends. *)
From Stdlib Require Import ZArith Lia.
From stdpp Require Import prelude strings list.
From S2P Require Import Prelude PyText Float64 Tools Domain Evaluation.
Local Open Scope Z_scope.

Definition APPROVED_QWEN_MODEL : string := "qwen3.5:4b".
Definition FIXED_CORPUS_SIZE : Z := 12.

Definition CORPUS_FAMILIES : list string :=
  ["configuration_change"; "downstream_timeout_retry_amplification"; "resource_pool_saturation";
   "ambiguous_telemetry"].

Definition CORPUS_SEEDS : list string := ["evaluation"; "evaluation_b"; "evaluation_c"].

Definition FROZEN_CASE_IDS : list string :=
  family ← CORPUS_FAMILIES; seed ← CORPUS_SEEDS; [family +:+ "/" +:+ seed].

Definition EXPERIMENT_DIAGNOSIS_MINIMUM : Z := 9.
Definition PROMOTION_DIAGNOSIS_MINIMUM : Z := 11.
Definition PROMOTION_CORRECT_AND_GROUNDED_MINIMUM : Z := 5.

Record CandidateEvaluationRecord := {
  cv_schema_version : string;
  cv_case_id : string;
  cv_investigation_id : string;
  cv_model_name : string;
  cv_ollama_image_digest : string;
  cv_model_manifest_digest : string;
  cv_git_sha : string;
  cv_git_dirty : bool;
  cv_versions : Versions;
  cv_fixture_sha256 : string;
  cv_runbook_corpus_version : string;
  cv_retrieval_index_identity : string;
  cv_configured_budgets : Budgets;
  cv_runbook_query_count : Z;
  cv_retrieval_mode : RetrievalMode;
  cv_scores : MechanicalScores;
  cv_sequence_valid : bool;
  cv_policy_escape : bool;
  cv_disposition : Disposition;
  cv_failure_reason : option ReasonCode;
  cv_wall_clock_ms : Z;
  cv_local_compute_cost_usd : option f64;
}.

#[export] Instance Budgets_eq : EqDecision Budgets.
Proof. solve_decision. Defined.
#[export] Instance Versions_eq : EqDecision Versions.
Proof. solve_decision. Defined.

(** [^[0-9a-f]{n}$] *)
Definition is_hex (n : nat) (s : string) : bool :=
  Nat.eqb (String.length s) n
  && forallb (fun c => (48 <=? code c) && (code c <=? 57) || (97 <=? code c) && (code c <=? 102))
       (String.list_ascii_of_string s).

(** [^sha256:[0-9a-f]{64}$] *)
Definition is_image_digest (s : string) : bool :=
  is_prefix "sha256:" s && is_hex 64 (String.substring 7 (String.length s - 7) s).

Definition min_length_1 (s : string) : bool := 1 <=? str_len s.

(** The fields' own constraints. *)
Definition check_candidate (r : CandidateEvaluationRecord) : res CandidateEvaluationRecord :=
  _ ← require (min_length_1 (cv_case_id r) && min_length_1 (cv_investigation_id r));
  _ ← require (bool_decide (cv_model_name r = APPROVED_QWEN_MODEL));
  _ ← require (is_image_digest (cv_ollama_image_digest r) && is_image_digest (cv_model_manifest_digest r));
  _ ← require (is_hex 40 (cv_git_sha r) && is_hex 64 (cv_fixture_sha256 r));
  _ ← require (min_length_1 (cv_runbook_corpus_version r) && min_length_1 (cv_retrieval_index_identity r));
  _ ← require ((0 <=? cv_runbook_query_count r) && (0 <=? cv_wall_clock_ms r));
  _ ← require (match cv_local_compute_cost_usd r with None => true | Some x => f_ge x f_zero end);
  Ok r.

Record RetrievalComparisonRecord := {
  cr_case_id : string;
  cr_fts5 : CandidateEvaluationRecord;
  cr_pinecone : CandidateEvaluationRecord;
}.

(** [_check_usage_mode] *)
Definition check_usage_mode (r : CandidateEvaluationRecord) (active : RetrievalMode) : res unit :=
  _ ← require (negb ((cv_runbook_query_count r =? 0) && negb (bool_decide (cv_retrieval_mode r = DISABLED))));
  require (negb ((0 <? cv_runbook_query_count r) && negb (bool_decide (cv_retrieval_mode r = active)))).

(** The fields both arms must share. *)
Definition conditions_of (r : CandidateEvaluationRecord) :=
  (cv_model_name r, cv_ollama_image_digest r, cv_model_manifest_digest r, cv_git_sha r, cv_git_dirty r,
   cv_versions r, cv_fixture_sha256 r, cv_runbook_corpus_version r, cv_configured_budgets r).

Definition check_matched_modes (c : RetrievalComparisonRecord) : res RetrievalComparisonRecord :=
  _ ← require (bool_decide (cv_case_id (cr_fts5 c) = cr_case_id c) && bool_decide (cv_case_id (cr_pinecone c) = cr_case_id c));
  _ ← check_usage_mode (cr_fts5 c) FTS5_LEXICAL;
  _ ← check_usage_mode (cr_pinecone c) PINECONE_SEMANTIC;
  _ ← require (bool_decide (conditions_of (cr_fts5 c) = conditions_of (cr_pinecone c)));
  Ok c.

Record CandidateEvaluationSummary := {
  ca_total_records : Z;
  ca_distinct_cases : Z;
  ca_diagnosis_correct_count : Z;
  ca_citations_valid_count : Z;
  ca_correct_and_grounded_count : Z;
  ca_sequence_invalid_count : Z;
  ca_policy_escape_count : Z;
  ca_failed_safe_count : Z;
  ca_experiment_eligible : bool;
  ca_promotion_eligible : bool;
}.

Record RetrievalComparisonSummary := {
  cs_total_pairs : Z;
  cs_pinecone_used_count : Z;
  cs_pinecone_policy_escape_count : Z;
  cs_pinecone_failed_safe_count : Z;
  cs_fts5_correct_and_grounded_count : Z;
  cs_pinecone_correct_and_grounded_count : Z;
  cs_pinecone_selectable : bool;
}.

(** [{...} == FROZEN_CASE_IDS] of two sets *)
Definition same_cases (l : list string) : bool := bool_decide (l ⊆ FROZEN_CASE_IDS /\ FROZEN_CASE_IDS ⊆ l).

Definition diagnosed (r : CandidateEvaluationRecord) : bool := ms_diagnosis_correct (cv_scores r).
Definition validly_cited (r : CandidateEvaluationRecord) : bool := ms_citations_valid (cv_scores r).
Definition grounded (r : CandidateEvaluationRecord) : bool :=
  bool_decide (ms_correct_and_grounded (cv_scores r) = Some true).
Definition failed_safe (r : CandidateEvaluationRecord) : bool := bool_decide (cv_disposition r = FAILED_SAFE).

(** The corpus, whole. *)
Definition complete_corpus (cases : list string) : bool :=
  (Z.of_nat (length cases) =? FIXED_CORPUS_SIZE) && same_cases cases.

Definition summarize_candidate_evaluation (records : list CandidateEvaluationRecord) : CandidateEvaluationSummary :=
  let diagnosis_correct := count_if diagnosed records in
  let citations_valid := count_if validly_cited records in
  let correct_and_grounded := count_if grounded records in
  let policy_escapes := count_if cv_policy_escape records in
  let failed := count_if failed_safe records in
  let complete := complete_corpus (cv_case_id <$> records) in
  let safe := (policy_escapes =? 0) && (failed =? 0) in
  {| ca_total_records := Z.of_nat (length records);
     ca_distinct_cases := Z.of_nat (length (remove_dups (cv_case_id <$> records)));
     ca_diagnosis_correct_count := diagnosis_correct;
     ca_citations_valid_count := citations_valid;
     ca_correct_and_grounded_count := correct_and_grounded;
     ca_sequence_invalid_count := count_if (fun r => negb (cv_sequence_valid r)) records;
     ca_policy_escape_count := policy_escapes;
     ca_failed_safe_count := failed;
     ca_experiment_eligible := complete && safe && (EXPERIMENT_DIAGNOSIS_MINIMUM <=? diagnosis_correct)
                               && (citations_valid =? FIXED_CORPUS_SIZE);
     ca_promotion_eligible := complete && safe && (PROMOTION_DIAGNOSIS_MINIMUM <=? diagnosis_correct)
                              && (PROMOTION_CORRECT_AND_GROUNDED_MINIMUM <=? correct_and_grounded)
                              && (citations_valid =? FIXED_CORPUS_SIZE) |}.

Definition summarize_retrieval_comparison (records : list RetrievalComparisonRecord) : RetrievalComparisonSummary :=
  let pinecone_used := count_if (fun c => 0 <? cv_runbook_query_count (cr_pinecone c)) records in
  let policy_escapes := count_if (fun c => cv_policy_escape (cr_pinecone c)) records in
  let failed := count_if (fun c => failed_safe (cr_pinecone c)) records in
  let fts5_grounded := count_if (fun c => grounded (cr_fts5 c)) records in
  let pinecone_grounded := count_if (fun c => grounded (cr_pinecone c)) records in
  {| cs_total_pairs := Z.of_nat (length records);
     cs_pinecone_used_count := pinecone_used;
     cs_pinecone_policy_escape_count := policy_escapes;
     cs_pinecone_failed_safe_count := failed;
     cs_fts5_correct_and_grounded_count := fts5_grounded;
     cs_pinecone_correct_and_grounded_count := pinecone_grounded;
     cs_pinecone_selectable := complete_corpus (cr_case_id <$> records) && (3 <=? pinecone_used)
                               && (policy_escapes =? 0) && (failed =? 0) && (fts5_grounded <=? pinecone_grounded) |}.

(** * The gates *)

Lemma frozen_cases_distinct : NoDup FROZEN_CASE_IDS.
Proof. apply (bool_decide_unpack (NoDup FROZEN_CASE_IDS)). vm_compute. exact I. Qed.

(** Twelve cases that cover the twelve are the twelve, each once. *)
Lemma complete_corpus_exact cases : complete_corpus cases = true <-> cases ≡ₚ FROZEN_CASE_IDS.
Proof.
  unfold complete_corpus, same_cases. rewrite andb_true_iff, Z.eqb_eq, bool_decide_eq_true. split.
  - intros [Hlen [_ Hall]]. symmetry. apply submseteq_length_Permutation.
    + apply NoDup_submseteq; [apply frozen_cases_distinct|]. intros x Hx. by apply Hall.
    + change (length FROZEN_CASE_IDS) with 12%nat. unfold FIXED_CORPUS_SIZE in Hlen. lia.
  - intros Hp. split; [by rewrite Hp|]. split; intros x Hx; by rewrite Hp in *.
Qed.

Lemma count_if_all {A} (p : A -> bool) (l : list A) :
  count_if p l = Z.of_nat (length l) <-> Forall (fun x => p x = true) l.
Proof.
  induction l as [|x l IH]; simpl; [by split; [constructor|]|]. rewrite Forall_cons, <- IH.
  assert (count_if p l <= Z.of_nat (length l)).
  { clear. induction l as [|x l IH]; simpl; [lia|]. destruct (p x); simpl; lia. }
  destruct (p x); simpl; split; [intros; split; [done|lia]|lia|lia|by intros [? _]].
Qed.

(** C38: a promotion is earned. A candidate is promoted only on the frozen corpus, each of
    its twelve cases exactly once, with no policy escape and no failed-safe run among
    them, every citation valid, at least eleven diagnoses right and five of them grounded;
    and whoever is promoted had passed the experiment's gate. *)
Theorem promotion_is_earned records :
  let s := summarize_candidate_evaluation records in
  (ca_promotion_eligible s = true <->
     cv_case_id <$> records ≡ₚ FROZEN_CASE_IDS
     /\ Forall (fun r => cv_policy_escape r = false /\ cv_disposition r <> FAILED_SAFE
                         /\ ms_citations_valid (cv_scores r) = true) records
     /\ 11 <= count_if diagnosed records /\ 5 <= count_if grounded records)
  /\ (ca_promotion_eligible s = true -> ca_experiment_eligible s = true).
Proof.
  intros s. unfold s. cbn [summarize_candidate_evaluation ca_promotion_eligible ca_experiment_eligible].
  unfold PROMOTION_DIAGNOSIS_MINIMUM, PROMOTION_CORRECT_AND_GROUNDED_MINIMUM, EXPERIMENT_DIAGNOSIS_MINIMUM.
  split.
  - rewrite !andb_true_iff, complete_corpus_exact, !Z.eqb_eq, !Z.leb_le. split.
    + intros [[[[Hp [He Hf]] Hd] Hg] Hc]. split_and!; [done| |done|done].
      assert (Hlen : Z.of_nat (length records) = FIXED_CORPUS_SIZE).
      { apply Permutation_length in Hp. rewrite length_fmap in Hp. by rewrite Hp. }
      rewrite <- Hlen in Hc. apply count_if_all in Hc. rewrite count_if_zero in He, Hf.
      rewrite Forall_forall in Hc |- *. intros r Hr. split_and!; [by apply He| |by apply Hc].
      intros Hd'. specialize (Hf r Hr). unfold failed_safe in Hf. by rewrite bool_decide_true in Hf.
    + intros (Hp & Hall & Hd & Hg). rewrite Forall_forall in Hall.
      assert (Hlen : Z.of_nat (length records) = FIXED_CORPUS_SIZE).
      { apply Permutation_length in Hp. rewrite length_fmap in Hp. by rewrite Hp. }
      split_and!; try done.
      * apply count_if_zero. intros r Hr. by apply Hall.
      * apply count_if_zero. intros r Hr. apply bool_decide_false. by apply Hall.
      * rewrite <- Hlen. apply count_if_all, Forall_forall. intros r Hr. by apply Hall.
  - rewrite !andb_true_iff, !Z.leb_le. intros [[[[? ?] ?] ?] ?]. split_and!; try done; try lia.
Qed.
