(* ===== verification/EvaluateBatch.v ===== *)
(** [causalops-evaluate] (evaluate_cli.py): the paired live comparison over the frozen
    corpus, the records it keeps on disk as it goes, and the summary of a batch.

    A batch runs on a worker's machine ([Site]) beside a directory of its own under
    results/evaluations/; every file operation is a step of that machine and may raise
    or be the last.  The cost ledger is read through a connection; what the model calls
    of the n-th investigation do to it is a parameter ([ledger_moves]), since those
    calls are theorems of LiveModel.  The graph itself is the real one. *)
From Stdlib Require Import ZArith Lia.
From stdpp Require Import prelude strings list sorting gmap.
From S2P Require Import Prelude PyText Float64 Numbers Tools Domain World Evidence Wrappers Models GraphState GraphNodes GraphRun Report Sqlite CostLedger LiveModel Lab Site JobRunner Evaluation LiveSetup.
Local Open Scope Z_scope.

Definition EVALUATION_FAMILIES : list string :=
  ["ambiguous_telemetry"; "configuration_change"; "downstream_timeout_retry_amplification";
   "resource_pool_saturation"].

Definition EVALUATION_SEEDS : list string := ["evaluation"; "evaluation_b"; "evaluation_c"].

Definition EVIDENCE_BUDGET_CURVE : list Z := [2; 3; 4].

Definition MODE_NO_TOOL_BASELINE : string := "no_tool_baseline".
Definition MODE_TOOL_ENABLED : string := "tool_enabled".

Definition INFRASTRUCTURE_ABORT_REASONS : list ReasonCode :=
  [COST_CEILING_EXCEEDED; INPUT_TOKEN_CAP_EXCEEDED; AMBIGUOUS_MODEL_REQUEST; WALL_CLOCK_EXPIRED; INTERNAL_ERROR].

Definition resolve_budgets (n : Z) : Budgets := {|
  wall_clock_seconds := wall_clock_seconds DEFAULT_BUDGETS;
  tool_timeout_seconds := tool_timeout_seconds DEFAULT_BUDGETS;
  model_calls := n + 2; executed_tools := n;
  runbook_searches := runbook_searches DEFAULT_BUDGETS;
  runbook_passages := runbook_passages DEFAULT_BUDGETS;
  repairs := repairs DEFAULT_BUDGETS; log_rows := log_rows DEFAULT_BUDGETS |}.

(** [type=int, choices=EVIDENCE_BUDGET_CURVE] *)
Definition accepted_budget (n : Z) : bool := bool_decide (n ∈ EVIDENCE_BUDGET_CURVE).

(** * Summaries, by arm, retrieval mode and evidence budget *)

(** [text.rsplit("/", 1)[-1]] *)
Fixpoint after_last_slash (s : string) : string :=
  match s with
  | EmptyString => EmptyString
  | String c rest =>
      if py_in "/" rest then after_last_slash rest
      else if code c =? 47 then rest else s
  end.

Definition arm_of (r : EvaluationRecord) : string := after_last_slash (vr_run_key r).

Definition known_arm (r : EvaluationRecord) : bool :=
  bool_decide (arm_of r ∈ [MODE_NO_TOOL_BASELINE; MODE_TOOL_ENABLED]).

Notation GroupKey := (string * RetrievalMode * Z)%type.

Definition group_key (r : EvaluationRecord) : GroupKey := (arm_of r, vr_retrieval_mode r, vr_executed_tools r).

(** [grouped.setdefault(key, []).append(record)] *)
Definition add_to_group (grouped : list (GroupKey * list EvaluationRecord)) (r : EvaluationRecord)
    : list (GroupKey * list EvaluationRecord) :=
  dict_set (group_key r) (default [] (dict_get (group_key r) grouped) ++ [r]) grouped.

Definition mode_rank (m : RetrievalMode) : Z :=
  match m with DISABLED => 0 | FTS5_LEXICAL => 1 | PINECONE_SEMANTIC => 2 end.

Definition sort_key (key : GroupKey) : Z * Z * Z :=
  (if decide (key.1.1 = MODE_NO_TOOL_BASELINE) then 0 else 1, mode_rank key.1.2, key.2).

(** [<=] of two such tuples. *)
Definition rank_leb (x y : Z * Z * Z) : bool :=
  let '(a, b, c) := x in
  let '(a', b', c') := y in
  (a <? a') || ((a =? a') && ((b <? b') || ((b =? b') && (c <=? c')))).

Definition group_le {A} (p q : GroupKey * A) : Prop := rank_leb (sort_key p.1) (sort_key q.1) = true.

#[export] Instance group_le_dec {A} (p q : GroupKey * A) : Decision (group_le p q).
Proof. unfold group_le. apply _. Defined.

Record EvaluationGroupSummary := {
  eg_arm : string;
  eg_mode : RetrievalMode;
  eg_tools : Z;
  eg_summary : EvaluationSummary;
}.

Record PairedEvaluationSummary := {
  ps_groups : list EvaluationGroupSummary;
  ps_total_records : Z;
}.

Definition summarize_paired_evaluation (records : list EvaluationRecord) : res PairedEvaluationSummary :=
  if forallb known_arm records
  then Ok {| ps_groups := (fun kv => {| eg_arm := kv.1.1.1; eg_mode := kv.1.1.2; eg_tools := kv.1.2;
                                        eg_summary := summarize_evaluation kv.2 |})
                          <$> merge_sort group_le (fold_left add_to_group records []);
             ps_total_records := Z.of_nat (length records) |}
  else Err ValueError.

(** [_range_str] of ints, and of floats *)
Definition int_range_str (r : option (Z * Z)) : string :=
  match r with None => "no data" | Some (low, high) => str_of_Z low +:+ "-" +:+ str_of_Z high end.

Definition float_range_str (r : option (f64 * f64)) : string :=
  match r with None => "no data" | Some (low, high) => f_fixed 4 low +:+ "-" +:+ f_fixed 4 high end.

Definition of_total (n total : Z) : string := str_of_Z n +:+ "/" +:+ str_of_Z total.

Definition render_evaluation_summary (s : EvaluationSummary) : string :=
  let total := su_total_records s in
  let applicable := su_citations_sufficient_applicable_count s in
  let of_applicable n := of_total n applicable +:+ " (" +:+ of_total applicable total +:+ " applicable)" in
  let known n := " (" +:+ of_total n total +:+ " known)" in
  py_join nl
    ["evaluation summary: " +:+ str_of_Z total +:+ " record(s)";
     "  correct_and_grounded:" +:+ of_applicable (su_correct_and_grounded_count s);
     "  diagnosis_correct:   " +:+ of_total (su_diagnosis_correct_count s) total;
     "  disposition_correct: " +:+ of_total (su_disposition_correct_count s) total;
     "  citations_valid:     " +:+ of_total (su_citations_valid_count s) total;
     "  citations_sufficient:" +:+ of_applicable (su_citations_sufficient_count s);
     "  scorer_versions: " +:+ py_join ", " (su_scorer_versions s);
     "  latency_ms:      " +:+ int_range_str (su_latency_ms s);
     "  model_calls:     " +:+ int_range_str (su_model_calls s);
     "  tools_executed:  " +:+ int_range_str (su_tools_executed s);
     "  control.denied:            " +:+ int_range_str (su_denied s);
     "  control.duplicate:         " +:+ int_range_str (su_duplicate s);
     "  control.out_of_scope:      " +:+ int_range_str (su_out_of_scope s);
     "  control.invalid_responses: " +:+ int_range_str (su_invalid_responses s);
     "  control.unsettled:         " +:+ int_range_str (su_unsettled s);
     "  input_tokens:    " +:+ int_range_str (su_input_tokens s) +:+ known (su_input_tokens_known_count s);
     "  output_tokens:   " +:+ int_range_str (su_output_tokens s) +:+ known (su_output_tokens_known_count s);
     "  reserved_usd:    " +:+ float_range_str (su_reserved_usd s);
     "  actual_usd:      " +:+ float_range_str (su_actual_usd s) +:+ known (su_actual_usd_known_count s)].

Definition render_paired_evaluation_summary (paired : PairedEvaluationSummary) : string :=
  py_join (nl +:+ nl)
    (((fun g => "[" +:+ eg_arm g +:+ ", retrieval_mode=" +:+ value (eg_mode g) +:+ ", executed_tools="
                +:+ str_of_Z (eg_tools g) +:+ "]" +:+ nl +:+ render_evaluation_summary (eg_summary g))
      <$> ps_groups paired)
     ++ ["total_records (all arms, retrieval modes, and evidence budgets): " +:+ str_of_Z (ps_total_records paired)]).

(** * The batch *)

Inductive Saved := SRecords (records : list EvaluationRecord) | SSummary (summary : PairedEvaluationSummary).

(** What the command prints, a line at a time; the prose after a FAIL code is left out. *)
Inductive Line :=
  | FAIL (code : string)
  | RECORDS_SO_FAR
  | RESET_FAILED (family seed_name incident_id : string)
  | TEXT (text : string)
  | SUMMARY_AT
  | RECORDS_AT
  | RECORDS_UNAFFECTED.

(** [bt_scored] is the list of the records [run_one] returned: only statements read it. *)
Record Batch := {
  bt_site : Site;
  bt_ledger : Conn;
  bt_target : gmap string (Text Saved);
  bt_printed : list Line;
  bt_scored : list EvaluationRecord;
}.

#[export] Instance settable_Batch : Settable Batch := fun s =>
  {| bt_site := bt_site s; bt_ledger := bt_ledger s; bt_target := bt_target s; bt_printed := bt_printed s;
     bt_scored := bt_scored s |}.

Notation BatchM := (ST Batch exn).

(** What the command finds around it. *)
Class EvaluationHost := {
  environment : Environment;
  project_root : bool;
  git_provenance : res (string * bool);
  scenario_bytes : string -> res string;
  corpus_version : res (option string);
  mcp_registry : StoredIncident -> Budgets -> res (list (ToolName * ToolWrapper));
  ledger_moves : nat -> Conn -> Conn;
}.

(** * Ground truth: [_load_expected_outcome] *)

Definition parse_predicate (j : json) : option RequiredEvidencePredicate :=
  match j with
  | JObj d =>
      source ← field_str "source" d;
      kind ← field_str "kind" d ≫= of_value;
      template ← match dict_get "template" d with
                 | None | Some JNull => Some None
                 | Some (JStr t) => Some (Some t)
                 | Some _ => None
                 end;
      field ← field_str "field" d;
      operator ← field_str "operator" d ≫= of_value;
      wanted ← dict_get "value" d;
      Some {| rq_source := source; rq_kind := kind; rq_template := template; rq_field := field;
              rq_operator := operator; rq_value := wanted |}
  | _ => None
  end.

Definition parse_expected (root_cause disposition predicates : json) : option ExpectedOutcome :=
  match root_cause, disposition, predicates with
  | JStr root_cause, JStr disposition, JArr predicates =>
      root_cause ← of_value root_cause;
      disposition ← of_value disposition;
      predicates ← mapM parse_predicate predicates;
      Some {| ex_root_cause := root_cause; ex_disposition := disposition; ex_predicates := predicates |}
  | _, _, _ => None
  end.

Definition expected_outcome (raw : list (string * json)) : res ExpectedOutcome :=
  match dict_get "root_cause" raw, dict_get "disposition" raw with
  | Some root_cause, Some disposition =>
      match parse_expected root_cause disposition (default (JArr []) (dict_get "predicates" raw)) with
      | Some expected => Ok expected
      | None => Err ValidationError
      end
  | _, _ => Err KeyError
  end.

(** [_run_id_from_events] *)
Fixpoint run_id_from_events (events : list RunEvent) : res string :=
  match events with
  | [] => Err (OtherError "RuntimeError")
  | e :: events =>
      if decide (re_name e = "investigation_started")
      then match dict_get "run_id" (re_fields e) with
           | Some (JStr run_id) => Ok run_id
           | _ => run_id_from_events events
           end
      else run_id_from_events events
  end.

(** What a scored run builds its graph from. *)
Definition scored_investigation (incident : StoredIncident) (registry : list (ToolName * ToolWrapper))
    (budgets : Budgets) (no_tool_baseline : bool) : Investigation := {|
  iv_scope := si_scope incident; iv_packet := si_packet incident; iv_budgets := budgets;
  iv_registry := registry; iv_suppress_escalation := true; iv_no_tool_baseline := no_tool_baseline |}.

Definition mode_of (no_tool_baseline : bool) : string :=
  if no_tool_baseline then MODE_NO_TOOL_BASELINE else MODE_TOOL_ENABLED.

Definition run_key_of (incident_id model_name : string) (budgets : Budgets) (no_tool_baseline : bool) : string :=
  incident_id +:+ "/" +:+ model_name +:+ "/et" +:+ str_of_Z (executed_tools budgets) +:+ "/" +:+ mode_of no_tool_baseline.

(** What [_run_one] is given besides the arm, the same for both arms of an incident. *)
Record Scenario := {
  sn_family : string;
  sn_seed : string;
  sn_incident : StoredIncident;
  sn_expected : ExpectedOutcome;
  sn_fixture : string;
  sn_corpus : option string;
  sn_sha : string;
  sn_dirty : bool;
  sn_ceiling : f64;
}.

Section batch.
Context `{Pydantic} `{Host} `{Clocks} `{ToolCallingModel} `{LangGraph} `{Machine}.
Context `{Sqlite} `{Provider} `{EvaluationHost}.

Definition on_site {A} (m : SiteM A) : BatchM A := fun s =>
  let '(r, site) := m (bt_site s) in (r, s <| bt_site := site |>).

Definition on_batch_ledger {A} (m : ConnM A) : BatchM A := fun s =>
  let '(r, c) := m (bt_ledger s) in (r, s <| bt_ledger := c |>).

(** An operation of the machine on the target directory. *)
Definition target_step (f : gmap string (Text Saved) -> res (gmap string (Text Saved))) : BatchM unit :=
  _ ← on_site (site_step (fun s => (Ok tt, s)));
  s ← get_state;
  files ← lift_result (f (bt_target s));
  modify (fun s => s <| bt_target := files |>).

Definition print_line (l : Line) : BatchM unit := modify (fun s => s <| bt_printed := bt_printed s ++ [l] |>).

(** [write_jsonl] and [_write_json_atomic]: a sibling file, then a rename over the name. *)
Definition write_saved (name : string) (content : Saved) : BatchM unit :=
  hex ← on_site site_id;
  let tmp := name +:+ ".tmp-" +:+ hex in
  except_base
    (_ ← target_step (fun files => Ok (<[tmp := Torn]> files));
     _ ← target_step (fun files => Ok (<[tmp := Whole content]> files));
     target_step (fun files => match files !! tmp with
                               | None => Err file_missing
                               | Some text => Ok (<[name := text]> (delete tmp files))
                               end))
    (fun e => _ ← target_step (fun files => Ok (delete tmp files)); raise e).

(** * One scored run *)

Definition close_child : BatchM unit := on_site (site_step (fun s => (Ok tt, s))).

(** The child, the registry over it, the ledger's connection and the model, whose name
    is its pricing's. *)
Definition build_claude_model_and_mcp_registry (incident : StoredIncident) (budgets : Budgets)
    : BatchM (list (ToolName * ToolWrapper) * LiveClaudeModel) :=
  if negb (claude_enabled environment) then raise provider_disabled
  else
    _ ← on_site (site_step (fun s => (Ok tt, s)));
    except_base
      (registry ← lift_result (mcp_registry incident budgets);
       _ ← on_batch_ledger ensure_cost_ledger_table;
       pricing ← lift_result (resolve_live_model_pricing environment);
       ceiling ← lift_result (live_evaluation_ceiling_usd environment);
       mret (registry, {| lm_ceiling_usd := ceiling; lm_pricing := pricing;
                          lm_credential_present := credential_present environment |}))
      (fun e => _ ← close_child; raise e).

(** The invocation of the graph, over a checkpointer of its own. *)
Definition scored_graph (iv : Investigation) (model_name : string) (evidence : list Evidence)
    : BatchM (Outcome * list RunEvent) := fun s =>
  let '(r, recorded, _, w) := run_graph_investigation iv None model_name evidence (site_world (bt_site s)) in
  let site := moved "" None w (bt_site s) in
  (o ← r; Ok (o, recorded),
   s <| bt_site := site |> <| bt_ledger := ledger_moves (w_model_calls w) (bt_ledger s) |>).

Definition score_scenario (sn : Scenario) (budgets : Budgets) (no_tool_baseline : bool)
    (registry : list (ToolName * ToolWrapper)) (model_name : string) : BatchM EvaluationRecord :=
  let incident := sn_incident sn in
  outcome ← scored_graph (scored_investigation incident registry budgets no_tool_baseline) model_name (si_evidence incident);
  match outcome.1 with
  | Escalated _ => raise (OtherError "RuntimeError")
  | Finished result =>
      run_id ← lift_result (run_id_from_events outcome.2);
      let report := res_report result in
      _ ← on_site (finalize_investigation report outcome.2 (res_evidence result) (res_receipts result)
                     (render_report report (res_evidence result) (res_receipts result) model_name));
      let scores := score_run report (res_evidence result) (res_receipts result) (sn_expected sn) in
      totals ← on_batch_ledger (run_cost_totals run_id);
      let '(reserved_usd, actual_usd, fully_settled) := (totals : f64 * f64 * bool) in
      pricing ← lift_result (pricing_for_model_name model_name);
      mret {| vr_schema_version := SCHEMA_VERSION; vr_scorer_version := SCORER_VERSION;
              vr_run_key := run_key_of (sc_incident_id (si_scope incident)) model_name budgets no_tool_baseline;
              vr_investigation_id := ir_investigation_id report; vr_incident_id := ir_incident_id report;
              vr_expected := sn_expected sn; vr_scores := scores; vr_git_sha := sn_sha sn;
              vr_git_dirty := sn_dirty sn; vr_versions := ir_versions report;
              vr_retrieval_mode := ir_retrieval_mode report; vr_runbook_corpus_version := sn_corpus sn;
              vr_fixture_sha256 := sn_fixture sn; vr_model_name := model_name;
              vr_pricing_source := pc_source pricing; vr_pricing_verified_on := pc_verified_on pricing;
              vr_configured_ceiling_usd := sn_ceiling sn; vr_reserved_usd := reserved_usd;
              vr_actual_usd := if fully_settled then Some actual_usd else None;
              vr_failure_reason := ir_reason_code report; vr_executed_tools := executed_tools budgets;
              vr_model_calls_budget := model_calls budgets; vr_seed_name := sn_seed sn |}
  end.

Definition run_one (sn : Scenario) (budgets : Budgets) (no_tool_baseline : bool) : BatchM EvaluationRecord :=
  wiring ← build_claude_model_and_mcp_registry (sn_incident sn) budgets;
  record ← finally_do (score_scenario sn budgets no_tool_baseline wiring.1 (pc_model_name (lm_pricing wiring.2)))
                        close_child;
  _ ← modify (fun s => s <| bt_scored := bt_scored s ++ [record] |>);
  mret record.

(** * The whole corpus *)

Definition runs_in_batch : Z := Z.of_nat (length EVALUATION_FAMILIES * length EVALUATION_SEEDS * 2).

(** [runs * (model_calls + repairs) * MAXIMUM_POSSIBLE_RESERVATION_USD] *)
Definition preflight_worst_case_batch_usd (budgets : Budgets) : f64 :=
  f_mul (f_of_Z (runs_in_batch * (model_calls budgets + repairs budgets))) MAXIMUM_POSSIBLE_RESERVATION_USD.

Definition check_preflight_cost (budgets : Budgets) (ceiling_usd : f64) : BatchM unit :=
  _ ← on_batch_ledger ensure_cost_ledger_table;
  already_spent ← on_batch_ledger application_wide_spend_usd;
  if f_gt (f_add (f_add already_spent (preflight_worst_case_batch_usd budgets)) RESERVATION_CEILING_BUFFER_USD) ceiling_usd
  then raise (CheckpointStoreError CEILING_BELOW_RESERVATION_BUFFER) else mret tt.

Definition RECORDS_FILE : string := "records.jsonl".

(** An arm: run, keep, write the file, and stop the batch when the run's failure is the
    infrastructure's. *)
Fixpoint run_arms (sn : Scenario) (budgets : Budgets) (arms : list bool) (records : list EvaluationRecord)
    : BatchM (list EvaluationRecord) :=
  match arms with
  | [] => mret records
  | arm :: arms =>
      record ← run_one sn budgets arm;
      let records := records ++ [record] in
      _ ← write_saved RECORDS_FILE (SRecords records);
      match vr_failure_reason record with
      | Some reason => if decide (reason ∈ INFRASTRUCTURE_ABORT_REASONS) then raise (EvaluationAborted reason)
                       else run_arms sn budgets arms records
      | None => run_arms sn budgets arms records
      end
  end.

(** The artifacts [start_scenario] left, read back. *)
Definition load_scenario (family seed_name incident_id : string) (corpus : option string) (git : string * bool)
    (ceiling : f64) : BatchM Scenario :=
  incident ← on_site (site_step (fun t =>
    (match lb_runs (st_lab t) !! incident_id ≫= rn_incident with
     | None => Err file_missing
     | Some Torn => Err ValidationError
     | Some (Whole incident) => validate_incident incident
     end, t)));
  expected ← on_site (site_step (fun t =>
    (match lb_runs (st_lab t) !! incident_id ≫= rn_expected with
     | None => Err file_missing
     | Some raw => expected_outcome raw
     end, t)));
  bytes ← lift_result (scenario_bytes family);
  mret {| sn_family := family; sn_seed := seed_name; sn_incident := incident; sn_expected := expected;
          sn_fixture := sha256_hex bytes; sn_corpus := corpus; sn_sha := git.1; sn_dirty := git.2;
          sn_ceiling := ceiling |}.

(** [finally:] the scenario is reset on every way out; when the body already raised, an
    exception of the reset is printed instead of replacing it. *)
Definition with_reset {A} (family seed_name incident_id : string) (m : BatchM A) : BatchM A := fun s =>
  let reset := on_site (lift_lab (reset_scenario incident_id)) in
  match m s with
  | (Ok a, s') => (_ ← reset; mret a) s'
  | (Err e, s') =>
      if is_killed e then (Err e, s')
      else (_ ← except_base reset (fun _ => print_line (RESET_FAILED family seed_name incident_id)); raise e) s'
  end.

Fixpoint run_corpus (git : string * bool) (ceiling : f64) (corpus : option string) (budgets : Budgets)
    (pairs : list (string * string)) (records : list EvaluationRecord) : BatchM (list EvaluationRecord) :=
  match pairs with
  | [] => mret records
  | (family, seed_name) :: pairs =>
      incident_id ← on_site (lift_lab (start_scenario family seed_name None));
      records ← with_reset family seed_name incident_id
        (sn ← load_scenario family seed_name incident_id corpus git ceiling;
         run_arms sn budgets [true; false] records);
      run_corpus git ceiling corpus budgets pairs records
  end.

Definition corpus_pairs : list (string * string) :=
  family ← EVALUATION_FAMILIES; seed_name ← EVALUATION_SEEDS; [(family, seed_name)].

Definition run_evaluation (budgets : Budgets) : BatchM (list EvaluationRecord) :=
  if negb (claude_enabled environment) then raise provider_disabled
  else
    git ← lift_result git_provenance;
    ceiling ← lift_result (live_evaluation_ceiling_usd environment);
    corpus ← lift_result corpus_version;
    _ ← check_preflight_cost budgets ceiling;
    run_corpus git ceiling corpus budgets corpus_pairs [].

(** * The command *)

(** [results/evaluations/<opaque-id>/] with an empty records file. *)
Definition new_evaluation_target : BatchM unit :=
  _ ← on_site site_id;
  _ ← target_step Ok;
  write_saved RECORDS_FILE (SRecords []).

(** The code a refusal prints. *)
Definition refusal_code (e : exn) : string :=
  match e with
  | EvaluationAborted reason => "EVALUATION_ABORTED " +:+ value reason
  | LabError code => value code
  | CheckpointStoreError code => value code
  | _ => if is_named "ProviderDisabledError" e then "CLAUDE_DISABLED"
         else if is_named "RunRecordError" e then value RESULT_ALREADY_FINALIZED
         else "INTERNAL_ERROR"
  end.

Definition py_bool (b : bool) : string := if b then "True" else "False".

Definition record_line (r : EvaluationRecord) : string :=
  vr_run_key r +:+ " diagnosis_correct=" +:+ py_bool (ms_diagnosis_correct (vr_scores r))
  +:+ " disposition_correct=" +:+ py_bool (ms_disposition_correct (vr_scores r))
  +:+ " reserved_usd=" +:+ f_fixed 4 (vr_reserved_usd r)
  +:+ " actual_usd=" +:+ match vr_actual_usd r with Some x => f_fixed 4 x | None => "None" end.

Fixpoint print_lines (l : list string) : BatchM unit :=
  match l with [] => mret tt | text :: l => _ ← print_line (TEXT text); print_lines l end.

Definition fail_with (code : string) : BatchM Z := _ ← print_line (FAIL code); mret 1.

(** What follows a batch that ran to its end. *)
Definition conclude (records : list EvaluationRecord) : BatchM Z :=
  _ ← print_lines (record_line <$> records);
  summary ← lift_result (summarize_paired_evaluation records);
  _ ← print_line (TEXT (render_paired_evaluation_summary summary));
  try_except (_ ← write_saved "summary.json" (SSummary summary);
              _ ← print_line SUMMARY_AT; _ ← print_line RECORDS_AT; mret 0)
    (fun e => if is_os_error e
              then _ ← print_line (FAIL "SUMMARY_WRITE_FAILED"); _ ← print_line RECORDS_UNAFFECTED; mret 1
              else raise e).

(** The exit code; [argparse] refuses other budgets with 2. *)
Definition main (executed_tools : Z) : BatchM Z :=
  if negb (accepted_budget executed_tools) then mret 2
  else let budgets := resolve_budgets executed_tools in
  if negb project_root then fail_with "PROJECT_ROOT_NOT_FOUND"
  else if negb (claude_enabled environment) then fail_with "CLAUDE_DISABLED"
  else if negb (credential_present environment) then fail_with "MISSING_API_KEY"
  else
    target ← try_except (_ ← new_evaluation_target; mret true)
               (fun e => if is_os_error e then _ ← print_line (FAIL "EVALUATION_TARGET_UNWRITABLE"); mret false
                         else raise e);
    if negb target then mret 1
    else
      outcome ← except_base (records ← run_evaluation budgets; mret (Some records))
        (fun e => _ ← print_line (FAIL (refusal_code e)); _ ← print_line RECORDS_SO_FAR; mret None);
      match outcome with
      | None => mret 1
      | Some records => conclude records
      end.
End batch.
