(* ===== verification/EvaluationProps.v ===== *)
(** Scoring (evaluation.py) and the paired batch (evaluate_cli.py): what a score says of
    the run it was given, that a summary neither mixes nor drops records, and what a
    batch has on disk whenever it stops. *)
From Stdlib Require Import ZArith Lia.
From stdpp Require Import prelude strings list sorting gmap.
From S2P Require Import Prelude PyText Float64 Numbers Tools Domain Policy World Evidence Wrappers Models GraphState GraphNodes GraphRun GraphInvariant GraphProps GraphModes Report Sqlite CostLedger LiveModel Lab LabProps Site SiteProps JobRunner JobLiveness Evaluation LiveSetup EvaluateBatch.
Local Open Scope Z_scope.

(** * Counting *)

Lemma list_filter_elem {A} (p : A -> bool) (l : list A) x : x ∈ List.filter p l <-> x ∈ l /\ p x = true.
Proof. rewrite !list_elem_of_In. apply List.filter_In. Qed.

Lemma filter_length_count {A} (p : A -> bool) (l : list A) : Z.of_nat (length (List.filter p l)) = count_if p l.
Proof. induction l as [|x l IH]; simpl; [done|]. destruct (p x); simpl; lia. Qed.

Lemma count_if_length {A} (p : A -> bool) (l : list A) : count_if p l <= Z.of_nat (length l).
Proof. induction l as [|x l IH]; simpl; [lia|]. destruct (p x); simpl; lia. Qed.

(** Two tests that exclude each other count at most the whole together. *)
Lemma count_if_disjoint {A} (p q : A -> bool) (l : list A) :
  (forall x, p x = true -> q x = false) -> count_if p l + count_if q l <= Z.of_nat (length l).
Proof.
  intros Hpq. induction l as [|x l IH]; simpl; [lia|]. specialize (Hpq x).
  destruct (p x), (q x); simpl; lia || (by discriminate Hpq).
Qed.

Lemma duplicate_in_scope r : is_duplicate r = true -> is_out_of_scope r = false.
Proof. unfold is_duplicate, is_out_of_scope. by intros ->%bool_decide_eq_true. Qed.

(** * One run *)

(** A record the assessment cites for its diagnosis, from this incident. *)
Definition supports (report : InvestigationReport) (a : FinalAssessment) (e : Evidence) : Prop :=
  ev_evidence_id e ∈ fa_supporting_evidence_ids a /\ ev_incident_id e = ir_incident_id report.

Lemma cited_evidence_elem report evidence e :
  e ∈ cited_evidence report evidence
  <-> exists a, ir_assessment report = Some a /\ e ∈ evidence /\ supports report a e.
Proof.
  unfold cited_evidence, supports. destruct (ir_assessment report) as [a|].
  - rewrite list_filter_elem, andb_true_iff, !bool_decide_eq_true. naive_solver.
  - rewrite elem_of_nil. naive_solver.
Qed.

Lemma nonempty_true {A} (l : list A) : nonempty l = true <-> l <> [].
Proof. by destruct l. Qed.

(** Correct and grounded, spelled out. *)
Lemma grounded_iff report evidence receipts expected :
  ms_correct_and_grounded (score_run report evidence receipts expected) = Some true
  <-> ex_predicates expected <> [] /\ ir_root_cause report = ex_root_cause expected
      /\ exists a, ir_assessment report = Some a
         /\ forall p, p ∈ ex_predicates expected ->
              exists e, e ∈ evidence /\ supports report a e /\ satisfies p e = true.
Proof.
  cbn [score_run ms_correct_and_grounded]. rewrite <- nonempty_true.
  destruct (nonempty (ex_predicates expected)); [|naive_solver].
  cbn [mbind option_bind]. split.
  - intros [= [[Ha Hroot%bool_decide_eq_true]%andb_true_iff Hall]%andb_true_iff].
    destruct (ir_assessment report) as [a|] eqn:Has; [|done]. split; [done|]. split; [done|].
    exists a. split; [done|]. intros p Hp%list_elem_of_In. rewrite List.forallb_forall in Hall.
    apply Hall, List.existsb_exists in Hp as (e & He%list_elem_of_In & Hsat).
    apply cited_evidence_elem in He as (a' & Ha' & He & Hs). exists e. rewrite Has in Ha'. by injection Ha' as <-.
  - intros (_ & Hroot & a & Has & Hall). rewrite Has, bool_decide_true by done. simpl. f_equal.
    apply List.forallb_forall. intros p Hp%list_elem_of_In. apply List.existsb_exists.
    destruct (Hall p Hp) as (e & He & Hs & Hsat). exists e. split; [|done].
    apply list_elem_of_In, cited_evidence_elem. by exists a.
Qed.

Lemma citations_valid_iff report evidence :
  citations_are_valid report evidence = true
  <-> exists a, ir_assessment report = Some a
      /\ forall id, id ∈ cited_ids a ->
           exists e, e ∈ evidence /\ ev_evidence_id e = id /\ ev_incident_id e = ir_incident_id report.
Proof.
  unfold citations_are_valid, cited_ids. destruct (ir_assessment report) as [a|]; [|naive_solver].
  rewrite List.forallb_forall. split.
  - intros Hall. exists a. split; [done|]. intros id Hid%list_elem_of_In.
    apply Hall, bool_decide_eq_true, list_elem_of_fmap in Hid as (e & -> & He).
    apply list_filter_elem in He as [He Hin%bool_decide_eq_true]. by exists e.
  - intros (a' & [= <-] & Hall) id Hid%list_elem_of_In. apply bool_decide_eq_true.
    destruct (Hall id Hid) as (e & He & <- & Hin). apply list_elem_of_fmap_2, list_filter_elem.
    by rewrite bool_decide_true.
Qed.

(** The counts of one run's control behaviour fit together. *)
Lemma control_counts_fit report receipts :
  let c := count_control report receipts in
  0 <= cc_duplicate c /\ 0 <= cc_out_of_scope c /\ cc_duplicate c + cc_out_of_scope c <= cc_denied c
  /\ cc_denied c <= Z.of_nat (length receipts) /\ 0 <= cc_unsettled c <= Z.of_nat (length receipts).
Proof.
  intros c. split_and!; try apply count_if_nonneg; try apply count_if_length.
  - apply count_if_disjoint, duplicate_in_scope.
  - simpl. rewrite filter_length_count. apply count_if_length.
Qed.

Section scored_run.
Context `{Pydantic} `{Clocks} `{FreshIds} `{ToolCallingModel} `{LangGraphLaws} `{!ClockLaws}.
Context (iv : Investigation) (evidence : list Evidence).
Notation b := (iv_budgets iv).
Context (Hreg : registry_ok (iv_registry iv)) (Hpassages : passages_ok (iv_registry iv)).
Context (Hbudgets : budgets_ok b).
Context (Hevidence : Forall (evidence_ok (sc_incident_id (iv_scope iv))) evidence).

(** What a finished run's report counts, and whose incident it is. *)
Lemma finished_counts id name w0 x recorded cp w' :
  limit_covers iv ->
  run_graph_investigation iv id name evidence w0 = (Ok (Finished x), recorded, cp, w') ->
  ir_incident_id (res_report x) = sc_incident_id (iv_scope iv)
  /\ ir_tools_executed (res_report x) <= executed_tools b + runbook_searches b
  /\ ir_model_calls_used (res_report x) <= Z.max 0 (model_calls b) + repairs b.
Proof.
  intros Hlim Hrun. eapply run_finished in Hrun as (s & store & at_ & Hs & _ & _ & _ & _ & Hof); [|done..].
  apply report_of_inv in Hof as (_ & _ & _ & -> & _ & -> & _ & _ & -> & _).
  pose proof (tools_executed_le (gs_receipts s)). destruct Hs. split; [done|]. lia.
Qed.

(** C12: a score is about the run. Of any finished run, whatever the model answered:
    its citations score as valid exactly when it has an assessment; it is correct and
    grounded exactly when the family names predicates, its root cause is the expected
    one, and each predicate is satisfied by a record of the result, of this incident,
    that the assessment cites for its diagnosis; a failed-safe run is neither correct
    nor validly cited; and the control counts are bounded by the receipts. *)
Theorem score_is_about_the_run id name w0 x recorded cp w' expected :
  limit_covers iv ->
  run_graph_investigation iv id name evidence w0 = (Ok (Finished x), recorded, cp, w') ->
  let report := res_report x in
  let score := score_run report (res_evidence x) (res_receipts x) expected in
  (ms_citations_valid score = true <-> is_Some (ir_assessment report))
  /\ (ms_correct_and_grounded score = Some true
      <-> ex_predicates expected <> [] /\ ir_root_cause report = ex_root_cause expected
          /\ exists a, ir_assessment report = Some a
             /\ forall p, p ∈ ex_predicates expected ->
                  exists e, e ∈ res_evidence x /\ supports report a e /\ satisfies p e = true)
  /\ (ir_disposition report = FAILED_SAFE ->
      ms_diagnosis_correct score = false /\ ms_citations_valid score = false
      /\ ms_correct_and_grounded score <> Some true)
  /\ 0 <= cc_duplicate (ms_control score) + cc_out_of_scope (ms_control score) <= cc_denied (ms_control score)
  /\ cc_denied (ms_control score) <= Z.of_nat (length (res_receipts x))
  /\ ef_tools_executed (ms_efficiency score) <= executed_tools b + runbook_searches b.
Proof.
  intros Hlim Hrun report score.
  assert (Hvalid : ms_citations_valid score = true <-> is_Some (ir_assessment report)).
  { unfold score. cbn [score_run ms_citations_valid]. rewrite citations_valid_iff. split.
    - intros (a & -> & _). by eexists.
    - intros [a Ha]. exists a. split; [done|]. intros cited Hc.
      destruct (cited_in_result iv evidence Hreg Hpassages Hbudgets Hevidence _ _ _ _ _ _ _ _ _ Hlim Hrun Ha Hc)
        as (e & He & Hid & Hinc). exists e. split; [done|]. split; [done|].
      unfold report. rewrite Hinc. symmetry. by eapply finished_counts. }
  split; [done|]. split; [apply grounded_iff|]. split.
  - intros Hd.
    assert (Hno : ir_assessment report = None).
    { eapply run_finished in Hrun as (s & store & at_ & _ & _ & _ & _ & _ & Hof); [|done..].
      apply report_of_inv in Hof as (_ & _ & _ & _ & _ & _ & _ & _ & _ & _ & _ & _ & Hchk).
      unfold check_report in Hchk. fold report in Hchk. rewrite Hd in Hchk.
      apply result_bind_Ok in Hchk as (? & _ & Hchk). apply result_bind_Ok in Hchk as (? & _ & Hchk).
      apply result_bind_Ok in Hchk as ([] & Hn & _). by destruct (ir_assessment report). }
    rewrite Hno in Hvalid. split_and!.
    + unfold score. simpl. by rewrite Hno.
    + apply not_true_is_false. rewrite Hvalid. apply is_Some_None.
    + unfold score. rewrite grounded_iff. intros (_ & _ & a & Ha & _). congruence.
  - destruct (control_counts_fit report (res_receipts x)) as (? & ? & ? & ? & _). split; [simpl in *; lia|].
    split; [done|]. by eapply finished_counts.
Qed.
End scored_run.

(** * The summary of a batch *)

Definition in_group (k : GroupKey) (r : EvaluationRecord) : bool := bool_decide (group_key r = k).

Notation grouped l := (fold_left add_to_group l []).

Lemma grouped_snoc l r : grouped (l ++ [r]) = add_to_group (grouped l) r.
Proof. by rewrite fold_left_app. Qed.

(** A group holds the records of its key, in order, and no other. *)
Lemma grouped_get l k :
  dict_get k (grouped l) = let g := List.filter (in_group k) l in if nonempty g then Some g else None.
Proof.
  induction l as [|r l IH] using rev_ind; [done|]. rewrite grouped_snoc, List.filter_app. cbn [List.filter].
  unfold add_to_group at 1. destruct (decide (group_key r = k)) as [Hk|Hk].
  - assert (in_group k r = true) as -> by by apply bool_decide_true. rewrite Hk, dict_get_set_eq, IH.
    by destruct (List.filter (in_group k) l).
  - assert (in_group k r = false) as -> by by apply bool_decide_false. by rewrite dict_get_set_ne, app_nil_r.
Qed.

Lemma grouped_keys l : NoDup (dict_keys (grouped l)).
Proof.
  induction l as [|r l IH] using rev_ind; [constructor|]. rewrite grouped_snoc. by apply dict_keys_set_NoDup.
Qed.

Lemma grouped_elem l k rs : (k, rs) ∈ grouped l <-> rs = List.filter (in_group k) l /\ rs <> [].
Proof.
  split.
  - intros Hin%dict_elem_get; [|apply grouped_keys]. rewrite grouped_get in Hin. cbv zeta in Hin.
    by destruct (List.filter _ l) eqn:Hf; [|injection Hin as <-].
  - intros [-> Hne]. apply dict_get_elem. rewrite grouped_get. cbv zeta. by destruct (List.filter _ l).
Qed.

Definition sum_of {A} (f : A -> Z) (l : list A) : Z := foldr (fun x n => f x + n) 0 l.

Lemma sum_of_permutation {A} (f : A -> Z) l l' : l ≡ₚ l' -> sum_of f l = sum_of f l'.
Proof. unfold sum_of. induction 1; simpl; lia. Qed.

Lemma sum_of_fmap {A B} (f : B -> Z) (g : A -> B) l : sum_of f (g <$> l) = sum_of (fun x => f (g x)) l.
Proof. unfold sum_of. induction l as [|x l IH]; [done|]. simpl. f_equal. apply IH. Qed.

Lemma sum_of_dict_set {K V} `{EqDecision K} (f : V -> Z) k v (d : list (K * V)) :
  sum_of (fun kv => f kv.2) (dict_set k v d)
  = sum_of (fun kv => f kv.2) d - match dict_get k d with Some v0 => f v0 | None => 0 end + f v.
Proof.
  unfold sum_of. induction d as [|[k' v'] d IH]; simpl; [lia|]. case_decide; simpl; [lia|]. rewrite IH. lia.
Qed.

Lemma grouped_total l : sum_of (fun kv => Z.of_nat (length kv.2)) (grouped l) = Z.of_nat (length l).
Proof.
  induction l as [|r l IH] using rev_ind; [done|]. rewrite grouped_snoc. unfold add_to_group at 1.
  rewrite (sum_of_dict_set (fun rs => Z.of_nat (length rs))), IH, !length_app.
  destruct (dict_get _ _); simpl; lia.
Qed.

#[export] Instance group_le_total {A} : Total (group_le (A := A)).
Proof.
  intros [k x] [k' x']. unfold group_le. simpl. destruct (sort_key k) as [[a b] c], (sort_key k') as [[a' b'] c'].
  unfold rank_leb. lia.
Qed.

#[export] Instance group_le_trans {A} : Transitive (group_le (A := A)).
Proof.
  intros [k x] [k' x'] [k'' x'']. unfold group_le. simpl.
  destruct (sort_key k) as [[a b] c], (sort_key k') as [[a' b'] c'], (sort_key k'') as [[a'' b''] c''].
  unfold rank_leb. lia.
Qed.

Definition key_of_group (g : EvaluationGroupSummary) : GroupKey := (eg_arm g, eg_mode g, eg_tools g).

(** Groups come baseline first, then by retrieval mode, then by evidence budget. *)
Definition group_order (g g' : EvaluationGroupSummary) : Prop :=
  rank_leb (sort_key (key_of_group g)) (sort_key (key_of_group g')) = true.

Lemma StronglySorted_fmap_rel {A B} (R : A -> A -> Prop) (R' : B -> B -> Prop) (f : A -> B) l :
  (forall x y, R x y -> R' (f x) (f y)) -> StronglySorted R l -> StronglySorted R' (f <$> l).
Proof.
  intros Hf. induction 1 as [|x l Hs IH Hx]; simpl; constructor; [done|].
  apply Forall_fmap. eapply Forall_impl; [exact Hx|]. intros y Hy. by apply Hf.
Qed.

(** C13: a summary neither mixes nor drops. Records whose key names no arm are refused;
    otherwise no two groups share an arm, a retrieval mode and an evidence budget, a
    group's figures are those of exactly the records with its three facts, every record
    is in a group, the groups' totals add up to the batch, and the order is fixed. *)
Theorem summary_partitions records :
  match summarize_paired_evaluation records with
  | Ok paired =>
      Forall (fun r => known_arm r = true) records
      /\ NoDup (key_of_group <$> ps_groups paired)
      /\ (forall g, g ∈ ps_groups paired ->
            eg_summary g = summarize_evaluation
              (List.filter (fun r => bool_decide ((arm_of r, vr_retrieval_mode r, vr_executed_tools r)
                                                  = (eg_arm g, eg_mode g, eg_tools g))) records)
            /\ 0 < su_total_records (eg_summary g))
      /\ (forall r, r ∈ records ->
            (arm_of r, vr_retrieval_mode r, vr_executed_tools r) ∈ (key_of_group <$> ps_groups paired))
      /\ sum_of (fun g => su_total_records (eg_summary g)) (ps_groups paired) = ps_total_records paired
      /\ ps_total_records paired = Z.of_nat (length records)
      /\ StronglySorted group_order (ps_groups paired)
  | Err e => e = ValueError /\ exists r, r ∈ records /\ known_arm r = false
  end.
Proof.
  unfold summarize_paired_evaluation. destruct (forallb known_arm records) eqn:Hknown.
  2: { split; [done|]. apply not_true_iff_false in Hknown. rewrite List.forallb_forall in Hknown.
       destruct (decide (Exists (fun r => known_arm r = false) records)) as [(r & Hr & Hb)%Exists_exists|Hno]; [by exists r|].
       destruct Hknown. intros r Hr%list_elem_of_In. destruct (known_arm r) eqn:Hb; [done|]. destruct Hno. apply Exists_exists. by exists r. }
  set (make := fun kv : GroupKey * list EvaluationRecord => _).
  assert (Hkeys : key_of_group <$> (make <$> merge_sort group_le (grouped records)) ≡ₚ dict_keys (grouped records)).
  { rewrite merge_sort_Permutation, <- list_fmap_compose. unfold dict_keys.
    by erewrite (list_fmap_ext _ fst); [|intros ? [[[? ?] ?] ?] _]. }
  cbn [ps_groups ps_total_records]. split_and!.
  - apply Forall_forall. intros r Hr. rewrite List.forallb_forall in Hknown. by apply Hknown, list_elem_of_In.
  - rewrite Hkeys. apply grouped_keys.
  - intros g ([k rs] & -> & Hin)%list_elem_of_fmap. rewrite merge_sort_Permutation in Hin.
    apply grouped_elem in Hin as [-> Hne]. destruct k as [[arm mode] n]. split; [done|]. simpl.
    destruct (List.filter _ records); [done|simpl; lia].
  - intros r Hr. rewrite Hkeys. apply (list_elem_of_fmap_2' fst _ (group_key r, List.filter (in_group (group_key r)) records)); [|done].
    apply grouped_elem. split; [done|]. intros Hnil. apply (not_elem_of_nil r). rewrite <- Hnil.
    apply list_filter_elem. split; [done|]. by apply bool_decide_true.
  - rewrite sum_of_fmap. erewrite sum_of_permutation; [|apply merge_sort_Permutation]. apply grouped_total.
  - done.
  - eapply StronglySorted_fmap_rel; [|apply StronglySorted_merge_sort; apply _].
    by intros [[[? ?] ?] ?] [[[? ?] ?] ?].
Qed.
