(* ===== verification/BatchProps.v ===== *)
(** The paired batch (evaluate_cli.py): what is on disk whenever it stops, what the
    records of a batch that ran to its end are, and that a batch its ceiling cannot
    carry starts nothing. *)
From Stdlib Require Import ZArith Lia.
From stdpp Require Import prelude strings list sorting gmap.
From S2P Require Import Prelude PyText Float64 Numbers Tools Domain Policy World Evidence Wrappers Models GraphState GraphNodes GraphRun GraphInvariant GraphProps GraphModes Report Sqlite CostLedger LiveModel Lab LabProps Site SiteProps JobRunner JobLiveness Evaluation LiveSetup EvaluateBatch EvaluationProps.
Local Open Scope Z_scope.

(** * Run keys *)

Lemma slash_in_tail a t : py_in "/" (a +:+ "/" +:+ t) = true.
Proof.
  induction a as [|c a IH]; [done|]. rewrite string_app_cons. cbn [py_in]. by rewrite IH, orb_true_r.
Qed.

(** The last segment is read back, whatever stands before it. *)
Lemma after_last_slash_app a m : py_in "/" m = false -> after_last_slash (a +:+ "/" +:+ m) = m.
Proof.
  intros Hm. induction a as [|c a IH].
  - change (after_last_slash (String (char_of 47) m) = m). cbn [after_last_slash]. by rewrite Hm.
  - rewrite string_app_cons. cbn [after_last_slash]. by rewrite slash_in_tail.
Qed.

Lemma run_key_mode id model b baseline : after_last_slash (run_key_of id model b baseline) = mode_of baseline.
Proof.
  unfold run_key_of. rewrite <- !string_app_assoc.
  rewrite (string_app_assoc _ "/" (mode_of baseline)). apply after_last_slash_app. by destruct baseline.
Qed.

(** * What a batch leaves alone *)

Definition kept (s : Batch) := (bt_target s, bt_scored s).

Definition on_kept (P : Batch -> Prop) : Prop := forall s s', kept s' = kept s -> P s -> P s'.

Lemma leaves_triple {A} P (m : BatchM A) : on_kept P -> leaves kept m -> triple P m (fun _ => P) (fun _ => P).
Proof. intros HP Hm s Hs. specialize (Hm s). destruct (m s) as [[a|e] s']; by eapply HP. Qed.

(** What is on disk is the complete records file of [l], and [l] is what was scored. *)
Definition on_record (base l : list EvaluationRecord) (s : Batch) : Prop :=
  bt_target s !! RECORDS_FILE = Some (Whole (SRecords l)) /\ bt_scored s = base ++ l.

(** The file is complete, and at most the last scored record is not in it. *)
Definition behind (base : list EvaluationRecord) (s : Batch) : Prop :=
  exists l more, bt_target s !! RECORDS_FILE = Some (Whole (SRecords l))
    /\ bt_scored s = base ++ l ++ more /\ (length more <= 1)%nat.

Lemma on_record_kept base l : on_kept (on_record base l).
Proof. intros s s' [= Ht Hs] [? ?]. split; congruence. Qed.

Lemma behind_kept base : on_kept (behind base).
Proof. intros s s' [= Ht Hs] (l & more & ? & ? & ?). exists l, more. rewrite Ht, Hs. done. Qed.

Lemma on_record_behind base l s : on_record base l s -> behind base s.
Proof. intros [? ?]. exists l, []. rewrite app_nil_r. split_and!; [done..|simpl; lia]. Qed.

Lemma leaves_on_site {A} (m : SiteM A) : leaves kept (on_site m).
Proof. intros s. unfold on_site. by destruct (m _). Qed.

Lemma leaves_on_ledger {A} (m : ConnM A) : leaves kept (on_batch_ledger m).
Proof. intros s. unfold on_batch_ledger. by destruct (m _). Qed.

Lemma leaves_print l : leaves kept (print_line l).
Proof. done. Qed.

#[export] Hint Resolve leaves_on_site leaves_on_ledger leaves_print : leaves.

Section batch_props.
Context `{Pydantic} `{Clocks} `{FreshIds} `{ToolCallingModel} `{LangGraphLaws} `{!ClockLaws} `{Machine}.
Context `{Sqlite} `{Provider} `{EvaluationHost}.

Lemma leaves_close : leaves kept close_child.
Proof. apply leaves_on_site. Qed.
Hint Resolve leaves_close : leaves.

Lemma leaves_build incident b : leaves kept (build_claude_model_and_mcp_registry incident b).
Proof. unfold build_claude_model_and_mcp_registry. leaves. Qed.

Lemma leaves_scored_graph iv name evidence : leaves kept (scored_graph iv name evidence).
Proof. intros s. unfold scored_graph. by destruct (run_graph_investigation _ _ _ _ _) as [[[? ?] ?] ?]. Qed.
Hint Resolve leaves_build leaves_scored_graph : leaves.

Lemma leaves_score sn b baseline registry name : leaves kept (score_scenario sn b baseline registry name).
Proof. unfold score_scenario. leaves. Qed.
Hint Resolve leaves_score : leaves.

Lemma leaves_load family seed id corpus git ceiling : leaves kept (load_scenario family seed id corpus git ceiling).
Proof. unfold load_scenario. leaves. Qed.

Lemma leaves_preflight b c : leaves kept (check_preflight_cost b c).
Proof. unfold check_preflight_cost. leaves. Qed.

(** * Writing the records file *)

Lemma target_triple P f Q :
  on_kept P ->
  (forall s, P s -> match f (bt_target s) with Ok files => Q (s <| bt_target := files |>) | Err _ => True end) ->
  triple P (target_step f) (fun _ => Q) (fun _ => P).
Proof.
  intros HP Hf. unfold target_step. eapply triple_bind; [apply leaves_triple; [done|apply leaves_on_site]|].
  intros [] s Hs. unfold mbind, ST_bind, get_state, lift_result, modify. specialize (Hf s Hs).
  by destruct (f (bt_target s)).
Qed.

(** A temporary name is none of the names written. *)
Lemma temporary_name name hex : name +:+ ".tmp-" +:+ hex <> name.
Proof.
  intros Heq. apply (f_equal String.length) in Heq. rewrite !string_length_app in Heq. simpl in Heq. lia.
Qed.

(** Nothing of a name is seen before all of it is there. *)
Lemma write_saved_triple name content (old : option (Text Saved)) sc :
  triple (fun s => bt_target s !! name = old /\ bt_scored s = sc) (write_saved name content)
    (fun _ s => bt_target s !! name = Some (Whole content) /\ bt_scored s = sc)
    (fun _ s => bt_target s !! name = old /\ bt_scored s = sc).
Proof.
  set (P := fun s : Batch => bt_target s !! name = old /\ bt_scored s = sc).
  assert (HP : on_kept P) by (intros s s' [= Ht Hs] [? ?]; split; congruence).
  unfold write_saved. eapply triple_bind; [apply leaves_triple; [exact HP|apply leaves_on_site]|].
  intros hex. cbv zeta beta. pose proof (temporary_name name hex) as Htmp. set (tmp := name +:+ _) in *.
  apply (triple_try P _ _ _ (fun _ => P)).
  - eapply triple_bind; [apply (target_triple P _ P); [done|]|]. { intros s [Ho Hs]. split; [|done]. simpl. by rewrite lookup_insert_ne. }
    intros []. eapply triple_bind with (Q1 := fun _ s => P s /\ bt_target s !! tmp = Some (Whole content)).
    + apply target_triple; [done|]. intros s [Ho Hs]. split; [split; [|done]|]; simpl; [by rewrite lookup_insert_ne|apply lookup_insert_eq].
    + intros []. eapply triple_conseq; [eapply (target_triple (fun s => P s /\ bt_target s !! tmp = Some (Whole content)))
        with (Q := fun s => bt_target s !! name = Some (Whole content) /\ bt_scored s = sc)|done|done|by intros e s []].
      * intros s s' [= Ht Hs] [[? ?] ?]. split; [split|]; congruence.
      * intros s [[Ho Hs] Hw]. rewrite Hw. simpl. split; [apply lookup_insert_eq|done].
  - intros e. destruct (is_killed e); [by apply triple_raise|].
    eapply triple_bind; [apply (target_triple P _ P); [done|]|].
    { intros s [Ho Hs]. split; [|done]. simpl. by rewrite lookup_delete_ne. }
    intros []. by apply triple_raise.
Qed.

(** * One arm *)

(** A record of one arm of [sn] at budgets [b]: the arm is in its key, it is about the
    scenario's incident, with its ground truth and its fixture, by the model the
    environment names; the arm kept the budgets, and the baseline ran no check. *)
Definition arm_fits (sn : Scenario) (b : Budgets) (baseline : bool) (r : EvaluationRecord) : Prop :=
  arm_of r = mode_of baseline
  /\ vr_incident_id r = sc_incident_id (si_scope (sn_incident sn))
  /\ vr_expected r = sn_expected sn /\ vr_fixture_sha256 r = sn_fixture sn /\ vr_seed_name r = sn_seed sn
  /\ (exists p, resolve_live_model_pricing environment = Ok p /\ vr_model_name r = pc_model_name p)
  /\ vr_executed_tools r = executed_tools b /\ vr_model_calls_budget r = model_calls b
  /\ ef_tools_executed (ms_efficiency (vr_scores r)) <= executed_tools b + runbook_searches b
  /\ ef_model_calls (ms_efficiency (vr_scores r)) <= Z.max 0 (model_calls b) + repairs b
  /\ (baseline = true -> ef_tools_executed (ms_efficiency (vr_scores r)) = 0
      /\ cc_denied (ms_control (vr_scores r)) = 0 /\ cc_unsettled (ms_control (vr_scores r)) = 0).

(** What an arm needs of the scenario and of the wiring. *)
Definition scenario_ok (sn : Scenario) : Prop :=
  Forall (evidence_ok (sc_incident_id (si_scope (sn_incident sn)))) (si_evidence (sn_incident sn)).

Definition wiring_ok : Prop :=
  forall incident b registry, mcp_registry incident b = Ok registry -> registry_ok registry /\ passages_ok registry.

Definition budgets_fit (b : Budgets) : Prop :=
  budgets_ok b /\ forall incident registry baseline, limit_covers (scored_investigation incident registry b baseline).

Lemma build_Ok incident b s registry model s' :
  build_claude_model_and_mcp_registry incident b s = (Ok (registry, model), s') ->
  mcp_registry incident b = Ok registry /\ resolve_live_model_pricing environment = Ok (lm_pricing model).
Proof.
  unfold build_claude_model_and_mcp_registry. destruct (negb _); [done|].
  intros (? & s1 & _ & Hrun)%ST_bind_Ok. unfold except_base, try_except in Hrun.
  destruct ((_ : BatchM _) s1) as [[a|e] s2] eqn:Hbody in Hrun.
  2: { destruct (is_killed e); [done|]. apply ST_bind_Ok in Hrun as (? & ? & _ & [=]). }
  injection Hrun as -> ->. apply ST_bind_Ok in Hbody as (r & s3 & [Hr ->]%lift_result_Ok & Hbody).
  apply ST_bind_Ok in Hbody as (? & s4 & _ & Hbody). apply ST_bind_Ok in Hbody as (p & s5 & [Hp ->]%lift_result_Ok & Hbody).
  apply ST_bind_Ok in Hbody as (c & s6 & _ & [= <- <- _]). done.
Qed.

Lemma score_Ok sn b baseline registry name s r s' :
  scenario_ok sn -> budgets_fit b -> registry_ok registry -> passages_ok registry ->
  (exists p, resolve_live_model_pricing environment = Ok p /\ name = pc_model_name p) ->
  score_scenario sn b baseline registry name s = (Ok r, s') -> arm_fits sn b baseline r.
Proof.
  intros Hsn [Hb Hlim] Hreg Hps Hname. unfold score_scenario. set (iv := scored_investigation _ _ _ _).
  intros (outcome & s1 & Hinv & Hrun)%ST_bind_Ok. unfold scored_graph in Hinv.
  destruct (run_graph_investigation iv None name (si_evidence (sn_incident sn)) _) as [[[o recorded] cp] w] eqn:Hgraph.
  injection Hinv as Ho <-. apply result_bind_Ok in Ho as (o' & -> & [= <-]). simpl in Hrun.
  destruct o' as [x|x]; [|done].
  apply ST_bind_Ok in Hrun as (run_id & s2 & _ & Hrun). apply ST_bind_Ok in Hrun as (? & s3 & _ & Hrun).
  apply ST_bind_Ok in Hrun as ([[reserved_usd actual_usd] settled] & s4 & _ & Hrun).
  apply ST_bind_Ok in Hrun as (pricing & s5 & _ & [= <- _]).
  eapply finished_counts in Hgraph as Hcounts; [|done..|apply Hlim]. destruct Hcounts as (Hid & Ht & Hc).
  unfold arm_fits, arm_of. cbn. rewrite run_key_mode. split_and!; try done.
  intros ->. eapply baseline_runs_no_check in Hgraph as (_ & _ & Hrc & H0t); [|done..|apply Hlim|done].
  by rewrite Hrc.
Qed.

Lemma run_one_triple sn b baseline base l :
  scenario_ok sn -> budgets_fit b -> wiring_ok ->
  triple (on_record base l) (run_one sn b baseline)
    (fun r s => bt_target s !! RECORDS_FILE = Some (Whole (SRecords l)) /\ bt_scored s = base ++ l ++ [r]
                /\ arm_fits sn b baseline r)
    (fun _ => on_record base l).
Proof.
  intros Hsn Hb Hw. unfold run_one. pose proof (on_record_kept base l) as Hk.
  eapply triple_bind with (Q1 := fun wiring s => on_record base l s
    /\ mcp_registry (sn_incident sn) b = Ok wiring.1 /\ resolve_live_model_pricing environment = Ok (lm_pricing wiring.2)).
  { intros s Hs. pose proof (leaves_triple _ _ Hk (leaves_build (sn_incident sn) b) s Hs) as Hl.
    destruct (build_claude_model_and_mcp_registry _ _ s) as [[[registry model]|e] s1] eqn:Hbuild; [|done].
    apply build_Ok in Hbuild. done. }
  intros [registry model]. cbn [fst snd].
  eapply triple_bind with (Q1 := fun r s => on_record base l s /\ arm_fits sn b baseline r).
  { intros s (Hs & Hr & Hp). destruct (Hw _ _ _ Hr) as [Hreg Hps].
    assert (Hleaves : leaves kept (finally_do (score_scenario sn b baseline registry (pc_model_name (lm_pricing model))) close_child)).
    { apply leaves_finally; [apply leaves_score|apply leaves_close]. }
    pose proof (leaves_triple _ _ Hk Hleaves s Hs) as Hl. unfold finally_do in *.
    destruct (score_scenario _ _ _ _ _ s) as [[r|e] s1] eqn:Hscore.
    - apply score_Ok in Hscore; [|done..|by eexists].
      destruct ((_ ← close_child; mret r) s1) as [[r'|e] s2] eqn:Hc; [|done].
      apply ST_bind_Ok in Hc as (? & ? & _ & [= <- _]). done.
    - destruct (is_killed e); [done|]. destruct ((_ ← close_child; raise e) s1) as [[r'|e'] s2] eqn:Hc; [|done].
      apply ST_bind_Ok in Hc as (? & ? & _ & [=]). }
  intros r s [[Hf Hsc] Hfit]. simpl. split; [done|]. by rewrite Hsc, app_assoc.
Qed.

(** * An incident, both arms *)

(** The batch goes on after this record. *)
Definition continues (r : EvaluationRecord) : Prop :=
  forall reason, vr_failure_reason r = Some reason -> reason ∉ INFRASTRUCTURE_ABORT_REASONS.

Lemma run_arms_triple sn b base arms l :
  scenario_ok sn -> budgets_fit b -> wiring_ok ->
  triple (on_record base l) (run_arms sn b arms l)
    (fun l' s => on_record base l' s /\ exists new, l' = l ++ new
       /\ Forall2 (fun arm r => arm_fits sn b arm r /\ continues r) arms new)
    (fun _ => behind base).
Proof.
  intros Hsn Hb Hw. revert l. induction arms as [|arm arms IH]; intros l; cbn [run_arms].
  { apply triple_ret. intros s Hs. split; [done|]. exists []. by rewrite app_nil_r. }
  eapply triple_bind.
  { eapply triple_conseq; [by apply run_one_triple|done| |intros e s; apply on_record_behind]. intros r s Hs. exact Hs. }
  intros r. cbv zeta beta. intros s (Hf & Hsc & Hfit).
  pose proof (write_saved_triple RECORDS_FILE (SRecords (l ++ [r])) _ _ s (conj Hf Hsc)) as Hwrite.
  unfold mbind, ST_bind. destruct (write_saved _ _ s) as [[[]|e] s1]; destruct Hwrite as [Hf1 Hs1].
  2: { exists l, [r]. by split_and!. }
  assert (Hrec : on_record base (l ++ [r]) s1) by by split.
  assert (Hgo : continues r -> match run_arms sn b arms (l ++ [r]) s1 with
    | (Ok l', s') => on_record base l' s' /\ exists new, l' = l ++ new
        /\ Forall2 (fun arm r => arm_fits sn b arm r /\ continues r) (arm :: arms) new
    | (Err _, s') => behind base s' end).
  { intros Hgo. specialize (IH (l ++ [r]) s1 Hrec). destruct (run_arms _ _ _ _ _) as [[l'|e] s2]; [|done].
    destruct IH as [? (new & -> & Hall)]. split; [done|]. exists (r :: new). rewrite <- app_assoc. split; [done|].
    by constructor. }
  unfold continues in Hgo. destruct (vr_failure_reason r) as [reason|]; [case_decide as Hin|].
  - by eapply on_record_behind.
  - apply Hgo. by intros ? [= <-].
  - by apply Hgo.
Qed.

Lemma load_triple P family seed id corpus git ceiling :
  on_kept P ->
  triple P (load_scenario family seed id corpus git ceiling)
    (fun sn s => P s /\ scenario_ok sn /\ sn_seed sn = seed
       /\ exists bytes, scenario_bytes family = Ok bytes /\ sn_fixture sn = sha256_hex bytes)
    (fun _ => P).
Proof.
  intros HP s Hs. pose proof (leaves_triple _ _ HP (leaves_load family seed id corpus git ceiling) s Hs) as Hl.
  destruct (load_scenario _ _ _ _ _ _ s) as [[sn|e] s'] eqn:Hrun; [|done]. split; [done|].
  unfold load_scenario in Hrun. apply ST_bind_Ok in Hrun as (incident & s1 & Hinc & Hrun).
  apply ST_bind_Ok in Hrun as (expected & s2 & _ & Hrun). apply ST_bind_Ok in Hrun as (bytes & s3 & [Hb _]%lift_result_Ok & [= <- _]).
  split; [|split; [done|by exists bytes]]. unfold scenario_ok. simpl.
  unfold on_site, site_step in Hinc. destruct (machine_fault _); [done|].
  destruct (lb_runs _ !! id ≫= rn_incident) as [[incident0|]|]; [|done..]. injection Hinc as Hv _.
  assert (incident = incident0) as <-.
  { unfold validate_incident in Hv. do 2 apply result_bind_Ok in Hv as (? & _ & Hv). apply result_bind_Ok in Hv as (? & _ & Hv).
    by apply check_identity_id in Hv. }
  by apply validate_incident_evidence.
Qed.

Lemma with_reset_triple {A} P (Q : A -> Batch -> Prop) (R : Batch -> Prop) family seed id (m : BatchM A) :
  (forall a, on_kept (Q a)) -> on_kept R -> (forall a s, Q a s -> R s) ->
  triple P m Q (fun _ => R) -> triple P (with_reset family seed id m) Q (fun _ => R).
Proof.
  intros HQ HR HQR Hm s Hs. specialize (Hm s Hs). unfold with_reset. destruct (m s) as [[a|e] s1].
  - pose proof (leaves_triple _ (on_site (lift_lab (reset_scenario id))) (HQ a) (leaves_on_site _) s1 Hm) as Hr.
    unfold mbind, ST_bind. destruct (on_site _ s1) as [[[]|e] s2]; [done|by eapply HQR].
  - destruct (is_killed e); [done|].
    assert (Hl : leaves kept (_ ← except_base (on_site (lift_lab (reset_scenario id)))
                                   (fun _ => print_line (RESET_FAILED family seed id)); raise (A := A) e)) by leaves.
    pose proof (leaves_triple _ _ HR Hl s1 Hm) as Hr.
    destruct ((_ : BatchM A) s1) as [[a|e'] s2] eqn:Hrun in Hr |- *; [|done].
    apply ST_bind_Ok in Hrun as (? & ? & _ & [=]).
Qed.

(** * The corpus *)

(** The two records of one incident of the corpus: the same scenario, one of each arm. *)
Definition pair_fits (b : Budgets) (fs : string * string) (p : EvaluationRecord * EvaluationRecord) : Prop :=
  exists sn bytes, scenario_bytes fs.1 = Ok bytes /\ sn_fixture sn = sha256_hex bytes /\ sn_seed sn = fs.2
    /\ arm_fits sn b true p.1 /\ continues p.1 /\ arm_fits sn b false p.2 /\ continues p.2.

Definition flat (pairs : list (EvaluationRecord * EvaluationRecord)) : list EvaluationRecord :=
  concat ((fun p => [p.1; p.2]) <$> pairs).

Lemma run_corpus_triple git ceiling corpus b base pairs l :
  budgets_fit b -> wiring_ok ->
  triple (on_record base l) (run_corpus git ceiling corpus b pairs l)
    (fun l' s => on_record base l' s /\ exists new, l' = l ++ flat new /\ Forall2 (pair_fits b) pairs new)
    (fun _ => behind base).
Proof.
  intros Hb Hw. revert l. induction pairs as [|[family seed] pairs IH]; intros l; cbn [run_corpus].
  { apply triple_ret. intros s Hs. split; [done|]. exists []. by rewrite app_nil_r. }
  eapply triple_bind.
  { eapply triple_conseq; [apply (leaves_triple _ _ (on_record_kept base l)), leaves_on_site|done|intros ? s Hs; exact Hs|].
    intros e s. apply on_record_behind. }
  intros id. cbv beta.
  eapply triple_bind with (Q1 := fun l' s => on_record base l' s /\ exists p, l' = l ++ [p.1; p.2] /\ pair_fits b (family, seed) p).
  - apply with_reset_triple.
    + intros a s s' Heq [? ?]. split; [by eapply on_record_kept|done].
    + apply behind_kept.
    + intros a s [Hs _]. by eapply on_record_behind.
    + eapply triple_bind.
      { eapply triple_conseq; [apply (load_triple _ family seed id corpus git ceiling), (on_record_kept base l)|done| |].
        - intros sn s Hs. exact Hs.
        - intros e s. apply on_record_behind. }
      intros sn s (Hs & Hsn & Hseed & bytes & Hbytes & Hfix).
      pose proof (run_arms_triple sn b base [true; false] l Hsn Hb Hw s Hs) as Harms.
      destruct (run_arms _ _ _ _ s) as [[l'|e] s1]; [|done]. destruct Harms as [? (new & -> & Hall)].
      split; [done|]. inversion Hall as [|? rb ? new' [? ?] Hall']; subst.
      inversion Hall' as [|? rt ? new'' [? ?] Hall'']; subst. inversion Hall''; subst.
      exists (rb, rt). split; [done|]. by exists sn, bytes.
  - intros l'. intros s [Hs (p & -> & Hp)]. specialize (IH (l ++ [p.1; p.2]) s Hs).
    destruct (run_corpus _ _ _ _ _ _ s) as [[l'|e] s1]; [|done]. destruct IH as [? (new & -> & Hall)].
    split; [done|]. exists (p :: new). split; [|by constructor]. unfold flat. simpl. by rewrite <- app_assoc.
Qed.

Lemma run_evaluation_triple b base :
  budgets_fit b -> wiring_ok ->
  triple (on_record base []) (run_evaluation b)
    (fun l s => on_record base l s /\ exists pairs, l = flat pairs /\ Forall2 (pair_fits b) corpus_pairs pairs)
    (fun _ => behind base).
Proof.
  intros Hb Hw. unfold run_evaluation. pose proof (on_record_kept base []) as Hk.
  assert (Hout : forall s, on_record base [] s -> behind base s) by (intros s; apply on_record_behind).
  destruct (negb _); [by apply triple_raise|].
  do 3 (eapply triple_bind; [apply (triple_lift _ _ (fun _ => on_record base []) _); by auto|]; intros ?; cbv beta).
  eapply triple_bind.
  { eapply triple_conseq; [apply (leaves_triple _ _ Hk), leaves_preflight|done|intros ? s Hs; exact Hs|]. intros e s. apply Hout. }
  intros []. apply (run_corpus_triple _ _ _ _ _ _ [] Hb Hw).
Qed.

Lemma curve_fits n : accepted_budget n = true -> budgets_fit (resolve_budgets n).
Proof.
  unfold accepted_budget, EVIDENCE_BUDGET_CURVE. intros Hn%bool_decide_eq_true.
  repeat setoid_rewrite elem_of_cons in Hn. rewrite elem_of_nil in Hn.
  split; [|unfold limit_covers, superstep_bound, GRAPH_RECURSION_LIMIT; simpl; intros; lia].
  split; [done|]. simpl. lia.
Qed.

(** C11: paid results survive. Whenever a batch stops, however it stops (a refusal, an
    abort, a crash of any step, the end of the process), its records file is complete
    and holds every record that was scored, but for at most the last; when the batch
    runs to its end it holds them all. *)
Theorem scored_records_survive n s r s' :
  accepted_budget n = true -> wiring_ok ->
  bt_target s !! RECORDS_FILE = Some (Whole (SRecords [])) ->
  run_evaluation (resolve_budgets n) s = (r, s') ->
  behind (bt_scored s) s' /\ (forall records, r = Ok records -> on_record (bt_scored s) records s').
Proof.
  intros Hn%curve_fits Hw Hf Hrun.
  pose proof (run_evaluation_triple _ (bt_scored s) Hn Hw s) as Ht. rewrite Hrun in Ht.
  assert (Hs : on_record (bt_scored s) [] s) by (split; [done|by rewrite app_nil_r]). specialize (Ht Hs).
  destruct r as [records|e].
  - destruct Ht as [Ht _]. split; [by eapply on_record_behind|]. by intros ? [= <-].
  - split; [done|]. by intros ? [=].
Qed.

(** * The command *)

(** What the machine raises in ordinary operation. *)
Definition os_or_killed (e : exn) : Prop := is_os_error e = true \/ is_killed e = true.

Definition ordinary_faults : Prop := forall k e, machine_fault k = Some e -> os_or_killed e.

Definition only_raises {A} (E : exn -> Prop) (m : BatchM A) : Prop :=
  triple (fun _ => True) m (fun _ _ => True) (fun e _ => E e).

Lemma only_raises_bind {A B} E (m : BatchM A) (k : A -> BatchM B) :
  only_raises E m -> (forall a, only_raises E (k a)) -> only_raises E (m ≫= k).
Proof. intros Hm Hk. by eapply triple_bind. Qed.

Lemma target_raises f :
  ordinary_faults -> (forall files e, f files = Err e -> os_or_killed e) -> only_raises os_or_killed (target_step f).
Proof.
  intros Hord Hf s _. unfold target_step, on_site, site_step, mbind, ST_bind, get_state, lift_result, modify.
  destruct (machine_fault _) as [e|] eqn:Hfault; [by eapply Hord|]. simpl.
  destruct (f _) as [files|e] eqn:Hff; [done|by eapply Hf].
Qed.

Lemma write_saved_raises name content : ordinary_faults -> only_raises os_or_killed (write_saved name content).
Proof.
  intros Hord. apply only_raises_bind; [by intros s|]. intros hex. cbv zeta.
  eapply triple_try with (R1 := fun e _ => os_or_killed e).
  - apply only_raises_bind; [by apply target_raises|]. intros []. apply only_raises_bind; [by apply target_raises|].
    intros []. apply target_raises; [done|]. intros files e. destruct (files !! _); [done|]. intros [= <-]. by left.
  - intros e s He. destruct (is_killed e); [done|]. unfold mbind, ST_bind.
    pose proof (target_raises (fun files => Ok (delete (name +:+ ".tmp-" +:+ hex) files)) Hord ltac:(done) s I) as Hd.
    by destruct (target_step _ s) as [[[]|e'] s1].
Qed.

Lemma new_target_triple sc :
  triple (fun s => bt_scored s = sc) new_evaluation_target (fun _ => on_record sc []) (fun _ _ => True).
Proof.
  unfold new_evaluation_target.
  set (P := fun s : Batch => bt_scored s = sc).
  assert (HP : on_kept P) by (intros s s' [= Ht Hs] ?; unfold P in *; congruence).
  eapply triple_bind; [eapply triple_conseq; [apply (leaves_triple P _ HP), leaves_on_site|done|intros ? s Hs; exact Hs|done]|].
  intros hex. eapply triple_bind; [eapply triple_conseq; [apply (target_triple P _ P HP); by intros|done|intros ? s Hs; exact Hs|done]|].
  intros [] s Hs. pose proof (write_saved_triple RECORDS_FILE (SRecords []) _ _ s (conj eq_refl Hs)) as Hw.
  destruct (write_saved _ _ s) as [[[]|e] s1]; [|done]. destruct Hw as [? Hsc]. split; [done|]. by rewrite app_nil_r.
Qed.

Lemma new_target_raises : ordinary_faults -> only_raises os_or_killed new_evaluation_target.
Proof.
  intros Hord. apply only_raises_bind; [by intros s|]. intros hex. apply only_raises_bind; [by apply target_raises|].
  intros []. by apply write_saved_raises.
Qed.

(** The summary is written beside the records. *)
Definition records_view (s : Batch) := bt_target s !! RECORDS_FILE.

Lemma summary_leaves_records summary : leaves records_view (write_saved "summary.json" (SSummary summary)).
Proof.
  assert (Hstep : forall f, (forall files files', f files = Ok files' -> files' !! RECORDS_FILE = files !! RECORDS_FILE) ->
    leaves records_view (target_step f)).
  { intros f Hf s. unfold target_step, on_site, mbind, ST_bind, get_state, lift_result, modify.
    destruct (site_step _ _) as [[[]|e] site]; [|done]. simpl. destruct (f _) as [files|e] eqn:Hff; [|done]. simpl. by apply Hf in Hff. }
  unfold write_saved. apply leaves_bind; [intros s; unfold on_site; by destruct (site_id _)|]. intros hex. cbv zeta.
  apply leaves_except; [apply leaves_bind; [apply Hstep|intros []; apply leaves_bind; [apply Hstep|intros []; apply Hstep]]
                       |intros e; apply leaves_bind; [apply Hstep|intros []; apply leaves_raise]].
  - intros files ? [= <-]. by rewrite lookup_insert_ne.
  - intros files ? [= <-]. by rewrite lookup_insert_ne.
  - intros files files'. destruct (files !! _); [|done]. intros [= <-]. by rewrite lookup_insert_ne, lookup_delete_ne.
  - intros files ? [= <-]. by rewrite lookup_delete_ne.
Qed.

(** A batch that ran to its end, on disk with its summary. *)
Definition complete (n : Z) (s : Batch) : Prop :=
  exists pairs summary, Forall2 (pair_fits (resolve_budgets n)) corpus_pairs pairs
    /\ summarize_paired_evaluation (flat pairs) = Ok summary
    /\ bt_target s !! RECORDS_FILE = Some (Whole (SRecords (flat pairs)))
    /\ bt_target s !! "summary.json" = Some (Whole (SSummary summary)).

(** The reason is on the screen. *)
Definition told (s : Batch) : Prop := exists code, FAIL code ∈ bt_printed s.

Lemma pair_arms b fs p : pair_fits b fs p -> known_arm p.1 = true /\ known_arm p.2 = true.
Proof.
  intros (sn & bytes & _ & _ & _ & (Ha & _) & _ & (Hb & _) & _). unfold known_arm. rewrite Ha, Hb. by vm_compute.
Qed.

Lemma pairs_known b corpus pairs : Forall2 (pair_fits b) corpus pairs -> forallb known_arm (flat pairs) = true.
Proof.
  induction 1 as [|fs p corpus pairs Hp _ IH]; [done|]. destruct (pair_arms _ _ _ Hp) as [Hk1 Hk2].
  unfold flat in *. simpl. by rewrite Hk1, Hk2.
Qed.

Lemma pairs_summary b corpus pairs :
  Forall2 (pair_fits b) corpus pairs -> exists summary, summarize_paired_evaluation (flat pairs) = Ok summary.
Proof. intros Hp%pairs_known. unfold summarize_paired_evaluation. rewrite Hp. by eexists. Qed.

Lemma print_lines_kept l s : exists s', print_lines l s = (Ok tt, s') /\ kept s' = kept s.
Proof.
  revert s. induction l as [|t l IH]; intros s; [by exists s|]. simpl. unfold mbind, ST_bind, print_line, modify.
  destruct (IH (s <| bt_printed := bt_printed s ++ [TEXT t] |>)) as (s' & -> & Hk). by exists s'.
Qed.

(** How the command may end. *)
Definition ended (n : Z) (r : res Z) (s0 s : Batch) : Prop :=
  match r with
  | Ok code => (code = 0 /\ complete n s) \/ (code = 1 /\ told s)
               \/ (code = 2 /\ accepted_budget n = false /\ s = s0)
  | Err e => is_killed e = true
  end.

Lemma conclude_ends n base pairs s0 s :
  ordinary_faults -> Forall2 (pair_fits (resolve_budgets n)) corpus_pairs pairs -> on_record base (flat pairs) s ->
  let '(r, s') := conclude (flat pairs) s in ended n r s0 s'.
Proof.
  intros Hord Hp [Hf Hsc]. unfold conclude. destruct (print_lines_kept (record_line <$> flat pairs) s) as (s1 & Hl & [= Ht1 Hs1]).
  unfold mbind at 1, ST_bind at 1. rewrite Hl. destruct (pairs_summary _ _ _ Hp) as [summary Hsum].
  unfold lift_result. rewrite Hsum. unfold mbind, ST_bind, print_line, modify, try_except.
  set (s2 := s1 <| bt_printed := _ |>).
  pose proof (write_saved_raises "summary.json" (SSummary summary) Hord s2 I) as Hraise.
  pose proof (write_saved_triple "summary.json" (SSummary summary) _ _ s2 (conj eq_refl eq_refl)) as Hw.
  pose proof (summary_leaves_records summary s2) as Hleave. unfold records_view in Hleave.
  destruct (write_saved _ _ s2) as [[[]|e] s3]; simpl in *.
  - left. split; [done|]. exists pairs, summary. split_and!; [done..| |]; [|by destruct Hw].
    simpl. by rewrite Hleave, Ht1.
  - destruct (is_os_error e) eqn:Hos; simpl.
    + right; left. split; [done|]. exists "SUMMARY_WRITE_FAILED". simpl. set_solver.
    + destruct Hraise as [Hr|Hr]; [congruence|done].
Qed.

(** C10: the command settles. While the machine fails only as machines do, it ends with
    exit code 0 and the whole corpus on disk, two records an incident, one of each
    arm, with the summary of exactly those; or with 1 and the reason printed; or with
    2, for a budget off the curve, having done nothing. It raises nothing. *)
Theorem command_settles n s r s' :
  wiring_ok -> ordinary_faults -> main n s = (r, s') -> ended n r s s'.
Proof.
  intros Hw Hord. unfold main. destruct (accepted_budget n) eqn:Hn; simpl.
  2: { intros [= <- <-]. by right; right. }
  assert (Hfail : forall code, fail_with code s = (r, s') -> ended n r s s').
  { intros code [= <- <-]. right; left. split; [done|]. exists code. simpl. set_solver. }
  destruct project_root; [|apply Hfail]. destruct (claude_enabled environment); [|apply Hfail].
  destruct (credential_present environment); [|apply Hfail]. simpl. unfold mbind at 1, ST_bind at 1, try_except at 1.
  pose proof (new_target_raises Hord s I) as Hraise. pose proof (new_target_triple (bt_scored s) s eq_refl) as Hnew.
  unfold mbind at 1, ST_bind at 1. destruct (new_evaluation_target s) as [[[]|e] s1]; simpl.
  2: { destruct (is_os_error e) eqn:Hos; simpl; intros [= <- <-]; [|by destruct Hraise as [Hr|Hr]; [congruence|]].
       right; left. split; [done|]. exists "EVALUATION_TARGET_UNWRITABLE". simpl. set_solver. }
  unfold mbind at 1, ST_bind at 1, except_base, try_except. unfold mbind at 1, ST_bind at 1.
  pose proof (run_evaluation_triple _ (bt_scored s) (curve_fits n Hn) Hw s1 Hnew) as Hrun.
  destruct (run_evaluation _ s1) as [[records|e] s2]; simpl.
  - destruct Hrun as [Hrec (pairs & -> & Hp)]. intros Hc.
    pose proof (conclude_ends n _ pairs s _ Hord Hp Hrec) as Hend. by rewrite Hc in Hend.
  - destruct (is_killed e) eqn:Hk; simpl; intros [= <- <-]; [done|]. right; left. split; [done|].
    exists (refusal_code e). simpl. set_solver.
Qed.

(** * A ceiling too low *)

(** Nothing but the ledger's connection moved. *)
Definition untouched (s0 s : Batch) : Prop := bt_site s = bt_site s0 /\ kept s = kept s0.

Lemma ledger_triple {A} s0 P (m : ConnM A) Q R :
  triple P m Q R ->
  triple (fun s => untouched s0 s /\ P (bt_ledger s)) (on_batch_ledger m)
    (fun a s => untouched s0 s /\ Q a (bt_ledger s)) (fun e s => untouched s0 s /\ R e (bt_ledger s)).
Proof.
  intros Hm s [Hu HP]. unfold on_batch_ledger. specialize (Hm _ HP). by destruct (m (bt_ledger s)) as [[a|e] c].
Qed.

(** Over a ledger whose sum does not leave room, the check raises. *)
Lemma preflight_refuses s0 b ceiling T spent :
  total_from f_zero T = Ok spent ->
  f_gt (f_add (f_add spent (preflight_worst_case_batch_usd b)) RESERVATION_CEILING_BUFFER_USD) ceiling = true ->
  triple (fun s => untouched s0 s /\ idle T (bt_ledger s)) (check_preflight_cost b ceiling)
    (fun _ _ => False) (fun _ s => untouched s0 s /\ idle T (bt_ledger s)).
Proof.
  intros Htotal Hdoomed. unfold check_preflight_cost. eapply triple_bind.
  { eapply triple_conseq; [apply (ledger_triple s0), (ensure_spec T)|done|intros ? t Ht; exact Ht|by intros e t (? & ? & ?)]. }
  intros []. eapply triple_bind.
  { eapply triple_conseq; [apply (ledger_triple s0), (total_spec (ready T)), select_ready|done|intros ? t Ht; exact Ht|].
    intros e t (? & ? & ?). split; [done|by apply ready_idle]. }
  intros x t (Hu & Hx & Hr). rewrite Htotal in Hx. injection Hx as <-. rewrite Hdoomed. simpl. split; [done|by apply ready_idle].
Qed.

(** A doomed batch starts nothing. When what is already spent and the worst case of
    this batch do not fit under the ceiling, the batch is refused, whatever fails on the
    way, before any scenario is started, any model called or any record written: the
    machine is as it was. *)
Theorem doomed_batch_starts_nothing b s T spent ceiling r s' :
  idle T (bt_ledger s) -> total_from f_zero T = Ok spent ->
  live_evaluation_ceiling_usd environment = Ok ceiling ->
  f_gt (f_add (f_add spent (preflight_worst_case_batch_usd b)) RESERVATION_CEILING_BUFFER_USD) ceiling = true ->
  run_evaluation b s = (r, s') ->
  (exists e, r = Err e) /\ bt_site s' = bt_site s /\ kept s' = kept s /\ idle T (bt_ledger s').
Proof.
  intros Hidle Htotal Hceil Hdoomed Hrun.
  set (P := fun t : Batch => untouched s t /\ idle T (bt_ledger t)).
  assert (Ht : triple P (run_evaluation b) (fun _ _ => False) (fun _ => P)).
  { unfold run_evaluation. destruct (negb _); [by apply triple_raise|]. rewrite Hceil.
    eapply triple_bind; [apply (triple_lift _ _ (fun _ => P)); by auto|]. intros git.
    eapply triple_bind; [apply (triple_lift _ _ (fun c t => c = ceiling /\ P t)); [by intros t c Hp [= <-]|done]|].
    intros c t [-> Hp]. revert t Hp.
    change (triple P (corpus ← lift_result corpus_version; _ ← check_preflight_cost b ceiling;
                      run_corpus git ceiling corpus b corpus_pairs []) (fun _ _ => False) (fun _ => P)).
    eapply triple_bind; [apply (triple_lift _ _ (fun _ => P)); by auto|]. intros corpus.
    eapply triple_bind; [by apply (preflight_refuses s b ceiling T spent)|by intros [] t]. }
  specialize (Ht s (conj (conj eq_refl eq_refl) Hidle)). rewrite Hrun in Ht.
  destruct r as [a|e]; [done|]. destruct Ht as [[? ?] ?]. split; [by exists e|done].
Qed.

End batch_props.
