(* ===== verification/JsonText.v ===== *)
(** JSON as text: the shortest decimal text of a float ([float.__repr__], which
    [json.dumps] writes) and the reader [json.loads], plain or with the two hooks
    mcp_stdio.py and telemetry.py give it, which refuse every number that is not finite.

    The development's characters are the code points up to U+00FF (see
    Prelude.v).  An escape above them is well-formed JSON that the reader here
    cannot represent, and it says so ([BeyondLatin1]) instead of calling it an
    error of the program.  The reader here has no depth limit; CPython's raises
    [RecursionError] at its own, which the callers in telemetry.py do not catch. *)
From Stdlib Require Import ZArith Lia SpecFloat.
From stdpp Require Import prelude strings list sorting pretty.
From S2P Require Import Prelude PyText Float64 Domain Numbers.
Local Open Scope Z_scope.

(** * The text of a float *)

(** [num / den] lies below [10 ** g] and, for the least such [g], not below a
    tenth of it. *)
Definition decimal_point (num den : Z) : Z :=
  let g := (Z.log2 num - Z.log2 den) * 30103 / 100000 - 1 in
  let below (g : Z) := if 0 <=? g then num <? den * 10 ^ g else num * 10 ^ (- g) <? den in
  default g (List.find below (List.map (Z.add g) [0; 1; 2; 3; 4])).

(** The decimals of [p] digits next to [num / den], below and above it, that are
    read back as [x]; the nearer one first. *)
Definition digits_back (x : f64) (num den point : Z) (p : Z) : option (Z * Z) :=
  let k := point - p in
  let '(n, d) := if 0 <=? k then (num, den * 10 ^ k) else (num * 10 ^ (- k), den) in
  let below := n / d in
  let candidates := if 2 * (n mod d) <=? d then [below; below + 1] else [below + 1; below] in
  c ← List.find (fun c => SFeqb (f_of_decimal c k) x) candidates; Some (c, k).

Fixpoint first_back (x : f64) (num den point : Z) (p : Z) (more : nat) : Z * Z :=
  match digits_back x num den point p, more with
  | Some ck, _ => ck
  | None, O => (0, 0)
  | None, S more => first_back x num den point (p + 1) more
  end.

Fixpoint strip_zeros (s : string) : string :=
  match s with
  | EmptyString => EmptyString
  | String c s' =>
      match strip_zeros s' with
      | EmptyString => if code c =? 48 then EmptyString else String c EmptyString
      | t => String c t
      end
  end.

Definition zeros (n : Z) : string := String.concat "" (replicate (Z.to_nat n) "0").

Definition exponent_text (e : Z) : string :=
  "e" +:+ (if e <? 0 then "-" else "+") +:+ pad 2 (Z.abs e).

(** The digits with the point after the first [point] of them. *)
Definition place_point (digits : string) (point : Z) : string :=
  let n := str_len digits in
  if (-4 <? point) && (point <=? 16) then
    if point <=? 0 then "0." +:+ zeros (- point) +:+ digits
    else if n <=? point then digits +:+ zeros (point - n) +:+ ".0"
    else str_take (Z.to_nat point) digits +:+ "." +:+ String.substring (Z.to_nat point) (String.length digits) digits
  else
    match digits with
    | String c EmptyString => String c EmptyString +:+ exponent_text (point - 1)
    | String c rest => String c EmptyString +:+ "." +:+ rest +:+ exponent_text (point - 1)
    | EmptyString => ""
    end.

Definition float_repr (x : f64) : string :=
  match x with
  | S754_nan => "NaN"
  | S754_infinity s => if s then "-Infinity" else "Infinity"
  | S754_zero s => if s then "-0.0" else "0.0"
  | S754_finite s m e =>
      let '(num, den) := if 0 <=? e then (Zpos m * 2 ^ e, 1) else (Zpos m, 2 ^ (- e)) in
      let '(c, k) := first_back (S754_finite false m e) num den (decimal_point num den) 1 16 in
      let written := str_of_Z c in
      (if s then "-" else "") +:+ place_point (strip_zeros written) (k + str_len written)
  end.

Example repr_examples :
  (fun t => float_repr <$> float_of_text t) <$>
    ["0.1"; "100"; "-2.50"; "1e23"; "1e16"; "123456.789"; "0.0001"; "0.00001"; "4.94e-324";
     "1.7976931348623157e308"; "5.684341886080802e-14"; "9007199254740993"; "0"; "-0"]
  = Some <$> ["0.1"; "100.0"; "-2.5"; "1e+23"; "1e+16"; "123456.789"; "0.0001"; "1e-05"; "5e-324";
     "1.7976931348623157e+308"; "5.684341886080802e-14"; "9007199254740992.0"; "0.0"; "-0.0"].
Proof. vm_compute. reflexivity. Qed.

(** * Reading *)

(** What stops the reader: the text, a number ([ValueError] from a hook or from [int]),
    or the model's characters. *)
Inductive json_error := JSONDecodeError | BadNumber | BeyondLatin1.

(** What the program raises nowhere: a text the model's characters cannot hold. *)
Definition OutsideTextModel : exn := OtherError "a text beyond U+00FF".

Notation jres := (result json_error).

Definition is_ws (c : Ascii.ascii) : bool :=
  let n := code c in (n =? 32) || (n =? 9) || (n =? 10) || (n =? 13).

Fixpoint skip_ws (s : string) : string :=
  match s with
  | String c rest => if is_ws c then skip_ws rest else s
  | EmptyString => EmptyString
  end.

(** ** Strings *)

Definition hex_value (c : Ascii.ascii) : option Z :=
  let n := code c in
  if (48 <=? n) && (n <=? 57) then Some (n - 48)
  else if (97 <=? n) && (n <=? 102) then Some (n - 87)
  else if (65 <=? n) && (n <=? 70) then Some (n - 55)
  else None.

Definition hex4 (a b c d : Ascii.ascii) : option Z :=
  a ← hex_value a; b ← hex_value b; c ← hex_value c; d ← hex_value d;
  Some (a * 4096 + b * 256 + c * 16 + d).

Definition unescape (c : Ascii.ascii) : option Ascii.ascii :=
  let n := code c in
  if (n =? 34) || (n =? 92) || (n =? 47) then Some c
  else if n =? 98 then Some (char_of 8)
  else if n =? 102 then Some (char_of 12)
  else if n =? 110 then Some (char_of 10)
  else if n =? 114 then Some (char_of 13)
  else if n =? 116 then Some (char_of 9)
  else None.

(** What follows an opening quote, up to the closing one. *)
Fixpoint string_from (s : string) : jres (string * string) :=
  match s with
  | EmptyString => Err JSONDecodeError
  | String c r =>
      if code c =? 34 then Ok (EmptyString, r)
      else if code c <? 32 then Err JSONDecodeError
      else if code c =? 92 then
        match r with
        | EmptyString => Err JSONDecodeError
        | String e r =>
            if code e =? 117 then
              match r with
              | String a (String b (String c (String d r))) =>
                  match hex4 a b c d with
                  | None => Err JSONDecodeError
                  | Some n =>
                      if 255 <? n then Err BeyondLatin1
                      else '(t, rest) ← string_from r; Ok (String (char_of n) t, rest)
                  end
              | _ => Err JSONDecodeError
              end
            else
              match unescape e with
              | None => Err JSONDecodeError
              | Some u => '(t, rest) ← string_from r; Ok (String u t, rest)
              end
        end
      else '(t, rest) ← string_from r; Ok (String c t, rest)
  end.

(** ** Numbers *)

(** The longest run of digits the text starts with. *)
Fixpoint span_digits (s : string) : string * string :=
  match s with
  | String c rest =>
      if is_digit c then let '(ds, rest) := span_digits rest in (String c ds, rest)
      else (EmptyString, s)
  | EmptyString => (EmptyString, EmptyString)
  end.

Fixpoint digits_value (acc : Z) (s : string) : Z :=
  match s with
  | String c rest => digits_value (10 * acc + (code c - 48)) rest
  | EmptyString => acc
  end.

Definition minus_of (s : string) : bool * string :=
  match s with
  | String c rest => if code c =? 45 then (true, rest) else (false, s)
  | EmptyString => (false, s)
  end.

(** A lone zero, or digits that do not start with one. *)
Definition whole_of (s : string) : jres (string * string) :=
  match span_digits s with
  | (EmptyString, _) => Err JSONDecodeError
  | (String d ds, rest) =>
      if code d =? 48 then Ok (String d EmptyString, ds +:+ rest) else Ok (String d ds, rest)
  end.

Definition fraction_of (s : string) : string * string :=
  match s with
  | String c rest =>
      if code c =? 46 then
        match span_digits rest with
        | (EmptyString, _) => (EmptyString, s)
        | (ds, rest) => (String c ds, rest)
        end
      else (EmptyString, s)
  | EmptyString => (EmptyString, s)
  end.

Definition exponent_sign (s : string) : string * string :=
  match s with
  | String c rest => if (code c =? 45) || (code c =? 43) then (String c EmptyString, rest) else (EmptyString, s)
  | EmptyString => (EmptyString, s)
  end.

Definition exponent_part (s : string) : string * string :=
  match s with
  | String c rest =>
      if (code c =? 101) || (code c =? 69) then
        let '(sign, after) := exponent_sign rest in
        match span_digits after with
        | (EmptyString, _) => (EmptyString, s)
        | (ds, rest) => (String c (sign +:+ ds), rest)
        end
      else (EmptyString, s)
  | EmptyString => (EmptyString, s)
  end.

(** The longest text [int] converts ([sys.set_int_max_str_digits]' default). *)
Definition MAX_INT_DIGITS : Z := 4300.

(** [parse_float] and [parse_constant]: none given, or the hooks that refuse. *)
Inductive number_hooks := Unhooked | RefuseNonFinite.

Class NumberHooks := hooks : number_hooks.

#[export] Instance refuse_non_finite : NumberHooks := RefuseNonFinite.

(** [_parse_finite_float] on a number with a fraction or an exponent. *)
Definition parse_finite_float (text : string) : jres json :=
  match float_of_text text with
  | Some x => if f_isfinite x then Ok (JFloat (float_repr x)) else Err BadNumber
  | None => Err BadNumber
  end.

Section reading.
Context `{NumberHooks}.

Definition parse_float (text : string) : jres json :=
  match hooks with
  | RefuseNonFinite => parse_finite_float text
  | Unhooked =>
      match float_of_text text with Some x => Ok (JFloat (float_repr x)) | None => Err BadNumber end
  end.

Definition number_from (s : string) : jres (json * string) :=
  let '(minus, s) := minus_of s in
  '(whole, s) ← whole_of s;
  let '(fraction, s) := fraction_of s in
  let '(exponent, s) := exponent_part s in
  if bool_decide (fraction = "") && bool_decide (exponent = "") then
    if str_len whole <=? MAX_INT_DIGITS
    then Ok (JInt (if minus then - digits_value 0 whole else digits_value 0 whole), s)
    else Err BadNumber
  else
    j ← parse_float ((if minus then "-" else "") +:+ whole +:+ fraction +:+ exponent);
    Ok (j, s).

(** ** Values *)

Definition word_from (word s : string) (j : json) (otherwise : jres (json * string))
    : jres (json * string) :=
  if is_prefix word s
  then Ok (j, String.substring (String.length word) (String.length s) s)
  else otherwise.

(** [NaN], [Infinity] and [-Infinity]. *)
Definition constant_from (word s : string) (otherwise : jres (json * string)) : jres (json * string) :=
  if is_prefix word s
  then
    match hooks with
    | RefuseNonFinite => Err BadNumber
    | Unhooked => Ok (JFloat word, String.substring (String.length word) (String.length s) s)
    end
  else otherwise.

Fixpoint value_from (fuel : nat) (s : string) {struct fuel} : jres (json * string) :=
  match fuel, s with
  | S n, String c r =>
      if code c =? 34 then '(t, r) ← string_from r; Ok (JStr t, r)
      else if code c =? 123 then
        match skip_ws r with
        | String d r => if code d =? 125 then Ok (JObj [], r) else members_from n [] (String d r)
        | EmptyString => Err JSONDecodeError
        end
      else if code c =? 91 then
        match skip_ws r with
        | String d r => if code d =? 93 then Ok (JArr [], r) else elements_from n [] (String d r)
        | EmptyString => Err JSONDecodeError
        end
      else word_from "null" s JNull (word_from "true" s (JBool true)
             (word_from "false" s (JBool false) (constant_from "NaN" s
             (constant_from "Infinity" s (constant_from "-Infinity" s (number_from s))))))
  | _, _ => Err JSONDecodeError
  end
with members_from (fuel : nat) (acc : list (string * json)) (s : string) {struct fuel}
    : jres (json * string) :=
  match fuel, s with
  | S n, String c r =>
      if code c =? 34 then
        '(k, r) ← string_from r;
        match skip_ws r with
        | String d r =>
            if code d =? 58 then
              '(v, r) ← value_from n (skip_ws r);
              match skip_ws r with
              | String d r =>
                  if code d =? 125 then Ok (JObj (dict_set k v acc), r)
                  else if code d =? 44 then members_from n (dict_set k v acc) (skip_ws r)
                  else Err JSONDecodeError
              | EmptyString => Err JSONDecodeError
              end
            else Err JSONDecodeError
        | EmptyString => Err JSONDecodeError
        end
      else Err JSONDecodeError
  | _, _ => Err JSONDecodeError
  end
with elements_from (fuel : nat) (acc : list json) (s : string) {struct fuel}
    : jres (json * string) :=
  match fuel with
  | O => Err JSONDecodeError
  | S n =>
      '(v, r) ← value_from n s;
      match skip_ws r with
      | String d r =>
          if code d =? 93 then Ok (JArr (acc ++ [v]), r)
          else if code d =? 44 then elements_from n (acc ++ [v]) (skip_ws r)
          else Err JSONDecodeError
      | EmptyString => Err JSONDecodeError
      end
  end.

(** Every level of the text consumes a character before it reads another value. *)
Definition json_loads (s : string) : jres json :=
  '(j, rest) ← value_from (S (S (2 * String.length s))) (skip_ws s);
  if bool_decide (skip_ws rest = "") then Ok j else Err JSONDecodeError.
End reading.

Example loads_nested :
  json_loads (" { " +:+ dq +:+ "a" +:+ dq +:+ " : [1, -2.50e0 ,true,{},[ ]] , " +:+ dq +:+ "b" +:+ dq
              +:+ ":" +:+ dq +:+ "\u00e9\n/" +:+ dq +:+ "} ")
  = Ok (JObj [("a", JArr [JInt 1; JFloat "-2.5"; JBool true; JObj []; JArr []]);
              ("b", JStr (chr 233 +:+ nl +:+ "/"))]).
Proof. vm_compute. reflexivity. Qed.

Example loads_refuses :
  List.map json_loads ["01"; "[1,]"; "{} x"; ""; "1."; "[1"; "+1"; "nul"; "-Inf"]
  = replicate 9 (Err JSONDecodeError)
  /\ List.map json_loads ["NaN"; "[-Infinity]"; "Infinity"; "1e999"] = replicate 4 (Err BadNumber).
Proof. vm_compute. split; reflexivity. Qed.

Example loads_unhooked :
  List.map (@json_loads Unhooked) ["NaN"; "[-Infinity, 1e999]"; "-1e999"]
  = [Ok (JFloat "NaN"); Ok (JArr [JFloat "-Infinity"; JFloat "Infinity"]); Ok (JFloat "-Infinity")].
Proof. vm_compute. reflexivity. Qed.

Example loads_last_key_wins :
  json_loads ("{" +:+ dq +:+ "a" +:+ dq +:+ ":1," +:+ dq +:+ "b" +:+ dq +:+ ":2," +:+ dq +:+ "a" +:+ dq +:+ ":3}")
  = Ok (JObj [("a", JInt 3); ("b", JInt 2)]).
Proof. vm_compute. reflexivity. Qed.
