(* ===== verification/JsonRoundTrip.v ===== *)
(** What [json.dumps] writes, [json.loads] reads back: for the texts of strings and
    integers, for a float text [json.dumps] would write, and so for whole values,
    with or without sorted keys, compact or spaced. *)
From Stdlib Require Import ZArith Lia.
From stdpp Require Import prelude strings list sorting pretty.
From S2P Require Import Prelude PyText Float64 Numbers JsonText.
Local Open Scope Z_scope.

(** * Induction on a JSON value *)

Section json_induction.
Variable P : json -> Prop.
Hypothesis Pnull : P JNull.
Hypothesis Pbool : forall b, P (JBool b).
Hypothesis Pint : forall z, P (JInt z).
Hypothesis Pfloat : forall t, P (JFloat t).
Hypothesis Pstr : forall s, P (JStr s).
Hypothesis Parr : forall l, Forall P l -> P (JArr l).
Hypothesis Pobj : forall d, Forall (fun kv => P kv.2) d -> P (JObj d).

Fixpoint json_nested (j : json) : P j :=
  match j with
  | JNull => Pnull
  | JBool b => Pbool b
  | JInt z => Pint z
  | JFloat t => Pfloat t
  | JStr s => Pstr s
  | JArr l => Parr l ((fix go l : Forall P l :=
      match l with
      | [] => Forall_nil_2 _
      | x :: l => Forall_cons_2 _ _ _ (json_nested x) (go l)
      end) l)
  | JObj d => Pobj d ((fix go d : Forall (fun kv => P kv.2) d :=
      match d with
      | [] => Forall_nil_2 _
      | (k, v) :: d => Forall_cons_2 (fun kv => P kv.2) (k, v) d (json_nested v) (go d)
      end) d)
  end.
End json_induction.

Section with_hooks.
Context `{NumberHooks}.

(** * The values [json.dumps] writes without raising and whose text is read back *)

(** A float's text is the one [repr] writes for the number it denotes. *)
Definition float_written (t : string) : bool :=
  match number_from t with
  | Ok (JFloat t', EmptyString) => bool_decide (t' = t)
  | _ => false
  end.

Definition int_written (z : Z) : bool := str_len (str_of_Z (Z.abs z)) <=? MAX_INT_DIGITS.

Fixpoint json_written (j : json) : bool :=
  match j with
  | JInt z => int_written z
  | JFloat t => float_written t
  | JArr l => forallb json_written l
  | JObj d =>
      bool_decide (NoDup d.*1) && forallb (fun kv => match kv with (_, v) => json_written v end) d
  | _ => true
  end.

Definition jkey_le (p q : string * json) : Prop := String.le p.1 q.1.

#[export] Instance jkey_le_dec : RelDecision jkey_le := fun p q => String.le_dec p.1 q.1.

(** The value whose plain text is the text with sorted keys. *)
Fixpoint sort_keys (j : json) : json :=
  match j with
  | JArr l => JArr (List.map sort_keys l)
  | JObj d =>
      JObj (merge_sort jkey_le (List.map (fun kv => match kv with (k, v) => (k, sort_keys v) end) d))
  | j => j
  end.

(** * Strings *)

Lemma string_from_char c s :
  string_from (json_char c +:+ s) = '(t, rest) ← string_from s; Ok (String c t, rest).
Proof. destruct c as [[] [] [] [] [] [] [] []]; reflexivity. Qed.

Lemma string_from_written s rest :
  string_from (concat_chars json_char s +:+ dq +:+ rest) = Ok (s, rest).
Proof.
  induction s as [|c s IH]; [done|].
  simpl concat_chars. by rewrite string_app_assoc, string_from_char, IH.
Qed.

(** * Digits *)

Definition all_digits (s : string) : bool := forallb is_digit (String.list_ascii_of_string s).

(** What follows a number's text does not lengthen it. *)
Definition ends_number (c : Ascii.ascii) : bool :=
  negb (is_digit c || bool_decide (code c ∈ [43; 45; 46; 69; 101])).

Definition stops (rest : string) : Prop :=
  match rest with EmptyString => True | String c _ => ends_number c = true end.

Lemma span_digits_split s : s = (span_digits s).1 +:+ (span_digits s).2.
Proof.
  induction s as [|c s IH]; [done|]. cbn. destruct (is_digit c); [|done].
  destruct (span_digits s). cbn in *. by rewrite IH.
Qed.

Lemma span_digits_app s rest :
  (match rest with String c _ => is_digit c = false | EmptyString => True end) ->
  span_digits (s +:+ rest) = ((span_digits s).1, (span_digits s).2 +:+ rest).
Proof.
  intros Hrest. induction s as [|c s IH].
  - destruct rest as [|c rest]; [done|].
    change ("" +:+ String c rest) with (String c rest). cbn. by rewrite Hrest.
  - rewrite string_app_cons. cbn. destruct (is_digit c); [|done]. rewrite IH.
    by destruct (span_digits s).
Qed.

Lemma span_all_digits s : all_digits s = true -> span_digits s = (s, EmptyString).
Proof.
  induction s as [|c s IH]; [done|]. unfold all_digits. cbn.
  intros [Hc Hs]%andb_prop. by rewrite Hc, (IH Hs).
Qed.

Lemma pretty_char_digit n :
  (n < 10)%N -> is_digit (pretty_N_char n) = true /\ code (pretty_N_char n) = 48 + Z.of_N n.
Proof.
  intros Hn. destruct n as [|p]; [done|].
  destruct p as [[[[]|[]|]|[[]|[]|]|]|[[[]|[]|]|[[]|[]|]|]|]; try lia; done.
Qed.

Lemma pretty_go_digits x s :
  all_digits s = true ->
  all_digits (pretty_N_go x s) = true /\
  (forall acc, acc = 0 -> digits_value acc (pretty_N_go x s) = digits_value (Z.of_N x) s) /\
  (forall k, Z.of_N x < 10 ^ Z.of_nat k ->
     (String.length (pretty_N_go x s) <= k + String.length s)%nat) /\
  ((0 < x)%N -> match pretty_N_go x s with String c _ => code c <> 48 | EmptyString => False end).
Proof.
  revert s. induction (N.lt_wf_0 x) as [x _ IH]; intros s Hs.
  destruct (decide (0 < x)%N) as [Hx|Hx].
  - rewrite pretty_N_go_step by done.
    pose proof (N.mod_upper_bound x 10 ltac:(done)) as Hm.
    destruct (pretty_char_digit (x `mod` 10)%N Hm) as [Hd Hc].
    pose proof (N.div_mod x 10 ltac:(done)) as Hdm.
    destruct (IH (x `div` 10)%N) with (s := String (pretty_N_char (x `mod` 10)%N) s)
      as (Ha & Hv & Hl & Hh).
    { by apply N.div_lt. }
    { unfold all_digits in *. cbn. by rewrite Hd. }
    split; [done|]. split; [|split].
    + intros acc ->. rewrite (Hv 0) by done. cbn. f_equal. rewrite Hc. lia.
    + intros [|k] Hk; [change (10 ^ Z.of_nat 0) with 1 in Hk; lia|].
      assert (Z.of_N (x / 10) < 10 ^ Z.of_nat k) as Hk'.
      { rewrite Nat2Z.inj_succ, Z.pow_succ_r in Hk by lia.
        rewrite N2Z.inj_div. apply Z.div_lt_upper_bound; [done|exact Hk]. }
      specialize (Hl k Hk').
      change (String.length (String ?c s)) with (S (String.length s)) in Hl. lia.
    + intros _. destruct (decide (0 < x `div` 10)%N) as [Hq|Hq]; [by apply Hh|].
      replace (x `div` 10)%N with 0%N by lia. rewrite pretty_N_go_0. rewrite Hc. lia.
  - replace x with 0%N by lia. rewrite pretty_N_go_0. split; [done|].
    split; [by intros acc ->|]. split; [intros; lia|intros; lia].
Qed.

(** What [str] writes of a number that is not negative. *)
Lemma str_of_Z_digits z k :
  0 <= z < 10 ^ Z.of_nat k -> (1 <= k)%nat ->
  all_digits (str_of_Z z) = true /\ digits_value 0 (str_of_Z z) = z /\ (1 <= String.length (str_of_Z z) <= k)%nat.
Proof.
  intros [Hpos Hz] Hk. destruct z as [|p|p]; [split_and!; cbn; (done || lia)| |lia].
  change (str_of_Z (Zpos p)) with (pretty (Npos p)). unfold pretty, pretty_N. rewrite decide_False by done.
  destruct (pretty_go_digits (Npos p) "" eq_refl) as (Ha & Hv & Hl & Hh).
  split; [done|]. split; [by rewrite (Hv 0)|]. specialize (Hl k Hz). change (String.length "") with O in Hl.
  split; [|lia]. specialize (Hh ltac:(lia)). destruct (pretty_N_go (Npos p) ""); [done|]. cbn. lia.
Qed.

Lemma number_from_digits minus n :
  str_len (pretty n) <= MAX_INT_DIGITS ->
  number_from ((if minus : bool then "-" else "") +:+ pretty n)
  = Ok (JInt (if minus then - Z.of_N n else Z.of_N n), EmptyString).
Proof.
  intros Hl. assert (exists c s, pretty n = String c s /\ all_digits (pretty n) = true
          /\ (code c = 48 -> s = EmptyString) /\ digits_value 0 (pretty n) = Z.of_N n)
    as (c & s & He & Ha & Hz & Hv).
  { unfold pretty, pretty_N. case_decide as Hn.
    - subst n. eexists _, _. split; [done|]. done.
    - destruct (pretty_go_digits n "" eq_refl) as (Ha & Hv & _ & Hh).
      specialize (Hh ltac:(lia)). specialize (Hv 0 eq_refl).
      destruct (pretty_N_go n "") as [|c s] eqn:He; [done|].
      exists c, s. split; [done|]. split; [done|]. split; [done|done]. }
  assert (minus_of ((if minus then "-" else "") +:+ pretty n) = (minus, pretty n)) as Hm.
  { destruct minus; [done|]. change ("" +:+ pretty n) with (pretty n). rewrite He. cbn.
    rewrite He in Ha. unfold all_digits in Ha. cbn in Ha. apply andb_prop in Ha as [Hd _].
    unfold is_digit in Hd. case (Z.eqb_spec (code c) 45); [lia|done]. }
  assert (whole_of (pretty n) = Ok (pretty n, EmptyString)) as Hwh.
  { unfold whole_of. rewrite (span_all_digits _ Ha), He.
    case (Z.eqb_spec (code c) 48) as [H0|]; [|done]. by rewrite (Hz H0). }
  unfold number_from. rewrite Hm. unfold mbind, result_bind. rewrite Hwh. cbn [fraction_of exponent_part].
  rewrite !bool_decide_true by done. cbn [andb].
  rewrite (proj2 (Z.leb_le _ _) Hl). by rewrite Hv.
Qed.

Lemma number_from_int z :
  int_written z = true -> number_from (str_of_Z z) = Ok (JInt z, EmptyString).
Proof.
  intros Hw%Z.leb_le. destruct z as [|p|p].
  - apply (number_from_digits false 0%N Hw).
  - apply (number_from_digits false (Npos p) Hw).
  - apply (number_from_digits true (Npos p) Hw).
Qed.

(** A number of few digits. *)
Lemma int_written_below k z :
  Z.abs z < 10 ^ Z.of_nat k -> Z.of_nat k <= MAX_INT_DIGITS -> 0 < Z.of_nat k -> int_written z = true.
Proof.
  intros Hz Hk H0. apply Z.leb_le. assert (str_of_Z (Z.abs z) = pretty (Z.to_N (Z.abs z))) as ->.
  { by destruct z. }
  unfold pretty, pretty_N. case_decide as Hn; [by vm_compute|].
  destruct (pretty_go_digits (Z.to_N (Z.abs z)) "" eq_refl) as (_ & _ & Hl & _).
  specialize (Hl k). rewrite Z2N.id in Hl by lia. specialize (Hl Hz).
  unfold str_len. change (String.length "") with O in Hl. lia.
Qed.

(** * A number's text, followed by something else *)

Ltac char_case :=
  match goal with
  | |- context [Z.eqb (code ?c) ?n] => case (Z.eqb_spec (code c) n); intros ?; cbn [orb]
  end.

(** The heads the optional parts of a number look for. *)
Lemma stops_head c r n :
  stops (String c r) -> n ∈ [43; 45; 46; 69; 101] -> (code c =? n) = false.
Proof.
  cbn. unfold ends_number. intros Hs Hn. apply Z.eqb_neq. intros <-.
  rewrite (bool_decide_true _ Hn), orb_true_r in Hs. done.
Qed.

Section number_followed.
Variable rest : string.
Hypothesis Hstops : stops rest.

Lemma span_digits_followed s :
  span_digits (s +:+ rest) = ((span_digits s).1, (span_digits s).2 +:+ rest).
Proof using Hstops.
  apply span_digits_app. destruct rest as [|c r]; [done|]. cbn in Hstops. unfold ends_number in Hstops.
  by destruct (is_digit c).
Qed.

Ltac stop_heads :=
  destruct rest as [|c r] eqn:Hr; [done|]; change ("" +:+ String c r) with (String c r); cbn;
  rewrite ?(stops_head c r) by (exact Hstops || set_solver).

Lemma minus_of_followed s :
  s <> EmptyString -> minus_of (s +:+ rest) = ((minus_of s).1, (minus_of s).2 +:+ rest).
Proof using. destruct s as [|c s]; [done|]. intros _. rewrite string_app_cons. cbn. by char_case. Qed.

Lemma whole_of_followed s w s' :
  whole_of s = Ok (w, s') -> whole_of (s +:+ rest) = Ok (w, s' +:+ rest).
Proof using Hstops.
  unfold whole_of. rewrite span_digits_followed. destruct (span_digits s) as [[|d ds] r]; [done|]. cbn.
  char_case; intros [= <- <-]; by rewrite ?string_app_assoc.
Qed.

Lemma fraction_of_followed s :
  fraction_of (s +:+ rest) = ((fraction_of s).1, (fraction_of s).2 +:+ rest).
Proof using Hstops.
  destruct s as [|c s]; [by stop_heads|]. rewrite string_app_cons. cbn. char_case; [|done].
  rewrite span_digits_followed. by destruct (span_digits s) as [[|] ?].
Qed.

Lemma exponent_sign_followed s :
  exponent_sign (s +:+ rest) = ((exponent_sign s).1, (exponent_sign s).2 +:+ rest).
Proof using Hstops.
  destruct s as [|c s]; [by stop_heads|]. rewrite string_app_cons. cbn. by repeat char_case.
Qed.

Lemma exponent_part_followed s :
  exponent_part (s +:+ rest) = ((exponent_part s).1, (exponent_part s).2 +:+ rest).
Proof using Hstops.
  destruct s as [|c s]; [by stop_heads|]. rewrite string_app_cons. cbn.
  destruct (_ || _); [|done]. rewrite exponent_sign_followed.
  destruct (exponent_sign s) as [sg after]. cbn. rewrite span_digits_followed.
  by destruct (span_digits after) as [[|] ?].
Qed.

Lemma number_from_followed s j s' :
  number_from s = Ok (j, s') -> number_from (s +:+ rest) = Ok (j, s' +:+ rest).
Proof using Hstops.
  unfold number_from. destruct (decide (s = EmptyString)) as [->|Hs]; [done|].
  rewrite minus_of_followed by done. destruct (minus_of s) as [m s1]. cbn [fst snd].
  destruct (whole_of s1) as [[w s2]|] eqn:Hw; [|done]. apply whole_of_followed in Hw.
  unfold mbind, result_bind. rewrite Hw, fraction_of_followed.
  destruct (fraction_of s2) as [f s3]. cbn [fst snd]. rewrite exponent_part_followed.
  destruct (exponent_part s3) as [e s4]. cbn [fst snd].
  destruct (_ && _).
  - destruct (_ <=? _); [|done]. by intros [= <- <-].
  - destruct (parse_float _); [|done]. by intros [= <- <-].
Qed.
End number_followed.

Lemma number_from_head s j r :
  number_from s = Ok (j, r) -> exists c t, s = String c t /\ (code c = 45 \/ is_digit c = true).
Proof.
  destruct s as [|c t]; [done|]. intros Hn. exists c, t. split; [done|].
  unfold number_from in Hn. cbn in Hn.
  case (Z.eqb_spec (code c) 45) in Hn; [by left|right].
  destruct (whole_of (String c t)) as [p|] eqn:Hw; [|done]. unfold whole_of in Hw. cbn in Hw.
  by destruct (is_digit c).
Qed.

(** * Whole values *)

(** The reader at a comma. *)
Ltac comma_read :=
  change (skip_ws (String (char_of 44) ?s)) with (String (char_of 44) s); cbv iota;
  change (code (char_of 44) =? 93) with false; change (code (char_of 44) =? 125) with false;
  change (code (char_of 44) =? 44) with true; cbv iota.

Lemma substring_after w rest m :
  (String.length rest <= m)%nat -> String.substring (String.length w) m (w +:+ rest) = rest.
Proof.
  intros Hm. induction w as [|c w IH].
  - change ("" +:+ rest) with rest. revert m Hm.
    induction rest as [|c rest IH]; intros [|m] Hm; cbn in *; [done|done|lia|].
    by rewrite IH by lia.
  - rewrite string_app_cons. exact IH.
Qed.

Lemma word_from_written word rest j otherwise :
  word_from word (word +:+ rest) j otherwise = Ok (j, rest).
Proof.
  unfold word_from. rewrite (proj2 (is_prefix_spec _ _)) by eauto.
  rewrite substring_after; [done|]. rewrite string_length_app. lia.
Qed.

Lemma constant_from_other w s otherwise :
  is_prefix w s = false -> constant_from w s otherwise = otherwise.
Proof. unfold constant_from. by intros ->. Qed.

(** No number starts like [-Infinity]. *)
Lemma number_not_infinity s j r : number_from s = Ok (j, r) -> is_prefix "-Infinity" s = false.
Proof.
  intros Hn. destruct (is_prefix "-Infinity" s) eqn:Hp; [|done].
  apply is_prefix_spec in Hp as (t & ->). discriminate Hn.
Qed.

Lemma value_from_number n s j r :
  number_from s = Ok (j, r) -> value_from (S n) s = Ok (j, r).
Proof.
  intros Hn. destruct (number_from_head _ _ _ Hn) as (c & t & -> & Hc).
  cbn [value_from]. unfold is_digit in Hc.
  assert (code c = 45 \/ 48 <= code c <= 57) as Hr by lia. clear Hc.
  rewrite !(proj2 (Z.eqb_neq _ _)) by lia.
  assert (forall w j o, (match w with String b _ => 58 <=? code b | _ => false end) = true ->
            word_from w (String c t) j o = o) as Hw.
  { intros [|b w] ? ? Hb; [done|]. unfold word_from. cbn [is_prefix].
    rewrite bool_decide_false; [done|]. intros ->. lia. }
  assert (forall w o, (match w with String b _ => 58 <=? code b | _ => false end) = true ->
            constant_from w (String c t) o = o) as Hk.
  { intros [|b w] o Hb; [done|]. apply constant_from_other. cbn [is_prefix].
    rewrite bool_decide_false; [done|]. intros ->. lia. }
  rewrite !Hw, !Hk by done. by rewrite (constant_from_other _ _ _ (number_not_infinity _ _ _ Hn)).
Qed.

Section round_trip.
(** The separators, with the white space they carry. *)
Variables iws kws : string.
Hypothesis Hiws : forall s, skip_ws (iws +:+ s) = skip_ws s.
Hypothesis Hkws : forall s, skip_ws (kws +:+ s) = skip_ws s.

Notation text := (dumps false ("," +:+ iws) (":" +:+ kws)).

Definition member_text (kv : string * json) : string :=
  match kv with (k, v) => json_string k +:+ (":" +:+ kws) +:+ text v end.

Lemma text_object d :
  text (JObj d) = "{" +:+ py_join ("," +:+ iws) (List.map member_text d) +:+ "}".
Proof using.
  cbn [dumps]. unfold dumps_object. do 3 f_equal.
  induction d as [|[k v] d IH]; [done|]. cbn. by rewrite IH.
Qed.

Lemma text_head j :
  json_written j = true ->
  exists c t, text j = String c t /\ is_ws c = false /\ code c <> 93 /\ code c <> 125.
Proof using.
  assert (forall z, int_written z = true -> exists c t, str_of_Z z = String c t
            /\ is_ws c = false /\ code c <> 93 /\ code c <> 125) as Hnum.
  { intros z (c & t & -> & Hc)%number_from_int%number_from_head. exists c, t. split; [done|].
    unfold is_ws, is_digit in *. lia. }
  destruct j as [|[]|z|t|s|l|d]; intros Hw; try (by eexists _, _; repeat split).
  - by apply Hnum.
  - cbn in Hw. unfold float_written in Hw. destruct (number_from t) as [[j r]|] eqn:Hn; [|done].
    apply number_from_head in Hn as (c & t' & -> & Hc). exists c, t'. split; [done|].
    unfold is_ws, is_digit in *. lia.
Qed.

Lemma skip_ws_text j rest :
  json_written j = true -> skip_ws (text j +:+ rest) = text j +:+ rest.
Proof using.
  intros (c & t & -> & Hc & _)%text_head. rewrite string_app_cons. cbn. by rewrite Hc.
Qed.

Definition reads_back (j : json) : Prop :=
  json_written j = true -> forall fuel rest, stops rest ->
  (2 * String.length (text j) < fuel)%nat -> value_from fuel (text j +:+ rest) = Ok (j, rest).

Lemma number_reads_back t j fuel rest :
  number_from t = Ok (j, EmptyString) -> stops rest -> (0 < fuel)%nat ->
  value_from fuel (t +:+ rest) = Ok (j, rest).
Proof using.
  intros Hn Hs Hf. destruct fuel as [|n]; [lia|]. apply value_from_number.
  by apply (number_from_followed rest Hs) in Hn.
Qed.

Lemma elements_read_back l acc fuel rest :
  Forall reads_back l -> forallb json_written l = true -> l <> [] ->
  (2 * String.length (py_join ("," +:+ iws) (List.map text l)) + 1 < fuel)%nat ->
  elements_from fuel acc (py_join ("," +:+ iws) (List.map text l) +:+ "]" +:+ rest)
  = Ok (JArr (acc ++ l), rest).
Proof using Hiws.
  intros Hl. revert acc fuel. induction Hl as [|x l Hx Hl IH]; intros acc fuel Hw Hne Hf; [done|].
  cbn in Hw. apply andb_prop in Hw as [Hwx Hwl].
  destruct fuel as [|n]; [lia|]. destruct l as [|y l].
  - cbn [List.map py_join] in *. cbn [elements_from].
    rewrite (Hx Hwx n) by (done || lia). reflexivity.
  - change (py_join ("," +:+ iws) (List.map text (x :: y :: l)))
      with (text x +:+ ("," +:+ iws) +:+ py_join ("," +:+ iws) (List.map text (y :: l))) in *.
    rewrite !string_length_app in Hf. change (String.length ",") with 1%nat in Hf.
    rewrite !string_app_assoc. cbn [elements_from].
    rewrite (Hx Hwx n) by (done || lia). unfold mbind, result_bind. cbn iota.
    change ("," +:+ ?s) with (String (char_of 44) s).
    comma_read. rewrite Hiws.
    cbn in Hwl. pose proof Hwl as [Hwy _]%andb_prop.
    assert (skip_ws (py_join ("," +:+ iws) (List.map text (y :: l)) +:+ "]" +:+ rest)
            = py_join ("," +:+ iws) (List.map text (y :: l)) +:+ "]" +:+ rest) as ->.
    { destruct l as [|z l]; cbn [List.map py_join]; rewrite ?string_app_assoc; by apply skip_ws_text. }
    rewrite IH by (done || lia). by rewrite <- app_assoc.
Qed.

Lemma members_read_back d acc fuel rest :
  Forall (fun kv => reads_back kv.2) d -> forallb (fun kv => json_written kv.2) d = true ->
  d <> [] -> NoDup (acc ++ d).*1 ->
  (2 * String.length (py_join ("," +:+ iws) (List.map member_text d)) + 1 < fuel)%nat ->
  members_from fuel acc (py_join ("," +:+ iws) (List.map member_text d) +:+ "}" +:+ rest)
  = Ok (JObj (acc ++ d), rest).
Proof using Hiws Hkws.
  intros Hl. revert acc fuel. induction Hl as [|[k x] d Hx Hl IH]; intros acc fuel Hw Hne Hnd Hf; [done|].
  cbn in Hw, Hx. apply andb_prop in Hw as [Hwx Hwl].
  assert (dict_set k x acc = acc ++ [(k, x)]) as Hset.
  { apply dict_set_fresh. unfold dict_keys. rewrite fmap_app in Hnd.
    apply NoDup_app in Hnd as (_ & Hnot & _). intros Hin. apply (Hnot k Hin). by left. }
  destruct fuel as [|n]; [lia|].
  assert (forall s, (2 * String.length (text x) < n)%nat -> stops s ->
    members_from (S n) acc (member_text (k, x) +:+ s) =
    match skip_ws s with
    | String d r =>
        if code d =? 125 then Ok (JObj (dict_set k x acc), r)
        else if code d =? 44 then members_from n (dict_set k x acc) (skip_ws r)
        else Err JSONDecodeError
    | EmptyString => Err JSONDecodeError
    end) as Hstep.
  { intros s Hn Hs. unfold member_text, json_string. rewrite !string_app_assoc.
    change (dq +:+ ?t) with (String (char_of 34) t). cbn [members_from].
    change (code (char_of 34) =? 34) with true. cbv iota.
    change (String (char_of 34) ?t) with (dq +:+ t). rewrite string_from_written.
    change (mbind ?f (Ok ?p)) with (f p). cbv beta iota.
    change (skip_ws (":" +:+ ?t)) with (String (char_of 58) t). cbv iota.
    change (code (char_of 58) =? 58) with true. cbv iota.
    rewrite Hkws, skip_ws_text, (Hx Hwx n) by done. reflexivity. }
  destruct d as [|y d].
  - cbn [List.map py_join] in *. rewrite Hstep; [by rewrite <- Hset| |done].
    unfold member_text in Hf. rewrite !string_length_app in Hf. lia.
  - change (py_join ("," +:+ iws) (List.map member_text ((k, x) :: y :: d)))
      with (member_text (k, x) +:+ ("," +:+ iws) +:+ py_join ("," +:+ iws) (List.map member_text (y :: d))) in *.
    rewrite !string_length_app in Hf. change (String.length ",") with 1%nat in Hf.
    rewrite !string_app_assoc, Hstep; [| |done].
    2:{ unfold member_text in Hf. rewrite !string_length_app in Hf. lia. }
    change ("," +:+ ?s) with (String (char_of 44) s). comma_read. rewrite Hiws.
    assert (skip_ws (py_join ("," +:+ iws) (List.map member_text (y :: d)) +:+ "}" +:+ rest)
            = py_join ("," +:+ iws) (List.map member_text (y :: d)) +:+ "}" +:+ rest) as ->.
    { by destruct y as [ky y], d as [|z d]. }
    rewrite Hset, IH; [by rewrite <- app_assoc|done|done| |lia].
    by rewrite <- app_assoc.
Qed.

Lemma text_reads_back j : reads_back j.
Proof using Hiws Hkws.
  induction j as [|b|z|t|s|l IH|d IH] using json_nested; intros Hw [|fuel] rest Hs Hf;
    try (cbn in Hf; lia).
  - apply word_from_written.
  - destruct b; [|apply (word_from_written "false")]. apply (word_from_written "true").
  - apply number_reads_back; [by apply number_from_int|done|lia].
  - cbn in Hw. unfold float_written in Hw. destruct (number_from t) as [[j r]|] eqn:Hn; [|done].
    destruct j as [| | |t'| | |]; try done. destruct r; [|done].
    apply bool_decide_eq_true in Hw as ->. apply number_reads_back; [done..|lia].
  - cbn [dumps]. unfold json_string. rewrite !string_app_assoc.
    change (dq +:+ ?t) with (String (char_of 34) t). cbn [value_from].
    change (code (char_of 34) =? 34) with true. cbv iota.
    change (String (char_of 34) ?t) with (dq +:+ t). by rewrite string_from_written.
  - cbn [dumps] in *. rewrite !string_length_app in Hf. rewrite !string_app_assoc.
    change (String.length "[") with 1%nat in Hf. change (String.length "]") with 1%nat in Hf.
    change ("[" +:+ ?s) with (String (char_of 91) s). cbn [value_from].
    change (code (char_of 91) =? 34) with false. change (code (char_of 91) =? 123) with false.
    change (code (char_of 91) =? 91) with true. cbv iota.
    destruct l as [|x l]; [done|].
    assert (exists c t, py_join ("," +:+ iws) (List.map text (x :: l)) = String c t
              /\ is_ws c = false /\ code c <> 93) as (c & t & Ht & Hc & H93).
    { cbn in Hw. apply andb_prop in Hw as [(c & t & Ht & Hc & H93 & _)%text_head _].
      destruct l; cbn [List.map py_join]; rewrite Ht; eexists c, _; split; done. }
    pose proof (elements_read_back (x :: l) [] fuel rest IH Hw ltac:(done) ltac:(lia)) as He.
    rewrite Ht, string_app_cons in He |- *. cbn [skip_ws]. rewrite Hc.
    by rewrite (proj2 (Z.eqb_neq _ _) H93).
  - rewrite text_object in *. rewrite !string_length_app in Hf. rewrite !string_app_assoc.
    change (String.length "{") with 1%nat in Hf. change (String.length "}") with 1%nat in Hf.
    change ("{" +:+ ?s) with (String (char_of 123) s). cbn [value_from].
    change (code (char_of 123) =? 34) with false. change (code (char_of 123) =? 123) with true. cbv iota.
    destruct d as [|[k x] d]; [done|].
    cbn in Hw. apply andb_prop in Hw as [Hnd%bool_decide_eq_true Hw].
    assert (forallb (fun kv => json_written kv.2) ((k, x) :: d) = true) as Hw'.
    { etrans; [|exact Hw]. cbn. f_equal. clear. induction d as [|[? ?] d IH]; [done|]. cbn. by rewrite IH. }
    pose proof (members_read_back ((k, x) :: d) [] fuel rest IH Hw' ltac:(done) Hnd ltac:(lia)) as Hm.
    assert (exists t, py_join ("," +:+ iws) (List.map member_text ((k, x) :: d)) = String (char_of 34) t) as [t Ht].
    { destruct d; cbn [List.map py_join]; eexists; reflexivity. }
    rewrite Ht, string_app_cons in Hm |- *. exact Hm.
Qed.

Lemma json_loads_text j : json_written j = true -> json_loads (text j) = Ok j.
Proof using Hiws Hkws.
  intros Hw. unfold json_loads.
  pose proof (skip_ws_text j EmptyString Hw) as Hs. rewrite string_app_nil_r in Hs. rewrite Hs.
  pose proof (text_reads_back j Hw (S (S (2 * String.length (text j)))) EmptyString I ltac:(lia)) as Hr.
  rewrite string_app_nil_r in Hr. by rewrite Hr.
Qed.
End round_trip.

(** * Sorted keys *)

Section merge_sort_map.
Context {A B : Type} (RA : relation A) (RB : relation B) `{!RelDecision RA} `{!RelDecision RB} (f : A -> B).
Hypothesis Hf : forall x y, RB (f x) (f y) <-> RA x y.

Lemma list_merge_map l1 l2 :
  list_merge RB (f <$> l1) (f <$> l2) = f <$> list_merge RA l1 l2.
Proof using Hf.
  revert l2. induction l1 as [|x l1 IH1]; intros l2; [by destruct l2|].
  induction l2 as [|y l2 IH2]; [done|]. cbn.
  destruct (decide (RA x y)) as [Hr|Hr].
  - rewrite decide_True by (by apply Hf). cbn. f_equal. apply (IH1 (y :: l2)).
  - rewrite decide_False by (by rewrite Hf). cbn. f_equal. exact IH2.
Qed.

Definition map_stack : list (option (list A)) -> list (option (list B)) :=
  List.map (option_map (List.map f)).

Lemma merge_to_stack_map (st : list (option (list A))) (l : list A) :
  merge_list_to_stack RB (map_stack st) (f <$> l)
  = map_stack (merge_list_to_stack RA st l).
Proof using Hf.
  revert l. induction st as [|[l'|] st IH]; intros l; [done| |done].
  cbn. f_equal. by rewrite list_merge_map, IH.
Qed.

Lemma merge_stack_map st :
  merge_stack RB (map_stack st) = f <$> merge_stack RA st.
Proof using Hf.
  induction st as [|[l|] st IH]; [done| |done]. cbn. by rewrite IH, list_merge_map.
Qed.

Lemma merge_sort_map l : merge_sort RB (f <$> l) = f <$> merge_sort RA l.
Proof using Hf.
  unfold merge_sort.
  assert (forall st, merge_sort_aux RB (map_stack st) (f <$> l)
                     = f <$> merge_sort_aux RA st l) as Haux; [|apply (Haux [])].
  induction l as [|x l IH]; intros st; [apply merge_stack_map|].
  cbn. rewrite <- IH. by rewrite <- (merge_to_stack_map st [x]).
Qed.
End merge_sort_map.

Lemma dumps_sort_keys isep ksep j : dumps true isep ksep j = dumps false isep ksep (sort_keys j).
Proof.
  induction j as [| | | | |l IH|d IH] using json_nested; try done.
  - cbn. do 3 f_equal. rewrite List.map_map. apply List.map_ext_in. intros x Hx.
    rewrite Forall_forall in IH. apply IH. by apply list_elem_of_In.
  - cbn [dumps sort_keys]. unfold dumps_object. do 3 f_equal.
    set (g := fun kv : string * json => let '(k, v) := kv in (k, json_string k +:+ ksep +:+ dumps false isep ksep v)).
    set (s := fun kv : string * json => let '(k, v) := kv in (k, sort_keys v)).
    assert (List.map (fun kv => let '(k, v) := kv in (k, json_string k +:+ ksep +:+ dumps true isep ksep v)) d
            = g <$> List.map s d) as ->.
    { clear -IH. induction IH as [|[k v] d Hv _ IHd]; [done|]. cbn in *. by rewrite Hv, IHd. }
    rewrite (merge_sort_map jkey_le key_le g); [done|]. by intros [k v] [k' v'].
Qed.

Lemma forallb_snd {K} (p : json -> bool) (d : list (K * json)) :
  forallb (fun kv => match kv with (_, v) => p v end) d = true <-> Forall (fun kv => p kv.2 = true) d.
Proof.
  induction d as [|[k v] d IH]; [done|]. cbn. by rewrite andb_true_iff, IH, Forall_cons.
Qed.

Lemma json_written_obj d :
  bool_decide (NoDup d.*1) = true -> Forall (fun kv => json_written kv.2 = true) d ->
  json_written (JObj d) = true.
Proof. intros Hnd Hw. cbn [json_written]. rewrite Hnd. by apply forallb_snd. Qed.

Lemma json_written_arr l : Forall (fun j => json_written j = true) l -> json_written (JArr l) = true.
Proof. intros Hw. cbn. apply forallb_forall. rewrite Forall_forall in Hw. intros x Hx%list_elem_of_In. auto. Qed.

Lemma json_written_sort_keys j : json_written j = true -> json_written (sort_keys j) = true.
Proof.
  induction j as [| | | | |l IH|d IH] using json_nested; try done; cbn.
  - intros Hw. apply forallb_forall. intros x' (x & <- & Hx)%List.in_map_iff.
    rewrite Forall_forall in IH. apply IH; [by apply list_elem_of_In|].
    rewrite forallb_forall in Hw. auto.
  - intros [Hnd%bool_decide_eq_true Hw%forallb_snd]%andb_prop.
    set (s := fun kv : string * json => let '(k, v) := kv in (k, sort_keys v)).
    pose proof (merge_sort_Permutation jkey_le (List.map s d)) as Hp.
    rewrite andb_true_iff, bool_decide_eq_true, forallb_snd. rewrite Hp. split.
    + change (List.map s d) with (s <$> d). rewrite <- list_fmap_compose.
      rewrite (list_fmap_ext _ fst d); [done|]. by intros ? [].
    + apply Forall_map. rewrite Forall_forall in *. intros [k v] Hin. cbn.
      apply (IH (k, v) Hin). by apply (Hw (k, v)).
Qed.

(** What a writer of JSON text writes is read back, its keys sorted if it sorts them. *)
Lemma json_loads_dumps (sort : bool) iws kws j :
  (forall s, skip_ws (iws +:+ s) = skip_ws s) -> (forall s, skip_ws (kws +:+ s) = skip_ws s) ->
  json_written j = true ->
  json_loads (dumps sort ("," +:+ iws) (":" +:+ kws) j) = Ok (if sort then sort_keys j else j).
Proof.
  intros Hi Hk Hw. destruct sort.
  - rewrite dumps_sort_keys. by apply json_loads_text, json_written_sort_keys.
  - by apply json_loads_text.
Qed.

Lemma json_loads_compact j : json_written j = true -> json_loads (json_dumps_compact j) = Ok j.
Proof. by apply (json_loads_dumps false "" ""). Qed.

(** [json.dumps(x, sort_keys=True)] *)
Definition json_dumps_sorted : json -> string := dumps true ", " ": ".

Lemma json_loads_sorted j : json_written j = true -> json_loads (json_dumps_sorted j) = Ok (sort_keys j).
Proof. by apply (json_loads_dumps true " " " "). Qed.

(** * Reading a dictionary whose keys were sorted *)

Definition sort_items (d : list (string * json)) : list (string * json) :=
  merge_sort jkey_le (List.map (fun kv => match kv with (k, v) => (k, sort_keys v) end) d).

Lemma sort_items_perm d :
  sort_items d ≡ₚ List.map (fun kv => match kv with (k, v) => (k, sort_keys v) end) d.
Proof. apply merge_sort_Permutation. Qed.

Lemma sort_items_keys d : dict_keys (sort_items d) ≡ₚ dict_keys d.
Proof.
  unfold dict_keys. rewrite sort_items_perm.
  induction d as [|[k v] d IH]; [done|]. cbn. by rewrite IH.
Qed.

Lemma dict_get_sort_items k d :
  NoDup (dict_keys d) -> dict_get k (sort_items d) = sort_keys <$> dict_get k d.
Proof.
  intros Hnd. destruct (dict_get k d) as [v|] eqn:Hg; cbn.
  - apply dict_elem_get; [by rewrite sort_items_keys|].
    rewrite sort_items_perm. apply list_elem_of_In, List.in_map_iff. exists (k, v).
    split; [done|]. by apply list_elem_of_In, dict_get_elem.
  - apply dict_get_None. rewrite sort_items_keys. by apply dict_get_None.
Qed.

(** * Sorting keys twice *)

Lemma merge_sort_idem d :
  NoDup (dict_keys d) -> merge_sort jkey_le (merge_sort jkey_le d) = merge_sort jkey_le d.
Proof.
  intros Hnd.
  assert (Transitive jkey_le) by (intros x y z; unfold jkey_le; apply transitivity).
  assert (Total jkey_le) by (intros x y; unfold jkey_le; apply (total String.le)).
  apply (StronglySorted_unique_strong jkey_le).
  - intros [k v] [k' v'] Hin Hin' Hle Hle'. unfold jkey_le in *. cbn in *.
    assert (k = k') as -> by (by apply (anti_symm String.le)). f_equal.
    rewrite !merge_sort_Permutation in Hin. rewrite merge_sort_Permutation in Hin'.
    apply dict_elem_get in Hin, Hin'; [congruence|done..].
  - apply StronglySorted_merge_sort; apply _.
  - apply StronglySorted_merge_sort; apply _.
  - apply merge_sort_Permutation.
Qed.

Lemma sort_keys_idem j : json_written j = true -> sort_keys (sort_keys j) = sort_keys j.
Proof.
  induction j as [| | | | |l IH|d IH] using json_nested; try done; cbn.
  - intros Hw. f_equal. rewrite List.map_map. apply List.map_ext_in. intros x Hx.
    rewrite Forall_forall in IH. apply IH; [by apply list_elem_of_In|].
    rewrite forallb_forall in Hw. auto.
  - intros [Hnd%bool_decide_eq_true Hw%forallb_snd]%andb_prop. f_equal.
    fold (sort_items d).
    assert (List.map (fun kv : string * json => let '(k, v) := kv in (k, sort_keys v)) (sort_items d)
            = sort_items d) as ->.
    { rewrite <- (List.map_id (sort_items d)) at 2. apply List.map_ext_in. intros [k v] Hin%list_elem_of_In.
      rewrite sort_items_perm in Hin. apply list_elem_of_In, List.in_map_iff in Hin as ([k' v'] & [= <- <-] & Hin).
      apply list_elem_of_In in Hin. rewrite Forall_forall in IH, Hw. f_equal.
      apply (IH (k', v') Hin). by apply (Hw (k', v')). }
    apply merge_sort_idem. unfold dict_keys. rewrite List.map_map.
    rewrite (List.map_ext _ fst); [exact Hnd|]. by intros [].
Qed.

(** The canonical text of a value does not depend on the order of its keys. *)
Lemma canonical_sort_keys j :
  json_written j = true -> json_dumps_canonical (sort_keys j) = json_dumps_canonical j.
Proof.
  intros Hw. unfold json_dumps_canonical. by rewrite !dumps_sort_keys, sort_keys_idem.
Qed.

(** * The fuel is enough

    A value takes at least a character, so twice the text's length bounds the depth of
    the calls; more fuel changes no outcome. *)

Lemma skip_ws_length s : (String.length (skip_ws s) <= String.length s)%nat.
Proof. induction s as [|c s IH]; [done|]. cbn. destruct (is_ws c); cbn; lia. Qed.

Lemma string_from_shorter s t r : string_from s = Ok (t, r) -> (String.length r < String.length s)%nat.
Proof.
  remember (String.length s) as n eqn:Hn. revert s Hn t.
  induction (lt_wf n) as [n _ IH]. intros [|c s] -> t Hs; [done|]. cbn in Hs.
  destruct (code c =? 34); [injection Hs as _ <-; cbn; lia|].
  destruct (code c <? 32); [done|].
  assert (forall (u : Ascii.ascii) s' t', (String.length s' < String.length (String c s))%nat ->
    ('(t, rest) ← string_from s'; Ok (String u t, rest)) = (Ok (t', r) : jres (string * string)) ->
    (String.length r < String.length (String c s))%nat) as Hrec.
  { intros u s' t' Hl Hq. destruct (string_from s') as [[t1 r1]|] eqn:Hq'; [|done]. injection Hq as _ <-.
    pose proof (IH _ Hl s' eq_refl _ Hq'). lia. }
  destruct (code c =? 92).
  - destruct s as [|e s]; [done|]. destruct (code e =? 117).
    + destruct s as [|h1 [|h2 [|h3 [|h4 s]]]]; try done. destruct (hex4 h1 h2 h3 h4) as [z|]; [|done].
      destruct (255 <? z); [done|]. eapply Hrec; [|exact Hs]. cbn. lia.
    + destruct (unescape e); [|done]. eapply Hrec; [|exact Hs]. cbn. lia.
  - eapply Hrec; [|exact Hs]. cbn. lia.
Qed.

Lemma span_digits_length s :
  (String.length (span_digits s).1 + String.length (span_digits s).2 = String.length s)%nat.
Proof.
  induction s as [|c s IH]; [done|]. cbn. destruct (is_digit c); [|done].
  destruct (span_digits s). cbn in *. lia.
Qed.

Lemma number_from_shorter s j r : number_from s = Ok (j, r) -> (String.length r < String.length s)%nat.
Proof.
  unfold number_from.
  assert (String.length (minus_of s).2 <= String.length s)%nat as Hm.
  { destruct s as [|c s]; [done|]. cbn. destruct (code c =? 45); cbn; lia. }
  destruct (minus_of s) as [m s1]. cbn [snd] in Hm.
  destruct (whole_of s1) as [[w s2]|] eqn:Hw; [|done].
  assert (String.length s2 < String.length s1)%nat as Hs2.
  { unfold whole_of in Hw. pose proof (span_digits_length s1) as Hl.
    destruct (span_digits s1) as [[|d ds] r1]; [done|]. cbn in Hl.
    destruct (code d =? 48); injection Hw as _ <-; rewrite ?string_length_app; lia. }
  cbn [mbind result_bind]. unfold mbind, result_bind.
  assert (String.length (fraction_of s2).2 <= String.length s2)%nat as Hf.
  { destruct s2 as [|c s2]; [done|]. cbn. destruct (code c =? 46); [|done].
    pose proof (span_digits_length s2) as Hl. destruct (span_digits s2) as [[|] ?]; cbn in *; lia. }
  destruct (fraction_of s2) as [f s3]. cbn [snd] in Hf.
  assert (String.length (exponent_part s3).2 <= String.length s3)%nat as He.
  { destruct s3 as [|c s3]; [done|]. cbn. destruct (_ || _); [|done].
    assert (String.length (exponent_sign s3).2 <= String.length s3)%nat as Hsg.
    { destruct s3 as [|d s3]; [done|]. cbn. destruct (_ || _); cbn; lia. }
    destruct (exponent_sign s3) as [sg after]. pose proof (span_digits_length after) as Hl.
    destruct (span_digits after) as [[|] ?]; cbn in *; lia. }
  destruct (exponent_part s3) as [e s4]. cbn [snd] in He.
  destruct (_ && _).
  - destruct (_ <=? _); [|done]. intros [= _ <-]. lia.
  - destruct (parse_float _); [|done]. intros [= _ <-]. lia.
Qed.

Lemma substring_length n m s : (String.length (String.substring n m s) <= String.length s - n)%nat.
Proof.
  revert n m. induction s as [|c s IH]; intros [|n] [|m]; cbn; try lia.
  - specialize (IH O m). lia.
  - apply IH.
  - apply IH.
Qed.

Lemma word_from_shorter w s j otherwise j' r :
  (0 < String.length w)%nat -> (0 < String.length s)%nat ->
  (otherwise = Ok (j', r) -> (String.length r < String.length s)%nat) ->
  word_from w s j otherwise = Ok (j', r) -> (String.length r < String.length s)%nat.
Proof.
  intros Hw Hs Ho. unfold word_from. destruct (is_prefix w s); [|done]. intros [= _ <-].
  pose proof (substring_length (String.length w) (String.length s) s). lia.
Qed.

Lemma constant_from_shorter w s otherwise j' r :
  (0 < String.length w)%nat -> (0 < String.length s)%nat ->
  (otherwise = Ok (j', r) -> (String.length r < String.length s)%nat) ->
  constant_from w s otherwise = Ok (j', r) -> (String.length r < String.length s)%nat.
Proof.
  intros Hw Hs Ho. unfold constant_from. destruct (is_prefix w s); [|done].
  destruct hooks; [|done]. intros [= _ <-].
  pose proof (substring_length (String.length w) (String.length s) s). lia.
Qed.

Lemma value_from_shorter n :
  (forall s j r, value_from n s = Ok (j, r) -> (String.length r < String.length s)%nat)
  /\ (forall acc s j r, members_from n acc s = Ok (j, r) -> (String.length r < String.length s)%nat)
  /\ (forall acc s j r, elements_from n acc s = Ok (j, r) -> (String.length r < String.length s)%nat).
Proof.
  induction n as [|n (IHv & IHm & IHe)]; [done|]. split; [|split].
  - intros [|c s] j r Hv; [done|]. cbn [value_from] in Hv. pose proof (skip_ws_length s) as Hws.
    destruct (code c =? 34).
    { destruct (string_from s) as [[t r']|] eqn:Hs; [|done]. injection Hv as _ <-.
      apply string_from_shorter in Hs. cbn. lia. }
    destruct (code c =? 123).
    { destruct (skip_ws s) as [|d s']; [done|]. cbn in Hws. destruct (code d =? 125).
      - injection Hv as _ <-. cbn. lia.
      - apply IHm in Hv. cbn in *. lia. }
    destruct (code c =? 91).
    { destruct (skip_ws s) as [|d s']; [done|]. cbn in Hws. destruct (code d =? 93).
      - injection Hv as _ <-. cbn. lia.
      - apply IHe in Hv. cbn in *. lia. }
    revert Hv. apply word_from_shorter; [cbn; lia..|]. apply word_from_shorter; [cbn; lia..|].
    apply word_from_shorter; [cbn; lia..|].
    do 3 (apply constant_from_shorter; [cbn; lia..|]). apply number_from_shorter.
  - intros acc [|c s] j r Hv; [done|]. cbn [members_from] in Hv. destruct (code c =? 34); [|done].
    destruct (string_from s) as [[k r1]|] eqn:Hs; [|done]. apply string_from_shorter in Hs.
    unfold mbind, result_bind in Hv. pose proof (skip_ws_length r1) as Hw1.
    destruct (skip_ws r1) as [|d r2]; [done|]. destruct (code d =? 58); [|done].
    pose proof (skip_ws_length r2) as Hw2.
    destruct (value_from n (skip_ws r2)) as [[v r3]|] eqn:Hval; [|done]. apply IHv in Hval.
    pose proof (skip_ws_length r3) as Hw3. destruct (skip_ws r3) as [|e r4]; [done|]. cbn in *.
    destruct (code e =? 125); [injection Hv as _ <-; lia|]. destruct (code e =? 44); [|done].
    pose proof (skip_ws_length r4) as Hw4. apply IHm in Hv. lia.
  - intros acc s j r Hv. cbn [elements_from] in Hv. unfold mbind, result_bind in Hv.
    destruct (value_from n s) as [[v r3]|] eqn:Hval; [|done]. apply IHv in Hval.
    pose proof (skip_ws_length r3) as Hw3. destruct (skip_ws r3) as [|e r4]; [done|]. cbn in *.
    destruct (code e =? 93); [injection Hv as _ <-; lia|]. destruct (code e =? 44); [|done].
    pose proof (skip_ws_length r4) as Hw4. apply IHe in Hv. lia.
Qed.

Lemma value_from_fuel n :
  (forall m s, (2 * String.length s < n)%nat -> (2 * String.length s < m)%nat -> value_from n s = value_from m s)
  /\ (forall m acc s, (2 * String.length s + 1 < n)%nat -> (2 * String.length s + 1 < m)%nat ->
        members_from n acc s = members_from m acc s)
  /\ (forall m acc s, (2 * String.length s + 1 < n)%nat -> (2 * String.length s + 1 < m)%nat ->
        elements_from n acc s = elements_from m acc s).
Proof.
  induction n as [|n (IHv & IHm & IHe)]; [split; [|split]; intros; lia|]. split; [|split].
  - intros [|m] [|c s] Hn Hm; cbn in Hn, Hm; [lia|lia|done|]. cbn [value_from].
    pose proof (skip_ws_length s) as Hws. destruct (code c =? 34); [done|].
    destruct (code c =? 123).
    { destruct (skip_ws s) as [|d s']; [done|]. cbn in Hws. destruct (code d =? 125); [done|].
      apply IHm; cbn; lia. }
    destruct (code c =? 91); [|done].
    destruct (skip_ws s) as [|d s']; [done|]. cbn in Hws. destruct (code d =? 93); [done|].
    apply IHe; cbn; lia.
  - intros [|m] acc [|c s] Hn Hm; cbn in Hn, Hm; [lia|lia|done|]. cbn [members_from].
    destruct (code c =? 34); [|done].
    destruct (string_from s) as [[k r1]|] eqn:Hs; [|done]. apply string_from_shorter in Hs.
    unfold mbind, result_bind. pose proof (skip_ws_length r1) as Hw1.
    destruct (skip_ws r1) as [|d r2]; [done|]. destruct (code d =? 58); [|done]. cbn in Hw1.
    pose proof (skip_ws_length r2) as Hw2. rewrite (IHv m (skip_ws r2)) by lia.
    destruct (value_from m (skip_ws r2)) as [[v r3]|] eqn:Hval; [|done].
    apply (value_from_shorter m) in Hval. pose proof (skip_ws_length r3) as Hw3.
    destruct (skip_ws r3) as [|e r4]; [done|]. cbn in Hw3. destruct (code e =? 125); [done|].
    destruct (code e =? 44); [|done]. pose proof (skip_ws_length r4). apply IHm; lia.
  - intros [|m] acc s Hn Hm; [lia|]. cbn [elements_from]. rewrite (IHv m s) by lia.
    unfold mbind, result_bind. destruct (value_from m s) as [[v r3]|] eqn:Hval; [|done].
    apply (value_from_shorter m) in Hval. pose proof (skip_ws_length r3) as Hw3.
    destruct (skip_ws r3) as [|e r4]; [done|]. cbn in Hw3. destruct (code e =? 93); [done|].
    destruct (code e =? 44); [|done]. pose proof (skip_ws_length r4). apply IHe; lia.
Qed.

(** With more fuel the reader reads the same. *)
Lemma json_loads_fuel s n :
  (S (S (2 * String.length s)) <= n)%nat ->
  value_from n (skip_ws s) = value_from (S (S (2 * String.length s))) (skip_ws s).
Proof. intros Hn. pose proof (skip_ws_length s). apply value_from_fuel; lia. Qed.
End with_hooks.
