(* ===== verification/McpManifest.v ===== *)
(** The pinned capability manifest of the observability server (mcp_manifest.py):
    what discovery must show, exactly, before the client trusts a server. *)
From Stdlib Require Import ZArith Lia.
From stdpp Require Import prelude strings list sorting.
From S2P Require Import Prelude PyText Tools Domain Numbers JsonText JsonRoundTrip.
Local Open Scope Z_scope.

(** * Errors of the MCP modules, by the name of their class *)

Definition McpProtocolError : exn := OtherError "McpProtocolError".
Definition McpManifestError : exn := OtherError "McpManifestError".
Definition McpDispatchApprovalError : exn := OtherError "McpDispatchApprovalError".
Definition McpChildTimeoutError : exn := OtherError "McpChildTimeoutError".
Definition McpChildUnavailableError : exn := OtherError "McpChildUnavailableError".
Definition McpChildDiedMidCallError : exn := OtherError "McpChildDiedMidCallError".

(** [except E], [E] without subclasses that are raised here. *)
Definition is_error (expected e : exn) : bool := bool_decide (exn_name e = exn_name expected).

(** * What the MCP modules take from Pydantic

    [model_json_schema] of each tool's argument class; the reader of JSON text behind
    [validate_json]; the coercions of strict mode, as a second set of them; and the
    coercions to [bool] and to [float] (as the text of the float). *)
Class McpPydantic := {
  model_json_schema : ToolName -> jobject;
  read_json : string -> option json;
  strict_mode : Pydantic;
  coerce_bool : json -> option bool;
  coerce_float : json -> option string;
}.

(** The documented behaviour the statements rely on: JSON text is read as the value
    it was written from; strict mode takes an [int] from a JSON integer alone and
    still reads a timestamp's own text; [bool] and [float] take their own values. *)
Class McpPydanticLaws `{Pydantic} `{McpPydantic} := {
  read_json_dumps : forall (sort : bool) iws kws j,
    (forall s, skip_ws (iws +:+ s) = skip_ws s) -> (forall s, skip_ws (kws +:+ s) = skip_ws s) ->
    json_written j = true ->
    read_json (dumps sort ("," +:+ iws) (":" +:+ kws) j) = Some (if sort then sort_keys j else j);
  strict_int : forall j z, @coerce_int strict_mode j = Some z <-> j = JInt z;
  strict_datetime : forall t, @coerce_datetime strict_mode (JStr (dump_datetime t)) = Some t;
  strict_dump : forall t, @dump_datetime strict_mode t = dump_datetime t;
  coerce_bool_bool : forall b, coerce_bool (JBool b) = Some b;
  coerce_float_float : forall t, coerce_float (JFloat t) = Some t;
}.

(** * The manifest *)

Definition MCP_PROTOCOL_VERSION : string := "2025-11-25".
Definition MCP_SERVER_NAME : string := "causalops-observability".
Definition MCP_SERVER_VERSION : string := "1".

Record McpToolDefinition := { td_name : ToolName; td_input_schema : jobject }.

(** Descriptions and annotations of a discovered tool are dropped. *)
Record McpToolDiscovery := { ds_name : string; ds_input_schema : jobject }.

Record McpToolManifest := {
  mm_protocol_version : string;
  mm_server_name : string;
  mm_server_version : string;
  mm_tools : list McpToolDefinition;
}.

Definition dump_manifest (m : McpToolManifest) : json :=
  JObj [("protocol_version", JStr (mm_protocol_version m));
        ("server_name", JStr (mm_server_name m));
        ("server_version", JStr (mm_server_version m));
        ("tools", JArr (List.map (fun t =>
            JObj [("name", JStr (value (td_name t))); ("input_schema", JObj (td_input_schema t))])
          (mm_tools m)))].

Definition manifest_canonical_json (m : McpToolManifest) : string :=
  json_dumps_canonical (dump_manifest m).

Definition manifest_sha256 `{Host} (m : McpToolManifest) : string :=
  sha256_hex (manifest_canonical_json m).

(** [json.dumps] with [allow_nan=False] raises on a float that is no number, and an
    [int] of too many digits has no text. *)
Fixpoint json_encodable (j : json) : bool :=
  match j with
  | JInt z => int_written z
  | JFloat t => negb (bool_decide (t ∈ ["NaN"; "Infinity"; "-Infinity"]))
  | JArr l => forallb json_encodable l
  | JObj d => forallb (fun kv => match kv with (_, v) => json_encodable v end) d
  | _ => true
  end.

Definition canonical_json (j : json) : res string :=
  if json_encodable j then Ok (json_dumps_canonical j) else Err McpManifestError.

Definition TOOL_ARGUMENT_MODELS : list ToolName :=
  [QUERY_METRIC; QUERY_LOGS; LIST_RECENT_CHANGES; GET_TOPOLOGY].

Definition PINNED_MANIFEST_SHA256 : string :=
  "8e10d43c319ce1b6bdac81d5dc290ccbfc472c10e59c9345d12d04d49ee3b82d".

Definition build_manifest `{McpPydantic} : McpToolManifest := {|
  mm_protocol_version := MCP_PROTOCOL_VERSION;
  mm_server_name := MCP_SERVER_NAME;
  mm_server_version := MCP_SERVER_VERSION;
  mm_tools := List.map (fun name => {| td_name := name; td_input_schema := model_json_schema name |})
                TOOL_ARGUMENT_MODELS;
|}.

Definition pinned_observability_manifest `{McpPydantic} `{Host} : res McpToolManifest :=
  if bool_decide (manifest_sha256 build_manifest = PINNED_MANIFEST_SHA256)
  then Ok build_manifest else Err McpManifestError.

(** [actual[tool.name] = tool.input_schema], refusing a name seen before. *)
Fixpoint collect_discovered (actual : list (string * jobject)) (discovered : list McpToolDiscovery)
    : res (list (string * jobject)) :=
  match discovered with
  | [] => Ok actual
  | tool :: discovered =>
      if dict_mem (ds_name tool) actual then Err McpManifestError
      else collect_discovered (dict_set (ds_name tool) (ds_input_schema tool) actual) discovered
  end.

Definition same_keys {V W} (a : list (string * V)) (b : list (string * W)) : bool :=
  forallb (fun k => bool_decide (k ∈ dict_keys b)) (dict_keys a)
  && forallb (fun k => bool_decide (k ∈ dict_keys a)) (dict_keys b).

Fixpoint check_schemas (actual expected : list (string * jobject)) : res unit :=
  match expected with
  | [] => Ok tt
  | (name, expected_schema) :: expected =>
      match dict_get name actual with
      | None => Err KeyError
      | Some schema =>
          a ← canonical_json (JObj schema);
          e ← canonical_json (JObj expected_schema);
          if bool_decide (a = e) then check_schemas actual expected else Err McpManifestError
      end
  end.

Definition expected_schemas (m : McpToolManifest) : list (string * jobject) :=
  fold_left (fun d t => dict_set (value (td_name t)) (td_input_schema t) d) (mm_tools m) [].

Definition verify_discovered_tools `{McpPydantic} `{Host} (discovered : list McpToolDiscovery)
    : res McpToolManifest :=
  manifest ← pinned_observability_manifest;
  let expected := expected_schemas manifest in
  actual ← collect_discovered [] discovered;
  if negb (same_keys actual expected) then Err McpManifestError
  else _ ← check_schemas actual expected; Ok manifest.

Definition approved_tool_names `{McpPydantic} `{Host} : res (list ToolName) :=
  manifest ← pinned_observability_manifest; Ok (List.map td_name (mm_tools manifest)).

(** * Lemmas *)

Section manifest_lemmas.
Context `{McpPydantic} `{Host}.

Lemma pinned_manifest_built m : pinned_observability_manifest = Ok m -> m = build_manifest.
Proof. unfold pinned_observability_manifest. case_bool_decide; intros; by simplify_eq. Qed.

Lemma approved_names_are l : approved_tool_names = Ok l -> l = TOOL_ARGUMENT_MODELS.
Proof.
  unfold approved_tool_names. destruct pinned_observability_manifest as [m|] eqn:Hm; [|done].
  apply pinned_manifest_built in Hm as ->. by intros [= <-].
Qed.

Lemma collect_discovered_spec discovered actual actual' :
  collect_discovered actual discovered = Ok actual' ->
  actual' = actual ++ List.map (fun t => (ds_name t, ds_input_schema t)) discovered
  /\ (NoDup (dict_keys actual) -> NoDup (dict_keys actual')).
Proof using.
  revert actual. induction discovered as [|t ts IH]; intros actual; cbn.
  - intros [= <-]. by rewrite app_nil_r.
  - destruct (dict_mem (ds_name t) actual) eqn:Hm; [done|]. intros [-> Hnd]%IH.
    assert (ds_name t ∉ dict_keys actual) as Hf by (by intros ?%dict_mem_true; congruence).
    split.
    + rewrite dict_set_fresh by done. by rewrite <- app_assoc.
    + intros ?. apply Hnd. by apply dict_keys_set_NoDup.
Qed.

Lemma same_keys_spec {V W} (a : list (string * V)) (b : list (string * W)) :
  same_keys a b = true <-> forall k, k ∈ dict_keys a <-> k ∈ dict_keys b.
Proof using.
  unfold same_keys. rewrite andb_true_iff, !forallb_forall. split.
  - intros [Ha Hb] k. split; intros Hk%list_elem_of_In.
    + by apply Ha, bool_decide_eq_true in Hk.
    + by apply Hb, bool_decide_eq_true in Hk.
  - intros Hk. split; intros k Hin%list_elem_of_In; apply bool_decide_eq_true; by apply Hk.
Qed.

Lemma canonical_json_Ok j t : canonical_json j = Ok t -> t = json_dumps_canonical j.
Proof using. unfold canonical_json. destruct (json_encodable j); intros; by simplify_eq. Qed.

Lemma check_schemas_spec actual expected :
  check_schemas actual expected = Ok tt ->
  Forall (fun ns => exists schema, dict_get ns.1 actual = Some schema
    /\ json_dumps_canonical (JObj schema) = json_dumps_canonical (JObj ns.2)) expected.
Proof using.
  induction expected as [|[name es] expected IH]; intros Hc; [done|]. cbn in Hc.
  destruct (dict_get name actual) as [schema|] eqn:Hg; [|done].
  destruct (canonical_json (JObj schema)) as [a|] eqn:Ha; [|done].
  destruct (canonical_json (JObj es)) as [e|] eqn:He; [|done]. cbn in Hc.
  case_bool_decide as Hae; [|done]. constructor; [|by apply IH].
  exists schema. split; [done|]. apply canonical_json_Ok in Ha, He. transitivity a; [done|]. by transitivity e.
Qed.

(** The names a manifest approves, as text. *)
Lemma expected_schemas_built :
  expected_schemas build_manifest
  = List.map (fun name => (value name, model_json_schema name)) TOOL_ARGUMENT_MODELS.
Proof using. reflexivity. Qed.

(** What passes the comparison: the pinned tools, each once, each with its own schema. *)
Lemma verify_discovered_spec discovered m :
  verify_discovered_tools discovered = Ok m ->
  m = build_manifest /\ manifest_sha256 build_manifest = PINNED_MANIFEST_SHA256
  /\ List.map ds_name discovered ≡ₚ List.map value TOOL_ARGUMENT_MODELS
  /\ forall t, t ∈ TOOL_ARGUMENT_MODELS -> exists d, d ∈ discovered /\ ds_name d = value t
       /\ json_dumps_canonical (JObj (ds_input_schema d)) = json_dumps_canonical (JObj (model_json_schema t)).
Proof using.
  unfold verify_discovered_tools. intros (m' & Hm & Hv)%result_bind_Ok.
  unfold pinned_observability_manifest in Hm. case_bool_decide as Hpin; [|done]. injection Hm as <-.
  apply result_bind_Ok in Hv as (actual & Hact & Hv). apply collect_discovered_spec in Hact as [Hact Hnd].
  specialize (Hnd (NoDup_nil_2)). rewrite app_nil_l in Hact.
  assert (dict_keys actual = List.map ds_name discovered) as Hkeys.
  { rewrite Hact. unfold dict_keys. clear. induction discovered as [|d l IH]; [done|]. cbn. by f_equal. }
  destruct (same_keys actual _) eqn:Hsame; [|done]. cbn [negb] in Hv.
  rewrite expected_schemas_built in Hsame, Hv. rewrite same_keys_spec in Hsame.
  apply result_bind_Ok in Hv as ([] & Hsch%check_schemas_spec & [= <-]). split_and!; [done..| |].
  - rewrite Hkeys in Hnd, Hsame. apply NoDup_Permutation; [done| |].
    + repeat (constructor; [by (set_unfold; intuition discriminate)|]). constructor.
    + intros k. by rewrite Hsame.
  - intros t Ht. rewrite Forall_forall in Hsch.
    destruct (Hsch (value t, model_json_schema t)) as (schema & Hget & Hcan).
    { by apply list_elem_of_In, (in_map (fun name => (value name, model_json_schema name))), list_elem_of_In. }
    apply dict_get_elem in Hget. rewrite Hact, list_elem_of_In in Hget.
    apply in_map_iff in Hget as (d & [= Hn Hd] & Hin%list_elem_of_In). exists d. by rewrite Hd.
Qed.
End manifest_lemmas.
