(* ===== verification/McpStdio.v ===== *)
(** The JSON-RPC state machines of both ends of the pipe (mcp_stdio.py): one line to
    one message and back, the client's session ([McpStdioSession]), and the server's
    request handler ([McpObservabilityServer]) over an executor it is given.  At the end,
    that a message crosses the pipe as one line of printable characters.

    Messages are association lists of JSON values, as Python's dictionaries are; an
    error raised after a field was assigned keeps the assignment ([ST]). *)
From Stdlib Require Import ZArith Lia.
From stdpp Require Import prelude strings list.
From S2P Require Import Prelude PyText Tools Domain JsonText JsonRoundTrip McpManifest Float64 Numbers.
Local Open Scope Z_scope.

Inductive McpSessionState := NEW | INITIALIZING | INITIALIZED | READY.

#[export] Instance McpSessionState_eq : EqDecision McpSessionState.
Proof. solve_decision. Defined.

Record McpToolCallResult := {
  cr_content : list string;
  cr_is_error : bool;
}.

(** [McpToolExecutor]: what a server hands an accepted call to, with its own state. *)
Class McpToolExecutor (X : Type) := executor_call : ToolArguments -> ST X exn McpToolCallResult.

Inductive PolicyApprovalRequiredExecutor := ApprovalRequired.

#[export] Instance approval_required_executor : McpToolExecutor PolicyApprovalRequiredExecutor :=
  fun _ => mret {| cr_content := ["MCP dispatch is unavailable until deterministic policy approval"];
                   cr_is_error := true |}.

(** * Reading fields *)

(** [message.get(k) == s] *)
Definition field_is (k s : string) (message : jobject) : bool :=
  match dict_get k message with Some (JStr t) => bool_decide (t = s) | _ => false end.

(** [message.get(k) is None] *)
Definition field_none (k : string) (message : jobject) : bool :=
  match dict_get k message with None | Some JNull => true | _ => false end.

Definition check (ok : bool) {S} : ST S exn unit := if ok then mret tt else raise McpProtocolError.

(** * Lines *)

(** [s.removesuffix(c)] *)
Fixpoint remove_last (c : Z) (s : string) : string :=
  match s with
  | EmptyString => EmptyString
  | String d EmptyString => if code d =? c then EmptyString else s
  | String d rest => String d (remove_last c rest)
  end.

Definition decode_jsonrpc_line (line : string) : res jobject :=
  let payload := remove_last 13 (remove_last 10 line) in
  if bool_decide (payload = "") || py_in nl payload || py_in (chr 13) payload
  then Err McpProtocolError
  else
    match json_loads payload with
    | Err JSONDecodeError | Err BadNumber => Err McpProtocolError
    | Err BeyondLatin1 => Err OutsideTextModel
    | Ok (JObj parsed) => if field_is "jsonrpc" "2.0" parsed then Ok parsed else Err McpProtocolError
    | Ok _ => Err McpProtocolError
    end.

Definition encode_jsonrpc_line (message : jobject) : res string :=
  if negb (field_is "jsonrpc" "2.0" message) then Err McpProtocolError
  else if negb (json_encodable (JObj message)) then Err McpProtocolError
  else
    let encoded := json_dumps_compact (JObj message) in
    if py_in nl encoded || py_in (chr 13) encoded then Err McpProtocolError
    else Ok (encoded +:+ nl).

Section stdio.
Context `{Pydantic} `{McpPydantic} `{Host}.

(** * Arguments *)

(** The wire values, as text, read by the strict schema. *)
Definition validate_strict_tool_arguments (payload : jobject) : res ToolArguments :=
  if negb (json_encodable (JObj payload)) then Err McpProtocolError
  else
    match read_json (json_dumps_compact (JObj payload)) with
    | Some (JObj d) =>
        match @validate_arguments strict_mode d with
        | Some a => Ok a
        | None => Err McpProtocolError
        end
    | _ => Err McpProtocolError
    end.

(** [{"tool": name.value, **arguments}] *)
Definition with_tool (name : string) (arguments : jobject) : jobject :=
  fold_left (fun d kv => dict_set kv.1 kv.2 d) arguments [("tool", JStr name)].

(** * The client's session *)

Record McpStdioSession := {
  ss_state : McpSessionState;
  ss_request_id : Z;
  ss_pending : option (Z * string);
  ss_manifest : option McpToolManifest;
}.

#[export] Instance settable_session : Settable McpStdioSession := fun s =>
  {| ss_state := ss_state s; ss_request_id := ss_request_id s; ss_pending := ss_pending s;
     ss_manifest := ss_manifest s |}.

Notation SessionM := (ST McpStdioSession exn).

Definition new_session : McpStdioSession :=
  {| ss_state := NEW; ss_request_id := 0; ss_pending := None; ss_manifest := None |}.

Definition session_manifest : SessionM McpToolManifest :=
  s ← get_state;
  match ss_manifest s with None => raise McpProtocolError | Some m => mret m end.

Definition request (method : string) (params : jobject) : SessionM jobject :=
  s ← get_state;
  match ss_pending s with
  | Some _ => raise McpProtocolError
  | None =>
      let id := ss_request_id s + 1 in
      _ ← put_state (s <| ss_request_id := id |> <| ss_pending := Some (id, method) |>);
      mret [("jsonrpc", JStr "2.0"); ("id", JInt id); ("method", JStr method); ("params", JObj params)]
  end.

Definition initialize_params : jobject :=
  [("protocolVersion", JStr MCP_PROTOCOL_VERSION); ("capabilities", JObj []);
   ("clientInfo", JObj [("name", JStr "causalops"); ("version", JStr "1")])].

Definition initialize_request : SessionM jobject :=
  s ← get_state;
  _ ← check (bool_decide (ss_state s = NEW));
  _ ← put_state (s <| ss_state := INITIALIZING |>);
  request "initialize" initialize_params.

(** The answer to the outstanding request: its [result] object.  A request is
    forgotten only once an answer carried its id. *)
Definition session_response (message : jobject) (method : string) : SessionM jobject :=
  s ← get_state;
  match ss_pending s with
  | None => raise McpProtocolError
  | Some (id, pending_method) =>
      _ ← check (bool_decide (pending_method = method));
      _ ← check (field_is "jsonrpc" "2.0" message);
      _ ← check (match dict_get "id" message with Some (JInt n) => n =? id | _ => false end);
      _ ← put_state (s <| ss_pending := None |>);
      match field_none "error" message, dict_get "result" message with
      | true, Some (JObj result) => mret result
      | _, _ => raise McpProtocolError
      end
  end.

Definition accept_initialize_response (message : jobject) : SessionM unit :=
  result ← session_response message "initialize";
  _ ← check (field_is "protocolVersion" MCP_PROTOCOL_VERSION result);
  manifest ← lift_result pinned_observability_manifest;
  _ ← check (match dict_get "serverInfo" result with
             | Some (JObj info) =>
                 field_is "name" (mm_server_name manifest) info
                 && field_is "version" (mm_server_version manifest) info
             | _ => false
             end);
  modify (fun s => s <| ss_state := INITIALIZED |>).

Definition initialized_notification : SessionM jobject :=
  s ← get_state;
  _ ← check (bool_decide (ss_state s = INITIALIZED));
  _ ← put_state (s <| ss_state := READY |>);
  mret [("jsonrpc", JStr "2.0"); ("method", JStr "notifications/initialized")].

Definition tools_list_request : SessionM jobject :=
  s ← get_state;
  _ ← check (bool_decide (ss_state s = READY));
  request "tools/list" [].

(** [McpToolDiscovery.model_validate]: the alias is looked up first, other keys are
    ignored. *)
Definition validate_discovery (tool : json) : option McpToolDiscovery :=
  match tool with
  | JObj d =>
      name ← field_str "name" d;
      match dict_get "inputSchema" d, dict_get "input_schema" d with
      | Some (JObj schema), _ | None, Some (JObj schema) =>
          Some {| ds_name := name; ds_input_schema := schema |}
      | _, _ => None
      end
  | _ => None
  end.

Definition accept_tools_list_response (message : jobject) : SessionM McpToolManifest :=
  result ← session_response message "tools/list";
  _ ← check (field_none "nextCursor" result);
  match dict_get "tools" result with
  | Some (JArr raw_tools) =>
      match mapM validate_discovery raw_tools with
      | None => raise McpProtocolError
      | Some tools =>
          match verify_discovered_tools tools with
          | Ok manifest =>
              _ ← modify (fun s => s <| ss_manifest := Some manifest |>);
              mret manifest
          | Err e => if is_error McpManifestError e then raise McpProtocolError else raise e
          end
      end
  | _ => raise McpProtocolError
  end.

Definition tool_call_request (name : ToolName) (arguments : jobject) : SessionM jobject :=
  s ← get_state;
  _ ← check (bool_decide (ss_state s = READY));
  _ ← check (is_some (ss_manifest s));
  parsed ← lift_result (validate_strict_tool_arguments (with_tool (value name) arguments));
  _ ← check (bool_decide (arguments_tool parsed = name));
  request "tools/call" [("name", JStr (value name)); ("arguments", JObj (dump_arguments parsed))].

Definition validate_text_content (j : json) : option string :=
  match j with
  | JObj d =>
      _ ← no_extra ["type"; "text"] d;
      type ← field_str "type" d;
      text ← field_str "text" d;
      if bool_decide (type = "text") then Some text else None
  | _ => None
  end.

Definition validate_call_result (d : jobject) : option McpToolCallResult :=
  _ ← no_extra ["content"; "isError"] d;
  content ← match dict_get "content" d with
            | Some (JArr l) => mapM validate_text_content l
            | _ => None
            end;
  is_error ← match dict_get "isError" d with None => Some false | Some j => coerce_bool j end;
  Some {| cr_content := content; cr_is_error := is_error |}.

Definition accept_tool_call_response (message : jobject) : SessionM McpToolCallResult :=
  result ← session_response message "tools/call";
  match validate_call_result result with
  | None => raise McpProtocolError
  | Some parsed => if cr_is_error parsed then raise McpProtocolError else mret parsed
  end.

(** * The server *)

Section server.
Context {X : Type} `{McpToolExecutor X}.

Record McpObservabilityServer := {
  sv_executor : X;
  sv_state : McpSessionState;
  sv_manifest : McpToolManifest;
}.

#[export] Instance settable_server : Settable McpObservabilityServer := fun s =>
  {| sv_executor := sv_executor s; sv_state := sv_state s; sv_manifest := sv_manifest s |}.

Notation ServerM := (ST McpObservabilityServer exn).

(** Both constructors: the executor is the argument; the public one gives the
    refusing executor. *)
Definition server_with (executor : X) : res McpObservabilityServer :=
  pinned ← pinned_observability_manifest;
  manifest ← verify_discovered_tools
    (List.map (fun tool => {| ds_name := value (td_name tool);
                              ds_input_schema := td_input_schema tool |}) (mm_tools pinned));
  Ok {| sv_executor := executor; sv_state := NEW; sv_manifest := manifest |}.

Definition server_response (request_id : json) (result : jobject) : jobject :=
  [("jsonrpc", JStr "2.0"); ("id", request_id); ("result", JObj result)].

Definition server_request_id (message : jobject) : ServerM json :=
  match dict_get "id" message with
  | Some (JStr s) => mret (JStr s)
  | Some (JInt z) => mret (JInt z)
  | Some (JFloat t) => mret (JFloat t)
  | _ => raise McpProtocolError
  end.

Definition server_params (message : jobject) : ServerM jobject :=
  match dict_get "params" message with
  | None => mret []
  | Some (JObj params) => mret params
  | Some _ => raise McpProtocolError
  end.

Definition tool_annotations : json :=
  JObj [("readOnlyHint", JBool true); ("destructiveHint", JBool false);
        ("idempotentHint", JBool true); ("openWorldHint", JBool false)].

Definition listed_tool (tool : McpToolDefinition) : json :=
  JObj [("name", JStr (value (td_name tool))); ("inputSchema", JObj (td_input_schema tool));
        ("annotations", tool_annotations)].

Definition dump_call_result (r : McpToolCallResult) : jobject :=
  [("content", JArr (List.map (fun text => JObj [("type", JStr "text"); ("text", JStr text)])
      (cr_content r)));
   ("isError", JBool (cr_is_error r))].

(** [self._executor.call(arguments)] *)
Definition run_executor (arguments : ToolArguments) : ServerM McpToolCallResult := fun s =>
  let '(r, x) := executor_call arguments (sv_executor s) in (r, s <| sv_executor := x |>).

Definition handle_initialized (message : jobject) : ServerM (option jobject) :=
  s ← get_state;
  _ ← check (negb (dict_mem "id" message) && bool_decide (sv_state s = INITIALIZED));
  _ ← put_state (s <| sv_state := READY |>);
  mret None.

Definition handle_initialize (request_id : json) (message : jobject) : ServerM (option jobject) :=
  s ← get_state;
  _ ← check (bool_decide (sv_state s = NEW));
  params ← server_params message;
  _ ← check (field_is "protocolVersion" MCP_PROTOCOL_VERSION params);
  _ ← put_state (s <| sv_state := INITIALIZED |>);
  mret (Some (server_response request_id
    [("protocolVersion", JStr MCP_PROTOCOL_VERSION);
     ("capabilities", JObj [("tools", JObj [("listChanged", JBool false)])]);
     ("serverInfo", JObj [("name", JStr (mm_server_name (sv_manifest s)));
                          ("version", JStr (mm_server_version (sv_manifest s)))])])).

Definition handle_tools_call (request_id : json) (message : jobject) : ServerM (option jobject) :=
  params ← server_params message;
  match dict_get "name" params, dict_get "arguments" params with
  | Some (JStr name), Some (JObj raw_arguments) =>
      match of_value name : option ToolName with
      | None => raise McpProtocolError
      | Some tool_name =>
          arguments ← lift_result
            (validate_strict_tool_arguments (with_tool (value tool_name) raw_arguments));
          _ ← check (bool_decide (arguments_tool arguments = tool_name));
          result ← run_executor arguments;
          mret (Some (server_response request_id (dump_call_result result)))
      end
  | _, _ => raise McpProtocolError
  end.

Definition handle (message : jobject) : ServerM (option jobject) :=
  _ ← check (field_is "jsonrpc" "2.0" message);
  match dict_get "method" message with
  | Some (JStr method) =>
      if bool_decide (method = "notifications/initialized") then handle_initialized message
      else
        _ ← check (dict_mem "id" message);
        request_id ← server_request_id message;
        if bool_decide (method = "initialize") then handle_initialize request_id message
        else
          s ← get_state;
          _ ← check (bool_decide (sv_state s = READY));
          if bool_decide (method = "tools/list") then
            mret (Some (server_response request_id
              [("tools", JArr (List.map listed_tool (mm_tools (sv_manifest s))))]))
          else
            _ ← check (bool_decide (method = "tools/call"));
            handle_tools_call request_id message
  | _ => raise McpProtocolError
  end.
End server.
End stdio.

Arguments McpObservabilityServer : clear implicits.

(** The public constructor. *)
Definition new_server `{McpPydantic} `{Host}
    : res (McpObservabilityServer PolicyApprovalRequiredExecutor) :=
  server_with ApprovalRequired.

(** * Printable text *)

Fixpoint printable (s : string) : bool :=
  match s with
  | EmptyString => true
  | String c s => (32 <=? code c) && printable s
  end.

Lemma printable_app s t : printable (s +:+ t) = printable s && printable t.
Proof.
  induction s as [|c s IH]; [done|]. rewrite string_app_cons. cbn. by rewrite IH, andb_assoc.
Qed.

Lemma printable_cons c s : printable (String c s) = (32 <=? code c) && printable s.
Proof. done. Qed.

Lemma printable_join sep l :
  printable sep = true -> forallb printable l = true -> printable (py_join sep l) = true.
Proof.
  intros Hs. induction l as [|w l IH]; [done|]. cbn [forallb]. intros [Hw Hl]%andb_prop.
  destruct l as [|w' l]; [done|]. change (py_join sep (w :: w' :: l)) with (w +:+ sep +:+ py_join sep (w' :: l)).
  by rewrite !printable_app, Hw, Hs, IH.
Qed.

Lemma printable_json_char c : printable (json_char c) = true.
Proof. destruct c as [[] [] [] [] [] [] [] []]; reflexivity. Qed.

Lemma printable_json_string s : printable (json_string s) = true.
Proof.
  unfold json_string. rewrite !printable_app.
  assert (printable (concat_chars json_char s) = true) as ->; [|done].
  induction s as [|c s IH]; [done|]. cbn. by rewrite printable_app, printable_json_char, IH.
Qed.

Lemma printable_digits s : printable (span_digits s).1 = true.
Proof.
  induction s as [|c s IH]; [done|]. cbn. destruct (is_digit c) eqn:Hc; [|done].
  destruct (span_digits s). cbn in *. rewrite IH. unfold is_digit in Hc. lia.
Qed.

Lemma printable_split s p r : s = p +:+ r -> printable p = true -> printable s = printable r.
Proof. intros -> Hp. by rewrite printable_app, Hp. Qed.

(** A text that is a number and nothing more has no control character. *)
Lemma printable_number s j r : number_from s = Ok (j, r) -> printable s = printable r.
Proof.
  unfold number_from.
  assert (printable s = printable (minus_of s).2) as ->.
  { destruct s as [|c s]; [done|]. cbn. case (Z.eqb_spec (code c) 45) as [Hc|]; [|done]. cbn. rewrite Hc. done. }
  destruct (minus_of s) as [m s1]. cbn [snd].
  assert (forall w s2, whole_of s1 = Ok (w, s2) -> printable s1 = printable s2) as Hwhole.
  { intros w s2. unfold whole_of. pose proof (span_digits_split s1) as Hs.
    pose proof (printable_digits s1) as Hd. destruct (span_digits s1) as [[|d ds] r']; [done|]. cbn in Hs, Hd.
    apply andb_prop in Hd as [Hd Hds].
    case (Z.eqb_spec (code d) 48); intros _ [= <- <-]; rewrite Hs, string_app_cons; cbn;
      by rewrite Hd, ?printable_app, ?Hds. }
  destruct (whole_of s1) as [[w s2]|] eqn:Hw; [|done]. rewrite (Hwhole w s2) by done. cbn.
  assert (printable s2 = printable (fraction_of s2).2) as ->.
  { destruct s2 as [|c s2]; [done|]. cbn. case (Z.eqb_spec (code c) 46) as [Hc|]; [|done].
    pose proof (span_digits_split s2) as Hs. pose proof (printable_digits s2) as Hd.
    destruct (span_digits s2) as [[|d ds] r']; [done|]. cbn [fst snd] in *.
    rewrite Hc. change (32 <=? 46) with true. by rewrite (printable_split _ _ _ Hs Hd). }
  destruct (fraction_of s2) as [f s3]. cbn [snd].
  assert (printable s3 = printable (exponent_part s3).2) as ->.
  { destruct s3 as [|c s3]; [done|]. cbn.
    destruct ((code c =? 101) || (code c =? 69)) eqn:Hc; [|done].
    assert (32 <=? code c = true) as -> by lia.
    assert (exponent_sign s3 = (EmptyString, s3)
            \/ exists d, s3 = String d (exponent_sign s3).2 /\ 32 <=? code d = true) as Hsign.
    { destruct s3 as [|d s3]; [by left|]. cbn.
      destruct ((code d =? 45) || (code d =? 43)) eqn:Hd; [right|by left].
      exists d. split; [done|]. lia. }
    assert (printable s3 = printable (exponent_sign s3).2) as Hafter.
    { destruct Hsign as [->|(d & Hs & Hd)]; [done|]. rewrite Hs at 1. cbn. by rewrite Hd. }
    destruct (exponent_sign s3) as [sg after]. cbn [snd] in Hafter.
    pose proof (span_digits_split after) as Hs. pose proof (printable_digits after) as Hd.
    destruct (span_digits after) as [[|d ds] r']; [cbn; by rewrite ?(proj2 (Z.leb_le _ _)) by lia|].
    cbn [fst snd] in *. by rewrite Hafter, (printable_split _ _ _ Hs Hd). }
  destruct (exponent_part s3) as [e s4]. cbn [snd].
  destruct (_ && _).
  - destruct (_ <=? _); [|done]. by intros [= _ <-].
  - destruct (parse_finite_float _); [|done]. by intros [= _ <-].
Qed.

Lemma printable_dumps isep ksep j :
  printable isep = true -> printable ksep = true -> json_written j = true ->
  printable (dumps false isep ksep j) = true.
Proof.
  intros Hi Hk. induction j as [|[]|z|t|s|l IH|d IH] using json_nested; intros Hw; try done.
  - apply (printable_number _ _ _ (number_from_int z Hw)).
  - cbn in Hw. unfold float_written in Hw. destruct (number_from t) as [[j r]|] eqn:Hn; [|done].
    destruct j, r; try done. apply (printable_number _ _ _ Hn).
  - apply printable_json_string.
  - cbn [dumps json_written] in *. rewrite !printable_app. apply andb_true_iff. split; [done|].
    apply andb_true_iff. split; [|done].
    apply printable_join; [done|]. rewrite forallb_forall in *. intros t (x & <- & Hx)%List.in_map_iff.
    rewrite Forall_forall in IH. apply IH; [by apply list_elem_of_In|auto].
  - cbn [dumps json_written] in *. apply andb_prop in Hw as [_ Hw%forallb_snd]. unfold dumps_object.
    rewrite !printable_app. apply andb_true_iff. split; [done|]. apply andb_true_iff. split; [|done].
    apply printable_join; [done|]. apply forallb_forall.
    intros t Ht%list_elem_of_In. apply list_elem_of_fmap in Ht as ([k' t'] & -> & Hin).
    apply list_elem_of_In, List.in_map_iff in Hin as ([k v] & [= <- <-] & Hin).
    rewrite Forall_forall in IH, Hw. apply list_elem_of_In in Hin. cbn.
    rewrite !printable_app, printable_json_string, Hk. apply (IH (k, v) Hin). by apply (Hw (k, v)).
Qed.

Lemma printable_no_control s n : printable s = true -> n < 32 -> 0 <= n -> py_in (chr n) s = false.
Proof.
  intros Hs Hn H0. induction s as [|c s IH]; [done|]. cbn in Hs. apply andb_prop in Hs as [Hc Hs].
  cbn. rewrite IH by done. rewrite orb_false_r. unfold chr, char_of. cbn.
  rewrite bool_decide_false; [done|]. intros <-. unfold code in Hc.
  pose proof (Z2N.id n H0) as Hid. rewrite Ascii.N_ascii_embedding in Hc by (change 256%N with (Z.to_N 256); apply Z2N.inj_lt; lia).
  rewrite Hid in Hc. apply Z.leb_le in Hc. lia.
Qed.

Lemma printable_no_newline s : printable s = true -> py_in nl s = false.
Proof. intros Hs. by apply (printable_no_control s 10). Qed.

Lemma remove_last_absent c s : py_in (chr c) s = false -> 0 <= c < 256 -> remove_last c s = s.
Proof.
  intros Hs Hc. induction s as [|d s IH]; [done|]. cbn in Hs. apply orb_false_iff in Hs as [Hd Hs].
  cbn. rewrite IH by done. destruct s as [|e s]; [|done].
  case (Z.eqb_spec (code d) c) as [He|]; [|done]. exfalso.
  revert Hd. unfold chr. cbn. rewrite bool_decide_true; [done|].
  unfold char_of, code in *. subst c. rewrite N2Z.id. apply Ascii.ascii_N_embedding.
Qed.

Lemma remove_last_present s : remove_last 10 (s +:+ nl) = s.
Proof.
  induction s as [|c s IH]; [done|]. rewrite string_app_cons. cbn.
  destruct (s +:+ nl) eqn:Hs; [by destruct s|]. by rewrite IH.
Qed.

Lemma json_written_encodable j : json_written j = true -> json_encodable j = true.
Proof.
  induction j as [| | |t| |l IH|d IH] using json_nested; try done; cbn.
  - intros Hw. apply negb_true_iff, bool_decide_eq_false. intros Hin.
    apply not_elem_of_nil in Hin || (repeat (apply elem_of_cons in Hin as [->|Hin]; [by vm_compute in Hw|]); by apply not_elem_of_nil in Hin).
  - rewrite !forallb_forall. intros Hw x Hx. rewrite Forall_forall in IH.
    apply IH; [by apply list_elem_of_In|auto].
  - intros [_ Hw%forallb_snd]%andb_prop. apply forallb_snd. rewrite Forall_forall in *. auto.
Qed.

(** * The line of a message *)

Definition line_of (message : jobject) : string := json_dumps_compact (JObj message) +:+ nl.

Lemma encode_written message :
  field_is "jsonrpc" "2.0" message = true -> json_written (JObj message) = true ->
  encode_jsonrpc_line message = Ok (line_of message).
Proof.
  intros Hf Hw. unfold encode_jsonrpc_line. rewrite Hf, json_written_encodable by done.
  pose proof (printable_dumps "," ":" _ eq_refl eq_refl Hw) as Hp. cbn [negb].
  unfold json_dumps_compact.
  rewrite (printable_no_newline _ Hp), (printable_no_control _ 13 Hp) by done. done.
Qed.

Lemma decode_line_of message :
  field_is "jsonrpc" "2.0" message = true -> json_written (JObj message) = true ->
  decode_jsonrpc_line (line_of message) = Ok message.
Proof.
  intros Hf Hw. unfold decode_jsonrpc_line, line_of.
  pose proof (printable_dumps "," ":" _ eq_refl eq_refl Hw) as Hp.
  rewrite remove_last_present. unfold json_dumps_compact in *.
  rewrite remove_last_absent by (done || apply (printable_no_control _ 13 Hp); done).
  rewrite (printable_no_newline _ Hp), (printable_no_control _ 13 Hp) by done.
  rewrite bool_decide_false by (by rewrite (text_object "" "")).
  cbn [orb]. pose proof (json_loads_compact _ Hw) as Hl. unfold json_dumps_compact in Hl.
  by rewrite Hl, Hf.
Qed.

(** A message crosses the pipe as one line.  Whatever JSON-RPC object either end
    writes — names, numbers, floats, nested values, any text with its quotes, controls
    and line breaks — its line holds no control character but the newline that ends it,
    and the other end reads the same object from it. *)
Theorem message_line_round_trip message :
  field_is "jsonrpc" "2.0" message = true -> json_written (JObj message) = true ->
  exists line, encode_jsonrpc_line message = Ok (line +:+ nl) /\ printable line = true
    /\ decode_jsonrpc_line (line +:+ nl) = Ok message.
Proof.
  intros Hf Hw. exists (json_dumps_compact (JObj message)).
  split; [by apply encode_written|]. split; [by apply printable_dumps|by apply decode_line_of].
Qed.
