(* ===== verification/DispatchJson.v ===== *)
(** A dispatch's result as JSON ([DispatchResult.model_dump(mode="json")] and
    [model_validate_json], tool_wrappers.py and domain.py): the form in which the
    observability server hands it to the client.

    [schema_version] is written and accepted and read by nothing, so the records do
    not carry it. *)
From Stdlib Require Import ZArith Lia.
From stdpp Require Import prelude strings list sorting.
From S2P Require Import Prelude PyText Tools Domain World Evidence Wrappers JsonText JsonRoundTrip McpManifest.
Local Open Scope Z_scope.

(** * Writing *)

Definition opt_json {A} (f : A -> json) (o : option A) : json :=
  match o with None => JNull | Some a => f a end.

Definition enum_json {A} `{StrEnum A} (a : A) : json := JStr (value a).

Section dump.
Context `{Pydantic}.

Definition dump_receipt (r : ToolReceipt) : jobject :=
  [("schema_version", JStr SCHEMA_VERSION); ("receipt_id", JStr (rc_receipt_id r));
   ("incident_id", JStr (rc_incident_id r)); ("tool", enum_json (rc_tool r));
   ("fingerprint", JStr (rc_fingerprint r)); ("policy_result", enum_json (rc_policy_result r));
   ("state", enum_json (rc_state r)); ("outcome", opt_json enum_json (rc_outcome r));
   ("reason_code", opt_json enum_json (rc_reason_code r));
   ("requested_at", JStr (dump_datetime (rc_requested_at r)));
   ("duration_ms", JInt (rc_duration_ms r)); ("result_digest", opt_json JStr (rc_result_digest r));
   ("evidence_id", opt_json JStr (rc_evidence_id r));
   ("arguments", opt_json (fun a => JObj (dump_arguments a)) (rc_arguments r))].

Definition dump_evidence (e : Evidence) : jobject :=
  [("schema_version", JStr SCHEMA_VERSION); ("evidence_id", JStr (ev_evidence_id e));
   ("incident_id", JStr (ev_incident_id e)); ("kind", enum_json (ev_kind e));
   ("source", JStr (ev_source e)); ("observed_at", JStr (dump_datetime (ev_observed_at e)));
   ("summary", JStr (ev_summary e)); ("payload", JObj (ev_payload e));
   ("receipt_id", opt_json JStr (ev_receipt_id e)); ("content_hash", JStr (ev_content_hash e))].

Definition dump_passage (p : RunbookPassage) : jobject :=
  [("passage_id", JStr (rp_passage_id p)); ("content", JStr (rp_content p));
   ("source_version", JStr (rp_source_version p)); ("content_hash", JStr (rp_content_hash p));
   ("score", JFloat (rp_score p)); ("retrieval_mode", enum_json (rp_retrieval_mode p))].

Definition dump_dispatch_result (r : DispatchResult) : jobject :=
  [("receipt", JObj (dump_receipt (dr_receipt r)));
   ("evidence", opt_json (fun e => JObj (dump_evidence e)) (dr_evidence r));
   ("passages", JArr (List.map (fun p => JObj (dump_passage p)) (dr_passages r)));
   ("retrieval_mode", opt_json enum_json (dr_retrieval_mode r));
   ("message", JStr (dr_message r))].
End dump.

(** * Reading *)

(** A field that may be absent or [null]. *)
Definition field_opt {A} (read : json -> option A) (k : string) (d : jobject) : option (option A) :=
  match dict_get k d with
  | None | Some JNull => Some None
  | Some j => Some <$> read j
  end.

(** A field with a default, which [null] does not stand for. *)
Definition field_default {A} (read : json -> option A) (otherwise : A) (k : string) (d : jobject)
    : option A :=
  match dict_get k d with None => Some otherwise | Some j => read j end.

Definition field_with {A} (read : json -> option A) (k : string) (d : jobject) : option A :=
  dict_get k d ≫= read.

Definition read_str (j : json) : option string := match j with JStr s => Some s | _ => None end.

Definition read_enum {A} `{StrEnum A} (j : json) : option A := read_str j ≫= of_value.

Definition read_object {A} (read : jobject -> option A) (j : json) : option A :=
  match j with JObj d => read d | _ => None end.

Definition of_result {A} (r : res A) : option A := match r with Ok a => Some a | Err _ => None end.

Section validate.
Context `{Pydantic} `{McpPydantic}.

Definition validate_receipt (d : jobject) : option ToolReceipt :=
  _ ← field_default read_str SCHEMA_VERSION "schema_version" d;
  receipt_id ← field_with read_str "receipt_id" d;
  incident_id ← field_with read_str "incident_id" d;
  tool ← field_with read_enum "tool" d;
  fingerprint ← field_with read_str "fingerprint" d;
  policy_result ← field_with read_enum "policy_result" d;
  state ← field_default read_enum SETTLED "state" d;
  outcome ← field_opt read_enum "outcome" d;
  reason_code ← field_opt read_enum "reason_code" d;
  requested_at ← field_with coerce_datetime "requested_at" d;
  duration_ms ← field_with coerce_int "duration_ms" d;
  result_digest ← field_opt read_str "result_digest" d;
  evidence_id ← field_opt read_str "evidence_id" d;
  arguments ← field_opt (read_object validate_arguments) "arguments" d;
  of_result (check_lifecycle_coherence
    {| rc_receipt_id := receipt_id; rc_incident_id := incident_id; rc_tool := tool;
       rc_fingerprint := fingerprint; rc_policy_result := policy_result; rc_state := state;
       rc_outcome := outcome; rc_reason_code := reason_code; rc_requested_at := requested_at;
       rc_duration_ms := duration_ms; rc_result_digest := result_digest;
       rc_evidence_id := evidence_id; rc_arguments := arguments |}).

Definition validate_evidence (d : jobject) : option Evidence :=
  _ ← field_default read_str SCHEMA_VERSION "schema_version" d;
  evidence_id ← field_with read_str "evidence_id" d;
  incident_id ← field_with read_str "incident_id" d;
  kind ← field_with read_enum "kind" d;
  source ← field_with read_str "source" d;
  observed_at ← field_with coerce_datetime "observed_at" d;
  summary ← field_with read_str "summary" d;
  payload ← field_with (read_object Some) "payload" d;
  receipt_id ← field_opt read_str "receipt_id" d;
  content_hash ← field_with read_str "content_hash" d;
  of_result (check_evidence
    {| ev_evidence_id := evidence_id; ev_incident_id := incident_id; ev_kind := kind;
       ev_source := source; ev_observed_at := observed_at; ev_summary := summary;
       ev_payload := payload; ev_receipt_id := receipt_id; ev_content_hash := content_hash |}).

Definition validate_passage (d : jobject) : option RunbookPassage :=
  passage_id ← field_with read_str "passage_id" d;
  content ← field_with read_str "content" d;
  source_version ← field_with read_str "source_version" d;
  content_hash ← field_with read_str "content_hash" d;
  score ← field_with coerce_float "score" d;
  retrieval_mode ← field_with read_enum "retrieval_mode" d;
  of_result (check_passage
    {| rp_passage_id := passage_id; rp_content := content; rp_source_version := source_version;
       rp_content_hash := content_hash; rp_score := score; rp_retrieval_mode := retrieval_mode |}).

Definition read_array {A} (read : json -> option A) (j : json) : option (list A) :=
  match j with JArr l => mapM read l | _ => None end.

Definition validate_dispatch_result (d : jobject) : option DispatchResult :=
  receipt ← field_with (read_object validate_receipt) "receipt" d;
  evidence ← field_opt (read_object validate_evidence) "evidence" d;
  passages ← field_default (read_array (read_object validate_passage)) [] "passages" d;
  retrieval_mode ← field_opt read_enum "retrieval_mode" d;
  message ← field_default read_str "" "message" d;
  Some {| dr_receipt := receipt; dr_evidence := evidence; dr_passages := passages;
          dr_retrieval_mode := retrieval_mode; dr_message := message |}.

(** [DispatchResult.model_validate_json] *)
Definition dispatch_result_of_json (text : string) : option DispatchResult :=
  read_json text ≫= read_object validate_dispatch_result.

(** [json.dumps(result.model_dump(mode="json"), sort_keys=True)] *)
Definition dispatch_result_json (r : DispatchResult) : string :=
  json_dumps_sorted (JObj (dump_dispatch_result r)).
End validate.

(** * Reading back what was written *)

(** The one visible change: the keys of the payload, and of what it holds, are sorted. *)
Definition sorted_payload (e : Evidence) : Evidence :=
  {| ev_evidence_id := ev_evidence_id e; ev_incident_id := ev_incident_id e; ev_kind := ev_kind e;
     ev_source := ev_source e; ev_observed_at := ev_observed_at e; ev_summary := ev_summary e;
     ev_payload := sort_items (ev_payload e); ev_receipt_id := ev_receipt_id e;
     ev_content_hash := ev_content_hash e |}.

Definition sorted_result (r : DispatchResult) : DispatchResult :=
  {| dr_receipt := dr_receipt r; dr_evidence := sorted_payload <$> dr_evidence r;
     dr_passages := dr_passages r; dr_retrieval_mode := dr_retrieval_mode r;
     dr_message := dr_message r |}.

(** A value that passes its own validators, as every constructed one does. *)
Definition receipt_valid (r : ToolReceipt) : bool :=
  is_ok (check_lifecycle_coherence r)
  && match rc_arguments r with None => true | Some a => arguments_in_schema a end.

Definition result_valid (r : DispatchResult) : bool :=
  receipt_valid (dr_receipt r)
  && match dr_evidence r with None => true | Some e => is_ok (check_evidence e) end
  && forallb (fun p => is_ok (check_passage p)) (dr_passages r).

#[export] Instance PolicyResult_laws : StrEnumLaws PolicyResult.
Proof. solve_enum. Qed.
#[export] Instance ReceiptState_laws : StrEnumLaws ReceiptState.
Proof. solve_enum. Qed.
#[export] Instance ReasonCode_laws : StrEnumLaws ReasonCode.
Proof. solve_enum. Qed.

Section fields.
Context {A : Type} (read : json -> option A).

Lemma field_with_sorted k d j a :
  NoDup (dict_keys d) -> dict_get k d = Some j -> read (sort_keys j) = Some a ->
  field_with read k (sort_items d) = Some a.
Proof using.
  intros Hnd Hg Hr. unfold field_with. by rewrite dict_get_sort_items, Hg.
Qed.

Lemma field_default_sorted k d j a o :
  NoDup (dict_keys d) -> dict_get k d = Some j -> read (sort_keys j) = Some a ->
  field_default read o k (sort_items d) = Some a.
Proof using.
  intros Hnd Hg Hr. unfold field_default. by rewrite dict_get_sort_items, Hg.
Qed.

Lemma field_opt_sorted {B} (write : B -> json) (f : B -> A) k d (o : option B) :
  NoDup (dict_keys d) -> dict_get k d = Some (opt_json write o) ->
  (forall b, o = Some b -> sort_keys (write b) <> JNull /\ read (sort_keys (write b)) = Some (f b)) ->
  field_opt read k (sort_items d) = Some (f <$> o).
Proof using.
  intros Hnd Hg Hr. unfold field_opt. rewrite dict_get_sort_items, Hg by done.
  destruct o as [b|]; [|done]. cbn. destruct (Hr b eq_refl) as [Hn Hb].
  destruct (sort_keys (write b)); [done|..]; by rewrite Hb.
Qed.
End fields.

Lemma read_enum_value {A} `{StrEnumLaws A} (a : A) : read_enum (enum_json a) = Some a.
Proof. unfold read_enum, enum_json. cbn. apply of_value_value. Qed.

Lemma no_extra_perm allowed d d' : dict_keys d ≡ₚ dict_keys d' -> no_extra allowed d = no_extra allowed d'.
Proof.
  intros Hp. unfold no_extra.
  replace (forallb (fun k => bool_decide (k ∈ allowed)) (dict_keys d))
    with (forallb (fun k => bool_decide (k ∈ allowed)) (dict_keys d')); [done|].
  apply Bool.eq_iff_eq_true. rewrite !forallb_forall.
  split; intros Hall k Hk%list_elem_of_In; apply Hall, list_elem_of_In; by rewrite Hp in *.
Qed.

(** Validation looks at the fields by name, not at their order. *)
Lemma validate_arguments_perm `{Pydantic} d d' :
  (forall k, dict_get k d = dict_get k d') -> dict_keys d ≡ₚ dict_keys d' ->
  validate_arguments d = validate_arguments d'.
Proof.
  intros Hg Hp.
  unfold validate_arguments, validate_metric, validate_logs, validate_changes, validate_topology,
    validate_runbooks, field_enum, field_datetime, field_literal, field_int, field_str.
  rewrite !(fun allowed => no_extra_perm allowed d d' Hp), !Hg. done.
Qed.

Section round_trip.
Context `{PydanticRoundTrip} `{!McpPydantic} `{!McpPydanticLaws}.

Lemma validate_sorted_arguments a :
  arguments_in_schema a = true -> validate_arguments (sort_items (dump_arguments a)) = Some a.
Proof.
  intros Hs. rewrite <- (validate_dump_arguments a Hs).
  assert (NoDup (dict_keys (dump_arguments a))) as Hnd by (apply (bool_decide_unpack _); by destruct a).
  apply validate_arguments_perm; [|apply sort_items_keys].
  intros k. rewrite dict_get_sort_items by done.
  destruct (dict_get k (dump_arguments a)) as [j|] eqn:Hg; [|done]. cbn. f_equal.
  apply dict_get_elem in Hg.
  assert (Forall (fun kv => sort_keys kv.2 = kv.2) (dump_arguments a)) as Hall.
  { unfold dump_arguments, dump_opt_datetime.
    destruct a as [a|a|a|a|a]; rewrite ?Forall_cons; repeat split; cbn; by repeat case_match. }
  rewrite Forall_forall in Hall. by apply (Hall (k, j)).
Qed.

Lemma bind_step {A B} (m : option A) (f : A -> option B) a r :
  m = Some a -> f a = r -> (m ≫= f) = r.
Proof using. by intros ->. Qed.

(** One field of a record's own dump. *)
Ltac read_one :=
  first [ reflexivity | apply read_enum_value | apply coerce_dump_datetime | apply coerce_int_int
        | apply coerce_float_float ].

Ltac field Hnd :=
  eapply bind_step;
  [ first
    [ eapply field_with_sorted; [exact Hnd | reflexivity | read_one]
    | eapply field_default_sorted; [exact Hnd | reflexivity | read_one]
    | eapply (field_opt_sorted _ _ (fun b => b)); [exact Hnd | reflexivity | intros ? _; split; [done | read_one]] ]
  | cbv beta ].

Lemma of_result_ok {A} (check : A -> res A) a :
  (forall b, check a = Ok b -> b = a) -> is_ok (check a) = true -> of_result (check a) = Some a.
Proof using. intros Hid Hok. destruct (check a) as [b|] eqn:Hc; [|done]. cbn. by rewrite (Hid b). Qed.

Lemma validate_sorted_receipt r :
  receipt_valid r = true -> validate_receipt (sort_items (dump_receipt r)) = Some r.
Proof.
  unfold receipt_valid. intros [Hc Ha]%andb_prop. unfold validate_receipt.
  assert (NoDup (dict_keys (dump_receipt r))) as Hnd by (by apply (bool_decide_unpack _)).
  do 13 field Hnd. eapply bind_step.
  { eapply (field_opt_sorted _ _ (fun b => b)); [exact Hnd|reflexivity|].
    intros a Heq. rewrite Heq in Ha. split; [done|]. by apply validate_sorted_arguments. }
  cbv beta. rewrite !option_fmap_id. destruct r. by apply of_result_ok; [apply check_lifecycle_id|].
Qed.

Lemma validate_sorted_evidence e :
  is_ok (check_evidence e) = true -> validate_evidence (sort_items (dump_evidence e)) = Some (sorted_payload e).
Proof.
  intros Hc. unfold validate_evidence.
  assert (NoDup (dict_keys (dump_evidence e))) as Hnd by (by apply (bool_decide_unpack _)).
  do 10 field Hnd. rewrite !option_fmap_id. apply of_result_ok; [apply check_evidence_id|].
  revert Hc. unfold check_evidence. cbn. by destruct (require _).
Qed.

Lemma validate_sorted_passage p :
  is_ok (check_passage p) = true -> validate_passage (sort_items (dump_passage p)) = Some p.
Proof.
  intros Hc. unfold validate_passage.
  assert (NoDup (dict_keys (dump_passage p))) as Hnd by (by apply (bool_decide_unpack _)).
  do 6 field Hnd. destruct p. by apply of_result_ok; [apply check_passage_id|].
Qed.

Lemma mapM_written {A B} (read : B -> option A) (write : A -> B) (l : list A) :
  Forall (fun a => read (write a) = Some a) l -> mapM read (List.map write l) = Some l.
Proof using. induction 1 as [|a l Ha _ IH]; [done|]. cbn. by rewrite Ha, IH. Qed.

(** A result's text is read back as that result, the keys of its payload sorted. *)
Lemma dispatch_result_reads_back r :
  result_valid r = true -> json_written (JObj (dump_dispatch_result r)) = true ->
  dispatch_result_of_json (dispatch_result_json r) = Some (sorted_result r).
Proof.
  unfold result_valid. intros [[Hr He]%andb_prop Hp]%andb_prop Hw.
  unfold dispatch_result_of_json, dispatch_result_json, json_dumps_sorted.
  change ", " with ("," +:+ " "). change ": " with (":" +:+ " ").
  rewrite (read_json_dumps true " " " ") by done. cbn [mbind option_bind read_object].
  change (sort_keys (JObj ?d)) with (JObj (sort_items d)). cbn [read_object].
  unfold validate_dispatch_result.
  assert (NoDup (dict_keys (dump_dispatch_result r))) as Hnd by (by apply (bool_decide_unpack _)).
  eapply bind_step.
  { eapply field_with_sorted; [exact Hnd|reflexivity|]. by apply validate_sorted_receipt. }
  eapply bind_step.
  { eapply field_opt_sorted; [exact Hnd|reflexivity|]. intros e Heq. rewrite Heq in He.
    split; [done|]. by apply validate_sorted_evidence. }
  eapply bind_step.
  { eapply field_default_sorted; [exact Hnd|reflexivity|]. 
    change (sort_keys (JArr ?l)) with (JArr (List.map sort_keys l)). cbn [read_array].
    rewrite List.map_map. apply (mapM_written _ (fun p => sort_keys (JObj (dump_passage p)))).
    apply Forall_forall. intros p Hin. apply validate_sorted_passage.
    rewrite forallb_forall in Hp. by apply Hp, list_elem_of_In. }
  do 2 field Hnd. by rewrite option_fmap_id.
Qed.
End round_trip.
