(* ===== verification/McpServer.v ===== *)
(** The observability server as a process: the executor that routes an accepted call
    through the policy wrappers of one incident (mcp_policy_adapter.py), the reviewed
    approval that installs it, and the loop from a line of standard input to a line of
    standard output (mcp_server_main.py).

    A backend is the same parameter as elsewhere (Wrappers.v).  What a text of standard
    error says is not modelled. *)
From Stdlib Require Import ZArith Lia.
From stdpp Require Import prelude strings list gmap.
From S2P Require Import Prelude PyText Tools Domain World Evidence Wrappers JsonText JsonRoundTrip McpManifest McpStdio DispatchJson.
Local Open Scope Z_scope.

(** * The executor *)

Record PolicyWrappedMcpExecutor := {
  ex_registry : list (ToolName * ToolWrapper);
  ex_scope : IncidentScope;
  ex_budgets : Budgets;
  ex_dispatch : Dispatch;
}.

#[export] Instance settable_executor : Settable PolicyWrappedMcpExecutor := fun x =>
  {| ex_registry := ex_registry x; ex_scope := ex_scope x; ex_budgets := ex_budgets x;
     ex_dispatch := ex_dispatch x |}.

Section server.
Context `{Pydantic} `{McpPydantic} `{Host} `{Clocks}.

(** The constructor: a registry of exactly the approved tools. *)
Definition policy_wrapped_executor (registry : list (ToolName * ToolWrapper)) (scope : IncidentScope)
    (budgets : Budgets) (state : Dispatch) : res PolicyWrappedMcpExecutor :=
  approved ← approved_tool_names;
  if forallb (fun t => bool_decide (t ∈ approved)) (dict_keys registry)
     && forallb (fun t => bool_decide (t ∈ dict_keys registry)) approved
  then Ok {| ex_registry := registry; ex_scope := scope; ex_budgets := budgets; ex_dispatch := state |}
  else Err ValueError.

Definition mcp_proposal (arguments : ToolArguments) : ToolProposal :=
  {| pr_arguments := arguments; pr_evidence_gap := "MCP-observability request";
     pr_expected_observation := "policy-wrapped observability result" |}.

(** [PolicyWrappedMcpExecutor.call] *)
#[export] Instance policy_wrapped_call : McpToolExecutor PolicyWrappedMcpExecutor := fun arguments x =>
  match check_proposal (mcp_proposal arguments) with
  | Err e => (Err e, x)
  | Ok proposal =>
      match dict_get (arguments_tool arguments) (ex_registry x) with
      | None => (Err KeyError, x)
      | Some w =>
          let '(out, d) := dispatch (tw_tool w) (tw_arguments_type w) (tw_run_check w) proposal
                             (ex_scope x) (ex_budgets x) (ex_dispatch x) in
          (r ← out; Ok {| cr_content := [dispatch_result_json r]; cr_is_error := false |},
           x <| ex_dispatch := d |>)
      end
  end.

(** * The approval *)

Record McpDispatchApproval := {
  da_approval_commit : string;
  da_reviewer : string;
  da_server_image_digest : string;
  da_manifest_sha256 : string;
  da_protocol_version : string;
}.

(** Evaluated when the module is imported: a manifest that lost its pin stops there. *)
Definition APPROVED_MCP_DISPATCH : res (option McpDispatchApproval) :=
  manifest ← pinned_observability_manifest;
  Ok (Some {|
    da_approval_commit := "615005961111d8ae478f385a04b87ebb03efdb6b";
    da_reviewer := "Sourav Sehgal";
    da_server_image_digest := "615005961111d8ae478f385a04b87ebb03efdb6b";
    da_manifest_sha256 := manifest_sha256 manifest;
    da_protocol_version := MCP_PROTOCOL_VERSION |}).

(** A server's executor is one of two, as its attribute is. *)
#[export] Instance either_call : McpToolExecutor (PolicyWrappedMcpExecutor + PolicyApprovalRequiredExecutor) :=
  fun arguments x =>
    match x with
    | inl x => let '(r, x) := executor_call arguments x in (r, inl x)
    | inr x => let '(r, x) := executor_call arguments x in (r, inr x)
    end.

Notation Server := (McpObservabilityServer (PolicyWrappedMcpExecutor + PolicyApprovalRequiredExecutor)).

(** The last guard, on the executor's class, is the type of [executor] here. *)
Definition policy_approved_mcp_server (approval : option McpDispatchApproval)
    (executor : PolicyWrappedMcpExecutor) : res Server :=
  match approval with
  | None => Err McpDispatchApprovalError
  | Some approval =>
      manifest ← pinned_observability_manifest;
      if negb (bool_decide (da_protocol_version approval = MCP_PROTOCOL_VERSION))
         || negb (bool_decide (da_manifest_sha256 approval = manifest_sha256 manifest))
      then Err McpDispatchApprovalError
      else server_with (inl executor)
  end.

(** * The process *)

(** The four backends the server is wired to; [search_runbooks] is not among them. *)
Definition build_registry (b : Backends) : list (ToolName * ToolWrapper) :=
  [(QUERY_METRIC, query_metric_wrapper (run_metric b));
   (QUERY_LOGS, query_logs_wrapper (run_logs b));
   (LIST_RECENT_CHANGES, list_recent_changes_wrapper (run_changes b));
   (GET_TOPOLOGY, get_topology_wrapper (run_topology b))].

(** What [main] builds before it reads a line: a fresh ledger and no fingerprint. *)
Definition main_server (approval : option McpDispatchApproval) (b : Backends) (scope : IncidentScope)
    (budgets : Budgets) (w : World) : res Server :=
  executor ← policy_wrapped_executor (build_registry b) scope budgets
    {| d_world := w; d_ledger := new_ledger (executed_tools budgets) 1; d_seen := ∅ |};
  match policy_approved_mcp_server approval executor with
  | Ok server => Ok server
  | Err e => if is_error McpDispatchApprovalError e then server_with (inr ApprovalRequired) else Err e
  end.

(** One turn of the loop over standard input: what is written, if anything.  A line
    that cannot be decoded or is refused is reported on standard error alone; any
    other exception ends the process. *)
Definition serve_line {X} `{McpToolExecutor X} (raw_line : string)
    : ST (McpObservabilityServer X) exn (option string) := fun s =>
  match decode_jsonrpc_line raw_line with
  | Err e => (if is_error McpProtocolError e then Ok None else Err e, s)
  | Ok message =>
      let '(r, s) := handle message s in
      (match r with
       | Err e => if is_error McpProtocolError e then Ok None else Err e
       | Ok None => Ok None
       | Ok (Some response) => line ← encode_jsonrpc_line response; Ok (Some line)
       end, s)
  end.

(** The loop: the lines written, and whether the input was read to its end. *)
Fixpoint serve {X} `{McpToolExecutor X} (lines : list string) (s : McpObservabilityServer X)
    : list string * res unit * McpObservabilityServer X :=
  match lines with
  | [] => ([], Ok tt, s)
  | line :: lines =>
      match serve_line line s with
      | (Err e, s) => ([], Err e, s)
      | (Ok written, s) =>
          let '(out, r, s) := serve lines s in (option_list written ++ out, r, s)
      end
  end.
End server.
