(* ===== verification/McpChild.v ===== *)
(** The client's end of the pipe: the supervised child process
    (mcp_child_process.py, [McpChildProcess]) and the checks that are forwarded to it
    (mcp_client_registry.py).

    The operating system's part — starting and ending a process, writing a line to
    its input, taking the next item of the queue its output is drained into — is the
    interface [ChildHost], over a state of its own.  The two drain threads are behind
    [next_item]: a line, the mark put at the end of the output, or nothing in time. *)
From Stdlib Require Import ZArith Lia.
From stdpp Require Import prelude strings list.
From S2P Require Import Prelude PyText Tools Domain World Evidence Wrappers JsonText JsonRoundTrip McpManifest McpStdio DispatchJson.
Local Open Scope Z_scope.

Inductive queue_item :=
  | ALine (line : string)
  | EndOfOutput
  | NothingInTime.

Class ChildHost (P : Type) := {
  (** [subprocess.Popen] of the server module with the three arguments, a new queue,
      and the threads that drain the child's output. *)
  popen : string -> IncidentScope -> Budgets -> ST P exn unit;
  (** [stdin.write] and [flush]. *)
  write_line : string -> ST P exn unit;
  (** [queue.get(timeout=...)] *)
  next_item : ST P exn queue_item;
  (** [poll() is None] *)
  still_running : ST P exn bool;
  (** The body of [close] for a process: its input closed, terminated if it runs,
      killed if it does not end, the threads joined. *)
  end_process : ST P exn unit;
}.

Record McpChildProcess (P : Type) := {
  ch_host : P;
  ch_process : bool;
  ch_session : option McpStdioSession;
  ch_poisoned : bool;
  ch_launch : option (string * IncidentScope * Budgets);
}.
Arguments ch_host {P}.
Arguments ch_process {P}.
Arguments ch_session {P}.
Arguments ch_poisoned {P}.
Arguments ch_launch {P}.
Arguments Build_McpChildProcess {P}.

#[export] Instance settable_child P : Settable (McpChildProcess P) := fun c =>
  {| ch_host := ch_host c; ch_process := ch_process c; ch_session := ch_session c;
     ch_poisoned := ch_poisoned c; ch_launch := ch_launch c |}.

Definition new_child {P} (host : P) : McpChildProcess P :=
  {| ch_host := host; ch_process := false; ch_session := None; ch_poisoned := true; ch_launch := None |}.

Section child.
Context `{Pydantic} `{McpPydantic} `{Host}.
Context {P : Type} `{ChildHost P}.

Notation ChildM := (ST (McpChildProcess P) exn).

Definition on_host {A} (m : ST P exn A) : ChildM A := fun c =>
  let '(r, p) := m (ch_host c) in (r, c <| ch_host := p |>).

(** [assert self._session is not None] and a step of it. *)
Definition on_session {A} (m : ST McpStdioSession exn A) : ChildM A := fun c =>
  match ch_session c with
  | None => (Err AssertionError, c)
  | Some s => let '(r, s) := m s in (r, c <| ch_session := Some s |>)
  end.

Definition poison : ChildM unit := modify (fun c => c <| ch_poisoned := true |>).

(** [_write] *)
Definition child_write (message : jobject) : ChildM unit :=
  c ← get_state;
  if negb (ch_process c) then raise AssertionError
  else line ← lift_result (encode_jsonrpc_line message); on_host (write_line line).

(** [_read_one] *)
Definition child_read_one : ChildM jobject :=
  item ← on_host next_item;
  match item with
  | NothingInTime => _ ← poison; raise McpChildTimeoutError
  | EndOfOutput => _ ← poison; raise McpChildDiedMidCallError
  | ALine line => lift_result (decode_jsonrpc_line line)
  end.

(** [_handshake] *)
Definition handshake : ChildM unit :=
  message ← on_session initialize_request;
  _ ← child_write message;
  answer ← child_read_one;
  _ ← on_session (accept_initialize_response answer);
  message ← on_session initialized_notification;
  _ ← child_write message;
  message ← on_session tools_list_request;
  _ ← child_write message;
  answer ← child_read_one;
  _ ← on_session (accept_tools_list_response answer);
  mret tt.

Definition child_start (root : string) (scope : IncidentScope) (budgets : Budgets) : ChildM unit :=
  _ ← modify (fun c => c <| ch_launch := Some (root, scope, budgets) |> <| ch_poisoned := false |>);
  _ ← on_host (popen root scope budgets);
  _ ← modify (fun c => c <| ch_process := true |> <| ch_session := Some new_session |>);
  handshake.

Definition child_close : ChildM unit :=
  c ← get_state;
  _ ← put_state (c <| ch_process := false |> <| ch_session := None |>);
  if ch_process c then on_host end_process else mret tt.

Definition respawn_if_dead : ChildM unit :=
  c ← get_state;
  running ← if negb (ch_poisoned c) && ch_process c then on_host still_running else mret false;
  if running : bool then mret tt
  else
    match ch_launch c with
    | None => raise AssertionError
    | Some (root, scope, budgets) =>
        _ ← try_except child_close (fun _ => mret tt);
        try_except (child_start root scope budgets) (fun _ => raise McpChildUnavailableError)
    end.

Definition child_call (tool : ToolName) (arguments : jobject) : ChildM McpToolCallResult :=
  _ ← respawn_if_dead;
  request ← on_session (tool_call_request tool arguments);
  _ ← child_write request;
  response ← child_read_one;
  on_session (accept_tool_call_response response).

(** * Forwarded checks *)

Definition kind_by_tool (tool : ToolName) : res EvidenceKind :=
  match tool with
  | QUERY_METRIC => Ok METRIC
  | QUERY_LOGS => Ok LOG
  | LIST_RECENT_CHANGES => Ok CHANGE
  | GET_TOPOLOGY => Ok TOPOLOGY
  | SEARCH_RUNBOOKS => Err KeyError
  end.

Definition parse_dispatch_result (result : McpToolCallResult) : res DispatchResult :=
  match cr_content result with
  | [] => Err McpProtocolError
  | text :: _ =>
      match dispatch_result_of_json text with
      | Some r => Ok r
      | None => Err McpProtocolError
      end
  end.

(** The check a child's answer stands for. *)
Definition outcome_of_result (kind : EvidenceKind) (tool : ToolName) (r : DispatchResult) : CheckOutcome :=
  let receipt := dr_receipt r in
  match rc_outcome receipt, dr_evidence r with
  | Some EXECUTED, Some evidence =>
      {| co_outcome := EXECUTED; co_kind := ev_kind evidence; co_source := ev_source evidence;
         co_summary := ev_summary evidence; co_payload := ev_payload evidence; co_reason_code := None;
         co_duration_ms := rc_duration_ms receipt |}
  | outcome, _ =>
      failed_check kind (value tool) (default ERROR outcome)
        (default TOOL_ERROR (rc_reason_code receipt)) "MCP child reported a non-executed outcome"
  end.

(** The three errors that become a failed check; any other leaves the receipt of the
    call reserved. *)
Definition failure_of (kind : EvidenceKind) (tool : ToolName) (e : exn) : res CheckOutcome :=
  if is_error McpChildTimeoutError e then
    Ok (failed_check kind (value tool) TIMEOUT TOOL_TIMEOUT "MCP child did not respond in time")
  else if is_error McpChildUnavailableError e then
    Ok (failed_check kind (value tool) UNAVAILABLE TOOL_UNAVAILABLE "MCP child is unavailable")
  else if is_error McpProtocolError e then
    Ok (failed_check kind (value tool) ERROR TOOL_ERROR "MCP child returned a malformed response")
  else Err e.

(** [run_check] of [_forwarding_run_check]; the scope is the child's own. *)
Definition forwarding_run_check (tool : ToolName) (arguments : ToolArguments) : ChildM CheckOutcome :=
  kind ← lift_result (kind_by_tool tool);
  answer ← try_except (result ← child_call tool (dump_arguments arguments); mret (inl result))
             (fun e => outcome ← lift_result (failure_of kind tool e); mret (inr outcome));
  match answer with
  | inr outcome => mret outcome
  | inl result => r ← lift_result (parse_dispatch_result result); mret (outcome_of_result kind tool r)
  end.
End child.
