(* ===== verification/McpServerProps.v ===== *)
(** The observability server, whatever arrives on its input: it speaks the protocol in
    order, it runs nothing before the handshake, and what it then runs stays inside the
    incident and the budget it was started with. *)
From Stdlib Require Import ZArith Lia.
From stdpp Require Import prelude strings list gmap.
From S2P Require Import Prelude PyText Tools ToolCalls Domain Policy World Evidence Wrappers JsonText JsonRoundTrip McpManifest McpStdio DispatchJson McpServer.
Local Open Scope Z_scope.

(** * One request *)

Section steps.
Context `{Pydantic} `{McpPydantic} `{Host} {X : Type} `{McpToolExecutor X}.
Notation Server := (McpObservabilityServer X).
Implicit Types s : Server.

(** What a handled message can do: be refused, move the handshake one state on, list
    the tools, or, once the handshake is over, run one call. *)
Inductive server_step (message : jobject) s : res (option jobject) -> Server -> Prop :=
  | step_refused : server_step message s (Err McpProtocolError) s
  | step_ready :
      dict_get "method" message = Some (JStr "notifications/initialized") ->
      sv_state s = INITIALIZED -> server_step message s (Ok None) (s <| sv_state := READY |>)
  | step_initialized id info :
      dict_get "method" message = Some (JStr "initialize") -> sv_state s = NEW ->
      server_step message s (Ok (Some (server_response id info))) (s <| sv_state := INITIALIZED |>)
  | step_listed id :
      sv_state s = READY ->
      server_step message s (Ok (Some (server_response id
        [("tools", JArr (List.map listed_tool (mm_tools (sv_manifest s))))]))) s
  | step_called id a out x :
      dict_get "method" message = Some (JStr "tools/call") -> sv_state s = READY -> arguments_in_schema a = true ->
      executor_call a (sv_executor s) = (out, x) ->
      server_step message s (r ← out; Ok (Some (server_response id (dump_call_result r))))
        (s <| sv_executor := x |>).

Lemma validate_strict_Ok payload a :
  validate_strict_tool_arguments payload = Ok a -> arguments_in_schema a = true.
Proof.
  unfold validate_strict_tool_arguments. destruct (json_encodable _); [|done]. cbn.
  destruct (read_json _) as [[]|]; try done.
  destruct (@validate_arguments strict_mode d) as [a'|] eqn:Hv; [|done].
  intros [= <-]. by apply (@validate_arguments_in_schema strict_mode) in Hv.
Qed.

Lemma validate_strict_Err payload e :
  validate_strict_tool_arguments payload = Err e -> e = McpProtocolError.
Proof.
  unfold validate_strict_tool_arguments. destruct (json_encodable _); cbn; [|congruence].
  destruct (read_json _) as [[]|]; try congruence.
  destruct (@validate_arguments strict_mode d) as [a'|]; congruence.
Qed.

(** Reads a run of the monad up to its next branch. *)
Ltac run_step :=
  unfold check, mbind, ST_bind, mret, ST_ret, raise, get_state, put_state, lift_result in *;
  cbn beta iota in *.

Lemma tools_call_step s id message r s' :
  dict_get "method" message = Some (JStr "tools/call") -> sv_state s = READY ->
  handle_tools_call id message s = (r, s') -> server_step message s r s'.
Proof.
  intros Hm Hs. unfold handle_tools_call, server_params, run_executor. run_step.
  destruct (dict_get "params" message) as [[]|]; intros Hr;
    try (injection Hr as <- <-; constructor).
  destruct (dict_get "name" d) as [[]|]; try (injection Hr as <- <-; constructor).
  destruct (dict_get "arguments" d) as [[]|]; try (injection Hr as <- <-; constructor).
  destruct (of_value s0) as [t|]; [|injection Hr as <- <-; constructor].
  destruct (validate_strict_tool_arguments _) as [a|e] eqn:Hv.
  2:{ injection Hr as <- <-. apply validate_strict_Err in Hv as ->. constructor. }
  case_bool_decide; cbn in Hr; [|injection Hr as <- <-; constructor].
  destruct (executor_call a (sv_executor s)) as [out x] eqn:Hx.
  apply validate_strict_Ok in Hv.
  pose proof (step_called message s id a out x Hm Hs Hv Hx) as Hstep.
  destruct out; by injection Hr as <- <-.
Qed.

Lemma handle_step message s r s' : handle message s = (r, s') -> server_step message s r s'.
Proof.
  unfold handle, handle_initialized, handle_initialize, server_request_id, server_params. run_step.
  destruct (field_is "jsonrpc" "2.0" message); intros Hr; [|injection Hr as <- <-; constructor].
  destruct (dict_get "method" message) as [[| | | |method| |]|] eqn:Hm;
    try (injection Hr as <- <-; constructor).
  case_bool_decide.
  { destruct (dict_mem "id" message); [injection Hr as <- <-; constructor|].
    cbn in Hr. case_bool_decide; injection Hr as <- <-; subst; by constructor. }
  destruct (dict_mem "id" message); [|injection Hr as <- <-; constructor].
  destruct (dict_get "id" message) as [[]|]; try (injection Hr as <- <-; constructor).
  all: case_bool_decide;
    [ case_bool_decide; cbn in Hr; [|injection Hr as <- <-; constructor];
      destruct (dict_get "params" message) as [[]|]; try (injection Hr as <- <-; constructor);
      (destruct (field_is _ _ _); injection Hr as <- <-; subst; by constructor)
    | case_bool_decide; cbn in Hr; [|injection Hr as <- <-; constructor];
      case_bool_decide; [injection Hr as <- <-; by constructor|];
      case_bool_decide; cbn in Hr; [|injection Hr as <- <-; constructor];
      subst; by eapply tools_call_step ].
Qed.

(** * A whole conversation *)

(** A line the server reads as a message that names this method. *)
Definition names_method (method line : string) : Prop :=
  exists message, decode_jsonrpc_line line = Ok message
    /\ dict_get "method" message = Some (JStr method).

Lemma serve_line_step line s r s' :
  serve_line line s = (r, s') ->
  s' = s \/ exists message r', decode_jsonrpc_line line = Ok message
    /\ server_step message s r' s'.
Proof.
  unfold serve_line. destruct (decode_jsonrpc_line line) as [message|e].
  - destruct (handle message s) as [r' s1] eqn:Hh. intros [= <- <-]. right.
    exists message, r'. split; [done|]. by apply (handle_step message).
  - intros [= <- <-]. by left.
Qed.

(** Whatever holds of the executor and is kept by each accepted call holds throughout. *)
Lemma serve_keeps (I : X -> Prop) lines s out r s' :
  (forall a x o x', arguments_in_schema a = true -> I x -> executor_call a x = (o, x') -> I x') ->
  I (sv_executor s) -> serve lines s = (out, r, s') -> I (sv_executor s').
Proof.
  intros Hkeep. revert s out. induction lines as [|line lines IH]; intros s out Hi Hs; cbn in Hs.
  - by injection Hs as <- <- <-.
  - destruct (serve_line line s) as [o s1] eqn:Hl.
    assert (I (sv_executor s1)) as Hi1.
    { apply serve_line_step in Hl as [->|(m & r' & _ & Hst)]; [done|]. destruct Hst; try done. by eapply Hkeep. }
    destruct o as [written|e]; [|by injection Hs as <- <- <-].
    destruct (serve lines s1) as [[out1 r1] s2] eqn:Hrest. injection Hs as <- <- <-.
    by eapply IH.
Qed.

(** The handshake precedes every call: if the executor changed, the lines fall into
    three stretches, the first asking for [initialize], the second announcing
    [notifications/initialized], the third asking for a call. *)
Definition handshake_first (lines : list string) : Prop :=
  exists l1 l2 l3, lines = l1 ++ l2 ++ l3
    /\ Exists (names_method "initialize") l1
    /\ Exists (names_method "notifications/initialized") l2
    /\ Exists (names_method "tools/call") l3.

(** What is still to come before an executor can change. *)
Definition still_asked (state : McpSessionState) (lines : list string) : Prop :=
  match state with
  | NEW => handshake_first lines
  | INITIALIZING => False
  | INITIALIZED =>
      exists l2 l3, lines = l2 ++ l3 /\ Exists (names_method "notifications/initialized") l2
        /\ Exists (names_method "tools/call") l3
  | READY => Exists (names_method "tools/call") lines
  end.

Lemma still_asked_cons state line lines : still_asked state lines -> still_asked state (line :: lines).
Proof using.
  destruct state; cbn; [|done| |by constructor 2].
  - intros (l1 & l2 & l3 & -> & ? & ? & ?). exists (line :: l1), l2, l3. by repeat split; try constructor 2.
  - intros (l2 & l3 & -> & ? & ?). exists (line :: l2), l3. by repeat split; try constructor 2.
Qed.

Lemma serve_handshake lines s out r s' :
  serve lines s = (out, r, s') ->
  sv_executor s' = sv_executor s \/ still_asked (sv_state s) lines.
Proof.
  revert s out. induction lines as [|line lines IH]; intros s out Hs; cbn in Hs.
  - injection Hs as <- <- <-. by left.
  - destruct (serve_line line s) as [o s1] eqn:Hl.
    assert (sv_executor s1 = sv_executor s /\ sv_state s1 = sv_state s
            \/ sv_executor s1 = sv_executor s /\ sv_state s = INITIALIZED /\ sv_state s1 = READY
               /\ names_method "notifications/initialized" line
            \/ sv_executor s1 = sv_executor s /\ sv_state s = NEW /\ sv_state s1 = INITIALIZED
               /\ names_method "initialize" line
            \/ sv_state s = READY /\ names_method "tools/call" line) as Hcases.
    { apply serve_line_step in Hl as [->|(m & r' & Hd & Hst)]; [by left|].
      destruct Hst; [by left|right; left|do 2 right; left|by left|do 3 right]; cbn;
        repeat split; try done; by exists m. }
    assert (sv_executor s' = sv_executor s1 \/ still_asked (sv_state s1) lines) as Hrest.
    { destruct o as [written|e]; [|injection Hs as <- <- <-; by left].
      destruct (serve lines s1) as [[out1 r1] s2] eqn:Hr. injection Hs as <- <- <-. by eapply IH. }
    destruct Hcases as [[Hx Hst]|[(Hx & Hi & Hr & Hn)|[(Hx & Hi & Hr & Hn)|(Hst & Hn)]]].
    + rewrite Hx, Hst in Hrest. destruct Hrest; [by left|right]. by apply still_asked_cons.
    + rewrite Hx, Hr in Hrest. rewrite Hi. destruct Hrest as [|Hrest]; [by left|right].
      exists [line], lines. repeat split; [by constructor|done].
    + rewrite Hx, Hr in Hrest. rewrite Hi.
      destruct Hrest as [|(l2 & l3 & -> & ? & ?)]; [by left|right].
      exists [line], l2, l3. repeat split; [by constructor|done..].
    + rewrite Hst. right. by constructor 1.
Qed.
End steps.

(** * The approved server *)

Section confined.
Context `{Pydantic} `{McpPydantic} `{Clocks} `{FreshIds}.
Variables (b : Backends) (scope : IncidentScope) (budgets : Budgets) (w0 : World).

Notation Executor := (PolicyWrappedMcpExecutor + PolicyApprovalRequiredExecutor)%type.
Notation Server := (McpObservabilityServer Executor).

(** The requests that reached a backend of this process. *)
Definition calls_of_executor (x : Executor) : list ToolArguments :=
  match x with inl x => w_backend_calls (d_world (ex_dispatch x)) | inr _ => [] end.

(** A request the incident and the budgets permit, to one of the four approved tools. *)
Definition approved_call (a : ToolArguments) : Prop :=
  arguments_permitted scope budgets a /\ arguments_tool a <> SEARCH_RUNBOOKS.

Definition executor_ok (x : PolicyWrappedMcpExecutor) : Prop :=
  let d := ex_dispatch x in
  ex_registry x = build_registry b /\ ex_scope x = scope /\ ex_budgets x = budgets
  /\ ledger_ok (d_world d) (d_ledger d) /\ (forall t, 0 <= slots_left_for (d_ledger d) t)
  /\ exists calls, w_backend_calls (d_world d) = w_backend_calls w0 ++ calls
       /\ Forall approved_call calls
       /\ Z.of_nat (length calls) + slots_left_for (d_ledger d) QUERY_METRIC = executed_tools budgets.

Lemma built_wrapper t w :
  dict_get t (build_registry b) = Some w ->
  tw_tool w = t /\ tw_arguments_type w = t /\ t <> SEARCH_RUNBOOKS.
Proof using.
  unfold build_registry. cbn.
  repeat (case_decide; [intros [= <-]; subst; done|]). done.
Qed.

Lemma executor_ok_call a x out x' :
  executor_ok x -> executor_call a x = (out, x') -> executor_ok x'.
Proof.
  intros Hx. pose proof Hx as (Hreg & Hsc & Hb & Hok & Hpos & calls & Hc & Hp & Hn).
  unfold executor_call, policy_wrapped_call.
  destruct (check_proposal (mcp_proposal a)) as [p|e] eqn:Hpr.
  2:{ by intros [= <- <-]. }
  apply check_proposal_id in Hpr as ->.
  destruct (dict_get (arguments_tool a) (ex_registry x)) as [w|] eqn:Hw.
  2:{ by intros [= <- <-]. }
  rewrite Hreg in Hw. apply built_wrapper in Hw as (-> & -> & Hne). rewrite Hsc, Hb.
  destruct (dispatch _ _ _ _ _ _ _) as [o d'] eqn:Hd. intros [= <- <-].
  destruct (dispatch_spec (arguments_tool a) (tw_run_check w) (mcp_proposal a) scope budgets _ _ _
              eq_refl (ledger_ok_fresh _ Hok) Hd) as [r He].
  unfold executor_ok. cbn. split; [done|]. split; [done|]. split; [done|].
  split; [by eapply dispatch_effect_ok|]. split; [by eapply dispatch_effect_nonneg|].
  pose proof (dispatch_effect_slots _ _ _ _ _ _ _ _ _ QUERY_METRIC He) as Hslots.
  pose proof (dispatch_effect_permitted _ _ _ _ _ _ _ _ _ He) as Hperm.
  pose proof (de_calls _ _ _ _ _ _ _ _ _ He) as Hcalls.
  exists (calls ++ calls_of (rc_policy_result r) (mcp_proposal a) scope).
  assert (same_pool (arguments_tool a) QUERY_METRIC = true) as Hpool.
  { unfold same_pool. by rewrite bool_decide_false. }
  rewrite Hpool, andb_true_r in Hslots.
  split; [by rewrite Hcalls, Hc, app_assoc|]. split.
  - apply Forall_app. split; [done|]. destruct (rc_policy_result r); cbn in *; [|constructor].
    apply Forall_singleton. apply Forall_cons_1 in Hperm as [Hperm _]. split; [done|].
    change (arguments_tool (resolve_effective_window a scope) <> SEARCH_RUNBOOKS). by rewrite resolve_arguments_tool.
  - rewrite length_app, Hslots. destruct (rc_policy_result r) eqn:Hr.
    + rewrite bool_decide_true by done. cbn. lia.
    + rewrite bool_decide_false by done. cbn. lia.
Qed.

Definition either_ok (x : Executor) : Prop :=
  match x with inl x => executor_ok x | inr _ => True end.

Lemma either_ok_call a x out x' :
  either_ok x -> executor_call a x = (out, x') -> either_ok x'.
Proof.
  intros Hx. unfold executor_call, either_call. destruct x as [x|[]]; cbn.
  - destruct (executor_call a x) as [o x1] eqn:Hc. intros [= <- <-]. by eapply executor_ok_call.
  - intros [= <- <-]. done.
Qed.

Lemma server_with_fields {X} (x : X) server :
  server_with x = Ok server -> sv_executor server = x /\ sv_state server = NEW.
Proof using.
  unfold server_with. destruct pinned_observability_manifest as [m|]; [|done]. cbn -[verify_discovered_tools].
  destruct (verify_discovered_tools _); [|done]. by intros [= <-].
Qed.

Definition fresh_dispatch : Dispatch :=
  {| d_world := w0; d_ledger := new_ledger (executed_tools budgets) 1; d_seen := ∅ |}.

Definition approves (approval : option McpDispatchApproval) : Prop :=
  exists a, approval = Some a /\ da_protocol_version a = MCP_PROTOCOL_VERSION
    /\ da_manifest_sha256 a = PINNED_MANIFEST_SHA256.

Lemma main_server_start approval server :
  main_server approval b scope budgets w0 = Ok server ->
  sv_state server = NEW
  /\ match sv_executor server with
     | inl x => x = {| ex_registry := build_registry b; ex_scope := scope; ex_budgets := budgets;
                      ex_dispatch := fresh_dispatch |} /\ approves approval
     | inr _ => True
     end.
Proof using.
  unfold main_server, policy_wrapped_executor.
  destruct approved_tool_names; [|done]. cbn -[build_registry]. destruct (_ && _); [|done].
  cbn -[build_registry policy_approved_mcp_server]. set (x := {| ex_registry := _ |}).
  destruct (policy_approved_mcp_server approval x) as [server'|e] eqn:Hp.
  - intros [= <-]. unfold policy_approved_mcp_server in Hp. destruct approval as [ap|]; [|done].
    destruct pinned_observability_manifest as [m|] eqn:Hm; [|done]. cbn -[server_with] in Hp.
    destruct (_ || _) eqn:Hg; [done|]. apply orb_false_iff in Hg as [Hv Hs].
    apply negb_false_iff, bool_decide_eq_true in Hv, Hs.
    apply server_with_fields in Hp as [-> ->]. split; [done|]. split; [done|].
    exists ap. split; [done|]. split; [done|]. rewrite Hs. unfold pinned_observability_manifest in Hm.
    case_bool_decide; by simplify_eq.
  - destruct (is_error _ _); [|done]. by intros [-> ->]%server_with_fields.
Qed.

Lemma fresh_executor_ok :
  0 <= executed_tools budgets ->
  executor_ok {| ex_registry := build_registry b; ex_scope := scope; ex_budgets := budgets;
                 ex_dispatch := fresh_dispatch |}.
Proof using.
  intros Hpos. unfold executor_ok. cbn. split; [done|]. split; [done|]. split; [done|].
  split; [by constructor|]. split.
  - intros t. rewrite slots_left_for_alt. cbn. case_decide; cbn; lia.
  - exists []. rewrite app_nil_r. split; [done|]. split; [constructor|].
    change (0 + (executed_tools budgets - 0) = executed_tools budgets). lia.
Qed.

Lemma either_approved a (x : Executor) o x' approval :
  match x with inl _ => approves approval | inr _ => True end ->
  executor_call a x = (o, x') -> match x' with inl _ => approves approval | inr _ => True end.
Proof using.
  unfold executor_call, either_call. destruct x as [x|[]]; intros Hx.
  - destruct (executor_call a x). by intros [= <- <-].
  - by intros [= <- <-].
Qed.

(** C17: the observability server, whatever lines arrive on its input.  A request reaches
    a backend only if the reviewed approval matches the pinned manifest, only after the
    handshake was asked for in its order, and only for one of the four approved tools,
    naming services, windows, row counts and an incident its scope and budgets permit;
    and no more requests do than the budget has slots. *)
Theorem server_confined approval lines server out r server' :
  0 <= executed_tools budgets -> w_backend_calls w0 = [] ->
  main_server approval b scope budgets w0 = Ok server ->
  serve lines server = (out, r, server') ->
  let calls := calls_of_executor (sv_executor server') in
  Forall approved_call calls
  /\ Z.of_nat (length calls) <= executed_tools budgets
  /\ (calls <> [] -> approves approval /\ handshake_first lines).
Proof.
  intros Hpos Hw Hmain Hserve calls. apply main_server_start in Hmain as [Hst Hx].
  assert (either_ok (sv_executor server)) as Hok.
  { destruct (sv_executor server) as [x|]; [|done]. destruct Hx as [-> _]. by apply fresh_executor_ok. }
  pose proof (serve_keeps either_ok lines _ _ _ _ (fun a x o x' _ => either_ok_call a x o x') Hok Hserve) as Hok'.
  assert (Forall approved_call calls /\ Z.of_nat (length calls) <= executed_tools budgets) as [Hp Hn].
  { subst calls. destruct (sv_executor server') as [x|]; cbn; [|by split; [constructor|]].
    destruct Hok' as (_ & _ & _ & _ & Hslots & calls & Hc & Hp & Hn).
    specialize (Hslots QUERY_METRIC). rewrite Hc, Hw. split; [done|]. cbn. lia. }
  split; [done|]. split; [done|]. intros Hne. split.
  - assert (match sv_executor server' with inl _ => approves approval | inr _ => True end) as Hap.
    { refine (serve_keeps (fun x => match x with inl _ => approves approval | inr _ => True end)
                lines _ _ _ _ (fun a x o x' _ => either_approved a x o x' approval) _ Hserve).
      destruct (sv_executor server); [by destruct Hx|done]. }
    subst calls. by destruct (sv_executor server').
  - destruct (serve_handshake _ _ _ _ _ Hserve) as [Heq|Hasked]; [|by rewrite Hst in Hasked].
    destruct Hne. subst calls. rewrite Heq. destruct (sv_executor server) as [x|]; [|done].
    by destruct Hx as [-> _].
Qed.
End confined.
