(* ===== verification/McpPipe.v ===== *)
(** Both ends of the pipe together: the client's child process (McpChild.v) whose host
    is this repository's own server (McpServer.v), answering each line as it comes.
    The handshake succeeds, and a check forwarded through the pipe is the check the
    server's backend makes. *)
From Stdlib Require Import ZArith Lia.
From stdpp Require Import prelude strings list gmap sorting.
From S2P Require Import Prelude PyText Tools ToolCalls Domain Policy World Evidence Wrappers JsonText JsonRoundTrip McpManifest McpStdio DispatchJson McpServer McpChild McpServerProps.
Local Open Scope Z_scope.

Definition BrokenPipeError : exn := OtherError "BrokenPipeError".

Section pipe.
Context `{PydanticRoundTrip} `{!McpPydantic} `{!McpPydanticLaws} `{Clocks} `{FreshIds}.

Notation Executor := (PolicyWrappedMcpExecutor + PolicyApprovalRequiredExecutor)%type.
Notation Server := (McpObservabilityServer Executor).

(** * The host: the server's process, and the lines it has written *)

Record Pipe := {
  pp_approval : option McpDispatchApproval;
  pp_backends : Backends;
  pp_world : World;
  pp_server : option Server;
  pp_queue : list queue_item;
}.

#[export] Instance settable_pipe : Settable Pipe := fun p =>
  {| pp_approval := pp_approval p; pp_backends := pp_backends p; pp_world := pp_world p;
     pp_server := pp_server p; pp_queue := pp_queue p |}.

Definition pipe_popen (root : string) (scope : IncidentScope) (budgets : Budgets) : ST Pipe exn unit := fun p =>
  match main_server (pp_approval p) (pp_backends p) scope budgets (pp_world p) with
  | Ok server => (Ok tt, p <| pp_server := Some server |> <| pp_queue := [] |>)
  | Err _ => (Ok tt, p <| pp_server := None |> <| pp_queue := [EndOfOutput] |>)
  end.

Definition pipe_write (line : string) : ST Pipe exn unit := fun p =>
  match pp_server p with
  | None => (Err BrokenPipeError, p)
  | Some server =>
      match serve_line line server with
      | (Ok written, server) =>
          (Ok tt, p <| pp_server := Some server |>
                    <| pp_queue := pp_queue p ++ (ALine <$> option_list written) |>)
      | (Err _, _) => (Ok tt, p <| pp_server := None |> <| pp_queue := pp_queue p ++ [EndOfOutput] |>)
      end
  end.

Definition pipe_next : ST Pipe exn queue_item := fun p =>
  match pp_queue p with
  | [] => (Ok NothingInTime, p)
  | item :: rest => (Ok item, p <| pp_queue := rest |>)
  end.

#[export] Instance pipe_host : ChildHost Pipe := {
  popen := pipe_popen;
  write_line := pipe_write;
  next_item := pipe_next;
  still_running := fun p => (Ok (is_some (pp_server p)), p);
  end_process := fun p => (Ok tt, p <| pp_server := None |>);
}.

Notation Child := (McpChildProcess Pipe).

(** * One exchange *)

Definition message_ok (message : jobject) : Prop :=
  field_is "jsonrpc" "2.0" message = true /\ json_written (JObj message) = true.

Lemma serve_written message response (s s' : Server) :
  message_ok message -> message_ok response -> handle message s = (Ok (Some response), s') ->
  serve_line (line_of message) s = (Ok (Some (line_of response)), s').
Proof.
  intros [Hf Hw] [Hf' Hw'] Hh. unfold serve_line. rewrite decode_line_of, Hh by done. cbn -[encode_jsonrpc_line].
  by rewrite encode_written.
Qed.

Lemma serve_silent message (s s' : Server) :
  message_ok message -> handle message s = (Ok None, s') ->
  serve_line (line_of message) s = (Ok None, s').
Proof. intros [Hf Hw] Hh. unfold serve_line. by rewrite decode_line_of, Hh by done. Qed.

(** A child with its server, nothing written and unread between them. *)
Definition joined (c : Child) (s : Server) : Prop :=
  ch_process c = true /\ pp_server (ch_host c) = Some s /\ pp_queue (ch_host c) = [].

Definition with_server (c : Child) (s : Server) : Child :=
  c <| ch_host := (ch_host c) <| pp_server := Some s |> |>.

Lemma exchange (c : Child) s s' message response :
  joined c s -> message_ok message -> message_ok response ->
  handle message s = (Ok (Some response), s') ->
  (_ ← child_write message; child_read_one) c = (Ok response, with_server c s').
Proof.
  intros (Hp & Hs & Hq) Hm Hr Hh. unfold child_write, child_read_one, on_host, mbind, ST_bind, get_state.
  rewrite Hp. cbn [negb]. unfold lift_result at 1. destruct Hm as [Hf Hw], Hr as [Hf' Hw'].
  rewrite encode_written by done. cbn [write_line next_item pipe_host]. unfold pipe_write. rewrite Hs.
  rewrite (serve_written message response s s') by done. cbn -[decode_jsonrpc_line line_of].
  rewrite Hq. cbn -[decode_jsonrpc_line line_of]. unfold lift_result. rewrite decode_line_of by done.
  unfold with_server. destruct c as [host ? ? ? ?]. destruct host. cbn in *. by subst.
Qed.

Lemma announce (c : Child) s s' message :
  joined c s -> message_ok message -> handle message s = (Ok None, s') ->
  child_write message c = (Ok tt, with_server c s').
Proof.
  intros (Hp & Hs & Hq) [Hf Hw] Hh. unfold child_write, on_host, mbind, ST_bind, get_state.
  rewrite Hp. cbn [negb]. unfold lift_result. rewrite encode_written by done.
  cbn [write_line pipe_host]. unfold pipe_write. rewrite Hs.
  rewrite (serve_silent message s s') by done. cbn. rewrite Hq.
  unfold with_server. destruct c as [host ? ? ? ?]. destruct host. cbn in *. by subst.
Qed.

Lemma joined_with c s s' : joined c s -> joined (with_server c s') s'.
Proof. by intros (? & ? & ?). Qed.

(** * Running a step and going on *)

Lemma ST_then {S A B} (m : ST S exn A) (k : A -> ST S exn B) s a s' :
  m s = (Ok a, s') -> (m ≫= k) s = k a s'.
Proof using. intros Hm. unfold mbind, ST_bind. by rewrite Hm. Qed.

Lemma ST_exchange {S A B} (m1 : ST S exn unit) (m2 : ST S exn A) (k : A -> ST S exn B) s a s' :
  (_ ← m1; m2) s = (Ok a, s') -> (_ ← m1; x ← m2; k x) s = k a s'.
Proof using.
  unfold mbind, ST_bind. destruct (m1 s) as [[[]|] s1]; [|done]. by intros ->.
Qed.

Lemma on_session_run {A} (m : ST McpStdioSession exn A) (c : Child) ss a ss' :
  ch_session c = Some ss -> m ss = (Ok a, ss') ->
  on_session m c = (Ok a, c <| ch_session := Some ss' |>).
Proof using. intros Hs Hm. unfold on_session. by rewrite Hs, Hm. Qed.

(** * The handshake *)

Definition session (state : McpSessionState) (id : Z) (pending : option (Z * string))
    (manifest : option McpToolManifest) : McpStdioSession :=
  {| ss_state := state; ss_request_id := id; ss_pending := pending; ss_manifest := manifest |}.

Definition request_message (id : Z) (method : string) (params : jobject) : jobject :=
  [("jsonrpc", JStr "2.0"); ("id", JInt id); ("method", JStr method); ("params", JObj params)].

Definition initialized_message : jobject :=
  [("jsonrpc", JStr "2.0"); ("method", JStr "notifications/initialized")].

Definition initialize_result : jobject :=
  [("protocolVersion", JStr MCP_PROTOCOL_VERSION);
   ("capabilities", JObj [("tools", JObj [("listChanged", JBool false)])]);
   ("serverInfo", JObj [("name", JStr MCP_SERVER_NAME); ("version", JStr MCP_SERVER_VERSION)])].

Definition list_result : jobject := [("tools", JArr (List.map listed_tool (mm_tools build_manifest)))].

Definition server_at (state : McpSessionState) (x : Executor) : Server :=
  {| sv_executor := x; sv_state := state; sv_manifest := build_manifest |}.

(** The schemas have a text. *)
Definition schemas_written : Prop :=
  Forall (fun t => json_written (JObj (model_json_schema t)) = true) TOOL_ARGUMENT_MODELS.

Lemma list_response_ok : schemas_written -> message_ok (server_response (JInt 2) list_result).
Proof using.
  intros Hs. split; [done|]. apply json_written_obj; [done|].
  repeat (apply Forall_cons_2; [done|]). apply Forall_singleton.
  apply json_written_obj; [done|]. apply Forall_singleton. apply json_written_arr.
  apply Forall_map, Forall_map. eapply Forall_impl; [exact Hs|]. intros t Ht.
  apply json_written_obj; [done|]. by repeat (apply Forall_cons_2; [done|]).
Qed.

Section handshake.
Hypothesis Hpin : pinned_observability_manifest = Ok build_manifest.

Lemma initialize_request_run :
  initialize_request new_session
  = (Ok (request_message 1 "initialize" initialize_params), session INITIALIZING 1 (Some (1, "initialize")) None).
Proof using. reflexivity. Qed.

Lemma initialized_run :
  initialized_notification (session INITIALIZED 1 None None)
  = (Ok initialized_message, session READY 1 None None).
Proof using. reflexivity. Qed.

Lemma list_request_run :
  tools_list_request (session READY 1 None None)
  = (Ok (request_message 2 "tools/list" []), session READY 2 (Some (2, "tools/list")) None).
Proof using. reflexivity. Qed.

Lemma accept_initialize_run :
  accept_initialize_response (server_response (JInt 1) initialize_result)
    (session INITIALIZING 1 (Some (1, "initialize")) None)
  = (Ok tt, session INITIALIZED 1 None None).
Proof using Hpin.
  unfold accept_initialize_response, mbind, ST_bind.
  change (session_response _ _ (session INITIALIZING 1 (Some (1, "initialize")) None))
    with (Ok initialize_result : res jobject, session INITIALIZING 1 None None).
  cbv beta iota. change (field_is "protocolVersion" MCP_PROTOCOL_VERSION initialize_result) with true.
  unfold check at 1, mret, ST_ret, lift_result. cbv beta iota. rewrite Hpin. reflexivity.
Qed.

Lemma handle_initialize_run (x : Executor) :
  handle (request_message 1 "initialize" initialize_params) (server_at NEW x)
  = (Ok (Some (server_response (JInt 1) initialize_result)), server_at INITIALIZED x).
Proof using. reflexivity. Qed.

Lemma handle_initialized_run (x : Executor) :
  handle initialized_message (server_at INITIALIZED x) = (Ok None, server_at READY x).
Proof using. reflexivity. Qed.

Lemma handle_list_run (x : Executor) :
  handle (request_message 2 "tools/list" []) (server_at READY x)
  = (Ok (Some (server_response (JInt 2) list_result)), server_at READY x).
Proof using. reflexivity. Qed.

Definition own_discovery : list McpToolDiscovery :=
  List.map (fun tool => {| ds_name := value (td_name tool); ds_input_schema := td_input_schema tool |})
    (mm_tools build_manifest).

Lemma own_discovery_read :
  mapM validate_discovery (List.map listed_tool (mm_tools build_manifest)) = Some own_discovery.
Proof using. reflexivity. Qed.

(** The server's own tools pass the comparison it makes on itself. *)
Lemma server_with_verified {X} (x : X) s :
  server_with x = Ok s -> verify_discovered_tools own_discovery = Ok build_manifest
  /\ s = {| sv_executor := x; sv_state := NEW; sv_manifest := build_manifest |}.
Proof using Hpin.
  assert (server_with x = (m ← verify_discovered_tools own_discovery;
            Ok {| sv_executor := x; sv_state := NEW; sv_manifest := m |})) as ->.
  { unfold server_with. by rewrite Hpin. }
  destruct (verify_discovered_tools own_discovery) as [m|e] eqn:Hv; [|done].
  intros [= <-]. pose proof Hv as Hm. unfold verify_discovered_tools in Hm. rewrite Hpin in Hm.
  unfold mbind, result_bind in Hm.
  destruct (collect_discovered [] own_discovery) as [actual|]; [|done].
  destruct (same_keys actual _); [|done]. cbn [negb] in Hm.
  destruct (check_schemas actual _); [|done]. injection Hm as <-. done.
Qed.

Lemma accept_list_run :
  verify_discovered_tools own_discovery = Ok build_manifest ->
  accept_tools_list_response (server_response (JInt 2) list_result)
    (session READY 2 (Some (2, "tools/list")) None)
  = (Ok build_manifest, session READY 2 None (Some build_manifest)).
Proof using.
  intros Hv. unfold accept_tools_list_response, mbind, ST_bind.
  change (session_response _ _ (session READY 2 (Some (2, "tools/list")) None))
    with (Ok list_result : res jobject, session READY 2 None None).
  cbv beta iota. change (field_none "nextCursor" list_result) with true.
  unfold check, mret, ST_ret. cbv beta iota.
  change (dict_get "tools" list_result) with (Some (JArr (List.map listed_tool (mm_tools build_manifest)))).
  cbv beta iota. rewrite own_discovery_read, Hv. reflexivity.
Qed.

(** A child that was handed its server: ready for a call. *)
Definition ready_session (id : Z) : McpStdioSession := session READY id None (Some build_manifest).

Lemma handshake_run (c : Child) x :
  joined c (server_at NEW x) -> ch_session c = Some new_session -> schemas_written ->
  verify_discovered_tools own_discovery = Ok build_manifest ->
  handshake c
  = (Ok tt, (with_server c (server_at READY x)) <| ch_session := Some (ready_session 2) |>).
Proof using Hpin.
  intros Hj Hs Hw Hv. unfold handshake.
  rewrite (ST_then _ _ _ _ _ (on_session_run _ _ _ _ _ Hs initialize_request_run)).
  erewrite ST_exchange.
  2:{ apply (exchange _ (server_at NEW x)); [exact Hj|by split| |apply handle_initialize_run]. by split. }
  erewrite ST_then by (eapply on_session_run; [reflexivity|apply accept_initialize_run]).
  erewrite ST_then by (eapply on_session_run; [reflexivity|apply initialized_run]).
  erewrite ST_then.
  2:{ apply (announce _ (server_at INITIALIZED x)); [by destruct Hj as (? & ? & ?)|by split|apply handle_initialized_run]. }
  erewrite ST_then by (eapply on_session_run; [reflexivity|apply list_request_run]).
  erewrite ST_exchange.
  2:{ apply (exchange _ (server_at READY x)); [by destruct Hj as (? & ? & ?)|by split|by apply list_response_ok|apply handle_list_run]. }
  erewrite ST_then by (eapply on_session_run; [reflexivity|by apply accept_list_run]).
  reflexivity.
Qed.

Lemma main_server_verified approval b scope budgets w server :
  main_server approval b scope budgets w = Ok server ->
  verify_discovered_tools own_discovery = Ok build_manifest
  /\ server = server_at NEW (sv_executor server).
Proof using Hpin.
  unfold main_server. destruct (policy_wrapped_executor _ _ _ _) as [x|]; [|done].
  unfold mbind at 1, result_bind at 1.
  destruct (policy_approved_mcp_server approval x) as [s|e] eqn:Hp.
  - intros [= <-]. unfold policy_approved_mcp_server in Hp. destruct approval; [|done].
    rewrite Hpin in Hp. unfold mbind, result_bind in Hp. destruct (_ || _); [done|].
    apply server_with_verified in Hp as [Hv ->]. by split.
  - destruct (is_error _ _); [|done]. intros [Hv ->]%server_with_verified. by split.
Qed.

(** A child started over its own server is ready for a call. *)
Definition ready (c : Child) (x : Executor) (id : Z) : Prop :=
  joined c (server_at READY x) /\ ch_poisoned c = false /\ ch_session c = Some (ready_session id).

Lemma child_start_run (c : Child) root scope budgets server :
  main_server (pp_approval (ch_host c)) (pp_backends (ch_host c)) scope budgets (pp_world (ch_host c))
    = Ok server ->
  schemas_written ->
  exists c', child_start root scope budgets c = (Ok tt, c') /\ ready c' (sv_executor server) 2.
Proof using Hpin.
  intros Hm Hw. pose proof (main_server_verified _ _ _ _ _ _ Hm) as [Hv Hs].
  set (x := sv_executor server) in *.
  set (c1 := c <| ch_launch := Some (root, scope, budgets) |> <| ch_poisoned := false |>
               <| ch_host := (ch_host c) <| pp_server := Some server |> <| pp_queue := [] |> |>
               <| ch_process := true |> <| ch_session := Some new_session |>).
  exists ((with_server c1 (server_at READY x)) <| ch_session := Some (ready_session 2) |>).
  split; [|done].
  rewrite <- (handshake_run c1 x); [|split; [done|split; [by rewrite <- Hs|done]]|done|done|exact Hv].
  unfold child_start, on_host, modify, mbind, ST_bind. cbn [popen pipe_host]. unfold pipe_popen.
  cbn -[main_server handshake]. rewrite Hm. reflexivity.
Qed.

(** * One call *)

Lemma int_written_small z : Z.abs z <= 200 -> int_written z = true.
Proof using. clear. intros Hz. apply (int_written_below 3); [|done..]. change (10 ^ Z.of_nat 3) with 1000. lia. Qed.

Lemma dump_arguments_written a :
  arguments_in_schema a = true -> json_written (JObj (dump_arguments a)) = true.
Proof using.
  intros Ha. apply json_written_obj; [by destruct a|].
  assert (forall t, json_written (dump_opt_datetime t) = true) as Hd by (by intros [t|]).
  unfold dump_arguments. destruct a; rewrite ?Forall_cons; repeat split; cbn -[int_written]; try done.
  all: apply int_written_small; cbn in Ha; lia.
Qed.

Lemma validate_strict_dump a :
  arguments_in_schema a = true ->
  validate_strict_tool_arguments (with_tool (value (arguments_tool a)) (dump_arguments a)) = Ok a.
Proof using H0 H2.
  intros Ha. assert (with_tool (value (arguments_tool a)) (dump_arguments a) = dump_arguments a) as ->.
  { by destruct a. }
  pose proof (dump_arguments_written a Ha) as Hw. unfold validate_strict_tool_arguments.
  rewrite json_written_encodable by done. cbn [negb].
  change (json_dumps_compact ?j) with (dumps false ("," +:+ "") (":" +:+ "") j).
  rewrite (read_json_dumps false "" "") by done.
  assert (@PydanticRoundTrip strict_mode) as Hrt.
  { split; [intros z; by apply strict_int|]. intros t. rewrite strict_dump. apply strict_datetime. }
  assert (@dump_arguments strict_mode a = dump_arguments a) as <-.
  { assert (forall t, @dump_opt_datetime strict_mode t = dump_opt_datetime t) as Hd
      by (intros [t|]; cbn; by rewrite ?strict_dump).
    unfold dump_arguments. destruct a; by rewrite ?Hd. }
  by rewrite (@validate_dump_arguments strict_mode Hrt).
Qed.

Lemma tool_call_request_run id a :
  arguments_in_schema a = true ->
  tool_call_request (arguments_tool a) (dump_arguments a) (ready_session id)
  = (Ok (request_message (id + 1) "tools/call"
           [("name", JStr (value (arguments_tool a))); ("arguments", JObj (dump_arguments a))]),
     session READY (id + 1) (Some (id + 1, "tools/call")) (Some build_manifest)).
Proof using H0 H2.
  intros Ha. unfold tool_call_request, lift_result, mbind, ST_bind, get_state.
  rewrite validate_strict_dump by done. cbn [ss_state ready_session session ss_manifest is_some check].
  by rewrite !bool_decide_true.
Qed.

Lemma handle_call_run id a x x' result :
  arguments_in_schema a = true -> executor_call a x = (Ok result, x') ->
  handle (request_message id "tools/call"
            [("name", JStr (value (arguments_tool a))); ("arguments", JObj (dump_arguments a))])
    (server_at READY x)
  = (Ok (Some (server_response (JInt id) (dump_call_result result))), server_at READY x').
Proof using H0 H2.
  intros Ha Hx.
  change (handle ?m ?s) with (handle_tools_call (JInt id) m s).
  set (params := [("name", JStr (value (arguments_tool a))); ("arguments", JObj (dump_arguments a))]).
  unfold handle_tools_call.
  rewrite (ST_then (server_params (request_message id "tools/call" params)) _ (server_at READY x) params
             (server_at READY x) eq_refl).
  change (dict_get "name" params) with (Some (JStr (value (arguments_tool a)))).
  change (dict_get "arguments" params) with (Some (JObj (dump_arguments a))).
  cbv beta iota. rewrite of_value_value.
  rewrite (ST_then _ _ _ a (server_at READY x)) by (unfold lift_result; by rewrite validate_strict_dump).
  rewrite (ST_then (check _) _ _ tt (server_at READY x)) by (by rewrite bool_decide_true).
  rewrite (ST_then (run_executor a) _ _ result (server_at READY x')); [done|].
  unfold run_executor. cbn [sv_executor server_at]. by rewrite Hx.
Qed.

Lemma call_result_reads_back result : validate_call_result (dump_call_result result) = Some result.
Proof using H2.
  unfold validate_call_result. eapply bind_step; [reflexivity|cbv beta].
  eapply bind_step.
  { apply (mapM_written validate_text_content (fun text => JObj [("type", JStr "text"); ("text", JStr text)])).
    by apply Forall_forall. }
  cbv beta. eapply bind_step; [apply coerce_bool_bool|]. by destruct result.
Qed.

Lemma call_run (c : Child) x x' id a result :
  ready c x id -> int_written (id + 1) = true -> arguments_in_schema a = true ->
  executor_call a x = (Ok result, x') -> cr_is_error result = false ->
  exists c', child_call (arguments_tool a) (dump_arguments a) c = (Ok result, c') /\ ready c' x' (id + 1).
Proof using H0 H2.
  intros (Hj & Hp & Hs) Hid Ha Hx He.
  exists ((with_server (c <| ch_session := Some (session READY (id + 1) (Some (id + 1, "tools/call")) (Some build_manifest)) |>)
             (server_at READY x')) <| ch_session := Some (ready_session (id + 1)) |>).
  split; [|by destruct Hj as (? & ? & ?)].
  unfold child_call. erewrite ST_then.
  2:{ unfold respawn_if_dead, mbind, ST_bind, get_state, on_host. destruct Hj as (Hpr & Hsv & _).
      rewrite Hp, Hpr. cbn [negb andb still_running pipe_host]. rewrite Hsv. cbn.
      instantiate (1 := c). by destruct c. }
  rewrite (ST_then _ _ _ _ _ (on_session_run _ _ _ _ _ Hs (tool_call_request_run id a Ha))).
  erewrite ST_exchange.
  2:{ apply (exchange _ (server_at READY x)); [by destruct Hj as (? & ? & ?)| | |by apply handle_call_run].
      - split; [done|]. apply json_written_obj; [done|].
        repeat (apply Forall_cons_2; [done|]). apply Forall_singleton. apply json_written_obj; [done|].
        apply Forall_cons_2; [done|]. apply Forall_singleton. by apply dump_arguments_written.
      - split; [done|]. apply json_written_obj; [done|]. repeat (apply Forall_cons_2; [done|]).
        apply Forall_singleton. apply json_written_obj; [done|].
        apply Forall_cons_2; [|by apply Forall_singleton].
        by apply json_written_arr, Forall_map, Forall_forall. }
  erewrite on_session_run; [reflexivity|reflexivity|].
  unfold accept_tool_call_response, mbind, ST_bind.
  assert (session_response (server_response (JInt (id + 1)) (dump_call_result result)) "tools/call"
    (session READY (id + 1) (Some (id + 1, "tools/call")) (Some build_manifest))
    = (Ok (dump_call_result result), ready_session (id + 1))) as ->.
  { unfold session_response, mbind, ST_bind, get_state. cbn [ss_pending session].
    change (dict_get "id" _) with (Some (JInt (id + 1))). cbv iota. by rewrite Z.eqb_refl. }
  by rewrite call_result_reads_back, He.
Qed.

(** * One forwarded check *)

(** What the tool's own backend answers, called directly. *)
Definition direct_check (b : Backends) (n : nat) (a : ToolArguments) (scope : IncidentScope) : res CheckOutcome :=
  match a with
  | AMetric a => run_metric b n a scope
  | ALogs a => run_logs b n a scope
  | AChanges a => run_changes b n a scope
  | ATopology a => run_topology b n a scope
  | ARunbooks _ => Err TypeError
  end.

Definition kind_of (t : ToolName) : EvidenceKind :=
  match kind_by_tool t with Ok k => k | Err _ => METRIC end.

(** What is left of a check once it crossed the pipe: an executed one whole, the keys
    of its payload sorted; of another its outcome and its reason. *)
Definition carried (t : ToolName) (o : CheckOutcome) : CheckOutcome :=
  if decide (co_outcome o = EXECUTED) then
    {| co_outcome := EXECUTED; co_kind := co_kind o; co_source := co_source o; co_summary := co_summary o;
       co_payload := sort_items (co_payload o); co_reason_code := None; co_duration_ms := co_duration_ms o |}
  else
    failed_check (kind_of t) (value t) (co_outcome o)
      (default TOOL_ERROR (co_reason_code o)) "MCP child reported a non-executed outcome".

(** A check whose records their validators accept and whose numbers have a text. *)
Definition check_carried (o : CheckOutcome) : Prop :=
  max_length 400 (co_summary o) = true /\ 0 <= co_duration_ms o
  /\ int_written (co_duration_ms o) = true /\ json_written (JObj (co_payload o)) = true.

Lemma resolve_in_schema a scope :
  arguments_in_schema (resolve_effective_window a scope) = arguments_in_schema a.
Proof using. by destruct a. Qed.

Lemma registry_check b t :
  t <> SEARCH_RUNBOOKS ->
  exists w, dict_get t (build_registry b) = Some w /\ tw_tool w = t /\ tw_arguments_type w = t
    /\ forall n a scope, arguments_tool a = t -> tw_run_check w n a scope = checked (direct_check b n a scope).
Proof using.
  intros Ht. destruct t; try done; eexists; (split; [reflexivity|]); (split; [done|]); (split; [done|]);
    by intros ? [] ?.
Qed.

Lemma receipt_dump_written r :
  int_written (rc_duration_ms r) = true ->
  match rc_arguments r with None => true | Some a => arguments_in_schema a end = true ->
  json_written (JObj (dump_receipt r)) = true.
Proof using.
  intros Hd Ha. apply json_written_obj; [done|].
  assert (forall o, json_written (opt_json JStr o) = true) as Hs by (by intros [|]).
  assert (forall A (f : A -> string) o, json_written (opt_json (fun a => JStr (f a)) o) = true) as He
    by (by intros ? ? [|]).
  unfold dump_receipt. rewrite !Forall_cons. repeat split; cbn [snd]; try done; try apply He.
  destruct (rc_arguments r); [by apply dump_arguments_written|done].
Qed.

Lemma settled_outcome_run scope r (o : CheckOutcome) d :
  dict_get (rc_receipt_id r) (lg_receipts (d_ledger d)) = Some r -> rc_state r = RESERVED ->
  match rc_arguments r with None => true | Some a => arguments_in_schema a end = true ->
  check_carried o ->
  exists dr d', settle_outcome scope r (Checked o) d = (Ok dr, d')
    /\ result_valid dr = true /\ json_written (JObj (dump_dispatch_result dr)) = true
    /\ forall t, outcome_of_result (kind_of t) t (sorted_result dr) = carried t o.
Proof using.
  intros Hg Hs Ha (Hm & Hd & Hdw & Hpw). unfold settle_outcome.
  assert (exists ev d1, mint_evidence scope r o d = (Ok ev, d1) /\ d_ledger d1 = d_ledger d
    /\ match ev with
       | None => co_outcome o <> EXECUTED
       | Some e => co_outcome o = EXECUTED /\ ev_kind e = co_kind o /\ ev_source e = co_source o
           /\ ev_summary e = co_summary o /\ ev_payload e = co_payload o
       end) as (ev & d1 & Hmint & Hl & Hev).
  { unfold mint_evidence. case_decide as Ho; [|by eexists None, _].
    unfold tick, read_clock, on_world, build_evidence, new_opaque_id, check_evidence, require.
    unfold mbind, ST_bind. cbn -[max_length]. rewrite Hm. by eexists (Some _), _. }
  unfold mbind at 1, ST_bind at 1. rewrite Hmint.
  unfold mbind at 1, ST_bind at 1. rewrite settle_run by (by rewrite ?Hl).
  rewrite (proj2 (Z.leb_le _ _) Hd). cbn zeta. eexists _, _. split; [reflexivity|].
  split; [|split].
  - unfold result_valid, receipt_valid, check_lifecycle_coherence, settled_copy. cbn.
    rewrite (proj2 (Z.leb_le _ _) Hd). cbn. rewrite Ha. cbn.
    destruct ev as [e|]; [|done]. destruct Hev as (_ & _ & _ & Hsum & _).
    unfold check_evidence. rewrite Hsum. unfold require. by rewrite Hm.
  - apply json_written_obj; [done|].
    apply Forall_cons_2; [by apply receipt_dump_written|].
    apply Forall_cons_2; [|by repeat (apply Forall_cons_2; [done|])].
    destruct ev as [e|]; [|done]. destruct Hev as (_ & _ & _ & _ & Hpay).
    apply json_written_obj; [done|]. unfold dump_evidence. rewrite !Forall_cons, Hpay.
    repeat split; try done. by destruct (ev_receipt_id e).
  - intros t. unfold carried, outcome_of_result. cbn.
    destruct ev as [e|]; cbn.
    + destruct Hev as (Ho & Hk & Hso & Hsu & Hpa). rewrite Ho, decide_True by done. cbn.
      by rewrite Hk, Hso, Hsu, Hpa.
    + rewrite decide_False by done. by destruct (co_outcome o).
Qed.

Lemma executor_run b scope budgets d a o :
  arguments_tool a <> SEARCH_RUNBOOKS -> arguments_in_schema a = true ->
  pd_result (decision_of (arguments_tool a) (mcp_proposal a) scope budgets d) = ALLOWED ->
  direct_check b (length (w_backend_calls (d_world d))) (resolve_effective_window a scope) scope = Ok o ->
  check_carried o ->
  exists dr d',
    executor_call a {| ex_registry := build_registry b; ex_scope := scope; ex_budgets := budgets; ex_dispatch := d |}
    = (Ok {| cr_content := [dispatch_result_json dr]; cr_is_error := false |},
       {| ex_registry := build_registry b; ex_scope := scope; ex_budgets := budgets; ex_dispatch := d' |})
    /\ (exists w, dispatch (arguments_tool a) (arguments_tool a) (tw_run_check w) (mcp_proposal a) scope budgets d
                  = (Ok dr, d'))
    /\ result_valid dr = true /\ json_written (JObj (dump_dispatch_result dr)) = true
    /\ forall t, outcome_of_result (kind_of t) t (sorted_result dr) = carried t o.
Proof using.
  intros Ht Ha Hdec Hback Ho. destruct (registry_check b _ Ht) as (w & Hw & Htool & Htype & Hrun).
  destruct (settled_outcome_run scope (reserved_of (mcp_proposal a) scope d) o (called (mcp_proposal a) scope d))
    as (dr & d' & Hset & Hv & Hwr & Hout); [apply dict_get_set_eq|done| |done|].
  { cbn. by rewrite resolve_in_schema. }
  assert (dispatch (arguments_tool a) (arguments_tool a) (tw_run_check w) (mcp_proposal a) scope budgets d
          = (Ok dr, d')) as Hd.
  { rewrite (dispatch_allowed_run _ _ (mcp_proposal a) scope budgets d eq_refl Hdec).
    rewrite Hrun by (cbn; by rewrite resolve_arguments_tool).
    change (pr_arguments (effective (mcp_proposal a) scope)) with (resolve_effective_window a scope).
    rewrite Hback. unfold checked, mbind, result_bind. by rewrite Hset. }
  exists dr, d'. split; [|by split; [exists w|]]. unfold executor_call, policy_wrapped_call.
  change (check_proposal (mcp_proposal a)) with (Ok (mcp_proposal a) : res ToolProposal). cbv iota.
  cbn [ex_registry ex_scope ex_budgets ex_dispatch]. by rewrite Hw, Htool, Htype, Hd.
Qed.

(** The check forwarded through the pipe is the check the backend makes. *)
Lemma forwarded_run (c : Child) b scope budgets d id a o :
  ready c (inl {| ex_registry := build_registry b; ex_scope := scope; ex_budgets := budgets; ex_dispatch := d |}) id ->
  int_written (id + 1) = true ->
  arguments_tool a <> SEARCH_RUNBOOKS -> arguments_in_schema a = true ->
  pd_result (decision_of (arguments_tool a) (mcp_proposal a) scope budgets d) = ALLOWED ->
  direct_check b (length (w_backend_calls (d_world d))) (resolve_effective_window a scope) scope = Ok o ->
  check_carried o ->
  exists c' d',
    forwarding_run_check (arguments_tool a) a c = (Ok (carried (arguments_tool a) o), c')
    /\ ready c' (inl {| ex_registry := build_registry b; ex_scope := scope; ex_budgets := budgets;
                        ex_dispatch := d' |}) (id + 1)
    /\ exists dr w, dispatch (arguments_tool a) (arguments_tool a) (tw_run_check w) (mcp_proposal a) scope budgets d
                    = (Ok dr, d').
Proof using H0 H2.
  intros Hr Hid Ht Ha Hdec Hback Ho.
  destruct (executor_run b scope budgets d a o Ht Ha Hdec Hback Ho) as (dr & d' & Hx & [w Hd] & Hv & Hw & Hout).
  set (x := {| ex_registry := build_registry b; ex_dispatch := d |}) in *.
  destruct (call_run c (inl x) (inl (x <| ex_dispatch := d' |>)) id a
              {| cr_content := [dispatch_result_json dr]; cr_is_error := false |} Hr Hid Ha)
    as (c' & Hc & Hr'); [by unfold executor_call, either_call; cbn; rewrite Hx|done|].
  exists c', d'. split; [|split; [exact Hr'|by exists dr, w]].
  unfold forwarding_run_check.
  rewrite (ST_then _ _ c (kind_of (arguments_tool a)) c) by (by destruct (arguments_tool a)).
  rewrite (ST_then _ _ c (inl {| cr_content := [dispatch_result_json dr]; cr_is_error := false |}) c').
  2:{ unfold try_except, mbind, ST_bind. by rewrite Hc. }
  cbv iota. unfold parse_dispatch_result. cbn [cr_content].
  rewrite (dispatch_result_reads_back dr Hv Hw). unfold lift_result, mbind, ST_bind, mret, ST_ret.
  by rewrite Hout.
Qed.

(** * The same receipts *)

(** What the server's ledger must not have used up: it has seen nothing the client has
    not, and has as many slots left at least. *)
Definition mirrors (server client : Dispatch) : Prop :=
  d_seen server ⊆ d_seen client
  /\ slots_left_for (d_ledger client) QUERY_METRIC <= slots_left_for (d_ledger server) QUERY_METRIC.

Lemma slots_same_pool l t :
  t <> SEARCH_RUNBOOKS -> slots_left_for l t = slots_left_for l QUERY_METRIC.
Proof using. intros Ht. unfold slots_left_for. by rewrite decide_False. Qed.

(** What the client's policy allows, the server's allows. *)
Lemma server_allows (p : ToolProposal) scope budgets server client :
  pr_tool p <> SEARCH_RUNBOOKS -> mirrors server client ->
  pd_result (decision_of (pr_tool p) p scope budgets client) = ALLOWED ->
  let a := resolve_effective_window (pr_arguments p) scope in
  pd_result (decision_of (arguments_tool a) (mcp_proposal a) scope budgets server) = ALLOWED.
Proof using.
  clear Hpin H0 H2 H1 H5. intros Ht [Hseen Hslots] Hdec a. apply authorize_allowed_iff in Hdec as (Hs & Hf & Hp).
  apply authorize_allowed_iff. unfold effective, proposal_with, mcp_proposal in *. cbn [pr_arguments] in *.
  subst a. rewrite resolve_idempotent. split_and!; [|set_solver|done].
  rewrite resolve_arguments_tool. unfold pr_tool in *.
  rewrite slots_same_pool in Hs by done. rewrite slots_same_pool by done. lia.
Qed.

Definition minted (scope : IncidentScope) (r : ToolReceipt) (o : CheckOutcome) (d : Dispatch) : Evidence :=
  {| ev_evidence_id := uuid_hex (w_ids (d_world d)); ev_incident_id := sc_incident_id scope;
     ev_kind := co_kind o; ev_source := co_source o; ev_observed_at := clock (w_ticks (d_world d));
     ev_summary := co_summary o; ev_payload := co_payload o; ev_receipt_id := Some (rc_receipt_id r);
     ev_content_hash := content_hash (co_payload o) |}.

Definition after_mint (d : Dispatch) : Dispatch :=
  d <| d_world := (d_world d) <| w_ticks := S (w_ticks (d_world d)) |> <| w_ids := S (w_ids (d_world d)) |> |>.

Lemma mint_run scope r o d :
  co_outcome o = EXECUTED ->
  mint_evidence scope r o d
  = (if max_length 400 (co_summary o) then Ok (Some (minted scope r o d)) else Err ValidationError, after_mint d).
Proof using.
  intros Ho. unfold mint_evidence. rewrite decide_True by done.
  unfold tick, read_clock, on_world, build_evidence, new_opaque_id, check_evidence, require, mbind, ST_bind.
  cbn -[max_length]. by destruct (max_length 400 (co_summary o)).
Qed.

(** A check as a backend makes it: executed, or failed by [failed_check]. *)
Definition answered_check (o : CheckOutcome) : Prop :=
  co_outcome o = EXECUTED /\ co_reason_code o = None
  \/ co_outcome o <> EXECUTED /\ is_Some (co_reason_code o) /\ co_duration_ms o = 0.

(** What the receipt is settled with crosses the pipe unchanged, failed checks included. *)
Lemma carried_settles t o :
  answered_check o ->
  co_outcome (carried t o) = co_outcome o /\ co_reason_code (carried t o) = co_reason_code o
  /\ co_duration_ms (carried t o) = co_duration_ms o.
Proof using.
  unfold carried. intros [[Ho Hrc]|(Ho & [rc Hrc] & Hd)].
  - rewrite decide_True by done. by rewrite Ho, Hrc.
  - rewrite decide_False by done. by rewrite Hrc, Hd.
Qed.

Lemma minted_carried t scope r o d :
  co_outcome o = EXECUTED -> json_written (JObj (co_payload o)) = true ->
  minted scope r (carried t o) d = sorted_payload (minted scope r o d).
Proof using.
  intros Ho Hw. assert (content_hash (sort_items (co_payload o)) = content_hash (co_payload o)) as Hh.
  { unfold content_hash. f_equal. change (JObj (sort_items ?d)) with (sort_keys (JObj d)).
    by apply canonical_sort_keys. }
  unfold minted, sorted_payload, carried. rewrite decide_True by done. cbn. by rewrite Hh.
Qed.

(** Settling a check, or what crossed the pipe of it, differs in nothing but the order of
    the payload's keys: the receipts are the same, down to the digest. *)
Lemma settle_carried t scope r o d :
  dict_get (rc_receipt_id r) (lg_receipts (d_ledger d)) = Some r -> rc_state r = RESERVED ->
  answered_check o -> check_carried o ->
  exists dr d' d'',
    settle_outcome scope r (Checked o) d = (Ok dr, d')
    /\ settle_outcome scope r (Checked (carried t o)) d = (Ok (sorted_result dr), d'')
    /\ lg_receipts (d_ledger d'') = lg_receipts (d_ledger d') /\ d_seen d'' = d_seen d'
    /\ d_world d'' = d_world d'
    /\ rc_outcome (dr_receipt dr) = Some (co_outcome o) /\ rc_reason_code (dr_receipt dr) = co_reason_code o.
Proof using.
  intros Hg Hs Hans (Hm & Hd & _ & Hw). destruct (carried_settles t o Hans) as (Ho' & Hrc' & Hd').
  unfold settle_outcome. destruct (decide (co_outcome o = EXECUTED)) as [Ho|Ho].
  - assert (co_summary (carried t o) = co_summary o) as Hm' by (unfold carried; by rewrite decide_True).
    rewrite (ST_then _ _ _ (Some (minted scope r o d)) (after_mint d)) by (by rewrite mint_run, Hm).
    rewrite (ST_then (mint_evidence scope r (carried t o)) _ _ (Some (minted scope r (carried t o) d)) (after_mint d))
      by (rewrite mint_run, Hm', Hm; congruence).
    unfold mbind at 1 2, ST_bind at 1 2. rewrite !settle_run by done.
    rewrite Hd', (proj2 (Z.leb_le _ _) Hd), Ho', Hrc', (minted_carried t scope r o d Ho Hw).
    eexists _, _, _. split; [reflexivity|]. split; [reflexivity|]. by split_and!.
  - unfold mint_evidence. rewrite Ho', !decide_False by done. unfold mbind, ST_bind, mret, ST_ret.
    rewrite !settle_run by done. rewrite Hd', (proj2 (Z.leb_le _ _) Hd), Hrc'.
    eexists _, _, _. split; [reflexivity|]. split; [reflexivity|]. by split_and!.
Qed.

Definition executor_over (b : Backends) (scope : IncidentScope) (budgets : Budgets) (d : Dispatch) : Executor :=
  inl {| ex_registry := build_registry b; ex_scope := scope; ex_budgets := budgets; ex_dispatch := d |}.

(** A dispatch moves both ledgers alike. *)
Lemma mirrors_dispatch t a rc rc' p p' scope budgets server client dr dr' server' client' :
  pr_tool p = t -> pr_tool p' = t -> t <> SEARCH_RUNBOOKS ->
  pr_arguments (effective p scope) = a -> pr_arguments (effective p' scope) = a ->
  ledger_ok (d_world server) (d_ledger server) -> ledger_ok (d_world client) (d_ledger client) ->
  mirrors server client ->
  pd_result (decision_of t p scope budgets server) = ALLOWED ->
  pd_result (decision_of t p' scope budgets client) = ALLOWED ->
  dispatch t t rc p scope budgets server = (Ok dr, server') ->
  dispatch t t rc' p' scope budgets client = (Ok dr', client') ->
  mirrors server' client' /\ ledger_ok (d_world server') (d_ledger server')
  /\ ledger_ok (d_world client') (d_ledger client').
Proof using H5.
  intros Ht Ht' Hne Ha Ha' Hok Hok' [Hseen Hslots] Hd Hd' Hr Hr'.
  destruct (dispatch_spec _ _ _ _ _ _ _ _ Ht (ledger_ok_fresh _ Hok) Hr) as [r He].
  destruct (dispatch_spec _ _ _ _ _ _ _ _ Ht' (ledger_ok_fresh _ Hok') Hr') as [r' He'].
  pose proof (dispatch_effect_slots _ _ _ _ _ _ _ _ _ QUERY_METRIC He) as Hs.
  pose proof (dispatch_effect_slots _ _ _ _ _ _ _ _ _ QUERY_METRIC He') as Hs'.
  split; [|split; by eapply dispatch_effect_ok].
  pose proof (de_policy _ _ _ _ _ _ _ _ _ He) as Hp. pose proof (de_policy _ _ _ _ _ _ _ _ _ He') as Hp'.
  pose proof (de_seen _ _ _ _ _ _ _ _ _ He) as Hse. pose proof (de_seen _ _ _ _ _ _ _ _ _ He') as Hse'.
  pose proof (de_fingerprint _ _ _ _ _ _ _ _ _ He) as Hf. pose proof (de_fingerprint _ _ _ _ _ _ _ _ _ He') as Hf'.
  rewrite Hp, Hd in Hs. rewrite Hp', Hd' in Hs'. rewrite Hf, Ha in Hse. rewrite Hf', Ha' in Hse'.
  split; [rewrite Hse, Hse'; by apply union_mono_l|].
  rewrite Hs, Hs'. lia.
Qed.

(** C16: a check dispatched over MCP is the check dispatched directly.  The child is ready,
    its server serves the same incident under the same budgets and has run at most what
    the client has.  Whatever proposal the client's policy allows, for any of the four
    tools whose backend answers it - with an executed check, or with a failed one, its
    outcome and reason as [failed_check] makes them - the child's server allows and runs it
    once, with the same arguments; the two dispatches then leave the same receipts,
    outcome, reason, duration and digest included, and the same evidence but for the order
    of its payload's keys; and the child is ready for the next, its server still behind
    the client. *)
Theorem mcp_dispatch_is_direct (c : Child) b scope budgets server client id (p : ToolProposal) o :
  let t := pr_tool p in
  let a := resolve_effective_window (pr_arguments p) scope in
  ready c (executor_over b scope budgets server) id -> int_written (id + 1) = true ->
  t <> SEARCH_RUNBOOKS -> arguments_in_schema (pr_arguments p) = true ->
  ledger_ok (d_world server) (d_ledger server) -> ledger_ok (d_world client) (d_ledger client) ->
  mirrors server client ->
  pd_result (decision_of t p scope budgets client) = ALLOWED ->
  direct_check b (length (w_backend_calls (d_world server))) a scope = Ok o ->
  answered_check o -> check_carried o ->
  exists c' server' o' dr direct forwarded,
    forwarding_run_check t a c = (Ok o', c')
    /\ dispatch t t (fun _ _ _ => Ok (Checked o)) p scope budgets client = (Ok dr, direct)
    /\ dispatch t t (fun _ _ _ => Ok (Checked o')) p scope budgets client = (Ok (sorted_result dr), forwarded)
    /\ rc_outcome (dr_receipt dr) = Some (co_outcome o) /\ rc_reason_code (dr_receipt dr) = co_reason_code o
    /\ lg_receipts (d_ledger forwarded) = lg_receipts (d_ledger direct)
    /\ d_seen forwarded = d_seen direct /\ d_world forwarded = d_world direct
    /\ w_backend_calls (d_world server') = w_backend_calls (d_world server) ++ [a]
    /\ ready c' (executor_over b scope budgets server') (id + 1)
    /\ mirrors server' forwarded
    /\ ledger_ok (d_world server') (d_ledger server') /\ ledger_ok (d_world forwarded) (d_ledger forwarded).
Proof using H0 H2 H5.
  intros t a Hr Hid Ht Ha Hok Hok' Hmir Hdec Hback Ho Hcar.
  assert (arguments_tool a = t) as Hat by apply resolve_arguments_tool.
  pose proof (server_allows p scope budgets server client Ht Hmir Hdec) as Hsdec. cbv zeta in Hsdec. fold a in Hsdec.
  destruct (forwarded_run c b scope budgets server id a o Hr Hid) as (c' & server' & Hf & Hr' & dr0 & w & Hd0).
  { by rewrite Hat. }
  { subst a. by rewrite resolve_in_schema. }
  { done. }
  { subst a. by rewrite resolve_idempotent. }
  { done. }
  rewrite Hat in Hf, Hd0, Hsdec.
  destruct (settle_carried t scope (reserved_of p scope client) o (called p scope client))
    as (dr & direct & forwarded & Hs & Hs' & Hrec & Hseen & Hworld & Hout & Hwhy);
    [apply dict_get_set_eq|done..|].
  exists c', server', (carried t o), dr, direct, forwarded.
  assert (dispatch t t (fun _ _ _ => Ok (Checked (carried t o))) p scope budgets client
          = (Ok (sorted_result dr), forwarded)) as Hfw
    by (by rewrite (dispatch_allowed_run t _ p scope budgets client eq_refl Hdec)).
  assert (effective (mcp_proposal a) scope = mcp_proposal a) as Heff.
  { unfold effective, proposal_with, mcp_proposal. cbn. subst a. by rewrite resolve_idempotent. }
  destruct (mirrors_dispatch t a _ _ (mcp_proposal a) p scope budgets _ _ _ _ _ _ Hat eq_refl Ht
              ltac:(by rewrite Heff) eq_refl Hok Hok' Hmir Hsdec Hdec Hd0 Hfw) as (Hm & Hok1 & Hok2).
  destruct (dispatch_spec t _ (mcp_proposal a) _ _ _ _ _ Hat (ledger_ok_fresh _ Hok) Hd0) as [r He].
  pose proof (de_calls _ _ _ _ _ _ _ _ _ He) as Hcalls.
  rewrite (de_policy _ _ _ _ _ _ _ _ _ He), Hsdec in Hcalls. cbn [calls_of] in Hcalls. rewrite Heff in Hcalls.
  split; [exact Hf|]. split; [|split; [exact Hfw|by split_and!]].
  by rewrite (dispatch_allowed_run t _ p scope budgets client eq_refl Hdec).
Qed.
End handshake.
End pipe.
