(* ===== verification/McpProps.v ===== *)
(** The client's session in whatever order its operations are called and whatever the
    peer answers, and what the supervised child does when an answer fails. *)
From Stdlib Require Import ZArith Lia.
From stdpp Require Import prelude strings list gmap.
From S2P Require Import Prelude PyText Tools ToolCalls Domain Policy World Evidence Wrappers JsonText JsonRoundTrip McpManifest McpStdio DispatchJson McpServer McpChild McpServerProps McpPipe.
Local Open Scope Z_scope.

Section session.
Context `{Pydantic} `{McpPydantic} `{Host}.

(** * The operations of a session, in any order *)

Inductive session_op :=
  | OpInitialize
  | OpAcceptInitialize (answer : jobject)
  | OpInitialized
  | OpListTools
  | OpAcceptTools (answer : jobject)
  | OpCallTool (t : ToolName) (arguments : jobject)
  | OpAcceptCall (answer : jobject).

(** What an operation sends, if anything. *)
Definition run_op (op : session_op) : ST McpStdioSession exn (option jobject) :=
  match op with
  | OpInitialize => m ← initialize_request; mret (Some m)
  | OpAcceptInitialize answer => _ ← accept_initialize_response answer; mret None
  | OpInitialized => m ← initialized_notification; mret (Some m)
  | OpListTools => m ← tools_list_request; mret (Some m)
  | OpAcceptTools answer => _ ← accept_tools_list_response answer; mret None
  | OpCallTool t arguments => m ← tool_call_request t arguments; mret (Some m)
  | OpAcceptCall answer => _ ← accept_tool_call_response answer; mret None
  end.

Notation event := (session_op * res (option jobject))%type.

Fixpoint run_ops (ops : list session_op) (s : McpStdioSession) : list event * McpStdioSession :=
  match ops with
  | [] => ([], s)
  | op :: ops =>
      let '(r, s) := run_op op s in
      let '(trace, s) := run_ops ops s in ((op, r) :: trace, s)
  end.

(** The ids of the requests sent. *)
Definition sent_id (e : event) : option Z :=
  match e.2 with
  | Ok (Some m) => match dict_get "id" m with Some (JInt n) => Some n | _ => None end
  | _ => None
  end.

Definition sent_ids (trace : list event) : list Z := omap sent_id trace.

(** [1], [2], ... up to [n]. *)
Definition first_ids (n : Z) : list Z := List.map (fun k => Z.of_nat k + 1) (List.seq 0 (Z.to_nat n)).

Lemma first_ids_succ n : 0 <= n -> first_ids (n + 1) = first_ids n ++ [n + 1].
Proof using.
  intros Hn. unfold first_ids. rewrite Z2Nat.inj_add by lia. change (Z.to_nat 1) with 1%nat.
  rewrite List.seq_app, List.map_app. cbn. do 3 f_equal. lia.
Qed.

(** An answer to [initialize] that names the pinned protocol and the pinned server. *)
Definition names_pinned_server (answer : jobject) : Prop :=
  exists result info, dict_get "result" answer = Some (JObj result)
    /\ dict_get "protocolVersion" result = Some (JStr MCP_PROTOCOL_VERSION)
    /\ dict_get "serverInfo" result = Some (JObj info)
    /\ dict_get "name" info = Some (JStr MCP_SERVER_NAME)
    /\ dict_get "version" info = Some (JStr MCP_SERVER_VERSION).

(** An answer to [tools/list], on one page, that lists the four observability tools and no
    other, each once and with its pinned schema; the manifest itself has its pinned digest. *)
Definition lists_pinned_tools (answer : jobject) : Prop :=
  exists result listed tools, dict_get "result" answer = Some (JObj result)
    /\ field_none "nextCursor" result = true
    /\ dict_get "tools" result = Some (JArr listed) /\ mapM validate_discovery listed = Some tools
    /\ List.map ds_name tools
       ≡ₚ List.map value [QUERY_METRIC; QUERY_LOGS; LIST_RECENT_CHANGES; GET_TOPOLOGY]
    /\ (forall t, t <> SEARCH_RUNBOOKS -> exists d, d ∈ tools /\ ds_name d = value t
         /\ json_dumps_canonical (JObj (ds_input_schema d)) = json_dumps_canonical (JObj (model_json_schema t)))
    /\ manifest_sha256 build_manifest = PINNED_MANIFEST_SHA256.

(** What an operation may do to a session: fail, perhaps after the outstanding request was
    answered; or send, or accept, in its place of the protocol. *)
Inductive session_step (s : McpStdioSession) : session_op -> res (option jobject) -> McpStdioSession -> Prop :=
  | op_failed op e : session_step s op (Err e) s
  | op_answered op e : session_step s op (Err e) (s <| ss_pending := None |>)
  | op_initialize :
      ss_state s = NEW -> ss_pending s = None ->
      session_step s OpInitialize
        (Ok (Some (request_message (ss_request_id s + 1) "initialize" initialize_params)))
        (session INITIALIZING (ss_request_id s + 1) (Some (ss_request_id s + 1, "initialize")) (ss_manifest s))
  | op_initialize_busy e : session_step s OpInitialize (Err e) (s <| ss_state := INITIALIZING |>)
  | op_accept_initialize answer k :
      ss_pending s = Some (k, "initialize") -> dict_get "id" answer = Some (JInt k) ->
      names_pinned_server answer ->
      session_step s (OpAcceptInitialize answer) (Ok None)
        (session INITIALIZED (ss_request_id s) None (ss_manifest s))
  | op_initialized :
      ss_state s = INITIALIZED ->
      session_step s OpInitialized (Ok (Some initialized_message)) (s <| ss_state := READY |>)
  | op_list :
      ss_state s = READY -> ss_pending s = None ->
      session_step s OpListTools (Ok (Some (request_message (ss_request_id s + 1) "tools/list" [])))
        (session READY (ss_request_id s + 1) (Some (ss_request_id s + 1, "tools/list")) (ss_manifest s))
  | op_accept_tools answer k m :
      ss_pending s = Some (k, "tools/list") -> dict_get "id" answer = Some (JInt k) ->
      lists_pinned_tools answer ->
      session_step s (OpAcceptTools answer) (Ok None)
        (session (ss_state s) (ss_request_id s) None (Some m))
  | op_call t arguments a :
      ss_state s = READY -> ss_pending s = None -> ss_manifest s <> None ->
      arguments_tool a = t -> arguments_in_schema a = true ->
      session_step s (OpCallTool t arguments)
        (Ok (Some (request_message (ss_request_id s + 1) "tools/call"
               [("name", JStr (value t)); ("arguments", JObj (dump_arguments a))])))
        (session READY (ss_request_id s + 1) (Some (ss_request_id s + 1, "tools/call")) (ss_manifest s))
  | op_accept_call answer k :
      ss_pending s = Some (k, "tools/call") -> dict_get "id" answer = Some (JInt k) ->
      session_step s (OpAcceptCall answer) (Ok None)
        (session (ss_state s) (ss_request_id s) None (ss_manifest s)).

(** [_request] and [_response], whole. *)
Lemma request_run method params s :
  request method params s
  = match ss_pending s with
    | Some _ => (Err McpProtocolError, s)
    | None => (Ok (request_message (ss_request_id s + 1) method params),
               session (ss_state s) (ss_request_id s + 1) (Some (ss_request_id s + 1, method)) (ss_manifest s))
    end.
Proof using. unfold request, mbind, ST_bind, get_state. by destruct (ss_pending s). Qed.

Lemma session_response_run message method s r s' :
  session_response message method s = (r, s') ->
  (exists e, r = Err e /\ (s' = s \/ s' = s <| ss_pending := None |>))
  \/ exists k result, r = Ok result /\ s' = s <| ss_pending := None |>
      /\ ss_pending s = Some (k, method) /\ dict_get "id" message = Some (JInt k)
      /\ dict_get "result" message = Some (JObj result).
Proof using.
  unfold session_response, check, mbind, ST_bind, get_state.
  destruct (ss_pending s) as [[k pm]|]; [|intros [= <- <-]; left; eauto].
  case_bool_decide as Hpm; [|intros [= <- <-]; left; eauto]. subst pm. cbn.
  destruct (field_is _ _ _); [|intros [= <- <-]; left; eauto]. cbn.
  destruct (dict_get "id" message) as [[]|]; try (intros [= <- <-]; left; by eauto).
  case (Z.eqb_spec z k) as [->|]; [|intros [= <- <-]; left; eauto]. cbn.
  destruct (field_none "error" message); [|intros [= <- <-]; left; eauto].
  destruct (dict_get "result" message) as [[]|]; intros [= <- <-]; try (left; by eauto).
  right. by exists k, d.
Qed.

(** An operation that goes on from an accepted answer. *)
Lemma after_response {A} (k : jobject -> ST McpStdioSession exn A) message method s r s' :
  (result ← session_response message method; k result) s = (r, s') ->
  (exists e, r = Err e /\ (s' = s \/ s' = s <| ss_pending := None |>))
  \/ exists id result, k result (s <| ss_pending := None |>) = (r, s')
      /\ ss_pending s = Some (id, method) /\ dict_get "id" message = Some (JInt id)
      /\ dict_get "result" message = Some (JObj result).
Proof using.
  unfold mbind, ST_bind. destruct (session_response message method s) as [o s1] eqn:Hr.
  apply session_response_run in Hr as [(e & -> & Hs)|(id & result & -> & -> & ? & ? & ?)].
  - intros [= <- <-]. left. eauto.
  - intros Hk. right. by exists id, result.
Qed.

Ltac failed := first [apply op_failed | apply op_answered | apply op_initialize_busy].

Lemma field_is_get k text d : field_is k text d = true -> dict_get k d = Some (JStr text).
Proof using. unfold field_is. destruct (dict_get k d) as [[]|]; try done. by intros ->%bool_decide_eq_true. Qed.

Lemma accept_initialize_step answer s r s' :
  run_op (OpAcceptInitialize answer) s = (r, s') -> session_step s (OpAcceptInitialize answer) r s'.
Proof using.
  cbn [run_op]. unfold mbind at 1, ST_bind at 1.
  destruct (accept_initialize_response answer s) as [o s1] eqn:Ha. unfold accept_initialize_response in Ha.
  apply after_response in Ha as [(e & -> & Hs)|(id & result & Hk & Hp & Hid & Hres)].
  { intros [= <- <-]. destruct Hs as [->| ->]; failed. }
  unfold check, mbind, ST_bind, lift_result, modify in Hk.
  destruct (field_is _ _ _) eqn:Hversion; [|injection Hk as <- <-; intros [= <- <-]; failed]. cbn in Hk.
  destruct pinned_observability_manifest as [m|] eqn:Hm; [|injection Hk as <- <-; intros [= <- <-]; failed].
  apply pinned_manifest_built in Hm as ->.
  destruct (dict_get "serverInfo" result) as [[]|] eqn:Hinfo;
    try (injection Hk as <- <-; intros [= <- <-]; failed).
  destruct (_ && _) eqn:Hnamed; injection Hk as <- <-; intros [= <- <-]; [|failed].
  apply andb_true_iff in Hnamed as [Hname%field_is_get Hv%field_is_get].
  apply (op_accept_initialize s answer id); try done. exists result, d. split_and!; try done. by apply field_is_get.
Qed.

Lemma accept_tools_step answer s r s' :
  run_op (OpAcceptTools answer) s = (r, s') -> session_step s (OpAcceptTools answer) r s'.
Proof using.
  cbn [run_op]. unfold mbind at 1, ST_bind at 1.
  destruct (accept_tools_list_response answer s) as [o s1] eqn:Ha. unfold accept_tools_list_response in Ha.
  apply after_response in Ha as [(e & -> & Hs)|(id & result & Hk & Hp & Hid & Hres)].
  { intros [= <- <-]. destruct Hs as [->| ->]; failed. }
  unfold check, mbind, ST_bind, modify in Hk.
  destruct (field_none _ _) eqn:Hpage; [|injection Hk as <- <-; intros [= <- <-]; failed]. cbn in Hk.
  destruct (dict_get "tools" result) as [[]|] eqn:Ht;
    try (injection Hk as <- <-; intros [= <- <-]; failed).
  destruct (mapM validate_discovery l) as [tools|] eqn:Hm; [|injection Hk as <- <-; intros [= <- <-]; failed].
  destruct (verify_discovered_tools tools) as [m|e] eqn:Hv.
  - injection Hk as <- <-. intros [= <- <-]. apply (op_accept_tools s answer id m); try done.
    apply verify_discovered_spec in Hv as (_ & Hpin & Hnames & Hschemas).
    exists result, l, tools. split_and!; try done. intros t Hne. apply Hschemas.
    unfold TOOL_ARGUMENT_MODELS. rewrite !elem_of_cons. destruct t; tauto.
  - destruct (is_error _ _); injection Hk as <- <-; intros [= <- <-]; failed.
Qed.

Lemma accept_call_step answer s r s' :
  run_op (OpAcceptCall answer) s = (r, s') -> session_step s (OpAcceptCall answer) r s'.
Proof using.
  cbn [run_op]. unfold mbind at 1, ST_bind at 1.
  destruct (accept_tool_call_response answer s) as [o s1] eqn:Ha. unfold accept_tool_call_response in Ha.
  apply after_response in Ha as [(e & -> & Hs)|(id & result & Hk & Hp & Hid & _)].
  { intros [= <- <-]. destruct Hs as [->| ->]; failed. }
  destruct (validate_call_result result) as [parsed|]; [|injection Hk as <- <-; intros [= <- <-]; failed].
  destruct (cr_is_error parsed); injection Hk as <- <-; intros [= <- <-]; [failed|].
  by apply (op_accept_call s answer id).
Qed.

Lemma call_tool_step t arguments s r s' :
  run_op (OpCallTool t arguments) s = (r, s') -> session_step s (OpCallTool t arguments) r s'.
Proof using.
  cbn [run_op]. unfold tool_call_request, check, lift_result, mbind, ST_bind, get_state.
  case_bool_decide as Hst; [|intros [= <- <-]; failed]. cbn.
  destruct (ss_manifest s) as [m|] eqn:Hm; [|intros [= <- <-]; failed]. cbn.
  destruct (validate_strict_tool_arguments _) as [a|e] eqn:Hv; [|intros [= <- <-]; failed].
  case_bool_decide as Ha; [|intros [= <- <-]; failed]. cbn -[request value].
  rewrite request_run. destruct (ss_pending s) eqn:Hp; intros [= <- <-]; [failed|].
  rewrite Hst. apply (op_call s t arguments a); try done; [by rewrite Hm|]. by eapply validate_strict_Ok.
Qed.

Lemma run_op_step op s r s' : run_op op s = (r, s') -> session_step s op r s'.
Proof using.
  destruct op.
  - cbn [run_op]. unfold initialize_request, check, mbind, ST_bind, get_state, put_state.
    case_bool_decide as Hst; [|intros [= <- <-]; failed]. cbn -[request]. rewrite request_run. cbn.
    destruct (ss_pending s) eqn:Hp; intros [= <- <-]; [failed|]. by apply op_initialize.
  - apply accept_initialize_step.
  - cbn [run_op]. unfold initialized_notification, check, mbind, ST_bind, get_state, put_state.
    case_bool_decide as Hst; intros [= <- <-]; [|failed]. by apply op_initialized.
  - cbn [run_op]. unfold tools_list_request, check, mbind, ST_bind, get_state.
    case_bool_decide as Hst; [|intros [= <- <-]; failed]. cbn -[request]. rewrite request_run.
    destruct (ss_pending s) eqn:Hp; intros [= <- <-]; [failed|]. rewrite Hst. by apply op_list.
  - apply accept_tools_step.
  - apply call_tool_step.
  - apply accept_call_step.
Qed.

(** * What a trace has shown when the session is in a state *)

Definition identified (trace : list event) : Prop :=
  exists answer, (OpAcceptInitialize answer, Ok None) ∈ trace /\ names_pinned_server answer.

Definition announced (trace : list event) : Prop := (OpInitialized, Ok (Some initialized_message)) ∈ trace.

Definition verified (trace : list event) : Prop :=
  exists answer, (OpAcceptTools answer, Ok None) ∈ trace /\ lists_pinned_tools answer.

Record session_inv (trace : list event) (s : McpStdioSession) : Prop := {
  si_ids : sent_ids trace = first_ids (ss_request_id s);
  si_count : 0 <= ss_request_id s;
  si_pending : forall k method, ss_pending s = Some (k, method) -> k = ss_request_id s /\ 0 < k;
  si_identified : ss_state s = INITIALIZED \/ ss_state s = READY -> identified trace;
  si_announced : ss_state s = READY -> announced trace;
  si_verified : ss_manifest s <> None -> verified trace;
}.

Lemma identified_app trace e : identified trace -> identified (trace ++ [e]).
Proof using. intros (a & Ha & ?). exists a. split; [set_solver|done]. Qed.

Lemma announced_app trace e : announced trace -> announced (trace ++ [e]).
Proof using. unfold announced. set_solver. Qed.

Lemma verified_app trace e : verified trace -> verified (trace ++ [e]).
Proof using. intros (a & Ha & ?). exists a. split; [set_solver|done]. Qed.

Lemma sent_ids_app trace e : sent_ids (trace ++ [e]) = sent_ids trace ++ option_list (sent_id e).
Proof using. unfold sent_ids. rewrite omap_app. cbn. by destruct (sent_id e). Qed.

Lemma session_inv_step trace s op r s' :
  session_inv trace s -> session_step s op r s' -> session_inv (trace ++ [(op, r)]) s'.
Proof using.
  intros [Hids Hcount Hpend Hidn Hann Hver] Hstep.
  split; destruct Hstep; cbn [ss_request_id ss_pending ss_state ss_manifest session] in *;
    rewrite ?sent_ids_app; cbn [sent_id snd option_list]; rewrite ?app_nil_r;
    try done; try lia.
  all: try (rewrite first_ids_succ by done; by rewrite Hids).
  all: try (intros ? ? [= <- <-]; lia).
  all: try (intros Hx; first [apply identified_app, Hidn | apply announced_app, Hann | apply verified_app, Hver]; tauto).
  all: try (intros [[=]|[=]]).
  all: try (intros [=]).
  - exists answer. split; [set_solver|done].
  - unfold announced. set_solver.
  - intros _. exists answer. split; [set_solver|done].
Qed.

Lemma run_ops_app ops1 ops2 s :
  run_ops (ops1 ++ ops2) s
  = let '(t1, s1) := run_ops ops1 s in let '(t2, s2) := run_ops ops2 s1 in (t1 ++ t2, s2).
Proof using.
  revert s. induction ops1 as [|op ops1 IH]; intros s; cbn; [by destruct (run_ops ops2 s)|].
  destruct (run_op op s) as [r s1]. rewrite IH. destruct (run_ops ops1 s1) as [t1 s2].
  by destruct (run_ops ops2 s2).
Qed.

(** Every event of a trace happened in a state that what came before accounts for. *)
Lemma run_ops_inv ops s0 trace0 trace s :
  session_inv trace0 s0 -> run_ops ops s0 = (trace, s) ->
  session_inv (trace0 ++ trace) s
  /\ forall before e after, trace = before ++ e :: after ->
       exists si sj, session_inv (trace0 ++ before) si /\ session_step si e.1 e.2 sj.
Proof using.
  revert s0 trace0 trace. induction ops as [|op ops IH]; intros s0 trace0 trace Hinv Hrun; cbn in Hrun.
  - injection Hrun as <- <-. rewrite app_nil_r. split; [done|]. by intros [].
  - destruct (run_op op s0) as [r s1] eqn:Hop. destruct (run_ops ops s1) as [t1 s2] eqn:Hrest.
    injection Hrun as <- <-. pose proof (run_op_step _ _ _ _ Hop) as Hstep.
    destruct (IH s1 (trace0 ++ [(op, r)]) t1 (session_inv_step _ _ _ _ _ Hinv Hstep) Hrest) as [Hinv' Hall].
    rewrite <- app_assoc in Hinv'. split; [done|]. intros [|e0 before] e after Heq.
    + injection Heq as <- <-. exists s0, s1. by rewrite app_nil_r.
    + injection Heq as <- Heq. destruct (Hall before e after Heq) as (si & sj & Hi & Hs).
      exists si, sj. rewrite <- app_assoc in Hi. by split.
Qed.

Lemma new_session_inv : session_inv [] new_session.
Proof using. split; cbn; try done. by intros [[=]|[=]]. Qed.

(** The id of the newest request, if one was sent. *)
Definition newest_id (trace : list event) : option Z := last (sent_ids trace).

Lemma first_ids_last n : 0 < n -> last (first_ids n) = Some n.
Proof using.
  intros Hn. replace n with (n - 1 + 1) at 1 by lia. rewrite first_ids_succ by lia.
  rewrite last_snoc. f_equal. lia.
Qed.

(** C18: the client's session, whatever is called in whatever order and whatever the peer
    answers.  The requests it sends are numbered one, two, three, without a gap.  A call is
    sent only when an accepted answer named the pinned protocol version, server name and
    server version, the end of the handshake was announced, and an accepted answer listed
    exactly the four pinned tools with their pinned schemas; it carries arguments of the
    tool it names that fit the tool's schema.  An answer is accepted only with the number
    of the newest request, and an accepted identity or tool list is the pinned one. *)
Theorem session_in_order ops trace s :
  run_ops ops new_session = (trace, s) ->
  sent_ids trace = first_ids (ss_request_id s)
  /\ (forall before t arguments m after,
        trace = before ++ (OpCallTool t arguments, Ok (Some m)) :: after ->
        (exists answer, (OpAcceptInitialize answer, Ok None) ∈ before /\ names_pinned_server answer)
        /\ (OpInitialized, Ok (Some initialized_message)) ∈ before
        /\ (exists answer, (OpAcceptTools answer, Ok None) ∈ before /\ lists_pinned_tools answer)
        /\ exists a, arguments_tool a = t /\ arguments_in_schema a = true
             /\ m = request_message (Z.of_nat (length (sent_ids before)) + 1) "tools/call"
                      [("name", JStr (value t)); ("arguments", JObj (dump_arguments a))])
  /\ (forall before op answer after,
        trace = before ++ (op, Ok None) :: after ->
        op = OpAcceptInitialize answer \/ op = OpAcceptTools answer \/ op = OpAcceptCall answer ->
        (exists k, newest_id before = Some k /\ dict_get "id" answer = Some (JInt k))
        /\ (op = OpAcceptInitialize answer -> names_pinned_server answer)
        /\ (op = OpAcceptTools answer -> lists_pinned_tools answer)).
Proof.
  intros Hrun. destruct (run_ops_inv _ _ [] _ _ new_session_inv Hrun) as [Hinv Hall].
  split; [by destruct Hinv|]. split.
  - intros before t arguments m after Heq. destruct (Hall _ _ _ Heq) as (si & sj & Hi & Hs). cbn in Hi, Hs.
    inversion Hs; subst. destruct Hi.
    split; [by apply si_identified0; right|]. split; [by apply si_announced0|]. split; [by apply si_verified0|]. exists a. split_and!; try done.
    rewrite si_ids0. unfold first_ids. rewrite List.length_map, List.length_seq, Z2Nat.id by done. done.
  - intros before op answer after Heq Hop. destruct (Hall _ _ _ Heq) as (si & sj & Hi & Hs). cbn in Hi, Hs.
    assert (exists k method, ss_pending si = Some (k, method) /\ dict_get "id" answer = Some (JInt k))
      as (k & method & Hp & Hk).
    { inversion Hs; subst; destruct Hop as [[=]|[[=]|[=]]]; subst; eauto. }
    split; [exists k; split; [|done]|by inversion Hs; subst; destruct Hop as [[=]|[[=]|[=]]]; subst; split; intros [=]; subst].
    destruct Hi as [Hids Hcount Hpend _ _ _]. destruct (Hpend _ _ Hp) as [-> Hpos].
    unfold newest_id. rewrite Hids. by apply first_ids_last.
Qed.
End session.

(** * The supervised child when an answer fails *)

Section child.
Context `{Pydantic} `{McpPydantic} `{Host} {P : Type} `{ChildHost P}.
Implicit Types c : McpChildProcess P.

(** A session that cannot send a call: one is outstanding, or the handshake is not over. *)
Definition blocked (s : McpStdioSession) : Prop := ss_pending s <> None \/ ss_state s <> READY.

(** A child that is not poisoned, with such a session. *)
Definition wedged c : Prop :=
  ch_poisoned c = false /\ ch_process c = true /\ exists s, ch_session c = Some s /\ blocked s.

Lemma blocked_call t arguments s :
  blocked s -> tool_call_request t arguments s = (Err McpProtocolError, s).
Proof using.
  intros Hb. unfold tool_call_request, check, lift_result, mbind, ST_bind, get_state.
  case_bool_decide as Hst; [|done]. cbn. destruct (ss_manifest s); [|done]. cbn.
  destruct (validate_strict_tool_arguments _) as [a|e] eqn:Hv; [|by apply validate_strict_Err in Hv as ->].
  case_bool_decide; [|done]. cbn -[request]. rewrite request_run.
  destruct (ss_pending s) eqn:Hp; [done|]. by destruct Hb as [Hb|Hb].
Qed.

(** While its process runs, every call of a wedged child fails before anything is sent,
    and leaves it as it was. *)
Lemma wedged_call t arguments c host :
  wedged c -> still_running (ch_host c) = (Ok true, host) ->
  child_call t arguments c = (Err McpProtocolError, c <| ch_host := host |>).
Proof using.
  destruct c as [h pr ss po la]. intros (Hp & Hpr & s & Hs & Hb) Hrun. cbn in Hp, Hpr, Hs, Hrun. subst.
  unfold child_call. set (c := {| ch_host := h |}).
  rewrite (ST_then respawn_if_dead _ c tt (c <| ch_host := host |>)).
  2:{ unfold respawn_if_dead, mbind, ST_bind, get_state, on_host. cbn. by rewrite Hrun. }
  unfold mbind at 1, ST_bind at 1, on_session. cbn -[tool_call_request]. by rewrite blocked_call.
Qed.

(** A request was sent and a line came back that is no JSON-RPC message: the request stays
    outstanding and the child is not poisoned. *)
Lemma malformed_answer c s s1 request host1 host2 host3 t arguments line :
  ch_poisoned c = false -> ch_process c = true -> ch_session c = Some s ->
  still_running (ch_host c) = (Ok true, host1) ->
  tool_call_request t arguments s = (Ok request, s1) -> ss_pending s1 <> None ->
  (exists text, encode_jsonrpc_line request = Ok text /\ write_line text host1 = (Ok tt, host2)) ->
  next_item host2 = (Ok (ALine line), host3) -> decode_jsonrpc_line line = Err McpProtocolError ->
  let c' := c <| ch_host := host3 |> <| ch_session := Some s1 |> in
  child_call t arguments c = (Err McpProtocolError, c') /\ wedged c'.
Proof using.
  destruct c as [h pr ss po la]. intros Hp Hpr Hs Hrun Hreq Hpend (text & He & Hw) Hn Hd c'.
  cbn in Hp, Hpr, Hs, Hrun. subst. split.
  - set (c := {| ch_host := h |}) in *. unfold child_call. rewrite (ST_then respawn_if_dead _ c tt (c <| ch_host := host1 |>)).
    2:{ unfold respawn_if_dead, mbind, ST_bind, get_state, on_host. cbn. by rewrite Hrun. }
    rewrite (ST_then (on_session _) _ _ request (c <| ch_host := host1 |> <| ch_session := Some s1 |>)).
    2:{ unfold on_session. cbn -[tool_call_request]. by rewrite Hreq. }
    rewrite (ST_then (child_write request) _ _ tt (c <| ch_host := host2 |> <| ch_session := Some s1 |>)).
    2:{ unfold child_write, mbind, ST_bind, get_state, lift_result, on_host. cbn -[encode_jsonrpc_line]. rewrite He. cbn. by rewrite Hw. }
    unfold mbind at 1, ST_bind at 1, child_read_one, mbind, ST_bind, on_host. cbn -[decode_jsonrpc_line]. rewrite Hn. cbn -[decode_jsonrpc_line].
    unfold lift_result. by rewrite Hd.
  - split; [done|]. split; [done|]. exists s1. split; [done|by left].
Qed.

(** What an executed check that crossed the pipe was made of. *)
Lemma forwarded_executed t a c o c' :
  forwarding_run_check t a c = (Ok o, c') -> co_outcome o = EXECUTED ->
  exists result dr, child_call t (dump_arguments a) c = (Ok result, c') /\ parse_dispatch_result result = Ok dr
    /\ rc_outcome (dr_receipt dr) = Some EXECUTED
    /\ match dr_evidence dr with
       | Some e => co_kind o = ev_kind e /\ co_source o = ev_source e /\ co_summary o = ev_summary e
           /\ co_payload o = ev_payload e
       | None => co_payload o = []
       end.
Proof using.
  intros Hrun Ho. unfold forwarding_run_check, lift_result, try_except, mbind, ST_bind in Hrun.
  destruct (kind_by_tool t) as [kind|]; [|done].
  destruct (child_call t (dump_arguments a) c) as [[result|e] c1].
  - cbn in Hrun. destruct (parse_dispatch_result result) as [dr|] eqn:Hdr; [|done].
    injection Hrun as <- <-. exists result, dr. split; [done|]. split; [done|].
    unfold outcome_of_result in *. destruct (rc_outcome (dr_receipt dr)) as [[]|]; try done.
    destruct (dr_evidence dr); done.
  - unfold failure_of in Hrun.
    destruct (is_error McpChildTimeoutError e); [injection Hrun as <- <-; done|].
    destruct (is_error McpChildUnavailableError e); [injection Hrun as <- <-; done|].
    destruct (is_error McpProtocolError e); [injection Hrun as <- <-; done|done].
Qed.
End child.

(** * A call the manifest does not approve *)

Section unapproved.
Context `{PydanticRoundTrip} `{!McpPydantic} `{!McpPydanticLaws} `{Clocks} `{Host}.

(** The server passes a well-formed call of [search_runbooks] to its executor, whose
    registry does not hold the tool: no exception the loop catches. *)
Lemma search_ends_server id b scope budgets d a :
  arguments_tool a = SEARCH_RUNBOOKS -> arguments_in_schema a = true -> int_written id = true ->
  (serve_line (line_of (request_message id "tools/call"
      [("name", JStr (value SEARCH_RUNBOOKS)); ("arguments", JObj (dump_arguments a))]))
    (server_at READY (executor_over b scope budgets d))).1 = Err KeyError.
Proof using All.
  intros Ht Ha Hid. unfold serve_line. rewrite decode_line_of; [|done|].
  2:{ apply json_written_obj; [done|]. repeat (apply Forall_cons_2; [done|]). apply Forall_singleton.
      apply json_written_obj; [done|]. apply Forall_cons_2; [done|]. apply Forall_singleton.
      by apply dump_arguments_written. }
  set (params := [("name", JStr (value SEARCH_RUNBOOKS)); ("arguments", JObj (dump_arguments a))]).
  change (handle ?m ?s) with (handle_tools_call (JInt id) m s). unfold handle_tools_call.
  rewrite (ST_then (server_params (request_message id "tools/call" params)) _ _ params
             (server_at READY (executor_over b scope budgets d)) eq_refl).
  change (dict_get "name" params) with (Some (JStr (value SEARCH_RUNBOOKS))).
  change (dict_get "arguments" params) with (Some (JObj (dump_arguments a))).
  cbv beta iota. rewrite of_value_value.
  rewrite (ST_then _ _ _ a (server_at READY (executor_over b scope budgets d)))
    by (unfold lift_result; rewrite <- Ht; by rewrite validate_strict_dump).
  rewrite (ST_then (check _) _ _ tt (server_at READY (executor_over b scope budgets d)))
    by (by rewrite bool_decide_true).
  unfold mbind at 1, ST_bind at 1, run_executor, executor_call, either_call, executor_call, policy_wrapped_call.
  change (check_proposal (mcp_proposal a)) with (Ok (mcp_proposal a) : res ToolProposal).
  cbn -[build_registry mcp_proposal]. rewrite Ht. reflexivity.
Qed.
End unapproved.
