(* ===== verification/IsoTime.v ===== *)
(** [datetime.fromisoformat] of Python 3.12: the forms of ISO 8601 it reads, with or
    without an offset.  telemetry.py compares what it gives with a window.

    The reader walks a text character by character, as the interpreter's does; past
    the text it sees the terminating zero. *)
From Stdlib Require Import ZArith Lia.
From stdpp Require Import prelude strings list.
From S2P Require Import Prelude PyText Numbers.
Local Open Scope Z_scope.

Definition codes (s : string) : list Z := List.map code (String.list_ascii_of_string s).

Definition at_ (s : list Z) (i : nat) : Z := default 0 (s !! i).

Definition digit_at (s : list Z) (i : nat) : option Z :=
  let c := at_ s i in if (48 <=? c) && (c <=? 57) then Some (c - 48) else None.

(** [n] digits from [i] on, as a number. *)
Fixpoint digits_at (s : list Z) (i n : nat) (acc : Z) : option Z :=
  match n with
  | O => Some acc
  | S n => d ← digit_at s i; digits_at s (S i) n (10 * acc + d)
  end.

Fixpoint skip_digits (s : list Z) (i fuel : nat) : nat :=
  match fuel with
  | O => i
  | S fuel => match digit_at s i with Some _ => skip_digits s (S i) fuel | None => i end
  end.

(** * Dates *)

Definition is_leap (y : Z) : bool :=
  (y mod 4 =? 0) && (negb (y mod 100 =? 0) || (y mod 400 =? 0)).

Definition days_in_month (y m : Z) : Z :=
  if m =? 2 then (if is_leap y then 29 else 28)
  else if (m =? 4) || (m =? 6) || (m =? 9) || (m =? 11) then 30 else 31.

(** The day number of a date, day 0 being 1970-01-01. *)
Definition days_of_civil (y m d : Z) : Z :=
  let y := if m <=? 2 then y - 1 else y in
  let era := y / 400 in
  let yoe := y mod 400 in
  let doy := (153 * (if m <=? 2 then m + 9 else m - 3) + 2) / 5 + d - 1 in
  era * 146097 + (yoe * 365 + yoe / 4 - yoe / 100 + doy) - 719468.

(** Monday is 0; day 0 was a Thursday. *)
Definition weekday_of (days : Z) : Z := (days + 3) mod 7.

(** The Monday of the ISO year's first week. *)
Definition iso_week1_monday (year : Z) : Z :=
  let first_day := days_of_civil year 1 1 in
  let monday := first_day - weekday_of first_day in
  if 3 <? weekday_of first_day then monday + 7 else monday.

Definition iso_to_days (year week day : Z) : option Z :=
  if negb ((1 <=? year) && (year <=? 9999)) then None
  else
    let first_weekday := weekday_of (days_of_civil year 1 1) in
    let long_year := (first_weekday =? 3) || ((first_weekday =? 2) && is_leap year) in
    if negb ((1 <=? week) && (week <=? 52) || (week =? 53) && long_year) then None
    else if negb ((1 <=? day) && (day <=? 7)) then None
    else Some (iso_week1_monday year + (week - 1) * 7 + (day - 1)).

(** The constructor's own checks of a date. *)
Definition civil_to_days (y m d : Z) : option Z :=
  if (1 <=? y) && (y <=? 9999) && (1 <=? m) && (m <=? 12) && (1 <=? d) && (d <=? days_in_month y m)
  then Some (days_of_civil y m d) else None.

(** [_find_isoformat_datetime_separator] *)
Definition separator_location (s : list Z) : nat :=
  let n := length s in
  if bool_decide (n = 7)%nat then 7
  else if at_ s 4 =? 45 then
    if at_ s 5 =? 87 then
      if bool_decide (8 < n)%nat && (at_ s 8 =? 45) then
        if bool_decide (10 < n)%nat && bool_decide (is_Some (digit_at s 10)) then 8 else 10
      else 8
    else 10
  else if at_ s 4 =? 87 then
    let pos := skip_digits s 7 n in
    if bool_decide (pos < 9)%nat then pos
    else if Nat.even pos then 7 else 8
  else 8.

(** [parse_isoformat_date] of the first [len] characters, as a day number; [None] is
    its error, or the constructor's. *)
Definition parse_date (s : list Z) (len : nat) : option Z :=
  year ← digits_at s 0 4 0;
  let dash := at_ s 4 =? 45 in
  let p := if dash then 5%nat else 4%nat in
  if at_ s p =? 87 then
    week ← digits_at s (p + 1) 2 0;
    let p := (p + 3)%nat in
    if bool_decide (p < len)%nat then
      if dash && negb (at_ s p =? 45) then None
      else
        day ← digits_at s (if dash then S p else p) 1 0;
        days ← iso_to_days year week day;
        if (-719162 <=? days) && (days <=? 2932896) then Some days else None
    else
      days ← iso_to_days year week 1;
      if (-719162 <=? days) && (days <=? 2932896) then Some days else None
  else
    month ← digits_at s p 2 0;
    let p := (p + 2)%nat in
    if dash && negb (at_ s p =? 45) then None
    else day ← digits_at s (if dash then S p else p) 2 0; civil_to_days year month day.

(** * Times *)

(** The parts read and whether text was left behind them. *)
Record clock_text := { ct_values : list Z; ct_microsecond : Z; ct_left : bool }.

Definition fraction_at (s : list Z) (p stop : nat) (values : list Z) : option clock_text :=
  let n := Nat.min 6 (stop - p) in
  us ← digits_at s p n 0;
  let rest := skip_digits s (p + n) (length s) in
  Some {| ct_values := values; ct_microsecond := us * 10 ^ (6 - Z.of_nat n);
          ct_left := negb (at_ s rest =? 0) |}.

(** [parse_hh_mm_ss_ff]: [more] parts may follow; [colon] says whether the first was
    followed by one. *)
Fixpoint parse_clock (s : list Z) (p stop more : nat) (colon : option bool) (values : list Z)
    : option clock_text :=
  v ← digits_at s p 2 0;
  let values := values ++ [v] in
  let c := at_ s (p + 2) in
  let colon := default (c =? 58) colon in
  let p := (p + 3)%nat in
  if bool_decide (stop <= p)%nat then
    Some {| ct_values := values; ct_microsecond := 0; ct_left := negb (c =? 0) |}
  else
    if colon && (c =? 58) then
      match more with S more => parse_clock s p stop more (Some colon) values | O => None end
    else if (c =? 46) || (c =? 44) then fraction_at s p stop values
    else if negb colon then
      match more with
      | S more => parse_clock s (p - 1) stop more (Some colon) values
      | O => fraction_at s (p - 1) stop values
      end
    else None.

Definition part (values : list Z) (i : nat) : Z := default 0 (values !! i).

(** The sign that starts an offset, or the end. *)
Fixpoint offset_position (s : list Z) (p : nat) : nat :=
  match s with
  | [] => p
  | c :: s => if (c =? 43) || (c =? 45) || (c =? 90) then p else offset_position s (S p)
  end.

(** What follows the separator: microseconds of the day, and the offset in
    microseconds if there is one. *)
Definition parse_time (s : list Z) : option (Z * option Z) :=
  let e := length s in
  let z := offset_position s 0 in
  t ← parse_clock s 0 z 2 None [];
  let '(h, m, sec) := (part (ct_values t) 0, part (ct_values t) 1, part (ct_values t) 2) in
  if negb ((h <? 24) && (m <? 60) && (sec <? 60)) then None
  else
    let us := ((h * 60 + m) * 60 + sec) * 1000000 + ct_microsecond t in
    if bool_decide (z = e) then (if ct_left t then None else Some (us, None))
    else if at_ s z =? 90 then (if at_ s (z + 1) =? 0 then Some (us, Some 0) else None)
    else
      o ← parse_clock s (z + 1) e 2 None [];
      if ct_left o then None
      else
        let seconds := (part (ct_values o) 0 * 60 + part (ct_values o) 1) * 60 + part (ct_values o) 2 in
        let offset := if seconds =? 0 then 0 else seconds * 1000000 + ct_microsecond o in
        if offset <? 86400000000 then Some (us, Some (if at_ s z =? 45 then - offset else offset))
        else None.

Definition DAY_US : Z := 86400000000.

(** The instant of an aware timestamp in microseconds, [Some None] for a naive one,
    [None] where [fromisoformat] raises [ValueError]. *)
Definition fromisoformat (text : string) : option (option Z) :=
  let s := codes text in
  if bool_decide (length s < 7)%nat then None
  else
    let sep := separator_location s in
    days ← parse_date s sep;
    if bool_decide (sep < length s)%nat then
      '(us, offset) ← parse_time (drop (S sep) s);
      Some (o ← offset; Some (days * DAY_US + us - o))
    else Some None.

Example reads_isoformat :
  List.map fromisoformat
    ["2024-02-29T12:34:56.000250+00:00"; "2024-02-29"; "20240229 1234"; "2024-W09-4T12:34:56Z";
     "2024-02-30T00:00:00Z"; "1970-01-01T01:00:00-23:59:59.5"]
  = [Some (Some 1709210096000250); Some None; Some None; Some (Some 1709210096000000);
     None; Some (Some 89999500000)].
Proof. vm_compute. reflexivity. Qed.
