(* ===== verification/Telemetry.v ===== *)
(** The backends that read the run's files (telemetry.py): log rows, recorded changes
    and the topology, each bounded and summarised.

    A run's files are what reading them gives ([RunFiles]); the clock is the duration
    an executed check reports. *)
From Stdlib Require Import ZArith Lia.
From stdpp Require Import prelude strings list sorting.
From S2P Require Import Prelude PyText Numbers IsoTime Tools Domain World Evidence JsonText.
Local Open Scope Z_scope.

Definition MAX_LOG_ROWS : Z := 40.

(** [RunPaths], as the investigator sees it.  A log that is a file is opened, which may
    raise, and gives its lines, [None] for one that is no UTF-8; a manifest that cannot
    be read or decoded is [None]. *)
Record RunFiles := {
  rf_log : string -> option (res (list (option string)));
  rf_changes : option string;
  rf_topology : option string;
}.

(** * Reading *)

(** [json.loads] under [except ValueError]. *)
Definition loads_or_none (text : string) : res (option json) :=
  match json_loads text with
  | Ok j => Ok (Some j)
  | Err JSONDecodeError | Err BadNumber => Ok None
  | Err BeyondLatin1 => Err OutsideTextModel
  end.

Definition read_json_file (text : option string) : res (option json) :=
  match text with None => Ok None | Some text => loads_or_none text end.

Definition read_json_line (line : string) : res (option jobject) :=
  j ← loads_or_none line;
  Ok (match j with Some (JObj record) => Some record | _ => None end).

(** [record.get(k)], if it is text. *)
Definition text_of (k : string) (record : jobject) : option string :=
  match dict_get k record with Some (JStr s) => Some s | _ => None end.

(** [record.get(k) == s] *)
Definition text_is (k s : string) (record : jobject) : bool :=
  bool_decide (text_of k record = Some s).

Definition matches_filter (log_filter : LogFilter) (record : jobject) : bool :=
  match log_filter with
  | ERRORS_ONLY => text_is "severity" "error" record
  | TIMEOUTS_ONLY => text_is "event" "upstream_timeout" record
  | POOL_EXHAUSTION => text_is "event" "pool_exhausted" record
  | CONFIG_RELOAD =>
      text_is "event" "config_loaded" record || text_is "event" "config_rejected_request" record
  end.

Definition within_window (moment : string) (start stop : Z) : bool :=
  match fromisoformat moment with
  | Some (Some observed) => (start <=? observed) && (observed <=? stop)
  | _ => false
  end.

(** The check of a record's own [at]. *)
Definition at_within (record : jobject) (start stop : Z) : bool :=
  match text_of "at" record with
  | Some moment => within_window moment start stop
  | None => false
  end.

(** * What the checks share *)

(** The [k] of every row that is an object and has one as text. *)
Definition texts_of (k : string) (rows : list json) : list string :=
  omap (fun row => match row with JObj record => text_of k record | _ => None end) rows.

(** [payload[k]], asserted to be a list. *)
Definition rows_at (k : string) (p : jobject) : res (list json) :=
  match dict_get k p with
  | Some (JArr rows) => Ok rows
  | Some _ => Err AssertionError
  | None => Err KeyError
  end.

Definition int_at (k : string) (p : jobject) : Z :=
  match dict_get k p with Some (JInt z) => z | _ => 0 end.

Definition text_at (k : string) (p : jobject) : string := default "" (text_of k p).

Definition truncated_of (p : jobject) : bool :=
  match dict_get "truncated" p with Some (JBool b) => b | _ => false end.

(** [f" (kept the newest {shown} of {total})" if truncated else ""] *)
Definition truncated_note (p : jobject) (shown total : Z) : string :=
  if truncated_of p
  then " (kept the newest " +:+ str_of_Z shown +:+ " of " +:+ str_of_Z total +:+ ")" else "".

(** [assert x is not None] *)
Definition asserted {A} (x : option A) : res A :=
  match x with Some a => Ok a | None => Err AssertionError end.

(** * Logs *)

(** [deque(maxlen=limit).append] *)
Definition push_row {A} (limit : Z) (row : A) (rows : list A) : list A :=
  let rows := rows ++ [row] in drop (length rows - Z.to_nat limit) rows.

(** One line of the file: the record, if it is one that counts. *)
Definition matching_record (log_filter : LogFilter) (start stop : Z) (line : option string) : res (option jobject) :=
  match line with
  | None => Ok None
  | Some line =>
      record ← read_json_line line;
      Ok (record ← record;
          if matches_filter log_filter record && at_within record start stop then Some record else None)
  end.

(** The pass over the file: the newest rows and how many matched. *)
Fixpoint scan_log (log_filter : LogFilter) (start stop limit : Z) (lines : list (option string))
    (rows : list json) (matched_count : Z) : res (list json * Z) :=
  match lines with
  | [] => Ok (rows, matched_count)
  | line :: lines =>
      record ← matching_record log_filter start stop line;
      match record with
      | None => scan_log log_filter start stop limit lines rows matched_count
      | Some record =>
          scan_log log_filter start stop limit lines (push_row limit (JObj record) rows)
            (matched_count + 1)
      end
  end.

(** [",".join(sorted(kept_events))], [kept_events] a set. *)
Definition event_codes (rows : list json) : string :=
  py_join "," (merge_sort String.le (remove_dups (texts_of "event" rows))).

(** The payload before trimming. *)
Definition logs_payload (arguments : QueryLogsArguments) (rows : list json) (matched_count : Z) : jobject :=
  [("filter", JStr (value (ql_log_filter arguments))); ("service", JStr (ql_service arguments));
   ("row_count", JInt (Z.of_nat (length rows))); ("event_codes", JStr "");
   ("truncated", JBool (Z.of_nat (length rows) <? matched_count))].

Definition logs_summary (arguments : QueryLogsArguments) (p : jobject) (matched_count : Z) : string :=
  let row_count := int_at "row_count" p in
  let codes := text_at "event_codes" p in
  value (ql_log_filter arguments) +:+ " on " +:+ ql_service arguments +:+ ": "
    +:+ str_of_Z row_count +:+ " rows, events " +:+ (if bool_decide (codes = "") then "none" else codes)
    +:+ truncated_note p row_count matched_count.

Definition run_logs_check (arguments : QueryLogsArguments) (files : RunFiles) (elapsed_ms : Z)
    : res CheckOutcome :=
  start ← asserted (ql_window_start arguments);
  stop ← asserted (ql_window_end arguments);
  match rf_log files (ql_service arguments) with
  | None =>
      Ok (failed_check LOG "query_logs" UNAVAILABLE TOOL_UNAVAILABLE
            ("no log for " +:+ ql_service arguments +:+ " in this run"))
  | Some opened =>
      let limit := Z.min (ql_row_limit arguments) MAX_LOG_ROWS in
      if limit <? 0 then Err ValueError
      else
        lines ← opened;
        '(rows, matched_count) ← scan_log (ql_log_filter arguments) start stop limit lines [] 0;
        let p := trim_to_bytes (logs_payload arguments rows matched_count) "rows" rows "row_count" in
        kept ← rows_at "rows" p;
        let p := dict_set "event_codes" (JStr (event_codes kept)) p in
        Ok (executed_check LOG "query_logs" (logs_summary arguments p matched_count) p elapsed_ms)
  end.

(** * Changes *)

(** [datetime.fromisoformat(entry["at"])] of an entry that was found in the window. *)
Definition change_moment (entry : json) : Z :=
  match entry with
  | JObj d => default 0 (moment ← text_of "at" d; mjoin (fromisoformat moment))
  | _ => 0
  end.

(** [list.sort(key=...)] is stable: a row goes behind its equals. *)
Fixpoint insert_after (x : json) (l : list json) : list json :=
  match l with
  | [] => [x]
  | y :: l' => if change_moment x <? change_moment y then x :: l else y :: insert_after x l'
  end.

Definition sort_changes (l : list json) : list json :=
  fold_left (fun sorted x => insert_after x sorted) l [].

Definition is_change (service : string) (start stop : Z) (entry : json) : bool :=
  match entry with
  | JObj d => text_is "service" service d && at_within d start stop
  | _ => false
  end.

(** [s[-n:]] for a positive [n] *)
Definition str_last (n : Z) (s : string) : string :=
  String.substring (Z.to_nat (str_len s - n)) (Z.to_nat n) s.

(** The change texts that still fit behind the prefix: their end, marked. *)
Definition content_for (raw_content : string) (content_budget : Z) : string :=
  if content_budget <=? 0 then ""
  else if str_len raw_content <=? content_budget then raw_content
  else
    let keep := content_budget - str_len "..." in
    if 0 <? keep then "..." +:+ str_last keep raw_content else "".

Definition changes_prefix (arguments : ListRecentChangesArguments) (p : jobject) (total : Z) : string :=
  let shown := int_at "change_count" p in
  str_of_Z shown +:+ " recent changes on " +:+ lc_service arguments +:+ truncated_note p shown total.

(** The last clamp: [summary[:397] + "..."] past 400. *)
Definition clamp_summary (summary : string) : string :=
  if 400 <? str_len summary then str_take 397 summary +:+ "..." else summary.

Definition changes_summary (arguments : ListRecentChangesArguments) (p : jobject) (total : Z) : string :=
  let prefix := changes_prefix arguments p total in
  let content := content_for (text_at "summaries" p) (400 - str_len prefix - str_len ": ") in
  clamp_summary (prefix +:+ (if bool_decide (content = "") then "" else ": " +:+ content)).

(** [summaries] is joined in the file's order here, before the changes are sorted. *)
Definition changes_payload (arguments : ListRecentChangesArguments) (found : list json) : jobject :=
  [("service", JStr (lc_service arguments)); ("change_count", JInt (Z.of_nat (length found)));
   ("summaries", JStr (py_join "; " (texts_of "summary" found))); ("truncated", JBool false)].

Definition run_changes_check (arguments : ListRecentChangesArguments) (files : RunFiles) (elapsed_ms : Z)
    : res CheckOutcome :=
  start ← asserted (lc_window_start arguments);
  stop ← asserted (lc_window_end arguments);
  loaded ← read_json_file (rf_changes files);
  match loaded with
  | Some (JArr loaded) =>
      let found := List.filter (is_change (lc_service arguments) start stop) loaded in
      let changes := sort_changes found in
      let p := trim_to_bytes (changes_payload arguments found) "changes" changes "change_count" in
      kept ← rows_at "changes" p;
      let p := dict_set "summaries" (JStr (py_join "; " (texts_of "summary" kept))) p in
      if negb (fits p) then Err AssertionError
      else
        Ok (executed_check CHANGE "list_recent_changes"
              (changes_summary arguments p (Z.of_nat (length changes))) p elapsed_ms)
  | _ =>
      Ok (failed_check CHANGE "list_recent_changes" UNAVAILABLE TOOL_UNAVAILABLE
            "this run records no changes")
  end.

(** * Topology *)

Definition list_at (k : string) (d : jobject) : list json :=
  match dict_get k d with Some (JArr l) => l | _ => [] end.

Definition topology_payload (services edges : list json) : jobject :=
  [("services", JArr services); ("service_count", JInt (Z.of_nat (length services)));
   ("edges", JArr edges); ("edge_count", JInt (Z.of_nat (length edges))); ("truncated", JBool false)].

Definition run_topology_check (arguments : GetTopologyArguments) (files : RunFiles) (elapsed_ms : Z)
    : res CheckOutcome :=
  loaded ← read_json_file (rf_topology files);
  match loaded with
  | Some (JObj loaded) =>
      let edges := list_at "edges" loaded in
      let services := list_at "services" loaded in
      let p := trim_to_bytes (topology_payload services edges) "edges" edges "edge_count" in
      let p := trim_to_bytes p "services" services "service_count" in
      if negb (fits p) then Err AssertionError
      else
        Ok (executed_check TOPOLOGY "get_topology"
              (str_of_Z (int_at "edge_count" p) +:+ " service edges in this incident"
                 +:+ (if truncated_of p then " (truncated)" else "")) p elapsed_ms)
  | _ =>
      Ok (failed_check TOPOLOGY "get_topology" UNAVAILABLE TOOL_UNAVAILABLE
            "this run records no topology")
  end.
