(* ===== verification/TelemetryProps.v ===== *)
(** What the file backends promise (telemetry.py): a log check shows the newest of the
    lines that match, whatever else the file holds; the changes and the topology always
    fit the byte bound, so that their assertions never fail. *)
From Stdlib Require Import ZArith Lia.
From stdpp Require Import prelude strings list sorting.
From S2P Require Import Prelude PyText Numbers IsoTime Tools Domain World Evidence JsonText JsonRoundTrip Telemetry.
Local Open Scope Z_scope.

(** * The length of a result's text *)

(** Characters of a text inside quotes. *)
Definition escaped (s : string) : nat := String.length (concat_chars json_char s).

Lemma concat_chars_app f s t : concat_chars f (s +:+ t) = concat_chars f s +:+ concat_chars f t.
Proof. induction s as [|c s IH]; [done|]. rewrite string_app_cons. cbn. by rewrite IH, string_app_assoc. Qed.

Lemma escaped_app s t : escaped (s +:+ t) = (escaped s + escaped t)%nat.
Proof. unfold escaped. by rewrite concat_chars_app, string_length_app. Qed.

Lemma length_json_string s : String.length (json_string s) = (2 + escaped s)%nat.
Proof.
  unfold json_string. rewrite !string_length_app. unfold escaped.
  change (String.length dq) with 1%nat. lia.
Qed.

Lemma py_join_cons sep s t l : py_join sep (s :: t :: l) = s +:+ sep +:+ py_join sep (t :: l).
Proof. done. Qed.

(** Two characters between any two. *)
Fixpoint weight (f : string -> nat) (l : list string) : nat :=
  match l with [] => O | s :: l => (f s + 2 + weight f l)%nat end.

Lemma weight_app f l l' : weight f (l ++ l') = (weight f l + weight f l')%nat.
Proof. induction l as [|s l IH]; cbn; lia. Qed.

Lemma join_weight (f : string -> nat) sep l :
  (forall s t, f (s +:+ t) = f s + f t)%nat -> f sep = 2%nat -> l <> [] ->
  (f (py_join sep l) + 2 = weight f l)%nat.
Proof.
  intros Happ Hsep Hne. destruct l as [|s l]; [done|]. clear Hne. revert s.
  induction l as [|t l IH]; intros s; [cbn; lia|].
  rewrite py_join_cons, !Happ. specialize (IH t). cbn [weight] in *. lia.
Qed.

Lemma join_empty (f : string -> nat) sep : (forall s t, f (s +:+ t) = f s + f t)%nat -> f (py_join sep []) = 0%nat.
Proof. intros Happ. cbn. specialize (Happ "" ""). change ("" +:+ "") with "" in Happ. lia. Qed.

#[local] Instance weight_perm f : Proper ((≡ₚ) ==> eq) (weight f).
Proof. intros l l' Hp. induction Hp; cbn in *; lia. Qed.

(** A join of fewer of the same texts is no longer, in whatever order. *)
Lemma join_shorter (f : string -> nat) sep l rest l' :
  (forall s t, f (s +:+ t) = f s + f t)%nat -> f sep = 2%nat -> rest ++ l ≡ₚ l' ->
  (f (py_join sep l) <= f (py_join sep l'))%nat.
Proof.
  intros Happ Hsep Hp. destruct l as [|x l]; [rewrite join_empty by done; lia|].
  assert (weight f (rest ++ x :: l) = weight f l') as Hw.
  { by rewrite Hp. }
  rewrite weight_app in Hw.
  assert (l' <> []) as Hne. { intros ->. apply Permutation_nil_r in Hp. by destruct rest. }
  pose proof (join_weight f sep l' Happ Hsep Hne) as H1.
  pose proof (join_weight f sep (x :: l) Happ Hsep ltac:(done)) as H2. lia.
Qed.

Notation member := (member_text " " " ").

Lemma length_object d :
  (d <> [] ->
   String.length (json_dumps (JObj d)) = weight String.length (member <$> d))%nat.
Proof.
  intros Hne. change (json_dumps (JObj d)) with (dumps false ("," +:+ " ") (":" +:+ " ") (JObj d)).
  rewrite text_object, !string_length_app.
  assert (member <$> d <> []) as Hne' by (by destruct d).
  pose proof (join_weight String.length ("," +:+ " ") _ string_length_app eq_refl Hne') as Hj.
  change (List.map member d) with (member <$> d).
  change (String.length "{") with 1%nat. change (String.length "}") with 1%nat. lia.
Qed.

Lemma length_text_member k s : String.length (member (k, JStr s)) = (escaped k + escaped s + 6)%nat.
Proof.
  cbn [member_text]. rewrite !string_length_app. cbn [dumps]. rewrite !length_json_string.
  change (String.length ":") with 1%nat. change (String.length " ") with 1%nat. lia.
Qed.

Lemma weight_member kv d :
  weight String.length (member <$> kv :: d) = (String.length (member kv) + 2 + weight String.length (member <$> d))%nat.
Proof. done. Qed.

Lemma weight_set k a b d :
  dict_get k d = Some (JStr a) -> (escaped b <= escaped a)%nat ->
  (weight String.length (member <$> dict_set k (JStr b) d) <= weight String.length (member <$> d))%nat.
Proof.
  intros Hg Hle. induction d as [|[k' v] d IH]; [done|]. cbn [dict_get dict_set] in *.
  case_decide as Hk; rewrite !weight_member.
  - injection Hg as ->. subst k'. rewrite !length_text_member. lia.
  - specialize (IH Hg). lia.
Qed.

Lemma dict_set_nonempty {V} (k : string) (v : V) d : dict_set k v d <> [].
Proof. destruct d as [|[k' v'] d]; cbn; [done|]. by case_decide. Qed.

(** Putting a text no longer in its escaped form in a text's place keeps a result within the bound. *)
Lemma fits_shorter k a b p :
  dict_get k p = Some (JStr a) -> (escaped b <= escaped a)%nat -> fits p = true ->
  fits (dict_set k (JStr b) p) = true.
Proof.
  unfold fits, str_len. rewrite !Z.leb_le. intros Hg Hle Hfit.
  assert (p <> []) as Hne by (by destruct p).
  rewrite length_object in Hfit by done. rewrite length_object by apply dict_set_nonempty.
  pose proof (weight_set k a b p Hg Hle). lia.
Qed.

(** * What trimming leaves *)

Lemma fold_wider_None p best : fold_left wider p best = None -> best = None /\ Forall (fun kv => kv.2 = JStr "" \/ forall s, kv.2 <> JStr s) p.
Proof.
  revert best. induction p as [|[k j] p IH]; intros best; cbn [fold_left]; [done|].
  intros [Hb Hp]%IH. unfold wider in Hb.
  destruct j as [| | | |[|c s]| |]; try (split; [done|]; constructor; [cbn; by auto|done]).
  destruct best as [[? ?]|]; [by case_match|done].
Qed.

(** Where no text is left, every text is empty. *)
Lemma no_text_left p k s : widest_text p = None -> dict_get k p = Some (JStr s) -> s = "".
Proof.
  intros [_ Hall]%fold_wider_None Hg%dict_get_elem. rewrite Forall_forall in Hall.
  destruct (Hall _ Hg) as [[= ->]|Hn]; [done|by destruct (Hn s)].
Qed.

Definition is_text (j : json) : bool := match j with JStr _ => true | _ => false end.

Lemma shrink_text_shape n p :
  NoDup (dict_keys p) -> "truncated" ∈ dict_keys p ->
  dict_keys (shrink_text n p) = dict_keys p
  /\ forall k s, k <> "truncated" -> dict_get k p = Some (JStr s) ->
       exists s', dict_get k (shrink_text n p) = Some (JStr s').
Proof.
  revert p. induction n as [|n IH]; intros p Hnd Ht; cbn [shrink_text]; destruct (fits p); [by eauto..|].
  destruct (widest_text p) as [[k t]|] eqn:Hw; [|by eauto].
  apply widest_text_elem in Hw as [Hin _]. pose proof (dict_elem_get _ _ _ Hnd Hin) as Hg.
  set (p' := dict_set k (JStr (halve t)) p).
  assert (dict_keys p' = dict_keys p) as Hp'.
  { apply dict_keys_set_present. apply list_elem_of_fmap. by exists (k, JStr t). }
  assert (dict_keys (mark_truncated p') = dict_keys p) as Hm.
  { unfold mark_truncated. rewrite dict_keys_set_present; [done|]. by rewrite Hp'. }
  destruct (IH (mark_truncated p')) as [Hk Hs]; [by rewrite Hm..|]. split; [by rewrite Hk|].
  intros k' s Hne Hg'. destruct (decide (k' = k)) as [->|Hkk].
  - apply (Hs k (halve t)); [done|]. unfold mark_truncated. rewrite dict_get_set_ne by done. apply dict_get_set_eq.
  - apply (Hs k' s); [done|]. unfold mark_truncated, p'. by rewrite !dict_get_set_ne.
Qed.

Section trimmed.
Context (rows_key count_key : string).
Hypothesis Hkeys : NoDup [rows_key; count_key; "truncated"].

Lemma trim_rows_other kept p k :
  k <> rows_key -> k <> count_key -> k <> "truncated" ->
  dict_get k (trim_rows rows_key count_key kept p) = dict_get k p.
Proof using.
  intros. revert p. induction kept as [|x kept IH]; intros p; cbn [trim_rows]; [done|].
  destruct (fits p); [done|]. rewrite IH. unfold mark_truncated, put_rows. by rewrite !dict_get_set_ne.
Qed.

Lemma put_rows_keys kept p :
  rows_key ∈ dict_keys p -> count_key ∈ dict_keys p ->
  dict_keys (put_rows rows_key count_key kept p) = dict_keys p.
Proof using. intros Hr Hc. unfold put_rows. rewrite !dict_keys_set_present; by rewrite ?dict_keys_set_present. Qed.

Lemma trim_rows_keys kept p :
  rows_key ∈ dict_keys p -> count_key ∈ dict_keys p -> "truncated" ∈ dict_keys p ->
  dict_keys (trim_rows rows_key count_key kept p) = dict_keys p.
Proof using.
  revert p. induction kept as [|x kept IH]; intros p Hr Hc Ht; cbn [trim_rows]; [done|].
  destruct (fits p); [done|].
  assert (dict_keys (mark_truncated (put_rows rows_key count_key kept p)) = dict_keys p) as Hk.
  { unfold mark_truncated. rewrite dict_keys_set_present, put_rows_keys by (by rewrite ?put_rows_keys). done. }
  by rewrite IH; rewrite ?Hk.
Qed.

(** Whether it was marked or not, [truncated] stays a boolean. *)
Lemma trim_rows_flag kept p b :
  dict_get "truncated" p = Some (JBool b) ->
  exists b', dict_get "truncated" (trim_rows rows_key count_key kept p) = Some (JBool b').
Proof using.
  revert p b. induction kept as [|x kept IH]; intros p b Hg; cbn [trim_rows]; [by eauto|].
  destruct (fits p); [by eauto|]. apply (IH _ true). apply dict_get_set_eq.
Qed.

(** Either the rows fit, after some were dropped, and nothing else changed; or none is
    left, the texts were shortened, and the result fits or has no text left. *)
Lemma trim_to_bytes_cases p rows :
  NoDup (dict_keys p) -> (exists b, dict_get "truncated" p = Some (JBool b)) ->
  let q := trim_to_bytes p rows_key rows count_key in
  dict_keys q = dict_keys (put_rows rows_key count_key rows p)
  /\ (exists b, dict_get "truncated" q = Some (JBool b)
        /\ (b = false -> q = put_rows rows_key count_key rows p))
  /\ (forall k v, k <> rows_key -> k <> count_key -> k <> "truncated" -> (forall s, v <> JStr s) ->
        dict_get k p = Some v -> dict_get k q = Some v)
  /\ exists n, dict_get rows_key q = Some (JArr (drop n rows))
       /\ dict_get count_key q = Some (JInt (Z.of_nat (length (drop n rows))))
       /\ (fits q = true
           /\ (forall k, k <> rows_key -> k <> count_key -> k <> "truncated" -> dict_get k q = dict_get k p)
           \/ drop n rows = []
              /\ (fits q = true \/ widest_text q = None)
              /\ (forall k s, k <> rows_key -> k <> count_key -> k <> "truncated" ->
                    dict_get k p = Some (JStr s) -> exists s', dict_get k q = Some (JStr s'))).
Proof using Hkeys.
  intros Hnd [b Hb] q. unfold q, trim_to_bytes. clear q.
  set (p1 := put_rows rows_key count_key rows p).
  assert (rows_key <> "truncated" /\ count_key <> "truncated") as [Hrt Hct].
  { inversion_clear Hkeys as [|? ? Hn1 Hk]. inversion_clear Hk. set_solver. }
  assert (dict_get "truncated" p1 = Some (JBool b)) as Hb1.
  { unfold p1, put_rows. by rewrite !dict_get_set_ne. }
  assert ("truncated" ∈ dict_keys p1) as Ht1.
  { apply dict_mem_true. unfold dict_mem. by rewrite Hb1. }
  destruct (put_rows_get rows_key count_key Hkeys rows p) as [Hg1 Hc1].
  change (put_rows rows_key count_key rows p) with p1 in Hg1, Hc1.
  destruct (trim_rows_spec rows_key count_key Hkeys rows _ p1
              (put_rows_NoDup rows_key count_key rows p Hnd) Hg1 Hc1 eq_refl)
    as (Hnd2 & n & Hr2 & Hc2 & Hfit & Hmark).
  pose proof (trim_rows_flag rows p1 b Hb1) as (b' & Hb2).
  assert (dict_keys (trim_rows rows_key count_key rows p1) = dict_keys p1) as Hk2.
  { apply trim_rows_keys; [apply dict_mem_true; unfold dict_mem; by rewrite Hg1|apply dict_mem_true; unfold dict_mem; by rewrite Hc1|done]. }
  pose proof (fun k => trim_rows_other rows p1 k) as Ho.
  set (p2 := trim_rows rows_key count_key rows p1) in *.
  assert (forall k, k <> rows_key -> k <> count_key -> k <> "truncated" -> dict_get k p2 = dict_get k p) as Ho2.
  { intros k ? ? ?. rewrite Ho by done. unfold p1, put_rows. by rewrite !dict_get_set_ne. }
  destruct (fits p2) eqn:Hf2.
  - assert (shrink_text (S (text_weight p2)) p2 = p2) as -> by (cbn [shrink_text]; by rewrite Hf2).
    split; [done|]. split; [|split; [intros k v ? ? ? ? ?; by rewrite Ho2|by exists n; eauto 10]].
    exists b'. split; [done|]. intros ->. destruct Hmark as [|[_ Hm]]; [done|congruence].
  - destruct Hfit as [?|Hnil]; [congruence|].
    destruct (shrink_text_shape (S (text_weight p2)) p2) as [Hk3 Hs3]; [done|by rewrite Hk2|].
    split; [congruence|].
    assert (shrink_text (S (text_weight p2)) p2 = p2
            \/ dict_get "truncated" (shrink_text (S (text_weight p2)) p2) = Some (JBool true)) as Hsm
      by apply shrink_text_marks.
    split.
    { destruct Hsm as [->|Hm]; [|by exists true]. exists b'. split; [done|]. intros ->.
      destruct Hmark as [|[_ Hm]]; [done|congruence]. }
    split.
    { intros k v ? ? ? Hv Hg. apply shrink_text_keeps; [done| |done|done]. by rewrite Ho2. }
    exists n. split; [by apply shrink_text_keeps|]. split; [by apply shrink_text_keeps|]. right.
    split; [done|]. split; [apply shrink_text_stops; [done|lia]|].
    intros k s ? ? ? Hg. apply (Hs3 k s); [done|]. by rewrite Ho2.
Qed.

(** ** Results whose rows and marker are all that trimming changes *)

(** Whether a result says it was cut, after [n] of its rows were dropped. *)
Definition cut_after (b : bool) (n : nat) : bool := match n with O => b | S _ => true end.

Section shaped.
Context (result : list json -> bool -> jobject).
Hypothesis Hresult : forall rows rows' b,
  mark_truncated (put_rows rows_key count_key rows' (result rows b)) = result rows' true.

(** The row loop stops at the first suffix that fits. *)
Lemma trim_rows_longest rows b :
  exists n, (n <= length rows)%nat
    /\ trim_rows rows_key count_key rows (result rows b) = result (drop n rows) (cut_after b n)
    /\ (fits (result (drop n rows) (cut_after b n)) = true \/ n = length rows)
    /\ forall m, (m < n)%nat -> fits (result (drop m rows) (cut_after b m)) = false.
Proof using Hresult.
  revert b. induction rows as [|row rows IH]; intros b; cbn [trim_rows].
  { exists O. split_and!; [done|done|by right|lia]. }
  destruct (fits (result (row :: rows) b)) eqn:Hf.
  { exists O. split_and!; [cbn; lia|done|by left|lia]. }
  rewrite Hresult. destruct (IH true) as (n & Hn & Hq & Hend & Hlong).
  assert (forall m, cut_after true m = true) as Hcut by (by intros []).
  rewrite Hcut in Hq, Hend. exists (S n). cbn [drop cut_after length]. split_and!; [lia|done| |].
  - destruct Hend; [by left|right; lia].
  - intros [|m] Hm; [done|]. cbn [drop cut_after]. rewrite <- (Hcut m). apply Hlong. lia.
Qed.

(** The longest suffix that fits is what a trimmed result shows, unless not even an
    empty one does. *)
Lemma trim_to_bytes_longest p rows b :
  put_rows rows_key count_key rows p = result rows b -> NoDup (dict_keys p) ->
  let q := trim_to_bytes p rows_key rows count_key in
  exists n, (n <= length rows)%nat
    /\ dict_get rows_key q = Some (JArr (drop n rows))
    /\ dict_get count_key q = Some (JInt (Z.of_nat (length (drop n rows))))
    /\ (fits (result (drop n rows) (cut_after b n)) = true \/ n = length rows)
    /\ (fits (result (drop n rows) (cut_after b n)) = true -> q = result (drop n rows) (cut_after b n))
    /\ forall m, (m < n)%nat -> fits (result (drop m rows) (cut_after b m)) = false.
Proof using Hkeys Hresult.
  intros Hp Hnd. unfold trim_to_bytes. rewrite Hp.
  assert (rows_key <> "truncated" /\ count_key <> "truncated") as [Hrt Hct].
  { inversion_clear Hkeys as [|? ? Hn1 Hk]. inversion_clear Hk. set_solver. }
  assert (forall rows' b', (rows', b') = (rows, b) \/ b' = true ->
            NoDup (dict_keys (result rows' b')) /\ dict_get rows_key (result rows' b') = Some (JArr rows')
            /\ dict_get count_key (result rows' b') = Some (JInt (Z.of_nat (length rows')))) as Hget.
  { assert (NoDup (dict_keys (result rows b))) as Hnd' by (rewrite <- Hp; by apply put_rows_NoDup).
    intros rows' b' [[= -> ->]| ->]; [split; [done|]; rewrite <- Hp; by apply put_rows_get|].
    rewrite <- (Hresult rows rows' b). split; [by apply mark_truncated_NoDup, put_rows_NoDup|].
    unfold mark_truncated. rewrite !dict_get_set_ne by done. by apply put_rows_get. }
  destruct (trim_rows_longest rows b) as (n & Hn & Hq & Hend & Hlong). rewrite Hq.
  destruct (Hget (drop n rows) (cut_after b n)) as (Hndn & Hr & Hc); [destruct n; [by left|by right]|].
  exists n. split_and!; [done|by apply shrink_text_keeps..|done| |done].
  intros Hf. cbn [shrink_text]. by rewrite Hf.
Qed.
End shaped.
End trimmed.

(** * The order of changes *)

Definition change_le (x y : json) : Prop := change_moment x <= change_moment y.

Lemma insert_after_perm x l : insert_after x l ≡ₚ x :: l.
Proof.
  induction l as [|y l IH]; cbn; [done|]. case_match; [done|]. rewrite IH. constructor.
Qed.

Lemma insert_after_sorted x l : StronglySorted change_le l -> StronglySorted change_le (insert_after x l).
Proof.
  induction 1 as [|y l Hs IH Hy]; cbn; [repeat constructor|].
  destruct (change_moment x <? change_moment y) eqn:Hlt.
  - constructor; [by constructor|]. constructor; [unfold change_le; lia|].
    eapply Forall_impl; [exact Hy|]. unfold change_le. intros z. lia.
  - constructor; [done|]. rewrite insert_after_perm. constructor; [unfold change_le; lia|done].
Qed.

(** Rows of one moment. *)
Definition at_moment (t : Z) (l : list json) : list json := filter (fun x => change_moment x = t) l.

Lemma insert_after_stable x l t :
  StronglySorted change_le l -> at_moment t (insert_after x l) = at_moment t (l ++ [x]).
Proof.
  unfold at_moment. induction 1 as [|y l Hs IH Hy]; [done|]. cbn [insert_after].
  destruct (change_moment x <? change_moment y) eqn:Hlt.
  - destruct (decide (change_moment x = t)) as [Ht|Ht].
    + rewrite filter_cons_True by done. rewrite filter_app, (filter_cons_True _ x) by done.
      assert (filter (fun z => change_moment z = t) (y :: l) = []) as ->; [|done].
      apply elem_of_nil_inv. intros z [Hz Hin]%list_elem_of_filter.
      rewrite Forall_forall in Hy. apply elem_of_cons in Hin as [->|Hin]; [lia|].
      specialize (Hy z Hin). unfold change_le in Hy. lia.
    + rewrite filter_cons_False by done. by rewrite filter_app, (filter_cons_False _ x), app_nil_r.
  - change ((y :: l) ++ [x]) with (y :: (l ++ [x])). rewrite !filter_cons, IH. done.
Qed.

Lemma sort_changes_spec l :
  sort_changes l ≡ₚ l /\ StronglySorted change_le (sort_changes l)
  /\ forall t, at_moment t (sort_changes l) = at_moment t l.
Proof.
  unfold sort_changes.
  assert (forall acc, StronglySorted change_le acc ->
    fold_left (fun sorted x => insert_after x sorted) l acc ≡ₚ acc ++ l
    /\ StronglySorted change_le (fold_left (fun sorted x => insert_after x sorted) l acc)
    /\ forall t, at_moment t (fold_left (fun sorted x => insert_after x sorted) l acc) = at_moment t (acc ++ l)) as Hgen.
  { induction l as [|x l IH]; intros acc Hacc; cbn [fold_left]; [by rewrite app_nil_r|].
    destruct (IH (insert_after x acc)) as (Hp & Hs & Ht); [by apply insert_after_sorted|].
    split_and!; [|done|].
    - rewrite Hp, insert_after_perm. cbn. by rewrite Permutation_middle.
    - intros t. rewrite Ht. unfold at_moment in *. rewrite !filter_app. pose proof (insert_after_stable x acc t Hacc) as Hi.
      unfold at_moment in Hi. rewrite Hi, filter_app, <- app_assoc, <- filter_app. done. }
  apply (Hgen []). constructor.
Qed.

(** * Changes *)

(** Distinct key names, by computation. *)
Ltac distinct := apply (bool_decide_unpack _); vm_compute; exact I.

Lemma values_behind (k : string) (v : json) p ks vs :
  k ∉ ks -> Forall2 (fun k' w => dict_get k' ((k, v) :: p) = Some w) ks vs ->
  Forall2 (fun k' w => dict_get k' p = Some w) ks vs.
Proof.
  intros Hn Hf. induction Hf as [|k' w ks vs Hg Hf IH]; [constructor|].
  apply not_elem_of_cons in Hn as [Hne Hn]. constructor; [|by apply IH].
  cbn in Hg. by rewrite decide_False in Hg by done.
Qed.

(** A result whose keys are known is the list of what it has under them. *)
Lemma keys_values (ks : list string) (p : list (string * json)) (vs : list json) :
  NoDup ks -> dict_keys p = ks -> Forall2 (fun k v => dict_get k p = Some v) ks vs -> p = zip ks vs.
Proof.
  intros Hnd <-. revert vs. induction p as [|[k v] p IH]; intros vs Hf; cbn in *;
    inversion Hf as [|? w ? ws Hg Hf']; [done|].
  subst. cbn in Hg. rewrite decide_True in Hg by done. injection Hg as <-.
  apply NoDup_cons in Hnd as [Hn Hnd]. cbn. f_equal. apply IH; [done|].
  by eapply values_behind.
Qed.

Lemma texts_of_app k l l' : texts_of k (l ++ l') = texts_of k l ++ texts_of k l'.
Proof. apply omap_app. Qed.

#[local] Instance texts_of_perm k : Proper ((≡ₚ) ==> (≡ₚ)) (texts_of k).
Proof. intros l l' Hp. unfold texts_of. by rewrite Hp. Qed.

Lemma clamp_summary_bound s : str_len (clamp_summary s) <= 400.
Proof.
  unfold clamp_summary. case_match eqn:Hlt; [|lia]. unfold str_len. rewrite string_length_app, str_take_length.
  change (String.length "...") with 3%nat. lia.
Qed.

(** What is left after trimming always takes the joined texts of the rows left. *)
Lemma rebuilt_changes_fit arguments found changes :
  changes ≡ₚ found ->
  let p := trim_to_bytes (changes_payload arguments found) "changes" changes "change_count" in
  exists n, dict_get "changes" p = Some (JArr (drop n changes))
    /\ dict_get "change_count" p = Some (JInt (Z.of_nat (length (drop n changes))))
    /\ (truncated_of p = false -> drop n changes = changes)
    /\ fits (dict_set "summaries" (JStr (py_join "; " (texts_of "summary" (drop n changes)))) p) = true.
Proof.
  intros Hp p. subst p. set (p := changes_payload arguments found).
  destruct (trim_to_bytes_cases "changes" "change_count" ltac:(distinct) p changes)
    as (Hk & (b & Hb & Hwhole) & _ & n & Hr & Hc & Hcase); [distinct|by exists false|].
  set (q := trim_to_bytes p "changes" changes "change_count") in *.
  exists n. split; [done|]. split; [done|]. split.
  { unfold truncated_of. rewrite Hb. intros ->. rewrite (Hwhole eq_refl) in Hr.
    rewrite (proj1 (put_rows_get "changes" "change_count" ltac:(distinct) changes p)) in Hr. congruence. }
  destruct Hcase as [[Hfit Hsame]|(Hnil & Hend & Htexts)].
  - apply (fits_shorter "summaries" (py_join "; " (texts_of "summary" found))); [by rewrite Hsame|..|done].
    apply (join_shorter escaped "; " _ (texts_of "summary" (take n changes))); [apply escaped_app|done|].
    by rewrite <- texts_of_app, take_drop, Hp.
  - rewrite Hnil. destruct (Htexts "summaries" _ ltac:(done) ltac:(done) ltac:(done) eq_refl) as [s Hs].
    destruct (Htexts "service" _ ltac:(done) ltac:(done) ltac:(done) eq_refl) as [s' Hs'].
    destruct Hend as [Hfit|Hnone]; [by apply (fits_shorter "summaries" s); [|cbn; lia|]|].
    apply no_text_left with (k := "summaries") (s := s) in Hnone as Hs0; [|done].
    apply no_text_left with (k := "service") (s := s') in Hnone as Hs0'; [|done]. subst s s'.
    rewrite Hnil in Hr, Hc.
    rewrite (keys_values ["service"; "change_count"; "summaries"; "truncated"; "changes"] q
               [JStr ""; JInt 0; JStr ""; JBool b; JArr []]); [by destruct b; vm_compute|distinct|by rewrite Hk|].
    repeat constructor; done.
Qed.

(** C35: the check of recorded changes: whatever the file holds, it returns a result that fits
    the byte bound and a summary the evidence record accepts, so its assertion never
    fails.  The changes shown are the last ones, by their own time, of exactly those of
    the service inside the window; equal moments keep the file's order; the count and
    the joined texts are those of what is shown, and nothing is left out unsaid. *)
Theorem changes_check_bounded arguments files elapsed_ms start stop loaded :
  lc_window_start arguments = Some start -> lc_window_end arguments = Some stop ->
  read_json_file (rf_changes files) = Ok (Some (JArr loaded)) ->
  let found := List.filter (is_change (lc_service arguments) start stop) loaded in
  exists o ordered n, run_changes_check arguments files elapsed_ms = Ok o
    /\ co_outcome o = EXECUTED
    /\ fits (co_payload o) = true /\ str_len (co_summary o) <= 400
    /\ ordered ≡ₚ found /\ StronglySorted change_le ordered
    /\ (forall t, at_moment t ordered = at_moment t found)
    /\ dict_get "changes" (co_payload o) = Some (JArr (drop n ordered))
    /\ dict_get "change_count" (co_payload o) = Some (JInt (Z.of_nat (length (drop n ordered))))
    /\ dict_get "summaries" (co_payload o) = Some (JStr (py_join "; " (texts_of "summary" (drop n ordered))))
    /\ (truncated_of (co_payload o) = false -> drop n ordered = ordered).
Proof.
  intros Hstart Hstop Hload found. destruct (sort_changes_spec found) as (Hp & Hsort & Hstable).
  destruct (rebuilt_changes_fit arguments found (sort_changes found) Hp) as (n & Hr & Hc & Ht & Hfit).
  unfold run_changes_check. rewrite Hstart, Hstop, Hload. cbn [asserted mbind result_bind].
  fold found. unfold rows_at. rewrite Hr. cbn [mbind result_bind]. rewrite Hfit. cbn [negb].
  eexists _, (sort_changes found), n. split; [reflexivity|].
  cbn [co_outcome co_payload co_summary executed_check].
  split_and!; try done.
  - apply clamp_summary_bound.
  - by rewrite dict_get_set_ne.
  - by rewrite dict_get_set_ne.
  - apply dict_get_set_eq.
  - unfold truncated_of in *. by rewrite dict_get_set_ne.
Qed.

(** * Topology *)

Lemma widest_topology services a edges b t :
  widest_text [("services", JArr services); ("service_count", JInt a); ("edges", JArr edges);
               ("edge_count", JInt b); ("truncated", JBool t)] = None.
Proof. done. Qed.

Definition topology_result (services edges : list json) (truncated : bool) : jobject :=
  [("services", JArr services); ("service_count", JInt (Z.of_nat (length services)));
   ("edges", JArr edges); ("edge_count", JInt (Z.of_nat (length edges))); ("truncated", JBool truncated)].

Lemma trimmed_topology services edges b :
  exists n b',
    trim_to_bytes (topology_result services edges b) "edges" edges "edge_count"
      = topology_result services (drop n edges) b'
    /\ (fits (topology_result services (drop n edges) b') = true \/ drop n edges = [])
    /\ (b' = false -> drop n edges = edges /\ b = false).
Proof.
  set (p := topology_result services edges b).
  destruct (trim_to_bytes_cases "edges" "edge_count" ltac:(distinct) p edges)
    as (Hk & (b' & Hb & Hwhole) & Hkeep & n & Hr & Hc & Hcase); [distinct|by exists b|].
  set (q := trim_to_bytes p "edges" edges "edge_count") in *.
  assert (q = topology_result services (drop n edges) b') as Hq.
  { refine (keys_values ["services"; "service_count"; "edges"; "edge_count"; "truncated"] q
              [JArr services; JInt (Z.of_nat (length services)); JArr (drop n edges);
               JInt (Z.of_nat (length (drop n edges))); JBool b'] ltac:(distinct) Hk _).
    repeat constructor; try done; by apply Hkeep. }
  exists n, b'. split; [done|]. rewrite <- Hq. split; [naive_solver|].
  intros ->. specialize (Hwhole eq_refl). rewrite Hwhole in Hb, Hr.
  change (dict_get "truncated" p = Some (JBool false)) in Hb.
  change (Some (JArr edges) = Some (JArr (drop n edges))) in Hr. split; [congruence|].
  change (Some (JBool b) = Some (JBool false)) in Hb. congruence.
Qed.

Lemma trimmed_services services edges b :
  exists m b',
    trim_to_bytes (topology_result services edges b) "services" services "service_count"
      = topology_result (drop m services) edges b'
    /\ (fits (topology_result (drop m services) edges b') = true \/ drop m services = [])
    /\ (b' = false -> drop m services = services /\ b = false)
    /\ (fits (topology_result services edges b) = true -> drop m services = services /\ b' = b).
Proof.
  set (p := topology_result services edges b).
  destruct (trim_to_bytes_cases "services" "service_count" ltac:(distinct) p services)
    as (Hk & (b' & Hb & Hwhole) & Hkeep & m & Hr & Hc & Hcase); [distinct|by exists b|].
  pose proof (proj1 (proj2 (proj2 (trim_to_bytes_spec p "services" services "service_count" ltac:(distinct) ltac:(distinct))))) as Hid.
  set (q := trim_to_bytes p "services" services "service_count") in *.
  assert (q = topology_result (drop m services) edges b') as Hq.
  { refine (keys_values ["services"; "service_count"; "edges"; "edge_count"; "truncated"] q
              [JArr (drop m services); JInt (Z.of_nat (length (drop m services))); JArr edges;
               JInt (Z.of_nat (length edges)); JBool b'] ltac:(distinct) Hk _).
    repeat constructor; try done; by apply Hkeep. }
  exists m, b'. split; [done|]. rewrite <- Hq. split; [naive_solver|].
  split.
  - intros ->. specialize (Hwhole eq_refl). rewrite Hwhole in Hb, Hr.
    change (Some (JArr services) = Some (JArr (drop m services))) in Hr. split; [congruence|].
    change (Some (JBool b) = Some (JBool false)) in Hb. congruence.
  - intros Hfit. specialize (Hid Hfit). rewrite Hid in Hb, Hr.
    change (Some (JArr services) = Some (JArr (drop m services))) in Hr.
    change (Some (JBool b) = Some (JBool b')) in Hb. split; congruence.
Qed.

(** Both lists cut, the edges first: the result fits. *)
Lemma topology_trimmed services edges :
  let p := trim_to_bytes (topology_payload services edges) "edges" edges "edge_count" in
  exists n m t, trim_to_bytes p "services" services "service_count" = topology_result (drop m services) (drop n edges) t
    /\ fits (topology_result (drop m services) (drop n edges) t) = true
    /\ (drop m services = services \/ drop n edges = [])
    /\ (t = false -> drop n edges = edges /\ drop m services = services).
Proof.
  intros p. unfold p. change (topology_payload services edges) with (topology_result services edges false).
  destruct (trimmed_topology services edges false) as (n & b & Hq & Hend & Hwhole). rewrite Hq.
  destruct (trimmed_services services (drop n edges) b) as (m & t & Hq' & Hend' & Hwhole' & Hid). rewrite Hq'.
  exists n, m, t. split_and!; try done.
  - destruct Hend' as [|Hnil]; [done|]. destruct Hend as [Hf|Hnil'].
    + destruct (Hid Hf) as [-> ->]. done.
    + rewrite Hnil, Hnil'. by destruct t; vm_compute.
  - destruct Hend as [Hf|]; [left; by apply Hid|by right].
  - intros Ht. destruct (Hwhole' Ht) as [-> ->]. by destruct (Hwhole eq_refl) as [-> _].
Qed.

(** the topology check: whatever the file holds, the two lists are cut from their front
    until the result fits the byte bound, the edges first, so its assertion never fails;
    the counts are those of what is shown; a topology that fits is shown whole, and one
    that was cut says so. *)
Theorem topology_check_bounded arguments files elapsed_ms loaded :
  read_json_file (rf_topology files) = Ok (Some (JObj loaded)) ->
  let edges := list_at "edges" loaded in
  let services := list_at "services" loaded in
  exists o n m t, run_topology_check arguments files elapsed_ms = Ok o
    /\ co_outcome o = EXECUTED
    /\ fits (co_payload o) = true
    /\ co_payload o = [("services", JArr (drop m services));
                       ("service_count", JInt (Z.of_nat (length (drop m services))));
                       ("edges", JArr (drop n edges));
                       ("edge_count", JInt (Z.of_nat (length (drop n edges))));
                       ("truncated", JBool t)]
    /\ (drop m services = services \/ drop n edges = [])
    /\ (t = false -> drop n edges = edges /\ drop m services = services).
Proof.
  intros Hload edges services. unfold run_topology_check. rewrite Hload. cbn [mbind result_bind].
  fold edges services. destruct (topology_trimmed services edges) as (n & m & t & Hq & Hfit & Hends & Hwhole).
  rewrite Hq, Hfit. cbn [negb]. eexists _, n, m, t. split; [reflexivity|].
  cbn [co_outcome co_payload executed_check]. by split_and!.
Qed.

(** * Logs *)

(** The rows a log check looks for, in the order of the file. *)
Definition matching_rows (log_filter : LogFilter) (start stop : Z) (lines : list (option string))
    : res (list json) :=
  rows ← mapM (matching_record log_filter start stop) lines; Ok (JObj <$> omap id rows).

(** The last [limit] of a list. *)
Definition last_rows {A} (limit : Z) (l : list A) : list A := drop (length l - Z.to_nat limit) l.

Lemma push_last {A} limit (x : A) l : push_row limit x (last_rows limit l) = last_rows limit (l ++ [x]).
Proof.
  unfold push_row, last_rows. rewrite <- (drop_app_le l [x]) by lia. rewrite drop_drop.
  f_equal. rewrite length_drop, !length_app. cbn. lia.
Qed.

Lemma scan_log_spec log_filter start stop limit lines seen :
  scan_log log_filter start stop limit lines (last_rows limit seen) (Z.of_nat (length seen))
  = rows ← matching_rows log_filter start stop lines;
    Ok (last_rows limit (seen ++ rows), Z.of_nat (length (seen ++ rows))).
Proof.
  revert seen. induction lines as [|line lines IH]; intros seen; cbn [scan_log].
  - cbn. by rewrite app_nil_r.
  - unfold matching_rows in *. cbn [mapM]. destruct (matching_record log_filter start stop line) as [[record|]|e]; cbn [mbind result_bind].
    + rewrite push_last. replace (Z.of_nat (length seen) + 1) with (Z.of_nat (length (seen ++ [JObj record])))
        by (rewrite length_app; cbn; lia).
      rewrite IH. destruct (mapM (matching_record log_filter start stop) lines) as [rows|e]; [|done].
      cbn. by rewrite <- app_assoc.
    + rewrite IH. by destruct (mapM (matching_record log_filter start stop) lines) as [rows|e].
    + done.
Qed.

(** The names among the codes: each once, in order, and those the rows carry. *)
Definition codes_of (rows : list json) (codes : list string) : Prop :=
  NoDup codes /\ StronglySorted String.le codes
  /\ forall code, code ∈ codes <-> exists d, JObj d ∈ rows /\ dict_get "event" d = Some (JStr code).

Lemma event_codes_spec rows : exists codes, event_codes rows = py_join "," codes /\ codes_of rows codes.
Proof.
  exists (merge_sort String.le (remove_dups (texts_of "event" rows))). split; [done|]. split_and!.
  - rewrite merge_sort_Permutation. apply NoDup_remove_dups.
  - apply StronglySorted_merge_sort; apply _.
  - intros code. rewrite merge_sort_Permutation, elem_of_remove_dups. unfold texts_of.
    rewrite list_elem_of_omap. unfold text_of. split.
    + intros (row & Hin & Hr). destruct row as [| | | | | |d]; try done. exists d. split; [done|].
      by repeat case_match; simplify_eq.
    + intros (d & Hin & Hd). exists (JObj d). by rewrite Hd.
Qed.

(** What a log check returns when it shows the last [m] of the matching rows. *)
Definition logs_result (arguments : QueryLogsArguments) (all : list json) (m : Z) (codes : string) : jobject :=
  [("filter", JStr (value (ql_log_filter arguments))); ("service", JStr (ql_service arguments));
   ("row_count", JInt m); ("event_codes", JStr codes); ("truncated", JBool (m <? Z.of_nat (length all)));
   ("rows", JArr (last_rows m all))].

(** Dropping from the front of the last rows leaves the last of them. *)
Lemma drop_last_rows {A} limit (all : list A) n :
  (n <= length (last_rows limit all))%nat ->
  drop n (last_rows limit all) = last_rows (Z.of_nat (length (last_rows limit all) - n)) all.
Proof. unfold last_rows. rewrite length_drop, drop_drop. intros Hn. f_equal. lia. Qed.

(** Trimming leaves the most rows the byte bound admits. *)
Lemma logs_trimmed arguments all limit :
  let top := Z.min limit (Z.of_nat (length all)) in
  let rows := last_rows limit all in
  let q := trim_to_bytes (logs_payload arguments rows (Z.of_nat (length all))) "rows" rows "row_count" in
  0 <= limit ->
  exists m, 0 <= m <= top
    /\ dict_get "rows" q = Some (JArr (last_rows m all)) /\ dict_get "row_count" q = Some (JInt m)
    /\ (fits (logs_result arguments all m "") = true \/ m = 0)
    /\ (fits (logs_result arguments all m "") = true -> q = logs_result arguments all m "")
    /\ forall k, m < k <= top -> fits (logs_result arguments all k "") = false.
Proof.
  intros top rows q Hlimit. set (total := Z.of_nat (length all)).
  assert (Z.of_nat (length rows) = top) as Hrows by (unfold rows, top, last_rows; rewrite length_drop; lia).
  set (result rows b := [("filter", JStr (value (ql_log_filter arguments))); ("service", JStr (ql_service arguments));
    ("row_count", JInt (Z.of_nat (length rows))); ("event_codes", JStr ""); ("truncated", JBool b);
    ("rows", JArr rows)] : jobject).
  destruct (trim_to_bytes_longest "rows" "row_count" ltac:(distinct) result ltac:(done)
              (logs_payload arguments rows total) rows (top <? total))
    as (n & Hn & Hr & Hc & Hend & Hq & Hlong); [unfold logs_payload; by rewrite Hrows|distinct|].
  assert (forall k, (k <= length rows)%nat ->
    result (drop k rows) (cut_after (top <? total) k) = logs_result arguments all (top - Z.of_nat k) "") as Hsame.
  { intros k Hk. assert (drop k rows = last_rows (top - Z.of_nat k) all) as Hd.
    { unfold rows. rewrite drop_last_rows by done. fold rows. f_equal. lia. }
    unfold result, logs_result. rewrite length_drop, Hd. fold total. repeat f_equal; [lia|].
    destruct k; cbn [cut_after]; [by rewrite Z.sub_0_r|]. symmetry. apply Z.ltb_lt. unfold top. lia. }
  assert (drop n rows = last_rows (top - Z.of_nat n) all) as Hd.
  { unfold rows. rewrite drop_last_rows by done. fold rows. f_equal. lia. }
  rewrite (Hsame n Hn) in Hend, Hq. rewrite length_drop in Hc. rewrite Hd in Hr. exists (top - Z.of_nat n).
  split_and!; [lia|lia|done|etransitivity; [exact Hc|]; do 2 f_equal; lia|destruct Hend; [by left|right; lia]|done|].
  intros k Hk. specialize (Hlong (Z.to_nat (top - k)) ltac:(lia)). rewrite Hsame in Hlong by lia.
  by replace (top - Z.of_nat (Z.to_nat (top - k))) with k in Hlong by lia.
Qed.

(** A line no character of which is beyond the model's never stops the pass. *)
Lemma matching_record_reads log_filter start stop line :
  (forall text, line = Some text -> json_loads text <> Err BeyondLatin1) ->
  exists r, matching_record log_filter start stop line = Ok r
    /\ forall d, r = Some d -> matches_filter log_filter d = true /\ at_within d start stop = true.
Proof.
  destruct line as [text|]; intros Hl; cbn [matching_record]; [|by exists None].
  unfold read_json_line, loads_or_none. specialize (Hl text eq_refl).
  destruct (json_loads text) as [j|[]]; [|by exists None..|done].
  destruct j as [| | | | | |d]; try by exists None.
  cbn. destruct (matches_filter log_filter d && at_within d start stop) eqn:Hm; [|by exists None].
  apply andb_prop in Hm. exists (Some d). split; [done|]. by intros ? [= <-].
Qed.

Lemma matching_rows_read log_filter start stop lines :
  (forall text, Some text ∈ lines -> json_loads text <> Err BeyondLatin1) ->
  exists all, matching_rows log_filter start stop lines = Ok all
    /\ Forall (fun row => exists d, row = JObj d /\ matches_filter log_filter d = true /\ at_within d start stop = true) all.
Proof.
  unfold matching_rows. induction lines as [|line lines IH]; intros Hl; [by exists []|].
  destruct (matching_record_reads log_filter start stop line) as (r & Hr & Hd).
  { intros text ->. apply Hl. by left. }
  destruct IH as (all & Hall & Hf). { intros text Hin. apply Hl. by right. }
  cbn [mapM]. rewrite Hr. cbn [mbind result_bind].
  destruct (mapM (matching_record log_filter start stop) lines) as [rs|e]; [|done]. cbn in Hall |- *.
  injection Hall as <-. destruct r as [d|]; [|by eexists]. eexists. split; [reflexivity|].
  cbn. constructor; [|done]. exists d. split; [done|]. by apply Hd.
Qed.

(** C34: a log check: whatever lines the file holds, nested no deeper than [json.loads]
    goes, broken JSON, broken UTF-8 and broken timestamps among them, it returns; it
    shows the newest of the lines that pass the filter inside the window, in the file's
    order: as many as there are, up to the row limit, unless the byte bound leaves
    fewer, and then one more would not have fitted.  The payload is measured before the
    event codes are filled in, and fits then (unless not even the empty one does); the
    codes are those of the rows shown, each once and in order; the counts, the marker of
    what was left out and the summary are exact. *)
Theorem logs_check_shows_newest arguments files elapsed_ms start stop lines :
  ql_window_start arguments = Some start -> ql_window_end arguments = Some stop ->
  0 <= ql_row_limit arguments -> rf_log files (ql_service arguments) = Some (Ok lines) ->
  (forall text, Some text ∈ lines -> json_loads text <> Err BeyondLatin1) ->
  exists o all m codes, run_logs_check arguments files elapsed_ms = Ok o
    /\ co_outcome o = EXECUTED
    /\ matching_rows (ql_log_filter arguments) start stop lines = Ok all
    /\ Forall (fun row => exists d, row = JObj d /\ matches_filter (ql_log_filter arguments) d = true
                                    /\ at_within d start stop = true) all
    /\ let top := Z.min (Z.min (ql_row_limit arguments) MAX_LOG_ROWS) (Z.of_nat (length all)) in
       0 <= m <= top
       /\ (forall k, m < k <= top -> fits (logs_result arguments all k "") = false)
       /\ (fits (logs_result arguments all m "") = true \/ m = 0)
       /\ codes_of (last_rows m all) codes
       /\ dict_get "rows" (co_payload o) = Some (JArr (last_rows m all))
       /\ dict_get "row_count" (co_payload o) = Some (JInt m)
       /\ dict_get "event_codes" (co_payload o) = Some (JStr (py_join "," codes))
       /\ (fits (logs_result arguments all m "") = true ->
           co_payload o = logs_result arguments all m (py_join "," codes)
           /\ co_summary o
              = value (ql_log_filter arguments) +:+ " on " +:+ ql_service arguments +:+ ": " +:+ str_of_Z m
                +:+ " rows, events " +:+ (if bool_decide (py_join "," codes = "") then "none" else py_join "," codes)
                +:+ (if m <? Z.of_nat (length all)
                     then " (kept the newest " +:+ str_of_Z m +:+ " of " +:+ str_of_Z (Z.of_nat (length all)) +:+ ")"
                     else "")).
Proof.
  intros Hstart Hstop Hlimit Hlog Hlines.
  destruct (matching_rows_read (ql_log_filter arguments) start stop lines Hlines) as (all & Hall & Hf).
  set (limit := Z.min (ql_row_limit arguments) MAX_LOG_ROWS).
  assert (0 <= limit) as Hpos by (unfold limit, MAX_LOG_ROWS; lia).
  destruct (logs_trimmed arguments all limit Hpos) as (m & Hm & Hr & Hc & Hend & Hq & Hlong).
  destruct (event_codes_spec (last_rows m all)) as (codes & Hcodes & Hspec).
  unfold run_logs_check. rewrite Hstart, Hstop, Hlog. cbn [asserted mbind result_bind]. fold limit.
  rewrite (proj2 (Z.ltb_ge _ _) Hpos). cbn [mbind result_bind].
  pose proof (scan_log_spec (ql_log_filter arguments) start stop limit lines []) as Hscan.
  cbn [length Nat.sub drop last_rows] in Hscan. rewrite Hall in Hscan. cbn [mbind result_bind app] in Hscan.
  change (scan_log (ql_log_filter arguments) start stop limit lines [] 0
          = Ok (last_rows limit all, Z.of_nat (length all))) in Hscan.
  rewrite Hscan. cbn [mbind result_bind].
  set (q := trim_to_bytes _ _ _ _) in *. unfold rows_at. rewrite Hr. cbn [mbind result_bind].
  eexists _, all, m, codes. split; [reflexivity|]. cbn [co_outcome co_payload co_summary executed_check].
  rewrite Hcodes. do 3 (split; [done|]). split_and!; try done; try lia.
  - by rewrite dict_get_set_ne.
  - by rewrite dict_get_set_ne.
  - apply dict_get_set_eq.
  - intros Hfit. rewrite (Hq Hfit). split; [done|]. unfold logs_summary, truncated_note, logs_result, truncated_of, int_at, text_at.
    cbn. done.
Qed.
