(* ===== verification/Prometheus.v ===== *)
(** The metric backend (prometheus.py): registered query templates, a grid anchored on
    the end of the window, one range query, and its answer checked into samples.

    The request is the parameter [http_get]: what opening the URL and reading the body
    gives, by how it ends. *)
From Stdlib Require Import ZArith Lia.
From Stdlib Require Import SpecFloat.
From stdpp Require Import prelude strings list sorting.
From S2P Require Import Prelude PyText Float64 Numbers Tools Domain World Evidence JsonText Telemetry TelemetryProps.
Local Open Scope Z_scope.

Definition MAX_METRIC_SAMPLES : Z := 60.
Definition METRIC_STEP_SECONDS : Z := 15.
Definition DEFAULT_PROMETHEUS_URL : string := "http://127.0.0.1:9090".

(** [SAFE_SERVICE_NAME.match]: a letter, at most thirty more characters, and the end,
    which [$] also finds before a last newline. *)
Definition is_lower (c : Ascii.ascii) : bool := (97 <=? code c) && (code c <=? 122).

Definition is_name_char (c : Ascii.ascii) : bool := is_lower c || is_digit c || (code c =? 45).

Fixpoint name_tail (more : nat) (s : string) : bool :=
  match s with
  | EmptyString => true
  | String c rest =>
      (code c =? 10) && bool_decide (rest = "")
      || match more with S more => is_name_char c && name_tail more rest | O => false end
  end.

Definition safe_service_name (s : string) : bool :=
  match s with String c rest => is_lower c && name_tail 30 rest | EmptyString => false end.

(** [METRIC_QUERIES[template].format(service=..., incident=...)] *)
Definition metric_query (template : MetricTemplate) (service incident : string) : string :=
  let labels := "{service=" +:+ dq +:+ service +:+ dq +:+ ",incident=" +:+ dq +:+ incident +:+ dq in
  match template with
  | GATEWAY_ERROR_RATE =>
      "sum(rate(causalops_requests_total" +:+ labels +:+ ",outcome=" +:+ dq +:+ "error" +:+ dq +:+ "}[30s]))"
  | GATEWAY_LATENCY_P95 =>
      "histogram_quantile(0.95, sum by (le) (rate(causalops_request_latency_seconds_bucket"
        +:+ labels +:+ "}[1m])))"
  | DOWNSTREAM_TIMEOUT_SHARE =>
      "sum(rate(causalops_requests_total" +:+ labels +:+ ",outcome=" +:+ dq +:+ "timeout" +:+ dq
        +:+ "}[30s])) / sum(rate(causalops_requests_total" +:+ labels +:+ "}[30s]))"
  | RESOURCE_POOL_ATTEMPTS_PER_CAPACITY =>
      "max(causalops_pool_attempts_per_capacity" +:+ labels +:+ "})"
  end.

(** * Samples *)

Record MetricSample := { ms_at : f64; ms_value : f64 }.

(** [float(n)]: an integer past the largest float raises [OverflowError]. *)
Definition float_of_int (n : Z) : option f64 :=
  let x := f_of_Z n in if f_isfinite x then Some x else None.

(** [float(x)] of the JSON values [read_sample] lets through; [bool] is an [int]. *)
Definition float_of_json (j : json) : option f64 :=
  match j with
  | JBool b => Some (f_of_Z (Z.b2z b))
  | JInt n => float_of_int n
  | JFloat t => float_of_text t
  | JStr s => float_of_text s
  | _ => None
  end.

Definition finite_float (x : option f64) : option f64 :=
  y ← x; if f_isfinite y then Some y else None.

Definition read_sample (pair : json) : option MetricSample :=
  match pair with
  | JArr [moment; reading] =>
      match moment with
      | JBool _ | JInt _ | JFloat _ =>
          at_ ← finite_float (float_of_json moment);
          value ← finite_float (float_of_json reading);
          Some {| ms_at := at_; ms_value := value |}
      | _ => None
      end
  | _ => None
  end.

Record ParsedSamples := {
  ps_samples : list MetricSample;
  ps_raw_count : Z;
  ps_series_count : Z;
}.

Definition parse_samples (answered : json) : option ParsedSamples :=
  match answered with
  | JObj answered =>
      if negb (text_is "status" "success" answered) then None
      else
        match dict_get "data" answered with
        | Some (JObj data) =>
            match dict_get "result" data with
            | Some (JArr []) =>
                Some {| ps_samples := []; ps_raw_count := 0; ps_series_count := 0 |}
            | Some (JArr ((first :: _) as series)) =>
                match first with
                | JObj first =>
                    match dict_get "values" first with
                    | Some (JArr values) =>
                        Some {| ps_samples := omap read_sample values;
                                ps_raw_count := Z.of_nat (length values);
                                ps_series_count := Z.of_nat (length series) |}
                    | _ =>
                        Some {| ps_samples := []; ps_raw_count := 0;
                                ps_series_count := Z.of_nat (length series) |}
                    end
                | _ => None
                end
            | _ => None
            end
        | _ => None
        end
  | _ => None
  end.

(** * The grid *)

(** Start, end and step, in microseconds; [//] on [timedelta] is exact. *)
Definition aligned_metric_window (window_start window_end : Z) : Z * Z * Z :=
  let step := METRIC_STEP_SECONDS * 1000000 in
  let points := (window_end - window_start) / step in
  (window_end - points * step, window_end, step).

(** * The request *)

(** How a request ends: a body, decoded, or one that is no UTF-8; no answer in time;
    an unreachable or refusing server; any other exception. *)
Inductive http_answer :=
  | Body (text : string)
  | BodyNotUtf8
  | TimedOut
  | Unreachable
  | OtherFailure (e : exn).

(** [s.rstrip("/")] *)
Fixpoint rstrip_slash (s : string) : string :=
  match s with
  | EmptyString => EmptyString
  | String c rest =>
      match rstrip_slash rest with
      | EmptyString => if code c =? 47 then EmptyString else String c EmptyString
      | t => String c t
      end
  end.

(** [urllib.parse.quote_plus] of one character. *)
Definition hex_upper (n : Z) : string := chr (if n <? 10 then 48 + n else 55 + n).

Definition percent (n : Z) : string := "%" +:+ hex_upper (n / 16) +:+ hex_upper (n mod 16).

Definition quote_char (c : Ascii.ascii) : string :=
  let n := code c in
  if is_digit c || is_lower c || (65 <=? n) && (n <=? 90) || bool_decide (n ∈ [45; 46; 95; 126])
  then String c EmptyString
  else if n =? 32 then "+"
  else if n <? 128 then percent n
  else percent (192 + n / 64) +:+ percent (128 + n mod 64).

Definition quote_plus (s : string) : string := concat_chars quote_char s.

Definition urlencode (query : list (string * string)) : string :=
  py_join "&" (List.map (fun kv => quote_plus kv.1 +:+ "=" +:+ quote_plus kv.2) query).

Section metric.
Context (http_get : string -> Z -> http_answer).

Definition query_url (base_url promql : string) (start stop step : Z) : string :=
  rstrip_slash base_url +:+ "/api/v1/query_range?"
    +:+ urlencode [("query", promql); ("start", isoformat start); ("end", isoformat stop);
                   ("step", str_of_Z (step / 1000000) +:+ "s")].

(** The answer read; the errors [fetch_metric_samples] tells apart. *)
Inductive query_failure := QueryTimeout | QueryUnreachable | QueryUnreadable | QueryRaised (e : exn).

Definition query_prometheus (base_url promql : string) (start stop step timeout : Z)
    : result query_failure (option ParsedSamples) :=
  match http_get (query_url base_url promql start stop step) timeout with
  | TimedOut => Err QueryTimeout
  | Unreachable => Err QueryUnreachable
  | OtherFailure e => Err (QueryRaised e)
  | BodyNotUtf8 => Err (QueryRaised (OtherError "UnicodeDecodeError"))
  | Body text =>
      match @json_loads Unhooked text with
      | Ok answered => Ok (parse_samples answered)
      | Err JSONDecodeError => Err QueryUnreadable
      | Err BadNumber => Err (QueryRaised ValueError)
      | Err BeyondLatin1 => Err (QueryRaised OutsideTextModel)
      end
  end.

Definition fetch_metric_samples (base_url promql : string) (arguments : QueryMetricArguments)
    (timeout : Z) (source : string) : res (ParsedSamples + CheckOutcome) :=
  window_start ← asserted (qm_window_start arguments);
  window_end ← asserted (qm_window_end arguments);
  let '(start, stop, step) := aligned_metric_window window_start window_end in
  match query_prometheus base_url promql start stop step timeout with
  | Err QueryTimeout =>
      Ok (inr (failed_check METRIC source TIMEOUT TOOL_TIMEOUT "Prometheus did not answer in time"))
  | Err QueryUnreachable =>
      Ok (inr (failed_check METRIC source UNAVAILABLE TOOL_UNAVAILABLE "Prometheus is not reachable"))
  | Err (QueryRaised e) => Err e
  | Err QueryUnreadable | Ok None =>
      Ok (inr (failed_check METRIC source ERROR TOOL_ERROR
                 "Prometheus returned something this tool cannot read"))
  | Ok (Some parsed) => Ok (inl parsed)
  end.

(** * The check *)

Inductive MetricSampleStatus :=
  | MULTIPLE_SERIES | NO_RETURNED_SERIES | NO_USABLE_SAMPLES | ALL_READINGS_DISCARDED | SAMPLED.

Definition status_value (s : MetricSampleStatus) : string :=
  match s with
  | SAMPLED => "SAMPLED"
  | NO_RETURNED_SERIES => "NO_RETURNED_SERIES"
  | NO_USABLE_SAMPLES => "NO_USABLE_SAMPLES"
  | ALL_READINGS_DISCARDED => "ALL_READINGS_DISCARDED"
  | MULTIPLE_SERIES => "MULTIPLE_SERIES"
  end.

Definition sample_status (fetched : ParsedSamples) : MetricSampleStatus :=
  if 1 <? ps_series_count fetched then MULTIPLE_SERIES
  else if ps_series_count fetched =? 0 then NO_RETURNED_SERIES
  else if ps_raw_count fetched =? 0 then NO_USABLE_SAMPLES
  else match ps_samples fetched with [] => ALL_READINGS_DISCARDED | _ => SAMPLED end.

(** [max(values, default=0.0)]: the first of the largest. *)
Definition max_float (values : list f64) : f64 :=
  match values with [] => f_zero | x :: rest => fold_left f_max rest x end.

(** [l[-n:]] for a positive [n] *)
Definition newest {A} (n : Z) (l : list A) : list A := drop (length l - Z.to_nat n) l.

Definition sample_row (s : MetricSample) : json :=
  JArr [JFloat (float_repr (ms_at s)); JFloat (float_repr (ms_value s))].

(** The readings of the rows that survived.  A row holds the sample's own floats, which
    become text only when the payload is dumped, and [trim_to_bytes] drops rows from the
    front: the survivors are the rows of the last samples. *)
Definition surviving (kept : list MetricSample) (rows : list json) : list MetricSample :=
  newest (Z.of_nat (length rows)) kept.

Definition metric_payload (arguments : QueryMetricArguments) (fetched : ParsedSamples)
    (kept : list MetricSample) (promql : string) (start stop step : Z) : jobject :=
  [("template", JStr (value (qm_template arguments))); ("service", JStr (qm_service arguments));
   ("sample_count", JInt (Z.of_nat (length kept)));
   ("max_value", JFloat (float_repr (max_float (List.map ms_value kept))));
   ("truncated", JBool (bool_decide (length kept < length (ps_samples fetched))%nat));
   ("readings_discarded", JInt (ps_raw_count fetched - Z.of_nat (length (ps_samples fetched))));
   ("status", JStr (status_value (sample_status fetched))); ("promql", JStr promql);
   ("query_window_start", JStr (isoformat start)); ("query_window_end", JStr (isoformat stop));
   ("query_step_seconds", JInt (step / 1000000)); ("grid_points", JInt ((stop - start) / step + 1))].

Definition status_note (status : MetricSampleStatus) (series_count : Z) : string :=
  match status with
  | MULTIPLE_SERIES =>
      " (multiple series returned: showing series 1 of " +:+ str_of_Z series_count
        +:+ ", others not shown)"
  | NO_RETURNED_SERIES => " (status: no series returned for this query)"
  | NO_USABLE_SAMPLES => " (status: a series returned but had no usable samples)"
  | ALL_READINGS_DISCARDED => " (status: every returned reading was unreadable)"
  | SAMPLED => ""
  end.

Definition metric_summary (arguments : QueryMetricArguments) (p : jobject) (fetched : ParsedSamples)
    (peak : f64) : string :=
  let sample_count := int_at "sample_count" p in
  let discarded := int_at "readings_discarded" p in
  value (qm_template arguments) +:+ " for " +:+ qm_service arguments +:+ ": "
    +:+ str_of_Z sample_count +:+ " samples, peak " +:+ float_repr peak
    +:+ truncated_note p sample_count (Z.of_nat (length (ps_samples fetched)))
    +:+ (if discarded =? 0 then "" else " (" +:+ str_of_Z discarded +:+ " unreadable, discarded)")
    +:+ status_note (sample_status fetched) (ps_series_count fetched).

Definition run_metric_check (arguments : QueryMetricArguments) (scope : IncidentScope)
    (base_url : string) (timeout elapsed_ms : Z) : res CheckOutcome :=
  if negb (safe_service_name (qm_service arguments)) then
    Ok (failed_check METRIC "query_metric" ERROR TOOL_ERROR "that service name cannot be used in a query")
  else
    let promql := metric_query (qm_template arguments) (qm_service arguments) (sc_incident_id scope) in
    fetched ← fetch_metric_samples base_url promql arguments timeout "query_metric";
    match fetched with
    | inr outcome => Ok outcome
    | inl fetched =>
        let kept := newest MAX_METRIC_SAMPLES (ps_samples fetched) in
        window_start ← asserted (qm_window_start arguments);
        window_end ← asserted (qm_window_end arguments);
        let '(start, stop, step) := aligned_metric_window window_start window_end in
        let p := trim_to_bytes (metric_payload arguments fetched kept promql start stop step)
                   "samples" (List.map sample_row kept) "sample_count" in
        rows ← rows_at "samples" p;
        let peak := max_float (List.map ms_value (surviving kept rows)) in
        let p := dict_set "max_value" (JFloat (float_repr peak)) p in
        Ok (executed_check METRIC "query_metric" (metric_summary arguments p fetched peak) p elapsed_ms)
    end.
End metric.

(** * Lemmas *)

(** Where a float that is a number stands: by kind and sign, exponent, mantissa. *)
Definition rank (x : f64) : Z * Z * Z :=
  match x with
  | S754_nan => (0, 0, 0)
  | S754_zero _ => (0, 0, 0)
  | S754_infinity s => if s then (-2, 0, 0) else (2, 0, 0)
  | S754_finite s m e => if s then (-1, - e, Zneg m) else (1, e, Zpos m)
  end.

Definition rank_lt (a b : Z * Z * Z) : Prop :=
  let '(a1, a2, a3) := a in
  let '(b1, b2, b3) := b in
  a1 < b1 \/ a1 = b1 /\ (a2 < b2 \/ a2 = b2 /\ a3 < b3).

Lemma f_gt_rank x y : f_isfinite x = true -> f_isfinite y = true -> f_gt y x = true <-> rank_lt (rank x) (rank y).
Proof.
  unfold f_gt, SFltb, SFcompare.
  destruct x as [?|[]| |[] m e], y as [?|[]| |[] m' e']; try done; intros _ _; cbn [rank rank_lt];
    try (split; intros; (lia || done)).
  - destruct (Z.compare_spec e e') as [->|?|?]; cbn; try (split; intros; (lia || done)).
    rewrite <- Pos.compare_antisym. rewrite (Pos.compare_antisym m m').
    destruct (Pos.compare_spec m m'); cbn; split; intros; (lia || done).
  - destruct (Z.compare_spec e e') as [->|?|?]; cbn; try (split; intros; (lia || done)).
    change (Pos.compare_cont Eq m m') with (m ?= m')%positive.
    destruct (Pos.compare_spec m m'); cbn; split; intros; (lia || done).
Qed.

Lemma rank_lt_trans_neg a b c : ~ rank_lt a b -> ~ rank_lt b c -> ~ rank_lt a c.
Proof. destruct a as [[? ?] ?], b as [[? ?] ?], c as [[? ?] ?]. cbn. lia. Qed.

(** [max] finds a reading no other exceeds. *)
Lemma max_float_spec values :
  Forall (fun x => f_isfinite x = true) values -> values <> [] ->
  max_float values ∈ values /\ Forall (fun x => f_gt x (max_float values) = false) values.
Proof.
  destruct values as [|x values]; [done|]. intros Hf _. cbn [max_float].
  assert (forall best, f_isfinite best = true -> Forall (fun x => f_isfinite x = true) values ->
    fold_left f_max values best ∈ best :: values
    /\ f_isfinite (fold_left f_max values best) = true
    /\ Forall (fun x => f_gt x (fold_left f_max values best) = false) (best :: values)) as Hgen.
  { clear. induction values as [|y values IH]; intros best Hb Hf; cbn [fold_left].
    - split_and!; [by left|done|]. repeat constructor. apply not_true_is_false.
      rewrite f_gt_rank by done. destruct (rank best) as [[? ?] ?]. cbn. lia.
    - apply Forall_cons in Hf as [Hy Hf]. unfold f_max at 2 4 6.
      destruct (f_gt y best) eqn:Hgt.
      + destruct (IH y Hy Hf) as (Hin & Hfin & Hall). split_and!; [set_solver|done|].
        constructor; [|done]. apply Forall_cons in Hall as [Hy' _].
        apply not_true_is_false. rewrite f_gt_rank by done. apply (f_gt_rank best y Hb Hy) in Hgt.
        assert (~ rank_lt (rank (fold_left f_max values y)) (rank y)) as Hn.
        { rewrite <- f_gt_rank by done. congruence. }
        revert Hgt Hn. destruct (rank best) as [[? ?] ?], (rank y) as [[? ?] ?], (rank (fold_left _ _ _)) as [[? ?] ?].
        cbn. lia.
      + destruct (IH best Hb Hf) as (Hin & Hfin & Hall). split_and!; [set_solver|done|].
        apply Forall_cons in Hall as [Hbest Hall]. repeat constructor; try done.
        apply not_true_is_false. rewrite f_gt_rank by done.
        apply (rank_lt_trans_neg _ (rank best)); rewrite <- f_gt_rank by done; congruence. }
  apply Forall_cons in Hf as [Hx Hf]. destruct (Hgen x Hx Hf) as (? & _ & ?). done.
Qed.

(** * What an answer says, read off its JSON *)

(** The number a JSON value is; [bool] is a kind of [int]. *)
Inductive number_of : json -> f64 -> Prop :=
  | number_bool b : number_of (JBool b) (f_of_Z (Z.b2z b))
  | number_int n : number_of (JInt n) (f_of_Z n)
  | number_float t x : float_of_text t = Some x -> number_of (JFloat t) x.

(** A pair of a moment and a reading, the moment a number, the reading a number or the
    text of one, and both finite. *)
Definition readable (pair : json) (s : MetricSample) : Prop :=
  exists moment reading, pair = JArr [moment; reading] /\ number_of moment (ms_at s)
    /\ (number_of reading (ms_value s) \/ exists t, reading = JStr t /\ float_of_text t = Some (ms_value s))
    /\ f_isfinite (ms_at s) = true /\ f_isfinite (ms_value s) = true.

(** The readable ones among the rows, in order. *)
Inductive readings_of : list json -> list MetricSample -> Prop :=
  | readings_none : readings_of [] []
  | readings_kept pair values s readings :
      readable pair s -> readings_of values readings -> readings_of (pair :: values) (s :: readings)
  | readings_discarded pair values readings :
      (forall s, ~ readable pair s) -> readings_of values readings -> readings_of (pair :: values) readings.

(** The series of a successful answer, and the rows of its first. *)
Inductive answer_series : json -> list json -> Prop :=
  | answer_success answered data series :
      dict_get "status" answered = Some (JStr "success") -> dict_get "data" answered = Some (JObj data) ->
      dict_get "result" data = Some (JArr series) -> answer_series (JObj answered) series.

Inductive first_values : list json -> list json -> Prop :=
  | values_no_series : first_values [] []
  | values_listed first rest values :
      dict_get "values" first = Some (JArr values) -> first_values (JObj first :: rest) values
  | values_unlisted first rest :
      (forall values, dict_get "values" first <> Some (JArr values)) -> first_values (JObj first :: rest) [].

Definition answer_reads (answered : json) (series values : list json) (readings : list MetricSample) : Prop :=
  answer_series answered series /\ first_values series values /\ readings_of values readings.

(** The status of an answer, and what the summary says of it. *)
Inductive answer_status (series values : list json) (readings : list MetricSample) : string -> string -> Prop :=
  | status_several : (1 < length series)%nat ->
      answer_status series values readings "MULTIPLE_SERIES"
        (" (multiple series returned: showing series 1 of " +:+ str_of_Z (Z.of_nat (length series))
           +:+ ", others not shown)")
  | status_none : series = [] ->
      answer_status series values readings "NO_RETURNED_SERIES" " (status: no series returned for this query)"
  | status_empty : length series = 1%nat -> values = [] ->
      answer_status series values readings "NO_USABLE_SAMPLES" " (status: a series returned but had no usable samples)"
  | status_discarded : length series = 1%nat -> values <> [] -> readings = [] ->
      answer_status series values readings "ALL_READINGS_DISCARDED" " (status: every returned reading was unreadable)"
  | status_sampled : length series = 1%nat -> readings <> [] -> answer_status series values readings "SAMPLED" "".

(** A reading shown that none shown exceeds; zero where none is. *)
Definition is_peak (shown : list MetricSample) (peak : f64) : Prop :=
  match shown with
  | [] => peak = f_zero
  | _ => peak ∈ List.map ms_value shown /\ Forall (fun s => f_gt (ms_value s) peak = false) shown
  end.

Definition finite_sample (s : MetricSample) : Prop :=
  f_isfinite (ms_at s) = true /\ f_isfinite (ms_value s) = true.

(** What a metric check returns when it shows the last [m] of the readings. *)
Definition metric_result (arguments : QueryMetricArguments) (promql : string) (start stop : Z)
    (values : list json) (readings : list MetricSample) (status : string) (m : Z) (peak : f64) : jobject :=
  [("template", JStr (value (qm_template arguments))); ("service", JStr (qm_service arguments));
   ("sample_count", JInt m); ("max_value", JFloat (float_repr peak));
   ("truncated", JBool (m <? Z.of_nat (length readings)));
   ("readings_discarded", JInt (Z.of_nat (length values) - Z.of_nat (length readings)));
   ("status", JStr status); ("promql", JStr promql);
   ("query_window_start", JStr (isoformat start)); ("query_window_end", JStr (isoformat stop));
   ("query_step_seconds", JInt 15); ("grid_points", JInt ((stop - start) / 15000000 + 1));
   ("samples", JArr (List.map sample_row (last_rows m readings)))].

(** ** Parsing finds it *)

Lemma finite_float_spec x y : finite_float x = Some y <-> x = Some y /\ f_isfinite y = true.
Proof.
  unfold finite_float. destruct x as [z|]; cbn; [|naive_solver].
  destruct (f_isfinite z) eqn:Hz; split; [by intros [= <-]|by intros [? _]|done|].
  intros [[= ->] Hy]. congruence.
Qed.

Lemma float_of_int_spec n y : float_of_int n = Some y <-> y = f_of_Z n /\ f_isfinite y = true.
Proof.
  unfold float_of_int. destruct (f_isfinite (f_of_Z n)) eqn:Hn; split; [by intros [= <-]|by intros [-> _]|done|].
  intros [-> Hy]. congruence.
Qed.

(** Converting a JSON value gives the number it is, when that is finite. *)
Lemma number_of_spec j y :
  (forall t, j <> JStr t) ->
  finite_float (float_of_json j) = Some y <-> number_of j y /\ f_isfinite y = true.
Proof.
  intros Hj. rewrite finite_float_spec. split.
  - intros [Hy Hf]. split; [|done]. destruct j; cbn in Hy; try done; try (by injection Hy as <-; constructor).
    + apply float_of_int_spec in Hy as [-> _]. constructor.
    + by constructor.
    + by destruct (Hj s).
  - intros [Hn Hf]. split; [|done]. destruct Hn; cbn; [done| |done]. by apply float_of_int_spec.
Qed.

Lemma text_number_spec t y :
  finite_float (float_of_json (JStr t)) = Some y <-> float_of_text t = Some y /\ f_isfinite y = true.
Proof. apply finite_float_spec. Qed.

Lemma reading_spec j y :
  finite_float (float_of_json j) = Some y
  <-> (number_of j y \/ exists t, j = JStr t /\ float_of_text t = Some y) /\ f_isfinite y = true.
Proof.
  assert ((exists t, j = JStr t) \/ forall t, j <> JStr t) as [[t ->]|Hj] by (destruct j; naive_solver).
  - rewrite text_number_spec. split; [naive_solver|]. intros [[Hn|(t' & [= ->] & Ht)] Hf]; [inversion Hn|done].
  - rewrite number_of_spec by done. naive_solver.
Qed.

Lemma read_sample_spec pair s : read_sample pair = Some s <-> readable pair s.
Proof.
  unfold readable. split.
  - intros Hr. unfold read_sample in Hr. destruct pair as [| | | | |[|moment [|reading [|]]]|]; try done.
    assert ((forall t, moment <> JStr t) /\ exists a v, finite_float (float_of_json moment) = Some a
              /\ finite_float (float_of_json reading) = Some v /\ s = {| ms_at := a; ms_value := v |})
      as (Hm & a & v & Ha & Hv & ->).
    { destruct moment; try done; (split; [done|]);
        apply bind_Some in Hr as (a & Ha & Hr); apply bind_Some in Hr as (v & Hv & [= <-]); by eauto. }
    apply number_of_spec in Ha as [Ha Hfa]; [|done]. apply reading_spec in Hv as [Hv Hfv].
    by exists moment, reading.
  - intros (moment & reading & -> & Hm & Hv & Hfa & Hfv).
    pose proof (proj2 (reading_spec reading _) (conj Hv Hfv)) as Hv'.
    assert (forall t, moment <> JStr t) as Hnt by (intros t ->; inversion Hm).
    pose proof (proj2 (number_of_spec moment _ Hnt) (conj Hm Hfa)) as Hm'. cbn [read_sample].
    destruct moment; inversion Hm; subst; rewrite Hm'; cbn [mbind option_bind]; rewrite Hv'; by destruct s.
Qed.

Lemma readings_of_omap values : readings_of values (omap read_sample values).
Proof.
  induction values as [|pair values IH]; [constructor|]. cbn.
  destruct (read_sample pair) as [s|] eqn:Hs.
  - constructor; [by apply read_sample_spec|done].
  - constructor; [|done]. intros s Hr%read_sample_spec. congruence.
Qed.

Lemma readings_of_unique values readings : readings_of values readings -> readings = omap read_sample values.
Proof.
  induction 1 as [|pair values s readings Hr _ IH|pair values readings Hn _ IH]; [done|..]; cbn.
  - apply read_sample_spec in Hr. rewrite Hr. by f_equal.
  - destruct (read_sample pair) as [s|] eqn:Hs; [|done]. by apply read_sample_spec, Hn in Hs.
Qed.

Lemma parse_samples_spec answered fetched :
  parse_samples answered = Some fetched
  <-> exists series values, answer_reads answered series values (ps_samples fetched)
      /\ ps_raw_count fetched = Z.of_nat (length values) /\ ps_series_count fetched = Z.of_nat (length series).
Proof.
  unfold answer_reads. split.
  - destruct answered as [| | | | | |answered]; try done. cbn [parse_samples]. unfold text_is, text_of.
    destruct (dict_get "status" answered) as [[| | | |status| |]|] eqn:Hs; try done. cbn.
    case_bool_decide as Hsucc; [|done]. injection Hsucc as ->. cbn.
    destruct (dict_get "data" answered) as [[| | | | | |data]|] eqn:Hd; try done.
    destruct (dict_get "result" data) as [[| | | | |series|]|] eqn:Hr; try done.
    destruct series as [|[| | | | | |first] rest]; try done.
    + intros [= <-]. exists [], []. split_and!; try done; by econstructor.
    + destruct (dict_get "values" first) as [[| | | | |values|]|] eqn:Hv; intros [= <-];
        (exists (JObj first :: rest)); try (exists []; split_and!; [by econstructor|apply values_unlisted; intros ?; congruence|constructor|done..]).
      exists values. split_and!; [by econstructor|by constructor|apply readings_of_omap|done..].
  - destruct fetched as [samples raw count]. cbn.
    intros (series & values & (Hs & Hv & ->%readings_of_unique) & -> & ->).
    destruct Hs as [answered data series Hstatus Hd Hr]. cbn [parse_samples]. unfold text_is, text_of.
    rewrite Hstatus. cbn. rewrite Hd, Hr. destruct Hv as [|first rest values Hv|first rest Hv]; [done|by rewrite Hv|].
    destruct (dict_get "values" first) as [[| | | | |values|]|]; try done. by destruct (Hv values).
Qed.

(** The parsed answer's status and note are the ones its series and rows call for. *)
Lemma sample_status_spec answered series values fetched :
  answer_reads answered series values (ps_samples fetched) ->
  ps_raw_count fetched = Z.of_nat (length values) -> ps_series_count fetched = Z.of_nat (length series) ->
  answer_status series values (ps_samples fetched) (status_value (sample_status fetched))
    (status_note (sample_status fetched) (ps_series_count fetched)).
Proof.
  intros (_ & _ & Hr) Hraw Hseries. unfold sample_status. rewrite Hraw, Hseries.
  destruct (Z.ltb_spec 1 (Z.of_nat (length series))); [apply status_several; lia|].
  destruct (Z.eqb_spec (Z.of_nat (length series)) 0); [apply status_none; destruct series; [done|cbn in *; lia]|].
  assert (length series = 1%nat) as Hone by lia.
  destruct (Z.eqb_spec (Z.of_nat (length values)) 0) as [|Hv].
  { apply status_empty; [done|]. destruct values; [done|cbn in *; lia]. }
  destruct (ps_samples fetched); [apply status_discarded|by apply status_sampled]; try done. by intros ->.
Qed.

(** Only readings that are numbers are kept. *)
Lemma readings_finite values readings : readings_of values readings -> Forall finite_sample readings.
Proof. induction 1 as [|? ? ? ? (? & ? & _ & _ & _ & Ha & Hv)|]; [constructor|constructor|]; done. Qed.

Lemma max_float_peak shown : Forall finite_sample shown -> is_peak shown (max_float (List.map ms_value shown)).
Proof.
  intros Hf. destruct shown as [|s shown]; [done|].
  destruct (max_float_spec (List.map ms_value (s :: shown))) as [Hin Hall]; [|done|].
  - rewrite List.Forall_map. eapply Forall_impl; [exact Hf|]. by intros ? [_ ?].
  - split; [exact Hin|]. by rewrite List.Forall_map in Hall.
Qed.

(** * The grid and the trimmed result *)

(** The grid ends with the window, lies inside it, and loses less than a step at its head. *)
Lemma aligned_inside start stop :
  start <= stop ->
  let grid_start := stop - (stop - start) / 15000000 * 15000000 in
  aligned_metric_window start stop = (grid_start, stop, 15000000)
  /\ start <= grid_start /\ grid_start - start < 15000000 /\ grid_start <= stop
  /\ (stop - grid_start) / 15000000 = (stop - start) / 15000000.
Proof.
  intros Hle grid_start. split; [done|].
  pose proof (Z.div_mod (stop - start) 15000000 ltac:(lia)).
  pose proof (Z.mod_pos_bound (stop - start) 15000000 ltac:(lia)).
  assert (0 <= (stop - start) / 15000000) by (apply Z.div_pos; lia).
  split_and!; [lia..|]. unfold grid_start. rewrite Z.sub_sub_distr, Z.sub_diag, Z.add_0_l. by rewrite Z.div_mul.
Qed.

(** Trimming leaves the most samples the byte bound admits. *)
Lemma metric_trimmed arguments promql start stop values fetched :
  let readings := ps_samples fetched in
  let kept := newest MAX_METRIC_SAMPLES readings in
  let top := Z.min MAX_METRIC_SAMPLES (Z.of_nat (length readings)) in
  let result m := metric_result arguments promql start stop values readings
                    (status_value (sample_status fetched)) m (max_float (List.map ms_value kept)) in
  let q := trim_to_bytes (metric_payload arguments fetched kept promql start stop 15000000)
             "samples" (List.map sample_row kept) "sample_count" in
  ps_raw_count fetched = Z.of_nat (length values) ->
  exists m, 0 <= m <= top
    /\ dict_get "samples" q = Some (JArr (List.map sample_row (last_rows m readings)))
    /\ dict_get "sample_count" q = Some (JInt m)
    /\ (fits (result m) = true \/ m = 0) /\ (fits (result m) = true -> q = result m)
    /\ forall k, m < k <= top -> fits (result k) = false.
Proof.
  intros readings kept top result q Hraw. set (total := Z.of_nat (length readings)).
  assert (kept = last_rows MAX_METRIC_SAMPLES readings) as Hlast by done.
  assert (Z.of_nat (length kept) = top) as Hkept.
  { rewrite Hlast. unfold top, last_rows. rewrite length_drop. unfold MAX_METRIC_SAMPLES. lia. }
  assert (forall k, (k <= length kept)%nat -> drop k kept = last_rows (top - Z.of_nat k) readings) as Hdrop.
  { intros k Hk. pose proof Hk as Hk'. rewrite Hlast in Hk |- *. rewrite drop_last_rows by done. f_equal. rewrite <- Hlast. lia. }
  assert (top <= total) as Htop by (unfold top, total; lia).
  clearbody kept top.
  set (rows := List.map sample_row kept).
  assert (length rows = length kept) as Hrows by apply List.length_map.
  set (shape rows b := [("template", JStr (value (qm_template arguments))); ("service", JStr (qm_service arguments));
    ("sample_count", JInt (Z.of_nat (length rows))); ("max_value", JFloat (float_repr (max_float (List.map ms_value kept))));
    ("truncated", JBool b); ("readings_discarded", JInt (Z.of_nat (length values) - Z.of_nat (length readings)));
    ("status", JStr (status_value (sample_status fetched))); ("promql", JStr promql);
    ("query_window_start", JStr (isoformat start)); ("query_window_end", JStr (isoformat stop));
    ("query_step_seconds", JInt 15); ("grid_points", JInt ((stop - start) / 15000000 + 1));
    ("samples", JArr rows)] : jobject).
  destruct (trim_to_bytes_longest "samples" "sample_count" ltac:(distinct) shape ltac:(done)
              (metric_payload arguments fetched kept promql start stop 15000000) rows
              (bool_decide (length kept < length readings)%nat))
    as (n & Hn & Hr & Hc & Hend & Hq & Hlong).
  { unfold metric_payload, shape. rewrite Hraw. reflexivity. }
  { distinct. }
  assert (forall k, (k <= length rows)%nat -> drop k rows = List.map sample_row (last_rows (top - Z.of_nat k) readings)) as Hd.
  { intros k Hk. unfold rows. rewrite skipn_map. f_equal. apply Hdrop. by rewrite <- Hrows. }
  assert (forall k, (k <= length rows)%nat ->
    shape (drop k rows) (cut_after (bool_decide (length kept < length readings)%nat) k) = result (top - Z.of_nat k)) as Hsame.
  { intros k Hk. unfold shape, result, metric_result. rewrite length_drop, Hd by done.
    replace (Z.of_nat (length rows - k)) with (top - Z.of_nat k) by lia. do 7 f_equal.
    destruct k; cbn [cut_after]; [|f_equal; symmetry; apply Z.ltb_lt; lia].
    rewrite Z.sub_0_r, <- Hkept. case_bool_decide; do 3 f_equal; symmetry; [apply Z.ltb_lt|apply Z.ltb_ge]; lia. }
  rewrite (Hsame n Hn) in Hend, Hq. rewrite length_drop in Hc. rewrite Hd in Hr by done. exists (top - Z.of_nat n).
  split_and!; [lia|lia|done|etransitivity; [exact Hc|]; do 2 f_equal; lia|destruct Hend; [by left|right; lia]|done|].
  intros k Hk. specialize (Hlong (Z.to_nat (top - k)) ltac:(lia)). rewrite Hsame in Hlong by lia.
  by replace (top - Z.of_nat (Z.to_nat (top - k))) with k in Hlong by lia.
Qed.

Section honest.
Context (http_get : string -> Z -> http_answer).

(** What is shown of readable [readings], at one go: the check's own payload. *)
Lemma metric_check_reads arguments scope base_url timeout elapsed_ms start stop text answered fetched :
  let promql := metric_query (qm_template arguments) (qm_service arguments) (sc_incident_id scope) in
  let grid_start := stop - (stop - start) / 15000000 * 15000000 in
  let kept := newest MAX_METRIC_SAMPLES (ps_samples fetched) in
  let p := trim_to_bytes (metric_payload arguments fetched kept promql grid_start stop 15000000)
             "samples" (List.map sample_row kept) "sample_count" in
  safe_service_name (qm_service arguments) = true ->
  qm_window_start arguments = Some start -> qm_window_end arguments = Some stop ->
  http_get (query_url base_url promql grid_start stop 15000000) timeout = Body text ->
  @json_loads Unhooked text = Ok answered -> parse_samples answered = Some fetched ->
  forall m, 0 <= m <= Z.of_nat (length kept) ->
  dict_get "samples" p = Some (JArr (List.map sample_row (last_rows m (ps_samples fetched)))) ->
  let peak := max_float (List.map ms_value (last_rows m (ps_samples fetched))) in
  let q := dict_set "max_value" (JFloat (float_repr peak)) p in
  run_metric_check http_get arguments scope base_url timeout elapsed_ms
  = Ok (executed_check METRIC "query_metric" (metric_summary arguments q fetched peak) q elapsed_ms).
Proof.
  intros promql grid_start kept p Hsafe Hstart Hstop Hget Hload Hparse m Hm Hr peak q.
  unfold run_metric_check. rewrite Hsafe. cbn [negb]. unfold fetch_metric_samples.
  rewrite Hstart, Hstop. cbn [asserted mbind result_bind].
  change (aligned_metric_window start stop) with (grid_start, stop, 15000000). cbv iota beta. fold promql.
  unfold query_prometheus. rewrite Hget, Hload. cbn [asserted mbind result_bind]. rewrite Hparse.
  cbn [asserted mbind result_bind]. fold kept. fold p. unfold rows_at. rewrite Hr. cbn [mbind result_bind].
  assert (surviving kept (List.map sample_row (last_rows m (ps_samples fetched))) = last_rows m (ps_samples fetched)) as Hs.
  { unfold surviving, kept, newest, last_rows in *. rewrite List.length_map, drop_drop. f_equal.
    rewrite !length_drop in *. lia. }
  rewrite Hs. done.
Qed.

(** What is shown of an answer's readable rows: the newest, as many as sixty and the byte
    bound leave, their peak, and the counts, marker, status and summary that go with it. *)
Definition metric_shows (arguments : QueryMetricArguments) (promql : string) (grid_start stop : Z)
    (series values : list json) (readings : list MetricSample) (o : CheckOutcome) : Prop :=
  exists m status note first_peak peak,
    co_outcome o = EXECUTED
    /\ answer_status series values readings status note
    /\ let total := Z.of_nat (length readings) in
       let discarded := Z.of_nat (length values) - total in
       let shown := last_rows m readings in
       let result k peak := metric_result arguments promql grid_start stop values readings status k peak in
       0 <= m <= Z.min 60 total
       /\ Forall finite_sample shown /\ is_peak shown peak
       /\ is_peak (last_rows 60 readings) first_peak
       /\ (forall k, m < k <= Z.min 60 total -> fits (result k first_peak) = false)
       /\ (fits (result m first_peak) = true \/ m = 0)
       /\ dict_get "samples" (co_payload o) = Some (JArr (List.map sample_row shown))
       /\ dict_get "sample_count" (co_payload o) = Some (JInt m)
       /\ dict_get "max_value" (co_payload o) = Some (JFloat (float_repr peak))
       /\ (fits (result m first_peak) = true ->
           co_payload o = result m peak
           /\ co_summary o
              = value (qm_template arguments) +:+ " for " +:+ qm_service arguments +:+ ": " +:+ str_of_Z m
                +:+ " samples, peak " +:+ float_repr peak
                +:+ (if m <? total then " (kept the newest " +:+ str_of_Z m +:+ " of " +:+ str_of_Z total +:+ ")" else "")
                +:+ (if discarded =? 0 then "" else " (" +:+ str_of_Z discarded +:+ " unreadable, discarded)")
                +:+ note).

Definition metric_failed (outcome : ToolOutcome) (reason : ReasonCode) (note : string) : res CheckOutcome :=
  Ok (failed_check METRIC "query_metric" outcome reason note).

Notation unreadable := (metric_failed ERROR TOOL_ERROR "Prometheus returned something this tool cannot read").

(** The check on an answer that was parsed. *)
Lemma parsed_shows arguments scope base_url timeout elapsed_ms start stop text answered series values readings :
  let promql := metric_query (qm_template arguments) (qm_service arguments) (sc_incident_id scope) in
  let grid_start := stop - (stop - start) / 15000000 * 15000000 in
  safe_service_name (qm_service arguments) = true ->
  qm_window_start arguments = Some start -> qm_window_end arguments = Some stop ->
  http_get (query_url base_url promql grid_start stop 15000000) timeout = Body text ->
  @json_loads Unhooked text = Ok answered -> answer_reads answered series values readings ->
  exists o, run_metric_check http_get arguments scope base_url timeout elapsed_ms = Ok o
    /\ metric_shows arguments promql grid_start stop series values readings o.
Proof.
  intros promql grid_start Hsafe Hstart Hstop Hget Hload Hreads.
  set (fetched := {| ps_samples := readings; ps_raw_count := Z.of_nat (length values);
                     ps_series_count := Z.of_nat (length series) |}).
  assert (parse_samples answered = Some fetched) as Hparse.
  { apply parse_samples_spec. by exists series, values. }
  destruct (metric_trimmed arguments promql grid_start stop values fetched eq_refl)
    as (m & Hm & Hr & Hc & Hend & Hq & Hlong). cbn [ps_samples fetched] in *.
  change MAX_METRIC_SAMPLES with 60 in Hm, Hlong.
  pose proof (metric_check_reads arguments scope base_url timeout elapsed_ms start stop text answered fetched
                Hsafe Hstart Hstop Hget Hload Hparse m) as Hrun.
  assert (Forall finite_sample readings) as Hfin by (eapply readings_finite, Hreads).
  eexists. split; [apply Hrun; [unfold newest; cbn [ps_samples fetched]; rewrite length_drop; unfold MAX_METRIC_SAMPLES in *; lia|done]|].
  eexists m, (status_value (sample_status fetched)), (status_note (sample_status fetched) (ps_series_count fetched)), _, _.
  cbn [co_outcome co_payload co_summary executed_check].
  split; [done|]. split; [by eapply (sample_status_spec answered series values fetched)|].
  split_and!; try done; try lia.
  - by apply Forall_drop.
  - apply max_float_peak. by apply Forall_drop.
  - apply max_float_peak. by apply Forall_drop.
  - by rewrite dict_get_set_ne.
  - by rewrite dict_get_set_ne.
  - apply dict_get_set_eq.
  - intros Hfit. specialize (Hq Hfit). unfold fetched, grid_start, promql in *. cbn [ps_samples] in *. rewrite Hq.
    split; [reflexivity|].
    unfold metric_summary, truncated_note, truncated_of, int_at. reflexivity.
Qed.

(** The check on what the query gave. *)
Lemma check_of_query arguments scope base_url timeout elapsed_ms start stop :
  let promql := metric_query (qm_template arguments) (qm_service arguments) (sc_incident_id scope) in
  let grid_start := stop - (stop - start) / 15000000 * 15000000 in
  let checked := run_metric_check http_get arguments scope base_url timeout elapsed_ms in
  safe_service_name (qm_service arguments) = true ->
  qm_window_start arguments = Some start -> qm_window_end arguments = Some stop ->
  match query_prometheus http_get base_url promql grid_start stop 15000000 timeout with
  | Err QueryTimeout => checked = metric_failed TIMEOUT TOOL_TIMEOUT "Prometheus did not answer in time"
  | Err QueryUnreachable => checked = metric_failed UNAVAILABLE TOOL_UNAVAILABLE "Prometheus is not reachable"
  | Err (QueryRaised e) => checked = Err e
  | Err QueryUnreadable | Ok None => checked = unreadable
  | Ok (Some _) => True
  end.
Proof.
  intros promql grid_start checked Hsafe Hstart Hstop. unfold checked, run_metric_check. rewrite Hsafe. cbn [negb].
  unfold fetch_metric_samples. rewrite Hstart, Hstop. cbn [asserted mbind result_bind].
  change (aligned_metric_window start stop) with (grid_start, stop, 15000000). cbv iota beta. fold promql.
  by destruct (query_prometheus _ _ _ _ _ _ _) as [[]|[]].
Qed.

(** C33: the metric check asks for a grid that ends with the window and stays inside it,
    and every way the request can end has its outcome.  Of an answer in the expected
    shape it shows the newest readable rows of the first series, where a row is readable
    when its moment and its reading are finite numbers: as many as there are, up to
    sixty, unless the byte bound leaves fewer, and then one more would not have fitted.
    The peak is one of the readings shown and none shown exceeds it; the unreadable rows
    are counted, what was left out is said, and status and summary tell apart several
    series, none, one without rows and one without a readable row.  An answer in any
    other shape, or that is no JSON, a server that cannot be reached and one that is too
    late are failed checks, each with its reason.  A body that is no UTF-8, an integer
    of too many digits and any other exception of the request are raised. *)
Theorem metric_check_honest arguments scope base_url timeout elapsed_ms start stop :
  let promql := metric_query (qm_template arguments) (qm_service arguments) (sc_incident_id scope) in
  let grid_start := stop - (stop - start) / 15000000 * 15000000 in
  let checked := run_metric_check http_get arguments scope base_url timeout elapsed_ms in
  safe_service_name (qm_service arguments) = true ->
  qm_window_start arguments = Some start -> qm_window_end arguments = Some stop -> start <= stop ->
  start <= grid_start /\ grid_start - start < 15000000 /\ grid_start <= stop
  /\ match http_get (query_url base_url promql grid_start stop 15000000) timeout with
     | Body text =>
         match @json_loads Unhooked text with
         | Ok answered =>
             (forall series values readings, answer_reads answered series values readings ->
              exists o, checked = Ok o /\ metric_shows arguments promql grid_start stop series values readings o)
             /\ ((forall series values readings, ~ answer_reads answered series values readings) -> checked = unreadable)
         | Err JSONDecodeError => checked = unreadable
         | Err BadNumber => checked = Err ValueError
         | Err BeyondLatin1 => True
         end
     | BodyNotUtf8 => checked = Err (OtherError "UnicodeDecodeError")
     | TimedOut => checked = metric_failed TIMEOUT TOOL_TIMEOUT "Prometheus did not answer in time"
     | Unreachable => checked = metric_failed UNAVAILABLE TOOL_UNAVAILABLE "Prometheus is not reachable"
     | OtherFailure e => checked = Err e
     end.
Proof.
  intros promql grid_start checked Hsafe Hstart Hstop Hle.
  destruct (aligned_inside start stop Hle) as (Hgrid & H1 & H2 & H3 & H4).
  do 3 (split; [done|]).
  pose proof (check_of_query arguments scope base_url timeout elapsed_ms start stop Hsafe Hstart Hstop) as Hcheck.
  cbv zeta in Hcheck. fold promql grid_start checked in Hcheck. unfold query_prometheus in Hcheck.
  destruct (http_get _ timeout) as [text| | | |e] eqn:Hget; try exact Hcheck.
  destruct (@json_loads Unhooked text) as [answered|[]] eqn:Hload; try done. split.
  - intros series values readings Hreads. by eapply parsed_shows.
  - intros Hnone. destruct (parse_samples answered) as [fetched|] eqn:Hp; [|exact Hcheck].
    apply parse_samples_spec in Hp as (series & values & Hreads & _). by destruct (Hnone series values _ Hreads).
Qed.
End honest.
