(* ===== verification/Runbooks.v ===== *)
(** Runbook retrieval (runbooks.py, pinecone_runbooks.py) and the registry over a run's
    own backends (live_setup.py, telemetry.py).

    The database engine and Pinecone are parameters: what a [MATCH] query and a
    semantic search answer.  What the theorems use of SQL is stated as laws. *)
From Stdlib Require Import ZArith Lia.
From Stdlib Require Import SpecFloat.
From stdpp Require Import prelude strings list sorting.
From S2P Require Import Prelude PyText Float64 Numbers Tools Domain Policy World Evidence Wrappers LiveSetup JsonText JsonRoundTrip IsoTime Telemetry TelemetryProps Prometheus.
Local Open Scope Z_scope.

(** * The lexical index (runbooks.py) *)

Definition TOPIC_QUERIES (topic : RunbookTopic) : string :=
  match topic with
  | GATEWAY_ERRORS => "gateway OR error OR errors"
  | GATEWAY_LATENCY => "latency OR p95 OR slow OR wait"
  | DOWNSTREAM_TIMEOUTS => "timeout OR timeouts OR retry OR downstream"
  | RESOURCE_POOL_PRESSURE => "pool OR queue OR pressure OR slot"
  | RECENT_CONFIG_CHANGES => "configuration OR rollout OR change OR changed"
  end.

(** A row of the [runbook] table. *)
Record CorpusRow := {
  cr_passage_id : string;
  cr_source_version : string;
  cr_content : string;
}.

Record RunbookIndex := {
  ri_corpus_version : option string;
  ri_rows : list CorpusRow;
}.

(** [SELECT ..., bm25(runbook) AS rank ... WHERE runbook MATCH :query ORDER BY rank LIMIT
    :limit] over the rows; [Err tt] is a [sqlite3.Error]. *)
Class Fts5 := fts5_select : list CorpusRow -> string -> Z -> result unit (list (CorpusRow * f64)).

(** A query answers rows of its table, at most [limit] of them, the least rank first. *)
Class Fts5Laws `{Fts5} := {
  fts5_rows : forall rows query limit found,
    fts5_select rows query limit = Ok found -> Forall (fun hit => hit.1 ∈ rows) found;
  fts5_limit : forall rows query limit found,
    fts5_select rows query limit = Ok found -> 0 <= limit -> Z.of_nat (length found) <= limit;
  fts5_ordered : forall rows query limit found,
    fts5_select rows query limit = Ok found -> StronglySorted (fun a b => f_gt a.2 b.2 = false) found;
}.

(** A passage bound by name; the corpus is text. *)
Definition corpus_row (passage : json) : res CorpusRow :=
  match passage with
  | JObj d =>
      match text_of "passage_id" d, text_of "source_version" d, text_of "content" d with
      | Some id, Some version, Some content =>
          Ok {| cr_passage_id := id; cr_source_version := version; cr_content := content |}
      | _, _, _ => Err (OtherError "sqlite3.ProgrammingError")
      end
  | _ => Err (OtherError "sqlite3.ProgrammingError")
  end.

(** [str(raw)] of a version that is text or a number, [None] for none. *)
Definition index_version (loaded : jobject) : res (option string) :=
  match dict_get "corpus_version" loaded with
  | None | Some JNull => Ok None
  | Some (JStr s) => Ok (Some s)
  | Some (JInt z) => Ok (Some (str_of_Z z))
  | Some _ => Err OutsideTextModel
  end.

(** What [executemany] iterates over; the keys of an object and the characters of a text
    are texts, to which no name can be bound. *)
Definition bound_rows (passages : json) : res (list json) :=
  match passages with
  | JArr l => Ok l
  | JObj d => Ok ((fun kv => JStr kv.1) <$> d)
  | JStr s => Ok ((fun c => JStr (String c "")) <$> String.list_ascii_of_string s)
  | _ => Err TypeError
  end.

(** [RunbookIndex.__init__] *)
Definition open_index (corpus : json) : res RunbookIndex :=
  match corpus with
  | JObj loaded =>
      version ← index_version loaded;
      match dict_get "passages" loaded with
      | Some passages =>
          passages ← bound_rows passages;
          rows ← mapM corpus_row passages;
          Ok {| ri_corpus_version := version; ri_rows := rows |}
      | None => Err KeyError
      end
  | _ => Err (OtherError "AttributeError")
  end.

(** * The semantic index (pinecone_runbooks.py) *)

Definition PINECONE_INDEX_NAME : string := "causalops-runbooks".
Definition PINECONE_NAMESPACE : string := "runbooks".

Definition TOPIC_SEMANTIC_QUERIES (topic : RunbookTopic) : string :=
  match topic with
  | GATEWAY_ERRORS => "gateway error rate spike, narrow versus broad, cause and triage"
  | GATEWAY_LATENCY => "elevated gateway latency without a matching error spike, slow requests"
  | DOWNSTREAM_TIMEOUTS => "downstream service timeouts and retry amplification"
  | RESOURCE_POOL_PRESSURE => "connection or worker pool exhaustion, queue wait time, pool pressure"
  | RECENT_CONFIG_CHANGES => "recent configuration or rollout change correlated with an incident"
  end.

Record SearchHit := {
  sh_id : string;
  sh_score : f64;
  sh_fields : list (string * string);
}.

Inductive pinecone_failure := PineconeException | PineconeBug (e : exn).

(** The SDK: opening an index with a key, and searching it: namespace, how many, text. *)
Class Pinecone := {
  pinecone_open : string -> string -> result pinecone_failure unit;
  pinecone_search : string -> Z -> string -> result pinecone_failure (list SearchHit);
}.

Definition PineconeRunbookIndexError : exn := OtherError "PineconeRunbookIndexError".

Section search.
Context `{Host}.

Definition index_passages (topic : RunbookTopic) (limit : Z) `{Fts5} (index : RunbookIndex)
    : result unit (res (list RunbookPassage)) :=
  match fts5_select (ri_rows index) (TOPIC_QUERIES topic) limit with
  | Err e => Err e
  | Ok found =>
      Ok (mapM (fun hit : CorpusRow * f64 =>
            check_passage {| rp_passage_id := cr_passage_id hit.1; rp_content := cr_content hit.1;
                             rp_source_version := cr_source_version hit.1;
                             rp_content_hash := digest_text (cr_content hit.1);
                             rp_score := float_repr (SFopp hit.2); rp_retrieval_mode := FTS5_LEXICAL |}) found)
  end.

Definition unavailable_search (mode : RetrievalMode) (elapsed_ms : Z) : RunbookCheckOutcome := {|
  ro_outcome := UNAVAILABLE; ro_passages := []; ro_retrieval_mode := mode;
  ro_reason_code := Some TOOL_UNAVAILABLE; ro_duration_ms := elapsed_ms |}.

Definition executed_search (mode : RetrievalMode) (passages : list RunbookPassage) (elapsed_ms : Z)
    : RunbookCheckOutcome := {|
  ro_outcome := EXECUTED; ro_passages := passages; ro_retrieval_mode := mode;
  ro_reason_code := None; ro_duration_ms := elapsed_ms |}.

Definition run_runbook_search `{Fts5} (arguments : SearchRunbooksArguments) (index : RunbookIndex) (elapsed_ms : Z)
    : res RunbookCheckOutcome :=
  match index_passages (sr_topic arguments) (sr_limit arguments) index with
  | Err _ => Ok (unavailable_search FTS5_LEXICAL elapsed_ms)
  | Ok passages => passages ← passages; Ok (executed_search FTS5_LEXICAL passages elapsed_ms)
  end.

(** [PineconeRunbookIndex.__init__] without a client of the caller's: the namespace. *)
Definition open_pinecone `{Pinecone} (environment : Environment) : res string :=
  let api_key := py_strip (env_get "PINECONE_API_KEY" "" environment) in
  if decide (api_key = "") then Err PineconeRunbookIndexError
  else match pinecone_open api_key PINECONE_INDEX_NAME with
       | Ok _ => Ok PINECONE_NAMESPACE
       | Err PineconeException => Err PineconeRunbookIndexError
       | Err (PineconeBug e) => Err e
       end.

Definition hit_passage (hit : SearchHit) : res RunbookPassage :=
  match dict_get "content" (sh_fields hit) with
  | None => Err KeyError
  | Some content =>
      check_passage {| rp_passage_id := sh_id hit; rp_content := content;
                       rp_source_version := default "" (dict_get "source_version" (sh_fields hit));
                       rp_content_hash := digest_text content; rp_score := float_repr (sh_score hit);
                       rp_retrieval_mode := PINECONE_SEMANTIC |}
  end.

Definition run_runbook_search_pinecone `{Pinecone} (arguments : SearchRunbooksArguments) (namespace : string)
    (elapsed_ms : Z) : res RunbookCheckOutcome :=
  match pinecone_search namespace (sr_limit arguments) (TOPIC_SEMANTIC_QUERIES (sr_topic arguments)) with
  | Err PineconeException => Ok (unavailable_search PINECONE_SEMANTIC elapsed_ms)
  | Err (PineconeBug e) => Err e
  | Ok hits => passages ← mapM hit_passage hits; Ok (executed_search PINECONE_SEMANTIC passages elapsed_ms)
  end.

(** * The registry over a run's backends *)

Section registry.
Context `{Fts5} `{Pinecone} (http_get : nat -> string -> Z -> http_answer).
Context (files : nat -> RunFiles) (elapsed_ms : nat -> Z) (runbook_corpus : json).

(** The search backend the environment selects, opened. *)
Definition select_search (environment : Environment) : res (nat -> SearchRunbooksArguments -> IncidentScope -> res RunbookCheckOutcome) :=
  if rag_experiment_enabled environment then
    index ← open_pinecone environment;
    Ok (fun n arguments _ => run_runbook_search_pinecone arguments index (elapsed_ms n))
  else
    index ← open_index runbook_corpus;
    Ok (fun n arguments _ => run_runbook_search arguments index (elapsed_ms n)).

(** [_build_tool_registry]; a run's files are what they are when a check reads them. *)
Definition run_backends (budgets : Budgets) search : Backends := {|
  Wrappers.run_metric := fun n arguments scope =>
    run_metric_check (http_get n) arguments scope DEFAULT_PROMETHEUS_URL (tool_timeout_seconds budgets) (elapsed_ms n);
  run_logs := fun n arguments _ => run_logs_check arguments (files n) (elapsed_ms n);
  run_changes := fun n arguments _ => run_changes_check arguments (files n) (elapsed_ms n);
  run_topology := fun n arguments _ => run_topology_check arguments (files n) (elapsed_ms n);
  run_search := search |}.

Definition build_tool_registry (budgets : Budgets) (environment : Environment) : res (list (ToolName * ToolWrapper)) :=
  search ← select_search environment;
  Ok (dispatch_registry (run_backends budgets search)).

(** [_registered_check_runner(...).run], the older seam that knows no search. *)
Definition registered_check_runner (prometheus_url : string) (timeout_seconds : Z) (n : nat)
    (proposal : ToolProposal) (scope : IncidentScope) : res CheckOutcome :=
  match pr_arguments proposal with
  | AMetric a => run_metric_check (http_get n) a scope prometheus_url timeout_seconds (elapsed_ms n)
  | ALogs a => run_logs_check a (files n) (elapsed_ms n)
  | AChanges a => run_changes_check a (files n) (elapsed_ms n)
  | ATopology a => run_topology_check a (files n) (elapsed_ms n)
  | ARunbooks _ => Err ValueError
  end.
End registry.

(** * Lemmas: searching *)

Lemma mapM_Ok_Forall2 {A B} (f : A -> res B) l l' :
  mapM f l = Ok l' -> Forall2 (fun a b => f a = Ok b) l l'.
Proof.
  revert l'. induction l as [|a l IH]; intros l' Hm; cbn [mapM] in Hm; [by injection Hm as <-|].
  destruct (f a) as [b|e] eqn:Hf; [|done]. cbn in Hm.
  destruct (mapM f l) as [bs|e]; [|done]. injection Hm as <-. constructor; [done|by apply IH].
Qed.

Lemma mapM_total {A B} (f : A -> res B) l :
  Forall (fun a => exists b, f a = Ok b) l -> exists l', mapM f l = Ok l'.
Proof.
  induction 1 as [|a l (b & Hb) _ (l' & IH)]; [by eexists|].
  cbn [mapM]. rewrite Hb. cbn. rewrite IH. by eexists.
Qed.

(** A passage says what a row of the corpus says, under its hash. *)
Definition passage_of (rows : list CorpusRow) (p : RunbookPassage) : Prop :=
  exists row, row ∈ rows /\ rp_passage_id p = cr_passage_id row /\ rp_source_version p = cr_source_version row
    /\ rp_content p = cr_content row /\ rp_content_hash p = digest_text (cr_content row).

Definition short_rows (index : RunbookIndex) : Prop :=
  Forall (fun row => max_length 800 (cr_content row) = true) (ri_rows index).

(** A search of a corpus of short passages returns: at most the limit, each of the
    corpus, or nothing and the reason. *)
Lemma search_returns `{Fts5Laws} arguments index elapsed_ms :
  short_rows index ->
  exists o, run_runbook_search arguments index elapsed_ms = Ok o
    /\ ro_duration_ms o = elapsed_ms /\ ro_retrieval_mode o = FTS5_LEXICAL
    /\ Forall (passage_of (ri_rows index)) (ro_passages o)
    /\ (0 <= sr_limit arguments -> Z.of_nat (length (ro_passages o)) <= sr_limit arguments)
    /\ (ro_outcome o = EXECUTED \/ ro_outcome o = UNAVAILABLE /\ ro_passages o = []).
Proof.
  intros Hshort. unfold run_runbook_search, index_passages.
  destruct (fts5_select _ _ _) as [found|[]] eqn:Hfound; cbn [mbind result_bind].
  2: { eexists. split; [done|]. cbn. split_and!; try done; auto. }
  pose proof (fts5_rows _ _ _ _ Hfound) as Hrows. pose proof (fts5_limit _ _ _ _ Hfound) as Hlen.
  match goal with |- context [mapM ?f found] => set (mk := f) end.
  destruct (mapM_total mk found) as (passages & Hp).
  { rewrite Forall_forall in Hrows |- *. intros hit Hin. apply Hrows in Hin.
    unfold short_rows in Hshort. rewrite Forall_forall in Hshort. apply Hshort in Hin.
    unfold mk, check_passage. cbn [rp_content]. rewrite Hin. by eexists. }
  rewrite Hp. cbn [mbind result_bind]. eexists. split; [done|]. cbn [executed_search ro_duration_ms ro_retrieval_mode ro_passages ro_outcome].
  apply mapM_Ok_Forall2 in Hp. rewrite <- (Forall2_length _ _ _ Hp). split_and!; try done; [|auto].
  rewrite Forall_forall. intros p (n & Hn)%list_elem_of_lookup.
  destruct (Forall2_lookup_r _ _ _ _ _ Hp Hn) as (hit & Hhit & Hmk).
  apply list_elem_of_lookup_2 in Hhit. rewrite Forall_forall in Hrows. apply Hrows in Hhit.
  unfold mk, check_passage in Hmk. cbn [rp_content] in Hmk.
  destruct (require _); [|done]. injection Hmk as <-. by exists hit.1.
Qed.
End search.

(** * Lemmas: a check through the registry *)

(** An outcome [dispatch] can settle, and what its evidence then keeps to. *)
Definition accepted (o : check_result) : Prop :=
  match o with
  | Checked o =>
      0 <= co_duration_ms o
      /\ (co_outcome o = EXECUTED -> fits (co_payload o) = true /\ str_len (co_summary o) <= 400)
  | Retrieved o => 0 <= ro_duration_ms o
  end.

Definition read (text : option string) : Prop := exists j, read_json_file text = Ok j.

Lemma changes_accepted arguments files elapsed_ms :
  lc_window_start arguments <> None -> lc_window_end arguments <> None -> read (rf_changes files) -> 0 <= elapsed_ms ->
  exists o, run_changes_check arguments files elapsed_ms = Ok o /\ accepted (Checked o).
Proof.
  intros Hstart Hend [j Hread] Hms. unfold run_changes_check.
  destruct (lc_window_start arguments) as [start|]; [|done]. destruct (lc_window_end arguments) as [stop|]; [|done].
  rewrite Hread. cbn [asserted mbind result_bind].
  destruct j as [[| | | | |loaded|]|]; try (eexists; split; [reflexivity|]; by split).
  set (found := List.filter _ loaded). destruct (sort_changes_spec found) as (Hp & _ & _).
  destruct (rebuilt_changes_fit arguments found (sort_changes found) Hp) as (n & Hr & _ & _ & Hfit).
  unfold rows_at. rewrite Hr. cbn [mbind result_bind]. rewrite Hfit. cbn [negb].
  eexists. split; [reflexivity|]. split; [done|]. intros _. split; [done|]. apply clamp_summary_bound.
Qed.

Lemma array_length l : (length l <= String.length (json_dumps (JArr l)))%nat.
Proof.
  change (json_dumps (JArr l)) with ("[" +:+ py_join ("," +:+ " ") (List.map json_dumps l) +:+ "]").
  rewrite !string_length_app. change (String.length "[") with 1%nat.
  destruct (decide (l = [])) as [->|Hne]; [cbn; lia|].
  assert (List.map json_dumps l <> []) as Hne' by (by destruct l).
  pose proof (join_weight String.length ("," +:+ " ") _ string_length_app eq_refl Hne') as Hj.
  assert (2 * length l <= weight String.length (List.map json_dumps l))%nat; [|lia].
  clear. induction l as [|j l IH]; cbn; lia.
Qed.

(** A result that fits the byte bound has no more rows than bytes. *)
Lemma rows_fit k l p : dict_get k p = Some (JArr l) -> fits p = true -> Z.of_nat (length l) <= MAX_RESULT_BYTES.
Proof.
  intros Hg. unfold fits, str_len. rewrite Z.leb_le. intros Hfit.
  assert (p <> []) as Hne by (by destruct p). rewrite length_object in Hfit by done.
  enough (length l <= weight String.length (member_text " " " " <$> p))%nat by lia.
  clear Hne Hfit. induction p as [|[k' v] p IH]; [done|]. cbn [dict_get] in Hg. cbn [fmap list_fmap weight].
  case_decide; [|specialize (IH Hg); lia]. injection Hg as ->. cbn [member_text].
  pose proof (array_length l) as Hl. rewrite !string_length_app.
  change (dumps false ("," +:+ " ") (":" +:+ " ") (JArr l)) with (json_dumps (JArr l)). lia.
Qed.

Lemma topology_accepted arguments files elapsed_ms :
  read (rf_topology files) -> 0 <= elapsed_ms ->
  exists o, run_topology_check arguments files elapsed_ms = Ok o /\ accepted (Checked o).
Proof.
  intros [j Hread] Hms. unfold run_topology_check. rewrite Hread. cbn [mbind result_bind].
  destruct j as [[| | | | | |loaded]|]; try (eexists; split; [reflexivity|]; by split).
  destruct (topology_trimmed (list_at "services" loaded) (list_at "edges" loaded)) as (n & m & t & Hq & Hfit & _).
  rewrite Hq, Hfit. cbn [negb]. eexists. split; [reflexivity|]. split; [done|]. intros _. split; [done|].
  cbn [co_summary executed_check].
  unshelve epose proof (rows_fit "edges" (drop n (list_at "edges" loaded)) _ _ Hfit) as Hrows; [done|].
  change (int_at "edge_count" _) with (Z.of_nat (length (drop n (list_at "edges" loaded)))).
  destruct (str_of_Z_digits (Z.of_nat (length (drop n (list_at "edges" loaded)))) 5) as (_ & _ & Hdigits);
    [unfold MAX_RESULT_BYTES in *; lia|lia|].
  unfold str_len in *. rewrite !string_length_app.
  assert (String.length (if truncated_of (topology_result (drop m (list_at "services" loaded)) (drop n (list_at "edges" loaded)) t)
                         then " (truncated)" else "") <= 12)%nat by (destruct truncated_of; cbn; lia).
  change (String.length " service edges in this incident") with 31%nat. lia.
Qed.

(** * Lemmas: settling *)

Section settling.
Context `{Pydantic} `{Clocks} `{FreshIds}.

Definition shows (o : check_result) (dr : DispatchResult) : Prop :=
  match o with
  | Checked o => dr_passages dr = [] /\ forall e, dr_evidence dr = Some e -> ev_payload e = co_payload o
                   /\ ev_summary e = co_summary o /\ co_outcome o = EXECUTED
  | Retrieved o => dr_evidence dr = None /\ dr_passages dr = ro_passages o
  end.

Lemma settle_accepted scope r o d :
  dict_get (rc_receipt_id r) (lg_receipts (d_ledger d)) = Some r -> rc_state r = RESERVED -> accepted o ->
  exists dr d', settle_outcome scope r o d = (Ok dr, d') /\ shows o dr.
Proof.
  intros Hget Hres Hacc. destruct o as [o|o]; cbn [settle_outcome accepted] in *.
  - destruct Hacc as [Hms Hok]. unfold mbind at 1, ST_bind at 1.
    destruct (mint_evidence scope r o d) as [m d1] eqn:Hm. pose proof Hm as Hm'.
    apply mint_evidence_run in Hm' as (Hl & _).
    assert (exists ev, m = Ok ev /\ forall e, ev = Some e -> ev_payload e = co_payload o /\ ev_summary e = co_summary o
                                                   /\ co_outcome o = EXECUTED) as (ev & -> & Hev).
    { revert Hm. unfold mint_evidence. case_decide as Ho; [|intros [= <- <-]; by exists None].
      destruct (Hok Ho) as [_ Hlen]. unfold tick, read_clock, on_world, build_evidence, new_opaque_id, mbind, ST_bind, mret, ST_ret,
        check_evidence. simpl. unfold max_length. rewrite (proj2 (Z.leb_le _ _) Hlen). simpl. intros [= <- <-].
      eexists. split; [done|]. by intros e [= <-]. }
    unfold mbind, ST_bind. rewrite settle_run by (by rewrite ?Hl).
    rewrite (proj2 (Z.leb_le _ _) Hms). do 2 eexists. split; [reflexivity|]. by split.
  - unfold mbind, ST_bind. rewrite settle_run by done. rewrite (proj2 (Z.leb_le _ _) Hacc).
    do 2 eexists. split; [reflexivity|]. by split.
Qed.

(** A backend whose outcomes are accepted leaves a settled receipt, whether policy lets
    the proposal reach it or not. *)
Lemma dispatch_settles tool rc p scope b d :
  pr_tool p = tool -> ledger_ok (d_world d) (d_ledger d) ->
  (exists o, rc (length (w_backend_calls (d_world d))) (resolve_effective_window (pr_arguments p) scope) scope = Ok o /\ accepted o) ->
  exists dr d', dispatch tool tool rc p scope b d = (Ok dr, d')
    /\ rc_state (dr_receipt dr) = SETTLED
    /\ receipts (d_ledger d') = receipts (d_ledger d) ++ [dr_receipt dr]
    /\ (dr_evidence dr = None /\ dr_passages dr = []
        \/ exists o, rc (length (w_backend_calls (d_world d))) (resolve_effective_window (pr_arguments p) scope) scope = Ok o
             /\ accepted o /\ shows o dr).
Proof.
  intros Ht Hok (o & Hrc & Hacc). pose proof (ledger_ok_fresh d Hok) as Hfresh.
  assert (exists dr d', dispatch tool tool rc p scope b d = (Ok dr, d')
    /\ (dr_evidence dr = None /\ dr_passages dr = [] \/ shows o dr)) as (dr & d' & Hrun & Hshow).
  { destruct (pd_result (decision_of tool p scope b d)) eqn:Hd.
    - rewrite dispatch_allowed_run by done. change (pr_arguments (effective p scope)) with (resolve_effective_window (pr_arguments p) scope).
      rewrite Hrc. destruct (settle_accepted scope (reserved_of p scope d) o (called p scope d)) as (dr & d' & Hs & Hsh);
        [apply dict_get_set_eq|done..|]. exists dr, d'. auto.
    - rewrite dispatch_denied_run by done. do 2 eexists. split; [reflexivity|]. by left. }
  exists dr, d'. split; [done|].
  destruct (dispatch_spec tool rc p scope b d _ _ Ht Hfresh Hrun) as [r He].
  pose proof (de_receipts _ _ _ _ _ _ _ _ _ He) as Hreceipts.
  destruct (de_out _ _ _ _ _ _ _ _ _ He) as (<- & Hst & _). split; [done|].
  split; [by eapply receipts_app|]. destruct Hshow as [|]; [by left|right; eauto].
Qed.
End settling.

(** * Theorem *)

Section own_checks.
Context `{Pydantic} `{Clocks} `{FreshIds} `{Fts5Laws} `{Pinecone}.
Context (http_get : nat -> string -> Z -> http_answer).
Context (files : nat -> RunFiles) (elapsed_ms : nat -> Z) (runbook_corpus : json).

(** C32: a proposal to list changes, to read the topology or to search the runbooks,
    dispatched through the registry this program builds over a run's own files and its
    own corpus, never raises and never stays reserved, whatever those files hold: it
    leaves one settled receipt, evidence within the byte bound whose summary the record
    accepts, and passages that are the corpus's own, no more than were asked for. *)
Theorem own_checks_settle budgets environment registry index tool w p scope b d :
  build_tool_registry http_get files elapsed_ms runbook_corpus budgets environment = Ok registry ->
  rag_experiment_enabled environment = false ->
  open_index runbook_corpus = Ok index -> short_rows index ->
  dict_get tool registry = Some w -> tool ∈ [LIST_RECENT_CHANGES; GET_TOPOLOGY; SEARCH_RUNBOOKS] ->
  pr_tool p = tool -> ledger_ok (d_world d) (d_ledger d) ->
  (forall n, 0 <= elapsed_ms n) -> (forall n, read (rf_changes (files n)) /\ read (rf_topology (files n))) ->
  exists dr d', dispatch (tw_tool w) (tw_arguments_type w) (tw_run_check w) p scope b d = (Ok dr, d')
    /\ rc_state (dr_receipt dr) = SETTLED
    /\ receipts (d_ledger d') = receipts (d_ledger d) ++ [dr_receipt dr]
    /\ (forall e, dr_evidence dr = Some e -> fits (ev_payload e) = true /\ str_len (ev_summary e) <= 400)
    /\ Forall (passage_of (ri_rows index)) (dr_passages dr)
    /\ forall a, pr_arguments p = ARunbooks a -> 0 <= sr_limit a -> Z.of_nat (length (dr_passages dr)) <= sr_limit a.
Proof.
  intros Hbuild Hrag Hopen Hshort Hw Htool Hp Hok Hms Hread.
  unfold build_tool_registry, select_search in Hbuild. rewrite Hrag, Hopen in Hbuild. injection Hbuild as <-.
  set (n := length (w_backend_calls (d_world d))).
  assert (tw_tool w = tool /\ tw_arguments_type w = tool
    /\ exists o, tw_run_check w n (resolve_effective_window (pr_arguments p) scope) scope = Ok o /\ accepted o
         /\ forall ro, o = Retrieved ro -> Forall (passage_of (ri_rows index)) (ro_passages ro)
              /\ forall a, pr_arguments p = ARunbooks a -> 0 <= sr_limit a -> Z.of_nat (length (ro_passages ro)) <= sr_limit a)
    as (-> & -> & o & Hrun & Hacc & Hpass).
  { destruct (Hread n) as [Hchanges Htopology]. specialize (Hms n). unfold pr_tool in Hp.
    repeat (apply elem_of_cons in Htool as [->|Htool]); [..|by apply elem_of_nil in Htool];
      injection Hw as <-; do 2 (split; [done|]); destruct (pr_arguments p) as [a|a|a|a|a]; try done;
      cbn [tw_run_check list_recent_changes_wrapper get_topology_wrapper search_runbooks_wrapper make_wrapper
           resolve_effective_window run_backends run_changes run_topology run_search].
    - destruct (changes_accepted {| lc_service := lc_service a; lc_window_start := clamp_start (lc_window_start a) scope;
        lc_window_end := clamp_end (lc_window_end a) scope |} (files n) (elapsed_ms n)) as (o & -> & Hacc); [done..|].
      by exists (Checked o).
    - destruct (topology_accepted a (files n) (elapsed_ms n)) as (o & -> & Hacc); [done..|]. by exists (Checked o).
    - destruct (search_returns a index (elapsed_ms n) Hshort) as (o & -> & Hd & _ & Hf & Hl & _).
      exists (Retrieved o). split; [done|]. split; [cbn; lia|]. intros ? [= <-]. split; [done|]. by intros ? [= <-]. }
  destruct (dispatch_settles tool (tw_run_check w) p scope b d Hp Hok) as (dr & d' & Hdis & Hst & Hrec & Hshow); [by exists o|].
  exists dr, d'. do 3 (split; [done|]).
  destruct Hshow as [[-> ->]|(o' & Ho' & _ & Hshow)]; [split_and!; [done|by constructor|intros; cbn; lia]|].
  unfold n in Hrun. rewrite Hrun in Ho'. injection Ho' as <-. destruct o as [o|ro]; cbn [shows] in Hshow.
  - destruct Hshow as [-> Hev]. split_and!; [|by constructor|intros; cbn; lia].
    intros e He. destruct (Hev e He) as (-> & -> & Hex). by apply Hacc.
  - destruct Hshow as [-> ->]. destruct (Hpass ro eq_refl). by split_and!.
Qed.
End own_checks.
