(* ===== verification/Checkpointer.v ===== *)
(** The checkpoint saver over Firestore (firestore_checkpointer.py): the documents of a
    thread's checkpoints and of their pending writes, and the saver's operations, each
    request of which may be served, refused, or carried out with its answer lost.

    LangGraph's serializer and its table of reserved channels are class [Saver].  The
    ids it gives name documents, and hold no slash. *)
From Stdlib Require Import ZArith Lia.
From stdpp Require Import prelude strings list gmap sorting.
From S2P Require Import Prelude PyText Float64 Numbers Tools Domain Approvals ControlPlane FirestorePlane JsonText JsonRoundTrip.
Local Open Scope Z_scope.

(** [config["configurable"]]: [None] is a key that is not there. *)
Record Config := {
  cf_thread_id : option string;
  cf_checkpoint_ns : option string;
  cf_checkpoint_id : option string;
}.

Definition configured (thread_id checkpoint_ns checkpoint_id : string) : Config :=
  {| cf_thread_id := Some thread_id; cf_checkpoint_ns := Some checkpoint_ns; cf_checkpoint_id := Some checkpoint_id |}.

Class Saver := {
  Saved : Type;
  saved_id : Saved -> string;
  dumps_typed : Saved -> res (string * string);
  loads_typed : string * string -> res Saved;
  get_checkpoint_id : Config -> option string;
  get_checkpoint_metadata : Config -> jobject -> jobject;
  WRITES_IDX_MAP : list (string * Z);
}.

Class SaverLaws `{Saver} := {
  loads_dumps : forall v t, dumps_typed v = Ok t -> loads_typed t = Ok v;
  checkpoint_id_read : forall config, get_checkpoint_id config = cf_checkpoint_id config;
}.

(** * Documents *)

Record ThreadDocument := { td_thread_id : string; td_checkpoint_ns : string }.

Record EntryDocument := {
  ed_thread_id : string;
  ed_checkpoint_ns : string;
  ed_checkpoint_id : string;
  ed_parent_checkpoint_id : option string;
  ed_type : string;
  ed_checkpoint : string;
  ed_metadata : string;
}.

Record WriteDocument := {
  wd_task_id : string;
  wd_idx : Z;
  wd_channel : string;
  wd_type : string;
  wd_value : string;
}.

(** [checkpoint_threads/{}], [.../entries/{}] and [.../writes/{}], by the ids on the path. *)
Record Documents := {
  dc_threads : gmap string ThreadDocument;
  dc_entries : gmap (string * string) EntryDocument;
  dc_writes : gmap (string * string * string) WriteDocument;
  dc_requests : nat;
  dc_randoms : nat;
}.

#[export] Instance settable_Documents : Settable Documents := fun s =>
  {| dc_threads := dc_threads s; dc_entries := dc_entries s; dc_writes := dc_writes s;
     dc_requests := dc_requests s; dc_randoms := dc_randoms s |}.

Notation SaverM := (ST Documents exn).

Definition MAX_CHECKPOINT_BYTES : Z := 900 * 1024.
Definition CheckpointTooLargeError : exn := OtherError "CheckpointTooLargeError".

Definition thread_document_id (thread_id checkpoint_ns : string) : string := thread_id +:+ "::" +:+ checkpoint_ns.
Definition write_document_id (task_id : string) (idx : Z) : string := task_id +:+ "::" +:+ str_of_Z idx.

(** [json.dumps(..., ensure_ascii=False).encode("utf-8", "ignore")], as the text it encodes. *)
Definition utf8_char (c : Ascii.ascii) : string :=
  if 126 <? code c then String c EmptyString else json_char c.

Definition utf8_string (s : string) : string := dq +:+ concat_chars utf8_char s +:+ dq.

Fixpoint dumps_utf8 (j : json) : string :=
  match j with
  | JNull => "null"
  | JBool b => if b then "true" else "false"
  | JInt z => str_of_Z z
  | JFloat t => t
  | JStr s => utf8_string s
  | JArr l => "[" +:+ py_join ", " (List.map dumps_utf8 l) +:+ "]"
  | JObj d =>
      "{" +:+ py_join ", " (List.map (fun kv => match kv with (k, v) => utf8_string k +:+ ": " +:+ dumps_utf8 v end) d) +:+ "}"
  end.

(** [json.loads(bytes(data["metadata"]))] *)
Definition metadata_of (text : string) : res json :=
  match @json_loads Unhooked text with
  | Ok j => Ok j
  | Err JSONDecodeError | Err BadNumber => Err ValueError
  | Err BeyondLatin1 => Err OutsideTextModel
  end.

(** [config["configurable"][k]] *)
Definition required (field : option string) : res string :=
  match field with Some s => Ok s | None => Err KeyError end.

Record CheckpointTuple `{Saver} := {
  ct_config : Config;
  ct_checkpoint : Saved;
  ct_metadata : json;
  ct_parent_config : option Config;
  ct_pending_writes : list (string * string * Saved);
}.

Section saver.
Context `{Firestore} `{Saver}.

(** * Requests *)

Definition saver_request {A} (f : Documents -> A * Documents) : SaverM A := fun s =>
  let s' := s <| dc_requests := S (dc_requests s) |> in
  match reply (dc_requests s) with
  | Served => let '(a, s'') := f s' in (Ok a, s'')
  | Refused => (Err google_error, s')
  | Lost => (Err google_error, (f s').2)
  end.

Definition read_documents {A} (f : Documents -> A) : SaverM A := saver_request (fun s => (f s, s)).

Definition write_documents (f : Documents -> Documents) : SaverM unit := saver_request (fun s => (tt, f s)).

(** [collection.stream()] of a thread's entries, and of an entry's writes. *)
Definition entries (thread : string) (s : Documents) : list EntryDocument :=
  stream (filter (fun kd : (string * string) * EntryDocument => kd.1.1 = thread) (dc_entries s)).

Definition writes_under (entry : string * string) (s : Documents) : list WriteDocument :=
  stream (filter (fun kd : (string * string * string) * WriteDocument => kd.1.1 = entry) (dc_writes s)).

(** [order_by("checkpoint_id", direction=DESCENDING)] *)
Definition newer (a b : EntryDocument) : Prop := String.le (ed_checkpoint_id b) (ed_checkpoint_id a).

#[export] Instance newer_dec : RelDecision newer := fun a b => String.le_dec _ _.

Definition newest_first (l : list EntryDocument) : list EntryDocument := merge_sort newer l.

(** * Reading *)

Definition write_le (a b : WriteDocument) : Prop :=
  wd_task_id a <> wd_task_id b /\ String.le (wd_task_id a) (wd_task_id b)
  \/ wd_task_id a = wd_task_id b /\ wd_idx a <= wd_idx b.

#[export] Instance write_le_dec : RelDecision write_le.
Proof. intros a b. unfold write_le. apply _. Defined.

Definition pending_of (row : WriteDocument) : res (string * string * Saved) :=
  value ← loads_typed (wd_type row, wd_value row); Ok (wd_task_id row, wd_channel row, value).

Definition read_writes (entry : string * string) (sort : bool) : SaverM (list (string * string * Saved)) :=
  rows ← read_documents (writes_under entry);
  lift_result (mapM pending_of (if sort then merge_sort write_le rows else rows)).

(** [{...} if parent_checkpoint_id else None] *)
Definition parent_of (thread_id checkpoint_ns : string) (parent : option string) : option Config :=
  match parent with
  | Some parent => if bool_decide (parent = "") then None else Some (configured thread_id checkpoint_ns parent)
  | None => None
  end.

Definition get_tuple (config : Config) : SaverM (option CheckpointTuple) :=
  thread_id ← lift_result (required (cf_thread_id config));
  let checkpoint_ns := default "" (cf_checkpoint_ns config) in
  let thread := thread_document_id thread_id checkpoint_ns in
  found ← match get_checkpoint_id config with
          | Some id =>
              data ← read_documents (fun s => dc_entries s !! (thread, id));
              mret ((fun d => (id, d)) <$> data)
          | None =>
              found ← read_documents (fun s => firstn 1 (newest_first (entries thread s)));
              mret ((fun d => (ed_checkpoint_id d, d)) <$> head found)
          end;
  match found with
  | None => mret None
  | Some (checkpoint_id, data) =>
      pending_writes ← read_writes (thread, checkpoint_id) true;
      checkpoint ← lift_result (loads_typed (ed_type data, ed_checkpoint data));
      metadata ← lift_result (metadata_of (ed_metadata data));
      mret (Some {| ct_config := configured thread_id checkpoint_ns checkpoint_id; ct_checkpoint := checkpoint;
                    ct_metadata := metadata;
                    ct_parent_config := parent_of thread_id checkpoint_ns (ed_parent_checkpoint_id data);
                    ct_pending_writes := pending_writes |})
  end.

(** [json.loads(...).get(key) == value] for every item of the filter. *)
Definition passes (filter : jobject) (metadata : json) : res bool :=
  match filter with
  | [] => Ok true
  | _ => match metadata with
         | JObj d => Ok (forallb (fun kv => py_eq (default JNull (dict_get kv.1 d)) kv.2) filter)
         | _ => Err (OtherError "AttributeError")
         end
  end.

(** The generator's loop, run to its end. *)
Fixpoint list_from (thread_id checkpoint_ns : string) (filter : jobject) (found : list EntryDocument)
    : SaverM (list CheckpointTuple) :=
  match found with
  | [] => mret []
  | data :: found =>
      wanted ← match filter with
               | [] => mret true
               | _ => lift_result (metadata ← metadata_of (ed_metadata data); passes filter metadata)
               end;
      if negb wanted then list_from thread_id checkpoint_ns filter found
      else
        let checkpoint_id := ed_checkpoint_id data in
        checkpoint ← lift_result (loads_typed (ed_type data, ed_checkpoint data));
        metadata ← lift_result (metadata_of (ed_metadata data));
        pending_writes ← read_writes (thread_document_id thread_id checkpoint_ns, checkpoint_id) true;
        tuples ← list_from thread_id checkpoint_ns filter found;
        mret ({| ct_config := configured thread_id checkpoint_ns checkpoint_id; ct_checkpoint := checkpoint;
                 ct_metadata := metadata;
                 ct_parent_config := parent_of thread_id checkpoint_ns (ed_parent_checkpoint_id data);
                 ct_pending_writes := pending_writes |} :: tuples)
  end.

Definition before_id (before : option string) (d : EntryDocument) : bool :=
  match before with Some id => bool_decide (String.le (ed_checkpoint_id d) id /\ ed_checkpoint_id d <> id) | None => true end.

Definition list_tuples (config : option Config) (filter : jobject) (before : option Config) (limit : option nat)
    : SaverM (list CheckpointTuple) :=
  match config with
  | None => raise ValueError
  | Some config =>
      thread_id ← lift_result (required (cf_thread_id config));
      let checkpoint_ns := default "" (cf_checkpoint_ns config) in
      let before := before ≫= get_checkpoint_id in
      found ← read_documents (fun s =>
        let found := List.filter (before_id before) (newest_first (entries (thread_document_id thread_id checkpoint_ns) s)) in
        match limit with Some n => firstn n found | None => found end);
      list_from thread_id checkpoint_ns filter found
  end.

(** * Writing *)

Definition set_thread (thread : string) (d : ThreadDocument) (s : Documents) : Documents :=
  s <| dc_threads := <[thread := d]> (dc_threads s) |>.

Definition set_entry (entry : string * string) (d : EntryDocument) (s : Documents) : Documents :=
  s <| dc_entries := <[entry := d]> (dc_entries s) |>.

Definition set_write (key : string * string * string) (d : WriteDocument) (s : Documents) : Documents :=
  s <| dc_writes := <[key := d]> (dc_writes s) |>.

Definition put (config : Config) (checkpoint : Saved) (metadata : jobject) : SaverM Config :=
  thread_id ← lift_result (required (cf_thread_id config));
  checkpoint_ns ← lift_result (required (cf_checkpoint_ns config));
  serialized ← lift_result (dumps_typed checkpoint);
  if MAX_CHECKPOINT_BYTES <? str_len serialized.2 then raise CheckpointTooLargeError
  else
    let thread := thread_document_id thread_id checkpoint_ns in
    _ ← write_documents (set_thread thread {| td_thread_id := thread_id; td_checkpoint_ns := checkpoint_ns |});
    _ ← write_documents (set_entry (thread, saved_id checkpoint)
          {| ed_thread_id := thread_id; ed_checkpoint_ns := checkpoint_ns; ed_checkpoint_id := saved_id checkpoint;
             ed_parent_checkpoint_id := cf_checkpoint_id config; ed_type := serialized.1;
             ed_checkpoint := serialized.2; ed_metadata := dumps_utf8 (JObj (get_checkpoint_metadata config metadata)) |});
    mret (configured thread_id checkpoint_ns (saved_id checkpoint)).

Definition resolved_idx (channel : string) (idx : Z) : Z := default idx (dict_get channel WRITES_IDX_MAP).

Fixpoint put_each (replace_all : bool) (entry : string * string) (task_id : string) (idx : Z)
    (writes : list (string * Saved)) : SaverM unit :=
  match writes with
  | [] => mret tt
  | (channel, value) :: writes =>
      let key := (entry, write_document_id task_id (resolved_idx channel idx)) in
      there ← (if replace_all then mret false else read_documents (fun s => bool_decide (is_Some (dc_writes s !! key))));
      _ ← (if (there : bool) then mret tt
           else
             serialized ← lift_result (dumps_typed value);
             write_documents (set_write key
               {| wd_task_id := task_id; wd_idx := resolved_idx channel idx; wd_channel := channel;
                  wd_type := serialized.1; wd_value := serialized.2 |}));
      put_each replace_all entry task_id (idx + 1) writes
  end.

Definition reserved_channel (channel : string) : bool := dict_mem channel WRITES_IDX_MAP.

Definition put_writes (config : Config) (writes : list (string * Saved)) (task_id : string) : SaverM unit :=
  thread_id ← lift_result (required (cf_thread_id config));
  checkpoint_ns ← lift_result (required (cf_checkpoint_ns config));
  checkpoint_id ← lift_result (required (cf_checkpoint_id config));
  put_each (forallb (fun w => reserved_channel w.1) writes)
    (thread_document_id thread_id checkpoint_ns, checkpoint_id) task_id 0 writes.

(** * Deleting a thread *)

Fixpoint delete_writes (entry : string * string) (found : list WriteDocument) : SaverM unit :=
  match found with
  | [] => mret tt
  | d :: found =>
      _ ← write_documents (fun s => s <| dc_writes := delete (entry, write_document_id (wd_task_id d) (wd_idx d)) (dc_writes s) |>);
      delete_writes entry found
  end.

Fixpoint delete_entries (thread : string) (found : list EntryDocument) : SaverM unit :=
  match found with
  | [] => mret tt
  | d :: found =>
      let entry := (thread, ed_checkpoint_id d) in
      writes ← read_documents (writes_under entry);
      _ ← delete_writes entry writes;
      _ ← write_documents (fun s => s <| dc_entries := delete entry (dc_entries s) |>);
      delete_entries thread found
  end.

Fixpoint delete_threads (thread_id : string) (found : list ThreadDocument) : SaverM unit :=
  match found with
  | [] => mret tt
  | d :: found =>
      let thread := thread_document_id thread_id (td_checkpoint_ns d) in
      found_entries ← read_documents (entries thread);
      _ ← delete_entries thread found_entries;
      _ ← write_documents (fun s => s <| dc_threads := delete thread (dc_threads s) |>);
      delete_threads thread_id found
  end.

Definition delete_thread (thread_id : string) : SaverM unit :=
  found ← read_documents (fun s => List.filter (fun d => bool_decide (td_thread_id d = thread_id)) (stream (dc_threads s)));
  delete_threads thread_id found.
End saver.

(** * Versions *)

Inductive Version := NoVersion | IntVersion (n : Z) | TextVersion (text : string).

(** [int(text)] *)
Definition int_of_text (text : string) : option Z :=
  let '(negative, rest) := sign_of (py_strip text) in
  let '(n, count, rest) := digits_from 0 0 rest in
  if (0 <? count) && bool_decide (rest = "") then Some (if negative then - n else n) else None.

(** [text.split(".")[0]] *)
Fixpoint before_dot (s : string) : string :=
  match s with
  | EmptyString => EmptyString
  | String c rest => if code c =? 46 then EmptyString else String c (before_dot rest)
  end.

(** [f"{...:0width}"] of a number's text: the zeros go behind a sign. *)
Definition zero_pad (width : nat) (text : string) : string :=
  match text with
  | String c rest =>
      if code c =? 45
      then String c (zeros (Z.of_nat (width - String.length text)) +:+ rest)
      else zeros (Z.of_nat (width - String.length text)) +:+ text
  | EmptyString => zeros (Z.of_nat width)
  end.

(** [random.random()] *)
Class Randoms := random_float : nat -> f64.

Definition version_text (v : Z) (h : f64) : string :=
  zero_pad 32 (str_of_Z v) +:+ "." +:+ zero_pad 16 (float_repr h).

Definition get_next_version `{Randoms} (current : Version) : SaverM string := fun s =>
  let current_v :=
    match current with
    | NoVersion => Some 0
    | IntVersion n => Some n
    | TextVersion text => int_of_text (before_dot text)
    end in
  match current_v with
  | None => (Err ValueError, s)
  | Some current_v =>
      (Ok (version_text (current_v + 1) (random_float (dc_randoms s))), s <| dc_randoms := S (dc_randoms s) |>)
  end.
