(* ===== verification/CheckpointerProps.v ===== *)
(** What the Firestore checkpoint saver promises: a checkpoint is stored whole and read
    back as it was put, pending writes may be put again after a failure, deleting a
    thread can be taken up until it is done, and versions grow as text. *)
From Stdlib Require Import ZArith Lia.
From stdpp Require Import prelude strings list gmap sorting.
From S2P Require Import Prelude PyText Float64 Numbers Tools Domain Approvals ControlPlane FirestorePlane JsonText JsonRoundTrip Checkpointer.
Local Open Scope Z_scope.

(** * Document names *)

(** No colon, as in LangGraph's thread ids. *)
Fixpoint plain (s : string) : bool :=
  match s with EmptyString => true | String c rest => negb (code c =? 58) && plain rest end.

Lemma thread_document_id_inj t1 n1 t2 n2 :
  plain t1 = true -> plain t2 = true -> thread_document_id t1 n1 = thread_document_id t2 n2 -> t1 = t2 /\ n1 = n2.
Proof.
  unfold thread_document_id. revert t2. induction t1 as [|c t1 IH]; intros [|c' t2]; cbn [plain].
  - intros _ _ Heq. by injection Heq.
  - intros _ [Hc _]%andb_prop Heq. rewrite string_app_cons in Heq. injection Heq as <- _. done.
  - intros [Hc _]%andb_prop _ Heq. rewrite string_app_cons in Heq. injection Heq as -> _. done.
  - intros [_ H1]%andb_prop [_ H2]%andb_prop Heq. rewrite !string_app_cons in Heq. injection Heq as <- Heq.
    by destruct (IH t2 H1 H2 Heq) as [-> ->].
Qed.

(** * Stored documents *)

(** Every document stands under the name its fields spell, and every entry under the
    document of its thread. *)
Record well_formed (s : Documents) : Prop := {
  wf_thread : forall k d, dc_threads s !! k = Some d ->
    k = thread_document_id (td_thread_id d) (td_checkpoint_ns d) /\ plain (td_thread_id d) = true;
  wf_entry : forall k d, dc_entries s !! k = Some d ->
    k = (thread_document_id (ed_thread_id d) (ed_checkpoint_ns d), ed_checkpoint_id d)
    /\ dc_threads s !! k.1 = Some {| td_thread_id := ed_thread_id d; td_checkpoint_ns := ed_checkpoint_ns d |};
  wf_write : forall k d, dc_writes s !! k = Some d -> k.2 = write_document_id (wd_task_id d) (wd_idx d);
}.

Definition empty_documents : Documents :=
  {| dc_threads := ∅; dc_entries := ∅; dc_writes := ∅; dc_requests := 0; dc_randoms := 0 |}.

Lemma empty_well_formed : well_formed empty_documents.
Proof. split; intros k d Hk; cbn in Hk; by rewrite lookup_empty in Hk. Qed.

(** The counters are no document. *)
Lemma well_formed_ext s s' :
  dc_threads s' = dc_threads s -> dc_entries s' = dc_entries s -> dc_writes s' = dc_writes s ->
  well_formed s -> well_formed s'.
Proof. intros Ht He Hw []. by split; rewrite ?Ht, ?He, ?Hw. Qed.

Section requests.
Context `{Firestore} `{Saver}.

Definition counted (s : Documents) : Documents := s <| dc_requests := S (dc_requests s) |>.

Lemma read_cases {A} (f : Documents -> A) s :
  read_documents f s = (Ok (f (counted s)), counted s) \/ exists e, read_documents f s = (Err e, counted s).
Proof. unfold read_documents, saver_request. destruct (reply _); eauto. Qed.

Lemma write_cases f s :
  write_documents f s = (Ok tt, f (counted s))
  \/ exists e, write_documents f s = (Err e, counted s) \/ write_documents f s = (Err e, f (counted s)).
Proof. unfold write_documents, saver_request. destruct (reply _); eauto. Qed.

Lemma read_served {A} (f : Documents -> A) s :
  reply (dc_requests s) = Served -> read_documents f s = (Ok (f (counted s)), counted s).
Proof. unfold read_documents, saver_request. by intros ->. Qed.

Lemma write_served f s :
  reply (dc_requests s) = Served -> write_documents f s = (Ok tt, f (counted s)).
Proof. unfold write_documents, saver_request. by intros ->. Qed.
End requests.

Section streams.
Context `{FirestoreLaws} `{Saver}.

Lemma documents_elem {K} `{Countable K} {A} (m : gmap K A) d : d ∈ stream m <-> exists k, m !! k = Some d.
Proof.
  rewrite stream_perm, list_elem_of_fmap. split.
  - intros ([k d'] & -> & Hin). apply elem_of_map_to_list in Hin. by exists k.
  - intros (k & Hk). exists (k, d). split; [done|]. by apply elem_of_map_to_list.
Qed.

Lemma entries_elem thread s d : d ∈ entries thread s <-> exists id, dc_entries s !! (thread, id) = Some d.
Proof.
  unfold entries. rewrite documents_elem. split.
  - intros ([t id] & [Hk <-]%map_lookup_filter_Some). by exists id.
  - intros (id & Hk). exists (thread, id). by apply map_lookup_filter_Some.
Qed.

Lemma writes_elem entry s d : d ∈ writes_under entry s <-> exists w, dc_writes s !! (entry, w) = Some d.
Proof.
  unfold writes_under. rewrite documents_elem. split.
  - intros ([e w] & [Hk <-]%map_lookup_filter_Some). by exists w.
  - intros (w & Hk). exists (entry, w). by apply map_lookup_filter_Some.
Qed.
End streams.

(** * Deleting a thread *)

Definition of_thread (thread_id thread : string) : Prop := exists checkpoint_ns, thread = thread_document_id thread_id checkpoint_ns.

(** Documents of the thread went, from the leaves up; nothing else changed. *)
Record shrinks (thread_id : string) (s s' : Documents) : Prop := {
  sh_threads : forall k, dc_threads s' !! k = dc_threads s !! k
    \/ of_thread thread_id k /\ dc_threads s' !! k = None /\ forall id, dc_entries s' !! (k, id) = None;
  sh_entries : forall k, dc_entries s' !! k = dc_entries s !! k
    \/ of_thread thread_id k.1 /\ dc_entries s' !! k = None /\ forall w, dc_writes s' !! (k, w) = None;
  sh_writes : forall k, dc_writes s' !! k = dc_writes s !! k
    \/ of_thread thread_id k.1.1 /\ dc_writes s' !! k = None;
}.

Lemma shrinks_refl t s : shrinks t s s.
Proof. split; auto. Qed.

Lemma shrinks_same t s s1 s' :
  dc_threads s1 = dc_threads s' -> dc_entries s1 = dc_entries s' -> dc_writes s1 = dc_writes s' ->
  shrinks t s s1 -> shrinks t s s'.
Proof. intros Ht He Hw []. by split; rewrite <- ?Ht, <- ?He, <- ?Hw. Qed.

Lemma shrinks_trans t s1 s2 s3 : shrinks t s1 s2 -> shrinks t s2 s3 -> shrinks t s1 s3.
Proof.
  intros [T1 E1 W1] [T2 E2 W2].
  assert (forall k, dc_writes s2 !! k = None -> dc_writes s3 !! k = None) as HW.
  { intros k Hk. destruct (W2 k) as [Hs|[_ Hs]]; congruence. }
  assert (forall k, dc_entries s2 !! k = None -> dc_entries s3 !! k = None) as HE.
  { intros k Hk. destruct (E2 k) as [Hs|(_ & Hs & _)]; congruence. }
  split; intros k.
  - destruct (T2 k) as [Hs|?]; [|by right]. rewrite Hs. destruct (T1 k) as [?|(? & Hn & ?)]; [by left|right]. eauto.
  - destruct (E2 k) as [Hs|?]; [|by right]. rewrite Hs. destruct (E1 k) as [?|(? & Hn & ?)]; [by left|right]. eauto.
  - destruct (W2 k) as [Hs|?]; [|by right]. rewrite Hs. destruct (W1 k) as [?|(? & Hn)]; [by left|right]. eauto.
Qed.

Lemma shrinks_well_formed t s s' : shrinks t s s' -> well_formed s -> well_formed s'.
Proof.
  intros [T E W] [Wt We Ww]. split; intros k d Hk.
  - destruct (T k) as [Hs|(_ & Hs & _)]; [|congruence]. rewrite Hs in Hk. by apply Wt.
  - destruct (E k) as [Hs|(_ & Hs & _)]; [|congruence]. pose proof Hk as Hk'. rewrite Hs in Hk.
    destruct (We k d Hk) as [Heq Hd]. split; [done|].
    destruct (T k.1) as [->|(_ & _ & Hno)]; [done|]. destruct k as [k id]. cbn in Hno. by rewrite Hno in Hk'.
  - destruct (W k) as [Hs|(_ & Hs)]; [|congruence]. rewrite Hs in Hk. by apply Ww.
Qed.

Section deleting.
Context `{FirestoreLaws} `{Saver}.

Lemma shrinks_counted t s s' : shrinks t s s' -> shrinks t s (counted s').
Proof. by apply shrinks_same. Qed.

Lemma delete_writes_shrinks t entry found s :
  of_thread t entry.1 ->
  let '(r, s') := delete_writes entry found s in
  shrinks t s s' /\ (r = Ok tt -> Forall (fun d => dc_writes s' !! (entry, write_document_id (wd_task_id d) (wd_idx d)) = None) found).
Proof.
  intros Hof. revert s. induction found as [|d found IH]; intros s; cbn [delete_writes].
  { split; [apply shrinks_refl|constructor]. }
  set (f := fun s : Documents => s <| dc_writes := delete (entry, write_document_id (wd_task_id d) (wd_idx d)) (dc_writes s) |>).
  assert (shrinks t s (f (counted s))) as Hstep.
  { split; intros k; [by left..|]. cbn. destruct (decide (k = (entry, write_document_id (wd_task_id d) (wd_idx d)))) as [->|Hne].
    - right. by rewrite lookup_delete_eq.
    - left. by rewrite lookup_delete_ne. }
  unfold mbind, ST_bind. destruct (write_cases f s) as [->|(e & [->| ->])].
  - specialize (IH (f (counted s))). destruct (delete_writes entry found (f (counted s))) as [r s'].
    destruct IH as [IHs IHd]. split; [by eapply shrinks_trans|]. intros Hr. constructor; [|by apply IHd].
    destruct (sh_writes _ _ _ IHs (entry, write_document_id (wd_task_id d) (wd_idx d))) as [->|[_ ->]]; [|done].
    cbn. by rewrite lookup_delete_eq.
  - split; [|done]. apply shrinks_counted, shrinks_refl.
  - by split.
Qed.

Lemma delete_entries_shrinks t thread found s :
  of_thread t thread -> well_formed s ->
  let '(r, s') := delete_entries thread found s in
  shrinks t s s' /\ (r = Ok tt -> Forall (fun d => dc_entries s' !! (thread, ed_checkpoint_id d) = None) found).
Proof.
  intros Hof. revert s. induction found as [|d found IH]; intros s Hwf; cbn [delete_entries].
  { split; [apply shrinks_refl|constructor]. }
  set (entry := (thread, ed_checkpoint_id d)).
  set (f := fun s : Documents => s <| dc_entries := delete entry (dc_entries s) |>).
  unfold mbind, ST_bind. destruct (read_cases (writes_under entry) s) as [->|(e & ->)].
  2: { split; [|done]. apply shrinks_counted, shrinks_refl. }
  pose proof (delete_writes_shrinks t entry (writes_under entry (counted s)) (counted s) Hof) as Hw.
  destruct (delete_writes entry _ (counted s)) as [[[]|e] s1]; destruct Hw as [Hs1 Hgone].
  2: { split; [|done]. eapply shrinks_trans; [|exact Hs1]. apply shrinks_counted, shrinks_refl. }
  assert (shrinks t s s1) as Hs1'. { eapply shrinks_trans; [|exact Hs1]. apply shrinks_counted, shrinks_refl. }
  assert (forall w, dc_writes s1 !! (entry, w) = None) as Hnone.
  { intros w. destruct (dc_writes s1 !! (entry, w)) as [wd|] eqn:Hl; [|done].
    destruct (sh_writes _ _ _ Hs1 (entry, w)) as [Hs|[_ Hs]]; rewrite Hl in Hs; [|done]. symmetry in Hs.
    pose proof (wf_write _ Hwf (entry, w) wd Hs) as Hkey. cbn in Hkey. subst w.
    specialize (Hgone eq_refl). rewrite Forall_forall in Hgone. rewrite <- Hl. apply (Hgone wd).
    apply writes_elem. by eexists. }
  assert (shrinks t s1 (f (counted s1))) as Hstep.
  { split; intros k; [by left| |by left]. cbn. destruct (decide (k = entry)) as [->|Hne].
    - right. rewrite lookup_delete_eq. split; [exact Hof|]. split; [done|exact Hnone].
    - left. by rewrite lookup_delete_ne. }
  destruct (write_cases f s1) as [->|(e & [->| ->])].
  - assert (shrinks t s (f (counted s1))) as Hs2 by (by eapply shrinks_trans).
    specialize (IH (f (counted s1)) (shrinks_well_formed _ _ _ Hs2 Hwf)).
    destruct (delete_entries thread found (f (counted s1))) as [r s']. destruct IH as [IHs IHd].
    split; [by eapply shrinks_trans|]. intros Hr. constructor; [|by apply IHd].
    fold entry. destruct (sh_entries _ _ _ IHs entry) as [->|(_ & -> & _)]; [|done]. cbn. by rewrite lookup_delete_eq.
  - split; [|done]. by apply shrinks_counted.
  - split; [|done]. by eapply shrinks_trans.
Qed.

Lemma delete_threads_shrinks t found s :
  well_formed s ->
  let '(r, s') := delete_threads t found s in
  shrinks t s s' /\ (r = Ok tt -> Forall (fun d => dc_threads s' !! thread_document_id t (td_checkpoint_ns d) = None) found).
Proof.
  revert s. induction found as [|d found IH]; intros s Hwf; cbn [delete_threads].
  { split; [apply shrinks_refl|constructor]. }
  set (thread := thread_document_id t (td_checkpoint_ns d)).
  assert (of_thread t thread) as Hof by (by eexists).
  set (f := fun s : Documents => s <| dc_threads := delete thread (dc_threads s) |>).
  unfold mbind, ST_bind. destruct (read_cases (entries thread) s) as [->|(e & ->)].
  2: { split; [|done]. apply shrinks_counted, shrinks_refl. }
  assert (well_formed (counted s)) as Hwf' by (by apply (well_formed_ext s)).
  pose proof (delete_entries_shrinks t thread (entries thread (counted s)) (counted s) Hof Hwf') as He.
  destruct (delete_entries thread _ (counted s)) as [[[]|e] s1]; destruct He as [Hs1 Hgone].
  2: { split; [|done]. eapply shrinks_trans; [|exact Hs1]. apply shrinks_counted, shrinks_refl. }
  assert (shrinks t s s1) as Hs1'. { eapply shrinks_trans; [|exact Hs1]. apply shrinks_counted, shrinks_refl. }
  assert (forall id, dc_entries s1 !! (thread, id) = None) as Hnone.
  { intros id. destruct (dc_entries s1 !! (thread, id)) as [ed|] eqn:Hl; [|done].
    destruct (sh_entries _ _ _ Hs1 (thread, id)) as [Hs|(_ & Hs & _)]; rewrite Hl in Hs; [|done]. symmetry in Hs.
    destruct (wf_entry _ Hwf (thread, id) ed Hs) as [Hkey _]. injection Hkey as _ ->.
    specialize (Hgone eq_refl). rewrite Forall_forall in Hgone. rewrite <- Hl. apply (Hgone ed).
    apply entries_elem. by eexists. }
  assert (shrinks t s1 (f (counted s1))) as Hstep.
  { split; intros k; [|by left..]. cbn. destruct (decide (k = thread)) as [->|Hne].
    - right. rewrite lookup_delete_eq. split; [exact Hof|]. split; [done|exact Hnone].
    - left. by rewrite lookup_delete_ne. }
  destruct (write_cases f s1) as [->|(e & [->| ->])].
  - assert (shrinks t s (f (counted s1))) as Hs2 by (by eapply shrinks_trans).
    specialize (IH (f (counted s1)) (shrinks_well_formed _ _ _ Hs2 Hwf)).
    destruct (delete_threads t found (f (counted s1))) as [r s']. destruct IH as [IHs IHd].
    split; [by eapply shrinks_trans|]. intros Hr. constructor; [|by apply IHd].
    fold thread. destruct (sh_threads _ _ _ IHs thread) as [->|(_ & -> & _)]; [|done]. cbn. by rewrite lookup_delete_eq.
  - split; [|done]. by apply shrinks_counted.
  - split; [|done]. by eapply shrinks_trans.
Qed.

Lemma delete_thread_shrinks t s :
  well_formed s ->
  let '(r, s') := delete_thread t s in
  shrinks t s s' /\ (r = Ok tt -> forall k d, dc_threads s' !! k = Some d -> td_thread_id d <> t).
Proof.
  intros Hwf. unfold delete_thread, mbind, ST_bind.
  match goal with |- context [read_documents ?f s] => set (q := f) end.
  destruct (read_cases q s) as [->|(e & ->)].
  2: { split; [|done]. apply shrinks_counted, shrinks_refl. }
  assert (well_formed (counted s)) as Hwf' by (by apply (well_formed_ext s)).
  pose proof (delete_threads_shrinks t (q (counted s)) (counted s) Hwf') as Hd.
  destruct (delete_threads t _ (counted s)) as [r s']. destruct Hd as [Hs Hgone].
  assert (shrinks t s s') as Hs'. { eapply shrinks_trans; [|exact Hs]. apply shrinks_counted, shrinks_refl. }
  split; [done|]. intros Hr k d Hk Ht. specialize (Hgone Hr). rewrite Forall_forall in Hgone.
  destruct (sh_threads _ _ _ Hs k) as [Hl|(_ & Hl & _)]; rewrite Hk in Hl; [|done]. symmetry in Hl.
  destruct (wf_thread _ Hwf k d Hl) as [Hkey _]. rewrite Ht in Hkey.
  assert (d ∈ q (counted s)) as Hin.
  { unfold q. apply list_elem_of_In, List.filter_In. split; [|by apply bool_decide_eq_true].
    apply list_elem_of_In, documents_elem. by exists k. }
  specialize (Hgone d Hin). cbn beta in Hgone. rewrite <- Hkey, Hk in Hgone. done.
Qed.

(** [returns m s]: it returns, in a state no request before which failed. *)
Definition served_from (s : Documents) : Prop := forall n, (dc_requests s <= n)%nat -> reply n = Served.

Definition returns {A} (m : SaverM A) : Prop := forall s, served_from s -> is_ok (m s).1 = true /\ served_from (m s).2.

Lemma returns_ret {A} (a : A) : returns (mret a).
Proof. done. Qed.

Lemma returns_bind {A B} (m : SaverM A) (f : A -> SaverM B) : returns m -> (forall a, returns (f a)) -> returns (m ≫= f).
Proof.
  intros Hm Hf s Hs. unfold mbind, ST_bind. destruct (Hm s Hs) as [Hok Hs']. destruct (m s) as [[a|e] s1]; [|done]. by apply Hf.
Qed.

Lemma returns_read {A} (f : Documents -> A) : returns (read_documents f).
Proof. intros s Hs. rewrite read_served by (apply Hs; lia). split; [done|]. intros n Hn. apply Hs. cbn in Hn. lia. Qed.

Lemma returns_write f : (forall s, dc_requests (f s) = dc_requests s) -> returns (write_documents f).
Proof.
  intros Hf s Hs. rewrite write_served by (apply Hs; lia). split; [done|]. intros n Hn. apply Hs. cbn in Hn.
  rewrite Hf in Hn. cbn in Hn. lia.
Qed.

Lemma delete_thread_returns t : returns (delete_thread t).
Proof.
  assert (forall entry found, returns (delete_writes entry found)) as Hw.
  { intros entry found. induction found as [|d found IH]; [apply returns_ret|]. cbn [delete_writes].
    apply returns_bind; [by apply returns_write|]. by intros _. }
  assert (forall thread found, returns (delete_entries thread found)) as He.
  { intros thread found. induction found as [|d found IH]; [apply returns_ret|]. cbn [delete_entries].
    apply returns_bind; [apply returns_read|]. intros writes. apply returns_bind; [apply Hw|]. intros _.
    apply returns_bind; [by apply returns_write|]. by intros _. }
  apply returns_bind; [apply returns_read|]. intros found.
  induction found as [|d found IH]; [apply returns_ret|]. cbn [delete_threads].
  apply returns_bind; [apply returns_read|]. intros l. apply returns_bind; [apply He|]. intros _.
  apply returns_bind; [by apply returns_write|]. by intros _.
Qed.

Lemma delete_thread_served t s : served_from s -> (delete_thread t s).1 = Ok tt.
Proof. intros Hs. destruct (delete_thread_returns t s Hs) as [Hok _]. by destruct (delete_thread t s) as [[[]|e] s']. Qed.

End deleting.

(** * Putting *)

Section putting.
Context `{FirestoreLaws} `{Saver}.

Definition thread_of (thread_id checkpoint_ns : string) : ThreadDocument :=
  {| td_thread_id := thread_id; td_checkpoint_ns := checkpoint_ns |}.

Definition entry_of (thread_id checkpoint_ns : string) (config : Config) (checkpoint : Saved)
    (serialized : string * string) (metadata : jobject) : EntryDocument := {|
  ed_thread_id := thread_id; ed_checkpoint_ns := checkpoint_ns; ed_checkpoint_id := saved_id checkpoint;
  ed_parent_checkpoint_id := cf_checkpoint_id config; ed_type := serialized.1; ed_checkpoint := serialized.2;
  ed_metadata := dumps_utf8 (JObj (get_checkpoint_metadata config metadata)) |}.

(** A put leaves the entries as they were, or with this one whole in its place, whatever
    became of its requests; it returns only in the second case. *)
Lemma put_whole config checkpoint metadata s :
  let '(r, s') := put config checkpoint metadata s in
  dc_writes s' = dc_writes s
  /\ ((exists e, r = Err e) /\ dc_entries s' = dc_entries s /\ dc_threads s' = dc_threads s
      \/ exists thread_id checkpoint_ns serialized,
           cf_thread_id config = Some thread_id /\ cf_checkpoint_ns config = Some checkpoint_ns
           /\ dumps_typed checkpoint = Ok serialized
           /\ let thread := thread_document_id thread_id checkpoint_ns in
              dc_threads s' = <[thread := thread_of thread_id checkpoint_ns]> (dc_threads s)
              /\ ((exists e, r = Err e) /\ dc_entries s' = dc_entries s
                  \/ dc_entries s' = <[(thread, saved_id checkpoint) :=
                                        entry_of thread_id checkpoint_ns config checkpoint serialized metadata]> (dc_entries s)
                     /\ (r = Ok (configured thread_id checkpoint_ns (saved_id checkpoint)) \/ exists e, r = Err e))).
Proof.
  unfold put, required. unfold mbind, ST_bind, lift_result.
  destruct (cf_thread_id config) as [thread_id|]; [|split; [done|]; left; eauto].
  destruct (cf_checkpoint_ns config) as [checkpoint_ns|]; [|split; [done|]; left; eauto].
  destruct (dumps_typed checkpoint) as [serialized|e] eqn:Hd; [|split; [done|]; left; eauto].
  destruct (MAX_CHECKPOINT_BYTES <? str_len serialized.2); [split; [done|]; left; eauto|].
  set (thread := thread_document_id thread_id checkpoint_ns).
  match goal with |- context [write_documents ?f s] => set (f1 := f) end.
  destruct (write_cases f1 s) as [->|(e & [->| ->])].
  - match goal with |- context [write_documents ?f (f1 _)] => set (f2 := f) end.
    destruct (write_cases f2 (f1 (counted s))) as [->|(e & [->| ->])]; split; try done; right;
      exists thread_id, checkpoint_ns, serialized; do 3 (split; [done|]); split; try done; eauto.
  - split; [done|]. left. eauto.
  - split; [done|]. right. exists thread_id, checkpoint_ns, serialized. do 3 (split; [done|]). split; [done|]. eauto.
Qed.

Lemma put_well_formed config checkpoint metadata s :
  (forall thread_id, cf_thread_id config = Some thread_id -> plain thread_id = true) ->
  well_formed s -> well_formed (put config checkpoint metadata s).2.
Proof.
  intros Hplain Hwf. pose proof (put_whole config checkpoint metadata s) as Hp.
  destruct (put config checkpoint metadata s) as [r s']. cbn [snd].
  destruct Hp as (Hw & [(_ & He & Ht)|(tid & ns & ser & Htid & _ & _ & Ht & He)]); [by apply (well_formed_ext s)|].
  specialize (Hplain tid Htid). destruct Hwf as [Wt We Ww]. cbn zeta in *.
  set (thread := thread_document_id tid ns) in *.
  assert (forall d, dc_threads s !! thread = Some d -> d = thread_of tid ns) as Hsame.
  { intros [t n] Hd. destruct (Wt _ _ Hd) as [Hk Hpl]. cbn in *.
    by destruct (thread_document_id_inj _ _ _ _ Hplain Hpl Hk) as [-> ->]. }
  assert (forall k d, dc_entries s !! k = Some d ->
    k = (thread_document_id (ed_thread_id d) (ed_checkpoint_ns d), ed_checkpoint_id d)
    /\ dc_threads s' !! k.1 = Some (thread_of (ed_thread_id d) (ed_checkpoint_ns d))) as Hold.
  { intros k d Hk. destruct (We k d Hk) as [Hkey Hd]. split; [done|]. rewrite Ht.
    destruct (decide (k.1 = thread)) as [Heq|Hne]; [|by rewrite lookup_insert_ne].
    rewrite Heq in *. rewrite lookup_insert_eq. f_equal. symmetry. by apply Hsame. }
  split.
  - intros k d. rewrite Ht. intros [[<- <-]|[_ Hk]]%lookup_insert_Some; [by split|by apply Wt].
  - intros k d Hk. destruct He as [[_ He]|[He _]]; rewrite He in Hk; [by apply Hold|].
    apply lookup_insert_Some in Hk as [[<- <-]|[_ Hk]]; [|by apply Hold].
    split; [done|]. cbn. by rewrite Ht, lookup_insert_eq.
  - intros k d. rewrite Hw. apply Ww.
Qed.

(** * Pending writes *)

(** The write documents after putting the writes into them: [INSERT OR REPLACE] when
    every channel is reserved, [INSERT OR IGNORE] otherwise. *)
Definition put_one (replace_all : bool) (key : string * string * string) (d : WriteDocument)
    (m : gmap (string * string * string) WriteDocument) : gmap (string * string * string) WriteDocument :=
  if replace_all then <[key := d]> m else match m !! key with Some _ => m | None => <[key := d]> m end.

Definition write_of (task_id channel : string) (idx : Z) (serialized : string * string) : WriteDocument := {|
  wd_task_id := task_id; wd_idx := idx; wd_channel := channel; wd_type := serialized.1; wd_value := serialized.2 |}.

(** Each write under its name, the values serialized; [None] if one cannot be. *)
Fixpoint named_writes (entry : string * string) (task_id : string) (idx : Z) (writes : list (string * Saved))
    : option (list (string * string * string * WriteDocument)) :=
  match writes with
  | [] => Some []
  | (channel, value) :: writes =>
      match dumps_typed value with
      | Ok serialized =>
          rest ← named_writes entry task_id (idx + 1) writes;
          let idx := resolved_idx channel idx in
          Some ((entry, write_document_id task_id idx, write_of task_id channel idx serialized) :: rest)
      | Err _ => None
      end
  end.

Definition put_all (replace_all : bool) (named : list (string * string * string * WriteDocument))
    (m : gmap (string * string * string) WriteDocument) : gmap (string * string * string) WriteDocument :=
  fold_left (fun m kd => put_one replace_all kd.1 kd.2 m) named m.

Definition same_but_writes (s s' : Documents) : Prop := dc_threads s' = dc_threads s /\ dc_entries s' = dc_entries s.

(** What an attempt leaves is what the first writes of the list leave; all of them if it returned. *)
Lemma put_each_prefix replace_all entry task_id idx writes named s :
  named_writes entry task_id idx writes = Some named ->
  let '(r, s') := put_each replace_all entry task_id idx writes s in
  same_but_writes s s' /\ exists n, dc_writes s' = put_all replace_all (firstn n named) (dc_writes s)
    /\ (r = Ok tt -> firstn n named = named).
Proof.
  revert idx named s. induction writes as [|[channel value] writes IH]; intros idx named s Hn; cbn [named_writes put_each] in *.
  { injection Hn as <-. split; [done|]. by exists O. }
  destruct (dumps_typed value) as [serialized|] eqn:Hd; [|done].
  destruct (named_writes entry task_id (idx + 1) writes) as [rest|] eqn:Hrest; [|done]. injection Hn as <-.
  set (key := (entry, write_document_id task_id (resolved_idx channel idx))).
  set (d := write_of task_id channel (resolved_idx channel idx) serialized).
  assert (forall s1, same_but_writes s s1 -> dc_writes s1 = put_one replace_all key d (dc_writes s) ->
    let '(r, s') := put_each replace_all entry task_id (idx + 1) writes s1 in
    same_but_writes s s' /\ exists n, dc_writes s' = put_all replace_all (firstn n ((key, d) :: rest)) (dc_writes s)
      /\ (r = Ok tt -> firstn n ((key, d) :: rest) = (key, d) :: rest)) as Hrec.
  { intros s1 [Ht He] Hw. specialize (IH (idx + 1) rest s1 Hrest).
    destruct (put_each replace_all entry task_id (idx + 1) writes s1) as [r s']. destruct IH as ([Ht' He'] & n & Hn & Hr).
    split; [by split; congruence|]. exists (S n). cbn [firstn put_all fold_left fst snd]. rewrite <- Hw. split; [done|].
    intros Hok. by rewrite Hr. }
  assert (forall e s1, same_but_writes s s1 -> dc_writes s1 = dc_writes s ->
    same_but_writes s s1 /\ exists n, dc_writes s1 = put_all replace_all (firstn n ((key, d) :: rest)) (dc_writes s)
      /\ (Err e = Ok tt :> res unit -> firstn n ((key, d) :: rest) = (key, d) :: rest)) as Hstop.
  { intros e s1 Hs Hw. split; [done|]. by exists O. }
  assert (forall s1, same_but_writes s s1 -> dc_writes s1 = dc_writes s -> put_one replace_all key d (dc_writes s) = <[key := d]> (dc_writes s) ->
    let '(r, s') := (_ ← (serialized ← lift_result (Ok serialized); write_documents (set_write key (write_of task_id channel (resolved_idx channel idx) serialized)));
                     put_each replace_all entry task_id (idx + 1) writes) s1 in
    same_but_writes s s' /\ exists n, dc_writes s' = put_all replace_all (firstn n ((key, d) :: rest)) (dc_writes s)
      /\ (r = Ok tt -> firstn n ((key, d) :: rest) = (key, d) :: rest)) as Hwrite.
  { intros s1 [Ht He] Hw Hone. unfold mbind, ST_bind, lift_result. fold d.
    destruct (write_cases (set_write key d) s1) as [->|(e & [->| ->])].
    - apply Hrec; [by split|]. cbn. by rewrite Hw, Hone.
    - by apply Hstop.
    - split; [by split|]. exists 1%nat. cbn. by rewrite Hw, Hone. }
  destruct replace_all.
  - unfold mbind at 1, ST_bind at 1, mret, ST_ret. by apply Hwrite.
  - unfold mbind at 1, ST_bind at 1.
    match goal with |- context [read_documents ?f s] => set (q := f) end.
    destruct (read_cases q s) as [->|(e & ->)]; [|by apply Hstop].
    unfold q at 1. case_bool_decide as Hsome.
    + unfold mbind at 1, ST_bind at 1, mret, ST_ret. apply Hrec; [by split|].
      unfold put_one. cbn in Hsome |- *. by destruct Hsome as [x ->].
    + apply Hwrite; [by split|done|]. unfold put_one. cbn in Hsome. destruct (dc_writes s !! key); [|done]. by destruct Hsome.
Qed.

Definition written (replace_all : bool) (named : list (string * string * string * WriteDocument))
    (m : gmap (string * string * string) WriteDocument) : gmap (string * string * string) WriteDocument :=
  if replace_all then list_to_map (reverse named) ∪ m else m ∪ list_to_map named.

Lemma put_all_written replace_all named m : put_all replace_all named m = written replace_all named m.
Proof.
  unfold put_all, written. destruct replace_all; revert m; induction named as [|[k d] named IH]; intros m; cbn [fold_left fst snd].
  - cbn. by rewrite (left_id_L ∅ (∪)).
  - rewrite IH, reverse_cons, list_to_map_app.
    change (list_to_map [(k, d)]) with (<[k:=d]> (∅ : gmap (string * string * string) WriteDocument)).
    apply map_eq. intros k'. unfold put_one. rewrite !lookup_union.
    destruct (decide (k' = k)) as [->|Hne].
    + rewrite !lookup_insert_eq. by repeat match goal with |- context [?x !! k] => destruct (x !! k) end.
    + rewrite !lookup_insert_ne, lookup_empty by done. by repeat match goal with |- context [?x !! k'] => destruct (x !! k') end.
  - cbn. by rewrite (right_id_L ∅ (∪)).
  - rewrite IH. cbn [list_to_map foldr fst snd]. apply map_eq. intros k'. unfold put_one. rewrite !lookup_union.
    destruct (decide (k' = k)) as [->|Hne].
    + rewrite lookup_insert_eq. destruct (m !! k) as [x|] eqn:Hm; rewrite ?Hm, ?lookup_insert_eq;
        by repeat match goal with |- context [?x !! k] => destruct (x !! k) end.
    + rewrite lookup_insert_ne by done. destruct (m !! k); [done|]. by rewrite lookup_insert_ne.
Qed.

(** Putting a list again over what its first writes left is putting it once. *)
Lemma written_again replace_all named n m :
  written replace_all named (written replace_all (firstn n named) m) = written replace_all named m.
Proof.
  rewrite <- (firstn_skipn n named) at 1 3. set (a := firstn n named). set (b := skipn n named).
  unfold written. apply map_eq. intros k. destruct replace_all; rewrite ?reverse_app, !list_to_map_app, !lookup_union.
  - by repeat match goal with |- context [?x !! k] => destruct (x !! k) end.
  - by repeat match goal with |- context [?x !! k] => destruct (x !! k) end.
Qed.

(** An attempt leaves nothing that a later one would not have written. *)
Lemma put_writes_attempt config writes task_id thread_id checkpoint_ns checkpoint_id named s :
  cf_thread_id config = Some thread_id -> cf_checkpoint_ns config = Some checkpoint_ns ->
  cf_checkpoint_id config = Some checkpoint_id ->
  named_writes (thread_document_id thread_id checkpoint_ns, checkpoint_id) task_id 0 writes = Some named ->
  let replace_all := forallb (fun w => reserved_channel w.1) writes in
  let '(r, s') := put_writes config writes task_id s in
  same_but_writes s s'
  /\ written replace_all named (dc_writes s') = written replace_all named (dc_writes s)
  /\ (r = Ok tt -> dc_writes s' = written replace_all named (dc_writes s)).
Proof.
  intros Ht Hns Hid Hnamed replace_all. unfold put_writes, required. rewrite Ht, Hns, Hid.
  unfold mbind, ST_bind, lift_result. fold replace_all.
  pose proof (put_each_prefix replace_all _ task_id 0 writes named s Hnamed) as Hp.
  destruct (put_each replace_all _ task_id 0 writes s) as [r s']. destruct Hp as (Hs & n & Hn & Hr).
  split; [done|]. rewrite Hn, put_all_written. split; [apply written_again|]. intros Hok. by rewrite Hr.
Qed.

(** When requests are served, putting writes and deleting return. *)
Lemma put_each_served replace_all entry task_id idx writes named s :
  named_writes entry task_id idx writes = Some named ->
  (forall n, (dc_requests s <= n)%nat -> reply n = Served) ->
  (put_each replace_all entry task_id idx writes s).1 = Ok tt.
Proof.
  revert idx named s. induction writes as [|[channel value] writes IH]; intros idx named s Hn Hs; cbn [named_writes put_each] in *; [done|].
  destruct (dumps_typed value) as [serialized|]; [|done].
  destruct (named_writes entry task_id (idx + 1) writes) as [rest|] eqn:Hrest; [|done].
  unfold mbind, ST_bind, mret, ST_ret, lift_result.
  assert (forall s1, (dc_requests s <= dc_requests s1)%nat -> (put_each replace_all entry task_id (idx + 1) writes s1).1 = Ok tt) as Hrec.
  { intros s1 Hle. apply (IH _ rest); [done|]. intros n Hn'. apply Hs. lia. }
  destruct replace_all.
  - rewrite write_served by (apply Hs; lia). apply Hrec. cbn. lia.
  - rewrite read_served by (apply Hs; lia). case_bool_decide; [apply Hrec; cbn; lia|].
    rewrite write_served by (apply Hs; cbn; lia). apply Hrec. cbn. lia.
Qed.

Lemma put_writes_served config writes task_id thread_id checkpoint_ns checkpoint_id named s :
  cf_thread_id config = Some thread_id -> cf_checkpoint_ns config = Some checkpoint_ns ->
  cf_checkpoint_id config = Some checkpoint_id ->
  named_writes (thread_document_id thread_id checkpoint_ns, checkpoint_id) task_id 0 writes = Some named ->
  (forall n, (dc_requests s <= n)%nat -> reply n = Served) ->
  (put_writes config writes task_id s).1 = Ok tt.
Proof.
  intros Ht Hns Hid Hnamed Hs. unfold put_writes, required, mbind, ST_bind, lift_result. rewrite Ht, Hns, Hid.
  by apply (put_each_served _ _ _ _ _ named).
Qed.

Lemma put_each_well_formed replace_all entry task_id idx writes s :
  well_formed s -> well_formed (put_each replace_all entry task_id idx writes s).2.
Proof.
  revert idx s. induction writes as [|[channel value] writes IH]; intros idx s Hwf; cbn [put_each]; [done|].
  assert (forall s, well_formed s -> well_formed (counted s)) as Hc by (intros s'; by apply well_formed_ext).
  set (key := (entry, write_document_id task_id (resolved_idx channel idx))).
  assert (forall s1, well_formed s1 ->
    well_formed ((_ ← (serialized ← lift_result (dumps_typed value);
                       write_documents (set_write key (write_of task_id channel (resolved_idx channel idx) serialized)));
                  put_each replace_all entry task_id (idx + 1) writes) s1).2) as Hwrite.
  { intros s1 Hw. unfold mbind, ST_bind, lift_result. destruct (dumps_typed value) as [serialized|e]; [|done].
    set (d := write_of task_id channel (resolved_idx channel idx) serialized).
    assert (well_formed (set_write key d (counted s1))) as Hd.
    { destruct Hw as [Wt We Ww]. split; [exact Wt|exact We|]. intros k d' Hk. cbn in Hk.
      apply lookup_insert_Some in Hk as [[<- <-]|[_ Hk]]; [done|by apply Ww]. }
    destruct (write_cases (set_write key d) s1) as [->|(e & [->| ->])]; [by apply IH|by apply Hc|done]. }
  destruct replace_all; [by apply Hwrite|]. unfold mbind at 1, ST_bind at 1.
  match goal with |- context [read_documents ?f s] => set (q := f) end.
  destruct (read_cases q s) as [->|(e & ->)]; [|by apply Hc].
  destruct (q (counted s)); [apply IH, Hc, Hwf|apply Hwrite, Hc, Hwf].
Qed.

Lemma put_writes_well_formed config writes task_id s : well_formed s -> well_formed (put_writes config writes task_id s).2.
Proof.
  intros Hwf. unfold put_writes, required, mbind, ST_bind, lift_result.
  destruct (cf_thread_id config); [|done]. destruct (cf_checkpoint_ns config); [|done].
  destruct (cf_checkpoint_id config); [|done]. by apply put_each_well_formed.
Qed.
End putting.

(** * Reading *)

Section reading_back.
Context `{FirestoreLaws} `{SaverLaws}.

(** A computation that changes no document. *)
Definition peeks {A} (m : SaverM A) : Prop := forall s,
  dc_threads (m s).2 = dc_threads s /\ dc_entries (m s).2 = dc_entries s /\ dc_writes (m s).2 = dc_writes s.

Lemma peeks_bind {A B} (m : SaverM A) (f : A -> SaverM B) : peeks m -> (forall a, peeks (f a)) -> peeks (m ≫= f).
Proof.
  intros Hm Hf s. unfold mbind, ST_bind. specialize (Hm s). destruct (m s) as [[a|e] s1]; [|done]. cbn in Hm |- *.
  destruct (Hf a s1) as (-> & -> & ->). done.
Qed.

Lemma peeks_lift {A} (r : res A) : peeks (lift_result r).
Proof. done. Qed.

Lemma peeks_ret {A} (a : A) : peeks (mret a).
Proof. done. Qed.

Lemma peeks_documents {A} (f : Documents -> A) : peeks (read_documents f).
Proof. intros s. destruct (read_cases f s) as [->|(e & ->)]; done. Qed.

Lemma peeks_writes entry sort : peeks (read_writes entry sort).
Proof. apply peeks_bind; [apply peeks_documents|]. intros. apply peeks_lift. Qed.

Lemma get_tuple_reads config : peeks (get_tuple config).
Proof.
  apply peeks_bind; [apply peeks_lift|]. intros thread_id. apply peeks_bind.
  - destruct (get_checkpoint_id config); (apply peeks_bind; [apply peeks_documents|]; intros; apply peeks_ret).
  - intros [[id data]|]; [|apply peeks_ret]. apply peeks_bind; [apply peeks_writes|]. intros.
    do 2 (apply peeks_bind; [apply peeks_lift|]; intros). apply peeks_ret.
Qed.

Lemma list_from_reads thread_id checkpoint_ns filter found : peeks (list_from thread_id checkpoint_ns filter found).
Proof.
  induction found as [|d found IH]; [apply peeks_ret|]. cbn [list_from]. apply peeks_bind.
  - destruct filter; [apply peeks_ret|apply peeks_lift].
  - intros []; [|exact IH]. cbn [negb]. do 2 (apply peeks_bind; [apply peeks_lift|]; intros).
    apply peeks_bind; [apply peeks_writes|]. intros. apply peeks_bind; [exact IH|]. intros. apply peeks_ret.
Qed.

Lemma list_tuples_reads config filter before limit : peeks (list_tuples config filter before limit).
Proof.
  destruct config as [config|]; [|done]. apply peeks_bind; [apply peeks_lift|]. intros.
  apply peeks_bind; [apply peeks_documents|]. intros. apply list_from_reads.
Qed.

(** ** Metadata *)

Definition ascii_text (s : string) : bool := forallb (fun c => code c <=? 126) (String.list_ascii_of_string s).

Fixpoint ascii_json (j : json) : bool :=
  match j with
  | JStr s => ascii_text s
  | JArr l => forallb ascii_json l
  | JObj d => forallb (fun kv => match kv with (k, v) => ascii_text k && ascii_json v end) d
  | _ => true
  end.

Lemma utf8_string_ascii s : ascii_text s = true -> utf8_string s = json_string s.
Proof.
  unfold utf8_string, json_string, ascii_text. intros Ha. f_equal. f_equal.
  induction s as [|c s IH]; [done|]. cbn in Ha |- *. apply andb_prop in Ha as [Hc Ha].
  rewrite IH by done. f_equal. unfold utf8_char. destruct (Z.ltb_spec 126 (code c)); [|done]. lia.
Qed.

(** Without a character past ASCII, [ensure_ascii] makes no difference. *)
Lemma dumps_utf8_ascii j : ascii_json j = true -> dumps_utf8 j = json_dumps j.
Proof.
  unfold json_dumps. induction j as [| | | |s|l IH|d IH] using json_nested; try done; cbn [ascii_json dumps_utf8 dumps].
  - apply utf8_string_ascii.
  - rewrite forallb_forall. intros Ha. do 3 f_equal. apply List.map_ext_in. intros j Hj.
    rewrite Forall_forall in IH. apply IH; [by apply list_elem_of_In|auto].
  - rewrite forallb_forall. intros Ha. unfold dumps_object. do 3 f_equal. rewrite <- list_fmap_compose.
    apply List.map_ext_in. intros [k v] Hj. rewrite Forall_forall in IH.
    specialize (Ha _ Hj). cbn in Ha. apply andb_prop in Ha as [Hk Hv]. cbn.
    rewrite (utf8_string_ascii k Hk). do 3 f_equal. apply (IH (k, v)); [by apply list_elem_of_In|done].
Qed.

Lemma metadata_read_back j :
  ascii_json j = true -> @json_written Unhooked j = true -> metadata_of (dumps_utf8 j) = Ok j.
Proof.
  intros Ha Hw. rewrite dumps_utf8_ascii by done. unfold metadata_of.
  change (json_dumps j) with (dumps false ("," +:+ " ") (":" +:+ " ") j).
  by rewrite (@json_loads_dumps Unhooked false " " " " j).
Qed.

(** ** The newest entry *)

Lemma newest_is_first l d :
  d ∈ l -> (forall x, x ∈ l -> String.le (ed_checkpoint_id x) (ed_checkpoint_id d)) ->
  (forall x, x ∈ l -> ed_checkpoint_id x = ed_checkpoint_id d -> x = d) ->
  firstn 1 (newest_first l) = [d].
Proof.
  intros Hd Hle Huniq. unfold newest_first.
  assert (Transitive newer) by (intros x y z; unfold newer; intros; by transitivity (ed_checkpoint_id y)).
  assert (Total newer) as Htot by (intros x y; unfold newer; apply (total String.le)).
  pose proof (StronglySorted_merge_sort newer l) as Hsort. pose proof (merge_sort_Permutation newer l) as Hperm.
  destruct (merge_sort newer l) as [|h t]; [by rewrite <- Hperm in Hd; apply elem_of_nil in Hd|].
  cbn. f_equal. assert (h ∈ l) as Hh by (rewrite <- Hperm; by left).
  apply Huniq; [done|]. apply (anti_symm String.le); [by apply Hle|].
  rewrite <- Hperm in Hd. apply elem_of_cons in Hd as [->|Hd]; [done|].
  apply StronglySorted_inv in Hsort as [_ Hall]. rewrite Forall_forall in Hall. by apply Hall.
Qed.

(** An entry that can be loaded is what [get_tuple] gives for its id, and without an id
    when it is the latest of its thread. *)
Lemma get_tuple_stored thread_id checkpoint_ns d value metadata pending s :
  let thread := thread_document_id thread_id checkpoint_ns in
  let id := ed_checkpoint_id d in
  dc_entries s !! (thread, id) = Some d -> loads_typed (ed_type d, ed_checkpoint d) = Ok value ->
  metadata_of (ed_metadata d) = Ok metadata ->
  mapM pending_of (merge_sort write_le (writes_under (thread, id) s)) = Ok pending ->
  (forall n, (dc_requests s <= n)%nat -> reply n = Served) ->
  let tuple := {| ct_config := configured thread_id checkpoint_ns id; ct_checkpoint := value; ct_metadata := metadata;
                  ct_parent_config := parent_of thread_id checkpoint_ns (ed_parent_checkpoint_id d);
                  ct_pending_writes := pending |} in
  (get_tuple (ct_config tuple) s).1 = Ok (Some tuple)
  /\ (well_formed s -> (forall id' d', dc_entries s !! (thread, id') = Some d' -> String.le id' id) ->
      (get_tuple {| cf_thread_id := Some thread_id; cf_checkpoint_ns := Some checkpoint_ns; cf_checkpoint_id := None |} s).1
      = Ok (Some tuple)).
Proof.
  intros thread id Hd Hload Hmeta Hpending Hserved tuple.
  assert (forall n s1, dc_requests s1 = (n + dc_requests s)%nat -> reply (dc_requests s1) = Served) as Hnow.
  { intros n s1 ->. apply Hserved. lia. }
  assert (read_writes (thread, id) true (counted s) = (Ok pending, counted (counted s))) as Hwrites.
  { unfold read_writes, mbind, ST_bind. rewrite read_served by (apply (Hnow 1%nat); done).
    change (writes_under (thread, id) (counted (counted s))) with (writes_under (thread, id) s).
    unfold lift_result. by rewrite Hpending. }
  unfold get_tuple. rewrite !checkpoint_id_read. unfold mbind, ST_bind, lift_result, mret, ST_ret, required.
  cbn [tuple ct_config configured cf_thread_id cf_checkpoint_ns cf_checkpoint_id default from_option Datatypes.id]. fold thread.
  rewrite !read_served by (by apply (Hnow O)). split.
  - change (dc_entries (counted s)) with (dc_entries s). rewrite Hd.
    cbn [fmap option_fmap option_map]. by rewrite Hwrites, Hload, Hmeta.
  - intros Hwf Hlatest. rewrite (newest_is_first (entries thread (counted s)) d).
    + cbn [head fmap option_fmap option_map]. fold id. by rewrite Hwrites, Hload, Hmeta.
    + apply entries_elem. by exists id.
    + intros x (id' & Hid)%entries_elem. destruct (wf_entry _ Hwf _ _ Hid) as [[= _ <-] _]. by apply (Hlatest id' x).
    + intros x (id' & Hid)%entries_elem Hsame. destruct (wf_entry _ Hwf _ _ Hid) as [[= _ ->] _].
      change (dc_entries s !! (thread, ed_checkpoint_id x) = Some x) in Hid. rewrite Hsame in Hid. fold id in Hid. congruence.
Qed.
End reading_back.

(** * Theorems *)

Section saver_theorems.
Context `{FirestoreLaws} `{SaverLaws}.

(** The operations, in whatever order they are asked. *)
Inductive saver_op :=
  | OGet (config : Config)
  | OList (config : option Config) (filter : jobject) (before : option Config) (limit : option nat)
  | OPut (config : Config) (checkpoint : Saved) (metadata : jobject)
  | OPutWrites (config : Config) (writes : list (string * Saved)) (task_id : string)
  | ODelete (thread_id : string).

Definition after (s : Documents) (op : saver_op) : Documents :=
  match op with
  | OGet config => (get_tuple config s).2
  | OList config filter before limit => (list_tuples config filter before limit s).2
  | OPut config checkpoint metadata => (put config checkpoint metadata s).2
  | OPutWrites config writes task_id => (put_writes config writes task_id s).2
  | ODelete thread_id => (delete_thread thread_id s).2
  end.

(** A thread is created under a plain id. *)
Definition plain_op (op : saver_op) : Prop :=
  match op with
  | OPut config _ _ => forall thread_id, cf_thread_id config = Some thread_id -> plain thread_id = true
  | _ => True
  end.

Lemma after_well_formed s op : plain_op op -> well_formed s -> well_formed (after s op).
Proof.
  intros Hop Hwf. destruct op; cbn [after plain_op] in *.
  - destruct (get_tuple_reads config s) as (? & ? & ?). by apply (well_formed_ext s).
  - destruct (list_tuples_reads config filter before limit s) as (? & ? & ?). by apply (well_formed_ext s).
  - by apply put_well_formed.
  - by apply put_writes_well_formed.
  - pose proof (delete_thread_shrinks thread_id s Hwf) as Hd. destruct (delete_thread thread_id s) as [r s'].
    exact (shrinks_well_formed _ _ _ (proj1 Hd) Hwf).
Qed.

Lemma history_well_formed ops : Forall plain_op ops -> well_formed (fold_left after ops empty_documents).
Proof.
  assert (forall s, well_formed s -> Forall plain_op ops -> well_formed (fold_left after ops s)) as Hall.
  { induction ops as [|op ops IH]; intros s Hwf Hops; [done|]. apply Forall_cons in Hops as [Hop Hops].
    cbn. apply IH; [by apply after_well_formed|done]. }
  apply Hall, empty_well_formed.
Qed.

(** C30: a checkpoint is stored whole or not at all, whatever becomes of a put's requests:
    only its own entry changes, and no pending write.  Once the put's entry is there and
    requests are served, [get_tuple] gives the checkpoint and its metadata back with its
    parent and its pending writes; and so it does without an id, when no entry of the
    thread has a later one. *)
Theorem put_is_read_back ops config checkpoint metadata thread_id checkpoint_ns serialized pending r s' :
  Forall plain_op ops -> plain thread_id = true ->
  let s := fold_left after ops empty_documents in
  let thread := thread_document_id thread_id checkpoint_ns in
  cf_thread_id config = Some thread_id -> cf_checkpoint_ns config = Some checkpoint_ns ->
  dumps_typed checkpoint = Ok serialized ->
  ascii_json (JObj (get_checkpoint_metadata config metadata)) = true ->
  @json_written Unhooked (JObj (get_checkpoint_metadata config metadata)) = true ->
  mapM pending_of (merge_sort write_le (writes_under (thread, saved_id checkpoint) s)) = Ok pending ->
  put config checkpoint metadata s = (r, s') ->
  (forall n, (dc_requests s' <= n)%nat -> reply n = Served) ->
  let tuple := {| ct_config := configured thread_id checkpoint_ns (saved_id checkpoint); ct_checkpoint := checkpoint;
                  ct_metadata := JObj (get_checkpoint_metadata config metadata);
                  ct_parent_config := parent_of thread_id checkpoint_ns (cf_checkpoint_id config);
                  ct_pending_writes := pending |} in
  dc_writes s' = dc_writes s
  /\ (forall k, k <> (thread, saved_id checkpoint) -> dc_entries s' !! k = dc_entries s !! k)
  /\ ((exists e, r = Err e) /\ dc_entries s' = dc_entries s
      \/ (r = Ok (ct_config tuple) \/ exists e, r = Err e)
         /\ (get_tuple (ct_config tuple) s').1 = Ok (Some tuple)
         /\ ((forall id d, dc_entries s !! (thread, id) = Some d -> String.le id (saved_id checkpoint)) ->
             (get_tuple {| cf_thread_id := Some thread_id; cf_checkpoint_ns := Some checkpoint_ns; cf_checkpoint_id := None |} s').1
             = Ok (Some tuple))).
Proof.
  intros Hops Hplain s thread Htid Hns Hdump Hascii Hwritten Hpending Hput Hserved tuple.
  pose proof (history_well_formed ops Hops) as Hwf. fold s in Hwf.
  pose proof (put_whole config checkpoint metadata s) as Hwhole. rewrite Hput in Hwhole.
  destruct Hwhole as (Hw & Hcases). split; [done|].
  destruct Hcases as [(Hr & He & _)|(tid & ns & ser & Htid' & Hns' & Hdump' & _ & He)];
    [split; [intros k _; by rewrite He|left; by split]|].
  rewrite Htid in Htid'. rewrite Hns in Hns'. rewrite Hdump in Hdump'. simplify_eq. cbn zeta in He.
  destruct He as [[Hr He]|[He Hr]]; [split; [intros k _; by rewrite He|left; by split]|].
  fold thread in He. set (d := entry_of tid ns config checkpoint ser metadata) in *.
  split; [intros k Hk; rewrite He; by rewrite lookup_insert_ne|]. right. split; [done|].
  destruct (get_tuple_stored tid ns d checkpoint (JObj (get_checkpoint_metadata config metadata)) pending s') as [Hget Hget'].
  - by rewrite He, lookup_insert_eq.
  - apply loads_dumps. rewrite Hdump. by destruct ser.
  - by apply metadata_read_back.
  - unfold writes_under. rewrite Hw. exact Hpending.
  - done.
  - split; [exact Hget|]. intros Hlatest. apply Hget'.
    + assert (s' = (put config checkpoint metadata s).2) as -> by (by rewrite Hput).
      apply put_well_formed; [|done]. intros t Ht. by simplify_eq.
    + intros id' d'. rewrite He. intros [[[= <-] _]|[_ Hid]]%lookup_insert_Some; [done|by apply (Hlatest id' d')].
Qed.

(** C31: an attempt to put writes may stop at any request.  However many did, the first one
    that returns leaves the write documents exactly as one attempt that never failed
    would have: replacing what stood under their names when every channel is reserved,
    keeping what stood there otherwise; nothing else changes.  When requests are served
    it returns. *)
Theorem put_writes_retried config writes task_id thread_id checkpoint_ns checkpoint_id named attempts s r s' :
  cf_thread_id config = Some thread_id -> cf_checkpoint_ns config = Some checkpoint_ns ->
  cf_checkpoint_id config = Some checkpoint_id ->
  named_writes (thread_document_id thread_id checkpoint_ns, checkpoint_id) task_id 0 writes = Some named ->
  let s1 := Nat.iter attempts (fun s => (put_writes config writes task_id s).2) s in
  put_writes config writes task_id s1 = (r, s') ->
  dc_threads s' = dc_threads s /\ dc_entries s' = dc_entries s
  /\ (r = Ok tt ->
      dc_writes s' = if forallb (fun w => reserved_channel w.1) writes
                     then list_to_map (reverse named) ∪ dc_writes s
                     else dc_writes s ∪ list_to_map named)
  /\ ((forall n, (dc_requests s1 <= n)%nat -> reply n = Served) -> r = Ok tt).
Proof.
  intros Ht Hns Hid Hnamed s1 Hrun. set (replace_all := forallb (fun w => reserved_channel w.1) writes).
  pose proof (fun s => put_writes_attempt config writes task_id thread_id checkpoint_ns checkpoint_id named s Ht Hns Hid Hnamed)
    as Hattempt. cbn zeta in Hattempt. fold replace_all in Hattempt.
  assert (same_but_writes s s1 /\ written replace_all named (dc_writes s1) = written replace_all named (dc_writes s)) as [[Ht1 He1] Hw1].
  { clear Hrun r s'. unfold s1. induction attempts as [|n [[IHt IHe] IHw]]; [done|]. change (Nat.iter (S n) ?f s) with (f (Nat.iter n f s)).
    set (s2 := Nat.iter n _ s) in *. cbn beta.
    specialize (Hattempt s2). destruct (put_writes config writes task_id s2) as [r s']. destruct Hattempt as ([] & Hw & _).
    split; [split; cbn [snd]; congruence|]. cbn [snd]. congruence. }
  specialize (Hattempt s1). pose proof (put_writes_served config writes task_id thread_id checkpoint_ns checkpoint_id named s1 Ht Hns Hid Hnamed) as Hserved.
  rewrite Hrun in Hattempt, Hserved. cbn [fst] in Hserved. destruct Hattempt as ([] & Hw & Hr).
  split_and!; [congruence|congruence| |exact Hserved]. intros Hok. rewrite (Hr Hok). exact Hw1.
Qed.

(** C29: deleting a thread may stop at any request; nothing but documents of that thread is
    ever removed, and its own go before the one they hang from.  So however many attempts
    stopped, one that returns leaves no document of the thread, no entry of it and no
    write under an entry it had, and every other document as it was.  When requests are
    served it returns. *)
Theorem delete_thread_completes ops thread_id attempts r s' :
  Forall plain_op ops -> plain thread_id = true ->
  let s := fold_left after ops empty_documents in
  let s1 := Nat.iter attempts (fun s => (delete_thread thread_id s).2) s in
  delete_thread thread_id s1 = (r, s') ->
  (r = Ok tt ->
     (forall k d, dc_threads s' !! k = Some d -> td_thread_id d <> thread_id)
     /\ (forall k d, dc_entries s' !! k = Some d -> ed_thread_id d <> thread_id)
     /\ (forall k d w, dc_entries s !! k = Some d -> ed_thread_id d = thread_id -> dc_writes s' !! (k, w) = None))
  /\ (forall k d, dc_threads s !! k = Some d -> td_thread_id d <> thread_id -> dc_threads s' !! k = Some d)
  /\ (forall k d, dc_entries s !! k = Some d -> ed_thread_id d <> thread_id ->
       dc_entries s' !! k = Some d /\ forall w, dc_writes s' !! (k, w) = dc_writes s !! (k, w))
  /\ ((forall n, (dc_requests s1 <= n)%nat -> reply n = Served) -> r = Ok tt).
Proof.
  intros Hops Hplain s s1 Hrun. pose proof (history_well_formed ops Hops) as Hwf. fold s in Hwf.
  assert (shrinks thread_id s s1) as Hs1.
  { clear Hrun r s'. unfold s1. induction attempts as [|n IH]; [apply shrinks_refl|]. change (Nat.iter (S n) ?f s) with (f (Nat.iter n f s)).
    set (s2 := Nat.iter n _ s) in *. cbn beta.
    pose proof (delete_thread_shrinks thread_id s2 (shrinks_well_formed _ _ _ IH Hwf)) as Hd.
    destruct (delete_thread thread_id s2) as [r s']. eapply shrinks_trans; [exact IH|apply Hd]. }
  pose proof (shrinks_well_formed _ _ _ Hs1 Hwf) as Hwf1.
  pose proof (delete_thread_shrinks thread_id s1 Hwf1) as Hd. pose proof (delete_thread_served thread_id s1) as Hserved.
  rewrite Hrun in Hd, Hserved. cbn [fst] in Hserved. destruct Hd as [Hs2 Hgone].
  pose proof (shrinks_trans _ _ _ _ Hs1 Hs2) as Hs. pose proof (shrinks_well_formed _ _ _ Hs Hwf) as Hwf'.
  assert (forall k d, dc_entries s !! k = Some d -> of_thread thread_id k.1 -> ed_thread_id d = thread_id) as Hown.
  { intros k d Hk [ns Hns]. destruct (wf_entry _ Hwf k d Hk) as [Heq Hth]. destruct (wf_thread _ Hwf _ _ Hth) as [_ Hp].
    rewrite Heq in Hns. cbn in Hns, Hp. symmetry in Hns. by destruct (thread_document_id_inj _ _ _ _ Hplain Hp Hns). }
  split; [|split; [|split]]; [intros Hr|..|exact Hserved].
  - specialize (Hgone Hr).
    assert (forall k d, dc_entries s' !! k = Some d -> ed_thread_id d <> thread_id) as Hnone.
    { intros k d Hk. destruct (wf_entry _ Hwf' k d Hk) as [_ Hth]. by apply (Hgone _ _ Hth). }
    split_and!; [done|done|]. intros k d w Hk Hd.
    destruct (sh_entries _ _ _ Hs k) as [Hsame|(_ & _ & Hw)]; [|done]. rewrite Hk in Hsame. by destruct (Hnone k d Hsame).
  - intros k d Hk Hne. destruct (sh_threads _ _ _ Hs k) as [->|([ns ->] & _)]; [done|]. destruct Hne.
    destruct (wf_thread _ Hwf _ _ Hk) as [Heq Hp]. by destruct (thread_document_id_inj _ _ _ _ Hplain Hp Heq).
  - intros k d Hk Hne. destruct (sh_entries _ _ _ Hs k) as [->|(Hof & _)]; [|destruct Hne; by apply (Hown k d)].
    split; [done|]. intros w. destruct (sh_writes _ _ _ Hs (k, w)) as [->|[Hof _]]; [done|]. destruct Hne. by apply (Hown k d).
Qed.
End saver_theorems.

(** * Versions *)

Lemma digits_value_bounds acc s :
  all_digits s = true ->
  acc * 10 ^ Z.of_nat (String.length s) <= digits_value acc s < (acc + 1) * 10 ^ Z.of_nat (String.length s).
Proof.
  revert acc. induction s as [|c s IH]; intros acc Ha; [cbn; lia|]. unfold all_digits in Ha. cbn in Ha.
  apply andb_prop in Ha as [Hc Ha]. specialize (IH (10 * acc + (code c - 48)) Ha).
  change (String.length (String c s)) with (S (String.length s)). cbn [digits_value].
  rewrite Nat2Z.inj_succ, Z.pow_succ_r by lia. unfold is_digit in Hc.
  assert (0 < 10 ^ Z.of_nat (String.length s)) by (apply Z.pow_pos_nonneg; lia).
  assert (0 <= code c - 48 <= 9) as Hd by lia. nia.
Qed.

Lemma compare_ascii c d : code c < code d -> Ascii.compare c d = Lt.
Proof. unfold code. intros Hlt. unfold Ascii.compare. apply N.compare_lt_iff. lia. Qed.

(** Digits of one length are ordered as the numbers they write, whatever follows. *)
Lemma digits_ordered s t x y acc :
  all_digits s = true -> all_digits t = true -> String.length s = String.length t ->
  digits_value acc s < digits_value acc t -> String.compare (s +:+ x) (t +:+ y) = Lt.
Proof.
  revert t acc. induction s as [|c s IH]; intros [|d t] acc Hs Ht Hlen Hlt; try done; [cbn in Hlt; lia|].
  rewrite !string_app_cons. cbn [String.compare]. pose proof Hs as Hs'. pose proof Ht as Ht'. unfold all_digits in Hs, Ht. cbn in Hs, Ht.
  apply andb_prop in Hs as [Hc Hs]. apply andb_prop in Ht as [Hd Ht]. injection Hlen as Hlen.
  cbn [digits_value] in Hlt. destruct (Z.compare_spec (code c) (code d)) as [Heq|Hcd|Hcd].
  - assert (c = d) as <-.
    { unfold code in Heq. apply N2Z.inj in Heq. rewrite <- (Ascii.ascii_N_embedding c), <- (Ascii.ascii_N_embedding d). by f_equal. }
    assert (Ascii.compare c c = Eq) as -> by (unfold Ascii.compare; apply N.compare_refl). by eapply IH.
  - by rewrite compare_ascii.
  - pose proof (digits_value_bounds (10 * acc + (code c - 48)) s Hs) as Hbs.
    pose proof (digits_value_bounds (10 * acc + (code d - 48)) t Ht) as Hbt. rewrite Hlen in Hbs.
    assert (0 < 10 ^ Z.of_nat (String.length t)) by (apply Z.pow_pos_nonneg; lia). nia.
Qed.

Lemma zeros_digits n s :
  all_digits s = true ->
  all_digits (zeros n +:+ s) = true /\ digits_value 0 (zeros n +:+ s) = digits_value 0 s
  /\ String.length (zeros n +:+ s) = (Z.to_nat n + String.length s)%nat.
Proof.
  unfold zeros. intros Ha. induction (Z.to_nat n) as [|m IH]; [by split_and!|].
  assert (String.concat "" (replicate (S m) "0") = String (char_of 48) (String.concat "" (replicate m "0"))) as ->.
  { by destruct m. }
  rewrite string_app_cons. destruct IH as (Ha' & Hv & Hl). split_and!; [exact Ha'|exact Hv|].
  change (String.length (String ?c ?s)) with (S (String.length s)). by rewrite Hl.
Qed.

Lemma digits_head s : all_digits s = true -> match s with String c _ => is_digit c = true | EmptyString => True end.
Proof. destruct s; [done|]. unfold all_digits. cbn. by intros [Hc _]%andb_prop. Qed.

(** The padded number of a version: as many digits as the field is wide. *)
Lemma padded_digits v k :
  0 <= v < 10 ^ Z.of_nat k -> (1 <= k)%nat ->
  all_digits (zero_pad k (str_of_Z v)) = true /\ digits_value 0 (zero_pad k (str_of_Z v)) = v
  /\ String.length (zero_pad k (str_of_Z v)) = k.
Proof.
  intros Hv Hk. destruct (str_of_Z_digits v k Hv Hk) as (Ha & Hval & Hlen).
  unfold zero_pad. pose proof (digits_head _ Ha) as Hc. destruct (str_of_Z v) as [|c rest] eqn:Hs; [cbn in Hlen; lia|].
  unfold is_digit in Hc. rewrite (proj2 (Z.eqb_neq (code c) 45)) by lia. rewrite <- Hs in *.
  destruct (zeros_digits (Z.of_nat (k - String.length (str_of_Z v))) (str_of_Z v) Ha) as (? & Hv' & Hl).
  split_and!; [done|congruence|]. rewrite Hl, Nat2Z.id. lia.
Qed.

Lemma digits_solid s : all_digits s = true -> py_strip s = s.
Proof.
  assert (forall s, all_digits s = true -> rstrip s = s) as Hr.
  { clear s. induction s as [|c s IH]; [done|]. unfold all_digits. cbn. intros [Hc Ha]%andb_prop.
    rewrite (IH Ha). destruct s; [|done]. unfold py_isspace, is_digit in *.
    destruct (_ || _) eqn:Hsp in |- *; [lia|done]. }
  intros Ha. unfold py_strip. assert (lstrip s = s) as ->; [|by apply Hr].
  pose proof (digits_head s Ha) as Hc. destruct s as [|c s]; [done|]. cbn.
  unfold py_isspace, is_digit in *. destruct (_ || _) eqn:Hsp in |- *; [lia|done].
Qed.

Lemma digits_from_all acc count s :
  all_digits s = true -> digits_from acc count s = (digits_value acc s, count + str_len s, EmptyString).
Proof.
  revert acc count. induction s as [|c s IH]; intros acc count Ha; [cbn; by rewrite Z.add_0_r|].
  unfold all_digits in Ha. cbn in Ha. apply andb_prop in Ha as [Hc Ha]. cbn [digits_from digits_value].
  rewrite Hc, (IH _ _ Ha). unfold str_len. change (String.length (String c s)) with (S (String.length s)).
  f_equal. f_equal. lia.
Qed.

Lemma int_of_digits s : all_digits s = true -> s <> EmptyString -> int_of_text s = Some (digits_value 0 s).
Proof.
  intros Ha Hne. unfold int_of_text. rewrite digits_solid by done.
  assert (sign_of s = (false, s)) as ->.
  { pose proof (digits_head s Ha) as Hc. destruct s as [|c s]; [done|]. cbn. unfold is_digit in Hc.
    rewrite (proj2 (Z.eqb_neq _ _)) by lia. by rewrite (proj2 (Z.eqb_neq _ _)) by lia. }
  rewrite digits_from_all by done. rewrite (bool_decide_true (EmptyString = "")) by done.
  destruct s as [|c s]; [done|]. unfold str_len. change (String.length (String c s)) with (S (String.length s)).
  by rewrite (proj2 (Z.ltb_lt 0 (0 + Z.of_nat (S (String.length s))))) by lia.
Qed.

Lemma before_dot_digits s rest : all_digits s = true -> before_dot (s +:+ "." +:+ rest) = s.
Proof.
  induction s as [|c s IH]; [done|]. unfold all_digits. cbn [String.list_ascii_of_string forallb].
  intros [Hc Ha]%andb_prop. unfold is_digit in Hc. rewrite string_app_cons. cbn [before_dot].
  rewrite (proj2 (Z.eqb_neq _ _)) by lia. f_equal. by apply IH.
Qed.

(** The version after a version is read off its first field and is the next number,
    and as text it comes behind, whatever random digits either carries: channels'
    versions grow in the order LangGraph compares them, as long as the number has at most
    thirty-two digits. *)
Theorem versions_grow `{Randoms} v h s :
  0 <= v -> v + 1 < 10 ^ 32 ->
  exists text s', get_next_version (TextVersion (version_text v h)) s = (Ok text, s')
    /\ (exists h', text = version_text (v + 1) h')
    /\ String.compare (version_text v h) text = Lt.
Proof.
  intros Hv Hmax.
  destruct (padded_digits v 32 ltac:(change (Z.of_nat 32) with 32; lia) ltac:(lia)) as (Ha & Hval & Hlen).
  destruct (padded_digits (v + 1) 32 ltac:(change (Z.of_nat 32) with 32; lia) ltac:(lia)) as (Ha' & Hval' & Hlen').
  unfold get_next_version. unfold version_text at 1. rewrite before_dot_digits by done.
  rewrite int_of_digits by (first [done|intros He; by rewrite He in Hlen]). rewrite Hval.
  do 2 eexists. split; [reflexivity|]. split; [by eexists|].
  unfold version_text. apply (digits_ordered _ _ _ _ 0); [done..|congruence|lia].
Qed.
