(* ===== verification/Replay.v ===== *)
(** The models beside Claude's: the scripted ones (models.py's [ReplayReasoningModel] and
    [ReplayToolCallingModel]), the private VM's (ollama_model.py), and the wirings of a
    model and a registry (live_setup.py). *)
From Stdlib Require Import ZArith Lia.
From stdpp Require Import prelude strings list.
From S2P Require Import Prelude PyText Float64 Numbers Tools Domain ToolCalls Models Evidence Prompts Wrappers World GraphState JsonText JsonRoundTrip ControlPlane Sqlite CostLedger LiveModel LiveSetup Telemetry TelemetryProps Prometheus Runbooks.
Local Open Scope Z_scope.

(** * Text *)

(** The characters [str.splitlines] breaks at. *)
Definition is_line_break (c : Ascii.ascii) : bool :=
  bool_decide (code c ∈ [10; 11; 12; 13; 28; 29; 30; 133]).

(** [cur] is the line read so far. *)
Fixpoint split_lines (cur s : string) : list string :=
  match s with
  | EmptyString => match cur with EmptyString => [] | _ => [cur] end
  | String c s' =>
      if is_line_break c then
        cur :: match s' with
               | String d s'' =>
                   if (code c =? 13) && (code d =? 10) then split_lines "" s'' else split_lines "" s'
               | EmptyString => []
               end
      else split_lines (cur +:+ String c "") s'
  end.

(** [text.splitlines()] *)
Definition splitlines (text : string) : list string := split_lines "" text.

Example splitlines_examples :
  splitlines ("a" +:+ nl +:+ nl +:+ "b" +:+ chr 13 +:+ nl +:+ "c" +:+ chr 13) = ["a"; ""; "b"; "c"].
Proof. reflexivity. Qed.

(** * The scripts *)

Definition CALLER_PLACEHOLDERS : list string :=
  ["incident_id"; "window_start"; "window_end"; "symptom_evidence_id"].

Definition LAST_CHECK_PLACEHOLDER : string := "evidence_from_last_check".

(** [{{name}}] *)
Definition placeholder (name : string) : string := "{{" +:+ name +:+ "}}".

(** What [ReplayReasoningModel] keeps. *)
Record ReplayReasoningModel := {
  responses : list (string * list (list (string * json)));
  used : list (string * Z);
  substitutions : list (string * string);
  requests : list ModelRequest;
}.

#[export] Instance ReplayReasoningModel_settable : Settable ReplayReasoningModel := fun r =>
  {| responses := responses r; used := used r; substitutions := substitutions r;
     requests := requests r |}.

(** Python finds out only when such a script is played; here it is refused at once. *)
Definition MisshapenScript : exn := OtherError "a script of another shape".

Definition stage_responses (j : json) : option (list (list (string * json))) :=
  match j with
  | JArr l => mapM (fun r => match r with JObj d => Some d | _ => None end) l
  | _ => None
  end.

(** [json.loads(text)]: the model has no text beyond U+00FF. *)
Definition loads_text (text : string) : res json :=
  match @json_loads Unhooked text with
  | Ok j => Ok j
  | Err BeyondLatin1 => Err OutsideTextModel
  | Err _ => Err ValueError
  end.

Definition script_responses (text : string) : res (list (string * list (list (string * json)))) :=
  script ← loads_text text;
  match script with
  | JObj d =>
      match dict_get "responses" d with
      | None => Err KeyError
      | Some (JObj stages) =>
          match mapM (fun kv => (fun l => (kv.1, l)) <$> stage_responses kv.2) stages with
          | Some stages => Ok stages
          | None => Err MisshapenScript
          end
      | Some _ => Err MisshapenScript
      end
  | _ => Err TypeError
  end.

(** The constructor, over the fixture's text. *)
Definition new_replay_model (fixture_text : res string) (substitutions : list (string * string))
    : res ReplayReasoningModel :=
  text ← fixture_text;
  responses ← script_responses text;
  if forallb (fun name => bool_decide (name ∈ CALLER_PLACEHOLDERS)) (dict_keys substitutions)
  then Ok {| responses := responses; used := []; substitutions := substitutions; requests := [] |}
  else Err ReplayFixtureError.

(** The second words of the lines that list something, oldest first. *)
Definition listed_in (context_text : string) : list string :=
  omap (fun line =>
    if is_prefix "- " line
    then match py_split line with _ :: word :: _ => Some word | _ => None end
    else None) (splitlines context_text).

Definition evidence_from_last_check (substitutions : list (string * string)) (context_text : string)
    : res string :=
  match filter (fun evidence_id => evidence_id ∉ dict_values substitutions)
          (rev (listed_in context_text)) with
  | evidence_id :: _ => Ok evidence_id
  | [] => Err ReplayFixtureError
  end.

Definition fill_callers (substitutions : list (string * string)) (text : string) : string :=
  fold_left (fun text nv => match nv with (name, v) => py_replace (placeholder name) v text end)
    substitutions text.

Definition fill (substitutions : list (string * string)) (scripted : list (string * json))
    (context_text : string) : res json :=
  let text := fill_callers substitutions (json_dumps (JObj scripted)) in
  text ←
    (if py_in (placeholder LAST_CHECK_PLACEHOLDER) text then
       evidence_id ← evidence_from_last_check substitutions context_text;
       Ok (py_replace (placeholder LAST_CHECK_PLACEHOLDER) evidence_id text)
     else Ok text);
  loads_text text.

(** [ModelResponse(content=...)] takes a dictionary. *)
Definition replay_response (filled : json) : res ModelResponse :=
  match filled with
  | JObj content => Ok {| mr_content := content; mr_usage := None; mr_errors := "" |}
  | _ => Err ValidationError
  end.

(** [ReplayReasoningModel.respond]: the stage's next response counts as used before it is
    filled in. *)
Definition replay_respond (request : ModelRequest) : ST ReplayReasoningModel exn ModelResponse :=
  modify (fun m => m <| requests := requests m ++ [request] |>) ;;
  m ← get_state;
  let stage := value (mq_stage request) in
  let index := default 0 (dict_get stage (used m)) in
  match nth_error (default [] (dict_get stage (responses m))) (Z.to_nat index) with
  | None => raise ReplayFixtureError
  | Some scripted =>
      modify (fun m => m <| used := dict_set stage (index + 1) (used m) |>) ;;
      filled ← lift_result (fill (substitutions m) scripted (mq_context_text request));
      lift_result (replay_response filled)
  end.

(** * The model that calls tools *)

Record ReplayToolCallingModel := {
  inner : ReplayReasoningModel;
  next_call_id : Z;
}.

#[export] Instance ReplayToolCallingModel_settable : Settable ReplayToolCallingModel := fun r =>
  {| inner := inner r; next_call_id := next_call_id r |}.

Definition on_inner {A} (m : ST ReplayReasoningModel exn A) : ST ReplayToolCallingModel exn A := fun s =>
  let '(r, i) := m (inner s) in (r, s <| inner := i |>).

Section replay.
Context `{Pydantic}.

(** [ReplayToolCallingModel.respond] *)
Definition scripted_respond (request : ModelRequest) : ST ReplayToolCallingModel exn ModelResponse :=
  on_inner (replay_respond request).

(** [ReplayToolCallingModel.propose]; the schema is that of the request's stage. *)
Definition scripted_propose (request : ModelRequest) : ST ReplayToolCallingModel exn ProposedTurn :=
  response ← on_inner (replay_respond request);
  match parse_plan (mq_stage request) (mr_content response) with
  | (None, errors) =>
      mret {| pt_parsed := None; pt_errors := errors; pt_tool_call := []; pt_usage := mr_usage response |}
  | (Some parsed, _) =>
      match pl_proposal parsed with
      | None =>
          mret {| pt_parsed := Some parsed; pt_errors := ""; pt_tool_call := [];
                  pt_usage := mr_usage response |}
      | Some proposal =>
          modify (fun s => s <| next_call_id := next_call_id s + 1 |>) ;;
          s ← get_state;
          mret {| pt_parsed := Some parsed; pt_errors := "";
                  pt_tool_call := [to_tool_call proposal ("call-" +:+ str_of_Z (next_call_id s))];
                  pt_usage := mr_usage response |}
      end
  end.

End replay.

(** * The private VM's model (ollama_model.py)

    [transport] is what posting a JSON body to an address answers, by the number of posts
    so far; [model_json_schema] is Pydantic's schema of the stage's class.  Every
    construction in the program leaves the address at its default. *)

Definition OLLAMA_QWEN35_MODEL : string := "qwen3.5:4b".
Definition DEFAULT_OLLAMA_URL : string := "http://127.0.0.1:11434".
Definition OllamaModelError : exn := OtherError "OllamaModelError".

Record OllamaQwenToolCallingModel := {
  ol_base_url : string;
  ol_next_call_id : Z;
  ol_posts : nat;
}.

#[export] Instance OllamaQwenToolCallingModel_settable : Settable OllamaQwenToolCallingModel := fun m =>
  {| ol_base_url := ol_base_url m; ol_next_call_id := ol_next_call_id m; ol_posts := ol_posts m |}.

Definition new_candidate_model (environment : Environment) : res OllamaQwenToolCallingModel :=
  if bool_decide (py_lower (py_strip (env_get "CAUSALOPS_EXECUTION_ENV" "" environment)) = "vm")
     && affirmative (env_get "CAUSALOPS_CANDIDATE_EVALUATION" "" environment)
  then Ok {| ol_base_url := DEFAULT_OLLAMA_URL; ol_next_call_id := 0; ol_posts := O |}
  else Err OllamaModelError.

Definition candidate_system_text (request : ModelRequest) : string :=
  mq_system_text request +:+ nl +:+ nl +:+ "When you propose a tool call, the arguments object must include a literal "
  +:+ dq +:+ "tool" +:+ dq +:+ " field set to that exact tool's name as a string, even though it repeats the "
  +:+ "tool name -- never omit it.".

Definition candidate_user_content (request : ModelRequest) : string :=
  match mq_repair_errors request with
  | None | Some EmptyString => mq_context_text request
  | Some errors =>
      mq_context_text request +:+ nl +:+ nl +:+ "Previous output was rejected: " +:+ errors +:+ nl
      +:+ "Return a corrected JSON object only."
  end.

(** The message's text as a JSON object. *)
Definition read_candidate (response : list (string * json)) : res (list (string * json)) :=
  match dict_get "message" response with
  | Some (JObj message) =>
      match dict_get "content" message with
      | Some (JStr content) =>
          match @json_loads Unhooked content with
          | Ok (JObj decoded) => Ok decoded
          | Ok _ | Err JSONDecodeError => Err OllamaModelError
          | Err BadNumber => Err ValueError
          | Err BeyondLatin1 => Err OutsideTextModel
          end
      | _ => Err OllamaModelError
      end
  | _ => Err OllamaModelError
  end.

Section candidate.
Context `{Pydantic} (transport : nat -> string -> json -> res (list (string * json))).
Context (model_json_schema : Stage -> json).

Definition candidate_payload (request : ModelRequest) : json :=
  JObj [("model", JStr OLLAMA_QWEN35_MODEL); ("stream", JBool false); ("think", JBool false);
        ("format", model_json_schema (mq_stage request));
        ("messages", JArr [JObj [("role", JStr "system"); ("content", JStr (candidate_system_text request))];
                           JObj [("role", JStr "user"); ("content", JStr (candidate_user_content request))]])].

Definition request_content (request : ModelRequest) : ST OllamaQwenToolCallingModel exn (list (string * json)) :=
  m ← get_state;
  modify (fun m => m <| ol_posts := S (ol_posts m) |>) ;;
  response ← lift_result (transport (ol_posts m) (ol_base_url m +:+ "/api/chat") (candidate_payload request));
  lift_result (read_candidate response).

Definition candidate_respond (request : ModelRequest) : ST OllamaQwenToolCallingModel exn ModelResponse :=
  content ← request_content request;
  mret {| mr_content := content; mr_usage := None; mr_errors := "" |}.

Definition candidate_propose (request : ModelRequest) : ST OllamaQwenToolCallingModel exn ProposedTurn :=
  content ← request_content request;
  let turn parsed errors calls :=
    {| pt_parsed := parsed; pt_errors := errors; pt_tool_call := calls; pt_usage := None |} in
  match parse_plan (mq_stage request) content with
  | (None, errors) => mret (turn None errors [])
  | (Some parsed, _) =>
      match pl_proposal parsed with
      | None => mret (turn (Some parsed) "" [])
      | Some proposal =>
          modify (fun m => m <| ol_next_call_id := ol_next_call_id m + 1 |>) ;;
          m ← get_state;
          mret (turn (Some parsed) "" [to_tool_call proposal ("ollama-call-" +:+ str_of_Z (ol_next_call_id m))])
      end
  end.
End candidate.

(** * The wiring (live_setup.py) *)

Section wiring.
Context `{Host} `{Fts5} `{Pinecone} (http_get : nat -> string -> Z -> http_answer).
Context (files : nat -> RunFiles) (elapsed_ms : nat -> Z) (runbook_corpus : json).

(** [Path(__file__).parent / "replay_fixtures"], and the text of a file. *)
Context (REPLAY_FIXTURE_DIR : string) (read_text : string -> res string).

Definition REPLAY_FIXTURE : string := REPLAY_FIXTURE_DIR +:+ "/lab_diagnosis.json".

Definition FAMILY_REPLAY_FIXTURES (family : ScenarioFamily) : string :=
  match family with
  | S_CONFIGURATION_CHANGE => REPLAY_FIXTURE
  | S_DOWNSTREAM_TIMEOUT_RETRY_AMPLIFICATION => REPLAY_FIXTURE_DIR +:+ "/downstream_timeout_demo.json"
  | S_RESOURCE_POOL_SATURATION => REPLAY_FIXTURE_DIR +:+ "/resource_pool_saturation_demo.json"
  | S_AMBIGUOUS_TELEMETRY => REPLAY_FIXTURE_DIR +:+ "/ambiguous_telemetry_demo.json"
  end.

Definition incident_substitutions (incident : StoredIncident) : list (string * string) :=
  [("incident_id", sc_incident_id (si_scope incident));
   ("window_start", isoformat (sc_started_at (si_scope incident)));
   ("window_end", isoformat (sc_ended_at (si_scope incident)));
   ("symptom_evidence_id", ap_symptom_evidence_id (si_packet incident))].

Definition build_replay_model_and_registry (incident : StoredIncident) (budgets : Budgets)
    (environment : Environment) (fixture : string)
    : res (ReplayToolCallingModel * list (ToolName * ToolWrapper) * string) :=
  model ← new_replay_model (read_text fixture) (incident_substitutions incident);
  registry ← build_tool_registry http_get files elapsed_ms runbook_corpus budgets environment;
  Ok ({| inner := model; next_call_id := 0 |}, registry, REPLAY_MODEL_NAME).

(** [HostedReplayRuntimeWiring(fixture).build]; its teardown does nothing. *)
Definition hosted_build (fixture : option string) (incident : StoredIncident) (budgets : Budgets)
    (environment : Environment) (family : ScenarioFamily)
    : res (ReplayToolCallingModel * list (ToolName * ToolWrapper) * string) :=
  build_replay_model_and_registry incident budgets environment
    (default (FAMILY_REPLAY_FIXTURES family) fixture).

(** [build_model_and_registry]; the connection is the cost ledger's, used by a live model
    only. *)
Definition build_model_and_registry `{Pydantic} `{Clocks} `{Provider} `{Sqlite} (incident : StoredIncident) (budgets : Budgets)
    (model_choice : string) (environment : Environment)
    : ConnM ((ReplayToolCallingModel + LiveClaudeModel) * list (ToolName * ToolWrapper) * string) :=
  match mp_kind (profile_for_legacy_choice model_choice) with
  | K_REPLAY_HOSTED =>
      built ← lift_result (build_replay_model_and_registry incident budgets environment REPLAY_FIXTURE);
      let '(model, registry, model_name) := (built : ReplayToolCallingModel * _ * string) in
      mret (inl model, registry, model_name)
  | _ =>
      if negb (claude_enabled environment) then raise provider_disabled
      else
        registry ← lift_result (build_tool_registry http_get files elapsed_ms runbook_corpus budgets environment);
        _ ← ensure_cost_ledger_table;
        pricing ← lift_result (resolve_live_model_pricing environment);
        ceiling ← lift_result (live_evaluation_ceiling_usd environment);
        mret (inr {| lm_ceiling_usd := ceiling; lm_pricing := pricing;
                     lm_credential_present := credential_present environment |},
              registry, pc_model_name pricing)
  end.

Definition build_ollama_candidate_model_and_registry (budgets : Budgets) (environment : Environment)
    : res (OllamaQwenToolCallingModel * list (ToolName * ToolWrapper) * string) :=
  _ ← ollama_candidate_allowed environment;
  model ← new_candidate_model environment;
  registry ← build_tool_registry http_get files elapsed_ms runbook_corpus budgets environment;
  Ok (model, registry, mp_model_name OLLAMA_QWEN35_EXPERIMENT).
End wiring.

(** * Lemmas: replacing in text *)

Lemma string_app_nil_l s : "" +:+ s = s.
Proof. reflexivity. Qed.

Lemma is_prefix_app p s : is_prefix p (p +:+ s) = true.
Proof. apply is_prefix_spec. by exists s. Qed.

Lemma replace_skip pat rep p s : replace_go pat rep (String.length p) (p +:+ s) = replace_go pat rep 0 s.
Proof. induction p as [|c p IH]; [done|]. rewrite string_app_cons. apply IH. Qed.

(** What is replaced is a whole occurrence. *)
Lemma replace_here c pat rep s :
  py_replace (String c pat) rep (String c pat +:+ s) = rep +:+ py_replace (String c pat) rep s.
Proof.
  unfold py_replace. rewrite string_app_cons. cbn [replace_go String.length Nat.pred].
  rewrite <- (string_app_cons c pat s), is_prefix_app. by rewrite replace_skip.
Qed.

Lemma replace_past pat rep c s :
  is_prefix pat (String c s) = false -> py_replace pat rep (String c s) = String c (py_replace pat rep s).
Proof. intros Hp. unfold py_replace. cbn [replace_go]. by rewrite Hp. Qed.

(** A text without the pattern is unchanged. *)
Lemma replace_absent pat rep s : py_in pat s = false -> py_replace pat rep s = s.
Proof.
  induction s as [|c s IH]; [done|]. cbn [py_in]. intros [Hp Hs]%orb_false_iff.
  rewrite replace_past by done. by rewrite IH.
Qed.

(** ** Characters that [json.dumps] writes as they are, and no brace *)

Definition written_plainly (c : Ascii.ascii) : bool :=
  (32 <=? code c) && (code c <=? 126) && negb (code c =? 34) && negb (code c =? 92).

Definition plain_text (s : string) : bool := all_chars written_plainly s.

Definition no_brace (s : string) : bool := all_chars (fun c => negb (code c =? 123)) s.

Lemma all_chars_cons f c s : all_chars f (String c s) = f c && all_chars f s.
Proof. reflexivity. Qed.

(** A character is written as it is, or as an escape without a brace. *)
Lemma json_char_cases c :
  (if written_plainly c then String.eqb (json_char c) (String c "")
   else match json_char c with String b s => (code b =? 92) && no_brace s | _ => false end) = true.
Proof. destruct c as [[] [] [] [] [] [] [] []]; reflexivity. Qed.

Lemma json_char_plain c : written_plainly c = true -> json_char c = String c "".
Proof. intros Hc. pose proof (json_char_cases c) as H. rewrite Hc in H. by apply String.eqb_eq. Qed.

Lemma json_char_escaped c :
  written_plainly c = false ->
  exists b s, json_char c = String b s /\ code b = 92 /\ no_brace s = true.
Proof.
  intros Hc. pose proof (json_char_cases c) as H. rewrite Hc in H.
  destruct (json_char c) as [|b s]; [done|]. apply andb_prop in H as [Hb%Z.eqb_eq Hs]. eauto.
Qed.

Lemma concat_plain s : plain_text s = true -> concat_chars json_char s = s.
Proof.
  induction s as [|c s IH]; [done|]. unfold plain_text. rewrite all_chars_cons.
  intros [Hc Hs]%andb_prop. cbn [concat_chars]. rewrite json_char_plain, IH by done. reflexivity.
Qed.

(** ** Placeholders in JSON text *)

(** A pattern as the placeholders are: two braces, then plain characters. *)
Definition brace_pattern (pat : string) : Prop :=
  exists p, pat = "{{" +:+ p /\ plain_text p = true.

Lemma placeholder_braced name : plain_text name = true -> brace_pattern (placeholder name).
Proof.
  intros Hn. exists (name +:+ "}}"). split; [done|]. unfold plain_text. by rewrite all_chars_app, andb_true_r.
Qed.

Section braced.
Context (pat rep : string) (Hpat : brace_pattern pat).

Lemma pattern_cons : exists c p, pat = String c p /\ code c = 123.
Proof. destruct Hpat as (p & -> & _). by eexists _, _. Qed.

Lemma replace_pattern s : py_replace pat rep (pat +:+ s) = rep +:+ py_replace pat rep s.
Proof. destruct pattern_cons as (c & p & -> & _). apply replace_here. Qed.

Lemma pattern_plain : plain_text pat = true.
Proof. by destruct Hpat as (p & -> & ?). Qed.

Lemma pattern_not_char c s : code c <> 123 -> is_prefix pat (String c s) = false.
Proof.
  destruct pattern_cons as (b & p & -> & Hb). intros Hc. cbn [is_prefix].
  rewrite bool_decide_false; [done|]. congruence.
Qed.

(** Where a text has one brace only, nothing is replaced. *)
Lemma pattern_not_brace c s :
  match s with String d _ => code d <> 123 | EmptyString => True end -> is_prefix pat (String c s) = false.
Proof.
  destruct Hpat as (p & -> & _). intros Hs. cbn [is_prefix String.append]. apply andb_false_iff. right.
  destruct s as [|d s]; [done|]. cbn. rewrite bool_decide_false; [done|].
  intros <-. by apply Hs.
Qed.

Lemma replace_no_brace t s : no_brace t = true -> py_replace pat rep (t +:+ s) = t +:+ py_replace pat rep s.
Proof.
  induction t as [|c t IH]; [done|]. unfold no_brace. rewrite all_chars_cons.
  intros [Hc%negb_true_iff%Z.eqb_neq Ht]%andb_prop. rewrite string_app_cons.
  rewrite replace_past by (by apply pattern_not_char). rewrite IH by done. reflexivity.
Qed.

Lemma prefix_written p s rest :
  plain_text p = true -> is_prefix p (concat_chars json_char s +:+ dq +:+ rest) = is_prefix p s.
Proof.
  revert s. induction p as [|a p IH]; intros s; [done|]. unfold plain_text. rewrite all_chars_cons.
  intros [Ha Hp]%andb_prop. destruct s as [|c s].
  - change (bool_decide (a = char_of 34) && is_prefix p rest = false).
    rewrite bool_decide_false; [done|]. by intros ->.
  - cbn [concat_chars is_prefix]. destruct (written_plainly c) eqn:Hc.
    + rewrite json_char_plain by done. cbn [is_prefix String.append]. f_equal. by apply IH.
    + destruct (json_char_escaped c Hc) as (b & t & -> & Hb & _). rewrite !string_app_cons.
      rewrite !bool_decide_false; [done| |].
      * intros ->. by rewrite Hc in Ha.
      * intros ->. unfold written_plainly in Ha. by rewrite Hb in Ha.
Qed.

Hypothesis Hrep : plain_text rep = true.

(** Inside a string's text the replacement is the one in the string. *)
Lemma replace_chars s rest :
  py_replace pat rep (concat_chars json_char s +:+ dq +:+ rest)
  = concat_chars json_char (py_replace pat rep s) +:+ dq +:+ py_replace pat rep rest.
Proof.
  remember (String.length s) as n eqn:Hn. revert s Hn. induction (lt_wf n) as [n _ IH]. intros s ->.
  destruct pattern_cons as (b & p & Hb & _).
  destruct (is_prefix pat s) eqn:Hp.
  - apply is_prefix_spec in Hp as (t & ->).
    rewrite concat_chars_app, (concat_plain pat) by apply pattern_plain. rewrite string_app_assoc.
    rewrite !replace_pattern, (IH (String.length t)) by
      (rewrite ?string_length_app, ?Hb; cbn; lia || done).
    by rewrite concat_chars_app, (concat_plain rep), string_app_assoc.
  - destruct s as [|c s].
    + cbn [concat_chars]. change ("" +:+ dq +:+ rest) with (dq +:+ rest).
      rewrite replace_no_brace by done. done.
    + assert (is_prefix pat (concat_chars json_char (String c s) +:+ dq +:+ rest) = false) as Hw
        by (by rewrite prefix_written by apply pattern_plain).
      rewrite (replace_past pat rep c s) by done. cbn [concat_chars] in Hw |- *.
      rewrite !string_app_assoc in *. destruct (written_plainly c) eqn:Hc.
      * rewrite json_char_plain in * by done. rewrite string_app_cons, string_app_nil_l in Hw.
        rewrite !string_app_cons, !string_app_nil_l.
        rewrite replace_past by done. rewrite (IH (String.length s)) by (cbn; lia || done). reflexivity.
      * destruct (json_char_escaped c Hc) as (e & t & -> & He & Ht).
        rewrite replace_no_brace.
        -- rewrite (IH (String.length s)) by (cbn; lia || done). reflexivity.
        -- unfold no_brace. rewrite all_chars_cons, He. exact Ht.
Qed.

Lemma replace_string s rest :
  py_replace pat rep (json_string s +:+ rest) = json_string (py_replace pat rep s) +:+ py_replace pat rep rest.
Proof.
  unfold json_string. rewrite !string_app_assoc. rewrite replace_no_brace by done.
  by rewrite replace_chars.
Qed.
End braced.

(** ** A number's text has no brace *)

(** [r] is left of [s] when a text without a brace was read. *)
Definition reads (s r : string) : Prop := exists p, s = p +:+ r /\ no_brace p = true.

#[export] Instance reads_preorder : PreOrder reads.
Proof.
  split.
  - intros s. by exists "".
  - intros s _ u (p & -> & Hp) (q & -> & Hq). exists (p +:+ q). split; [by rewrite string_app_assoc|].
    unfold no_brace in *. by rewrite all_chars_app, Hp, Hq.
Qed.

Lemma reads_char c s : code c <> 123 -> reads (String c s) s.
Proof. intros Hc%Z.eqb_neq. exists (String c ""). split; [done|]. unfold no_brace. by rewrite all_chars_cons, Hc. Qed.

Lemma reads_digits s : reads s (span_digits s).2.
Proof.
  induction s as [|c s IH]; [done|]. cbn. destruct (is_digit c) eqn:Hc; [|done].
  destruct (span_digits s) as [ds rest]. cbn in *. etrans; [|exact IH]. apply reads_char.
  unfold is_digit in Hc. lia.
Qed.

Lemma number_reads `{NumberHooks} s j r : number_from s = Ok (j, r) -> reads s r.
Proof.
  unfold number_from.
  assert (reads s (minus_of s).2) as Hm.
  { destruct s as [|c s]; [done|]. cbn. destruct (Z.eqb_spec (code c) 45) as [Hc|]; [|done].
    apply reads_char. lia. }
  destruct (minus_of s) as [m s1]. cbn [snd] in Hm.
  destruct (whole_of s1) as [[w s2]|] eqn:Hw; [|done].
  assert (reads s1 s2) as Hs2.
  { unfold whole_of in Hw. pose proof (reads_digits s1) as Hd. pose proof (span_digits_split s1) as Hs.
    destruct (span_digits s1) as [[|d ds] rest]; [done|]. cbn [fst snd] in *.
    destruct (Z.eqb_spec (code d) 48) as [H0|_]; injection Hw as _ <-; [|done].
    rewrite Hs, string_app_cons. apply reads_char. lia. }
  unfold mbind, result_bind.
  assert (reads s2 (fraction_of s2).2) as Hf.
  { destruct s2 as [|c s2]; [done|]. cbn. destruct (Z.eqb_spec (code c) 46) as [Hc|]; [|done].
    pose proof (reads_digits s2) as Hd. destruct (span_digits s2) as [[|] rest]; [done|].
    etrans; [apply reads_char; lia|exact Hd]. }
  destruct (fraction_of s2) as [f s3]. cbn [snd] in Hf.
  assert (reads s3 (exponent_part s3).2) as He.
  { destruct s3 as [|c s3]; [done|]. cbn. destruct (_ || _) eqn:Hc; [|done].
    assert (reads s3 (exponent_sign s3).2) as Hsg.
    { destruct s3 as [|d s3]; [done|]. cbn.
      destruct ((code d =? 45) || (code d =? 43)) eqn:Hd; [|done]. apply reads_char. lia. }
    destruct (exponent_sign s3) as [sg after]. pose proof (reads_digits after) as Hd.
    destruct (span_digits after) as [[|] rest]; [done|]. cbn [snd] in *.
    etrans; [apply reads_char; lia|]. by etrans. }
  destruct (exponent_part s3) as [e s4]. cbn [snd] in He.
  assert (reads s s4) as Hall by (by do 3 (etrans; [eassumption|])).
  destruct (_ && _).
  - destruct (_ <=? _); [|done]. by intros [= _ <-].
  - destruct (parse_float _); [|done]. by intros [= _ <-].
Qed.

Lemma number_no_brace `{NumberHooks} t j : number_from t = Ok (j, EmptyString) -> no_brace t = true.
Proof. intros (p & -> & Hp)%number_reads. by rewrite string_app_nil_r. Qed.

(** ** Placeholders of a whole value *)

(** [f] on every text of a value, keys included. *)
Fixpoint map_texts (f : string -> string) (j : json) : json :=
  match j with
  | JStr s => JStr (f s)
  | JArr l => JArr (List.map (map_texts f) l)
  | JObj d => JObj (List.map (fun kv => match kv with (k, v) => (f k, map_texts f v) end) d)
  | j => j
  end.

Lemma map_texts_compose f g j : map_texts g (map_texts f j) = map_texts (fun s => g (f s)) j.
Proof.
  induction j as [| | | | |l IH|d IH] using json_nested; try done; cbn; f_equal; rewrite List.map_map.
  - apply List.map_ext_in. intros x Hx%list_elem_of_In. rewrite Forall_forall in IH. by apply IH.
  - apply List.map_ext_in. intros [k v] Hx%list_elem_of_In. rewrite Forall_forall in IH.
    f_equal. by apply (IH (k, v)).
Qed.

(** The numbers of a value are written as [json.dumps] writes them. *)
Fixpoint numbers_written (j : json) : bool :=
  match j with
  | JInt z => int_written z
  | JFloat t => @float_written Unhooked t
  | JArr l => forallb numbers_written l
  | JObj d => forallb (fun kv => match kv with (_, v) => numbers_written v end) d
  | _ => true
  end.

Lemma json_written_numbers j : @json_written Unhooked j = true -> numbers_written j = true.
Proof.
  induction j as [| | | | |l IH|d IH] using json_nested; try done; cbn.
  - rewrite !forallb_forall. rewrite Forall_forall in IH. intros Hl x Hx.
    apply IH; [by apply list_elem_of_In|auto].
  - intros [_ Hd]%andb_prop. rewrite forallb_snd in Hd. rewrite forallb_snd.
    rewrite Forall_forall in *. auto.
Qed.

Lemma numbers_written_map f j : numbers_written (map_texts f j) = numbers_written j.
Proof.
  induction j as [| | | | |l IH|d IH] using json_nested; try done; cbn.
  - induction IH as [|x l Hx _ IHl]; [done|]. cbn. by rewrite Hx, IHl.
  - induction IH as [|[k v] d Hx _ IHd]; [done|]. cbn in *. by rewrite Hx, IHd.
Qed.

Section braced_values.
Context (pat rep : string) (Hpat : brace_pattern pat) (Hrep : plain_text rep = true).

Notation fill_in := (py_replace pat rep).

Lemma replace_join {A} (f g : A -> string) l rest :
  Forall (fun a => forall rest, fill_in (f a +:+ rest) = g a +:+ fill_in rest) l ->
  fill_in (py_join ", " (List.map f l) +:+ rest) = py_join ", " (List.map g l) +:+ fill_in rest.
Proof using Hpat.
  intros Hl. induction Hl as [|a [|a' l] Ha Hl IH]; [done| |].
  - apply Ha.
  - change (fill_in ((f a +:+ ", " +:+ py_join ", " (List.map f (a' :: l))) +:+ rest)
            = (g a +:+ ", " +:+ py_join ", " (List.map g (a' :: l))) +:+ fill_in rest).
    rewrite !string_app_assoc, Ha. f_equal. by rewrite (replace_no_brace pat rep Hpat ", "), IH.
Qed.

(** Replacing in the JSON text of a value is replacing in its texts. *)
Lemma replace_dumps j rest :
  numbers_written j = true ->
  fill_in (json_dumps j +:+ rest) = json_dumps (map_texts fill_in j) +:+ fill_in rest.
Proof using Hpat Hrep.
  unfold json_dumps. pose proof (replace_no_brace pat rep Hpat) as Hno.
  revert rest. induction j as [| | z | t | | l IH | d IH] using json_nested; intros rest Hw.
  - by apply (Hno "null").
  - destruct b; [by apply (Hno "true")|by apply (Hno "false")].
  - apply Hno. by eapply (@number_no_brace Unhooked), number_from_int.
  - apply Hno. cbn in Hw. unfold float_written in Hw.
    destruct (@number_from Unhooked t) as [[[] []]|] eqn:Hn; try done.
    exact (@number_no_brace Unhooked _ _ Hn).
  - by apply replace_string.
  - cbn [dumps map_texts]. rewrite !string_app_assoc, (Hno "[") by done. f_equal.
    rewrite List.map_map, (replace_join _ (fun a => dumps false ", " ": " (map_texts fill_in a))).
    + by rewrite (Hno "]").
    + cbn in Hw. rewrite forallb_forall in Hw. apply Forall_forall. intros a Ha r.
      rewrite Forall_forall in IH. apply IH; [done|]. by apply Hw, list_elem_of_In.
  - cbn [map_texts]. rewrite !(text_object " " " "), List.map_map, !string_app_assoc.
    assert (Forall (fun kv => forall rest, fill_in (member_text " " " " kv +:+ rest)
              = member_text " " " " (let (k, v) := kv in (fill_in k, map_texts fill_in v)) +:+ fill_in rest) d) as Hd.
    { apply forallb_snd in Hw. rewrite Forall_forall in *. intros [k v] Hin r. cbn.
      rewrite !string_app_assoc, replace_string by done. f_equal.
      rewrite (Hno ":"), (Hno " ") by done. do 2 f_equal. by apply (IH (k, v) Hin), (Hw (k, v)). }
    pose proof (replace_join _ _ d ("}" +:+ rest) Hd) as Hj. rewrite (Hno "}") in Hj by done.
    change ("," +:+ " ") with ", ". rewrite string_app_cons, replace_past.
    + rewrite string_app_nil_l, Hj, string_app_cons. reflexivity.
    + apply pattern_not_brace; [done|]. destruct d as [|[k v] [|[k' v'] d]]; intros Hc; vm_compute in Hc; discriminate Hc.
Qed.
End braced_values.

(** * Lemmas: filling in *)

(** A caller's substitution: one of the names, and a value written as it is. *)
Definition caller_substitution (nv : string * string) : Prop :=
  nv.1 ∈ CALLER_PLACEHOLDERS /\ plain_text nv.2 = true.

Lemma caller_placeholder nv : caller_substitution nv -> brace_pattern (placeholder nv.1).
Proof.
  intros [Hn _]. apply placeholder_braced. destruct nv as [n v]. cbn in *.
  repeat (apply elem_of_cons in Hn as [->|Hn]; [done|]). by apply elem_of_nil in Hn.
Qed.

Lemma replace_whole pat rep j :
  brace_pattern pat -> plain_text rep = true -> numbers_written j = true ->
  py_replace pat rep (json_dumps j) = json_dumps (map_texts (py_replace pat rep) j).
Proof.
  intros Hp Hr Hj. pose proof (replace_dumps pat rep Hp Hr j "" Hj) as H.
  by rewrite !string_app_nil_r in H.
Qed.

Lemma map_texts_id j : map_texts (fun s => s) j = j.
Proof.
  induction j as [| | | | |l IH|d IH] using json_nested; try done; cbn; f_equal.
  - induction IH as [|x l Hx _ IHl]; [done|]. cbn. by rewrite Hx, IHl.
  - induction IH as [|[k v] d Hx _ IHd]; [done|]. cbn in *. by rewrite Hx, IHd.
Qed.

Lemma fill_callers_dumps subs j :
  Forall caller_substitution subs -> numbers_written j = true ->
  fill_callers subs (json_dumps j) = json_dumps (map_texts (fill_callers subs) j).
Proof.
  intros Hs. revert j. induction Hs as [|[n v] subs Hnv Hs IH]; intros j Hj.
  - unfold fill_callers. cbn. by rewrite map_texts_id.
  - change (fill_callers subs (py_replace (placeholder n) v (json_dumps j))
            = json_dumps (map_texts (fun t => fill_callers subs (py_replace (placeholder n) v t)) j)).
    rewrite replace_whole by (by apply (caller_placeholder (n, v)) || apply Hnv || done).
    by rewrite IH, map_texts_compose by (by rewrite numbers_written_map).
Qed.

Lemma loads_text_dumps j : @json_written Unhooked j = true -> loads_text (json_dumps j) = Ok j.
Proof.
  intros Hj. unfold loads_text.
  by rewrite (@json_loads_text Unhooked " " " " ltac:(done) ltac:(done)).
Qed.

(** C40: Filling a script in works on the texts of its values, never on its structure:
    with the caller's names and values of characters JSON writes as they are, the text
    that [respond] edits and parses again gives the scripted value with every
    placeholder replaced in every string, and raises only when a script that cites the
    last check is played on a context that lists none. *)
Theorem fill_is_structural subs scripted context_text :
  Forall caller_substitution subs ->
  let called := map_texts (fill_callers subs) (JObj scripted) in
  match evidence_from_last_check subs context_text with
  | Ok last =>
      let filled := map_texts (py_replace (placeholder LAST_CHECK_PLACEHOLDER) last) called in
      plain_text last = true -> @json_written Unhooked filled = true ->
      fill subs scripted context_text = Ok filled
  | Err e =>
      @json_written Unhooked called = true ->
      fill subs scripted context_text
      = if py_in (placeholder LAST_CHECK_PLACEHOLDER) (json_dumps called) then Err e else Ok called
  end.
Proof.
  intros Hs called.
  assert (numbers_written called = true ->
          fill_callers subs (json_dumps (JObj scripted)) = json_dumps called) as Hd.
  { intros Hn. apply fill_callers_dumps; [done|]. by rewrite <- (numbers_written_map (fill_callers subs)). }
  unfold fill. destruct (evidence_from_last_check subs context_text) as [last|e]; cbv zeta.
  - set (filled := map_texts _ called). intros Hl Hw.
    assert (numbers_written called = true) as Hn
      by (rewrite <- (numbers_written_map (py_replace (placeholder LAST_CHECK_PLACEHOLDER) last));
          by apply json_written_numbers).
    rewrite Hd by done.
    assert (py_replace (placeholder LAST_CHECK_PLACEHOLDER) last (json_dumps called) = json_dumps filled) as Hf
      by (by apply replace_whole; [apply placeholder_braced| |]).
    destruct (py_in _ (json_dumps called)) eqn:Hin; cbn [mbind result_bind].
    + rewrite Hf. by apply loads_text_dumps.
    + rewrite replace_absent in Hf by done. rewrite Hf. by apply loads_text_dumps.
  - intros Hw. rewrite Hd by (by apply json_written_numbers).
    destruct (py_in _ (json_dumps called)); [done|]. by apply loads_text_dumps.
Qed.

(** * Lemmas: lines *)

Definition one_line (s : string) : bool := all_chars (fun c => negb (is_line_break c)) s.

Lemma split_lines_app cur s rest :
  one_line s = true -> split_lines cur (s +:+ nl +:+ rest) = (cur +:+ s) :: split_lines "" rest.
Proof.
  revert cur. induction s as [|c s IH]; intros cur.
  - intros _. rewrite string_app_nil_r. cbn. by destruct rest.
  - unfold one_line. rewrite all_chars_cons. intros [Hc%negb_true_iff Hs]%andb_prop.
    rewrite string_app_cons. cbn [split_lines]. rewrite Hc, IH by done.
    by rewrite string_app_assoc.
Qed.

Lemma split_lines_last cur s :
  one_line s = true -> s <> EmptyString -> split_lines cur s = [cur +:+ s].
Proof.
  revert cur. induction s as [|c s IH]; intros cur Hs Hne; [done|].
  unfold one_line in Hs. rewrite all_chars_cons in Hs. apply andb_prop in Hs as [Hc%negb_true_iff Hs].
  cbn [split_lines]. rewrite Hc. destruct s as [|d s].
  - cbn [split_lines]. destruct (cur +:+ String c "") eqn:He; [|done]. by destruct cur.
  - rewrite IH by done. by rewrite string_app_assoc.
Qed.

(** The lines of a joined text. *)
Lemma splitlines_join lines last :
  Forall (fun l => one_line l = true) lines -> one_line last = true -> last <> EmptyString ->
  splitlines (py_join nl (lines ++ [last])) = lines ++ [last].
Proof.
  intros Hl H1 Hne. unfold splitlines. induction Hl as [|l lines Hl Hls IH].
  - by apply split_lines_last.
  - assert (py_join nl ((l :: lines) ++ [last]) = l +:+ nl +:+ py_join nl (lines ++ [last])) as ->
      by (by destruct lines).
    rewrite split_lines_app, IH by done. done.
Qed.

Definition item_of (line : string) : option string :=
  if is_prefix "- " line
  then match py_split line with _ :: word :: _ => Some word | _ => None end
  else None.

(** A word that white space does not split. *)
Definition solid (s : string) : bool :=
  all_chars (fun c => negb (py_isspace c)) s && negb (bool_decide (s = "")).

Lemma split_words_word w s rest :
  all_chars (fun c => negb (py_isspace c)) s = true ->
  split_words (Some w) (s +:+ " " +:+ rest) = (w +:+ s) :: split_words None rest.
Proof.
  revert w. induction s as [|c s IH]; intros w.
  - intros _. by rewrite string_app_nil_r.
  - rewrite all_chars_cons. intros [Hc%negb_true_iff Hs]%andb_prop. rewrite string_app_cons.
    cbn [split_words]. rewrite Hc. cbn [default]. by rewrite IH, string_app_assoc.
Qed.

Lemma item_of_record e : solid (ev_evidence_id e) = true -> item_of (render_record e) = Some (ev_evidence_id e).
Proof.
  unfold solid, item_of. intros [Hs Hne%negb_true_iff%bool_decide_eq_false]%andb_prop.
  assert (exists rest, render_record e = "- " +:+ ev_evidence_id e +:+ " " +:+ rest) as (rest & ->)
    by (by eexists).
  destruct (ev_evidence_id e) as [|c s]; [done|].
  rewrite all_chars_cons in Hs. apply andb_prop in Hs as [Hc%negb_true_iff Hs].
  change (is_prefix "- " ("- " +:+ String c s +:+ " " +:+ rest)) with true.
  change (py_split ("- " +:+ String c s +:+ " " +:+ rest))
    with ("-" :: split_words None (String c (s +:+ " " +:+ rest))).
  cbn [split_words]. rewrite Hc. cbn [default]. by rewrite split_words_word.
Qed.

Lemma item_of_passage p : item_of (render_passage p) = Some "runbook".
Proof. reflexivity. Qed.

Lemma omap_all {A B C} (f : B -> option C) (g : A -> B) (h : A -> C) l :
  Forall (fun a => f (g a) = Some (h a)) l -> omap f (g <$> l) = h <$> l.
Proof. induction 1 as [|a l Ha _ IH]; [done|]. cbn. by rewrite Ha, IH. Qed.

Lemma omap_none {A B} (f : A -> option B) l : Forall (fun a => f a = None) l -> omap f l = [].
Proof. induction 1 as [|a l Ha _ IH]; [done|]. cbn. by rewrite Ha. Qed.

Section context.
Context (packet : InitialAlertPacket) (scope : IncidentScope) (evidence : list Evidence).
Context (markers : list string) (model_calls_left checks_left : Z).
Context (passages : list RunbookPassage) (denied_checks : list DeniedCheckNote).
Context (runbook_searches_left : Z).

Notation lines :=
  (context_lines packet scope evidence markers model_calls_left checks_left passages denied_checks
     runbook_searches_left).
Notation text :=
  (render_context packet scope evidence markers model_calls_left checks_left passages denied_checks
     runbook_searches_left).

Hypothesis Hlines : Forall (fun l => one_line l = true) lines.
Hypothesis Hids : Forall (fun e => solid (ev_evidence_id e) = true) evidence.
Hypothesis Hmarkers : Forall (fun m => is_prefix "- " m = false) markers.

Lemma splitlines_context : splitlines text = lines.
Proof using Hlines.
  unfold render_context in *.
  assert (exists before, lines = before ++ [FENCE_CLOSE]) as (before & He).
  { unfold context_lines. eexists. by rewrite !(assoc_L (++)). }
  rewrite He in *. apply Forall_app in Hlines as [Hb Hl]. rewrite Forall_singleton in Hl.
  by apply splitlines_join.
Qed.

(** What the rendered context lists: the records, then a word for every passage. *)
Lemma listed_in_context :
  listed_in text = (ev_evidence_id <$> evidence) ++ ((fun _ => "runbook") <$> passages).
Proof using Hlines Hids Hmarkers.
  unfold listed_in. rewrite splitlines_context. fold item_of. unfold context_lines.
  rewrite !omap_app.
  rewrite (omap_all item_of render_record ev_evidence_id) by
    (eapply Forall_impl; [exact Hids|]; intros e; apply item_of_record).
  rewrite (omap_all item_of render_passage (fun _ => "runbook")) by (by apply Forall_true).
  rewrite (omap_none item_of markers) by
    (eapply Forall_impl; [exact Hmarkers|]; intros m Hm; unfold item_of; by rewrite Hm).
  assert (omap item_of (match denied_checks with [] => []
            | _ => "" :: "## Denied checks" :: (render_note <$> denied_checks) end) = []) as ->.
  { apply omap_none. destruct denied_checks as [|n notes]; [constructor|].
    repeat (constructor; [done|]). apply Forall_fmap, Forall_true. done. }
  change (omap item_of [FENCE_CLOSE]) with (@nil string). by rewrite (app_nil_r (_ <$> passages)).
Qed.

(** The last check's evidence, as read from the context the graph renders: the newest
    record the caller did not supply, as long as no runbook passage is shown.  A passage's
    line begins like a record's, and then its first word is taken for the evidence. *)
Theorem last_check_from_context subs :
  "runbook" ∉ dict_values subs ->
  evidence_from_last_check subs text
  = match passages with
    | [] => match last (filter (fun id => id ∉ dict_values subs) (ev_evidence_id <$> evidence)) with
            | Some evidence_id => Ok evidence_id
            | None => Err ReplayFixtureError
            end
    | _ => Ok "runbook"
    end.
Proof using Hlines Hids Hmarkers.
  intros Hr. unfold evidence_from_last_check. rewrite listed_in_context.
  assert (forall l : list string, filter (fun id => id ∉ dict_values subs) (rev l)
            = rev (filter (fun id => id ∉ dict_values subs) l)) as Hrev.
  { intros l. induction l as [|x l IH]; [done|]. cbn [rev]. rewrite filter_app, IH, filter_cons.
    rewrite filter_cons. case_decide; [done|]. by rewrite app_nil_r. }
  rewrite Hrev, filter_app, rev_app_distr. destruct passages as [|p ps].
  - cbn [fmap list_fmap filter list_filter rev app]. rewrite <- head_reverse.
    unfold reverse. rewrite <- rev_alt. by destruct (rev _).
  - destruct (@exists_last _ (p :: ps)) as (ps' & p' & ->); [done|].
    rewrite <- Hrev, fmap_app, rev_app_distr. cbn [fmap list_fmap rev app].
    by rewrite filter_cons_True.
Qed.
End context.

(** * Lemmas: playing a script *)

Definition scripted_for (m : ReplayReasoningModel) (request : ModelRequest) : list (list (string * json)) :=
  default [] (dict_get (value (mq_stage request)) (responses m)).

Definition used_for (m : ReplayReasoningModel) (request : ModelRequest) : Z :=
  default 0 (dict_get (value (mq_stage request)) (used m)).

(** The answer of a played response. *)
Definition played (m : ReplayReasoningModel) (scripted : list (string * json)) (request : ModelRequest)
    : res ModelResponse :=
  filled ← fill (substitutions m) scripted (mq_context_text request); replay_response filled.

Lemma replay_respond_eq request m :
  replay_respond request m
  = let m' := m <| requests := requests m ++ [request] |> in
    match nth_error (scripted_for m request) (Z.to_nat (used_for m request)) with
    | None => (Err ReplayFixtureError, m')
    | Some scripted =>
        (played m scripted request,
         m' <| used := dict_set (value (mq_stage request)) (used_for m request + 1) (used m) |>)
    end.
Proof.
  unfold replay_respond, modify, get_state, lift_result, played, scripted_for, used_for, mbind, ST_bind.
  cbn -[fill value nth_error]. destruct (nth_error _ _) as [scripted|]; [|done].
  cbn -[fill value]. by destruct (fill (substitutions m) scripted (mq_context_text request)).
Qed.

(** What is asked of the model, through either method. *)
Inductive ReplayCall := Proposing (request : ModelRequest) | Responding (request : ModelRequest).

Definition call_request (c : ReplayCall) : ModelRequest :=
  match c with Proposing r => r | Responding r => r end.

Section playing.
Context `{Pydantic}.

Definition after_call (s : ReplayToolCallingModel) (c : ReplayCall) : ReplayToolCallingModel :=
  match c with Proposing r => (scripted_propose r s).2 | Responding r => (scripted_respond r s).2 end.

Lemma scripted_propose_eq request s :
  scripted_propose request s
  = let '(r, i) := replay_respond request (inner s) in
    let s' := s <| inner := i |> in
    match r with
    | Err e => (Err e, s')
    | Ok response =>
        let turn parsed errors calls := {| pt_parsed := parsed; pt_errors := errors; pt_tool_call := calls;
                                           pt_usage := mr_usage response |} in
        match parse_plan (mq_stage request) (mr_content response) with
        | (None, errors) => (Ok (turn None errors []), s')
        | (Some plan, _) =>
            match pl_proposal plan with
            | None => (Ok (turn (Some plan) "" []), s')
            | Some proposal =>
                let n := next_call_id s + 1 in
                (Ok (turn (Some plan) "" [to_tool_call proposal ("call-" +:+ str_of_Z n)]),
                 s' <| next_call_id := n |>)
            end
        end
    end.
Proof.
  unfold scripted_propose, on_inner, mbind, ST_bind.
  destruct (replay_respond request (inner s)) as [[response|e] i]; [|done].
  destruct (parse_plan _ _) as [[parsed|] errors]; [|done]. by destruct (pl_proposal parsed).
Qed.

Lemma scripted_propose_inner request s :
  inner (scripted_propose request s).2 = (replay_respond request (inner s)).2.
Proof.
  unfold scripted_propose, on_inner, mbind, ST_bind.
  destruct (replay_respond request (inner s)) as [[response|e] i]; [|done].
  destruct (parse_plan _ _) as [[parsed|] errors]; [|done]. by destruct (pl_proposal parsed).
Qed.

Lemma after_call_inner s c : inner (after_call s c) = (replay_respond (call_request c) (inner s)).2.
Proof.
  destruct c as [r|r]; cbn; [apply scripted_propose_inner|].
  unfold scripted_respond, on_inner. by destruct (replay_respond r (inner s)).
Qed.

(** How many of the calls asked for a stage. *)
Definition asked (stage : Stage) (calls : list ReplayCall) : nat :=
  length (filter (fun c => mq_stage (call_request c) = stage) calls).

(** The model after the calls [calls], started with the script of [m]. *)
Definition played_to (m : ReplayReasoningModel) (calls : list ReplayCall) (m' : ReplayReasoningModel) : Prop :=
  responses m' = responses m /\ substitutions m' = substitutions m
  /\ requests m' = requests m ++ (call_request <$> calls)
  /\ forall request, used_for m' request
       = Z.of_nat (Nat.min (asked (mq_stage request) calls) (length (scripted_for m request))).

Lemma value_stage (s t : Stage) : value s = value t -> s = t.
Proof. by destruct s, t. Qed.

Lemma played_to_call m calls m' c :
  played_to m calls m' -> played_to m (calls ++ [c]) (replay_respond (call_request c) m').2.
Proof.
  intros (HR & HS & HQ & HU). set (r := call_request c).
  assert (scripted_for m' r = scripted_for m r) as Hsc by (unfold scripted_for; by rewrite HR).
  assert (forall s : Stage, asked s (calls ++ [c])
            = (asked s calls + if decide (mq_stage r = s) then 1 else 0)%nat) as Hasked.
  { intros s. unfold asked. rewrite filter_app, length_app, filter_cons, filter_nil.
    unfold r. by case_decide. }
  rewrite replay_respond_eq, Hsc, (HU r), Nat2Z.id. unfold played_to. rewrite fmap_app, (assoc_L (++)).
  destruct (nth_error (scripted_for m r) _) as [scripted|] eqn:Hn; cbn.
  - assert (asked (mq_stage r) calls < length (scripted_for m r))%nat as Hlt.
    { assert (Nat.min (asked (mq_stage r) calls) (length (scripted_for m r))
              < length (scripted_for m r))%nat by (apply nth_error_Some; congruence). lia. }
    split_and!; [done|done|by rewrite HQ|]. intros q. rewrite Hasked.
    change (default 0 (dict_get (value (mq_stage q))
              (dict_set (value (mq_stage r))
                 (Z.of_nat (asked (mq_stage r) calls `min` length (scripted_for m r)) + 1) (used m')))
            = Z.of_nat ((asked (mq_stage q) calls + if decide (mq_stage r = mq_stage q) then 1 else 0)
                          `min` length (scripted_for m q))).
    case_decide as Hq.
    + assert (scripted_for m q = scripted_for m r) as -> by (unfold scripted_for; by rewrite Hq).
      rewrite <- Hq, dict_get_set_eq. cbn. lia.
    + rewrite dict_get_set_ne by (by intros He%value_stage).
      specialize (HU q). unfold used_for in HU. rewrite HU. f_equal. lia.
  - apply nth_error_None in Hn. split_and!; [done|done|by rewrite HQ|]. intros q. rewrite Hasked.
    transitivity (used_for m' q); [done|]. rewrite HU. case_decide as Hq; [|f_equal; lia].
    assert (scripted_for m q = scripted_for m r) as -> by (unfold scripted_for; by rewrite Hq).
    rewrite <- Hq. lia.
Qed.

Lemma played_to_calls m calls s :
  used m = [] -> inner s = m -> played_to m calls (inner (fold_left after_call calls s)).
Proof.
  intros Hu Hm. induction calls as [|c calls IH] using rev_ind.
  - cbn. rewrite Hm. split_and!; [done|done|by rewrite app_nil_r|]. intros q. unfold used_for. by rewrite Hu.
  - rewrite fold_left_app. cbn [fold_left]. rewrite after_call_inner. by apply played_to_call.
Qed.

(** A plan that was parsed carries a proposal inside its schema. *)
Lemma parse_plan_proposal stage content plan e q :
  parse_plan stage content = (Some plan, e) -> pl_proposal plan = Some q ->
  arguments_in_schema (pr_arguments q) = true /\ check_proposal q = Ok q.
Proof.
  unfold parse_plan, parse_response. destruct (validate_plan content) as [p|] eqn:Hv; [|done].
  intros [= -> _] Hq. unfold validate_plan in Hv.
  apply bind_Some in Hv as (? & _ & Hv). apply bind_Some in Hv as (? & _ & Hv).
  apply bind_Some in Hv as (prop & Hp & Hv). apply bind_Some in Hv as (? & _ & Hv).
  apply of_result_Some in Hv. unfold check_proposal_or_stop in Hv. invert_checks. cbn in Hq. subst prop.
  assert (exists j, validate_proposal j = Some q) as ([| | | | | |d] & Hj); try done.
  { destruct (dict_get "proposal" content) as [[]|]; try done;
      match type of Hp with Some <$> validate_proposal ?j = _ => exists j end;
      by destruct (validate_proposal _); simplify_eq/=. }
  unfold validate_proposal in Hj. apply bind_Some in Hj as (a & Ha & Hj).
  apply bind_Some in Hj as (g & _ & Hj). apply bind_Some in Hj as (o & _ & Hj).
  apply of_result_Some in Hj. pose proof (check_proposal_id _ _ Hj) as ->. split; [|done].
  destruct (dict_get "arguments" d) as [[]|]; try done. by eapply validate_arguments_in_schema.
Qed.
End playing.

Lemma nth_error_min {A} (l : list A) k : nth_error l (Nat.min k (length l)) = nth_error l k.
Proof.
  destruct (Nat.min_spec k (length l)) as [[_ ->]|[Hk ->]]; [done|].
  rewrite (proj2 (nth_error_None l k)) by done. by apply nth_error_None.
Qed.

Section turns.
Context `{PydanticRoundTrip}.

(** C39: After any calls through either method, a proposing turn plays the stage's next
    scripted response, whatever the other stages played, and raises when the stage's
    script is over; every request is kept in order.  When the response is filled in, the
    turn is its plan, or the errors of one that does not parse, and the native call
    beside a plan is single, has a number of its own and is parsed back, by the parser a
    live provider's calls go through, into exactly the plan's proposal. *)
Theorem replay_turn s calls request :
  used (inner s) = [] -> requests (inner s) = [] ->
  let s' := fold_left after_call calls s in
  let '(r, s'') := scripted_propose request s' in
  requests (inner s'') = (call_request <$> calls) ++ [request]
  /\ match nth_error (scripted_for (inner s) request) (asked (mq_stage request) calls) with
     | None => r = Err ReplayFixtureError /\ next_call_id s'' = next_call_id s'
     | Some scripted =>
         match played (inner s) scripted request with
         | Err e => r = Err e
         | Ok response =>
             exists turn, r = Ok turn
             /\ (pt_parsed turn, pt_errors turn)
                = match parse_plan (mq_stage request) (mr_content response) with
                  | (None, errors) => (None, errors)
                  | (Some plan, _) => (Some plan, "")
                  end
             /\ match pt_parsed turn ≫= pl_proposal with
                | None => pt_tool_call turn = [] /\ next_call_id s'' = next_call_id s'
                | Some proposal => exists call,
                    pt_tool_call turn = [call] /\ parse_tool_call call = (Some proposal, "")
                    /\ next_call_id s'' = next_call_id s' + 1
                    /\ nt_id call = "call-" +:+ str_of_Z (next_call_id s'')
                end
         end
     end.
Proof.
  intros Hu Hq s'. destruct (played_to_calls (inner s) calls s Hu eq_refl) as (HR & HS & HQ & HU).
  fold s' in HR, HS, HQ, HU.
  assert (scripted_for (inner s') request = scripted_for (inner s) request) as Hsc
    by (unfold scripted_for; by rewrite HR).
  assert (requests (inner s') ++ [request] = (call_request <$> calls) ++ [request]) as Hreq
    by (by rewrite HQ, Hq).
  rewrite scripted_propose_eq, replay_respond_eq, Hsc, HU, Nat2Z.id, nth_error_min. cbv zeta.
  destruct (nth_error (scripted_for (inner s) request) _) as [scripted|]; [|by split].
  assert (played (inner s') scripted request = played (inner s) scripted request) as ->
    by (unfold played; by rewrite HS).
  destruct (played (inner s) scripted request) as [response|e]; [|by split].
  destruct (parse_plan _ _) as [[plan|] errors] eqn:Hparse; [|split; [done|by eexists]].
  destruct (pl_proposal plan) as [proposal|] eqn:Hprop.
  - split; [done|]. eexists. split; [done|]. split; [done|]. cbn. rewrite Hprop.
    eexists. split; [done|]. split; [|by split].
    apply tool_call_round_trip; by eapply parse_plan_proposal.
  - split; [done|]. eexists. split; [done|]. split; [done|]. cbn. by rewrite Hprop.
Qed.
End turns.

(** * Lemmas: the wired model *)

Lemma plain_app s t : plain_text (s +:+ t) = plain_text s && plain_text t.
Proof. apply all_chars_app. Qed.

Lemma digits_plain s : all_digits s = true -> plain_text s = true.
Proof.
  unfold all_digits, plain_text, all_chars. rewrite !forallb_forall. intros Hs c Hc.
  specialize (Hs c Hc). unfold is_digit, written_plainly in *. lia.
Qed.

Lemma pretty_plain n : plain_text (pretty (n : N)) = true.
Proof.
  unfold pretty, pretty_N. case_decide; [done|].
  destruct (pretty_go_digits n "" eq_refl) as (Ha & _). by apply digits_plain.
Qed.

Lemma str_of_Z_plain z : plain_text (str_of_Z z) = true.
Proof.
  destruct z as [|p|p]; [done|apply (pretty_plain (Npos p))|].
  change (plain_text ("-" +:+ pretty (Npos p)) = true). by rewrite plain_app, pretty_plain.
Qed.

Lemma pad_plain width n : plain_text (pad width n) = true.
Proof.
  unfold pad. rewrite plain_app, str_of_Z_plain, andb_true_r.
  induction (width - _)%nat as [|[|m] IH]; [done|done|].
  change (plain_text ("0" +:+ String.concat "" (replicate (S m) "0")) = true). by rewrite plain_app, IH.
Qed.

Lemma isoformat_plain t : plain_text (isoformat t) = true.
Proof.
  unfold isoformat. repeat case_match; rewrite ?plain_app, ?pad_plain; done.
Qed.

(** What the wiring builds is a model at its start, whose substitutions are a caller's. *)
Theorem wired_replay_model `{Host} `{Fts5} `{Pinecone} http_get files elapsed_ms runbook_corpus
    fixture_dir read_text fixture incident budgets environment family model registry name :
  plain_text (sc_incident_id (si_scope incident)) = true ->
  plain_text (ap_symptom_evidence_id (si_packet incident)) = true ->
  hosted_build http_get files elapsed_ms runbook_corpus fixture_dir read_text fixture incident budgets
    environment family = Ok (model, registry, name) ->
  Forall caller_substitution (substitutions (inner model))
  /\ used (inner model) = [] /\ requests (inner model) = [] /\ next_call_id model = 0
  /\ name = REPLAY_MODEL_NAME
  /\ build_tool_registry http_get files elapsed_ms runbook_corpus budgets environment = Ok registry
  /\ (read_text (default (FAMILY_REPLAY_FIXTURES fixture_dir family) fixture) ≫= script_responses)
     = Ok (responses (inner model)).
Proof.
  intros Hid Hsym. unfold hosted_build, build_replay_model_and_registry, new_replay_model.
  destruct (read_text _) as [text|]; [|done]. cbn [mbind result_bind].
  destruct (script_responses text) as [stages|]; [|done]. cbn [mbind result_bind].
  change (forallb _ (dict_keys (incident_substitutions incident))) with true. cbn [mbind result_bind].
  destruct (build_tool_registry _ _ _ _ _ _) as [built|]; [|done]. intros [= <- <- <-].
  split_and!; try done. unfold caller_substitution.
  repeat apply Forall_cons_2; try (by apply Forall_nil_2); (split; [cbn; set_solver|]);
    done || apply isoformat_plain.
Qed.

(** * The private VM's model *)

Section candidate_turns.
Context `{PydanticRoundTrip} (transport : nat -> string -> json -> res (list (string * json))).
Context (model_json_schema : Stage -> json).

(** A turn posts once, whatever comes back, to the address the model was made with; what
    it raises is what reading the answer raised, and the call beside a plan is single, has
    a number of its own and is parsed back into exactly the plan's proposal. *)
Theorem candidate_turn request m :
  let answer := transport (ol_posts m) (ol_base_url m +:+ "/api/chat")
                  (candidate_payload model_json_schema request) ≫= read_candidate in
  let '(r, m') := candidate_propose transport model_json_schema request m in
  ol_posts m' = S (ol_posts m) /\ ol_base_url m' = ol_base_url m
  /\ match answer with
     | Err e => r = Err e /\ ol_next_call_id m' = ol_next_call_id m
     | Ok content =>
         exists turn, r = Ok turn
         /\ pt_parsed turn = (parse_plan (mq_stage request) content).1
         /\ match pt_parsed turn ≫= pl_proposal with
            | None => pt_tool_call turn = [] /\ ol_next_call_id m' = ol_next_call_id m
            | Some proposal => exists call,
                pt_tool_call turn = [call] /\ parse_tool_call call = (Some proposal, "")
                /\ ol_next_call_id m' = ol_next_call_id m + 1
                /\ nt_id call = "ollama-call-" +:+ str_of_Z (ol_next_call_id m')
            end
     end.
Proof.
  cbv zeta. unfold candidate_propose, request_content, get_state, modify, lift_result, mbind, ST_bind, result_bind.
  destruct (transport _ _ _) as [response|e]; [|done]. cbn -[parse_plan read_candidate].
  destruct (read_candidate response) as [content|e]; [|done].
  destruct (parse_plan (mq_stage request) content) as [[plan|] errors] eqn:Hparse.
  - destruct (pl_proposal plan) as [proposal|] eqn:Hprop; (split; [done|]; split; [done|]; eexists;
      split; [done|]; split; [done|]); cbn; rewrite Hprop; [|done].
    eexists. split; [done|]. split; [|by split]. apply tool_call_round_trip; by eapply parse_plan_proposal.
  - split; [done|]. split; [done|]. by eexists.
Qed.
End candidate_turns.

(** The two gates agree: a process whose environment the wiring lets through gets a model. *)
Lemma candidate_gates_agree environment :
  is_ok (ollama_candidate_allowed environment) = is_ok (new_candidate_model environment).
Proof.
  unfold ollama_candidate_allowed, new_candidate_model.
  by destruct (bool_decide _), (affirmative _).
Qed.
