(* ===== verification/Samples.v ===== *)
(** Concrete instances of everything the development takes as a parameter, small
    enough to run: a Pydantic that reads and writes timestamps as decimal text, a
    host whose digests are the texts themselves, clocks that tick, the engine that
    drives the graph, backends and models with scripted answers, and one incident; a
    Firestore whose requests succeed, one that loses an answer, databases whose
    statements succeed or fail at a given point, and two jobs' story.
    The witnesses evaluate the program on them. *)
From Stdlib Require Import ZArith Lia.
From stdpp Require Import prelude strings list pretty gmap.
From S2P Require Import Prelude PyText Float64 Tools Domain Policy World Evidence Wrappers ToolCalls Models Prompts GraphState GraphNodes GraphRun GraphInvariant GraphProps GraphResume Sqlite CostLedger LiveModel Approvals ControlPlane FirestorePlane SqlitePlane PlaneWorkers.
Local Open Scope Z_scope.

(** * The host *)

(** A number written in binary, lowest digit first, and its reader. *)
Fixpoint write_pos (p : positive) : string :=
  match p with
  | xH => "1"
  | xO p => String.app "0" (write_pos p)
  | xI p => String.app "1" (write_pos p)
  end.

Fixpoint read_pos (s : string) : option positive :=
  match s with
  | EmptyString => None
  | String c EmptyString => if decide (code c = 49) then Some xH else None
  | String c s' =>
      p ← read_pos s';
      if decide (code c = 48) then Some (xO p) else if decide (code c = 49) then Some (xI p) else None
  end.

Definition write_Z (z : Z) : string :=
  match z with
  | Z0 => "z"
  | Zpos p => String.app "p" (write_pos p)
  | Zneg p => String.app "n" (write_pos p)
  end.

Definition read_Z (s : string) : option Z :=
  match s with
  | String c s' =>
      if decide (code c = 122) then Some 0
      else if decide (code c = 112) then Zpos <$> read_pos s'
      else if decide (code c = 110) then Zneg <$> read_pos s'
      else None
  | EmptyString => None
  end.

#[export] Instance sample_pydantic : Pydantic := {
  coerce_int j := match j with JInt z => Some z | _ => None end;
  coerce_datetime j := match j with JStr s => read_Z s | _ => None end;
  dump_datetime := write_Z;
  validation_errors schema _ := [(["content"], "does not fit " +:+ schema)];
}.

Lemma read_pos_cons c s p :
  s <> "" -> read_pos s = Some p ->
  read_pos (String c s)
  = if decide (code c = 48) then Some (xO p) else if decide (code c = 49) then Some (xI p) else None.
Proof. destruct s as [|c' s]; [done|]. intros _ Hr. cbn [read_pos] in *. by rewrite Hr. Qed.

Lemma read_write_pos p : read_pos (write_pos p) = Some p.
Proof.
  induction p as [p IH|p IH|]; [..|done]; cbn [write_pos];
    rewrite string_app_cons; erewrite read_pos_cons; [done|by destruct p|exact IH
                                                     |done|by destruct p|exact IH].
Qed.

#[export] Instance sample_round_trip : PydanticRoundTrip.
Proof.
  split; [done|]. intros [|p|p]; [done|..].
  - change (Zpos <$> read_pos (write_pos p) = Some (Zpos p)). by rewrite read_write_pos.
  - change (Zneg <$> read_pos (write_pos p) = Some (Zneg p)). by rewrite read_write_pos.
Qed.

#[export] Instance sample_host : Host := {
  sha256_hex s := s;
  uuid_hex n := write_Z (Z.of_nat n);
}.

Lemma write_Z_inj a b : write_Z a = write_Z b -> a = b.
Proof.
  intros Hab. pose proof (coerce_dump_datetime a) as Ha. pose proof (coerce_dump_datetime b) as Hb.
  cbn [dump_datetime sample_pydantic] in *. rewrite Hab in Ha. congruence.
Qed.

#[export] Instance sample_fresh_ids : FreshIds.
Proof. intros m n Hmn. apply write_Z_inj in Hmn. lia. Qed.

(** The investigation's clock moves once, by a second and a half; the recorder's
    advances by one second a reading. *)
#[export] Instance sample_clocks : Clocks := {
  clock n := if (n <? 3)%nat then 62000000 else 63500000;
  event_clock n := Z.of_nat n * 1000000;
}.

#[export] Instance sample_clock_laws : ClockLaws.
Proof.
  split; intros m n; cbn [clock sample_clocks].
  - destruct (Nat.ltb_spec m 3), (Nat.ltb_spec n 3); lia.
  - by destruct (m <? 3)%nat, (n <? 3)%nat.
Qed.

#[export] Instance sample_engine : LangGraph := {
  invoke := drive;
  latest_checkpoint_id _ := "checkpoint";
}.

#[export] Instance sample_engine_laws : LangGraphLaws.
Proof. intros g limit cp w. apply drive_executes. Qed.

(** * One incident *)

Definition sample_scope : IncidentScope :=
  {| sc_incident_id := "inc-1"; sc_environment := "local-lab"; sc_services := ["orders"; "gateway"];
     sc_started_at := 1000000; sc_ended_at := 61000000; sc_endpoint := "/checkout" |}.

Definition sample_packet : InitialAlertPacket :=
  {| ap_incident_id := "inc-1"; ap_window_start := 1000000; ap_window_end := 61000000;
     ap_endpoint := "/checkout"; ap_symptom := ELEVATED_ERRORS;
     ap_services := ["orders"; "gateway"]; ap_alerted_at := 61000000;
     ap_alert_source_version := "1"; ap_symptom_evidence_id := "ev-symptom";
     ap_topology_evidence_id := "ev-topology" |}.

Definition sample_evidence (id : string) (k : EvidenceKind) (t : Z) : Evidence :=
  {| ev_evidence_id := id; ev_incident_id := "inc-1"; ev_kind := k; ev_source := "prometheus";
     ev_observed_at := t; ev_summary := "an observation"; ev_payload := [];
     ev_receipt_id := None; ev_content_hash := "h" |}.

Definition sample_initial_evidence : list Evidence :=
  [sample_evidence "ev-symptom" SYMPTOM 2000000; sample_evidence "ev-topology" TOPOLOGY 1500000].

Definition sample_check : CheckOutcome :=
  {| co_outcome := EXECUTED; co_kind := LOG; co_source := "logs"; co_summary := "3 rows";
     co_payload := [("row_count", JInt 3)]; co_reason_code := None; co_duration_ms := 12 |}.

Definition sample_passage : RunbookPassage :=
  {| rp_passage_id := "rb-1"; rp_content := "look at the pool"; rp_source_version := "1";
     rp_content_hash := "h"; rp_score := "0.5"; rp_retrieval_mode := FTS5_LEXICAL |}.

(** Backends that answer every request; [run_logs] raises from the third backend call on. *)
Definition sample_backends : Backends := {|
  run_metric := fun _ _ _ => Ok sample_check;
  run_logs := fun n _ _ => if (n <? 2)%nat then Ok sample_check else Err (OtherError "ConnectionError");
  run_changes := fun _ _ _ => Ok sample_check;
  run_topology := fun _ _ _ => Ok sample_check;
  run_search := fun _ _ _ => Ok {| ro_outcome := EXECUTED; ro_passages := [sample_passage];
                                   ro_retrieval_mode := FTS5_LEXICAL; ro_reason_code := None;
                                   ro_duration_ms := 3 |};
|}.

Definition sample_investigation : Investigation :=
  {| iv_scope := sample_scope; iv_packet := sample_packet; iv_budgets := DEFAULT_BUDGETS;
     iv_registry := dispatch_registry sample_backends;
     iv_suppress_escalation := false; iv_no_tool_baseline := false |}.

(** * Proposals and models *)

Definition sample_proposal (a : ToolArguments) : ToolProposal :=
  {| pr_arguments := a; pr_evidence_gap := "why"; pr_expected_observation := "errors" |}.

Definition logs_proposal (limit : Z) : ToolProposal :=
  sample_proposal (ALogs {| ql_log_filter := ERRORS_ONLY; ql_service := "orders";
    ql_window_start := None; ql_window_end := None; ql_row_limit := limit |}).

Definition search_proposal (topic : RunbookTopic) : ToolProposal :=
  sample_proposal (ARunbooks {| sr_topic := topic; sr_limit := 2 |}).

Definition sample_hypothesis (c : RootCauseCode) (rank : Z) : Hypothesis_ :=
  {| hy_root_cause := c; hy_rank := rank; hy_supporting_evidence_ids := [];
     hy_contrary_evidence_ids := []; hy_missing_evidence := "logs" |}.

Definition sample_plan (p : option ToolProposal) : StagePlan :=
  {| pl_hypotheses := [sample_hypothesis CONFIG_CHANGE 1; sample_hypothesis RESOURCE_POOL_SATURATION 2];
     pl_proposal := p;
     pl_stop_reason := match p with None => Some "nothing left to check" | Some _ => None end |}.

Definition propose_turn (p : option ToolProposal) : ProposedTurn :=
  {| pt_parsed := Some (sample_plan p); pt_errors := "";
     pt_tool_call := match p with None => [] | Some p => [to_tool_call p "call-1"] end;
     pt_usage := Some {| input_tokens := 10; output_tokens := 5 |} |}.

Definition sample_assessment (cited contrary : list string) : FinalAssessment :=
  {| fa_schema_version := "1"; fa_disposition := M_DIAGNOSED;
     fa_root_cause := RESOURCE_POOL_SATURATION; fa_supporting_evidence_ids := cited;
     fa_contrary_evidence_ids := contrary; fa_runbook_citations := ["rb-1"];
     fa_uncertainty := "some"; fa_next_step := "grow the pool" |}.

Definition answer (a : FinalAssessment) : ModelResponse :=
  {| mr_content := dump_assessment a; mr_usage := Some {| input_tokens := 7; output_tokens := 3 |};
     mr_errors := "" |}.

(** A model that proposes the scripted checks in turn, then answers. *)
Definition scripted_model (turns : list (option ToolProposal)) (a : FinalAssessment)
    : ToolCallingModel := {|
  propose n _ := Ok (propose_turn (default None (turns !! n)));
  respond _ _ := Ok (answer a);
|}.

(** A model that raises on every call. *)
Definition raising_model (e : exn) : ToolCallingModel :=
  {| propose _ _ := Err e; respond _ _ := Err e |}.

(** A run of the sample incident, as the theorems state it. *)
Notation sample_run model iv :=
  (run_graph_investigation (H2 := model) iv None "replay" sample_initial_evidence initial_world)
  (only parsing).

Definition outcome_of {A B C D} (r : A * B * C * D) : A := r.1.1.1.
Definition events_of {A B C D} (r : A * B * C * D) : B := r.1.1.2.
Definition checkpoint_of {A B C D} (r : A * B * C * D) : C := r.1.2.
Definition world_of {A B C D} (r : A * B * C * D) : D := r.2.

(** An investigation of two checks and a search, then an answer that cites real
    evidence: it finishes. *)
Definition sample_turns : list (option ToolProposal) :=
  [Some (logs_proposal 5); Some (search_proposal RESOURCE_POOL_PRESSURE); None].

Definition sample_model : ToolCallingModel :=
  scripted_model sample_turns (sample_assessment ["ev-symptom"] []).

(** One whose answer lists contrary evidence: it waits for the owner. *)
Definition conflicted_model : ToolCallingModel :=
  scripted_model sample_turns (sample_assessment ["ev-symptom"] ["ev-topology"]).

Definition with_options (suppress baseline : bool) (iv : Investigation) : Investigation :=
  {| iv_scope := iv_scope iv; iv_packet := iv_packet iv; iv_budgets := iv_budgets iv;
     iv_registry := iv_registry iv; iv_suppress_escalation := suppress;
     iv_no_tool_baseline := baseline |}.

Definition is_finished (r : res Outcome) : bool :=
  match r with Ok (Finished _) => true | _ => false end.
Definition is_escalated (r : res Outcome) : bool :=
  match r with Ok (Escalated _) => true | _ => false end.

Example sample_run_finishes : is_finished (outcome_of (sample_run sample_model sample_investigation)) = true.
Proof. vm_compute. reflexivity. Qed.

Example conflicted_run_waits :
  is_escalated (outcome_of (sample_run conflicted_model sample_investigation)) = true.
Proof. vm_compute. reflexivity. Qed.

(** * What the sample satisfies *)

Lemma sample_registry_ok : registry_ok (iv_registry sample_investigation).
Proof. apply dispatch_registry_ok. Qed.

Lemma sample_passages_ok : passages_ok (iv_registry sample_investigation).
Proof.
  intros t w n a scope o Hget Hrun.
  destruct t, a; injection Hget as <-; cbn in Hrun; try done.
  - by destruct (n <=? 1)%nat.
  - injection Hrun as <-. by repeat constructor.
Qed.

Lemma sample_budgets_ok : budgets_ok (iv_budgets sample_investigation).
Proof. done. Qed.

Lemma sample_evidence_all_ok :
  Forall (evidence_ok (sc_incident_id (iv_scope sample_investigation))) sample_initial_evidence.
Proof. by repeat constructor. Qed.

Lemma sample_limit_covers suppress baseline :
  limit_covers (with_options suppress baseline sample_investigation).
Proof. done. Qed.

(** The finished run, and the one that waits. *)
Lemma sample_run_result :
  exists x recorded cp w a,
    sample_run sample_model sample_investigation = (Ok (Finished x), recorded, cp, w)
    /\ ir_assessment (res_report x) = Some a /\ "ev-symptom" ∈ cited_ids a.
Proof.
  do 5 eexists. split; [vm_compute; reflexivity|]. split; [reflexivity|]. by left.
Qed.

Lemma conflicted_run_result :
  exists x recorded cp w,
    sample_run conflicted_model sample_investigation = (Ok (Escalated x), recorded, cp, w).
Proof. do 4 eexists. vm_compute. reflexivity. Qed.

Lemma sample_report_valid : exists report, revalidate_report report = Ok report.
Proof.
  destruct (outcome_of (sample_run sample_model sample_investigation)) as [[x|x]|e] eqn:Hrun;
    [|vm_compute in Hrun; discriminate..].
  exists (res_report x). vm_compute in Hrun. injection Hrun as <-. vm_compute. reflexivity.
Qed.

(** * The store and the provider *)

(** A store whose statements all succeed. *)
#[export] Instance reliable_store : Sqlite := fun _ => false.

Definition fresh_connection {R} : Connection R :=
  {| db_saved := None; db_open := None; db_statements := 0 |}.

Definition sample_key : RequestKey :=
  {| k_run_id := "run-1"; k_graph_phase := "INVESTIGATE"; k_model_turn := 0;
     k_context_digest := "digest" |}.

Definition one_cent : f64 := default f_zero (int_truediv 1 100).

(** A provider that stops at once, naming two hypotheses. *)
Definition stop_message : AIMessage :=
  {| am_content := JArr [JObj [("type", JStr "tool_use")]];
     am_tool_calls := [{| tc_name := RECORD_STOP_TOOL_NAME;
       tc_args := [("hypotheses", JArr (dump_hypothesis <$> pl_hypotheses (sample_plan None)));
                   ("stop_reason", JStr "nothing left to check")];
       tc_id := Some "call-1" |}];
     am_invalid_tool_calls := [];
     am_usage_metadata := Some {| input_tokens := 1200; output_tokens := 300 |} |}.

Definition final_message : AIMessage :=
  {| am_content := JStr "";
     am_tool_calls := [{| tc_name := RECORD_FINAL_ASSESSMENT_TOOL_NAME;
       tc_args := tail (dump_assessment (sample_assessment ["ev-symptom"] []));
       tc_id := None |}];
     am_invalid_tool_calls := [];
     am_usage_metadata := Some {| input_tokens := 900; output_tokens := 200 |} |}.

#[export] Instance sample_provider : Provider := {
  chat_invoke n _ _ _ := if (n =? 0)%nat then Ok stop_message else Ok final_message;
  stop_tool_definition := JObj [("name", JStr "record_stop")];
  domain_tool_definitions := [JObj [("name", JStr "query_logs")]];
  final_assessment_tool_definition := JObj [("name", JStr "record_final_assessment")];
}.

Definition sample_live_model : LiveClaudeModel :=
  {| lm_ceiling_usd := f_one; lm_pricing := CLAUDE_SONNET_5_PRICING; lm_credential_present := true |}.

Definition sample_request (digest : string) : ModelRequest :=
  {| mq_stage := INITIAL_PLAN; mq_system_text := "system"; mq_context_text := "context";
     mq_repair_errors := None; mq_run_id := "run-1"; mq_graph_phase := P_INVESTIGATE;
     mq_model_turn := 0; mq_context_digest := digest |}.

Definition fresh_live : Live := {| lv_conn := fresh_connection; lv_ticks := 0; lv_sent := [] |}.

(** * Databases *)

#[export] Instance sample_firestore : Firestore := {
  reply _ := Served;
  stream _ _ _ _ m := (map_to_list m).*2;
}.

#[export] Instance sample_firestore_laws : FirestoreLaws.
Proof. intros K ? ? A m. reflexivity. Qed.

(** The answer to the fourth request is lost. *)
Definition losing_firestore : Firestore := {|
  reply n := if (n =? 3)%nat then Lost else Served;
  stream _ _ _ _ m := (map_to_list m).*2;
|}.

Lemma losing_firestore_laws : @FirestoreLaws losing_firestore.
Proof. intros K ? ? A m. reflexivity. Qed.

Definition sound_tables : PlaneStatements := fun _ => false.

Definition sound_ledger : Sqlite := fun _ => false.

(** * The clock, the files *)

(** Three moments: readings 0 to 9, 10 to 19, and later, past the lease. *)
#[export] Instance sample_plane_clock : PlaneClock := fun n =>
  if (n <? 10)%nat then f_of_Z 100 else if (n <? 20)%nat then f_of_Z 200 else f_of_Z 1000.

#[export] Instance sample_ledger_clock : LedgerClock := fun n => Z.of_nat n.

#[export] Instance sample_artifacts : Artifacts := fun _ id => Ok ("# Report " +:+ id).

Lemma sample_steady : steady_clock DEFAULT_PLANE.
Proof.
  split.
  - intros n. unfold plane_time, sample_plane_clock. by repeat case_match.
  - intros n. unfold plane_time, sample_plane_clock. by repeat case_match; vm_compute.
  - intros n attempt delay Hattempt Hdelay.
    assert (attempt = 1 \/ attempt = 2) as [-> | ->] by (simpl in Hattempt; lia);
      vm_compute in Hdelay; injection Hdelay as <-;
      unfold plane_time, sample_plane_clock; by repeat case_match; vm_compute.
Qed.

(** * The story of two jobs *)

Definition sample_creation : CreateInvestigationRequest := {| cr_scenario_family := S_CONFIGURATION_CHANGE |}.

Definition accepted : OwnerDecision := {| od_decision := accept; od_rejection_note := None |}.

(** The first job waits for its owner, resumes and is reported. *)
Definition owner_story : list (nat * PlaneOp) := [
  (0%nat, op_create "owner@example.com" sample_creation "key-1");
  (1%nat, op_claim_next);
  (2%nat, op_reserve_incident (uuid_hex 0) (uuid_hex 1));
  (3%nat, op_mark_paused (uuid_hex 0) "checkpoint-1" (uuid_hex 1))].

Definition resumed_story : list (nat * PlaneOp) := [
  (4%nat, op_create "other@example.com" sample_creation "key-1");
  (11%nat, op_claim_next);
  (12%nat, op_renew_running (uuid_hex 0) (uuid_hex 3));
  (13%nat, op_finalize (uuid_hex 0) (uuid_hex 0 +:+ "/report.md") (uuid_hex 3));
  (14%nat, op_claim_delivery);
  (15%nat, op_mark_delivered (uuid_hex 0) (uuid_hex 4));
  (16%nat, op_report "owner@example.com" (uuid_hex 0));
  (17%nat, op_claim_next);
  (20%nat, op_claim_next);
  (21%nat, op_events "other@example.com" (uuid_hex 2))].

Definition whole_story : list (nat * PlaneOp) :=
  owner_story ++ (4%nat, op_decide "owner@example.com" (uuid_hex 0) accepted) :: resumed_story.
