(* ===== verification/Witnesses.v ===== *)
(** The theorems applied to concrete inputs: every hypothesis of a theorem is shown
    to hold of the sample incident, and its conclusion evaluated there. *)
From Stdlib Require Import ZArith Lia.
From stdpp Require Import prelude strings list gmap.
From S2P Require Import Prelude PyText Float64 Tools Domain Policy World Evidence Wrappers ToolCalls Models Prompts GraphState GraphNodes GraphStages GraphRun GraphInvariant GraphProps GraphResume GraphModes Sqlite CostLedger LiveModel LiveSetup Approvals Report Samples JsonRoundTrip Replay.
Local Open Scope Z_scope.

(** * Policy, evidence, tools *)

(** A request for more rows than the budget allows. *)
Lemma denial_explained_witness :
  let d := authorize (logs_proposal 41) sample_scope ∅ DEFAULT_BUDGETS 2 in
  pd_result d = DENIED
  /\ exists r text, pd_reason_code d = Some r
     /\ denial_justified (pr_arguments (logs_proposal 41)) sample_scope ∅ DEFAULT_BUDGETS 2 r
     /\ denial_guidance QUERY_LOGS r DEFAULT_BUDGETS = Ok text.
Proof.
  split; [reflexivity|]. exact (denial_explained (logs_proposal 41) sample_scope ∅ DEFAULT_BUDGETS 2 QUERY_LOGS eq_refl).
Defined.

Lemma ordered_arrival_independent_witness :
  exists s1 s2, rebuild_store "inc-1" sample_initial_evidence = Ok s1
    /\ rebuild_store "inc-1" (reverse sample_initial_evidence) = Ok s2
    /\ ordered s1 = ordered s2.
Proof.
  eexists _, _. split; [reflexivity|]. split; [reflexivity|].
  refine (ordered_arrival_independent "inc-1" sample_initial_evidence
    (reverse sample_initial_evidence) _ _ _ _ eq_refl eq_refl).
  - symmetry. apply reverse_Permutation.
  - cbn. repeat constructor; rewrite ?list_elem_of_singleton, ?elem_of_nil; naive_solver.
Defined.

Definition sample_rows : list json := [JStr "row-1"; JStr "row-2"].

Lemma trim_to_bytes_spec_witness :
  fits (trim_to_bytes [("note", JStr "n")] "rows" sample_rows "row_count") = true
  /\ (fits (trim_to_bytes [("note", JStr "n")] "rows" sample_rows "row_count") = true
      \/ widest_text (trim_to_bytes [("note", JStr "n")] "rows" sample_rows "row_count") = None).
Proof.
  split; [vm_compute; reflexivity|].
  refine (proj1 (trim_to_bytes_spec [("note", JStr "n")] "rows" sample_rows "row_count" _ _)).
  - repeat constructor; set_solver.
  - cbn. apply NoDup_singleton.
Defined.

Definition sample_dispatch : Dispatch :=
  {| d_world := initial_world; d_ledger := new_ledger 2 1; d_seen := ∅ |}.

Definition sample_logs_check : RunCheck := tw_run_check (query_logs_wrapper (run_logs sample_backends)).

Lemma dispatch_denied_witness :
  let '(_, d') := dispatch QUERY_LOGS QUERY_LOGS sample_logs_check (logs_proposal 41)
                    sample_scope DEFAULT_BUDGETS sample_dispatch in
  w_backend_calls (d_world d') = [] /\ length (receipts (d_ledger d')) = 1%nat.
Proof.
  destruct (dispatch QUERY_LOGS QUERY_LOGS sample_logs_check (logs_proposal 41)
              sample_scope DEFAULT_BUDGETS sample_dispatch) as [out d'] eqn:Hrun.
  destruct (dispatch_denied QUERY_LOGS sample_logs_check (logs_proposal 41) sample_scope
    DEFAULT_BUDGETS sample_dispatch out d' eq_refl ltac:(constructor) eq_refl Hrun)
    as (r & reason & _ & _ & _ & _ & _ & _ & Hr & Hb & _).
  rewrite Hr, Hb. split; reflexivity.
Defined.

Lemma dispatch_allowed_witness :
  let '(_, d') := dispatch QUERY_LOGS QUERY_LOGS sample_logs_check (logs_proposal 5)
                    sample_scope DEFAULT_BUDGETS sample_dispatch in
  length (w_backend_calls (d_world d')) = 1%nat
  /\ slots_left_for (d_ledger d') QUERY_METRIC = 1
  /\ slots_left_for (d_ledger d') SEARCH_RUNBOOKS = 1.
Proof.
  destruct (dispatch QUERY_LOGS QUERY_LOGS sample_logs_check (logs_proposal 5)
              sample_scope DEFAULT_BUDGETS sample_dispatch) as [out d'] eqn:Hrun.
  destruct (dispatch_allowed QUERY_LOGS sample_logs_check (logs_proposal 5) sample_scope
    DEFAULT_BUDGETS sample_dispatch out d' eq_refl ltac:(constructor) eq_refl Hrun)
    as (r & _ & _ & _ & Hb & Hs & _).
  rewrite Hb, !Hs. split; [|split]; reflexivity.
Defined.

Lemma dispatch_confined_witness :
  let '(_, d') := dispatch QUERY_LOGS QUERY_LOGS sample_logs_check (logs_proposal 5)
                    sample_scope DEFAULT_BUDGETS sample_dispatch in
  forall t, 0 <= slots_left_for (d_ledger d') t.
Proof.
  destruct (dispatch QUERY_LOGS QUERY_LOGS sample_logs_check (logs_proposal 5)
              sample_scope DEFAULT_BUDGETS sample_dispatch) as [out d'] eqn:Hrun.
  refine (proj1 (proj2 (dispatch_confined QUERY_LOGS sample_logs_check (logs_proposal 5)
    sample_scope DEFAULT_BUDGETS sample_dispatch out d' eq_refl ltac:(constructor) _ Hrun))).
  intros []; vm_compute; discriminate.
Defined.

Lemma effective_window_narrows_witness :
  exists s e, window_of (resolve_effective_window (pr_arguments (logs_proposal 5)) sample_scope)
              = Some (Some s, Some e)
    /\ 1000000 <= s /\ e <= 61000000.
Proof.
  destruct (effective_window_narrows (pr_arguments (logs_proposal 5)) sample_scope None None eq_refl)
    as (s & e & Hw & Hs & He & _).
  exists s, e. split; [exact Hw|]. split; [exact Hs|exact He].
Defined.

Lemma tool_call_round_trip_witness :
  parse_tool_call (to_tool_call (search_proposal RESOURCE_POOL_PRESSURE) "call-1")
  = (Some (search_proposal RESOURCE_POOL_PRESSURE), "").
Proof. exact (tool_call_round_trip (search_proposal RESOURCE_POOL_PRESSURE) "call-1" eq_refl eq_refl). Defined.

Lemma stage_dumps_round_trip_witness :
  parse_assessment (dump_assessment (sample_assessment ["ev-symptom"] []))
    = (Some (sample_assessment ["ev-symptom"] []), "")
  /\ parse_plan INITIAL_PLAN (dump_plan (sample_plan (Some (logs_proposal 5))))
     = (Some (sample_plan (Some (logs_proposal 5))), "").
Proof.
  apply (stage_dumps_round_trip INITIAL_PLAN (sample_assessment ["ev-symptom"] [])
           (sample_plan (Some (logs_proposal 5))) eq_refl eq_refl).
  intros q [= <-]. split; reflexivity.
Defined.

(** * A run that finishes *)

Module Finishing.
  #[local] Existing Instance sample_model.
  Notation iv := sample_investigation.

Lemma run_always_settles_witness :
  is_finished (outcome_of (sample_run sample_model iv)) = true
  /\ (let '(s, w) := seed iv None "replay" sample_initial_evidence initial_world in
      invoke (build_graph iv) 18 (start_checkpoint iv s) w
      = invoke (build_graph iv) GRAPH_RECURSION_LIMIT (start_checkpoint iv s) w)
  /\ let '(r, _, cp, _) := sample_run sample_model iv in
     (exists x, r = Ok (Finished x)) /\ cp_next cp = None
     \/ (exists x, r = Ok (Escalated x)) /\ cp_next cp = Some N_ESCALATION_INTERRUPT
     \/ r = Err GraphBubbleUp /\ signalled iv.
Proof.
  split; [vm_compute; reflexivity|].
  destruct (run_always_settles iv sample_initial_evidence sample_registry_ok sample_passages_ok
    sample_budgets_ok sample_evidence_all_ok None "replay" initial_world
    (sample_limit_covers false false)) as [Hlimit Hend].
  split; [|exact Hend]. destruct (seed _ _ _ _ _) as [s w]. apply (proj1 Hlimit). vm_compute. discriminate.
Defined.

Lemma run_citations_resolve_witness :
  exists x e, outcome_of (sample_run sample_model iv) = Ok (Finished x)
    /\ e ∈ res_evidence x /\ ev_evidence_id e = "ev-symptom" /\ ev_incident_id e = "inc-1".
Proof.
  destruct sample_run_result as (x & recorded & cp & w & a & Hrun & Ha & Hc).
  destruct (run_citations_resolve iv sample_initial_evidence sample_registry_ok sample_passages_ok
    sample_budgets_ok sample_evidence_all_ok None "replay" initial_world x recorded cp w a
    "ev-symptom" (sample_limit_covers false false) Hrun Ha Hc) as (e & He & Hid & Hinc).
  exists x, e. split; [|split; [exact He|split; [exact Hid|exact Hinc]]].
  unfold outcome_of. rewrite Hrun. reflexivity.
Defined.

Lemma run_within_budgets_witness :
  exists x w, outcome_of (sample_run sample_model iv) = Ok (Finished x)
    /\ Z.of_nat (w_model_calls w) <= 6
    /\ exists calls, w_backend_calls w = calls /\ within_pools DEFAULT_BUDGETS calls.
Proof.
  destruct sample_run_result as (x & recorded & cp & w & a & Hrun & _ & _).
  destruct (run_within_budgets iv sample_initial_evidence sample_registry_ok sample_passages_ok
    sample_budgets_ok sample_evidence_all_ok None "replay" initial_world (Finished x) recorded cp w
    (sample_limit_covers false false) Hrun) as (Hm & (calls & Hcalls & _ & Hlen) & _).
  exists x, w. split; [unfold outcome_of; rewrite Hrun; reflexivity|].
  split; [cbn in Hm; lia|]. exists calls. split; [exact Hcalls|exact Hlen].
Defined.

Lemma run_report_sound_witness :
  exists x, outcome_of (sample_run sample_model iv) = Ok (Finished x)
    /\ revalidate_report (res_report x) = Ok (res_report x).
Proof.
  destruct sample_run_result as (x & recorded & cp & w & a & Hrun & _ & _).
  exists x. split; [unfold outcome_of; rewrite Hrun; reflexivity|].
  pose proof (run_report_sound iv sample_initial_evidence sample_registry_ok sample_passages_ok
    sample_budgets_ok sample_evidence_all_ok None "replay" initial_world x recorded cp w
    (sample_limit_covers false false) Hrun) as Happlied.
  exact (proj1 Happlied).
Defined.

Lemma report_adds_up_witness :
  exists x used checks,
    outcome_of (sample_run sample_model iv) = Ok (Finished x)
    /\ [spent_line "Model calls" used 6; spent_line "Diagnostic checks executed" checks 2]
         ⊆ report_lines (res_report x) (res_evidence x) (res_receipts x) "replay"
    /\ used <= 6 /\ checks <= 2.
Proof.
  destruct sample_run_result as (x & recorded & cp & w & a & Hrun & _ & _).
  destruct (report_adds_up iv sample_initial_evidence sample_registry_ok sample_passages_ok
    sample_budgets_ok sample_evidence_all_ok None "replay" initial_world x recorded cp w "replay"
    (sample_limit_covers false false) ltac:(vm_compute; discriminate) Hrun)
    as [(used & repaired & checks & searches & Hlines & Hused & _ & Hchecks & _) _].
  exists x, used, checks. split; [unfold outcome_of; rewrite Hrun; reflexivity|].
  split; [|split; [exact (proj2 Hused)|exact (proj2 Hchecks)]].
  intros l Hl. apply Hlines. apply elem_of_cons in Hl as [->|Hl%list_elem_of_singleton]; [left|subst l; right; right; left].
Defined.

Lemma recover_after_run_witness :
  exists x recorded cp w,
    sample_run sample_model iv = (Ok (Finished x), recorded, cp, w)
    /\ recover_graph_investigation iv (Some cp) w = Some (Ok (Finished x), recorded, cp, w).
Proof.
  destruct sample_run_result as (x & recorded & cp & w & a & Hrun & _ & _).
  exists x, recorded, cp, w. split; [exact Hrun|].
  pose proof (recover_after_run iv sample_initial_evidence sample_registry_ok sample_passages_ok
    sample_budgets_ok sample_evidence_all_ok None "replay" initial_world (Finished x) recorded cp w
    (sample_limit_covers false false) Hrun) as Happlied.
  exact Happlied.
Defined.

(** The fresh state of the sample, from which it can be taken up or crash. *)
Definition fresh_state : GraphState := (seed iv None "replay" sample_initial_evidence initial_world).1.
Definition fresh_world : World := (seed iv None "replay" sample_initial_evidence initial_world).2.

Lemma fresh_reachable : reachable iv sample_initial_evidence initial_world N_INVESTIGATE [] fresh_state fresh_world.
Proof. by apply (reach_start iv sample_initial_evidence initial_world None "replay"). Qed.

Lemma recover_settles_witness :
  exists r recorded cp w,
    recover_graph_investigation iv (Some {| cp_state := fresh_state; cp_next := Some N_INVESTIGATE;
                                            cp_resumes := []; cp_interrupt := None |}) fresh_world
    = Some (r, recorded, cp, w)
    /\ ((exists o, r = Ok o) \/ r = Err GraphBubbleUp /\ signalled iv).
Proof.
  destruct (recover_settles iv sample_initial_evidence sample_registry_ok sample_passages_ok
    sample_budgets_ok sample_evidence_all_ok initial_world N_INVESTIGATE [] fresh_state fresh_world
    (sample_limit_covers false false) fresh_reachable)
    as (r & recorded & cp & w & Hrun & [(o & Hr & _)|Hr]);
    exists r, recorded, cp, w; (split; [exact Hrun|]); [left; exists o|right]; exact Hr.
Defined.

Lemma crash_contained_witness :
  exists x events w,
    settle_invocation (Raised GraphRecursionError) (Some fresh_state) "checkpoint" DEFAULT_BUDGETS
      [] fresh_state fresh_world = (Ok (Finished x), events, w)
    /\ ir_disposition (res_report x) = FAILED_SAFE
    /\ ir_reason_code (res_report x) = Some INTERNAL_ERROR.
Proof.
  destruct (crash_contained iv sample_initial_evidence sample_registry_ok sample_passages_ok
    sample_budgets_ok sample_evidence_all_ok initial_world N_INVESTIGATE [] fresh_state fresh_world
    GraphRecursionError "checkpoint" [] fresh_state fresh_reachable ltac:(discriminate))
    as (x & w & ev & Hrun & _ & _ & Hd & Hr & _).
  exists x, (gs_events fresh_state ++ [ev]), w.
  split; [exact Hrun|]. split; [exact Hd|exact Hr].
Defined.

Lemma baseline_runs_no_check_witness :
  is_finished (outcome_of (sample_run sample_model (with_options false true iv))) = true
  /\ w_backend_calls (world_of (sample_run sample_model (with_options false true iv))) = [].
Proof.
  split; [vm_compute; reflexivity|].
  destruct (sample_run sample_model (with_options false true iv)) as [[[[o|e] recorded] cp] w] eqn:Hrun;
    [|vm_compute in Hrun; discriminate].
  pose proof (baseline_runs_no_check (with_options false true iv) sample_initial_evidence
    sample_registry_ok sample_passages_ok sample_budgets_ok sample_evidence_all_ok None "replay"
    initial_world o recorded cp w (sample_limit_covers false true) eq_refl Hrun) as Happlied.
  exact (proj1 Happlied).
Defined.
End Finishing.

(** * A run that waits for its owner *)

Module Waiting.
  #[local] Existing Instance conflicted_model.
  Notation iv := sample_investigation.

Lemma conflicted_suspended :
  exists cp w, suspended_thread iv sample_initial_evidence initial_world cp w.
Proof.
  destruct conflicted_run_result as (x & recorded & cp & w & Hrun).
  exists cp, w. by eapply st_run.
Qed.

Lemma resume_applies_decision_witness :
  exists cp w p x recorded cp' w',
    cp_interrupt cp = Some p
    /\ resume_graph_investigation iv (Some cp) reject (Some " wrong pool ") w
       = (Ok x, recorded, Some cp', w')
    /\ ir_escalation (res_report x)
       = Some {| er_reason := ip_reason p; er_decision := reject;
                 er_rejection_note := Some "wrong pool" |}.
Proof.
  destruct conflicted_suspended as (cp & w & Hth).
  assert (Hok : decision_ok reject (Some " wrong pool ")) by (split; vm_compute; discriminate).
  destruct (resume_applies_decision iv sample_initial_evidence sample_registry_ok
    sample_passages_ok sample_budgets_ok sample_evidence_all_ok initial_world cp w reject
    (Some " wrong pool ") (sample_limit_covers false false) Hth Hok)
    as (p & x & recorded & cp' & w' & Hp & Hrun & Hesc & _).
  exists cp, w, p, x, recorded, cp', w'. split; [exact Hp|]. split; [exact Hrun|exact Hesc].
Defined.

Lemma resume_refuses_malformed_witness :
  exists cp w recorded cp',
    resume_graph_investigation iv (Some cp) accept (Some "but") w
    = (Err AssertionError, recorded, Some cp', w)
    /\ cp_state cp' = cp_state cp.
Proof.
  destruct conflicted_suspended as (cp & w & Hth).
  destruct (resume_refuses_malformed iv sample_initial_evidence sample_registry_ok
    sample_passages_ok sample_budgets_ok sample_evidence_all_ok initial_world cp w accept
    (Some "but") (sample_limit_covers false false) Hth eq_refl)
    as (p & q & recorded & cp' & Hrun & _ & Hs & _).
  exists cp, w, recorded, cp'. split; [exact Hrun|exact Hs].
Defined.

Lemma suppressed_run_finishes_witness :
  is_finished (outcome_of (sample_run conflicted_model (with_options true false iv))) = true
  /\ ((exists x, outcome_of (sample_run conflicted_model (with_options true false iv)) = Ok (Finished x))
      \/ outcome_of (sample_run conflicted_model (with_options true false iv)) = Err GraphBubbleUp
         /\ signalled (with_options true false iv)).
Proof.
  split; [vm_compute; reflexivity|].
  destruct (sample_run conflicted_model (with_options true false iv)) as [[[r recorded] cp] w] eqn:Hrun.
  pose proof (suppressed_run_finishes (with_options true false iv) sample_initial_evidence
    sample_registry_ok sample_passages_ok sample_budgets_ok sample_evidence_all_ok None "replay"
    initial_world r recorded cp w (sample_limit_covers true false) eq_refl Hrun) as Happlied.
  exact Happlied.
Defined.
(** The desk of a thread that waits, with no decision recorded. *)
Definition waiting_desk (cp : Checkpoint) (w : World) : Desk :=
  {| dk_decisions := fresh_connection; dk_world := w; dk_checkpoint := Some cp;
     dk_artifact := None |}.

Definition find_incident (_ : string) : res Investigation := Ok iv.

Definition rejection : OwnerDecision :=
  {| od_decision := reject; od_rejection_note := Some "wrong pool" |}.

Lemma decision_recorded_first_witness :
  exists cp w D',
    idle D' (dk_decisions (run_decision_command find_incident "thread-1" rejection
                             (waiting_desk cp w)).2)
    /\ NoDup (threads D').
Proof.
  destruct conflicted_suspended as (cp & w & _).
  destruct (run_decision_command find_incident "thread-1" rejection (waiting_desk cp w))
    as [out k'] eqn:Hrun.
  destruct (decision_recorded_first find_incident "thread-1" reject (Some " wrong pool ") rejection
    [] (waiting_desk cp w) out k' eq_refl (conj eq_refl eq_refl) Hrun)
    as (D' & Hidle & _ & _ & _ & Hnd).
  exists cp, w, D'. rewrite Hrun. split; [exact Hidle|]. apply Hnd. constructor.
Defined.

Lemma decision_command_completes_witness :
  exists cp w,
    let '(out, k') := run_decision_command find_incident "thread-1" rejection (waiting_desk cp w) in
    w_backend_calls (dk_world k') = w_backend_calls w
    /\ ((exists report, out = Ok report /\ dk_artifact k' = Some report) \/ out = Err unavailable).
Proof.
  destruct conflicted_suspended as (cp & w & Hth). exists cp, w.
  destruct (run_decision_command find_incident "thread-1" rejection (waiting_desk cp w))
    as [out k'] eqn:Hrun.
  assert (Hund : undecided_or [] "thread-1" rejection) by (intros raw Hraw; inversion Hraw).
  destruct (decision_command_completes iv sample_initial_evidence sample_registry_ok
    sample_passages_ok sample_budgets_ok sample_evidence_all_ok find_incident eq_refl
    initial_world cp [] (waiting_desk cp w) "thread-1" reject (Some " wrong pool ") rejection out k'
    (sample_limit_covers false false) Hth eq_refl eq_refl (conj eq_refl eq_refl) Hund eq_refl Hrun)
    as (_ & Hb & Hend).
  split; [exact Hb|].
  destruct Hend as [(report & p & Ho & _ & Ha & _)|(Ho & _)]; [left; exists report|right];
    [split; [exact Ho|exact Ha]|exact Ho].
Defined.

(** The desk once the rejection and its report are stored. *)
Definition decided_desk (report : InvestigationReport) : Desk :=
  {| dk_decisions := {| db_saved := Some [record_of "thread-1" "checkpoint" rejection 7];
                        db_open := None; db_statements := 0 |};
     dk_world := initial_world; dk_checkpoint := None; dk_artifact := Some report |}.

(** A retry of the rejection, and an owner who would now accept. *)
Lemma decision_retry_witness :
  exists report,
    (let out := (run_decision_command find_incident "thread-1" rejection (decided_desk report)).1 in
     out = Err unavailable \/ out = Ok report)
    /\ (let out := (run_decision_command find_incident "thread-1"
          {| od_decision := accept; od_rejection_note := None |} (decided_desk report)).1 in
        out = Err unavailable \/ out = Err conflicting).
Proof.
  destruct sample_report_valid as [report Hvalid]. exists report.
  assert (Hin : "thread-1" ∈ threads [record_of "thread-1" "checkpoint" rejection 7]) by constructor.
  assert (Hrows : forall raw, raw ∈ [record_of "thread-1" "checkpoint" rejection 7] ->
    dr_thread_id raw = "thread-1" ->
    exists row, parse_decision raw = Ok row /\ dw_decision row = od_decision rejection
      /\ dw_rejection_note row = od_rejection_note rejection).
  { intros raw ->%list_elem_of_singleton _. eexists. split; [vm_compute; reflexivity|]. split; reflexivity. }
  split; cbv zeta.
  - destruct (run_decision_command find_incident "thread-1" rejection (decided_desk report))
      as [out k'] eqn:Hrun.
    exact (proj2 (proj2 (proj2 (proj2 (decision_retry find_incident "thread-1" rejection rejection _
      (decided_desk report) report out k' (conj eq_refl eq_refl) Hin Hrows eq_refl Hvalid Hrun))))).
  - destruct (run_decision_command find_incident "thread-1" _ (decided_desk report)) as [out k'] eqn:Hrun.
    exact (proj2 (proj2 (proj2 (proj2 (decision_retry find_incident "thread-1" rejection _ _
      (decided_desk report) report out k' (conj eq_refl eq_refl) Hin Hrows eq_refl Hvalid Hrun))))).
Defined.
End Waiting.

(** * Money *)

Lemma reservation_gated_witness :
  let '(out, c') := record_reservation_before_request sample_key one_cent 5 f_one fresh_connection in
  (exists row, out = Ok (row, true)) /\ (idle [] c' \/ idle [new_reservation sample_key one_cent 5] c').
Proof.
  destruct (record_reservation_before_request sample_key one_cent 5 f_one fresh_connection)
    as [out c'] eqn:Hrun.
  destruct (reservation_gated [] sample_key one_cent 5 f_one fresh_connection out c'
              (conj eq_refl eq_refl) Hrun) as [[Hi|(Hi & _)] _];
    (split; [vm_compute in Hrun; injection Hrun as <- _; eexists; reflexivity|]).
  - left. exact Hi.
  - right. exact Hi.
Defined.

(** A table with one request in flight, and its connection. *)
Definition in_flight : Table := [new_reservation sample_key one_cent 5].
Definition in_flight_connection : Conn :=
  {| db_saved := Some in_flight; db_open := None; db_statements := 0 |}.

Lemma settlement_recorded_once_witness :
  exists row c', settle_reservation sample_key one_cent 700 90 6 in_flight_connection = (Ok row, c')
    /\ row = settled_row one_cent 700 90 6 (new_reservation sample_key one_cent 5).
Proof.
  destruct (settle_reservation sample_key one_cent 700 90 6 in_flight_connection)
    as [[row|e] c'] eqn:Hrun; [|vm_compute in Hrun; discriminate].
  destruct (settlement_recorded_once in_flight sample_key one_cent 700 90 6 in_flight_connection
              row c' (conj eq_refl eq_refl) (NoDup_singleton _) Hrun)
    as (r0 & Hr0 & _ & _ & Hrow & _).
  exists row, c'. split; [reflexivity|].
  apply list_elem_of_singleton in Hr0. rewrite <- Hr0. exact Hrow.
Defined.

Lemma send_is_gated_witness :
  let '(out, s') := send sample_live_model (sample_request "d1") [] fresh_live in
  out = Ok stop_message /\ lv_sent s' = [key_of (sample_request "d1")]
  /\ exists usage r, am_usage_metadata stop_message = Some usage /\ idle [r] (lv_conn s')
     /\ cl_state r = SETTLED.
Proof.
  destruct (send sample_live_model (sample_request "d1") [] fresh_live) as [out s'] eqn:Hrun.
  assert (Hout : out = Ok stop_message) by (vm_compute in Hrun; injection Hrun as <- _; reflexivity).
  assert (Hsent : lv_sent s' = [key_of (sample_request "d1")])
    by (vm_compute in Hrun; injection Hrun as _ <-; reflexivity).
  destruct (proj2 (send_is_gated sample_live_model (sample_request "d1") [] [] fresh_live out s'
                     (conj eq_refl eq_refl) Hrun) stop_message Hout)
    as (usage & r & Hu & Hi & _ & Hs & _).
  split; [exact Hout|]. split; [exact Hsent|]. exists usage, r.
  split; [exact Hu|]. split; [exact Hi|exact Hs].
Defined.

(** The same request three times, and another one: two calls of the provider. *)
Definition sample_sends : list (LiveClaudeModel * ModelRequest * list json) :=
  (fun digest => (sample_live_model, sample_request digest, [])) <$> ["d1"; "d1"; "d2"; "d1"].

Lemma no_request_paid_twice_witness :
  length (lv_sent (run_sends sample_sends fresh_live)) = 2%nat
  /\ NoDup (lv_sent (run_sends sample_sends fresh_live)).
Proof.
  split; [vm_compute; reflexivity|].
  exact (proj1 (no_request_paid_twice sample_sends [] fresh_live (conj eq_refl eq_refl)
                  (NoDup_nil_2) eq_refl)).
Defined.

Lemma live_turn_consistent_witness :
  exists turn plan, read_turn INITIAL_PLAN stop_message = Ok turn /\ pt_parsed turn = Some plan
    /\ read_proposal turn = (pl_proposal plan, None).
Proof.
  destruct (read_turn INITIAL_PLAN stop_message) as [turn|e] eqn:Hrun;
    [|vm_compute in Hrun; discriminate].
  destruct (pt_parsed turn) as [plan|] eqn:Hplan;
    [|vm_compute in Hrun; injection Hrun as <-; vm_compute in Hplan; discriminate].
  exists turn, plan. split; [reflexivity|]. split; [exact Hplan|].
  exact (proj1 (proj2 (live_turn_consistent INITIAL_PLAN stop_message turn plan Hrun Hplan))).
Defined.

Lemma live_response_stamped_witness :
  exists r, read_response final_message = Ok r /\ mr_errors r = ""
    /\ dict_get "schema_version" (mr_content r) = Some (JStr SCHEMA_VERSION).
Proof.
  destruct (read_response final_message) as [r|e] eqn:Hrun; [|vm_compute in Hrun; discriminate].
  assert (He : mr_errors r = "") by (vm_compute in Hrun; injection Hrun as <-; reflexivity).
  destruct (proj2 (live_response_stamped final_message r Hrun) He)
    as (call & _ & _ & _ & _ & Hsv & _).
  exists r. split; [reflexivity|]. split; [exact He|exact Hsv].
Defined.

(** ** The scripted model *)

Definition replay_subs : list (string * string) :=
  [("incident_id", "inc-1"); ("window_start", isoformat 0); ("window_end", isoformat 60000000);
   ("symptom_evidence_id", "ev-symptom")].

(** A final assessment that cites the alert and the last check. *)
Definition replay_script : list (string * json) :=
  [("disposition", JStr "DIAGNOSED");
   ("supporting_evidence_ids",
     JArr [JStr (placeholder "symptom_evidence_id"); JStr (placeholder LAST_CHECK_PLACEHOLDER)]);
   ("uncertainty", JStr ("line" +:+ nl +:+ "{break" +:+ dq)); ("rank", JInt 1)].

Definition replay_context : string :=
  "## Evidence" +:+ nl +:+ "- ev-symptom [alert]: errors" +:+ nl +:+ "- ev-7 [logs]: refused" +:+ nl +:+ "end".

Lemma fill_is_structural_witness :
  Forall caller_substitution replay_subs
  /\ fill replay_subs replay_script replay_context
     = Ok (JObj [("disposition", JStr "DIAGNOSED");
                 ("supporting_evidence_ids", JArr [JStr "ev-symptom"; JStr "ev-7"]);
                 ("uncertainty", JStr ("line" +:+ nl +:+ "{break" +:+ dq)); ("rank", JInt 1)]).
Proof.
  assert (Forall caller_substitution replay_subs) as Hs.
  { repeat apply Forall_cons_2; try (by apply Forall_nil_2); (split; [cbn; set_solver|reflexivity]). }
  split; [exact Hs|].
  pose proof (fill_is_structural replay_subs replay_script replay_context Hs) as Hfill.
  assert (evidence_from_last_check replay_subs replay_context = Ok "ev-7") as Hlast by (vm_compute; reflexivity).
  rewrite Hlast in Hfill. rewrite Hfill by (vm_compute; reflexivity). vm_compute. reflexivity.
Defined.

Definition replay_request (stage : Stage) : ModelRequest := {|
  mq_stage := stage; mq_system_text := ""; mq_context_text := replay_context; mq_repair_errors := None;
  mq_run_id := "run-1"; mq_graph_phase := P_INVESTIGATE; mq_model_turn := 1; mq_context_digest := "d" |}.

(** A first plan that does not parse, its repair, and an update. *)
Definition replay_start : ReplayToolCallingModel := {|
  inner := {| responses :=
                [("initial_plan", [[("hypotheses", JNull)]; dump_plan (sample_plan (Some (logs_proposal 5)))]);
                 ("hypothesis_update", [dump_plan (sample_plan (Some (search_proposal RESOURCE_POOL_PRESSURE)))])];
              used := []; substitutions := replay_subs; requests := [] |};
  next_call_id := 0 |}.

Definition replay_calls : list ReplayCall :=
  [Proposing (replay_request INITIAL_PLAN); Proposing (replay_request HYPOTHESIS_UPDATE);
   Responding (replay_request FINAL_ASSESSMENT)].

Definition replay_plan : StagePlan := sample_plan (Some (logs_proposal 5)).

Lemma replay_turn_witness :
  exists turn call,
    (scripted_propose (replay_request INITIAL_PLAN) (fold_left after_call replay_calls replay_start)).1 = Ok turn
    /\ pt_parsed turn = Some replay_plan /\ pt_tool_call turn = [call] /\ nt_id call = "call-2"
    /\ parse_tool_call call = (Some (logs_proposal 5), "").
Proof.
  pose proof (replay_turn replay_start replay_calls (replay_request INITIAL_PLAN) eq_refl eq_refl) as Hturn.
  assert (nth_error (scripted_for (inner replay_start) (replay_request INITIAL_PLAN)) 1
          = Some (dump_plan replay_plan)) as Hnth by reflexivity.
  assert (played (inner replay_start) (dump_plan replay_plan) (replay_request INITIAL_PLAN)
          = Ok {| mr_content := dump_plan replay_plan; mr_usage := None; mr_errors := "" |}) as Hplayed
    by (vm_compute; reflexivity).
  assert (parse_plan INITIAL_PLAN (dump_plan replay_plan) = (Some replay_plan, "")) as Hparse by reflexivity.
  assert (next_call_id (fold_left after_call replay_calls replay_start) = 1) as Hid by (vm_compute; reflexivity).
  change (asked (mq_stage (replay_request INITIAL_PLAN)) replay_calls) with 1%nat in Hturn. cbv zeta in Hturn.
  destruct (scripted_propose _ _) as [r s'']. rewrite Hnth, Hplayed, Hid in Hturn.
  destruct Hturn as (_ & turn & -> & Hp & Hc). cbn [mr_content mq_stage replay_request] in Hp.
  rewrite Hparse in Hp. injection Hp as Hp _. rewrite Hp in Hc. destruct Hc as (call & Hcalls & Hc & Hn & Hi).
  exists turn, call. split; [reflexivity|]. split; [exact Hp|]. split; [exact Hcalls|]. split; [|exact Hc].
  rewrite Hi, Hn. vm_compute. reflexivity.
Defined.
