(* ===== verification/PlaneWitnesses.v ===== *)
(** The control planes' theorems applied to the sample story, and the checkpoint saver's
    to two checkpoints of a thread. *)
From Stdlib Require Import ZArith Lia.
From stdpp Require Import prelude strings list gmap.
From S2P Require Import Prelude PyText Float64 Tools Domain World Sqlite Approvals ControlPlane Workers WorkerProps Api ApiProps FirestorePlane Lifecycle FirestoreSteps FirestoreProps SqlitePlane PlaneMatch PlanesAgree PlaneWorkers PlaneRefinement PlaneDurable JsonText JsonRoundTrip Checkpointer CheckpointerProps Samples.
Local Open Scope Z_scope.

Notation fire := (firestore_plane DEFAULT_PLANE).

Lemma plane_history_ok_witness :
  0 < pf_max_replay_attempts DEFAULT_PLANE /\ 0 < pf_max_delivery_attempts DEFAULT_PLANE
  /\ plane_ok DEFAULT_PLANE (@history Store (@firestore_plane losing_firestore _ _ _ DEFAULT_PLANE)
       (snd <$> whole_story) empty_store).
Proof.
  split; [done|]. split; [done|].
  apply (@plane_history_ok losing_firestore losing_firestore_laws _ _ _ _ DEFAULT_PLANE); done.
Defined.

(** The first job is completed before the second is claimed. *)
Lemma settled_is_final_witness :
  let s := @history Store fire (snd <$> whole_story) empty_store in
  (match fs_jobs s !! uuid_hex 0 with Some d => settled (jd_job d) | None => false end) = true
  /\ extends s (@history Store fire ((snd <$> whole_story) ++ [op_claim_next; op_claim_delivery]) empty_store).
Proof.
  split; [by vm_compute|]. by apply (settled_is_final DEFAULT_PLANE).
Defined.

(** Claimed, given back, claimed by another worker. *)
Definition given_back : list PlaneOp := [
  op_create "owner@example.com" sample_creation "key-1"; op_claim_next;
  op_requeue_running (uuid_hex 0) (uuid_hex 1)].

Lemma lost_claim_powerless_witness :
  let s := @history Store fire given_back empty_store in
  let s' := @history Store fire [op_claim_next] s in
  lost_token (uuid_hex 0) 1 s
  /\ under_claim (uuid_hex 0) (uuid_hex 1) (op_finalize (uuid_hex 0) "z/report.md" (uuid_hex 1))
  /\ refused (@ask Store fire (op_finalize (uuid_hex 0) "z/report.md" (uuid_hex 1)) s') s'.
Proof.
  intros s s'. assert (Hlost : lost_token (uuid_hex 0) 1 s).
  { split; [vm_compute; lia|]. intros d Hd. vm_compute in Hd. injection Hd as <-. by vm_compute. }
  split; [exact Hlost|]. split; [done|].
  by apply (lost_claim_powerless DEFAULT_PLANE eq_refl eq_refl given_back [op_claim_next] (uuid_hex 0) 1).
Defined.

Lemma create_idempotent_witness :
  exists s1, create "owner@example.com" sample_creation "key-1" (@history Store fire [] empty_store)
             = (Ok {| iw_investigation_id := "z"; iw_status := I_QUEUED |}, s1)
  /\ let s2 := @history Store fire [op_claim_next] s1 in
     data (create "owner@example.com" sample_creation "key-1" s2).2 = data s2
     /\ ((create "owner@example.com" sample_creation "key-1" s2).1 = Err google_error
         \/ exists st, (create "owner@example.com" sample_creation "key-1" s2).1
                      = Ok {| iw_investigation_id := "z"; iw_status := st |}).
Proof.
  set (s1 := (create "owner@example.com" sample_creation "key-1" (@history Store fire [] empty_store)).2).
  assert (Hcreate : create "owner@example.com" sample_creation "key-1" (@history Store fire [] empty_store)
    = (Ok {| iw_investigation_id := "z"; iw_status := I_QUEUED |}, s1)) by (vm_compute; reflexivity).
  exists s1. split; [exact Hcreate|].
  exact (create_idempotent DEFAULT_PLANE eq_refl eq_refl [] "owner@example.com" sample_creation sample_creation
    "key-1" {| iw_investigation_id := "z"; iw_status := I_QUEUED |} s1 [op_claim_next] Hcreate).
Defined.

Lemma sqlite_refines_firestore_witness :
  all_allowed DEFAULT_PLANE whole_story empty_store
  /\ @conversation Store fire whole_story empty_store
     = @conversation Plane (@sqlite_plane sound_tables sound_ledger _ _ _ _ DEFAULT_PLANE) whole_story (empty_plane []).
Proof.
  assert (Hall : all_allowed DEFAULT_PLANE whole_story empty_store) by (vm_compute; repeat split).
  split; [exact Hall|].
  apply (@sqlite_refines_firestore sample_firestore _ sound_tables sound_ledger _ _ _ _ _
    (fun _ => eq_refl) (fun _ => eq_refl) (fun _ => eq_refl) DEFAULT_PLANE sample_steady eq_refl eq_refl);
    [split; done|exact Hall].
Defined.

Definition resumed_claim : WorkerClaim := {|
  wc_scenario_family := S_CONFIGURATION_CHANGE; wc_seed := DEVELOPMENT; wc_investigation_id := "z";
  wc_owner_email := "owner@example.com"; wc_checkpoint_id := Some "checkpoint-1";
  wc_incident_id := Some "scenarioz"; wc_owner_decision := Some accepted; wc_claim_token := "p01" |}.

Lemma claimed_decision_durable_witness :
  let ops := (snd <$> owner_story) ++ [op_decide "owner@example.com" (uuid_hex 0) accepted] in
  let r := @ask Plane (@sqlite_plane sound_tables sound_ledger _ _ _ _ DEFAULT_PLANE) op_claim_next
    (@history Plane (@sqlite_plane sound_tables sound_ledger _ _ _ _ DEFAULT_PLANE) ops (empty_plane [])) in
  r = (AClaim (Ok (Some resumed_claim)), r.2)
  /\ exists D cp, [] `prefix_of` D /\ idle D (sp_ledger r.2)
     /\ wc_checkpoint_id resumed_claim = Some cp /\ holds D (wc_investigation_id resumed_claim) cp accepted.
Proof.
  intros ops r. assert (Hask : r = (AClaim (Ok (Some resumed_claim)), r.2)) by (vm_compute; reflexivity).
  split; [exact Hask|].
  exact (@claimed_decision_durable sound_tables sound_ledger _ _ _ _ DEFAULT_PLANE [] ops resumed_claim accepted
    r.2 Hask eq_refl).
Defined.

Lemma reconcile_completes_decision_witness :
  let s := @state_after Store fire owner_story empty_store in
  let q := @state_after Plane (@sqlite_plane sound_tables sound_ledger _ _ _ _ DEFAULT_PLANE) owner_story (empty_plane []) in
  all_allowed DEFAULT_PLANE owner_story empty_store /\ fs_decisions s !! uuid_hex 0 = None
  /\ exists v s1, decide_ "owner@example.com" (uuid_hex 0) accepted s = (Ok v, s1)
  /\ all_allowed DEFAULT_PLANE resumed_story s1
  /\ exists cp q1, (jd_job <$> fs_jobs s !! uuid_hex 0) ≫= jb_checkpoint_id = Some cp
     /\ @reconcile_durable_decisions sound_tables sound_ledger (@crashed sound_ledger _ (uuid_hex 0) cp accepted q) = (Ok tt, q1)
     /\ @conversation Store fire resumed_story s1
        = @conversation Plane (@sqlite_plane sound_tables sound_ledger _ _ _ _ DEFAULT_PLANE) resumed_story q1.
Proof.
  intros s q. assert (Hall : all_allowed DEFAULT_PLANE owner_story empty_store) by (vm_compute; repeat split).
  split; [exact Hall|]. split; [by vm_compute|].
  exists {| iw_investigation_id := "z"; iw_status := I_QUEUED |},
    (decide_ "owner@example.com" (uuid_hex 0) accepted s).2.
  assert (Hdec : decide_ "owner@example.com" (uuid_hex 0) accepted s
    = (Ok {| iw_investigation_id := "z"; iw_status := I_QUEUED |},
       (decide_ "owner@example.com" (uuid_hex 0) accepted s).2)) by (vm_compute; reflexivity).
  split; [exact Hdec|].
  assert (Hlater : all_allowed DEFAULT_PLANE resumed_story (decide_ "owner@example.com" (uuid_hex 0) accepted s).2)
    by (vm_compute; repeat split).
  split; [exact Hlater|].
  refine (@reconcile_completes_decision sample_firestore _ sound_tables sound_ledger _ _ _ _ _
    (fun _ => eq_refl) (fun _ => eq_refl) (fun _ => eq_refl) DEFAULT_PLANE sample_steady eq_refl eq_refl _
    owner_story "owner@example.com" (uuid_hex 0) accepted _ _ resumed_story Hall _ _ Hdec Hlater);
    [by split|by vm_compute|by vm_compute].
Defined.

(** * Workers *)

Definition plain_worker : @ReplayWorker Store := {|
  rw_reconcile := None; rw_on_paused := None; rw_on_finalized := None;
  rw_on_failed := Some (fun c => @elsewhere Store fire (op_incident_id_for (wc_investigation_id c))) |}.

(** The lab is down; meanwhile another owner comes. *)
Definition failing_runner (c : WorkerClaim) : Turn WorkerOutcome := {|
  tn_during := [beat; other (op_create "other@example.com" sample_creation "key-1")];
  tn_result := Err (LabError LAB_NOT_HEALTHY); tn_then := []; tn_after := [op_claim_next] |}.

Definition first_claim : WorkerClaim := {|
  wc_scenario_family := S_CONFIGURATION_CHANGE; wc_seed := DEVELOPMENT; wc_investigation_id := uuid_hex 0;
  wc_owner_email := "owner@example.com"; wc_checkpoint_id := None; wc_incident_id := None;
  wc_owner_decision := None; wc_claim_token := uuid_hex 1 |}.

Lemma worker_lets_go_witness :
  let before := [op_create "owner@example.com" sample_creation "key-1"] in
  let s := @history Store fire before empty_store in
  claim_next DEFAULT_PLANE s = (Ok (Some first_claim), (claim_next DEFAULT_PLANE s).2)
  /\ exists n, wc_claim_token first_claim = uuid_hex n
     /\ lost_token (wc_investigation_id first_claim) n (@run_once Store fire plain_worker failing_runner s).2.
Proof.
  intros before s.
  assert (Hclaim : claim_next DEFAULT_PLANE s = (Ok (Some first_claim), (claim_next DEFAULT_PLANE s).2))
    by (vm_compute; reflexivity).
  split; [exact Hclaim|].
  refine (worker_lets_go (fun _ => eq_refl) DEFAULT_PLANE eq_refl eq_refl _ before plain_worker failing_runner
    first_claim s _ _ _ _ _ eq_refl Hclaim); [by split|done|done|intros c; apply only_asks_elsewhere|done].
Defined.

(** The first job's worker is gone; the next poll reschedules it, and claims the second. *)
Lemma expired_claims_recovered_witness :
  let before := [op_create "owner@example.com" sample_creation "key-1"; op_claim_next;
                 op_create "other@example.com" sample_creation "key-1"] in
  let s := @history Store fire before empty_store in
  let s' := (@ask Store fire op_claim_next (s <| fs_ticks := 20%nat |>)).2 in
  exists d, fs_jobs s' !! uuid_hex 2 = Some d /\ has_status I_RUNNING (jd_job d) = true
  /\ (fs_jobs s !! uuid_hex 2 = Some d
      /\ lease_expired (jb_claim_expires_at (jd_job d)) (plane_time 20) = false
      \/ jb_claim_token (jd_job d) = Some (uuid_hex (fs_ids s))).
Proof.
  intros before s s'. destruct (fs_jobs s' !! uuid_hex 2) as [d|] eqn:Hd; [|vm_compute in Hd; discriminate].
  assert (Hrun : has_status I_RUNNING (jd_job d) = true)
    by (vm_compute in Hd; injection Hd as <-; vm_compute; reflexivity).
  exists d. split; [reflexivity|]. split; [exact Hrun|].
  refine (expired_claims_recovered (fun _ => eq_refl) DEFAULT_PLANE eq_refl eq_refl _ before 20%nat _ d Hd Hrun).
  by split.
Defined.

(** * The HTTP routes *)

Definition sample_validator : GoogleTokenValidator := fun token _ =>
  if base.decide (token = "mine") then Ok [("email", JStr "Owner@Example.com"); ("email_verified", JBool true)]
  else if base.decide (token = "other") then Ok [("email", JStr "other@example.com"); ("email_verified", JBool true)]
  else Err ValueError.

Definition sample_app : App := google_app
  {| gv_client_id := "client"; gv_validator := sample_validator |} {["owner@example.com "; "other@example.com"]}.

Lemma strangers_see_nothing_witness :
  let requests := [(sample_app, post_investigation sample_creation (Some "key-2"), Some "Bearer other");
                   (sample_app, get_investigation (uuid_hex 0), None)] in
  let s := @history Store fire (snd <$> owner_story) empty_store in
  let s' := requests_after DEFAULT_PLANE requests s in
  Forall (by_another "owner@example.com") requests
  /\ owner sample_app (Some "Bearer  mine ") = Ok "owner@example.com"
  /\ kept "owner@example.com" s s'
  /\ exists e, (@handle Store fire sample_app (get_investigation_report (uuid_hex 0)) (Some "Bearer other") s').1 = Err e
      /\ (@handle Store fire sample_app (get_investigation_report (uuid_hex 0)) (Some "Bearer other")
            (without (uuid_hex 0) s')).1 = Err e.
Proof.
  intros requests s s'.
  assert (Hall : Forall (by_another "owner@example.com") requests)
    by (repeat constructor; intros Ho; vm_compute in Ho; congruence).
  split; [exact Hall|]. split; [by vm_compute|].
  destruct (strangers_see_nothing DEFAULT_PLANE eq_refl eq_refl (snd <$> owner_story) requests
    "owner@example.com" Hall) as [Hkept Hhidden].
  split; [exact Hkept|].
  destruct (fs_jobs s' !! uuid_hex 0) as [d|] eqn:Hd; [|vm_compute in Hd; discriminate].
  apply (Hhidden (uuid_hex 0) d); [exact Hd| |done|intros Ho; vm_compute in Ho; congruence].
  vm_compute in Hd. injection Hd as <-. by vm_compute.
Defined.

(** * The checkpoint saver *)

(** A checkpoint is its id; two channels are reserved. *)
#[export] Instance text_saver : Saver := {|
  Saved := string; saved_id := fun v => v;
  dumps_typed := fun v => Ok ("text", v); loads_typed := fun t => Ok t.2;
  get_checkpoint_id := cf_checkpoint_id; get_checkpoint_metadata := fun _ m => m;
  WRITES_IDX_MAP := [("__error__", -1); ("__interrupt__", -3)] |}.

#[export] Instance text_saver_laws : SaverLaws.
Proof. split; [by intros v t [= <-]|done]. Qed.

Definition thread_config (id : option string) : Config :=
  {| cf_thread_id := Some "inv-1"; cf_checkpoint_ns := Some ""; cf_checkpoint_id := id |}.

Definition second_checkpoint : @Saved text_saver := "ck-2".

Definition retried_writes : list (string * @Saved text_saver) := [("__error__", "e1"); ("plan", "p2")].

(** A checkpoint, a pending write of it, and a checkpoint of another thread. *)
Definition saver_history : list saver_op :=
  [OPut (thread_config None) "ck-1" [("step", JInt 0)];
   OPutWrites (thread_config (Some "ck-1")) [("plan", "p")] "task-1";
   OPut {| cf_thread_id := Some "inv-2"; cf_checkpoint_ns := Some ""; cf_checkpoint_id := None |} "ck-1" []].

Lemma saver_history_plain : Forall plain_op saver_history.
Proof. repeat (apply Forall_cons; split; [|]); try apply Forall_nil; try done; cbn; by intros t [= <-]. Qed.

Lemma put_is_read_back_witness :
  let s := fold_left after saver_history empty_documents in
  exists r s', put (thread_config (Some "ck-1")) second_checkpoint [("step", JInt 1)] s = (r, s')
    /\ dc_writes s' = dc_writes s
    /\ (forall k, k <> (thread_document_id "inv-1" "", "ck-2") -> dc_entries s' !! k = dc_entries s !! k)
    /\ r = Ok (configured "inv-1" "" "ck-2").
Proof.
  intros s. destruct (put (thread_config (Some "ck-1")) second_checkpoint [("step", JInt 1)] s) as [r s'] eqn:Hput.
  destruct (put_is_read_back saver_history (thread_config (Some "ck-1")) second_checkpoint [("step", JInt 1)] "inv-1" ""
              ("text", "ck-2") [] r s' saver_history_plain eq_refl eq_refl eq_refl eq_refl eq_refl)
    as (Hw & He & _).
  - vm_compute. reflexivity.
  - vm_compute. reflexivity.
  - exact Hput.
  - done.
  - exists r, s'. split; [done|]. split; [done|]. split; [done|].
    assert ((put (thread_config (Some "ck-1")) second_checkpoint [("step", JInt 1)] s).1 = Ok (configured "inv-1" "" "ck-2")) as Hr
      by (vm_compute; reflexivity).
    by rewrite Hput in Hr.
Defined.

Lemma put_writes_retried_witness :
  let s := fold_left after saver_history empty_documents in
  let s1 := Nat.iter 1 (fun s => (@put_writes losing_firestore _ (thread_config (Some "ck-1")) retried_writes "task-2" s).2) s in
  exists s', @put_writes losing_firestore _ (thread_config (Some "ck-1")) retried_writes "task-2" s1 = (Ok tt, s')
    /\ dc_entries s' = dc_entries s
    /\ forall named, named_writes (thread_document_id "inv-1" "", "ck-1") "task-2" 0 retried_writes = Some named ->
         dc_writes s' = dc_writes s ∪ list_to_map named.
Proof.
  intros s s1.
  destruct (@put_writes losing_firestore _ (thread_config (Some "ck-1")) retried_writes "task-2" s1) as [r s'] eqn:Hrun.
  assert ((@put_writes losing_firestore _ (thread_config (Some "ck-1")) retried_writes "task-2" s1).1 = Ok tt) as Hr
    by (vm_compute; reflexivity).
  rewrite Hrun in Hr. cbn [fst] in Hr. subst r.
  destruct (@put_writes_retried losing_firestore _ (thread_config (Some "ck-1")) retried_writes "task-2" "inv-1" "" "ck-1"
    _ 1 s (Ok tt) s' eq_refl eq_refl eq_refl eq_refl Hrun) as (_ & He & Hw & _).
  exists s'. split; [done|]. split; [exact He|]. intros named [= <-]. exact (Hw eq_refl).
Defined.

Lemma delete_thread_completes_witness :
  let s := fold_left (@after losing_firestore _) saver_history empty_documents in
  let s1 := Nat.iter 1 (fun s => (@delete_thread losing_firestore "inv-1" s).2) s in
  exists s', @delete_thread losing_firestore "inv-1" s1 = (Ok tt, s')
    /\ forall k d, dc_entries s' !! k = Some d -> ed_thread_id d <> "inv-1".
Proof.
  intros s s1. destruct (@delete_thread losing_firestore "inv-1" s1) as [r s'] eqn:Hrun.
  assert ((@delete_thread losing_firestore "inv-1" s1).1 = Ok tt) as Hr by (vm_compute; reflexivity).
  rewrite Hrun in Hr. cbn [fst] in Hr. subst r.
  destruct (@delete_thread_completes losing_firestore losing_firestore_laws _ saver_history "inv-1" 1 (Ok tt) s'
    saver_history_plain eq_refl Hrun) as (Hgone & _).
  exists s'. split; [done|]. by apply Hgone.
Defined.

#[export] Instance zero_always : Randoms := fun _ => f_zero.

Lemma versions_grow_witness :
  0 <= 7 /\ 7 + 1 < 10 ^ 32 /\ exists text s', get_next_version (TextVersion (version_text 7 f_zero)) empty_documents = (Ok text, s')
    /\ String.compare (version_text 7 f_zero) text = Lt.
Proof.
  split; [lia|]. split; [lia|].
  destruct (versions_grow 7 f_zero empty_documents ltac:(lia) ltac:(lia)) as (text & s' & Hrun & _ & Hlt).
  by exists text, s'.
Defined.
