(* ===== verification/MachineWitnesses.v ===== *)
(** The theorems on what runs beside the graph, at concrete inputs: a lab, a worker's
    machine and a job; a corpus for scoring and for the paired batch; a conversation of
    the approved observability server, and one check carried over the pipe; the checks
    that read a run's files and ask Prometheus. *)
From Stdlib Require Import ZArith Lia.
From stdpp Require Import prelude strings list gmap.
From S2P Require Import Prelude PyText Float64 Tools Domain World Evidence Wrappers Models GraphState GraphNodes GraphRun GraphInvariant GraphProps GraphResume GraphModes Report Approvals ControlPlane Workers Lab LabProps Site SiteProps JobRunner JobProps JobLiveness FirestorePlane Samples Numbers Sqlite CostLedger LiveModel Evaluation LiveSetup EvaluateBatch EvaluationProps BatchProps ToolCalls Policy JsonText JsonRoundTrip McpManifest McpStdio DispatchJson McpServer McpChild McpServerProps McpPipe McpProps IsoTime Telemetry TelemetryProps Prometheus Runbooks.
Local Open Scope Z_scope.

(** * The lab *)

(** Two healthy requests, then the fault: two that fail. *)
Definition sample_scenario : ScenarioDefinition := {|
  sd_family := "configuration_change"; sd_endpoint := "/checkout"; sd_services := ["orders"; "gateway"];
  sd_symptom := "ELEVATED_ERRORS"; sd_healthy_config := []; sd_faulted_config := [("pool", JInt 9)];
  sd_baseline_requests := 2; sd_fault_requests := 2; sd_traffic_volume_bump := 0;
  sd_changes := [{| ce_service := "orders"; ce_summary := "pool"; ce_config_key := Some "pool"; ce_offset_seconds := -40 |}];
  sd_topology := [("edges", JArr [JStr "gateway>orders"])]; sd_expected := [("root_cause", JStr "CONFIG_CHANGE")];
  sd_seed_variants := [] |}.

#[export] Instance sample_machine : Machine := {
  machine_fault _ := None;
  leftover _ r := r;
  gateway_status n := if (n <? 2)%nat then 200 else 500;
  scenario_file family := if decide (family = "configuration_change") then Some sample_scenario else None;
}.

Lemma sample_quiet : forall n, machine_fault n = None.
Proof. done. Qed.

Definition empty_lab : Lab :=
  {| lb_marker := None; lb_runs := ∅; lb_steps := 0; lb_calls := 0; lb_world := initial_world |}.

Definition started_lab : Lab := (start_scenario "configuration_change" "development" (Some "inc1") empty_lab).2.

Example sample_start_succeeds :
  (start_scenario "configuration_change" "development" (Some "inc1") empty_lab).1 = Ok "inc1".
Proof. vm_compute. reflexivity. Qed.

Lemma sample_start :
  start_scenario "configuration_change" "development" (Some "inc1") empty_lab = (Ok "inc1", started_lab).
Proof.
  unfold started_lab. rewrite <- sample_start_succeeds. apply surjective_pairing.
Qed.

Definition started_run : Run := default empty_run (lb_runs started_lab !! "inc1").

Lemma lab_is_exclusive_witness :
  holds "inc1" started_run (lab_history [lab_start "configuration_change" "development" (Some "inc2"); lab_reset "inc2"] started_lab)
  /\ is_ok (lab_op (lab_start "configuration_change" "development" (Some "inc2"))
       (lab_history [lab_start "configuration_change" "development" (Some "inc2"); lab_reset "inc2"] started_lab)).1 = false.
Proof.
  assert (Hholds : holds "inc1" started_run started_lab) by (split; vm_compute; reflexivity).
  destruct (lab_is_exclusive "inc1" started_run
    [lab_start "configuration_change" "development" (Some "inc2"); lab_reset "inc2"] started_lab) as [H1 H2].
  - split; [reflexivity|discriminate].
  - repeat constructor; simpl; discriminate.
  - exact Hholds.
  - split; [exact H1|]. apply H2; [simpl; discriminate|reflexivity].
Defined.

Lemma start_claims_lab_witness :
  lb_marker started_lab = Some "inc1" /\ free_for "inc1" empty_lab.
Proof.
  destruct (start_claims_lab "configuration_change" "development" (Some "inc1") empty_lab "inc1" started_lab
    sample_start) as (d0 & d & _ & _ & Hfree & _ & Hm & _).
  split; [exact Hm|exact Hfree].
Defined.

(** No scenario file has this name. *)
Lemma failed_start_leaves_no_trace_witness :
  exists s', start_scenario "unknown" "development" (Some "inc2") started_lab = (Err (LabError UNKNOWN_FAMILY), s')
    /\ (lb_runs s' = lb_runs started_lab /\ lb_marker s' = lb_marker started_lab \/ undone "inc2" started_lab s').
Proof.
  eexists. split; [vm_compute; reflexivity|].
  eapply (failed_start_leaves_no_trace sample_quiet "unknown" "development" "inc2"); [vm_compute; reflexivity|discriminate].
Defined.

(** * A worker's machine *)

#[export] Instance sample_deployment : Deployment := {
  build_wiring _ _ _ := Ok (dispatch_registry sample_backends, "replay");
  artifact_bucket := true;
}.

#[local] Existing Instance sample_model.

#[local] Instance sample_plane : ControlPlane Store := firestore_plane DEFAULT_PLANE.

Definition site_with (lab : Lab) : Site :=
  {| st_lab := lab; st_threads := ∅; st_results := ∅; st_bucket := ∅; st_deliveries := ∅ |}.

Definition sample_claim : WorkerClaim :=
  {| wc_scenario_family := S_CONFIGURATION_CHANGE; wc_seed := DEVELOPMENT; wc_investigation_id := "job1";
     wc_owner_email := "owner@example.com"; wc_checkpoint_id := None; wc_incident_id := Some "inc1";
     wc_owner_decision := None; wc_claim_token := "token" |}.

Lemma fresh_site_ok lab : site_ok (site_with lab).
Proof. intros id cp Hcp. discriminate Hcp. Qed.

(** From an empty machine: the scenario is created, the graph runs, the report is published. *)
Definition sample_attempt : res WorkerOutcome * (Site * Store) := run sample_claim (site_with empty_lab, empty_store).

Example sample_attempt_finishes : sample_attempt.1 = Ok (FinalizedWorkerOutcome "job1/report.md").
Proof. vm_compute. reflexivity. Qed.

Lemma results_appear_once_witness :
  has_finalized_artifact "job1" sample_attempt.2.1 = true /\ advanced "job1" (site_with empty_lab) sample_attempt.2.1.
Proof.
  pose proof (results_appear_once sample_claim (site_with empty_lab) empty_store (fresh_site_ok empty_lab)) as Happlied.
  cbv zeta in Happlied. fold sample_attempt in Happlied. pose proof sample_attempt_finishes as Hend.
  destruct sample_attempt as [r [s' p']]. cbn [fst snd] in Hend |- *. destruct Happlied as [Hadv Ho].
  split; [|exact Hadv]. exact (proj1 (proj2 (Ho _ Hend))).
Defined.

(** The outcome was lost; the claim is made again under another token. *)
Definition second_claim : WorkerClaim :=
  {| wc_scenario_family := S_CONFIGURATION_CHANGE; wc_seed := DEVELOPMENT; wc_investigation_id := "job1";
     wc_owner_email := "owner@example.com"; wc_checkpoint_id := None; wc_incident_id := Some "inc1";
     wc_owner_decision := None; wc_claim_token := "later" |}.

(** The second attempt meets the disk the first left, and no fault. *)
Lemma attempt_repeats_witness :
  (run second_claim sample_attempt.2).1 = Ok (FinalizedWorkerOutcome "job1/report.md")
  /\ asked (run second_claim sample_attempt.2).2.1 = asked sample_attempt.2.1.
Proof.
  destruct sample_attempt as [r [s1 p1]] eqn:Hrun. assert (Hr : r = Ok (FinalizedWorkerOutcome "job1/report.md")).
  { rewrite <- sample_attempt_finishes, Hrun. reflexivity. }
  rewrite Hr in Hrun. cbn [fst snd].
  pose proof (attempt_repeats _ _ sample_claim second_claim (site_with empty_lab) empty_store _ s1 p1 s1 p1
    (fresh_site_ok empty_lab) Hrun eq_refl eq_refl eq_refl eq_refl) as Happlied. unfold run_on in Happlied.
  destruct (run second_claim (s1, p1)) as [r' [s3 p3]]. destruct Happlied as (Hasked & _ & Hlive).
  split; [exact (Hlive sample_quiet I)|exact Hasked].
Defined.

Definition sample_incident : StoredIncident :=
  match rn_incident started_run with Some (Whole incident) => incident | _ => {| si_scope := sample_scope; si_packet := sample_packet; si_evidence := [] |} end.

Lemma sample_incident_stored :
  lb_runs (st_lab (site_with started_lab)) !! "inc1" ≫= rn_incident = Some (Whole sample_incident).
Proof. vm_compute. reflexivity. Qed.

Lemma sample_prepared :
  prepared sample_claim sample_incident (dispatch_registry sample_backends) "replay" "inc1" (site_with started_lab).
Proof.
  split; [reflexivity|]. split; [reflexivity|]. split; [exact sample_incident_stored|].
  split; [vm_compute; reflexivity|reflexivity].
Qed.

Lemma runner_settles_witness :
  (exists o, (run sample_claim (site_with started_lab, empty_store)).1 = Ok o)
  \/ (run sample_claim (site_with started_lab, empty_store)).1 = Err GraphBubbleUp.
Proof.
  pose proof (runner_settles sample_quiet sample_claim sample_incident (dispatch_registry sample_backends) "replay"
    ltac:(vm_compute; reflexivity) (conj sample_registry_ok sample_passages_ok) "inc1" (site_with started_lab) empty_store
    (fresh_site_ok started_lab) (or_introl eq_refl)
    sample_prepared eq_refl) as Happlied.
  destruct (run sample_claim (site_with started_lab, empty_store)) as [r [s' p']]. cbn [fst].
  destruct Happlied as [(o & Ho & _)|[Ho _]]; [left; exists o; exact Ho|right; exact Ho].
Defined.

(** No job of this control plane has the incident: the marker is an orphan's. *)
Lemma reconcile_frees_marker_witness :
  exists lab', reconcile_scenarios (site_with started_lab, empty_store) = (Ok tt, ((site_with started_lab) <| st_lab := lab' |>,
    (ask (op_scenario_status "inc1") empty_store).2)) /\ lb_marker lab' = None.
Proof.
  destruct (reconcile_frees_marker sample_quiet (site_with started_lab) empty_store
    (ask (op_scenario_status "inc1") empty_store).2 "inc1" None
    ltac:(vm_compute; reflexivity) eq_refl ltac:(vm_compute; reflexivity)) as (lab' & Hlab & Hm & _).
  exists lab'. split; [exact Hlab|exact Hm].
Defined.

(** Every family's scenario: two healthy requests, then two that fail. *)
Definition corpus_scenario (family : string) : ScenarioDefinition := {|
  sd_family := family; sd_endpoint := "/checkout"; sd_services := ["orders"; "gateway"];
  sd_symptom := "ELEVATED_ERRORS"; sd_healthy_config := []; sd_faulted_config := [("pool", JInt 9)];
  sd_baseline_requests := 2; sd_fault_requests := 2; sd_traffic_volume_bump := 0; sd_changes := [];
  sd_topology := [("edges", JArr [JStr "gateway>orders"])];
  sd_expected := [("root_cause", JStr "UNDETERMINED"); ("disposition", JStr "INSUFFICIENT_EVIDENCE");
                  ("predicates", JArr [JObj [("source", JStr "alert"); ("kind", JStr "SYMPTOM");
                    ("field", JStr "failed_requests"); ("operator", JStr "AT_LEAST"); ("value", JInt 1)]])];
  sd_seed_variants := [] |}.

#[local] Instance corpus_machine : Machine := {
  machine_fault _ := None;
  leftover _ r := r;
  gateway_status n := if (n mod 4 <? 2)%nat then 200 else 500;
  scenario_file family := Some (corpus_scenario family);
}.

(** Stops at once and abstains. *)
#[local] Instance abstaining_model : ToolCallingModel := {
  propose _ _ := Ok (propose_turn None);
  respond _ _ := Ok (answer {|
    fa_schema_version := "1"; fa_disposition := M_INSUFFICIENT_EVIDENCE; fa_root_cause := UNDETERMINED;
    fa_supporting_evidence_ids := []; fa_contrary_evidence_ids := []; fa_runbook_citations := [];
    fa_uncertainty := "too little"; fa_next_step := "look again" |});
}.

#[local] Instance corpus_host : EvaluationHost := {
  environment := [("ANTHROPIC_API_KEY", "key"); ("LIVE_EVALUATION_MAX_USD", "100")];
  project_root := true;
  git_provenance := Ok ("sha", false);
  scenario_bytes family := Ok family;
  corpus_version := Ok (Some "1");
  mcp_registry _ _ := Ok (dispatch_registry sample_backends);
  ledger_moves _ c := c;
}.

Definition fresh_batch : Batch := {|
  bt_site := {| st_lab := {| lb_marker := None; lb_runs := ∅; lb_steps := 0; lb_calls := 0; lb_world := initial_world |};
                st_threads := ∅; st_results := ∅; st_bucket := ∅; st_deliveries := ∅ |};
  bt_ledger := fresh_connection; bt_target := ∅; bt_printed := []; bt_scored := [] |}.

Lemma corpus_wiring : wiring_ok.
Proof. intros incident b registry [= <-]. split; [apply sample_registry_ok|apply sample_passages_ok]. Qed.

Lemma corpus_faults : ordinary_faults.
Proof. intros k e [=]. Qed.

Definition sample_batch : res Z * Batch := main 2 fresh_batch.

Lemma sample_batch_succeeds : sample_batch.1 = Ok 0.
Proof. vm_compute. reflexivity. Qed.

Lemma command_settles_witness : sample_batch.1 = Ok 0 /\ complete 2 sample_batch.2.
Proof.
  pose proof (command_settles 2 fresh_batch sample_batch.1 sample_batch.2 corpus_wiring corpus_faults
    (surjective_pairing _)) as Hend. pose proof sample_batch_succeeds as Hcode. rewrite Hcode in Hend.
  split; [exact Hcode|]. destruct Hend as [[_ Hend]|[[Hend _]|[Hend _]]]; [exact Hend|discriminate Hend..].
Defined.

(** An alert that was measured, and what an answer about it must rest on. *)
Definition measured_evidence : list Evidence :=
  [{| ev_evidence_id := "ev-symptom"; ev_incident_id := "inc-1"; ev_kind := SYMPTOM; ev_source := "alert";
      ev_observed_at := 61000000; ev_summary := "two in three"; ev_payload := [("rate", JFloat "0.66")];
      ev_receipt_id := None; ev_content_hash := "h" |}].

Definition sample_expected : ExpectedOutcome :=
  {| ex_root_cause := RESOURCE_POOL_SATURATION; ex_disposition := DIAGNOSED;
     ex_predicates := [{| rq_source := "alert"; rq_kind := SYMPTOM; rq_template := None; rq_field := "rate";
                          rq_operator := AT_LEAST; rq_value := JFloat "0.5" |}] |}.

Notation measured_run :=
  (run_graph_investigation (H2 := sample_model) sample_investigation None "replay" measured_evidence initial_world).

Lemma measured_run_grounded :
  exists x recorded cp w, measured_run = (Ok (Finished x), recorded, cp, w)
    /\ ms_correct_and_grounded (score_run (res_report x) (res_evidence x) (res_receipts x) sample_expected) = Some true.
Proof. do 4 eexists. split; [vm_compute; reflexivity|]. vm_compute. reflexivity. Qed.

Lemma score_is_about_the_run_witness :
  exists x a, outcome_of measured_run = Ok (Finished x) /\ ir_assessment (res_report x) = Some a
    /\ forall p, p ∈ ex_predicates sample_expected ->
         exists e, e ∈ res_evidence x /\ supports (res_report x) a e /\ satisfies p e = true.
Proof.
  destruct measured_run_grounded as (x & recorded & cp & w & Hrun & Hscore).
  assert (Hevidence : Forall (evidence_ok (sc_incident_id (iv_scope sample_investigation))) measured_evidence)
    by (repeat constructor).
  destruct (score_is_about_the_run sample_investigation measured_evidence sample_registry_ok sample_passages_ok
    sample_budgets_ok Hevidence None "replay" initial_world x recorded cp w sample_expected
    (sample_limit_covers false false) Hrun) as (_ & Hgrounded & _).
  apply Hgrounded in Hscore as (_ & _ & a & Ha & Hall).
  exists x, a. split; [unfold outcome_of; rewrite Hrun; reflexivity|]. split; [exact Ha|exact Hall].
Defined.

(** Where the batch itself starts from. *)
Definition before_batch : Batch := (new_evaluation_target fresh_batch).2.

Lemma scored_records_survive_witness :
  behind (bt_scored before_batch) (run_evaluation (resolve_budgets 3) before_batch).2.
Proof.
  destruct (scored_records_survive 3 before_batch (run_evaluation (resolve_budgets 3) before_batch).1
    (run_evaluation (resolve_budgets 3) before_batch).2) as [Hbehind _].
  - reflexivity.
  - exact corpus_wiring.
  - vm_compute. reflexivity.
  - apply surjective_pairing.
  - exact Hbehind.
Defined.

(** The same corpus under a ceiling of one dollar. *)
#[local] Instance poor_host : EvaluationHost := {|
  environment := [("ANTHROPIC_API_KEY", "key"); ("LIVE_EVALUATION_MAX_USD", "1.00")];
  project_root := true; git_provenance := Ok ("sha", false); scenario_bytes family := Ok family;
  corpus_version := Ok (Some "1"); mcp_registry _ _ := Ok []; ledger_moves _ c := c |}.

Lemma doomed_batch_starts_nothing_witness :
  bt_site (run_evaluation (resolve_budgets 2) before_batch).2 = bt_site before_batch.
Proof.
  set (run := run_evaluation (resolve_budgets 2) before_batch).
  destruct (doomed_batch_starts_nothing (resolve_budgets 2) before_batch [] f_zero f_one run.1 run.2)
    as (_ & Hsite & _).
  - split; reflexivity.
  - reflexivity.
  - vm_compute. reflexivity.
  - vm_compute. reflexivity.
  - apply surjective_pairing.
  - exact Hsite.
Defined.

#[export] Instance mcp_pydantic : McpPydantic := {
  model_json_schema t := [("title", JStr (value t)); ("type", JStr "object")];
  read_json s := match json_loads s with Ok j => Some j | Err _ => None end;
  strict_mode := sample_pydantic;
  coerce_bool j := match j with JBool b => Some b | _ => None end;
  coerce_float j := match j with JFloat t => Some t | _ => None end;
}.

#[export] Instance mcp_pydantic_laws : McpPydanticLaws.
Proof.
  split; try done.
  - intros sort iws kws j Hi Hk Hw. unfold read_json, mcp_pydantic. by rewrite json_loads_dumps.
  - intros j z. split; [by destruct j; intros [= ->]|by intros ->].
  - apply coerce_dump_datetime.
Qed.

(** A digest under which the manifest has its pinned value. *)
#[export] Instance mcp_host : Host := {
  sha256_hex s :=
    if decide (s = manifest_canonical_json build_manifest) then PINNED_MANIFEST_SHA256 else s;
  uuid_hex n := write_Z (Z.of_nat n);
}.

#[export] Instance mcp_fresh_ids : FreshIds.
Proof. intros m n Hmn. apply write_Z_inj in Hmn. lia. Qed.

(** * One message *)

Definition sample_message : jobject :=
  request_message 7 "tools/call"
    [("text", JStr ("a " +:+ dq +:+ nl +:+ chr 233)); ("share", JFloat "0.1");
     ("rows", JArr [JInt (-3); JNull; JBool true; JObj [("b", JInt 0); ("a", JFloat "1e-05")]])].

Lemma message_line_round_trip_witness :
  exists line, encode_jsonrpc_line sample_message = Ok (line +:+ nl) /\ printable line = true
    /\ decode_jsonrpc_line (line +:+ nl) = Ok sample_message.
Proof. apply (message_line_round_trip sample_message); vm_compute; reflexivity. Defined.

(** * A session *)

Definition session_ops : list session_op :=
  [OpCallTool GET_TOPOLOGY []; OpInitialize;
   OpAcceptInitialize (server_response (JInt 2) initialize_result);
   OpAcceptInitialize (server_response (JInt 1) initialize_result); OpInitialized; OpListTools;
   OpAcceptTools (server_response (JInt 2) list_result);
   OpCallTool GET_TOPOLOGY [("incident_id", JStr "inc-1")]; OpListTools].

Lemma session_in_order_witness :
  let run := run_ops session_ops new_session in
  is_ok <$> run.1.*2 = [false; true; false; true; true; true; true; true; false]
  /\ sent_ids run.1 = first_ids (ss_request_id run.2) /\ sent_ids run.1 = [1; 2; 3].
Proof.
  split; [vm_compute; reflexivity|]. split; [|vm_compute; reflexivity].
  apply (session_in_order session_ops _ (run_ops session_ops new_session).2).
  by destruct (run_ops session_ops new_session).
Defined.

(** * A conversation of the approved server *)

Definition mcp_check : CheckOutcome :=
  executed_check LOG "orders-logs" "two timeouts"
    [("rows", JArr [JObj [("t", JInt 5); ("line", JStr "timeout")]]); ("count", JInt 2)] 12.

Definition mcp_backends : Backends := {|
  run_metric := run_metric sample_backends;
  run_logs := fun _ _ _ => Ok mcp_check;
  run_changes := run_changes sample_backends;
  run_topology := run_topology sample_backends;
  run_search := run_search sample_backends;
|}.

Definition logs_arguments : ToolArguments :=
  ALogs {| ql_log_filter := TIMEOUTS_ONLY; ql_service := "orders"; ql_window_start := None;
           ql_window_end := None; ql_row_limit := 20 |}.

Definition the_approval : option McpDispatchApproval :=
  match APPROVED_MCP_DISPATCH with Ok a => a | Err _ => None end.

Definition call_line (id : Z) (a : ToolArguments) : string :=
  line_of (request_message id "tools/call"
    [("name", JStr (value (arguments_tool a))); ("arguments", JObj (dump_arguments a))]).

(** A call before the handshake, noise, the handshake, a call, the same call again, and a
    call about another incident. *)
Definition served_lines : list string :=
  [call_line 1 logs_arguments; "noise" +:+ nl;
   line_of (request_message 1 "initialize" initialize_params); line_of initialized_message;
   call_line 2 logs_arguments; call_line 3 logs_arguments;
   call_line 4 (ATopology {| gt_incident_id := "inc-2" |})].

Definition served_as_expected : bool :=
  match main_server the_approval mcp_backends sample_scope DEFAULT_BUDGETS initial_world with
  | Ok server =>
      let '(out, r, server) := serve served_lines server in
      is_ok r && (length out =? 4)%nat
      && bool_decide (calls_of_executor (sv_executor server)
                      = [resolve_effective_window logs_arguments sample_scope])
  | Err _ => false
  end.

Lemma server_confined_witness :
  exists server out r server',
    main_server the_approval mcp_backends sample_scope DEFAULT_BUDGETS initial_world = Ok server
    /\ serve served_lines server = (out, r, server') /\ is_ok r = true /\ length out = 4%nat
    /\ calls_of_executor (sv_executor server') = [resolve_effective_window logs_arguments sample_scope]
    /\ approves the_approval /\ handshake_first served_lines.
Proof.
  assert (served_as_expected = true) as He by (vm_compute; reflexivity). unfold served_as_expected in He.
  destruct (main_server the_approval mcp_backends sample_scope DEFAULT_BUDGETS initial_world)
    as [server|e] eqn:Hm; [|done].
  destruct (serve served_lines server) as [[out r] server'] eqn:Hs.
  apply andb_prop in He as [[Hr Hout%Nat.eqb_eq]%andb_prop Hc%bool_decide_eq_true].
  exists server, out, r, server'. do 5 (split; [done|]).
  apply (server_confined mcp_backends sample_scope DEFAULT_BUDGETS initial_world the_approval
           served_lines server out r server'); [done|done|exact Hm|exact Hs|].
  by rewrite Hc.
Defined.

(** * One check over the pipe *)

Definition piped_child : McpChildProcess Pipe :=
  {| ch_host := {| pp_approval := the_approval; pp_backends := mcp_backends; pp_world := initial_world;
       pp_server := Some (server_at READY (executor_over mcp_backends sample_scope DEFAULT_BUDGETS
                            (fresh_dispatch DEFAULT_BUDGETS initial_world)));
       pp_queue := [] |};
     ch_process := true; ch_session := Some (ready_session 2); ch_poisoned := false; ch_launch := None |}.

Definition client_dispatch : Dispatch := fresh_dispatch DEFAULT_BUDGETS initial_world.

Lemma mcp_dispatch_is_direct_witness :
  exists c' server' o' dr direct forwarded,
    forwarding_run_check QUERY_LOGS (resolve_effective_window logs_arguments sample_scope) piped_child = (Ok o', c')
    /\ dispatch QUERY_LOGS QUERY_LOGS (fun _ _ _ => Ok (Checked mcp_check)) (mcp_proposal logs_arguments)
         sample_scope DEFAULT_BUDGETS client_dispatch = (Ok dr, direct)
    /\ dispatch QUERY_LOGS QUERY_LOGS (fun _ _ _ => Ok (Checked o')) (mcp_proposal logs_arguments)
         sample_scope DEFAULT_BUDGETS client_dispatch = (Ok (sorted_result dr), forwarded)
    /\ rc_outcome (dr_receipt dr) = Some EXECUTED /\ rc_reason_code (dr_receipt dr) = None
    /\ lg_receipts (d_ledger forwarded) = lg_receipts (d_ledger direct)
    /\ d_seen forwarded = d_seen direct /\ d_world forwarded = d_world direct
    /\ w_backend_calls (d_world server') = [resolve_effective_window logs_arguments sample_scope]
    /\ ready c' (executor_over mcp_backends sample_scope DEFAULT_BUDGETS server') 3
    /\ mirrors server' forwarded
    /\ ledger_ok (d_world server') (d_ledger server') /\ ledger_ok (d_world forwarded) (d_ledger forwarded).
Proof.
  apply (mcp_dispatch_is_direct piped_child mcp_backends sample_scope DEFAULT_BUDGETS
           (fresh_dispatch DEFAULT_BUDGETS initial_world) client_dispatch 2 (mcp_proposal logs_arguments) mcp_check).
  - by repeat split.
  - vm_compute. reflexivity.
  - done.
  - reflexivity.
  - by constructor.
  - by constructor.
  - by split.
  - vm_compute. reflexivity.
  - reflexivity.
  - left. by split.
  - split; [|split; [|split]]; vm_compute; done.
Defined.

(** * The backends over a run's files *)

(** A change of [orders] at [moment] seconds; the later one stands first in the file. *)
Definition recorded_change (moment : Z) (summary : string) : json :=
  JObj [("service", JStr "orders"); ("at", JStr (isoformat (moment * 1000000))); ("summary", JStr summary)].

Definition recorded_changes : list json :=
  [recorded_change 40 "pool size raised"; recorded_change 20 "timeout lowered"; recorded_change 90 "rolled back"].

Definition recorded_edges : list json := [JStr "gateway>orders"; JStr "orders>inventory"].

Definition recorded_topology : jobject :=
  [("edges", JArr recorded_edges); ("services", JArr [JStr "gateway"; JStr "orders"])].

Definition timeout_at (moment : Z) : json :=
  JObj [("at", JStr (isoformat (moment * 1000000))); ("severity", JStr "error"); ("event", JStr "upstream_timeout")].

(** A timeout, a cut line, one that is no UTF-8, a healthy row, and two more timeouts. *)
Definition logged_lines : list (option string) :=
  [Some (json_dumps_compact (timeout_at 10)); Some "{"; None;
   Some (json_dumps_compact (JObj [("at", JStr (isoformat 12000000)); ("event", JStr "ok")]));
   Some (json_dumps_compact (timeout_at 30)); Some (json_dumps_compact (timeout_at 31))].

Definition recorded_run : RunFiles := {|
  rf_log := fun service => if decide (service = "orders") then Some (Ok logged_lines) else None;
  rf_changes := Some (json_dumps_compact (JArr recorded_changes));
  rf_topology := Some (json_dumps_compact (JObj recorded_topology)) |}.

Definition changes_arguments : ListRecentChangesArguments :=
  {| lc_service := "orders"; lc_window_start := Some 1000000; lc_window_end := Some 61000000 |}.

Definition timeouts_arguments : QueryLogsArguments :=
  {| ql_log_filter := TIMEOUTS_ONLY; ql_service := "orders"; ql_window_start := Some 1000000;
     ql_window_end := Some 61000000; ql_row_limit := 2 |}.

Lemma changes_check_bounded_witness :
  exists o ordered n, run_changes_check changes_arguments recorded_run 7 = Ok o
    /\ co_outcome o = EXECUTED /\ fits (co_payload o) = true /\ str_len (co_summary o) <= 400
    /\ ordered ≡ₚ firstn 2 recorded_changes
    /\ dict_get "changes" (co_payload o) = Some (JArr (drop n ordered)).
Proof.
  destruct (changes_check_bounded changes_arguments recorded_run 7 1000000 61000000 recorded_changes eq_refl eq_refl)
    as (o & ordered & n & Hrun & Hout & Hfit & Hlen & Hperm & _ & _ & Hget & _); [vm_compute; reflexivity|].
  exists o, ordered, n. do 4 (split; [done|]). split; [|done].
  etransitivity; [exact Hperm|].
  assert (List.filter (is_change (lc_service changes_arguments) 1000000 61000000) recorded_changes = firstn 2 recorded_changes)
    as Hfound by (vm_compute; reflexivity).
  by rewrite Hfound.
Defined.

Lemma logs_check_shows_newest_witness :
  exists o all m codes, run_logs_check timeouts_arguments recorded_run 7 = Ok o
    /\ co_outcome o = EXECUTED
    /\ matching_rows TIMEOUTS_ONLY 1000000 61000000 logged_lines = Ok all
    /\ 0 <= m <= Z.min (Z.min 2 MAX_LOG_ROWS) (Z.of_nat (length all))
    /\ dict_get "rows" (co_payload o) = Some (JArr (last_rows m all))
    /\ codes_of (last_rows m all) codes.
Proof.
  destruct (logs_check_shows_newest timeouts_arguments recorded_run 7 1000000 61000000 logged_lines eq_refl eq_refl)
    as (o & all & m & codes & Hrun & Hout & Hall & _ & Hm & _ & _ & Hcodes & Hrows & _).
  - vm_compute. done.
  - reflexivity.
  - assert (Forall (fun line => match line with Some text => json_loads text <> Err BeyondLatin1 | None => True end) logged_lines)
      as Hf.
    { unfold logged_lines. repeat (apply Forall_cons; split; [vm_compute; done|]). by apply Forall_nil. }
    rewrite Forall_forall in Hf. intros text Hin. exact (Hf _ Hin).
  - exists o, all, m, codes. split; [exact Hrun|]. split; [exact Hout|]. split; [exact Hall|]. split; [exact Hm|].
    split; [exact Hrows|exact Hcodes].
Defined.

(** * A metric check *)

Definition latency_arguments : QueryMetricArguments :=
  {| qm_template := GATEWAY_LATENCY_P95; qm_service := "gateway"; qm_window_start := Some 1000000;
     qm_window_end := Some 61000000 |}.

(** Three readings, one of them [NaN]. *)
Definition answered_range : json :=
  JObj [("status", JStr "success");
        ("data", JObj [("result", JArr [JObj [("values", JArr [JArr [JInt 16; JStr "0.25"];
                                                             JArr [JInt 31; JStr "NaN"];
                                                             JArr [JFloat "46.5"; JStr "1.5"]])]])])].

Definition prometheus_answers (url : string) (timeout : Z) : http_answer :=
  Body (json_dumps_compact answered_range).

Definition range_values : list json :=
  [JArr [JInt 16; JStr "0.25"]; JArr [JInt 31; JStr "NaN"]; JArr [JFloat "46.5"; JStr "1.5"]].

Lemma range_reads :
  answer_reads answered_range [JObj [("values", JArr range_values)]] range_values (omap read_sample range_values).
Proof. split; [by econstructor|]. split; [by constructor|]. apply readings_of_omap. Qed.

Lemma range_loads : @json_loads Unhooked (json_dumps_compact answered_range) = Ok answered_range.
Proof. vm_compute. reflexivity. Qed.

Lemma prometheus_answer url timeout : prometheus_answers url timeout = Body (json_dumps_compact answered_range).
Proof. reflexivity. Qed.

Lemma metric_check_honest_witness :
  exists o, run_metric_check prometheus_answers latency_arguments sample_scope DEFAULT_PROMETHEUS_URL 5 7 = Ok o
    /\ metric_shows latency_arguments (metric_query GATEWAY_LATENCY_P95 "gateway" (sc_incident_id sample_scope)) 1000000 61000000
         [JObj [("values", JArr range_values)]] range_values (omap read_sample range_values) o.
Proof.
  pose proof (metric_check_honest prometheus_answers latency_arguments sample_scope DEFAULT_PROMETHEUS_URL 5 7
              1000000 61000000 eq_refl eq_refl eq_refl ltac:(discriminate)) as Happlied.
  cbv zeta in Happlied. rewrite prometheus_answer, range_loads in Happlied.
  exact (proj1 (proj2 (proj2 (proj2 Happlied))) _ _ _ range_reads).
Defined.

(** * The registry over the run's own files and the corpus *)

(** Every row matches, and equally well. *)
#[export] Instance matches_all : Fts5 := fun rows _ limit =>
  Ok (firstn (Z.to_nat limit) ((fun row => (row, f_of_Z (-1))) <$> rows)).

#[export] Instance matches_all_laws : Fts5Laws.
Proof.
  split; intros rows query limit found [= <-].
  - apply Forall_take, Forall_forall. by intros hit (row & -> & Hin)%list_elem_of_fmap.
  - intros. rewrite length_take. lia.
  - assert (forall l : list CorpusRow, StronglySorted (fun a b : CorpusRow * f64 => f_gt a.2 b.2 = false) ((fun row => (row, f_of_Z (-1))) <$> l)) as Hs.
    { induction l as [|row l IH]; constructor; [done|]. apply Forall_forall. by intros hit (? & -> & ?)%list_elem_of_fmap. }
    rewrite <- fmap_take. apply Hs.
Qed.

#[export] Instance no_pinecone : Pinecone := {|
  pinecone_open := fun _ _ => Err PineconeException; pinecone_search := fun _ _ _ => Err PineconeException |}.

Definition small_corpus : json :=
  JObj [("corpus_version", JStr "1");
        ("passages", JArr [JObj [("passage_id", JStr "rb-1"); ("source_version", JStr "1"); ("content", JStr "check the pool")]])].

Definition small_index : RunbookIndex :=
  match open_index small_corpus with Ok index => index | Err _ => {| ri_corpus_version := None; ri_rows := [] |} end.

Definition runbooks_proposal : ToolProposal :=
  mcp_proposal (ARunbooks {| sr_topic := RESOURCE_POOL_PRESSURE; sr_limit := 2 |}).

Lemma own_checks_settle_witness :
  exists dr d', dispatch SEARCH_RUNBOOKS SEARCH_RUNBOOKS
      (tw_run_check (search_runbooks_wrapper (fun n arguments _ => run_runbook_search arguments small_index 7)))
      runbooks_proposal sample_scope DEFAULT_BUDGETS client_dispatch = (Ok dr, d')
    /\ rc_state (dr_receipt dr) = SETTLED
    /\ Forall (passage_of (ri_rows small_index)) (dr_passages dr)
    /\ Z.of_nat (length (dr_passages dr)) <= 2.
Proof.
  destruct (own_checks_settle (fun _ => prometheus_answers) (fun _ => recorded_run) (fun _ => 7) small_corpus
              DEFAULT_BUDGETS [] (dispatch_registry (run_backends (fun _ => prometheus_answers) (fun _ => recorded_run) (fun _ => 7)
                DEFAULT_BUDGETS (fun n arguments _ => run_runbook_search arguments small_index 7)))
              small_index SEARCH_RUNBOOKS
              (search_runbooks_wrapper (fun n arguments _ => run_runbook_search arguments small_index 7))
              runbooks_proposal sample_scope DEFAULT_BUDGETS client_dispatch)
    as (dr & d' & Hrun & Hst & _ & _ & Hpass & Hlen).
  - reflexivity.
  - vm_compute. reflexivity.
  - reflexivity.
  - repeat constructor.
  - reflexivity.
  - by do 2 right; left.
  - reflexivity.
  - by constructor.
  - lia.
  - intros _. split; eexists; vm_compute; reflexivity.
  - exists dr, d'. split; [exact Hrun|]. split; [exact Hst|]. split; [exact Hpass|].
    specialize (Hlen {| sr_topic := RESOURCE_POOL_PRESSURE; sr_limit := 2 |} eq_refl).
    cbn [sr_limit] in Hlen. apply Hlen. lia.
Defined.
