(* ===== verification/Divergences.v ===== *)
(** Concrete runs on which the code and what is written about it part ways. *)
From Stdlib Require Import ZArith Lia.
From stdpp Require Import prelude strings list gmap.
From S2P Require Import Prelude PyText Float64 Tools Domain Policy World Evidence Wrappers ToolCalls Models Prompts GraphState GraphNodes GraphStages GraphRun GraphInvariant GraphProps GraphResume GraphModes CostLedger Samples ControlPlane FirestorePlane SqlitePlane Workers Lab LabProps Site JobRunner Sqlite LiveModel LiveSetup EvaluateBatch JsonText JsonRoundTrip Telemetry Prometheus Checkpointer.
Local Open Scope Z_scope.

(** ** The longest path (graph.py, the comment on [GRAPH_RECURSION_LIMIT])

    The comment counts nine supersteps.  Three turns of the default four model
    calls can each dispatch a proposal, since a denied proposal and a runbook
    search spend no check: twelve supersteps. *)

(** A check, a search and a denied proposal, then an answer with contrary evidence. *)
Definition long_path_model : ToolCallingModel :=
  scripted_model
    [Some (logs_proposal 5); Some (search_proposal RESOURCE_POOL_PRESSURE); Some (logs_proposal 41)]
    (sample_assessment ["ev-symptom"] ["ev-topology"]).

Definition long_path (limit : nat) : invocation :=
  let '(s, w) := seed sample_investigation None "replay" sample_initial_evidence initial_world in
  (drive (build_graph (H2 := long_path_model) sample_investigation) limit
     (start_checkpoint (H2 := long_path_model) sample_investigation s) w).1.1.

(** nine supersteps are not the longest path. Under the default budgets a run
    does not reach the owner's interrupt in ten, and does in eleven; FINAL_REPORT is
    then its twelfth. *)
Lemma longest_path_is_not_nine :
  long_path 10 = Raised GraphRecursionError
  /\ (exists s p, long_path 11 = Returned s (Some p)).
Proof. split; [vm_compute; reflexivity|]. do 2 eexists. vm_compute. reflexivity. Qed.

(** ** A rejection note past 300 characters (graph.py, [_parse_resume_decision])

    The resume value is read without [OwnerDecision]'s length bound, and the note
    is committed before [EscalationRecord] refuses it: the report cannot be built,
    crash containment cannot build one either, and the thread stays that way. *)

Definition long_note : string := String.concat "" (repeat "0123456789" 31).

Definition err_of {A} (r : res A) : option exn :=
  match r with Ok _ => None | Err e => Some e end.

Definition resumed_with_long_note : option (option exn * option exn) :=
  let '(_, _, cp, w) := sample_run conflicted_model sample_investigation in
  match resume_graph_investigation (H2 := conflicted_model) sample_investigation (Some cp)
          reject (Some long_note) w with
  | (r, _, Some cp', w') =>
      match recover_graph_investigation (H2 := conflicted_model) sample_investigation (Some cp') w' with
      | Some (r', _, _, _) => Some (err_of r, err_of r')
      | None => None
      end
  | _ => None
  end.

(** a note past the bound wedges its thread. Resuming the waiting thread with
    a note of 310 characters raises, and so does every recovery after it. *)
Lemma long_note_wedges_the_thread :
  resumed_with_long_note = Some (Some ValidationError, Some ValidationError).
Proof. vm_compute. reflexivity. Qed.

(** ** The reservation buffer (cost_ledger.py, [RESERVATION_CEILING_BUFFER_USD])

    The buffer is said to clear the largest reservation one request can make: the
    context at its bound plus the tool definitions, and the whole output budget.
    It does at one pricing and does not at another. *)

Definition largest_reservation (p : PricingSnapshot) : f64 := reservation_usd p (9600 + 13716) 1600.

Lemma buffer_does_not_clear_every_pricing :
  f_gt (largest_reservation CLAUDE_SONNET_5_PRICING) RESERVATION_CEILING_BUFFER_USD = false
  /\ f_gt (largest_reservation CLAUDE_OPUS_5_PRICING) RESERVATION_CEILING_BUFFER_USD = true.
Proof. split; vm_compute; reflexivity. Qed.

(** ** The batch's worst case (evaluate_cli.py, [_preflight_worst_case_batch_usd])

    It is said to be the largest amount a batch could ever reserve.  It is computed at
    one model's prices; the batch runs the model the environment names.  Under a ceiling
    it accepts, a batch of the dearest model is refused its next request before half of
    its calls are made. *)

(** Tool definitions of the size the program's comments measure. *)
Definition schema_provider : Provider := {|
  chat_invoke _ _ _ _ := Err MissingProviderUsage;
  stop_tool_definition := JStr (String.concat "" (replicate 13712 "x"));
  domain_tool_definitions := [];
  final_assessment_tool_definition := JNull |}.

(** The least ceiling the check accepts over an empty ledger, with the default budgets. *)
Definition accepted_ceiling : f64 :=
  f_add (@preflight_worst_case_batch_usd schema_provider (resolve_budgets 2)) RESERVATION_CEILING_BUFFER_USD.

Definition opus_row (k : nat) : CostLedgerRow :=
  new_reservation {| k_run_id := "run"; k_graph_phase := "INVESTIGATE"; k_model_turn := Z.of_nat k; k_context_digest := "d" |}
    (largest_reservation CLAUDE_OPUS_5_PRICING) 0.

Definition opus_spent (calls : nat) : res f64 := total_from f_zero (opus_row <$> seq 0 calls).

Lemma preflight_covers_one_price_list :
  f_gt (f_add (f_add f_zero (@preflight_worst_case_batch_usd schema_provider (resolve_budgets 2)))
              RESERVATION_CEILING_BUFFER_USD) accepted_ceiling = false
  /\ runs_in_batch * (model_calls (resolve_budgets 2) + repairs (resolve_budgets 2)) = 144
  /\ exists spent, opus_spent 60 = Ok spent
     /\ f_gt (largest_reservation CLAUDE_OPUS_5_PRICING) (remaining_usd accepted_ceiling spent) = true.
Proof.
  split; [vm_compute; reflexivity|]. split; [vm_compute; reflexivity|]. eexists.
  split; [vm_compute; reflexivity|]. vm_compute. reflexivity.
Qed.

(** * Which report leaves first *)

(** Two jobs finish in the other order than they were created in. *)
Definition crossed_story : list (nat * PlaneOp) := [
  (0%nat, op_create "a@example.com" sample_creation "key"); (0%nat, op_create "b@example.com" sample_creation "key");
  (1%nat, op_claim_next); (2%nat, op_mark_paused (uuid_hex 0) "checkpoint-1" (uuid_hex 2));
  (3%nat, op_claim_next); (4%nat, op_finalize (uuid_hex 1) (uuid_hex 1 +:+ "/report.md") (uuid_hex 3));
  (5%nat, op_decide "a@example.com" (uuid_hex 0) accepted);
  (6%nat, op_claim_next); (7%nat, op_finalize (uuid_hex 0) (uuid_hex 0 +:+ "/report.md") (uuid_hex 4));
  (8%nat, op_claim_delivery)].

Definition sent_id (a : option Answer) : option string :=
  match a with Some (ADelivery (Ok (Some c))) => Some (de_investigation_id c) | _ => None end.

(** The Firestore plane sends the report finalized first, the SQLite plane that of the
    job created first. *)
Theorem reports_leave_in_another_order :
  sent_id (last (@conversation Store (firestore_plane DEFAULT_PLANE) crossed_story empty_store))
    = Some (uuid_hex 1)
  /\ sent_id (last (@conversation Plane (@sqlite_plane sound_tables sound_ledger _ _ _ _ DEFAULT_PLANE)
       crossed_story (empty_plane []))) = Some (uuid_hex 0).
Proof. split; vm_compute; reflexivity. Qed.

(** ** A claim of the lab cut short (scenario_control.py, [_claim_scenario])

    The marker is created empty and written next.  A process that dies in between
    leaves it empty, and [reconcile_scenarios] takes an empty marker for corruption:
    it raises before the worker claims a job, and the polling loop gives up the round
    before the delivery worker's turn. *)

Section cut_short.
Context `{Pydantic} `{Clocks} `{FreshIds} `{ToolCallingModel} `{LangGraph} `{Machine} `{Deployment}.
Context {P : Type} `{ControlPlane P}.
Variable k : nat.
Hypothesis dies : machine_fault k = Some killed.
Hypothesis only_there : forall n, n <> k -> machine_fault n = None.

(** The process is past the fault and the marker is empty. *)
Definition stuck (lab : Lab) : Prop := (k < lb_steps lab)%nat /\ lb_marker lab = Some "".

Lemma claim_cut_short id lab :
  lb_marker lab = None -> S (lb_steps lab) = k -> exists lab', claim_scenario id lab = (Err killed, lab') /\ stuck lab'.
Proof.
  intros Hm Hk. unfold claim_scenario, mbind, ST_bind. cbn [get_state]. rewrite Hm. cbn [mret ST_ret].
  unfold machine_step at 1. rewrite only_there by lia. simpl. rewrite Hm. unfold except_base, try_except, machine_step.
  simpl. rewrite Hk, dies. eexists. split; [done|]. split; [simpl; lia|done].
Qed.

Lemma stuck_poll (runner : WorkerClaim -> Workers.Turn WorkerOutcome) (sender : DeliveryClaim -> Workers.Turn unit) s (p : P) :
  stuck (st_lab s) ->
  exists lab', (poll hosted_worker runner sender (s, p)).2 = (s <| st_lab := lab' |>, p) /\ stuck lab'.
Proof.
  intros [Hk Hm]. unfold poll, run_once, try_except, mbind, ST_bind. cbn [rw_reconcile hosted_worker].
  unfold reconcile_scenarios, mbind, ST_bind, lift_site, lift_lab, active_marker, read_marker, machine_step, try_except, mbind, ST_bind.
  cbn [fst snd]. rewrite only_there by lia. simpl. rewrite Hm. simpl. eexists. split; [done|]. split; [simpl; lia|done].
Qed.

(** C37: One claim cut short stops the worker for good. When a process dies between
    creating the active marker and writing it, no later poll, however often it is repeated
    and whatever waits to be done, asks the control plane for anything: no job is claimed
    and no report delivered until someone removes the marker. *)
Theorem cut_short_claim_stops_worker id s (p : P) runner sender :
  lb_marker (st_lab s) = None -> S (lb_steps (st_lab s)) = k ->
  exists lab', claim_scenario id (st_lab s) = (Err killed, lab')
    /\ forall n, exists lab'', Nat.iter n (fun t => (poll hosted_worker runner sender t).2) (s <| st_lab := lab' |>, p)
         = (s <| st_lab := lab'' |>, p) /\ lb_marker lab'' = Some "".
Proof.
  intros Hm Hk. destruct (claim_cut_short id (st_lab s) Hm Hk) as (lab' & Hclaim & Hstuck). exists lab'. split; [done|].
  intros n. assert (Hn : exists lab'', Nat.iter n (fun t => (poll hosted_worker runner sender t).2) (s <| st_lab := lab' |>, p)
    = (s <| st_lab := lab'' |>, p) /\ stuck lab'').
  { induction n as [|n (lab1 & IH & Hs1)]; [by exists lab'|]. rewrite Nat.iter_succ, IH.
    set (t := s <| st_lab := lab1 |>). destruct (stuck_poll runner sender t p Hs1) as (lab2 & Hpoll & Hs2).
    exists lab2. by rewrite Hpoll. }
  destruct Hn as (lab'' & ? & _ & ?). by exists lab''.
Qed.
End cut_short.

Module CutShort.

(** The second operation is the last. *)
#[local] Instance dying_machine : Machine := {
  machine_fault n := if (n =? 1)%nat then Some killed else None;
  leftover _ r := r; gateway_status _ := 200; scenario_file _ := None }.

#[local] Instance quiet_deployment : Deployment :=
  { build_wiring _ _ _ := Ok (dispatch_registry sample_backends, "replay"); artifact_bucket := false }.

#[local] Instance sample_plane : ControlPlane Store := firestore_plane DEFAULT_PLANE.

#[local] Existing Instance long_path_model.

Definition fresh_site : Site := {|
  st_lab := {| lb_marker := None; lb_runs := ∅; lb_steps := 0; lb_calls := 0; lb_world := initial_world |};
  st_threads := ∅; st_results := ∅; st_bucket := ∅; st_deliveries := ∅ |}.

Definition failing_turn {R A} (_ : A) : Workers.Turn R :=
  {| Workers.tn_during := []; Workers.tn_result := Err ValueError; Workers.tn_then := []; Workers.tn_after := [] |}.

Lemma cut_short_claim_stops_worker_witness :
  exists lab' lab'', claim_scenario "inc1" (st_lab fresh_site) = (Err killed, lab')
    /\ Nat.iter 2 (fun t => (poll hosted_worker failing_turn failing_turn t).2) (fresh_site <| st_lab := lab' |>, empty_store)
       = (fresh_site <| st_lab := lab'' |>, empty_store) /\ lb_marker lab'' = Some "".
Proof.
  assert (Hdies : machine_fault 1 = Some killed) by reflexivity.
  assert (Hlater : forall n, n <> 1%nat -> machine_fault n = None).
  { intros n Hn. apply Nat.eqb_neq in Hn. cbn [machine_fault dying_machine]. rewrite Hn. reflexivity. }
  destruct (cut_short_claim_stops_worker 1 Hdies Hlater "inc1" fresh_site empty_store failing_turn failing_turn eq_refl eq_refl)
    as (lab' & Hclaim & Hpolls).
  destruct (Hpolls 2%nat) as (lab'' & Hpoll & Hm). exists lab', lab''. split; [exact Hclaim|]. split; [exact Hpoll|exact Hm].
Defined.
End CutShort.

(** ** An incident file cut short (scenario_control.py, [start_scenario])

    incident.json alone is written in place, and [ReplayGraphJobRunner.run] takes a file
    that is there for a durable one: it does not create the run again, and the job fails
    with the file it cannot read. *)

Section torn.
Context `{Pydantic} `{Clocks} `{FreshIds} `{ToolCallingModel} `{LangGraph} `{Machine} `{Deployment}.
Context {P : Type} `{ControlPlane P}.
Hypothesis quiet : forall n, machine_fault n = None.

(** a torn incident file is kept, and every attempt fails on it. *)
Lemma torn_incident_fails c i s (p : P) :
  has_finalized_artifact (wc_investigation_id c) s = false -> wc_incident_id c = Some i -> isalnum i = true ->
  lb_runs (st_lab s) !! i ≫= rn_incident = Some Torn ->
  exists lab', run c (s, p) = (Err (LabError CORRUPT_ARTIFACT), (s <| st_lab := lab' |>, p))
    /\ disk_of lab' = disk_of (st_lab s).
Proof.
  intros Hart Hi Hal Htorn. unfold run, mbind, ST_bind. cbn [get_state fst]. rewrite Hart, Hi. cbn [mret ST_ret].
  unfold lift_site. cbn [fst snd]. unfold run_claimed, mbind, ST_bind. unfold lift_lab at 1, prepare_lab, mbind, ST_bind, validated_run_paths.
  unfold mbind in Htorn. rewrite Hal. cbn [lift_result get_state]. rewrite Htorn. cbn [mret ST_ret].
  unfold lift_lab, load_verified_incident, mbind, ST_bind, validated_run_paths. simpl st_lab. rewrite Hal. cbn [lift_result get_state].
  rewrite Htorn. unfold try_except, machine_step. rewrite quiet. by eexists.
Qed.
End torn.

(** ** A long event name (telemetry.py, [run_logs_check])

    The codes are put into the payload after it was trimmed, and the comment says they
    cannot make it grow back over its budget; but it was trimmed with an empty
    placeholder in their place.  The summary repeats them unclamped. *)

Definition long_event : string := String.concat "" (replicate 700 "0123456789").

Definition long_event_run : RunFiles := {|
  rf_log := fun _ => Some (Ok [Some (json_dumps_compact (JObj [("at", JStr (isoformat 2000000)); ("severity", JStr "error");
                                                               ("event", JStr long_event)]))]);
  rf_changes := None; rf_topology := None |}.

Definition errors_arguments : QueryLogsArguments :=
  {| ql_log_filter := ERRORS_ONLY; ql_service := "orders"; ql_window_start := Some 1000000;
     ql_window_end := Some 61000000; ql_row_limit := 20 |}.

(** one row whose event name is long makes a result over the byte bound, with a summary
    no evidence record accepts. *)
Lemma long_event_breaks_the_bound :
  (o ← run_logs_check errors_arguments long_event_run 1; Ok (fits (co_payload o), str_len (co_summary o) <=? 400))
  = Ok (false, false).
Proof. vm_compute. reflexivity. Qed.

(** ** What the metric check lets through (prometheus.py) *)

(** a body that is no UTF-8, and one with an integer of more than 4300 digits, raise
    past [except json.JSONDecodeError] instead of becoming a failed check. *)
Lemma unreadable_body_raises url promql arguments start stop :
  qm_window_start arguments = Some start -> qm_window_end arguments = Some stop ->
  fetch_metric_samples (fun _ _ => BodyNotUtf8) url promql arguments 5 "query_metric"
    = Err (OtherError "UnicodeDecodeError")
  /\ fetch_metric_samples (fun _ _ => Body (String.concat "" (replicate 431 "1234567890"))) url promql arguments 5 "query_metric"
    = Err ValueError.
Proof.
  intros Hstart Hstop. unfold fetch_metric_samples. rewrite Hstart, Hstop.
  assert (@json_loads Unhooked (String.concat "" (replicate 431 "1234567890")) = Err BadNumber) as Hbad
    by (vm_compute; reflexivity).
  split; [reflexivity|]. cbn [asserted mbind result_bind].
  destruct (aligned_metric_window start stop) as [[a b] c]. unfold query_prometheus. by rewrite Hbad.
Qed.

(** the pattern's end also matches before a final newline, so such a service name goes
    into a query. *)
Lemma newline_in_service_name : safe_service_name ("orders" +:+ nl) = true.
Proof. reflexivity. Qed.

(** ** Thread documents (firestore_checkpointer.py, [_thread_document_id]) *)

(** two threads whose ids hold the separator share a document and its entries. *)
Lemma threads_share_a_document :
  thread_document_id "inv" "sub::graph" = thread_document_id "inv::sub" "graph".
Proof. reflexivity. Qed.
